(* ===== verification/_CoqProject ===== *)
-Q . S2P
Prelude.v
Buddy.v
BuddyRefs.v
BuddyInv.v
BuddyProps.v
CString.v
Lists.v
Cred.v
Spinlock.v
Signal.v
Proc.v
ProcInv.v
ProcCalls.v
ProcSafe.v
ProcBoot.v
ProcProps.v
UserMem.v
Clock.v
ClockProps.v
Pipe.v
Slab.v
SlabInv.v
SlabPages.v
SlabProps.v
Bytes.v
Vm.v
VmBits.v
VmInv.v
VmPages.v
VmUser.v
VmProps.v
VmMap.v
Kmalloc.v
KmallocInv.v
KmallocProps.v
Bio.v
BioInv.v
BioProps.v
Fs.v
FsBlocks.v
FsInode.v
FsFile.v
FsDir.v
FsGrow.v
FsWrite.v
FsLink.v
FsProps.v
FsWriteProps.v
File.v
FileInv.v
FileProps.v
Syscall.v
Triple.v
Sysfile.v
SysfileProps.v
Mmap.v
MmapInv.v
MmapRun.v
MmapSlab.v
MmapProps.v
Uart.v
Printf.v
Console.v
ConsoleInv.v
ConsoleProps.v
Exec.v
ExecProps.v
Mremap.v
Trap.v
TrapProps.v
Sysproc.v
SysprocProps.v
Mkfs.v
MkfsInv.v
MkfsGrow.v
MkfsProps.v
