(* ===== verification/Prelude.v ===== *)
(** * A verification library for the xv6 port to the Milk-V Duo

    The kernel of this repository is a Unix on a RISC-V board: processes and
    signals, a page and an object allocator, Sv39 page tables with
    copy-on-write, memory mappings, ELF programs, pipes, a console, a block
    cache over an SD card and a file system with owners and modes.  This
    library translates that C code, and mkfs, which writes the first image of
    the disk, function by function, and proves what each part promises to the
    others.

    ** How the code is translated

    A C function is a computation in the state monad [M S] below: it ends in a
    value and a new state ([Done]), in [panic] ([Panic]), in an access outside
    the object it indexes ([Undef]), asleep with its locks given up
    ([Blocked]), or out of fuel ([NoFuel]).  Integers are [Z] with the wrap of
    their C type written where the code's arithmetic can leave it.  Loops are
    [Fixpoint]s over the number of rounds left; where the bound is not the
    code's own, the theorem about the function shows that it returns, so that
    the fuel (named next to the loop) is enough.  A component's own locks are
    acquired and released as the code does.  The messages of
    [debug], [trace] and [printf] and memory fences are left out; printf.c
    itself and the process list of ^P are modelled.

    Code outside the sources, or another component seen from outside, is a
    class, with its laws where a theorem needs them: [page_source] and [kpages]
    (pages, discharged by the buddy allocator in SlabPages.v and VmPages.v),
    [regcache] (the structs of the mappings, discharged by the slab allocator
    in MmapSlab.v), [usermem] and [userstr] (copies to and from the user),
    [sdcard] (the MMC transfers), [uart_dev] and [rtc_dev] (device registers),
    [kenv] and [procmem] (the memory, files and mappings of a process as the
    process calls use them), [pipeops] and [devsw] (pipes and the device
    switch, as file.c calls them), [ttyenv] and [waker] (the wakeups of console
    and clock, the process table that procdump reads), [procsig] (the signal handlers, as exec resets them) and
    [trapops] (the handlers that a trap reaches).

    ** The parts

    - Prelude.v: integers, outcomes, the monad, automation.  Bytes.v: memories
      as functions from addresses to bytes, little-endian words.
    - kernel/page.c, kernel/buddy.c, kernel/kalloc.c: Buddy.v (the functions),
      BuddyInv.v (blocks tile the pages, the free lists hold exactly the free
      blocks), BuddyRefs.v (reference counts), BuddyProps.v.
    - kernel/slab.c: Slab.v, SlabInv.v (the free chain of a slab), SlabPages.v,
      SlabProps.v.
    - kernel/kmalloc.c: Kmalloc.v, KmallocInv.v (the sorted and merged
      free list), KmallocProps.v (it and the blocks in use divide the pages
      taken).
    - kernel/string.c: CString.v.  include/list.h: Lists.v.
    - kernel/sysproc.c (ids, capabilities, umask), [permission] of
      kernel/fs.c: Cred.v.
    - kernel/spinlock.c: Spinlock.v.  kernel/signal.c: Signal.v.
    - kernel/proc.c, kernel/sleeplock.c: Proc.v (every call, the scheduler and
      the context switch as a step), ProcInv.v and ProcCalls.v (effects),
      ProcSafe.v (the invariant of the whole machine), ProcBoot.v (start-up),
      ProcProps.v.
    - kernel/pipe.c: Pipe.v, with any interleaving of the processes of a pipe
      and the signals that kill them.
    - kernel/vm.c: Vm.v, VmBits.v (entries bit by bit), VmInv.v (page table
      trees), VmPages.v, VmUser.v (what the user sees), VmProps.v, VmMap.v
      (new pages in an address space).
    - kernel/mmap.c: Mmap.v, MmapInv.v (the list of regions), MmapRun.v (where
      a mapping goes), MmapSlab.v, MmapProps.v, Mremap.v (mremap, which no
      system call reaches).
    - kernel/exec.c: Exec.v, with sys_execve of sysfile.c; ExecProps.v (the
      initial stack).
    - kernel/syscall.c: Syscall.v (arguments and the dispatch over a table).
      kernel/sysfile.c: Sysfile.v (the handlers and their table), Triple.v
      (partial correctness), SysfileProps.v.  kernel/sysproc.c: Sysproc.v (the
      process calls and their table, growproc and ppoll of proc.c, the calls
      of syscall.c itself), SysprocProps.v (the break).
    - kernel/trap.c: Trap.v, TrapProps.v.
    - kernel/clock.c, kernel/rtc.c: Clock.v, ClockProps.v.
    - kernel/uart.c, kernel/printf.c, kernel/console.c: Uart.v, Printf.v (the
      formats, and printf over putchar), Console.v (with procdump of proc.c),
      ConsoleInv.v (what the ring holds and what is printed), ConsoleProps.v.
    - kernel/bio.c, kernel/sd.c: Bio.v, BioInv.v (one buffer per block, unheld
      buffers agree with the card), BioProps.v.
    - kernel/fs.c: Fs.v, FsBlocks.v (the block bitmap), FsInode.v (the disk
      inode and the inode table), FsFile.v (the block map and readi), FsDir.v
      (names and directories), FsProps.v; FsGrow.v (a file grows one block at a
      time), FsWrite.v (writei), FsLink.v (directories as maps from names to
      inode numbers), FsWriteProps.v.
    - kernel/file.c, with getdents64 of fs.c, fdalloc of sysfile.c and
      pipealloc of pipe.c: File.v, FileInv.v (a file open on an inode, read and
      written at its offset), FileProps.v.
    - mkfs/mkfs.c: Mkfs.v, MkfsInv.v (the trees of block numbers of all files
      are apart), MkfsGrow.v (the loop of iappend), MkfsProps.v.

    The parts call each other as the code does: exec.c runs on mmap.c, mmap.c
    and sysfile.c on file.c, file.c on fs.c, fs.c on bio.c, slab.c, kmalloc.c
    and vm.c on the page allocator, pipes, the console and file reads on user
    memory.

    ** What is proved

    - Allocators: a page block or object handed out is fresh and overlaps none
      in use; freeing terminates, gives the block back and restores the
      invariant; the panics happen
      exactly where the sources mean them to, or where a finding says so.
    - Processes: from start-up, no sequence of calls and scheduler steps
      panics, leaks a lock or leaves the table inconsistent; fork, exit and
      wait4 have their effect on the table; every runnable process is
      scheduled; sleep locks exclude; a pipe loses no byte and no wakeup.
    - Memory: the mapping functions change exactly the entries of their range;
      copyout and copyin move exactly the user's bytes, copy-on-write pages
      are private, and nothing a user may not write is written.  mmap gives a
      range that no mapping had, munmap takes exactly its range away; brk adds
      zero pages and gives pages back.  A new program finds its arguments,
      environment and auxiliary vector on its stack.
    - Traps: a trap that the kernel refuses ends the process; what returns to
      user mode does so with its registers set; an interrupt in the kernel
      is served, in the order the code has, and leaves no trace in the
      registers of the code it interrupted.
    - Files: the block cache cannot be told from the card; blocks are
      allocated once; an inode is in one slot and is read back as written;
      reads return the bytes of the file through every level of indirection;
      a write stores its bytes, allocating what it needs, and keeps the file
      and the disk in order, so that reading back, also through an open file
      and lseek, gives the bytes written; a directory is a map that dirlookup
      applies, dirlink extends and unlink restricts; paths are split at their
      slashes; descriptors and the file table are given out and counted, over
      any sequence of file system calls.  mkfs copies files with exactly their
      bytes into an image where no two files share a block.
    - Console and time: what is typed is read line by line, with the editing
      keys applied, and echoed, ^P with the list of processes; numbers are printed in their digits; ticks move the clock
      by their length and dates are converted both ways.
    - Credentials: without the capability a process gains no id it does not
      hold through the checked calls; permission is what the mode bits say.

    ** Atomicity

    Proc.v and Pipe.v interleave at every place the code can lose the CPU.
    The other components are run as one call at a time: their state is
    protected by the locks they take, and a call that must wait for another
    process ends in [Blocked] with its locks given up.

    ** Bounds

    Loops that poll a device or another party are bounded by an argument of
    the definitions ([spins], [polls], [rounds]); the theorems say how large
    it must be.  The fuel of searches is the size of what they search (the
    table, the list, the file), named next to each loop.

    ** Not modelled

    The SD host controller (kernel/sdhci*.c), the interrupt controller, pins,
    cache operations and firmware calls, and the power-up and calibration of
    the real time clock: they program registers, and what they do is the
    hardware's behaviour.  The start-up order of main.c and the assembly of
    entry.S, trampoline.S, kernelvec.S and swtch.S: the context switch is the
    resume step of Proc.v, the switch to user mode the result of [usertrapret].
    virtio_disk.c and ramdisk.c are not part of the board's configuration; the
    redo log is compiled out.  The programs under usr/ run on the kernel and
    are not part of it. *)

From Stdlib Require Export ZArith Lia.
From stdpp Require Export base gmap list strings.

#[global] Open Scope Z_scope.

(** ** Fixed-width integers

    A [w]-bit unsigned C integer is a [Z] in [[0, 2^w)]; arithmetic on it is
    arithmetic on [Z] followed by [wrap w].  Signed integers are the
    representatives in [[-2^(w-1), 2^(w-1))]. *)
Definition wrap (w x : Z) : Z := x mod 2 ^ w.
Definition swrap (w x : Z) : Z := (x + 2 ^ (w - 1)) mod 2 ^ w - 2 ^ (w - 1).

Abbreviation u8 := (wrap 8).
Abbreviation u16 := (wrap 16).
Abbreviation u32 := (wrap 32).
Abbreviation u64 := (wrap 64).
Abbreviation s16 := (swrap 16).
Abbreviation s32 := (swrap 32).
Abbreviation s64 := (swrap 64).

Lemma wrap_range w x : 0 <= w -> 0 <= wrap w x < 2 ^ w.
Proof. intros Hw. apply Z.mod_pos_bound. lia. Qed.

Lemma wrap_small w x : 0 <= x < 2 ^ w -> wrap w x = x.
Proof. apply Z.mod_small. Qed.

Lemma wrap_wrap w x : wrap w (wrap w x) = wrap w x.
Proof. unfold wrap. apply Zmod_mod. Qed.

Lemma wrap_add_l w x y : wrap w (wrap w x + y) = wrap w (x + y).
Proof. unfold wrap. apply Zplus_mod_idemp_l. Qed.

Lemma wrap_add_r w x y : wrap w (x + wrap w y) = wrap w (x + y).
Proof. unfold wrap. apply Zplus_mod_idemp_r. Qed.

Lemma wrap_sub_l w x y : wrap w (wrap w x - y) = wrap w (x - y).
Proof. unfold wrap. apply Zminus_mod_idemp_l. Qed.

Lemma wrap_sub_r w x y : wrap w (x - wrap w y) = wrap w (x - y).
Proof. unfold wrap. apply Zminus_mod_idemp_r. Qed.

Lemma swrap_small w x : 0 < w -> - 2 ^ (w - 1) <= x < 2 ^ (w - 1) -> swrap w x = x.
Proof.
  intros Hw Hx. unfold swrap. rewrite Z.mod_small; [lia|].
  replace (2 ^ w) with (2 * 2 ^ (w - 1)); [lia|].
  rewrite <- Z.pow_succ_r by lia. f_equal; lia.
Qed.

(** ** Outcomes and the state monad of kernel code

    A kernel routine either returns a value and a new state, calls [panic],
    touches memory outside the object it indexes ([Undef]), sleeps on a
    channel that nobody will signal in a sequential run ([Blocked]), or runs
    out of the fuel the model gives a loop ([NoFuel]). *)
Inductive outcome (S A : Type) : Type :=
| Done (a : A) (s : S)
| Panic (msg : string)
| Undef
| Blocked (s : S)
| NoFuel.
Arguments Done {S A} a s.
Arguments Panic {S A} msg.
Arguments Undef {S A}.
Arguments Blocked {S A} s.
Arguments NoFuel {S A}.

Definition M (S A : Type) : Type := S -> outcome S A.

#[export] Instance M_ret S : MRet (M S) := fun A a s => Done a s.
#[export] Instance M_bind S : MBind (M S) := fun A B f m s =>
  match m s with
  | Done a s' => f a s'
  | Panic msg => Panic msg
  | Undef => Undef
  | Blocked s' => Blocked s'
  | NoFuel => NoFuel
  end.

Definition panic {S A} (msg : string) : M S A := fun _ => Panic msg.
Definition undef {S A} : M S A := fun _ => Undef.
Definition blocked {S A} : M S A := fun s => Blocked s.
Definition nofuel {S A} : M S A := fun _ => NoFuel.
Definition get {S} : M S S := fun s => Done s s.
Definition put {S} (s : S) : M S unit := fun _ => Done tt s.
Definition modify {S} (f : S -> S) : M S unit := fun s => Done tt (f s).
Definition gets {S A} (f : S -> A) : M S A := fun s => Done (f s) s.

(** [deref o] is the value behind a pointer, or [Undef] when there is none. *)
Definition deref {S A} (o : option A) : M S A := fun s =>
  match o with Some a => Done a s | None => Undef end.

Lemma bind_Done_inv {S A B} (m : M S A) (f : A -> M S B) s b s' :
  (m ≫= f) s = Done b s' -> exists a s1, m s = Done a s1 /\ f a s1 = Done b s'.
Proof.
  unfold mbind, M_bind. destruct (m s) eqn:E; intros H; try discriminate. eauto.
Qed.

Lemma bind_Done {S A B} (m : M S A) (f : A -> M S B) s a s1 :
  m s = Done a s1 -> (m ≫= f) s = f a s1.
Proof. unfold mbind, M_bind. by intros ->. Qed.

Lemma bind_ret {S A B} (a : A) (f : A -> M S B) s : (mret a ≫= f) s = f a s.
Proof. done. Qed.

Lemma bind_gets {S A B} (g : S -> A) (f : A -> M S B) s : (gets g ≫= f) s = f (g s) s.
Proof. done. Qed.

Lemma bind_get {S B} (f : S -> M S B) s : (get ≫= f) s = f s s.
Proof. done. Qed.

Lemma bind_deref {S A B} (a : A) (f : A -> M S B) s : (deref (Some a) ≫= f) s = f a s.
Proof. done. Qed.

Lemma bind_modify {S B} (g : S -> S) (f : unit -> M S B) s : (modify g ≫= f) s = f tt (g s).
Proof. done. Qed.

Lemma bind_assoc {S A B C} (m : M S A) (f : A -> M S B) (g : B -> M S C) s :
  ((m ≫= f) ≫= g) s = (m ≫= (fun a => f a ≫= g)) s.
Proof. unfold mbind, M_bind. by destruct (m s). Qed.

(** ** Tactics *)

(** Unfold the monad's plumbing in the goal. *)
Ltac mstep :=
  unfold mbind, M_bind, mret, M_ret, get, put, gets, modify, panic, undef, deref; cbn beta iota.

(** Split on the condition of the first [if] or the scrutinee of the first
    [match] in the goal, keeping the equation. *)
Ltac case_if :=
  match goal with
  | |- context [if ?b then _ else _] => destruct b eqn:?
  end.

(** Turn boolean comparisons in the context into propositions. *)
(** [lia] with divisions and remainders by constants. *)
Ltac dlia := Z.to_euclidean_division_equations; lia.
Ltac bool_hyps :=
  repeat match goal with
  | H : (_ && _)%bool = true |- _ => apply andb_prop in H as [? ?]
  | H : (_ && _)%bool = false |- _ => apply andb_false_iff in H
  | H : (_ || _)%bool = true |- _ => apply orb_prop in H
  | H : (_ || _)%bool = false |- _ => apply orb_false_iff in H as [? ?]
  | H : negb _ = true |- _ => apply negb_true_iff in H
  | H : negb _ = false |- _ => apply negb_false_iff in H
  | H : (_ =? _) = true |- _ => apply Z.eqb_eq in H
  | H : (_ =? _) = false |- _ => apply Z.eqb_neq in H
  | H : (_ <? _) = true |- _ => apply Z.ltb_lt in H
  | H : (_ <? _) = false |- _ => apply Z.ltb_ge in H
  | H : (_ <=? _) = true |- _ => apply Z.leb_le in H
  | H : (_ <=? _) = false |- _ => apply Z.leb_gt in H
  end.

(** ** Hint databases *)
Create HintDb arith_db.
Create Rewrite HintDb wrap_db.
#[export] Hint Resolve wrap_range : arith_db.
#[export] Hint Rewrite wrap_wrap wrap_add_l wrap_add_r wrap_sub_l wrap_sub_r : wrap_db.

(** ** Powers of two and bits *)
Lemma shiftl_1 k : 0 <= k -> Z.shiftl 1 k = 2 ^ k.
Proof. intros. rewrite Z.shiftl_1_l. reflexivity. Qed.

Lemma pow2_pos k : 0 <= k -> 0 < 2 ^ k.
Proof. intros. apply Z.pow_pos_nonneg; lia. Qed.

Lemma pow2_S k : 0 <= k -> 2 ^ (k + 1) = 2 * 2 ^ k.
Proof. intros. rewrite Z.pow_add_r by lia. lia. Qed.

Lemma land_pow2_bit x k : 0 <= k ->
  Z.land x (2 ^ k) = if Z.testbit x k then 2 ^ k else 0.
Proof.
  intros Hk. apply Z.bits_inj'. intros n Hn.
  rewrite Z.land_spec, Z.pow2_bits_eqb by lia.
  destruct (Z.eqb_spec k n) as [->|Hne].
  - destruct (Z.testbit x n) eqn:E; simpl.
    + by rewrite Z.pow2_bits_eqb, Z.eqb_refl by lia.
    + by rewrite Z.bits_0.
  - rewrite andb_false_r. destruct (Z.testbit x k).
    + rewrite Z.pow2_bits_eqb by lia. symmetry. by apply Z.eqb_neq.
    + by rewrite Z.bits_0.
Qed.

(** ** Total-correctness triples and state projections

    [triple P m Q]: from a state satisfying [P], [m] terminates normally (no
    panic, no undefined access, no exhausted fuel) and [Q] holds of its result
    and final state. *)
Definition triple {S A} (P : S -> Prop) (m : M S A) (Q : A -> S -> Prop) : Prop :=
  forall s, P s -> exists a s', m s = Done a s' /\ Q a s'.

Lemma triple_ret {S A} (P : S -> Prop) (Q : A -> S -> Prop) a :
  (forall s, P s -> Q a s) -> triple P (mret a) Q.
Proof. intros H s Hs. exists a, s. auto. Qed.

Lemma triple_bind {S A B} P (m : M S A) (f : A -> M S B) R Q :
  triple P m R -> (forall a, triple (R a) (f a) Q) -> triple P (m ≫= f) Q.
Proof.
  intros H1 H2 s Hs. destruct (H1 s Hs) as (a & s1 & E1 & HR). destruct (H2 a s1 HR) as (b & s2 & E2 & HQ).
  exists b, s2. by rewrite (bind_Done _ _ _ _ _ E1).
Qed.

Lemma triple_weaken {S A} (P P' : S -> Prop) (m : M S A) (Q Q' : A -> S -> Prop) :
  triple P m Q -> (forall s, P' s -> P s) -> (forall a s, Q a s -> Q' a s) -> triple P' m Q'.
Proof. intros H HP HQ s Hs. destruct (H s (HP s Hs)) as (a & s' & E & Hq). eauto. Qed.

(** Run a computation on a component of a larger state. *)
Definition zoom {S T A} (prj : S -> T) (upd : T -> S -> S) (m : M T A) : M S A := fun s =>
  match m (prj s) with
  | Done a t => Done a (upd t s)
  | Panic msg => Panic msg
  | Undef => Undef
  | Blocked t => Blocked (upd t s)
  | NoFuel => NoFuel
  end.

Lemma zoom_Done {S T A} (prj : S -> T) (upd : T -> S -> S) (m : M T A) s a t :
  m (prj s) = Done a t -> zoom prj upd m s = Done a (upd t s).
Proof. unfold zoom. by intros ->. Qed.
