(* ===== verification/Buddy.v ===== *)
(** * The buddy page allocator (kernel/page.c, kernel/buddy.c, kernel/kalloc.c)

    The array [pages_ref.pages] is a finite map from page indices to page
    structures, a [struct page *] is [Some index] or [None] for NULL, and the
    array [free_lists] maps an order to the head of its list.  The number of
    pages is a parameter [page_num]; [PAGE_NUM] is the value of page.h.

    The spinlocks of the source are held for the whole of the modelled
    critical sections and released on every path, so the sequential model has
    no lock state; spinlocks themselves are modelled in Spinlock. *)
From S2P Require Import Prelude.

Definition PAGE_START : Z := 0x80600000.
Definition PAGE_SIZE : Z := 0x1000.
Definition KERNBASE : Z := 0x80200000.
Definition PHYSTOP : Z := KERNBASE + 252 * 1024 * 1024.
Definition PAGE_NUM : Z := (PHYSTOP - PAGE_START) / PAGE_SIZE.
Definition PAGE_MAX_ORDER : Z := 10.
Definition PAGE_MAX_DEPTH : Z := PAGE_MAX_ORDER + 1.
Definition PF_FREE_LIST : Z := 1.
Definition PF_FIRST_PAGE : Z := 2.

(** [struct page]. *)
Record page := Page {
  p_index : Z;
  p_flags : Z;
  p_order : Z;
  p_refcnt : Z;
  p_next : option Z
}.

Definition set_index (v : Z) (p : page) : page := Page v (p_flags p) (p_order p) (p_refcnt p) (p_next p).
Definition set_flags (v : Z) (p : page) : page := Page (p_index p) v (p_order p) (p_refcnt p) (p_next p).
Definition set_order (v : Z) (p : page) : page := Page (p_index p) (p_flags p) v (p_refcnt p) (p_next p).
Definition set_refcnt (v : Z) (p : page) : page := Page (p_index p) (p_flags p) (p_order p) v (p_next p).
Definition set_next (v : option Z) (p : page) : page := Page (p_index p) (p_flags p) (p_order p) (p_refcnt p) v.

(** The globals: [pages_ref.pages] and [free_lists]. *)
Record mem := Mem {
  pages : gmap Z page;
  free_lists : gmap Z (option Z)
}.

(** Reading and writing [pages_ref.pages[i]] and [free_lists[k].head];
    outside the arrays the access is undefined. *)
Definition rd (i : Z) : M mem page := fun s => deref (pages s !! i) s.
Definition upd (i : Z) (f : page -> page) : M mem unit := fun s =>
  match pages s !! i with
  | Some p => Done tt (Mem (<[i := f p]> (pages s)) (free_lists s))
  | None => Undef
  end.
Definition rd_head (k : Z) : M mem (option Z) := fun s => deref (free_lists s !! k) s.
Definition wr_head (k : Z) (h : option Z) : M mem unit := fun s =>
  match free_lists s !! k with
  | Some _ => Done tt (Mem (pages s) (<[k := h]> (free_lists s)))
  | None => Undef
  end.

Definition buddy_find_buddy_index (p : page) : Z :=
  if Z.land (Z.shiftr (p_index p) (p_order p)) 1 =? 0
  then u64 (p_index p + Z.shiftl 1 (p_order p))
  else u64 (p_index p - Z.shiftl 1 (p_order p)).

Definition clear_flag (f : Z) (p : page) : page := set_flags (Z.land (p_flags p) (Z.lnot f)) p.
Definition raise_flag (f : Z) (p : page) : page := set_flags (Z.lor (p_flags p) f) p.

Definition buddy_list_pop (k : Z) : M mem (option Z) :=
  h ← rd_head k;
  match h with
  | Some i =>
      p ← rd i;
      wr_head k (p_next p);;
      upd i (set_next None);;
      upd i (clear_flag PF_FREE_LIST);;
      mret (Some i)
  | None => mret None
  end.

Definition buddy_list_push (k : Z) (i : Z) : M mem unit :=
  h ← rd_head k;
  (match h with
   | Some _ => upd i (set_next h)
   | None => upd i (set_next None)
   end);;
  wr_head k (Some i);;
  upd i (raise_flag PF_FREE_LIST).

(** The loop of [buddy_list_remove]: [prev] stands for the cell [pp] points
    to, the list head ([None]) or the [next] field of a page. *)
Fixpoint buddy_list_remove_loop (fuel : nat) (k : Z) (prev cur : option Z) (index : Z)
  : M mem (option Z) :=
  match fuel with
  | O => nofuel
  | S fuel =>
      match cur with
      | None => mret None
      | Some i =>
          p ← rd i;
          if p_index p =? index then
            (match prev with
             | None => wr_head k (p_next p)
             | Some j => upd j (set_next (p_next p))
             end);;
            upd i (set_next None);;
            upd i (clear_flag PF_FREE_LIST);;
            mret (Some i)
          else buddy_list_remove_loop fuel k (Some i) (p_next p) index
      end
  end.

Definition buddy_list_remove (fuel : nat) (k index : Z) : M mem (option Z) :=
  h ← rd_head k;
  buddy_list_remove_loop fuel k None h index.

Definition buddy_is_free_buddy (p b : page) : bool :=
  negb (Z.land (p_flags b) PF_FREE_LIST =? 0) && (p_order b =? p_order p).

(** The [for (i = from + 1; ...)] scan of [buddy_pull_block]; [n] counts the
    orders that are left.  Returns the popped page and [to]. *)
Fixpoint pull_scan (n : nat) (i : Z) : M mem (option (Z * Z)) :=
  match n with
  | O => mret None
  | S n =>
      pg ← buddy_list_pop i;
      match pg with
      | Some x => mret (Some (x, i - 1))
      | None => pull_scan n (i + 1)
      end
  end.

(** The splitting loop [for (i = to; i >= from; --i)]. *)
Fixpoint pull_split (n : nat) (i x : Z) : M mem Z :=
  match n with
  | O => mret x
  | S n =>
      upd x (set_order i);;
      wr_head i (Some x);;
      upd x (raise_flag PF_FREE_LIST);;
      pull_split n (i - 1) (x + Z.shiftl 1 i)
  end.

Definition buddy_pull_block (from : Z) : M mem Z :=
  r ← pull_scan (Z.to_nat (PAGE_MAX_DEPTH - (from + 1))) (from + 1);
  match r with
  | None => panic "out of memory"
  | Some (x, to) =>
      y ← pull_split (Z.to_nat (to - from + 1)) to x;
      upd y (set_order from);;
      mret y
  end.

(** The order loop of [buddy_alloc]. *)
Fixpoint alloc_scan (n : nat) (i size : Z) : M mem (option Z) :=
  match n with
  | O => mret None
  | S n =>
      if size <=? u64 (Z.shiftl 1 i * PAGE_SIZE) then
        pg ← buddy_list_pop i;
        match pg with
        | Some x => mret (Some x)
        | None => y ← buddy_pull_block i; mret (Some y)
        end
      else alloc_scan n (i + 1) size
  end.

Definition buddy_alloc (size : Z) : M mem Z :=
  r ← alloc_scan (Z.to_nat PAGE_MAX_DEPTH) 0 size;
  match r with
  | None => panic "No memory"
  | Some x =>
      upd x (raise_flag PF_FIRST_PAGE);;
      upd x (set_refcnt 1);;
      mret x
  end.

(** [buddy_free]: the recursive call is the merge with the next order.
    [lfuel] bounds the walk of one free list. *)
Fixpoint buddy_free (fuel lfuel : nat) (x : Z) : M mem unit :=
  match fuel with
  | O => nofuel
  | S fuel =>
      p ← rd x;
      if 1 <? p_refcnt p then upd x (set_refcnt (u32 (p_refcnt p - 1)))
      else
        let k := p_order p in
        let bi := buddy_find_buddy_index p in
        upd x (clear_flag PF_FIRST_PAGE);;
        free_bp ← (if k =? PAGE_MAX_ORDER then mret false
                   else b ← rd bi; mret (buddy_is_free_buddy p b));
        if negb free_bp then buddy_list_push k x
        else
          upd x (clear_flag PF_FREE_LIST);;
          upd x (set_next None);;
          r ← buddy_list_remove lfuel k bi;
          match r with
          | None => panic "broken page"
          | Some y =>
              z ← (if Z.land (Z.shiftr bi k) 1 =? 0
                   then upd x (set_order 0);; mret y
                   else upd y (set_order 0);; mret x);
              q ← rd z;
              upd z (set_order (u32 (p_order q + 1)));;
              buddy_free fuel lfuel z
          end
  end.

(** [buddy_init]: clears the arrays, numbers the pages and chains the maximal
    blocks.  [_end] is the linker symbol of the end of the kernel image. *)
Definition zero_page : page := Page 0 0 0 0 None.
Definition max_page_block : Z := Z.shiftl 1 PAGE_MAX_ORDER.

Definition init_block (len i : Z) (p : page) : page :=
  let p := if i <? len - 1 then set_next (Some ((i + 1) * max_page_block)) p else p in
  raise_flag PF_FREE_LIST (set_order PAGE_MAX_ORDER p).

Fixpoint init_index (n : nat) (m : gmap Z page) : gmap Z page :=
  match n with
  | O => m
  | S n => <[Z.of_nat n := set_index (Z.of_nat n) zero_page]> (init_index n m)
  end.

Fixpoint init_blocks (n : nat) (len i : Z) : M mem unit :=
  match n with
  | O => mret tt
  | S n => upd (i * max_page_block) (init_block len i);; init_blocks n len (i + 1)
  end.

Fixpoint clear_lists (n : nat) : gmap Z (option Z) :=
  match n with
  | O => ∅
  | S n => <[Z.of_nat n := None]> (clear_lists n)
  end.

Definition buddy_init (_end page_num : Z) : M mem unit :=
  if PAGE_START <? _end then panic "fix PAGE_START"
  else
    put (Mem (init_index (Z.to_nat page_num) ∅) (clear_lists (Z.to_nat PAGE_MAX_DEPTH)));;
    let len := page_num / max_page_block in
    init_blocks (Z.to_nat len) len 0;;
    wr_head PAGE_MAX_ORDER (Some 0).

(** page.c *)
Definition page_address (p : page) : Z := PAGE_START + PAGE_SIZE * p_index p.

(** The difference of the two char pointers is signed, and so is its
    division; the cast to [page_index] wraps. *)
Definition page_find_by_address (page_num a : Z) : option Z :=
  let index := u64 (Z.quot (a - PAGE_START) PAGE_SIZE) in
  if index <? page_num then Some index else None.

Fixpoint page_find_head_loop (fuel : nat) (page_num index : Z) : M mem (option Z) :=
  match fuel with
  | O => nofuel
  | S fuel =>
      if index <? page_num then
        p ← rd index;
        if negb (Z.land (p_flags p) PF_FIRST_PAGE =? 0) then mret (Some index)
        else page_find_head_loop fuel page_num (u64 (index - 1))
      else mret None
  end.

Definition page_find_head (page_num x : Z) : M mem (option Z) :=
  p ← rd x;
  page_find_head_loop (Z.to_nat page_num + 1) page_num (p_index p).

Definition page_refcnt_inc (page_num pa : Z) : M mem unit :=
  x ← deref (page_find_by_address page_num pa);
  upd x (fun p => set_refcnt (u32 (p_refcnt p + 1)) p).
Definition page_refcnt_dec (page_num pa : Z) : M mem unit :=
  x ← deref (page_find_by_address page_num pa);
  upd x (fun p => set_refcnt (u32 (p_refcnt p - 1)) p).
Definition page_refcnt_get (page_num pa : Z) : M mem Z :=
  x ← deref (page_find_by_address page_num pa);
  p ← rd x;
  mret (p_refcnt p).

(** kalloc.c: one page, by address. *)
Definition kalloc : M mem Z := x ← buddy_alloc PAGE_SIZE; p ← rd x; mret (page_address p).
Definition kfree (page_num pa : Z) : M mem unit :=
  x ← deref (page_find_by_address page_num pa);
  buddy_free (Z.to_nat PAGE_MAX_DEPTH) (Z.to_nat page_num + 1) x.
