(* ===== verification/BuddyRefs.v ===== *)
(** * Reference counts across the buddy allocator

    Everything the allocator does to its lists and headers leaves the
    reference counts alone, except the count of the block it hands out or of
    the block whose reference is dropped.  [keeps m] says so of a computation
    and is closed under sequencing. *)
From S2P Require Import Prelude Buddy.

Definition refcnt (s : mem) (i : Z) : option Z := p_refcnt <$> pages s !! i.
Definition keeps {A} (m : M mem A) : Prop :=
  forall s a s', m s = Done a s' -> forall i, refcnt s' i = refcnt s i.

Create HintDb keeps_db.

Lemma keeps_ret {A} (a : A) : keeps (mret a).
Proof. intros s b s' [= _ <-]. done. Qed.
Lemma keeps_panic {A} msg : keeps (panic (A := A) msg).
Proof. intros s b s' E. discriminate. Qed.
Lemma keeps_nofuel {A} : keeps (nofuel (A := A)).
Proof. intros s b s' E. discriminate. Qed.
Lemma keeps_bind {A B} (m : M mem A) (f : A -> M mem B) : keeps m -> (forall a, keeps (f a)) -> keeps (m ≫= f).
Proof. intros Hm Hf s b s' (a & s1 & E1 & E2)%bind_Done_inv i. rewrite (Hf a _ _ _ E2). by eapply Hm. Qed.
Lemma keeps_rd i : keeps (rd i).
Proof. intros s b s' E. unfold rd, deref in E. destruct (pages s !! i); [|discriminate]. injection E as _ <-. done. Qed.
Lemma keeps_rd_head k : keeps (rd_head k).
Proof. intros s b s' E. unfold rd_head, deref in E. destruct (free_lists s !! k); [|discriminate]. injection E as _ <-. done. Qed.
Lemma keeps_wr_head k h : keeps (wr_head k h).
Proof. intros s b s' E. unfold wr_head in E. destruct (free_lists s !! k); [|discriminate]. injection E as _ <-. done. Qed.
Lemma keeps_upd i f : (forall p, p_refcnt (f p) = p_refcnt p) -> keeps (upd i f).
Proof.
  intros Hf s b s' E. unfold upd in E. destruct (pages s !! i) as [p|] eqn:Ep; [|discriminate]. injection E as _ <-.
  intros j. unfold refcnt. cbn. destruct (decide (j = i)) as [->|Hne]; [rewrite lookup_insert_eq, Ep; cbn; by rewrite Hf|by rewrite lookup_insert_ne].
Qed.
Lemma keeps_if {A} (b : bool) (m n : M mem A) : keeps m -> keeps n -> keeps (if b then m else n).
Proof. by destruct b. Qed.
Lemma keeps_match {A B} (o : option B) (f : B -> M mem A) (n : M mem A) : (forall b, keeps (f b)) -> keeps n ->
  keeps (match o with Some b => f b | None => n end).
Proof. destruct o; auto. Qed.

#[export] Hint Resolve keeps_ret keeps_panic keeps_nofuel keeps_rd keeps_rd_head keeps_wr_head keeps_if keeps_match : keeps_db.
#[export] Hint Extern 2 (keeps (_ ≫= _)) => apply keeps_bind; [|intros ?] : keeps_db.
#[export] Hint Extern 2 (keeps (upd _ _)) => apply keeps_upd; intros ?; reflexivity : keeps_db.

Lemma keeps_pop k : keeps (buddy_list_pop k).
Proof. unfold buddy_list_pop. auto 20 with keeps_db. Qed.
Lemma keeps_push k i : keeps (buddy_list_push k i).
Proof. unfold buddy_list_push. auto 20 with keeps_db. Qed.
#[export] Hint Resolve keeps_pop keeps_push : keeps_db.

Lemma keeps_remove_loop fuel k index : forall prev cur, keeps (buddy_list_remove_loop fuel k prev cur index).
Proof. induction fuel as [|fuel IH]; intros prev cur; cbn; auto 20 with keeps_db. Qed.
#[export] Hint Resolve keeps_remove_loop : keeps_db.
Lemma keeps_remove fuel k index : keeps (buddy_list_remove fuel k index).
Proof. unfold buddy_list_remove. auto with keeps_db. Qed.
Lemma keeps_scan n : forall i, keeps (pull_scan n i).
Proof. induction n as [|n IH]; intros i; cbn; auto 20 with keeps_db. Qed.
Lemma keeps_split n : forall i x, keeps (pull_split n i x).
Proof. induction n as [|n IH]; intros i x; cbn; auto 20 with keeps_db. Qed.
#[export] Hint Resolve keeps_remove keeps_scan keeps_split : keeps_db.
Lemma keeps_pull from : keeps (buddy_pull_block from).
Proof. unfold buddy_pull_block. apply keeps_bind; [auto with keeps_db|]. intros [[x to]|]; auto 20 with keeps_db. Qed.
#[export] Hint Resolve keeps_pull : keeps_db.
Lemma keeps_alloc_scan n size : forall i, keeps (alloc_scan n i size).
Proof. induction n as [|n IH]; intros i; cbn; auto 20 with keeps_db. Qed.

(** [buddy_alloc] sets the count of the block it returns. *)
Lemma buddy_alloc_refcnt size s x s' : buddy_alloc size s = Done x s' ->
  forall i, i <> x -> refcnt s' i = refcnt s i.
Proof.
  unfold buddy_alloc. intros (r & s1 & E1 & E2)%bind_Done_inv i Hi. pose proof (keeps_alloc_scan _ _ _ _ _ _ E1 i) as H1.
  destruct r as [y|]; [|discriminate]. apply bind_Done_inv in E2 as ([] & s2 & E2 & E3).
  pose proof (keeps_upd y (raise_flag PF_FIRST_PAGE) ltac:(done) _ _ _ E2 i) as H2.
  apply bind_Done_inv in E3 as ([] & s3 & E3 & [= <- <-]). rewrite <- H1, <- H2. unfold upd in E3.
  destruct (pages s2 !! y) as [p|]; [|discriminate]. injection E3 as <-. unfold refcnt. cbn. by rewrite lookup_insert_ne.
Qed.

Lemma refcnt_map (m : gmap Z page) fl fl' x p q : m !! x = Some p -> p_refcnt q = p_refcnt p ->
  forall i, refcnt (Mem (<[x := q]> m) fl) i = refcnt (Mem m fl') i.
Proof.
  intros Hp Hq i. unfold refcnt. cbn [pages]. destruct (decide (i = x)) as [->|Hne]; [by rewrite lookup_insert_eq, Hp; cbn; rewrite Hq|by rewrite lookup_insert_ne].
Qed.

Lemma refcnt_insert s fl x p q : pages s !! x = Some p -> p_refcnt q = p_refcnt p ->
  forall i, refcnt (Mem (<[x := q]> (pages s)) fl) i = refcnt s i.
Proof.
  intros Hp Hq i. unfold refcnt. cbn. destruct (decide (i = x)) as [->|Hne]; [by rewrite lookup_insert_eq, Hp; cbn; rewrite Hq|by rewrite lookup_insert_ne].
Qed.
