(* ===== verification/BuddyInv.v ===== *)
(** * Invariant of the buddy allocator and what its operations do

    The abstract state of the allocator is a map from block heads to an order
    and a status: the blocks tile the page array, each is aligned to its size,
    and the free ones of order [k] are exactly the members of the [k]-th free
    list.  [inv] relates it to the page structures and list heads.  Every
    operation is shown to act on the abstract state alone. *)
From S2P Require Import Prelude Buddy BuddyRefs.

(** Status of a block: on a free list, handed out, or held by the running
    operation with its [order] field set ([Limbo]) or not yet set ([Raw]). *)
Inductive status := Free | Used | Limbo | Raw.

#[export] Instance status_eq_dec : EqDecision status.
Proof. solve_decision. Defined.

Record blocks_ok (N : Z) (B : gmap Z (Z * status)) : Prop := {
  bk_bounds : forall h k st, B !! h = Some (k, st) ->
    0 <= k <= PAGE_MAX_ORDER /\ 0 <= h /\ h + 2 ^ k <= N /\ (2 ^ k | h);
  bk_disjoint : forall h k st h' k' st', B !! h = Some (k, st) -> B !! h' = Some (k', st') ->
    h <> h' -> h + 2 ^ k <= h' \/ h' + 2 ^ k' <= h;
  bk_cover : forall i, 0 <= i < N -> exists h k st, B !! h = Some (k, st) /\ h <= i < h + 2 ^ k
}.

Definition page_ok (b : option (Z * status)) (i : Z) (p : page) : Prop :=
  p_index p = i /\ 0 <= p_refcnt p < 2 ^ 32 /\
  match b with
  | Some (k, Free) => p_flags p = PF_FREE_LIST /\ p_order p = k /\ p_refcnt p <= 1
  | Some (k, Used) => p_flags p = PF_FIRST_PAGE /\ p_order p = k /\ p_next p = None
  | Some (k, Limbo) => p_flags p = 0 /\ p_order p = k /\ p_next p = None /\ p_refcnt p <= 1
  | Some (k, Raw) => p_flags p = 0 /\ p_next p = None /\ p_refcnt p <= 1
  | None => p_flags p = 0 /\ p_order p = 0 /\ p_next p = None /\ p_refcnt p <= 1
  end.

(** [chain ps h l]: following [next] from [h] visits exactly [l]. *)
Fixpoint chain (ps : gmap Z page) (h : option Z) (l : list Z) : Prop :=
  match l with
  | [] => h = None
  | x :: l => h = Some x /\ exists p, ps !! x = Some p /\ chain ps (p_next p) l
  end.

Definition list_ok (B : gmap Z (Z * status)) (s : mem) (k : Z) : Prop :=
  exists h l, free_lists s !! k = Some h /\ chain (pages s) h l /\ NoDup l /\
    forall x, x ∈ l <-> B !! x = Some (k, Free).

Record inv (N : Z) (B : gmap Z (Z * status)) (s : mem) : Prop := {
  inv_blocks : blocks_ok N B;
  inv_pages : forall i, 0 <= i < N -> exists p, pages s !! i = Some p /\ page_ok (B !! i) i p;
  inv_lists : forall k, 0 <= k <= PAGE_MAX_ORDER -> list_ok B s k
}.

(** ** Shapes *)
Lemma blocks_status N B x k st st' :
  blocks_ok N B -> B !! x = Some (k, st) -> blocks_ok N (<[x := (k, st')]> B).
Proof.
  intros [Hb Hd Hc] Hx.
  assert (Hl : forall h k0 st0, <[x := (k, st')]> B !! h = Some (k0, st0) ->
            exists st1, B !! h = Some (k0, st1)).
  { intros h k0 st0. rewrite lookup_insert. case_decide; [|by eauto].
    intros [= <- <-]; subst; eauto. }
  split.
  - intros h k0 st0 H. destruct (Hl _ _ _ H) as [? ?]. eauto.
  - intros h k0 st0 h' k0' st0' H H' Hne.
    destruct (Hl _ _ _ H) as [? ?], (Hl _ _ _ H') as [? ?]. eauto.
  - intros i Hi. destruct (Hc i Hi) as (h & k0 & st0 & HB & Hr).
    destruct (decide (x = h)) as [->|Hne].
    + rewrite Hx in HB. injection HB as <- <-. exists h, k, st'. by rewrite lookup_insert_eq.
    + exists h, k0, st0. by rewrite lookup_insert_ne.
Qed.

Lemma blocks_inside N B x k st y :
  blocks_ok N B -> B !! x = Some (k, st) -> x < y < x + 2 ^ k -> B !! y = None.
Proof.
  intros HB Hx Hy. destruct (B !! y) as [[k' st']|] eqn:E; [|done].
  destruct (bk_disjoint _ _ HB _ _ _ _ _ _ Hx E); [lia|lia|].
  destruct (bk_bounds _ _ HB _ _ _ E) as (? & _). pose proof (pow2_pos k'). lia.
Qed.

Lemma blocks_split N B x k st st1 st2 :
  blocks_ok N B -> 0 <= k -> B !! x = Some (k + 1, st) ->
  blocks_ok N (<[x + 2 ^ k := (k, st2)]> (<[x := (k, st1)]> B)).
Proof.
  intros HB Hk Hx. destruct (HB) as [Hb Hd Hc].
  destruct (Hb _ _ _ Hx) as (Hk1 & Hx0 & HxN & Hal).
  rewrite pow2_S in * by lia. pose proof (pow2_pos k Hk) as Hp.
  assert (Hl : forall h k0 st0, <[x + 2 ^ k := (k, st2)]> (<[x := (k, st1)]> B) !! h = Some (k0, st0) ->
     (k0 = k /\ (h = x \/ h = x + 2 ^ k)) \/
     (h <> x /\ B !! h = Some (k0, st0) /\ (h + 2 ^ k0 <= x \/ x + 2 * 2 ^ k <= h))).
  { intros h k0 st0. rewrite !lookup_insert. repeat case_decide; subst.
    - intros [= <- <-]; auto.
    - intros [= <- <-]; auto.
    - intros H'. right. split; [done|]. split; [done|].
      assert (Hne : h <> x) by congruence. pose proof (Hd _ _ _ _ _ _ H' Hx Hne). rewrite pow2_S in * by lia. lia. }
  split.
  - intros h k0 st0 H. destruct (Hl _ _ _ H) as [[-> [-> | ->]] | (Hne & H' & _)]; [| |by eauto].
    + split; [lia|]. split; [lia|]. split; [lia|]. etrans; [|exact Hal]. by exists 2.
    + split; [lia|]. split; [lia|]. split; [lia|]. apply Z.divide_add_r; [|reflexivity].
      etrans; [|exact Hal]. by exists 2.
  - intros h k0 st0 h' k0' st0' H H' Hne.
    destruct (Hl _ _ _ H) as [[-> ?] | (? & HH & ?)], (Hl _ _ _ H') as [[-> ?] | (? & HH' & ?)]; try lia.
    by eauto.
  - intros i Hi. destruct (Hc i Hi) as (h & k0 & st0 & HBh & Hr).
    destruct (decide (h = x)) as [->|Hne].
    + rewrite Hx in HBh. injection HBh as <- <-. rewrite pow2_S in Hr by lia.
      destruct (decide (i < x + 2 ^ k)).
      * exists x, k, st1. rewrite lookup_insert_ne, lookup_insert_eq by lia. split; [done|lia].
      * exists (x + 2 ^ k), k, st2. rewrite lookup_insert_eq. split; [done|lia].
    + exists h, k0, st0. rewrite !lookup_insert_ne; try done.
      intros <-. assert (B !! (x + 2 ^ k) = None) as HN; [|congruence].
      eapply blocks_inside; [exact HB|exact Hx|rewrite pow2_S; lia].
Qed.

Lemma blocks_merge N B x k st1 st2 st :
  blocks_ok N B -> 0 <= k < PAGE_MAX_ORDER -> B !! x = Some (k, st1) -> B !! (x + 2 ^ k) = Some (k, st2) ->
  (2 ^ (k + 1) | x) -> blocks_ok N (<[x := (k + 1, st)]> (delete (x + 2 ^ k) B)).
Proof.
  intros HB Hk Hx Hy Hal. destruct (HB) as [Hb Hd Hc].
  destruct (Hb _ _ _ Hx) as (_ & Hx0 & _ & _). destruct (Hb _ _ _ Hy) as (_ & _ & HN & _).
  pose proof (pow2_pos k) as Hp. pose proof (pow2_S k) as HS.
  assert (Hl : forall h k0 st0, <[x := (k + 1, st)]> (delete (x + 2 ^ k) B) !! h = Some (k0, st0) ->
     (k0 = k + 1 /\ h = x) \/
     (h <> x /\ B !! h = Some (k0, st0) /\ (h + 2 ^ k0 <= x \/ x + 2 * 2 ^ k <= h))).
  { intros h k0 st0. rewrite lookup_insert, lookup_delete. repeat case_decide; subst; try done.
    - intros [= <- <-]; auto.
    - intros H'. right. split; [done|]. split; [done|].
      assert (Hne : h <> x) by congruence. assert (Hne' : h <> x + 2 ^ k) by congruence.
      pose proof (Hd _ _ _ _ _ _ H' Hx Hne). pose proof (Hd _ _ _ _ _ _ H' Hy Hne').
      pose proof (pow2_pos k0). destruct (Hb _ _ _ H'). lia. }
  split.
  - intros h k0 st0 H. destruct (Hl _ _ _ H) as [[-> ->] | (Hne & H' & _)]; [|by eauto].
    rewrite HS by lia. rewrite HS in Hal by lia. repeat split; try lia. done.
  - intros h k0 st0 h' k0' st0' H H' Hne. specialize (HS ltac:(lia)).
    destruct (Hl _ _ _ H) as [[-> ?] | (? & HH & ?)], (Hl _ _ _ H') as [[-> ?] | (? & HH' & ?)]; try lia.
    by eauto.
  - intros i Hi. destruct (Hc i Hi) as (h & k0 & st0 & HBh & Hr). specialize (HS ltac:(lia)).
    destruct (decide (h = x)) as [->|Hne]; [|destruct (decide (h = x + 2 ^ k)) as [->|Hne']].
    + rewrite Hx in HBh. injection HBh as <- <-. exists x, (k + 1), st. rewrite lookup_insert_eq. split; [done|lia].
    + rewrite Hy in HBh. injection HBh as <- <-. exists x, (k + 1), st. rewrite lookup_insert_eq. split; [done|lia].
    + exists h, k0, st0. by rewrite lookup_insert_ne, lookup_delete_ne by done.
Qed.

(** ** Chains *)
Lemma chain_upd_out ps h l x p :
  x ∉ l -> chain ps h l -> chain (<[x := p]> ps) h l.
Proof.
  revert h. induction l as [|y l IH]; intros h Hx; [done|].
  intros [-> (q & Hq & Hc)]. apply not_elem_of_cons in Hx as [Hne Hx].
  split; [done|]. exists q. rewrite lookup_insert_ne by done. auto.
Qed.

Lemma chain_upd_next ps h l x p p' :
  ps !! x = Some p -> p_next p' = p_next p -> chain ps h l -> chain (<[x := p']> ps) h l.
Proof.
  intros Hx Hn. revert h. induction l as [|y l IH]; intros h; [done|].
  intros [-> (q & Hq & Hc)]. split; [done|].
  destruct (decide (x = y)) as [->|Hne].
  - exists p'. rewrite lookup_insert_eq. rewrite Hx in Hq. injection Hq as <-.
    rewrite Hn. auto.
  - exists q. rewrite lookup_insert_ne by done. auto.
Qed.

Lemma chain_lookup ps h l x : chain ps h l -> x ∈ l -> is_Some (ps !! x).
Proof.
  revert h. induction l as [|y l IH]; intros h; [by intros _ ?%elem_of_nil|].
  intros [-> (q & Hq & Hc)] [->|Hin]%elem_of_cons; eauto.
Qed.

(** ** Changing one page

    A page that stays off the free lists may be rewritten without touching
    them. *)
Lemma list_ok_upd B s k x p b' fl' :
  free_lists s !! k = fl' !! k ->
  (forall o, B !! x = Some o -> o <> (k, Free)) -> b' <> (k, Free) ->
  list_ok B s k -> list_ok (<[x := b']> B) (Mem (<[x := p]> (pages s)) fl') k.
Proof.
  intros Hfl Hx Hb' (h & l & Hh & Hc & Hnd & Hl). exists h, l. cbn. rewrite <- Hfl.
  split; [done|]. assert (Hxl : x ∉ l).
  { intros Hin. apply Hl in Hin. by eapply Hx. }
  split; [by apply chain_upd_out|]. split; [done|].
  intros y. rewrite Hl, lookup_insert. case_decide as E; [subst y|done].
  split; intros H; exfalso; [by eapply Hx|]. congruence.
Qed.

Lemma list_ok_delete B s k x p :
  (forall o, B !! x = Some o -> o <> (k, Free)) ->
  list_ok B s k -> list_ok (delete x B) (Mem (<[x := p]> (pages s)) (free_lists s)) k.
Proof.
  intros Hx (h & l & Hh & Hc & Hnd & Hl). exists h, l. cbn.
  split; [done|]. assert (Hxl : x ∉ l).
  { intros Hin. apply Hl in Hin. by eapply Hx. }
  split; [by apply chain_upd_out|]. split; [done|].
  intros y. rewrite Hl, lookup_delete. case_decide as E; [subst y|done].
  split; intros H; [by exfalso; eapply Hx|done].
Qed.

Lemma pages_upd (B : gmap Z (Z * status)) N (ps : gmap Z page) x p b' :
  (forall i, 0 <= i < N -> exists p, ps !! i = Some p /\ page_ok (B !! i) i p) ->
  page_ok (Some b') x p ->
  forall i, 0 <= i < N -> exists q, <[x := p]> ps !! i = Some q /\ page_ok (<[x := b']> B !! i) i q.
Proof.
  intros H Hp i Hi. rewrite !lookup_insert. case_decide as E; [subst; eauto|]. auto.
Qed.

Lemma pages_delete (B : gmap Z (Z * status)) N (ps : gmap Z page) x p :
  (forall i, 0 <= i < N -> exists p, ps !! i = Some p /\ page_ok (B !! i) i p) ->
  page_ok None x p ->
  forall i, 0 <= i < N -> exists q, <[x := p]> ps !! i = Some q /\ page_ok (delete x B !! i) i q.
Proof.
  intros H Hp i Hi. rewrite lookup_insert, lookup_delete. case_decide as E; [subst; eauto|]. auto.
Qed.

Lemma inv_status N B s x k st st' p :
  inv N B s -> B !! x = Some (k, st) -> st <> Free -> st' <> Free ->
  page_ok (Some (k, st')) x p ->
  inv N (<[x := (k, st')]> B) (Mem (<[x := p]> (pages s)) (free_lists s)).
Proof.
  intros [Hb Hp Hl] Hx Hst Hst' Hok. split.
  - by eapply blocks_status.
  - by apply pages_upd.
  - intros k' Hk'. apply list_ok_upd; auto; congruence.
Qed.

Lemma inv_head N B s x k st :
  inv N B s -> B !! x = Some (k, st) ->
  exists p, pages s !! x = Some p /\ page_ok (Some (k, st)) x p.
Proof.
  intros [Hb Hp _] Hx. destruct (bk_bounds _ _ Hb _ _ _ Hx) as (? & ? & ? & _).
  destruct (Hp x) as (p & Hpx & Hpo); [pose proof (pow2_pos k); lia|]. rewrite Hx in Hpo. eauto.
Qed.

(** ** Free-list operations *)
Lemma buddy_list_pop_ok N B s k :
  inv N B s -> 0 <= k <= PAGE_MAX_ORDER ->
  (buddy_list_pop k s = Done None s /\ free_lists s !! k = Some None /\ forall x, B !! x <> Some (k, Free)) \/
  exists x s', buddy_list_pop k s = Done (Some x) s' /\ B !! x = Some (k, Free) /\
    inv N (<[x := (k, Limbo)]> B) s'.
Proof.
  intros HI Hk. destruct (HI) as [Hb Hp Hl]. destruct (Hl k Hk) as (h & l & Hh & Hc & Hnd & Hin).
  unfold buddy_list_pop, rd_head. mstep. rewrite Hh. destruct l as [|x l].
  { left. cbn in Hc. subst h. split; [done|]. split; [done|]. intros x Hx. apply Hin in Hx. by apply elem_of_nil in Hx. }
  right. destruct Hc as [-> (p & Hpx & Hc)].
  assert (HBx : B !! x = Some (k, Free)) by (apply Hin; left).
  destruct (inv_head _ _ _ _ _ _ HI HBx) as (p' & Hp' & Hok). rewrite Hpx in Hp'. injection Hp' as <-.
  unfold rd, wr_head, upd. mstep. rewrite Hpx. cbn [pages free_lists]. rewrite Hh. cbn [pages free_lists].
  rewrite Hpx. cbn [pages free_lists]. rewrite lookup_insert_eq. cbn [pages free_lists].
  rewrite insert_insert_eq. eexists _, _. split; [done|]. split; [done|].
  apply NoDup_cons in Hnd as [Hxl Hnd]. destruct Hok as (Hi & Hr & Hf & Ho & Hr1).
  split; cbn.
  - by eapply blocks_status.
  - apply pages_upd; [done|]. unfold page_ok, clear_flag, set_flags, set_next; cbn. rewrite Hf. done.
  - intros k' Hk'. destruct (decide (k' = k)) as [->|Hne].
    + exists (p_next p), l. cbn. rewrite lookup_insert_eq. split; [done|].
      split; [by apply chain_upd_out|]. split; [done|]. intros y. rewrite lookup_insert.
      case_decide as E; [subst|].
      * split; [done|]. intros [= ]. 
      * rewrite <- Hin, elem_of_cons. split; [auto|]. intros [->|]; done.
    + apply list_ok_upd; [by rewrite lookup_insert_ne|congruence|congruence|auto].
Qed.

Lemma buddy_list_push_ok N B s x k :
  inv N B s -> B !! x = Some (k, Limbo) ->
  exists s', buddy_list_push k x s = Done tt s' /\ inv N (<[x := (k, Free)]> B) s'.
Proof.
  intros HI Hx. destruct (HI) as [Hb Hp Hl].
  destruct (bk_bounds _ _ Hb _ _ _ Hx) as (Hk & _).
  destruct (Hl k Hk) as (h & l & Hh & Hc & Hnd & Hin).
  destruct (inv_head _ _ _ _ _ _ HI Hx) as (p & Hpx & Hi & Hr & Hf & Ho & Hn & Hr1).
  assert (Hpush : buddy_list_push k x s =
    Done tt (Mem (<[x := raise_flag PF_FREE_LIST (set_next h p)]> (pages s)) (<[k := Some x]> (free_lists s)))).
  { unfold buddy_list_push, rd_head, wr_head, upd. mstep. rewrite Hh.
    destruct h; cbn; rewrite Hpx; cbn; rewrite Hh; cbn; rewrite lookup_insert_eq, insert_insert_eq; done. }
  rewrite Hpush. eexists. split; [done|].
  assert (Hxl : x ∉ l) by (rewrite Hin; congruence).
  split; cbn.
  - by eapply blocks_status.
  - apply pages_upd; [done|]. unfold page_ok, raise_flag, set_flags, set_next; cbn. rewrite Hf. done.
  - intros k' Hk'. destruct (decide (k' = k)) as [->|Hne].
    + exists (Some x), (x :: l). cbn. rewrite lookup_insert_eq. split; [done|].
      split. { split; [done|]. eexists. rewrite lookup_insert_eq. split; [done|]. by apply chain_upd_out. }
      split; [by constructor|]. intros y. rewrite lookup_insert, elem_of_cons. case_decide as E; [subst; naive_solver|].
      rewrite Hin. naive_solver.
    + apply list_ok_upd; [by rewrite lookup_insert_ne|congruence|congruence|auto].
Qed.

Lemma chain_relink ps h a j y b pj py :
  chain ps h (a ++ j :: y :: b) -> NoDup (a ++ j :: y :: b) ->
  ps !! j = Some pj -> ps !! y = Some py ->
  chain (<[j := set_next (p_next py) pj]> ps) h (a ++ j :: b).
Proof.
  intros Hc Hnd Hj Hy. revert h Hc Hnd. induction a as [|z a IH]; intros h; cbn.
  - intros [-> (p & Hp & Hq & q & Hq' & Hc)]. rewrite Hj in Hp. injection Hp as <-.
    rewrite Hy in Hq'. injection Hq' as <-.
    intros [Hn1 [Hn2 _]%NoDup_cons]%NoDup_cons. split; [done|]. eexists. rewrite lookup_insert_eq. split; [done|].
    cbn. apply chain_upd_out; [set_solver|done].
  - intros [-> (p & Hp & Hc)] [Hn Hnd]%NoDup_cons. split; [done|]. exists p.
    rewrite lookup_insert_ne by set_solver. auto.
Qed.

Lemma remove_walk s k y b : forall a fuel prev cur,
  chain (pages s) cur (a ++ y :: b) ->
  (forall x, x ∈ a -> x <> y /\ forall p, pages s !! x = Some p -> p_index p = x) ->
  (length a < fuel)%nat ->
  buddy_list_remove_loop fuel k prev cur y s =
  buddy_list_remove_loop (fuel - length a) k (match last a with Some j => Some j | None => prev end) (Some y) y s.
Proof.
  induction a as [|x a IH]; intros fuel prev cur Hc Ha Hf.
  - destruct Hc as [-> _]. cbn [length last]. by rewrite Nat.sub_0_r.
  - destruct fuel as [|fuel]; [lia|]. destruct Hc as [-> (p & Hp & Hc)]. cbn [length] in *.
    destruct (Ha x) as [Hne Hidx]; [left|]. cbn [buddy_list_remove_loop]. unfold rd. mstep. rewrite Hp.
    rewrite (Hidx p Hp). rewrite (proj2 (Z.eqb_neq _ _) Hne).
    rewrite (IH fuel (Some x) (p_next p)); [|done|set_solver|lia].
    replace (S fuel - S (length a))%nat with (fuel - length a)%nat by lia.
    f_equal. destruct a as [|z a]; [done|]. change (last (x :: z :: a)) with (last (z :: a)).
    destruct (last (z :: a)) eqn:E; [done|]. by apply last_None in E.
Qed.

Lemma chain_length N B s k h l :
  inv N B s -> chain (pages s) h l -> NoDup l -> (forall x, x ∈ l -> B !! x = Some (k, Free)) ->
  (length l <= Z.to_nat N)%nat.
Proof.
  intros [Hb _ _] Hc Hnd Hl. rewrite <- (Nat2Z.id (Z.to_nat N)).
  assert (Hsub : l ⊆+ seqZ 0 N).
  { apply NoDup_submseteq; [done|]. intros x Hx%Hl. apply elem_of_seqZ.
    destruct (bk_bounds _ _ Hb _ _ _ Hx) as (? & ? & ? & _). pose proof (pow2_pos k). lia. }
  apply submseteq_length in Hsub. rewrite length_seqZ in Hsub. lia.
Qed.

Lemma buddy_list_remove_ok N B s y k fuel :
  inv N B s -> B !! y = Some (k, Free) -> (Z.to_nat N < fuel)%nat ->
  exists s', buddy_list_remove fuel k y s = Done (Some y) s' /\ inv N (<[y := (k, Limbo)]> B) s'.
Proof.
  intros HI Hy Hfuel. destruct (HI) as [Hb Hp Hl].
  destruct (bk_bounds _ _ Hb _ _ _ Hy) as (Hk & _).
  destruct (Hl k Hk) as (h & l & Hh & Hc & Hnd & Hin).
  destruct (inv_head _ _ _ _ _ _ HI Hy) as (py & Hpy & Hi & Hr & Hf & Ho & Hr1).
  pose proof (chain_length _ _ _ k _ _ HI Hc Hnd ltac:(intros; by apply Hin)) as Hlen.
  destruct (list_elem_of_split l y) as (a & b & ->); [by apply Hin|].
  assert (Ha : forall x, x ∈ a ++ b -> x <> y /\ B !! x = Some (k, Free)).
  { intros x Hx. split; [|apply Hin; set_solver]. intros ->.
    apply NoDup_app in Hnd as (_ & Hd & [Hnb _]%NoDup_cons). set_solver. }
  assert (Hpok : page_ok (Some (k, Limbo)) y (clear_flag PF_FREE_LIST (set_next None py))).
  { unfold page_ok, clear_flag, set_flags, set_next; cbn. rewrite Hf. done. }
  assert (Hab : NoDup (a ++ b)).
  { by apply NoDup_app in Hnd as (? & ? & [? ?]%NoDup_cons); apply NoDup_app; set_solver. }
  assert (Hmem : forall x, x ∈ a ++ b <-> <[y := (k, Limbo)]> B !! x = Some (k, Free)).
  { intros x. rewrite lookup_insert. case_decide as E; [subst|].
    - split; [intros Hx; by destruct (Ha _ Hx)|congruence].
    - rewrite <- Hin. set_solver. }
  assert (Hyab : y ∉ a ++ b) by (intros Hx; by destruct (Ha _ Hx)).
  unfold buddy_list_remove, rd_head. mstep. rewrite Hh.
  rewrite (remove_walk s k y b a fuel None h Hc); cycle 1.
  { intros x Hx. destruct (Ha x) as [? HBx]; [set_solver|]. split; [done|]. intros p Hpx.
    destruct (inv_head _ _ _ _ _ _ HI HBx) as (p' & Hp' & ? & _). congruence. }
  { rewrite length_app in Hlen. lia. }
  destruct (fuel - length a)%nat as [|fuel'] eqn:Ef; [rewrite length_app in Hlen; lia|].
  cbn [buddy_list_remove_loop]. unfold rd. mstep. rewrite Hpy, Hi, Z.eqb_refl.
  destruct (last a) as [j|] eqn:El.
  - apply last_Some in El as [a' ->]. unfold upd, wr_head.
    destruct (Ha j) as [Hjy HBj]; [set_solver|].
    destruct (inv_head _ _ _ _ _ _ HI HBj) as (pj & Hpj & Hokj).
    mstep. rewrite Hpj. cbn [pages free_lists]. rewrite lookup_insert_ne, Hpy by done. cbn [pages free_lists].
    rewrite lookup_insert_eq. cbn [pages free_lists]. rewrite insert_insert_eq. eexists. split; [done|]. split; cbn.
    + by eapply blocks_status.
    + apply (pages_upd B); [|done]. intros i Hi'. rewrite lookup_insert. case_decide as E; [subst i|by auto].
      eexists. split; [done|]. rewrite HBj. done.
    + intros k' Hk'. destruct (decide (k' = k)) as [->|Hne].
      * exists h, ((a' ++ [j]) ++ b). cbn. split; [done|]. split; [|done].
        rewrite <- app_assoc in Hc, Hnd. apply chain_upd_out; [done|]. rewrite <- app_assoc.
        exact (chain_relink _ _ a' j y b pj py Hc Hnd Hpj Hpy).
      * refine (list_ok_upd B (Mem (<[j:=set_next (p_next py) pj]> (pages s)) (free_lists s)) k' y _ _ _ eq_refl _ _ _);
          [congruence|congruence|].
        destruct (Hl k' Hk') as (h' & l' & Hh' & Hc' & Hnd' & Hin'). exists h', l'. cbn.
        split; [done|]. split; [apply chain_upd_out; [rewrite Hin'; congruence|done]|done].
  - apply last_None in El as ->. destruct Hc as [-> (p & Hp' & Hc)]. rewrite Hpy in Hp'. injection Hp' as <-.
    unfold upd, wr_head. mstep. rewrite Hh. cbn [pages free_lists]. rewrite Hpy. cbn [pages free_lists].
    rewrite lookup_insert_eq, insert_insert_eq. eexists. split; [done|]. split; cbn.
    + by eapply blocks_status.
    + by apply pages_upd.
    + intros k' Hk'. destruct (decide (k' = k)) as [->|Hne].
      * exists (p_next py), b. cbn. rewrite lookup_insert_eq. split; [done|]. split; [|done]. by apply chain_upd_out.
      * apply list_ok_upd; [by rewrite lookup_insert_ne|congruence|congruence|auto].
Qed.

(** ** Allocation *)
Definition same_used (B B' : gmap Z (Z * status)) : Prop :=
  forall h k, B !! h = Some (k, Used) <-> B' !! h = Some (k, Used).

Lemma same_used_insert B x b st : B !! x = Some b -> b.2 <> Used -> st.2 <> Used -> same_used B (<[x := st]> B).
Proof.
  intros Hx Hb Hst h k. rewrite lookup_insert. case_decide; [subst|done].
  rewrite Hx. destruct b, st; cbn in *. split; congruence.
Qed.

Lemma same_used_new B x st : B !! x = None -> st.2 <> Used -> same_used B (<[x := st]> B).
Proof.
  intros Hx Hst h k. rewrite lookup_insert. case_decide; [subst|done].
  rewrite Hx. destruct st; cbn in *. split; congruence.
Qed.

Lemma same_used_trans B1 B2 B3 : same_used B1 B2 -> same_used B2 B3 -> same_used B1 B3.
Proof. intros H1 H2 h k. rewrite (H1 h k). apply H2. Qed.

Lemma upd_at s x p f :
  pages s !! x = Some p -> upd x f s = Done tt (Mem (<[x := f p]> (pages s)) (free_lists s)).
Proof. unfold upd. by intros ->. Qed.

Lemma rd_at s x p : pages s !! x = Some p -> rd x s = Done p s.
Proof. unfold rd, deref. by intros ->. Qed.

Definition held (st : status) : Prop := st = Limbo \/ st = Raw.

Lemma split_step N B s x k st :
  inv N B s -> 0 <= k -> B !! x = Some (k + 1, st) -> held st ->
  (forall y, B !! y <> Some (k, Free)) ->
  exists s', (upd x (set_order k);; wr_head k (Some x);; upd x (raise_flag PF_FREE_LIST)) s = Done tt s' /\
    inv N (<[x + 2 ^ k := (k, Raw)]> (<[x := (k, Free)]> B)) s'.
Proof.
  intros HI Hk Hx Hst Hemp. destruct (HI) as [Hb Hp Hl].
  destruct (inv_head _ _ _ _ _ _ HI Hx) as (p & Hpx & Hpok).
  assert (Hp0 : p_index p = x /\ 0 <= p_refcnt p < 2 ^ 32 /\ p_flags p = 0 /\ p_next p = None /\ p_refcnt p <= 1).
  { destruct Hpok as (? & ? & Hm). destruct Hst; subst st; intuition. }
  destruct Hp0 as (Hi & Hr & Hf & Hn & Hr1).
  destruct (bk_bounds _ _ Hb _ _ _ Hx) as (Hkb & Hx0 & HxN & _). rewrite pow2_S in HxN by lia.
  pose proof (pow2_pos k Hk) as Hpk.
  assert (HBy : B !! (x + 2 ^ k) = None) by (eapply blocks_inside; [done..|rewrite pow2_S; lia]).
  destruct (Hl k ltac:(lia)) as (h & l & Hh & Hc & Hnd & Hin).
  assert (l = []) as -> by (destruct l as [|z l]; [done|]; destruct (Hemp z); apply Hin; left).
  cbn in Hc. subst h. unfold wr_head. mstep. rewrite (upd_at _ _ _ _ Hpx). cbn. rewrite Hh.
  erewrite upd_at by (cbn; by rewrite lookup_insert_eq). cbn. rewrite insert_insert_eq.
  eexists. split; [done|]. split; cbn.
  - by eapply blocks_split.
  - intros i Hi'. destruct (decide (i = x + 2 ^ k)) as [->|Hne1]; [|destruct (decide (i = x)) as [->|Hne2]].
    + destruct (Hp (x + 2 ^ k)) as (q & Hq & Hqok); [lia|]. rewrite HBy in Hqok. exists q.
      rewrite lookup_insert_eq, lookup_insert_ne by lia.
      split; [done|]. destruct Hqok as (? & ? & ? & ? & ? & ?). done.
    + rewrite lookup_insert_eq, lookup_insert_ne, lookup_insert_eq by lia. eexists. split; [done|]. unfold page_ok, raise_flag, set_flags, set_order; cbn. rewrite Hf. done.
    + rewrite !lookup_insert_ne by done. auto.
  - intros k' Hk'. destruct (decide (k' = k)) as [->|Hne].
    + exists (Some x), [x]. cbn. rewrite lookup_insert_eq. split; [done|]. split.
      { split; [done|]. eexists. rewrite lookup_insert_eq. done. }
      split; [apply NoDup_singleton|]. intros y. rewrite list_elem_of_singleton, !lookup_insert.
      repeat case_decide; subst; naive_solver lia.
    + destruct (Hl k' Hk') as (h' & l' & Hh' & Hc' & Hnd' & Hin'). exists h', l'. cbn.
      rewrite lookup_insert_ne by done. split; [done|].
      split; [apply chain_upd_out; [|done]; rewrite Hin'; destruct Hst; subst; congruence|].
      split; [done|]. intros y. rewrite Hin', !lookup_insert. repeat case_decide; subst; try done.
      * rewrite HBy. naive_solver.
      * rewrite Hx. destruct Hst; subst; naive_solver.
Qed.

Lemma pull_split_ok N from : 0 <= from -> forall n i x B s st,
  inv N B s -> Z.of_nat n = i - from + 1 -> B !! x = Some (i + 1, st) -> held st ->
  (forall k y, from <= k <= i -> B !! y <> Some (k, Free)) ->
  exists y s' B' st', pull_split n i x s = Done y s' /\ inv N B' s' /\
    B' !! y = Some (from, st') /\ held st' /\ same_used B B' /\ x <= y /\ y + 2 ^ from <= x + 2 ^ (i + 1) /\
    (forall h k st1, B' !! h = Some (k, st1) -> h <> y -> held st1 -> B !! h = Some (k, st1) /\ h <> x).
Proof.
  intros Hfrom. induction n as [|n IH]; intros i x B s st HI Hn Hx Hst Hemp.
  - replace (i + 1) with from in * by lia. exists x, s, B, st.
    split; [done|]. split; [done|]. split; [done|]. split; [done|].
    split; [intros ? ?; done|]. split; [lia|]. split; [lia|]. auto.
  - assert (Hi : 0 <= i) by lia. pose proof (pow2_pos i Hi).
    destruct (split_step N B s x i st HI Hi Hx Hst) as (s1 & Hs1 & HI1); [intros; apply Hemp; lia|].
    cbn [pull_split]. revert Hs1. mstep. destruct (upd x (set_order i) s) as [[] s2| | | |]; try done.
    destruct (wr_head i (Some x) s2) as [[] s3| | | |]; try done. intros ->.
    rewrite shiftl_1 by lia. assert (Hy : B !! (x + 2 ^ i) = None).
    { eapply blocks_inside; [apply HI|done|rewrite pow2_S; lia]. }
    destruct (IH (i - 1) (x + 2 ^ i) _ _ Raw HI1) as (y & s' & B' & st' & Hr & HI' & HBy & Hh & Hu & H1 & H2 & H3).
    { lia. } { replace (i - 1 + 1) with i by lia. apply lookup_insert_eq. } { by right. }
    { intros k z Hk. rewrite !lookup_insert. repeat case_decide; subst; naive_solver lia. }
    replace (i - 1 + 1) with i in H2 by lia. rewrite pow2_S by lia.
    exists y, s', B', st'. split; [done|]. split; [done|]. split; [done|]. split; [done|].
    split. { eapply same_used_trans; [|exact Hu]. eapply same_used_trans.
      - eapply (same_used_insert B x _ (i, Free)); [done| |done]. destruct Hst; subst; done.
      - apply same_used_new; [|done]. by rewrite lookup_insert_ne by lia. }
    split; [lia|]. split; [lia|].
    intros h k st1 Hh1 Hne Hst1. destruct (H3 _ _ _ Hh1 Hne Hst1) as [H4 H5].
    rewrite !lookup_insert in H4. repeat case_decide; subst; try done.
    injection H4 as <- <-. by destruct Hst1.
Qed.

Lemma pull_scan_ok N B s : inv N B s -> forall n i, 0 <= i -> Z.of_nat n = PAGE_MAX_DEPTH - i ->
  (pull_scan n i s = Done None s /\ forall k x, i <= k -> B !! x <> Some (k, Free)) \/
  exists x to s', pull_scan n i s = Done (Some (x, to)) s' /\ i <= to + 1 <= PAGE_MAX_ORDER /\
    B !! x = Some (to + 1, Free) /\ inv N (<[x := (to + 1, Limbo)]> B) s' /\
    forall k y, i <= k <= to -> B !! y <> Some (k, Free).
Proof.
  intros HI. unfold PAGE_MAX_DEPTH. induction n as [|n IH]; intros i Hi Hn.
  - left. split; [done|]. intros k x Hk Hx. destruct HI as [Hb _ _].
    destruct (bk_bounds _ _ Hb _ _ _ Hx). lia.
  - cbn [pull_scan]. mstep.
    destruct (buddy_list_pop_ok N B s i HI) as [(Hp & _ & He)|(x & s' & Hp & Hx & HI')]; [lia| |].
    + rewrite Hp. destruct (IH (i + 1)) as [(Hr & He')|(x & to & s' & Hr & Hto & Hx & HI' & He')]; [lia|lia| |].
      * left. split; [done|]. intros k x Hk. destruct (decide (k = i)) as [->|]; [done|]. apply He'. lia.
      * right. exists x, to, s'. split; [done|]. split; [lia|]. split; [done|]. split; [done|].
        intros k y Hk. destruct (decide (k = i)) as [->|]; [done|]. apply He'. lia.
    + rewrite Hp. right. exists x, (i - 1), s'. replace (i - 1 + 1) with i by lia.
      split; [done|]. split; [lia|]. split; [done|]. split; [done|]. intros; lia.
Qed.

(** Between operations no block is held. *)
Definition stable (B : gmap Z (Z * status)) : Prop :=
  forall h k st, B !! h = Some (k, st) -> ~ held st.

Record wf (N : Z) (B : gmap Z (Z * status)) (s : mem) : Prop := {
  wf_inv : inv N B s;
  wf_stable : stable B
}.

(** The order [buddy_alloc] must pick: the least one whose block holds [size]. *)
Definition fits (k size : Z) : Prop :=
  0 <= k <= PAGE_MAX_ORDER /\ size <= 2 ^ k * PAGE_SIZE /\
  forall j, 0 <= j < k -> 2 ^ j * PAGE_SIZE < size.

(** Only the block at [x] is held. *)
Definition only_held (B : gmap Z (Z * status)) (x : Z) : Prop :=
  forall h k st, B !! h = Some (k, st) -> h <> x -> ~ held st.

Lemma buddy_pull_block_ok N B s from :
  wf N B s -> 0 <= from <= PAGE_MAX_ORDER -> (forall x, B !! x <> Some (from, Free)) ->
  (buddy_pull_block from s = Panic "out of memory" /\ forall k x, from <= k -> B !! x <> Some (k, Free)) \/
  exists x s' B', buddy_pull_block from s = Done x s' /\ inv N B' s' /\ B' !! x = Some (from, Limbo) /\
    same_used B B' /\ only_held B' x.
Proof.
  intros [HI Hst] Hf He. unfold buddy_pull_block. mstep.
  destruct (pull_scan_ok N B s HI (Z.to_nat (PAGE_MAX_DEPTH - (from + 1))) (from + 1))
    as [(Hr & He')|(x & to & s1 & Hr & Hto & Hx & HI' & He')]; [lia|unfold PAGE_MAX_DEPTH; lia| |]; rewrite Hr.
  { left. split; [done|]. intros k y Hk. destruct (decide (k = from)) as [->|]; [done|]. apply He'. lia. }
  right.
  destruct (pull_split_ok N from ltac:(lia) (Z.to_nat (to - from + 1)) to x _ s1 Limbo HI')
    as (y & s2 & B' & st' & Hr2 & HI2 & Hy & Hh & Hu & H1 & H2 & H3); [lia| |by left| |].
  { apply lookup_insert_eq. }
  { intros k z Hk. rewrite lookup_insert. case_decide; [intros [= ?]; lia|].
    destruct (decide (k = from)) as [->|]; [done|]. apply He'. lia. }
  rewrite Hr2. destruct (inv_head _ _ _ _ _ _ HI2 Hy) as (p & Hp & Hok). rewrite (upd_at _ _ _ _ Hp).
  eexists y, _, (<[y := (from, Limbo)]> B'). split; [done|]. split; [|split; [|split]].
  - eapply inv_status; [done..|destruct Hh; by subst|done|]. unfold page_ok, set_order; cbn.
    destruct Hok as (? & ? & Hm). destruct Hh; subst; intuition.
  - apply lookup_insert_eq.
  - eapply same_used_trans; [|eapply same_used_trans; [exact Hu|]].
    + by eapply same_used_insert.
    + eapply same_used_insert; [done| |done]. destruct Hh; by subst.
  - intros h k st Hh1 Hne. rewrite lookup_insert_ne in Hh1 by done. intros Hst1.
    destruct (H3 _ _ _ Hh1 Hne Hst1) as [H4 H5]. rewrite lookup_insert_ne in H4 by done. by eapply Hst.
Qed.

Lemma alloc_scan_ok N B s size : wf N B s -> 0 <= size < 2 ^ 64 -> forall n i,
  0 <= i -> Z.of_nat n = PAGE_MAX_DEPTH - i -> (forall j, 0 <= j < i -> 2 ^ j * PAGE_SIZE < size) ->
  (alloc_scan n i size s = Done None s /\ 2 ^ PAGE_MAX_ORDER * PAGE_SIZE < size) \/
  exists k, fits k size /\
    ((alloc_scan n i size s = Panic "out of memory" /\ forall k' x, k <= k' -> B !! x <> Some (k', Free)) \/
     exists x s' B', alloc_scan n i size s = Done (Some x) s' /\ inv N B' s' /\ B' !! x = Some (k, Limbo) /\
       same_used B B' /\ only_held B' x).
Proof.
  intros HW Hsz. unfold PAGE_MAX_DEPTH. induction n as [|n IH]; intros i Hi Hn Hsm.
  { left. split; [done|]. apply Hsm. unfold PAGE_MAX_ORDER in *. lia. }
  cbn [alloc_scan]. rewrite shiftl_1 by lia.
  rewrite wrap_small.
  2:{ unfold PAGE_MAX_ORDER, PAGE_SIZE in *. pose proof (pow2_pos i Hi).
      pose proof (Z.pow_le_mono_r 2 i 10). lia. }
  destruct (size <=? 2 ^ i * PAGE_SIZE) eqn:E; bool_hyps.
  2:{ apply IH; [lia|lia|]. intros j Hj. destruct (decide (j = i)) as [->|]; [done|]. apply Hsm. lia. }
  right. exists i. split; [split; [lia|split; [done|exact Hsm]]|]. mstep.
  destruct (HW) as [HI Hst].
  destruct (buddy_list_pop_ok N B s i HI) as [(Hp & _ & He)|(x & s' & Hp & Hx & HI')]; [lia| |]; rewrite Hp.
  - destruct (buddy_pull_block_ok N B s i HW) as [(Hr & He')|(x & s' & B' & Hr & HI' & Hx & Hu & Ho)]; [lia|done| |].
    + left. rewrite Hr. done.
    + right. exists x, s', B'. rewrite Hr. done.
  - right. eexists x, s', _. split; [done|]. split; [done|]. split; [apply lookup_insert_eq|].
    split; [by eapply same_used_insert|]. intros h k st Hh Hne. rewrite lookup_insert_ne in Hh by done. by eapply Hst.
Qed.

Lemma buddy_alloc_ok N B s size :
  wf N B s -> 0 <= size < 2 ^ 64 ->
  (exists k x s' B', fits k size /\ buddy_alloc size s = Done x s' /\ wf N B' s' /\
     B' !! x = Some (k, Used) /\ (forall h k', B' !! h = Some (k', Used) <-> h = x /\ k' = k \/ B !! h = Some (k', Used)) /\
     (forall k', B !! x <> Some (k', Used)) /\
     exists p, pages s' !! x = Some p /\ p_refcnt p = 1) \/
  (exists k, fits k size /\ buddy_alloc size s = Panic "out of memory" /\
     forall k' x, k <= k' -> B !! x <> Some (k', Free)) \/
  (2 ^ PAGE_MAX_ORDER * PAGE_SIZE < size /\ buddy_alloc size s = Panic "No memory").
Proof.
  intros HW Hsz. unfold buddy_alloc. mstep.
  destruct (alloc_scan_ok N B s size HW Hsz (Z.to_nat PAGE_MAX_DEPTH) 0)
    as [(Hr & Hbig)|(k & Hfit & [(Hr & He)|(x & s1 & B1 & Hr & HI & Hx & Hu & Ho)])]; [lia|done|intros; lia| | |]; rewrite Hr.
  { right; right. done. }
  { right; left. eauto. }
  left. destruct (inv_head _ _ _ _ _ _ HI Hx) as (p & Hp & Hi & Hr1 & Hf & Hor & Hn & Hrc).
  rewrite (upd_at _ _ _ _ Hp). erewrite upd_at by (cbn; apply lookup_insert_eq). cbn. rewrite insert_insert_eq.
  eexists k, x, _, (<[x := (k, Used)]> B1). split; [done|]. split; [done|]. split; [split|split; [|split; [|split]]].
  - eapply inv_status; try done. unfold page_ok, raise_flag, set_flags, set_refcnt; cbn. rewrite Hf.
    repeat split; try done.
  - intros h k' st. rewrite lookup_insert. case_decide; [intros [= <- <-] [?|?]; done|]. intros Hh. by eapply Ho.
  - apply lookup_insert_eq.
  - intros h k'. rewrite (Hu h k'), lookup_insert. case_decide as E.
    + subst. split; [intros [= <-]; auto|]. intros [[_ ->]|HB]; [done|]. congruence.
    + naive_solver.
  - intros k' HB. apply Hu in HB. congruence.
  - cbn. rewrite lookup_insert_eq. eexists. split; [done|]. done.
Qed.

(** ** Freeing *)
Lemma land_1_mod q : Z.land q 1 = q mod 2.
Proof. change 1 with (Z.ones 1). rewrite Z.land_ones by lia. done. Qed.

Lemma shiftr_mult q k : 0 <= k -> Z.shiftr (q * 2 ^ k) k = q.
Proof. intros. rewrite Z.shiftr_div_pow2 by lia. apply Z.div_mul. pose proof (pow2_pos k). lia. Qed.

Lemma buddy_index_cases N p x k :
  p_index p = x -> p_order p = k -> 0 <= k < PAGE_MAX_ORDER -> 0 <= x -> x + 2 ^ k <= N -> (2 ^ k | x) ->
  (2 ^ PAGE_MAX_ORDER | N) -> N <= 2 ^ 52 ->
  (buddy_find_buddy_index p = x + 2 ^ k /\ (2 ^ (k + 1) | x) /\ x + 2 ^ k + 2 ^ k <= N /\
     (Z.land (Z.shiftr (x + 2 ^ k) k) 1 =? 0) = false) \/
  (buddy_find_buddy_index p = x - 2 ^ k /\ (2 ^ (k + 1) | x - 2 ^ k) /\ 0 <= x - 2 ^ k /\
     (Z.land (Z.shiftr (x - 2 ^ k) k) 1 =? 0) = true).
Proof.
  unfold PAGE_MAX_ORDER. intros Hi Ho Hk Hx HN [q ->] [m ->] HN52. unfold buddy_find_buddy_index.
  rewrite Hi, Ho, shiftr_mult, land_1_mod, shiftl_1 by lia. rewrite pow2_S by lia.
  pose proof (pow2_pos k ltac:(lia)) as Hp. pose proof (Z.div_mod q 2 ltac:(lia)) as Hq.
  pose proof (Z.mod_pos_bound q 2 ltac:(lia)).
  destruct (q mod 2 =? 0) eqn:E; bool_hyps.
  - left. assert (Hqe : q = q / 2 * 2) by lia.
    assert (Hr : q * 2 ^ k + 2 ^ k + 2 ^ k <= m * 2 ^ 10).
    { replace (2 ^ 10) with (2 * 2 ^ (9 - k) * 2 ^ k) in * by
        (rewrite <- Z.mul_assoc, <- Z.pow_add_r by lia; replace (9 - k + k) with 9 by lia; done).
      assert (q / 2 * 2 < m * 2 ^ (9 - k) * 2) by nia. nia. }
    assert (Hs : q * 2 ^ k + 2 ^ k = (q + 1) * 2 ^ k) by ring.
    split; [apply wrap_small; lia|]. split; [exists (q / 2); rewrite Hqe at 1; ring|]. split; [done|].
    rewrite Hs, shiftr_mult, land_1_mod by lia. apply Z.eqb_neq.
    replace (q + 1) with (1 + q / 2 * 2) by lia. rewrite Z_mod_plus_full. done.
  - right. assert (Hqo : q = q / 2 * 2 + 1) by lia.
    assert (Hs : q * 2 ^ k - 2 ^ k = (q - 1) * 2 ^ k) by ring. rewrite Hs.
    assert (0 <= q - 1) by nia.
    split; [apply wrap_small; nia|]. split; [exists (q / 2); rewrite Hqo at 1; ring|]. split; [nia|].
    rewrite shiftr_mult, land_1_mod by lia. apply Z.eqb_eq.
    replace (q - 1) with (0 + q / 2 * 2) by lia. rewrite Z_mod_plus_full. done.
Qed.

(** Joining two held halves, as the tail of [buddy_free] does. *)
Lemma merge_step N B s x k p q :
  inv N B s -> 0 <= k < PAGE_MAX_ORDER -> B !! x = Some (k, Limbo) -> B !! (x + 2 ^ k) = Some (k, Limbo) ->
  (2 ^ (k + 1) | x) -> pages s !! x = Some p -> pages s !! (x + 2 ^ k) = Some q ->
  inv N (<[x := (k + 1, Limbo)]> (delete (x + 2 ^ k) B))
    (Mem (<[x := set_order (u32 (p_order p + 1)) p]> (<[x + 2 ^ k := set_order 0 q]> (pages s))) (free_lists s)).
Proof.
  intros HI Hk Hx Hy Hal Hp Hq. pose proof (pow2_pos k ltac:(lia)) as Hp2.
  destruct (inv_head _ _ _ _ _ _ HI Hx) as (p' & Hp' & Hpi & Hpr & Hpf & Hpo & Hpn & Hprc).
  destruct (inv_head _ _ _ _ _ _ HI Hy) as (q' & Hq' & Hqi & Hqr & Hqf & Hqo & Hqn & Hqrc).
  rewrite Hp in Hp'. injection Hp' as <-. rewrite Hq in Hq'. injection Hq' as <-. destruct (HI) as [Hb HP Hl].
  split; cbn.
  - by eapply blocks_merge.
  - apply (pages_upd (delete (x + 2 ^ k) B)).
    + apply pages_delete; [done|]. unfold page_ok, set_order; cbn. done.
    + unfold page_ok, set_order; cbn. rewrite Hpo, wrap_small; [done|]. unfold PAGE_MAX_ORDER in *. lia.
  - intros k' Hk'.
    refine (list_ok_upd (delete (x + 2 ^ k) B) (Mem (<[x + 2 ^ k := _]> (pages s)) (free_lists s)) k' x _ _ _ eq_refl _ _ _).
    + rewrite lookup_delete_ne by lia. congruence.
    + congruence.
    + apply list_ok_delete; [congruence|auto].
Qed.

(** The end of the merging branch: the second half loses its order, the first
    half is promoted. *)
Lemma merge_tail {A} N B s x k (c : M mem A) :
  inv N B s -> 0 <= k < PAGE_MAX_ORDER -> B !! x = Some (k, Limbo) -> B !! (x + 2 ^ k) = Some (k, Limbo) ->
  (2 ^ (k + 1) | x) ->
  exists s' p, (upd (x + 2 ^ k) (set_order 0);; q ← rd x; upd x (set_order (u32 (p_order q + 1)));; c) s = c s' /\
    (forall i, refcnt s' i = refcnt s i) /\ inv N (<[x := (k + 1, Limbo)]> (delete (x + 2 ^ k) B)) s' /\ pages s' !! x = Some p /\ p_refcnt p <= 1.
Proof.
  intros HI Hk Hx Hy Hal. pose proof (pow2_pos k ltac:(lia)) as Hpk.
  destruct (inv_head _ _ _ _ _ _ HI Hx) as (p & Hp & _ & _ & _ & _ & _ & Hrc).
  destruct (inv_head _ _ _ _ _ _ HI Hy) as (q & Hq & _).
  unfold rd. mstep. rewrite (upd_at _ _ _ _ Hq). cbn [pages free_lists]. rewrite lookup_insert_ne, Hp by lia.
  erewrite upd_at by (cbn [pages]; rewrite lookup_insert_ne by lia; exact Hp).
  cbn [pages free_lists]. eexists _, _. split; [reflexivity|]. split.
  { intros i. etrans; [|by apply (refcnt_insert s (free_lists s) (x + 2 ^ k) q (set_order 0 q))].
    apply (refcnt_map _ _ _ x p); [by rewrite lookup_insert_ne by lia|done]. }
  split; [by apply merge_step|]. cbn. split; [apply lookup_insert_eq|]. done.
Qed.

(** The [buddy_is_free_buddy] test recognises exactly a free block of the same order. *)
Lemma is_free_buddy_ok (B : gmap Z (Z * status)) y p b :
  page_ok (B !! y) y b -> 0 <= p_order p ->
  buddy_is_free_buddy p b = true -> B !! y = Some (p_order p, Free).
Proof.
  unfold buddy_is_free_buddy. intros (_ & _ & Hm) Ho H. apply andb_prop in H as [Ef Eo]. bool_hyps.
  destruct (B !! y) as [[k [| | |]]|]; destruct Hm as (Hf & Hm); rewrite Hf in Ef; try done.
  destruct Hm as [<- _]. by rewrite Eo.
Qed.

Lemma inv_clear N B s x k st p f :
  inv N B s -> B !! x = Some (k, st) -> st = Used \/ st = Limbo -> pages s !! x = Some p -> p_refcnt p <= 1 ->
  p_flags (f p) = 0 -> p_index (f p) = p_index p -> p_order (f p) = p_order p ->
  p_refcnt (f p) = p_refcnt p -> p_next (f p) = None ->
  inv N (<[x := (k, Limbo)]> B) (Mem (<[x := f p]> (pages s)) (free_lists s)).
Proof.
  intros HI Hx Hst Hp Hrc Hf1 Hf2 Hf3 Hf4 Hf5.
  destruct (inv_head _ _ _ _ _ _ HI Hx) as (p' & Hp' & Hi & Hr & Hm). rewrite Hp in Hp'. injection Hp' as <-.
  eapply inv_status; [done..|destruct Hst; by subst|done|].
  unfold page_ok. rewrite Hf2, Hf4, Hf3. destruct Hst; subst; intuition.
Qed.

Section free.
Context (N : Z) (lfuel : nat) (HN : (2 ^ PAGE_MAX_ORDER | N)) (HN52 : N <= 2 ^ 52) (Hlf : (Z.to_nat N < lfuel)%nat).

(** What the operation promises: only the block at [x] stops being used. *)
Definition freed (B : gmap Z (Z * status)) (s : mem) (x : Z) (o : outcome mem unit) : Prop :=
  exists s' B', o = Done tt s' /\ wf N B' s' /\ (forall i, refcnt s' i = refcnt s i) /\
    forall h k', B' !! h = Some (k', Used) <-> B !! h = Some (k', Used) /\ h <> x.

Lemma free_push B s x k : inv N (<[x := (k, Limbo)]> B) s -> only_held B x ->
  freed B s x (buddy_list_push k x s).
Proof.
  intros HI Hoh. destruct (buddy_list_push_ok _ _ _ x k HI) as (s' & Hr & HI'); [apply lookup_insert_eq|].
  eexists s', _. split; [done|]. split; [split; [done|]|split; [by eapply keeps_push|]].
  - intros h k' st'. rewrite lookup_insert. case_decide; [intros [= <- <-] [?|?]; done|].
    rewrite lookup_insert_ne by done. intros Hh. by eapply Hoh.
  - intros h k'. rewrite insert_insert_eq, lookup_insert. case_decide; naive_solver.
Qed.

(** The merging branch, with [lo] the first half, [x] the block being freed
    and [y] its buddy, leaves the recursive call with the joined block. *)
Lemma free_merge B s x y lo k (c : M mem unit) :
  inv N (<[x := (k, Limbo)]> B) s -> B !! y = Some (k, Free) -> 0 <= k < PAGE_MAX_ORDER ->
  (2 ^ (k + 1) | lo) -> (x = lo /\ y = lo + 2 ^ k) \/ (y = lo /\ x = lo + 2 ^ k) -> only_held B x ->
  (forall s' B' p, inv N B' s' -> B' !! lo = Some (k + 1, Limbo) -> only_held B' lo ->
     pages s' !! lo = Some p -> p_refcnt p <= 1 -> freed B' s' lo (c s')) ->
  freed B s x ((buddy_list_remove lfuel k y;; upd (lo + 2 ^ k) (set_order 0);; q ← rd lo;
              upd lo (set_order (u32 (p_order q + 1)));; c) s).
Proof.
  intros HI Hy Hk Hal Hxy Hoh Hc. pose proof (pow2_pos k ltac:(lia)) as Hpk.
  destruct (buddy_list_remove_ok _ _ _ y k lfuel HI) as (s1 & Hr1 & HI1); [rewrite lookup_insert_ne by lia; done|done|].
  rewrite (bind_Done _ _ _ _ _ Hr1).
  destruct (merge_tail N _ s1 lo k c HI1 Hk) as (s2 & p & Hr2 & Hrk & HI2 & Hp & Hrc); [| |done|].
  1,2: rewrite !lookup_insert; repeat case_decide; subst; done || lia.
  rewrite Hr2. destruct (Hc s2 _ p HI2) as (s' & B' & Hr & HW & Hk' & Hu); [apply lookup_insert_eq| |done|done|].
  - intros h k' st' Hh Hne. rewrite lookup_insert_ne, lookup_delete in Hh by done. case_decide; [done|].
    rewrite !lookup_insert in Hh. repeat case_decide; subst; try lia. by eapply Hoh.
  - exists s', B'. split; [done|]. split; [done|]. split.
    { intros i. rewrite Hk', Hrk. by eapply keeps_remove. }
    intros h k'. rewrite Hu, !lookup_insert, lookup_delete.
    repeat case_decide; subst; rewrite ?lookup_insert; repeat case_decide; subst; naive_solver lia.
Qed.

Lemma freed_back B s s0 x o : freed B s x o -> (forall i, refcnt s i = refcnt s0 i) -> freed B s0 x o.
Proof. intros (s' & B' & E & HW & Hk & Hu) H. exists s', B'. split; [done|]. split; [done|]. split; [|done]. intros i. by rewrite Hk. Qed.

Lemma buddy_free_spec : forall fuel x B s k st p,
  inv N B s -> B !! x = Some (k, st) -> st = Used \/ st = Limbo -> only_held B x ->
  pages s !! x = Some p -> p_refcnt p <= 1 -> (Z.to_nat (PAGE_MAX_ORDER - k) < fuel)%nat ->
  freed B s x (buddy_free fuel lfuel x s).
Proof.
  induction fuel as [|fuel IH]; intros x B s k st p HI Hx Hst Hoh Hp Hrc Hfu; [lia|].
  destruct (inv_head _ _ _ _ _ _ HI Hx) as (p' & Hp' & Hpi & _ & Hm). rewrite Hp in Hp'. injection Hp' as <-.
  destruct (bk_bounds _ _ (inv_blocks _ _ _ HI) _ _ _ Hx) as (Hk & Hx0 & HxN & Hal).
  assert (Hpo : p_order p = k) by (destruct Hst; subst; cbn in Hm; tauto).
  assert (Hpn : p_next p = None) by (destruct Hst; subst; cbn in Hm; tauto).
  assert (Hpf : Z.land (p_flags p) (Z.lnot PF_FIRST_PAGE) = 0) by (destruct Hst; subst; destruct Hm as [-> _]; done).
  cbn [buddy_free]. mstep. rewrite (rd_at _ _ _ Hp), (proj2 (Z.ltb_ge _ _) Hrc).
  rewrite (upd_at _ _ _ _ Hp), Hpo.
  pose proof (inv_clear _ _ _ _ _ _ _ (clear_flag PF_FIRST_PAGE) HI Hx Hst Hp Hrc Hpf eq_refl eq_refl eq_refl Hpn) as HI1.
  destruct (k =? PAGE_MAX_ORDER) eqn:Ek; bool_hyps; [eapply freed_back; [by apply free_push|]; by eapply (refcnt_insert s)|].
  set (bi := buddy_find_buddy_index p).
  assert (Hlo : exists lo, (2 ^ (k + 1) | lo) /\ ((x = lo /\ bi = lo + 2 ^ k) \/ (bi = lo /\ x = lo + 2 ^ k)) /\
     0 <= bi /\ bi + 2 ^ k <= N /\ (Z.land (Z.shiftr bi k) 1 =? 0) = (bi =? lo)).
  { pose proof (pow2_pos k ltac:(lia)) as Hpk. unfold bi.
    destruct (buddy_index_cases N p x k) as [(-> & Hal2 & Hb1 & ->)|(-> & Hal2 & Hb1 & ->)]; try done; try lia.
    - exists x. split; [done|]. split; [by left|]. split; [lia|]. split; [lia|]. symmetry. apply Z.eqb_neq. lia.
    - exists (x - 2 ^ k). split; [done|]. split; [right; lia|]. split; [lia|]. split; [lia|]. by rewrite Z.eqb_refl. }
  destruct Hlo as (lo & Hal2 & Hxy & Hbi0 & HbiN & Hside). pose proof (pow2_pos k ltac:(lia)) as Hpk.
  destruct (inv_pages _ _ _ HI bi) as (b & Hb & Hbok); [lia|].
  erewrite rd_at by (cbn [pages]; rewrite lookup_insert_ne by lia; exact Hb).
  destruct (buddy_is_free_buddy p b) eqn:Efb; cbn [negb]; [|eapply freed_back; [by apply free_push|]; by eapply (refcnt_insert s)].
  apply (is_free_buddy_ok B bi) in Efb; [|done|lia]. rewrite Hpo in Efb.
  erewrite upd_at by (cbn; apply lookup_insert_eq). cbn [pages free_lists]. rewrite insert_insert_eq.
  erewrite upd_at by (cbn; apply lookup_insert_eq). cbn [pages free_lists]. rewrite insert_insert_eq.
  assert (Hpf2 : Z.land (Z.land (p_flags p) (Z.lnot PF_FIRST_PAGE)) (Z.lnot PF_FREE_LIST) = 0) by by rewrite Hpf.
  pose proof (inv_clear _ _ _ _ _ _ _ (fun p => set_next None (clear_flag PF_FREE_LIST (clear_flag PF_FIRST_PAGE p)))
                HI Hx Hst Hp Hrc Hpf2 eq_refl eq_refl eq_refl eq_refl) as HI2.
  pose proof (free_merge B _ x bi lo k (buddy_free fuel lfuel lo) HI2 Efb ltac:(lia) Hal2 Hxy Hoh) as Hfin.
  edestruct (buddy_list_remove_ok _ _ _ bi k lfuel HI2) as (s3 & Hr3 & HI3); [rewrite lookup_insert_ne by lia; done|done|].
  rewrite Hr3. rewrite (bind_Done _ _ _ _ _ Hr3) in Hfin.
  assert (Hrec : forall s' B' p0, inv N B' s' -> B' !! lo = Some (k + 1, Limbo) -> only_held B' lo ->
     pages s' !! lo = Some p0 -> p_refcnt p0 <= 1 -> freed B' s' lo (buddy_free fuel lfuel lo s')).
  { intros. eapply IH; eauto. lia. }
  specialize (Hfin Hrec). pose proof (freed_back _ _ s _ _ Hfin ltac:(by eapply (refcnt_insert s))) as Hfin2. clear Hfin.
  rewrite Hside. revert Hfin2. mstep.
  destruct Hxy as [[<- ->]|[-> ->]].
  - replace (x + 2 ^ k =? x) with false by (symmetry; apply Z.eqb_neq; lia).
    by destruct (upd (x + 2 ^ k) (set_order 0) s3).
  - rewrite Z.eqb_refl. by destruct (upd (lo + 2 ^ k) (set_order 0) s3).
Qed.

End free.

(** ** Initialisation *)
Fixpoint init_B (n : nat) : gmap Z (Z * status) :=
  match n with
  | O => ∅
  | S n => <[Z.of_nat n * max_page_block := (PAGE_MAX_ORDER, Free)]> (init_B n)
  end.

Lemma init_B_lookup n h b :
  init_B n !! h = Some b <-> b = (PAGE_MAX_ORDER, Free) /\ exists j, 0 <= j < Z.of_nat n /\ h = j * max_page_block.
Proof.
  induction n as [|n IH]; cbn [init_B].
  { rewrite lookup_empty. split; [done|]. intros (_ & j & ? & _). lia. }
  rewrite lookup_insert. case_decide as E.
  - split; [|intros [-> _]; done]. intros [= <-]. split; [done|]. exists (Z.of_nat n). split; [lia|done].
  - rewrite IH. split; intros (-> & j & Hj & ->); (split; [done|]); exists j; (split; [|done]); [lia|].
    destruct (decide (j = Z.of_nat n)) as [->|]; [done|lia].
Qed.

Lemma init_index_lookup n i : init_index n ∅ !! i = if decide (0 <= i < Z.of_nat n) then Some (set_index i zero_page) else None.
Proof.
  induction n as [|n IH]; cbn [init_index].
  { rewrite lookup_empty. case_decide; [lia|done]. }
  rewrite lookup_insert, IH. repeat case_decide; subst; try lia; done.
Qed.

Lemma clear_lists_lookup n k : 0 <= k < Z.of_nat n -> clear_lists n !! k = Some None.
Proof.
  induction n as [|n IH]; intros Hk; [lia|]. cbn [clear_lists]. rewrite lookup_insert.
  case_decide; [done|]. apply IH. lia.
Qed.

Lemma init_blocks_ok len : forall n i s,
  (forall j, i <= j < i + Z.of_nat n -> is_Some (pages s !! (j * max_page_block))) ->
  exists s', init_blocks n len i s = Done tt s' /\ free_lists s' = free_lists s /\
    (forall j, i <= j < i + Z.of_nat n -> pages s' !! (j * max_page_block) = init_block len j <$> pages s !! (j * max_page_block)) /\
    (forall a, (forall j, i <= j < i + Z.of_nat n -> a <> j * max_page_block) -> pages s' !! a = pages s !! a).
Proof.
  induction n as [|n IH]; intros i s Hs.
  { exists s. split; [done|]. split; [done|]. split; [intros; lia|done]. }
  destruct (Hs i) as [p Hp]; [lia|]. cbn [init_blocks]. mstep. rewrite (upd_at _ _ _ _ Hp).
  destruct (IH (i + 1) (Mem (<[i * max_page_block := init_block len i p]> (pages s)) (free_lists s)))
    as (s' & Hr & Hfl & H1 & H2).
  { intros j Hj. cbn. rewrite lookup_insert. case_decide; [done|]. apply Hs. lia. }
  assert (Hb : max_page_block = 1024) by done.
  exists s'. split; [done|]. split; [done|]. split.
  - intros j Hj. destruct (decide (j = i)) as [->|Hne].
    + rewrite H2 by (intros; lia). cbn. by rewrite lookup_insert_eq, Hp.
    + rewrite H1 by lia. cbn. rewrite lookup_insert_ne by lia. done.
  - intros a Ha. rewrite H2 by (intros; apply Ha; lia). cbn. apply lookup_insert_ne. specialize (Ha i). lia.
Qed.

Lemma init_chain ps len n : forall i,
  (forall j, i <= j < len -> exists p, ps !! (j * max_page_block) = Some p /\
     p_next p = if j <? len - 1 then Some ((j + 1) * max_page_block) else None) ->
  i + Z.of_nat (S n) = len ->
  chain ps (Some (i * max_page_block)) ((fun j => j * max_page_block) <$> seqZ i (len - i)).
Proof.
  induction n as [|n IH]; intros i Hp Hl; rewrite seqZ_cons by lia; cbn; (split; [done|]);
    destruct (Hp i) as (p & Hpi & Hn); try lia; exists p; (split; [done|]); rewrite Hn.
  - replace (Z.pred (len - i)) with 0 by lia. replace (i <? len - 1) with false by (symmetry; apply Z.ltb_ge; lia). done.
  - replace (i <? len - 1) with true by (symmetry; apply Z.ltb_lt; lia).
    replace (Z.pred (len - i)) with (len - (i + 1)) by lia. replace (Z.succ i) with (i + 1) by lia.
    apply IH; [intros; apply Hp; lia|lia].
Qed.

Lemma init_blocks_shape len : 0 <= len -> blocks_ok (len * max_page_block) (init_B (Z.to_nat len)).
Proof.
  intros Hl. assert (Hb : max_page_block = 2 ^ PAGE_MAX_ORDER) by done.
  assert (H1024 : 2 ^ PAGE_MAX_ORDER = 1024) by done. split.
  - intros h k st ([= -> ->] & j & Hj & ->)%init_B_lookup. rewrite Hb, H1024.
    repeat split; try (unfold PAGE_MAX_ORDER; lia). by exists j.
  - intros h k st h' k' st' ([= -> ->] & j & Hj & ->)%init_B_lookup ([= -> ->] & j' & Hj' & ->)%init_B_lookup.
    rewrite Hb, H1024. nia.
  - intros i Hi. exists (i / max_page_block * max_page_block), PAGE_MAX_ORDER, Free. rewrite init_B_lookup.
    rewrite Hb, H1024 in *. split; [split; [done|]; exists (i / 1024)|]; [|].
    + split; [|done]. rewrite Z2Nat.id by lia. split; [apply Z.div_pos; lia|]. apply Z.div_lt_upper_bound; lia.
    + pose proof (Z.div_mod i 1024). pose proof (Z.mod_pos_bound i 1024). lia.
Qed.

Lemma buddy_init_ok _end N s :
  _end <= PAGE_START -> 0 < N -> (max_page_block | N) ->
  exists s', buddy_init _end N s = Done tt s' /\ wf N (init_B (Z.to_nat (N / max_page_block))) s'.
Proof.
  intros He HN [len ->]. assert (Hb : max_page_block = 1024) by done.
  unfold buddy_init. rewrite (proj2 (Z.ltb_ge _ _) He). mstep. rewrite Z.div_mul by done.
  assert (Hlen : 0 < len) by lia.
  destruct (init_blocks_ok len (Z.to_nat len) 0
    (Mem (init_index (Z.to_nat (len * max_page_block)) ∅) (clear_lists (Z.to_nat PAGE_MAX_DEPTH)))) as (s' & Hr & Hfl & H1 & H2).
  { intros j Hj. cbn. rewrite init_index_lookup, decide_True by lia. eauto. }
  rewrite Hr. unfold wr_head. rewrite Hfl. cbn [free_lists]. rewrite clear_lists_lookup by (unfold PAGE_MAX_DEPTH, PAGE_MAX_ORDER; lia).
  eexists. split; [done|]. cbn [pages free_lists] in *.
  assert (Hblk : forall j, 0 <= j < len -> pages s' !! (j * max_page_block) = Some (init_block len j (set_index (j * max_page_block) zero_page))).
  { intros j Hj. rewrite H1, init_index_lookup, decide_True by lia. done. }
  split; [split|].
  - apply init_blocks_shape. lia.
  - intros i Hi. cbn. destruct (init_B (Z.to_nat len) !! i) as [b|] eqn:EB.
    + apply init_B_lookup in EB as (-> & j & Hj & ->). rewrite Hblk by lia. eexists. split; [done|].
      unfold init_block. by destruct (j <? len - 1).
    + rewrite H2; cycle 1.
      { intros j Hj ->. rewrite (proj2 (init_B_lookup _ _ (PAGE_MAX_ORDER, Free))) in EB; [done|].
        split; [done|]. exists j. split; [lia|done]. }
      rewrite init_index_lookup, decide_True by lia.
      eexists. split; [done|]. done.
  - intros k Hk. destruct (decide (k = PAGE_MAX_ORDER)) as [->|Hne].
    + exists (Some 0), ((fun j => j * max_page_block) <$> seqZ 0 (len - 0)). cbn. rewrite lookup_insert_eq. split; [done|].
      split; [|split].
      * apply (init_chain _ len (Z.to_nat (len - 1)) 0); [|lia]. intros j Hj. rewrite Hblk by lia. eexists.
        split; [done|]. unfold init_block. by destruct (j <? len - 1).
      * apply NoDup_fmap_2; [intros ? ? ?; lia|]. apply NoDup_seqZ.
      * intros x. rewrite list_elem_of_fmap, init_B_lookup. setoid_rewrite elem_of_seqZ.
        split; [intros (j & -> & Hj); split; [done|]; exists j; lia|]. intros (_ & j & Hj & ->). exists j. lia.
    + exists None, []. cbn. rewrite lookup_insert_ne, clear_lists_lookup by (done || unfold PAGE_MAX_DEPTH, PAGE_MAX_ORDER in *; lia).
      split; [done|]. split; [done|]. split; [constructor|]. intros x. split; [by intros ?%elem_of_nil|].
      intros ([= ->] & _)%init_B_lookup. done.
  - intros h k st ([= -> ->] & _)%init_B_lookup [?|?]; done.
Qed.

(** ** Addresses and block heads *)
Lemma find_by_address_ok N x : 0 <= x < N -> N <= 2 ^ 52 ->
  page_find_by_address N (PAGE_START + PAGE_SIZE * x) = Some x.
Proof.
  intros Hx HN. unfold page_find_by_address.
  replace (PAGE_START + PAGE_SIZE * x - PAGE_START) with (x * PAGE_SIZE) by lia.
  rewrite Z.quot_mul by done. rewrite wrap_small by lia. by rewrite (proj2 (Z.ltb_lt _ _)) by lia.
Qed.

Lemma find_head_loop_ok N B s h k : wf N B s -> B !! h = Some (k, Used) -> N <= 2 ^ 52 ->
  forall n i fuel, i = h + Z.of_nat n -> i < h + 2 ^ k -> (n < fuel)%nat ->
  page_find_head_loop fuel N i s = Done (Some h) s.
Proof.
  intros [HI Hst] Hh HN. destruct (bk_bounds _ _ (inv_blocks _ _ _ HI) _ _ _ Hh) as (Hk & Hh0 & HhN & _).
  induction n as [|n IH]; intros i fuel -> Hi Hf; (destruct fuel as [|fuel]; [lia|]); cbn [page_find_head_loop];
    rewrite (proj2 (Z.ltb_lt _ _)) by lia.
  - rewrite Z.add_0_r. destruct (inv_head _ _ _ _ _ _ HI Hh) as (p & Hp & _ & _ & Hf1 & _).
    mstep. rewrite (rd_at _ _ _ Hp), Hf1. done.
  - destruct (inv_pages _ _ _ HI (h + Z.of_nat (S n))) as (p & Hp & Hok); [lia|].
    rewrite (blocks_inside N B h k Used) in Hok by (apply HI || done || lia).
    destruct Hok as (_ & _ & Hf1 & _). mstep. rewrite (rd_at _ _ _ Hp), Hf1. cbn [negb].
    rewrite wrap_small by lia. apply IH; lia.
Qed.

Lemma page_find_head_ok N B s h k i :
  wf N B s -> N <= 2 ^ 52 -> B !! h = Some (k, Used) -> h <= i < h + 2 ^ k ->
  page_find_head N i s = Done (Some h) s.
Proof.
  intros HW HN Hh Hi. destruct (bk_bounds _ _ (inv_blocks _ _ _ (wf_inv _ _ _ HW)) _ _ _ Hh) as (Hk & Hh0 & HhN & _).
  destruct (inv_pages _ _ _ (wf_inv _ _ _ HW) i) as (p & Hp & Hpi & _); [lia|].
  unfold page_find_head. mstep. rewrite (rd_at _ _ _ Hp), Hpi.
  apply (find_head_loop_ok N B s h k HW Hh HN (Z.to_nat (i - h))); lia.
Qed.
