(* ===== verification/BuddyProps.v ===== *)
(** * Properties of the page allocator

    The theorems about buddy.c, page.c and kalloc.c, stated on the invariant
    of BuddyInv, with a boot state as their witness. *)
From S2P Require Import Prelude Buddy BuddyInv.

(** Blocks handed out, as a predicate on the abstract state. *)
Definition used (B : gmap Z (Z * status)) (h k : Z) : Prop := B !! h = Some (k, Used).

(** Booting the allocator over any positive number of pages that is a
    multiple of the largest block establishes the invariant: every page belongs
    to exactly one block, all blocks are free and of the largest order, and the
    last free list holds them all. *)
Theorem buddy_init_establishes _end N s :
  _end <= PAGE_START -> 0 < N -> (max_page_block | N) ->
  exists s', buddy_init _end N s = Done tt s' /\ wf N (init_B (Z.to_nat (N / max_page_block))) s' /\
    forall h k, ~ used (init_B (Z.to_nat (N / max_page_block))) h k.
Proof.
  intros He HN Hd. destruct (buddy_init_ok _end N s He HN Hd) as (s' & Hr & HW).
  exists s'. split; [done|]. split; [done|]. intros h k H. apply init_B_lookup in H. naive_solver.
Qed.

Lemma buddy_init_establishes_witness :
  exists s', buddy_init 0x80500000 PAGE_NUM (Mem ∅ ∅) = Done tt s' /\ wf PAGE_NUM (init_B 62) s'.
Proof.
  destruct (buddy_init_establishes 0x80500000 PAGE_NUM (Mem ∅ ∅)) as (s' & Hr & HW & _).
  - done.
  - done.
  - exists 62. done.
  - exists s'. split; [exact Hr|exact HW].
Defined.

(** C39: [buddy_alloc] never leaves the arrays, and either returns the head of
    a block of the least order that holds the request, which was not in use,
    overlaps no block in use, is aligned to its size and has reference count
    one, keeping the invariant; or panics, exactly because no free block is
    large enough or the request exceeds the largest block. *)
Theorem buddy_alloc_correct N B s size :
  wf N B s -> 0 <= size < 2 ^ 64 ->
  (exists k x s' B', fits k size /\ buddy_alloc size s = Done x s' /\ wf N B' s' /\ (2 ^ k | x) /\
     (forall h k', used B' h k' <-> h = x /\ k' = k \/ used B h k') /\
     (forall h k', used B h k' -> h + 2 ^ k' <= x \/ x + 2 ^ k <= h) /\
     exists p, pages s' !! x = Some p /\ p_refcnt p = 1) \/
  (exists k, fits k size /\ buddy_alloc size s = Panic "out of memory" /\
     forall k' x, k <= k' -> B !! x <> Some (k', Free)) \/
  (2 ^ PAGE_MAX_ORDER * PAGE_SIZE < size /\ buddy_alloc size s = Panic "No memory").
Proof.
  intros HW Hsz.
  destruct (buddy_alloc_ok N B s size HW Hsz) as [(k & x & s' & B' & Hf & Hr & HW' & Hx & Hu & Hn & Hp)|H]; [left|by right].
  exists k, x, s', B'. pose proof (inv_blocks _ _ _ (wf_inv _ _ _ HW')) as HB'.
  split; [done|]. split; [done|]. split; [done|]. split; [by apply (bk_bounds _ _ HB' _ _ _ Hx)|].
  split; [done|]. split; [|done]. intros h k' Hh. assert (h <> x) by (intros ->; by eapply Hn).
  apply (bk_disjoint _ _ HB' _ _ Used _ _ Used); [|done|done]. apply Hu. by right.
Qed.

(** A boot state with [1024 * n] pages. *)
Lemma boot_state n : 0 < n -> exists s', buddy_init 0 (n * max_page_block) (Mem ∅ ∅) = Done tt s' /\
  wf (n * max_page_block) (init_B (Z.to_nat n)) s'.
Proof.
  intros Hn. assert (Hb : max_page_block = 1024) by done.
  destruct (buddy_init_ok 0 (n * max_page_block) (Mem ∅ ∅)) as (s' & Hr & HW); [done|lia|by exists n|].
  rewrite Z.div_mul in HW by done. eauto.
Qed.

Lemma buddy_alloc_correct_witness :
  exists s s' x, buddy_init 0 2048 (Mem ∅ ∅) = Done tt s /\ buddy_alloc 5000 s = Done x s'.
Proof.
  destruct (boot_state 2) as (s & Hr & HW); [lia|].
  destruct (buddy_alloc_correct _ _ s 5000 HW) as [(k & x & s' & B' & _ & Ha & _)|[(k & Hf & _ & He)|[Hbig _]]]; [lia| | |].
  - exists s, s', x. split; [exact Hr|exact Ha].
  - exfalso. apply (He PAGE_MAX_ORDER 0); [destruct Hf as ([_ Hle] & _); exact Hle|]. vm_compute. reflexivity.
  - exfalso. revert Hbig. vm_compute. discriminate.
Defined.

(** C40: [buddy_free] of a block in use whose last reference goes away returns
    (at most eleven merges, no fuel shortage, no panic "broken page"), keeps
    the invariant, and takes exactly that block out of use. *)
Theorem buddy_free_correct N B s x k p :
  wf N B s -> (2 ^ PAGE_MAX_ORDER | N) -> N <= 2 ^ 52 -> used B x k ->
  pages s !! x = Some p -> p_refcnt p <= 1 ->
  exists s' B', buddy_free (Z.to_nat PAGE_MAX_DEPTH) (Z.to_nat N + 1) x s = Done tt s' /\ wf N B' s' /\
    forall h k', used B' h k' <-> used B h k' /\ h <> x.
Proof.
  intros [HI Hst] HN HN52 Hx Hp Hrc.
  destruct (buddy_free_spec N (Z.to_nat N + 1) HN HN52 ltac:(lia) (Z.to_nat PAGE_MAX_DEPTH) x B s k Used p HI Hx (or_introl eq_refl))
    as (s' & B' & Hr & HW' & _ & Hu); [|done|done| |by exists s', B'].
  - intros h k' st Hh _. by eapply Hst.
  - destruct (bk_bounds _ _ (inv_blocks _ _ _ HI) _ _ _ Hx) as (? & _). unfold PAGE_MAX_DEPTH. lia.
Qed.

Lemma buddy_free_correct_witness :
  exists s s1 x s2, buddy_init 0 2048 (Mem ∅ ∅) = Done tt s /\ buddy_alloc 5000 s = Done x s1 /\
    buddy_free 11 2049 x s1 = Done tt s2.
Proof.
  destruct (boot_state 2) as (s & Hr & HW); [lia|].
  destruct (buddy_alloc_ok _ _ s 5000 HW)
    as [(k & x & s1 & B' & _ & Ha & HW' & Hx & _ & _ & p & Hp & Hrc)|[(k & Hf & _ & He)|[Hbig _]]]; [lia| | |].
  - destruct (buddy_free_correct _ B' s1 x k p HW') as (s2 & B2 & Hfr & _).
    + exists 2. reflexivity.
    + vm_compute. discriminate.
    + exact Hx.
    + exact Hp.
    + lia.
    + exists s, s1, x, s2. split; [exact Hr|]. split; [exact Ha|exact Hfr].
  - exfalso. apply (He PAGE_MAX_ORDER 0); [destruct Hf as ([_ Hle] & _); exact Hle|]. vm_compute. reflexivity.
  - exfalso. revert Hbig. vm_compute. discriminate.
Defined.

(** [buddy_free] of a block with more than one reference only drops a
    reference: no list and no other page changes. *)
Theorem buddy_free_shared fuel lfuel x s p :
  pages s !! x = Some p -> 1 < p_refcnt p < 2 ^ 32 ->
  buddy_free (S fuel) lfuel x s =
    Done tt (Mem (<[x := set_refcnt (p_refcnt p - 1) p]> (pages s)) (free_lists s)).
Proof.
  intros Hp Hr. cbn [buddy_free]. mstep. rewrite (rd_at _ _ _ Hp), (proj2 (Z.ltb_lt _ _)) by lia.
  rewrite (upd_at _ _ _ _ Hp), wrap_small by lia. done.
Qed.

Lemma buddy_free_shared_witness :
  buddy_free 11 1 7 (Mem {[7 := Page 7 2 0 2 None]} ∅) = Done tt (Mem {[7 := Page 7 2 0 1 None]} ∅).
Proof.
  rewrite (buddy_free_shared 10 1 7 _ (Page 7 2 0 2 None)); [reflexivity|reflexivity|cbn; lia].
Defined.

(** C44: [kalloc] hands out a page-aligned address of the page pool, and
    [kfree] on that address gives the page back: the blocks in use are those
    before the allocation, and the invariant holds again. *)
Theorem kalloc_kfree N B s pa s1 :
  wf N B s -> (2 ^ PAGE_MAX_ORDER | N) -> N <= 2 ^ 52 -> kalloc s = Done pa s1 ->
  (PAGE_SIZE | pa) /\ PAGE_START <= pa < PAGE_START + PAGE_SIZE * N /\
  exists s2 B2, kfree N pa s1 = Done tt s2 /\ wf N B2 s2 /\ forall h k, used B2 h k <-> used B h k.
Proof.
  intros HW HN HN52 Hk. unfold kalloc in Hk. apply bind_Done_inv in Hk as (x & s1' & Ha & Hk).
  destruct (buddy_alloc_ok N B s PAGE_SIZE HW) as [(k & x' & s' & B' & _ & Ha' & HW' & Hx & Hu & Hnu & p & Hp & Hrc)|[(k & _ & Ha' & _)|[_ Ha']]];
    [done| |congruence|congruence].
  rewrite Ha in Ha'. injection Ha' as <- <-. revert Hk. mstep. rewrite (rd_at _ _ _ Hp). intros [= <- <-].
  destruct (bk_bounds _ _ (inv_blocks _ _ _ (wf_inv _ _ _ HW')) _ _ _ Hx) as (Hk0 & Hx0 & HxN & _).
  pose proof (pow2_pos k ltac:(lia)).
  destruct (inv_head _ _ _ _ _ _ (wf_inv _ _ _ HW') Hx) as (p' & Hp' & Hi & _). rewrite Hp in Hp'. injection Hp' as <-.
  unfold page_address. rewrite Hi. assert (PAGE_SIZE = 4096) by done.
  split; [apply Z.divide_add_r; [by exists 0x80600|apply Z.divide_factor_l]|]. split; [lia|].
  unfold kfree. rewrite find_by_address_ok by lia. unfold deref. mstep.
  assert (Hl : (Z.to_nat N < Z.to_nat N + 1)%nat) by lia. assert (Hrc1 : p_refcnt p <= 1) by lia.
  assert (Hfu : (Z.to_nat (PAGE_MAX_ORDER - k) < Z.to_nat PAGE_MAX_DEPTH)%nat) by (unfold PAGE_MAX_DEPTH; lia).
  pose proof (buddy_free_spec N (Z.to_nat N + 1) HN HN52 Hl (Z.to_nat PAGE_MAX_DEPTH) x B' s1' k Used p
    (wf_inv _ _ _ HW') Hx (or_introl eq_refl)) as Hfree.
  destruct Hfree as (s2 & B2 & Hr & HW2 & _ & Hu2); [| |done|done|].
  - intros h k' st Hh _. by eapply (wf_stable _ _ _ HW').
  - done.
  - exists s2, B2. split; [done|]. split; [done|]. unfold used. intros h k'. rewrite Hu2, Hu. naive_solver.
Qed.

Lemma kalloc_kfree_witness :
  exists s pa s1, kalloc s = Done pa s1 /\ (PAGE_SIZE | pa).
Proof.
  destruct (boot_state 1) as (s & Hr & HW); [lia|].
  destruct (buddy_alloc_ok _ _ s PAGE_SIZE HW)
    as [(k & x & s1 & B' & _ & Ha & _ & _ & _ & _ & p & Hp & _)|[(k & Hf & _ & He)|[Hbig _]]]; [unfold PAGE_SIZE; lia| | |].
  - assert (Hk : kalloc s = Done (page_address p) s1).
    { unfold kalloc. rewrite (bind_Done _ _ _ _ _ Ha). unfold mbind, M_bind. rewrite (rd_at _ _ _ Hp). reflexivity. }
    exists s, (page_address p), s1. split; [exact Hk|].
    apply (kalloc_kfree _ _ s (page_address p) s1 HW); [exists 1; reflexivity|vm_compute; discriminate|exact Hk].
  - exfalso. apply (He PAGE_MAX_ORDER 0); [destruct Hf as ([_ Hle] & _); exact Hle|]. vm_compute. reflexivity.
  - exfalso. revert Hbig. vm_compute. discriminate.
Defined.

(** [page_find_head] finds, for any page inside a block in use, the
    block's first page: the walk down the flags stops there and nowhere
    else. *)
Theorem page_find_head_correct N B s h k i :
  wf N B s -> N <= 2 ^ 52 -> used B h k -> h <= i < h + 2 ^ k ->
  page_find_head N i s = Done (Some h) s.
Proof. apply page_find_head_ok. Qed.

Lemma page_find_head_correct_witness :
  exists s1 x i, x < i /\ page_find_head 2048 i s1 = Done (Some x) s1.
Proof.
  destruct (boot_state 2) as (s & Hr & HW); [lia|].
  destruct (buddy_alloc_ok _ _ s 5000 HW)
    as [(k & x & s1 & B' & Hfit & Ha & HW' & Hx & _ & _ & _)|[(k & Hf & _ & He)|[Hbig _]]]; [lia| | |].
  - exists s1, x, (x + 1). split; [lia|]. destruct Hfit as ([Hk0 Hk1] & Hsz & _).
    assert (Hk : k <> 0) by (intros ->; revert Hsz; vm_compute; intros Hc; apply Hc; reflexivity).
    apply (page_find_head_correct _ B' s1 x k (x + 1) HW'); [vm_compute; discriminate|exact Hx|].
    pose proof (Z.pow_le_mono_r 2 1 k). lia.
  - exfalso. apply (He PAGE_MAX_ORDER 0); [destruct Hf as ([_ Hle] & _); exact Hle|]. vm_compute. reflexivity.
  - exfalso. revert Hbig. vm_compute. discriminate.
Defined.
