(* ===== verification/CString.v ===== *)
(** * Byte memory and the string routines (kernel/string.c)

    Memory is a finite map from addresses to bytes; touching an address that
    is not mapped is undefined.  The routines are the pointer loops of the
    source: each [while] is a [Fixpoint] on the number of iterations left, and
    [memmove] chooses its direction from the addresses, so that overlapping
    ranges are really copied through the same memory. *)
From S2P Require Import Prelude.

Definition ld (a : Z) : M (gmap Z Z) Z := fun m => deref (m !! a) m.
Definition sto (a v : Z) : M (gmap Z Z) unit := fun m =>
  match m !! a with
  | Some _ => Done tt (<[a := u8 v]> m)
  | None => Undef
  end.

(** [memset]: [i] counts up from 0 to [n]. *)
Fixpoint memset_loop (k : nat) (dst i c : Z) : M (gmap Z Z) unit :=
  match k with
  | O => mret tt
  | S k => sto (dst + i) c;; memset_loop k dst (i + 1) c
  end.
Definition memset (dst c n : Z) : M (gmap Z Z) Z := memset_loop (Z.to_nat n) dst 0 c;; mret dst.

Fixpoint memcmp_loop (n : nat) (s1 s2 : Z) : M (gmap Z Z) Z :=
  match n with
  | O => mret 0
  | S n =>
      a ← ld s1; b ← ld s2;
      if a =? b then memcmp_loop n (s1 + 1) (s2 + 1) else mret (a - b)
  end.
Definition memcmp (v1 v2 n : Z) : M (gmap Z Z) Z := memcmp_loop (Z.to_nat n) v1 v2.

(** [while (n-- > 0) *d++ = *s++]. *)
Fixpoint copy_up (n : nat) (d s : Z) : M (gmap Z Z) unit :=
  match n with
  | O => mret tt
  | S n => v ← ld s; sto d v;; copy_up n (d + 1) (s + 1)
  end.
(** [while (n-- > 0) *--d = *--s]. *)
Fixpoint copy_down (n : nat) (d s : Z) : M (gmap Z Z) unit :=
  match n with
  | O => mret tt
  | S n => v ← ld (s - 1); sto (d - 1) v;; copy_down n (d - 1) (s - 1)
  end.
Definition memmove (dst src n : Z) : M (gmap Z Z) Z :=
  if n =? 0 then mret dst
  else if (src <? dst) && (dst <? src + n)
  then copy_down (Z.to_nat n) (dst + n) (src + n);; mret dst
  else copy_up (Z.to_nat n) dst src;; mret dst.
Definition memcpy (dst src n : Z) : M (gmap Z Z) Z := memmove dst src n.

Fixpoint strncmp_loop (n : nat) (p q : Z) : M (gmap Z Z) Z :=
  match n with
  | O => mret 0
  | S n =>
      a ← ld p;
      if a =? 0 then b ← ld q; mret (a - b)
      else
        b ← ld q;
        if a =? b then strncmp_loop n (p + 1) (q + 1) else mret (a - b)
  end.
Definition strncmp (p q n : Z) : M (gmap Z Z) Z := strncmp_loop (Z.to_nat n) p q.

(** The two loops of [strncpy]. *)
Fixpoint zero_fill (n : nat) (s : Z) : M (gmap Z Z) unit :=
  match n with
  | O => mret tt
  | S n => sto s 0;; zero_fill n (s + 1)
  end.
Fixpoint strncpy_loop (n : nat) (s t : Z) : M (gmap Z Z) unit :=
  match n with
  | O => mret tt
  | S n =>
      v ← ld t; sto s v;;
      if v =? 0 then zero_fill n (s + 1) else strncpy_loop n (s + 1) (t + 1)
  end.
Definition strncpy (s t n : Z) : M (gmap Z Z) Z := strncpy_loop (Z.to_nat n) s t;; mret s.

(** [while (--n > 0 && ...)] of [safestrcpy], returning the final [s];
    [k] is the number of times [--n > 0] can still hold. *)
Fixpoint safestrcpy_loop (k : nat) (s t : Z) : M (gmap Z Z) Z :=
  match k with
  | O => mret s
  | S k =>
      v ← ld t; sto s v;;
      if v =? 0 then mret (s + 1) else safestrcpy_loop k (s + 1) (t + 1)
  end.
Definition safestrcpy (s t n : Z) : M (gmap Z Z) Z :=
  if n <=? 0 then mret s
  else e ← safestrcpy_loop (Z.to_nat (n - 1)) s t; sto e 0;; mret s.

Fixpoint strlen_loop (fuel : nat) (s n : Z) : M (gmap Z Z) Z :=
  match fuel with
  | O => nofuel
  | S fuel => v ← ld (s + n); if v =? 0 then mret n else strlen_loop fuel s (n + 1)
  end.
Definition strlen (fuel : nat) (s : Z) : M (gmap Z Z) Z := strlen_loop fuel s 0.

(** ** Ranges of memory *)

(** [range m a l]: the bytes [l] are stored from address [a] on. *)
Definition range (m : gmap Z Z) (a : Z) (l : list Z) : Prop :=
  forall (i : nat) x, l !! i = Some x -> m !! (a + Z.of_nat i) = Some x.

(** [mapped m a n]: the [n] addresses from [a] on are mapped. *)
Definition mapped (m : gmap Z Z) (a n : Z) : Prop := forall i, 0 <= i < n -> is_Some (m !! (a + i)).

(** A NUL-terminated string with contents [l] at [a]. *)
Definition cstr (m : gmap Z Z) (a : Z) (l : list Z) : Prop :=
  range m a (l ++ [0]) /\ Forall (fun x => 0 < x < 256) l.

(** Memory whose cells hold bytes. *)
Definition bytes (m : gmap Z Z) : Prop := forall a x, m !! a = Some x -> 0 <= x < 256.

Lemma sto_mapped m a v : is_Some (m !! a) -> sto a v m = Done tt (<[a := u8 v]> m).
Proof. intros [x Hx]. unfold sto. by rewrite Hx. Qed.

Lemma ld_at m a x : m !! a = Some x -> ld a m = Done x m.
Proof. unfold ld, deref. by intros ->. Qed.

Lemma mapped_insert m a n b v : mapped m a n -> mapped (<[b := v]> m) a n.
Proof. intros H i Hi. rewrite lookup_insert. case_decide; [done|]. by apply H. Qed.

Lemma bytes_insert m a v : bytes m -> bytes (<[a := u8 v]> m).
Proof.
  intros H b x. rewrite lookup_insert. case_decide; [|apply H].
  intros [= <-]. apply (wrap_range 8). lia.
Qed.

(** Copying upwards is right when the destination does not start inside the
    source, copying downwards when it does not end inside it. *)
Lemma copy_up_spec : forall n d s m, bytes m ->
  mapped m d (Z.of_nat n) -> mapped m s (Z.of_nat n) -> (d <= s \/ s + Z.of_nat n <= d) ->
  exists m', copy_up n d s m = Done tt m' /\
    (forall i, 0 <= i < Z.of_nat n -> m' !! (d + i) = m !! (s + i)) /\
    (forall a, ~ (d <= a < d + Z.of_nat n) -> m' !! a = m !! a).
Proof.
  induction n as [|n IH]; intros d s m Hb Hd Hs Hov.
  { exists m. split; [done|]. split; [intros; lia|done]. }
  destruct (Hs 0) as [v Hv]; [lia|]. rewrite Z.add_0_r in Hv.
  cbn [copy_up]. mstep. rewrite (ld_at _ _ _ Hv), sto_mapped by (specialize (Hd 0); rewrite Z.add_0_r in Hd; apply Hd; lia).
  rewrite (wrap_small 8 v) by (apply (Hb _ _ Hv)).
  destruct (IH (d + 1) (s + 1) (<[d := v]> m)) as (m' & Hr & H1 & H2).
  - intros a x. rewrite lookup_insert. case_decide; [|apply Hb]. intros [= <-]. by eapply Hb.
  - apply mapped_insert. intros i Hi. replace (d + 1 + i) with (d + (i + 1)) by lia. apply Hd. lia.
  - apply mapped_insert. intros i Hi. replace (s + 1 + i) with (s + (i + 1)) by lia. apply Hs. lia.
  - lia.
  - exists m'. split; [done|]. split.
    + intros i Hi. destruct (decide (i = 0)) as [->|Hne].
      * rewrite !Z.add_0_r, H2, lookup_insert_eq by lia. done.
      * replace (d + i) with (d + 1 + (i - 1)) by lia. rewrite H1 by lia.
        rewrite lookup_insert_ne by lia. f_equal. lia.
    + intros a Ha. rewrite H2, lookup_insert_ne by lia. done.
Qed.

Lemma copy_down_spec : forall n d s m, bytes m ->
  mapped m (d - Z.of_nat n) (Z.of_nat n) -> mapped m (s - Z.of_nat n) (Z.of_nat n) -> s <= d ->
  exists m', copy_down n d s m = Done tt m' /\
    (forall i, 0 < i <= Z.of_nat n -> m' !! (d - i) = m !! (s - i)) /\
    (forall a, ~ (d - Z.of_nat n <= a < d) -> m' !! a = m !! a).
Proof.
  induction n as [|n IH]; intros d s m Hb Hd Hs Hov.
  { exists m. split; [done|]. split; [intros; lia|done]. }
  assert (Hd1 : is_Some (m !! (d - 1))).
  { replace (d - 1) with (d - Z.of_nat (S n) + Z.of_nat n) by lia. apply Hd. lia. }
  assert (Hs1 : is_Some (m !! (s - 1))).
  { replace (s - 1) with (s - Z.of_nat (S n) + Z.of_nat n) by lia. apply Hs. lia. }
  destruct Hs1 as [v Hv]. cbn [copy_down]. mstep. rewrite (ld_at _ _ _ Hv), sto_mapped by done.
  rewrite (wrap_small 8 v) by (apply (Hb _ _ Hv)).
  destruct (IH (d - 1) (s - 1) (<[d - 1 := v]> m)) as (m' & Hr & H1 & H2).
  - intros a x. rewrite lookup_insert. case_decide; [|apply Hb]. intros [= <-]. by eapply Hb.
  - apply mapped_insert. intros i Hi. replace (d - 1 - Z.of_nat n + i) with (d - Z.of_nat (S n) + i) by lia. apply Hd. lia.
  - apply mapped_insert. intros i Hi. replace (s - 1 - Z.of_nat n + i) with (s - Z.of_nat (S n) + i) by lia. apply Hs. lia.
  - lia.
  - exists m'. split; [done|]. split.
    + intros i Hi. destruct (decide (i = 1)) as [->|Hne].
      * rewrite H2, lookup_insert_eq by lia. done.
      * replace (d - i) with (d - 1 - (i - 1)) by lia. rewrite H1 by lia.
        rewrite lookup_insert_ne by lia. f_equal. lia.
    + intros a Ha. rewrite H2, lookup_insert_ne by lia. done.
Qed.

Lemma memmove_spec m dst src n : bytes m -> 0 <= n -> mapped m dst n -> mapped m src n ->
  exists m', memmove dst src n m = Done dst m' /\
    (forall i, 0 <= i < n -> m' !! (dst + i) = m !! (src + i)) /\
    (forall a, ~ (dst <= a < dst + n) -> m' !! a = m !! a).
Proof.
  intros Hb Hn Hd Hs. unfold memmove. destruct (n =? 0) eqn:E; bool_hyps.
  { subst. exists m. split; [done|]. split; [intros; lia|done]. }
  destruct ((src <? dst) && (dst <? src + n)) eqn:Ed; mstep.
  - bool_hyps. destruct (copy_down_spec (Z.to_nat n) (dst + n) (src + n) m Hb) as (m' & Hr & H1 & H2).
    + intros i Hi. replace (dst + n - Z.of_nat (Z.to_nat n) + i) with (dst + i) by lia. apply Hd. lia.
    + intros i Hi. replace (src + n - Z.of_nat (Z.to_nat n) + i) with (src + i) by lia. apply Hs. lia.
    + lia.
    + rewrite Hr. exists m'. split; [done|]. split.
      * intros i Hi. replace (dst + i) with (dst + n - (n - i)) by lia. rewrite H1 by lia. f_equal. lia.
      * intros a Ha. apply H2. lia.
  - assert (dst <= src \/ src + n <= dst) by (bool_hyps; destruct Ed; bool_hyps; lia).
    destruct (copy_up_spec (Z.to_nat n) dst src m Hb) as (m' & Hr & H1 & H2);
      rewrite ?Z2Nat.id by lia; try done.
    rewrite Hr. exists m'. rewrite Z2Nat.id in * by lia. done.
Qed.

Lemma zero_fill_spec : forall n s m, mapped m s (Z.of_nat n) ->
  exists m', zero_fill n s m = Done tt m' /\
    (forall i, 0 <= i < Z.of_nat n -> m' !! (s + i) = Some 0) /\
    (forall a, ~ (s <= a < s + Z.of_nat n) -> m' !! a = m !! a).
Proof.
  induction n as [|n IH]; intros s m Hs.
  { exists m. split; [done|]. split; [intros; lia|done]. }
  cbn [zero_fill]. mstep. rewrite sto_mapped by (specialize (Hs 0); rewrite Z.add_0_r in Hs; apply Hs; lia).
  destruct (IH (s + 1) (<[s := u8 0]> m)) as (m' & Hr & H1 & H2).
  { apply mapped_insert. intros i Hi. replace (s + 1 + i) with (s + (i + 1)) by lia. apply Hs. lia. }
  exists m'. split; [done|]. split.
  - intros i Hi. destruct (decide (i = 0)) as [->|Hne].
    + rewrite Z.add_0_r, H2, lookup_insert_eq by lia. done.
    + replace (s + i) with (s + 1 + (i - 1)) by lia. apply H1. lia.
  - intros a Ha. rewrite H2, lookup_insert_ne by lia. done.
Qed.

(** ** Strings *)
Lemma cstr_nil m a : cstr m a [] -> m !! a = Some 0.
Proof. intros [H _]. rewrite <- (Z.add_0_r a). by apply (H 0%nat). Qed.

Lemma cstr_cons m a x l : cstr m a (x :: l) -> m !! a = Some x /\ 0 < x < 256 /\ cstr m (a + 1) l.
Proof.
  intros [H Hf]. apply Forall_cons in Hf as [Hx Hf]. split; [|split; [done|split; [|done]]].
  - rewrite <- (Z.add_0_r a). by apply (H 0%nat).
  - intros i y Hi. replace (a + 1 + Z.of_nat i) with (a + Z.of_nat (S i)) by lia. by apply (H (S i)).
Qed.

Lemma cstr_cons_intro m a x l : m !! a = Some x -> 0 < x < 256 -> cstr m (a + 1) l -> cstr m a (x :: l).
Proof.
  intros Hx Hr [H Hf]. split; [|by constructor]. intros [|i] y Hi; cbn in Hi.
  - injection Hi as <-. by rewrite Z.add_0_r.
  - replace (a + Z.of_nat (S i)) with (a + 1 + Z.of_nat i) by lia. by apply H.
Qed.

Lemma cstr_nil_intro m a : m !! a = Some 0 -> cstr m a [].
Proof. intros H. split; [|done]. intros [|i] y Hi; [|done]. injection Hi as <-. by rewrite Z.add_0_r. Qed.

(** A write outside a string leaves it alone. *)
Lemma cstr_insert m a l b v : ~ (a <= b <= a + Z.of_nat (length l)) -> cstr m a l -> cstr (<[b := v]> m) a l.
Proof.
  intros Hb [H Hf]. split; [|done]. intros i x Hi. rewrite lookup_insert_ne; [by apply H|].
  apply lookup_lt_Some in Hi. rewrite length_app in Hi; cbn in Hi. lia.
Qed.

Lemma strlen_loop_spec : forall l m s n fuel, cstr m (s + n) l -> (length l < fuel)%nat ->
  strlen_loop fuel s n m = Done (n + Z.of_nat (length l)) m.
Proof.
  induction l as [|x l IH]; intros m s n fuel Hc Hf; (destruct fuel as [|fuel]; [lia|]); cbn [strlen_loop]; mstep.
  - rewrite (ld_at _ _ _ (cstr_nil _ _ Hc)). cbn. by rewrite Z.add_0_r.
  - apply cstr_cons in Hc as (Hx & Hr & Hc). rewrite (ld_at _ _ _ Hx).
    rewrite (proj2 (Z.eqb_neq x 0)) by lia. cbn [length] in *. rewrite IH; [|by rewrite Z.add_assoc|lia].
    f_equal. lia.
Qed.

Lemma strncmp_loop_spec : forall n m p q l1 l2, cstr m p l1 -> cstr m q l2 ->
  exists r, strncmp_loop n p q m = Done r m /\ (r = 0 <-> take n l1 = take n l2).
Proof.
  induction n as [|n IH]; intros m p q l1 l2 H1 H2.
  { exists 0. done. }
  cbn [strncmp_loop]. mstep. destruct l1 as [|a l1].
  - rewrite (ld_at _ _ _ (cstr_nil _ _ H1)). cbn. destruct l2 as [|b l2].
    + rewrite (ld_at _ _ _ (cstr_nil _ _ H2)). exists 0. done.
    + apply cstr_cons in H2 as (Hb & Hr & _). rewrite (ld_at _ _ _ Hb). eexists. split; [done|].
      split; [lia|done].
  - apply cstr_cons in H1 as (Ha & Hra & H1). rewrite (ld_at _ _ _ Ha), (proj2 (Z.eqb_neq a 0)) by lia.
    destruct l2 as [|b l2].
    + rewrite (ld_at _ _ _ (cstr_nil _ _ H2)), (proj2 (Z.eqb_neq a 0)) by lia. eexists. split; [done|]. cbn. split; [lia|done].
    + apply cstr_cons in H2 as (Hb & Hrb & H2). rewrite (ld_at _ _ _ Hb). destruct (a =? b) eqn:E; bool_hyps.
      * subst b. destruct (IH m _ _ _ _ H1 H2) as (r & Hr & Hiff). exists r. split; [done|].
        cbn [firstn take]. rewrite Hiff. split; [by intros ->|]. by intros [= ->].
      * eexists. split; [done|]. cbn. split; [lia|]. intros [= ?]. done.
Qed.

Lemma strncpy_loop_spec : forall n s t l m, cstr m t l -> mapped m s (Z.of_nat n) ->
  (s + Z.of_nat n <= t \/ t + Z.of_nat (length l) < s) ->
  exists m', strncpy_loop n s t m = Done tt m' /\
    (forall i : nat, (i < n)%nat -> m' !! (s + Z.of_nat i) = Some (default 0 (l !! i))) /\
    (forall a, ~ (s <= a < s + Z.of_nat n) -> m' !! a = m !! a).
Proof.
  induction n as [|n IH]; intros s t l m Hc Hs Hov.
  { exists m. split; [done|]. split; [intros; lia|done]. }
  assert (Hs0 : is_Some (m !! s)) by (specialize (Hs 0); rewrite Z.add_0_r in Hs; apply Hs; lia).
  assert (Hs' : forall v, mapped (<[s := v]> m) (s + 1) (Z.of_nat n)).
  { intros v. apply mapped_insert. intros i Hi. replace (s + 1 + i) with (s + (i + 1)) by lia. apply Hs. lia. }
  cbn [strncpy_loop]. mstep. destruct l as [|x l].
  - rewrite (ld_at _ _ _ (cstr_nil _ _ Hc)), sto_mapped by done. cbn.
    destruct (zero_fill_spec n (s + 1) (<[s := u8 0]> m) (Hs' _)) as (m' & Hr & H1 & H2).
    exists m'. split; [done|]. split.
    + intros [|i] Hi; cbn.
      * rewrite Z.add_0_r, H2, lookup_insert_eq by lia. done.
      * replace (s + Z.of_nat (S i)) with (s + 1 + Z.of_nat i) by lia. apply H1. lia.
    + intros a Ha. rewrite H2, lookup_insert_ne by lia. done.
  - apply cstr_cons in Hc as (Hx & Hr & Hc). rewrite (ld_at _ _ _ Hx), sto_mapped by done.
    rewrite (wrap_small 8 x), (proj2 (Z.eqb_neq x 0)) by lia. cbn [length] in Hov.
    destruct (IH (s + 1) (t + 1) l (<[s := x]> m)) as (m' & Hr' & H1 & H2).
    + apply cstr_insert; [lia|done].
    + apply Hs'.
    + lia.
    + exists m'. split; [done|]. split.
      * intros [|i] Hi; cbn.
        -- rewrite Z.add_0_r, H2, lookup_insert_eq by lia. done.
        -- replace (s + Z.of_nat (S i)) with (s + 1 + Z.of_nat i) by lia. apply H1. lia.
      * intros a Ha. rewrite H2, lookup_insert_ne by lia. done.
Qed.

Lemma safestrcpy_loop_spec : forall k s t l m, cstr m t l -> mapped m s (Z.of_nat k + 1) ->
  (s + Z.of_nat k < t \/ t + Z.of_nat (length l) < s) ->
  exists e m', safestrcpy_loop k s t m = Done e m' /\ s <= e <= s + Z.of_nat k /\ is_Some (m' !! e) /\
    (forall v, cstr (<[e := 0]> (<[e := v]> m')) s (take k l)) /\
    (forall a, ~ (s <= a < s + Z.of_nat k) -> m' !! a = m !! a).
Proof.
  induction k as [|k IH]; intros s t l m Hc Hs Hov.
  { exists s, m. split; [done|]. split; [lia|]. split.
    - specialize (Hs 0). rewrite Z.add_0_r in Hs. apply Hs. lia.
    - split; [|done]. intros v. apply cstr_nil_intro, lookup_insert_eq. }
  assert (Hs0 : is_Some (m !! s)) by (specialize (Hs 0); rewrite Z.add_0_r in Hs; apply Hs; lia).
  assert (Hs' : forall v, mapped (<[s := v]> m) (s + 1) (Z.of_nat k + 1)).
  { intros v. apply mapped_insert. intros i Hi. replace (s + 1 + i) with (s + (i + 1)) by lia. apply Hs. lia. }
  cbn [safestrcpy_loop]. mstep. destruct l as [|x l].
  - rewrite (ld_at _ _ _ (cstr_nil _ _ Hc)), sto_mapped by done. cbn.
    exists (s + 1), (<[s := u8 0]> m). split; [done|]. split; [lia|]. split.
    { specialize (Hs' (u8 0) 0). rewrite Z.add_0_r in Hs'. apply Hs'. lia. }
    split.
    + intros v. apply cstr_nil_intro. rewrite !lookup_insert_ne by lia. apply lookup_insert_eq.
    + intros a Ha. apply lookup_insert_ne. lia.
  - apply cstr_cons in Hc as (Hx & Hr & Hc). rewrite (ld_at _ _ _ Hx), sto_mapped by done.
    rewrite (wrap_small 8 x), (proj2 (Z.eqb_neq x 0)) by lia. cbn [length] in Hov.
    destruct (IH (s + 1) (t + 1) l (<[s := x]> m)) as (e & m' & Hr' & He & Hem & H1 & H2).
    + apply cstr_insert; [lia|done].
    + apply Hs'.
    + lia.
    + exists e, m'. split; [done|]. split; [lia|]. split; [done|]. split.
      * intros v. cbn. apply cstr_cons_intro; [|done|apply H1].
        rewrite !lookup_insert_ne, H2 by lia. apply lookup_insert_eq.
      * intros a Ha. rewrite H2, lookup_insert_ne by lia. done.
Qed.

Lemma safestrcpy_spec m s t n l : cstr m t l -> mapped m s n -> 0 < n ->
  (s + n <= t \/ t + Z.of_nat (length l) < s) ->
  exists m', safestrcpy s t n m = Done s m' /\ cstr m' s (take (Z.to_nat (n - 1)) l) /\
    (forall a, ~ (s <= a < s + n) -> m' !! a = m !! a).
Proof.
  intros Hc Hs Hn Hov. unfold safestrcpy. rewrite (proj2 (Z.leb_gt n 0)) by lia. mstep.
  destruct (safestrcpy_loop_spec (Z.to_nat (n - 1)) s t l m Hc) as (e & m' & Hr & He & Hem & H1 & H2).
  - intros i Hi. apply Hs. lia.
  - lia.
  - rewrite Hr, sto_mapped by done. eexists. split; [done|]. split.
    + specialize (H1 0). by rewrite insert_insert_eq in H1.
    + intros a Ha. rewrite lookup_insert_ne, H2 by lia. done.
Qed.

(** ** Properties *)

(** C47: [memmove] copies the source range as it was before the call, for any
    two ranges, overlapping or not, and changes nothing else. *)
Theorem memmove_correct m dst src n : bytes m -> 0 <= n -> mapped m dst n -> mapped m src n ->
  exists m', memmove dst src n m = Done dst m' /\
    (forall i, 0 <= i < n -> m' !! (dst + i) = m !! (src + i)) /\
    (forall a, ~ (dst <= a < dst + n) -> m' !! a = m !! a).
Proof. apply memmove_spec. Qed.

Lemma memmove_correct_witness :
  let m := list_to_map [(0, 1); (1, 2); (2, 3); (3, 4)] : gmap Z Z in
  exists m', memmove 1 0 3 m = Done 1 m' /\ m' !! 3 = Some 3.
Proof.
  intros m. destruct (memmove_correct m 1 0 3) as (m' & Hr & H1 & _).
  - intros a x Hx. unfold m in Hx. apply elem_of_list_to_map_2 in Hx.
    repeat (apply elem_of_cons in Hx as [Hx|Hx]; [injection Hx as -> ->; lia|]). by apply elem_of_nil in Hx.
  - lia.
  - intros i Hi. assert (i = 0 \/ i = 1 \/ i = 2) as [->|[->| ->]] by lia; vm_compute; eauto.
  - intros i Hi. assert (i = 0 \/ i = 1 \/ i = 2) as [->|[->| ->]] by lia; vm_compute; eauto.
  - exists m'. split; [exact Hr|]. specialize (H1 2 ltac:(lia)). exact H1.
Defined.

(** C48: [safestrcpy] into a buffer of [n > 0] bytes leaves there the
    NUL-terminated prefix of at most [n - 1] characters of the source string,
    and writes nothing outside the buffer. *)
Theorem safestrcpy_terminates_string m s t n l : cstr m t l -> mapped m s n -> 0 < n ->
  (s + n <= t \/ t + Z.of_nat (length l) < s) ->
  exists m', safestrcpy s t n m = Done s m' /\ cstr m' s (take (Z.to_nat (n - 1)) l) /\
    (forall a, ~ (s <= a < s + n) -> m' !! a = m !! a).
Proof. apply safestrcpy_spec. Qed.

Lemma safestrcpy_terminates_string_witness :
  let m := list_to_map [(0, 0); (1, 0); (2, 0); (10, 97); (11, 98); (12, 99); (13, 0)] : gmap Z Z in
  exists m', safestrcpy 0 10 3 m = Done 0 m' /\ cstr m' 0 [97; 98].
Proof.
  intros m. destruct (safestrcpy_terminates_string m 0 10 3 [97; 98; 99]) as (m' & Hr & H1 & _).
  - repeat (apply cstr_cons_intro; [reflexivity|lia|]). apply cstr_nil_intro. reflexivity.
  - intros i Hi. assert (i = 0 \/ i = 1 \/ i = 2) as [->|[->| ->]] by lia; vm_compute; eauto.
  - lia.
  - cbn. lia.
  - exists m'. split; [exact Hr|exact H1].
Defined.

(** [strncmp] of two strings returns 0 exactly when their first [n]
    characters (fewer when a string ends) agree. *)
Theorem strncmp_correct m p q n l1 l2 : cstr m p l1 -> cstr m q l2 ->
  exists r, strncmp p q n m = Done r m /\ (r = 0 <-> take (Z.to_nat n) l1 = take (Z.to_nat n) l2).
Proof. apply strncmp_loop_spec. Qed.

Lemma strncmp_correct_witness :
  let m := list_to_map [(0, 97); (1, 98); (2, 0); (10, 97); (11, 99); (12, 0)] : gmap Z Z in
  exists r, strncmp 0 10 2 m = Done r m /\ r <> 0.
Proof.
  intros m. destruct (strncmp_correct m 0 10 2 [97; 98] [97; 99]) as (r & Hr & H1).
  - repeat (apply cstr_cons_intro; [reflexivity|lia|]). apply cstr_nil_intro. reflexivity.
  - repeat (apply cstr_cons_intro; [reflexivity|lia|]). apply cstr_nil_intro. reflexivity.
  - exists r. split; [exact Hr|]. intros H. apply H1 in H. discriminate.
Defined.

(** [strncpy] fills the [n] bytes of the destination with the source
    string, cut at [n] characters or padded with zeros. *)
Theorem strncpy_correct m s t n l : cstr m t l -> 0 <= n -> mapped m s n ->
  (s + n <= t \/ t + Z.of_nat (length l) < s) ->
  exists m', strncpy s t n m = Done s m' /\
    (forall i : nat, Z.of_nat i < n -> m' !! (s + Z.of_nat i) = Some (default 0 (l !! i))) /\
    (forall a, ~ (s <= a < s + n) -> m' !! a = m !! a).
Proof.
  intros Hc Hn Hs Hov. unfold strncpy. mstep.
  destruct (strncpy_loop_spec (Z.to_nat n) s t l m Hc) as (m' & Hr & H1 & H2); rewrite ?Z2Nat.id by lia; try done.
  rewrite Hr. exists m'. rewrite Z2Nat.id in H2 by lia. split; [done|]. split; [|done]. intros i Hi. apply H1. lia.
Qed.

Lemma strncpy_correct_witness :
  let m := list_to_map [(0, 7); (1, 7); (2, 7); (10, 97); (11, 0)] : gmap Z Z in
  exists m', strncpy 0 10 3 m = Done 0 m' /\ m' !! 2 = Some 0.
Proof.
  intros m. destruct (strncpy_correct m 0 10 3 [97]) as (m' & Hr & H1 & _).
  - repeat (apply cstr_cons_intro; [reflexivity|lia|]). apply cstr_nil_intro. reflexivity.
  - lia.
  - intros i Hi. assert (i = 0 \/ i = 1 \/ i = 2) as [->|[->| ->]] by lia; vm_compute; eauto.
  - cbn. lia.
  - exists m'. split; [exact Hr|]. exact (H1 2%nat ltac:(lia)).
Defined.
