(* ===== verification/Lists.v ===== *)
(** * Intrusive circular lists (include/list.h)

    A [struct list_head] is a node with [next] and [prev]; the heap maps
    addresses to nodes and a list is identified with the address of its head.
    [dlist m h l] is the abstraction: walking [next] from [h] visits exactly
    [l] and comes back to [h], and walking [prev] visits the reverse.  Each
    operation of list.h is shown to act on [l] as its name says. *)
From S2P Require Import Prelude.

Record node := Node { n_next : Z; n_prev : Z }.

Definition get_next (a : Z) : M (gmap Z node) Z := fun m => match m !! a with Some n => Done (n_next n) m | None => Undef end.
Definition get_prev (a : Z) : M (gmap Z node) Z := fun m => match m !! a with Some n => Done (n_prev n) m | None => Undef end.
Definition put_next (a v : Z) : M (gmap Z node) unit := fun m =>
  match m !! a with Some n => Done tt (<[a := Node v (n_prev n)]> m) | None => Undef end.
Definition put_prev (a v : Z) : M (gmap Z node) unit := fun m =>
  match m !! a with Some n => Done tt (<[a := Node (n_next n) v]> m) | None => Undef end.

Definition list_init (l : Z) : M (gmap Z node) unit := put_prev l l;; put_next l l.
Definition list_empty (l : Z) : M (gmap Z node) bool := n ← get_next l; mret (n =? l).
Definition list_front (l : Z) : M (gmap Z node) Z := get_next l.
Definition list_back (l : Z) : M (gmap Z node) Z := get_prev l.
Definition list_insert (item prev next : Z) : M (gmap Z node) unit :=
  put_prev next item;; put_next item next;; put_prev item prev;; put_next prev item.
Definition list_push_front (l item : Z) : M (gmap Z node) unit := n ← get_next l; list_insert item l n.
Definition list_push_back (l item : Z) : M (gmap Z node) unit := p ← get_prev l; list_insert item p l.
Definition list_drop (item : Z) : M (gmap Z node) unit :=
  n ← get_next item; p ← get_prev item; put_prev n p;;
  p ← get_prev item; n ← get_next item; put_next p n.
Definition list_pop_front (l : Z) : M (gmap Z node) unit := x ← list_front l; list_drop x.
Definition list_pop_back (l : Z) : M (gmap Z node) unit := x ← list_back l; list_drop x.
Definition list_concat (l other : Z) : M (gmap Z node) unit :=
  e ← list_empty other;
  if e : bool then mret tt
  else
    a ← get_next other; put_prev a l;;
    z ← get_prev other; n ← get_next l; put_next z n;;
    n ← get_next l; z ← get_prev other; put_prev n z;;
    a ← get_next other; put_next l a;;
    list_init other.

Fixpoint list_find_loop (fuel : nat) (l p item : Z) : M (gmap Z node) (option Z) :=
  match fuel with
  | O => nofuel
  | S fuel =>
      if p =? l then mret None
      else if p =? item then mret (Some item)
      else n ← get_next p; list_find_loop fuel l n item
  end.
Definition list_find (fuel : nat) (l item : Z) : M (gmap Z node) (option Z) :=
  p ← get_next l; list_find_loop fuel l p item.

Fixpoint list_length_loop (fuel : nat) (l item count : Z) : M (gmap Z node) Z :=
  match fuel with
  | O => nofuel
  | S fuel =>
      if item =? l then mret count
      else n ← get_next item; list_length_loop fuel l n (s32 (count + 1))
  end.
Definition list_length (fuel : nat) (l : Z) : M (gmap Z node) Z :=
  item ← get_next l; list_length_loop fuel l item 0.

(** ** Links

    A heap seen as two partial functions, the [next] and the [prev] link;
    an assignment to a field is a point update of one of them. *)
Definition nx (m : gmap Z node) (a : Z) : option Z := n_next <$> m !! a.
Definition pv (m : gmap Z node) (a : Z) : option Z := n_prev <$> m !! a.
Definition fupd (f : Z -> option Z) (a v : Z) (b : Z) : option Z := if decide (b = a) then Some v else f b.

Lemma pv_mapped m a : is_Some (pv m a) <-> is_Some (nx m a).
Proof. unfold nx, pv. by rewrite !fmap_is_Some. Qed.

Lemma get_next_nx m a v : nx m a = Some v -> get_next a m = Done v m.
Proof. unfold nx, get_next. destruct (m !! a); [|done]. by intros [= <-]. Qed.
Lemma get_prev_pv m a v : pv m a = Some v -> get_prev a m = Done v m.
Proof. unfold pv, get_prev. destruct (m !! a); [|done]. by intros [= <-]. Qed.

Lemma put_next_spec m a v : is_Some (nx m a) ->
  exists m', put_next a v m = Done tt m' /\ (forall b, nx m' b = fupd (nx m) a v b) /\ (forall b, pv m' b = pv m b).
Proof.
  intros [x Hx]. unfold put_next, nx, pv, fupd in *. destruct (m !! a) as [n|] eqn:E; [|done]. eexists. split; [done|].
  split; intros b; rewrite lookup_insert; repeat case_decide; subst; try done. by rewrite E.
Qed.
Lemma put_prev_spec m a v : is_Some (nx m a) ->
  exists m', put_prev a v m = Done tt m' /\ (forall b, nx m' b = nx m b) /\ (forall b, pv m' b = fupd (pv m) a v b).
Proof.
  intros [x Hx]. unfold put_prev, nx, pv, fupd in *. destruct (m !! a) as [n|] eqn:E; [|done]. eexists. split; [done|].
  split; intros b; rewrite lookup_insert; repeat case_decide; subst; try done. by rewrite E.
Qed.

(** [path f xs e]: following [f] from the first element of [xs] visits [xs]
    in order and then reaches [e]. *)
Fixpoint path (f : Z -> option Z) (xs : list Z) (e : Z) : Prop :=
  match xs with
  | [] => True
  | a :: r => f a = Some (hd e r) /\ path f r e
  end.

Lemma hd_app {A} (e : A) xs ys : hd e (xs ++ ys) = hd (hd e ys) xs.
Proof. by destruct xs. Qed.

Lemma path_app f xs ys e : path f (xs ++ ys) e <-> path f xs (hd e ys) /\ path f ys e.
Proof. induction xs as [|a xs IH]; cbn; [tauto|]. rewrite IH, hd_app. tauto. Qed.

Lemma path_ext f g xs e : (forall a, a ∈ xs -> g a = f a) -> path f xs e -> path g xs e.
Proof.
  induction xs as [|a xs IH]; [done|]. intros Hg [H1 H2]. split; [rewrite Hg by left; done|].
  apply IH; [|done]. intros b Hb. apply Hg. by right.
Qed.

Lemma path_mapped f xs e a : path f xs e -> a ∈ xs -> is_Some (f a).
Proof. induction xs as [|b xs IH]; [by intros _ ?%elem_of_nil|]. intros [H Hs] [->|Ha]%elem_of_cons; eauto. Qed.

(** Replacing what follows [p] by [C], and putting [x] after [p]. *)
Lemma path_relink f g A p B C e :
  path f (A ++ p :: B ++ C) e -> (forall a, a ∈ A ++ C -> g a = f a) -> g p = Some (hd e C) ->
  path g (A ++ p :: C) e.
Proof.
  intros H Hg Hp. apply path_app in H as (H1 & _ & H2). apply path_app in H2 as [_ H2].
  apply path_app. split; [|split; [done|]]; (eapply path_ext; [|done]); intros a Ha; apply Hg; set_solver.
Qed.
Lemma path_insert f g A p x C e :
  path f (A ++ p :: C) e -> (forall a, a ∈ A ++ C -> g a = f a) -> g p = Some x -> g x = Some (hd e C) ->
  path g (A ++ p :: x :: C) e.
Proof.
  intros H Hg Hp Hx. apply path_app in H as (H1 & _ & H2).
  apply path_app. split; [|split; [done|split; [done|]]]; (eapply path_ext; [|done]); intros a Ha; apply Hg; set_solver.
Qed.

(** The circular list with head [h] and elements [l]. *)
Definition dlist (m : gmap Z node) (h : Z) (l : list Z) : Prop :=
  NoDup (h :: l) /\ path (nx m) (h :: l) h /\ path (pv m) (h :: rev l) h.

(** The last element of [h :: l] and what precedes it. *)
Lemma snoc_view (h : Z) l : exists A, h :: l = A ++ [hd h (rev l)].
Proof.
  destruct l as [|x l _] using rev_ind; [by exists []|]. exists (h :: l). by rewrite rev_app_distr.
Qed.

Lemma dlist_mapped m h l a : dlist m h l -> a ∈ h :: l -> is_Some (nx m a).
Proof. intros (_ & H & _). by apply path_mapped with (e := h). Qed.

Lemma dlist_at m h l1 x l2 : dlist m h (l1 ++ x :: l2) -> nx m x = Some (hd h l2) /\ pv m x = Some (hd h (rev l1)).
Proof.
  intros (_ & H1 & H2). split.
  - change (h :: l1 ++ x :: l2) with ((h :: l1) ++ x :: l2) in H1. by apply path_app in H1 as [_ [H1 _]].
  - rewrite rev_app_distr in H2; cbn [rev] in H2. rewrite <- app_assoc, app_comm_cons in H2.
    by apply path_app in H2 as [_ [H2 _]].
Qed.

Lemma hd_in (h : Z) l : hd h l ∈ h :: l.
Proof. destruct l; cbn; set_solver. Qed.
Lemma hd_rev_in (h : Z) l : hd h (rev l) ∈ h :: l.
Proof. destruct (snoc_view h l) as [A ->]. set_solver. Qed.

(** [list_insert] between the last element of [h :: l1] and the first of
    [l2 ++ [h]]. *)
Lemma list_insert_spec m h l1 l2 x :
  dlist m h (l1 ++ l2) -> x ∉ h :: l1 ++ l2 -> is_Some (nx m x) ->
  exists m', list_insert x (hd h (rev l1)) (hd h l2) m = Done tt m' /\ dlist m' h (l1 ++ x :: l2) /\
    (forall a, a ∉ x :: h :: l1 ++ l2 -> nx m' a = nx m a /\ pv m' a = pv m a).
Proof.
  intros (Hnd & H1 & H2) Hx Hmx. set (p := hd h (rev l1)). set (n := hd h l2).
  assert (Hp : p ∈ h :: l1) by apply hd_rev_in. assert (Hn : n ∈ h :: l2) by apply hd_in.
  assert (Hmp : is_Some (nx m p)) by (eapply path_mapped; [exact H1|set_solver]).
  assert (Hmn : is_Some (nx m n)) by (eapply path_mapped; [exact H1|set_solver]).
  unfold list_insert. mstep.
  destruct (put_prev_spec m n x Hmn) as (m1 & -> & N1 & P1).
  destruct (put_next_spec m1 x n) as (m2 & -> & N2 & P2); [by rewrite N1|].
  destruct (put_prev_spec m2 x p) as (m3 & -> & N3 & P3); [rewrite N2; unfold fupd; case_decide; [done|by rewrite N1]|].
  destruct (put_next_spec m3 p x) as (m4 & -> & N4 & P4); [rewrite N3, N2; unfold fupd; case_decide; [done|by rewrite N1]|].
  assert (HN : forall b, nx m4 b = fupd (fupd (nx m) x n) p x b).
  { intros b. rewrite N4. unfold fupd. case_decide; [done|]. rewrite N3, N2. unfold fupd. by rewrite N1. }
  assert (HP : forall b, pv m4 b = fupd (fupd (pv m) n x) x p b).
  { intros b. rewrite P4, P3. unfold fupd. case_decide; [done|]. rewrite P2, P1. done. }
  assert (Hxp : x <> p) by set_solver. assert (Hxn : x <> n) by set_solver.
  exists m4. split; [done|]. split; [split; [|split]|].
  - apply NoDup_cons in Hnd as [? Hnd]. apply NoDup_app in Hnd as (? & ? & ?).
    apply NoDup_cons. split; [set_solver|]. apply NoDup_app. split; [done|]. split; [set_solver|]. apply NoDup_cons. set_solver.
  - destruct (snoc_view h l1) as [A HA]. fold p in HA. rewrite app_comm_cons, HA, <- app_assoc in H1 |- *.
    rewrite app_comm_cons, HA, <- app_assoc in Hnd. cbn [app] in *.
    apply NoDup_app in Hnd as (_ & HpA & [HpC _]%NoDup_cons).
    eapply path_insert; [exact H1| | |].
    + intros a Ha. rewrite HN. unfold fupd. rewrite !decide_False; [done| |]; intros ->; [|set_solver].
      apply Hx. rewrite app_comm_cons, HA. set_solver.
    + rewrite HN. unfold fupd. by rewrite decide_True.
    + rewrite HN. unfold fupd. rewrite decide_False, decide_True by done. done.
  - assert (Hv : exists D, h :: rev l2 = D ++ [n]).
    { destruct (snoc_view h (rev l2)) as [D HD]. rewrite rev_involutive in HD. by exists D. }
    destruct Hv as [D HD]. rewrite rev_app_distr in H2. rewrite rev_app_distr. cbn [rev]. rewrite <- app_assoc.
    rewrite app_comm_cons, HD, <- app_assoc in H2 |- *. cbn [app] in *.
    assert (Hnd2 : NoDup (D ++ n :: rev l1)).
    { change (n :: rev l1) with ([n] ++ rev l1). rewrite app_assoc, <- HD, <- app_comm_cons, <- rev_app_distr.
      apply NoDup_cons in Hnd as [? ?]. apply NoDup_cons. rewrite list_elem_of_In, <- in_rev, <- list_elem_of_In.
      split; [done|]. by rewrite <- Permutation_rev. }
    apply NoDup_app in Hnd2 as (_ & HnA & [HnC _]%NoDup_cons).
    assert (Hin : forall a, a ∈ D ++ rev l1 -> a ∈ h :: l1 ++ l2).
    { intros a Ha. assert (a ∈ h :: rev l2 ++ rev l1) as Ha'; [rewrite app_comm_cons, HD; set_solver|].
      rewrite list_elem_of_In in Ha' |- *. cbn in Ha' |- *. rewrite in_app_iff in Ha' |- *. rewrite <- !in_rev in Ha'. tauto. }
    eapply path_insert; [exact H2| | |].
    + intros a Ha. rewrite HP. unfold fupd. rewrite !decide_False; [done| |]; intros ->; [set_solver|]. by apply Hx, Hin.
    + rewrite HP. unfold fupd. rewrite decide_False, decide_True by done. done.
    + rewrite HP. unfold fupd. by rewrite decide_True.
  - intros a Ha. rewrite HN, HP. unfold fupd. rewrite !decide_False; [done|..]; set_solver.
Qed.

Lemma list_push_front_spec m h l x : dlist m h l -> x ∉ h :: l -> is_Some (nx m x) ->
  exists m', list_push_front h x m = Done tt m' /\ dlist m' h (x :: l) /\
    (forall a, a ∉ x :: h :: l -> nx m' a = nx m a /\ pv m' a = pv m a).
Proof.
  intros Hd Hx Hm. destruct (list_insert_spec m h [] l x Hd Hx Hm) as (m' & Hr & Hd' & Hf).
  exists m'. split; [|done]. unfold list_push_front. mstep. rewrite (get_next_nx _ _ (hd h l)); [done|].
  by destruct Hd as (_ & [? _] & _).
Qed.

Lemma list_push_back_spec m h l x : dlist m h l -> x ∉ h :: l -> is_Some (nx m x) ->
  exists m', list_push_back h x m = Done tt m' /\ dlist m' h (l ++ [x]) /\
    (forall a, a ∉ x :: h :: l -> nx m' a = nx m a /\ pv m' a = pv m a).
Proof.
  intros Hd Hx Hm. rewrite <- (app_nil_r l) in Hx, Hd.
  destruct (list_insert_spec m h l [] x Hd Hx Hm) as (m' & Hr & Hd' & Hf). rewrite app_nil_r in *.
  exists m'. split; [|done]. unfold list_push_back. mstep. rewrite (get_prev_pv _ _ (hd h (rev l))); [done|].
  by destruct Hd as (_ & _ & [? _]).
Qed.

(** The two views of a list around one of its elements. *)
Lemma rev_mid {A} (l1 : list A) x l2 : rev (l1 ++ x :: l2) = rev l2 ++ x :: rev l1.
Proof. rewrite rev_app_distr. cbn. by rewrite <- app_assoc. Qed.

Lemma list_drop_spec m h l1 x l2 : dlist m h (l1 ++ x :: l2) ->
  exists m', list_drop x m = Done tt m' /\ dlist m' h (l1 ++ l2) /\
    (forall a, a ∉ h :: l1 ++ l2 -> nx m' a = nx m a /\ pv m' a = pv m a).
Proof.
  intros Hd. destruct (dlist_at _ _ _ _ _ Hd) as [Hnx Hpv]. destruct (Hd) as (Hnd & H1 & H2).
  set (p := hd h (rev l1)) in *. set (n := hd h l2) in *.
  assert (Hp : p ∈ h :: l1) by apply hd_rev_in. assert (Hn : n ∈ h :: l2) by apply hd_in.
  assert (Hmp : is_Some (nx m p)) by (eapply path_mapped; [exact H1|set_solver]).
  assert (Hmn : is_Some (nx m n)) by (eapply path_mapped; [exact H1|set_solver]).
  assert (Hx : x ∉ h :: l1 ++ l2).
  { apply NoDup_cons in Hnd as [? Hnd]. apply NoDup_app in Hnd as (? & ? & [? ?]%NoDup_cons). set_solver. }
  unfold list_drop. mstep. rewrite (get_next_nx _ _ _ Hnx), (get_prev_pv _ _ _ Hpv).
  destruct (put_prev_spec m n p Hmn) as (m1 & -> & N1 & P1).
  rewrite (get_prev_pv m1 x p); [|rewrite P1; unfold fupd; rewrite decide_False; [done|set_solver]].
  rewrite (get_next_nx m1 x n); [|by rewrite N1].
  destruct (put_next_spec m1 p n) as (m2 & -> & N2 & P2); [by rewrite N1|].
  assert (HN : forall b, nx m2 b = fupd (nx m) p n b) by (intros b; rewrite N2; unfold fupd; by rewrite N1).
  assert (HP : forall b, pv m2 b = fupd (pv m) n p b) by (intros b; rewrite P2, P1; done).
  exists m2. split; [done|]. split; [split; [|split]|].
  - apply NoDup_cons in Hnd as [? Hnd]. apply NoDup_app in Hnd as (? & ? & [? ?]%NoDup_cons).
    apply NoDup_cons. split; [set_solver|]. apply NoDup_app. set_solver.
  - destruct (snoc_view h l1) as [A HA]. fold p in HA. rewrite app_comm_cons, HA, <- app_assoc in H1 |- *.
    rewrite app_comm_cons, HA, <- app_assoc in Hnd. cbn [app] in *.
    apply NoDup_app in Hnd as (_ & HpA & [HpC _]%NoDup_cons).
    eapply (path_relink _ _ A p [x] l2); [exact H1| |rewrite HN; unfold fupd; by rewrite decide_True].
    intros a Ha. rewrite HN. unfold fupd. rewrite decide_False; [done|]. intros ->. set_solver.
  - assert (Hv : exists D, h :: rev l2 = D ++ [n]).
    { destruct (snoc_view h (rev l2)) as [D HD]. rewrite rev_involutive in HD. by exists D. }
    destruct Hv as [D HD]. rewrite rev_mid, app_comm_cons, HD, <- app_assoc in H2. rewrite rev_app_distr, app_comm_cons, HD, <- app_assoc.
    cbn [app] in *.
    assert (Hnd2 : NoDup (D ++ n :: x :: rev l1)).
    { change (n :: x :: rev l1) with ([n] ++ x :: rev l1). rewrite app_assoc, <- HD, <- app_comm_cons, <- rev_mid.
      rewrite <- Permutation_rev. done. }
    apply NoDup_app in Hnd2 as (_ & HnA & [HnC _]%NoDup_cons).
    eapply (path_relink _ _ D n [x] (rev l1)); [exact H2| |rewrite HP; unfold fupd; by rewrite decide_True].
    intros a Ha. rewrite HP. unfold fupd. rewrite decide_False; [done|]. intros ->. set_solver.
  - intros a Ha. rewrite HN, HP. unfold fupd. rewrite !decide_False; [done|..]; set_solver.
Qed.

Lemma list_init_spec m h : is_Some (nx m h) -> exists m', list_init h m = Done tt m' /\ dlist m' h [] /\
  (forall a, a <> h -> nx m' a = nx m a /\ pv m' a = pv m a).
Proof.
  intros Hm. unfold list_init. mstep. destruct (put_prev_spec m h h Hm) as (m1 & -> & N1 & P1).
  destruct (put_next_spec m1 h h) as (m2 & -> & N2 & P2); [by rewrite N1|].
  assert (HN : forall b, nx m2 b = fupd (nx m) h h b) by (intros b; rewrite N2; unfold fupd; by rewrite N1).
  assert (HP : forall b, pv m2 b = fupd (pv m) h h b) by (intros b; rewrite P2, P1; done).
  exists m2. split; [done|]. split.
  - split; [apply NoDup_singleton|]. cbn. rewrite HN, HP. unfold fupd. by rewrite !decide_True.
  - intros a Ha. rewrite HN, HP. unfold fupd. by rewrite !decide_False.
Qed.

(** ** Walking a list *)
Lemma list_length_loop_spec m h : forall l count fuel, path (nx m) l h -> h ∉ l -> (length l < fuel)%nat ->
  0 <= count -> count + Z.of_nat (length l) < 2 ^ 31 ->
  list_length_loop fuel h (hd h l) count m = Done (count + Z.of_nat (length l)) m.
Proof.
  induction l as [|x l IH]; intros count fuel Hp Hh Hf Hc Hb; (destruct fuel as [|fuel]; [lia|]); cbn [list_length_loop hd length].
  - rewrite Z.eqb_refl. cbn. by rewrite Z.add_0_r.
  - apply not_elem_of_cons in Hh as [Hne Hh]. rewrite (proj2 (Z.eqb_neq x h)) by done. mstep.
    destruct Hp as [Hx Hp]. rewrite (get_next_nx _ _ _ Hx). cbn [length] in *. rewrite swrap_small by lia.
    rewrite IH; try done; try lia. f_equal. lia.
Qed.

Lemma list_find_loop_spec m h x : forall l fuel, path (nx m) l h -> h ∉ l -> (length l < fuel)%nat ->
  list_find_loop fuel h (hd h l) x m = Done (if decide (x ∈ l) then Some x else None) m.
Proof.
  induction l as [|y l IH]; intros fuel Hp Hh Hf; (destruct fuel as [|fuel]; [lia|]); cbn [list_find_loop hd length] in *.
  - rewrite Z.eqb_refl. rewrite decide_False; [done|]. by intros ?%elem_of_nil.
  - apply not_elem_of_cons in Hh as [Hne Hh]. rewrite (proj2 (Z.eqb_neq y h)) by done.
    destruct (y =? x) eqn:E; bool_hyps.
    + subst. rewrite decide_True by left. done.
    + mstep. destruct Hp as [Hx Hp]. rewrite (get_next_nx _ _ _ Hx), IH by (done || lia). f_equal.
      destruct (decide (x ∈ l)); [rewrite decide_True by set_solver; done|]. rewrite decide_False; [done|]. set_solver.
Qed.

(** ** Concatenation *)
Lemma list_empty_spec m h l : dlist m h l -> list_empty h m = Done (if l is [] then true else false) m.
Proof.
  intros (Hnd & [Hx _] & _). unfold list_empty. mstep. rewrite (get_next_nx _ _ _ Hx).
  destruct l as [|x l]; cbn; [by rewrite Z.eqb_refl|]. rewrite (proj2 (Z.eqb_neq x h)); [done|].
  apply NoDup_cons in Hnd as [Hne _]. set_solver.
Qed.

(** The links after [list_concat l other] with [other] holding [B ++ [z]],
    first element [a]. *)
Lemma concat_links m h o a z n :
  nx m o = Some a -> pv m o = Some z -> nx m h = Some n ->
  is_Some (nx m a) -> is_Some (nx m z) -> is_Some (nx m n) ->
  a <> o -> z <> o -> n <> o -> h <> o -> z <> h -> (a =? o) = false ->
  exists m', list_concat h o m = Done tt m' /\
    (forall b, nx m' b = fupd (fupd (fupd (nx m) z n) h a) o o b) /\
    (forall b, pv m' b = fupd (fupd (fupd (pv m) a h) n z) o o b).
Proof.
  intros Hoa Hoz Hhn Ha Hz Hn Hao Hzo Hno Hho Hzh Heq. unfold list_concat, list_empty. mstep.
  rewrite (get_next_nx _ _ _ Hoa), Heq, (get_next_nx _ _ _ Hoa).
  destruct (put_prev_spec m a h Ha) as (m1 & -> & N1 & P1).
  rewrite (get_prev_pv m1 o z); [|rewrite P1; unfold fupd; rewrite decide_False; [done|congruence]].
  rewrite (get_next_nx m1 h n) by (by rewrite N1).
  destruct (put_next_spec m1 z n) as (m2 & -> & N2 & P2); [by rewrite N1|].
  rewrite (get_next_nx m2 h n); [|rewrite N2; unfold fupd; rewrite decide_False; [by rewrite N1|congruence]].
  rewrite (get_prev_pv m2 o z); [|rewrite P2, P1; unfold fupd; rewrite decide_False; [done|congruence]].
  destruct (put_prev_spec m2 n z) as (m3 & -> & N3 & P3); [rewrite N2; unfold fupd; case_decide; [done|by rewrite N1]|].
  rewrite (get_next_nx m3 o a); [|rewrite N3, N2; unfold fupd; rewrite decide_False; [by rewrite N1|congruence]].
  destruct (put_next_spec m3 h a) as (m4 & -> & N4 & P4); [rewrite N3, N2; unfold fupd; case_decide; [done|by rewrite N1, Hhn]|].
  destruct (list_init_spec m4 o) as (m5 & -> & Hd & Hf).
  { rewrite N4. unfold fupd. rewrite decide_False by congruence. rewrite N3, N2. unfold fupd.
    rewrite decide_False by congruence. by rewrite N1, Hoa. }
  exists m5. split; [done|]. destruct Hd as (_ & [HN5 _] & [HP5 _]).
  split; intros b; unfold fupd; (case_decide as E; [by subst|]); destruct (Hf b E) as [HfN HfP].
  - rewrite HfN, N4. unfold fupd. case_decide; [done|]. rewrite N3, N2. unfold fupd. case_decide; [done|]. by rewrite N1.
  - rewrite HfP, P4, P3. unfold fupd. case_decide; [done|]. rewrite P2, P1. unfold fupd. done.
Qed.

Lemma fupd_ne f a v b : b <> a -> fupd f a v b = f b.
Proof. intros. unfold fupd. by rewrite decide_False. Qed.
Lemma fupd_eq f a v : fupd f a v a = Some v.
Proof. unfold fupd. by rewrite decide_True. Qed.

(** Two segments joined by redirecting the last link of the first. *)
Lemma path_join f g A p e1 C e :
  path f (A ++ [p]) e1 -> path g C e -> (forall b, b ∈ A -> g b = f b) -> g p = Some (hd e C) ->
  path g ((A ++ [p]) ++ C) e.
Proof.
  intros H1 H2 Hg Hp. rewrite <- app_assoc. apply path_app in H1 as [H1 _]. apply path_app. split.
  - eapply path_ext; [|exact H1]. exact Hg.
  - split; [exact Hp|exact H2].
Qed.

Lemma elem_of_rev (x : Z) l : x ∈ rev l <-> x ∈ l.
Proof. by rewrite !list_elem_of_In, <- in_rev. Qed.

Lemma NoDup_snoc (A : list Z) p b : NoDup (A ++ [p]) -> b ∈ A -> b <> p.
Proof. intros (_ & H & _)%NoDup_app Hb ->. apply (H p Hb). left. Qed.

Lemma snoc_hd_rev (h a : Z) l : hd h (rev (a :: l)) = hd a (rev l).
Proof. cbn [rev]. by rewrite hd_app. Qed.

Lemma list_concat_spec m h l o l2 :
  dlist m h l -> dlist m o l2 -> (forall x, x ∈ h :: l -> x ∉ o :: l2) ->
  exists m', list_concat h o m = Done tt m' /\ dlist m' h (l2 ++ l) /\ dlist m' o [].
Proof.
  intros Hd Ho Hdis. destruct l2 as [|a l2].
  { exists m. unfold list_concat. mstep. rewrite (list_empty_spec _ _ _ Ho). done. }
  destruct (Hd) as (Hnd & H1 & H2). destruct (Ho) as (Hndo & H1o & H2o).
  set (z := hd a (rev l2)). set (n := hd h l).
  assert (Hz : z ∈ a :: l2) by apply hd_rev_in. assert (Hn : n ∈ h :: l) by apply hd_in.
  assert (F1 : forall x, x ∈ a :: l2 -> x <> o /\ x <> h /\ x <> n).
  { intros x Hx. apply NoDup_cons in Hndo as [Hoo _]. split; [by intros ->|].
    split; intros ->; (eapply Hdis; [|right; exact Hx]); [left|exact Hn]. }
  assert (F2 : forall x, x ∈ h :: l -> x <> o /\ x <> z /\ x <> a).
  { intros x Hx. split; [|split]; intros ->; (eapply Hdis; [exact Hx|]); [left|right; exact Hz|right; left]. }
  destruct (F1 a) as (Hao & Hah & Han); [left|]. destruct (F1 z Hz) as (Hzo & Hzh & Hzn).
  destruct (F2 h) as (Hho & _); [left|]. destruct (F2 n Hn) as (Hno & _).
  destruct (concat_links m h o a z n) as (m' & Hr & HN & HP); try done.
  - apply H1o.
  - destruct H2o as [H2o _]. by rewrite snoc_hd_rev in H2o.
  - apply H1.
  - eapply path_mapped; [exact H1o|right; left].
  - eapply path_mapped; [exact H1o|right; exact Hz].
  - eapply path_mapped; [exact H1|exact Hn].
  - by apply Z.eqb_neq.
  - exists m'. split; [done|]. apply NoDup_cons in Hnd as [Hhl Hnd]. apply NoDup_cons in Hndo as [Hoo Hndo].
    split; [split; [|split]|].
    + apply NoDup_cons. split; [intros [Hx|Hx]%elem_of_app; [by destruct (F1 _ Hx) as (_ & ? & _)|done]|].
      apply NoDup_app. split; [done|]. split; [|done]. intros x Hx Hl. by apply (Hdis x); right.
    + cbn [path]. split; [rewrite HN, fupd_ne, fupd_eq by done; done|].
      destruct H1o as [_ H1o]. destruct H1 as [_ H1]. destruct (snoc_view a l2) as [A HA]. fold z in HA. rewrite HA in H1o, Hndo |- *.
      eapply path_join; [exact H1o| | |].
      * eapply path_ext; [|exact H1]. intros b Hb. destruct (F2 b) as (? & ? & ?); [by right|].
        rewrite HN, !fupd_ne; try done. by intros ->.
      * intros b Hb. pose proof (NoDup_snoc _ _ _ Hndo Hb) as Hbz. destruct (F1 b) as (? & ? & ?); [rewrite HA; apply elem_of_app; by left|].
        rewrite HN, !fupd_ne; done.
      * rewrite HN, fupd_ne, fupd_ne, fupd_eq by done. done.
    + rewrite rev_app_distr. destruct H2o as [_ H2o]. cbn [rev] in H2o |- *.
      assert (Hv : exists D, h :: rev l = D ++ [n]).
      { destruct (snoc_view h (rev l)) as [D HD]. rewrite rev_involutive in HD. by exists D. }
      destruct Hv as [D HD]. assert (HDin : forall b, b ∈ D -> b ∈ h :: l).
      { intros b Hb. assert (Hb' : b ∈ h :: rev l) by (rewrite HD; apply elem_of_app; by left).
        apply elem_of_cons in Hb' as [->|Hb']; [left|right; by apply elem_of_rev]. }
      assert (HDnd : NoDup (D ++ [n])).
      { rewrite <- HD. apply NoDup_cons. split; [by rewrite elem_of_rev|]. by rewrite <- Permutation_rev. }
      rewrite app_comm_cons, HD. rewrite HD in H2. eapply path_join; [exact H2| | |].
      * rewrite <- (app_nil_r (rev l2 ++ [a])). eapply path_join; [exact H2o|done| |].
        -- intros b Hb. rewrite elem_of_rev in Hb. destruct (F1 b) as (? & ? & ?); [by right|].
           apply NoDup_cons in Hndo as [Hal2 _]. rewrite HP, !fupd_ne; try done. by intros ->.
        -- rewrite HP, fupd_ne, fupd_ne, fupd_eq by done. done.
      * intros b Hb. pose proof (NoDup_snoc _ _ _ HDnd Hb) as Hbn. destruct (F2 b (HDin b Hb)) as (? & ? & ?).
        rewrite HP, !fupd_ne; done.
      * rewrite HP, fupd_ne, fupd_eq by done. by rewrite hd_app.
    + split; [apply NoDup_singleton|]. cbn. by rewrite HN, HP, !fupd_eq.
Qed.

(** ** Properties *)

(** A heap with the head 100, the elements 1 and 2, and an unlinked node 3. *)
Definition sample_heap : gmap Z node :=
  list_to_map [(100, Node 1 2); (1, Node 2 100); (2, Node 100 1); (3, Node 0 0); (200, Node 4 4); (4, Node 200 200)].

Lemma sample_dlist : dlist sample_heap 100 [1; 2].
Proof. split; [apply (bool_decide_unpack _); reflexivity|]. repeat split. Qed.

Lemma sample_dlist2 : dlist sample_heap 200 [4].
Proof. split; [apply (bool_decide_unpack _); reflexivity|]. repeat split. Qed.

(** C45: [list_push_back] appends one element, [list_push_front] prepends one,
    and neither touches a node outside the list and the new element. *)
Theorem list_push_correct m h l x : dlist m h l -> x ∉ h :: l -> is_Some (m !! x) ->
  (exists m', list_push_back h x m = Done tt m' /\ dlist m' h (l ++ [x]) /\
     forall a, a ∉ x :: h :: l -> nx m' a = nx m a /\ pv m' a = pv m a) /\
  (exists m', list_push_front h x m = Done tt m' /\ dlist m' h (x :: l) /\
     forall a, a ∉ x :: h :: l -> nx m' a = nx m a /\ pv m' a = pv m a).
Proof.
  intros Hd Hx Hm. assert (Hmx : is_Some (nx m x)) by (by apply fmap_is_Some).
  split; [by apply list_push_back_spec|by apply list_push_front_spec].
Qed.

Lemma list_push_correct_witness :
  exists m', list_push_back 100 3 sample_heap = Done tt m' /\ dlist m' 100 [1; 2; 3].
Proof.
  destruct (list_push_correct sample_heap 100 [1; 2] 3 sample_dlist) as [(m' & Hr & Hd & _) _].
  - apply (bool_decide_unpack _). reflexivity.
  - vm_compute. eauto.
  - exists m'. split; [exact Hr|exact Hd].
Defined.

(** C46: [list_drop] removes exactly the element it is given, wherever it is in
    the list, and [list_pop_front] removes the first one. *)
Theorem list_drop_correct m h l1 x l2 : dlist m h (l1 ++ x :: l2) ->
  (exists m', list_drop x m = Done tt m' /\ dlist m' h (l1 ++ l2)) /\
  (l1 = [] -> exists m', list_pop_front h m = Done tt m' /\ dlist m' h l2).
Proof.
  intros Hd. destruct (list_drop_spec m h l1 x l2 Hd) as (m' & Hr & Hd' & _).
  split; [by exists m'|]. intros ->. exists m'. split; [|done]. unfold list_pop_front, list_front. mstep.
  destruct Hd as (_ & [Hx _] & _). by rewrite (get_next_nx _ _ _ Hx).
Qed.

Lemma list_drop_correct_witness : exists m', list_drop 1 sample_heap = Done tt m' /\ dlist m' 100 [2].
Proof. destruct (list_drop_correct sample_heap 100 [] 1 [2] sample_dlist) as [H _]. exact H. Defined.

(** [list_concat] moves all elements of the second list in front of those
    of the first, in order, and leaves the second list empty. *)
Theorem list_concat_correct m h l o l2 :
  dlist m h l -> dlist m o l2 -> (forall x, x ∈ h :: l -> x ∉ o :: l2) ->
  exists m', list_concat h o m = Done tt m' /\ dlist m' h (l2 ++ l) /\ dlist m' o [].
Proof. apply list_concat_spec. Qed.

Lemma list_concat_correct_witness :
  exists m', list_concat 100 200 sample_heap = Done tt m' /\ dlist m' 100 [4; 1; 2].
Proof.
  destruct (list_concat_correct sample_heap 100 [1; 2] 200 [4] sample_dlist sample_dlist2) as (m' & Hr & Hd & _).
  - intros x Hx. repeat (apply elem_of_cons in Hx as [->|Hx]; [apply (bool_decide_unpack _); reflexivity|]).
    by apply elem_of_nil in Hx.
  - exists m'. split; [exact Hr|exact Hd].
Defined.

(** [list_length] counts the elements and [list_find] decides membership,
    both within as many steps as the list has elements plus one. *)
Theorem list_walk_correct m h l x fuel : dlist m h l -> (length l < fuel)%nat -> Z.of_nat (length l) < 2 ^ 31 ->
  list_length fuel h m = Done (Z.of_nat (length l)) m /\
  list_find fuel h x m = Done (if decide (x ∈ l) then Some x else None) m.
Proof.
  intros (Hnd & [Hx Hp] & _) Hf Hl. apply NoDup_cons in Hnd as [Hh _].
  unfold list_length, list_find. mstep. rewrite (get_next_nx _ _ _ Hx).
  rewrite list_length_loop_spec, list_find_loop_spec by (done || lia). done.
Qed.

Lemma list_walk_correct_witness : list_length 3 100 sample_heap = Done 2 sample_heap.
Proof. apply (list_walk_correct sample_heap 100 [1; 2] 1 3 sample_dlist); cbn; lia. Defined.
