(* ===== verification/Cred.v ===== *)
(** * Credentials (kernel/sysproc.c, kernel/fs.c [permission], include/linux/capability.h)

    The identity of a process: its real, effective, saved and file-system
    user and group ids, its capability sets and its umask.  Each system call
    that reads or changes them is a function from the arguments in the trap
    frame and the credentials to a return value and new credentials.  The
    instruction and memory fences of the source do not change them. *)
From S2P Require Import Prelude.

Definition EPERM : Z := 1.
Definition EACCES : Z := 13.
Definition EINVAL : Z := 22.

Definition CAP_DAC_OVERRIDE : Z := 1.
Definition CAP_SETGID : Z := 6.
Definition CAP_SETUID : Z := 7.
Definition CAP_FS_MASK : Z := 0x1f.
Definition CAP_TO_MASK (x : Z) : Z := Z.shiftl 1 x.

Definition MAY_EXEC : Z := 1.
Definition MAY_WRITE : Z := 2.
Definition MAY_READ : Z := 4.
Definition S_IXUGO : Z := 0x49.
Definition S_IRWXUGO : Z := 0x1ff.

(** The fields of [struct proc] that hold the identity. *)
Record cred := Cred {
  uid : Z; euid : Z; suid : Z; fsuid : Z;
  gid : Z; egid : Z; sgid : Z; fsgid : Z;
  cap_effective : Z; cap_inheritable : Z; cap_permitted : Z;
  umask : Z
}.

Definition with_uids (r e s f : Z) (c : cred) : cred :=
  Cred r e s f (gid c) (egid c) (sgid c) (fsgid c) (cap_effective c) (cap_inheritable c) (cap_permitted c) (umask c).
Definition with_gids (r e s f : Z) (c : cred) : cred :=
  Cred (uid c) (euid c) (suid c) (fsuid c) r e s f (cap_effective c) (cap_inheritable c) (cap_permitted c) (umask c).
Definition with_caps (e p : Z) (c : cred) : cred :=
  Cred (uid c) (euid c) (suid c) (fsuid c) (gid c) (egid c) (sgid c) (fsgid c) e (cap_inheritable c) p (umask c).
Definition with_umask (m : Z) (c : cred) : cred :=
  Cred (uid c) (euid c) (suid c) (fsuid c) (gid c) (egid c) (sgid c) (fsgid c)
    (cap_effective c) (cap_inheritable c) (cap_permitted c) m.

(** The argument registers [a0]..[a5] of the trap frame. *)
Definition argint (n : Z) (tf : Z -> Z) : option Z := if 5 <? n then None else Some (s32 (tf n)).

(** [argint] into a [uid_t] or [gid_t] variable. *)
Definition arg_id (n : Z) (tf : Z -> Z) : option Z := u32 <$> argint n tf.

(** [(uid_t)-1]: "leave unchanged". *)
Definition no_id : Z := u32 (-1).

Definition capable (cap : Z) (c : cred) : bool := negb (Z.land (cap_effective c) (CAP_TO_MASK cap) =? 0).

Definition cap_emulate_setxuid (old_ruid old_euid old_suid : Z) (c : cred) : cred :=
  let c :=
    if ((old_ruid =? 0) || (old_euid =? 0) || (old_suid =? 0)) &&
       (negb (uid c =? 0) && negb (euid c =? 0) && negb (suid c =? 0))
    then with_caps 0 0 c else c in
  let c := if (old_euid =? 0) && negb (euid c =? 0) then with_caps 0 (cap_permitted c) c else c in
  if negb (old_euid =? 0) && (euid c =? 0) then with_caps (cap_permitted c) (cap_permitted c) c else c.

Definition sys_getuid (c : cred) : Z := uid c.
Definition sys_geteuid (c : cred) : Z := euid c.
Definition sys_getgid (c : cred) : Z := gid c.
Definition sys_getegid (c : cred) : Z := egid c.

Definition sys_setuid (tf : Z -> Z) (c : cred) : Z * cred :=
  match arg_id 0 tf with
  | None => (- EINVAL, c)
  | Some u =>
      let old_euid := euid c in
      let old_ruid := uid c in
      let old_suid := suid c in
      let r :=
        if capable CAP_SETUID c then
          if negb (u =? old_ruid) then Some (u, u)
          else if negb (u =? uid c) && negb (u =? old_suid) then None
          else Some (uid c, old_suid)
        else Some (uid c, old_suid) in
      match r with
      | None => (- EPERM, c)
      | Some (ruid, new_suid) =>
          (0, cap_emulate_setxuid old_ruid old_euid old_suid (with_uids ruid u new_suid u c))
      end
  end.

Definition sys_setreuid (tf : Z -> Z) (c : cred) : Z * cred :=
  match arg_id 0 tf, arg_id 1 tf with
  | Some ruid, Some eu =>
      let old_ruid := uid c in
      let old_euid := euid c in
      let old_suid := suid c in
      if negb (ruid =? no_id) &&
         (negb (old_ruid =? ruid) && negb (euid c =? ruid) && negb (capable CAP_SETUID c))
      then (- EPERM, c)
      else if negb (eu =? no_id) &&
         (negb (old_euid =? eu) && negb (suid c =? eu) && negb (capable CAP_SETUID c))
      then (- EPERM, c)
      else
        let new_ruid := if negb (ruid =? no_id) then ruid else old_ruid in
        let new_euid := if negb (eu =? no_id) then eu else old_euid in
        let r := if negb (new_ruid =? old_ruid) then ruid else uid c in
        let s := if negb (ruid =? no_id) || (negb (eu =? no_id) && negb (eu =? old_ruid))
                 then new_euid else suid c in
        (0, cap_emulate_setxuid old_ruid old_euid old_suid (with_uids r new_euid s new_euid c))
  | _, _ => (- EINVAL, c)
  end.

(** [x] may be taken by an unprivileged [setresuid]/[setresgid]. *)
Definition res_allowed (x r e s : Z) : bool :=
  negb (negb (x =? no_id) && negb (x =? r) && negb (x =? e) && negb (x =? s)).

Definition sys_setresuid (tf : Z -> Z) (c : cred) : Z * cred :=
  match arg_id 0 tf, arg_id 1 tf, arg_id 2 tf with
  | Some ruid, Some eu, Some su =>
      if negb (capable CAP_SETUID c) &&
         negb (res_allowed ruid (uid c) (euid c) (suid c) && res_allowed eu (uid c) (euid c) (suid c) &&
               res_allowed su (uid c) (euid c) (suid c))
      then (- EPERM, c)
      else
        let r := if negb (ruid =? no_id) then ruid else uid c in
        let e := if negb (eu =? no_id) then eu else euid c in
        let f := if negb (eu =? no_id) then eu else fsuid c in
        let s := if negb (su =? no_id) then su else suid c in
        (0, cap_emulate_setxuid (uid c) (euid c) (suid c) (with_uids r e s f c))
  | _, _, _ => (- EINVAL, c)
  end.

Definition sys_setfsuid (tf : Z -> Z) (c : cred) : Z * cred :=
  match arg_id 0 tf with
  | None => (- EINVAL, c)
  | Some fs =>
      let old_fsuid := fsuid c in
      let c :=
        if (fs =? uid c) || (fs =? euid c) || (fs =? suid c) || (fs =? fsuid c) || capable CAP_SETUID c
        then with_uids (uid c) (euid c) (suid c) fs c else c in
      let c := if (old_fsuid =? 0) && negb (fsuid c =? 0)
               then with_caps (Z.land (cap_effective c) (Z.lnot CAP_FS_MASK)) (cap_permitted c) c else c in
      let c := if negb (old_fsuid =? 0) && (fsuid c =? 0)
               then with_caps (Z.lor (cap_effective c) (Z.land (cap_permitted c) CAP_FS_MASK)) (cap_permitted c) c else c in
      (old_fsuid, c)
  end.

Definition sys_setgid (tf : Z -> Z) (c : cred) : Z * cred :=
  match arg_id 0 tf with
  | None => (- EINVAL, c)
  | Some g =>
      if capable CAP_SETGID c then (0, with_gids g g g (fsgid c) c)
      else if (g =? gid c) || (g =? sgid c) then (0, with_gids (gid c) g (sgid c) (fsgid c) c)
      else (- EPERM, c)
  end.

Definition sys_setregid (tf : Z -> Z) (c : cred) : Z * cred :=
  match arg_id 0 tf, arg_id 1 tf with
  | Some rgid, Some eg =>
      let old_rgid := gid c in
      let old_egid := egid c in
      let new_rgid :=
        if negb (rgid =? no_id) then
          if (old_rgid =? rgid) || (egid c =? rgid) || capable CAP_SETGID c then Some rgid else None
        else Some old_rgid in
      let new_egid :=
        if negb (eg =? no_id) then
          if (old_rgid =? eg) || (egid c =? eg) || (sgid c =? eg) || capable CAP_SETGID c then Some eg else None
        else Some old_egid in
      match new_rgid, new_egid with
      | Some nr, Some ne =>
          let s := if negb (rgid =? no_id) || (negb (eg =? no_id) && negb (eg =? old_rgid)) then ne else sgid c in
          (0, with_gids nr ne s ne c)
      | _, _ => (- EPERM, c)
      end
  | _, _ => (- EINVAL, c)
  end.

Definition sys_setresgid (tf : Z -> Z) (c : cred) : Z * cred :=
  match arg_id 0 tf, arg_id 1 tf, arg_id 2 tf with
  | Some rgid, Some eg, Some sg =>
      if negb (capable CAP_SETGID c) &&
         negb (res_allowed rgid (gid c) (egid c) (sgid c) && res_allowed eg (gid c) (egid c) (sgid c) &&
               res_allowed sg (gid c) (egid c) (sgid c))
      then (- EPERM, c)
      else
        let e := if negb (eg =? no_id) then eg else egid c in
        let f := if negb (eg =? no_id) then eg else fsgid c in
        let r := if negb (rgid =? no_id) then rgid else gid c in
        let s := if negb (sg =? no_id) then sg else sgid c in
        (0, with_gids r e s f c)
  | _, _, _ => (- EINVAL, c)
  end.

Definition sys_setfsgid (tf : Z -> Z) (c : cred) : Z * cred :=
  match arg_id 0 tf with
  | None => (- EINVAL, c)
  | Some fs =>
      if (fs =? gid c) || (fs =? egid c) || (fs =? sgid c) || (fs =? fsgid c) || capable CAP_SETGID c
      then (fsgid c, with_gids (gid c) (egid c) (sgid c) fs c)
      else (fsgid c, c)
  end.

Definition sys_umask (tf : Z -> Z) (c : cred) : Z * cred :=
  match arg_id 0 tf with
  | None => (u32 (- EINVAL), c)
  | Some m => (umask c, with_umask (Z.land m S_IRWXUGO) c)
  end.

(** [permission] of fs.c on an inode with mode, owner and group. *)
Definition permission (c : cred) (ip_mode ip_uid ip_gid mask : Z) : Z :=
  if fsuid c =? 0 then 0
  else
    let mode :=
      if fsuid c =? ip_uid then Z.shiftr ip_mode 6
      else if fsgid c =? ip_gid then Z.shiftr ip_mode 3
      else ip_mode in
    if Z.land (Z.land mode mask) (Z.lor (Z.lor MAY_READ MAY_WRITE) MAY_EXEC) =? mask then 0
    else if (negb (Z.land mask (Z.lor MAY_READ MAY_WRITE) =? 0) || negb (Z.land ip_mode S_IXUGO =? 0)) &&
            capable CAP_DAC_OVERRIDE c
    then 0
    else - EACCES.

(** ** Lemmas *)

(** The calls that change user ids, and those that change group ids;
    [sys_setuid] is apart because it does not check its argument (see below). *)
Definition uid_calls : list ((Z -> Z) -> cred -> Z * cred) := [sys_setreuid; sys_setresuid; sys_setfsuid].
Definition gid_calls : list ((Z -> Z) -> cred -> Z * cred) := [sys_setgid; sys_setregid; sys_setresgid; sys_setfsgid].

Definition uids (c : cred) : list Z := [uid c; euid c; suid c; fsuid c].
Definition gids (c : cred) : list Z := [gid c; egid c; sgid c; fsgid c].

(** Bit-set inclusion of capability sets. *)
Definition cap_sub (a b : Z) : Prop := Z.land a (Z.lnot b) = 0.

Lemma cap_sub_spec a b : cap_sub a b <-> forall n, 0 <= n -> Z.testbit a n = true -> Z.testbit b n = true.
Proof.
  unfold cap_sub. split.
  - intros H n Hn Ha. apply (f_equal (fun x => Z.testbit x n)) in H.
    rewrite Z.land_spec, Z.lnot_spec, Ha, Z.bits_0 in H by lia. by destruct (Z.testbit b n).
  - intros H. apply Z.bits_inj'. intros n Hn. rewrite Z.land_spec, Z.lnot_spec, Z.bits_0 by lia.
    destruct (Z.testbit a n) eqn:E; [|done]. by rewrite (H n Hn E).
Qed.

Lemma emulate_uids a b d c : uids (cap_emulate_setxuid a b d c) = uids c /\ gids (cap_emulate_setxuid a b d c) = gids c.
Proof. unfold cap_emulate_setxuid. repeat case_if; done. Qed.

Lemma emulate_caps a b d c :
  cap_sub (cap_permitted (cap_emulate_setxuid a b d c)) (cap_permitted c) /\
  cap_sub (cap_effective (cap_emulate_setxuid a b d c)) (Z.lor (cap_effective c) (cap_permitted c)).
Proof.
  rewrite !cap_sub_spec. unfold cap_emulate_setxuid.
  repeat case_if; cbn; (split; intros n Hn; rewrite ?Z.lor_spec, ?Z.bits_0; intros H; rewrite ?H, ?orb_true_r; done).
Qed.

Lemma capable_bit cap c : 0 <= cap -> capable cap c = Z.testbit (cap_effective c) cap.
Proof.
  intros H. unfold capable, CAP_TO_MASK. rewrite shiftl_1, land_pow2_bit by lia. pose proof (pow2_pos cap H).
  destruct (Z.testbit _ _); [|done]. by rewrite (proj2 (Z.eqb_neq _ _)) by lia.
Qed.

(** After the tests of a call have been split: use the equalities they give. *)
Ltac id_facts :=
  bool_hyps; repeat match goal with H : _ \/ _ |- _ => destruct H; bool_hyps end; subst; try congruence; try tauto.

Lemma setreuid_ids tf c r c' : capable CAP_SETUID c = false -> sys_setreuid tf c = (r, c') ->
  (forall u, u ∈ uids c' -> u ∈ uids c) /\ gids c' = gids c.
Proof.
  intros Hc. unfold sys_setreuid. rewrite Hc. destruct (arg_id 0 tf), (arg_id 1 tf); try (intros [= <- <-]; done).
  case_if; [intros [= <- <-]; done|]. case_if; [intros [= <- <-]; done|]. intros [= <- <-].
  match goal with |- context [cap_emulate_setxuid ?a ?b ?d ?k] => destruct (emulate_uids a b d k) as [-> ->] end.
  split; [|done]. intros u. unfold uids; cbn. rewrite !elem_of_cons. repeat case_if; id_facts.
Qed.

Lemma setresuid_ids tf c r c' : capable CAP_SETUID c = false -> sys_setresuid tf c = (r, c') ->
  (forall u, u ∈ uids c' -> u ∈ uids c) /\ gids c' = gids c.
Proof.
  intros Hc. unfold sys_setresuid, res_allowed. rewrite Hc.
  destruct (arg_id 0 tf), (arg_id 1 tf), (arg_id 2 tf); try (intros [= <- <-]; done).
  cbn [negb andb]. case_if; [intros [= <- <-]; done|]. bool_hyps. intros [= <- <-].
  match goal with |- context [cap_emulate_setxuid ?a ?b ?d ?k] => destruct (emulate_uids a b d k) as [-> ->] end.
  split; [|done]. intros u. unfold uids; cbn. rewrite !elem_of_cons. repeat case_if; id_facts.
Qed.

Lemma setfsuid_ids tf c r c' : capable CAP_SETUID c = false -> sys_setfsuid tf c = (r, c') ->
  (forall u, u ∈ uids c' -> u ∈ uids c) /\ gids c' = gids c.
Proof.
  intros Hc. unfold sys_setfsuid. rewrite Hc. destruct (arg_id 0 tf); [|intros [= <- <-]; done].
  rewrite orb_false_r. repeat case_if; intros [= <- <-]; (split; [|done]); intros u; unfold uids; cbn; rewrite !elem_of_cons; id_facts.
Qed.

Lemma uid_call_ids f tf c r c' : f ∈ uid_calls -> capable CAP_SETUID c = false -> f tf c = (r, c') ->
  (forall u, u ∈ uids c' -> u ∈ uids c) /\ gids c' = gids c.
Proof.
  intros Hf. repeat (apply elem_of_cons in Hf as [->|Hf]); [apply setreuid_ids|apply setresuid_ids|apply setfsuid_ids|].
  by apply elem_of_nil in Hf.
Qed.

Lemma gid_call_ids f tf c r c' : f ∈ gid_calls -> capable CAP_SETGID c = false -> f tf c = (r, c') ->
  (forall g, g ∈ gids c' -> g ∈ gids c) /\ uids c' = uids c.
Proof.
  intros Hf Hc. repeat (apply elem_of_cons in Hf as [->|Hf]); [..|by apply elem_of_nil in Hf].
  - unfold sys_setgid. rewrite Hc. destruct (arg_id 0 tf); [|intros [= <- <-]; done].
    repeat case_if; intros [= <- <-]; (split; [|done]); intros u; unfold gids; cbn; rewrite !elem_of_cons; id_facts.
  - unfold sys_setregid. rewrite Hc. destruct (arg_id 0 tf), (arg_id 1 tf); try (intros [= <- <-]; done).
    rewrite !orb_false_r. repeat case_if; intros [= <- <-]; (split; [|done]); intros u; unfold gids; cbn; rewrite !elem_of_cons; id_facts.
  - unfold sys_setresgid, res_allowed. rewrite Hc. destruct (arg_id 0 tf), (arg_id 1 tf), (arg_id 2 tf); try (intros [= <- <-]; done).
    cbn [negb andb]. case_if; [intros [= <- <-]; done|]. bool_hyps. intros [= <- <-]. split; [|done].
    intros u. unfold gids; cbn. rewrite !elem_of_cons. repeat case_if; id_facts.
  - unfold sys_setfsgid. rewrite Hc. destruct (arg_id 0 tf); [|intros [= <- <-]; done].
    rewrite orb_false_r. repeat case_if; intros [= <- <-]; (split; [|done]); intros u; unfold gids; cbn; rewrite !elem_of_cons; id_facts.
Qed.

(** No uid call adds a capability that was neither effective nor permitted. *)
Lemma uid_call_caps f tf c r c' : f ∈ sys_setuid :: uid_calls -> f tf c = (r, c') ->
  cap_sub (cap_permitted c') (cap_permitted c) /\
  cap_sub (cap_effective c') (Z.lor (cap_effective c) (cap_permitted c)).
Proof.
  assert (Hrefl : forall c, cap_sub (cap_permitted c) (cap_permitted c) /\
    cap_sub (cap_effective c) (Z.lor (cap_effective c) (cap_permitted c))).
  { intros c0. rewrite !cap_sub_spec. split; [done|]. intros n _ H. by rewrite Z.lor_spec, H. }
  intros Hf. repeat (apply elem_of_cons in Hf as [->|Hf]); [..|by apply elem_of_nil in Hf].
  - unfold sys_setuid. destruct (arg_id 0 tf); [|intros [= <- <-]; done].
    destruct (if capable CAP_SETUID c then _ else _) as [[ru su]|]; [|intros [= <- <-]; done]. intros [= <- <-].
    apply (emulate_caps _ _ _ (with_uids _ _ _ _ c)).
  - unfold sys_setreuid. destruct (arg_id 0 tf), (arg_id 1 tf); try (intros [= <- <-]; done).
    do 2 (case_if; [intros [= <- <-]; done|]). intros [= <- <-]. apply (emulate_caps _ _ _ (with_uids _ _ _ _ c)).
  - unfold sys_setresuid. destruct (arg_id 0 tf), (arg_id 1 tf), (arg_id 2 tf); try (intros [= <- <-]; done).
    case_if; [intros [= <- <-]; done|]. intros [= <- <-]. apply (emulate_caps _ _ _ (with_uids _ _ _ _ c)).
  - unfold sys_setfsuid. destruct (arg_id 0 tf); [|intros [= <- <-]; done].
    repeat case_if; intros [= <- <-]; cbn; rewrite !cap_sub_spec; (split; [done|]); intros n Hn;
      rewrite ?Z.lor_spec, ?Z.land_spec, ?Z.lnot_spec by lia; destruct (Z.testbit (cap_effective c) n), (Z.testbit (cap_permitted c) n); done.
Qed.

Lemma gid_call_caps f tf c r c' : f ∈ gid_calls -> f tf c = (r, c') ->
  cap_effective c' = cap_effective c /\ cap_permitted c' = cap_permitted c.
Proof.
  intros Hf. repeat (apply elem_of_cons in Hf as [->|Hf]); [..|by apply elem_of_nil in Hf];
    unfold sys_setgid, sys_setregid, sys_setresgid, sys_setfsgid;
    repeat match goal with |- context [arg_id ?n ?t] => destruct (arg_id n t) end;
    repeat case_if; intros [= <- <-]; done.
Qed.

(** The capability is in neither set. *)
Definition lacks (cap : Z) (c : cred) : Prop :=
  Z.testbit (cap_effective c) cap = false /\ Z.testbit (cap_permitted c) cap = false.

(** Any sequence of id calls other than [setuid], whatever the arguments. *)
Inductive cred_run : cred -> cred -> Prop :=
| run_refl c : cred_run c c
| run_step f tf r c1 c2 c3 : f ∈ uid_calls ++ gid_calls -> f tf c1 = (r, c2) -> cred_run c2 c3 -> cred_run c1 c3.

Lemma lacks_step cap f tf r c1 c2 : 0 <= cap -> f ∈ uid_calls ++ gid_calls -> f tf c1 = (r, c2) ->
  lacks cap c1 -> lacks cap c2.
Proof.
  intros Hcap Hf Hr [He Hp]. apply elem_of_app in Hf as [Hf|Hf].
  - destruct (uid_call_caps f tf c1 r c2) as [H1 H2]; [by right|done|]. rewrite cap_sub_spec in H1, H2. split.
    + destruct (Z.testbit (cap_effective c2) cap) eqn:E; [|done]. specialize (H2 cap Hcap E).
      by rewrite Z.lor_spec, He, Hp in H2.
    + destruct (Z.testbit (cap_permitted c2) cap) eqn:E; [|done]. by rewrite (H1 cap Hcap E) in Hp.
  - destruct (gid_call_caps f tf c1 r c2 Hf Hr) as [H1 H2]. unfold lacks. by rewrite H1, H2.
Qed.

(** ** Properties *)

(** C28: a process without the set-id capabilities can never obtain, by any
    sequence of setreuid, setresuid, setfsuid, setgid, setregid, setresgid and
    setfsgid calls, a user or group id it did not hold at the start, and never
    regains the capabilities. *)
Theorem id_confinement c0 c :
  lacks CAP_SETUID c0 -> lacks CAP_SETGID c0 -> cred_run c0 c ->
  (forall u, u ∈ uids c -> u ∈ uids c0) /\ (forall g, g ∈ gids c -> g ∈ gids c0) /\
  lacks CAP_SETUID c /\ lacks CAP_SETGID c.
Proof.
  intros Hu Hg Hrun. induction Hrun as [c|f tf r c1 c2 c3 Hf Hr _ IH]; [done|].
  destruct IH as (IHu & IHg & IHc); [by eapply lacks_step|by eapply lacks_step|].
  assert (Hcu : capable CAP_SETUID c1 = false) by (rewrite capable_bit; [apply Hu|done]).
  assert (Hcg : capable CAP_SETGID c1 = false) by (rewrite capable_bit; [apply Hg|done]).
  assert (Hsub : (forall u, u ∈ uids c2 -> u ∈ uids c1) /\ (forall g, g ∈ gids c2 -> g ∈ gids c1)).
  { apply elem_of_app in Hf as [Hf|Hf].
    - destruct (uid_call_ids f tf c1 r c2 Hf Hcu Hr) as [H1 H2]. split; [done|]. by rewrite H2.
    - destruct (gid_call_ids f tf c1 r c2 Hf Hcg Hr) as [H1 H2]. split; [by rewrite H2|done]. }
  destruct Hsub as [Hs1 Hs2]. split; [|split; [|done]]; auto.
Qed.

Lemma id_confinement_witness :
  let c0 := Cred 1000 1000 0 1000 100 100 100 100 0 0 0 2 in
  let c1 := Cred 1000 0 0 0 100 100 100 100 0 0 0 2 in
  cred_run c0 c1 /\ forall u, u ∈ uids c1 -> u ∈ uids c0.
Proof.
  intros c0 c1.
  assert (Hrun : cred_run c0 c1).
  { apply (run_step sys_setresuid (fun n => if n =? 1 then 0 else -1) 0 c0 c1 c1); [|reflexivity|constructor].
    right; left. }
  split; [exact Hrun|]. apply (id_confinement c0 c1); [split; reflexivity|split; reflexivity|exact Hrun].
Defined.

(** No call that changes user ids adds a capability: what is permitted
    afterwards was permitted before, and what is effective afterwards was
    effective or permitted before. *)
Theorem caps_never_grow f tf c r c' : f ∈ sys_setuid :: uid_calls -> f tf c = (r, c') ->
  cap_sub (cap_permitted c') (cap_permitted c) /\
  cap_sub (cap_effective c') (Z.lor (cap_effective c) (cap_permitted c)).
Proof. apply uid_call_caps. Qed.

Lemma caps_never_grow_witness :
  let c := Cred 1000 1000 1000 1000 0 0 0 0 1 0 2 0 in
  cap_sub (cap_effective (sys_setresuid (fun _ => 1000) c).2) 3.
Proof.
  intros c. refine (proj2 (caps_never_grow sys_setresuid (fun _ => 1000) c 0 _ _ _)); [right; right; left|reflexivity].
Defined.

(** When a process with a root id gives all three user ids up through
    setresuid, it loses every permitted and effective capability. *)
Theorem setresuid_drops_root tf c u :
  u <> 0 -> u <> no_id -> arg_id 0 tf = Some u -> arg_id 1 tf = Some u -> arg_id 2 tf = Some u ->
  capable CAP_SETUID c = true -> uid c = 0 \/ euid c = 0 \/ suid c = 0 ->
  exists c', sys_setresuid tf c = (0, c') /\ uids c' = [u; u; u; u] /\ cap_permitted c' = 0 /\ cap_effective c' = 0.
Proof.
  intros Hu0 Hun H0 H1 H2 Hc Hroot. unfold sys_setresuid. rewrite H0, H1, H2, Hc. cbn [negb andb].
  rewrite (proj2 (Z.eqb_neq u no_id)) by done. cbn [negb]. eexists. split; [done|].
  destruct (emulate_uids (uid c) (euid c) (suid c) (with_uids u u u u c)) as [-> _]. split; [done|].
  unfold cap_emulate_setxuid. cbn. rewrite (proj2 (Z.eqb_neq u 0)) by done. cbn [negb andb].
  destruct Hroot as [->|[->| ->]]; rewrite Z.eqb_refl, ?orb_true_r; cbn; repeat case_if; done.
Qed.

Lemma setresuid_drops_root_witness :
  exists c', sys_setresuid (fun _ => 1000) (Cred 0 0 0 0 0 0 0 0 0xfffffeff 0 0xfffffeff 2) = (0, c') /\ cap_effective c' = 0.
Proof.
  destruct (setresuid_drops_root (fun _ => 1000) (Cred 0 0 0 0 0 0 0 0 0xfffffeff 0 0xfffffeff 2) 1000)
    as (c' & Hr & _ & _ & He); try reflexivity; try discriminate; [left; reflexivity|].
  exists c'. split; [exact Hr|exact He].
Defined.

(** Setuid never refuses: a process with no capability at all changes its
    effective and file-system user id to any value it asks for, root
    included, after which [permission] grants it everything. *)
Theorem setuid_unchecked tf c u :
  capable CAP_SETUID c = false -> arg_id 0 tf = Some u ->
  exists c', sys_setuid tf c = (0, c') /\ euid c' = u /\ fsuid c' = u /\
    (u = 0 -> forall mode ouid ogid mask, permission c' mode ouid ogid mask = 0).
Proof.
  intros Hc Ha. unfold sys_setuid. rewrite Ha, Hc. eexists. split; [done|].
  destruct (emulate_uids (uid c) (euid c) (suid c) (with_uids (uid c) u (suid c) u c)) as [Hids _].
  unfold uids in Hids. cbn in Hids. injection Hids as _ He _ Hf. split; [done|]. split; [done|].
  intros -> mode ouid ogid mask. unfold permission. by rewrite Hf.
Qed.

Lemma setuid_unchecked_witness :
  exists c', sys_setuid (fun _ => 0) (Cred 1000 1000 1000 1000 100 100 100 100 0 0 0 2) = (0, c') /\ euid c' = 0.
Proof.
  destruct (setuid_unchecked (fun _ => 0) (Cred 1000 1000 1000 1000 100 100 100 100 0 0 0 2) 0)
    as (c' & Hr & He & _); [reflexivity|reflexivity|]. exists c'. split; [exact Hr|exact He].
Defined.

(** The permission bits that apply to the process. *)
Definition class_bits (c : cred) (mode ouid ogid : Z) : Z :=
  Z.land (Z.shiftr mode (if fsuid c =? ouid then 6 else if fsgid c =? ogid then 3 else 0)) 7.

(** C33: for a request within read, write and execute, [permission] grants
    exactly to root, to a process whose class has all the bits asked for, and
    to one with CAP_DAC_OVERRIDE unless it only asks to execute a file nobody
    may execute; otherwise it answers EACCES. *)
Theorem permission_correct c mode ouid ogid mask : 0 <= mask < 8 ->
  permission c mode ouid ogid mask =
    if decide (fsuid c = 0 \/ Z.land (class_bits c mode ouid ogid) mask = mask \/
               ((Z.land mask 6 <> 0 \/ Z.land mode S_IXUGO <> 0) /\ capable CAP_DAC_OVERRIDE c = true))
    then 0 else - EACCES.
Proof.
  intros Hm. unfold permission, class_bits. change (Z.lor (Z.lor MAY_READ MAY_WRITE) MAY_EXEC) with 7.
  change (Z.lor MAY_READ MAY_WRITE) with 6.
  set (k := if fsuid c =? ouid then 6 else if fsgid c =? ogid then 3 else 0).
  assert (Hk : (if fsuid c =? ouid then Z.shiftr mode 6 else if fsgid c =? ogid then Z.shiftr mode 3 else mode) = Z.shiftr mode k).
  { unfold k. repeat case_if; done. }
  rewrite Hk. assert (Hb : Z.land (Z.land (Z.shiftr mode k) mask) 7 = Z.land (Z.land (Z.shiftr mode k) 7) mask).
  { by rewrite <- !Z.land_assoc, (Z.land_comm mask). }
  rewrite Hb. destruct (fsuid c =? 0) eqn:E0; bool_hyps; [rewrite decide_True by auto; done|].
  destruct (Z.land _ mask =? mask) eqn:E1; bool_hyps; [rewrite decide_True by auto; done|].
  destruct (capable CAP_DAC_OVERRIDE c); rewrite ?andb_true_r, ?andb_false_r.
  2:{ rewrite decide_False; [done|]. naive_solver. }
  destruct (Z.land mask 6 =? 0) eqn:E2, (Z.land mode S_IXUGO =? 0) eqn:E3; cbn [negb andb orb]; bool_hyps;
    [rewrite decide_False by naive_solver|rewrite decide_True by naive_solver..]; done.
Qed.

Lemma permission_correct_witness :
  permission (Cred 5 5 5 5 6 6 6 6 0 0 0 0) 0x1a4 7 6 MAY_WRITE = - EACCES.
Proof. rewrite permission_correct by (vm_compute; split; [discriminate|reflexivity]). vm_compute. reflexivity. Defined.
