(* ===== verification/Spinlock.v ===== *)
(** * Spinlocks and interrupt nesting (kernel/spinlock.c)

    [cpuid] always answers 0, so the model has one CPU: the depth of
    [push_off] nesting, the interrupt state remembered by the outermost one,
    the interrupt enable bit of [sstatus], and the table of spinlocks by
    address.  [acquire] of a lock another CPU holds spins for ever
    ([Blocked]); of a lock this CPU holds it panics. *)
From S2P Require Import Prelude.

Record spinlock := Spinlock { locked : bool; lcpu : option Z }.
Record cpu := Cpu { noff : Z; intena : bool; intr : bool; locks : gmap Z spinlock }.

Definition mycpu : Z := 0.
Definition with_lock (a : Z) (l : spinlock) (c : cpu) : cpu :=
  Cpu (noff c) (intena c) (intr c) (<[a := l]> (locks c)).
Definition get_lock (a : Z) : M cpu spinlock := fun c => deref (locks c !! a) c.
Definition put_lock (a : Z) (l : spinlock) : M cpu unit := modify (with_lock a l).

Definition intr_get : M cpu bool := gets intr.
Definition intr_off : M cpu unit := modify (fun c => Cpu (noff c) (intena c) false (locks c)).
Definition intr_on : M cpu unit := modify (fun c => Cpu (noff c) (intena c) true (locks c)).

Definition push_off : M cpu unit :=
  old ← intr_get;
  intr_off;;
  modify (fun c => if noff c =? 0 then Cpu (noff c) old (intr c) (locks c) else c);;
  modify (fun c => Cpu (noff c + 1) (intena c) (intr c) (locks c)).

Definition pop_off : M cpu unit :=
  i ← intr_get;
  if (i : bool) then panic "pop_off - interruptible"%string
  else
    c ← get;
    if noff c <? 1 then panic "pop_off"%string
    else
      modify (fun c => Cpu (noff c - 1) (intena c) (intr c) (locks c));;
      c ← get;
      if (noff c =? 0) && intena c then intr_on else mret tt.

Definition holding (a : Z) : M cpu bool :=
  l ← get_lock a;
  mret (locked l && bool_decide (lcpu l = Some mycpu)).

Definition initlock (a : Z) : M cpu unit := put_lock a (Spinlock false None).

Definition acquire (a : Z) : M cpu unit :=
  push_off;;
  h ← holding a;
  if (h : bool) then panic "acquire"%string
  else
    l ← get_lock a;
    if locked l then blocked
    else put_lock a (Spinlock true (Some mycpu)).

Definition release (a : Z) : M cpu unit :=
  h ← holding a;
  if negb (h : bool) then panic "release"%string
  else put_lock a (Spinlock false None);; pop_off.

(** ** The invariant *)

Definition free_lock : spinlock := Spinlock false None.
Definition held_lock : spinlock := Spinlock true (Some mycpu).

(** The spinlocks held are exactly those of [H], all others are free, and the
    nesting depth is [n]. *)
Record cpu_is (H : gset Z) (n : Z) (c : cpu) : Prop := {
  ci_noff : noff c = n;
  ci_locks : forall a l, locks c !! a = Some l -> l = if decide (a ∈ H) then held_lock else free_lock;
  ci_mapped : forall a, a ∈ H -> is_Some (locks c !! a);
  ci_off : 0 < n -> intr c = false;
}.

Lemma acquire_spec H n c a : cpu_is H n c -> 0 <= n -> a ∉ H -> is_Some (locks c !! a) ->
  acquire a c = Done tt (Cpu (n + 1) (if n =? 0 then intr c else intena c) false (<[a := held_lock]> (locks c))) /\
  cpu_is ({[a]} ∪ H) (n + 1) (Cpu (n + 1) (if n =? 0 then intr c else intena c) false (<[a := held_lock]> (locks c))).
Proof.
  intros [Hn Hl Hm Ho] Hpos Ha [l Hal]. pose proof (Hl a l Hal) as El. rewrite decide_False in El by done. subst l.
  split.
  - unfold acquire, push_off, intr_get, intr_off, holding, get_lock, put_lock. mstep.
    destruct c as [nf ie it lk]; cbn in *; subst nf.
    destruct (n =? 0) eqn:E; cbn; rewrite !Hal; cbn; rewrite ?Hal; cbn; unfold with_lock; cbn; bool_hyps; subst; reflexivity.
  - split; cbn; [done| | |done].
    + intros b lb. destruct (decide (b = a)) as [->|Hne].
      * rewrite lookup_insert_eq. intros [= <-]. by rewrite decide_True by set_solver.
      * rewrite lookup_insert_ne by done. intros Hb. apply Hl in Hb. subst lb.
        destruct (decide (b ∈ H)); [by rewrite decide_True by set_solver|by rewrite decide_False by set_solver].
    + intros b Hb. destruct (decide (b = a)) as [->|Hne]; [rewrite lookup_insert_eq; eauto|].
      rewrite lookup_insert_ne by done. apply Hm. set_solver.
Qed.

Lemma release_spec H n c a : cpu_is H n c -> 1 <= n -> a ∈ H ->
  let c' := Cpu (n - 1) (intena c) ((n =? 1) && intena c) (<[a := free_lock]> (locks c)) in
  release a c = Done tt c' /\ cpu_is (H ∖ {[a]}) (n - 1) c'.
Proof.
  intros [Hn Hl Hm Ho] Hpos Ha c'. destruct (Hm a Ha) as [l Hal].
  pose proof (Hl a l Hal) as El. rewrite decide_True in El by done. subst l.
  specialize (Ho ltac:(lia)). split.
  - unfold release, holding, pop_off, get_lock, put_lock, intr_get, intr_on, c'. mstep.
    destruct c as [nf ie it lk]; cbn in *; subst nf it. rewrite Hal. cbn.
    rewrite bool_decide_true by done. unfold with_lock. cbn. destruct (n <? 1) eqn:E; bool_hyps; [lia|]. cbn [noff intena intr locks].
    replace (n - 1 =? 0) with (n =? 1) by (destruct (n =? 1) eqn:E1, (n - 1 =? 0) eqn:E2; bool_hyps; try done; lia).
    destruct (n =? 1), ie; reflexivity.
  - unfold c'. split; cbn; [done| | |].
    + intros b lb. destruct (decide (b = a)) as [->|Hne].
      * rewrite lookup_insert_eq. intros [= <-]. by rewrite decide_False by set_solver.
      * rewrite lookup_insert_ne by done. intros Hb. apply Hl in Hb. subst lb.
        destruct (decide (b ∈ H)); [by rewrite decide_True by set_solver|by rewrite decide_False by set_solver].
    + intros b Hb. destruct (decide (b = a)) as [->|Hne]; [set_solver|].
      rewrite lookup_insert_ne by done. apply Hm. set_solver.
    + intros. destruct (n =? 1) eqn:E; bool_hyps; [lia|done].
Qed.

(** A section inside another: it leaves the CPU as it was. *)
Lemma nested_spec H n c a : cpu_is H n c -> 1 <= n -> a ∉ H -> is_Some (locks c !! a) ->
  exists c1, acquire a c = Done tt c1 /\ cpu_is ({[a]} ∪ H) (n + 1) c1 /\ release a c1 = Done tt c.
Proof.
  intros Hc Hn Ha [l Hl]. destruct (acquire_spec H n c a Hc ltac:(lia) Ha ltac:(eauto)) as [E1 H1].
  destruct (release_spec _ _ _ a H1 ltac:(lia) ltac:(set_solver)) as [E2 _].
  eexists. split; [exact E1|]. split; [exact H1|]. rewrite E2. destruct Hc as [Hnf Hlk _ Hoff]. specialize (Hoff ltac:(lia)).
  pose proof (Hlk a l Hl) as El. rewrite decide_False in El by done. subst l.
  destruct c as [nf ie it lk]; cbn in *. subst nf it. rewrite insert_insert_eq, insert_id by done.
  rewrite (proj2 (Z.eqb_neq n 0)), (proj2 (Z.eqb_neq (n + 1) 1)) by lia. replace (n + 1 - 1) with n by lia. reflexivity.
Qed.

(** ** One lock at a time

    No lock held, or lock [a] only; the locks of [L] exist. *)
Section Locks.
Context (L : gset Z).
Definition lk_free (c : cpu) : Prop := cpu_is ∅ 0 c /\ forall a, a ∈ L -> is_Some (locks c !! a).
Definition lk_one (a : Z) (c : cpu) : Prop := cpu_is {[a]} 1 c /\ forall a, a ∈ L -> is_Some (locks c !! a).

Lemma lk_acquire a c : lk_free c -> a ∈ L -> exists c', acquire a c = Done tt c' /\ lk_one a c'.
Proof.
  intros [Hc Hm] Ha. destruct (acquire_spec _ _ _ _ Hc ltac:(lia) (not_elem_of_empty _) (Hm a Ha)) as [E H1].
  eexists. split; [exact E|]. split; [by rewrite union_empty_r_L in H1|]. intros b Hb. cbn.
  destruct (decide (b = a)) as [->|]; [rewrite lookup_insert_eq; eauto|rewrite lookup_insert_ne by done; by apply Hm].
Qed.

Lemma lk_release a c : lk_one a c -> exists c', release a c = Done tt c' /\ lk_free c'.
Proof.
  intros [Hc Hm]. destruct (release_spec _ _ _ _ Hc ltac:(lia) (elem_of_singleton_2 _ _ eq_refl)) as [E H1].
  eexists. split; [exact E|]. split; [by rewrite difference_diag_L in H1|]. intros b Hb. cbn.
  destruct (decide (b = a)) as [->|]; [rewrite lookup_insert_eq; eauto|rewrite lookup_insert_ne by done; by apply Hm].
Qed.

End Locks.

(** ** Sequences of lock operations *)

Inductive lock_op := OpAcquire (a : Z) | OpRelease (a : Z) | OpPush | OpPop.

Definition lock_step (o : lock_op) : M cpu unit :=
  match o with OpAcquire a => acquire a | OpRelease a => release a | OpPush => push_off | OpPop => pop_off end.
Fixpoint lock_run (os : list lock_op) : M cpu unit :=
  match os with [] => mret tt | o :: os => lock_step o;; lock_run os end.

(** What the nesting discipline maintains, [i0] being the interrupt state
    outside every section. *)
Definition nest (i0 : bool) (c : cpu) : Prop :=
  0 <= noff c /\ (noff c = 0 -> intr c = i0) /\ (0 < noff c -> intr c = false /\ intena c = i0).

Lemma push_off_nest i0 c c' : nest i0 c -> push_off c = Done tt c' -> nest i0 c' /\ noff c' = noff c + 1 /\ locks c' = locks c.
Proof.
  unfold nest, push_off, intr_get, intr_off. mstep. destruct c as [nf ie it lk]; cbn.
  intros (? & Hz & Hp) E0. destruct (nf =? 0) eqn:E; injection E0 as <-; cbn; bool_hyps; [|destruct (Hp ltac:(lia)); subst];
    repeat split; try lia; auto.
Qed.

Lemma pop_off_nest i0 c c' : nest i0 c -> pop_off c = Done tt c' -> nest i0 c' /\ noff c' = noff c - 1 /\ locks c' = locks c.
Proof.
  unfold nest, pop_off, intr_get, intr_on. mstep. destruct c as [nf ie it lk]; cbn.
  intros (? & Hz & Hp). destruct it; cbn; [discriminate|]. destruct (nf <? 1) eqn:E; [discriminate|]. bool_hyps.
  destruct (Hp ltac:(lia)) as [_ ->]. cbn [noff intena]. destruct (nf - 1 =? 0) eqn:E2; cbn; bool_hyps.
  - destruct i0; intros [= <-]; cbn; repeat split; try lia; auto.
  - intros [= <-]; cbn; repeat split; try lia; auto.
Qed.

Lemma lock_step_nest i0 o c c' : nest i0 c -> lock_step o c = Done tt c' -> nest i0 c'.
Proof.
  intros Hc. destruct o as [a|a| |]; cbn.
  - unfold acquire. intros (u & c1 & H1 & H2)%bind_Done_inv. destruct u.
    destruct (push_off_nest _ _ _ Hc H1) as (Hn & _ & _).
    apply bind_Done_inv in H2 as (h & c2 & Hh & H3). unfold holding, get_lock in Hh. revert Hh. mstep.
    destruct (locks c1 !! a); [|discriminate]. intros [= <- <-]. revert H3. unfold get_lock, put_lock. case_if; [discriminate|].
    mstep. destruct (locks c1 !! a) as [l|]; [|discriminate]. destruct (locked l); [discriminate|].
    intros [= <-]. unfold nest, with_lock in *. cbn. done.
  - unfold release. intros (h & c2 & Hh & H3)%bind_Done_inv. unfold holding, get_lock in Hh. revert Hh. mstep.
    destruct (locks c !! a); [|discriminate]. intros [= <- <-]. revert H3. case_if; [discriminate|].
    intros (u & c1 & H1 & H2)%bind_Done_inv. unfold put_lock, modify in H1. injection H1 as _ <-.
    apply (pop_off_nest i0 (with_lock a (Spinlock false None) c)); [|done]. unfold nest, with_lock in *. cbn. done.
  - intros H. by apply (push_off_nest i0 c c').
  - intros H. by apply (pop_off_nest i0 c c').
Qed.

Lemma lock_run_nest i0 : forall os c c', nest i0 c -> lock_run os c = Done tt c' -> nest i0 c'.
Proof.
  induction os as [|o os IH]; cbn; intros c c' Hc.
  - intros [= <-]. done.
  - intros (u & c1 & H1 & H2)%bind_Done_inv. destruct u. eauto using lock_step_nest.
Qed.

(** Whatever sequence of [acquire], [release], [push_off] and [pop_off]
    kernel code performs from outside every section, nested and interleaved in
    any order, interrupts stay off while the depth is positive, and once it is
    back at 0 the interrupt enable bit has the value it had at the start. *)
Theorem interrupts_restored os c c' : noff c = 0 -> lock_run os c = Done tt c' ->
  (0 < noff c' -> intr c' = false) /\ (noff c' = 0 -> intr c' = intr c).
Proof.
  intros Hn Hr. destruct (lock_run_nest (intr c) os c c') as (_ & Hz & Hp); [|done|].
  - split; [lia|]. split; [done|lia].
  - split; [intros Hpos; apply (Hp Hpos)|done].
Qed.

Definition two_locks : cpu := Cpu 0 false true (<[1 := free_lock]> (<[2 := free_lock]> ∅)).

Lemma interrupts_restored_witness :
  exists c', lock_run [OpAcquire 1; OpAcquire 2; OpRelease 1; OpRelease 2] two_locks = Done tt c' /\ intr c' = true.
Proof.
  eexists. split; [vm_compute; reflexivity|].
  apply (interrupts_restored [OpAcquire 1; OpAcquire 2; OpRelease 1; OpRelease 2] two_locks); [reflexivity|vm_compute; reflexivity|reflexivity].
Defined.

(** On a consistent table [acquire] takes a free lock, panics exactly on a
    lock this CPU holds, and [release] gives a held lock back and panics on
    every other one; the set of locks held and the depth move together. *)
Theorem lock_discipline H n c a : cpu_is H n c -> 0 <= n -> is_Some (locks c !! a) ->
  (a ∉ H -> exists c', acquire a c = Done tt c' /\ cpu_is ({[a]} ∪ H) (n + 1) c') /\
  (a ∈ H -> acquire a c = Panic "acquire") /\
  (a ∈ H -> 1 <= n -> exists c', release a c = Done tt c' /\ cpu_is (H ∖ {[a]}) (n - 1) c') /\
  (a ∉ H -> release a c = Panic "release").
Proof.
  intros Hc Hn Ha. split; [|split; [|split]].
  - intros Hf. eexists. by apply acquire_spec.
  - intros Hh. destruct Ha as [l Hal]. pose proof (ci_locks _ _ _ Hc a l Hal) as El.
    rewrite decide_True in El by done. subst l.
    unfold acquire, push_off, intr_get, intr_off, holding, get_lock. mstep.
    destruct c as [nf ie it lk]; cbn in *. destruct (nf =? 0); cbn; rewrite Hal; reflexivity.
  - intros Hh Hp. eexists. by apply release_spec.
  - intros Hf. destruct Ha as [l Hal]. pose proof (ci_locks _ _ _ Hc a l Hal) as El.
    rewrite decide_False in El by done. subst l.
    unfold release, holding, get_lock. mstep. rewrite Hal. reflexivity.
Qed.

Lemma lock_discipline_witness : exists c', acquire 1 two_locks = Done tt c' /\ cpu_is {[1]} 1 c'.
Proof.
  assert (Hc : cpu_is ∅ 0 two_locks).
  { split; [reflexivity| |set_solver|lia]. intros a l. rewrite decide_False by set_solver. unfold two_locks. cbn.
    rewrite !lookup_insert_Some, lookup_empty. naive_solver. }
  destruct (proj1 (lock_discipline ∅ 0 two_locks 1 Hc ltac:(lia) ltac:(by eexists)) ltac:(set_solver)) as (c' & E & Hi).
  exists c'. split; [exact E|]. by rewrite union_empty_r_L in Hi.
Defined.
