(* ===== verification/Signal.v ===== *)
(** * Signal sets (kernel/signal.c)

    A [sigset_t] is a 64-bit word; signal [n] is bit [n - 1].  [1 << (n - 1)]
    is computed in [int]; [NSIG] is 32, so the shift never reaches the sign
    bit and [~(1 << (n - 1))] sign-extends to all the high bits set. *)
From S2P Require Import Prelude.

Definition NSIG : Z := 32.

Definition bad_sig (signum : Z) : bool := (signum <? 1) || (NSIG <=? signum).

(** Every operation returns the C result and the new value of [*set]. *)
Definition sigemptyset (set : Z) : Z * Z := (0, 0).
Definition sigfillset (set : Z) : Z * Z := (0, 0xffffffffffffffff).
Definition sigaddset (set signum : Z) : Z * Z :=
  if bad_sig signum then (-1, set) else (0, u64 (Z.lor set (s32 (Z.shiftl 1 (signum - 1))))).
Definition sigdelset (set signum : Z) : Z * Z :=
  if bad_sig signum then (-1, set) else (0, u64 (Z.land set (Z.lnot (s32 (Z.shiftl 1 (signum - 1)))))).
Definition sigismember (set signum : Z) : Z :=
  if bad_sig signum then -1
  else if Z.land set (u64 (s32 (Z.shiftl 1 (signum - 1)))) =? 0 then 0 else 1.
Definition sigisemptyset (set : Z) : Z := if set =? 0 then 1 else 0.
Definition signotset (src : Z) : Z := u64 (Z.lnot src).
Definition sigorset (left right : Z) : Z := Z.lor left right.
Definition sigandset (left right : Z) : Z := Z.land left right.
Definition siginitset (src : Z) : Z := sigorset (sigemptyset 0).2 src.

(** ** The set a word stands for *)
Definition member (set n : Z) : bool := Z.testbit set (n - 1).

Definition is_set (w : Z) : Prop := 0 <= w < 2 ^ 64.

Lemma u64_testbit x k : 0 <= k < 64 -> Z.testbit (u64 x) k = Z.testbit x k.
Proof. intros. unfold wrap. by rewrite Z.mod_pow2_bits_low by lia. Qed.

Lemma int_bit n : bad_sig n = false -> s32 (Z.shiftl 1 (n - 1)) = 2 ^ (n - 1) /\ 0 <= n - 1 < 31.
Proof.
  unfold bad_sig, NSIG. intros Hb. bool_hyps. rewrite shiftl_1 by lia. split; [|lia].
  assert (2 ^ (n - 1) < 2 ^ 31) by (apply Z.pow_lt_mono_r; lia).
  apply swrap_small; [lia|]. pose proof (pow2_pos (n - 1)). change (32 - 1) with 31. lia.
Qed.

Lemma sigismember_spec set n : bad_sig n = false -> sigismember set n = if member set n then 1 else 0.
Proof.
  intros Hb. unfold sigismember, member. rewrite Hb. destruct (int_bit n Hb) as [-> Hn].
  assert (2 ^ (n - 1) < 2 ^ 64) by (apply Z.pow_lt_mono_r; lia). pose proof (pow2_pos (n - 1)).
  rewrite (wrap_small 64) by lia. rewrite land_pow2_bit by lia.
  destruct (Z.testbit set (n - 1)); [|done]. destruct (2 ^ (n - 1) =? 0) eqn:E; bool_hyps; [lia|done].
Qed.

Lemma sigaddset_spec set n k : bad_sig n = false -> 0 <= k - 1 < 64 ->
  member (sigaddset set n).2 k = bool_decide (k = n) || member set k.
Proof.
  intros Hb Hk. unfold sigaddset, member. rewrite Hb. destruct (int_bit n Hb) as [-> Hn]. cbn [snd].
  rewrite u64_testbit by lia. rewrite Z.lor_spec, Z.pow2_bits_eqb by lia.
  case_bool_decide; subst; [by rewrite Z.eqb_refl, orb_true_r|].
  destruct (Z.eqb_spec (n - 1) (k - 1)); [lia|]. by rewrite orb_false_r.
Qed.

Lemma sigdelset_spec set n k : bad_sig n = false -> 0 <= k - 1 < 64 ->
  member (sigdelset set n).2 k = bool_decide (k <> n) && member set k.
Proof.
  intros Hb Hk. unfold sigdelset, member. rewrite Hb. destruct (int_bit n Hb) as [-> Hn]. cbn [snd].
  rewrite u64_testbit by lia. rewrite Z.land_spec, Z.lnot_spec, Z.pow2_bits_eqb by lia.
  case_bool_decide; subst.
  - destruct (Z.eqb_spec (n - 1) (k - 1)); [lia|]. by rewrite andb_true_r.
  - by rewrite Z.eqb_refl, andb_false_r.
Qed.

Lemma sigdelset_range set n : is_set set -> is_set (sigdelset set n).2.
Proof. unfold sigdelset, is_set. case_if; cbn [snd]; [done|]. intros _. apply wrap_range. lia. Qed.

(** For a valid signal number, [sigaddset] and [sigdelset] change exactly
    that signal's membership, in all 64 positions of the set, and
    [sigismember] reads it; other numbers are refused and leave the set. *)
Theorem sigset_ops set n :
  (bad_sig n = false ->
     (forall k, 1 <= k <= 64 ->
        member (sigaddset set n).2 k = bool_decide (k = n) || member set k /\
        member (sigdelset set n).2 k = bool_decide (k <> n) && member set k /\
        member (signotset set) k = negb (member set k)) /\
     sigismember (sigaddset set n).2 n = 1 /\ sigismember (sigdelset set n).2 n = 0) /\
  (bad_sig n = true -> sigaddset set n = (-1, set) /\ sigdelset set n = (-1, set) /\ sigismember set n = -1).
Proof.
  split; [|unfold sigaddset, sigdelset, sigismember; by intros ->].
  intros Hb. assert (Hn : 1 <= n < 32) by (unfold bad_sig, NSIG in Hb; bool_hyps; lia).
  split; [|split].
  - intros k Hk. rewrite sigaddset_spec, sigdelset_spec by (done || lia). split; [done|]. split; [done|].
    unfold member, signotset. rewrite u64_testbit, Z.lnot_spec by lia. done.
  - rewrite sigismember_spec, sigaddset_spec by (done || lia). by rewrite bool_decide_true by done.
  - rewrite sigismember_spec, sigdelset_spec by (done || lia). by rewrite bool_decide_false by naive_solver.
Qed.

Lemma sigset_ops_witness : sigismember (sigaddset 0x100 15).2 15 = 1 /\ sigaddset 0x100 32 = (-1, 0x100).
Proof.
  split; [apply (sigset_ops 0x100 15); reflexivity|apply (sigset_ops 0x100 32); reflexivity].
Defined.
