(* ===== verification/Proc.v ===== *)
(** * Processes, scheduling, sleep and wakeup, fork, exit, wait and signals
    (kernel/proc.c, kernel/sleeplock.c)

    The state is the process table, the CPU of Spinlock.v, the scheduler's
    local variables, and a world [W] that stands for the memory and file
    system behind the operations of the class [kenv].  A kernel thread that
    calls [sched] leaves its continuation in its [context]: the place it was
    called from and, for a sleep, the frames of the callers still to run.  The
    scheduler loop runs one iteration per [sched_step].

    A system call is atomic up to the points where the code gives up the CPU. *)
From S2P Require Import Prelude Spinlock Signal Cred.

Definition NPROC : nat := 64.
#[global] Arguments NPROC : simpl never.
Definition NOFILE : nat := 16.
#[global] Arguments NOFILE : simpl never.
Definition PGSIZE : Z := 4096.
Definition ESRCH : Z := 3.
Definition EINTR : Z := 4.
Definition ECHILD : Z := 10.
Definition ENOMEM : Z := 12.
Definition EFAULT : Z := 14.
Definition WNOHANG : Z := 1.
Definition WUNTRACED : Z := 2.

Definition SIGHUP : Z := 1.
Definition SIGINT : Z := 2.
Definition SIGQUIT : Z := 3.
Definition SIGILL : Z := 4.
Definition SIGTRAP : Z := 5.
Definition SIGABRT : Z := 6.
Definition SIGBUS : Z := 7.
Definition SIGFPE : Z := 8.
Definition SIGKILL : Z := 9.
Definition SIGUSR1 : Z := 10.
Definition SIGSEGV : Z := 11.
Definition SIGUSR2 : Z := 12.
Definition SIGPIPE : Z := 13.
Definition SIGALRM : Z := 14.
Definition SIGTERM : Z := 15.
Definition SIGSTKFLT : Z := 16.
Definition SIGCHLD : Z := 17.
Definition SIGCONT : Z := 18.
Definition SIGSTOP : Z := 19.
Definition SIGTSTP : Z := 20.
Definition SIGTTIN : Z := 21.
Definition SIGTTOU : Z := 22.
Definition SIGURG : Z := 23.
Definition SIGXCPU : Z := 24.
Definition SIGXFSZ : Z := 25.
Definition SIGVTALRM : Z := 26.
Definition SIGPROF : Z := 27.
Definition SIGWINCH : Z := 28.
Definition SIGIO : Z := 29.
Definition SIGPWR : Z := 30.
Definition SIGSYS : Z := 31.
Definition SIG_DFL : Z := 0.
Definition SIG_IGN : Z := 1.
Definition SIG_BLOCK : Z := 0.
Definition SIG_UNBLOCK : Z := 1.
Definition SIG_SETMASK : Z := 2.

(** ** Data *)

Inductive procstate := UNUSED | USED | SLEEPING | RUNNABLE | RUNNING | ZOMBIE.
#[export] Instance procstate_eq_dec : EqDecision procstate.
Proof. solve_decision. Defined.

Record sigaction_t := Sigaction { sa_handler : Z; sa_mask : Z; sa_flags : Z }.
Record signal := Sig { sig_mask : Z; sig_pending : Z; sig_actions : list sigaction_t }.
Definition no_signal : signal := Sig 0 0 (replicate 32 (Sigaction 0 0 0)).

(** Whom [kill] selects. *)
Inductive ksel := KGroup (g : Z) | KAll (cp : nat) | KPid (q : Z).

(** The callers of [sleep] still on the kernel stack, innermost first. *)
Inductive frame :=
| FUnlock (lk : Z)                                   (* a caller that only releases the lock *)
| FAcquireSleep (lk : Z)                             (* acquiresleep's loop *)
| FWait4 (q status options ru : Z) (kids : bool)     (* wait4's loop *)
| FStop (p : nat) (sig : Z)                          (* stop_handler, inside handle_signal *)
| FKill (sel : ksel) (sig : Z) (rest : nat) (err : Z)  (* kill's loop *)
| FSuspend (oldmask : Z)                             (* sigsuspend *)
| FSyscall.                                          (* syscall: the result goes to a0 *)

(** Where a saved context resumes. *)
Inductive kont := KForkret | KYield | KSleep (lk : Z) (fs : list frame) | KZombie.
Record ctx := Ctx { ctx_kont : kont; ctx_intena : bool }.

Record proc := Proc {
  state : procstate;
  chan : Z;
  killed : Z;
  paused : Z;
  xstate : Z;
  pid : Z;
  pgid : Z;
  sid : Z;
  parent : option nat;
  cr : cred;
  kstack : Z;
  sz : Z;
  pagetable : option Z;
  trapframe : option Z;
  tf : list Z;
  context : ctx;
  fdflag : Z;
  ofile : list (option Z);
  cwd : option Z;
  name : list Z;   (* the characters before the terminator; at most 15 *)
  regions : option Z;
  psignal : signal;
  oldtf : option (list Z)
}.

Definition set_state (v : procstate) (p : proc) : proc :=
  Proc v (chan p) (killed p) (paused p) (xstate p) (pid p) (pgid p) (sid p) (parent p) (cr p) (kstack p) (sz p) (pagetable p) (trapframe p) (tf p) (context p) (fdflag p) (ofile p) (cwd p) (name p) (regions p) (psignal p) (oldtf p).
Definition set_chan (v : Z) (p : proc) : proc :=
  Proc (state p) v (killed p) (paused p) (xstate p) (pid p) (pgid p) (sid p) (parent p) (cr p) (kstack p) (sz p) (pagetable p) (trapframe p) (tf p) (context p) (fdflag p) (ofile p) (cwd p) (name p) (regions p) (psignal p) (oldtf p).
Definition set_killed (v : Z) (p : proc) : proc :=
  Proc (state p) (chan p) v (paused p) (xstate p) (pid p) (pgid p) (sid p) (parent p) (cr p) (kstack p) (sz p) (pagetable p) (trapframe p) (tf p) (context p) (fdflag p) (ofile p) (cwd p) (name p) (regions p) (psignal p) (oldtf p).
Definition set_paused (v : Z) (p : proc) : proc :=
  Proc (state p) (chan p) (killed p) v (xstate p) (pid p) (pgid p) (sid p) (parent p) (cr p) (kstack p) (sz p) (pagetable p) (trapframe p) (tf p) (context p) (fdflag p) (ofile p) (cwd p) (name p) (regions p) (psignal p) (oldtf p).
Definition set_xstate (v : Z) (p : proc) : proc :=
  Proc (state p) (chan p) (killed p) (paused p) v (pid p) (pgid p) (sid p) (parent p) (cr p) (kstack p) (sz p) (pagetable p) (trapframe p) (tf p) (context p) (fdflag p) (ofile p) (cwd p) (name p) (regions p) (psignal p) (oldtf p).
Definition set_pid (v : Z) (p : proc) : proc :=
  Proc (state p) (chan p) (killed p) (paused p) (xstate p) v (pgid p) (sid p) (parent p) (cr p) (kstack p) (sz p) (pagetable p) (trapframe p) (tf p) (context p) (fdflag p) (ofile p) (cwd p) (name p) (regions p) (psignal p) (oldtf p).
Definition set_pgid (v : Z) (p : proc) : proc :=
  Proc (state p) (chan p) (killed p) (paused p) (xstate p) (pid p) v (sid p) (parent p) (cr p) (kstack p) (sz p) (pagetable p) (trapframe p) (tf p) (context p) (fdflag p) (ofile p) (cwd p) (name p) (regions p) (psignal p) (oldtf p).
Definition set_sid (v : Z) (p : proc) : proc :=
  Proc (state p) (chan p) (killed p) (paused p) (xstate p) (pid p) (pgid p) v (parent p) (cr p) (kstack p) (sz p) (pagetable p) (trapframe p) (tf p) (context p) (fdflag p) (ofile p) (cwd p) (name p) (regions p) (psignal p) (oldtf p).
Definition set_parent (v : option nat) (p : proc) : proc :=
  Proc (state p) (chan p) (killed p) (paused p) (xstate p) (pid p) (pgid p) (sid p) v (cr p) (kstack p) (sz p) (pagetable p) (trapframe p) (tf p) (context p) (fdflag p) (ofile p) (cwd p) (name p) (regions p) (psignal p) (oldtf p).
Definition set_cr (v : cred) (p : proc) : proc :=
  Proc (state p) (chan p) (killed p) (paused p) (xstate p) (pid p) (pgid p) (sid p) (parent p) v (kstack p) (sz p) (pagetable p) (trapframe p) (tf p) (context p) (fdflag p) (ofile p) (cwd p) (name p) (regions p) (psignal p) (oldtf p).
Definition set_kstack (v : Z) (p : proc) : proc :=
  Proc (state p) (chan p) (killed p) (paused p) (xstate p) (pid p) (pgid p) (sid p) (parent p) (cr p) v (sz p) (pagetable p) (trapframe p) (tf p) (context p) (fdflag p) (ofile p) (cwd p) (name p) (regions p) (psignal p) (oldtf p).
Definition set_sz (v : Z) (p : proc) : proc :=
  Proc (state p) (chan p) (killed p) (paused p) (xstate p) (pid p) (pgid p) (sid p) (parent p) (cr p) (kstack p) v (pagetable p) (trapframe p) (tf p) (context p) (fdflag p) (ofile p) (cwd p) (name p) (regions p) (psignal p) (oldtf p).
Definition set_pagetable (v : option Z) (p : proc) : proc :=
  Proc (state p) (chan p) (killed p) (paused p) (xstate p) (pid p) (pgid p) (sid p) (parent p) (cr p) (kstack p) (sz p) v (trapframe p) (tf p) (context p) (fdflag p) (ofile p) (cwd p) (name p) (regions p) (psignal p) (oldtf p).
Definition set_trapframe (v : option Z) (p : proc) : proc :=
  Proc (state p) (chan p) (killed p) (paused p) (xstate p) (pid p) (pgid p) (sid p) (parent p) (cr p) (kstack p) (sz p) (pagetable p) v (tf p) (context p) (fdflag p) (ofile p) (cwd p) (name p) (regions p) (psignal p) (oldtf p).
Definition set_tf (v : list Z) (p : proc) : proc :=
  Proc (state p) (chan p) (killed p) (paused p) (xstate p) (pid p) (pgid p) (sid p) (parent p) (cr p) (kstack p) (sz p) (pagetable p) (trapframe p) v (context p) (fdflag p) (ofile p) (cwd p) (name p) (regions p) (psignal p) (oldtf p).
Definition set_context (v : ctx) (p : proc) : proc :=
  Proc (state p) (chan p) (killed p) (paused p) (xstate p) (pid p) (pgid p) (sid p) (parent p) (cr p) (kstack p) (sz p) (pagetable p) (trapframe p) (tf p) v (fdflag p) (ofile p) (cwd p) (name p) (regions p) (psignal p) (oldtf p).
Definition set_fdflag (v : Z) (p : proc) : proc :=
  Proc (state p) (chan p) (killed p) (paused p) (xstate p) (pid p) (pgid p) (sid p) (parent p) (cr p) (kstack p) (sz p) (pagetable p) (trapframe p) (tf p) (context p) v (ofile p) (cwd p) (name p) (regions p) (psignal p) (oldtf p).
Definition set_ofile (v : list (option Z)) (p : proc) : proc :=
  Proc (state p) (chan p) (killed p) (paused p) (xstate p) (pid p) (pgid p) (sid p) (parent p) (cr p) (kstack p) (sz p) (pagetable p) (trapframe p) (tf p) (context p) (fdflag p) v (cwd p) (name p) (regions p) (psignal p) (oldtf p).
Definition set_cwd (v : option Z) (p : proc) : proc :=
  Proc (state p) (chan p) (killed p) (paused p) (xstate p) (pid p) (pgid p) (sid p) (parent p) (cr p) (kstack p) (sz p) (pagetable p) (trapframe p) (tf p) (context p) (fdflag p) (ofile p) v (name p) (regions p) (psignal p) (oldtf p).
Definition set_name (v : list Z) (p : proc) : proc :=
  Proc (state p) (chan p) (killed p) (paused p) (xstate p) (pid p) (pgid p) (sid p) (parent p) (cr p) (kstack p) (sz p) (pagetable p) (trapframe p) (tf p) (context p) (fdflag p) (ofile p) (cwd p) v (regions p) (psignal p) (oldtf p).
Definition set_regions (v : option Z) (p : proc) : proc :=
  Proc (state p) (chan p) (killed p) (paused p) (xstate p) (pid p) (pgid p) (sid p) (parent p) (cr p) (kstack p) (sz p) (pagetable p) (trapframe p) (tf p) (context p) (fdflag p) (ofile p) (cwd p) (name p) v (psignal p) (oldtf p).
Definition set_psignal (v : signal) (p : proc) : proc :=
  Proc (state p) (chan p) (killed p) (paused p) (xstate p) (pid p) (pgid p) (sid p) (parent p) (cr p) (kstack p) (sz p) (pagetable p) (trapframe p) (tf p) (context p) (fdflag p) (ofile p) (cwd p) (name p) (regions p) v (oldtf p).
Definition set_oldtf (v : option (list Z)) (p : proc) : proc :=
  Proc (state p) (chan p) (killed p) (paused p) (xstate p) (pid p) (pgid p) (sid p) (parent p) (cr p) (kstack p) (sz p) (pagetable p) (trapframe p) (tf p) (context p) (fdflag p) (ofile p) (cwd p) (name p) (regions p) (psignal p) v.

(** Register [a0] is word 14 of the trap frame, [epc] word 3, [sp] word 6. *)
Definition tf_epc : nat := 3.
Definition tf_sp : nat := 6.
Definition tf_a0 : nat := 14.

(** What the process code asks of the memory and file system code. *)
Class kenv (W : Type) := KEnv {
  env_kalloc : W -> option Z * W;
  env_kfree : Z -> W -> W;
  env_proc_pagetable : Z -> W -> option Z * W;
  env_proc_freepagetable : Z -> Z -> W -> W;
  env_free_mmap_list : option Z -> W -> W;
  env_copy_mmap_regions : proc -> proc -> W -> (Z * option Z) * W;
  env_uvmcopy : proc -> proc -> W -> Z * W;
  env_munmap_all : Z -> W -> W;
  env_filedup : Z -> W -> W;
  env_fileclose : Z -> W -> W;
  env_idup : Z -> W -> W;
  env_iput : Z -> W -> W;
  env_fsinit : W -> W;
  env_mmap_cache : W -> W;
  env_uvmfirst : Z -> W -> W;
  env_namei_root : W -> option Z * W;
  env_copyout : option Z -> Z -> list Z -> W -> Z * W;
  env_stack : W -> list Z;   (* the eight bytes of a local that is not initialised *)
}.

(** Spinlock addresses. *)
Definition pid_lock : Z := 1.
Definition wait_lock : Z := 2.
Definition q_lock : Z := 3.
Definition q_siglock : Z := 4.
Definition proc_lock (i : nat) : Z := 16 + Z.of_nat i.
(** The channel [sleep(p, ...)] uses: the address of a [struct proc]. *)
Definition proc_addr (i : nat) : Z := 4096 + Z.of_nat i.

(** What a call leaves the CPU with: a result, or the thread asleep. *)
Inductive ctl := Ret (v : Z) | Slept.

Section kernel.
Context {W : Type} `{!kenv W}.

Record kst := K {
  table : list proc;
  nextpid : Z;
  initproc : option nat;
  kcpu : cpu;
  cproc : option nat;
  spos : nat;
  sfound : bool;
  kfirst : bool;
  slocks : gmap Z (bool * Z);
  world : W
}.

Definition set_table v (s : kst) := K v (nextpid s) (initproc s) (kcpu s) (cproc s) (spos s) (sfound s) (kfirst s) (slocks s) (world s).
Definition set_nextpid v (s : kst) := K (table s) v (initproc s) (kcpu s) (cproc s) (spos s) (sfound s) (kfirst s) (slocks s) (world s).
Definition set_kcpu v (s : kst) := K (table s) (nextpid s) (initproc s) v (cproc s) (spos s) (sfound s) (kfirst s) (slocks s) (world s).
Definition set_cproc v (s : kst) := K (table s) (nextpid s) (initproc s) (kcpu s) v (spos s) (sfound s) (kfirst s) (slocks s) (world s).
Definition set_spos v (s : kst) := K (table s) (nextpid s) (initproc s) (kcpu s) (cproc s) v (sfound s) (kfirst s) (slocks s) (world s).
Definition set_sfound v (s : kst) := K (table s) (nextpid s) (initproc s) (kcpu s) (cproc s) (spos s) v (kfirst s) (slocks s) (world s).
Definition set_kfirst v (s : kst) := K (table s) (nextpid s) (initproc s) (kcpu s) (cproc s) (spos s) (sfound s) v (slocks s) (world s).
Definition set_slocks v (s : kst) := K (table s) (nextpid s) (initproc s) (kcpu s) (cproc s) (spos s) (sfound s) (kfirst s) v (world s).
Definition set_world v (s : kst) := K (table s) (nextpid s) (initproc s) (kcpu s) (cproc s) (spos s) (sfound s) (kfirst s) (slocks s) v.

Definition on_cpu {A} (m : M cpu A) : M kst A := zoom kcpu set_kcpu m.
Definition kacquire (a : Z) : M kst unit := on_cpu (acquire a).
Definition krelease (a : Z) : M kst unit := on_cpu (release a).
Definition on_world (f : W -> W) : M kst unit := modify (fun s => set_world (f (world s)) s).
Definition ask {A} (f : W -> A * W) : M kst A := fun s => let (a, w) := f (world s) in Done a (set_world w s).

Definition rdp (i : nat) : M kst proc := fun s => deref (table s !! i) s.
Definition upd (i : nat) (f : proc -> proc) : M kst unit := fun s =>
  match table s !! i with
  | Some p => Done tt (set_table (<[i := f p]> (table s)) s)
  | None => Undef
  end.

Definition myproc : M kst (option nat) :=
  on_cpu push_off;; p ← gets cproc; on_cpu pop_off;; mret p.
Definition self : M kst nat := p ← myproc; deref p.

(** ** Allocation *)

Definition allocpid : M kst Z :=
  kacquire pid_lock;;
  q ← gets nextpid;
  modify (set_nextpid (s32 (q + 1)));;
  krelease pid_lock;;
  mret q.

Definition reset_proc (p : proc) : proc :=
  set_state UNUSED (set_psignal no_signal (set_regions None (set_xstate 0 (set_killed 0 (set_chan 0
    (set_name [] (set_parent None (set_fdflag 0
      (set_cr (Cred (u32 (-1)) (u32 (-1)) (u32 (-1)) (u32 (-1)) (u32 (-1)) (u32 (-1)) (u32 (-1)) (u32 (-1)) 0 0 0 0)
        (set_sid 0 (set_pgid 0 (set_pid 0 (set_sz 0 (set_pagetable None p)))))))))))))).

Definition freeproc (i : nat) : M kst unit :=
  p ← rdp i;
  match trapframe p with Some pa => on_world (env_kfree pa) | None => mret tt end;;
  upd i (set_trapframe None);;
  on_world (env_free_mmap_list (regions p));;
  upd i (set_regions None);;
  match pagetable p with Some pt => on_world (env_proc_freepagetable pt (sz p)) | None => mret tt end;;
  upd i reset_proc.

(** The search: [n] slots are left, the next one is [i]. *)
Fixpoint alloc_scan (n i : nat) : M kst (option nat) :=
  match n with
  | O => mret None
  | S n =>
      kacquire (proc_lock i);;
      p ← rdp i;
      if decide (state p = UNUSED) then mret (Some i)
      else krelease (proc_lock i);; alloc_scan n (S i)
  end.

Definition allocproc : M kst (option nat) :=
  f ← alloc_scan NPROC 0;
  match f with
  | None => mret None
  | Some i =>
      q ← allocpid;
      upd i (fun p => set_cr (with_umask 2 (cr p)) (set_regions None (set_state USED (set_sid q (set_pgid q (set_pid q p))))));;
      t ← ask env_kalloc;
      match t with
      | None => freeproc i;; krelease (proc_lock i);; mret None
      | Some pa =>
          upd i (set_trapframe (Some pa));;
          pt ← ask (env_proc_pagetable pa);
          match pt with
          | None => freeproc i;; krelease (proc_lock i);; mret None
          | Some t =>
              upd i (set_pagetable (Some t));;
              upd i (set_context (Ctx KForkret false));;
              mret (Some i)
          end
      end
  end.

(** ** fork *)

Definition opt_world (o : option Z) (f : Z -> W -> W) : M kst unit :=
  match o with Some x => on_world (f x) | None => mret tt end.

(** [for (i = 0; i < NOFILE; i++) if (p->ofile[i]) np->ofile[i] = filedup(p->ofile[i])],
    [n] iterations left. *)
Fixpoint dup_files (n : nat) (i : nat) (p np : nat) : M kst unit :=
  match n with
  | O => mret tt
  | S n =>
      pr ← rdp p;
      match ofile pr !! i with
      | Some (Some f) => on_world (env_filedup f);; upd np (fun q => set_ofile (<[i := Some f]> (ofile q)) q)
      | _ => mret tt
      end;;
      dup_files n (S i) p np
  end.

Definition inherit (p q : proc) : proc :=
  set_cr (with_umask (umask (cr q)) (cr p)) (set_sid (sid p) (set_pgid (pgid p) (set_sz (sz p) q))).

Definition fork : M kst ctl :=
  p ← self;
  o ← allocproc;
  match o with
  | None => mret (Ret (- ENOMEM))
  | Some np =>
      pr ← rdp p; nr ← rdp np;
      r ← ask (env_copy_mmap_regions pr nr);
      upd np (set_regions (r : Z * option Z).2);;
      if r.1 <? 0 then freeproc np;; krelease (proc_lock np);; mret (Ret r.1)
      else
        nr ← rdp np;
        u ← ask (env_uvmcopy pr nr);
        if u <? 0 then freeproc np;; krelease (proc_lock np);; mret (Ret (- ENOMEM))
        else
          upd np (inherit pr);;
          upd np (set_tf (tf pr));;
          upd np (fun q => set_tf (<[tf_a0 := 0]> (tf q)) q);;
          dup_files NOFILE 0 p np;;
          upd np (set_fdflag (fdflag pr));;
          d ← deref (cwd pr);
          on_world (env_idup d);;
          upd np (set_cwd (Some d));;
          upd np (set_psignal (psignal pr));;
          upd np (set_name (take 15 (name pr)));;
          nr ← rdp np;
          krelease (proc_lock np);;
          kacquire wait_lock;;
          upd np (set_parent (Some p));;
          krelease wait_lock;;
          kacquire (proc_lock np);;
          upd np (set_state RUNNABLE);;
          krelease (proc_lock np);;
          mret (Ret (pid nr))
  end.

(** ** Start-up *)

(** [procinit] on one slot, [kstack] being [KSTACK(i)]. *)
Definition init_slot (i : nat) (p : proc) : proc :=
  set_kstack (0x3FFFFFF000 - (Z.of_nat i + 1) * 2 * PGSIZE) (set_state UNUSED p).
Fixpoint init_slots (n i : nat) : M kst unit :=
  match n with
  | O => mret tt
  | S n => on_cpu (initlock (proc_lock i));; upd i (init_slot i);; init_slots n (S i)
  end.
Definition procinit : M kst unit :=
  on_cpu (initlock pid_lock);;
  on_cpu (initlock wait_lock);;
  on_cpu (initlock q_lock);;
  on_cpu (initlock q_siglock);;
  init_slots NPROC 0;;
  on_world env_mmap_cache.

(** [CAP_INIT_EFF_SET]: every capability but [CAP_SETPCAP], number 8. *)
Definition CAP_INIT_EFF_SET : Z := u32 (Z.land (Z.lnot 0) (Z.lnot (CAP_TO_MASK 8))).

Definition initcode_name : list Z := [105; 110; 105; 116; 99; 111; 100; 101].

Definition userinit : M kst unit :=
  o ← allocproc;
  modify (fun s => K (table s) (nextpid s) o (kcpu s) (cproc s) (spos s) (sfound s) (kfirst s) (slocks s) (world s));;
  p ← deref o;
  pr ← rdp p;
  pt ← deref (pagetable pr);
  on_world (env_uvmfirst pt);;
  upd p (set_sz PGSIZE);;
  upd p (fun q => set_tf (<[tf_sp := PGSIZE]> (<[tf_epc := 0]> (tf q))) q);;
  upd p (set_name initcode_name);;
  d ← ask env_namei_root;
  upd p (set_cwd d);;
  upd p (fun q => set_cr (Cred 0 0 0 0 0 0 0 0 CAP_INIT_EFF_SET CAP_INIT_EFF_SET CAP_INIT_EFF_SET (umask (cr q))) q);;
  upd p (set_state RUNNABLE);;
  krelease (proc_lock p).

(** The head of [scheduler] and of its [for(;;)]. *)
Definition scheduler_start : M kst unit :=
  modify (set_cproc None);;
  on_cpu intr_on;;
  modify (set_sfound false);;
  modify (set_spos 0%nat).

(** ** The scheduler and giving up the CPU *)

(** [swtch] back into [scheduler], after the call of [swtch] there. *)
Definition sched_return : M kst unit :=
  modify (set_cproc None);;
  j ← gets spos;
  krelease (proc_lock j);;
  modify (set_spos (S j)).

(** [sched], called from the place [k]. *)
Definition sched (k : kont) : M kst unit :=
  p ← self;
  h ← on_cpu (holding (proc_lock p));
  if negb (h : bool) then panic "sched p->lock"%string else
  n ← gets (fun s => noff (kcpu s));
  if negb (n =? 1) then panic "sched locks"%string else
  pr ← rdp p;
  if decide (state pr = RUNNING) then panic "sched running"%string else
  i ← on_cpu intr_get;
  if (i : bool) then panic "sched interruptible"%string else
  ie ← gets (fun s => intena (kcpu s));
  upd p (set_context (Ctx k ie));;
  sched_return.

Definition yield : M kst unit :=
  p ← self;
  kacquire (proc_lock p);;
  upd p (set_state RUNNABLE);;
  sched KYield.

(** [sleep], called by the frames [fs]. *)
Definition sleep (c lk : Z) (fs : list frame) : M kst ctl :=
  p ← self;
  kacquire (proc_lock p);;
  krelease lk;;
  upd p (fun q => set_state SLEEPING (set_chan c q));;
  sched (KSleep lk fs);;
  mret Slept.

Fixpoint wakeup_scan (n i : nat) (c : Z) : M kst unit :=
  match n with
  | O => mret tt
  | S n =>
      me ← myproc;
      (if decide (me = Some i) then mret tt
       else
         kacquire (proc_lock i);;
         p ← rdp i;
         (if decide (state p = SLEEPING /\ chan p = c) then upd i (set_state RUNNABLE) else mret tt);;
         krelease (proc_lock i));;
      wakeup_scan n (S i) c
  end.
Definition wakeup (c : Z) : M kst unit := wakeup_scan NPROC 0 c.

(** ** exit and wait4 *)

Fixpoint reparent_scan (n i p : nat) : M kst unit :=
  match n with
  | O => mret tt
  | S n =>
      pp ← rdp i;
      (if decide (parent pp = Some p) then
         ip ← gets initproc;
         upd i (set_parent ip);;
         j ← deref ip;
         wakeup (proc_addr j)
       else mret tt);;
      reparent_scan n (S i) p
  end.
Definition reparent (p : nat) : M kst unit := reparent_scan NPROC 0 p.

Fixpoint close_files (n i p : nat) : M kst unit :=
  match n with
  | O => mret tt
  | S n =>
      pr ← rdp p;
      match ofile pr !! i with
      | Some (Some f) => on_world (env_fileclose f);; upd p (fun q => set_ofile (<[i := None]> (ofile q)) q)
      | _ => mret tt
      end;;
      close_files n (S i) p
  end.

Definition wakeup_parent (o : option nat) : Z := match o with Some j => proc_addr j | None => 0 end.

Definition exit (status : Z) : M kst ctl :=
  p ← self;
  ip ← gets initproc;
  if decide (ip = Some p) then panic "init exiting"%string
  else
    pr ← rdp p;
    match regions pr with
    | Some r => on_world (env_munmap_all r);; upd p (set_regions None)
    | None => mret tt
    end;;
    close_files NOFILE 0 p;;
    upd p (set_fdflag 0);;
    d ← deref (cwd pr);
    on_world (env_iput d);;
    upd p (set_cwd None);;
    kacquire wait_lock;;
    reparent p;;
    pr ← rdp p;
    wakeup (wakeup_parent (parent pr));;
    kacquire (proc_lock p);;
    upd p (fun q => set_state ZOMBIE (set_xstate status q));;
    krelease wait_lock;;
    sched KZombie;;
    mret Slept.

Definition is_killed (i : nat) : M kst Z :=
  kacquire (proc_lock i);;
  p ← rdp i;
  krelease (proc_lock i);;
  mret (killed p).

Definition setkilled (i : nat) : M kst unit :=
  kacquire (proc_lock i);;
  upd i (set_killed 1);;
  krelease (proc_lock i).

(** The [continue]s at the top of wait4's loop. *)
Definition wait_match (q : Z) (me p : nat) (mp pp : proc) : bool :=
  bool_decide (parent pp = Some me) &&
  (if 0 <? q then pid pp =? q
   else if q =? 0 then pgid pp =? pgid mp
   else if negb (q =? -1) then pgid pp =? - q
   else true).

Definition wait_ready (options : Z) (pp : proc) : bool :=
  bool_decide (state pp = ZOMBIE) ||
  (negb (Z.land options WUNTRACED =? 0) && bool_decide (state pp = SLEEPING)) ||
  negb (Z.land options WNOHANG =? 0).

(** [xstate = (pp->xstate & 0xff) << 8] as the four bytes copied out. *)
Definition status_bytes (x : Z) : list Z := [0; Z.land x 0xff; 0; 0].

(** One scan of the table: a result, or whether a child was seen. *)
Fixpoint wait_scan (n i me : nat) (q status options ru : Z) (kids : bool) : M kst (Z + bool) :=
  match n with
  | O => mret (inr kids)
  | S n =>
      pp ← rdp i; mp ← rdp me;
      if negb (wait_match q me i mp pp) then wait_scan n (S i) me q status options ru kids
      else
        kacquire (proc_lock i);;
        if wait_ready options pp then
          e ← (if status =? 0 then mret 0 else ask (env_copyout (pagetable mp) status (status_bytes (xstate pp))));
          if e <? 0 then krelease (proc_lock i);; krelease wait_lock;; mret (inl (- EFAULT))
          else if negb (ru =? 0) then undef   (* an uninitialised struct rusage is copied *)
          else
            freeproc i;;
            krelease (proc_lock i);;
            krelease wait_lock;;
            mret (inl (pid pp))
        else
          krelease (proc_lock i);;
          wait_scan n (S i) me q status options ru true
  end.

Definition wait_loop (q status options ru : Z) (kids : bool) (fs : list frame) : M kst ctl :=
  me ← self;
  r ← wait_scan NPROC 0 me q status options ru kids;
  match r with
  | inl v => mret (Ret v)
  | inr kids =>
      k ← (if kids : bool then is_killed me else mret 0);
      if negb kids || negb (k =? 0) then krelease wait_lock;; mret (Ret (- ECHILD))
      else sleep (proc_addr me) wait_lock (FWait4 q status options ru kids :: fs)
  end.

Definition wait4 (q status options ru : Z) (fs : list frame) : M kst ctl :=
  kacquire wait_lock;;
  wait_loop q status options ru false fs.

(** ** Sleep locks *)

Definition get_slock (a : Z) : M kst (bool * Z) := fun s => deref (slocks s !! a) s.
Definition put_slock (a : Z) (l : bool * Z) : M kst unit := modify (fun s => set_slocks (<[a := l]> (slocks s)) s).

Definition acquiresleep_loop (a : Z) (fs : list frame) : M kst ctl :=
  l ← get_slock a;
  if (l : bool * Z).1 then sleep a a (FAcquireSleep a :: fs)
  else
    p ← self;
    pr ← rdp p;
    put_slock a (true, pid pr);;
    krelease a;;
    mret (Ret 0).
Definition acquiresleep (a : Z) (fs : list frame) : M kst ctl :=
  kacquire a;;
  acquiresleep_loop a fs.
Definition releasesleep (a : Z) : M kst unit :=
  kacquire a;;
  put_slock a (false, 0);;
  wakeup a;;
  krelease a.
Definition holdingsleep (a : Z) : M kst bool :=
  kacquire a;;
  l ← get_slock a;
  r ← (if (l : bool * Z).1 then p ← self; pr ← rdp p; mret ((l : bool * Z).2 =? pid pr) else mret false);
  krelease a;;
  mret r.

(** ** Signals *)

Definition term_handler (i : nat) : M kst unit :=
  kacquire (proc_lock i);;
  upd i (set_killed 1);;
  upd i (fun p => if decide (state p = SLEEPING) then set_state RUNNABLE p else p);;
  krelease (proc_lock i).
Definition cont_handler (i : nat) : M kst unit := wakeup (proc_addr i).
Definition stop_handler (i : nat) (fs : list frame) : M kst ctl :=
  kacquire q_lock;;
  sleep (proc_addr i) q_lock fs.
Definition user_handler (i : nat) (sig : Z) : M kst unit :=
  p ← rdp i;
  a ← deref (sig_actions (psignal p) !! Z.to_nat sig);
  upd i (fun p => set_tf (<[tf_epc := sa_handler a]> (tf p)) p).

Definition is_stop (sig : Z) : bool := bool_decide (sig ∈ [SIGSTOP; SIGTSTP; SIGTTIN; SIGTTOU]).
Definition is_term (sig : Z) : bool :=
  bool_decide (sig ∈ [SIGABRT; SIGBUS; SIGFPE; SIGILL; SIGQUIT; SIGSEGV; SIGSYS; SIGTRAP; SIGXCPU; SIGXFSZ;
                     SIGALRM; SIGHUP; SIGINT; SIGIO; SIGKILL; SIGPIPE; SIGPROF; SIGPWR; SIGTERM; SIGSTKFLT;
                     SIGUSR1; SIGUSR2; SIGVTALRM]).

Definition upd_signal (i : nat) (f : signal -> signal) : M kst unit :=
  upd i (fun p => set_psignal (f (psignal p)) p).
Definition set_sig_mask (m : Z) (g : signal) : signal := Sig m (sig_pending g) (sig_actions g).
Definition set_sig_pending (m : Z) (g : signal) : signal := Sig (sig_mask g) m (sig_actions g).
Definition set_sig_action (n : Z) (a : sigaction_t) (g : signal) : signal :=
  Sig (sig_mask g) (sig_pending g) (<[Z.to_nat n := a]> (sig_actions g)).

(** The end of [handle_signal]. *)
Definition clear_pending (i : nat) (sig : Z) : M kst unit :=
  kacquire q_siglock;;
  upd_signal i (fun g => set_sig_pending (sigdelset (sig_pending g) sig).2 g);;
  krelease q_siglock.

Definition handle_signal (i : nat) (sig : Z) (fs : list frame) : M kst ctl :=
  if sig =? 0 then mret (Ret 0)
  else
    p ← rdp i;
    a ← deref (sig_actions (psignal p) !! Z.to_nat sig);
    if sa_handler a =? SIG_IGN then clear_pending i sig;; mret (Ret 0)
    else if sa_handler a =? SIG_DFL then
      if is_stop sig then stop_handler i (FStop i sig :: fs)
      else
        (if sig =? SIGCONT then cont_handler i
         else if is_term sig then upd i (set_xstate (Z.land sig 0x7f));; term_handler i
         else mret tt);;
        clear_pending i sig;; mret (Ret 0)
    else user_handler i sig;; clear_pending i sig;; mret (Ret 0).

Definition send_signal (i : nat) (sig : Z) (fs : list frame) : M kst ctl :=
  (if sig =? SIGKILL then upd i (set_killed 1)
   else upd_signal i (fun g =>
          if sigismember (sig_pending g) sig =? 0 then set_sig_pending (sigaddset (sig_pending g) sig).2 g else g));;
  p ← rdp i;
  if decide (state p = SLEEPING) then
    if (paused p =? 1) && ((sig =? SIGTERM) || (sig =? SIGINT) || (sig =? SIGKILL)) then
      upd i (set_paused 0);; handle_signal i SIGCONT fs
    else if (paused p =? 0) && negb (killed p =? 1) then handle_signal i sig fs
    else mret (Ret 0)
  else mret (Ret 0).

Definition selects (sel : ksel) (i : nat) (p : proc) : bool :=
  match sel with
  | KGroup g => pgid p =? g
  | KAll cp => (1 <? pid p) && negb (bool_decide (i = cp))
  | KPid q => pid p =? q
  end.

(** The loops of [kill]; [n] slots are left. *)
Fixpoint kill_loop (n : nat) (sel : ksel) (sig err : Z) (fs : list frame) : M kst ctl :=
  match n with
  | O => mret (Ret err)
  | S n =>
      let i := (NPROC - S n)%nat in
      p ← rdp i;
      if selects sel i p then
        r ← send_signal i sig (FKill sel sig n 0 :: fs);
        match r with
        | Slept => mret Slept
        | Ret _ => kill_loop n sel sig 0 fs
        end
      else kill_loop n sel sig err fs
  end.

Definition kill (q sig : Z) (fs : list frame) : M kst ctl :=
  cp ← self;
  c ← rdp cp;
  if (q =? 0) || (q <? -1) then
    let g := if q =? 0 then pgid c else - q in
    if 0 <? g then kill_loop NPROC (KGroup g) sig (- ESRCH) fs else mret (Ret (- EINVAL))
  else if q =? -1 then kill_loop NPROC (KAll cp) sig (- EINVAL) fs
  else kill_loop NPROC (KPid q) sig (- EINVAL) fs.

Definition sigsuspend (mask : Z) (fs : list frame) : M kst ctl :=
  p ← self;
  kacquire q_siglock;;
  upd p (set_paused 1);;
  let mask := (sigdelset mask SIGKILL).2 in
  let mask := (sigdelset mask SIGSTOP).2 in
  pr ← rdp p;
  upd_signal p (set_sig_mask (siginitset mask));;
  krelease q_siglock;;
  kacquire q_lock;;
  sleep (proc_addr p) q_lock (FSuspend (sig_mask (psignal pr)) :: fs).

(** The bytes of a signal set, and of a [struct k_sigaction] up to its unused
    pointer. *)
Definition bytes_of (n : nat) (x : Z) : list Z := (fun k : nat => Z.land (Z.shiftr x (8 * Z.of_nat k)) 0xff) <$> seq 0 n.
Definition kaction_bytes (a : sigaction_t) : list Z :=
  bytes_of 8 (sa_handler a) ++ bytes_of 8 (u64 (sa_flags a)) ++ bytes_of 8 (sa_mask a).

Definition sigaction (sig : Z) (act : option sigaction_t) (oldact : Z) : M kst ctl :=
  kacquire q_siglock;;
  p ← self;
  pr ← rdp p;
  a ← deref (sig_actions (psignal pr) !! Z.to_nat sig);
  e ← (if oldact =? 0 then mret 0 else ask (fun w => env_copyout (pagetable pr) oldact (kaction_bytes a ++ env_stack w) w));
  if e <? 0 then mret (Ret (- EFAULT))
  else
    match act with
    | Some b =>
        upd_signal p (set_sig_action sig (Sigaction (sa_handler b) (sa_mask b) (s32 (sa_flags b))));;
        upd_signal p (set_sig_mask (sigdelset (sigdelset (sa_mask b) SIGKILL).2 SIGSTOP).2)
    | None => mret tt
    end;;
    krelease q_siglock;;
    mret (Ret 0).

Definition sigpending (addr : Z) : M kst ctl :=
  kacquire q_siglock;;
  p ← self;
  pr ← rdp p;
  e ← ask (env_copyout (pagetable pr) addr (bytes_of 8 (sig_pending (psignal pr))));
  krelease q_siglock;;
  mret (Ret (if e <? 0 then - EFAULT else 0)).

Definition sigprocmask (how : Z) (set : option Z) (oldset : Z) : M kst ctl :=
  kacquire q_siglock;;
  p ← self;
  pr ← rdp p;
  e ← (if oldset =? 0 then mret 0
       else ask (env_copyout (pagetable pr) oldset (bytes_of 8 (sig_mask (psignal pr)))));
  if e <? 0 then mret (Ret (- EFAULT))
  else
    r ← match set with
        | Some m =>
            if how =? SIG_BLOCK then upd_signal p (fun g => set_sig_mask (sigorset (sig_mask g) m) g);; mret 0
            else if how =? SIG_UNBLOCK then upd_signal p (fun g => set_sig_mask (sigandset (sig_mask g) (signotset m)) g);; mret 0
            else if how =? SIG_SETMASK then upd_signal p (set_sig_mask (siginitset m));; mret 0
            else mret (- EINVAL)
        | None => mret 0
        end;
    krelease q_siglock;;
    mret (Ret r).

Definition sigreturn : M kst ctl :=
  p ← self;
  pr ← rdp p;
  o ← deref (oldtf pr);
  upd p (set_tf o);;
  mret (Ret 0).

(** The search of [check_pending_signal]: signals [sig], [sig + 1], ..., [n] of them. *)
Fixpoint first_pending (n : nat) (sig pending : Z) : option Z :=
  match n with
  | O => None
  | S n => if sigismember pending sig =? 1 then Some sig else first_pending n (sig + 1) pending
  end.

Definition check_pending_signal (fs : list frame) : M kst ctl :=
  p ← self;
  pr ← rdp p;
  match first_pending 32 0 (sig_pending (psignal pr)) with
  | Some sig => handle_signal p sig fs
  | None => mret (Ret 0)
  end.

Definition flush_action (a : sigaction_t) : sigaction_t :=
  Sigaction (if sa_handler a =? SIG_IGN then SIG_IGN else SIG_DFL) (sigemptyset (sa_mask a)).2 0.
Definition flush_signal_handlers (i : nat) : M kst unit :=
  upd_signal i (fun g => Sig (sig_mask g) (sig_pending g) (flush_action <$> sig_actions g));;
  kacquire (proc_lock i);;
  upd i (set_paused 0);;
  krelease (proc_lock i).

(** ** Process groups *)

Fixpoint find_proc (n i : nat) (f : proc -> bool) : M kst (option nat) :=
  match n with
  | O => mret None
  | S n =>
      kacquire (proc_lock i);;
      p ← rdp i;
      krelease (proc_lock i);;
      if f p then mret (Some i) else find_proc n (S i) f
  end.

Definition setpgid (q g : Z) : M kst ctl :=
  cp ← self;
  c ← rdp cp;
  let q := if q =? 0 then pid c else q in
  let g := if g =? 0 then q else g in
  if g <? 0 then mret (Ret (- EINVAL))
  else
    o ← (if q =? pid c then mret (Some cp) else find_proc NPROC 0 (fun p => pid p =? q));
    match o with
    | None => mret (Ret (- ESRCH))
    | Some p =>
        pr ← rdp p;
        if bool_decide (parent pr = Some cp) && negb (sid pr =? sid c) then mret (Ret (- EPERM))
        else if negb (bool_decide (parent pr = Some cp)) && negb (bool_decide (p = cp)) then mret (Ret (- ESRCH))
        else
          let err := if bool_decide (parent pr = Some cp) then - EPERM else - ESRCH in
          ok ← (if g =? q then mret true
                else o ← find_proc NPROC 0 (fun pp => sid pp =? sid c); mret (bool_decide (is_Some o)));
          if (ok : bool) then
            upd cp (fun c => if pgid c =? g then c else set_pgid g c);;
            mret (Ret 0)
          else mret (Ret err)
    end.

Definition getpgid (q : Z) : M kst ctl :=
  if q =? 0 then p ← self; pr ← rdp p; mret (Ret (pgid pr))
  else
    o ← find_proc NPROC 0 (fun p => pid p =? q);
    match o with
    | Some i => pr ← rdp i; mret (Ret (pgid pr))
    | None => mret (Ret (- ESRCH))
    end.

(** ** Resuming a thread *)

Definition run_frame (f : frame) (v : Z) (fs : list frame) : M kst ctl :=
  match f with
  | FUnlock lk => krelease lk;; mret (Ret v)
  | FAcquireSleep a => acquiresleep_loop a fs
  | FWait4 q status options ru kids => wait_loop q status options ru kids fs
  | FStop i sig => krelease q_lock;; clear_pending i sig;; mret (Ret 0)
  | FKill sel sig rest err => kill_loop rest sel sig err fs
  | FSuspend oldmask =>
      krelease q_lock;;
      p ← self;
      kacquire q_siglock;;
      upd_signal p (set_sig_mask oldmask);;
      krelease q_siglock;;
      mret (Ret (- EINTR))
  | FSyscall => p ← self; upd p (fun q => set_tf (<[tf_a0 := u64 v]> (tf q)) q);; mret (Ret v)
  end.

Fixpoint run_frames (fs : list frame) (v : Z) : M kst ctl :=
  match fs with
  | [] => mret (Ret v)
  | f :: fs =>
      r ← run_frame f v fs;
      match r with
      | Slept => mret Slept
      | Ret v => run_frames fs v
      end
  end.

Definition forkret : M kst unit :=
  p ← self;
  krelease (proc_lock p);;
  f ← gets kfirst;
  if (f : bool) then modify (set_kfirst false);; on_world env_fsinit else mret tt.

(** The process the scheduler switches to goes on where it left. *)
Definition resume (j : nat) : M kst ctl :=
  pr ← rdp j;
  match ctx_kont (context pr) with
  | KForkret => forkret;; mret (Ret 0)
  | k =>
      modify (fun s => set_kcpu (Cpu (noff (kcpu s)) (ctx_intena (context pr)) (intr (kcpu s)) (locks (kcpu s))) s);;
      match k with
      | KYield => krelease (proc_lock j);; mret (Ret 0)
      | KSleep lk fs =>
          upd j (set_chan 0);;
          krelease (proc_lock j);;
          kacquire lk;;
          run_frames fs 0
      | _ => panic "zombie exit"%string
      end
  end.

(** One iteration of the [for] loop of [scheduler], or its end. *)
Definition sched_step : M kst unit :=
  j ← gets spos;
  if bool_decide (j < NPROC)%nat then
    kacquire (proc_lock j);;
    p ← rdp j;
    if decide (state p = RUNNABLE) then
      modify (set_sfound true);;
      upd j (set_state RUNNING);;
      modify (set_cproc (Some j));;
      resume j;;
      mret tt
    else
      krelease (proc_lock j);;
      modify (set_spos (S j))
  else
    on_cpu intr_on;;
    modify (set_sfound false);;
    modify (set_spos 0%nat).

(** ** System calls *)

(** [syscall]: the result of a call that does not sleep goes to [a0]; one that
    sleeps leaves the frame that will do it. *)
Definition syscall (m : list frame -> M kst ctl) : M kst ctl :=
  r ← m [FSyscall];
  match r with
  | Slept => mret Slept
  | Ret v => run_frame FSyscall v []
  end.

Definition sys_kill (q sig : Z) (fs : list frame) : M kst ctl :=
  if (sig <? 1) || (NSIG <=? sig) then mret (Ret (- EINVAL)) else kill q sig fs.
Definition sys_wait4 (q status options ru : Z) (fs : list frame) : M kst ctl :=
  if negb (ru =? 0) then mret (Ret (- EINVAL)) else wait4 q status options ru fs.
Definition SA_SIGINFO : Z := 4.
Definition sys_rt_sigaction (sig : Z) (act : sigaction_t) (oldact : Z) : M kst ctl :=
  if (sig <? 1) || (NSIG <=? sig) || (sig =? SIGSTOP) || (sig =? SIGKILL) then mret (Ret (- EINVAL))
  else if negb (Z.land (sa_flags act) SA_SIGINFO =? 0) then mret (Ret (- EINVAL))
  else sigaction sig (Some act) oldact.
Definition sys_rt_sigprocmask (how : Z) (set oldset size : Z) : M kst ctl :=
  if negb (size =? 0) && negb (size =? 8) then mret (Ret (- EINVAL)) else sigprocmask how (Some set) oldset.
Definition sys_clone (flag : Z) : M kst ctl :=
  if negb (Z.land flag 0xff =? SIGCHLD) then mret (Ret (-1)) else fork.

(** What the running process can ask for. *)
Inductive call :=
| CClone (flag : Z) | CExit (status : Z) | CWait4 (q status options ru : Z)
| CKill (q sig : Z) | CSigsuspend (mask : Z) | CSigaction (sig : Z) (act : sigaction_t) (oldact : Z)
| CSigpending (addr : Z) | CSigprocmask (how set oldset size : Z) | CSigreturn
| CSetpgid (q g : Z) | CGetpgid (q : Z)
| CCheckSignals | CYield | CSetkilled
| CSleep (c lk : Z) | CWakeup (c : Z) | CAcquireSleep (a : Z) | CReleaseSleep (a : Z).

Definition do_call (c : call) : M kst ctl :=
  match c with
  | CClone flag => syscall (fun _ => sys_clone flag)
  | CExit status => exit status
  | CWait4 q status options ru => syscall (sys_wait4 q status options ru)
  | CKill q sig => syscall (sys_kill q sig)
  | CSigsuspend mask => syscall (sigsuspend mask)
  | CSigaction sig act oldact => syscall (fun _ => sys_rt_sigaction sig act oldact)
  | CSigpending addr => syscall (fun _ => sigpending addr)
  | CSigprocmask how set oldset size => syscall (fun _ => sys_rt_sigprocmask how set oldset size)
  | CSigreturn => syscall (fun _ => sigreturn)
  | CSetpgid q g => syscall (fun _ => setpgid q g)
  | CGetpgid q => syscall (fun _ => getpgid q)
  | CCheckSignals => check_pending_signal []
  | CYield => yield;; mret Slept
  | CSetkilled => p ← self; setkilled p;; mret (Ret 0)
  | CSleep c lk => kacquire lk;; sleep c lk [FUnlock lk]
  | CWakeup c => wakeup c;; mret (Ret 0)
  | CAcquireSleep a => acquiresleep a []
  | CReleaseSleep a => releasesleep a;; mret (Ret 0)
  end.

End kernel.
Arguments kst : clear implicits.
