(* ===== verification/ProcInv.v ===== *)
(** * The invariant of the process table and the effect of each operation

    Every operation of Proc.v is shown to run to completion from a consistent
    state and its effect on the table is given by a function on tables; what
    the lock operations leave in the CPU is summarised by [cpu_ok]. *)
From S2P Require Import Prelude Spinlock Signal Cred Proc.

Lemma nest_acquire c c' a : nest true c -> acquire a c = Done tt c' -> nest true c'.
Proof. exact (lock_step_nest true (OpAcquire a) c c'). Qed.
Lemma nest_release c c' a : nest true c -> release a c = Done tt c' -> nest true c'.
Proof. exact (lock_step_nest true (OpRelease a) c c'). Qed.

(** Run the first operation of the goal by the lemma instance [tm], which
    gives the CPU state [c'] it leaves. *)
Ltac kdo tm c' H' :=
  let E := fresh "E" in
  destruct tm as (c' & E & H'); [..|rewrite (bind_Done _ _ _ _ _ E); clear E; cbn beta].

(** ** Effects on the table *)

(** A sleeper on [ch] becomes runnable. *)
Definition wake1 (ch : Z) (p : proc) : proc :=
  if decide (state p = SLEEPING /\ chan p = ch) then set_state RUNNABLE p else p.
(** [wakeup], from slot [i] on; [me] is the running process. *)
Definition wake_from (i : nat) (ch : Z) (me : option nat) (t : list proc) : list proc :=
  imap (fun j p => if decide ((j < i)%nat \/ me = Some j) then p else wake1 ch p) t.
Definition wake_all (ch : Z) (me : option nat) (t : list proc) : list proc :=
  imap (fun j p => if decide (me = Some j) then p else wake1 ch p) t.

Lemma wake_from_0 ch me t : wake_from 0 ch me t = wake_all ch me t.
Proof.
  apply list_eq. intros j. unfold wake_from, wake_all. rewrite !list_lookup_imap.
  destruct (t !! j); cbn; [|done]. f_equal. destruct (decide (me = Some j)).
  - by rewrite decide_True by auto.
  - rewrite decide_False by naive_solver lia. done.
Qed.

Lemma wake_from_step i ch me t p : t !! i = Some p ->
  wake_from (S i) ch me (<[i := if decide (me = Some i) then p else wake1 ch p]> t) = wake_from i ch me t.
Proof.
  intros E. apply list_eq. intros j. unfold wake_from. rewrite !list_lookup_imap.
  destruct (decide (j = i)) as [->|Hne].
  - rewrite list_lookup_insert_eq by (by eapply lookup_lt_Some). rewrite E. cbn. f_equal.
    rewrite decide_True by lia. destruct (decide (me = Some i)).
    + by rewrite decide_True by auto.
    + rewrite decide_False by naive_solver lia. done.
  - rewrite list_lookup_insert_ne by done. destruct (t !! j); cbn; [|done]. f_equal.
    destruct (decide (me = Some j)); [by rewrite !decide_True by auto|].
    destruct (decide (j < i)%nat); [by rewrite !decide_True by (left; lia)|].
    by rewrite !decide_False by naive_solver lia.
Qed.

Lemma wake_from_end i ch me t : (length t <= i)%nat -> wake_from i ch me t = t.
Proof.
  intros Hi. apply list_eq. intros j. unfold wake_from. rewrite list_lookup_imap.
  destruct (t !! j) eqn:E; cbn; [|done]. apply lookup_lt_Some in E. by rewrite decide_True by (left; lia).
Qed.

Lemma lookup_wake_all ch me t j :
  wake_all ch me t !! j = (fun p => if decide (me = Some j) then p else wake1 ch p) <$> t !! j.
Proof. unfold wake_all. by rewrite list_lookup_imap. Qed.

Lemma length_wake_all ch me t : length (wake_all ch me t) = length t.
Proof. unfold wake_all. by rewrite length_imap. Qed.

Lemma union_minus (a : Z) (H : gset Z) : a ∉ H -> H = ({[a]} ∪ H) ∖ {[a]}.
Proof. set_solver. Qed.
Lemma union_here (a : Z) (H : gset Z) : a ∈ {[a]} ∪ H.
Proof. set_solver. Qed.

Section kernel.
Context {W : Type} `{!kenv W}.
Implicit Types (w : W) (t : list proc) (c : cpu) (cp : option nat).
(** The addresses of the initialised spinlocks. *)
Context (L : gset Z) (HL : forall a, 1 <= a <= 4 \/ 16 <= a < 80 -> a ∈ L).

(** The CPU holds exactly the locks of [H] at depth [n]. *)
Definition cpu_ok (H : gset Z) (n : Z) (c : cpu) : Prop :=
  cpu_is H n c /\ nest true c /\ forall a, a ∈ L -> is_Some (locks c !! a).

Lemma cpu_ok_nonneg H n c : cpu_ok H n c -> 0 <= n.
Proof. intros ([] & (Hn & _) & _). lia. Qed.

Lemma cpu_ok_eq H H' n n' c : cpu_ok H n c -> H' = H -> n' = n -> cpu_ok H' n' c.
Proof. by intros ? -> ->. Qed.

Lemma cpu_ok_inj H n n' c : cpu_ok H n c -> cpu_ok H n' c -> n = n'.
Proof. intros ([Hn _ _ _] & _) ([Hm _ _ _] & _). congruence. Qed.

Section state.
Context (np : Z) (ip : option nat) (sp : nat) (sf kf : bool) (sl : gmap Z (bool * Z)).
Local Notation St t c cp w := (K t np ip c cp sp sf kf sl w).

Lemma kacquire_ok t cp w H n c a : cpu_ok H n c -> a ∈ L -> a ∉ H ->
  exists c', kacquire a (St t c cp w) = Done tt (St t c' cp w) /\ cpu_ok ({[a]} ∪ H) (n + 1) c'.
Proof.
  intros (Hc & Hn & Hm) Ha Hf. destruct (acquire_spec H n c a Hc (proj1 (conj (cpu_ok_nonneg _ _ _ (conj Hc (conj Hn Hm))) I)) Hf (Hm a Ha)) as [E Hi].
  eexists. split; [unfold kacquire, on_cpu, zoom; cbn; rewrite E; reflexivity|].
  split; [exact Hi|]. split; [eapply nest_acquire; [exact Hn|exact E]|].
  intros b Hb. cbn. destruct (decide (b = a)) as [->|Hne]; [rewrite lookup_insert_eq|rewrite lookup_insert_ne by done]; eauto.
Qed.

Lemma krelease_ok t cp w H H' n c a : cpu_ok H n c -> 1 <= n -> a ∈ H -> H' = H ∖ {[a]} ->
  exists c', krelease a (St t c cp w) = Done tt (St t c' cp w) /\ cpu_ok H' (n - 1) c'.
Proof.
  intros (Hc & Hn & Hm) H1 Hf ->. destruct (release_spec H n c a Hc H1 Hf) as [E Hi].
  eexists. split; [unfold krelease, on_cpu, zoom; cbn; rewrite E; reflexivity|].
  split; [exact Hi|]. split; [eapply nest_release; [exact Hn|exact E]|].
  intros b Hb. cbn. destruct (decide (b = a)) as [->|Hne]; [rewrite lookup_insert_eq|rewrite lookup_insert_ne by done]; eauto.
Qed.

Lemma krelease_top t cp w H n c a : cpu_ok ({[a]} ∪ H) (n + 1) c -> 0 <= n -> a ∉ H ->
  exists c', krelease a (St t c cp w) = Done tt (St t c' cp w) /\ cpu_ok H n c'.
Proof.
  intros Hc Hn Ha. destruct (krelease_ok t cp w _ H (n + 1) c a Hc) as (c' & E & H'); [lia|apply union_here|by apply union_minus|].
  exists c'. split; [exact E|]. by replace (n + 1 - 1) with n in H' by lia.
Qed.

(** Releasing the only lock held, and taking a lock when none is held. *)
Lemma krelease_one t cp w c a : cpu_ok {[a]} 1 c ->
  exists c', krelease a (St t c cp w) = Done tt (St t c' cp w) /\ cpu_ok ∅ 0 c'.
Proof.
  intros Hc. apply (krelease_ok t cp w {[a]} ∅ 1 c a Hc); [lia|by apply elem_of_singleton_2|].
  by rewrite difference_diag_L.
Qed.

Lemma kacquire_one t cp w c a : cpu_ok ∅ 0 c -> a ∈ L ->
  exists c', kacquire a (St t c cp w) = Done tt (St t c' cp w) /\ cpu_ok {[a]} 1 c'.
Proof.
  intros Hc Ha. destruct (kacquire_ok t cp w ∅ 0 c a Hc Ha ltac:(apply not_elem_of_empty)) as (c' & E & H').
  exists c'. by rewrite union_empty_r_L in H'.
Qed.

Lemma myproc_ok t cp w H n c : cpu_ok H n c ->
  exists c', myproc (St t c cp w) = Done cp (St t c' cp w) /\ cpu_ok H n c'.
Proof.
  intros (Hc & Hn & Hm). destruct c as [nf ie it lk].
  assert (E : exists ie', push_off (Cpu nf ie it lk) = Done tt (Cpu (nf + 1) ie' false lk) /\
             pop_off (Cpu (nf + 1) ie' false lk) = Done tt (Cpu nf ie' it lk)).
  { unfold push_off, pop_off, intr_get, intr_off, intr_on. mstep. destruct Hn as (Hp & H0 & H1). cbn in *.
    destruct (nf =? 0) eqn:E0; bool_hyps.
    - subst nf. rewrite H0 by lia. exists true. done.
    - destruct (H1 ltac:(lia)) as [-> ->]. exists true. split; [done|].
      replace (nf + 1 <? 1) with false by (symmetry; apply Z.ltb_ge; lia). cbn.
      replace (nf + 1 - 1) with nf by lia. apply Z.eqb_neq in E0. by rewrite E0. }
  destruct E as (ie' & E1 & E2). exists (Cpu nf ie' it lk). split.
  - unfold myproc, on_cpu, zoom. mstep. cbn. rewrite E1. cbn. rewrite E2. done.
  - split; [|split; [|exact Hm]].
    + destruct Hc. split; cbn in *; eauto.
    + assert (Hq : nest true (Cpu (nf + 1) ie' false lk)) by exact (proj1 (push_off_nest _ _ _ Hn E1)).
      exact (proj1 (pop_off_nest _ _ _ Hq E2)).
Qed.

Lemma self_ok t i w H n c : cpu_ok H n c ->
  exists c', self (St t c (Some i) w) = Done i (St t c' (Some i) w) /\ cpu_ok H n c'.
Proof.
  intros Hc. destruct (myproc_ok t (Some i) w H n c Hc) as (c' & E & Hc'). exists c'. split; [|exact Hc'].
  unfold self. rewrite (bind_Done _ _ _ _ _ E). done.
Qed.

Lemma upd_ok t c cp w i p f : t !! i = Some p -> upd i f (St t c cp w) = Done tt (St (<[i := f p]> t) c cp w).
Proof. intros E. unfold upd. cbn. by rewrite E. Qed.

Lemma rdp_ok t c cp w i p : t !! i = Some p -> rdp i (St t c cp w) = Done p (St t c cp w).
Proof. intros E. unfold rdp. cbn. by rewrite E. Qed.

(** The lock of a slot is one of the initialised locks. *)
Lemma proc_lock_L i : (i < NPROC)%nat -> proc_lock i ∈ L.
Proof. intros Hi. apply HL. unfold proc_lock, NPROC in *. lia. Qed.

Lemma wakeup_scan_ok ch cp w H n0 : (forall i, (i < NPROC)%nat -> proc_lock i ∉ H) -> forall n i t c,
  length t = NPROC -> (n + i)%nat = NPROC -> cpu_ok H n0 c ->
  exists c', wakeup_scan n i ch (St t c cp w) = Done tt (St (wake_from i ch cp t) c' cp w) /\ cpu_ok H n0 c'.
Proof.
  intros HH. induction n as [|n IH]; intros i t c Hlen Hi Hc; cbn [wakeup_scan].
  - exists c. rewrite wake_from_end by lia. done.
  - kdo (myproc_ok t cp w H n0 c Hc) c1 H1.
    destruct (lookup_lt_is_Some_2 t i) as [p Hp]; [lia|].
    destruct (decide (cp = Some i)) as [Ecp|Ecp].
    + rewrite (bind_Done _ _ _ tt (St t c1 cp w)) by done.
      destruct (IH (S i) t c1 Hlen ltac:(lia) H1) as (c2 & E2 & H2). exists c2. split; [|exact H2].
      rewrite E2. do 2 f_equal. rewrite <- (wake_from_step i ch cp t p Hp), decide_True by done.
      by rewrite list_insert_id by done.
    + pose proof (cpu_ok_nonneg _ _ _ H1) as Hn0.
      destruct (kacquire_ok t cp w H n0 c1 (proc_lock i) H1) as (c2 & E2 & H2); [apply proc_lock_L; lia|apply HH; lia|].
      destruct (krelease_top (<[i := wake1 ch p]> t) cp w H n0 c2 (proc_lock i) H2 Hn0) as (c3 & E3 & H3); [apply HH; lia|].
      destruct (IH (S i) (<[i := wake1 ch p]> t) c3) as (c4 & E4 & H4); [by rewrite length_insert|lia|exact H3|].
      exists c4. split; [|exact H4].
      rewrite (bind_Done _ _ _ tt (St (<[i := wake1 ch p]> t) c3 cp w)).
      * rewrite E4. do 2 f_equal. rewrite <- (wake_from_step i ch cp t p Hp). by rewrite decide_False by done.
      * rewrite (bind_Done _ _ _ _ _ E2). rewrite (bind_Done _ _ _ _ _ (rdp_ok _ _ _ _ _ _ Hp)).
        rewrite (bind_Done _ _ _ tt (St (<[i := wake1 ch p]> t) c2 cp w)); [exact E3|].
        unfold wake1. destruct (decide _); [by apply upd_ok|]. by rewrite list_insert_id by done.
Qed.

Lemma wakeup_ok ch t cp w H n0 c : (forall i, (i < NPROC)%nat -> proc_lock i ∉ H) ->
  length t = NPROC -> cpu_ok H n0 c ->
  exists c', wakeup ch (St t c cp w) = Done tt (St (wake_all ch cp t) c' cp w) /\ cpu_ok H n0 c'.
Proof.
  intros HH Hlen Hc. rewrite <- wake_from_0. by apply wakeup_scan_ok.
Qed.

Lemma on_cpu_holding t cp w H n c a : cpu_ok H n c -> a ∈ H ->
  on_cpu (holding a) (St t c cp w) = Done true (St t c cp w).
Proof.
  intros ([Hn Hl Hm Ho] & _) Ha. destruct (Hm a Ha) as [l El]. pose proof (Hl a l El) as E.
  rewrite decide_True in E by done. subst l. unfold on_cpu, zoom, holding, get_lock. mstep. cbn. rewrite El. cbn.
  by rewrite bool_decide_true by done.
Qed.

End state.

Section sched.
Context (np : Z) (ip : option nat) (sf kf : bool) (sl : gmap Z (bool * Z)).
Local Notation St t c cp sp w := (K t np ip c cp sp sf kf sl w).

Lemma sched_ok k t c me p w : cpu_ok {[proc_lock me]} 1 c -> t !! me = Some p -> state p <> RUNNING ->
  exists c', sched k (St t c (Some me) me w) =
    Done tt (St (<[me := set_context (Ctx k true) p]> t) c' None (S me) w) /\ cpu_ok ∅ 0 c'.
Proof.
  intros Hc Hp Hs. unfold sched.
  destruct (self_ok np ip me sf kf sl t me w _ _ c Hc) as (c1 & E1 & H1).
  pose proof H1 as ([Hn _ _ Ho] & (_ & _ & Hie) & _). destruct (Hie ltac:(lia)) as [_ Hint].
  destruct (krelease_one np ip me sf kf sl (<[me := set_context (Ctx k true) p]> t) None w c1 (proc_lock me) H1)
    as (c2 & E2 & H2).
  exists c2. split; [|exact H2].
  rewrite (bind_Done _ _ _ _ _ E1). rewrite (bind_Done _ _ _ _ _ (on_cpu_holding np ip me sf kf sl t (Some me) w _ _ c1 (proc_lock me) H1 (elem_of_singleton_2 _ _ eq_refl))).
  cbn [negb]. rewrite (bind_Done _ _ _ (noff c1) (St t c1 (Some me) me w)) by done. rewrite Hn. cbn [Z.eqb negb Pos.eqb].
  rewrite (bind_Done _ _ _ _ _ (rdp_ok _ _ _ _ _ _ _ _ _ _ _ _ Hp)). rewrite decide_False by done.
  rewrite (bind_Done _ _ _ false (St t c1 (Some me) me w)).
  2:{ unfold on_cpu, zoom, intr_get, gets. cbn. rewrite Ho by lia. by destruct c1. }
  rewrite (bind_Done _ _ _ true (St t c1 (Some me) me w)) by (by rewrite <- Hint).
  rewrite (bind_Done _ _ _ _ _ (upd_ok _ _ _ _ _ _ _ _ _ _ _ _ _ Hp)).
  unfold sched_return. rewrite (bind_Done _ _ _ tt (St (<[me:=set_context (Ctx k true) p]> t) c1 None me w)) by done.
  rewrite (bind_Done _ _ _ me (St (<[me:=set_context (Ctx k true) p]> t) c1 None me w)) by done.
  rewrite (bind_Done _ _ _ _ _ E2). done.
Qed.

(** A lock that is not the lock of a slot. *)
Definition plain (lk : Z) : Prop := lk ∈ L /\ forall i, (i < NPROC)%nat -> lk <> proc_lock i.

Lemma sleep_ok ch lk fs t c me p w : cpu_ok {[lk]} 1 c -> plain lk -> t !! me = Some p -> (me < NPROC)%nat ->
  exists c', sleep ch lk fs (St t c (Some me) me w) =
    Done Slept (St (<[me := set_context (Ctx (KSleep lk fs) true) (set_state SLEEPING (set_chan ch p))]> t) c' None (S me) w) /\
    cpu_ok ∅ 0 c'.
Proof.
  intros Hc [Hl Hpl] Hp Hme. unfold sleep.
  destruct (self_ok np ip me sf kf sl t me w _ _ c Hc) as (c1 & E1 & H1). rewrite (bind_Done _ _ _ _ _ E1).
  destruct (kacquire_ok np ip me sf kf sl t (Some me) w _ _ c1 (proc_lock me) H1) as (c2 & E2 & H2);
    [apply proc_lock_L; lia|specialize (Hpl me Hme); set_solver|]. rewrite (bind_Done _ _ _ _ _ E2).
  destruct (krelease_ok np ip me sf kf sl t (Some me) w _ {[proc_lock me]} _ c2 lk H2) as (c3 & E3 & H3);
    [lia|set_solver|specialize (Hpl me Hme); set_solver|]. rewrite (bind_Done _ _ _ _ _ E3).
  rewrite (bind_Done _ _ _ _ _ (upd_ok _ _ _ _ _ _ _ _ _ _ _ _ _ Hp)).
  destruct (sched_ok (KSleep lk fs) (<[me := set_state SLEEPING (set_chan ch p)]> t) c3 me
              (set_state SLEEPING (set_chan ch p)) w H3) as (c4 & E4 & H4);
    [rewrite list_lookup_insert_eq; [done|by eapply lookup_lt_Some]|done|].
  exists c4. split; [|exact H4]. rewrite (bind_Done _ _ _ _ _ E4). by rewrite list_insert_insert_eq.
Qed.

Lemma yield_ok t c me p w : cpu_ok ∅ 0 c -> t !! me = Some p -> (me < NPROC)%nat ->
  exists c', yield (St t c (Some me) me w) =
    Done tt (St (<[me := set_context (Ctx KYield true) (set_state RUNNABLE p)]> t) c' None (S me) w) /\ cpu_ok ∅ 0 c'.
Proof.
  intros Hc Hp Hme. unfold yield.
  destruct (self_ok np ip me sf kf sl t me w _ _ c Hc) as (c1 & E1 & H1). rewrite (bind_Done _ _ _ _ _ E1).
  destruct (kacquire_ok np ip me sf kf sl t (Some me) w _ _ c1 (proc_lock me) H1) as (c2 & E2 & H2);
    [apply proc_lock_L; lia|set_solver|]. rewrite (bind_Done _ _ _ _ _ E2).
  rewrite (bind_Done _ _ _ _ _ (upd_ok _ _ _ _ _ _ _ _ _ _ _ _ _ Hp)).
  rewrite union_empty_r_L in H2.
  destruct (sched_ok KYield (<[me := set_state RUNNABLE p]> t) c2 me (set_state RUNNABLE p) w H2) as (c4 & E4 & H4);
    [rewrite list_lookup_insert_eq; [done|by eapply lookup_lt_Some]|done|].
  exists c4. split; [|exact H4]. rewrite E4. by rewrite list_insert_insert_eq.
Qed.

End sched.

(** ** Freeing and allocating a slot *)

Definition freed (p : proc) : proc := reset_proc (set_regions None (set_trapframe None p)).
Definition free_world (p : proc) (w : W) : W :=
  let w := match trapframe p with Some pa => env_kfree pa w | None => w end in
  let w := env_free_mmap_list (regions p) w in
  match pagetable p with Some pt => env_proc_freepagetable pt (sz p) w | None => w end.

Section alloc.
Context (ip : option nat) (sp : nat) (sf kf : bool) (sl : gmap Z (bool * Z)).
Local Notation St t np c cp w := (K t np ip c cp sp sf kf sl w).

Lemma freeproc_ok t np c cp w i p : t !! i = Some p ->
  freeproc i (St t np c cp w) = Done tt (St (<[i := freed p]> t) np c cp (free_world p w)).
Proof.
  intros Hp. pose proof (lookup_lt_Some _ _ _ Hp) as Hlt. unfold freeproc, free_world.
  rewrite (bind_Done _ _ _ _ _ (rdp_ok _ _ _ _ _ _ _ _ _ _ _ _ Hp)). unfold upd, on_world, modify. mstep. cbn.
  destruct (trapframe p); cbn; rewrite Hp; cbn; rewrite list_lookup_insert_eq by done; cbn;
    destruct (pagetable p); cbn; rewrite list_lookup_insert_eq by (by rewrite ?length_insert); cbn;
    by rewrite !list_insert_insert_eq.
Qed.

Lemma slot_scan_ok t np cp w H n0 : length t = NPROC -> (forall i, (i < NPROC)%nat -> proc_lock i ∉ H) ->
  forall n i c, (n + i)%nat = NPROC -> cpu_ok H n0 c ->
  (exists j p c', (i <= j < NPROC)%nat /\ t !! j = Some p /\ state p = UNUSED /\
     (forall k q, (i <= k < j)%nat -> t !! k = Some q -> state q <> UNUSED) /\
     alloc_scan n i (St t np c cp w) = Done (Some j) (St t np c' cp w) /\ cpu_ok ({[proc_lock j]} ∪ H) (n0 + 1) c') \/
  (exists c', (forall k q, (i <= k)%nat -> t !! k = Some q -> state q <> UNUSED) /\
     alloc_scan n i (St t np c cp w) = Done None (St t np c' cp w) /\ cpu_ok H n0 c').
Proof.
  intros Hlen HH. induction n as [|n IH]; intros i c Hi Hc; cbn [alloc_scan].
  - right. exists c. split; [|done]. intros k q Hk Hq%lookup_lt_Some. lia.
  - destruct (kacquire_ok np ip sp sf kf sl t cp w H n0 c (proc_lock i) Hc) as (c1 & E1 & H1); [apply proc_lock_L; lia|apply HH; lia|].
    destruct (lookup_lt_is_Some_2 t i) as [p Hp]; [lia|].
    rewrite (bind_Done _ _ _ _ _ E1), (bind_Done _ _ _ _ _ (rdp_ok _ _ _ _ _ _ _ _ _ _ _ _ Hp)).
    destruct (decide (state p = UNUSED)) as [Hs|Hs].
    + left. exists i, p, c1. do 3 (split; [done || lia|]). split; [intros; lia|]. done.
    + destruct (krelease_top np ip sp sf kf sl t cp w H n0 c1 (proc_lock i) H1) as (c2 & E2 & H2);
        [by eapply cpu_ok_nonneg|apply HH; lia|]. rewrite (bind_Done _ _ _ _ _ E2).
      destruct (IH (S i) c2 ltac:(lia) H2) as [(j & q & c3 & Hj & Hq & Hu & Hk & E3 & H3)|(c3 & Hk & E3 & H3)].
      * left. exists j, q, c3. do 3 (split; [done || lia|]). split; [|done]. intros k r Hk1 Hr.
        destruct (decide (k = i)) as [->|]; [by simplify_eq|]. eapply Hk; [|done]. lia.
      * right. exists c3. split; [|done]. intros k r Hk1 Hr. destruct (decide (k = i)) as [->|]; [by simplify_eq|].
        eapply Hk; [|done]. lia.
Qed.

Lemma allocpid_ok t np cp w H n0 c : cpu_ok H n0 c -> pid_lock ∉ H ->
  exists c', allocpid (St t np c cp w) = Done np (St t (s32 (np + 1)) c' cp w) /\ cpu_ok H n0 c'.
Proof.
  intros Hc Hf. unfold allocpid.
  destruct (kacquire_ok np ip sp sf kf sl t cp w H n0 c pid_lock Hc) as (c1 & E1 & H1); [apply HL; unfold pid_lock; lia|done|].
  destruct (krelease_top (s32 (np + 1)) ip sp sf kf sl t cp w H n0 c1 pid_lock H1) as (c2 & E2 & H2); [by eapply cpu_ok_nonneg|done|].
  exists c2. split; [|done]. rewrite (bind_Done _ _ _ _ _ E1).
  rewrite (bind_Done _ _ _ np (St t np c1 cp w)) by done.
  rewrite (bind_Done _ _ _ tt (St t (s32 (np + 1)) c1 cp w)) by done.
  by rewrite (bind_Done _ _ _ _ _ E2).
Qed.

(** The slot [allocproc] prepares: [q] is the new pid. *)
Definition named (q : Z) (p : proc) : proc :=
  set_cr (with_umask 2 (cr p)) (set_regions None (set_state USED (set_sid q (set_pgid q (set_pid q p))))).
Definition fresh (q pa pt : Z) (p : proc) : proc :=
  set_context (Ctx KForkret false) (set_pagetable (Some pt) (set_trapframe (Some pa) (named q p))).

Definition first_unused (t : list proc) (i : nat) (p : proc) : Prop :=
  t !! i = Some p /\ state p = UNUSED /\ forall k q, (k < i)%nat -> t !! k = Some q -> state q <> UNUSED.

Inductive alloc_result (t : list proc) (np : Z) (c : cpu) (cp : option nat) (w : W) : Prop :=
| AllocNone c' :
    (forall k q, t !! k = Some q -> state q <> UNUSED) ->
    allocproc (St t np c cp w) = Done None (St t np c' cp w) -> cpu_ok ∅ 0 c' ->
    alloc_result t np c cp w
| AllocFail i p c' w' :
    first_unused t i p -> (i < NPROC)%nat ->
    ((env_kalloc w).1 = None \/ exists pa, (env_kalloc w).1 = Some pa /\ (env_proc_pagetable pa (env_kalloc w).2).1 = None) ->
    allocproc (St t np c cp w) = Done None (St (<[i := freed p]> t) (s32 (np + 1)) c' cp w') -> cpu_ok ∅ 0 c' ->
    alloc_result t np c cp w
| AllocSome i p pa pt c' w' :
    first_unused t i p -> (i < NPROC)%nat ->
    allocproc (St t np c cp w) = Done (Some i) (St (<[i := fresh np pa pt p]> t) (s32 (np + 1)) c' cp w') ->
    cpu_ok {[proc_lock i]} 1 c' -> (env_kalloc w).1 = Some pa -> env_proc_pagetable pa (env_kalloc w).2 = (Some pt, w') ->
    alloc_result t np c cp w.

Lemma freed_named q p : freed (named q p) = freed p.
Proof. reflexivity. Qed.
Lemma freed_trapframe q o p : freed (set_trapframe o (named q p)) = freed p.
Proof. reflexivity. Qed.

Lemma allocproc_ok t np c cp w : length t = NPROC -> cpu_ok ∅ 0 c -> alloc_result t np c cp w.
Proof.
  intros Hlen Hc.
  destruct (slot_scan_ok t np cp w ∅ 0 Hlen ltac:(intros; apply not_elem_of_empty) NPROC 0 c ltac:(lia) Hc)
    as [(i & p & c1 & Hi & Hp & Hu & Hk & E1 & H1)|(c1 & Hk & E1 & H1)].
  2:{ apply (AllocNone _ _ _ _ _ c1); [intros k q; apply Hk; lia| |done]. unfold allocproc. by rewrite (bind_Done _ _ _ _ _ E1). }
  rewrite union_empty_r_L in H1. cbn in H1.
  assert (Hf : first_unused t i p). { repeat split; try done. intros k q Hki. apply Hk. lia. }
  destruct (allocpid_ok t np cp w _ _ c1 H1) as (c2 & E2 & H2); [rewrite elem_of_singleton; unfold pid_lock, proc_lock; lia|].
  assert (Hlt : (i < length t)%nat) by lia.
  assert (Hst : forall g, (i < length (<[i := g]> t))%nat) by (intros; by rewrite length_insert).
  destruct (env_kalloc w) as [o w1] eqn:Ek.
  assert (Hback : forall g w', exists c', krelease (proc_lock i) (St (<[i := freed g]> t) (s32 (np + 1)) c2 cp w') =
            Done tt (St (<[i := freed g]> t) (s32 (np + 1)) c' cp w') /\ cpu_ok ∅ 0 c').
  { intros g w'. by apply krelease_one. }
  assert (Hhead : forall (k : unit -> M (kst W) (option nat)),
      (upd i (named np) ≫= k) (St t (s32 (np + 1)) c2 cp w) = k tt (St (<[i := named np p]> t) (s32 (np + 1)) c2 cp w)).
  { intros k. by rewrite (bind_Done _ _ _ _ _ (upd_ok _ _ _ _ _ _ _ _ _ _ _ _ _ Hp)). }
  destruct o as [pa|].
  - destruct (env_proc_pagetable pa w1) as [[pt|] w2] eqn:Ep.
    + apply (AllocSome _ _ _ _ _ i p pa pt c2 w2); [done|lia| |done|by rewrite Ek|by rewrite Ek].
      unfold allocproc. rewrite (bind_Done _ _ _ _ _ E1), (bind_Done _ _ _ _ _ E2), Hhead.
      rewrite (bind_Done _ _ _ (Some pa) (St (<[i := named np p]> t) (s32 (np + 1)) c2 cp w1)) by (unfold ask; cbn; by rewrite Ek).
      rewrite (bind_Done _ _ _ _ _ (upd_ok _ _ _ _ _ _ _ _ _ _ _ _ _ (list_lookup_insert_eq _ _ _ Hlt))).
      rewrite list_insert_insert_eq.
      rewrite (bind_Done _ _ _ (Some pt) (St (<[i := set_trapframe (Some pa) (named np p)]> t) (s32 (np + 1)) c2 cp w2)) by (unfold ask; cbn; by rewrite Ep).
      rewrite (bind_Done _ _ _ _ _ (upd_ok _ _ _ _ _ _ _ _ _ _ _ _ _ (list_lookup_insert_eq _ _ _ Hlt))).
      rewrite list_insert_insert_eq.
      rewrite (bind_Done _ _ _ _ _ (upd_ok _ _ _ _ _ _ _ _ _ _ _ _ _ (list_lookup_insert_eq _ _ _ Hlt))).
      by rewrite list_insert_insert_eq.
    + destruct (Hback (set_trapframe (Some pa) (named np p)) (free_world (set_trapframe (Some pa) (named np p)) w2)) as (c3 & E3 & H3).
      apply (AllocFail _ _ _ _ _ i p c3 (free_world (set_trapframe (Some pa) (named np p)) w2)); [done|lia| | |done].
      { right. exists pa. rewrite Ek. cbn. by rewrite Ep. }
      unfold allocproc. rewrite (bind_Done _ _ _ _ _ E1), (bind_Done _ _ _ _ _ E2), Hhead.
      rewrite (bind_Done _ _ _ (Some pa) (St (<[i := named np p]> t) (s32 (np + 1)) c2 cp w1)) by (unfold ask; cbn; by rewrite Ek).
      rewrite (bind_Done _ _ _ _ _ (upd_ok _ _ _ _ _ _ _ _ _ _ _ _ _ (list_lookup_insert_eq _ _ _ Hlt))).
      rewrite list_insert_insert_eq.
      rewrite (bind_Done _ _ _ None (St (<[i := set_trapframe (Some pa) (named np p)]> t) (s32 (np + 1)) c2 cp w2)) by (unfold ask; cbn; by rewrite Ep).
      rewrite (bind_Done _ _ _ _ _ (freeproc_ok _ _ _ _ _ _ _ (list_lookup_insert_eq _ _ _ Hlt))).
      rewrite list_insert_insert_eq. rewrite (bind_Done _ _ _ _ _ E3). by rewrite freed_trapframe.
  - destruct (Hback (named np p) (free_world (named np p) w1)) as (c3 & E3 & H3).
    apply (AllocFail _ _ _ _ _ i p c3 (free_world (named np p) w1)); [done|lia| | |done].
    { left. by rewrite Ek. }
    unfold allocproc. rewrite (bind_Done _ _ _ _ _ E1), (bind_Done _ _ _ _ _ E2), Hhead.
    rewrite (bind_Done _ _ _ None (St (<[i := named np p]> t) (s32 (np + 1)) c2 cp w1)) by (unfold ask; cbn; by rewrite Ek).
    rewrite (bind_Done _ _ _ _ _ (freeproc_ok _ _ _ _ _ _ _ (list_lookup_insert_eq _ _ _ Hlt))).
    rewrite list_insert_insert_eq. rewrite (bind_Done _ _ _ _ _ E3). by rewrite freed_named.
Qed.

End alloc.
End kernel.
