(* ===== verification/ProcCalls.v ===== *)
(** * The effect of fork, exit and wait4 on the table

    Each call of Proc.v that is built from the operations of ProcInv.v runs to
    completion, and the table it leaves is given by a function. *)
From S2P Require Import Prelude Spinlock Signal Cred Proc ProcInv.

(** Run the read or update at the head of the goal. *)
Ltac kread Hp := rewrite (bind_Done _ _ _ _ _ (rdp_ok _ _ _ _ _ _ _ _ _ _ _ _ Hp)).
Ltac kupd Hp := rewrite (bind_Done _ _ _ _ _ (upd_ok _ _ _ _ _ _ _ _ _ _ _ _ _ Hp)).
Ltac kpass a s := rewrite (bind_Done _ _ _ a s) by done.

(** ** Pure parts *)
Section pure.
Context {W : Type} `{!kenv W}.

Fixpoint dup_ofile (n i : nat) (src dst : list (option Z)) (w : W) : list (option Z) * W :=
  match n with
  | O => (dst, w)
  | S n =>
      match src !! i with
      | Some (Some f) => dup_ofile n (S i) src (<[i := Some f]> dst) (env_filedup f w)
      | _ => dup_ofile n (S i) src dst w
      end
  end.

Fixpoint close_ofile (n i : nat) (fs : list (option Z)) (w : W) : list (option Z) * W :=
  match n with
  | O => (fs, w)
  | S n =>
      match fs !! i with
      | Some (Some f) => close_ofile n (S i) (<[i := None]> fs) (env_fileclose f w)
      | _ => close_ofile n (S i) fs w
      end
  end.

Lemma dup_ofile_lookup : forall n i src dst w j, length dst = length src ->
  (dup_ofile n i src dst w).1 !! j =
    if decide (i <= j < i + n)%nat then match src !! j with Some (Some f) => Some (Some f) | _ => dst !! j end else dst !! j.
Proof.
  induction n as [|n IH]; intros i src dst w j Hl; cbn [dup_ofile].
  - by rewrite decide_False by lia.
  - destruct (src !! i) as [[f|]|] eqn:E.
    + rewrite IH by (by rewrite length_insert). destruct (decide (j = i)) as [->|Hne].
      * rewrite decide_False, decide_True, E by lia. rewrite list_lookup_insert_eq; [done|].
        apply lookup_lt_Some in E. lia.
      * rewrite list_lookup_insert_ne by done. destruct (decide (S i <= j < S i + n)%nat);
          [by rewrite decide_True by lia|by rewrite decide_False by lia].
    + rewrite IH by done. destruct (decide (j = i)) as [->|Hne].
      * by rewrite decide_False, decide_True, E by lia.
      * destruct (decide (S i <= j < S i + n)%nat); [by rewrite decide_True by lia|by rewrite decide_False by lia].
    + rewrite IH by done. destruct (decide (j = i)) as [->|Hne].
      * by rewrite decide_False, decide_True, E by lia.
      * destruct (decide (S i <= j < S i + n)%nat); [by rewrite decide_True by lia|by rewrite decide_False by lia].
Qed.

Lemma dup_ofile_length : forall n i src dst w, length (dup_ofile n i src dst w).1 = length dst.
Proof.
  induction n as [|n IH]; intros; cbn [dup_ofile]; [done|]. repeat case_match; rewrite IH; [apply length_insert|done..].
Qed.

Lemma close_ofile_length : forall n i fs w, length (close_ofile n i fs w).1 = length fs.
Proof.
  induction n as [|n IH]; intros; cbn [close_ofile]; [done|]. repeat case_match; rewrite IH; [apply length_insert|done..].
Qed.

Lemma close_ofile_lookup : forall n i fs w j o, (close_ofile n i fs w).1 !! j = Some o ->
  (i <= j < i + n)%nat -> o = None.
Proof.
  induction n as [|n IH]; intros i fs w j o; cbn [close_ofile]; [lia|].
  assert (Hkeep : forall m i' l w' j', (j' < i')%nat -> (close_ofile m i' l w').1 !! j' = l !! j').
  { induction m as [|m IHm]; intros i' l w' j' Hj; cbn [close_ofile]; [done|].
    repeat case_match; rewrite IHm by lia; [by rewrite list_lookup_insert_ne by lia|done..]. }
  destruct (fs !! i) as [[f|]|] eqn:E; intros Ho Hj; (destruct (decide (j = i)) as [->|]; [|eapply IH; [exact Ho|lia]]);
    rewrite Hkeep in Ho by lia; try congruence.
  rewrite list_lookup_insert_eq in Ho by (by eapply lookup_lt_Some). congruence.
Qed.

(** The child [fork] makes of [pr] in the slot [old]. *)
Definition child (me : nat) (q pa pt : Z) (rg : option Z) (d : Z) (fl : list (option Z)) (pr old : proc) : proc :=
  set_state RUNNABLE (set_parent (Some me) (set_name (take 15 (name pr)) (set_psignal (psignal pr)
    (set_cwd (Some d) (set_fdflag (fdflag pr) (set_ofile fl (set_tf (<[tf_a0 := 0]> (tf pr))
      (inherit pr (set_regions rg (fresh q pa pt old)))))))))).
End pure.

Definition reparented (p j : nat) (q : proc) : proc :=
  if decide (parent q = Some p) then set_parent (Some j) q else q.
Definition child_in (p i : nat) (t : list proc) : bool :=
  bool_decide (Exists (fun q => parent q = Some p) (drop i t)).
(** [reparent p] from slot [i] on, [p] running and [j] the slot of init. *)
Definition reparent_from (i p j : nat) (t : list proc) : list proc :=
  imap (fun k q =>
    let q1 := if decide (i <= k)%nat then reparented p j q else q in
    if child_in p i t && negb (bool_decide (k = p)) then wake1 (proc_addr j) q1 else q1) t.

Lemma wake1_reparented p j ch q : wake1 ch (reparented p j (wake1 ch q)) = wake1 ch (reparented p j q).
Proof. unfold wake1, reparented. repeat (case_decide; cbn in *; try done); naive_solver. Qed.
Lemma wake1_idem ch q : wake1 ch (wake1 ch q) = wake1 ch q.
Proof. unfold wake1. repeat (case_decide; cbn in *; try done); naive_solver. Qed.
Lemma wake1_parent ch q : parent (wake1 ch q) = parent q.
Proof. unfold wake1. by case_decide. Qed.
Lemma reparented_wake1 p j ch q : reparented p j (wake1 ch q) = wake1 ch (reparented p j q).
Proof. unfold wake1, reparented. repeat (case_decide; cbn in *; try done); naive_solver. Qed.

Lemma child_in_spec p i t : child_in p i t = true <-> exists k q, (i <= k)%nat /\ t !! k = Some q /\ parent q = Some p.
Proof.
  unfold child_in. rewrite bool_decide_eq_true, Exists_exists. split.
  - intros (q & (k & Hk)%list_elem_of_lookup & Hq). rewrite lookup_drop in Hk. exists (i + k)%nat, q. split; [lia|done].
  - intros (k & q & Hik & Hk & Hq). exists q. split; [|done]. apply list_elem_of_lookup. exists (k - i)%nat.
    rewrite lookup_drop. by replace (i + (k - i))%nat with k by lia.
Qed.

Lemma lookup_reparent_from i p j t k : reparent_from i p j t !! k =
  (fun q => let q1 := if decide (i <= k)%nat then reparented p j q else q in
    if child_in p i t && negb (bool_decide (k = p)) then wake1 (proc_addr j) q1 else q1) <$> t !! k.
Proof. unfold reparent_from. by rewrite list_lookup_imap. Qed.

Lemma reparent_from_hit i p j t pp : t !! i = Some pp -> parent pp = Some p -> j <> p ->
  reparent_from (S i) p j (wake_all (proc_addr j) (Some p) (<[i := set_parent (Some j) pp]> t)) = reparent_from i p j t.
Proof.
  intros Hi Hpp Hjp. pose proof (lookup_lt_Some _ _ _ Hi) as Hlt.
  assert (Hc : child_in p i t = true) by (apply child_in_spec; eauto).
  apply list_eq. intros k. rewrite !lookup_reparent_from, Hc, lookup_wake_all.
  destruct (decide (k = i)) as [->|Hne].
  - rewrite list_lookup_insert_eq by done. rewrite Hi. cbn. f_equal.
    rewrite (decide_False (P := (S i <= i)%nat)), (decide_True (P := (i <= i)%nat)) by lia.
    assert (Er : reparented p j pp = set_parent (Some j) pp) by (unfold reparented; by rewrite decide_True).
    rewrite Er. destruct (bool_decide_reflect (i = p)) as [->|Hip]; cbn.
    + rewrite andb_false_r. by rewrite decide_True by done.
    + rewrite andb_true_r, decide_False by naive_solver. case_if; [apply wake1_idem|done].
  - rewrite list_lookup_insert_ne by done. destruct (t !! k) as [q|]; [|done]. cbn. f_equal.
    destruct (bool_decide_reflect (k = p)) as [->|Hkp]; cbn.
    + rewrite andb_false_r, (decide_True (P := Some p = Some p)) by done. destruct (decide (S i <= p)%nat); [by rewrite decide_True by lia|by rewrite decide_False by lia].
    + rewrite andb_true_r. rewrite (decide_False (P := Some p = Some k)) by naive_solver.
      destruct (decide (S i <= k)%nat); [rewrite decide_True by lia|rewrite decide_False by lia].
      * case_if; [apply wake1_reparented|apply reparented_wake1].
      * case_if; [apply wake1_idem|done].
Qed.

Lemma reparent_from_miss i p j t pp : t !! i = Some pp -> parent pp <> Some p ->
  reparent_from (S i) p j t = reparent_from i p j t.
Proof.
  intros Hi Hpp. assert (Hc : child_in p (S i) t = child_in p i t).
  { apply eq_true_iff_eq. rewrite !child_in_spec. split; intros (k & q & Hk & Hq & Hp); exists k, q.
    - split; [lia|done].
    - destruct (decide (k = i)) as [->|]; [naive_solver|]. split; [lia|done]. }
  apply list_eq. intros k. rewrite !lookup_reparent_from, Hc. destruct (decide (k = i)) as [->|Hne].
  - rewrite Hi. cbn. f_equal. rewrite decide_False, decide_True by lia. unfold reparented. by rewrite decide_False by done.
  - destruct (t !! k); [|done]. cbn. f_equal.
    destruct (decide (S i <= k)%nat); [by rewrite decide_True by lia|by rewrite decide_False by lia].
Qed.

Lemma reparent_from_end i p j t : (length t <= i)%nat -> reparent_from i p j t = t.
Proof.
  intros Hi. assert (Hc : child_in p i t = false).
  { apply not_true_iff_false. rewrite child_in_spec. intros (k & q & Hk & Hq%lookup_lt_Some & _). lia. }
  apply list_eq. intros k. rewrite lookup_reparent_from, Hc. destruct (t !! k) eqn:E; [|done]. cbn.
  apply lookup_lt_Some in E. by rewrite decide_False by lia.
Qed.

Lemma length_reparent_from i p j t : length (reparent_from i p j t) = length t.
Proof. unfold reparent_from. by rewrite length_imap. Qed.

Section kernel.
Context {W : Type} `{!kenv W} (L : gset Z) (HL : forall a, 1 <= a <= 4 \/ 16 <= a < 80 -> a ∈ L).
Implicit Types (w : W) (t : list proc) (c : cpu) (cp : option nat).

Section state.
Context (np : Z) (ip : option nat) (sp : nat) (sf kf : bool) (sl : gmap Z (bool * Z)).
Local Notation St t c cp w := (K t np ip c cp sp sf kf sl w).

Lemma reparent_ok p j t w c : ip = Some j -> j <> p -> length t = NPROC -> cpu_ok L {[wait_lock]} 1 c ->
  exists c', reparent p (St t c (Some p) w) = Done tt (St (reparent_from 0 p j t) c' (Some p) w) /\ cpu_ok L {[wait_lock]} 1 c'.
Proof.
  intros Hip Hjp. unfold reparent.
  assert (G : forall n i t c, (n + i)%nat = NPROC -> length t = NPROC -> cpu_ok L {[wait_lock]} 1 c ->
    exists c', reparent_scan n i p (St t c (Some p) w) = Done tt (St (reparent_from i p j t) c' (Some p) w) /\ cpu_ok L {[wait_lock]} 1 c').
  2:{ intros. by apply G. }
  clear t c. induction n as [|n IH]; intros i t c Hi Hlen Hc; cbn [reparent_scan].
  - exists c. by rewrite reparent_from_end by lia.
  - destruct (lookup_lt_is_Some_2 t i) as [pp Hp]; [lia|]. kread Hp.
    destruct (decide (parent pp = Some p)) as [Hpar|Hpar].
    + destruct (wakeup_ok L HL np ip sp sf kf sl (proc_addr j) (<[i := set_parent (Some j) pp]> t) (Some p) w {[wait_lock]} 1 c)
        as (c1 & E1 & H1); [intros k _; rewrite elem_of_singleton; unfold proc_lock, wait_lock; lia|by rewrite length_insert|done|].
      destruct (IH (S i) (wake_all (proc_addr j) (Some p) (<[i := set_parent (Some j) pp]> t)) c1) as (c2 & E2 & H2);
        [lia|by rewrite length_wake_all, length_insert|done|].
      exists c2. split; [|done]. rewrite reparent_from_hit in E2 by done.
      rewrite (bind_Done _ _ _ tt (St (wake_all (proc_addr j) (Some p) (<[i := set_parent (Some j) pp]> t)) c1 (Some p) w)); [exact E2|].
      rewrite (bind_Done _ _ _ ip (St t c (Some p) w)) by done. kupd Hp.
      rewrite (bind_Done _ _ _ j (St (<[i := set_parent ip pp]> t) c (Some p) w)) by (by rewrite Hip).
      by rewrite Hip in E1 |- *.
    + destruct (IH (S i) t c ltac:(lia) Hlen Hc) as (c1 & E1 & H1). exists c1. split; [|done].
      rewrite (bind_Done _ _ _ tt (St t c (Some p) w)) by done. by rewrite E1, (reparent_from_miss i p j t pp).
Qed.

Lemma dup_files_ok p nq pr : p <> nq -> forall n i t c cp w q, t !! p = Some pr -> t !! nq = Some q ->
  dup_files n i p nq (St t c cp w) =
    Done tt (St (<[nq := set_ofile (dup_ofile n i (ofile pr) (ofile q) w).1 q]> t) c cp (dup_ofile n i (ofile pr) (ofile q) w).2).
Proof.
  intros Hne. induction n as [|n IH]; intros i t c cp w q Hp Hq; cbn [dup_files dup_ofile].
  - cbn. unfold mret, M_ret. do 2 f_equal. rewrite list_insert_id; [done|]. rewrite Hq. by destruct q.
  - kread Hp. destruct (ofile pr !! i) as [[f|]|].
    + rewrite (bind_Done _ _ _ tt (St (<[nq := set_ofile (<[i := Some f]> (ofile q)) q]> t) c cp (env_filedup f w))).
      2:{ rewrite (bind_Done _ _ _ tt (St t c cp (env_filedup f w))) by done. by rewrite (upd_ok _ _ _ _ _ _ _ _ _ _ _ _ _ Hq). }
      rewrite (IH (S i) _ c cp (env_filedup f w) (set_ofile (<[i := Some f]> (ofile q)) q)).
      * by rewrite list_insert_insert_eq.
      * by rewrite list_lookup_insert_ne.
      * rewrite list_lookup_insert_eq; [done|by eapply lookup_lt_Some].
    + kpass tt (St t c cp w). by apply IH.
    + kpass tt (St t c cp w). by apply IH.
Qed.

Lemma close_files_ok p : forall n i t c cp w pr, t !! p = Some pr ->
  close_files n i p (St t c cp w) =
    Done tt (St (<[p := set_ofile (close_ofile n i (ofile pr) w).1 pr]> t) c cp (close_ofile n i (ofile pr) w).2).
Proof.
  induction n as [|n IH]; intros i t c cp w pr Hp; cbn [close_files close_ofile].
  - cbn. unfold mret, M_ret. do 2 f_equal. rewrite list_insert_id; [done|]. rewrite Hp. by destruct pr.
  - kread Hp. destruct (ofile pr !! i) as [[f|]|].
    + rewrite (bind_Done _ _ _ tt (St (<[p := set_ofile (<[i := None]> (ofile pr)) pr]> t) c cp (env_fileclose f w))).
      2:{ rewrite (bind_Done _ _ _ tt (St t c cp (env_fileclose f w))) by done. by rewrite (upd_ok _ _ _ _ _ _ _ _ _ _ _ _ _ Hp). }
      rewrite (IH (S i) _ c cp (env_fileclose f w) (set_ofile (<[i := None]> (ofile pr)) pr)).
      * by rewrite list_insert_insert_eq.
      * rewrite list_lookup_insert_eq; [done|by eapply lookup_lt_Some].
    + kpass tt (St t c cp w). by apply IH.
    + kpass tt (St t c cp w). by apply IH.
Qed.

(** ** wait4's scan *)

(** What [wait4] looks for from slot [i] on, [mp] being the caller's slot. *)
Definition reapable (q options : Z) (me : nat) (mp : proc) (k : nat) (pp : proc) : Prop :=
  wait_match q me k mp pp = true /\ wait_ready options pp = true.

Inductive scan_result (t : list proc) (w : W) (me : nat) (mp : proc) (q status options : Z) (i : nat) (kids : bool) :
  (Z + bool) -> list proc -> W -> Prop :=
| ScanFault k pp w' :
    (i <= k)%nat -> t !! k = Some pp -> reapable q options me mp k pp -> status <> 0 ->
    (exists e, e < 0 /\ env_copyout (pagetable mp) status (status_bytes (xstate pp)) w = (e, w')) ->
    (forall k' q', (i <= k' < k)%nat -> t !! k' = Some q' -> ~ reapable q options me mp k' q') ->
    scan_result t w me mp q status options i kids (inl (- EFAULT)) t w'
| ScanReap k pp w1 :
    (i <= k)%nat -> t !! k = Some pp -> reapable q options me mp k pp ->
    (status = 0 /\ w1 = w \/ status <> 0 /\ exists e, 0 <= e /\
       env_copyout (pagetable mp) status (status_bytes (xstate pp)) w = (e, w1)) ->
    (forall k' q', (i <= k' < k)%nat -> t !! k' = Some q' -> ~ reapable q options me mp k' q') ->
    scan_result t w me mp q status options i kids (inl (pid pp)) (<[k := freed pp]> t) (free_world pp w1)
| ScanNone kids' :
    (forall k q', (i <= k)%nat -> t !! k = Some q' -> ~ reapable q options me mp k q') ->
    (kids' = true <-> kids = true \/ exists k q', (i <= k)%nat /\ t !! k = Some q' /\ wait_match q me k mp q' = true) ->
    scan_result t w me mp q status options i kids (inr kids') t w.

(** A slot that cannot be reaped is passed over; a child is remembered. *)
Lemma scan_skip t w me mp q status options i kids kids1 r t' w' pp : t !! i = Some pp ->
  ~ reapable q options me mp i pp -> (kids1 = true <-> kids = true \/ wait_match q me i mp pp = true) ->
  scan_result t w me mp q status options (S i) kids1 r t' w' -> scan_result t w me mp q status options i kids r t' w'.
Proof.
  intros Hp Hn Hk1. assert (Hext : forall k, (forall k' q', (S i <= k' < k)%nat -> t !! k' = Some q' -> ~ reapable q options me mp k' q') ->
    forall k' q', (i <= k' < k)%nat -> t !! k' = Some q' -> ~ reapable q options me mp k' q').
  { intros k Hb k' q' Hk' Hq'. destruct (decide (k' = i)) as [->|]; [by simplify_eq|]. apply Hb; [lia|done]. }
  intros [k pk w1 Hk Hpk Hrp Hst Hco Hbef|k pk w1 Hk Hpk Hrp Hco Hbef|kids' Hno Hkids].
  - apply (ScanFault _ _ _ _ _ _ _ _ _ k pk w1); [lia|done|done|done|done|by apply Hext].
  - apply (ScanReap _ _ _ _ _ _ _ _ _ k pk w1); [lia|done|done|done|by apply Hext].
  - apply ScanNone.
    + intros k q' Hk Hq. destruct (decide (k = i)) as [->|]; [by simplify_eq|]. apply (Hno k); [lia|done].
    + rewrite Hkids, Hk1. split.
      * intros [[?|?]|(k & q' & Hk & Hq & Hm)]; [by left|right; exists i, pp; split; [lia|done]|].
        right. exists k, q'. split; [lia|done].
      * intros [?|(k & q' & Hk & Hq & Hm)]; [by left; left|].
        destruct (decide (k = i)) as [->|]; [left; right; by simplify_eq|]. right. exists k, q'. split; [lia|done].
Qed.

Lemma wait_scan_ok me mp q status options t cp w : length t = NPROC -> t !! me = Some mp ->
  forall n i kids c, (n + i)%nat = NPROC -> cpu_ok L {[wait_lock]} 1 c ->
  exists r t' c' w', wait_scan n i me q status options 0 kids (St t c cp w) = Done r (St t' c' cp w') /\
    scan_result t w me mp q status options i kids r t' w' /\
    cpu_ok L (match r with inl _ => ∅ | inr _ => {[wait_lock]} end) (match r with inl _ => 0 | inr _ => 1 end) c'.
Proof.
  intros Hlen Hme. induction n as [|n IH]; intros i kids c Hi Hc; cbn [wait_scan].
  - eexists _, _, _, _. split; [done|]. split; [|exact Hc]. apply ScanNone.
    + intros k q' Hk Hq%lookup_lt_Some. lia.
    + split; [auto|]. intros [?|(k & q' & Hk & Hq%lookup_lt_Some & _)]; [done|lia].
  - destruct (lookup_lt_is_Some_2 t i) as [pp Hp]; [lia|].
    rewrite (bind_Done _ _ _ _ _ (rdp_ok _ _ _ _ _ _ _ _ _ _ _ _ Hp)), (bind_Done _ _ _ _ _ (rdp_ok _ _ _ _ _ _ _ _ _ _ _ _ Hme)).
    destruct (wait_match q me i mp pp) eqn:Em; cbn [negb].
    2:{ destruct (IH (S i) kids c ltac:(lia) Hc) as (r & t' & c' & w' & E & Hr & H'). exists r, t', c', w'.
        split; [exact E|]. split; [|exact H'].
        apply (scan_skip t w me mp q status options i kids kids r t' w' pp Hp); [intros [? _]; congruence| |done].
        rewrite Em. naive_solver. }
    destruct (kacquire_ok L np ip sp sf kf sl t cp w {[wait_lock]} 1 c (proc_lock i) Hc) as (c1 & E1 & H1);
      [apply (proc_lock_L L HL); lia|rewrite elem_of_singleton; unfold proc_lock, wait_lock; lia|].
    rewrite (bind_Done _ _ _ _ _ E1).
    assert (Hw : wait_lock ∉ ({[proc_lock i]} : gset Z)) by (rewrite elem_of_singleton; unfold proc_lock, wait_lock; lia).
    assert (Hi' : proc_lock i ∉ ({[wait_lock]} : gset Z)) by (rewrite elem_of_singleton; unfold proc_lock, wait_lock; lia).
    assert (Hrel : forall t' w', exists c2 c3, krelease (proc_lock i) (St t' c1 cp w') = Done tt (St t' c2 cp w') /\
        krelease wait_lock (St t' c2 cp w') = Done tt (St t' c3 cp w') /\ cpu_ok L ∅ 0 c3).
    { intros t' w'. destruct (krelease_top L np ip sp sf kf sl t' cp w' {[wait_lock]} 1 c1 (proc_lock i) H1 ltac:(lia) Hi') as (c2 & E2 & H2).
      destruct (krelease_one L np ip sp sf kf sl t' cp w' c2 wait_lock H2) as (c3 & E3 & H3). eauto. }
    destruct (wait_ready options pp) eqn:Er.
    + set (eo := if status =? 0 then (0, w) else env_copyout (pagetable mp) status (status_bytes (xstate pp)) w).
      rewrite (bind_Done _ _ _ eo.1 (St t c1 cp eo.2)).
      2:{ unfold eo. destruct (status =? 0); [done|]. unfold ask. cbn. by destruct (env_copyout _ _ _ w). }
      destruct (eo.1 <? 0) eqn:Ee.
      * destruct (Hrel t eo.2) as (c2 & c3 & E2 & E3 & H3). exists (inl (- EFAULT)), t, c3, eo.2.
        split; [by rewrite (bind_Done _ _ _ _ _ E2), (bind_Done _ _ _ _ _ E3)|]. split; [|exact H3].
        unfold eo in Ee |- *. destruct (status =? 0) eqn:Es; [cbn in Ee; lia|]. bool_hyps.
        eapply (ScanFault _ _ _ _ _ _ _ _ _ i pp); [lia|done|done|done| |intros; lia].
        destruct (env_copyout _ _ _ w) as [e w1]. eauto.
      * cbn [Z.eqb negb]. destruct (Hrel (<[i := freed pp]> t) (free_world pp eo.2)) as (c2 & c3 & E2 & E3 & H3).
        exists (inl (pid pp)), (<[i := freed pp]> t), c3, (free_world pp eo.2).
        split. { rewrite (bind_Done _ _ _ _ _ (freeproc_ok ip sp sf kf sl t np c1 cp eo.2 i pp Hp)).
                 by rewrite (bind_Done _ _ _ _ _ E2), (bind_Done _ _ _ _ _ E3). }
        split; [|exact H3]. eapply ScanReap; [done|done|done| |intros; lia].
        unfold eo in Ee |- *. destruct (status =? 0) eqn:Es; bool_hyps; [by left|]. right. split; [done|].
        destruct (env_copyout _ _ _ w) as [e w1]. cbn in *. exists e. by split; [lia|].
    + destruct (krelease_top L np ip sp sf kf sl t cp w {[wait_lock]} 1 c1 (proc_lock i) H1 ltac:(lia) Hi') as (c2 & E2 & H2).
      rewrite (bind_Done _ _ _ _ _ E2).
      destruct (IH (S i) true c2 ltac:(lia) H2) as (r & t' & c' & w' & E & Hr & H'). exists r, t', c', w'.
      split; [exact E|]. split; [|exact H'].
      apply (scan_skip t w me mp q status options i kids true r t' w' pp Hp); [intros [_ ?]; congruence| |done].
      naive_solver.
Qed.

End state.

Section calls.
Context (ip : option nat) (sp : nat) (sf kf : bool) (sl : gmap Z (bool * Z)).
Local Notation St t np c cp w := (K t np ip c cp sp sf kf sl w).

(** ** fork *)

Inductive fork_result (me : nat) (pr : proc) (t : list proc) (np : Z) (w : W) : ctl -> list proc -> Z -> W -> Prop :=
| ForkNoSlot : (forall k q, t !! k = Some q -> state q <> UNUSED) ->
    fork_result me pr t np w (Ret (- ENOMEM)) t np w
| ForkFailed i p v k w' : first_unused t i p -> v < 0 ->
    fork_result me pr t np w (Ret v) (<[i := set_context k (freed p)]> t) (s32 (np + 1)) w'
| ForkDone i p pa pt rg d w' : first_unused t i p -> cwd pr = Some d ->
    fork_result me pr t np w (Ret np)
      (<[i := child me np pa pt rg d (dup_ofile NOFILE 0 (ofile pr) (ofile p) w).1 pr p]> t) (s32 (np + 1)) w'.

Lemma dup_ofile_fst : forall n i src dst (w1 w2 : W), (dup_ofile n i src dst w1).1 = (dup_ofile n i src dst w2).1.
Proof. induction n as [|n IH]; intros; cbn [dup_ofile]; [done|]. repeat case_match; apply IH. Qed.

Lemma freed_regions rg q pa pt p : freed (set_regions rg (fresh q pa pt p)) = set_context (Ctx KForkret false) (freed p).
Proof. reflexivity. Qed.
Lemma freed_context p : freed p = set_context (context p) (freed p).
Proof. by destruct p. Qed.

(** The second half of [fork], once the child's slot [i] is prepared. *)
Lemma fork_tail me i pr g d pi t np c w : t !! i = Some g -> cwd pr = Some d -> (i < NPROC)%nat -> length t = NPROC ->
  t !! me = Some pr -> me <> i -> cpu_ok L {[proc_lock i]} 1 c -> pid g = pi ->
  exists c' w', (upd i (inherit pr);;
          upd i (set_tf (tf pr));;
          upd i (fun q => set_tf (<[tf_a0 := 0]> (tf q)) q);;
          dup_files NOFILE 0 me i;;
          upd i (set_fdflag (fdflag pr));;
          d ← deref (cwd pr);
          on_world (env_idup d);;
          upd i (set_cwd (Some d));;
          upd i (set_psignal (psignal pr));;
          upd i (set_name (take 15 (name pr)));;
          nr ← rdp i;
          krelease (proc_lock i);;
          kacquire wait_lock;;
          upd i (set_parent (Some me));;
          krelease wait_lock;;
          kacquire (proc_lock i);;
          upd i (set_state RUNNABLE);;
          krelease (proc_lock i);;
          mret (Ret (pid nr)) : M (kst W) ctl) (St t np c (Some me) w) =
    Done (Ret pi) (St (<[i := set_state RUNNABLE (set_parent (Some me) (set_name (take 15 (name pr)) (set_psignal (psignal pr)
       (set_cwd (Some d) (set_fdflag (fdflag pr) (set_ofile (dup_ofile NOFILE 0 (ofile pr) (ofile g) w).1
         (set_tf (<[tf_a0 := 0]> (tf pr)) (inherit pr g))))))))]> t) np c' (Some me) w') /\ cpu_ok L ∅ 0 c'.
Proof.
  intros Hg Hd Hi Hlen Hme Hne Hc Hpi. assert (Hlt : forall t', length t' = NPROC -> (i < length t')%nat) by (intros; lia).
  assert (Hl : forall x, length (<[i := x]> t) = NPROC) by (intros; by rewrite length_insert).
  pose proof (fun (x : proc) => list_lookup_insert_eq t i x (Hlt t Hlen)) as Hat.
  kupd Hg. kupd (Hat (inherit pr g)). rewrite list_insert_insert_eq.
  kupd (Hat (set_tf (tf pr) (inherit pr g))). rewrite list_insert_insert_eq.
  rewrite (bind_Done _ _ _ _ _ (dup_files_ok np ip sp sf kf sl me i pr Hne NOFILE 0 _ c (Some me) w _
    ltac:(by rewrite list_lookup_insert_ne by done) (Hat _))). rewrite list_insert_insert_eq.
  match goal with |- context [dup_ofile NOFILE 0 (ofile pr) ?x w] => set (du := dup_ofile NOFILE 0 (ofile pr) x w) end.
  match goal with |- context [K (<[i := ?g1]> t)] => kupd (Hat g1) end. rewrite list_insert_insert_eq, Hd.
  match goal with |- context [K (<[i := ?g1]> t)] =>
    rewrite (bind_Done _ _ _ d (St (<[i := g1]> t) np c (Some me) du.2)) by done;
    rewrite (bind_Done _ _ _ tt (St (<[i := g1]> t) np c (Some me) (env_idup d du.2))) by done; kupd (Hat g1) end.
  do 2 (rewrite list_insert_insert_eq; match goal with |- context [K (<[i := ?g1]> t)] => kupd (Hat g1) end).
  rewrite list_insert_insert_eq. match goal with |- context [K (<[i := ?g1]> t)] => kread (Hat g1) end.
  match goal with |- context [K (<[i := ?g1]> t)] => set (g2 := g1) end.
  destruct (krelease_one L np ip sp sf kf sl (<[i := g2]> t) (Some me) (env_idup d du.2) c (proc_lock i) Hc) as (c1 & E1 & H1).
  rewrite (bind_Done _ _ _ _ _ E1).
  destruct (kacquire_one L np ip sp sf kf sl (<[i := g2]> t) (Some me) (env_idup d du.2) c1 wait_lock H1) as (c2 & E2 & H2);
    [apply HL; unfold wait_lock; lia|]. rewrite (bind_Done _ _ _ _ _ E2).
  kupd (Hat g2). rewrite list_insert_insert_eq.
  destruct (krelease_one L np ip sp sf kf sl (<[i := set_parent (Some me) g2]> t) (Some me) (env_idup d du.2) c2 wait_lock H2) as (c3 & E3 & H3).
  rewrite (bind_Done _ _ _ _ _ E3).
  destruct (kacquire_one L np ip sp sf kf sl (<[i := set_parent (Some me) g2]> t) (Some me) (env_idup d du.2) c3 (proc_lock i) H3) as (c4 & E4 & H4);
    [by apply (proc_lock_L L HL)|]. rewrite (bind_Done _ _ _ _ _ E4).
  kupd (Hat (set_parent (Some me) g2)). rewrite list_insert_insert_eq.
  destruct (krelease_one L np ip sp sf kf sl (<[i := set_state RUNNABLE (set_parent (Some me) g2)]> t) (Some me) (env_idup d du.2) c4 (proc_lock i) H4) as (c5 & E5 & H5).
  rewrite (bind_Done _ _ _ _ _ E5). exists c5, (env_idup d du.2). split; [|exact H5].
  unfold mret, M_ret. subst pi. reflexivity.
Qed.

Lemma fork_ok me pr t np c w : length t = NPROC -> t !! me = Some pr -> is_Some (cwd pr) -> state pr = RUNNING ->
  cpu_ok L ∅ 0 c ->
  exists r t' np' c' w', fork (St t np c (Some me) w) = Done r (St t' np' c' (Some me) w') /\
    fork_result me pr t np w r t' np' w' /\ cpu_ok L ∅ 0 c'.
Proof.
  intros Hlen Hme [d Hd] Hrun Hc. unfold fork.
  destruct (self_ok L np ip sp sf kf sl t me w _ _ c Hc) as (c1 & E1 & H1). rewrite (bind_Done _ _ _ _ _ E1).
  destruct (allocproc_ok L HL ip sp sf kf sl t np c1 (Some me) w Hlen H1) as [c2 Hno E2 H2|i p c2 w' Hf Hi _ E2 H2|i p pa pt c2 w' Hf Hi E2 H2 _ _].
  - rewrite (bind_Done _ _ _ _ _ E2). eexists _, _, _, _, _. split; [done|]. split; [by constructor|done].
  - rewrite (bind_Done _ _ _ _ _ E2). eexists _, _, _, _, _. split; [done|]. split; [|done].
    rewrite freed_context. apply ForkFailed; [done|]. unfold ENOMEM. lia.
  - rewrite (bind_Done _ _ _ _ _ E2). destruct Hf as (Hp & Hu & Hk).
    assert (Hne : me <> i) by (intros ->; congruence).
    assert (Hlt : (i < length t)%nat) by lia.
    pose proof (fun (x : proc) => list_lookup_insert_eq t i x Hlt) as Hat.
    assert (Hme1 : forall x, <[i := x]> t !! me = Some pr) by (intros; by rewrite list_lookup_insert_ne).
    kread (Hme1 (fresh np pa pt p)). kread (Hat (fresh np pa pt p)).
    destruct (env_copy_mmap_regions pr (fresh np pa pt p) w') as [[v rg] w2] eqn:Ec.
    rewrite (bind_Done _ _ _ (v, rg) (St (<[i:=fresh np pa pt p]> t) (s32 (np + 1)) c2 (Some me) w2)) by (unfold ask; cbn; by rewrite Ec).
    kupd (Hat (fresh np pa pt p)). rewrite list_insert_insert_eq. cbn [fst snd].
    assert (Hback : forall v w3, v < 0 -> exists r t' np' c' w',
      (freeproc i;; krelease (proc_lock i);; mret (Ret v) : M (kst W) ctl)
        (St (<[i := set_regions rg (fresh np pa pt p)]> t) (s32 (np + 1)) c2 (Some me) w3) = Done r (St t' np' c' (Some me) w') /\
      fork_result me pr t np w r t' np' w' /\ cpu_ok L ∅ 0 c').
    { intros v0 w3 Hv. rewrite (bind_Done _ _ _ _ _ (freeproc_ok _ _ _ _ _ _ _ _ _ _ _ _ (Hat _))). rewrite list_insert_insert_eq, freed_regions.
      match goal with |- context [K _ _ _ _ _ _ _ _ _ ?w4] => destruct (krelease_one L (s32 (np + 1)) ip sp sf kf sl (<[i := set_context (Ctx KForkret false) (freed p)]> t) (Some me) w4 c2 (proc_lock i) H2) as (c3 & E3 & H3) end.
      rewrite (bind_Done _ _ _ _ _ E3). eexists _, _, _, _, _. split; [done|]. split; [|done]. by apply ForkFailed. }
    destruct (v <? 0) eqn:Ev; bool_hyps; [by apply Hback|].
    kread (Hat (set_regions rg (fresh np pa pt p))).
    destruct (env_uvmcopy pr (set_regions rg (fresh np pa pt p)) w2) as [u w3] eqn:Eu.
    rewrite (bind_Done _ _ _ u (St (<[i:=set_regions rg (fresh np pa pt p)]> t) (s32 (np + 1)) c2 (Some me) w3)) by (unfold ask; cbn; by rewrite Eu).
    destruct (u <? 0) eqn:Eu0; bool_hyps; [apply Hback; unfold ENOMEM; lia|].
    destruct (fork_tail me i pr (set_regions rg (fresh np pa pt p)) d np (<[i := set_regions rg (fresh np pa pt p)]> t) (s32 (np + 1)) c2 w3)
      as (c3 & w4 & E3 & H3); [apply Hat|exact Hd|exact Hi|by rewrite length_insert|apply Hme1|exact Hne|exact H2|done|].
    rewrite E3, list_insert_insert_eq. eexists _, _, _, _, _. split; [done|]. split; [|done].
    rewrite (dup_ofile_fst NOFILE 0 (ofile pr) _ w3 w). by apply (ForkDone me pr t np w i p pa pt rg d w4).
Qed.

(** ** exit *)

(** The slot of the exiting process before it becomes a zombie. *)
Definition stripped (w : W) (pr : proc) : proc :=
  set_cwd None (set_fdflag 0 (set_ofile (close_ofile NOFILE 0 (ofile pr) w).1 (set_regions None pr))).
(** The other slots: children go to init, and init and the parent are woken. *)
Definition exit_others (me j : nat) (pr : proc) (t : list proc) : list proc :=
  wake_all (wakeup_parent (parent pr)) (Some me) (reparent_from 0 me j t).

Lemma exit_ok me j pr d t np c w status : sp = me -> ip = Some j -> j <> me -> length t = NPROC -> t !! me = Some pr ->
  cwd pr = Some d -> parent pr <> Some me -> cpu_ok L ∅ 0 c ->
  exists c' w' w1, exit status (St t np c (Some me) w) =
    Done Slept (K (<[me := set_context (Ctx KZombie true) (set_state ZOMBIE (set_xstate status (stripped w1 pr)))]>
                     (exit_others me j pr (<[me := stripped w1 pr]> t))) np ip c' None (S me) sf kf sl w') /\
    cpu_ok L ∅ 0 c'.
Proof.
  intros -> Hip Hj Hlen Hme Hd Hpar Hc. unfold exit. pose proof (lookup_lt_Some _ _ _ Hme) as Hlt.
  pose proof (fun (x : proc) => list_lookup_insert_eq t me x Hlt) as Hat.
  destruct (self_ok L np ip me sf kf sl t me w _ _ c Hc) as (c1 & E1 & H1). rewrite (bind_Done _ _ _ _ _ E1).
  rewrite (bind_Done _ _ _ ip (K t np ip c1 (Some me) me sf kf sl w)) by done. rewrite decide_False by naive_solver.
  kread Hme.
  set (w1 := match regions pr with Some r => env_munmap_all r w | None => w end).
  rewrite (bind_Done _ _ _ tt (K (<[me := set_regions None pr]> t) np ip c1 (Some me) me sf kf sl w1)).
  2:{ unfold w1. destruct (regions pr) as [r|] eqn:Er.
      - rewrite (bind_Done _ _ _ tt (K t np ip c1 (Some me) me sf kf sl (env_munmap_all r w))) by done.
        by rewrite (upd_ok _ _ _ _ _ _ _ _ _ _ _ _ _ Hme).
      - rewrite list_insert_id; [done|]. rewrite Hme. destruct pr. cbn in Er. by subst. }
  rewrite (bind_Done _ _ _ _ _ (close_files_ok np ip me sf kf sl me NOFILE 0 _ c1 (Some me) w1 _ (Hat (set_regions None pr)))).
  rewrite list_insert_insert_eq. change (ofile (set_regions None pr)) with (ofile pr).
  set (cl := close_ofile NOFILE 0 (ofile pr) w1). kupd (Hat (set_ofile cl.1 (set_regions None pr))). rewrite list_insert_insert_eq, Hd.
  rewrite (bind_Done _ _ _ d (K (<[me := set_fdflag 0 (set_ofile cl.1 (set_regions None pr))]> t) np ip c1 (Some me) me sf kf sl cl.2)) by done.
  rewrite (bind_Done _ _ _ tt (K (<[me := set_fdflag 0 (set_ofile cl.1 (set_regions None pr))]> t) np ip c1 (Some me) me sf kf sl (env_iput d cl.2))) by done.
  kupd (Hat (set_fdflag 0 (set_ofile cl.1 (set_regions None pr)))). rewrite list_insert_insert_eq.
  change (set_cwd None (set_fdflag 0 (set_ofile cl.1 (set_regions None pr)))) with (stripped w1 pr).
  set (w2 := env_iput d cl.2). set (t1 := <[me := stripped w1 pr]> t).
  assert (Hl1 : length t1 = NPROC) by (unfold t1; by rewrite length_insert).
  destruct (kacquire_one L np ip me sf kf sl t1 (Some me) w2 c1 wait_lock H1) as (c2 & E2 & H2); [apply HL; unfold wait_lock; lia|].
  rewrite (bind_Done _ _ _ _ _ E2).
  destruct (reparent_ok np ip me sf kf sl me j t1 w2 c2 Hip Hj Hl1 H2) as (c3 & E3 & H3). rewrite (bind_Done _ _ _ _ _ E3).
  assert (Hme2 : reparent_from 0 me j t1 !! me = Some (stripped w1 pr)).
  { rewrite lookup_reparent_from. unfold t1 at 2. rewrite Hat. cbn [fmap option_fmap option_map]. f_equal.
    rewrite decide_True by lia. rewrite bool_decide_true by done. cbn [negb]. rewrite andb_false_r.
    unfold reparented. by rewrite decide_False. }
  kread Hme2. change (parent (stripped w1 pr)) with (parent pr).
  destruct (wakeup_ok L HL np ip me sf kf sl (wakeup_parent (parent pr)) (reparent_from 0 me j t1) (Some me) w2 {[wait_lock]} 1 c3)
    as (c4 & E4 & H4); [intros k _; rewrite elem_of_singleton; unfold proc_lock, wait_lock; lia|by rewrite length_reparent_from|done|].
  rewrite (bind_Done _ _ _ _ _ E4). fold (exit_others me j pr t1).
  assert (Hme3 : exit_others me j pr t1 !! me = Some (stripped w1 pr)).
  { unfold exit_others. rewrite lookup_wake_all, Hme2. cbn. by rewrite decide_True. }
  assert (Hw : proc_lock me ∉ ({[wait_lock]} : gset Z)) by (rewrite elem_of_singleton; unfold proc_lock, wait_lock; lia).
  destruct (kacquire_ok L np ip me sf kf sl (exit_others me j pr t1) (Some me) w2 {[wait_lock]} 1 c4 (proc_lock me) H4) as (c5 & E5 & H5);
    [apply (proc_lock_L L HL); lia|done|]. rewrite (bind_Done _ _ _ _ _ E5). kupd Hme3.
  set (t5 := <[me:=set_state ZOMBIE (set_xstate status (stripped w1 pr))]> (exit_others me j pr t1)).
  destruct (krelease_ok L np ip me sf kf sl t5 (Some me) w2 _ {[proc_lock me]} _ c5 wait_lock H5) as (c6 & E6 & H6);
    [lia|rewrite elem_of_union, !elem_of_singleton; by right| |].
  { clear - Hw. set_solver. }
  rewrite (bind_Done _ _ _ _ _ E6).
  destruct (sched_ok L np ip sf kf sl KZombie t5 c6 me (set_state ZOMBIE (set_xstate status (stripped w1 pr))) w2 H6)
    as (c7 & E7 & H7); [exact (list_lookup_insert_eq _ _ _ (lookup_lt_Some _ _ _ Hme3))|discriminate|].
  exists c7, w2, w1. split; [|exact H7]. rewrite (bind_Done _ _ _ _ _ E7). unfold t5. by rewrite list_insert_insert_eq.
Qed.

End calls.
End kernel.
