(* ===== verification/ProcSafe.v ===== *)
(** * Safety of the process machine

    An invariant of the process table, the CPU and the saved contexts, and for
    every call of Proc.v and for the scheduler a triple: from a state that
    satisfies the invariant the code runs to completion (no panic, no access
    outside the table) and re-establishes it. *)
From S2P Require Import Prelude Spinlock Signal Cred Proc ProcInv ProcCalls.

Lemma triple_pure {S A} (P : S -> Prop) (phi : Prop) (m : M S A) Q :
  (phi -> triple P m Q) -> triple (fun s => P s /\ phi) m Q.
Proof. intros H s [Hp Hphi]. by apply H. Qed.

Lemma triple_pure_l {S A} (P : S -> Prop) (phi : Prop) (m : M S A) Q :
  (phi -> triple P m Q) -> triple (fun s => phi /\ P s) m Q.
Proof. intros H s [Hphi Hp]. by apply H. Qed.

Section kernel.
Context {W : Type} `{!kenv W}.
(** [L] are the initialised spinlocks, [A] the initialised sleep locks. *)
Context (L A : gset Z) (HL : forall a, 1 <= a <= 4 \/ 16 <= a < 80 -> a ∈ L).
Context (HA : forall a, a ∈ A -> plain L a).

(** ** The invariant *)

(** The first frame knows which lock the sleep reacquires; the others run
    with no lock held. *)
Definition head_ok (lk : Z) (f : frame) : Prop :=
  match f with
  | FUnlock l => l = lk
  | FAcquireSleep a => a = lk /\ a ∈ A
  | FWait4 _ _ _ ru _ => lk = wait_lock /\ ru = 0
  | FStop i sig => lk = q_lock /\ (i < NPROC)%nat
  | FSuspend _ => lk = q_lock
  | _ => False
  end.
Definition tail_ok (f : frame) : Prop :=
  match f with
  | FKill _ sig rest _ => (rest <= NPROC)%nat /\ 1 <= sig < NSIG
  | FSyscall => True
  | _ => False
  end.
Definition kont_ok (k : kont) : Prop :=
  match k with
  | KForkret | KYield => True
  | KSleep lk (f :: fs) => plain L lk /\ head_ok lk f /\ Forall tail_ok fs
  | _ => False
  end.

Record pok (np : Z) (ip cp : option nat) (i : nat) (p : proc) : Prop := {
  po_used : state p <> USED;
  po_unused : state p = UNUSED -> pid p = 0;
  po_live : state p <> UNUSED -> 1 <= pid p < np;
  po_run : state p = RUNNING <-> cp = Some i;
  po_kont : state p = SLEEPING \/ state p = RUNNABLE ->
    kont_ok (ctx_kont (context p)) /\ (ctx_kont (context p) <> KForkret -> ctx_intena (context p) = true);
  po_cwd : state p = SLEEPING \/ state p = RUNNABLE \/ state p = RUNNING -> is_Some (cwd p);
  po_acts : length (sig_actions (psignal p)) = 32%nat;
  po_old : oldtf p = None;
  po_files : length (ofile p) = NOFILE;
  po_par : parent p <> Some i;
  po_init : ip = Some i -> parent p = None /\ state p <> UNUSED /\ state p <> ZOMBIE;
}.

Record Tinv (t : list proc) (np : Z) (ip cp : option nat) : Prop := {
  ti_len : length t = NPROC;
  ti_np : 1 <= np;
  ti_ok : forall i p, t !! i = Some p -> pok np ip cp i p;
  ti_pid : forall i j p q, t !! i = Some p -> t !! j = Some q -> pid p = pid q -> pid p <> 0 -> i = j;
  ti_ip : exists j, ip = Some j /\ (j < NPROC)%nat;
}.

(** [ok cp H n]: the table is consistent with [cp] running, the locks of [H]
    are held at depth [n]. *)
Definition ok (cp : option nat) (H : gset Z) (n : Z) (s : kst W) : Prop :=
  Tinv (table s) (nextpid s) (initproc s) cp /\ cproc s = cp /\ cpu_ok L H n (kcpu s) /\
  (forall i, cp = Some i -> spos s = i /\ (i < NPROC)%nat) /\ (forall a, a ∈ A -> is_Some (slocks s !! a)).

Definition runs (me : nat) : kst W -> Prop := ok (Some me) ∅ 0.
Definition idle : kst W -> Prop := ok None ∅ 0.
Definition inv (s : kst W) : Prop := match cproc s with Some me => runs me s | None => idle s end.

(** What a call leaves: the process still running, or asleep. *)
Definition after (me : nat) (r : ctl) : kst W -> Prop := match r with Ret _ => runs me | Slept => idle end.

(** The fields the invariant depends on. *)
Definition keeps (p p' : proc) : Prop :=
  state p' = state p /\ pid p' = pid p /\ context p' = context p /\ cwd p' = cwd p /\ parent p' = parent p /\
  length (sig_actions (psignal p')) = length (sig_actions (psignal p)) /\ oldtf p' = oldtf p /\
  length (ofile p') = length (ofile p).

Lemma pok_keeps np ip cp i p p' : keeps p p' -> pok np ip cp i p -> pok np ip cp i p'.
Proof. intros (E1 & E2 & E3 & E4 & E5 & E6 & E7 & E8) []. split; rewrite ?E1, ?E2, ?E3, ?E4, ?E5, ?E6, ?E7, ?E8; done. Qed.

Lemma pok_wake np ip cp i ch p : pok np ip cp i p -> pok np ip cp i (wake1 ch p).
Proof.
  intros []. unfold wake1. case_decide as Hs; [|done]. destruct Hs as [Hs _]. rewrite Hs in *.
  split; cbn; try done; try naive_solver.
Qed.

Lemma pok_np np np' ip cp i p : np <= np' -> pok np ip cp i p -> pok np' ip cp i p.
Proof. intros Hle []. split; try done. intros Hs. specialize (po_live0 Hs). lia. Qed.

(** A table that differs slot by slot, keeping pids or dropping them. *)
Lemma Tinv_pointwise t t' np np' ip cp cp' : Tinv t np ip cp -> length t' = length t -> np <= np' ->
  (forall i p', t' !! i = Some p' -> exists p, t !! i = Some p /\ pok np' ip cp' i p' /\ (pid p' = pid p \/ pid p' = 0)) ->
  Tinv t' np' ip cp'.
Proof.
  intros [] Hl Hnp Hp. split; [congruence|lia| | |done].
  - intros i p' Hi. destruct (Hp i p' Hi) as (p & _ & H & _). done.
  - intros i j p' q' Hi Hj Heq Hne. destruct (Hp i p' Hi) as (p & Hpi & _ & [E1|E1]); [|done].
    destruct (Hp j q' Hj) as (q & Hqj & _ & [E2|E2]); [|congruence].
    apply (ti_pid0 i j p q); congruence.
Qed.

Lemma Tinv_upd t np ip cp i p p' : Tinv t np ip cp -> t !! i = Some p -> pok np ip cp i p' ->
  pid p' = pid p \/ pid p' = 0 -> Tinv (<[i := p']> t) np ip cp.
Proof.
  intros HT Hi Hok Hpid. apply (Tinv_pointwise t _ np np ip cp cp HT); [by rewrite length_insert|lia|].
  intros j q Hj. destruct (decide (j = i)) as [->|Hne].
  - rewrite list_lookup_insert_eq in Hj by (by eapply lookup_lt_Some). injection Hj as <-. eauto.
  - rewrite list_lookup_insert_ne in Hj by done. exists q. split; [done|]. split; [|by left]. by eapply ti_ok.
Qed.

(** The running process leaves the CPU. *)
Lemma Tinv_leave t np ip me p p' : Tinv t np ip (Some me) -> t !! me = Some p -> pok np ip None me p' ->
  pid p' = pid p \/ pid p' = 0 -> Tinv (<[me := p']> t) np ip None.
Proof.
  intros HT Hi Hok Hpid. apply (Tinv_pointwise t _ np np ip _ None HT); [by rewrite length_insert|lia|].
  intros j q Hj. destruct (decide (j = me)) as [->|Hne].
  - rewrite list_lookup_insert_eq in Hj by (by eapply lookup_lt_Some). injection Hj as <-. eauto.
  - rewrite list_lookup_insert_ne in Hj by done. exists q. split; [done|]. split; [|by left].
    destruct (ti_ok _ _ _ _ HT j q Hj). split; try done. rewrite po_run0. naive_solver.
Qed.

Lemma Tinv_wake_all t np ip cp ch me : Tinv t np ip cp -> Tinv (wake_all ch me t) np ip cp.
Proof.
  intros HT. apply (Tinv_pointwise t _ np np ip cp cp HT); [apply length_wake_all|lia|].
  intros i p'. rewrite lookup_wake_all. destruct (t !! i) as [p|] eqn:E; [|done]. cbn. intros [= <-]. exists p.
  split; [done|]. pose proof (ti_ok _ _ _ _ HT i p E) as Hok. case_decide; [by split; [|left]|].
  split; [by apply pok_wake|left]. unfold wake1. by case_decide.
Qed.

(** ** Triples of the primitives *)

Lemma ok_lookup cp H n s i : ok cp H n s -> (i < NPROC)%nat -> exists p, table s !! i = Some p /\ pok (nextpid s) (initproc s) cp i p.
Proof.
  intros (HT & _) Hi. destruct (lookup_lt_is_Some_2 (table s) i) as [p Hp]; [by rewrite (ti_len _ _ _ _ HT)|].
  exists p. split; [done|]. by eapply ti_ok.
Qed.

Ltac mk_ok := refine (conj _ (conj _ (conj _ _))); cbn; try assumption; try reflexivity; try (split; assumption).
Ltac open_state s := destruct s as [t np ip c cp0 sp sf kf sl w]; cbn in *.

Lemma ok_acquire cp H n a : a ∈ L -> a ∉ H -> triple (ok cp H n) (kacquire a) (fun _ => ok cp ({[a]} ∪ H) (n + 1)).
Proof.
  intros Ha Hf s (HT & Hcp & Hc & Hr). open_state s.
  destruct (kacquire_ok L np ip sp sf kf sl t cp0 w H n c a Hc Ha Hf) as (c' & E & Hc').
  exists tt. eexists. split; [exact E|]. by mk_ok.
Qed.

Lemma ok_release cp H H' n a : 1 <= n -> a ∈ H -> H' = H ∖ {[a]} ->
  triple (ok cp H n) (krelease a) (fun _ => ok cp H' (n - 1)).
Proof.
  intros Hn Ha HH s (HT & Hcp & Hc & Hr). open_state s.
  destruct (krelease_ok L np ip sp sf kf sl t cp0 w H H' n c a Hc Hn Ha HH) as (c' & E & Hc').
  exists tt. eexists. split; [exact E|]. by mk_ok.
Qed.

Lemma ok_acquire_one cp a : a ∈ L -> triple (ok cp ∅ 0) (kacquire a) (fun _ => ok cp {[a]} 1).
Proof.
  intros Ha. eapply triple_weaken; [apply (ok_acquire cp ∅ 0 a Ha); apply not_elem_of_empty|done|].
  intros u s. cbn beta. by rewrite union_empty_r_L.
Qed.

Lemma ok_release_one cp a : triple (ok cp {[a]} 1) (krelease a) (fun _ => ok cp ∅ 0).
Proof. apply (ok_release cp {[a]} ∅ 1 a); [lia|by apply elem_of_singleton_2|by rewrite difference_diag_L]. Qed.

Lemma ok_release_top cp H n a : a ∉ H -> 0 <= n -> triple (ok cp ({[a]} ∪ H) (n + 1)) (krelease a) (fun _ => ok cp H n).
Proof.
  intros Ha Hn. eapply triple_weaken; [apply (ok_release cp ({[a]} ∪ H) H (n + 1) a); [lia|apply union_here|by apply union_minus]|done|].
  intros u s. cbn beta. by replace (n + 1 - 1) with n by lia.
Qed.

Lemma ok_self me H n : triple (ok (Some me) H n) self (fun r s => ok (Some me) H n s /\ r = me).
Proof.
  intros s (HT & Hcp & Hc & Hr). open_state s. subst cp0.
  destruct (self_ok L np ip sp sf kf sl t me w H n c Hc) as (c' & E & Hc').
  exists me. eexists. split; [exact E|]. split; [|done]. by mk_ok.
Qed.

Lemma ok_rdp cp H n i : (i < NPROC)%nat ->
  triple (ok cp H n) (rdp i) (fun p s => ok cp H n s /\ (table s !! i = Some p /\ pok (nextpid s) (initproc s) cp i p)).
Proof.
  intros Hi s Hs. destruct (ok_lookup cp H n s i Hs Hi) as (p & Hp & Hok).
  exists p, s. unfold rdp. by rewrite Hp.
Qed.

Lemma ok_upd_with cp H n i (P : proc -> Prop) f : (i < NPROC)%nat ->
  (forall np ip p, pok np ip cp i p -> P p -> pok np ip cp i (f p) /\ (pid (f p) = pid p \/ pid (f p) = 0)) ->
  triple (fun s => ok cp H n s /\ forall p, table s !! i = Some p -> P p) (upd i f) (fun _ => ok cp H n).
Proof.
  intros Hi Hf s [Hs HP]. destruct (ok_lookup cp H n s i Hs Hi) as (p & Hp & Hok). exists tt.
  destruct (Hf _ _ _ Hok (HP p Hp)) as [Hok' Hpid].
  eexists. split; [unfold upd; rewrite Hp; reflexivity|]. destruct Hs as (HT & Hr). open_state s.
  split; [|done]. by apply (Tinv_upd t np ip cp i p).
Qed.

Lemma ok_upd cp H n i f : (i < NPROC)%nat -> (forall p, keeps p (f p)) ->
  triple (ok cp H n) (upd i f) (fun _ => ok cp H n).
Proof.
  intros Hi Hf. eapply triple_weaken; [apply (ok_upd_with cp H n i (fun _ => True) f Hi)|done|done].
  intros np ip p Hok _. split; [by eapply pok_keeps|left]. by destruct (Hf p) as (_ & ? & _).
Qed.

Lemma ok_ask cp H n {B} (f : W -> B * W) : triple (ok cp H n) (ask f) (fun _ => ok cp H n).
Proof. intros s Hs. unfold ask. destruct (f (world s)) as [b w']. exists b. eexists. split; [done|]. exact Hs. Qed.

Lemma ok_wakeup cp H n ch : (forall i, (i < NPROC)%nat -> proc_lock i ∉ H) ->
  triple (ok cp H n) (wakeup ch) (fun _ => ok cp H n).
Proof.
  intros HH s (HT & Hcp & Hc & Hr). open_state s.
  destruct (wakeup_ok L HL np ip sp sf kf sl ch t cp0 w H n c HH (ti_len _ _ _ _ HT) Hc) as (c' & E & Hc').
  exists tt. eexists. split; [exact E|]. mk_ok. by apply Tinv_wake_all.
Qed.

Lemma ok_sleep me ch lk fs : kont_ok (KSleep lk fs) ->
  triple (ok (Some me) {[lk]} 1) (sleep ch lk fs) (fun r s => r = Slept /\ idle s).
Proof.
  intros Hk s (HT & Hcp & Hc & Hpos & Hsl). destruct (Hpos me eq_refl) as [Hsp Hme]. open_state s. subst cp0 sp.
  assert (Hpl : plain L lk) by (destruct fs as [|f fs]; cbn in Hk; [done|]; apply Hk).
  destruct (lookup_lt_is_Some_2 t me) as [p Hp]; [by rewrite (ti_len _ _ _ _ HT)|].
  destruct (sleep_ok L HL np ip sf kf sl ch lk fs t c me p w Hc Hpl Hp Hme) as (c' & E & Hc').
  exists Slept. eexists. split; [exact E|]. split; [done|].
  refine (conj _ (conj _ (conj _ (conj _ _)))); cbn; try done.
  eapply (Tinv_leave t np ip me p); [done|done| |by left].
  destruct (ti_ok _ _ _ _ HT me p Hp). pose proof (proj2 po_run0 eq_refl) as Hrun.
  split; cbn; try done.
  - intros _. apply po_live0. by rewrite Hrun.
  - intros _. apply po_cwd0. auto.
  - intros Hi. by destruct (po_init0 Hi).
Qed.

(** ** Signals *)

Lemma triple_deref {S B} (P : S -> Prop) (o : option B) a : o = Some a -> triple P (deref o) (fun r s => P s /\ r = a).
Proof. intros -> s Hs. by exists a, s. Qed.

Lemma ok_rdp_pure cp H n i : (i < NPROC)%nat ->
  triple (ok cp H n) (rdp i) (fun p s => ok cp H n s /\ exists np ip, pok np ip cp i p).
Proof. intros Hi. eapply triple_weaken; [by apply ok_rdp|done|]. intros p s (Hs & _ & Hp). eauto. Qed.

Lemma plain_const a : 1 <= a <= 4 -> plain L a.
Proof. intros Ha. split; [apply HL; lia|]. intros i Hi. unfold proc_lock. lia. Qed.

Lemma siglock_L : q_siglock ∈ L.
Proof. apply HL. unfold q_siglock. lia. Qed.
Lemma qlock_L : q_lock ∈ L.
Proof. apply HL. unfold q_lock. lia. Qed.
Lemma waitlock_L : wait_lock ∈ L.
Proof. apply HL. unfold wait_lock. lia. Qed.

(** Take a lock, update a slot in a way the invariant does not see, release. *)
Lemma locked_upd cp a i f : a ∈ L -> (i < NPROC)%nat -> (forall p, keeps p (f p)) ->
  triple (ok cp ∅ 0) (kacquire a;; upd i f;; krelease a) (fun _ => ok cp ∅ 0).
Proof.
  intros Ha Hi Hf. eapply triple_bind; [by apply ok_acquire_one|intros ?; cbn beta].
  eapply triple_bind; [by apply ok_upd|intros ?; cbn beta]. apply ok_release_one.
Qed.

Lemma clear_pending_ok cp i sig : (i < NPROC)%nat -> triple (ok cp ∅ 0) (clear_pending i sig) (fun _ => ok cp ∅ 0).
Proof.
  intros Hi. apply (locked_upd cp q_siglock i); [apply siglock_L|done|]. by repeat split.
Qed.

Lemma pok_runnable np ip cp i p : pok np ip cp i p -> state p = SLEEPING -> pok np ip cp i (set_state RUNNABLE p).
Proof. intros [] Hs. rewrite Hs in *. split; cbn; try done; try naive_solver. Qed.

Lemma term_handler_ok cp i : (i < NPROC)%nat -> triple (ok cp ∅ 0) (term_handler i) (fun _ => ok cp ∅ 0).
Proof.
  intros Hi. eapply triple_bind; [apply ok_acquire_one; by apply (proc_lock_L L HL)|intros ?; cbn beta].
  eapply triple_bind; [apply ok_upd; [done|by repeat split]|intros ?; cbn beta].
  eapply triple_bind; [|intros ?; cbn beta; apply ok_release_one].
  eapply triple_weaken; [apply (ok_upd_with cp {[proc_lock i]} 1 i (fun _ => True)); [done|]| |done].
  - intros np ip p Hok _. case_decide; [|by split; [|left]]. split; [by apply pok_runnable|by left].
  - by intros s Hs.
Qed.

Lemma user_handler_ok cp i sig : (i < NPROC)%nat -> 0 <= sig < NSIG -> triple (ok cp ∅ 0) (user_handler i sig) (fun _ => ok cp ∅ 0).
Proof.
  intros Hi Hsig. eapply triple_bind; [by apply ok_rdp_pure|intros p; cbn beta].
  apply (triple_pure (ok cp ∅ 0)). intros (np & ip & Hp).
  destruct (lookup_lt_is_Some_2 (sig_actions (psignal p)) (Z.to_nat sig)) as [a Ha];
    [rewrite (po_acts _ _ _ _ _ Hp); unfold NSIG in *; lia|].
  eapply triple_bind; [by apply triple_deref|intros r; cbn beta]. apply triple_pure. intros ->.
  apply ok_upd; [done|by repeat split].
Qed.

Lemma after_ret me v : triple (runs me) (mret (Ret v)) (after me).
Proof. by apply triple_ret. Qed.

Lemma then_ret me v (m : M (kst W) unit) : triple (runs me) m (fun _ => runs me) ->
  triple (runs me) (m;; mret (Ret v)) (after me).
Proof. intros Hm. eapply triple_bind; [exact Hm|intros ?; apply after_ret]. Qed.

Lemma clear_ret me i sig v : (i < NPROC)%nat -> triple (runs me) (clear_pending i sig;; mret (Ret v)) (after me).
Proof. intros Hi. apply then_ret. by apply clear_pending_ok. Qed.

Lemma sleep_after me ch lk fs : kont_ok (KSleep lk fs) -> triple (ok (Some me) {[lk]} 1) (sleep ch lk fs) (after me).
Proof. intros Hk. eapply triple_weaken; [by apply ok_sleep|done|]. by intros r s [-> Hs]. Qed.

Lemma handle_signal_ok me i sig fs : (i < NPROC)%nat -> 0 <= sig < NSIG -> Forall tail_ok fs ->
  triple (runs me) (handle_signal i sig fs) (after me).
Proof.
  intros Hi Hsig Hfs. unfold handle_signal. case_if; [apply after_ret|].
  eapply triple_bind; [by apply ok_rdp_pure|intros p; cbn beta].
  apply (triple_pure (ok (Some me) ∅ 0)). intros (np & ip & Hp).
  destruct (lookup_lt_is_Some_2 (sig_actions (psignal p)) (Z.to_nat sig)) as [a Ha];
    [rewrite (po_acts _ _ _ _ _ Hp); unfold NSIG in *; lia|].
  eapply triple_bind; [by apply triple_deref|intros r; cbn beta]. apply (triple_pure (runs me)). intros ->.
  case_if; [by apply clear_ret|]. case_if.
  2:{ eapply triple_bind; [by apply user_handler_ok|intros ?; cbn beta]. by apply clear_ret. }
  case_if.
  - unfold stop_handler. eapply triple_bind; [apply ok_acquire_one, qlock_L|intros ?; cbn beta].
    apply sleep_after. cbn. split; [apply plain_const; unfold q_lock; lia|done].
  - eapply (triple_bind _ _ _ (fun _ => runs me)); [|intros ?; cbn beta; by apply clear_ret].
    case_if; [apply ok_wakeup; intros; apply not_elem_of_empty|].
    case_if; [|by apply triple_ret].
    eapply triple_bind; [apply ok_upd; [done|by repeat split]|intros ?; cbn beta; by apply term_handler_ok].
Qed.

Lemma send_signal_ok me i sig fs : (i < NPROC)%nat -> 1 <= sig < NSIG -> Forall tail_ok fs ->
  triple (runs me) (send_signal i sig fs) (after me).
Proof.
  intros Hi Hsig Hfs. unfold send_signal. eapply (triple_bind _ _ _ (fun _ => runs me)); [|intros ?; cbn beta].
  { case_if; apply ok_upd; try done. intros p. by case_if. }
  eapply triple_bind; [by apply ok_rdp_pure|intros p; cbn beta].
  apply (triple_pure (ok (Some me) ∅ 0)). intros _. destruct (decide (state p = SLEEPING)); [|apply after_ret].
  case_if.
  - eapply triple_bind; [apply ok_upd; [done|by repeat split]|intros ?; cbn beta].
    apply handle_signal_ok; [done|unfold SIGCONT, NSIG; lia|done].
  - case_if; [|apply after_ret]. apply handle_signal_ok; [done|lia|done].
Qed.

Lemma kill_loop_ok me sel sig fs : 1 <= sig < NSIG -> Forall tail_ok fs -> forall n err, (n <= NPROC)%nat ->
  triple (runs me) (kill_loop n sel sig err fs) (after me).
Proof.
  intros Hsig Hfs. induction n as [|n IH]; intros err Hn; cbn [kill_loop]; [apply after_ret|].
  eapply triple_bind; [apply ok_rdp_pure; unfold NPROC; lia|intros p; cbn beta].
  apply (triple_pure (ok (Some me) ∅ 0)). intros _. case_if; [|apply IH; lia].
  eapply triple_bind; [apply send_signal_ok; [unfold NPROC; lia|done|constructor; [cbn; split; [lia|done]|done]]|].
  intros [v|]; cbn; [apply IH; lia|by apply triple_ret].
Qed.

Lemma kill_ok me q sig fs : (me < NPROC)%nat -> 1 <= sig < NSIG -> Forall tail_ok fs -> triple (runs me) (kill q sig fs) (after me).
Proof.
  intros Hme Hsig Hfs. unfold kill. eapply triple_bind; [apply ok_self|intros r; cbn beta]. apply triple_pure. intros ->.
  eapply triple_bind; [by apply ok_rdp_pure|intros p; cbn beta]. apply (triple_pure (ok (Some me) ∅ 0)). intros _.
  repeat case_if; try apply after_ret; by apply kill_loop_ok.
Qed.

Lemma sigsuspend_ok me mask fs : (me < NPROC)%nat -> Forall tail_ok fs -> triple (runs me) (sigsuspend mask fs) (after me).
Proof.
  intros Hme Hfs. unfold sigsuspend. eapply triple_bind; [apply ok_self|intros r; cbn beta]. apply triple_pure. intros ->.
  eapply triple_bind; [apply ok_acquire_one, siglock_L|intros ?; cbn beta].
  eapply triple_bind; [by apply ok_upd|intros ?; cbn beta].
  eapply triple_bind; [by apply ok_rdp_pure|intros p; cbn beta]. apply (triple_pure (ok (Some me) {[q_siglock]} 1)). intros _.
  eapply triple_bind; [by apply ok_upd|intros ?; cbn beta].
  eapply triple_bind; [apply ok_release_one|intros ?; cbn beta].
  eapply triple_bind; [apply ok_acquire_one, qlock_L|intros ?; cbn beta].
  apply sleep_after. cbn. split; [apply plain_const; unfold q_lock; lia|done].
Qed.

(** [ask] of a copy that succeeds for every memory. *)
Definition copyout_total : Prop := forall pt a bs w, 0 <= (env_copyout pt a bs w).1.

Lemma ok_copyout_of cp H n pt a (bs : W -> list Z) : copyout_total ->
  triple (ok cp H n) (if a =? 0 then mret 0 else ask (fun w => env_copyout pt a (bs w) w)) (fun e s => ok cp H n s /\ 0 <= e).
Proof.
  intros Hco s Hs. case_if; [by exists 0, s|]. unfold ask. pose proof (Hco pt a (bs (world s)) (world s)) as Hr.
  destruct (env_copyout pt a (bs (world s)) (world s)) as [e w']. exists e. eexists. split; [done|]. by split.
Qed.
Lemma ok_copyout cp H n pt a bs : copyout_total ->
  triple (ok cp H n) (if a =? 0 then mret 0 else ask (env_copyout pt a bs)) (fun e s => ok cp H n s /\ 0 <= e).
Proof. apply (ok_copyout_of cp H n pt a (fun _ => bs)). Qed.

Lemma sigaction_ok me sig act oldact : (me < NPROC)%nat -> 1 <= sig < NSIG -> oldact = 0 \/ copyout_total ->
  triple (runs me) (sigaction sig act oldact) (after me).
Proof.
  intros Hme Hsig Hco. unfold sigaction. eapply triple_bind; [apply ok_acquire_one, siglock_L|intros ?; cbn beta].
  eapply triple_bind; [apply ok_self|intros r; cbn beta]. apply triple_pure. intros ->.
  eapply triple_bind; [by apply ok_rdp_pure|intros p; cbn beta]. apply (triple_pure (ok (Some me) {[q_siglock]} 1)).
  intros (np & ip & Hp). destruct (lookup_lt_is_Some_2 (sig_actions (psignal p)) (Z.to_nat sig)) as [sa Ha];
    [rewrite (po_acts _ _ _ _ _ Hp); unfold NSIG in *; lia|].
  eapply triple_bind; [by apply triple_deref|intros r; cbn beta]. apply (triple_pure (ok (Some me) {[q_siglock]} 1)). intros ->.
  eapply (triple_bind _ _ _ (fun e s => ok (Some me) {[q_siglock]} 1 s /\ 0 <= e)).
  { destruct Hco as [->|Hco]; [|by apply (ok_copyout_of _ _ _ _ _ (fun w => kaction_bytes _ ++ env_stack w))]. by apply triple_ret. }
  intros e. cbn beta. apply triple_pure. intros He. case_if; [bool_hyps; lia|].
  eapply (triple_bind _ _ _ (fun _ => ok (Some me) {[q_siglock]} 1)); [|intros ?; cbn beta].
  2:{ eapply triple_bind; [apply ok_release_one|intros ?; apply after_ret]. }
  destruct act as [b|]; [|by apply triple_ret].
  eapply triple_bind; [apply ok_upd; [done|]|intros ?; cbn beta; by apply ok_upd].
  intros q. repeat split. cbn. by rewrite length_insert.
Qed.

Lemma sigpending_ok me addr : (me < NPROC)%nat -> triple (runs me) (sigpending addr) (after me).
Proof.
  intros Hme. unfold sigpending. eapply triple_bind; [apply ok_acquire_one, siglock_L|intros ?; cbn beta].
  eapply triple_bind; [apply ok_self|intros r; cbn beta]. apply triple_pure. intros ->.
  eapply triple_bind; [by apply ok_rdp_pure|intros p; cbn beta]. apply (triple_pure (ok (Some me) {[q_siglock]} 1)). intros _.
  eapply triple_bind; [apply ok_ask|intros e; cbn beta].
  eapply triple_bind; [apply ok_release_one|intros ?; apply after_ret].
Qed.

Lemma sigprocmask_ok me how set oldset : (me < NPROC)%nat -> oldset = 0 \/ copyout_total ->
  triple (runs me) (sigprocmask how set oldset) (after me).
Proof.
  intros Hme Hco. unfold sigprocmask. eapply triple_bind; [apply ok_acquire_one, siglock_L|intros ?; cbn beta].
  eapply triple_bind; [apply ok_self|intros r; cbn beta]. apply triple_pure. intros ->.
  eapply triple_bind; [by apply ok_rdp_pure|intros p; cbn beta]. apply (triple_pure (ok (Some me) {[q_siglock]} 1)). intros _.
  eapply (triple_bind _ _ _ (fun e s => ok (Some me) {[q_siglock]} 1 s /\ 0 <= e)).
  { destruct Hco as [->|Hco]; [|by apply ok_copyout]. by apply triple_ret. }
  intros e. cbn beta. apply triple_pure. intros He. case_if; [bool_hyps; lia|].
  eapply (triple_bind _ _ _ (fun _ => ok (Some me) {[q_siglock]} 1)); [|intros ?; cbn beta].
  2:{ eapply triple_bind; [apply ok_release_one|intros ?; apply after_ret]. }
  destruct set as [m|]; [|by apply triple_ret].
  repeat case_if; try (eapply triple_bind; [by apply ok_upd|intros ?; cbn beta; by apply triple_ret]). by apply triple_ret.
Qed.

Lemma check_pending_ok me fs : (me < NPROC)%nat -> Forall tail_ok fs -> triple (runs me) (check_pending_signal fs) (after me).
Proof.
  intros Hme Hfs. unfold check_pending_signal. eapply triple_bind; [apply ok_self|intros r; cbn beta]. apply triple_pure. intros ->.
  eapply triple_bind; [by apply ok_rdp_pure|intros p; cbn beta]. apply (triple_pure (ok (Some me) ∅ 0)). intros _.
  destruct (first_pending 32 0 _) as [sig|] eqn:E; [|apply after_ret]. apply handle_signal_ok; [done| |done].
  assert (G : forall n sg pe r, first_pending n sg pe = Some r -> sg <= r < sg + Z.of_nat n).
  { induction n as [|n IH]; intros sg pe r; cbn [first_pending]; [done|]. case_if; [intros [= <-]; lia|].
    intros Hr%IH. lia. }
  apply G in E. unfold NSIG. lia.
Qed.

(** ** Process groups *)

Lemma find_proc_ok cp f : forall n i, (n + i)%nat = NPROC ->
  triple (ok cp ∅ 0) (find_proc n i f) (fun o s => ok cp ∅ 0 s /\ (forall k, o = Some k -> (k < NPROC)%nat)).
Proof.
  induction n as [|n IH]; intros i Hi; cbn [find_proc]; [by apply triple_ret|].
  eapply triple_bind; [apply ok_acquire_one, (proc_lock_L L HL); lia|intros ?; cbn beta].
  eapply triple_bind; [apply ok_rdp_pure; lia|intros p; cbn beta]. apply (triple_pure (ok cp {[proc_lock i]} 1)). intros _.
  eapply triple_bind; [apply ok_release_one|intros ?; cbn beta].
  case_if; [|apply IH; lia]. apply triple_ret. intros s Hs. split; [done|]. intros k [= <-]. lia.
Qed.

Lemma setpgid_ok me q g : (me < NPROC)%nat -> triple (runs me) (setpgid q g) (after me).
Proof.
  intros Hme. unfold setpgid. eapply triple_bind; [apply ok_self|intros r; cbn beta]. apply triple_pure. intros ->.
  eapply triple_bind; [by apply ok_rdp_pure|intros c; cbn beta]. apply (triple_pure (ok (Some me) ∅ 0)). intros _.
  set (q' := if q =? 0 then pid c else q). set (g' := if g =? 0 then q' else g). case_if; [apply after_ret|].
  eapply (triple_bind _ _ _ (fun o s => runs me s /\ (forall k, o = Some k -> (k < NPROC)%nat))).
  { case_if; [|by apply find_proc_ok]. apply triple_ret. intros s Hs. split; [done|]. by intros k [= <-]. }
  intros [k|]; cbn beta; apply triple_pure; intros Hk; [|apply after_ret]. specialize (Hk k eq_refl).
  eapply triple_bind; [by apply ok_rdp_pure|intros p; cbn beta]. apply (triple_pure (ok (Some me) ∅ 0)). intros _.
  case_if; [apply after_ret|]. case_if; [apply after_ret|].
  eapply (triple_bind _ _ _ (fun _ => runs me)); [|intros b; cbn beta].
  { case_if; [by apply triple_ret|]. eapply triple_bind; [by apply find_proc_ok|intros o; cbn beta].
    apply triple_ret. by intros s [Hs _]. }
  destruct b; [|apply after_ret]. apply then_ret. apply ok_upd; [done|]. intros pr. case_if; by repeat split.
Qed.

Lemma getpgid_ok me q : (me < NPROC)%nat -> triple (runs me) (getpgid q) (after me).
Proof.
  intros Hme. unfold getpgid. case_if.
  - eapply triple_bind; [apply ok_self|intros r; cbn beta]. apply triple_pure. intros ->.
    eapply triple_bind; [by apply ok_rdp_pure|intros p; cbn beta]. apply (triple_pure (ok (Some me) ∅ 0)). intros _. apply after_ret.
  - eapply triple_bind; [by apply find_proc_ok|intros [k|]; cbn beta]; apply triple_pure; intros Hk; [|apply after_ret].
    eapply triple_bind; [by apply ok_rdp_pure, Hk|intros p; cbn beta]. apply (triple_pure (ok (Some me) ∅ 0)). intros _. apply after_ret.
Qed.

(** ** Sleep locks *)

Lemma ok_get_slock cp H n a : a ∈ A -> triple (ok cp H n) (get_slock a) (fun _ => ok cp H n).
Proof.
  intros Ha s Hs. destruct Hs as (HT & Hc & Hk & Hp & Hsl) eqn:E. destruct (Hsl a Ha) as [l Hl].
  exists l, s. split; [|done]. unfold get_slock. by rewrite Hl.
Qed.

Lemma ok_put_slock cp H n a l : triple (ok cp H n) (put_slock a l) (fun _ => ok cp H n).
Proof.
  intros s (HT & Hc & Hk & Hp & Hsl). eexists _, _. split; [done|].
  refine (conj HT (conj Hc (conj Hk (conj Hp _)))). intros b Hb. cbn.
  destruct (decide (b = a)) as [->|]; [rewrite lookup_insert_eq; eauto|rewrite lookup_insert_ne by done; by apply Hsl].
Qed.

Lemma acquiresleep_loop_ok me a fs : (me < NPROC)%nat -> a ∈ A -> Forall tail_ok fs ->
  triple (ok (Some me) {[a]} 1) (acquiresleep_loop a fs) (after me).
Proof.
  intros Hme Ha Hfs. unfold acquiresleep_loop. eapply triple_bind; [by apply ok_get_slock|intros l; cbn beta].
  case_if.
  - apply sleep_after. cbn. split; [by apply HA|done].
  - eapply triple_bind; [apply ok_self|intros r; cbn beta]. apply triple_pure. intros ->.
    eapply triple_bind; [by apply ok_rdp_pure|intros p; cbn beta]. apply (triple_pure (ok (Some me) {[a]} 1)). intros _.
    eapply triple_bind; [apply ok_put_slock|intros ?; cbn beta].
    eapply triple_bind; [apply ok_release_one|intros ?; apply after_ret].
Qed.

Lemma acquiresleep_ok me a fs : (me < NPROC)%nat -> a ∈ A -> Forall tail_ok fs -> triple (runs me) (acquiresleep a fs) (after me).
Proof.
  intros Hme Ha Hfs. eapply triple_bind; [apply ok_acquire_one; by apply HA|intros ?; cbn beta]. by apply acquiresleep_loop_ok.
Qed.

Lemma releasesleep_ok cp a : a ∈ A -> triple (ok cp ∅ 0) (releasesleep a) (fun _ => ok cp ∅ 0).
Proof.
  intros Ha. destruct (HA a Ha) as [Hl Hpl]. eapply triple_bind; [by apply ok_acquire_one|intros ?; cbn beta].
  eapply triple_bind; [apply ok_put_slock|intros ?; cbn beta].
  eapply triple_bind; [apply ok_wakeup|intros ?; cbn beta; apply ok_release_one].
  intros i Hi. rewrite elem_of_singleton. intros E. by apply (Hpl i Hi).
Qed.

(** ** fork, exit, wait4 *)

Lemma pok_freed np ip cp i p : cp <> Some i -> ip <> Some i -> pok np ip cp i p -> pok np ip cp i (freed p).
Proof. intros Hc Hi []. split; cbn; try done; naive_solver. Qed.

Lemma pok_context np ip cp i p k : state p = UNUSED -> pok np ip cp i p -> pok np ip cp i (set_context k p).
Proof. intros Hs []. split; cbn; try done. rewrite Hs. naive_solver. Qed.

Lemma first_unused_facts t np ip cp i p : Tinv t np ip cp -> first_unused t i p -> cp <> Some i /\ ip <> Some i /\ pid p = 0 /\ oldtf p = None.
Proof.
  intros HT (Hi & Hu & _). destruct (ti_ok _ _ _ _ HT i p Hi). split; [|split; [|split; [auto|done]]].
  - intros E. apply po_run0 in E. congruence.
  - intros E. destruct (po_init0 E) as (_ & ? & _). done.
Qed.

Lemma Tinv_fork t np ip me i p pr ch : Tinv t np ip (Some me) -> first_unused t i p -> t !! me = Some pr ->
  pok (np + 1) ip (Some me) i ch -> pid ch = np -> Tinv (<[i := ch]> t) (np + 1) ip (Some me).
Proof.
  intros HT Hf Hme Hch Hpid. destruct Hf as (Hi & Hu & _). pose proof (lookup_lt_Some _ _ _ Hi) as Hlt.
  pose proof (ti_np _ _ _ _ HT) as Hnp.
  assert (Hold : forall j q, t !! j = Some q -> pid q < np).
  { intros j q Hj. destruct (ti_ok _ _ _ _ HT j q Hj). destruct (decide (state q = UNUSED)) as [E|E];
      [rewrite po_unused0 by done; lia|by apply po_live0]. }
  split; [rewrite length_insert; apply HT|lia| | |apply HT].
  - intros j q. destruct (decide (j = i)) as [->|Hne]; [rewrite list_lookup_insert_eq by done; by intros [= <-]|].
    rewrite list_lookup_insert_ne by done. intros Hj. apply (pok_np np); [lia|]. by apply HT.
  - intros j k q r. destruct (decide (j = i)) as [->|Hj], (decide (k = i)) as [->|Hk]; try done.
    + rewrite list_lookup_insert_eq, list_lookup_insert_ne by done. intros [= <-] Hr. specialize (Hold k r Hr). lia.
    + rewrite list_lookup_insert_eq, list_lookup_insert_ne by done. intros Hq [= <-]. specialize (Hold j q Hq). lia.
    + rewrite !list_lookup_insert_ne by done. apply HT.
Qed.

Lemma fork_inv me : triple (fun s => runs me s /\ nextpid s < 2 ^ 31 - 1) fork (fun r s => runs me s /\ r <> Slept).
Proof.
  intros s [(HT & Hcp & Hc & Hp & Hsl) Hnp]. destruct (Hp me eq_refl) as [Hsp Hme]. open_state s. subst cp0.
  destruct (lookup_lt_is_Some_2 t me) as [pr Hpr]; [by rewrite (ti_len _ _ _ _ HT)|].
  pose proof (ti_ok _ _ _ _ HT me pr Hpr) as Hok. pose proof (proj2 (po_run _ _ _ _ _ Hok) eq_refl) as Hrun.
  pose proof (ti_np _ _ _ _ HT) as Hnp1.
  assert (Es : s32 (np + 1) = np + 1) by (apply swrap_small; [lia|]; change (32 - 1) with 31; lia).
  destruct (fork_ok L HL ip sp sf kf sl me pr t np c w (ti_len _ _ _ _ HT) Hpr (po_cwd _ _ _ _ _ Hok ltac:(auto)) Hrun Hc)
    as (r & t' & np' & c' & w' & E & Hr & Hc').
  exists r. eexists. split; [exact E|]. clear E.
  destruct Hr as [Hno|i p v k w' Hf Hv|i p pa pt rg d w' Hf Hd]; rewrite ?Es.
  - split; [|discriminate]. by mk_ok.
  - split; [|discriminate]. mk_ok. destruct (first_unused_facts _ _ _ _ _ _ HT Hf) as (H1 & H2 & _). destruct Hf as (Hi & Hu & _).
    apply (Tinv_pointwise (<[i := set_context k (freed p)]> t) _ np (np + 1) ip (Some me) (Some me)); [|done|lia|].
    + apply (Tinv_upd t np ip (Some me) i p); [done|done| |by right].
      apply pok_context; [done|]. apply pok_freed; [done|done|]. by apply HT.
    + intros j q Hj. exists q. split; [done|]. split; [|by left]. apply (pok_np np); [lia|].
      destruct (decide (j = i)) as [->|Hne].
      * rewrite list_lookup_insert_eq in Hj by (by eapply lookup_lt_Some). injection Hj as <-.
        apply pok_context; [done|]. apply pok_freed; [done|done|]. by apply HT.
      * rewrite list_lookup_insert_ne in Hj by done. by apply HT.
  - split; [|discriminate]. mk_ok. destruct (first_unused_facts _ _ _ _ _ _ HT Hf) as (H1 & H2 & H3 & H4).
    apply (Tinv_fork t np ip me i p pr); [done|done|done| |done].
    split; cbn; try done; try lia.
    + apply (po_acts _ _ _ _ _ Hok).
    + rewrite dup_ofile_length. destruct Hf as (Hi & _). apply (po_files _ _ _ _ _ (ti_ok _ _ _ _ HT i p Hi)).
Qed.

Lemma wake1_fields ch p : parent (wake1 ch p) = parent p /\ pid (wake1 ch p) = pid p.
Proof. unfold wake1. by case_decide. Qed.

Lemma reparent_from_inv t np ip cp me j : Tinv t np ip cp -> ip = Some j -> Tinv (reparent_from 0 me j t) np ip cp.
Proof.
  intros HT Hip. apply (Tinv_pointwise t _ np np ip cp cp HT); [apply length_reparent_from|lia|].
  intros i p'. rewrite lookup_reparent_from. destruct (t !! i) as [p|] eqn:E; [|done]. cbn. intros [= <-]. exists p.
  split; [done|]. pose proof (ti_ok _ _ _ _ HT i p E) as Hok.
  assert (Hq : pok np ip cp i (reparented me j p) /\ pid (reparented me j p) = pid p).
  { unfold reparented. case_decide as Hpar; [|done]. split; [|done]. destruct Hok. split; cbn; try done.
    - intros [= ->]. destruct (po_init0 Hip). congruence.
    - intros Hi. destruct (po_init0 Hi). congruence. }
  destruct Hq as [Hq Hpid]. case_if; [|by split; [|left]].
  split; [by apply pok_wake|left]. by rewrite (proj2 (wake1_fields _ _)).
Qed.

Lemma exit_inv me status : triple (fun s => runs me s /\ initproc s <> Some me) (exit status) (fun r s => r = Slept /\ idle s).
Proof.
  intros s [(HT & Hcp & Hc & Hp & Hsl) Hni]. destruct (Hp me eq_refl) as [Hsp Hme]. open_state s. subst cp0.
  destruct (lookup_lt_is_Some_2 t me) as [pr Hpr]; [by rewrite (ti_len _ _ _ _ HT)|].
  pose proof (ti_ok _ _ _ _ HT me pr Hpr) as Hok. pose proof (proj2 (po_run _ _ _ _ _ Hok) eq_refl) as Hrun.
  destruct (po_cwd _ _ _ _ _ Hok ltac:(auto)) as [d Hd]. destruct (ti_ip _ _ _ _ HT) as (j & Hj & _).
  destruct (exit_ok L HL ip sp sf kf sl me j pr d t np c w status Hsp Hj ltac:(congruence) (ti_len _ _ _ _ HT) Hpr Hd
    (po_par _ _ _ _ _ Hok) Hc) as (c' & w' & w1 & E & Hc').
  exists Slept. eexists. split; [exact E|]. split; [done|]. refine (conj _ (conj eq_refl (conj Hc' (conj _ Hsl)))); [|discriminate]. cbn [table nextpid initproc]. clear E.
  set (p1 := stripped w1 pr).
  set (fin := set_context (Ctx KZombie true) (set_state ZOMBIE (set_xstate status p1))).
  assert (Hlt : (me < length t)%nat) by (rewrite (ti_len _ _ _ _ HT); done).
  assert (Hl : length (exit_others me j pr (<[me := p1]> t)) = length t)
    by (unfold exit_others; rewrite length_wake_all, length_reparent_from; apply length_insert).
  apply (Tinv_pointwise t _ np np ip (Some me) None HT); [rewrite length_insert; exact Hl|lia|].
  intros i p'. destruct (decide (i = me)) as [->|Hne].
  - rewrite list_lookup_insert_eq by (rewrite Hl; exact Hlt).
    intros [= <-]. exists pr. split; [done|]. split; [|by left]. destruct Hok. split; try assumption.
    + discriminate.
    + discriminate.
    + intros _. apply po_live0. by rewrite Hrun.
    + by split.
    + by intros [?|?].
    + by intros [?|[?|?]].
    + cbn. by rewrite close_ofile_length.
    + intros Hi. by destruct Hni.
  - rewrite list_lookup_insert_ne by done. unfold exit_others. rewrite lookup_wake_all, lookup_reparent_from, list_lookup_insert_ne by done.
    destruct (t !! i) as [p|] eqn:Ei; [|done]. cbn [fmap option_fmap option_map]. intros [= <-]. exists p. split; [done|].
    pose proof (ti_ok _ _ _ _ HT i p Ei) as Hok'.
    rewrite bool_decide_false by done. cbn [negb]. rewrite andb_true_r.
    assert (Hq : pok np ip (Some me) i (reparented me j p) /\ pid (reparented me j p) = pid p).
    { unfold reparented. case_decide as Hpar; [|done]. split; [|done]. destruct Hok'. split; cbn; try done.
      - intros [= ->]. destruct (po_init0 Hj). congruence.
      - intros Hi. destruct (po_init0 Hi). congruence. }
    destruct Hq as [Hq Hpid].
    assert (Hnone : forall q, pok np ip (Some me) i q -> pok np ip None i q).
    { intros q []. split; try done. rewrite po_run0. naive_solver. }
    cbv zeta. rewrite (decide_False (P := Some me = Some i)) by (intros [= E0]; by apply Hne).
    destruct (child_in me 0 _).
    + split; [by apply Hnone, pok_wake, pok_wake|left]. by rewrite !(proj2 (wake1_fields _ _)).
    + split; [by apply Hnone, pok_wake|left]. by rewrite !(proj2 (wake1_fields _ _)).
Qed.

Lemma wait_scan_inv me q status options kids : (me < NPROC)%nat ->
  triple (ok (Some me) {[wait_lock]} 1) (wait_scan NPROC 0 me q status options 0 kids)
    (fun r => match r with inl _ => runs me | inr _ => ok (Some me) {[wait_lock]} 1 end).
Proof.
  intros Hme s (HT & Hcp & Hc & Hr). open_state s. subst cp0.
  destruct (lookup_lt_is_Some_2 t me) as [mp Hmp]; [by rewrite (ti_len _ _ _ _ HT)|].
  destruct (wait_scan_ok L HL np ip sp sf kf sl me mp q status options t (Some me) w (ti_len _ _ _ _ HT) Hmp NPROC 0 kids c
    (Nat.add_0_r _) Hc) as (r & t' & c' & w' & E & Hres & Hc').
  exists r. eexists. split; [exact E|]. clear E.
  destruct Hres as [k pp w2 _ _ _ _ _ _|k pp w2 _ Hk [Hm _] _ _|kids' _ _];
    [exact (conj HT (conj eq_refl (conj Hc' Hr)))| |exact (conj HT (conj eq_refl (conj Hc' Hr)))].
  refine (conj _ (conj eq_refl (conj Hc' Hr))). cbn [table nextpid initproc]. pose proof (ti_ok _ _ _ _ HT k pp Hk) as Hok.
  unfold wait_match in Hm. bool_hyps. match goal with H : bool_decide _ = true |- _ => apply bool_decide_eq_true in H end.
  apply (Tinv_upd t np ip (Some me) k pp); [done|done| |by right].
  apply pok_freed; [| |done].
  - intros [= <-]. by apply (po_par _ _ _ _ _ Hok).
  - intros Hi. destruct (po_init _ _ _ _ _ Hok Hi). congruence.
Qed.

Lemma wait_loop_ok me q status options kids fs : (me < NPROC)%nat -> Forall tail_ok fs ->
  triple (ok (Some me) {[wait_lock]} 1) (wait_loop q status options 0 kids fs) (after me).
Proof.
  intros Hme Hfs. unfold wait_loop. eapply triple_bind; [apply ok_self|intros r; cbn beta]. apply triple_pure. intros ->.
  eapply triple_bind; [by apply wait_scan_inv|intros [v|kids1]; cbn beta iota]; [apply after_ret|].
  eapply (triple_bind _ _ _ (fun _ => ok (Some me) {[wait_lock]} 1)).
  - destruct kids1; [|by apply triple_ret]. unfold is_killed.
    assert (Hw : proc_lock me ∉ ({[wait_lock]} : gset Z)) by (rewrite elem_of_singleton; unfold proc_lock, wait_lock; lia).
    eapply triple_bind; [apply ok_acquire; [by apply (proc_lock_L L HL)|done]|intros ?; cbn beta].
    eapply triple_bind; [by apply ok_rdp_pure|intros p; cbn beta]. apply (triple_pure (ok (Some me) ({[proc_lock me]} ∪ {[wait_lock]}) (1 + 1))). intros _.
    eapply triple_bind; [by apply ok_release_top|intros ?; cbn beta]. by apply triple_ret.
  - intros k. cbn beta. case_if.
    + eapply triple_bind; [apply ok_release_one|intros ?; apply after_ret].
    + apply sleep_after. cbn. split; [apply plain_const; unfold wait_lock; lia|done].
Qed.

Lemma wait4_ok me q status options fs : (me < NPROC)%nat -> Forall tail_ok fs -> triple (runs me) (wait4 q status options 0 fs) (after me).
Proof.
  intros Hme Hfs. eapply triple_bind; [apply ok_acquire_one, waitlock_L|intros ?; cbn beta]. by apply wait_loop_ok.
Qed.

(** ** Giving up the CPU and coming back *)

Lemma yield_inv me : triple (runs me) yield (fun _ => idle).
Proof.
  intros s (HT & Hcp & Hc & Hpos & Hsl). destruct (Hpos me eq_refl) as [Hsp Hme]. open_state s. subst cp0 sp.
  destruct (lookup_lt_is_Some_2 t me) as [p Hp]; [by rewrite (ti_len _ _ _ _ HT)|].
  destruct (yield_ok L HL np ip sf kf sl t c me p w Hc Hp Hme) as (c' & E & Hc').
  exists tt. eexists. split; [exact E|]. refine (conj _ (conj eq_refl (conj Hc' (conj _ Hsl)))); [|discriminate]. cbn.
  apply (Tinv_leave t np ip me p); [done|done| |by left].
  destruct (ti_ok _ _ _ _ HT me p Hp). pose proof (proj2 po_run0 eq_refl) as Hrun.
  split; cbn; try done.
  - intros _. apply po_live0. by rewrite Hrun.
  - intros _. apply po_cwd0. auto.
  - intros Hi. by destruct (po_init0 Hi).
Qed.

Lemma run_frame_tail me f v fs : (me < NPROC)%nat -> tail_ok f -> Forall tail_ok fs -> triple (runs me) (run_frame f v fs) (after me).
Proof.
  intros Hme Hf Hfs. destruct f as [| | | |sel sig rest err| |]; try done; cbn [run_frame].
  - destruct Hf. by apply kill_loop_ok.
  - eapply triple_bind; [apply ok_self|intros r; cbn beta]. apply triple_pure. intros ->.
    apply then_ret. by apply ok_upd.
Qed.

Lemma run_frame_head me lk f v fs : (me < NPROC)%nat -> head_ok lk f -> Forall tail_ok fs ->
  triple (ok (Some me) {[lk]} 1) (run_frame f v fs) (after me).
Proof.
  intros Hme Hf Hfs. destruct f as [l|a|q status options ru kids|i sig|sel sig rest err|old|]; try done; cbn [run_frame]; cbn in Hf.
  - subst l. eapply triple_bind; [apply ok_release_one|intros ?; apply after_ret].
  - destruct Hf as [<- Ha]. by apply acquiresleep_loop_ok.
  - destruct Hf as [-> ->]. by apply wait_loop_ok.
  - destruct Hf as [-> Hi]. eapply triple_bind; [apply ok_release_one|intros ?; cbn beta]. by apply clear_ret.
  - subst lk. eapply triple_bind; [apply ok_release_one|intros ?; cbn beta].
    eapply triple_bind; [apply ok_self|intros r; cbn beta]. apply triple_pure. intros ->.
    eapply triple_bind; [apply ok_acquire_one, siglock_L|intros ?; cbn beta].
    eapply triple_bind; [by apply ok_upd|intros ?; cbn beta].
    eapply triple_bind; [apply ok_release_one|intros ?; apply after_ret].
Qed.

Lemma run_frames_tail me : forall fs v, (me < NPROC)%nat -> Forall tail_ok fs -> triple (runs me) (run_frames fs v) (after me).
Proof.
  induction fs as [|f fs IH]; intros v Hme Hfs; cbn [run_frames]; [apply after_ret|].
  inversion_clear Hfs. eapply triple_bind; [by apply run_frame_tail|].
  intros [u|]; cbn; [by apply IH|by apply triple_ret].
Qed.

Lemma run_frames_head me lk f fs v : (me < NPROC)%nat -> head_ok lk f -> Forall tail_ok fs ->
  triple (ok (Some me) {[lk]} 1) (run_frames (f :: fs) v) (after me).
Proof.
  intros Hme Hf Hfs. cbn [run_frames]. eapply triple_bind; [by apply run_frame_head|].
  intros [u|]; cbn; [by apply run_frames_tail|by apply triple_ret].
Qed.

(** The context of the process the scheduler switches to. *)
Definition resumable (k : ctx) : Prop := kont_ok (ctx_kont k) /\ (ctx_kont k <> KForkret -> ctx_intena k = true).

Lemma cpu_ok_intena H n c : cpu_ok L H n c -> 0 < n -> cpu_ok L H n (Cpu (noff c) true (intr c) (locks c)).
Proof.
  intros ([Hn Hl Hm Ho] & (H0 & Hz & Hp) & HLk) Hpos. split; [by split|]. split; [|done].
  split; [done|]. cbn. split; [done|]. intros Hq. by destruct (Hp Hq).
Qed.

Lemma set_intena cp H s : ok cp H 1 s ->
  ok cp H 1 (set_kcpu (Cpu (noff (kcpu s)) true (intr (kcpu s)) (locks (kcpu s))) s).
Proof. intros (H1 & H2 & H3 & H4). refine (conj H1 (conj H2 (conj _ H4))). by apply cpu_ok_intena. Qed.

Lemma resume_ok j : (j < NPROC)%nat ->
  triple (fun s => ok (Some j) {[proc_lock j]} 1 s /\ forall p, table s !! j = Some p -> resumable (context p)) (resume j) (after j).
Proof.
  intros Hj s [Hs Hk]. destruct (ok_lookup _ _ _ s j Hs Hj) as (p & Hp & _). specialize (Hk p Hp). destruct Hk as [Hk Hi].
  unfold resume. rewrite (bind_Done _ _ _ p s) by (unfold rdp; by rewrite Hp).
  destruct (ctx_kont (context p)) as [| |lk fs|] eqn:Ek; [| | |done].
  - assert (G : triple (ok (Some j) {[proc_lock j]} 1) (forkret;; mret (Ret 0)) (after j)); [|exact (G s Hs)].
    apply (triple_bind _ _ _ (fun _ => runs j)); [|intros ?; apply after_ret]. unfold forkret.
    eapply triple_bind; [apply ok_self|intros r; cbn beta]. apply triple_pure. intros ->.
    eapply triple_bind; [apply ok_release_one|intros ?; cbn beta].
    intros s0 Hs0. exists tt. unfold gets. mstep. destruct (kfirst s0); eexists; (split; [reflexivity|]); exact Hs0.
  - assert (G : triple (ok (Some j) {[proc_lock j]} 1) (krelease (proc_lock j);; mret (Ret 0)) (after j)).
    { eapply triple_bind; [apply ok_release_one|intros ?; apply after_ret]. }
    rewrite Hi by done. apply G, set_intena, Hs.
  - destruct fs as [|f fs]; [done|]. destruct Hk as (Hpl & Hf & Hfs).
    assert (G : triple (ok (Some j) {[proc_lock j]} 1)
                  (upd j (set_chan 0);; krelease (proc_lock j);; kacquire lk;; run_frames (f :: fs) 0) (after j)).
    { eapply triple_bind; [by apply ok_upd|intros ?; cbn beta].
      eapply triple_bind; [apply ok_release_one|intros ?; cbn beta].
      eapply triple_bind; [apply ok_acquire_one; by apply Hpl|intros ?; cbn beta]. by apply run_frames_head. }
    rewrite Hi by done. apply G, set_intena, Hs.
Qed.

Lemma after_inv me r s : after me r s -> inv s.
Proof. destruct r; cbn; intros Hs; unfold inv; pose proof Hs as (_ & -> & _); done. Qed.
Lemma idle_inv s : idle s -> inv s.
Proof. intros Hs. unfold inv. by pose proof Hs as (_ & -> & _). Qed.

Lemma sched_step_ok : triple idle sched_step (fun _ => inv).
Proof.
  intros s (HT & Hcp & Hc & Hpos & Hsl). open_state s. subst cp0. unfold sched_step.
  rewrite (bind_Done _ _ _ sp (K t np ip c None sp sf kf sl w)) by done. case_bool_decide as Hj.
  - destruct (kacquire_one L np ip sp sf kf sl t None w c (proc_lock sp) Hc (proc_lock_L L HL _ Hj)) as (c1 & E1 & H1).
    rewrite (bind_Done _ _ _ _ _ E1). destruct (lookup_lt_is_Some_2 t sp) as [p Hp]; [by rewrite (ti_len _ _ _ _ HT)|].
    kread Hp. pose proof (ti_ok _ _ _ _ HT sp p Hp) as Hok. case_decide as Hs.
    + rewrite (bind_Done _ _ _ tt (K t np ip c1 None sp true kf sl w)) by done. kupd Hp.
      set (t1 := <[sp := set_state RUNNING p]> t).
      rewrite (bind_Done _ _ _ tt (K t1 np ip c1 (Some sp) sp true kf sl w)) by done.
      destruct (resume_ok sp Hj (K t1 np ip c1 (Some sp) sp true kf sl w)) as (r & s' & E & Hs').
      * split.
        -- refine (conj _ (conj eq_refl (conj H1 (conj _ Hsl)))); [|by intros i [= <-]]. cbn.
           apply (Tinv_pointwise t _ np np ip None (Some sp) HT); [by unfold t1; rewrite length_insert|lia|].
           intros i q. unfold t1. destruct (decide (i = sp)) as [->|Hne].
           ++ rewrite list_lookup_insert_eq by (by eapply lookup_lt_Some). intros [= <-]. exists p. split; [done|].
              split; [|by left]. destruct Hok. rewrite Hs in *. split; cbn; try done.
              ** intros _. by apply po_live0.
              ** by intros [?|?].
              ** intros _. apply po_cwd0. auto.
              ** intros Hi. by destruct (po_init0 Hi).
           ++ rewrite list_lookup_insert_ne by done. intros Hq. exists q. split; [done|]. split; [|by left].
              destruct (ti_ok _ _ _ _ HT i q Hq). split; try done. rewrite po_run0. naive_solver.
        -- cbn. unfold t1. rewrite list_lookup_insert_eq by (by eapply lookup_lt_Some). intros q [= <-]. cbn.
           apply (po_kont _ _ _ _ _ Hok). auto.
      * exists tt, s'. rewrite (bind_Done _ _ _ _ _ E). split; [done|]. by eapply after_inv.
    + destruct (krelease_one L np ip sp sf kf sl t None w c1 (proc_lock sp) H1) as (c2 & E2 & H2).
      rewrite (bind_Done _ _ _ _ _ E2). exists tt. eexists. split; [done|]. apply idle_inv.
      refine (conj HT (conj eq_refl (conj H2 (conj _ Hsl)))). discriminate.
  - assert (Hin : exists c', on_cpu intr_on (K t np ip c None sp sf kf sl w) = Done tt (K t np ip c' None sp sf kf sl w) /\ cpu_ok L ∅ 0 c').
    { destruct Hc as ([Hn Hl Hm Ho] & (Hz & H0 & Hp) & HLk). eexists. split; [reflexivity|].
      split; [by split|]. split; [|done]. rewrite Hn in *. split; cbn; [lia|]. split; [done|lia]. }
    destruct Hin as (c' & E & Hc'). rewrite (bind_Done _ _ _ _ _ E). exists tt. eexists. split; [done|]. apply idle_inv.
    refine (conj HT (conj eq_refl (conj Hc' (conj _ Hsl)))). discriminate.
Qed.

(** ** The calls *)

(** What a caller must respect: pids must not run out, init does not exit, the
    locks it names are initialised, copies out of signal state succeed, and
    [sigreturn] is not used (it reads a saved frame nobody saves). *)
Definition allowed (s : kst W) (c : call) : Prop :=
  match c with
  | CClone _ => nextpid s < 2 ^ 31 - 1
  | CExit _ => initproc s <> cproc s
  | CSigaction _ _ oldact => oldact = 0 \/ copyout_total
  | CSigprocmask _ _ oldset _ => oldset = 0 \/ copyout_total
  | CSigreturn => False
  | CSleep _ lk => plain L lk
  | CAcquireSleep a | CReleaseSleep a => a ∈ A
  | _ => True
  end.

Lemma syscall_ok me (P : kst W -> Prop) m : (me < NPROC)%nat ->
  (forall fs, Forall tail_ok fs -> triple P (m fs) (after me)) -> triple P (syscall m) (after me).
Proof.
  intros Hme Hm. eapply triple_bind; [apply (Hm [FSyscall]); by repeat constructor|].
  intros [v|]; cbn [after]; [by apply run_frame_tail|by apply triple_ret].
Qed.

Lemma triple_runs me {B} (m : M (kst W) B) Q s : runs me s -> triple (runs me) m Q -> exists a s', m s = Done a s' /\ Q a s'.
Proof. intros Hs Hm. by apply Hm. Qed.

Lemma do_call_ok me c s : runs me s -> allowed s c -> exists r s', do_call c s = Done r s' /\ after me r s'.
Proof.
  intros Hs Ha. pose proof Hs as (_ & Hcp & _ & Hpos & _). destruct (Hpos me eq_refl) as [_ Hme].
  destruct c as [flag|status|q status options ru|q sig|mask|sig act oldact|addr|how set oldset size| |q g|q| | | |ch lk|ch|a|a];
    cbn [do_call allowed] in *; try done.
  - apply (syscall_ok me (fun s => runs me s /\ nextpid s < 2 ^ 31 - 1)); [done| |done].
    intros fs _. unfold sys_clone. case_if; [by apply triple_ret; intros ? [? _]|].
    eapply triple_weaken; [apply (fork_inv me)|by intros s0 H0|]. intros [v|] s0 [H0 H1]; [exact H0|by destruct H1].
  - rewrite Hcp in Ha. destruct (exit_inv me status s (conj Hs Ha)) as (r & s' & E & -> & Hi). eauto.
  - apply (triple_runs me _ _ s Hs). apply syscall_ok; [done|]. intros fs Hfs. unfold sys_wait4. case_if; [apply after_ret|].
    bool_hyps. subst ru. by apply wait4_ok.
  - apply (triple_runs me _ _ s Hs). apply syscall_ok; [done|]. intros fs Hfs. unfold sys_kill. case_if; [apply after_ret|].
    bool_hyps. apply kill_ok; [done|lia|done].
  - apply (triple_runs me _ _ s Hs). apply syscall_ok; [done|]. intros fs Hfs. by apply sigsuspend_ok.
  - apply (triple_runs me _ _ s Hs). apply syscall_ok; [done|]. intros fs Hfs. unfold sys_rt_sigaction. case_if; [apply after_ret|].
    case_if; [apply after_ret|]. bool_hyps. apply sigaction_ok; [done|lia|done].
  - apply (triple_runs me _ _ s Hs). apply syscall_ok; [done|]. intros fs Hfs. by apply sigpending_ok.
  - apply (triple_runs me _ _ s Hs). apply syscall_ok; [done|]. intros fs Hfs. unfold sys_rt_sigprocmask. case_if; [apply after_ret|].
    by apply sigprocmask_ok.
  - apply (triple_runs me _ _ s Hs). apply syscall_ok; [done|]. intros fs Hfs. by apply setpgid_ok.
  - apply (triple_runs me _ _ s Hs). apply syscall_ok; [done|]. intros fs Hfs. by apply getpgid_ok.
  - apply (triple_runs me _ _ s Hs). by apply check_pending_ok.
  - apply (triple_runs me _ _ s Hs). eapply triple_bind; [apply yield_inv|intros ?; by apply triple_ret].
  - apply (triple_runs me _ _ s Hs). eapply triple_bind; [apply ok_self|intros r; cbn beta]. apply triple_pure. intros ->.
    apply then_ret. apply locked_upd; [by apply (proc_lock_L L HL)|done|done].
  - apply (triple_runs me _ _ s Hs). eapply triple_bind; [apply ok_acquire_one; by apply Ha|intros ?; cbn beta].
    apply sleep_after. refine (conj Ha (conj eq_refl _)). by constructor.
  - apply (triple_runs me _ _ s Hs). apply then_ret. apply ok_wakeup. intros. apply not_elem_of_empty.
  - apply (triple_runs me _ _ s Hs). by apply acquiresleep_ok.
  - apply (triple_runs me _ _ s Hs). apply then_ret. by apply releasesleep_ok.
Qed.

End kernel.
