(* ===== verification/ProcBoot.v ===== *)
(** * Start-up establishes the invariant of the process machine

    [procinit], [userinit] and the head of [scheduler], run on the zeroed
    process table with interrupts off, end in a state that satisfies the
    invariant of ProcSafe.v. *)
From S2P Require Import Prelude Spinlock Signal Cred Proc ProcInv ProcCalls ProcSafe.

Definition zero_proc : proc :=
  Proc UNUSED 0 0 0 0 0 0 0 None (Cred 0 0 0 0 0 0 0 0 0 0 0 0) 0 0 None None (replicate 36 0) (Ctx KForkret false) 0
    (replicate NOFILE None) None [] None no_signal None.

(** The table after [procinit]. *)
Definition slots_from (i : nat) (t : list proc) : list proc :=
  imap (fun j p => if decide (i <= j)%nat then init_slot j p else p) t.

Lemma slots_step i t p : t !! i = Some p -> slots_from (S i) (<[i := init_slot i p]> t) = slots_from i t.
Proof.
  intros Hp. apply list_eq. intros j. unfold slots_from. rewrite !list_lookup_imap. destruct (decide (j = i)) as [->|Hne].
  - rewrite list_lookup_insert_eq by (by eapply lookup_lt_Some). rewrite Hp. cbn [fmap option_fmap option_map]. f_equal.
    rewrite decide_False, decide_True by lia. done.
  - rewrite list_lookup_insert_ne by done. destruct (t !! j); [|done]. cbn [fmap option_fmap option_map]. f_equal.
    destruct (decide (i <= j)%nat); [by rewrite decide_True by lia|by rewrite decide_False by lia].
Qed.

(** Every lock of the table is free. *)
Definition all_free (lk : gmap Z spinlock) : Prop := forall a l, lk !! a = Some l -> l = free_lock.

Lemma all_free_insert lk a : all_free lk -> all_free (<[a := free_lock]> lk).
Proof. intros H b l. rewrite lookup_insert_Some. intros [[_ <-]|[_ Hb]]; [done|by eapply H]. Qed.

Section kernel.
Context {W : Type} `{!kenv W}.
Implicit Types (w : W) (t : list proc).

Definition boot_state (lk : gmap Z spinlock) (sl : gmap Z (bool * Z)) (w : W) : kst W :=
  K (replicate NPROC zero_proc) 1 None (Cpu 0 false false lk) None 0 false true sl w.

Lemma init_slots_ok np ip cp sp sf kf sl w : forall n i t ie it lk, (n + i)%nat = NPROC -> length t = NPROC -> all_free lk ->
  exists lk', init_slots n i (K t np ip (Cpu 0 ie it lk) cp sp sf kf sl w) =
      Done tt (K (slots_from i t) np ip (Cpu 0 ie it lk') cp sp sf kf sl w) /\ all_free lk' /\
    (forall a, is_Some (lk !! a) -> is_Some (lk' !! a)) /\ (forall j, (i <= j < NPROC)%nat -> is_Some (lk' !! proc_lock j)).
Proof.
  induction n as [|n IH]; intros i t ie it lk Hi Hlen Hf; cbn [init_slots].
  - exists lk. split; [|split; [done|split; [done|lia]]]. unfold mret, M_ret. do 2 f_equal. apply list_eq. intros j.
    unfold slots_from. rewrite list_lookup_imap. destruct (t !! j) eqn:E; [|done]. cbn [fmap option_fmap option_map].
    apply lookup_lt_Some in E. by rewrite decide_False by lia.
  - destruct (lookup_lt_is_Some_2 t i) as [p Hp]; [lia|].
    destruct (IH (S i) (<[i := init_slot i p]> t) ie it (<[proc_lock i := free_lock]> lk)) as (lk' & E & Hf' & Hmono & Hin);
      [lia|by rewrite length_insert|by apply all_free_insert|].
    exists lk'. split; [|split; [done|split]].
    + rewrite (bind_Done _ _ _ tt (K t np ip (Cpu 0 ie it (<[proc_lock i := free_lock]> lk)) cp sp sf kf sl w)) by done.
      kupd Hp. by rewrite E, slots_step.
    + intros a Ha. apply Hmono. destruct (decide (a = proc_lock i)) as [->|]; [rewrite lookup_insert_eq; eauto|by rewrite lookup_insert_ne].
    + intros j Hj. destruct (decide (j = i)) as [->|]; [|apply Hin; lia]. apply Hmono. rewrite lookup_insert_eq. eauto.
Qed.

Lemma procinit_ok lk sl w : all_free lk ->
  exists lk', procinit (boot_state lk sl w) =
      Done tt (K (slots_from 0 (replicate NPROC zero_proc)) 1 None (Cpu 0 false false lk') None 0 false true sl (env_mmap_cache w)) /\
    all_free lk' /\ (forall a, is_Some (lk !! a) -> is_Some (lk' !! a)) /\
    (forall a, 1 <= a <= 4 \/ 16 <= a < 80 -> is_Some (lk' !! a)).
Proof.
  intros Hf. set (lk4 := <[q_siglock := free_lock]> (<[q_lock := free_lock]> (<[wait_lock := free_lock]> (<[pid_lock := free_lock]> lk)))).
  destruct (init_slots_ok 1 None None 0 false true sl w NPROC 0 (replicate NPROC zero_proc) false false lk4)
    as (lk' & E & Hf' & Hmono & Hin); [lia|apply length_replicate|unfold lk4; by repeat apply all_free_insert|].
  exists lk'. split; [|split; [done|split]].
  - unfold procinit, boot_state. do 4 (erewrite bind_Done by reflexivity).
    match goal with |- ?m _ = _ => change (m (K (replicate NPROC zero_proc) 1 None (Cpu 0 false false lk4) None 0 false true sl w) =
      Done tt (K (slots_from 0 (replicate NPROC zero_proc)) 1 None (Cpu 0 false false lk') None 0 false true sl (env_mmap_cache w))) end.
    by rewrite (bind_Done _ _ _ _ _ E).
  - intros a Ha. apply Hmono. unfold lk4. rewrite !lookup_insert_is_Some'. tauto.
  - intros a [Ha|Ha].
    + apply Hmono. unfold lk4, q_siglock, q_lock, wait_lock, pid_lock. rewrite !lookup_insert_is_Some'.
      assert (1 = a \/ 2 = a \/ 3 = a \/ 4 = a) by lia. tauto.
    + specialize (Hin (Z.to_nat (a - 16))). unfold proc_lock in Hin. rewrite Z2Nat.id in Hin by lia.
      replace (16 + (a - 16)) with a in Hin by lia. apply Hin. unfold NPROC. lia.
Qed.
(** ** userinit *)

Context (L A : gset Z) (HL : forall a, 1 <= a <= 4 \/ 16 <= a < 80 -> a ∈ L).

(** As [cpu_ok], with interrupts off throughout start-up. *)
Definition boot_cpu (H : gset Z) (n : Z) (c : cpu) : Prop := cpu_is H n c /\ forall a, a ∈ L -> is_Some (locks c !! a).

Lemma kacquire_boot t np ip cp sp sf kf sl w H n c a : boot_cpu H n c -> 0 <= n -> a ∈ L -> a ∉ H ->
  exists c', kacquire a (K t np ip c cp sp sf kf sl w) = Done tt (K t np ip c' cp sp sf kf sl w) /\ boot_cpu ({[a]} ∪ H) (n + 1) c'.
Proof.
  intros [Hc Hm] Hn Ha Hf. destruct (acquire_spec H n c a Hc Hn Hf (Hm a Ha)) as [E Hi].
  eexists. split; [unfold kacquire, on_cpu, zoom; cbn; rewrite E; reflexivity|]. split; [exact Hi|].
  intros b Hb. cbn. rewrite lookup_insert_is_Some'. right. by apply Hm.
Qed.

Lemma krelease_boot t np ip cp sp sf kf sl w H n c a : boot_cpu ({[a]} ∪ H) (n + 1) c -> 0 <= n -> a ∉ H ->
  exists c', krelease a (K t np ip c cp sp sf kf sl w) = Done tt (K t np ip c' cp sp sf kf sl w) /\ boot_cpu H n c'.
Proof.
  intros [Hc Hm] Hn Hf. destruct (release_spec _ (n + 1) c a Hc ltac:(lia) (union_here a H)) as [E Hi].
  rewrite <- (union_minus a H Hf) in Hi. replace (n + 1 - 1) with n in * by lia.
  eexists. split; [unfold krelease, on_cpu, zoom; cbn; rewrite E; reflexivity|]. split; [exact Hi|].
  intros b Hb. cbn. rewrite lookup_insert_is_Some'. right. by apply Hm.
Qed.

(** The slot of the first process. *)
Definition init_proc (pa pt d : Z) : proc :=
  set_state RUNNABLE (set_cr (Cred 0 0 0 0 0 0 0 0 CAP_INIT_EFF_SET CAP_INIT_EFF_SET CAP_INIT_EFF_SET 2) (set_cwd (Some d)
    (set_name initcode_name (set_tf (<[tf_sp := PGSIZE]> (<[tf_epc := 0]> (replicate 36 0))) (set_sz PGSIZE
      (fresh 1 pa pt (init_slot 0 zero_proc))))))).

Definition boot_table (pa pt d : Z) : list proc := <[0%nat := init_proc pa pt d]> (slots_from 0 (replicate NPROC zero_proc)).

Lemma slots_0 : slots_from 0 (replicate NPROC zero_proc) !! 0%nat = Some (init_slot 0 zero_proc).
Proof. reflexivity. Qed.

Lemma userinit_ok c sl w pa pt d w1 w2 w3 : boot_cpu ∅ 0 c ->
  env_kalloc w = (Some pa, w1) -> env_proc_pagetable pa w1 = (Some pt, w2) -> env_namei_root (env_uvmfirst pt w2) = (Some d, w3) ->
  exists c', userinit (K (slots_from 0 (replicate NPROC zero_proc)) 1 None c None 0 false true sl w) =
    Done tt (K (boot_table pa pt d) 2 (Some 0%nat) c' None 0 false true sl w3) /\ boot_cpu ∅ 0 c'.
Proof.
  intros Hc Ek Ep En. set (t0 := slots_from 0 (replicate NPROC zero_proc)).
  assert (H0 : t0 !! 0%nat = Some (init_slot 0 zero_proc)) by exact slots_0.
  assert (Hlt : (0 < length t0)%nat) by (by eapply lookup_lt_Some).
  pose proof (fun (x : proc) => list_lookup_insert_eq t0 0 x Hlt) as Hat.
  destruct (kacquire_boot t0 1 None None 0 false true sl w ∅ 0 c (proc_lock 0) Hc ltac:(lia) (HL (proc_lock 0) ltac:(unfold proc_lock; lia)) ltac:(apply not_elem_of_empty))
    as (c1 & E1 & H1).
  assert (Hp : pid_lock ∉ {[proc_lock 0]} ∪ (∅ : gset Z)) by (rewrite union_empty_r_L, elem_of_singleton; done).
  destruct (kacquire_boot t0 1 None None 0 false true sl w _ _ c1 pid_lock H1 ltac:(lia) (HL pid_lock ltac:(unfold pid_lock; lia)) Hp) as (c2 & E2 & H2).
  destruct (krelease_boot t0 2 None None 0 false true sl w _ _ c2 pid_lock H2 ltac:(lia) Hp) as (c3 & E3 & H3).
  set (g := fresh 1 pa pt (init_slot 0 zero_proc)).
  assert (Ea : allocproc (K t0 1 None c None 0 false true sl w) = Done (Some 0%nat) (K (<[0%nat := g]> t0) 2 None c3 None 0 false true sl w2)).
  { unfold allocproc. change NPROC with (S 63). cbn [alloc_scan].
    rewrite (bind_Done _ _ _ (Some 0%nat) (K t0 1 None c1 None 0 false true sl w)).
    2:{ rewrite (bind_Done _ _ _ _ _ E1). kread H0. by rewrite decide_True. }
    rewrite (bind_Done _ _ _ 1 (K t0 2 None c3 None 0 false true sl w)).
    2:{ unfold allocpid. rewrite (bind_Done _ _ _ _ _ E2). rewrite (bind_Done _ _ _ 1 (K t0 1 None c2 None 0 false true sl w)) by done.
        rewrite (bind_Done _ _ _ tt (K t0 2 None c2 None 0 false true sl w)) by done. by rewrite (bind_Done _ _ _ _ _ E3). }
    kupd H0. rewrite (bind_Done _ _ _ (Some pa) (K (<[0%nat := named 1 (init_slot 0 zero_proc)]> t0) 2 None c3 None 0 false true sl w1))
      by (unfold ask; cbn [world]; by rewrite Ek).
    kupd (Hat (named 1 (init_slot 0 zero_proc))). rewrite list_insert_insert_eq.
    rewrite (bind_Done _ _ _ (Some pt) (K (<[0%nat := set_trapframe (Some pa) (named 1 (init_slot 0 zero_proc))]> t0) 2 None c3 None 0 false true sl w2))
      by (unfold ask; cbn [world]; by rewrite Ep).
    kupd (Hat (set_trapframe (Some pa) (named 1 (init_slot 0 zero_proc)))). rewrite list_insert_insert_eq.
    match goal with |- context [<[0%nat := ?x]> t0] => kupd (Hat x) end. by rewrite list_insert_insert_eq. }
  unfold userinit. rewrite (bind_Done _ _ _ _ _ Ea).
  rewrite (bind_Done _ _ _ tt (K (<[0%nat := g]> t0) 2 (Some 0%nat) c3 None 0 false true sl w2)) by done.
  rewrite (bind_Done _ _ _ 0%nat (K (<[0%nat := g]> t0) 2 (Some 0%nat) c3 None 0 false true sl w2)) by done.
  kread (Hat g). rewrite (bind_Done _ _ _ pt (K (<[0%nat := g]> t0) 2 (Some 0%nat) c3 None 0 false true sl w2)) by done.
  rewrite (bind_Done _ _ _ tt (K (<[0%nat := g]> t0) 2 (Some 0%nat) c3 None 0 false true sl (env_uvmfirst pt w2))) by done.
  do 3 (match goal with |- context [<[0%nat := ?x]> t0] => kupd (Hat x) end; rewrite list_insert_insert_eq).
  match goal with |- context [<[0%nat := ?x]> t0] => rewrite (bind_Done _ _ _ (Some d) (K (<[0%nat := x]> t0) 2 (Some 0%nat) c3 None 0 false true sl w3))
    by (unfold ask; cbn [world]; by rewrite En) end.
  do 3 (match goal with |- context [<[0%nat := ?x]> t0] => kupd (Hat x) end; rewrite list_insert_insert_eq).
  match goal with |- context [<[0%nat := ?x]> t0] => replace x with (init_proc pa pt d) by (vm_compute; reflexivity) end.
  change (<[0%nat := init_proc pa pt d]> t0) with (boot_table pa pt d).
  destruct (krelease_boot (boot_table pa pt d) 2 (Some 0%nat) None 0 false true sl w3 ∅ 0 c3 (proc_lock 0) H3 ltac:(lia) ltac:(apply not_elem_of_empty))
    as (c4 & E4 & H4). exists c4. split; [|exact H4]. exact E4.
Qed.

(** A table with one process, in slot 0, among unused slots. *)
Lemma one_process_Tinv p cp np : pok L A np (Some 0%nat) cp 0 p -> cp = None \/ cp = Some 0%nat -> 1 <= np ->
  Tinv L A (<[0%nat := p]> (slots_from 0 (replicate NPROC zero_proc))) np (Some 0%nat) cp.
Proof.
  intros Hp Hcp Hnp.
  assert (Hlen : length (slots_from 0 (replicate NPROC zero_proc)) = NPROC) by (unfold slots_from; by rewrite length_imap, length_replicate).
  assert (Hz : forall i q, <[0%nat := p]> (slots_from 0 (replicate NPROC zero_proc)) !! i = Some q ->
            i = 0%nat /\ q = p \/ i <> 0%nat /\ q = init_slot i zero_proc).
  { intros i q. destruct (decide (i = 0%nat)) as [->|Hi].
    - rewrite list_lookup_insert_eq by (rewrite Hlen; unfold NPROC; lia). intros [= <-]. by left.
    - rewrite list_lookup_insert_ne by done. unfold slots_from. rewrite list_lookup_imap.
      destruct (replicate NPROC zero_proc !! i) as [z|] eqn:E; [|done]. apply lookup_replicate in E as [-> _].
      cbn [fmap option_fmap option_map]. rewrite decide_True by lia. intros [= <-]. by right. }
  split; [by rewrite length_insert|done| | |exists 0%nat; split; [done|unfold NPROC; lia]].
  - intros i q [[-> ->]|[Hi ->]]%Hz; [done|]. split; cbn; try done.
    + split; [done|]. intros ->. destruct Hcp as [|[= ?]]; congruence.
    + by intros [?|[?|?]].
    + intros [= <-]. done.
  - intros i j q r [[-> ->]|[Hi ->]]%Hz [[-> ->]|[Hj ->]]%Hz; try done; cbn; congruence.
Qed.

Lemma init_proc_pok pa pt d : pok L A 2 (Some 0%nat) None 0 (init_proc pa pt d).
Proof.
  let x := eval vm_compute in (init_proc pa pt d) in
  replace (init_proc pa pt d) with x by (vm_compute; reflexivity).
  split; cbn [state pid context ctx_kont cwd psignal sig_actions oldtf parent ofile].
  - discriminate.
  - discriminate.
  - intros _. split; [discriminate|reflexivity].
  - split; discriminate.
  - intros _. split; [exact I|]. by intros [].
  - intros _. by eexists.
  - reflexivity.
  - reflexivity.
  - reflexivity.
  - discriminate.
  - intros _. split; [reflexivity|]. split; discriminate.
Qed.

Lemma boot_idle lk sl w pa pt d w1 w2 w3 : all_free lk ->
  (forall a, a ∈ L -> (1 <= a <= 4 \/ 16 <= a < 80) \/ is_Some (lk !! a)) -> (forall a, a ∈ A -> is_Some (sl !! a)) ->
  env_kalloc (env_mmap_cache w) = (Some pa, w1) -> env_proc_pagetable pa w1 = (Some pt, w2) ->
  env_namei_root (env_uvmfirst pt w2) = (Some d, w3) ->
  exists c, (procinit;; userinit;; scheduler_start) (boot_state lk sl w) =
    Done tt (K (boot_table pa pt d) 2 (Some 0%nat) c None 0 false true sl w3) /\
    idle L A (K (boot_table pa pt d) 2 (Some 0%nat) c None 0 false true sl w3).
Proof.
  intros Hf HLk HA Ek Ep En. destruct (procinit_ok lk sl w Hf) as (lk' & E1 & Hf' & Hmono & Hin).
  assert (Hc : boot_cpu ∅ 0 (Cpu 0 false false lk')).
  { split.
    - split; [reflexivity| | |intros; lia].
      + intros a l Hl. rewrite (decide_False (P := a ∈ (∅ : gset Z))) by (apply not_elem_of_empty). by apply (Hf' a).
      + intros a Ha. destruct (not_elem_of_empty a Ha).
    - intros a Ha. destruct (HLk a Ha) as [H|H]; [by apply Hin|by apply Hmono]. }
  destruct (userinit_ok _ sl (env_mmap_cache w) pa pt d w1 w2 w3 Hc Ek Ep En) as (c & E2 & [Hci Hcl]).
  exists (Cpu (noff c) (intena c) true (locks c)). rewrite (bind_Done _ _ _ _ _ E1), (bind_Done _ _ _ _ _ E2). split; [done|].
  refine (conj _ (conj eq_refl (conj _ (conj _ HA)))); [|split|discriminate].
  - apply one_process_Tinv; [|by left|cbn; lia].
    apply init_proc_pok.
  - destruct Hci as [Hn Hl Hm Ho]. by split.
  - split; [|done]. destruct Hci as [Hn _ _ _]. split; cbn; [lia|]. split; [done|lia].
Qed.

End kernel.
