(* ===== verification/ProcProps.v ===== *)
(** * Properties of the process machine

    Reachability by calls and scheduler steps, and what fork, exit, wait4,
    sleep, wakeup, the scheduler, sleep locks and signals do. *)
From S2P Require Import Prelude Spinlock Signal Cred Proc ProcInv ProcCalls ProcSafe ProcBoot.

Lemma state_wake1 ch p : state (wake1 ch p) = if decide (state p = SLEEPING /\ chan p = ch) then RUNNABLE else state p.
Proof. unfold wake1. by case_decide. Qed.
Lemma chan_wake1 ch p : chan (wake1 ch p) = chan p.
Proof. unfold wake1. by case_decide. Qed.
Lemma reparented_state p j q : state (reparented p j q) = state q /\ chan (reparented p j q) = chan q.
Proof. unfold reparented. by case_decide. Qed.

Lemma reparented_pid p j q : pid (reparented p j q) = pid q.
Proof. unfold reparented. by case_decide. Qed.
Lemma reparented_parent p j q : parent (reparented p j q) = if decide (parent q = Some p) then Some j else parent q.
Proof. unfold reparented. by case_decide. Qed.

Section kernel.
Context {W : Type} `{!kenv W}.
Context (L A : gset Z).
Implicit Types (s : kst W) (w : W).

(** The locks the kernel's code relies on are initialised; sleep locks have
    addresses of their own. *)
Definition locks_ready : Prop :=
  (forall a, 1 <= a <= 4 \/ 16 <= a < 80 -> a ∈ L) /\ (forall a, a ∈ A -> plain L a).

(** Any interleaving of allowed calls of the running process and scheduler
    steps. *)
Inductive reach (s0 : kst W) : kst W -> Prop :=
| reach_start : reach s0 s0
| reach_call s c r s' : reach s0 s -> is_Some (cproc s) -> allowed L A s c -> do_call c s = Done r s' -> reach s0 s'
| reach_sched s s' : reach s0 s -> cproc s = None -> sched_step s = Done tt s' -> reach s0 s'.

Lemma reach_inv s0 s : locks_ready -> inv L A s0 -> reach s0 s -> inv L A s.
Proof.
  intros [HL HA] H0. induction 1 as [|s c r s' Hr IH [me Hme] Ha E|s s' Hr IH Hn E]; [done| |].
  - unfold inv in IH; rewrite Hme in IH. destruct (do_call_ok L A HL HA me c s IH Ha) as (r' & s1 & E1 & Hs1).
    rewrite E in E1. injection E1 as -> ->. by eapply after_inv.
  - unfold inv in IH. rewrite Hn in IH. destruct (sched_step_ok L A HL HA s IH) as (u & s1 & E1 & Hs1).
    rewrite E in E1. by injection E1 as _ ->.
Qed.

Lemma inv_Tinv s : inv L A s -> Tinv L A (table s) (nextpid s) (initproc s) (cproc s).
Proof. unfold inv. destruct (cproc s); intros (HT & _); exact HT. Qed.

Lemma inv_runs s me : inv L A s -> cproc s = Some me -> runs L A me s.
Proof. intros Hi E. unfold inv in Hi. by rewrite E in Hi. Qed.
Lemma inv_idle s : inv L A s -> cproc s = None -> idle L A s.
Proof. intros Hi E. unfold inv in Hi. by rewrite E in Hi. Qed.

(** C1: in every state the kernel can reach, at most the current process is
    RUNNING, live processes have distinct pids below [nextpid], init is alive,
    every call the running process may make and every scheduler step completes:
    no lock is acquired twice or released unheld, [sched] finds exactly one
    lock held and interrupts off, and a zombie never runs again. *)
Theorem process_machine_safe s0 s : locks_ready -> idle L A s0 -> reach s0 s ->
  (forall i p, table s !! i = Some p -> state p = RUNNING <-> cproc s = Some i) /\
  (forall i j p q, table s !! i = Some p -> table s !! j = Some q -> state p <> UNUSED -> pid p = pid q -> i = j) /\
  (forall i p, table s !! i = Some p -> state p <> UNUSED -> 1 <= pid p < nextpid s) /\
  (exists j p, initproc s = Some j /\ table s !! j = Some p /\ state p <> UNUSED /\ state p <> ZOMBIE) /\
  (forall me c, cproc s = Some me -> allowed L A s c -> exists r s', do_call c s = Done r s') /\
  (cproc s = None -> exists s', sched_step s = Done tt s').
Proof.
  intros Hr H0 Hreach. pose proof Hr as [HL HA]. assert (Hi : inv L A s) by (eapply reach_inv; eauto using idle_inv).
  pose proof (inv_Tinv s Hi) as HT. split_and!.
  - intros i p Hp. by apply (po_run _ _ _ _ _ _ _ (ti_ok _ _ _ _ _ _ HT i p Hp)).
  - intros i j p q Hp Hq Hu Heq. apply (ti_pid _ _ _ _ _ _ HT i j p q); try done.
    pose proof (po_live _ _ _ _ _ _ _ (ti_ok _ _ _ _ _ _ HT i p Hp) Hu). lia.
  - intros i p Hp Hu. by apply (po_live _ _ _ _ _ _ _ (ti_ok _ _ _ _ _ _ HT i p Hp)).
  - destruct (ti_ip _ _ _ _ _ _ HT) as (j & Hj & Hlt).
    destruct (lookup_lt_is_Some_2 (table s) j) as [p Hp]; [by rewrite (ti_len _ _ _ _ _ _ HT)|].
    exists j, p. split; [done|]. split; [done|]. by destruct (po_init _ _ _ _ _ _ _ (ti_ok _ _ _ _ _ _ HT j p Hp) Hj) as (_ & ?).
  - intros me c Hme Ha. destruct (do_call_ok L A HL HA me c s (inv_runs s me Hi Hme) Ha) as (r & s' & E & _). eauto.
  - intros Hn. destruct (sched_step_ok L A HL HA s (inv_idle s Hi Hn)) as ([] & s' & E & _). eauto.
Qed.

(** C38: [procinit], [userinit] and the entry of [scheduler], run on the zeroed
    table with interrupts off, complete and establish the invariant: one
    runnable process, init, with pid 1, all ids 0 and a working directory. *)
Theorem boot_establishes lk sl w pa pt d w1 w2 w3 : locks_ready -> all_free lk ->
  (forall a, a ∈ L -> (1 <= a <= 4 \/ 16 <= a < 80) \/ is_Some (lk !! a)) -> (forall a, a ∈ A -> is_Some (sl !! a)) ->
  env_kalloc (env_mmap_cache w) = (Some pa, w1) -> env_proc_pagetable pa w1 = (Some pt, w2) ->
  env_namei_root (env_uvmfirst pt w2) = (Some d, w3) ->
  exists s p, (procinit;; userinit;; scheduler_start) (boot_state lk sl w) = Done tt s /\ idle L A s /\ world s = w3 /\
    initproc s = Some 0%nat /\ table s !! 0%nat = Some p /\ state p = RUNNABLE /\ pid p = 1 /\ parent p = None /\
    uid (cr p) = 0 /\ cwd p = Some d /\ sz p = PGSIZE /\ pagetable p = Some pt /\ trapframe p = Some pa /\
    (forall i q, i <> 0%nat -> table s !! i = Some q -> state q = UNUSED).
Proof.
  intros [HL HA] Hf HLk HAs Ek Ep En.
  destruct (boot_idle L A HL lk sl w pa pt d w1 w2 w3 Hf HLk HAs Ek Ep En) as (c & E & Hi).
  exists (K (boot_table pa pt d) 2 (Some 0%nat) c None 0 false true sl w3), (init_proc pa pt d). cbn [world initproc table].
  split; [exact E|]. split; [exact Hi|]. do 2 (split; [reflexivity|]). split; [reflexivity|].
  do 8 (split; [vm_compute; reflexivity|]).
  intros i q Hne. unfold boot_table, slots_from. rewrite list_lookup_insert_ne, list_lookup_imap by done.
  destruct (replicate NPROC zero_proc !! i) as [z|] eqn:Ez; [|done]. apply lookup_replicate in Ez as [-> _].
  cbn [fmap option_fmap option_map]. rewrite decide_True by lia. by intros [= <-].
Qed.

(** ** fork, exit, wait4 *)

(** What the child shares with its parent. *)
Record forked (me : nat) (q : Z) (pr ch : proc) : Prop := {
  fk_state : state ch = RUNNABLE;
  fk_pid : pid ch = q;
  fk_parent : parent ch = Some me;
  fk_group : pgid ch = pgid pr /\ sid ch = sid pr;
  fk_cred : cr ch = with_umask 2 (cr pr);
  fk_regs : tf ch = <[tf_a0 := 0]> (tf pr);
  fk_files : forall fd f, (fd < NOFILE)%nat -> ofile pr !! fd = Some (Some f) -> ofile ch !! fd = Some (Some f);
  fk_fdflag : fdflag ch = fdflag pr;
  fk_cwd : cwd ch = cwd pr;
  fk_signal : psignal ch = psignal pr;
  fk_mem : sz ch = sz pr /\ is_Some (pagetable ch) /\ is_Some (trapframe ch);
  fk_start : ctx_kont (context ch) = KForkret;
}.

Inductive fork_outcome (me : nat) s : ctl -> kst W -> Prop :=
| fork_child i old pr ch s' :
    table s !! me = Some pr -> first_unused (table s) i old -> forked me (nextpid s) pr ch ->
    table s' = <[i := ch]> (table s) -> nextpid s' = nextpid s + 1 -> fork_outcome me s (Ret (nextpid s)) s'
| fork_full s' :
    (forall k q, table s !! k = Some q -> state q <> UNUSED) -> table s' = table s ->
    fork_outcome me s (Ret (- ENOMEM)) s'
| fork_undone v i old new s' :
    v < 0 -> first_unused (table s) i old -> table s' = <[i := new]> (table s) -> state new = UNUSED -> pid new = 0 ->
    pagetable new = None -> trapframe new = None -> fork_outcome me s (Ret v) s'.

(** C2: [fork] always returns to the parent, still running.  Either it returns
    the fresh pid of a runnable child in the first unused slot that inherits
    the parent's registers (with 0 as the child's result), files, directory,
    ids, groups and signal state, or it returns a negative error and leaves no
    new process.  The child's umask is 2 whatever the parent's is. *)
Theorem fork_correct me s : locks_ready -> runs L A me s -> nextpid s < 2 ^ 31 - 1 ->
  exists r s', fork s = Done r s' /\ cproc s' = Some me /\ fork_outcome me s r s'.
Proof.
  intros [HL HA] (HT & Hcp & Hc & Hp & Hsl) Hnp. destruct (Hp me eq_refl) as [Hsp Hme].
  destruct s as [t np ip c cp sp sf kf sl w]; cbn [table nextpid initproc cproc kcpu spos slocks] in *. subst cp.
  destruct (lookup_lt_is_Some_2 t me) as [pr Hpr]; [by rewrite (ti_len _ _ _ _ _ _ HT)|].
  pose proof (ti_ok _ _ _ _ _ _ HT me pr Hpr) as Hok. pose proof (proj2 (po_run _ _ _ _ _ _ _ Hok) eq_refl) as Hrun.
  pose proof (ti_np _ _ _ _ _ _ HT) as Hnp1.
  assert (Es : s32 (np + 1) = np + 1) by (apply swrap_small; [lia|]; change (32 - 1) with 31; lia).
  destruct (fork_ok L HL ip sp sf kf sl me pr t np c w (ti_len _ _ _ _ _ _ HT) Hpr (po_cwd _ _ _ _ _ _ _ Hok ltac:(auto)) Hrun Hc)
    as (r & t' & np' & c' & w' & E & Hr & Hc').
  exists r. eexists. split; [exact E|]. split; [reflexivity|]. clear E.
  destruct Hr as [Hno|i p v k w' Hf Hv|i p pa pt rg d w' Hf Hd].
  - by apply fork_full.
  - by apply (fork_undone me (K t np ip c (Some me) sp sf kf sl w) v i p (set_context k (freed p)) _ Hv Hf).
  - destruct Hf as (Hi & Hu & Hk). match goal with |- fork_outcome _ _ _ ?s1 =>
      refine (fork_child me (K t np ip c (Some me) sp sf kf sl w) i p pr
        (child me np pa pt rg d (dup_ofile NOFILE 0 (ofile pr) (ofile p) w).1 pr p) s1 Hpr (conj Hi (conj Hu Hk)) _ eq_refl Es) end.
    split; try reflexivity.
    + split; reflexivity.
    + intros fd f Hfd Hof.
      change (ofile (child me np pa pt rg d (dup_ofile NOFILE 0 (ofile pr) (ofile p) w).1 pr p)) with (dup_ofile NOFILE 0 (ofile pr) (ofile p) w).1.
      rewrite dup_ofile_lookup.
      * by rewrite decide_True, Hof by lia.
      * rewrite (po_files _ _ _ _ _ _ _ Hok). apply (po_files _ _ _ _ _ _ _ (ti_ok _ _ _ _ _ _ HT i p Hi)).
    + cbn. done.
    + split; [reflexivity|]. split; by eexists.
Qed.

(** The sleepers [exit] wakes: on the parent's channel, and on init's if the
    process has a child. *)
Definition woken_by_exit (me j : nat) (pr : proc) (t : list proc) (q : proc) : Prop :=
  state q = SLEEPING /\ (chan q = wakeup_parent (parent pr) \/
    (chan q = proc_addr j /\ exists k q0, t !! k = Some q0 /\ parent q0 = Some me)).

(** C3: [exit] of any process but init completes and gives the CPU up for
    good.  The process is left a zombie with its status, pid and parent, no
    open file, no directory and no mapping; every other process keeps its pid,
    its children get init as parent, and exactly the sleepers on the parent's
    channel, and on init's if there was a child, become runnable. *)
Theorem exit_correct me j pr s status : locks_ready -> runs L A me s -> initproc s = Some j -> j <> me -> table s !! me = Some pr ->
  exists s', exit status s = Done Slept s' /\ cproc s' = None /\ inv L A s' /\
    (exists z, table s' !! me = Some z /\ state z = ZOMBIE /\ xstate z = status /\ pid z = pid pr /\ parent z = parent pr /\
       (forall fd o, ofile z !! fd = Some o -> o = None) /\ cwd z = None /\ regions z = None) /\
    (forall k q, k <> me -> table s !! k = Some q -> exists q', table s' !! k = Some q' /\ pid q' = pid q /\
       parent q' = (if decide (parent q = Some me) then Some j else parent q) /\
       (woken_by_exit me j pr (table s) q -> state q' = RUNNABLE) /\
       (~ woken_by_exit me j pr (table s) q -> state q' = state q)).
Proof.
  intros [HL HA] Hs Hj Hne Hpr. destruct (exit_inv L A HL me status s) as (r & s1 & E1 & -> & Hidle); [split; [done|congruence]|].
  destruct Hs as (HT & Hcp & Hc & Hp & Hsl). destruct (Hp me eq_refl) as [Hsp Hme].
  destruct s as [t np ip c cp sp sf kf sl w]; cbn [table nextpid initproc cproc kcpu spos slocks] in *. subst cp.
  pose proof (ti_ok _ _ _ _ _ _ HT me pr Hpr) as Hok. pose proof (proj2 (po_run _ _ _ _ _ _ _ Hok) eq_refl) as Hrun.
  destruct (po_cwd _ _ _ _ _ _ _ Hok ltac:(auto)) as [d Hd].
  destruct (exit_ok L HL ip sp sf kf sl me j pr d t np c w status Hsp Hj Hne (ti_len _ _ _ _ _ _ HT) Hpr Hd
    (po_par _ _ _ _ _ _ _ Hok) Hc) as (c' & w' & w1 & E & Hc').
  rewrite E in E1. injection E1 as <-. eexists. split; [exact E|]. split; [reflexivity|]. split; [by apply idle_inv|]. clear E.
  cbn [table]. assert (Hlt : (me < length t)%nat) by (rewrite (ti_len _ _ _ _ _ _ HT); done).
  assert (Hl : length (exit_others me j pr (<[me := stripped w1 pr]> t)) = length t)
    by (unfold exit_others; rewrite length_wake_all, length_reparent_from; apply length_insert).
  split.
  - eexists. rewrite list_lookup_insert_eq by (rewrite Hl; exact Hlt). split; [reflexivity|]. do 4 (split; [reflexivity|]).
    split; [|by split]. intros fd o. cbn [ofile stripped].
    change (ofile (set_context (Ctx KZombie true) (set_state ZOMBIE (set_xstate status (stripped w1 pr))))) with (close_ofile NOFILE 0 (ofile pr) w1).1.
    intros Ho. apply (close_ofile_lookup NOFILE 0 (ofile pr) w1 fd o Ho).
    apply lookup_lt_Some in Ho. rewrite close_ofile_length, (po_files _ _ _ _ _ _ _ Hok) in Ho. lia.
  - intros k q Hk Hq. rewrite list_lookup_insert_ne by done. unfold exit_others.
    rewrite lookup_wake_all, lookup_reparent_from, list_lookup_insert_ne, Hq by done. cbn [fmap option_fmap option_map].
    eexists. split; [reflexivity|]. cbv zeta. rewrite (decide_True (P := (0 <= k)%nat)) by lia. rewrite (decide_False (P := Some me = Some k)) by (intros [= E0]; by apply Hk).
    rewrite (bool_decide_false (k = me)) by done. cbn [negb]. rewrite andb_true_r.
    assert (Hch : child_in me 0 (<[me := stripped w1 pr]> t) = true <-> exists k' q0, t !! k' = Some q0 /\ parent q0 = Some me).
    { rewrite child_in_spec. split.
      - intros (k' & q0 & _ & Hk' & Hp0). destruct (decide (k' = me)) as [->|Hn].
        + rewrite list_lookup_insert_eq in Hk' by done. injection Hk' as <-. exists me, pr. by split.
        + rewrite list_lookup_insert_ne in Hk' by done. eauto.
      - intros (k' & q0 & Hk' & Hp0). destruct (decide (k' = me)) as [->|Hn].
        + exfalso. apply (po_par _ _ _ _ _ _ _ (ti_ok _ _ _ _ _ _ HT me q0 Hk')). done.
        + exists k', q0. rewrite list_lookup_insert_ne by done. split; [lia|done]. }
    destruct (child_in me 0 _).
    all: unfold woken_by_exit.
    + split; [|split].
      * by rewrite !(proj2 (wake1_fields _ _)), reparented_pid.
      * by rewrite !(proj1 (wake1_fields _ _)), reparented_parent.
      * destruct (proj1 Hch eq_refl) as (k' & q0 & Hk' & Hp0). destruct (reparented_state me j q) as [E1 E2].
        rewrite state_wake1, chan_wake1, state_wake1, E1, E2. split.
        -- intros (Hsl' & Hc1). destruct (decide (state q = SLEEPING /\ chan q = proc_addr j)) as [Hd1|Hd1];
             case_decide; try done. naive_solver.
        -- intros Hn. rewrite (decide_False (P := state q = SLEEPING /\ chan q = proc_addr j)) by naive_solver.
           rewrite decide_False by naive_solver. done.
    + assert (Hnc : ~ exists k' q0, t !! k' = Some q0 /\ parent q0 = Some me) by (intros H; by apply Hch in H).
      split; [|split].
      * by rewrite !(proj2 (wake1_fields _ _)), reparented_pid.
      * by rewrite !(proj1 (wake1_fields _ _)), reparented_parent.
      * destruct (reparented_state me j q) as [E1 E2]. rewrite state_wake1, E1, E2. split.
        -- intros (Hsl' & [Hc1|[_ Hc1]]); [by rewrite decide_True|by destruct Hnc].
        -- intros Hn. by rewrite decide_False by naive_solver.
Qed.

(** What copying the exit status of [pp] out does to the world: nothing with
    a null pointer, else one [copyout] of the four status bytes, whose result
    is [e]. *)
Definition status_copied (mp pp : proc) (status : Z) (w : W) (e : Z) (w' : W) : Prop :=
  if status =? 0 then e = 0 /\ w' = w
  else env_copyout (pagetable mp) status (bytes_of 4 (Z.shiftl (Z.land (xstate pp) 0xff) 8)) w = (e, w').

Inductive wait_outcome (me : nat) (mp : proc) (q status options : Z) (fs : list frame) s : ctl -> kst W -> Prop :=
| wait_reaped k pp e w1 s' :
    table s !! k = Some pp -> reapable q options me mp k pp ->
    (forall k' q', (k' < k)%nat -> table s !! k' = Some q' -> ~ reapable q options me mp k' q') ->
    status_copied mp pp status (world s) e w1 -> 0 <= e ->
    table s' = <[k := freed pp]> (table s) -> world s' = free_world pp w1 -> cproc s' = Some me ->
    wait_outcome me mp q status options fs s (Ret (pid pp)) s'
| wait_fault k pp e s' :
    table s !! k = Some pp -> reapable q options me mp k pp ->
    (forall k' q', (k' < k)%nat -> table s !! k' = Some q' -> ~ reapable q options me mp k' q') ->
    status <> 0 -> status_copied mp pp status (world s) e (world s') -> e < 0 ->
    table s' = table s -> cproc s' = Some me ->
    wait_outcome me mp q status options fs s (Ret (- EFAULT)) s'
| wait_no_child s' :
    (forall k q', table s !! k = Some q' -> ~ reapable q options me mp k q') ->
    (forall k q', table s !! k = Some q' -> wait_match q me k mp q' = false) \/ killed mp <> 0 ->
    table s' = table s -> world s' = world s -> cproc s' = Some me ->
    wait_outcome me mp q status options fs s (Ret (- ECHILD)) s'
| wait_asleep k pp s' :
    (forall k q', table s !! k = Some q' -> ~ reapable q options me mp k q') ->
    table s !! k = Some pp -> wait_match q me k mp pp = true -> killed mp = 0 ->
    table s' = <[me := set_context (Ctx (KSleep wait_lock (FWait4 q status options 0 true :: fs)) true)
                        (set_state SLEEPING (set_chan (proc_addr me) mp))]> (table s) ->
    world s' = world s -> cproc s' = None -> wait_outcome me mp q status options fs s Slept s'.

(** The int [wait4] copies out, byte by byte. *)
Lemma status_bytes_int x : status_bytes x = bytes_of 4 (Z.shiftl (Z.land x 0xff) 8).
Proof.
  assert (Hb : 0 <= Z.land x 0xff < 256) by (change 0xff with (Z.ones 8); rewrite Z.land_ones by lia; apply Z.mod_pos_bound; lia).
  unfold status_bytes, bytes_of. cbn [seq fmap list_fmap]. generalize dependent (Z.land x 0xff). intros v Hv.
  change 0xff with (Z.ones 8). rewrite !Z.land_ones, Z.shiftl_mul_pow2 by lia.
  rewrite !Z.shiftr_div_pow2 by lia.
  change (2 ^ (8 * Z.of_nat 0)) with 1. change (2 ^ (8 * Z.of_nat 1)) with 256.
  change (2 ^ (8 * Z.of_nat 2)) with 65536. change (2 ^ (8 * Z.of_nat 3)) with 16777216. change (2 ^ 8) with 256. repeat f_equal; Z.div_mod_to_equations; lia.
Qed.

Lemma is_killed_run (HL : forall a, 1 <= a <= 4 \/ 16 <= a < 80 -> a ∈ L) np ip sp sf kf sl t me mp w c :
  t !! me = Some mp -> (me < NPROC)%nat -> cpu_ok L {[wait_lock]} 1 c ->
  exists c', is_killed me (K t np ip c (Some me) sp sf kf sl w) = Done (killed mp) (K t np ip c' (Some me) sp sf kf sl w) /\
    cpu_ok L {[wait_lock]} 1 c'.
Proof.
  intros Hmp Hme Hc. assert (Hw : proc_lock me ∉ ({[wait_lock]} : gset Z)) by (rewrite elem_of_singleton; unfold proc_lock, wait_lock; lia).
  destruct (kacquire_ok L np ip sp sf kf sl t (Some me) w _ _ c (proc_lock me) Hc (proc_lock_L L HL me Hme) Hw) as (c1 & E1 & H1).
  destruct (krelease_top L np ip sp sf kf sl t (Some me) w {[wait_lock]} 1 c1 (proc_lock me) H1 ltac:(lia) Hw) as (c2 & E2 & H2).
  exists c2. split; [|exact H2]. unfold is_killed. rewrite (bind_Done _ _ _ _ _ E1). kread Hmp. by rewrite (bind_Done _ _ _ _ _ E2).
Qed.

Lemma wait4_outcome me mp q status options fs s : locks_ready -> runs L A me s -> table s !! me = Some mp ->
  exists r s', wait4 q status options 0 fs s = Done r s' /\ wait_outcome me mp q status options fs s r s'.
Proof.
  intros [HL HA] (HT & Hcp & Hc & Hp & Hsl) Hmp. destruct (Hp me eq_refl) as [Hsp Hme].
  destruct s as [t np ip c cp sp sf kf sl w]; cbn [table nextpid initproc cproc kcpu spos slocks] in *. subst cp sp.
  unfold wait4, wait_loop.
  destruct (kacquire_one L np ip me sf kf sl t (Some me) w c wait_lock Hc ltac:(apply HL; unfold wait_lock; lia)) as (c1 & E1 & H1).
  rewrite (bind_Done _ _ _ _ _ E1).
  destruct (self_ok L np ip me sf kf sl t me w _ _ c1 H1) as (c2 & E2 & H2). rewrite (bind_Done _ _ _ _ _ E2).
  destruct (wait_scan_ok L HL np ip me sf kf sl me mp q status options t (Some me) w (ti_len _ _ _ _ _ _ HT) Hmp NPROC 0 false c2
    (Nat.add_0_r _) H2) as (r & t' & c3 & w' & E3 & Hres & Hc3).
  rewrite (bind_Done _ _ _ _ _ E3). clear E1 E2 E3.
  destruct Hres as [k pp w2 _ Hk Hre Hst (e & He & Hco) Hbef|k pp w2 _ Hk Hre Hco Hbef|kids' Hno Hkids].
  - eexists _, _. split; [reflexivity|]. apply (wait_fault _ _ _ _ _ _ _ k pp e); try done; [intros k' q' Hk'; apply Hbef; lia|].
    unfold status_copied. rewrite (proj2 (Z.eqb_neq _ _) Hst), <- status_bytes_int. exact Hco.
  - assert (Hsc : exists e, 0 <= e /\ status_copied mp pp status w e w2).
    { unfold status_copied. destruct Hco as [[-> ->]|(Hst & e & He & Hco)]; [by exists 0|]. exists e.
      by rewrite (proj2 (Z.eqb_neq _ _) Hst), <- status_bytes_int. }
    destruct Hsc as (e & He & Hsc). eexists _, _. split; [reflexivity|].
    apply (wait_reaped _ _ _ _ _ _ _ k pp e w2); try done. intros k' q' Hk'. apply Hbef. lia.
  - assert (Hno' : forall k q', t !! k = Some q' -> ~ reapable q options me mp k q') by (intros; apply Hno; [lia|done]).
    destruct kids'; cbn [negb orb].
    + destruct (is_killed_run HL np ip me sf kf sl t me mp w c3 Hmp Hme Hc3) as (c4 & E4 & H4). rewrite (bind_Done _ _ _ _ _ E4).
      destruct (killed mp =? 0) eqn:Ek; cbn [negb]; bool_hyps.
      * destruct (sleep_ok L HL np ip sf kf sl (proc_addr me) wait_lock (FWait4 q status options 0 true :: fs) t c4 me mp w H4) as (c5 & E5 & H5);
          [split; [apply HL; unfold wait_lock; lia|intros i Hi; unfold wait_lock, proc_lock; lia]|done|done|].
        destruct (proj1 Hkids eq_refl) as [?|(k & pp & _ & Hk & Hm)]; [done|].
        eexists _, _. split; [exact E5|]. by apply (wait_asleep _ _ _ _ _ _ _ k pp).
      * destruct (krelease_one L np ip me sf kf sl t (Some me) w c4 wait_lock H4) as (c5 & E5 & H5).
        rewrite (bind_Done _ _ _ _ _ E5). eexists _, _. split; [reflexivity|]. apply wait_no_child; try done. by right.
    + rewrite (bind_Done _ _ _ 0 (K t np ip c3 (Some me) me sf kf sl w)) by done.
      destruct (krelease_one L np ip me sf kf sl t (Some me) w c3 wait_lock Hc3) as (c5 & E5 & H5).
      rewrite (bind_Done _ _ _ _ _ E5). eexists _, _. split; [reflexivity|]. apply wait_no_child; try done. left.
      intros k q' Hk. apply not_true_is_false. intros Hm. assert (true = false); [|done]. symmetry. apply Hkids. right.
      exists k, q'. split; [lia|done].
Qed.

(** C4: [wait4] (with no rusage pointer) completes in one of four ways: it
    frees the first matching child that is ready and returns its pid, having
    copied the four bytes of the int [(xstate & 0xff) << 8] to [status] when
    that is not null; that copy failing, it returns EFAULT and frees nothing;
    it returns -ECHILD (the comment at proc.c:521 says -1) because no child
    matches or the caller was killed; or, some child matching and none ready,
    it sleeps on its own address having released [wait_lock]. *)
Theorem wait4_correct me mp q status options fs s : locks_ready -> runs L A me s -> table s !! me = Some mp ->
  exists r s', wait4 q status options 0 fs s = Done r s' /\ wait_outcome me mp q status options fs s r s'.
Proof. apply wait4_outcome. Qed.

(** With WNOHANG any child counts as ready: the first one that matches is
    freed and reported as exited, even if it is runnable or asleep. *)
Theorem wait4_wnohang_frees_live me mp q options k pp s : locks_ready -> runs L A me s -> table s !! me = Some mp ->
  Z.land options WNOHANG <> 0 -> table s !! k = Some pp -> wait_match q me k mp pp = true ->
  (forall k' q', (k' < k)%nat -> table s !! k' = Some q' -> wait_match q me k' mp q' = false) ->
  exists s' pp', wait4 q 0 options 0 [FSyscall] s = Done (Ret (pid pp)) s' /\
    table s' !! k = Some pp' /\ state pp' = UNUSED /\ pid pp' = 0 /\ pagetable pp' = None.
Proof.
  intros Hr Hs Hmp Ho Hk Hm Hbef. destruct (wait4_outcome me mp q 0 options [FSyscall] s Hr Hs Hmp) as (r & s' & E & Hout).
  assert (Hre : forall j pj, table s !! j = Some pj -> wait_match q me j mp pj = true -> reapable q options me mp j pj).
  { intros j pj Hj Hmj. split; [done|]. unfold wait_ready. destruct (Z.land options WNOHANG =? 0) eqn:E0; bool_hyps; [done|].
    cbn [negb]. by rewrite orb_true_r. }
  destruct Hout as [j pj e w1 s' Hj Hrj Hb _ _ Ht|j pj e s' _ _ _ Hst|s' Hno _|j pj s' Hno].
  - assert (j = k) as ->.
    { destruct (Nat.lt_trichotomy j k) as [Hlt|[->|Hlt]]; [|done|].
      - destruct Hrj as [Hmj _]. by rewrite (Hbef j pj Hlt Hj) in Hmj.
      - exfalso. apply (Hb k pp Hlt Hk). by apply Hre. }
    assert (pj = pp) as -> by congruence. exists s', (freed pp). split; [exact E|].
    rewrite Ht, list_lookup_insert_eq by (by eapply lookup_lt_Some). done.
  - done.
  - exfalso. apply (Hno k pp Hk). by apply Hre.
  - exfalso. apply (Hno k pp Hk). by apply Hre.
Qed.

(** ** The scheduler *)

Fixpoint sched_steps (n : nat) : M (kst W) unit :=
  match n with O => mret tt | S n => sched_step;; sched_steps n end.

Definition runnable_at (t : list proc) (j : nat) : Prop := exists p, t !! j = Some p /\ state p = RUNNABLE.

(** [j] is the first runnable slot at or after [pos], cyclically. *)
Definition next_in_turn (t : list proc) (pos j : nat) : Prop :=
  runnable_at t j /\
  ((pos <= j)%nat /\ (forall k, (pos <= k < j)%nat -> ~ runnable_at t k) \/
   (j < pos)%nat /\ (forall k, (pos <= k)%nat -> ~ runnable_at t k) /\ (forall k, (k < j)%nat -> ~ runnable_at t k)).

Lemma sched_skip (HL : forall a, 1 <= a <= 4 \/ 16 <= a < 80 -> a ∈ L) s : idle L A s -> (spos s < NPROC)%nat -> ~ runnable_at (table s) (spos s) ->
  exists s', sched_step s = Done tt s' /\ idle L A s' /\ table s' = table s /\ spos s' = S (spos s).
Proof.
  intros (HT & Hcp & Hc & Hpos & Hsl) Hlt Hn. destruct s as [t np ip c cp sp sf kf sl w].
  cbn [table nextpid initproc cproc kcpu spos slocks] in *. subst cp. unfold sched_step.
  rewrite (bind_Done _ _ _ sp (K t np ip c None sp sf kf sl w)) by done. rewrite bool_decide_true by done.
  destruct (kacquire_one L np ip sp sf kf sl t None w c (proc_lock sp) Hc (proc_lock_L L HL _ Hlt)) as (c1 & E1 & H1).
  rewrite (bind_Done _ _ _ _ _ E1). destruct (lookup_lt_is_Some_2 t sp) as [p Hp]; [by rewrite (ti_len _ _ _ _ _ _ HT)|].
  kread Hp. rewrite decide_False by (intros Hs; apply Hn; by exists p).
  destruct (krelease_one L np ip sp sf kf sl t None w c1 (proc_lock sp) H1) as (c2 & E2 & H2).
  rewrite (bind_Done _ _ _ _ _ E2). eexists. split; [reflexivity|]. split; [|by split].
  refine (conj HT (conj eq_refl (conj H2 (conj _ Hsl)))). discriminate.
Qed.

Lemma sched_wrap s : idle L A s -> (NPROC <= spos s)%nat ->
  exists s', sched_step s = Done tt s' /\ idle L A s' /\ table s' = table s /\ spos s' = 0%nat.
Proof.
  intros (HT & Hcp & Hc & Hpos & Hsl) Hge. destruct s as [t np ip c cp sp sf kf sl w].
  cbn [table nextpid initproc cproc kcpu spos slocks] in *. subst cp. unfold sched_step.
  rewrite (bind_Done _ _ _ sp (K t np ip c None sp sf kf sl w)) by done. rewrite bool_decide_false by lia.
  eexists. split; [reflexivity|]. split; [|by split].
  destruct Hc as ([Hn Hl Hm Ho] & (Hz & H0 & Hp) & HLk).
  refine (conj HT (conj eq_refl (conj _ (conj _ Hsl)))); [|discriminate].
  split; [by split|]. split; [|done]. split; cbn; [lia|]. split; [done|intros Hx; lia].
Qed.

Lemma sched_advance (HL : forall a, 1 <= a <= 4 \/ 16 <= a < 80 -> a ∈ L) : forall n s, idle L A s -> (spos s + n <= NPROC)%nat ->
  (forall k, (spos s <= k < spos s + n)%nat -> ~ runnable_at (table s) k) ->
  exists s', sched_steps n s = Done tt s' /\ idle L A s' /\ table s' = table s /\ spos s' = (spos s + n)%nat.
Proof.
  induction n as [|n IH]; intros s Hs Hle Hn; cbn [sched_steps].
  - exists s. split; [done|]. split; [done|]. split; [done|lia].
  - destruct (sched_skip HL s Hs) as (s1 & E1 & Hs1 & Ht1 & Hp1); [lia|apply Hn; lia|].
    destruct (IH s1 Hs1) as (s2 & E2 & Hs2 & Ht2 & Hp2); [lia|rewrite Ht1; intros k Hk; apply Hn; lia|].
    exists s2. rewrite (bind_Done _ _ _ _ _ E1). split; [done|]. split; [done|]. split; [congruence|lia].
Qed.

Lemma sched_steps_app m n s s1 : sched_steps m s = Done tt s1 -> sched_steps (m + n) s = sched_steps n s1.
Proof.
  revert s. induction m as [|m IH]; intros s; cbn [sched_steps Nat.add]; [by intros [= ->]|].
  intros (u & s2 & E1 & E2)%bind_Done_inv. rewrite (bind_Done _ _ _ _ _ E1). by apply IH.
Qed.

(** C5: no runnable process waits for ever: from an idle CPU the scheduler
    reaches the first runnable process at or after its position, in cyclic
    order, within 65 iterations that change no process, and the next iteration
    runs it; the position then stands just behind it, so the others go first
    in the next round. *)
Theorem scheduler_round_robin s j : locks_ready -> idle L A s -> next_in_turn (table s) (spos s) j ->
  exists n s1 p s2, (n <= NPROC + 1)%nat /\ sched_steps n s = Done tt s1 /\ table s1 = table s /\ spos s1 = j /\
    table s !! j = Some p /\ table s2 = <[j := set_state RUNNING p]> (table s) /\ cproc s2 = Some j /\
    sched_step s1 = (resume j;; mret tt) s2 /\ (exists s3, sched_step s1 = Done tt s3 /\ inv L A s3).
Proof.
  intros [HL HA] Hs [[p [Hp Hrun]] Hnext]. pose proof Hs as (HT & _).
  assert (Hlen : (j < NPROC)%nat) by (rewrite <- (ti_len _ _ _ _ _ _ HT); by eapply lookup_lt_Some).
  assert (G : exists n s1, (n <= NPROC + 1)%nat /\ sched_steps n s = Done tt s1 /\ idle L A s1 /\ table s1 = table s /\ spos s1 = j).
  { destruct Hnext as [[Hle Hb]|(Hlt & Hafter & Hb)].
    - destruct (sched_advance HL (j - spos s) s Hs) as (s1 & E1 & Hs1 & Ht1 & Hp1); [lia|intros k Hk; apply Hb; lia|].
      exists (j - spos s)%nat, s1. split; [lia|]. split; [done|]. split; [done|]. split; [done|lia].
    - assert (G1 : exists m s1, (m + j <= NPROC)%nat /\ sched_steps m s = Done tt s1 /\ idle L A s1 /\ table s1 = table s /\ (NPROC <= spos s1)%nat).
      { destruct (decide (spos s < NPROC)%nat) as [Hin|Hout].
        - destruct (sched_advance HL (NPROC - spos s) s Hs) as (s1 & E1 & Hs1 & Ht1 & Hp1); [lia|intros k Hk; apply Hafter; lia|].
          exists (NPROC - spos s)%nat, s1. split; [lia|]. split; [done|]. split; [done|]. split; [done|lia].
        - exists 0%nat, s. split; [lia|]. split; [done|]. split; [done|]. split; [done|lia]. }
      destruct G1 as (m & s1 & Hm & E1 & Hs1 & Ht1 & Hp1). destruct (sched_wrap s1 Hs1 Hp1) as (s2 & E2 & Hs2 & Ht2 & Hp2).
      destruct (sched_advance HL j s2 Hs2) as (s3 & E3 & Hs3 & Ht3 & Hp3); [lia|rewrite Ht2, Ht1, Hp2; intros k Hk; apply Hb; lia|].
      exists (m + S j)%nat, s3. split; [lia|]. split; [|split; [done|split; [congruence|lia]]].
      rewrite (sched_steps_app m (S j) s s1 E1). cbn [sched_steps]. by rewrite (bind_Done _ _ _ _ _ E2). }
  destruct G as (n & s1 & Hn & E1 & Hs1 & Ht1 & Hp1). destruct (sched_step_ok L A HL HA s1 Hs1) as ([] & s3 & E3 & Hs3).
  pose proof Hs1 as (HT1 & Hcp1 & Hc1 & _). destruct s1 as [t np ip c cp sp sf kf sl w].
  cbn [table nextpid initproc cproc kcpu spos slocks] in *. subst cp sp t.
  destruct (kacquire_one L np ip j sf kf sl (table s) None w c (proc_lock j) Hc1 (proc_lock_L L HL _ Hlen)) as (c1 & Ea & H1).
  exists n, (K (table s) np ip c None j sf kf sl w), p, (K (<[j := set_state RUNNING p]> (table s)) np ip c1 (Some j) j true kf sl w).
  split; [done|]. split; [done|]. do 2 (split; [done|]). split; [done|]. do 2 (split; [done|]). split; [|by exists s3].
  unfold sched_step. rewrite (bind_Done _ _ _ j (K (table s) np ip c None j sf kf sl w)) by done. rewrite bool_decide_true by done.
  rewrite (bind_Done _ _ _ _ _ Ea). kread Hp. rewrite decide_True by done.
  rewrite (bind_Done _ _ _ tt (K (table s) np ip c1 None j true kf sl w)) by done. kupd Hp.
  by rewrite (bind_Done _ _ _ tt (K (<[j := set_state RUNNING p]> (table s)) np ip c1 (Some j) j true kf sl w)).
Qed.

(** ** Sleep locks *)

(** C24: [acquiresleep] takes a free sleep lock at once, recording the caller's
    pid, and otherwise puts the caller to sleep on the lock, leaving it as it
    is; [releasesleep] frees the lock and makes every process asleep on it
    runnable, and no other. *)
Theorem sleeplock_correct me mp a (b : bool) q s : locks_ready -> runs L A me s -> table s !! me = Some mp -> a ∈ A ->
  slocks s !! a = Some (b, q) ->
  (exists r s', acquiresleep a [] s = Done r s' /\
     if b then r = Slept /\ slocks s' = slocks s /\ cproc s' = None /\
               table s' = <[me := set_context (Ctx (KSleep a [FAcquireSleep a]) true) (set_state SLEEPING (set_chan a mp))]> (table s)
     else r = Ret 0 /\ slocks s' = <[a := (true, pid mp)]> (slocks s) /\ table s' = table s /\ cproc s' = Some me) /\
  (exists s', releasesleep a s = Done tt s' /\ slocks s' = <[a := (false, 0)]> (slocks s) /\ cproc s' = Some me /\
     table s' = wake_all a (Some me) (table s)).
Proof.
  intros [HL HA] (HT & Hcp & Hc & Hp & Hsl) Hmp Ha Hl. destruct (Hp me eq_refl) as [Hsp Hme].
  destruct s as [t np ip c cp sp sf kf sl w]; cbn [table nextpid initproc cproc kcpu spos slocks] in *. subst cp sp.
  destruct (HA a Ha) as [HLa Hpl].
  destruct (kacquire_one L np ip me sf kf sl t (Some me) w c a Hc HLa) as (c1 & E1 & H1). split.
  - unfold acquiresleep, acquiresleep_loop. rewrite (bind_Done _ _ _ _ _ E1).
    rewrite (bind_Done _ _ _ (b, q) (K t np ip c1 (Some me) me sf kf sl w)) by (unfold get_slock; cbn; by rewrite Hl).
    destruct b; cbn [fst].
    + destruct (sleep_ok L HL np ip sf kf sl a a [FAcquireSleep a] t c1 me mp w H1 (HA a Ha) Hmp Hme) as (c2 & E2 & H2).
      rewrite E2. eexists _, _. split; [reflexivity|]. by split.
    + destruct (self_ok L np ip me sf kf sl t me w _ _ c1 H1) as (c2 & E2 & H2). rewrite (bind_Done _ _ _ _ _ E2). kread Hmp.
      rewrite (bind_Done _ _ _ tt (K t np ip c2 (Some me) me sf kf (<[a := (true, pid mp)]> sl) w)) by done.
      destruct (krelease_one L np ip me sf kf (<[a := (true, pid mp)]> sl) t (Some me) w c2 a H2) as (c3 & E3 & H3).
      rewrite (bind_Done _ _ _ _ _ E3). eexists _, _. split; [reflexivity|]. by split.
  - unfold releasesleep. rewrite (bind_Done _ _ _ _ _ E1).
    rewrite (bind_Done _ _ _ tt (K t np ip c1 (Some me) me sf kf (<[a := (false, 0)]> sl) w)) by done.
    destruct (wakeup_ok L HL np ip me sf kf (<[a := (false, 0)]> sl) a t (Some me) w {[a]} 1 c1) as (c2 & E2 & H2);
      [intros i Hi; rewrite elem_of_singleton; intros E; by apply (Hpl i Hi)|apply HT|done|].
    rewrite (bind_Done _ _ _ _ _ E2).
    destruct (krelease_one L np ip me sf kf (<[a := (false, 0)]> sl) (wake_all a (Some me) t) (Some me) w c2 a H2) as (c3 & E3 & H3).
    eexists. split; [exact E3|]. by split.
Qed.

(** ** Signals *)

Lemma clear_pending_run np ip sp sf kf sl t cp w c i p sig : cpu_ok L ∅ 0 c -> q_siglock ∈ L -> t !! i = Some p ->
  exists c', clear_pending i sig (K t np ip c cp sp sf kf sl w) =
    Done tt (K (<[i := set_psignal (set_sig_pending (sigdelset (sig_pending (psignal p)) sig).2 (psignal p)) p]> t) np ip c' cp sp sf kf sl w) /\
    cpu_ok L ∅ 0 c'.
Proof.
  intros Hc Hq Hp. unfold clear_pending, upd_signal.
  destruct (kacquire_one L np ip sp sf kf sl t cp w c q_siglock Hc Hq) as (c1 & E1 & H1). rewrite (bind_Done _ _ _ _ _ E1). kupd Hp.
  match goal with |- context [K (<[i := ?x]> t)] =>
    destruct (krelease_one L np ip sp sf kf sl (<[i := x]> t) cp w c1 q_siglock H1) as (c2 & E2 & H2) end.
  exists c2. by split.
Qed.

(** SIGKILL sent to a process asleep in the kernel marks it killed and
    leaves it asleep: unlike the default action of SIGTERM, which also makes it
    runnable, nothing wakes it. *)
Theorem kill_sleeping me i p s : locks_ready -> runs L A me s -> table s !! i = Some p -> i <> me -> state p = SLEEPING ->
  paused p = 0 -> killed p = 0 -> (exists a, sig_actions (psignal p) !! Z.to_nat SIGTERM = Some a /\ sa_handler a = SIG_DFL) ->
  (exists s' p', send_signal i SIGKILL [] s = Done (Ret 0) s' /\ table s' !! i = Some p' /\ state p' = SLEEPING /\ killed p' = 1) /\
  (exists s' p', send_signal i SIGTERM [] s = Done (Ret 0) s' /\ table s' !! i = Some p' /\ state p' = RUNNABLE /\ killed p' = 1).
Proof.
  intros [HL HA] (HT & Hcp & Hc & Hpos & Hsl) Hp Hne Hs Hpa Hk (a & Ha & Hdfl).
  destruct s as [t np ip c cp sp sf kf sl w]; cbn [table nextpid initproc cproc kcpu spos slocks] in *. subst cp.
  pose proof (lookup_lt_Some _ _ _ Hp) as Hlt. pose proof (fun (x : proc) => list_lookup_insert_eq t i x Hlt) as Hat.
  assert (Hi : (i < NPROC)%nat) by (rewrite <- (ti_len _ _ _ _ _ _ HT); done).
  split; unfold send_signal.
  - change (SIGKILL =? SIGKILL) with true. cbv iota. kupd Hp. kread (Hat (set_killed 1 p)).
    change (state (set_killed 1 p)) with (state p). rewrite decide_True by done.
    change (paused (set_killed 1 p)) with (paused p). rewrite Hpa. change (killed (set_killed 1 p)) with 1. cbn [Z.eqb Pos.eqb andb negb].
    eexists _, _. split; [reflexivity|]. cbn [table]. split; [apply Hat|]. by split.
  - change (SIGTERM =? SIGKILL) with false. cbv iota. unfold upd_signal at 1. kupd Hp.
    match goal with |- context [K (<[i := ?x]> t)] => set (p1 := x) end. kread (Hat p1).
    change (state p1) with (state p). rewrite decide_True by done. change (paused p1) with (paused p). rewrite Hpa.
    change (killed p1) with (killed p). rewrite Hk. cbn [Z.eqb Pos.eqb andb negb]. unfold handle_signal.
    change (SIGTERM =? 0) with false. cbv iota. kread (Hat p1).
    assert (Ea : sig_actions (psignal p1) = sig_actions (psignal p)) by (unfold p1; cbn; by case_if).
    rewrite Ea, Ha. rewrite (bind_Done _ _ _ a (K (<[i := p1]> t) np ip c (Some me) sp sf kf sl w)) by done.
    rewrite Hdfl. change (SIG_DFL =? SIG_IGN) with false. change (SIG_DFL =? SIG_DFL) with true.
    change (is_stop SIGTERM) with false. change (SIGTERM =? SIGCONT) with false. change (is_term SIGTERM) with true. cbv iota.
    set (p2 := set_xstate (Z.land SIGTERM 0x7f) p1).
    destruct (kacquire_one L np ip sp sf kf sl (<[i := p2]> t) (Some me) w c (proc_lock i) Hc (proc_lock_L L HL _ Hi)) as (c1 & E1 & H1).
    set (p3 := set_state RUNNABLE (set_killed 1 p2)).
    destruct (krelease_one L np ip sp sf kf sl (<[i := p3]> t) (Some me) w c1 (proc_lock i) H1) as (c2 & E2 & H2).
    destruct (clear_pending_run np ip sp sf kf sl (<[i := p3]> t) (Some me) w c2 i p3 SIGTERM H2 ltac:(apply HL; unfold q_siglock; lia) (Hat p3))
      as (c3 & E3 & H3). rewrite list_insert_insert_eq in E3.
    rewrite (bind_Done _ _ _ tt (K (<[i := p3]> t) np ip c2 (Some me) sp sf kf sl w)).
    2:{ kupd (Hat p1). rewrite list_insert_insert_eq. fold p2. unfold term_handler. rewrite (bind_Done _ _ _ _ _ E1). kupd (Hat p2).
        rewrite list_insert_insert_eq. kupd (Hat (set_killed 1 p2)). rewrite list_insert_insert_eq. rewrite decide_True by done. exact E2. }
    rewrite (bind_Done _ _ _ _ _ E3). eexists _, _. split; [reflexivity|]. cbn [table]. split; [apply Hat|]. by split.
Qed.

(** A stop signal with its default action, sent to a sleeping process,
    stops the sender: [stop_handler] puts the running process to sleep, on the
    target's channel. *)
Theorem stop_signal_stops_sender me mp i p s : locks_ready -> runs L A me s -> table s !! me = Some mp -> table s !! i = Some p ->
  i <> me -> state p = SLEEPING -> paused p = 0 -> killed p = 0 ->
  (exists a, sig_actions (psignal p) !! Z.to_nat SIGSTOP = Some a /\ sa_handler a = SIG_DFL) ->
  exists s' mp', send_signal i SIGSTOP [] s = Done Slept s' /\ cproc s' = None /\
    table s' !! me = Some mp' /\ state mp' = SLEEPING /\ chan mp' = proc_addr i /\ pid mp' = pid mp.
Proof.
  intros [HL HA] (HT & Hcp & Hc & Hpos & Hsl) Hmp Hp Hne Hs Hpa Hk (a & Ha & Hdfl). destruct (Hpos me eq_refl) as [Hsp Hme].
  destruct s as [t np ip c cp sp sf kf sl w]; cbn [table nextpid initproc cproc kcpu spos slocks] in *. subst cp sp.
  pose proof (lookup_lt_Some _ _ _ Hp) as Hlt. pose proof (fun (x : proc) => list_lookup_insert_eq t i x Hlt) as Hat.
  unfold send_signal. change (SIGSTOP =? SIGKILL) with false. cbv iota. unfold upd_signal. kupd Hp.
  match goal with |- context [K (<[i := ?x]> t)] => set (p1 := x) end. kread (Hat p1).
  change (state p1) with (state p). rewrite decide_True by done. change (paused p1) with (paused p). rewrite Hpa.
  change (killed p1) with (killed p). rewrite Hk. cbn [Z.eqb Pos.eqb andb negb]. unfold handle_signal.
  change (SIGSTOP =? 0) with false. cbv iota. kread (Hat p1).
  assert (Ea : sig_actions (psignal p1) = sig_actions (psignal p)) by (unfold p1; cbn; by case_if).
  rewrite Ea, Ha. rewrite (bind_Done _ _ _ a (K (<[i := p1]> t) np ip c (Some me) me sf kf sl w)) by done.
  rewrite Hdfl. change (SIG_DFL =? SIG_IGN) with false. change (SIG_DFL =? SIG_DFL) with true. change (is_stop SIGSTOP) with true. cbv iota.
  unfold stop_handler.
  assert (Hmp1 : <[i := p1]> t !! me = Some mp) by (by rewrite list_lookup_insert_ne).
  destruct (kacquire_one L np ip me sf kf sl (<[i := p1]> t) (Some me) w c q_lock Hc ltac:(apply HL; unfold q_lock; lia)) as (c1 & E1 & H1).
  rewrite (bind_Done _ _ _ _ _ E1).
  destruct (sleep_ok L HL np ip sf kf sl (proc_addr i) q_lock [FStop i SIGSTOP] (<[i := p1]> t) c1 me mp w H1) as (c2 & E2 & H2);
    [split; [apply HL; unfold q_lock; lia|intros k Hk0; unfold q_lock, proc_lock; lia]|done|done|].
  rewrite E2. eexists _, _. split; [reflexivity|]. cbn [table cproc]. split; [reflexivity|].
  split; [apply list_lookup_insert_eq; by eapply lookup_lt_Some|]. by split.
Qed.

(** When the old action cannot be copied out, [sigaction] answers EFAULT
    with [siglock] still held, and the next call that takes the lock panics. *)
Theorem sigaction_fault_keeps_lock me mp sig act oldact e w' s : locks_ready -> runs L A me s -> table s !! me = Some mp ->
  1 <= sig < NSIG -> oldact <> 0 ->
  (forall b, env_copyout (pagetable mp) oldact b (world s) = (e, w')) -> e < 0 ->
  exists s', sigaction sig act oldact s = Done (Ret (- EFAULT)) s' /\
    (forall addr, sigpending addr s' = Panic "acquire"%string) /\ (forall m fs, sigsuspend m fs s' = Panic "acquire"%string).
Proof.
  intros [HL HA] (HT & Hcp & Hc & Hpos & Hsl) Hmp Hsig Hold Hco He. destruct (Hpos me eq_refl) as [Hsp Hme].
  destruct s as [t np ip c cp sp sf kf sl w]; cbn [table nextpid initproc cproc kcpu spos slocks world] in *. subst cp sp.
  assert (HqL : q_siglock ∈ L) by (apply HL; unfold q_siglock; lia).
  destruct (kacquire_one L np ip me sf kf sl t (Some me) w c q_siglock Hc HqL) as (c1 & E1 & H1).
  destruct (self_ok L np ip me sf kf sl t me w _ _ c1 H1) as (c2 & E2 & H2).
  destruct (lookup_lt_is_Some_2 (sig_actions (psignal mp)) (Z.to_nat sig)) as [a Ha];
    [rewrite (po_acts _ _ _ _ _ _ _ (ti_ok _ _ _ _ _ _ HT me mp Hmp)); unfold NSIG in *; lia|].
  assert (Hpanic : forall c3, cpu_ok L {[q_siglock]} 1 c3 -> kacquire q_siglock (K t np ip c3 (Some me) me sf kf sl w') = Panic "acquire"%string).
  { intros c3 ([Hn Hl Hm Ho] & _). destruct (Hm q_siglock ltac:(by apply elem_of_singleton_2)) as [l Hq].
    pose proof (Hl _ _ Hq) as El. rewrite decide_True in El by (by apply elem_of_singleton_2). subst l.
    unfold kacquire, on_cpu, zoom, acquire, push_off, intr_get, intr_off, holding, get_lock. mstep.
    destruct c3 as [nf ie it lk]; cbn in *. destruct (nf =? 0); cbn; rewrite Hq; reflexivity. }
  exists (K t np ip c2 (Some me) me sf kf sl w'). split; [|split].
  - unfold sigaction. rewrite (bind_Done _ _ _ _ _ E1), (bind_Done _ _ _ _ _ E2). kread Hmp. rewrite Ha.
    rewrite (bind_Done _ _ _ a (K t np ip c2 (Some me) me sf kf sl w)) by done.
    destruct (oldact =? 0) eqn:E0; bool_hyps; [done|].
    rewrite (bind_Done _ _ _ e (K t np ip c2 (Some me) me sf kf sl w')) by (unfold ask; cbn [world]; by rewrite Hco).
    replace (e <? 0) with true by (symmetry; by apply Z.ltb_lt). done.
  - intros addr. unfold sigpending, mbind, M_bind. by rewrite (Hpanic c2 H2).
  - intros m fs. unfold sigsuspend.
    destruct (self_ok L np ip me sf kf sl t me w' _ _ c2 H2) as (c3 & E3 & H3). rewrite (bind_Done _ _ _ _ _ E3).
    unfold mbind, M_bind. by rewrite (Hpanic c3 H3).
Qed.

(** In no reachable state does [sigreturn] have a trap frame to restore:
    nothing ever sets [oldtf], so the call reads through a null pointer. *)
Theorem sigreturn_faults s0 s me : locks_ready -> idle L A s0 -> reach s0 s -> cproc s = Some me -> sigreturn s = Undef.
Proof.
  intros Hr H0 Hreach Hme. assert (Hi : inv L A s) by (eapply reach_inv; eauto using idle_inv).
  pose proof (inv_runs s me Hi Hme) as (HT & _ & Hc & Hpos & _). destruct (Hpos me eq_refl) as [_ Hlt].
  destruct s as [t np ip c cp sp sf kf sl w]; cbn [table nextpid initproc cproc kcpu spos slocks] in *. subst cp.
  destruct (lookup_lt_is_Some_2 t me) as [p Hp]; [by rewrite (ti_len _ _ _ _ _ _ HT)|].
  destruct (self_ok L np ip sp sf kf sl t me w _ _ c Hc) as (c1 & E1 & _).
  unfold sigreturn. rewrite (bind_Done _ _ _ _ _ E1). kread Hp.
  unfold mbind, M_bind. by rewrite (po_old _ _ _ _ _ _ _ (ti_ok _ _ _ _ _ _ HT me p Hp)).
Qed.

End kernel.

(** ** Concrete states for the witnesses *)

#[local] Instance demo_env : kenv Z := {|
  env_kalloc w := (Some (w + 1), w + 1);
  env_kfree _ w := w;
  env_proc_pagetable pa w := (Some (w + 1), w + 1);
  env_proc_freepagetable _ _ w := w;
  env_free_mmap_list _ w := w;
  env_copy_mmap_regions p _ w := ((0, regions p), w);
  env_uvmcopy _ _ w := (0, w);
  env_munmap_all _ w := w;
  env_filedup _ w := w;
  env_fileclose _ w := w;
  env_idup _ w := w;
  env_iput _ w := w;
  env_fsinit w := w;
  env_mmap_cache w := w;
  env_uvmfirst _ w := w;
  env_namei_root w := (Some 5, w);
  env_copyout _ a _ w := (if a =? 13 then -1 else 0, w);
  env_stack _ := replicate 8 0
|}.

Definition L0 : gset Z := list_to_set (seqZ 1 4 ++ seqZ 16 64 ++ [1000]).
Definition A0 : gset Z := {[1000]}.

Lemma L0_spec a : a ∈ L0 <-> 1 <= a <= 4 \/ 16 <= a < 80 \/ a = 1000.
Proof. unfold L0. rewrite elem_of_list_to_set, !elem_of_app, !elem_of_seqZ, list_elem_of_singleton. lia. Qed.

Lemma demo_ready : locks_ready L0 A0.
Proof.
  split.
  - intros a Ha. apply L0_spec. lia.
  - intros a Ha. apply elem_of_singleton in Ha as ->. split; [apply L0_spec; lia|].
    intros i Hi. unfold proc_lock, NPROC in *. lia.
Qed.

Definition demo_locks : gmap Z spinlock := gset_to_gmap free_lock L0.

Lemma demo_locks_free : all_free demo_locks.
Proof. intros a l. unfold demo_locks. rewrite lookup_gset_to_gmap_Some. by intros [_ <-]. Qed.

Lemma demo_cpu : cpu_ok L0 ∅ 0 (Cpu 0 true true demo_locks).
Proof.
  split; [|split].
  - split; [done| | |done].
    + intros a l Hl. rewrite (decide_False (P := a ∈ (∅ : gset Z))) by (apply not_elem_of_empty). by apply (demo_locks_free a).
    + intros a Ha. destruct (not_elem_of_empty a Ha).
  - split; [done|]. split; [done|]. intros Hx. cbn in Hx. lia.
  - intros a Ha. cbn. exists free_lock. unfold demo_locks. by apply lookup_gset_to_gmap_Some.
Qed.

Definition demo_proc (st : procstate) (ch q : Z) (par : option nat) : proc :=
  Proc st ch 0 0 0 q 1 1 par (Cred 0 0 0 0 0 0 0 0 0 0 0 18) 0 4096 (Some 7) (Some 8) (replicate 36 0)
    (Ctx (KSleep 3 [FUnlock 3]) true) 0 (replicate NOFILE None) (Some 5) [] None no_signal None.

Definition demo (cp : option nat) (pos : nat) (p0 p1 : proc) : kst Z :=
  K (<[1%nat := p1]> (<[0%nat := p0]> (slots_from 0 (replicate NPROC zero_proc)))) 3 (Some 0%nat)
    (Cpu 0 true true demo_locks) cp pos true false {[1000 := (false, 0)]} 0.

Lemma demo_pok cp i st ch q par : (st = SLEEPING \/ st = RUNNABLE \/ st = RUNNING) -> 1 <= q < 3 ->
  (st = RUNNING <-> cp = Some i) -> par <> Some i -> (i = 0%nat -> par = None) ->
  pok L0 A0 3 (Some 0%nat) cp i (demo_proc st ch q par).
Proof.
  intros Hst Hq Hrun Hpar Hi. split; cbn [demo_proc state pid context ctx_kont ctx_intena cwd psignal sig_actions oldtf ofile parent]; try done.
  - naive_solver.
  - naive_solver.
  - intros _. split; [|done]. split; [|done]. split; [apply L0_spec; lia|]. intros k _. unfold proc_lock. lia.
  - intros [= <-]. split; [auto|]. naive_solver.
Qed.

Lemma demo_ok cp pos p0 p1 : pok L0 A0 3 (Some 0%nat) cp 0 p0 -> pok L0 A0 3 (Some 0%nat) cp 1 p1 -> pid p0 <> pid p1 ->
  (cp = None \/ (cp = Some 0%nat /\ pos = 0%nat) \/ (cp = Some 1%nat /\ pos = 1%nat)) -> ok L0 A0 cp ∅ 0 (demo cp pos p0 p1).
Proof.
  intros H0 H1 Hpid Hcp. unfold demo.
  assert (Hlen : length (slots_from 0 (replicate NPROC zero_proc)) = NPROC) by (unfold slots_from; by rewrite length_imap, length_replicate).
  assert (Hz : forall i q, <[1%nat := p1]> (<[0%nat := p0]> (slots_from 0 (replicate NPROC zero_proc))) !! i = Some q ->
            i = 0%nat /\ q = p0 \/ i = 1%nat /\ q = p1 \/ (2 <= i)%nat /\ q = init_slot i zero_proc).
  { intros i q. destruct (decide (i = 1%nat)) as [->|Hi1].
    { rewrite list_lookup_insert_eq by (rewrite length_insert, Hlen; unfold NPROC; lia). intros [= <-]. by right; left. }
    rewrite list_lookup_insert_ne by done. destruct (decide (i = 0%nat)) as [->|Hi].
    - rewrite list_lookup_insert_eq by (rewrite Hlen; unfold NPROC; lia). intros [= <-]. by left.
    - rewrite list_lookup_insert_ne by done. unfold slots_from. rewrite list_lookup_imap.
      destruct (replicate NPROC zero_proc !! i) as [z|] eqn:E; [|done]. apply lookup_replicate in E as [-> _].
      cbn [fmap option_fmap option_map]. rewrite decide_True by lia. intros [= <-]. right; right. split; [lia|done]. }
  refine (conj _ (conj eq_refl (conj demo_cpu (conj _ _)))); cbn [table nextpid initproc spos slocks].
  - split; [by rewrite !length_insert|lia| | |exists 0%nat; split; [done|unfold NPROC; lia]].
    + intros i q [[-> ->]|[[-> ->]|[Hi ->]]]%Hz; [done|done|]. split; try done.
      * split; [done|]. intros ->. destruct Hcp as [|[[[= ?] _]|[[= ?] _]]]; [done|lia|lia].
      * by intros [?|[?|?]].
      * intros [= <-]. lia.
    + intros i j q r [[-> ->]|[[-> ->]|[Hi ->]]]%Hz [[-> ->]|[[-> ->]|[Hj ->]]]%Hz; try done; cbn; congruence.
  - intros i Hi. destruct Hcp as [->|[[-> ->]|[-> ->]]]; [done|injection Hi as <-; split; [done|unfold NPROC; lia]..].
  - intros a Ha. apply elem_of_singleton in Ha as ->. by eexists.
Qed.

(** Init runs, its child sleeps; the child runs, init waits; both are
    runnable. *)
Definition demoA : kst Z := demo (Some 0%nat) 0 (demo_proc RUNNING 0 1 None) (demo_proc SLEEPING 77 2 (Some 0%nat)).
Definition demoB : kst Z := demo (Some 1%nat) 1 (demo_proc SLEEPING 4096 1 None) (demo_proc RUNNING 0 2 (Some 0%nat)).
Definition demoC : kst Z := demo None 2 (demo_proc RUNNABLE 0 1 None) (demo_proc RUNNABLE 0 2 (Some 0%nat)).

Lemma demoA_runs : runs L0 A0 0 demoA.
Proof.
  apply demo_ok; [apply demo_pok|apply demo_pok|..]; try done; try lia; auto; try (split; done).
Qed.
Lemma demoB_runs : runs L0 A0 1 demoB.
Proof.
  apply demo_ok; [apply demo_pok|apply demo_pok|..]; try done; try lia; auto; try (split; done).
Qed.
Lemma demoC_idle : idle L0 A0 demoC.
Proof. apply demo_ok; [apply demo_pok|apply demo_pok|..]; try done; try lia; auto; try (split; done). Qed.

Lemma process_machine_safe_witness : exists s', sched_step demoC = Done tt s'.
Proof.
  destruct (process_machine_safe L0 A0 demoC demoC demo_ready demoC_idle (reach_start L0 A0 demoC)) as (_ & _ & _ & _ & _ & H).
  exact (H eq_refl).
Defined.

Lemma boot_establishes_witness :
  exists s, (procinit;; userinit;; scheduler_start) (boot_state demo_locks {[1000 := (false, 0)]} 0) = Done tt s /\ idle L0 A0 s.
Proof.
  destruct (boot_establishes L0 A0 demo_locks {[1000 := (false, 0)]} 0 1 2 5 1 2 2 demo_ready demo_locks_free) as (s & p & E & Hi & _).
  - intros a Ha. right. exists free_lock. unfold demo_locks. apply lookup_gset_to_gmap_Some. split; [exact Ha|reflexivity].
  - intros a Ha. apply elem_of_singleton in Ha as ->. exists (false, 0). apply lookup_singleton_eq.
  - reflexivity.
  - reflexivity.
  - reflexivity.
  - exists s. split; [exact E|exact Hi].
Defined.

Lemma fork_correct_witness : exists r s', fork demoA = Done r s' /\ cproc s' = Some 0%nat.
Proof.
  destruct (fork_correct L0 A0 0 demoA demo_ready demoA_runs ltac:(vm_compute; reflexivity)) as (r & s' & E & Hc & _).
  exists r, s'. split; [exact E|exact Hc].
Defined.

Lemma exit_correct_witness : exists s' z, exit 7 demoB = Done Slept s' /\ table s' !! 1%nat = Some z /\ state z = ZOMBIE /\ xstate z = 7.
Proof.
  destruct (exit_correct L0 A0 1 0 (demo_proc RUNNING 0 2 (Some 0%nat)) demoB 7 demo_ready demoB_runs eq_refl ltac:(discriminate) eq_refl)
    as (s' & E & _ & _ & (z & Hz & Hs & Hx & _) & _).
  exists s', z. split; [exact E|]. split; [exact Hz|]. split; [exact Hs|exact Hx].
Defined.

Lemma wait4_correct_witness :
  let me := demo_proc RUNNING 0 1 None in
  (exists s', wait4 (-1) 0 0 0 [] demoA = Done Slept s' /\ cproc s' = None) /\
  (exists s' pp e w1, wait4 (-1) 64 WNOHANG 0 [] demoA = Done (Ret 2) s' /\ table demoA !! 1%nat = Some pp /\ pid pp = 2 /\
     status_copied me pp 64 (world demoA) e w1 /\ 0 <= e /\ table s' = <[1%nat := freed pp]> (table demoA)).
Proof.
  split.
  - destruct (wait4_correct L0 A0 0 (demo_proc RUNNING 0 1 None) (-1) 0 0 [] demoA demo_ready demoA_runs eq_refl) as (r & s' & E & Hout).
    assert (Hr : match wait4 (-1) 0 0 0 [] demoA with Done r _ => r = Slept | _ => False end) by (vm_compute; reflexivity).
    rewrite E in Hr. subst r. exists s'. split; [exact E|]. by inversion Hout.
  - destruct (wait4_correct L0 A0 0 (demo_proc RUNNING 0 1 None) (-1) 64 WNOHANG [] demoA demo_ready demoA_runs eq_refl) as (r & s' & E & Hout).
    assert (Hr : match wait4 (-1) 64 WNOHANG 0 [] demoA with Done r _ => r = Ret 2 | _ => False end) by (vm_compute; reflexivity).
    rewrite E in Hr. subst r. inversion Hout as [k pp e w1 s1 Hk Hre Hb Hsc He Ht Hw Hc Hp Hs1| | |]; try discriminate.
    assert (k = 1%nat) as ->.
    { destruct k as [|[|k]]; [|done|].
      - destruct Hre as [Hm _]. injection Hk as <-. discriminate Hm.
      - exfalso. apply (Hb 1%nat (demo_proc SLEEPING 77 2 (Some 0%nat)) ltac:(lia) eq_refl). by split. }
    exists s', pp, e, w1. injection Hk as <-. done.
Defined.

Lemma wait4_wnohang_frees_live_witness :
  exists s' p', wait4 (-1) 0 WNOHANG 0 [FSyscall] demoA = Done (Ret 2) s' /\ table s' !! 1%nat = Some p' /\ state p' = UNUSED.
Proof.
  destruct (wait4_wnohang_frees_live L0 A0 0 (demo_proc RUNNING 0 1 None) (-1) WNOHANG 1 (demo_proc SLEEPING 77 2 (Some 0%nat)) demoA
    demo_ready demoA_runs eq_refl ltac:(discriminate) eq_refl eq_refl) as (s' & p' & E & Hp & Hs & _).
  - intros [|k] q Hk Hq; [|lia]. injection Hq as <-. reflexivity.
  - exists s', p'. split; [exact E|]. split; [exact Hp|exact Hs].
Defined.

Lemma scheduler_round_robin_witness : exists n s1, sched_steps n demoC = Done tt s1 /\ spos s1 = 0%nat.
Proof.
  assert (Hnone : forall k, (2 <= k)%nat -> ~ runnable_at (table demoC) k).
  { intros k Hk (p & Hp & Hs). unfold demoC, demo in Hp. cbn [table] in Hp.
    rewrite !list_lookup_insert_ne in Hp by lia. unfold slots_from in Hp. rewrite list_lookup_imap in Hp.
    destruct (replicate NPROC zero_proc !! k) as [z|] eqn:E; [|discriminate]. apply lookup_replicate in E as [-> _].
    injection Hp as <-. discriminate Hs. }
  destruct (scheduler_round_robin L0 A0 demoC 0 demo_ready demoC_idle) as (n & s1 & p & s2 & _ & E & _ & Hp & _).
  - split; [eexists; split; reflexivity|]. right. split; [unfold demoC; cbn; lia|]. split; [exact Hnone|]. intros k Hk. lia.
  - exists n, s1. split; [exact E|exact Hp].
Defined.

Lemma sleeplock_correct_witness : exists r s', acquiresleep 1000 [] demoA = Done r s' /\ r = Ret 0.
Proof.
  destruct (sleeplock_correct L0 A0 0 (demo_proc RUNNING 0 1 None) 1000 false 0 demoA demo_ready demoA_runs eq_refl
    (elem_of_singleton_2 _ _ eq_refl) eq_refl) as ((r & s' & E & Hr & _) & _).
  exists r, s'. split; [exact E|exact Hr].
Defined.

Lemma kill_sleeping_witness : exists s' p', send_signal 1 SIGKILL [] demoA = Done (Ret 0) s' /\ table s' !! 1%nat = Some p' /\ state p' = SLEEPING.
Proof.
  destruct (kill_sleeping L0 A0 0 1 (demo_proc SLEEPING 77 2 (Some 0%nat)) demoA demo_ready demoA_runs eq_refl ltac:(discriminate) eq_refl eq_refl eq_refl)
    as ((s' & p' & E & Hp & Hs & _) & _).
  - eexists. split; reflexivity.
  - exists s', p'. split; [exact E|]. split; [exact Hp|exact Hs].
Defined.

Lemma stop_signal_stops_sender_witness : exists s', send_signal 1 SIGSTOP [] demoA = Done Slept s' /\ cproc s' = None.
Proof.
  destruct (stop_signal_stops_sender L0 A0 0 (demo_proc RUNNING 0 1 None) 1 (demo_proc SLEEPING 77 2 (Some 0%nat)) demoA demo_ready demoA_runs
    eq_refl eq_refl ltac:(discriminate) eq_refl eq_refl eq_refl) as (s' & p' & E & Hc & _).
  - eexists. split; reflexivity.
  - exists s'. split; [exact E|exact Hc].
Defined.

Lemma sigaction_fault_keeps_lock_witness :
  exists s', sigaction SIGINT None 13 demoA = Done (Ret (- EFAULT)) s' /\ sigpending 0 s' = Panic "acquire"%string.
Proof.
  destruct (sigaction_fault_keeps_lock L0 A0 0 (demo_proc RUNNING 0 1 None) SIGINT None 13 (-1) 0 demoA demo_ready demoA_runs eq_refl
    ltac:(split; [discriminate|reflexivity]) ltac:(discriminate) ltac:(reflexivity) ltac:(reflexivity)) as (s' & E & Hp & _).
  exists s'. split; [exact E|exact (Hp 0)].
Defined.

Definition demoD : kst Z := demo None 0 (demo_proc RUNNABLE 0 1 None) (demo_proc RUNNABLE 0 2 (Some 0%nat)).
Definition demoD_next : kst Z := match sched_step demoD with Done _ s => s | _ => demoD end.

Lemma demoD_idle : idle L0 A0 demoD.
Proof. apply demo_ok; [apply demo_pok|apply demo_pok|..]; try done; try lia; auto; try (split; done). Qed.

Lemma sigreturn_faults_witness : cproc demoD_next = Some 0%nat /\ sigreturn demoD_next = Undef.
Proof.
  assert (Hc : cproc demoD_next = Some 0%nat) by (vm_compute; reflexivity).
  assert (E : sched_step demoD = Done tt demoD_next) by (vm_compute; reflexivity).
  split; [exact Hc|]. apply (sigreturn_faults L0 A0 demoD demoD_next 0 demo_ready demoD_idle); [|exact Hc].
  apply (reach_sched L0 A0 demoD demoD demoD_next); [apply reach_start|reflexivity|exact E].
Defined.
