(* ===== verification/UserMem.v ===== *)
(** * What the kernel asks of user memory

    The functions that move bytes between the kernel and the current process
    see user memory through this interface: a virtual address and bytes on one
    side, and the code's result (0 or -1) on the other.  A failing [copyin]
    may have moved a prefix, so the bytes it moved are part of its result. *)
From S2P Require Import Prelude.

Class usermem (U : Type) := UserMem {
  copyout : Z -> list Z -> U -> Z * U;
  copyin : Z -> Z -> U -> Z * list Z;
}.

(** The promise of [copyin] and [copyout] that their callers rely on. *)
Class usermem_laws (U : Type) `{usermem U} := {
  copyout_result : forall a bs u, (copyout a bs u).1 = 0 \/ (copyout a bs u).1 = -1;
  copyin_result : forall a n u, (copyin a n u).1 = 0 \/ (copyin a n u).1 = -1;
  copyin_full : forall a n u, 0 <= n -> (copyin a n u).1 = 0 -> Z.of_nat (length (copyin a n u).2) = n;
  copyin_part : forall a n u, 0 <= n -> Z.of_nat (length (copyin a n u).2) <= n;
  copyin_bytes : forall a n u, Forall (fun b => 0 <= b < 256) (copyin a n u).2;
}.

(** ** A flat address space

    One byte per mapped address: the simplest memory that meets the interface. *)
Definition flat : Type := gmap Z Z.

Fixpoint flat_out (a : Z) (bs : list Z) (u : flat) : Z * flat :=
  match bs with
  | [] => (0, u)
  | b :: bs => match u !! a with
               | None => (-1, u)
               | Some _ => flat_out (a + 1) bs (<[a := u8 b]> u)
               end
  end.
Fixpoint flat_in (n : nat) (a : Z) (u : flat) : Z * list Z :=
  match n with
  | O => (0, [])
  | S n => match u !! a with
           | None => (-1, [])
           | Some b => let r := flat_in n (a + 1) u in (r.1, u8 b :: r.2)
           end
  end.

#[export] Instance flat_usermem : usermem flat :=
  {| copyout := flat_out; copyin a n u := flat_in (Z.to_nat n) a u |}.

Lemma flat_out_result bs : forall a u, (flat_out a bs u).1 = 0 \/ (flat_out a bs u).1 = -1.
Proof. induction bs as [|b bs IH]; intros a u; cbn; [by left|]. destruct (u !! a); [apply IH|by right]. Qed.

Lemma flat_in_result n : forall a u, (flat_in n a u).1 = 0 \/ (flat_in n a u).1 = -1.
Proof. induction n as [|n IH]; intros a u; cbn; [by left|]. destruct (u !! a); [apply IH|by right]. Qed.

Lemma flat_in_length n : forall a u,
  (length (flat_in n a u).2 <= n)%nat /\ ((flat_in n a u).1 = 0 -> length (flat_in n a u).2 = n).
Proof.
  induction n as [|n IH]; intros a u; cbn; [lia|].
  destruct (u !! a); cbn; [|split; [lia|discriminate]].
  destruct (IH (a + 1) u) as [H1 H2]. split; [lia|]. intros E. by rewrite H2.
Qed.

Lemma flat_in_bytes n : forall a u, Forall (fun b => 0 <= b < 256) (flat_in n a u).2.
Proof.
  induction n as [|n IH]; intros a u; cbn; [constructor|].
  destruct (u !! a); cbn; constructor; [|apply IH]. apply (wrap_range 8); lia.
Qed.

#[export] Instance flat_usermem_laws : usermem_laws flat.
Proof.
  split.
  - intros. apply flat_out_result.
  - intros. apply flat_in_result.
  - intros a n u Hn H. cbn in *. destruct (flat_in_length (Z.to_nat n) a u) as [_ H2]. rewrite H2 by done. lia.
  - intros a n u Hn. cbn. destruct (flat_in_length (Z.to_nat n) a u). lia.
  - intros. apply flat_in_bytes.
Qed.
