(* ===== verification/Clock.v ===== *)
(** * The clock and the calendar

    kernel/clock.c counts timer interrupts and keeps the wall time; kernel/rtc.c
    turns the seconds counter of the real time clock into a date and back.  The
    counter is the class [rtc_dev]; [wakeup(&jiffies)] of proc.c is the class
    [waker].  Dates are computed in the C types of the code. *)
From S2P Require Import Prelude Spinlock UserMem Cred.

Definition EFAULT : Z := 14.
Definition CAP_SYS_TIME : Z := 25.
Definition CLOCK_REALTIME : Z := 0.
Definition CLOCK_PROCESS_CPUTIME_ID : Z := 2.
Definition HZ : Z := 100.
Definition TICK_NSEC : Z := 10000000.

(** ** Dates *)

Record tm := Tm {
  tm_sec : Z; tm_min : Z; tm_hour : Z; tm_mday : Z; tm_mon : Z; tm_year : Z; tm_wday : Z; tm_yday : Z; tm_isdst : Z
}.

Definition days_in_month : list Z := [31; 28; 31; 30; 31; 30; 31; 31; 30; 31; 30; 31].
(** [y] is unsigned where the macro is used. *)
Definition LEAPS_THRU_END_OF (y : Z) : Z := u32 (y / 4 - y / 100 + y / 400).
Definition is_leap_year (year : Z) : bool :=
  ((Z.rem year 4 =? 0) && negb (Z.rem year 100 =? 0)) || (Z.rem year 400 =? 0).
Definition month_days (month year : Z) : Z :=
  nth (Z.to_nat month) days_in_month 0 + Z.b2z (is_leap_year year && (month =? 1)).

Definition rtc_valid_tm (t : tm) : Z :=
  if (199 <? tm_year t) || (12 <=? u32 (tm_mon t)) || (tm_mday t <? 1) || (month_days (tm_mon t) (s32 (tm_year t + 1900)) <? tm_mday t) ||
     (24 <=? u32 (tm_hour t)) || (60 <=? u32 (tm_min t)) || (60 <=? u32 (tm_sec t))
  then - EINVAL else 0.

Definition tm_to_time (year0 mon0 day hour min sec : Z) : Z :=
  let mon := u32 (u32 (mon0 + 1) - 2) in
  let year := u32 (year0 + 1900) in
  let wrap_year := s32 mon <=? 0 in
  let mon := if wrap_year then u32 (mon + 12) else mon in
  let year := if wrap_year then u32 (year - 1) else year in
  let days := u32 (year / 4 - year / 100 + year / 400 + u32 (367 * mon) / 12 + day) + u32 (year * 365) - 719499 in
  ((days * 24 + hour) * 60 + min) * 60 + sec.

(** The loop over the months of the year: the month and the day left in it. *)
Fixpoint find_month (fuel : nat) (month days year : Z) : Z * Z :=
  match fuel with
  | O => (month, days)
  | S fuel =>
      let newdays := s32 (days - month_days month (s32 year)) in
      if newdays <? 0 then (month, days) else find_month fuel (month + 1) newdays year
  end.

Definition rtc_time_to_tm (time : Z) : tm :=
  let days := s32 (Z.quot time 86400) in
  let secs := u64 (time - u32 (days * 86400)) in
  let wday := Z.rem (s32 (days + 4)) 7 in
  let year := u32 (1970 + Z.quot days 365) in
  let days := s32 (days - u32 (u32 (u32 (year - 1970) * 365) + LEAPS_THRU_END_OF (u32 (year - 1)) - LEAPS_THRU_END_OF (1970 - 1))) in
  let early := days <? 0 in
  let year := if early then u32 (year - 1) else year in
  let days := if early then s32 (days + 365 + Z.b2z (is_leap_year (s32 year))) else days in
  let m := find_month 11 0 days year in
  let hour := s32 (secs / 3600) in
  let secs := u64 (secs - hour * 3600) in
  let min := s32 (secs / 60) in
  Tm (s32 (secs - min * 60)) min hour (s32 (m.2 + 1)) m.1 (s32 (year - 1900)) wday (s32 (days + 1)) 0.

(** ** The wall time *)

(** The seconds counter: its value may advance between two reads. *)
Class rtc_dev (R : Type) := RtcDev {
  rtc_read : R -> Z * R;
  rtc_set : Z -> R -> R;
}.
Class waker (W : Type) := Waker { wake_jiffies : M W unit }.

Definition clocklock : Z := 24.

Section Clock.
Context {R : Type} `{!rtc_dev R} {W : Type} `{!waker W} {U : Type} `{!usermem U}.

Record ckst := Ckst {
  jiffies : Z;
  xtime : Z * Z;
  wall_jiffies : Z;
  ckcpu : cpu;
  ckrtc : R;
  ckwake : W;
  ckuser : U;
  ckcred : cred
}.
Definition set_jiffies v (s : ckst) := Ckst v (xtime s) (wall_jiffies s) (ckcpu s) (ckrtc s) (ckwake s) (ckuser s) (ckcred s).
Definition set_xtime v (s : ckst) := Ckst (jiffies s) v (wall_jiffies s) (ckcpu s) (ckrtc s) (ckwake s) (ckuser s) (ckcred s).
Definition set_wall v (s : ckst) := Ckst (jiffies s) (xtime s) v (ckcpu s) (ckrtc s) (ckwake s) (ckuser s) (ckcred s).
Definition set_ckcpu v (s : ckst) := Ckst (jiffies s) (xtime s) (wall_jiffies s) v (ckrtc s) (ckwake s) (ckuser s) (ckcred s).
Definition set_ckrtc v (s : ckst) := Ckst (jiffies s) (xtime s) (wall_jiffies s) (ckcpu s) v (ckwake s) (ckuser s) (ckcred s).
Definition set_ckwake v (s : ckst) := Ckst (jiffies s) (xtime s) (wall_jiffies s) (ckcpu s) (ckrtc s) v (ckuser s) (ckcred s).
Definition set_ckuser v (s : ckst) := Ckst (jiffies s) (xtime s) (wall_jiffies s) (ckcpu s) (ckrtc s) (ckwake s) v (ckcred s).
Definition on_cpu {A} (m : M cpu A) : M ckst A := zoom ckcpu set_ckcpu m.

(** One tick of [update_wall_time]. *)
Definition tick (t : Z * Z) : Z * Z :=
  let nsec := s64 (t.2 + TICK_NSEC) in
  if 1000000000 <=? nsec then (s64 (t.1 + 1), s64 (nsec - 1000000000)) else (t.1, nsec).
(** The loop is a do-while: [ticks] is at least 1. *)
Fixpoint update_wall_time (ticks : nat) (t : Z * Z) : Z * Z :=
  match ticks with O => t | S ticks => update_wall_time ticks (tick t) end.

Definition update_times : M ckst unit :=
  ticks ← gets (fun s => u64 (jiffies s - wall_jiffies s));
  if ticks =? 0 then mret tt
  else
    modify (fun s => set_wall (u64 (wall_jiffies s + ticks)) s);;
    modify (fun s => set_xtime (update_wall_time (Z.to_nat ticks) (xtime s)) s).

Definition get_second_clock : M ckst Z := fun s =>
  let r := rtc_read (ckrtc s) in Done r.1 (set_ckrtc r.2 s).

(** [polls] bounds the reads of the counter until it shows the new value. *)
Fixpoint set_clock_wait (polls : nat) (t : Z) : M ckst unit :=
  match polls with
  | O => nofuel
  | S polls => v ← get_second_clock; if v <? t then set_clock_wait polls t else mret tt
  end.
Definition set_second_clock (polls : nat) (t : Z) : M ckst unit :=
  modify (fun s => set_ckrtc (rtc_set t (ckrtc s)) s);;
  set_clock_wait polls t;;
  modify (set_xtime (t, 0)).

Definition rtc_time : M ckst Z := get_second_clock.
Definition rtc_gettime : M ckst (Z * (Z * Z)) := t ← get_second_clock; mret (0, (t, 0)).
Definition rtc_settime (polls : nat) (tp : Z * Z) : M ckst Z := set_second_clock polls (u32 tp.1);; mret 0.

Definition clockinit : M ckst unit :=
  on_cpu (initlock clocklock);;
  r ← rtc_gettime;
  modify (set_xtime (if r.1 <? 0 then (1744166080, 0) else r.2)).

Definition clockintr : M ckst unit :=
  on_cpu (acquire clocklock);;
  modify (fun s => set_jiffies (u64 (jiffies s + 1)) s);;
  update_times;;
  zoom ckwake set_ckwake wake_jiffies;;
  on_cpu (release clocklock).

(** The bytes of a [struct timespec]. *)
Definition timespec_bytes (t : Z * Z) : list Z :=
  (fun i => Z.shiftr (u64 t.1) (8 * i) mod 256) <$> seqZ 0 8 ++ ((fun i => Z.shiftr (u64 t.2) (8 * i) mod 256) <$> seqZ 0 8).

Definition copy_time (a : Z) (t : Z * Z) : M ckst Z := fun s =>
  let r := copyout a (timespec_bytes t) (ckuser s) in Done r.1 (set_ckuser r.2 s).

(** With [userout] the time goes to the user address [tp_addr], otherwise to
    the caller. *)
Definition clock_gettime (userout : bool) (clk_id tp_addr : Z) : M ckst (Z * option (Z * Z)) :=
  o ← gets (fun s => if clk_id =? CLOCK_REALTIME then Some (xtime s)
                     else if clk_id =? CLOCK_PROCESS_CPUTIME_ID then Some (0, 0) else None);
  match o with
  | None => mret (- EINVAL, None)
  | Some tp =>
      if userout then
        r ← copy_time tp_addr tp;
        mret (if r <? 0 then - EFAULT else 0, None)
      else mret (0, Some tp)
  end.

Definition clock_settime (polls : nat) (clk_id : Z) (tp : Z * Z) : M ckst Z :=
  if clk_id =? CLOCK_REALTIME then
    c ← gets ckcred;
    if capable CAP_SYS_TIME c then set_second_clock polls (u32 tp.1);; mret 0 else mret (- EPERM)
  else mret (- EINVAL).

Definition get_uptime : M ckst Z := gets (fun s => s64 (jiffies s * HZ)).
Definition get_ticks : M ckst Z := gets (fun s => s64 (jiffies s)).
End Clock.
Arguments ckst : clear implicits.
