(* ===== verification/ClockProps.v ===== *)
(** * Properties of the clock and the calendar

    The calendar of rtc.c is right for every second an unsigned 32-bit counter
    can show: the days are checked one by one by computation, the seconds of a
    day by arithmetic. *)
From S2P Require Import Prelude Spinlock UserMem Cred Clock.

(** ** Dates *)

(** The date part of [rtc_time_to_tm]: year, month, day, week day, year day. *)
Definition date_of (days0 : Z) : Z * (Z * Z) * (Z * Z) :=
  let days := s32 days0 in
  let wday := Z.rem (s32 (days + 4)) 7 in
  let year := u32 (1970 + Z.quot days 365) in
  let days := s32 (days - u32 (u32 (u32 (year - 1970) * 365) + LEAPS_THRU_END_OF (u32 (year - 1)) - LEAPS_THRU_END_OF (1970 - 1))) in
  let early := days <? 0 in
  let year := if early then u32 (year - 1) else year in
  let days := if early then s32 (days + 365 + Z.b2z (is_leap_year (s32 year))) else days in
  let m := find_month 11 0 days year in
  (s32 (year - 1900), (m.1, s32 (m.2 + 1)), (wday, s32 (days + 1))).

(** Arithmetic with division by constants. *)

Lemma s32_small x : - 2147483648 <= x < 2147483648 -> s32 x = x.
Proof. intros Hx. apply swrap_small; [lia|exact Hx]. Qed.

Lemma u32_small x : 0 <= x < 4294967296 -> u32 x = x.
Proof. apply (wrap_small 32). Qed.

Lemma u64_small x : 0 <= x < 18446744073709551616 -> u64 x = x.
Proof. apply (wrap_small 64). Qed.

Lemma time_to_tm_split t : 0 <= t < 2 ^ 32 ->
  let d := date_of (t / 86400) in let s := t mod 86400 in
  rtc_time_to_tm t = Tm (s mod 60) (s / 60 mod 60) (s / 3600) d.1.2.2 d.1.2.1 d.1.1 d.2.1 d.2.2 0.
Proof.
  change (2 ^ 32) with 4294967296. intros Ht d s. assert (Hd : 0 <= t / 86400 <= 49710) by dlia. assert (Hs : 0 <= s < 86400) by (unfold s; dlia).
  unfold rtc_time_to_tm. cbv zeta. rewrite Z.quot_div_nonneg by lia. assert (E1 : s32 (t / 86400) = t / 86400) by (apply s32_small; lia).
  assert (E2 : u64 (t - u32 (s32 (t / 86400) * 86400)) = s) by (rewrite E1, u32_small by lia; rewrite u64_small; unfold s; dlia).
  rewrite E2. assert (Hh : s32 (s / 3600) = s / 3600) by (apply s32_small; dlia). rewrite Hh.
  assert (E3 : u64 (s - s / 3600 * 3600) = s mod 3600) by (rewrite u64_small; dlia). rewrite E3.
  assert (Hm : s32 (s mod 3600 / 60) = s / 60 mod 60) by (rewrite s32_small; dlia). rewrite Hm.
  assert (E6 : s32 (s mod 3600 - s / 60 mod 60 * 60) = s mod 60) by (rewrite s32_small; dlia). rewrite E6.
  unfold d, date_of. cbv zeta. rewrite E1. cbn [fst snd]. exact eq_refl.
Qed.

(** Leap days up to the end of year [y], and the first day of a year. *)
Definition leaps (y : Z) : Z := y / 4 - y / 100 + y / 400.
Definition new_year (y : Z) : Z := 365 * (y - 1970) + leaps (y - 1) - 477.

Lemma leaps_step y : 0 < y -> leaps y = leaps (y - 1) + Z.b2z (is_leap_year y).
Proof.
  intros Hy. unfold leaps, is_leap_year. rewrite !Z.rem_mod_nonneg by lia.
  destruct (y mod 4 =? 0) eqn:E4, (y mod 100 =? 0) eqn:E100, (y mod 400 =? 0) eqn:E400; bool_hyps; cbn [andb orb negb Z.b2z]; dlia.
Qed.

Lemma new_year_step y : 0 < y -> new_year (y + 1) = new_year y + 365 + Z.b2z (is_leap_year y).
Proof. intros Hy. unfold new_year. replace (y + 1 - 1) with y by lia. rewrite (leaps_step y) by lia. lia. Qed.

Lemma LEAPS_leaps y : 0 <= y < 4000 -> LEAPS_THRU_END_OF y = leaps y.
Proof. intros Hy. unfold LEAPS_THRU_END_OF, leaps. apply u32_small. dlia. Qed.

(** The days of year [y] before month [mon]. *)
Definition days_before (mon y : Z) : Z := foldr Z.add 0 ((fun m => month_days m y) <$> seqZ 0 mon).
Lemma days_before_leap mon y y' : is_leap_year y = is_leap_year y' -> days_before mon y = days_before mon y'.
Proof. intros E. unfold days_before. f_equal. apply list_fmap_ext. intros i x _. unfold month_days. by rewrite E. Qed.

(** The months of a year: the date of day [k] and what [tm_to_time] makes of it. *)
Definition month_ok (leap : bool) (k : Z) : bool :=
  let y := if leap then 2000 else 2001 in
  let m := find_month 11 0 k y in
  let mday := m.2 + 1 in
  (0 <=? m.1) && (m.1 <? 12) && (1 <=? mday) && (mday <=? month_days m.1 y) && (days_before m.1 y + mday =? k + 1) &&
  (if m.1 <? 2 then 367 * (m.1 + 11) / 12 + mday =? k + 337 else 367 * (m.1 - 1) / 12 + mday =? k - 28 - Z.b2z leap).

Lemma months_ok : forallb (month_ok false) (seqZ 0 365) && forallb (month_ok true) (seqZ 0 366) = true.
Proof. vm_compute. reflexivity. Qed.

Lemma month_ok_all leap k : 0 <= k < 365 + Z.b2z leap -> month_ok leap k = true.
Proof.
  intros Hk. pose proof months_ok as H. apply andb_prop in H as [H1 H2]. rewrite forallb_forall in H1, H2.
  destruct leap; [apply H2|apply H1]; apply list_elem_of_In, elem_of_seqZ; cbn [Z.b2z] in Hk; lia.
Qed.

(** Only the leap day makes the months of two years differ. *)
Lemma find_month_leap y y' fuel : forall m k, is_leap_year (s32 y) = is_leap_year (s32 y') -> find_month fuel m k y = find_month fuel m k y'.
Proof. induction fuel as [|fuel IH]; intros m k E; [done|]. cbn [find_month]. unfold month_days. rewrite E. by case_if; [|apply IH]. Qed.

Lemma date_of_spec d : 0 <= d <= 49710 -> exists y k, 1970 <= y <= 2106 /\ 0 <= k < 365 + Z.b2z (is_leap_year y) /\ d = new_year y + k /\
  date_of d = (y - 1900, ((find_month 11 0 k y).1, s32 ((find_month 11 0 k y).2 + 1)), ((d + 4) mod 7, k + 1)).
Proof.
  intros Hd. set (y0 := 1970 + d / 365). assert (Hy0 : 1970 <= y0 <= 2106) by (unfold y0; dlia).
  set (k0 := d - new_year y0). assert (Hk0 : -40 <= k0 < 365) by (unfold k0, new_year, leaps, y0; dlia).
  assert (Hg : s32 (d - u32 (u32 (u32 (y0 - 1970) * 365) + LEAPS_THRU_END_OF (u32 (y0 - 1)) - LEAPS_THRU_END_OF (1970 - 1))) = k0).
  { assert (E : LEAPS_THRU_END_OF (u32 (y0 - 1)) = leaps (y0 - 1)) by (rewrite u32_small by lia; apply LEAPS_leaps; lia).
    rewrite E, (LEAPS_leaps (1970 - 1)) by lia. change (leaps (1970 - 1)) with 477. rewrite (u32_small (y0 - 1970)) by lia. rewrite (u32_small ((y0 - 1970) * 365)) by lia.
    assert (Hl : 477 <= leaps (y0 - 1) <= 600) by (unfold leaps; dlia). rewrite u32_small by lia. rewrite s32_small; unfold k0, new_year; lia. }
  assert (Hb : forall y, 0 <= Z.b2z (is_leap_year y) <= 1) by (intros y; destruct (is_leap_year y); cbn; lia).
  unfold date_of. cbv zeta. rewrite (s32_small d), (s32_small (d + 4)) by lia. rewrite Z.rem_mod_nonneg, Z.quot_div_nonneg by lia.
  rewrite (u32_small (1970 + d / 365)) by (fold y0; lia). fold y0. rewrite Hg.
  destruct (k0 <? 0) eqn:E; bool_hyps.
  - assert (Hn : 0 <= y0 - 1) by lia. rewrite (u32_small (y0 - 1)), !(s32_small (y0 - 1)) by lia.
    pose proof (new_year_step (y0 - 1) ltac:(lia)) as Hs. rewrite Z.sub_add in Hs. pose proof (Hb (y0 - 1)) as Hb1.
    assert (Hy1 : 1970 <= y0 - 1) by (destruct (Z.eq_dec y0 1970) as [E0|]; [|lia]; unfold k0 in E; rewrite E0 in E; change (new_year 1970) with 0 in E; lia).
    set (k := k0 + 365 + Z.b2z (is_leap_year (y0 - 1))) in *. rewrite (s32_small k), (s32_small (k + 1)), (s32_small (y0 - 1 - 1900)) by lia.
    exists (y0 - 1), k. split; [lia|]. split; [lia|]. split; [unfold k, k0; lia|done].
  - rewrite (s32_small (y0 - 1900)), (s32_small (k0 + 1)) by lia. pose proof (Hb y0). exists y0, k0. split; [lia|]. split; [lia|]. split; [unfold k0; lia|done].
Qed.

Lemma tm_to_time_eq y mon mday h m sec : 1970 <= y <= 2106 -> 0 <= mon < 12 -> 1 <= mday <= 31 ->
  tm_to_time (y - 1900) mon mday h m sec =
  (((if mon <? 2 then leaps (y - 1) + (367 * (mon + 11) / 12 + mday) + 365 * (y - 1) else leaps y + (367 * (mon - 1) / 12 + mday) + 365 * y) - 719499) * 24 + h) * 3600 + m * 60 + sec.
Proof.
  intros Hy Hmon Hd. unfold tm_to_time. cbv zeta. replace (y - 1900 + 1900) with y by lia. rewrite (u32_small y), (u32_small (mon + 1)) by lia.
  assert (Hl : forall z, 1969 <= z <= 2106 -> 400 <= leaps z <= 600) by (intros z Hz; unfold leaps; dlia).
  destruct (mon <? 2) eqn:E; bool_hyps.
  - assert (Hs : s32 (u32 (mon + 1 - 2)) <=? 0 = true /\ u32 (u32 (mon + 1 - 2) + 12) = mon + 11) by (destruct (Z.eq_dec mon 0) as [->|]; [|assert (mon = 1) as -> by lia]; split; reflexivity).
    destruct Hs as [Hs1 Hs2]. rewrite Hs1, Hs2. rewrite (u32_small (y - 1)), (u32_small (367 * (mon + 11))), (u32_small ((y - 1) * 365)) by lia.
    fold (leaps (y - 1)). specialize (Hl (y - 1) ltac:(lia)). rewrite u32_small by dlia. lia.
  - rewrite (u32_small (mon + 1 - 2)), (s32_small (mon + 1 - 2)) by lia. rewrite (proj2 (Z.leb_gt _ _)) by lia.
    rewrite (u32_small (367 * (mon + 1 - 2))), (u32_small (y * 365)) by lia. fold (leaps y). specialize (Hl y ltac:(lia)).
    replace (mon + 1 - 2) with (mon - 1) by lia. rewrite u32_small by dlia. lia.
Qed.

Lemma month_days_leap mon y y' : is_leap_year y = is_leap_year y' -> month_days mon y = month_days mon y'.
Proof. unfold month_days. by intros ->. Qed.

Lemma month_days_range mon y : 0 <= mon < 12 -> 28 <= month_days mon y <= 31.
Proof.
  intros Hm. unfold month_days. assert (Hb : Z.b2z (is_leap_year y && (mon =? 1)) = if mon =? 1 then Z.b2z (is_leap_year y) else 0) by (destruct (is_leap_year y), (mon =? 1); done).
  rewrite Hb. assert (Hc : 0 <= Z.b2z (is_leap_year y) <= 1) by (destruct (is_leap_year y); cbn; lia).
  assert (mon = 0 \/ mon = 1 \/ mon = 2 \/ mon = 3 \/ mon = 4 \/ mon = 5 \/ mon = 6 \/ mon = 7 \/ mon = 8 \/ mon = 9 \/ mon = 10 \/ mon = 11) as Hc2 by lia.
  set (b := Z.b2z (is_leap_year y)) in *. clearbody b. decompose [or] Hc2; subst mon; vm_compute (nth _ _ _); cbn [Z.eqb Pos.eqb]; lia.
Qed.

Lemma new_year_2100 y k : 1970 <= y <= 2106 -> 0 <= k < 365 + Z.b2z (is_leap_year y) -> (new_year y + k <? 47482) = (y <=? 2099).
Proof.
  intros Hy Hk. pose proof (new_year_step y ltac:(lia)) as Hs. assert (E : new_year 2100 = 47482) by reflexivity.
  destruct (y <=? 2099) eqn:Ey; bool_hyps; [apply Z.ltb_lt|apply Z.ltb_ge].
  - assert (new_year (y + 1) <= 47482); [|lia]. clear E Hs Hk. unfold new_year, leaps. replace (y + 1 - 1) with y by lia. dlia.
  - assert (47482 <= new_year y); [|lia]. clear E Hs Hk. unfold new_year, leaps. dlia.
Qed.

(** C35: for every value of the 32-bit seconds counter, the broken-down time
    has its time, day and month in range, with the right day of the week, and
    stands for exactly those seconds; [tm_yday] is the day of the year counted
    from 1, so it is 366 on the last day of a leap year, out of the range a
    count from 0 has; [rtc_valid_tm] accepts the date until the end of
    2099. *)
Theorem calendar_correct t : 0 <= t < 2 ^ 32 ->
  let d := rtc_time_to_tm t in
  tm_to_time (tm_year d) (tm_mon d) (tm_mday d) (tm_hour d) (tm_min d) (tm_sec d) = t /\
  (0 <= tm_sec d < 60 /\ 0 <= tm_min d < 60 /\ 0 <= tm_hour d < 24 /\ 0 <= tm_mon d < 12 /\ 1 <= tm_mday d <= month_days (tm_mon d) (tm_year d + 1900)) /\
  tm_wday d = (t / 86400 + 4) mod 7 /\
  (tm_yday d = days_before (tm_mon d) (tm_year d + 1900) + tm_mday d /\ 1 <= tm_yday d <= 365 + Z.b2z (is_leap_year (tm_year d + 1900))) /\
  rtc_valid_tm d = if t <? 4102444800 then 0 else - EINVAL.
Proof.
  intros Ht d. unfold d. rewrite time_to_tm_split by done. change (2 ^ 32) with 4294967296 in Ht. cbv zeta.
  assert (Hd : 0 <= t / 86400 <= 49710) by dlia. destruct (date_of_spec _ Hd) as (y & k & Hy & Hk & Ed & ->).
  cbn [fst snd tm_sec tm_min tm_hour tm_mday tm_mon tm_year tm_wday tm_yday].
  set (leap := is_leap_year y) in *. assert (El : is_leap_year (s32 y) = is_leap_year (s32 (if leap then 2000 else 2001))).
  { rewrite s32_small by lia. fold leap. by destruct leap. }
  rewrite (find_month_leap y _ 11 0 k El). pose proof (month_ok_all leap k Hk) as Hm. unfold month_ok in Hm. cbv zeta in Hm.
  set (m := find_month 11 0 k (if leap then 2000 else 2001)) in *.
  assert (Em : is_leap_year (if leap then 2000 else 2001) = leap) by (by destruct leap). bool_hyps.
  assert (Emd : month_days m.1 (if leap then 2000 else 2001) = month_days m.1 y) by (by apply month_days_leap).
  pose proof (month_days_range m.1 y ltac:(lia)) as Hr. rewrite (s32_small (m.2 + 1)) by lia.
  assert (Edb : days_before m.1 (if leap then 2000 else 2001) = days_before m.1 y) by (by apply days_before_leap).
  split; [|split; [|split; [done|split]]].
  - rewrite tm_to_time_eq by lia. pose proof (leaps_step y ltac:(lia)) as Hls. fold leap in Hls. unfold new_year in Ed.
    assert (Hday : (if m.1 <? 2 then leaps (y - 1) + (367 * (m.1 + 11) / 12 + (m.2 + 1)) + 365 * (y - 1) else leaps y + (367 * (m.1 - 1) / 12 + (m.2 + 1)) + 365 * y) - 719499 = t / 86400).
    { destruct (m.1 <? 2); bool_hyps; lia. }
    rewrite Hday. dlia.
  - replace (y - 1900 + 1900) with y by lia. dlia.
  - replace (y - 1900 + 1900) with y by lia. fold leap. rewrite <- Edb. lia.
  - unfold rtc_valid_tm. cbn [tm_sec tm_min tm_hour tm_mday tm_mon tm_year]. replace (y - 1900 + 1900) with y by lia.
    rewrite (s32_small y), (u32_small m.1), !u32_small by dlia.
    rewrite (proj2 (Z.leb_gt 12 _)), (proj2 (Z.ltb_ge (m.2 + 1) 1)), (proj2 (Z.ltb_ge (month_days m.1 y) _)) by lia.
    rewrite (proj2 (Z.leb_gt 24 _)), !(proj2 (Z.leb_gt 60 _)) by dlia. rewrite !orb_false_r.
    assert (E : (t <? 4102444800) = (t / 86400 <? 47482)) by (destruct (t <? 4102444800) eqn:Et; bool_hyps; symmetry; [apply Z.ltb_lt|apply Z.ltb_ge]; dlia).
    rewrite E, Ed, new_year_2100 by done. destruct (y <=? 2099) eqn:Ey; bool_hyps; [rewrite (proj2 (Z.ltb_ge _ _)) by lia|rewrite (proj2 (Z.ltb_lt _ _)) by lia]; done.
Qed.

(** ** The wall time *)
Section Wall.
Context {R : Type} `{!rtc_dev R} {W : Type} `{!waker W} {U : Type} `{!usermem U}.
Local Abbreviation ckst := (ckst R W U).
Implicit Types s : ckst.

(** The wall time in nanoseconds, and its normal form. *)
Definition nanos (t : Z * Z) : Z := t.1 * 1000000000 + t.2.
Definition normal (t : Z * Z) : Prop := 0 <= t.1 < 2 ^ 62 /\ 0 <= t.2 < 1000000000.

Lemma tick_nanos t : normal t -> t.1 + 1 < 2 ^ 62 -> normal (tick t) /\ nanos (tick t) = nanos t + TICK_NSEC.
Proof.
  destruct t as [sec ns]. unfold normal, nanos, tick, TICK_NSEC. change (2 ^ 62) with 4611686018427387904. cbn [fst snd]. intros [Hs Hn] Hb.
  assert (E64 : forall x, - 9223372036854775808 <= x < 9223372036854775808 -> s64 x = x) by (intros x Hx; apply swrap_small; [lia|exact Hx]).
  rewrite (E64 (ns + 10000000)) by lia. destruct (1000000000 <=? ns + 10000000) eqn:E; bool_hyps; cbn [fst snd]; rewrite ?E64 by lia; lia.
Qed.

(** [n] timer interrupts. *)
Fixpoint clock_ticks (n : nat) : M ckst unit :=
  match n with O => mret tt | S n => clockintr;; clock_ticks n end.

(** Between interrupts: the wall time is up to date, the lock is free. *)
Record clock_ok s : Prop := {
  ck_lock : lk_free {[clocklock]} (ckcpu s);
  ck_sync : wall_jiffies s = jiffies s;
  ck_range : 0 <= jiffies s < 2 ^ 64;
  ck_time : normal (xtime s)
}.

Lemma clockintr_ok s : (forall w, exists w', wake_jiffies w = Done tt w') -> clock_ok s -> (xtime s).1 + 1 < 2 ^ 62 ->
  exists s', clockintr s = Done tt s' /\ clock_ok s' /\ jiffies s' = u64 (jiffies s + 1) /\ xtime s' = tick (xtime s) /\
    ckrtc s' = ckrtc s /\ ckuser s' = ckuser s /\ ckcred s' = ckcred s.
Proof.
  intros Hw [Hl Hs Hj Ht] Hb. destruct (lk_acquire _ clocklock _ Hl ltac:(set_solver)) as (c1 & E1 & Hc1). destruct (lk_release _ _ _ Hc1) as (c2 & E2 & Hc2).
  destruct (Hw (ckwake s)) as (w' & Ew). assert (Hr : 0 <= u64 (jiffies s + 1) < 2 ^ 64) by (apply (wrap_range 64); lia).
  assert (Ed : u64 (u64 (jiffies s + 1) - jiffies s) = 1) by (rewrite wrap_sub_l; replace (jiffies s + 1 - jiffies s) with 1 by lia; reflexivity).
  exists (Ckst (u64 (jiffies s + 1)) (tick (xtime s)) (u64 (jiffies s + 1)) c2 (ckrtc s) w' (ckuser s) (ckcred s)). split.
  - unfold clockintr. assert (Ea : on_cpu (acquire clocklock) s = Done tt (set_ckcpu c1 s)) by (unfold on_cpu, zoom; by rewrite E1).
    rewrite (bind_Done _ _ _ _ _ Ea), bind_modify. unfold update_times. rewrite bind_assoc, bind_gets. cbn [jiffies wall_jiffies set_jiffies set_ckcpu].
    rewrite Hs, Ed. change (1 =? 0) with false. cbv iota. rewrite bind_assoc, bind_modify, bind_modify.
    cbn [xtime wall_jiffies set_wall set_xtime set_jiffies set_ckcpu jiffies]. rewrite Hs. change (Z.to_nat 1) with 1%nat. cbn [update_wall_time].
    unfold zoom at 1, mbind, M_bind at 1. cbn [ckwake set_ckwake set_xtime set_wall set_jiffies set_ckcpu]. rewrite Ew. unfold on_cpu, zoom. cbn [ckcpu set_ckwake set_xtime set_wall set_jiffies set_ckcpu]. by rewrite E2.
  - split; [|done]. split; cbn [ckcpu wall_jiffies jiffies xtime]; [done|done|done|apply tick_nanos; done].
Qed.

(** C38: [n] timer interrupts move the wall time on by exactly [n] ticks of
    10 ms, keep its nanoseconds below one second and count [n] jiffies, each
    with the clock's lock taken and given back. *)
Theorem clock_ticks_correct n : forall s, (forall w, exists w', wake_jiffies w = Done tt w') -> clock_ok s -> (xtime s).1 + Z.of_nat n < 2 ^ 62 ->
  exists s', clock_ticks n s = Done tt s' /\ clock_ok s' /\ jiffies s' = u64 (jiffies s + Z.of_nat n) /\
    nanos (xtime s') = nanos (xtime s) + Z.of_nat n * TICK_NSEC /\ ckrtc s' = ckrtc s /\ ckuser s' = ckuser s /\ ckcred s' = ckcred s.
Proof.
  induction n as [|n IH]; intros s Hw Hok Hb.
  - exists s. split; [done|]. split; [done|]. destruct Hok. rewrite Z.add_0_r, wrap_small by done. split; [done|]. split; [lia|done].
  - destruct (clockintr_ok s Hw Hok ltac:(lia)) as (s1 & E1 & Hok1 & J1 & X1 & R1 & U1 & C1). pose proof (tick_nanos (xtime s) (ck_time _ Hok) ltac:(lia)) as [_ Hn1].
    assert (Hb1 : (xtime s1).1 <= (xtime s).1 + 1).
    { rewrite X1. destruct (ck_time _ Hok) as [Hs Hn]. unfold tick. change (2 ^ 62) with 4611686018427387904 in *. case_if; cbn [fst]; [|lia].
      rewrite swrap_small; [lia|lia|change (2 ^ (64 - 1)) with 9223372036854775808; lia]. }
    destruct (IH s1 Hw Hok1 ltac:(lia)) as (s2 & E2 & Hok2 & J2 & X2 & R2 & U2 & C2). exists s2. cbn [clock_ticks]. rewrite (bind_Done _ _ _ _ _ E1).
    split; [done|]. split; [done|]. split; [rewrite J2, J1, wrap_add_l; f_equal; lia|]. split; [rewrite X2, X1, Hn1; lia|]. split; [congruence|]. split; congruence.
Qed.
End Wall.

(** ** Concrete clocks *)

(** A counter that shows what was last set, and nobody to wake. *)
#[local] Instance still_rtc : rtc_dev Z := {| rtc_read r := (r, r); rtc_set t _ := t |}.
#[local] Instance no_waker : waker unit := {| wake_jiffies := mret tt |}.
Definition clock0 : ckst Z unit flat :=
  Ckst 41 (1734229806, 985000000) 41 (Cpu 0 false true {[clocklock := free_lock]}) 1734229806 tt ∅ (Cred 0 0 0 0 0 0 0 0 0 0 0 18).

Lemma calendar_correct_witness : tm_to_time 124 11 15 2 30 6 = 1734229806 /\ tm_wday (rtc_time_to_tm 1734229806) = 0 /\
  tm_yday (rtc_time_to_tm 1735603200) = 366.
Proof.
  pose proof (calendar_correct 1735603200 ltac:(lia)) as H. cbv zeta in H. destruct H as (_ & _ & _ & [Hy _] & _). rewrite Hy. clear Hy.
  pose proof (calendar_correct 1734229806 ltac:(lia)) as H. cbv zeta in H. destruct H as (H1 & _ & H3 & _).
  split; [rewrite <- H1; reflexivity|split; [rewrite H3; reflexivity|reflexivity]].
Defined.

Lemma clock_ticks_correct_witness : exists s', clock_ticks 2 clock0 = Done tt s' /\ jiffies s' = 43 /\ nanos (xtime s') = 1734229807005000000.
Proof.
  assert (Hl : lk_free {[clocklock]} (ckcpu clock0)).
  { split; [split; [done| |done|done]|].
    - intros a l Ha. cbn in Ha. rewrite decide_False by (apply not_elem_of_empty). by apply lookup_singleton_Some in Ha as [_ <-].
    - intros a Ha. apply elem_of_singleton in Ha as ->. exists free_lock. reflexivity. }
  destruct (clock_ticks_correct 2 clock0 ltac:(intros []; exists tt; reflexivity)
    ltac:(split; [exact Hl|reflexivity|cbn; lia|split; cbn; lia]) ltac:(cbn; lia)) as (s' & E & _ & J & X & _).
  exists s'. split; [exact E|]. split; [exact J|]. rewrite X. reflexivity.
Defined.
