(* ===== verification/Pipe.v ===== *)
(** * Pipes (kernel/pipe.c)

    A pipe is a ring of [PIPESIZE] bytes with two 32-bit counters that only
    grow.  A writer or reader that calls [sleep] gives up the pipe's lock and
    is entered in [asleep]; [wakeup] takes out the sleepers of a channel, and a
    process that is out again resumes its loop where it left it.  User memory
    is the interface of UserMem.v, one memory per process. *)
From S2P Require Import Prelude Spinlock UserMem.

Definition PIPESIZE : Z := 512.

(** The two channels, [&pi->nread] and [&pi->nwrite]. *)
Inductive pchan := ChRead | ChWrite.
#[export] Instance pchan_eq_dec : EqDecision pchan.
Proof. solve_decision. Defined.

Record pipe := Pipe { data : list Z; nread : Z; nwrite : Z; readopen : Z; writeopen : Z }.

(** What a call did: it returned, or it sleeps on a channel with its loop
    counter in the frame. *)
Inductive presult := Ret (r : Z) | Slept (i : Z).

Definition pi_lock : Z := 1.

Section Pipe.
Context {U : Type} `{!usermem U}.

Record pst := Pst {
  pi : option pipe;            (* None after kfree *)
  pcpu : cpu;
  asleep : gmap nat pchan;
  pkilled : nat -> bool;
  pmem : nat -> U
}.

Definition set_pi v (s : pst) := Pst v (pcpu s) (asleep s) (pkilled s) (pmem s).
Definition set_pcpu v (s : pst) := Pst (pi s) v (asleep s) (pkilled s) (pmem s).
Definition set_asleep v (s : pst) := Pst (pi s) (pcpu s) v (pkilled s) (pmem s).
Definition set_pmem v (s : pst) := Pst (pi s) (pcpu s) (asleep s) (pkilled s) v.

Definition get_pi : M pst pipe := fun s => deref (pi s) s.
Definition put_pi (p : pipe) : M pst unit := modify (set_pi (Some p)).
Definition pacquire : M pst unit := zoom pcpu set_pcpu (acquire pi_lock).
Definition prelease : M pst unit := zoom pcpu set_pcpu (release pi_lock).
Definition pi_killed (pr : nat) : M pst bool := gets (fun s => pkilled s pr).
Definition pi_wakeup (ch : pchan) : M pst unit :=
  modify (fun s => set_asleep (filter (fun kv => kv.2 <> ch) (asleep s)) s).
(** The process leaves the lock and the CPU; it takes the lock again when it
    resumes. *)
Definition pi_sleep (pr : nat) (ch : pchan) : M pst unit :=
  prelease;; modify (fun s => set_asleep (<[pr := ch]> (asleep s)) s).

(** The part of [pipealloc] that initialises the pipe. *)
Definition pipe_init (d : list Z) : M pst unit :=
  put_pi (Pipe d 0 0 1 1);; zoom pcpu set_pcpu (initlock pi_lock).

Definition pipeclose (writable : Z) : M pst unit :=
  pacquire;;
  (if negb (writable =? 0) then
     p ← get_pi; put_pi (Pipe (data p) (nread p) (nwrite p) (readopen p) 0);; pi_wakeup ChRead
   else
     p ← get_pi; put_pi (Pipe (data p) (nread p) (nwrite p) 0 (writeopen p));; pi_wakeup ChWrite);;
  p ← get_pi;
  if (readopen p =? 0) && (writeopen p =? 0) then
    prelease;; modify (set_pi None)
  else prelease.

Definition pipewrite_end (i : Z) : M pst presult := pi_wakeup ChRead;; prelease;; mret (Ret i).

Fixpoint pipewrite_loop (fuel : nat) (pr : nat) (addr n i : Z) : M pst presult :=
  match fuel with
  | O => nofuel
  | S fuel =>
      if i <? n then
        p ← get_pi; k ← pi_killed pr;
        if (readopen p =? 0) || (k : bool) then prelease;; mret (Ret (-1))
        else if nwrite p =? u32 (nread p + PIPESIZE) then
          pi_wakeup ChRead;; pi_sleep pr ChWrite;; mret (Slept i)
        else
          u ← gets (fun s => pmem s pr);
          let r := copyin (u64 (addr + i)) 1 u in
          if r.1 =? -1 then pipewrite_end i
          else
            ch ← deref (head r.2);
            put_pi (Pipe (<[Z.to_nat (nwrite p mod PIPESIZE) := ch]> (data p))
                         (nread p) (u32 (nwrite p + 1)) (readopen p) (writeopen p));;
            pipewrite_loop fuel pr addr n (i + 1)
      else pipewrite_end i
  end.
Definition pipewrite_fuel (n i : Z) : nat := S (Z.to_nat (n - i)).
(** [pipewrite] from its start ([i = 0]), or from the [sleep] it left with
    counter [i]. *)
Definition pipewrite_from (pr : nat) (addr n i : Z) : M pst presult :=
  pacquire;; pipewrite_loop (pipewrite_fuel n i) pr addr n i.
Definition pipewrite (pr : nat) (addr n : Z) : M pst presult := pipewrite_from pr addr n 0.

Definition piperead_end (i : Z) : M pst presult := pi_wakeup ChWrite;; prelease;; mret (Ret i).

Fixpoint piperead_copy (fuel : nat) (pr : nat) (addr n i : Z) : M pst presult :=
  match fuel with
  | O => nofuel
  | S fuel =>
      if i <? n then
        p ← get_pi;
        if nread p =? nwrite p then piperead_end i
        else
          ch ← deref (data p !! Z.to_nat (nread p mod PIPESIZE));
          put_pi (Pipe (data p) (u32 (nread p + 1)) (nwrite p) (readopen p) (writeopen p));;
          u ← gets (fun s => pmem s pr);
          let r := copyout (u64 (addr + i)) [ch] u in
          modify (fun s => set_pmem (fun q => if decide (q = pr) then r.2 else pmem s q) s);;
          if r.1 =? -1 then piperead_end i
          else piperead_copy fuel pr addr n (i + 1)
      else piperead_end i
  end.
(** [piperead], and what it does each time it comes back from [sleep]: the
    waiting loop keeps no local state. *)
Definition piperead (pr : nat) (addr n : Z) : M pst presult :=
  pacquire;;
  p ← get_pi;
  if (nread p =? nwrite p) && negb (writeopen p =? 0) then
    k ← pi_killed pr;
    if (k : bool) then prelease;; mret (Ret (-1))
    else pi_sleep pr ChRead;; mret (Slept 0)
  else piperead_copy (S (Z.to_nat n)) pr addr n 0.

(** ** The queue a pipe represents *)

Definition count (p : pipe) : Z := u32 (nwrite p - nread p).
Definition byte_at (p : pipe) (k : Z) : Z := data p !!! Z.to_nat ((nread p + k) mod PIPESIZE).
Definition contents (p : pipe) : list Z := byte_at p <$> seqZ 0 (count p).

Record pipe_wf (p : pipe) : Prop := {
  pw_data : length (data p) = 512%nat;
  pw_nread : 0 <= nread p < 2 ^ 32;
  pw_nwrite : 0 <= nwrite p < 2 ^ 32;
  pw_count : count p <= PIPESIZE;
}.

Lemma u32_succ_mod (x : Z) : u32 (x + 1) mod PIPESIZE = (x + 1) mod PIPESIZE.
Proof.
  unfold wrap, PIPESIZE. replace (2 ^ 32) with (512 * 2 ^ 23) by reflexivity.
  rewrite Z.rem_mul_r by lia. rewrite Z.mul_comm, Z_mod_plus_full. apply Z.mod_mod. lia.
Qed.

Lemma count_range p : 0 <= count p.
Proof. apply (wrap_range 32). lia. Qed.

Lemma count_nwrite p : pipe_wf p -> nwrite p = u32 (nread p + count p).
Proof.
  intros [? ? ? ?]. unfold count. rewrite wrap_add_r. replace (nread p + (nwrite p - nread p)) with (nwrite p) by lia.
  by rewrite wrap_small.
Qed.

Lemma index_mod (x y : Z) : (u32 (x + y)) mod PIPESIZE = (x + y) mod PIPESIZE.
Proof. replace (x + y) with (x + y - 1 + 1) by lia. apply u32_succ_mod. Qed.

Lemma contents_length p : Z.of_nat (length (contents p)) = count p.
Proof. unfold contents. rewrite length_fmap, length_seqZ. pose proof (count_range p). lia. Qed.

Lemma pipe_empty p : pipe_wf p -> (nread p =? nwrite p) = bool_decide (contents p = []).
Proof.
  intros Hp. pose proof (count_nwrite p Hp) as E. destruct (nread p =? nwrite p) eqn:En; bool_hyps; symmetry.
  - apply bool_decide_eq_true. apply nil_length_inv. pose proof (contents_length p) as L. unfold count in L.
    rewrite En, Z.sub_diag in L. change (u32 0) with 0 in L. lia.
  - apply bool_decide_eq_false. intros C. apply En. pose proof (contents_length p) as L. rewrite C in L. cbn in L.
    rewrite E, <- L, Z.add_0_r. symmetry. apply wrap_small, Hp.
Qed.

Lemma pipe_full p : pipe_wf p -> (nwrite p =? u32 (nread p + PIPESIZE)) = bool_decide (length (contents p) = 512%nat).
Proof.
  intros Hp. pose proof (count_nwrite p Hp) as E. pose proof (contents_length p) as L. pose proof (count_range p) as R.
  pose proof (pw_count _ Hp) as C. pose proof (pw_nread _ Hp) as Hr. unfold PIPESIZE in *.
  destruct (nwrite p =? u32 (nread p + 512)) eqn:En; bool_hyps; symmetry.
  - apply bool_decide_eq_true. unfold count in *. rewrite En in L. autorewrite with wrap_db in L.
    replace (nread p + 512 - nread p) with 512 in L by lia. change (u32 512) with 512 in L. lia.
  - apply bool_decide_eq_false. intros Hl. apply En. rewrite E, <- L, Hl. reflexivity.
Qed.

(** One byte in. *)
Definition pipe_put (ch : Z) (p : pipe) : pipe :=
  Pipe (<[Z.to_nat (nwrite p mod PIPESIZE) := ch]> (data p)) (nread p) (u32 (nwrite p + 1)) (readopen p) (writeopen p).
(** One byte out. *)
Definition pipe_get (p : pipe) : pipe :=
  Pipe (data p) (u32 (nread p + 1)) (nwrite p) (readopen p) (writeopen p).

Lemma count_put ch p : pipe_wf p -> count p < PIPESIZE -> count (pipe_put ch p) = count p + 1.
Proof.
  intros Hp Hc. unfold count, pipe_put; cbn [nread nwrite]. rewrite wrap_sub_l.
  replace (nwrite p + 1 - nread p) with ((nwrite p - nread p) + 1) by lia. rewrite <- wrap_add_l. fold (count p).
  apply wrap_small. pose proof (count_range p). unfold PIPESIZE in *. lia.
Qed.

Lemma byte_at_index p k : nread p + k >= 0 -> (Z.to_nat ((nread p + k) mod PIPESIZE) < 512)%nat.
Proof. intros. unfold PIPESIZE. pose proof (Z.mod_pos_bound (nread p + k) 512 ltac:(lia)). lia. Qed.

Lemma contents_put ch p : pipe_wf p -> count p < PIPESIZE ->
  pipe_wf (pipe_put ch p) /\ contents (pipe_put ch p) = contents p ++ [ch].
Proof.
  intros Hp Hc. pose proof (count_put ch p Hp Hc) as Ec. pose proof (count_range p) as R. pose proof (pw_nread _ Hp) as Hr.
  split.
  - split; [cbn; rewrite length_insert; apply Hp|exact Hr|cbn; apply (wrap_range 32); lia|unfold PIPESIZE in *; lia].
  - unfold contents. rewrite Ec, seqZ_app by lia. rewrite fmap_app. f_equal.
    + apply list_fmap_ext. intros j k Hj. apply lookup_seqZ in Hj as [-> Hj].
      unfold byte_at, pipe_put; cbn [data nread].
      rewrite list_lookup_total_insert_ne; [done|]. rewrite (count_nwrite p Hp), index_mod. unfold PIPESIZE in *.
      intros E. apply Z2Nat.inj in E; [|apply Z.mod_pos_bound; lia..].
      pose proof (Z.div_mod (nread p + count p) 512 ltac:(lia)). pose proof (Z.div_mod (nread p + (0 + Z.of_nat j)) 512 ltac:(lia)). nia.
    + change (seqZ (0 + count p) 1) with [0 + count p]. cbn [fmap list_fmap]. f_equal.
      unfold byte_at, pipe_put; cbn [data nread]. rewrite (count_nwrite p Hp), index_mod, Z.add_0_l.
      apply list_lookup_total_insert_eq. rewrite (pw_data _ Hp). apply byte_at_index. lia.
Qed.

Lemma contents_get p : pipe_wf p -> contents p <> [] ->
  exists ch, data p !! Z.to_nat (nread p mod PIPESIZE) = Some ch /\
    pipe_wf (pipe_get p) /\ contents p = ch :: contents (pipe_get p).
Proof.
  intros Hp Hne. pose proof (count_range p) as R. pose proof (pw_nread _ Hp) as Hr. pose proof (pw_count _ Hp) as Hc.
  assert (0 < count p). { destruct (decide (count p = 0)) as [E|]; [|lia]. unfold contents in Hne. rewrite E in Hne. done. }
  assert (Ec : count (pipe_get p) = count p - 1).
  { unfold count, pipe_get; cbn [nread nwrite]. rewrite wrap_sub_r.
    replace (nwrite p - (nread p + 1)) with ((nwrite p - nread p) - 1) by lia. rewrite <- wrap_sub_l. fold (count p).
    apply wrap_small. unfold PIPESIZE in *. lia. }
  assert (Hi : (Z.to_nat (nread p mod PIPESIZE) < length (data p))%nat).
  { rewrite (pw_data _ Hp). rewrite <- (Z.add_0_r (nread p)). apply byte_at_index. lia. }
  destruct (lookup_lt_is_Some_2 _ _ Hi) as [ch Hch]. exists ch. split; [done|]. split.
  - split; [apply Hp|cbn; apply (wrap_range 32); lia|apply Hp|unfold PIPESIZE in *; lia].
  - unfold contents. rewrite Ec. replace (count p) with (Z.succ (count p - 1)) by lia. rewrite seqZ_cons by lia.
    replace (Z.succ (count p - 1) - 1) with (count p - 1) by lia. rewrite fmap_cons. f_equal.
    + unfold byte_at. rewrite Z.add_0_r. by apply list_lookup_total_correct.
    + replace (Z.pred (Z.succ (count p - 1))) with (count p - 1) by lia.
      apply list_eq. intros j. rewrite !list_lookup_fmap. destruct (decide (Z.of_nat j < count p - 1)).
      * rewrite !lookup_seqZ_lt by lia. cbn. f_equal. unfold byte_at, pipe_get; cbn [data nread]. f_equal. f_equal.
        rewrite <- (Z.add_mod_idemp_l (u32 _)) by (unfold PIPESIZE; lia). rewrite u32_succ_mod, Z.add_mod_idemp_l by (unfold PIPESIZE; lia).
        f_equal. lia.
      * rewrite !lookup_seqZ_ge by lia. done.
Qed.

(** ** The lock *)

Definition lock_free (c : cpu) : Prop := cpu_is ∅ 0 c /\ is_Some (locks c !! pi_lock).
Definition lock_held (c : cpu) : Prop := cpu_is {[pi_lock]} 1 c /\ is_Some (locks c !! pi_lock).

Lemma pacquire_ok s : lock_free (pcpu s) -> exists c, pacquire s = Done tt (set_pcpu c s) /\ lock_held c.
Proof.
  intros [Hc Hm]. destruct (acquire_spec _ _ _ pi_lock Hc ltac:(lia) (not_elem_of_empty _) Hm) as [E H].
  eexists. split; [unfold pacquire, zoom; by rewrite E|]. split; [by rewrite union_empty_r_L in H|].
  cbn. rewrite lookup_insert_eq. eauto.
Qed.

Lemma prelease_ok s : lock_held (pcpu s) -> exists c, prelease s = Done tt (set_pcpu c s) /\ lock_free c.
Proof.
  intros [Hc Hm]. destruct (release_spec _ _ _ pi_lock Hc ltac:(lia) (elem_of_singleton_2 _ _ eq_refl)) as [E H].
  eexists. split; [unfold prelease, zoom; by rewrite E|]. split; [by rewrite difference_diag_L in H|].
  cbn. rewrite lookup_insert_eq. eauto.
Qed.

Definition awake (ch : pchan) (m : gmap nat pchan) : gmap nat pchan := filter (fun kv => kv.2 <> ch) m.

Lemma get_pi_ok s p : pi s = Some p -> get_pi s = Done p s.
Proof. unfold get_pi, deref. by intros ->. Qed.

(** The call is over: the lock is free and the channel's sleepers are awake. *)
Definition returned (ch : pchan) (s s' : pst) : Prop :=
  lock_free (pcpu s') /\ asleep s' = awake ch (asleep s) /\ pkilled s' = pkilled s.
(** The call sleeps on [ch], having woken the sleepers of [w]. *)
Definition slept (w : pchan -> Prop) `{!forall c, Decision (w c)} (pr : nat) (ch : pchan) (s s' : pst) : Prop :=
  lock_free (pcpu s') /\ asleep s' = <[pr := ch]> (filter (fun kv => ~ w kv.2) (asleep s)) /\ pkilled s' = pkilled s.

Lemma pipewrite_end_ok s i : lock_held (pcpu s) ->
  exists s', pipewrite_end i s = Done (Ret i) s' /\ pi s' = pi s /\ pmem s' = pmem s /\ returned ChRead s s'.
Proof.
  intros H. unfold pipewrite_end, pi_wakeup. mstep.
  destruct (prelease_ok (set_asleep (awake ChRead (asleep s)) s) H) as (c & E & Hc).
  unfold awake in E. rewrite E. eexists. split; [reflexivity|]. split; [done|]. split; [done|]. split; [exact Hc|]. split; done.
Qed.

Lemma piperead_end_ok s i : lock_held (pcpu s) ->
  exists s', piperead_end i s = Done (Ret i) s' /\ pi s' = pi s /\ pmem s' = pmem s /\ returned ChWrite s s'.
Proof.
  intros H. unfold piperead_end, pi_wakeup. mstep.
  destruct (prelease_ok (set_asleep (awake ChWrite (asleep s)) s) H) as (c & E & Hc).
  unfold awake in E. rewrite E. eexists. split; [reflexivity|]. split; [done|]. split; [done|]. split; [exact Hc|]. split; done.
Qed.

Context `{!usermem_laws U}.

(** The byte of user memory at [a]. *)
Definition user_byte (u : U) (a : Z) (ch : Z) : Prop := copyin (u64 a) 1 u = (0, [ch]).

Lemma copyin1 u a : (copyin (u64 a) 1 u).1 = -1 \/ exists ch, user_byte u a ch.
Proof.
  destruct (copyin_result (u64 a) 1 u) as [E|E]; [right|by left].
  pose proof (copyin_full (u64 a) 1 u ltac:(lia) E) as L. unfold user_byte.
  destruct (copyin (u64 a) 1 u) as [r l]; cbn in *. subst r. destruct l as [|ch [|]]; cbn in L; try lia. eauto.
Qed.

(** What a write that started at counter [i] with the queue of [p] leaves:
    the bytes [bs] were taken from user memory in order and are at the end of
    the queue. *)
Definition wrote (pr : nat) (addr n i : Z) (p : pipe) (s : pst) (bs : list Z) (r : presult) (s' : pst) : Prop :=
  pmem s' = pmem s /\
  (forall j ch, bs !! j = Some ch -> user_byte (pmem s pr) (addr + i + Z.of_nat j) ch) /\
  (exists p', pi s' = Some p' /\ pipe_wf p' /\ contents p' = contents p ++ bs /\
     readopen p' = readopen p /\ writeopen p' = writeopen p /\
     (forall k, r = Slept k -> length (contents p') = 512%nat)) /\
  match r with
  | Ret k => k = i + Z.of_nat (length bs) /\ (k = n \/ k < n /\ (copyin (u64 (addr + k)) 1 (pmem s pr)).1 = -1) /\
             returned ChRead s s'
  | Slept k => k = i + Z.of_nat (length bs) /\ k < n /\ slept (fun c => c = ChRead) pr ChWrite s s'
  end.

Lemma pipewrite_loop_ok pr addr n : forall fuel i s p, (Z.to_nat (n - i) < fuel)%nat -> i <= n ->
  pi s = Some p -> pipe_wf p -> (i < n -> readopen p <> 0 /\ pkilled s pr = false) -> lock_held (pcpu s) ->
  exists bs r s', pipewrite_loop fuel pr addr n i s = Done r s' /\ wrote pr addr n i p s bs r s'.
Proof.
  induction fuel as [|fuel IH]; intros i s p Hf Hi Hp Hw Hok Hl; [lia|]. cbn [pipewrite_loop].
  destruct (i <? n) eqn:Ei; bool_hyps.
  2:{ destruct (pipewrite_end_ok s i Hl) as (s' & E & Epi & Em & Hr). exists [], (Ret i), s'. split; [exact E|].
      split; [done|]. split; [intros j ch Hj; rewrite lookup_nil in Hj; discriminate|]. split.
      - exists p. rewrite Epi, app_nil_r. split; [done|]. split; [done|]. split; [done|]. split; [done|]. split; [done|]. discriminate.
      - split; [cbn; lia|]. split; [left; lia|done]. }
  destruct (Hok Ei) as [Hro Hk]. rewrite (bind_Done _ _ _ _ _ (get_pi_ok _ _ Hp)). unfold pi_killed at 1. unfold gets at 1. mstep. rewrite Hk, orb_false_r.
  destruct (readopen p =? 0) eqn:Er; bool_hyps; [done|]. rewrite (pipe_full _ Hw).
  destruct (bool_decide (length (contents p) = 512%nat)) eqn:Ef.
  - apply bool_decide_eq_true in Ef. unfold pi_wakeup, pi_sleep. mstep.
    destruct (prelease_ok (set_asleep (awake ChRead (asleep s)) s) Hl) as (c & E & Hc).
    unfold awake in E. rewrite E. eexists [], _, _. split; [reflexivity|].
    split; [done|]. split; [intros j ch Hj; rewrite lookup_nil in Hj; discriminate|]. split.
    + exists p. rewrite app_nil_r. split; [done|]. split; [done|]. split; [done|]. split; [done|]. split; [done|]. done.
    + split; [cbn; lia|]. split; [lia|]. split; [exact Hc|]. split; done.
  - apply bool_decide_eq_false in Ef. destruct (copyin1 (pmem s pr) (addr + i)) as [Eb|[ch Eb]].
    + rewrite Eb. cbn [Z.eqb Pos.eqb]. destruct (pipewrite_end_ok s i Hl) as (s' & E & Epi & Em & Hr). exists [], (Ret i), s'.
      split; [exact E|].
      split; [done|]. split; [intros j ch Hj; rewrite lookup_nil in Hj; discriminate|]. split.
      * exists p. rewrite Epi, app_nil_r. split; [done|]. split; [done|]. split; [done|]. split; [done|]. split; [done|]. discriminate.
      * split; [cbn; lia|]. split; [right; split; [lia|exact Eb]|done].
    + pose proof Eb as Eb'. unfold user_byte in Eb'. rewrite Eb'. cbn [fst snd Z.eqb head]. unfold put_pi, modify.
      assert (Hc : count p < PIPESIZE).
      { pose proof (contents_length p). pose proof (pw_count _ Hw). unfold PIPESIZE in *. lia. }
      destruct (contents_put ch p Hw Hc) as [Hw' Ec].
      destruct (IH (i + 1) (set_pi (Some (pipe_put ch p)) s) (pipe_put ch p)) as (bs & r & s' & E & Hm & Hb & (p' & Hp' & Hwf' & Hcs & H1 & H2 & H3) & Hr);
        [lia|lia|done|done|done|done|].
      exists (ch :: bs), r, s'. split; [exact E|]. split; [exact Hm|]. split; [|split].
      * intros [|j] c Hj; [injection Hj as <-; rewrite Z.add_0_r; exact Eb|].
        specialize (Hb j c Hj). cbn [pmem set_pi] in Hb. replace (addr + i + Z.of_nat (S j)) with (addr + (i + 1) + Z.of_nat j) by lia. exact Hb.
      * exists p'. split; [done|]. split; [done|]. split; [rewrite Hcs, Ec, <- app_assoc; done|]. split; [done|]. done.
      * destruct r as [k|k]; destruct Hr as (-> & Hk' & Hr); cbn [length].
        -- split; [lia|]. split; [exact Hk'|exact Hr].
        -- split; [lia|]. split; [exact Hk'|exact Hr].
Qed.

(** User memory after the bytes [bs] went out one by one from [a]. *)
Fixpoint deliver (a : Z) (bs : list Z) (u : U) : U :=
  match bs with
  | [] => u
  | b :: bs => deliver (a + 1) bs (copyout (u64 a) [b] u).2
  end.

(** What a read that is at counter [i] with the queue of [p] leaves: the
    bytes [bs] left the queue in order and went to user memory.  When the last
    of them met a fault it is gone from the queue but not counted. *)
Definition took (pr : nat) (addr n i : Z) (p : pipe) (s : pst) (bs : list Z) (k : Z) (s' : pst) : Prop :=
  (forall q, pmem s' q = if decide (q = pr) then deliver (addr + i) bs (pmem s pr) else pmem s q) /\
  (exists p', pi s' = Some p' /\ pipe_wf p' /\ contents p = bs ++ contents p' /\
     readopen p' = readopen p /\ writeopen p' = writeopen p /\
     (k = i + Z.of_nat (length bs) /\ (k = n \/ k < n /\ contents p' = []) \/
      exists bs0 b, bs = bs0 ++ [b] /\ k = i + Z.of_nat (length bs0) /\ k < n /\
        (copyout (u64 (addr + k)) [b] (deliver (addr + i) bs0 (pmem s pr))).1 = -1)) /\
  returned ChWrite s s'.

Lemma piperead_copy_ok pr addr n : forall fuel i s p, (Z.to_nat (n - i) < fuel)%nat -> i <= n ->
  pi s = Some p -> pipe_wf p -> lock_held (pcpu s) ->
  exists bs k s', piperead_copy fuel pr addr n i s = Done (Ret k) s' /\ took pr addr n i p s bs k s'.
Proof.
  induction fuel as [|fuel IH]; intros i s p Hf Hi Hp Hw Hl; [lia|]. cbn [piperead_copy].
  destruct (piperead_end_ok s i Hl) as (s0 & E0 & Epi0 & Em0 & Hr0).
  assert (Hstop : (i = n \/ i < n /\ contents p = []) -> took pr addr n i p s [] i s0).
  { intros Hs. split; [|split; [|exact Hr0]].
    - intros q. rewrite Em0. by destruct (decide (q = pr)) as [->|].
    - exists p. rewrite Epi0. split; [done|]. split; [done|]. split; [done|]. split; [done|]. split; [done|].
      left. split; [cbn; lia|done]. }
  destruct (i <? n) eqn:Ei; bool_hyps.
  2:{ exists [], i, s0. split; [exact E0|]. apply Hstop. lia. }
  rewrite (bind_Done _ _ _ _ _ (get_pi_ok _ _ Hp)). rewrite (pipe_empty _ Hw).
  destruct (bool_decide (contents p = [])) eqn:Ec.
  { apply bool_decide_eq_true in Ec. exists [], i, s0. split; [exact E0|]. apply Hstop. auto. }
  apply bool_decide_eq_false in Ec. destruct (contents_get p Hw Ec) as (b & Hb & Hw' & Hc).
  unfold put_pi. mstep. rewrite Hb.
  change (Pipe (data p) (u32 (nread p + 1)) (nwrite p) (readopen p) (writeopen p)) with (pipe_get p).
  set (s1 := set_pi (Some (pipe_get p)) s). set (rr := copyout (u64 (addr + i)) [b] (pmem s1 pr)).
  set (s2 := set_pmem (fun q => if decide (q = pr) then rr.2 else pmem s1 q) s1).
  destruct (rr.1 =? -1) eqn:Er; bool_hyps.
  - destruct (piperead_end_ok s2 i Hl) as (s' & E & Epi & Em & Hr). exists [b], i, s'. split; [exact E|]. split; [|split].
    + intros q. rewrite Em. unfold s2, s1, rr. cbn. reflexivity.
    + exists (pipe_get p). rewrite Epi. split; [done|]. split; [done|]. split; [done|]. split; [done|]. split; [done|].
      right. exists [], b. split; [done|]. split; [cbn; lia|]. split; [lia|]. exact Er.
    + exact Hr.
  - destruct (IH (i + 1) s2 (pipe_get p)) as (bs & k & s' & E & Hm & (p' & Hp' & Hwf' & Hcs & H1 & H2 & H3) & Hr); [lia|lia|done|done|done|].
    assert (Hs2 : pmem s2 pr = (copyout (u64 (addr + i)) [b] (pmem s pr)).2).
    { unfold s2, s1, rr. cbn. by rewrite decide_True by done. }
    exists (b :: bs), k, s'. split; [exact E|]. split; [|split; [|exact Hr]].
    + intros q. rewrite Hm. destruct (decide (q = pr)) as [->|Hq].
      * rewrite Hs2. cbn [deliver]. by replace (addr + (i + 1)) with (addr + i + 1) by lia.
      * unfold s2, s1. cbn. by rewrite decide_False by done.
    + exists p'. split; [done|]. split; [done|]. split; [rewrite Hc, Hcs; done|]. split; [done|]. split; [done|].
      destruct H3 as [[-> H3]|(bs0 & c & -> & -> & Hk & Hf')].
      * left. split; [cbn [length]; lia|exact H3].
      * right. exists (b :: bs0), c. split; [done|]. split; [cbn [length]; lia|]. split; [lia|].
        rewrite Hs2 in Hf'. cbn [deliver]. by replace (addr + i + 1) with (addr + (i + 1)) by lia.
Qed.

Lemma pacquire_bind {A} (f : M pst A) s :
  lock_free (pcpu s) -> exists c, lock_held c /\ (pacquire;; f) s = f (set_pcpu c s).
Proof. intros H. destruct (pacquire_ok s H) as (c & E & Hc). exists c. split; [done|]. by rewrite (bind_Done _ _ _ _ _ E). Qed.

(** A write with nothing left to do, or on an open pipe. *)
Lemma pipewrite_ok pr addr n i s p : pi s = Some p -> pipe_wf p -> lock_free (pcpu s) -> i <= n ->
  (i < n -> readopen p <> 0 /\ pkilled s pr = false) ->
  exists bs r s', pipewrite_from pr addr n i s = Done r s' /\ wrote pr addr n i p s bs r s'.
Proof.
  intros Hp Hw Hf Hi Hok. unfold pipewrite_from.
  destruct (pacquire_bind (pipewrite_loop (pipewrite_fuel n i) pr addr n i) s Hf) as (c & Hc & ->).
  destruct (pipewrite_loop_ok pr addr n (pipewrite_fuel n i) i (set_pcpu c s) p) as (bs & r & s' & E & H);
    [unfold pipewrite_fuel; lia|lia|done|done|done|done|].
  exists bs, r, s'. split; [exact E|exact H].
Qed.

Lemma pipewrite_refused pr addr n i s p : pi s = Some p -> lock_free (pcpu s) -> i < n ->
  readopen p = 0 \/ pkilled s pr = true ->
  exists c, pipewrite_from pr addr n i s = Done (Ret (-1)) (set_pcpu c s) /\ lock_free c.
Proof.
  intros Hp Hf Hlt Hbad. unfold pipewrite_from.
  destruct (pacquire_bind (pipewrite_loop (pipewrite_fuel n i) pr addr n i) s Hf) as (c & Hc & ->).
  unfold pipewrite_fuel. cbn [pipewrite_loop]. rewrite (proj2 (Z.ltb_lt _ _) Hlt).
  rewrite (bind_Done _ _ _ _ _ (get_pi_ok (set_pcpu c s) p Hp)). unfold pi_killed, gets. mstep. cbn [pkilled set_pcpu].
  replace ((readopen p =? 0) || pkilled s pr)%bool with true.
  2:{ destruct Hbad as [->| ->]; [done|]. by rewrite orb_true_r. }
  destruct (prelease_ok (set_pcpu c s) Hc) as (c' & E & Hc'). rewrite E. exists c'. split; [reflexivity|done].
Qed.

Lemma piperead_ok pr addr n s p : pi s = Some p -> pipe_wf p -> lock_free (pcpu s) -> 0 <= n ->
  contents p <> [] \/ writeopen p = 0 ->
  exists bs k s', piperead pr addr n s = Done (Ret k) s' /\ took pr addr n 0 p s bs k s'.
Proof.
  intros Hp Hw Hf Hn Hok. unfold piperead.
  destruct (pacquire_ok s Hf) as (c & E & Hc). rewrite (bind_Done _ _ _ _ _ E).
  rewrite (bind_Done _ _ _ _ _ (get_pi_ok (set_pcpu c s) p Hp)). rewrite (pipe_empty _ Hw).
  replace (bool_decide (contents p = []) && negb (writeopen p =? 0))%bool with false.
  2:{ destruct Hok as [H|H]; [by rewrite bool_decide_eq_false_2|]. rewrite H. cbn. by rewrite andb_false_r. }
  destruct (piperead_copy_ok pr addr n (S (Z.to_nat n)) 0 (set_pcpu c s) p) as (bs & k & s' & E' & H); [lia|lia|done|done|done|].
  exists bs, k, s'. split; [exact E'|exact H].
Qed.

Lemma piperead_waits pr addr n s p : pi s = Some p -> pipe_wf p -> lock_free (pcpu s) ->
  contents p = [] -> writeopen p <> 0 ->
  exists s', piperead pr addr n s = Done (if pkilled s pr then Ret (-1) else Slept 0) s' /\
    pi s' = Some p /\ pmem s' = pmem s /\ pkilled s' = pkilled s /\ lock_free (pcpu s') /\
    asleep s' = if pkilled s pr then asleep s else <[pr := ChRead]> (asleep s).
Proof.
  intros Hp Hw Hf He Ho. unfold piperead.
  destruct (pacquire_ok s Hf) as (c & E & Hc). rewrite (bind_Done _ _ _ _ _ E).
  rewrite (bind_Done _ _ _ _ _ (get_pi_ok (set_pcpu c s) p Hp)). rewrite (pipe_empty _ Hw).
  rewrite bool_decide_eq_true_2 by done. rewrite (proj2 (Z.eqb_neq _ _) Ho). cbn [negb andb].
  unfold pi_killed, gets, pi_sleep. mstep. cbn [pkilled set_pcpu].
  destruct (prelease_ok (set_pcpu c s) Hc) as (c' & E' & Hc').
  destruct (pkilled s pr) eqn:Ek; rewrite E'; eexists; (split; [reflexivity|]); (split; [done|]); (split; [done|]); (split; [done|]); (split; [exact Hc'|done]).
Qed.

(** [pipeclose] closes its end, wakes the other one, and frees the pipe with
    the second end. *)
Lemma pipeclose_ok w s p : pi s = Some p -> lock_free (pcpu s) ->
  let ro := if w =? 0 then 0 else readopen p in
  let wo := if w =? 0 then writeopen p else 0 in
  exists s', pipeclose w s = Done tt s' /\ lock_free (pcpu s') /\ pmem s' = pmem s /\ pkilled s' = pkilled s /\
    asleep s' = awake (if w =? 0 then ChWrite else ChRead) (asleep s) /\
    pi s' = if (ro =? 0) && (wo =? 0) then None else Some (Pipe (data p) (nread p) (nwrite p) ro wo).
Proof.
  intros Hp Hf ro wo. unfold pipeclose. destruct (pacquire_ok s Hf) as (c & E & Hc). rewrite (bind_Done _ _ _ _ _ E).
  unfold put_pi, pi_wakeup, get_pi, ro, wo. destruct (w =? 0); cbn [negb]; mstep; cbn [pi set_pcpu set_asleep set_pi readopen writeopen]; rewrite Hp; cbn.
  - destruct (prelease_ok (set_asleep (awake ChWrite (asleep s)) (set_pi (Some (Pipe (data p) (nread p) (nwrite p) 0 (writeopen p))) (set_pcpu c s))) Hc) as (c' & E' & Hc').
    unfold awake, set_asleep, set_pi, set_pcpu in E'. cbn in E'. unfold set_asleep, set_pi, set_pcpu; cbn.
    destruct (writeopen p =? 0); cbn; rewrite E'; eexists; (split; [reflexivity|]); (split; [exact Hc'|]); done.
  - rewrite andb_true_r.
    destruct (prelease_ok (set_asleep (awake ChRead (asleep s)) (set_pi (Some (Pipe (data p) (nread p) (nwrite p) (readopen p) 0)) (set_pcpu c s))) Hc) as (c' & E' & Hc').
    unfold awake, set_asleep, set_pi, set_pcpu in E'. cbn in E'. unfold set_asleep, set_pi, set_pcpu; cbn.
    destruct (readopen p =? 0); cbn; rewrite E'; eexists; (split; [reflexivity|]); (split; [exact Hc'|]); done.
Qed.

(** ** Properties *)

(** ** Processes sharing a pipe

    [frames] holds the calls that left in [sleep].  A process in [asleep] runs
    no step; one that was woken goes on where it was.  Calls reach the pipe
    through an open file, so it has not been freed. *)
Inductive pcall := CWrite (addr n i : Z) | CRead (addr n : Z).
Definition call_from (pr : nat) (c : pcall) : M pst presult :=
  match c with CWrite addr n i => pipewrite_from pr addr n i | CRead addr n => piperead pr addr n end.
Definition call_slept (c : pcall) (i : Z) : pcall :=
  match c with CWrite addr n _ => CWrite addr n i | CRead addr n => CRead addr n end.
Definition call_ok (c : pcall) : Prop :=
  match c with CWrite _ n i => 0 <= i <= n | CRead _ n => 0 <= n end.
Definition mark_killed (pr : nat) (s : pst) : pst :=
  Pst (pi s) (pcpu s) (asleep s) (fun q => if decide (q = pr) then true else pkilled s q) (pmem s).
(** SIGKILL only marks the process: [send_signal] calls no handler for a
    process with [killed] set, so a sleeper stays asleep. *)
Definition kill_proc (pr : nat) (s : pst) : pst := mark_killed pr s.
(** A signal whose default action is to terminate reaches [term_handler],
    which marks the process and makes a sleeper runnable.  [send_signal] does
    not call it for a sleeper that is marked already. *)
Definition term_proc (pr : nat) (s : pst) : pst :=
  if bool_decide (is_Some (asleep s !! pr)) && pkilled s pr then s
  else set_asleep (delete pr (asleep s)) (mark_killed pr s).

(** [hit] remembers who was sent SIGKILL; no step reads it. *)
Record sys := Sys { st : pst; frames : gmap nat pcall; hit : gset nat }.

Definition after (pr : nat) (c : pcall) (r : presult) (fr : gmap nat pcall) : gmap nat pcall :=
  match r with Ret _ => delete pr fr | Slept i => <[pr := call_slept c i]> fr end.

Inductive psys_step : sys -> sys -> Prop :=
| PsCall y pr c r s' : pi (st y) <> None -> frames y !! pr = None -> asleep (st y) !! pr = None -> call_ok c ->
    call_from pr c (st y) = Done r s' -> psys_step y (Sys s' (after pr c r (frames y)) (hit y))
| PsResume y pr c r s' : pi (st y) <> None -> frames y !! pr = Some c -> asleep (st y) !! pr = None ->
    call_from pr c (st y) = Done r s' -> psys_step y (Sys s' (after pr c r (frames y)) (hit y))
| PsClose y w s' : pipeclose w (st y) = Done tt s' -> psys_step y (Sys s' (frames y) (hit y))
| PsKill y pr : psys_step y (Sys (kill_proc pr (st y)) (frames y) ({[pr]} ∪ hit y))
| PsTerm y pr : psys_step y (Sys (term_proc pr (st y)) (frames y) (hit y)).

(** What a sleeper of a channel waits for. *)
Definition waiting (p : pipe) (ch : pchan) : Prop :=
  match ch with
  | ChRead => contents p = [] /\ writeopen p <> 0
  | ChWrite => length (contents p) = 512%nat /\ readopen p <> 0
  end.

Definition sleepers_wait (h : gset nat) (s : pst) : Prop :=
  match pi s with
  | Some p => pipe_wf p /\ forall pr ch, asleep s !! pr = Some ch -> waiting p ch /\ (pkilled s pr = true -> pr ∈ h)
  | None => asleep s = ∅
  end.
Definition psys_inv (y : sys) : Prop :=
  lock_free (pcpu (st y)) /\ sleepers_wait (hit y) (st y) /\ (forall pr c, frames y !! pr = Some c -> call_ok c).

Lemma awake_Some ch m pr c : awake ch m !! pr = Some c <-> m !! pr = Some c /\ c <> ch.
Proof. unfold awake. by rewrite map_lookup_filter_Some. Qed.

Lemma contents_le p : pipe_wf p -> (length (contents p) <= 512)%nat.
Proof. intros Hw. pose proof (contents_length p). pose proof (pw_count _ Hw). unfold PIPESIZE in *. lia. Qed.

(** Everyone a write leaves asleep waits for something. *)
Lemma write_sleepers h pr addr n i p s bs r s' : pi s = Some p -> sleepers_wait h s ->
  (i < n -> readopen p <> 0 /\ pkilled s pr = false) -> 0 <= i <= n -> wrote pr addr n i p s bs r s' ->
  sleepers_wait h s' /\ lock_free (pcpu s') /\ match r with Ret _ => True | Slept k => 0 <= k <= n end.
Proof.
  intros Hp Hs Hro Hin (_ & _ & (p' & Hp' & Hw' & Hc & Hr & Hwo & Hfull) & Hres).
  unfold sleepers_wait in *. rewrite Hp in Hs. rewrite Hp'. destruct Hs as [Hw Hs].
  assert (Hold : forall q c, asleep s !! q = Some c -> c <> ChRead -> waiting p' c /\ (pkilled s q = true -> q ∈ h)).
  { intros q c Hq Hne. destruct (Hs q c Hq) as [Hwt ?]. split; [|done]. destruct c; [done|]. destruct Hwt as [Hl Ho].
    split; [|by rewrite Hr]. pose proof (contents_le _ Hw') as Hle. rewrite Hc, length_app in *. lia. }
  destruct r as [k|k]; destruct Hres as (-> & Hk' & Hlf & Has & Hkl).
  - split; [|done]. split; [done|]. intros q c. rewrite Has, awake_Some, Hkl. intros [Hq Hne]. eauto.
  - split; [|split; [done|lia]]. split; [done|]. intros q c. rewrite Has, Hkl. intros Hq. apply lookup_insert_Some in Hq as [[<- <-]|[Hne Hq]].
    + destruct (Hro ltac:(lia)) as [Ho Hkp]. split; [|by rewrite Hkp]. split; [eauto|by rewrite Hr].
    + apply map_lookup_filter_Some in Hq as [Hq ?]. eauto.
Qed.

Lemma read_sleepers h pr addr n p s bs k s' : pi s = Some p -> sleepers_wait h s -> took pr addr n 0 p s bs k s' ->
  sleepers_wait h s' /\ lock_free (pcpu s').
Proof.
  intros Hp Hs (_ & (p' & Hp' & Hw' & Hc & Hr & Hwo & _) & Hlf & Has & Hkl).
  unfold sleepers_wait in *. rewrite Hp in Hs. rewrite Hp'. destruct Hs as [Hw Hs]. split; [|done]. split; [done|].
  intros q c. rewrite Has, awake_Some, Hkl. intros [Hq Hne]. destruct (Hs q c Hq) as [Hwt ?]. split; [|done].
  destruct c; [|done]. destruct Hwt as [He Ho]. rewrite He in Hc. symmetry in Hc. apply app_eq_nil in Hc as [_ Hc].
  split; [done|by rewrite Hwo].
Qed.

Lemma call_inv h pr c s r s' : pi s <> None -> lock_free (pcpu s) -> sleepers_wait h s -> call_ok c ->
  call_from pr c s = Done r s' ->
  lock_free (pcpu s') /\ sleepers_wait h s' /\ match r with Ret _ => True | Slept i => call_ok (call_slept c i) end.
Proof.
  intros Hne Hf Hs Hok E. destruct (pi s) as [p|] eqn:Hp; [|done]. pose proof Hs as Hs'. unfold sleepers_wait in Hs'. rewrite Hp in Hs'.
  destruct Hs' as [Hw Hsl]. destruct c as [addr n i|addr n]; cbn [call_from call_ok] in *.
  - destruct (decide (i < n /\ (readopen p = 0 \/ pkilled s pr = true))) as [[Hlt Hbad]|Hgood].
    + destruct (pipewrite_refused pr addr n i s p Hp Hf Hlt Hbad) as (c & E' & Hc). rewrite E' in E. injection E as <- <-.
      split; [exact Hc|]. split; [|done]. unfold sleepers_wait. cbn [pi set_pcpu]. rewrite Hp. done.
    + assert (Hg : i < n -> readopen p <> 0 /\ pkilled s pr = false).
      { intros Hlt. destruct (decide (readopen p = 0)); [tauto|]. destruct (pkilled s pr); tauto. }
      destruct (pipewrite_ok pr addr n i s p Hp Hw Hf ltac:(lia) Hg) as (bs & r' & s1 & E' & Hwr). rewrite E' in E. injection E as <- <-.
      destruct (write_sleepers _ _ _ _ _ _ _ _ _ _ Hp Hs Hg Hok Hwr) as (? & ? & ?). split; [done|]. split; [done|]. by destruct r'.
  - destruct (decide (contents p <> [] \/ writeopen p = 0)) as [Hgood|Hbad].
    + destruct (piperead_ok pr addr n s p Hp Hw Hf Hok Hgood) as (bs & k & s1 & E' & Htk). rewrite E' in E. injection E as <- <-.
      destruct (read_sleepers _ _ _ _ _ _ _ _ _ Hp Hs Htk). done.
    + assert (He : contents p = []). { destruct (contents p); [done|]. exfalso. apply Hbad. by left. }
      assert (Ho : writeopen p <> 0) by tauto.
      destruct (piperead_waits pr addr n s p Hp Hw Hf He Ho) as (s1 & E' & Hp1 & _ & Hk1 & Hf1 & Ha1).
      rewrite E' in E. split; [by injection E as _ <-|]. split.
      * injection E as _ <-. unfold sleepers_wait. rewrite Hp1, Hk1, Ha1. split; [done|]. destruct (pkilled s pr) eqn:Ek; [done|].
        intros q c Hq. apply lookup_insert_Some in Hq as [[<- <-]|[? Hq]]; [by rewrite Ek|eauto].
      * injection E as <- _. by destruct (pkilled s pr).
Qed.

Lemma close_sleepers h w s s' : lock_free (pcpu s) -> sleepers_wait h s -> pipeclose w s = Done tt s' ->
  lock_free (pcpu s') /\ sleepers_wait h s'.
Proof.
  intros Hf Hs E. destruct (pi s) as [p|] eqn:Hp.
  2:{ exfalso. revert E. unfold pipeclose. destruct (pacquire_ok s Hf) as (c & Ea & _). rewrite (bind_Done _ _ _ _ _ Ea).
      unfold get_pi. destruct (w =? 0); cbn [negb]; mstep; cbn [pi set_pcpu]; rewrite Hp; discriminate. }
  unfold sleepers_wait in Hs. rewrite Hp in Hs. destruct Hs as [Hw Hs].
  destruct (pipeclose_ok w s p Hp Hf) as (s1 & E' & Hf' & _ & Hk & Ha & Hpi). rewrite E' in E. injection E as <-.
  split; [done|]. unfold sleepers_wait. rewrite Hpi, Ha, Hk.
  assert (Hold : forall q c, awake (if w =? 0 then ChWrite else ChRead) (asleep s) !! q = Some c ->
    waiting (Pipe (data p) (nread p) (nwrite p) (if w =? 0 then 0 else readopen p) (if w =? 0 then writeopen p else 0)) c /\ (pkilled s q = true -> q ∈ h)).
  { intros q c. rewrite awake_Some. intros [Hq Hne]. destruct (Hs q c Hq) as [Hwt ?]. split; [|done].
    destruct (w =? 0), c; done. }
  case_if; bool_hyps.
  - apply map_empty. intros q. destruct (awake _ (asleep s) !! q) as [c|] eqn:Eq; [|done]. exfalso.
    destruct (Hold q c Eq) as [Hwt _]. destruct c; unfold waiting in Hwt; cbn [writeopen readopen] in Hwt; destruct Hwt; congruence.
  - split; [|done]. destruct Hw. split; done.
Qed.

Lemma psys_step_inv y y' : psys_inv y -> psys_step y y' -> psys_inv y'.
Proof.
  intros (Hf & Hs & Hfr) Hst.
  assert (Hafter : forall pr c r, call_ok c -> match r with Ret _ => True | Slept i => call_ok (call_slept c i) end ->
    forall q d, after pr c r (frames y) !! q = Some d -> call_ok d).
  { intros pr c r Hc Hr q d Hq. destruct r as [k|k]; cbn [after] in Hq.
    - apply lookup_delete_Some in Hq as [_ Hq]. eauto.
    - apply lookup_insert_Some in Hq as [[_ <-]|[_ Hq]]; eauto. }
  destruct Hst as [y pr c r s' Hn Hfn Ha Hc E|y pr c r s' Hn Hfn Ha E|y w s' E|y pr|y pr]; unfold psys_inv; cbn [st frames hit].
  - destruct (call_inv _ _ _ _ _ _ Hn Hf Hs Hc E) as (? & ? & ?). eauto 10.
  - destruct (call_inv _ _ _ _ _ _ Hn Hf Hs (Hfr _ _ Hfn) E) as (? & ? & ?). eauto 10.
  - destruct (close_sleepers _ _ _ _ Hf Hs E). done.
  - split; [exact Hf|]. split; [|done]. unfold sleepers_wait, kill_proc, mark_killed in *. cbn [pi asleep pkilled].
    destruct (pi (st y)) as [p|]; [|done]. destruct Hs as [Hw Hs]. split; [done|].
    intros q c Hq. destruct (Hs q c Hq) as [Hwt Hk]. split; [done|]. case_decide; set_solver.
  - unfold term_proc. destruct (_ && _)%bool; [done|]. split; [exact Hf|]. split; [|done].
    unfold sleepers_wait, set_asleep, mark_killed in *. cbn [pi asleep pkilled].
    destruct (pi (st y)) as [p|]; [|by rewrite Hs, delete_empty]. destruct Hs as [Hw Hs]. split; [done|].
    intros q c Hq. apply lookup_delete_Some in Hq as [Hne Hq]. rewrite decide_False by done. eauto.
Qed.

(** ** Properties *)

(** C19: [pipewrite], started or resumed at counter [i], on an open pipe
    appends to the queue exactly the bytes of user memory from [addr + i] on,
    in order and without overrunning the ring.  It returns [n], or the count
    before a fault, and wakes every sleeping reader; or the queue is full, and
    it sleeps having woken the readers.  When the read end is closed or the
    process is killed it returns -1 and leaves the pipe alone.  It always
    terminates, and with the lock free. *)
Theorem pipe_write_correct pr addr n i (s : pst) p :
  pi s = Some p -> pipe_wf p -> lock_free (pcpu s) -> i <= n ->
  (readopen p <> 0 -> pkilled s pr = false ->
     exists bs r s', pipewrite_from pr addr n i s = Done r s' /\ wrote pr addr n i p s bs r s') /\
  (i < n -> readopen p = 0 \/ pkilled s pr = true ->
     exists s', pipewrite_from pr addr n i s = Done (Ret (-1)) s' /\ pi s' = Some p /\ pmem s' = pmem s /\
       asleep s' = asleep s /\ lock_free (pcpu s')).
Proof.
  intros Hp Hw Hf Hi. split.
  - intros Hro Hk. by apply pipewrite_ok.
  - intros Hlt Hbad. destruct (pipewrite_refused pr addr n i s p Hp Hf Hlt Hbad) as (c & E & Hc). eauto 10.
Qed.

(** C23: [piperead] on a pipe with bytes or without writers takes from the
    front of the queue, in order, until it has [n] bytes, the queue is empty
    or user memory faults (the byte that met the fault is lost), hands them
    to user memory one after the other and wakes every sleeping writer.  On an
    empty pipe with a writer it sleeps on the pipe, or returns -1 when the
    process is killed, and changes nothing else. *)
Theorem pipe_read_correct pr addr n (s : pst) p :
  pi s = Some p -> pipe_wf p -> lock_free (pcpu s) -> 0 <= n ->
  (contents p <> [] \/ writeopen p = 0 ->
     exists bs k s', piperead pr addr n s = Done (Ret k) s' /\ took pr addr n 0 p s bs k s') /\
  (contents p = [] -> writeopen p <> 0 ->
     exists s', piperead pr addr n s = Done (if pkilled s pr then Ret (-1) else Slept 0) s' /\
       pi s' = Some p /\ pmem s' = pmem s /\ pkilled s' = pkilled s /\ lock_free (pcpu s') /\
       asleep s' = if pkilled s pr then asleep s else <[pr := ChRead]> (asleep s)).
Proof.
  intros Hp Hw Hf Hn. split.
  - by apply piperead_ok.
  - by apply piperead_waits.
Qed.

(** C8: no wakeup is lost.  However any number of processes interleave their
    reads, writes and closes on one pipe with signals that kill them, starting
    from a state where the invariant holds (one where nobody sleeps, say), a
    process sleeping in [piperead] faces an empty pipe that still has a
    writer, one sleeping in [pipewrite] a full pipe that still has a reader,
    the pipe's lock is free between calls, and the ring stays within its
    bounds.  A process that sleeps although it is marked killed was sent
    SIGKILL, which does not wake it. *)
Theorem pipe_no_lost_wakeup y y' : psys_inv y -> rtc psys_step y y' ->
  lock_free (pcpu (st y')) /\
  match pi (st y') with
  | None => asleep (st y') = ∅
  | Some p => pipe_wf p /\
      forall pr ch, asleep (st y') !! pr = Some ch ->
        (pkilled (st y') pr = true -> pr ∈ hit y') /\
        match ch with
        | ChRead => contents p = [] /\ writeopen p <> 0
        | ChWrite => length (contents p) = 512%nat /\ readopen p <> 0
        end
  end.
Proof.
  intros Hy Hr. assert (Hy' : psys_inv y') by (induction Hr; eauto using psys_step_inv).
  destruct Hy' as (Hf & Hs & _). split; [done|]. unfold sleepers_wait in Hs. destruct (pi (st y')) as [p|]; [|done].
  destruct Hs as [Hw Hs]. split; [done|]. intros pr ch Hp. destruct (Hs pr ch Hp) as [Hwt ?]. done.
Qed.

End Pipe.
Arguments pst U : clear implicits.
Arguments sys U : clear implicits.

(** ** A pipe between two processes *)

Definition demo_umem (q : nat) : flat := if decide (q = 1%nat) then <[100 := 7]> (<[101 := 8]> ∅) else <[200 := 0]> ∅.
Definition demo_pipe (d : list Z) : pipe := Pipe d 0 0 1 1.
Definition demo_locks : cpu := Cpu 0 false true (<[pi_lock := free_lock]> ∅).
Definition demo_pst : pst flat := Pst (Some (demo_pipe (replicate 512 0))) demo_locks ∅ (fun _ => false) demo_umem.

Lemma demo_lock_free : lock_free demo_locks.
Proof.
  split; [|eexists; reflexivity]. split; [reflexivity| | |lia].
  - intros a l. rewrite decide_False by apply not_elem_of_empty. unfold demo_locks; cbn [locks]. intros [[_ <-]|[_ H]]%lookup_insert_Some; [done|by rewrite lookup_empty in H].
  - intros a Ha. by apply not_elem_of_empty in Ha.
Qed.

Lemma demo_pipe_wf : pipe_wf (demo_pipe (replicate 512 0)).
Proof.
  split; [reflexivity|cbn; lia|cbn; lia|vm_compute; congruence].
Qed.

Lemma pipe_write_correct_witness :
  (exists bs r s', pipewrite_from 1 100 2 0 demo_pst = Done r s' /\ wrote 1 100 2 0 (demo_pipe (replicate 512 0)) demo_pst bs r s') /\
  match pipewrite 1 100 2 demo_pst with Done r s' => r = Ret 2 /\ (contents <$> pi s') = Some [7; 8] | _ => False end.
Proof.
  split.
  - apply (proj1 (pipe_write_correct 1 100 2 0 demo_pst (demo_pipe (replicate 512 0)) eq_refl demo_pipe_wf demo_lock_free ltac:(lia))); [discriminate|reflexivity].
  - vm_compute. split; reflexivity.
Defined.

Lemma pipe_read_correct_witness :
  exists s', piperead 2 200 1 demo_pst = Done (Slept 0) s' /\ asleep s' = <[2%nat := ChRead]> ∅.
Proof.
  destruct (proj2 (pipe_read_correct 2 200 1 demo_pst (demo_pipe (replicate 512 0)) eq_refl demo_pipe_wf demo_lock_free ltac:(lia)) ltac:(vm_compute; reflexivity) ltac:(discriminate))
    as (s' & E & _ & _ & _ & _ & Ha).
  exists s'. split; [exact E|exact Ha].
Defined.

(** A reader sleeps on the empty pipe, SIGKILL leaves it asleep, and a write
    wakes it. *)
Definition demo_asleep : pst flat :=
  match piperead 2 200 1 demo_pst with Done _ s => s | _ => demo_pst end.
Definition demo_killed : pst flat := kill_proc 2 demo_asleep.
Definition demo_woken : pst flat :=
  match pipewrite 1 100 2 demo_killed with Done _ s => s | _ => demo_pst end.
Definition demo_frames : gmap nat pcall := <[2%nat := CRead 200 1]> ∅.

Lemma demo_steps_killed : rtc psys_step (Sys demo_pst ∅ ∅) (Sys demo_killed demo_frames ({[2%nat]} ∪ ∅)).
Proof.
  eapply rtc_l; [eapply (PsCall (Sys demo_pst ∅ ∅) 2 (CRead 200 1) (Slept 0) demo_asleep)|].
  - discriminate.
  - reflexivity.
  - reflexivity.
  - cbn. lia.
  - reflexivity.
  - eapply rtc_l; [|apply rtc_refl].
    apply (PsKill (Sys demo_asleep (after 2 (CRead 200 1) (Slept 0) ∅) ∅) 2).
Qed.

Lemma demo_steps : rtc psys_step (Sys demo_pst ∅ ∅) (Sys demo_woken (delete 1%nat demo_frames) ({[2%nat]} ∪ ∅)).
Proof.
  eapply rtc_r; [apply demo_steps_killed|].
  set (y := Sys demo_killed demo_frames ({[2%nat]} ∪ ∅)).
  eassert (H : psys_step y (Sys demo_woken (after 1 (CWrite 100 2 0) (Ret 2) (frames y)) (hit y))); [|exact H].
  apply PsCall; unfold y; cbn [st frames hit]; [|reflexivity..|cbn; lia|reflexivity].
  vm_compute. discriminate.
Qed.

Lemma pipe_no_lost_wakeup_witness :
  asleep demo_killed = <[2%nat := ChRead]> ∅ /\ pkilled demo_killed 2 = true /\ lock_free (pcpu demo_killed) /\
  asleep demo_woken = ∅ /\ lock_free (pcpu demo_woken).
Proof.
  assert (Hi : psys_inv (Sys demo_pst ∅ ∅)).
  { split; [exact demo_lock_free|]. split; [split; [exact demo_pipe_wf|]|]; intros ? ? H; vm_compute in H; discriminate. }
  split; [vm_compute; reflexivity|]. split; [reflexivity|].
  split; [exact (proj1 (pipe_no_lost_wakeup _ _ Hi demo_steps_killed))|].
  split; [vm_compute; reflexivity|]. exact (proj1 (pipe_no_lost_wakeup _ _ Hi demo_steps)).
Defined.
