(* ===== verification/Slab.v ===== *)
(** * The slab allocator (kernel/slab.c)

    A slab is a block of pages that begins with a [struct slab_header], the
    array of free object numbers behind it, and then the objects.  The model
    keeps the header and the array of every slab in [hdrs], by the address of
    the slab; [header->free], a pointer into the array, is the index it points
    to.  Slab caches are in [caches] by address.  NULL is 0.

    The page allocator is the interface [page_source]: SlabPages.v discharges
    it from the buddy allocator.  The caches' locks and [slab_lock] are the
    spinlocks of Spinlock.v. *)
From S2P Require Import Prelude Spinlock.

Definition MAX_SLAB_NAME : Z := 32.
Definition SLAB_FREE_END : Z := 2 ^ 32 - 1.
(** [sizeof(struct slab_header)] and with the end mark's four bytes. *)
Definition sizeof_slab_header : Z := 24.
Definition SLAB_HEADER_SIZE : Z := sizeof_slab_header + 4.
Definition sizeof_slab_cache : Z := 96.
Definition PAGE_SIZE : Z := 0x1000.
Definition PAGE_MAX_DEPTH : nat := 11.
#[global] Arguments PAGE_MAX_DEPTH : simpl never.

(** Blocks of pages by address: [page_address(buddy_alloc(size))],
    [page_address(page_find_head(page_find_by_address(a)))] and
    [buddy_free(page_find_by_address(a))]. *)
Class page_source (P : Type) := PageSource {
  ps_alloc : Z -> M P Z;
  ps_head : Z -> M P Z;
  ps_free : Z -> M P unit;
}.

(** The blocks [u] (address and size) are handed out and pairwise disjoint. *)
Class page_source_laws (P : Type) `{page_source P} := {
  ps_blocks : P -> gmap Z Z -> Prop;
  ps_alloc_ok : forall s u size, ps_blocks s u -> 0 < size <= 2 ^ 22 ->
    (exists msg, ps_alloc size s = Panic msg) \/
    exists a sz s', ps_alloc size s = Done a s' /\ u !! a = None /\ size <= sz /\ ps_blocks s' (<[a := sz]> u);
  ps_head_ok : forall s u a sz b, ps_blocks s u -> u !! a = Some sz -> a <= b < a + sz -> ps_head b s = Done a s;
  ps_free_ok : forall s u a sz, ps_blocks s u -> u !! a = Some sz ->
    exists s', ps_free a s = Done tt s' /\ ps_blocks s' (delete a u);
  ps_disjoint : forall s u a sz b sz', ps_blocks s u -> u !! a = Some sz -> u !! b = Some sz' -> a <> b ->
    a + sz <= b \/ b + sz' <= a;
  ps_bounds : forall s u a sz, ps_blocks s u -> u !! a = Some sz -> 0 < a /\ 0 < sz /\ a + sz <= 2 ^ 32;
}.

Record slab_header := SlabHeader { h_next : Z; h_free : Z; h_object : Z; h_list : list Z }.
Record slab_cache := SlabCache {
  sc_name : list Z; sc_next : Z; slab_size : Z; object_size : Z; alignment : Z;
  slabs_full : Z; slabs_partial : Z
}.

Definition set_h_next v (h : slab_header) := SlabHeader v (h_free h) (h_object h) (h_list h).
Definition set_h_free v (h : slab_header) := SlabHeader (h_next h) v (h_object h) (h_list h).
Definition set_h_list v (h : slab_header) := SlabHeader (h_next h) (h_free h) (h_object h) v.
Definition set_sc_next v (c : slab_cache) := SlabCache (sc_name c) v (slab_size c) (object_size c) (alignment c) (slabs_full c) (slabs_partial c).
Definition set_sc_name v (c : slab_cache) := SlabCache v (sc_next c) (slab_size c) (object_size c) (alignment c) (slabs_full c) (slabs_partial c).
Definition set_slab_size v (c : slab_cache) := SlabCache (sc_name c) (sc_next c) v (object_size c) (alignment c) (slabs_full c) (slabs_partial c).
Definition set_object_size v (c : slab_cache) := SlabCache (sc_name c) (sc_next c) (slab_size c) v (alignment c) (slabs_full c) (slabs_partial c).
Definition set_alignment v (c : slab_cache) := SlabCache (sc_name c) (sc_next c) (slab_size c) (object_size c) v (slabs_full c) (slabs_partial c).
Definition set_slabs_full v (c : slab_cache) := SlabCache (sc_name c) (sc_next c) (slab_size c) (object_size c) (alignment c) v (slabs_partial c).
Definition set_slabs_partial v (c : slab_cache) := SlabCache (sc_name c) (sc_next c) (slab_size c) (object_size c) (alignment c) (slabs_full c) v.
Definition zero_cache : slab_cache := SlabCache [] 0 0 0 0 0 0.

(** The address of [slab_lock], and of a cache's lock. *)
Definition slab_lock : Z := 8.
Definition cache_lock (ca : Z) : Z := ca + 72.

Section Slab.
Context {P : Type} `{!page_source P}.

Record sst := Sst {
  spages : P;
  hdrs : gmap Z slab_header;
  caches : gmap Z slab_cache;
  free_cache_head : Z;
  slab_size_limits : list Z;
  scpu : cpu
}.

Definition set_spages v (s : sst) := Sst v (hdrs s) (caches s) (free_cache_head s) (slab_size_limits s) (scpu s).
Definition set_hdrs v (s : sst) := Sst (spages s) v (caches s) (free_cache_head s) (slab_size_limits s) (scpu s).
Definition set_caches v (s : sst) := Sst (spages s) (hdrs s) v (free_cache_head s) (slab_size_limits s) (scpu s).
Definition set_free_cache_head v (s : sst) := Sst (spages s) (hdrs s) (caches s) v (slab_size_limits s) (scpu s).
Definition set_slab_size_limits v (s : sst) := Sst (spages s) (hdrs s) (caches s) (free_cache_head s) v (scpu s).
Definition set_scpu v (s : sst) := Sst (spages s) (hdrs s) (caches s) (free_cache_head s) (slab_size_limits s) v.

Definition on_pages {A} (m : M P A) : M sst A := zoom spages set_spages m.
Definition sacquire (a : Z) : M sst unit := zoom scpu set_scpu (acquire a).
Definition srelease (a : Z) : M sst unit := zoom scpu set_scpu (release a).
Definition get_hdr (a : Z) : M sst slab_header := fun s => deref (hdrs s !! a) s.
Definition upd_hdr (a : Z) (f : slab_header -> slab_header) : M sst unit := fun s =>
  match hdrs s !! a with Some h => Done tt (set_hdrs (<[a := f h]> (hdrs s)) s) | None => Undef end.
Definition get_cache (a : Z) : M sst slab_cache := fun s => deref (caches s !! a) s.
Definition upd_cache (a : Z) (f : slab_cache -> slab_cache) : M sst unit := fun s =>
  match caches s !! a with Some c => Done tt (set_caches (<[a := f c]> (caches s)) s) | None => Undef end.
(** [free_list[i]], read and written. *)
Definition get_free (a i : Z) : M sst Z := h ← get_hdr a; deref (h_list h !! Z.to_nat i).
Definition put_free (a i v : Z) : M sst unit :=
  h ← get_hdr a;
  if decide (Z.to_nat i < length (h_list h))%nat
  then upd_hdr a (set_h_list (<[Z.to_nat i := v]> (h_list h)))
  else undef.

Definition slab_max_object_num (c : slab_cache) : Z :=
  u32 (u64 (slab_size c - SLAB_HEADER_SIZE - alignment c) / u64 (object_size c + 4)).

(** The mask [~(alignment - 1)] is 32 bits wide. *)
Definition slab_object_base (c : slab_cache) (a : Z) : Z :=
  let base := a + sizeof_slab_header + 4 * (slab_max_object_num c + 1) in
  if alignment c =? 0 then base
  else Z.land (u64 (base + u32 (alignment c - 1))) (u32 (Z.lnot (u32 (alignment c - 1)))).

Definition slab_free_list (n : Z) : list Z := (seqZ 1 n) ++ [SLAB_FREE_END].

Definition slab_new (c : slab_cache) : M sst Z :=
  let n := slab_max_object_num c in
  a ← on_pages (ps_alloc (slab_size c));
  modify (fun s => set_hdrs (<[a := SlabHeader 0 0 (slab_object_base c a) (slab_free_list n)]> (hdrs s)) s);;
  mret a.

(** The page of caches [slab_cache_new] cuts up: each points to the next, the
    last to nothing. *)
Fixpoint link_caches (n : nat) (a : Z) (m : gmap Z slab_cache) : gmap Z slab_cache :=
  match n with
  | O => <[a := zero_cache]> m
  | S n => <[a := set_sc_next (a + sizeof_slab_cache) zero_cache]> (link_caches n (a + sizeof_slab_cache) m)
  end.

Definition slab_cache_new : M sst Z :=
  h ← gets free_cache_head;
  (if h =? 0 then
     a ← on_pages (ps_alloc PAGE_SIZE);
     modify (fun s => set_caches (link_caches (Z.to_nat (PAGE_SIZE / sizeof_slab_cache - 1)) a (caches s)) s);;
     modify (set_free_cache_head a)
   else mret tt);;
  ca ← gets free_cache_head;
  c ← get_cache ca;
  modify (set_free_cache_head (sc_next c));;
  upd_cache ca (set_sc_next 0);;
  zoom scpu set_scpu (initlock (cache_lock ca));;
  mret ca.

Definition slab_cache_delete (ca : Z) : M sst unit :=
  h ← gets free_cache_head;
  upd_cache ca (fun _ => set_sc_next h zero_cache);;
  modify (set_free_cache_head ca).

(** The largest object of a slab of order [i]. *)
Definition slab_size_limit (i : nat) : Z :=
  let slab_size := s32 (PAGE_SIZE * Z.shiftl 1 (Z.of_nat i)) in
  u32 (slab_size / 9 - (SLAB_HEADER_SIZE / 8 + 1) - 4).

Definition slab_cache_init : M sst unit :=
  modify (set_slab_size_limits (slab_size_limit <$> seq 0 PAGE_MAX_DEPTH));;
  zoom scpu set_scpu (initlock slab_lock);;
  modify (set_free_cache_head 0).

(** Step 6 of [slab_cache_create]; [n] orders are left. *)
Fixpoint choose_slab_size (n : nat) (i : nat) (os : Z) (limits : list Z) : M sst (option Z) :=
  match n with
  | O => mret None
  | S n =>
      l ← deref (limits !! i);
      if os <=? l then mret (Some (u32 (PAGE_SIZE * Z.shiftl 1 (Z.of_nat i)))) else choose_slab_size n (S i) os limits
  end.

(** [safestrcpy(cache->name, name, strlen(name))] keeps one character less
    than the name has. *)
Definition slab_cache_create (name : list Z) (size align_arg : Z) : M sst Z :=
  if size =? 0 then mret 0
  else if MAX_SLAB_NAME <=? Z.of_nat (length name) then mret 0
  else
    sacquire slab_lock;;
    ca ← slab_cache_new;
    srelease slab_lock;;
    upd_cache ca (set_sc_name (take (length name - 1) name));;
    let align := if align_arg =? 0 then 4 else align_arg in
    let os := Z.land (u32 (size + align - 1)) (u32 (Z.lnot (align - 1))) in
    upd_cache ca (set_object_size os);;
    upd_cache ca (set_alignment align_arg);;
    limits ← gets slab_size_limits;
    ss ← choose_slab_size PAGE_MAX_DEPTH 0 os limits;
    (match ss with Some ss => upd_cache ca (set_slab_size ss) | None => mret tt end);;
    c ← get_cache ca;
    if slab_size c =? 0 then mret 0 else mret ca.

(** A loop of [slab_cache_destroy]. *)
Fixpoint free_slabs (fuel : nat) (h : Z) : M sst unit :=
  match fuel with
  | O => nofuel
  | S fuel =>
      if h =? 0 then mret tt
      else hd ← get_hdr h; on_pages (ps_free h);; free_slabs fuel (h_next hd)
  end.
Definition slab_cache_destroy (fuel : nat) (ca : Z) : M sst unit :=
  sacquire slab_lock;;
  c ← get_cache ca; free_slabs fuel (slabs_full c);;
  c ← get_cache ca; free_slabs fuel (slabs_partial c);;
  slab_cache_delete ca;;
  srelease slab_lock.

(** Steps 2 and 3 of [slab_cache_alloc]: a slab with a free object. *)
Definition slab_partial (ca : Z) : M sst Z :=
  c ← get_cache ca;
  if slabs_partial c =? 0 then a ← slab_new c; upd_cache ca (set_slabs_partial a);; mret a
  else mret (slabs_partial c).

(** Steps 4 and 5: take its first free object; a slab without another one
    moves to the full list. *)
Definition slab_take (ca h : Z) : M sst Z :=
  hd ← get_hdr h;
  let index := u32 (h_free hd) in
  next_index ← get_free h (h_free hd);
  put_free h index SLAB_FREE_END;;
  upd_hdr h (set_h_free next_index);;
  e ← get_free h next_index;
  if e =? SLAB_FREE_END then
    hd ← get_hdr h;
    upd_cache ca (set_slabs_partial (h_next hd));;
    c ← get_cache ca;
    (if slabs_full c =? 0 then upd_hdr h (set_h_next 0) else upd_hdr h (set_h_next (slabs_full c)));;
    upd_cache ca (set_slabs_full h);;
    mret index
  else mret index.

Definition slab_cache_alloc (ca : Z) : M sst Z :=
  sacquire (cache_lock ca);;
  h ← slab_partial ca;
  index ← slab_take ca h;
  srelease (cache_lock ca);;
  hd ← get_hdr h;
  c ← get_cache ca;
  mret (h_object hd + u32 (object_size c * index)).

(** The search of the full list in [slab_cache_free]: [prev] is the cell [hp]
    points to, the list head (0) or the [next] field of a slab.  On a match the
    slab moves to the partial list and the code releases [slab_lock]. *)
Fixpoint unlink_full (fuel : nat) (ca header prev h : Z) : M sst unit :=
  match fuel with
  | O => nofuel
  | S fuel =>
      if h =? 0 then panic "broken slab"
      else
        hd ← get_hdr h;
        if h =? header then
          (if prev =? 0 then upd_cache ca (set_slabs_full (h_next hd)) else upd_hdr prev (set_h_next (h_next hd)));;
          c ← get_cache ca;
          upd_hdr h (set_h_next (slabs_partial c));;
          upd_cache ca (set_slabs_partial h);;
          srelease slab_lock
        else unlink_full fuel ca header h (h_next hd)
  end.

Definition slab_cache_free (fuel : nat) (ca obj : Z) : M sst unit :=
  header ← on_pages (ps_head obj);
  sacquire (cache_lock ca);;
  hd ← get_hdr header;
  c ← get_cache ca;
  let index := u32 (Z.quot (obj - h_object hd) (object_size c)) in
  let next_index := u32 (h_free hd) in
  put_free header index next_index;;
  upd_hdr header (set_h_free index);;
  e ← get_free header next_index;
  if e =? SLAB_FREE_END then
    c ← get_cache ca;
    unlink_full fuel ca header 0 (slabs_full c)
  else srelease (cache_lock ca).

End Slab.
Arguments sst P : clear implicits.
