(* ===== verification/SlabInv.v ===== *)
(** * Invariant of a slab cache and what its operations do

    The number of a free object is in the chain that starts at [header->free]
    and ends at the array's last element, which holds the end mark; the number
    of an object in use has the end mark in its own element.  A slab is on the
    full list exactly when its chain is empty. *)
From S2P Require Import Prelude Spinlock Slab.

(** ** Geometry of a cache *)
Record cache_geom (c : slab_cache) (n : Z) : Prop := {
  cg_n : n = slab_max_object_num c;
  cg_os : 0 < object_size c;
  cg_al : 0 <= alignment c;
  cg_n1 : 1 <= n;
  cg_fit : SLAB_HEADER_SIZE + alignment c + n * (object_size c + 4) <= slab_size c;
  cg_ss : 0 < slab_size c <= 2 ^ 22;
  cg_pow : alignment c = 0 \/ exists k, 0 <= k <= 22 /\ alignment c = 2 ^ k
}.

(** The chain of free numbers from [i]. *)
Fixpoint fchain (l : list Z) (i : Z) (fr : list Z) (n : Z) : Prop :=
  match fr with
  | [] => i = n
  | x :: fr => i = x /\ exists j, l !! Z.to_nat x = Some j /\ fchain l j fr n
  end.

Record slab_ok (c : slab_cache) (n a : Z) (h : slab_header) (fr : list Z) : Prop := {
  so_len : Z.of_nat (length (h_list h)) = n + 1;
  so_obj : h_object h = slab_object_base c a;
  so_chain : fchain (h_list h) (h_free h) fr n;
  so_nodup : NoDup fr;
  so_range : Forall (fun x => 0 <= x < n) fr;
  so_end : h_list h !! Z.to_nat n = Some SLAB_FREE_END;
  so_used : forall i, 0 <= i < n -> i ∉ fr -> h_list h !! Z.to_nat i = Some SLAB_FREE_END
}.

(** Masking with the 32-bit complement of a power of two minus one. *)
Lemma land_lnot_align x k : 0 <= k -> 0 <= x -> x < 2 ^ 32 ->
  Z.land x (u32 (Z.lnot (2 ^ k - 1))) = x / 2 ^ k * 2 ^ k.
Proof.
  intros Hk Hx Hb. rewrite <- Z.shiftl_mul_pow2, <- Z.shiftr_div_pow2 by lia. rewrite <- Z.ldiff_ones_r by lia.
  apply Z.bits_inj'. intros i Hi. rewrite Z.ldiff_spec, Z.land_spec. unfold wrap.
  destruct (Z.lt_ge_cases i 32).
  - rewrite Z.mod_pow2_bits_low by lia. rewrite Z.lnot_spec by lia.
    replace (2 ^ k - 1) with (Z.ones k) by (rewrite Z.ones_equiv; lia). done.
  - rewrite Z.mod_pow2_bits_high by lia. rewrite andb_false_r.
    destruct (decide (x = 0)) as [->|Hne]; [by rewrite Z.bits_0|].
    assert (Hz : Z.testbit x i = false); [|by rewrite Hz].
    apply Z.bits_above_log2; [lia|]. apply Z.log2_lt_pow2; [lia|].
    pose proof (Z.pow_le_mono_r 2 32 i ltac:(lia) ltac:(lia)). lia.
Qed.

Lemma align_up x k : 0 <= k <= 22 -> 0 < x -> x + 2 ^ k <= 2 ^ 32 ->
  let y := Z.land (u64 (x + u32 (2 ^ k - 1))) (u32 (Z.lnot (u32 (2 ^ k - 1)))) in
  x <= y < x + 2 ^ k /\ (2 ^ k | y).
Proof.
  intros Hk Hx Hb. pose proof (pow2_pos k ltac:(lia)) as Hp. pose proof (Z.pow_le_mono_r 2 k 22 ltac:(lia) ltac:(lia)) as Hle.
  rewrite (wrap_small 32 (2 ^ k - 1)) by (change (2 ^ 22) with 4194304 in Hle; change (2 ^ 32) with 4294967296 in *; lia).
  rewrite (wrap_small 64) by (change (2 ^ 32) with 4294967296 in *; change (2 ^ 64) with 18446744073709551616; lia).
  cbv zeta. rewrite land_lnot_align by lia. split; [|apply Z.divide_factor_r].
  pose proof (Z.div_mod (x + (2 ^ k - 1)) (2 ^ k) ltac:(lia)). pose proof (Z.mod_pos_bound (x + (2 ^ k - 1)) (2 ^ k) ltac:(lia)). lia.
Qed.

Lemma object_base_bounds c n a : cache_geom c n -> 0 < a -> a + slab_size c <= 2 ^ 32 ->
  let b := slab_object_base c a in
  a + sizeof_slab_header + 4 * (n + 1) <= b /\ b + n * object_size c <= a + slab_size c /\
  (alignment c = 0 \/ (alignment c | b)).
Proof.
  intros [Hn Hos Hal Hn1 Hfit Hss Hpow] Ha Hb b. unfold b, slab_object_base. rewrite <- Hn.
  unfold SLAB_HEADER_SIZE, sizeof_slab_header in *. destruct (alignment c =? 0) eqn:E; bool_hyps.
  - split; [lia|]. split; [nia|by left].
  - destruct Hpow as [?|(k & Hk & Ek)]; [done|]. rewrite Ek. 
    destruct (align_up (a + 24 + 4 * (n + 1)) k Hk) as [H1 H2]; [lia|nia|]. cbv zeta in *.
    rewrite (wrap_small 32 (2 ^ k - 1)) in *.
    2,3,4: pose proof (pow2_pos k ltac:(lia)); pose proof (Z.pow_le_mono_r 2 k 22 ltac:(lia) ltac:(lia)); change (2 ^ 22) with 4194304 in *; change (2 ^ 32) with 4294967296 in *; lia.
    split; [lia|]. split; [nia|by right].
Qed.

Lemma geom_num_lt c n : cache_geom c n -> n < 2 ^ 22 /\ n * object_size c < 2 ^ 22.
Proof. intros [? ? ? ? Hf ? ?]. unfold SLAB_HEADER_SIZE, sizeof_slab_header in *. change (2 ^ 22) with 4194304 in *. nia. Qed.

(** ** The chain *)
Lemma fchain_insert l i fr n k v : fchain l i fr n -> Forall (fun x => 0 <= x) fr -> 0 <= k -> k ∉ fr -> fchain (<[Z.to_nat k := v]> l) i fr n.
Proof.
  revert i. induction fr as [|x fr IH]; intros i; cbn; [done|]. intros [-> (j & Hj & Hc)] Hp Hk Hn.
  apply Forall_cons in Hp as [Hx Hp]. apply not_elem_of_cons in Hn as [Hne Hn].
  split; [done|]. exists j. split; [|by apply IH]. rewrite list_lookup_insert_ne; [done|]. intros E. apply Z2Nat.inj in E; lia.
Qed.

Lemma fchain_nil_iff l i fr n : fchain l i fr n -> Forall (fun x => 0 <= x < n) fr -> fr = [] <-> i = n.
Proof.
  destruct fr as [|x fr]; cbn; [done|]. intros [-> _] Hf. apply Forall_cons in Hf as [? _]. split; [done|lia].
Qed.

(** The free array's element at the head of the chain: the end mark exactly
    when the chain is empty. *)
Lemma head_entry c n a h fr : slab_ok c n a h fr -> n < 2 ^ 22 ->
  exists e, h_list h !! Z.to_nat (h_free h) = Some e /\ (e =? SLAB_FREE_END) = bool_decide (fr = []).
Proof.
  intros [Hl Ho Hc Hnd Hr He Hu] Hn. destruct fr as [|x fr]; cbn in Hc.
  - rewrite Hc. exists SLAB_FREE_END. split; [done|]. by rewrite Z.eqb_refl.
  - destruct Hc as [-> (j & Hj & Hc)]. exists j. split; [done|]. apply Z.eqb_neq.
    assert (j <= n). { destruct fr as [|y fr]; cbn in Hc; [lia|]. destruct Hc as [-> _]. apply Forall_cons in Hr as [_ Hr]. apply Forall_cons in Hr as [? _]. lia. }
    unfold SLAB_FREE_END. change (2 ^ 22) with 4194304 in Hn. lia.
Qed.

(** Taking the head of the chain into use. *)
Lemma slab_ok_take c n a h i fr : slab_ok c n a h (i :: fr) -> exists j,
  h_list h !! Z.to_nat i = Some j /\ h_free h = i /\ 0 <= i < n /\
  slab_ok c n a (set_h_free j (set_h_list (<[Z.to_nat i := SLAB_FREE_END]> (h_list h)) h)) fr.
Proof.
  intros [Hl Ho Hc Hnd Hr He Hu]. cbn in Hc. destruct Hc as [Hf (j & Hj & Hc)]. exists j.
  apply Forall_cons in Hr as [Hi Hr]. apply NoDup_cons in Hnd as [Hni Hnd].
  split; [done|]. split; [done|]. split; [done|]. split; cbn [h_list h_object h_free set_h_free set_h_list].
  - by rewrite length_insert.
  - done.
  - apply fchain_insert; [done| |lia|done]. eapply Forall_impl; [exact Hr|]. cbn. lia.
  - done.
  - done.
  - rewrite list_lookup_insert_ne; [done|]. intros E. apply Z2Nat.inj in E; lia.
  - intros k Hk Hkf. destruct (decide (k = i)) as [->|Hne].
    + apply list_lookup_insert_eq. apply lookup_lt_Some in Hj. lia.
    + rewrite list_lookup_insert_ne by (intros E; apply Z2Nat.inj in E; lia). apply Hu; [done|].
      apply not_elem_of_cons. done.
Qed.

(** Giving a number back. *)
Lemma slab_ok_give c n a h i fr : slab_ok c n a h fr -> 0 <= i < n -> i ∉ fr ->
  slab_ok c n a (set_h_free i (set_h_list (<[Z.to_nat i := h_free h]> (h_list h)) h)) (i :: fr).
Proof.
  intros [Hl Ho Hc Hnd Hr He Hu] Hi Hni. split; cbn [h_list h_object h_free set_h_free set_h_list fchain].
  - by rewrite length_insert.
  - done.
  - split; [done|]. exists (h_free h). split; [apply list_lookup_insert_eq; lia|].
    apply fchain_insert; [done| |lia|done]. eapply Forall_impl; [exact Hr|]. cbn. lia.
  - by apply NoDup_cons.
  - by apply Forall_cons.
  - rewrite list_lookup_insert_ne; [done|]. intros E. apply Z2Nat.inj in E; lia.
  - intros k Hk Hkf. apply not_elem_of_cons in Hkf as [Hne Hkf].
    rewrite list_lookup_insert_ne by (intros E; apply Z2Nat.inj in E; lia). by apply Hu.
Qed.

(** A new slab has all its numbers in order. *)
Lemma seqZ_chain l n : forall m i, Z.of_nat m = n - i -> 0 <= i ->
  (forall k, i <= k < n -> l !! Z.to_nat k = Some (k + 1)) -> fchain l i (seqZ i (n - i)) n.
Proof.
  induction m as [|m IH]; intros i Hm Hi Hl.
  - rewrite seqZ_nil by lia. cbn. lia.
  - rewrite seqZ_cons by lia. cbn. split; [done|]. exists (i + 1). split; [apply Hl; lia|].
    replace (Z.pred (n - i)) with (n - (i + 1)) by lia. replace (Z.succ i) with (i + 1) by lia. apply IH; [lia|lia|]. intros k Hk. apply Hl. lia.
Qed.

Lemma slab_ok_new c n a : cache_geom c n ->
  slab_ok c n a (SlabHeader 0 0 (slab_object_base c a) (slab_free_list n)) (seqZ 0 n).
Proof.
  intros Hg. pose proof (cg_n1 _ _ Hg). split; cbn [h_list h_object h_free]; unfold slab_free_list.
  - rewrite length_app, length_seqZ. cbn. lia.
  - done.
  - replace n with (n - 0) at 2 by lia. apply (seqZ_chain _ n (Z.to_nat n)); [lia|lia|].
    intros k Hk. rewrite lookup_app_l by (rewrite length_seqZ; lia). rewrite lookup_seqZ_lt by lia. f_equal. lia.
  - apply NoDup_seqZ.
  - apply Forall_forall. intros x Hx. apply elem_of_seqZ in Hx. lia.
  - rewrite lookup_app_r by (rewrite length_seqZ; lia). rewrite length_seqZ, Nat.sub_diag. done.
  - intros i Hi Hni. exfalso. apply Hni, elem_of_seqZ. lia.
Qed.

(** ** Lists of slabs *)
Fixpoint hseg (hs : gmap Z slab_header) (h : Z) (L : list Z) : Prop :=
  match L with
  | [] => h = 0
  | x :: L => h = x /\ x <> 0 /\ exists hd, hs !! x = Some hd /\ hseg hs (h_next hd) L
  end.

Lemma hseg_out hs h L a hd : hseg hs h L -> a ∉ L -> hseg (<[a := hd]> hs) h L.
Proof.
  revert h. induction L as [|x L IH]; intros h; cbn; [done|]. intros [-> (Hx & hx & Hh & Hs)] Ha.
  apply not_elem_of_cons in Ha as [Hne Ha]. split; [done|]. split; [done|]. exists hx. split; [by rewrite lookup_insert_ne|auto].
Qed.

Lemma hseg_same_next hs h L a hd hd' : hseg hs h L -> hs !! a = Some hd -> h_next hd' = h_next hd -> hseg (<[a := hd']> hs) h L.
Proof.
  revert h. induction L as [|x L IH]; intros h; cbn; [done|]. intros [-> (Hx & hx & Hh & Hs)] Ha Hn.
  split; [done|]. split; [done|]. destruct (decide (x = a)) as [->|Hne].
  - exists hd'. rewrite lookup_insert_eq. split; [done|]. rewrite Ha in Hh. injection Hh as <-. rewrite Hn. auto.
  - exists hx. rewrite lookup_insert_ne by done. auto.
Qed.

Lemma hseg_head hs h L : hseg hs h L -> (h =? 0) = bool_decide (L = []).
Proof. destruct L as [|x L]; cbn; [intros ->; done|]. intros [-> [Hx _]]. by apply Z.eqb_neq. Qed.

(** The same slabs under a cache of the same geometry. *)
Definition same_geom (c c' : slab_cache) : Prop :=
  slab_size c' = slab_size c /\ object_size c' = object_size c /\ alignment c' = alignment c.

Lemma same_geom_base c c' a : same_geom c c' -> slab_object_base c' a = slab_object_base c a.
Proof. intros (E1 & E2 & E3). unfold slab_object_base, slab_max_object_num. by rewrite E1, E2, E3. Qed.

Lemma same_geom_slab c c' n a h fr : same_geom c c' -> slab_ok c n a h fr -> slab_ok c' n a h fr.
Proof. intros E [? Ho ? ? ? ? ?]. split; try done. by rewrite (same_geom_base _ _ _ E). Qed.

Lemma same_geom_geom c c' n : same_geom c c' -> cache_geom c n -> cache_geom c' n.
Proof.
  intros (E1 & E2 & E3) [? ? ? ? ? ? ?]. split; rewrite ?E1, ?E2, ?E3; try done.
  unfold slab_max_object_num. by rewrite E1, E2, E3.
Qed.

Section Inv.
Context {P : Type} `{page_source_laws P}.
Local Notation sst := (sst P).

(** The cache at [ca] owns the full slabs [F] and the partial slabs [Pt],
    and [fr a] are the free numbers of the slab [a]. *)
Record cinv (s : sst) (u : gmap Z Z) (ca : Z) (c : slab_cache) (n : Z) (F Pt : list Z) (fr : Z -> list Z) : Prop := {
  ci_cache : caches s !! ca = Some c;
  ci_geom : cache_geom c n;
  ci_full : hseg (hdrs s) (slabs_full c) F;
  ci_partial : hseg (hdrs s) (slabs_partial c) Pt;
  ci_nodup : NoDup (F ++ Pt);
  ci_slab : forall a, a ∈ F ++ Pt -> exists hd, hdrs s !! a = Some hd /\ slab_ok c n a hd (fr a);
  ci_frF : forall a, a ∈ F -> fr a = [];
  ci_frP : forall a, a ∈ Pt -> fr a <> [];
  ci_blocks : ps_blocks (spages s) u;
  ci_own : forall a, a ∈ F ++ Pt -> exists sz, u !! a = Some sz /\ slab_size c <= sz
}.

Definition in_use (n : Z) (F Pt : list Z) (fr : Z -> list Z) (a i : Z) : Prop :=
  a ∈ F ++ Pt /\ 0 <= i < n /\ i ∉ fr a.

(** The cache's lock and [slab_lock] exist and no lock is held, or the
    cache's alone is. *)
Definition locks_mapped (ca : Z) (c : cpu) : Prop :=
  is_Some (locks c !! cache_lock ca) /\ is_Some (locks c !! slab_lock) /\ cache_lock ca <> slab_lock.
Definition no_lock (ca : Z) (c : cpu) : Prop := cpu_is ∅ 0 c /\ locks_mapped ca c.
Definition one_lock (ca : Z) (c : cpu) : Prop := cpu_is {[cache_lock ca]} 1 c /\ locks_mapped ca c.

Lemma sacquire_ok ca (s : sst) : no_lock ca (scpu s) ->
  exists c, sacquire (cache_lock ca) s = Done tt (set_scpu c s) /\ one_lock ca c.
Proof.
  intros [Hc (Hm & Hm2 & Hne)]. destruct (acquire_spec _ _ _ _ Hc ltac:(lia) (not_elem_of_empty _) Hm) as [E H1].
  eexists. split; [unfold sacquire, zoom; by rewrite E|]. split; [by rewrite union_empty_r_L in H1|].
  split; cbn; [rewrite lookup_insert_eq; eauto|]. by rewrite lookup_insert_ne.
Qed.

Lemma srelease_ok ca (s : sst) : one_lock ca (scpu s) ->
  exists c, srelease (cache_lock ca) s = Done tt (set_scpu c s) /\ no_lock ca c.
Proof.
  intros [Hc (Hm & Hm2 & Hne)]. destruct (release_spec _ _ _ _ Hc ltac:(lia) (elem_of_singleton_2 _ _ eq_refl)) as [E H1].
  eexists. split; [unfold srelease, zoom; by rewrite E|]. split; [by rewrite difference_diag_L in H1|].
  split; cbn; [rewrite lookup_insert_eq; eauto|]. by rewrite lookup_insert_ne.
Qed.

(** [slab_lock] is not held, so its release panics. *)
Lemma release_slab_lock_panics ca (s : sst) : one_lock ca (scpu s) -> srelease slab_lock s = Panic "release".
Proof.
  intros [Hc (Hm & [l Hl] & Hne)]. pose proof (ci_locks _ _ _ Hc _ _ Hl) as El.
  rewrite decide_False in El by (intros E; apply elem_of_singleton_1 in E; congruence). subst l.
  unfold srelease, zoom, release, holding, get_lock. mstep. rewrite Hl. reflexivity.
Qed.

Lemma cinv_scpu s u ca c n F Pt fr cp : cinv s u ca c n F Pt fr -> cinv (set_scpu cp s) u ca c n F Pt fr.
Proof. intros [? ? ? ? ? ? ? ? ? ?]. split; done. Qed.

Lemma get_hdr_ok (s : sst) a h : hdrs s !! a = Some h -> get_hdr a s = Done h s.
Proof. unfold get_hdr, deref. by intros ->. Qed.
Lemma get_cache_ok (s : sst) a c : caches s !! a = Some c -> get_cache a s = Done c s.
Proof. unfold get_cache, deref. by intros ->. Qed.
Lemma upd_hdr_ok (s : sst) a h f : hdrs s !! a = Some h -> upd_hdr a f s = Done tt (set_hdrs (<[a := f h]> (hdrs s)) s).
Proof. unfold upd_hdr. by intros ->. Qed.
Lemma upd_cache_ok (s : sst) a c f : caches s !! a = Some c -> upd_cache a f s = Done tt (set_caches (<[a := f c]> (caches s)) s).
Proof. unfold upd_cache. by intros ->. Qed.
Lemma get_free_ok (s : sst) a h i e : hdrs s !! a = Some h -> h_list h !! Z.to_nat i = Some e -> get_free a i s = Done e s.
Proof. intros Hh Hi. unfold get_free. rewrite (bind_Done _ _ _ _ _ (get_hdr_ok _ _ _ Hh)). unfold deref. by rewrite Hi. Qed.
Lemma put_free_ok (s : sst) a h i v : hdrs s !! a = Some h -> is_Some (h_list h !! Z.to_nat i) ->
  put_free a i v s = Done tt (set_hdrs (<[a := set_h_list (<[Z.to_nat i := v]> (h_list h)) h]> (hdrs s)) s).
Proof.
  intros Hh Hi. unfold put_free. rewrite (bind_Done _ _ _ _ _ (get_hdr_ok _ _ _ Hh)).
  rewrite decide_True by (by apply lookup_lt_is_Some_1). by apply upd_hdr_ok.
Qed.

(** ** Getting a slab with a free object *)
Lemma slab_partial_ok s u ca c n F Pt fr : cinv s u ca c n F Pt fr ->
  (Pt = [] /\ exists msg, slab_partial ca s = Panic msg) \/
  exists h T s' u' c' fr', slab_partial ca s = Done h s' /\ cinv s' u' ca c' n F (h :: T) fr' /\ same_geom c c' /\
    scpu s' = scpu s /\ (forall a, a ∈ F ++ Pt -> fr' a = fr a) /\
    (Pt = h :: T \/ Pt = [] /\ T = [] /\ fr' h = seqZ 0 n).
Proof.
  intros HI. pose proof HI as [Hc Hg HF HP Hnd Hs HfF HfP Hb Ho]. unfold slab_partial.
  rewrite (bind_Done _ _ _ _ _ (get_cache_ok _ _ _ Hc)), (hseg_head _ _ _ HP). destruct Pt as [|h T]; cbn [bool_decide decide_rel].
  2:{ right. destruct HP as [E _]. exists h, T, s, u, c, fr. rewrite E. split; [done|]. split; [done|]. split; [done|]. split; [done|]. auto. }
  rewrite bool_decide_eq_true_2 by done. unfold slab_new, on_pages, zoom.
  destruct (ps_alloc_ok _ _ (slab_size c) Hb (cg_ss _ _ Hg)) as [[msg E]|(a & sz & p' & E & Hua & Hsz & Hb')].
  { left. split; [done|]. exists msg. mstep. by rewrite E. }
  right. mstep. rewrite E. cbn [set_spages hdrs caches].
  rewrite (upd_cache_ok _ ca c) by exact Hc.
  assert (HaF : a ∉ F ++ []). { intros Hin. destruct (Ho a Hin) as (? & ? & _). congruence. }
  destruct (ps_bounds _ _ a sz Hb') as (Ha0 & _); [apply lookup_insert_eq|].
  rewrite app_nil_r in *.
  exists a, []. eexists. exists (<[a := sz]> u), (set_slabs_partial a c), (fun b => if decide (b = a) then seqZ 0 n else fr b).
  split; [reflexivity|]. split; [|split; [done|split; [done|split]]].
  - split; cbn [caches hdrs spages set_caches set_hdrs set_spages slabs_full slabs_partial set_slabs_partial].
    + apply lookup_insert_eq.
    + eapply same_geom_geom; [|exact Hg]. done.
    + by apply hseg_out.
    + cbn. split; [done|]. split; [lia|]. rewrite lookup_insert_eq. eexists. split; [reflexivity|done].
    + apply NoDup_app. split; [done|]. split; [|apply NoDup_singleton]. intros x Hx Hx2. apply list_elem_of_singleton in Hx2. congruence.
    + intros b Hbin. destruct (decide (b = a)) as [->|Hne].
      * rewrite lookup_insert_eq. eexists. split; [reflexivity|]. rewrite <- (cg_n _ _ Hg). by apply (same_geom_slab c), slab_ok_new.
      * rewrite lookup_insert_ne by done. apply elem_of_app in Hbin as [Hbin|Hbin]; [|apply list_elem_of_singleton in Hbin; done].
        destruct (Hs b Hbin) as (hd & Hhd & Hok). exists hd. split; [done|]. by apply (same_geom_slab c).
    + intros b Hbin. rewrite decide_False by congruence. auto.
    + intros b Hbin. apply list_elem_of_singleton in Hbin as ->. rewrite decide_True by done.
      pose proof (cg_n1 _ _ Hg). rewrite seqZ_cons by lia. done.
    + exact Hb'.
    + intros b Hbin. destruct (decide (b = a)) as [->|Hne]; [rewrite lookup_insert_eq; eauto|].
      rewrite lookup_insert_ne by done. apply elem_of_app in Hbin as [Hbin|Hbin]; [|apply list_elem_of_singleton in Hbin; done]. auto.
  - intros b Hbin. rewrite decide_False by congruence. done.
  - right. rewrite decide_True by done. done.
Qed.

(** ** Taking and giving back an object *)
Definition with_fr (fr : Z -> list Z) (a : Z) (l : list Z) (b : Z) : list Z := if decide (b = a) then l else fr b.

Lemma fr_range s u ca c n F Pt fr a : cinv s u ca c n F Pt fr -> a ∈ F ++ Pt -> Forall (fun x => 0 <= x < n) (fr a).
Proof. intros HI Ha. destruct (ci_slab _ _ _ _ _ _ _ _ HI a Ha) as (hd & _ & Hok). apply Hok. Qed.

(** The slab [h] gets a new header with the free numbers [l]; the lists stay. *)
Lemma cinv_slab s u ca c n F Pt fr h hd hd' l : cinv s u ca c n F Pt fr -> hdrs s !! h = Some hd ->
  h_next hd' = h_next hd -> slab_ok c n h hd' l -> (h ∈ F -> l = []) -> (h ∈ Pt -> l <> []) ->
  cinv (set_hdrs (<[h := hd']> (hdrs s)) s) u ca c n F Pt (with_fr fr h l).
Proof.
  intros [Hc Hg HF HP Hnd Hs HfF HfP Hb Ho] Hh Hn Hok HlF HlP. split; cbn [caches hdrs spages set_hdrs]; try done.
  - by eapply hseg_same_next.
  - by eapply hseg_same_next.
  - intros b Hbin. unfold with_fr. destruct (decide (b = h)) as [->|Hne].
    + rewrite lookup_insert_eq. eauto.
    + rewrite lookup_insert_ne by done. auto.
  - intros b Hbin. unfold with_fr. destruct (decide (b = h)) as [->|]; auto.
  - intros b Hbin. unfold with_fr. destruct (decide (b = h)) as [->|]; auto.
Qed.

(** The head of the partial list, with no free number left, moves to the full
    list. *)
Lemma cinv_to_full s u ca c n F T fr h hd c' : cinv s u ca c n F (h :: T) fr -> hdrs s !! h = Some hd ->
  forall l hd', slab_ok c n h hd' l -> l = [] -> h_next hd' = slabs_full c ->
  same_geom c c' -> slabs_full c' = h -> slabs_partial c' = h_next hd ->
  cinv (set_caches (<[ca := c']> (caches s)) (set_hdrs (<[h := hd']> (hdrs s)) s)) u ca c' n (h :: F) T (with_fr fr h l).
Proof.
  intros [Hc Hg HF HP Hnd Hs HfF HfP Hb Ho] Hh l hd' Hok -> Hn Hsg Ef Ep.
  assert (Hp : h :: F ++ T ≡ₚ F ++ h :: T) by apply Permutation_middle.
  assert (HN : NoDup (h :: F ++ T)) by (by rewrite Hp). apply NoDup_cons in HN as [HhN HN].
  assert (HhF : h ∉ F) by (intros E; apply HhN, elem_of_app; by left).
  assert (HhT : h ∉ T) by (intros E; apply HhN, elem_of_app; by right).
  cbn in HP. destruct HP as [_ (Hh0 & hd0 & Hh' & HT)]. rewrite Hh in Hh'. injection Hh' as <-.
  split; cbn [caches hdrs spages set_hdrs set_caches].
  - apply lookup_insert_eq.
  - by eapply same_geom_geom.
  - cbn. rewrite Ef. split; [done|]. split; [done|]. exists hd'. rewrite lookup_insert_eq. split; [done|]. rewrite Hn. by apply hseg_out.
  - rewrite Ep. by apply hseg_out.
  - cbn. by apply NoDup_cons.
  - intros b Hbin. unfold with_fr. destruct (decide (b = h)) as [->|Hne].
    + rewrite lookup_insert_eq. eexists. split; [done|]. by apply (same_geom_slab c).
    + rewrite lookup_insert_ne by done. destruct (Hs b) as (hb & Hhb & Hokb); [by rewrite <- Hp|].
      exists hb. split; [done|]. by apply (same_geom_slab c).
  - intros b Hbin. unfold with_fr. destruct (decide (b = h)) as [|Hne]; [done|].
    apply elem_of_cons in Hbin as [?|?]; [done|auto].
  - intros b Hbin. unfold with_fr. rewrite decide_False by congruence. apply HfP. by right.
  - exact Hb.
  - intros b Hbin. destruct Hsg as (-> & _). apply Ho. by rewrite <- Hp.
Qed.

Lemma slab_take_ok s u ca c n F T fr h i r : cinv s u ca c n F (h :: T) fr -> fr h = i :: r ->
  exists s' c' F' T', slab_take ca h s = Done i s' /\ same_geom c c' /\ scpu s' = scpu s /\
    cinv s' u ca c' n F' T' (with_fr fr h r) /\ F' ++ T' ≡ₚ F ++ h :: T.
Proof.
  intros HI Hfr. pose proof (fr_range _ _ _ _ _ _ _ _ h HI ltac:(apply elem_of_app; right; left)) as Hrg. rewrite Hfr in Hrg.
  pose proof HI as [Hc Hg HF HP Hnd Hs HfF HfP Hb Ho].
  destruct (Hs h) as (hd & Hh & Hok); [apply elem_of_app; right; left|]. rewrite Hfr in Hok.
  destruct (slab_ok_take _ _ _ _ _ _ Hok) as (j & Hj & Hif & Hi & Hok').
  destruct (geom_num_lt _ _ Hg) as [Hn22 _]. apply Forall_cons in Hrg as [_ Hrg].
  unfold slab_take. rewrite (bind_Done _ _ _ _ _ (get_hdr_ok _ _ _ Hh)). rewrite Hif.
  rewrite (bind_Done _ _ _ _ _ (get_free_ok _ _ _ _ _ Hh Hj)).
  change (2 ^ 22) with 4194304 in Hn22.
  rewrite (wrap_small 32 i) by (change (2 ^ 32) with 4294967296; lia).
  rewrite (bind_Done _ _ _ _ _ (put_free_ok _ _ _ _ SLAB_FREE_END Hh (ex_intro _ _ Hj))).
  set (hd1 := set_h_list (<[Z.to_nat i := SLAB_FREE_END]> (h_list hd)) hd) in *.
  erewrite bind_Done; [|apply upd_hdr_ok; cbn; apply lookup_insert_eq]. cbn [hdrs set_hdrs]. rewrite insert_insert_eq.
  change (set_hdrs (<[h:=set_h_free j hd1]> (hdrs s)) (set_hdrs (<[h:=hd1]> (hdrs s)) s)) with (set_hdrs (<[h:=set_h_free j hd1]> (hdrs s)) s).
  set (hd2 := set_h_free j hd1) in *. set (s2 := set_hdrs (<[h := hd2]> (hdrs s)) s).
  assert (Hh2 : hdrs s2 !! h = Some hd2) by (cbn; apply lookup_insert_eq).
  destruct (head_entry _ _ _ _ _ Hok' Hn22) as (e & He & Hee). change (h_free hd2) with j in He.
  rewrite (bind_Done _ _ _ _ _ (get_free_ok s2 _ _ _ _ Hh2 He)), Hee.
  destruct (decide (r = [])) as [Er|Er].
  2:{ rewrite bool_decide_eq_false_2 by done. exists s2, c, F, (h :: T). split; [done|]. split; [done|]. split; [done|]. split; [|done].
      eapply cinv_slab; [exact HI|exact Hh|done|exact Hok'| |done].
      intros HhF. apply NoDup_app in Hnd as (_ & Hnd & _). exfalso. apply (Hnd h HhF). left. }
  rewrite bool_decide_eq_true_2 by done.
  rewrite (bind_Done _ _ _ _ _ (get_hdr_ok _ _ _ Hh2)).
  change (h_next hd2) with (h_next hd).
  erewrite bind_Done by (apply upd_cache_ok; exact Hc).
  set (c1 := set_slabs_partial (h_next hd) c). set (s3 := set_caches (<[ca := c1]> (caches s2)) s2).
  erewrite bind_Done by (apply get_cache_ok; cbn; apply lookup_insert_eq).
  change (slabs_full c1) with (slabs_full c).
  assert (E : (if slabs_full c =? 0 then upd_hdr h (set_h_next 0) else upd_hdr h (set_h_next (slabs_full c))) s3 =
              Done tt (set_hdrs (<[h := set_h_next (slabs_full c) hd2]> (hdrs s3)) s3)).
  { destruct (slabs_full c =? 0) eqn:E0; bool_hyps; [rewrite E0|]; by apply upd_hdr_ok. }
  rewrite (bind_Done _ _ _ _ _ E).
  erewrite bind_Done by (apply upd_cache_ok; cbn; apply lookup_insert_eq).
  eexists _, (set_slabs_full h c1), (h :: F), T. split; [reflexivity|]. split; [done|]. split; [done|]. split; [|apply Permutation_middle].
  pose proof (cinv_to_full s u ca c n F T fr h hd (set_slabs_full h c1) HI Hh r (set_h_next (slabs_full c) hd2)) as Hfin.
  specialize (Hfin ltac:(destruct Hok'; split; done) Er eq_refl ltac:(done) eq_refl eq_refl).
  unfold s3, s2, set_hdrs, set_caches in *. cbn [hdrs caches spages free_cache_head slab_size_limits scpu] in *.
  rewrite !insert_insert_eq. exact Hfin.
Qed.

Lemma slab_cache_alloc_ok s u ca c n F Pt fr : cinv s u ca c n F Pt fr -> no_lock ca (scpu s) ->
  (Pt = [] /\ exists msg, slab_cache_alloc ca s = Panic msg) \/
  exists a i r s' u' c' F' Pt' fr', slab_cache_alloc ca s = Done (slab_object_base c a + object_size c * i) s' /\
    no_lock ca (scpu s') /\ same_geom c c' /\ cinv s' u' ca c' n F' Pt' (with_fr fr' a r) /\
    fr' a = i :: r /\ (forall b, b ∈ F ++ Pt -> fr' b = fr b) /\ (a ∉ F ++ Pt -> fr' a = seqZ 0 n) /\
    (forall b, b ∈ F' ++ Pt' <-> b = a \/ b ∈ F ++ Pt).
Proof.
  intros HI Hl. destruct (sacquire_ok ca s Hl) as (cp & E & Hcp). unfold slab_cache_alloc. rewrite (bind_Done _ _ _ _ _ E).
  apply (cinv_scpu _ _ _ _ _ _ _ _ cp) in HI.
  destruct (slab_partial_ok _ _ _ _ _ _ _ _ HI) as [[-> [msg Ep]]|(h & T & s1 & u1 & c1 & fr1 & Ep & HI1 & Hsg & Hcpu & Hfr1 & HPt)].
  { left. split; [done|]. exists msg. mstep. by rewrite Ep. }
  right. rewrite (bind_Done _ _ _ _ _ Ep).
  destruct (fr1 h) as [|i r] eqn:Efr. { exfalso. apply (ci_frP _ _ _ _ _ _ _ _ HI1 h); [left|done]. }
  destruct (slab_take_ok _ _ _ _ _ _ _ _ _ _ _ HI1 Efr) as (s2 & c2 & F' & T' & Et & Hsg2 & Hcpu2 & HI2 & Hperm).
  rewrite (bind_Done _ _ _ _ _ Et).
  destruct (srelease_ok ca s2) as (cp2 & Er & Hcp2); [rewrite Hcpu2, Hcpu; exact Hcp|]. rewrite (bind_Done _ _ _ _ _ Er).
  apply (cinv_scpu _ _ _ _ _ _ _ _ cp2) in HI2.
  assert (Hin : h ∈ F' ++ T') by (rewrite Hperm; apply elem_of_app; right; left).
  destruct (ci_slab _ _ _ _ _ _ _ _ HI2 h Hin) as (hd & Hh & Hok).
  rewrite (bind_Done _ _ _ _ _ (get_hdr_ok _ _ _ Hh)), (bind_Done _ _ _ _ _ (get_cache_ok _ _ _ (ci_cache _ _ _ _ _ _ _ _ HI2))).
  assert (Hsg3 : same_geom c c2) by (destruct Hsg as (?&?&?), Hsg2 as (?&?&?); repeat split; congruence).
  pose proof (fr_range _ _ _ _ _ _ _ _ h HI1 ltac:(apply elem_of_app; right; left)) as Hrg. rewrite Efr in Hrg.
  apply Forall_cons in Hrg as [Hi _]. destruct (geom_num_lt _ _ (ci_geom _ _ _ _ _ _ _ _ HI)) as [_ Hos].
  pose proof (cg_os _ _ (ci_geom _ _ _ _ _ _ _ _ HI)) as Hos0.
  assert (Eres : h_object hd + u32 (object_size c2 * i) = slab_object_base c h + object_size c * i).
  { rewrite (so_obj _ _ _ _ _ Hok), (same_geom_base c c2 h Hsg3). destruct Hsg3 as (_ & -> & _). f_equal. apply wrap_small.
    change (2 ^ 22) with 4194304 in Hos. change (2 ^ 32) with 4294967296. nia. }
  exists h, i, r, (set_scpu cp2 s2), u1, c2, F', T', fr1.
  split; [unfold mret, M_ret; by rewrite Eres|]. split; [exact Hcp2|]. split; [done|]. split; [exact HI2|]. split; [exact Efr|]. split; [exact Hfr1|].
  assert (Hset : forall b, b ∈ F ++ h :: T <-> b = h \/ b ∈ F ++ Pt).
  { intros b. destruct HPt as [->|(-> & -> & _)].
    - rewrite !elem_of_app, !elem_of_cons. tauto.
    - rewrite app_nil_r, elem_of_app, list_elem_of_singleton. tauto. }
  split.
  - intros Hni. destruct HPt as [EP|(_ & _ & EP)]; [|congruence]. exfalso. apply Hni, elem_of_app. right. rewrite EP. left.
  - intros b. rewrite Hperm. apply Hset.
Qed.

Lemma unlink_full_panics ca a (s : sst) : is_Some (caches s !! ca) -> one_lock ca (scpu s) -> forall L h fuel prev,
  hseg (hdrs s) h L -> a ∈ L -> (length L <= fuel)%nat -> (prev = 0 \/ is_Some (hdrs s !! prev)) ->
  unlink_full fuel ca a prev h s = Panic "release".
Proof.
  intros [c Hc] Hl. induction L as [|x L IH]; intros h fuel prev Hs Ha Hf Hp; [by apply not_elem_of_nil in Ha|].
  cbn in Hs. destruct Hs as [-> (Hx & hd & Hh & Hs)]. destruct fuel as [|fuel]; [cbn in Hf; lia|]. cbn [unlink_full].
  rewrite (proj2 (Z.eqb_neq _ _) Hx), (bind_Done _ _ _ _ _ (get_hdr_ok _ _ _ Hh)).
  destruct (x =? a) eqn:Exa; bool_hyps.
  - subst x. assert (E : exists s1, (if prev =? 0 then upd_cache ca (set_slabs_full (h_next hd)) else upd_hdr prev (set_h_next (h_next hd))) s = Done tt s1 /\
      scpu s1 = scpu s /\ is_Some (caches s1 !! ca) /\ is_Some (hdrs s1 !! a)).
    { destruct (prev =? 0) eqn:Ep; bool_hyps.
      - rewrite (upd_cache_ok _ _ _ _ Hc). eexists. split; [done|]. split; [done|]. cbn. rewrite lookup_insert_eq. eauto.
      - destruct Hp as [?|[hp Hp]]; [done|]. rewrite (upd_hdr_ok _ _ _ _ Hp). eexists. split; [done|]. split; [done|]. split; [eauto|].
        cbn. apply lookup_insert_is_Some'. eauto. }
    destruct E as (s1 & E & Hcp & [c1 Hc1] & [h1 Hh1]). rewrite (bind_Done _ _ _ _ _ E).
    rewrite (bind_Done _ _ _ _ _ (get_cache_ok _ _ _ Hc1)), (bind_Done _ _ _ _ _ (upd_hdr_ok _ _ _ _ Hh1)).
    erewrite bind_Done by (apply upd_cache_ok; exact Hc1).
    apply (release_slab_lock_panics ca). cbn. by rewrite Hcp.
  - apply IH; [done| |cbn in Hf; lia|right; eauto]. apply elem_of_cons in Ha as [?|?]; [congruence|done].
Qed.

(** The prefix of [slab_cache_free] up to the test of the end mark. *)
Lemma slab_cache_free_ok s u ca c n F Pt fr a i fuel : cinv s u ca c n F Pt fr -> no_lock ca (scpu s) ->
  in_use n F Pt fr a i -> (length F <= fuel)%nat ->
  (a ∈ F -> slab_cache_free fuel ca (slab_object_base c a + object_size c * i) s = Panic "release") /\
  (a ∈ Pt -> exists s', slab_cache_free fuel ca (slab_object_base c a + object_size c * i) s = Done tt s' /\
     no_lock ca (scpu s') /\ cinv s' u ca c n F Pt (with_fr fr a (i :: fr a))).
Proof.
  intros HI Hl (Ha & Hi & Hni) Hfu. pose proof HI as [Hc Hg HF HP Hnd Hs HfF HfP Hb Ho].
  destruct (Ho a Ha) as (sz & Hua & Hsz). destruct (ps_bounds _ _ _ _ Hb Hua) as (Ha0 & _ & Hb32).
  destruct (object_base_bounds _ _ a Hg Ha0 ltac:(lia)) as (Hlo & Hhi & _). cbv zeta in *.
  pose proof (cg_os _ _ Hg) as Hos. unfold sizeof_slab_header in Hlo. destruct (geom_num_lt _ _ Hg) as [Hn22 _].
  destruct (Hs a Ha) as (hd & Hh & Hok).
  assert (Ehead : on_pages (ps_head (slab_object_base c a + object_size c * i)) s = Done a s).
  { unfold on_pages, zoom. rewrite (ps_head_ok (spages s) u a sz); [by destruct s|done|done|nia]. }
  unfold slab_cache_free. rewrite (bind_Done _ _ _ _ _ Ehead).
  destruct (sacquire_ok ca s Hl) as (cp & Eac & Hcp). rewrite (bind_Done _ _ _ _ _ Eac).
  set (s1 := set_scpu cp s).
  rewrite (bind_Done _ _ _ _ _ (get_hdr_ok s1 _ _ Hh)), (bind_Done _ _ _ _ _ (get_cache_ok s1 _ _ Hc)).
  rewrite (so_obj _ _ _ _ _ Hok). replace (slab_object_base c a + object_size c * i - slab_object_base c a) with (i * object_size c) by lia.
  rewrite Z.quot_mul by lia. change (2 ^ 22) with 4194304 in Hn22.
  assert (Hfree : 0 <= h_free hd <= n).
  { pose proof (so_chain _ _ _ _ _ Hok) as Hch. pose proof (so_range _ _ _ _ _ Hok) as Hr.
    destruct (fr a) as [|x l]; cbn in Hch; [lia|]. destruct Hch as [-> _]. apply Forall_cons in Hr as [? _]. lia. }
  rewrite !(wrap_small 32) by (change (2 ^ 32) with 4294967296; lia).
  assert (Hnf : h_free hd <> i).
  { pose proof (so_chain _ _ _ _ _ Hok) as Hch. destruct (fr a) as [|x l]; cbn in Hch; [lia|]. destruct Hch as [-> _].
    apply not_elem_of_cons in Hni as [? _]. done. }
  erewrite bind_Done by (apply put_free_ok; [exact Hh|apply lookup_lt_is_Some_2; pose proof (so_len _ _ _ _ _ Hok); lia]).
  erewrite bind_Done by (apply upd_hdr_ok; cbn; apply lookup_insert_eq). cbn [hdrs set_hdrs]. rewrite insert_insert_eq.
  pose proof (slab_ok_give _ _ _ _ i _ Hok Hi Hni) as Hok'.
  set (hd2 := set_h_free i (set_h_list (<[Z.to_nat i := h_free hd]> (h_list hd)) hd)) in *.
  change (set_hdrs (<[a:=hd2]> (hdrs s1)) (set_hdrs (<[a:=set_h_list (<[Z.to_nat i:=h_free hd]> (h_list hd)) hd]> (hdrs s1)) s1))
    with (set_hdrs (<[a:=hd2]> (hdrs s1)) s1).
  set (s2 := set_hdrs (<[a := hd2]> (hdrs s1)) s1).
  destruct (head_entry _ _ _ _ _ Hok ltac:(change (2 ^ 22) with 4194304; lia)) as (e & He & Hee).
  assert (He2 : h_list hd2 !! Z.to_nat (h_free hd) = Some e).
  { cbn. rewrite list_lookup_insert_ne; [done|]. intros E. apply Z2Nat.inj in E; lia. }
  erewrite bind_Done by (eapply get_free_ok; [cbn; apply lookup_insert_eq|exact He2]). rewrite Hee.
  split; intros Hin.
  - rewrite bool_decide_eq_true_2 by auto.
    erewrite bind_Done by (apply (get_cache_ok s2); exact Hc).
    apply (unlink_full_panics ca a s2) with (L := F); [by exists c|exact Hcp| |done|done|by left].
    cbn [hdrs s2 set_hdrs s1 set_scpu]. by eapply hseg_same_next.
  - rewrite bool_decide_eq_false_2 by auto.
    destruct (srelease_ok ca s2 Hcp) as (cp2 & Er & Hcp2). rewrite Er. eexists. split; [reflexivity|]. split; [exact Hcp2|].
    apply cinv_scpu. apply (cinv_slab s1 u ca c n F Pt fr a hd); [by apply cinv_scpu|exact Hh|done|exact Hok'| |done].
    intros HaF. exfalso. apply NoDup_app in Hnd as (_ & Hnd & _). by apply (Hnd a HaF).
Qed.

(** Two objects in use never overlap. *)
Lemma objects_disjoint s u ca c n F Pt fr a i b j : cinv s u ca c n F Pt fr ->
  a ∈ F ++ Pt -> b ∈ F ++ Pt -> 0 <= i < n -> 0 <= j < n -> (a, i) <> (b, j) ->
  let x := slab_object_base c a + object_size c * i in
  let y := slab_object_base c b + object_size c * j in
  x + object_size c <= y \/ y + object_size c <= x.
Proof.
  intros HI Ha Hb Hi Hj Hne. pose proof (ci_geom _ _ _ _ _ _ _ _ HI) as Hg. pose proof (cg_os _ _ Hg). cbv zeta.
  destruct (decide (a = b)) as [->|Hab]; [assert (i <> j) by congruence; nia|].
  destruct (ci_own _ _ _ _ _ _ _ _ HI a Ha) as (sa & Hua & Hsa), (ci_own _ _ _ _ _ _ _ _ HI b Hb) as (sb & Hub & Hsb).
  pose proof (ci_blocks _ _ _ _ _ _ _ _ HI) as Hbl.
  destruct (ps_bounds _ _ _ _ Hbl Hua) as (? & ? & ?), (ps_bounds _ _ _ _ Hbl Hub) as (? & ? & ?).
  destruct (object_base_bounds c n a Hg ltac:(lia) ltac:(lia)) as (? & ? & _), (object_base_bounds c n b Hg ltac:(lia) ltac:(lia)) as (? & ? & _).
  cbv zeta in *. unfold sizeof_slab_header in *. pose proof (cg_n1 _ _ Hg).
  destruct (ps_disjoint _ _ _ _ _ _ Hbl Hua Hub Hab); nia.
Qed.

End Inv.
