(* ===== verification/SlabPages.v ===== *)
(** * The buddy allocator as the page source of slab.c

    The interface of Slab.v, on the memory state of Buddy.v with the page
    count of page.h, and its laws from the allocator's invariant. *)
From S2P Require Import Prelude Buddy BuddyInv Spinlock Slab.

#[export] Instance buddy_page_source : page_source mem := {|
  ps_alloc size := x ← buddy_alloc size; p ← rd x; mret (page_address p);
  ps_head a :=
    x ← deref (page_find_by_address PAGE_NUM a);
    r ← page_find_head PAGE_NUM x; h ← deref r; p ← rd h; mret (page_address p);
  ps_free a :=
    x ← deref (page_find_by_address PAGE_NUM a);
    buddy_free (Z.to_nat Buddy.PAGE_MAX_DEPTH) (Z.to_nat PAGE_NUM + 1) x
|}.

(** The blocks of [u] are among those in use. *)
Definition pool_blocks (s : mem) (u : gmap Z Z) : Prop :=
  exists B, wf PAGE_NUM B s /\
    forall a sz, u !! a = Some sz -> exists x k, a = PAGE_START + Buddy.PAGE_SIZE * x /\ sz = Buddy.PAGE_SIZE * 2 ^ k /\ B !! x = Some (k, Used).

Lemma page_num_val : PAGE_NUM = 62 * 1024.
Proof. reflexivity. Qed.

Lemma head_page N B s x k st : inv N B s -> B !! x = Some (k, st) -> exists p, rd x s = Done p s /\ page_address p = PAGE_START + Buddy.PAGE_SIZE * x.
Proof.
  intros HI Hx. destruct (inv_head _ _ _ _ _ _ HI Hx) as (p & Hp & Hi & _). exists p. split; [by apply rd_at|].
  unfold page_address. by rewrite Hi.
Qed.

(** Dropping one of several references keeps the invariant. *)
Lemma wf_set_refcnt N B s x k p r : wf N B s -> B !! x = Some (k, Used) -> pages s !! x = Some p -> 0 <= r < 2 ^ 32 ->
  wf N B (Mem (<[x := set_refcnt r p]> (pages s)) (free_lists s)).
Proof.
  intros [HI Hst] Hx Hp Hr. split; [|done].
  destruct (inv_head _ _ _ _ _ _ HI Hx) as (p' & Hp' & H1 & H2 & H3 & H4 & H5). rewrite Hp in Hp'. injection Hp' as <-.
  rewrite <- (insert_id B x (k, Used) Hx) at 1. by eapply inv_status; [exact HI|exact Hx|done|done|].
Qed.

Lemma pool_alloc s u size : pool_blocks s u -> 0 < size <= 2 ^ 22 ->
  (exists msg, ps_alloc size s = Panic msg) \/
  exists a sz s', ps_alloc size s = Done a s' /\ u !! a = None /\ size <= sz /\ pool_blocks s' (<[a := sz]> u).
Proof.
  intros (B & HW & Hu) Hsz. cbn [ps_alloc buddy_page_source].
  assert (H64 : 2 ^ 22 < 2 ^ 64) by (apply Z.pow_lt_mono_r; lia).
  destruct (buddy_alloc_ok _ _ s size HW) as [(k & x & s' & B' & Hf & Ha & HW' & Hx & Hus & Hnu & _)|[(k & _ & Ha & _)|[_ Ha]]].
  - lia.
  - right. destruct (head_page _ _ _ _ _ _ (wf_inv _ _ _ HW') Hx) as (p & Hp & Epa).
    exists (page_address p), (Buddy.PAGE_SIZE * 2 ^ k), s'. split; [|split; [|split]].
    + rewrite (bind_Done _ _ _ _ _ Ha), (bind_Done _ _ _ _ _ Hp). done.
    + destruct (u !! page_address p) as [sz|] eqn:E; [|done]. exfalso. destruct (Hu _ _ E) as (x' & k' & Ea & _ & HB).
      rewrite Epa in Ea. assert (x' = x) as -> by (unfold Buddy.PAGE_SIZE in *; lia). by eapply Hnu.
    + destruct Hf as (_ & Hle & _). lia.
    + exists B'. split; [done|]. intros a sz. rewrite lookup_insert_Some. intros [[<- <-]|[_ Hua]].
      * exists x, k. done.
      * destruct (Hu _ _ Hua) as (x' & k' & ? & ? & HB). exists x', k'. split; [done|]. split; [done|]. apply Hus. by right.
  - left. eexists. unfold mbind, M_bind. by rewrite Ha.
  - left. eexists. unfold mbind, M_bind. by rewrite Ha.
Qed.

Lemma pool_bounds s u a sz : pool_blocks s u -> u !! a = Some sz -> 0 < a /\ 0 < sz /\ a + sz <= 2 ^ 32.
Proof.
  intros (B & HW & Hu) Ha. destruct (Hu _ _ Ha) as (x & k & -> & -> & HB).
  destruct (bk_bounds _ _ (inv_blocks _ _ _ (wf_inv _ _ _ HW)) _ _ _ HB) as (Hk & Hx & HxN & _).
  pose proof (pow2_pos k ltac:(lia)). rewrite page_num_val in HxN. unfold PAGE_START, Buddy.PAGE_SIZE.
  change (2 ^ 32) with 4294967296. lia.
Qed.

Lemma pool_head s u a sz b : pool_blocks s u -> u !! a = Some sz -> a <= b < a + sz -> ps_head b s = Done a s.
Proof.
  intros (B & HW & Hu) Ha Hb. destruct (Hu _ _ Ha) as (x & k & -> & -> & HB).
  destruct (bk_bounds _ _ (inv_blocks _ _ _ (wf_inv _ _ _ HW)) _ _ _ HB) as (Hk & Hx & HxN & _).
  cbn [ps_head buddy_page_source].
  set (y := (b - PAGE_START) / Buddy.PAGE_SIZE).
  assert (Hy : x <= y < x + 2 ^ k).
  { unfold y. split; [apply Z.div_le_lower_bound|apply Z.div_lt_upper_bound]; unfold Buddy.PAGE_SIZE in *; lia. }
  assert (E : page_find_by_address PAGE_NUM b = Some y).
  { unfold page_find_by_address. rewrite Z.quot_div_nonneg by (unfold Buddy.PAGE_SIZE in *; lia). fold y.
    rewrite page_num_val in *. rewrite wrap_small by (change (2 ^ 64) with 18446744073709551616; lia).
    by rewrite (proj2 (Z.ltb_lt _ _)) by lia. }
  rewrite E. unfold mbind at 1, M_bind at 1, deref at 1.
  erewrite bind_Done by (apply (page_find_head_ok _ B _ x k); [done|by rewrite page_num_val|done|done]).
  destruct (head_page _ _ _ _ _ _ (wf_inv _ _ _ HW) HB) as (p & Hp & Epa).
  unfold mbind at 1, M_bind at 1, deref at 1. rewrite (bind_Done _ _ _ _ _ Hp). by rewrite Epa.
Qed.

Lemma pool_free s u a sz : pool_blocks s u -> u !! a = Some sz ->
  exists s', ps_free a s = Done tt s' /\ pool_blocks s' (delete a u).
Proof.
  intros (B & HW & Hu) Ha. destruct (Hu _ _ Ha) as (x & k & -> & -> & HB).
  destruct (bk_bounds _ _ (inv_blocks _ _ _ (wf_inv _ _ _ HW)) _ _ _ HB) as (Hk & Hx & HxN & _).
  pose proof (pow2_pos k ltac:(lia)). cbn [ps_free buddy_page_source].
  rewrite find_by_address_ok by (rewrite ?page_num_val in *; lia). unfold mbind at 1, M_bind at 1, deref at 1.
  destruct (inv_head _ _ _ _ _ _ (wf_inv _ _ _ HW) HB) as (p & Hp & _ & Hrc & _).
  destruct (decide (p_refcnt p <= 1)) as [Hle|Hgt].
  - destruct (buddy_free_spec PAGE_NUM (Z.to_nat PAGE_NUM + 1) ltac:(exists 62; reflexivity) ltac:(by rewrite page_num_val) ltac:(lia)
      (Z.to_nat Buddy.PAGE_MAX_DEPTH) x B s k Used p (wf_inv _ _ _ HW) HB (or_introl eq_refl)) as (s' & B' & Hr & HW' & _ & Hus).
    + intros h k' st Hh _. by eapply (wf_stable _ _ _ HW).
    + done.
    + done.
    + unfold Buddy.PAGE_MAX_DEPTH. lia.
    + exists s'. split; [exact Hr|]. exists B'. split; [done|]. intros b sz. rewrite lookup_delete_Some. intros [Hne Hub].
      destruct (Hu _ _ Hub) as (x' & k' & -> & -> & HB'). exists x', k'. split; [done|]. split; [done|]. apply Hus.
      split; [done|]. intros ->. done.
  - eexists. split.
    + unfold Buddy.PAGE_MAX_DEPTH. change (Z.to_nat (PAGE_MAX_ORDER + 1)) with 11%nat. cbn [buddy_free]. mstep.
      rewrite (rd_at _ _ _ Hp), (proj2 (Z.ltb_lt _ _)) by lia. rewrite (upd_at _ _ _ _ Hp). reflexivity.
    + exists B. split.
      * apply (wf_set_refcnt _ _ _ _ k); [done|done|done|]. apply (wrap_range 32). lia.
      * intros b sz. rewrite lookup_delete_Some. intros [_ Hub]. auto.
Qed.

#[export] Instance buddy_page_source_laws : page_source_laws mem.
Proof.
  refine {| ps_blocks := pool_blocks |}.
  - exact pool_alloc.
  - exact pool_head.
  - exact pool_free.
  - intros s u a sz b sz' (B & HW & Hu) Ha Hb Hne. destruct (Hu _ _ Ha) as (x & k & -> & -> & HB), (Hu _ _ Hb) as (y & k' & -> & -> & HB').
    assert (x <> y) by (intros ->; done). unfold Buddy.PAGE_SIZE in *.
    destruct (bk_disjoint _ _ (inv_blocks _ _ _ (wf_inv _ _ _ HW)) _ _ _ _ _ _ HB HB'); [done|lia|lia].
  - exact pool_bounds.
Defined.
