(* ===== verification/SlabProps.v ===== *)
(** * Properties of the slab allocator

    Creation, allocation and release of objects, over any page source that
    meets the interface of Slab.v. *)
From S2P Require Import Prelude Spinlock Slab SlabInv.

(** ** Creation *)

(** [size] rounded up to the alignment in force. *)
Definition rounded (size al : Z) : Z := (size + al - 1) / al * al.
Definition limit (i : nat) : Z := PAGE_SIZE * 2 ^ Z.of_nat i / 9 - 8.

Lemma slab_size_limit_val i : (i < 11)%nat -> slab_size_limit i = limit i.
Proof. intros Hi. do 11 (destruct i as [|i]; [reflexivity|]). lia. Qed.

Lemma round_val size k : 0 <= k <= 20 -> 0 < size < 2 ^ 31 ->
  Z.land (u32 (size + 2 ^ k - 1)) (u32 (Z.lnot (2 ^ k - 1))) = rounded size (2 ^ k).
Proof.
  intros Hk Hs. pose proof (pow2_pos k ltac:(lia)). pose proof (Z.pow_le_mono_r 2 k 20 ltac:(lia) ltac:(lia)).
  change (2 ^ 20) with 1048576 in *. change (2 ^ 31) with 2147483648 in *.
  rewrite (wrap_small 32 (size + _ - _)) by (change (2 ^ 32) with 4294967296; lia). unfold rounded.
  replace (size + 2 ^ k - 1) with (size + (2 ^ k - 1)) by lia. rewrite land_lnot_align; [done|lia|lia|change (2 ^ 32) with 4294967296; lia].
Qed.

Definition init_limits : list Z := slab_size_limit <$> seq 0 PAGE_MAX_DEPTH.

Lemma limits_lookup i : (i < 11)%nat -> init_limits !! i = Some (limit i).
Proof.
  intros Hi. unfold init_limits. rewrite list_lookup_fmap, lookup_seq_lt by (unfold PAGE_MAX_DEPTH; lia).
  cbn. by rewrite slab_size_limit_val.
Qed.

Lemma page_size_pow j : (j < 11)%nat -> 4096 <= PAGE_SIZE * 2 ^ Z.of_nat j <= 2 ^ 22.
Proof. intros Hj. do 11 (destruct j as [|j]; [vm_compute; split; discriminate|]). lia. Qed.

Lemma geom_of_limit c n j : (j < 11)%nat -> 0 < object_size c <= limit j -> slab_size c = PAGE_SIZE * 2 ^ Z.of_nat j ->
  (alignment c = 0 \/ exists k, 0 <= k <= 20 /\ alignment c = 2 ^ k) -> alignment c <= object_size c ->
  n = slab_max_object_num c -> cache_geom c n /\ (alignment c = 0 -> 8 <= n).
Proof.
  intros Hj Hos Hss Hal Hle ->. pose proof (page_size_pow j Hj) as Hp. unfold limit in Hos. rewrite <- Hss in *.
  pose proof (Z.div_mod (slab_size c) 9 ltac:(lia)). pose proof (Z.mod_pos_bound (slab_size c) 9 ltac:(lia)).
  assert (Hal0 : 0 <= alignment c).
  { destruct Hal as [->|(k & Hk & ->)]; [lia|]. pose proof (pow2_pos k ltac:(lia)). lia. }
  unfold slab_max_object_num, SLAB_HEADER_SIZE, sizeof_slab_header. change (2 ^ 22) with 4194304 in *.
  rewrite !(wrap_small 64) by (change (2 ^ 64) with 18446744073709551616; lia).
  set (a := slab_size c - (24 + 4) - alignment c). set (b := object_size c + 4).
  assert (Hq : 0 <= a / b <= a) by (split; [apply Z.div_pos; unfold a, b; lia|apply Z.div_le_upper_bound; unfold a, b; nia]).
  rewrite (wrap_small 32) by (change (2 ^ 32) with 4294967296; unfold a in *; lia).
  pose proof (Z.mul_div_le a b ltac:(unfold b; lia)).
  split; [|intros E; apply Z.div_le_lower_bound; unfold a, b in *; lia].
  split.
  - unfold slab_max_object_num, SLAB_HEADER_SIZE, sizeof_slab_header.
    rewrite !(wrap_small 64) by (change (2 ^ 64) with 18446744073709551616; lia).
    symmetry. apply wrap_small. change (2 ^ 32) with 4294967296. unfold a, b in *. lia.
  - lia.
  - lia.
  - apply Z.div_le_lower_bound; unfold a, b in *; lia.
  - unfold SLAB_HEADER_SIZE, sizeof_slab_header, a, b in *. nia.
  - change (2 ^ 22) with 4194304. lia.
  - destruct Hal as [?|(k & ? & ?)]; [by left|]. right. exists k. split; [lia|done].
Qed.

Section Create.
Context {P : Type} `{page_source_laws P}.
Local Notation sst := (sst P).

Lemma choose_ok os (s : sst) : forall n i, (i + n = 11)%nat ->
  (choose_slab_size n i os init_limits s = Done None s /\ forall j, (i <= j < 11)%nat -> limit j < os) \/
  exists j, (i <= j < 11)%nat /\ os <= limit j /\ (forall m, (i <= m < j)%nat -> limit m < os) /\ choose_slab_size n i os init_limits s = Done (Some (PAGE_SIZE * 2 ^ Z.of_nat j)) s.
Proof.
  induction n as [|n IH]; intros i Hi; cbn [choose_slab_size].
  { left. split; [done|lia]. }
  rewrite limits_lookup by lia. unfold mbind, M_bind, deref. destruct (os <=? limit i) eqn:E; bool_hyps.
  - right. exists i. split; [lia|]. split; [done|]. split; [lia|]. rewrite shiftl_1 by lia. unfold mret, M_ret. do 2 f_equal. apply wrap_small.
    pose proof (page_size_pow i ltac:(lia)). change (2 ^ 22) with 4194304 in *. change (2 ^ 32) with 4294967296. lia.
  - destruct (IH (S i) ltac:(lia)) as [[Hr Hall]|(j & Hj & Hle & Hmin & Hr)].
    + left. split; [exact Hr|]. intros j Hj. destruct (decide (j = i)) as [->|]; [done|]. apply Hall. lia.
    + right. exists j. split; [lia|]. split; [done|]. split; [|exact Hr].
      intros m Hm. destruct (decide (m = i)) as [->|]; [done|]. apply Hmin. lia.
Qed.

(** A state in which the cache structure [ca] is the first free one. *)
Record fresh_cache (s : sst) (ca : Z) (nxt : Z) : Prop := {
  fc_head : free_cache_head s = ca;
  fc_pos : 0 <= ca /\ ca <> 0;
  fc_cache : caches s !! ca = Some (set_sc_next nxt zero_cache);
  fc_limits : slab_size_limits s = init_limits;
  fc_locks : cpu_is ∅ 0 (scpu s) /\ is_Some (locks (scpu s) !! slab_lock)
}.

Lemma slab_cache_new_ok s ca nxt : free_cache_head s = ca -> ca <> 0 -> caches s !! ca = Some (set_sc_next nxt zero_cache) ->
  slab_cache_new s = Done ca (set_scpu (with_lock (cache_lock ca) free_lock (scpu s))
    (set_caches (<[ca := zero_cache]> (caches s)) (set_free_cache_head nxt s))).
Proof.
  intros Hh Hp0 Hc. unfold slab_cache_new. mstep. rewrite Hh, (proj2 (Z.eqb_neq _ _) Hp0).
  cbn. rewrite Hh. rewrite (get_cache_ok s ca _ Hc). cbn. unfold upd_cache. cbn. rewrite Hc. reflexivity.
Qed.

(** Steps 2 to 4 of [slab_cache_create]. *)
Lemma locked_new_ok s ca nxt : fresh_cache s ca nxt -> exists cp,
  (sacquire slab_lock;; x ← slab_cache_new; srelease slab_lock;; mret x) s =
    Done ca (set_scpu cp (set_caches (<[ca := zero_cache]> (caches s)) (set_free_cache_head nxt s))) /\ no_lock ca cp.
Proof.
  intros [Hh [Hp Hp0] Hc Hl [Hk Hm]].
  destruct (acquire_spec _ _ _ _ Hk ltac:(lia) (not_elem_of_empty _) Hm) as [Ea H1]. rewrite union_empty_r_L in H1.
  set (c1 := Cpu _ _ _ _) in *.
  assert (Es : sacquire slab_lock s = Done tt (set_scpu c1 s)) by (unfold sacquire, zoom; by rewrite Ea).
  rewrite (bind_Done _ _ _ _ _ Es). erewrite bind_Done by (by apply (slab_cache_new_ok (set_scpu c1 s) ca nxt)).
  cbn [scpu set_scpu].
  assert (Hne : cache_lock ca <> slab_lock) by (unfold cache_lock, slab_lock; lia).
  assert (H2 : cpu_is {[slab_lock]} 1 (with_lock (cache_lock ca) free_lock c1)).
  { destruct H1 as [Hn Hlk Hmp Ho]. split; cbn [noff intr locks with_lock].
    - exact Hn.
    - intros b l. rewrite lookup_insert_Some. intros [[<- <-]|[Hb Hbl]]; [|by apply Hlk].
      rewrite decide_False; [done|]. intros E. apply elem_of_singleton_1 in E. done.
    - intros b Hb. destruct (Hmp b Hb). apply lookup_insert_is_Some'. eauto.
    - exact Ho. }
  destruct (release_spec _ _ _ _ H2 ltac:(lia) (elem_of_singleton_2 _ _ eq_refl)) as [Er H3]. rewrite difference_diag_L in H3.
  eexists. split.
  - unfold srelease, zoom. mstep. cbn [scpu set_scpu set_caches set_free_cache_head]. rewrite Er. reflexivity.
  - split; [exact H3|]. split; [|split; [|done]]; cbn; rewrite ?lookup_insert_eq; eauto.
    rewrite lookup_insert_ne by done. rewrite lookup_insert_eq. eauto.
Qed.

(** C32: [slab_cache_create] for an object of [size] bytes and an alignment
    that is 0 or a power of two rounds the size up to the alignment (to 4 when
    there is none), picks the smallest slab of pages whose limit admits it,
    and returns an empty cache of that geometry: at least one object fits
    behind the header and the free list, and at least eight when there is no
    alignment.  When no slab admits the object it returns NULL, with the cache
    structure no longer on the free list.  The name loses its last character. *)
Theorem slab_cache_create_correct (s : sst) u ca nxt name size al k :
  fresh_cache s ca nxt -> ps_blocks (spages s) u -> (length name < 32)%nat -> 0 < size < 2 ^ 31 -> 0 <= k <= 20 ->
  al = 0 /\ k = 2 \/ al = 2 ^ k ->
  let os := rounded size (2 ^ k) in
  exists s', no_lock ca (scpu s') /\ free_cache_head s' = nxt /\
    ((exists c n j, slab_cache_create name size al s = Done ca s' /\ cinv s' u ca c n [] [] (fun _ => []) /\
        object_size c = os /\ size <= os /\ (2 ^ k | os) /\ alignment c = al /\ sc_name c = take (length name - 1) name /\
        (j < 11)%nat /\ slab_size c = PAGE_SIZE * 2 ^ Z.of_nat j /\ (forall i, (i < j)%nat -> limit i < os) /\ (al = 0 -> 8 <= n)) \/
     (limit 10 < os /\ slab_cache_create name size al s = Done 0 s')).
Proof.
  intros Hf Hb Hname Hsz Hk Hal os. destruct (locked_new_ok s ca nxt Hf) as (cp & Enew & Hcp).
  destruct Hf as [Hh [Hp Hp0] Hc Hl Hlk].
  assert (Ealign : (if al =? 0 then 4 else al) = 2 ^ k).
  { destruct Hal as [[-> ->]| ->]; [done|]. rewrite (proj2 (Z.eqb_neq _ _)); [done|]. pose proof (pow2_pos k ltac:(lia)). lia. }
  pose proof (pow2_pos k ltac:(lia)) as Hk2.
  pose proof (Z.div_mod (size + 2 ^ k - 1) (2 ^ k) ltac:(lia)) as Hdm. pose proof (Z.mod_pos_bound (size + 2 ^ k - 1) (2 ^ k) ltac:(lia)).
  assert (Hos : size <= os) by (unfold os, rounded; lia).
  set (s1 := set_scpu cp (set_caches (<[ca := zero_cache]> (caches s)) (set_free_cache_head nxt s))) in *.
  set (c1 := set_alignment al (set_object_size os (set_sc_name (take (length name - 1) name) zero_cache))).
  set (s2 := set_caches (<[ca := c1]> (caches s1)) s1).
  assert (E : slab_cache_create name size al s =
    (ss ← choose_slab_size PAGE_MAX_DEPTH 0 os init_limits;
     (match ss with Some ss => upd_cache ca (set_slab_size ss) | None => mret tt end);;
     c ← get_cache ca;
     if slab_size c =? 0 then mret 0 else mret ca) s2).
  { unfold slab_cache_create. rewrite (proj2 (Z.eqb_neq _ _)) by lia. rewrite (proj2 (Z.leb_gt _ _)) by (unfold MAX_SLAB_NAME; lia).
    revert Enew. mstep. destruct (sacquire slab_lock s) as [[] sa| | | |]; try discriminate.
    destruct (slab_cache_new sa) as [x sb| | | |]; try discriminate.
    destruct (srelease slab_lock sb) as [[] sc| | | |]; try discriminate. intros [= -> ->].
    cbv zeta. rewrite Ealign, round_val by done. fold os.
    rewrite (upd_cache_ok s1 ca zero_cache) by (cbn; apply lookup_insert_eq).
    rewrite (upd_cache_ok _ ca (set_sc_name (take (length name - 1) name) zero_cache)) by (cbn; apply lookup_insert_eq).
    rewrite (upd_cache_ok _ ca (set_object_size os (set_sc_name (take (length name - 1) name) zero_cache))) by (cbn; apply lookup_insert_eq).
    cbn [hdrs caches spages free_cache_head slab_size_limits scpu set_caches set_hdrs set_scpu set_free_cache_head s1]. rewrite Hl.
    unfold s2, s1, set_caches, set_scpu, set_free_cache_head. cbn [hdrs caches spages free_cache_head slab_size_limits scpu].
    rewrite !insert_insert_eq. reflexivity. }
  assert (Hc2 : caches s2 !! ca = Some c1) by (cbn; apply lookup_insert_eq).
  rewrite E. destruct (choose_ok os s2 PAGE_MAX_DEPTH 0 eq_refl) as [[Hr Hall]|(j & Hj & Hle & Hmin & Hr)];
    rewrite (bind_Done _ _ _ _ _ Hr).
  - exists s2. split; [exact Hcp|]. split; [done|]. right. split; [apply Hall; lia|].
    unfold mbind at 1, M_bind at 1, mret at 1, M_ret at 1. rewrite (bind_Done _ _ _ _ _ (get_cache_ok _ _ _ Hc2)). reflexivity.
  - rewrite (bind_Done _ _ _ _ _ (upd_cache_ok s2 ca c1 _ Hc2)). erewrite bind_Done by (apply get_cache_ok; cbn; apply lookup_insert_eq).
    pose proof (page_size_pow j ltac:(lia)) as Hps. cbn [slab_size set_slab_size]. rewrite (proj2 (Z.eqb_neq _ _)) by lia.
    eexists. split; [|split; [|left]]; [| |set (c2 := set_slab_size (PAGE_SIZE * 2 ^ Z.of_nat j) c1); exists c2, (slab_max_object_num c2), j; split; [reflexivity|]].
    + exact Hcp.
    + reflexivity.
    + assert (Hpow : alignment c2 = 0 \/ exists k, 0 <= k <= 20 /\ alignment c2 = 2 ^ k).
      { cbn. destruct Hal as [[-> _]| ->]; [by left|]. right. exists k. done. }
      assert (Hdiv : (2 ^ k | os)) by apply Z.divide_factor_r.
      assert (Halle : alignment c2 <= object_size c2).
      { cbn. destruct Hal as [[-> _]| ->]; [lia|]. apply Z.divide_pos_le; [lia|done]. }
      destruct (geom_of_limit c2 _ j ltac:(lia) ltac:(cbn; lia) eq_refl Hpow Halle eq_refl) as [Hg Hn8].
      split; [|split; [done|split; [done|split; [done|split; [done|split; [done|split; [lia|split; [done|split; [|exact Hn8]]]]]]]]].
      * split; [apply lookup_insert_eq|exact Hg|reflexivity|reflexivity|constructor|intros a Ha; by apply not_elem_of_nil in Ha|done| |exact Hb|].
        -- intros a Ha. by apply not_elem_of_nil in Ha.
        -- intros a Ha. by apply not_elem_of_nil in Ha.
      * intros i Hi. apply Hmin. lia.
Qed.

(** The object that [slab_cache_alloc] hands out. *)
Lemma slab_alloc_object (s : sst) u ca c n F Pt fr :
  cinv s u ca c n F Pt fr -> no_lock ca (scpu s) ->
  (Pt = [] /\ exists msg, slab_cache_alloc ca s = Panic msg) \/
  exists a i s' u' c' F' Pt' fr' sz,
    slab_cache_alloc ca s = Done (slab_object_base c a + object_size c * i) s' /\
    no_lock ca (scpu s') /\ same_geom c c' /\ cinv s' u' ca c' n F' Pt' fr' /\
    ~ in_use n F Pt fr a i /\ (forall b j, in_use n F' Pt' fr' b j <-> b = a /\ j = i \/ in_use n F Pt fr b j) /\
    u' !! a = Some sz /\
    a + sizeof_slab_header + 4 * (n + 1) <= slab_object_base c a + object_size c * i /\
    slab_object_base c a + object_size c * i + object_size c <= a + sz /\
    (alignment c = 0 \/ (alignment c | slab_object_base c a)) /\
    (forall b j, in_use n F Pt fr b j ->
       slab_object_base c b + object_size c * j + object_size c <= slab_object_base c a + object_size c * i \/
       slab_object_base c a + object_size c * i + object_size c <= slab_object_base c b + object_size c * j).
Proof.
  intros HI Hl. destruct (slab_cache_alloc_ok _ _ _ _ _ _ _ _ HI Hl)
    as [?|(a & i & r & s' & u' & c' & F' & Pt' & fr1 & E & Hl' & Hsg & HI' & Hfa & Hfo & Hfn & Hset)]; [by left|right].
  pose proof (ci_geom _ _ _ _ _ _ _ _ HI) as Hg. pose proof (cg_os _ _ Hg) as Hos. pose proof (cg_n1 _ _ Hg) as Hn1.
  assert (Hai : a ∈ F' ++ Pt') by (apply Hset; by left).
  assert (Hdup : (0 <= i < n) /\ i ∉ r).
  { destruct (decide (a ∈ F ++ Pt)) as [Hin|Hout].
    - destruct (ci_slab _ _ _ _ _ _ _ _ HI a Hin) as (hd & _ & Hok). rewrite <- (Hfo a Hin), Hfa in Hok.
      pose proof (so_range _ _ _ _ _ Hok) as Hr. pose proof (so_nodup _ _ _ _ _ Hok) as Hd.
      apply Forall_cons in Hr as [? _]. by apply NoDup_cons in Hd as [? _].
    - specialize (Hfn Hout). rewrite Hfa in Hfn. rewrite seqZ_cons in Hfn by lia. injection Hfn as -> ->.
      split; [lia|]. intros Hin. apply elem_of_seqZ in Hin. lia. }
  destruct Hdup as [Hi Hir].
  destruct (ci_own _ _ _ _ _ _ _ _ HI' a Hai) as (sz & Hua & Hsz).
  destruct (ps_bounds _ _ _ _ (ci_blocks _ _ _ _ _ _ _ _ HI') Hua) as (Ha0 & _ & Hb32).
  pose proof Hsg as (Ess & Eos & Eal). rewrite Ess in Hsz.
  destruct (object_base_bounds c n a Hg Ha0 ltac:(lia)) as (Hlo & Hhi & Halg). cbv zeta in *.
  assert (Huse : forall b j, in_use n F' Pt' (with_fr fr1 a r) b j <-> b = a /\ j = i \/ in_use n F Pt fr b j).
  { intros b j. unfold in_use, with_fr. rewrite Hset. destruct (decide (b = a)) as [->|Hne].
    - destruct (decide (a ∈ F ++ Pt)) as [Hin|Hout].
      + rewrite <- (Hfo a Hin), Hfa, not_elem_of_cons. destruct (decide (j = i)) as [->|]; [|tauto]. split; [tauto|]. intros _. auto.
      + specialize (Hfn Hout). rewrite Hfa in Hfn. rewrite seqZ_cons in Hfn by lia. injection Hfn as -> ->.
        rewrite elem_of_seqZ. split.
        * intros (_ & Hj & Hn). left. split; [done|]. lia.
        * intros [[_ ->]|[? _]]; [|done]. split; [auto|]. split; [lia|]. lia.
    - rewrite !elem_of_app. split.
      + intros ([?|Hin] & Hj & Hn); [done|]. right. rewrite Hfo in Hn by (by apply elem_of_app). auto.
      + intros [[? _]|(Hin & Hj & Hn)]; [done|]. split; [auto|]. split; [done|]. rewrite Hfo; [done|]. by apply elem_of_app. }
  assert (Hnu : ~ in_use n F Pt fr a i).
  { intros (Hin & _ & Hn). rewrite <- (Hfo a Hin), Hfa in Hn. apply not_elem_of_cons in Hn as [? _]. done. }
  exists a, i, s', u', c', F', Pt', (with_fr fr1 a r), sz.
  split; [exact E|]. split; [exact Hl'|]. split; [exact Hsg|]. split; [exact HI'|]. split; [exact Hnu|]. split; [exact Huse|].
  split; [exact Hua|]. split; [nia|]. split; [nia|]. split; [exact Halg|].
  intros b j Hbj. assert (Hne : (b, j) <> (a, i)) by (intros [= -> ->]; done).
  destruct Hbj as (Hb & Hj & _). pose proof (objects_disjoint _ _ _ _ _ _ _ _ b j a i HI' ltac:(apply Hset; auto) Hai Hj Hi Hne) as Hd.
  cbv zeta in Hd. rewrite !(same_geom_base c c') in Hd by done. rewrite Eos in Hd. exact Hd.
Qed.

(** C25: [slab_cache_alloc] on a consistent cache hands out an object that was
    not in use, adds exactly that one to those in use, and keeps the cache
    consistent with its lock free; the object lies inside the slab's block
    behind the header and the free list, is aligned, and overlaps no other
    object of the cache.  The only other outcome is a panic of the page
    allocator, when no slab has a free object. *)
Theorem slab_alloc_correct (s : sst) u ca c n F Pt fr :
  cinv s u ca c n F Pt fr -> no_lock ca (scpu s) ->
  (Pt = [] /\ exists msg, slab_cache_alloc ca s = Panic msg) \/
  exists a i s' u' c' F' Pt' fr' sz,
    slab_cache_alloc ca s = Done (slab_object_base c a + object_size c * i) s' /\
    no_lock ca (scpu s') /\ same_geom c c' /\ cinv s' u' ca c' n F' Pt' fr' /\
    ~ in_use n F Pt fr a i /\ (forall b j, in_use n F' Pt' fr' b j <-> b = a /\ j = i \/ in_use n F Pt fr b j) /\
    u' !! a = Some sz /\
    a + sizeof_slab_header + 4 * (n + 1) <= slab_object_base c a + object_size c * i /\
    slab_object_base c a + object_size c * i + object_size c <= a + sz /\
    (alignment c = 0 \/ (alignment c | slab_object_base c a)) /\
    (forall b j, in_use n F Pt fr b j ->
       slab_object_base c b + object_size c * j + object_size c <= slab_object_base c a + object_size c * i \/
       slab_object_base c a + object_size c * i + object_size c <= slab_object_base c b + object_size c * j).
Proof. apply slab_alloc_object. Qed.

(** C31: [slab_cache_free] of an object in use of a slab that also has free
    objects puts exactly that object out of use, keeps the cache consistent
    with its lock free, and makes it the next one the slab hands out. *)
Theorem slab_free_correct (s : sst) u ca c n F Pt fr a i fuel :
  cinv s u ca c n F Pt fr -> no_lock ca (scpu s) -> in_use n F Pt fr a i -> a ∈ Pt -> (length F <= fuel)%nat ->
  exists s' fr', slab_cache_free fuel ca (slab_object_base c a + object_size c * i) s = Done tt s' /\
    no_lock ca (scpu s') /\ cinv s' u ca c n F Pt fr' /\ head (fr' a) = Some i /\
    (forall b j, in_use n F Pt fr' b j <-> in_use n F Pt fr b j /\ (b, j) <> (a, i)).
Proof.
  intros HI Hl Hu Ha Hfu. destruct (slab_cache_free_ok _ _ _ _ _ _ _ _ a i fuel HI Hl Hu Hfu) as [_ H1].
  destruct (H1 Ha) as (s' & E & Hl' & HI'). eexists s', _. split; [exact E|]. split; [exact Hl'|]. split; [exact HI'|].
  unfold with_fr, in_use. split; [by rewrite decide_True|]. intros b j. destruct (decide (b = a)) as [->|Hne].
  - rewrite not_elem_of_cons. split; [intros (? & ? & ? & ?); split; [done|congruence]|].
    intros ((? & ? & ?) & Hne). split; [done|]. split; [done|]. split; [|done]. intros ->. done.
  - split; [intros H2; split; [done|congruence]|by intros [? _]].
Qed.

(** C22: [slab_cache_free] of any object of a full slab panics: having moved
    the slab to the partial list it releases [slab_lock], which it never took,
    instead of the cache's lock. *)
Theorem slab_free_full_panics (s : sst) u ca c n F Pt fr a i fuel :
  cinv s u ca c n F Pt fr -> no_lock ca (scpu s) -> a ∈ F -> 0 <= i < n -> (length F <= fuel)%nat ->
  slab_cache_free fuel ca (slab_object_base c a + object_size c * i) s = Panic "release".
Proof.
  intros HI Hl Ha Hi Hfu. apply (slab_cache_free_ok _ _ _ _ _ _ _ _ a i fuel HI Hl); [|done|done].
  split; [apply elem_of_app; by left|]. split; [done|]. rewrite (ci_frF _ _ _ _ _ _ _ _ HI a Ha). apply not_elem_of_nil.
Qed.

End Create.

(** ** A cache over a fixed set of blocks *)

Definition fixed_pages : Type := gmap Z Z.
Definition block_of (b : Z) (m : fixed_pages) : option Z :=
  fst <$> head (filter (fun kv : Z * Z => kv.1 <= b < kv.1 + kv.2) (map_to_list m)).

#[export] Instance fixed_source : page_source fixed_pages := {|
  ps_alloc size := panic "out of memory"%string;
  ps_head b := fun s => match block_of b s with Some a => Done a s | None => Undef end;
  ps_free a := modify (delete a)
|}.

Definition fixed_blocks (s u : fixed_pages) : Prop :=
  s = u /\ (forall a sz, u !! a = Some sz -> 0 < a /\ 0 < sz /\ a + sz <= 2 ^ 32) /\
  (forall a sz b sz', u !! a = Some sz -> u !! b = Some sz' -> a <> b -> a + sz <= b \/ b + sz' <= a).

#[export] Instance fixed_source_laws : page_source_laws fixed_pages.
Proof.
  refine {| ps_blocks := fixed_blocks |}.
  - intros s u size _ _. left. eexists. reflexivity.
  - intros s u a sz b (-> & Hb & Hd) Ha Hin. cbn. unfold block_of.
    destruct (head _) as [[x y]|] eqn:E.
    + apply head_Some_elem_of in E. apply list_elem_of_filter in E as [Hxy E]. apply elem_of_map_to_list in E.
      cbn [fst snd fmap option_fmap option_map] in *. destruct (decide (x = a)) as [->|Hne]; [done|].
      destruct (Hd _ _ _ _ E Ha Hne); lia.
    + exfalso. apply head_None in E. apply (not_elem_of_nil (a, sz)). rewrite <- E.
      apply list_elem_of_filter. split; [exact Hin|]. by apply elem_of_map_to_list.
  - intros s u a sz (-> & Hb & Hd) Ha. eexists. split; [reflexivity|]. split; [done|]. split.
    + intros x y [_ Hx]%lookup_delete_Some. eauto.
    + intros x y x' y' [_ Hx]%lookup_delete_Some [_ Hx']%lookup_delete_Some. eauto.
  - intros s u a sz b sz' (-> & _ & Hd). apply Hd.
  - intros s u a sz (-> & Hb & _). apply Hb.
Defined.

(** One slab of one page at 4096 with two objects of 2000 bytes, the second
    one in use; and the same slab with both in use. *)
Definition demo_cache (full partial : Z) : slab_cache := SlabCache [] 0 4096 2000 0 full partial.
Definition demo_cpu : cpu := Cpu 0 false true (<[slab_lock := free_lock]> (<[cache_lock 100 := free_lock]> ∅)).
Definition demo_slab (next : Z) (l : list Z) (full partial : Z) : sst fixed_pages :=
  Sst {[4096 := 4096]} {[4096 := SlabHeader 0 next (4096 + 36) l]} {[100 := demo_cache full partial]} 0 init_limits demo_cpu.
Definition demo_partial : sst fixed_pages := demo_slab 0 [2; SLAB_FREE_END; SLAB_FREE_END] 0 4096.
Definition demo_full : sst fixed_pages := demo_slab 2 [SLAB_FREE_END; SLAB_FREE_END; SLAB_FREE_END] 4096 0.

Lemma demo_no_lock : no_lock 100 demo_cpu.
Proof.
  split; [|split; [by eexists|split; [by eexists|done]]]. split; [done| | |lia].
  - intros a l. rewrite decide_False by apply not_elem_of_empty. unfold demo_cpu. cbn [locks].
    rewrite !lookup_insert_Some, lookup_empty. naive_solver.
  - intros a Ha. by apply not_elem_of_empty in Ha.
Qed.

Lemma demo_blocks : fixed_blocks {[4096 := 4096]} {[4096 := 4096]}.
Proof.
  split; [done|]. split.
  - intros a sz [<- <-]%lookup_singleton_Some. lia.
  - intros a sz b sz' [<- <-]%lookup_singleton_Some [<- <-]%lookup_singleton_Some. done.
Qed.

Lemma demo_geom full partial : cache_geom (demo_cache full partial) 2.
Proof. split; [reflexivity|cbn; lia|cbn; lia|lia|vm_compute; discriminate|cbn; lia|by left]. Qed.

Lemma demo_partial_inv : cinv demo_partial {[4096 := 4096]} 100 (demo_cache 0 4096) 2 [] [4096] (fun _ => [0]).
Proof.
  split.
  - reflexivity.
  - apply demo_geom.
  - reflexivity.
  - split; [reflexivity|]. split; [lia|]. eexists. split; [reflexivity|reflexivity].
  - apply NoDup_singleton.
  - intros a ->%list_elem_of_singleton. eexists. split; [reflexivity|]. split; cbn; try done.
    + split; [done|]. exists 2. done.
    + apply NoDup_singleton.
    + constructor; [lia|constructor].
    + intros i Hi Hn. assert (i = 1) as ->; [|done]. apply not_elem_of_cons in Hn as [? _]. lia.
  - intros a Ha. by apply not_elem_of_nil in Ha.
  - discriminate.
  - exact demo_blocks.
  - intros a ->%list_elem_of_singleton. exists 4096. split; [reflexivity|cbn; lia].
Qed.

Lemma demo_full_inv : cinv demo_full {[4096 := 4096]} 100 (demo_cache 4096 0) 2 [4096] [] (fun _ => []).
Proof.
  split.
  - reflexivity.
  - apply demo_geom.
  - split; [reflexivity|]. split; [lia|]. eexists. split; [reflexivity|reflexivity].
  - reflexivity.
  - apply NoDup_singleton.
  - intros a ->%list_elem_of_singleton. eexists. split; [reflexivity|]. split; cbn; try done.
    + constructor.
    + intros i Hi Hn. assert (i = 0 \/ i = 1) as [-> | ->] by lia; done.
  - done.
  - intros a Ha. by apply not_elem_of_nil in Ha.
  - exact demo_blocks.
  - intros a ->%list_elem_of_singleton. exists 4096. split; [reflexivity|cbn; lia].
Qed.

(** The free object of the demo slab is handed out. *)
Lemma slab_alloc_correct_witness : exists s', slab_cache_alloc 100 demo_partial = Done (4096 + 36) s' /\ no_lock 100 (scpu s').
Proof.
  destruct (slab_alloc_correct _ _ _ _ _ _ _ _ demo_partial_inv demo_no_lock)
    as [[H _]|(a & i & s' & u' & c' & F' & Pt' & fr' & sz & E & Hl & _)]; [discriminate|].
  exists s'. split; [|exact Hl]. rewrite E.
  assert (Hv : match slab_cache_alloc 100 demo_partial with Done v _ => v = 4096 + 36 | _ => False end) by (vm_compute; reflexivity).
  rewrite E in Hv. by rewrite Hv.
Defined.

(** Object 1 of the demo slab is in use; freeing it works. *)
Lemma slab_free_correct_witness : exists s', slab_cache_free 0 100 (4096 + 36 + 2000) demo_partial = Done tt s' /\ no_lock 100 (scpu s').
Proof.
  destruct (slab_free_correct demo_partial _ _ _ _ _ _ _ 4096 1 0 demo_partial_inv demo_no_lock) as (s' & fr' & E & Hl & _).
  - split; [left|]. split; [lia|]. intros H%list_elem_of_singleton. discriminate.
  - left.
  - cbn. lia.
  - exists s'. split; [exact E|exact Hl].
Defined.

Lemma slab_free_full_panics_witness : slab_cache_free 1 100 (4096 + 36) demo_full = Panic "release".
Proof.
  apply (slab_free_full_panics demo_full _ _ _ _ _ _ _ 4096 0 1 demo_full_inv demo_no_lock); [left|lia|cbn; lia].
Defined.

(** A cache for objects of 80 bytes, as mmap.c wants. *)
Definition demo_boot : sst fixed_pages :=
  Sst {[4096 := 4096]} ∅ {[100 := set_sc_next 0 zero_cache]} 100 init_limits demo_cpu.

Lemma slab_cache_create_correct_witness :
  exists s', slab_cache_create [109; 109; 97; 112] 80 0 demo_boot = Done 100 s' /\ no_lock 100 (scpu s').
Proof.
  destruct (slab_cache_create_correct demo_boot {[4096 := 4096]} 100 0 [109; 109; 97; 112] 80 0 2) as (s' & Hl & _ & [(c & n & j & E & _)|[Hbad _]]).
  - split; [reflexivity|lia|reflexivity|reflexivity|]. destruct demo_no_lock as [Hc _]. split; [exact Hc|]. by eexists.
  - exact demo_blocks.
  - cbn. lia.
  - lia.
  - lia.
  - left. done.
  - exists s'. split; [exact E|exact Hl].
  - exfalso. revert Hbad. vm_compute. discriminate.
Defined.
