(* ===== verification/Bytes.v ===== *)
(** * Bytes, words and ranges of memory

    A memory is a total function from addresses to bytes; a word of [n] bytes
    is little-endian.  [memset] and [memmove] of larger objects are the
    functions [mset] and [mmove]: what CString.v proves of the loops of
    string.c. *)
From S2P Require Import Prelude.

Definition bytes : Type := Z -> Z.

Fixpoint rdle (n : nat) (m : bytes) (a : Z) : Z :=
  match n with O => 0 | S n => m a + 256 * rdle n m (a + 1) end.
Definition wrle (n : nat) (a v : Z) (m : bytes) : bytes := fun i =>
  if (a <=? i) && (i <? a + Z.of_nat n) then (v / 256 ^ (i - a)) mod 256 else m i.
Definition mset (a c n : Z) (m : bytes) : bytes := fun i =>
  if (a <=? i) && (i <? a + n) then u8 c else m i.
(** The bytes [src .. src + n) of [m'] go to [dst .. dst + n) of [m]. *)
Definition mmove (dst src n : Z) (m' m : bytes) : bytes := fun i =>
  if (dst <=? i) && (i <? dst + n) then m' (src + (i - dst)) else m i.
(** A list of bytes as a memory from 0. *)
Definition of_list (l : list Z) : bytes := fun i => if i <? 0 then 0 else default 0 (l !! Z.to_nat i).
Definition to_list (m : bytes) (a n : Z) : list Z := (fun i => m (a + i)) <$> seqZ 0 n.

Abbreviation rd16 := (rdle 2).
Abbreviation rd32 := (rdle 4).
Abbreviation rd64 := (rdle 8).
Abbreviation wr16 := (wrle 2).
Abbreviation wr32 := (wrle 4).
Abbreviation wr64 := (wrle 8).

(** Two memories agree on a range. *)
Definition agree (a n : Z) (m m' : bytes) : Prop := forall i, a <= i < a + n -> m i = m' i.

#[export] Instance agree_equiv a n : Equivalence (agree a n).
Proof.
  split.
  - intros m i _. done.
  - intros m m' H i Hi. symmetry. by apply H.
  - intros m1 m2 m3 H1 H2 i Hi. rewrite H1 by done. by apply H2.
Qed.

Lemma agree_sub a n a' n' m m' : agree a n m m' -> a <= a' -> a' + n' <= a + n -> agree a' n' m m'.
Proof. intros H ? ? i Hi. apply H. lia. Qed.

Lemma rdle_agree n : forall m m' a, agree a (Z.of_nat n) m m' -> rdle n m a = rdle n m' a.
Proof.
  induction n as [|n IH]; intros m m' a H; cbn; [done|]. rewrite (H a) by lia.
  rewrite (IH m m' (a + 1)); [done|]. eapply agree_sub; [exact H|lia|lia].
Qed.

Lemma wrle_out n a v m i : i < a \/ a + Z.of_nat n <= i -> wrle n a v m i = m i.
Proof. intros H. unfold wrle. destruct (a <=? i) eqn:E1, (i <? a + Z.of_nat n) eqn:E2; try done. bool_hyps. lia. Qed.

Lemma wrle_in n a v m i : a <= i < a + Z.of_nat n -> wrle n a v m i = (v / 256 ^ (i - a)) mod 256.
Proof. intros H. unfold wrle. by rewrite (proj2 (Z.leb_le _ _)), (proj2 (Z.ltb_lt _ _)) by lia. Qed.

Lemma rdle_digits n : forall m a v, (forall j, 0 <= j < Z.of_nat n -> m (a + j) = (v / 256 ^ j) mod 256) -> rdle n m a = v mod 256 ^ Z.of_nat n.
Proof.
  induction n as [|n IH]; intros m a v H; cbn [rdle].
  - change (256 ^ Z.of_nat 0) with 1. by rewrite Z.mod_1_r.
  - rewrite (IH m (a + 1) (v / 256)).
    + specialize (H 0 ltac:(lia)). rewrite Z.add_0_r, Z.pow_0_r, Z.div_1_r in H. rewrite H.
      rewrite Nat2Z.inj_succ, Z.pow_succ_r by lia. rewrite Z.rem_mul_r; [done|lia|]. apply Z.pow_pos_nonneg; lia.
    + intros j Hj. replace (a + 1 + j) with (a + (1 + j)) by lia. rewrite H by lia.
      rewrite Z.pow_add_r, Z.pow_1_r by lia. by rewrite Z.div_div by (try apply Z.pow_pos_nonneg; lia).
Qed.

Lemma rdle_wrle_same n m a v : 0 <= v < 256 ^ Z.of_nat n -> rdle n (wrle n a v m) a = v.
Proof.
  intros Hv. rewrite (rdle_digits n _ a v); [by apply Z.mod_small|].
  intros j Hj. rewrite wrle_in by lia. by replace (a + j - a) with j by lia.
Qed.

Lemma rdle_wrle_other n k m a b v : b + Z.of_nat n <= a \/ a + Z.of_nat k <= b -> rdle n (wrle k a v m) b = rdle n m b.
Proof. intros H. apply rdle_agree. intros i Hi. apply wrle_out. lia. Qed.

Lemma mset_in a c n m i : a <= i < a + n -> mset a c n m i = u8 c.
Proof. intros H. unfold mset. by rewrite (proj2 (Z.leb_le _ _)), (proj2 (Z.ltb_lt _ _)) by lia. Qed.
Lemma mset_out a c n m i : i < a \/ a + n <= i -> mset a c n m i = m i.
Proof. intros H. unfold mset. destruct (a <=? i) eqn:E1, (i <? a + n) eqn:E2; try done. bool_hyps. lia. Qed.
Lemma mmove_in d s n m' m i : d <= i < d + n -> mmove d s n m' m i = m' (s + (i - d)).
Proof. intros H. unfold mmove. by rewrite (proj2 (Z.leb_le _ _)), (proj2 (Z.ltb_lt _ _)) by lia. Qed.
Lemma mmove_out d s n m' m i : i < d \/ d + n <= i -> mmove d s n m' m i = m i.
Proof. intros H. unfold mmove. destruct (d <=? i) eqn:E1, (i <? d + n) eqn:E2; try done. bool_hyps. lia. Qed.

Lemma rdle_zero n : forall m a, (forall i, a <= i < a + Z.of_nat n -> m i = 0) -> rdle n m a = 0.
Proof.
  induction n as [|n IH]; intros m a H; cbn; [done|]. rewrite (H a) by lia. rewrite (IH m (a + 1)); [done|].
  intros i Hi. apply H. lia.
Qed.

Lemma rdle_range n : forall m a, (forall i, a <= i < a + Z.of_nat n -> 0 <= m i < 256) -> 0 <= rdle n m a < 256 ^ Z.of_nat n.
Proof.
  induction n as [|n IH]; intros m a H; cbn [rdle]; [cbn; lia|].
  pose proof (H a ltac:(lia)). pose proof (IH m (a + 1) ltac:(intros i Hi; apply H; lia)).
  rewrite Nat2Z.inj_succ, Z.pow_succ_r by lia. lia.
Qed.

Lemma to_list_length m a n : Z.of_nat (length (to_list m a n)) = Z.max 0 n.
Proof. unfold to_list. rewrite length_fmap, length_seqZ. lia. Qed.

Lemma to_list_lookup m a n i : 0 <= i < n -> to_list m a n !! Z.to_nat i = Some (m (a + i)).
Proof. intros Hi. unfold to_list. rewrite list_lookup_fmap, lookup_seqZ_lt by lia. cbn. f_equal. f_equal. lia. Qed.

Lemma to_list_agree m m' a n : agree a n m m' -> to_list m a n = to_list m' a n.
Proof.
  intros H. unfold to_list. apply list_fmap_ext. intros i x Hx. apply lookup_seqZ in Hx as [-> Hx]. apply H. lia.
Qed.

Lemma of_list_lookup l i : 0 <= i -> of_list l i = default 0 (l !! Z.to_nat i).
Proof. intros. unfold of_list. by rewrite (proj2 (Z.ltb_ge _ _)). Qed.

Lemma to_of_list l : to_list (of_list l) 0 (Z.of_nat (length l)) = l.
Proof.
  apply list_eq. intros i. destruct (decide (i < length l)%nat) as [Hi|Hi].
  - rewrite <- (Nat2Z.id i) at 1. rewrite to_list_lookup by lia. rewrite Z.add_0_l, of_list_lookup, Nat2Z.id by lia.
    destruct (lookup_lt_is_Some_2 l i Hi) as [x ->]. done.
  - rewrite !lookup_ge_None_2; [done|lia|]. pose proof (to_list_length (of_list l) 0 (Z.of_nat (length l))). lia.
Qed.
