(* ===== verification/Vm.v ===== *)
(** * Virtual memory (kernel/vm.c, the page table part of kernel/proc.c)

    Physical memory is one function from addresses to bytes; page table
    entries are the little-endian words in it, so a table page can be
    corrupted by a stray write like any other page.  Pages come from the
    interface [kpages]: VmPages.v discharges it from the buddy allocator.
    Bytes that live outside page memory (the kernel's own buffers) are lists.

    Fences and TLB maintenance have no counterpart; [uvmdump] only prints. *)
From S2P Require Import Prelude Bytes.

Definition PGSIZE : Z := 4096.
Definition PGSHIFT : Z := 12.
Definition PGROUNDUP (a : Z) : Z := Z.land (u64 (a + PGSIZE - 1)) (u64 (Z.lnot (PGSIZE - 1))).
Definition PGROUNDDOWN (a : Z) : Z := Z.land a (u64 (Z.lnot (PGSIZE - 1))).
Definition PTE_V : Z := Z.shiftl 1 0.
Definition PTE_R : Z := Z.shiftl 1 1.
Definition PTE_W : Z := Z.shiftl 1 2.
Definition PTE_X : Z := Z.shiftl 1 3.
Definition PTE_U : Z := Z.shiftl 1 4.
Definition PTE_A : Z := Z.shiftl 1 6.
Definition PTE_D : Z := Z.shiftl 1 7.
Definition PTE_COW : Z := Z.shiftl 1 8.
Definition PTE_SEC : Z := Z.shiftl 1 59.
Definition PTE_S : Z := Z.shiftl 1 60.
Definition PTE_B : Z := Z.shiftl 1 61.
Definition PTE_C : Z := Z.shiftl 1 62.
Definition PTE_SO : Z := Z.shiftl 1 63.
Definition PTE_EXT : Z := Z.lor (Z.lor (Z.lor (Z.lor PTE_SO PTE_C) PTE_B) PTE_S) PTE_SEC.
Definition PTE_THEAD_DEVICE : Z := Z.lor PTE_SO PTE_S.
Definition PTE_THEAD_NORMAL : Z := Z.lor (Z.lor PTE_C PTE_B) PTE_S.
Definition PTE_DEVICE : Z := Z.lor (Z.lor PTE_R PTE_W) PTE_THEAD_DEVICE.
Definition PTE_EXEC : Z := Z.lor (Z.lor PTE_R PTE_X) PTE_THEAD_NORMAL.
Definition PTE_RO : Z := Z.lor PTE_R PTE_THEAD_NORMAL.
Definition PTE_NORMAL : Z := Z.lor PTE_RO PTE_W.
Definition PA2PTE (pa : Z) : Z := u64 (Z.shiftl (Z.shiftr pa 12) 10).
Definition PTE2PA (pte : Z) : Z := u64 (Z.shiftl (Z.shiftr (Z.land pte (u64 (Z.lnot PTE_EXT))) 10) 12).
Definition PTE_FLAGS (pte : Z) : Z := Z.land pte (Z.lor 0x3FF PTE_EXT).
Definition PXMASK : Z := 0x1FF.
Definition PXSHIFT (level : Z) : Z := PGSHIFT + 9 * level.
Definition PX (level va : Z) : Z := Z.land (Z.shiftr va (PXSHIFT level)) PXMASK.
Definition MAXVA : Z := Z.shiftl 1 (9 + 9 + 9 + 12 - 1).

Definition KERNBASE : Z := 0x80200000.
Definition PHYSTOP : Z := KERNBASE + 252 * 1024 * 1024.
Definition TRAMPOLINE : Z := MAXVA - PGSIZE.
Definition KSTACK (p : Z) : Z := TRAMPOLINE - (p + 1) * 2 * PGSIZE.
Definition TRAPFRAME : Z := TRAMPOLINE - PGSIZE.
Definition USERTOP : Z := TRAPFRAME - PGSIZE.
Definition STACKPAGE : Z := 16.
Definition STACKTOP : Z := USERTOP.
Definition STACKBASE : Z := STACKTOP - STACKPAGE * PGSIZE.
Definition MMAPBASE : Z := 0x2000000000.
Definition UART0 : Z := 0x04140000.
Definition PLIC : Z := 0x70000000.
Definition UART0_PHY : Z := UART0.
Definition MMIO_BASE : Z := 0x03000000.
Definition PINMUX_BASE : Z := 0x03001000.
Definition CLKGEN_BASE : Z := 0x03002000.
Definition RESET_BASE : Z := 0x03003000.
Definition SD0_BASE : Z := 0x04310000.
Definition RTC_BASE : Z := 0x05000000.
Definition RTC_CTRL_BASE : Z := RTC_BASE + 0x00025000.
Definition RTC_CORE_BASE : Z := RTC_BASE + 0x00026000.
Definition NPROC : nat := 64.
#[global] Arguments NPROC : simpl never.
Definition MAP_SHARED : Z := 1.

(** [flag p f]: the test [*pte & f]. *)
Definition flag (p f : Z) : bool := negb (Z.land p f =? 0).

Class kpages (P : Type) := KPages {
  kalloc : M P Z;
  kfree : Z -> M P unit;
  page_refcnt_get : Z -> M P Z;
  page_refcnt_inc : Z -> M P unit;
}.

(** The pages handed out, with their reference counts. *)
Class kpages_laws (P : Type) `{kpages P} := {
  kp_refs : P -> gmap Z Z -> Prop;
  kalloc_ok : forall s R, kp_refs s R ->
    (exists msg, kalloc s = Panic msg) \/
    exists a s', kalloc s = Done a s' /\ R !! a = None /\ kp_refs s' (<[a := 1]> R);
  kfree_ok : forall s R a r, kp_refs s R -> R !! a = Some r ->
    exists s', kfree a s = Done tt s' /\ kp_refs s' (if r =? 1 then delete a R else <[a := r - 1]> R);
  refcnt_get_ok : forall s R a r, kp_refs s R -> R !! a = Some r -> page_refcnt_get a s = Done r s;
  refcnt_inc_ok : forall s R a r, kp_refs s R -> R !! a = Some r -> r + 1 < 2 ^ 32 ->
    exists s', page_refcnt_inc a s = Done tt s' /\ kp_refs s' (<[a := r + 1]> R);
  kp_page : forall s R a r, kp_refs s R -> R !! a = Some r -> (PGSIZE | a) /\ 0 < a /\ a + PGSIZE <= 2 ^ 32 /\ 1 <= r < 2 ^ 32;
}.

Section Vm.
Context {P : Type} `{!kpages P}.

Record vst := Vst { vpg : P; pmem : bytes }.

Definition vpages {A} (m : M P A) : M vst A := zoom vpg (fun p s => Vst p (pmem s)) m.
Definition rd_pte (a : Z) : M vst Z := gets (fun s => rd64 (pmem s) a).
Definition wr_pte (a v : Z) : M vst unit := modify (fun s => Vst (vpg s) (wr64 a v (pmem s))).
Definition memset (a c n : Z) : M vst unit := modify (fun s => Vst (vpg s) (mset a c n (pmem s))).
Definition memmove (d a n : Z) : M vst unit := modify (fun s => Vst (vpg s) (mmove d a n (pmem s) (pmem s))).

(** [&pagetable[i]] *)
Definition pte_addr (pagetable i : Z) : Z := pagetable + 8 * i.

Fixpoint walk_loop (level : nat) (pagetable va : Z) (alloc : bool) : M vst Z :=
  match level with
  | O => mret (pte_addr pagetable (PX 0 va))
  | S l =>
      let pte := pte_addr pagetable (PX (Z.of_nat level) va) in
      e ← rd_pte pte;
      if flag e PTE_V then walk_loop l (PTE2PA e) va alloc
      else if negb alloc then mret 0
      else
        pg ← vpages kalloc;
        if pg =? 0 then mret 0
        else
          memset pg 0 PGSIZE;;
          wr_pte pte (Z.lor (PA2PTE pg) PTE_V);;
          walk_loop l pg va alloc
  end.
Definition walk (pagetable va : Z) (alloc : bool) : M vst Z :=
  if MAXVA <=? va then panic "walk" else walk_loop 2 pagetable va alloc.

Definition walkaddr (pagetable va : Z) : M vst Z :=
  if MAXVA <=? va then mret 0
  else
    pte ← walk pagetable va false;
    if pte =? 0 then mret 0
    else
      e ← rd_pte pte;
      if negb (flag e PTE_V) then mret 0
      else if negb (flag e PTE_U) then mret 0
      else mret (PTE2PA e).

(** The loop of [mappages]; [n] pages are left, so that [a] is [last] when
    one is. *)
Fixpoint mappages_loop (n : nat) (pagetable a last pa perm : Z) : M vst Z :=
  match n with
  | O => nofuel
  | S n =>
      pte ← walk pagetable a true;
      if pte =? 0 then mret (-1)
      else
        e ← rd_pte pte;
        if flag e PTE_V then panic "mappages: remap"
        else
          wr_pte pte (Z.lor (Z.lor (Z.lor (Z.lor (PA2PTE pa) perm) PTE_V) PTE_A) PTE_D);;
          if a =? last then mret 0
          else mappages_loop n pagetable (u64 (a + PGSIZE)) last (u64 (pa + PGSIZE)) perm
  end.
Definition mappages (pagetable va size pa perm : Z) : M vst Z :=
  if size =? 0 then panic "mappages: size"
  else
    let a := PGROUNDDOWN va in
    let last := PGROUNDDOWN (u64 (va + size - 1)) in
    mappages_loop (Z.to_nat (u64 (last - a) / PGSIZE + 1)) pagetable a last pa perm.

Definition kvmmap (kpgtbl va pa sz perm : Z) : M vst unit :=
  r ← mappages kpgtbl va sz pa perm;
  if negb (r =? 0) then panic "kvmmap" else mret tt.

(** The loop of [uvmunmap]: [n] pages are left. *)
Fixpoint uvmunmap_loop (n : nat) (pagetable a : Z) (do_free : bool) : M vst unit :=
  match n with
  | O => mret tt
  | S n =>
      pte ← walk pagetable a false;
      (if pte =? 0 then mret tt
       else
         e ← rd_pte pte;
         if negb (flag e PTE_V) then mret tt
         else if Z.land (PTE_FLAGS e) 0x3ff =? PTE_V then panic "uvmunmap: not a leaf"
         else
           (if do_free then vpages (kfree (PTE2PA e)) else mret tt);;
           wr_pte pte 0);;
      uvmunmap_loop n pagetable (u64 (a + PGSIZE)) do_free
  end.
Definition uvmunmap (pagetable va npages : Z) (do_free : bool) : M vst unit :=
  if negb (va mod PGSIZE =? 0) then panic "uvmunmap: not aligned"
  else if va <? u64 (va + u64 (npages * PGSIZE))
  then uvmunmap_loop (Z.to_nat (u64 (npages * PGSIZE) / PGSIZE)) pagetable va do_free
  else mret tt.

Definition uvmcreate : M vst Z :=
  pagetable ← vpages kalloc;
  if pagetable =? 0 then mret 0 else memset pagetable 0 PGSIZE;; mret pagetable.

Definition uvmfirst (pagetable : Z) (src : list Z) : M vst unit :=
  let sz := Z.of_nat (length src) in
  if PGSIZE <=? sz then panic "uvmfirst: more than a page"
  else
    pg ← vpages kalloc;
    memset pg 0 PGSIZE;;
    mappages pagetable 0 PGSIZE pg (Z.lor (Z.lor PTE_NORMAL PTE_X) PTE_U);;
    modify (fun s => Vst (vpg s) (mmove pg 0 sz (of_list src) (pmem s))).

Definition uvmdealloc (pagetable oldsz newsz : Z) : M vst Z :=
  if oldsz <=? newsz then mret oldsz
  else
    (if PGROUNDUP newsz <? PGROUNDUP oldsz
     then uvmunmap pagetable (PGROUNDUP newsz) (s32 ((PGROUNDUP oldsz - PGROUNDUP newsz) / PGSIZE)) true
     else mret tt);;
    mret newsz.

(** The loop of [uvmalloc]: [n] bounds the pages left. *)
Fixpoint uvmalloc_loop (n : nat) (pagetable a oldsz newsz xperm : Z) : M vst Z :=
  match n with
  | O => nofuel
  | S n =>
      if a <? newsz then
        pg ← vpages kalloc;
        if pg =? 0 then uvmdealloc pagetable a oldsz;; mret 0
        else
          memset pg 0 PGSIZE;;
          r ← mappages pagetable a PGSIZE pg (Z.lor (Z.lor PTE_RO PTE_U) xperm);
          if negb (r =? 0) then vpages (kfree pg);; uvmdealloc pagetable a oldsz;; mret 0
          else uvmalloc_loop n pagetable (u64 (a + PGSIZE)) oldsz newsz xperm
      else mret newsz
  end.
Definition uvmalloc (pagetable oldsz newsz xperm : Z) : M vst Z :=
  if newsz <? oldsz then mret oldsz
  else
    let oldsz := PGROUNDUP oldsz in
    uvmalloc_loop (S (Z.to_nat ((newsz - oldsz) / PGSIZE + 1))) pagetable oldsz oldsz newsz xperm.

(** [freewalk]: [d] bounds the depth of the tree, [n] entries from [i] are
    left. *)
Fixpoint freewalk_entries (rec : Z -> M vst unit) (n : nat) (pagetable i : Z) : M vst unit :=
  match n with
  | O => mret tt
  | S n =>
      pte ← rd_pte (pte_addr pagetable i);
      (if flag pte PTE_V && (Z.land pte (Z.lor (Z.lor PTE_R PTE_W) PTE_X) =? 0) then
         rec (PTE2PA pte);; wr_pte (pte_addr pagetable i) 0
       else if flag pte PTE_V then panic "Invalid leaf PTE"
       else mret tt);;
      freewalk_entries rec n pagetable (i + 1)
  end.
Fixpoint freewalk (d : nat) (pagetable : Z) : M vst unit :=
  match d with
  | O => nofuel
  | S d => freewalk_entries (freewalk d) 512 pagetable 0;; vpages (kfree pagetable)
  end.

Definition uvmfree (pagetable sz : Z) : M vst unit :=
  (if 0 <? sz then uvmunmap pagetable 0 (PGROUNDUP sz / PGSIZE) true else mret tt);;
  freewalk 3 pagetable.

(** ** fork's copy of an address space

    [region va] is the flags word of the mmap region at [va], if any. *)
Definition uvmcopy_page (region : Z -> option Z) (new va e : Z) : M vst bool :=
  let pa := PTE2PA e in
  let flags := PTE_FLAGS e in
  mem ← (if match region va with Some f => flag f MAP_SHARED | None => false end
         then vpages (page_refcnt_inc pa);; mret pa
         else pg ← vpages kalloc; (if pg =? 0 then mret 0 else memmove pg pa PGSIZE;; mret pg));
  if mem =? 0 then mret false
  else r ← mappages new va PGSIZE mem flags; mret (r =? 0).

(** The three nested loops; the result is the address at which they gave up. *)
Fixpoint uvmcopy_l0 (n : nat) (region : Z -> option Z) (pg0 new i j k : Z) : M vst (option Z) :=
  match n with
  | O => mret None
  | S n =>
      if (i =? 255) && (j =? 511) && (509 <=? k) then uvmcopy_l0 n region pg0 new i j (k + 1)
      else
        e ← rd_pte (pte_addr pg0 k);
        if flag e PTE_V then
          let va := Z.lor (Z.lor (Z.shiftl i 30) (Z.shiftl j 21)) (Z.shiftl k 12) in
          ok ← uvmcopy_page region new va e;
          if ok : bool then uvmcopy_l0 n region pg0 new i j (k + 1) else mret (Some va)
        else uvmcopy_l0 n region pg0 new i j (k + 1)
  end.
Fixpoint uvmcopy_l1 (n : nat) (region : Z -> option Z) (pg1 new i j : Z) : M vst (option Z) :=
  match n with
  | O => mret None
  | S n =>
      e ← rd_pte (pte_addr pg1 j);
      r ← (if flag e PTE_V then uvmcopy_l0 512 region (PTE2PA e) new i j 0 else mret None);
      match r with Some va => mret (Some va) | None => uvmcopy_l1 n region pg1 new i (j + 1) end
  end.
Fixpoint uvmcopy_l2 (n : nat) (region : Z -> option Z) (old new i : Z) : M vst (option Z) :=
  match n with
  | O => mret None
  | S n =>
      e ← rd_pte (pte_addr old i);
      r ← (if flag e PTE_V then uvmcopy_l1 512 region (PTE2PA e) new i 0 else mret None);
      match r with Some va => mret (Some va) | None => uvmcopy_l2 n region old new (i + 1) end
  end.
Definition uvmcopy (region : Z -> option Z) (old new : Z) : M vst Z :=
  r ← uvmcopy_l2 256 region old new 0;
  match r with
  | None => mret 0
  | Some va =>
      (if va <? MMAPBASE then uvmunmap new 0 (va / PGSIZE) true
       else uvmunmap new 0 (u64 (va - MMAPBASE) / PGSIZE) true);;
      mret (-1)
  end.

Definition uvmclear (pagetable va : Z) : M vst unit :=
  pte ← walk pagetable va false;
  if pte =? 0 then panic "uvmclear"
  else e ← rd_pte pte; wr_pte pte (Z.land e (u64 (Z.lnot PTE_U))).

Definition alloc_cow_page (pagetable va : Z) : M vst Z :=
  if MAXVA <=? va then mret (-1)
  else
    pte ← walk pagetable va false;
    e ← (if pte =? 0 then mret 0 else rd_pte pte);
    if (pte =? 0) || negb (flag e PTE_V) || negb (flag e PTE_U) then mret 1
    else if negb (flag e PTE_COW) && negb (flag e PTE_W) then mret (-1)
    else if flag e PTE_W || negb (flag e PTE_COW) then mret 1
    else
      let flags := PTE_FLAGS e in
      let pa := PTE2PA e in
      let va0 := PGROUNDDOWN va in
      c ← vpages (page_refcnt_get pa);
      if 1 <? c then
        pg ← vpages kalloc;
        if pg =? 0 then mret (-1)
        else
          memmove pg pa PGSIZE;;
          uvmunmap pagetable va0 1 true;;
          r ← mappages pagetable va0 PGSIZE pg (Z.lor (Z.land flags (u64 (Z.lnot PTE_COW))) PTE_W);
          if negb (r =? 0) then vpages (kfree pg);; mret (-1) else mret 0
      else if c =? 1 then
        e ← rd_pte pte;
        wr_pte pte (Z.lor e PTE_W);;
        e ← rd_pte pte;
        wr_pte pte (Z.land e (u64 (Z.lnot PTE_C)));;
        mret 0
      else mret (-1).

(** ** Copies between kernel buffers and user memory

    [n] bounds the pages left to visit. *)
Fixpoint copyout_loop (n : nat) (pagetable dstva : Z) (src : list Z) : M vst Z :=
  match n with
  | O => nofuel
  | S n =>
      match src with
      | [] => mret 0
      | _ =>
          let va0 := PGROUNDDOWN dstva in
          ret ← alloc_cow_page pagetable va0;
          if ret <? 0 then mret (-1)
          else
            pa0 ← walkaddr pagetable va0;
            if pa0 =? 0 then mret (-1)
            else
              let m := Z.min (PGSIZE - (dstva - va0)) (Z.of_nat (length src)) in
              modify (fun s => Vst (vpg s) (mmove (pa0 + (dstva - va0)) 0 m (of_list src) (pmem s)));;
              copyout_loop n pagetable (u64 (va0 + PGSIZE)) (drop (Z.to_nat m) src)
      end
  end.
Definition copy_fuel (len : Z) : nat := Z.to_nat (len / PGSIZE + 3).
Definition copyout (pagetable dstva : Z) (src : list Z) : M vst Z :=
  copyout_loop (copy_fuel (Z.of_nat (length src))) pagetable dstva src.

(** [copyin] returns what it has moved to [dst] besides its result. *)
Fixpoint copyin_loop (n : nat) (pagetable srcva len : Z) (dst : list Z) : M vst (Z * list Z) :=
  match n with
  | O => nofuel
  | S n =>
      if 0 <? len then
        let va0 := PGROUNDDOWN srcva in
        pa0 ← walkaddr pagetable va0;
        if pa0 =? 0 then mret (-1, dst)
        else
          let m := Z.min (PGSIZE - (srcva - va0)) len in
          b ← gets (fun s => to_list (pmem s) (pa0 + (srcva - va0)) m);
          copyin_loop n pagetable (u64 (va0 + PGSIZE)) (len - m) (dst ++ b)
      else mret (0, dst)
  end.
Definition copyin (pagetable srcva len : Z) : M vst (Z * list Z) :=
  copyin_loop (copy_fuel len) pagetable srcva len [].

(** The bytes of one page up to the terminator: the string, whether it ended. *)
Fixpoint copyinstr_page (n : nat) (m : bytes) (p : Z) (dst : list Z) : list Z * bool :=
  match n with
  | O => (dst, false)
  | S n => if m p =? 0 then (dst, true) else copyinstr_page n m (p + 1) (dst ++ [m p])
  end.
Fixpoint copyinstr_loop (fuel : nat) (pagetable srcva max : Z) (dst : list Z) : M vst (Z * list Z) :=
  match fuel with
  | O => nofuel
  | S fuel =>
      if 0 <? max then
        let va0 := PGROUNDDOWN srcva in
        pa0 ← walkaddr pagetable va0;
        if pa0 =? 0 then mret (-1, dst)
        else
          let n := Z.min (PGSIZE - (srcva - va0)) max in
          r ← gets (fun s => copyinstr_page (Z.to_nat n) (pmem s) (pa0 + (srcva - va0)) dst);
          if r.2 : bool then mret (0, r.1)
          else copyinstr_loop fuel pagetable (u64 (va0 + PGSIZE)) (max - n) r.1
      else mret (-1, dst)
  end.
Definition copyinstr (pagetable srcva max : Z) : M vst (Z * list Z) :=
  if srcva =? 0 then mret (0, []) else copyinstr_loop (copy_fuel max) pagetable srcva max [].

(** ** The address spaces the kernel builds *)

Fixpoint mapstacks_loop (n : nat) (kpgtbl p : Z) : M vst unit :=
  match n with
  | O => mret tt
  | S n =>
      pa ← vpages kalloc;
      if pa =? 0 then panic "kalloc"
      else kvmmap kpgtbl (KSTACK p) pa PGSIZE PTE_NORMAL;; mapstacks_loop n kpgtbl (p + 1)
  end.
Definition proc_mapstacks (kpgtbl : Z) : M vst unit := mapstacks_loop NPROC kpgtbl 0.

(** [etext] and [trampoline] are symbols of the linked kernel. *)
Definition kvmmake (etext trampoline : Z) : M vst Z :=
  kpgtbl ← vpages kalloc;
  memset kpgtbl 0 PGSIZE;;
  kvmmap kpgtbl UART0 UART0_PHY PGSIZE PTE_DEVICE;;
  kvmmap kpgtbl MMIO_BASE MMIO_BASE PGSIZE PTE_DEVICE;;
  kvmmap kpgtbl CLKGEN_BASE CLKGEN_BASE PGSIZE PTE_DEVICE;;
  kvmmap kpgtbl PINMUX_BASE PINMUX_BASE PGSIZE PTE_DEVICE;;
  kvmmap kpgtbl RESET_BASE RESET_BASE PGSIZE PTE_DEVICE;;
  kvmmap kpgtbl RTC_CTRL_BASE RTC_CTRL_BASE PGSIZE PTE_DEVICE;;
  kvmmap kpgtbl RTC_CORE_BASE RTC_CORE_BASE PGSIZE PTE_DEVICE;;
  kvmmap kpgtbl PLIC PLIC 0x400000 PTE_DEVICE;;
  kvmmap kpgtbl SD0_BASE SD0_BASE (16 * PGSIZE) PTE_DEVICE;;
  kvmmap kpgtbl KERNBASE KERNBASE (u64 (etext - KERNBASE)) PTE_EXEC;;
  kvmmap kpgtbl etext etext (u64 (PHYSTOP - etext)) PTE_NORMAL;;
  kvmmap kpgtbl TRAMPOLINE trampoline PGSIZE PTE_EXEC;;
  proc_mapstacks kpgtbl;;
  mret kpgtbl.

Definition proc_pagetable (trampoline trapframe : Z) : M vst Z :=
  pagetable ← uvmcreate;
  if pagetable =? 0 then mret 0
  else
    r ← mappages pagetable TRAMPOLINE PGSIZE trampoline PTE_EXEC;
    if r <? 0 then uvmfree pagetable 0;; mret 0
    else
      r ← mappages pagetable TRAPFRAME PGSIZE trapframe PTE_NORMAL;
      if r <? 0 then uvmunmap pagetable TRAMPOLINE 1 false;; uvmfree pagetable 0;; mret 0
      else mret pagetable.

Definition proc_freepagetable (pagetable sz : Z) : M vst unit :=
  uvmunmap pagetable TRAMPOLINE 1 false;;
  uvmunmap pagetable TRAPFRAME 1 false;;
  uvmunmap pagetable STACKBASE STACKPAGE true;;
  uvmfree pagetable sz.

End Vm.
Arguments vst P : clear implicits.
