(* ===== verification/VmBits.v ===== *)
(** * Page table entries and addresses, bit by bit

    What the macros of riscv.h compute: the physical page and the flags of an
    entry, the three indices of a virtual address, and rounding to pages. *)
From S2P Require Import Prelude Bytes Vm.

Lemma flag_bit p k : 0 <= k -> flag p (Z.shiftl 1 k) = Z.testbit p k.
Proof.
  intros Hk. unfold flag. rewrite shiftl_1, land_pow2_bit by done. pose proof (pow2_pos k Hk).
  destruct (Z.testbit p k); [|done]. destruct (Z.eqb_spec (2 ^ k) 0); [lia|done].
Qed.

Lemma shiftl_1_bit k i : 0 <= k -> 0 <= i -> Z.testbit (Z.shiftl 1 k) i = (k =? i).
Proof. intros. rewrite shiftl_1 by done. by rewrite Z.pow2_bits_eqb. Qed.

Lemma ext_bits j : 0 <= j -> Z.testbit PTE_EXT j = (59 <=? j) && (j <? 64).
Proof.
  intros Hj. replace PTE_EXT with (Z.shiftl (Z.ones 5) 59) by reflexivity. rewrite Z.shiftl_spec by done.
  destruct (59 <=? j) eqn:E; bool_hyps; [|by rewrite Z.testbit_neg_r by lia]. cbn [andb].
  destruct (j <? 64) eqn:E2; bool_hyps; [apply Z.ones_spec_low|apply Z.ones_spec_high]; lia.
Qed.

Definition FLAG_MASK : Z := Z.lor 0x3FF PTE_EXT.
(** A word with only flag bits. *)
Definition is_flags (f : Z) : Prop := Z.land f FLAG_MASK = f.

Lemma mask_bits j : 0 <= j -> Z.testbit FLAG_MASK j = (j <? 10) || ((59 <=? j) && (j <? 64)).
Proof.
  intros Hj. unfold FLAG_MASK. rewrite Z.lor_spec, ext_bits by done. f_equal.
  change 0x3FF with (Z.ones 10). destruct (j <? 10) eqn:E; bool_hyps; [apply Z.ones_spec_low|apply Z.ones_spec_high]; lia.
Qed.

Lemma is_flags_bit f j : is_flags f -> 0 <= j -> Z.testbit f j = true -> j < 10 \/ 59 <= j < 64.
Proof.
  intros Hf Hj Hb. rewrite <- Hf, Z.land_spec, mask_bits in Hb by done. apply andb_true_iff in Hb as [_ Hb].
  apply orb_true_iff in Hb as [Hb|Hb]; bool_hyps; lia.
Qed.

Lemma is_flags_lor f g : is_flags f -> is_flags g -> is_flags (Z.lor f g).
Proof. unfold is_flags. intros Hf Hg. by rewrite Z.land_lor_distr_l, Hf, Hg. Qed.

Lemma is_flags_flags e : is_flags (PTE_FLAGS e).
Proof. unfold is_flags, PTE_FLAGS. fold FLAG_MASK. by rewrite <- Z.land_assoc, Z.land_diag. Qed.

(** ** Physical addresses in entries *)
Definition page_pa (a : Z) : Prop := (PGSIZE | a) /\ 0 <= a < 2 ^ 56.

Lemma pa2pte_bits a j : page_pa a -> 0 <= j -> Z.testbit (PA2PTE a) j = (10 <=? j) && Z.testbit a (j + 2).
Proof.
  intros [_ Ha] Hj. unfold PA2PTE, wrap.
  assert (Hhi : forall i, 56 <= i -> Z.testbit a i = false).
  { intros i Hi. destruct (decide (a = 0)) as [->|]; [by rewrite Z.bits_0|].
    apply Z.bits_above_log2; [lia|]. apply Z.log2_lt_pow2; [lia|]. pose proof (Z.pow_le_mono_r 2 56 i). lia. }
  destruct (Z.lt_ge_cases j 64).
  - rewrite Z.mod_pow2_bits_low by lia. rewrite Z.shiftl_spec by lia. destruct (10 <=? j) eqn:E; bool_hyps.
    + rewrite Z.shiftr_spec by lia. cbn [andb]. f_equal. lia.
    + by rewrite Z.testbit_neg_r by lia.
  - rewrite Z.mod_pow2_bits_high by lia. rewrite Hhi by lia. by rewrite andb_false_r.
Qed.

Lemma page_pa_bits a j : page_pa a -> 0 <= j -> j < 12 \/ 56 <= j -> Z.testbit a j = false.
Proof.
  intros [[q ->] Ha] Hj [H|H].
  - change PGSIZE with (2 ^ 12). by rewrite Z.mul_pow2_bits_low.
  - destruct (decide (q * PGSIZE = 0)) as [->|]; [by rewrite Z.bits_0|].
    apply Z.bits_above_log2; [lia|]. apply Z.log2_lt_pow2; [lia|]. pose proof (Z.pow_le_mono_r 2 56 j). lia.
Qed.

Lemma pte_pa a f : page_pa a -> is_flags f -> PTE2PA (Z.lor (PA2PTE a) f) = a.
Proof.
  intros Ha Hf. apply Z.bits_inj'. intros i Hi. unfold PTE2PA, wrap.
  destruct (Z.lt_ge_cases i 64) as [H|H].
  2:{ rewrite Z.mod_pow2_bits_high by lia. symmetry. apply page_pa_bits; auto; lia. }
  rewrite Z.mod_pow2_bits_low by lia. rewrite Z.shiftl_spec by lia.
  destruct (Z.lt_ge_cases i 12) as [H12|H12].
  { rewrite Z.testbit_neg_r by lia. symmetry. apply page_pa_bits; auto; lia. }
  rewrite Z.shiftr_spec, Z.land_spec, Z.lor_spec by lia. rewrite pa2pte_bits by (done || lia).
  rewrite (proj2 (Z.leb_le _ _)) by lia. cbn [andb]. replace (i - 12 + 10 + 2) with i by lia.
  rewrite Z.mod_pow2_bits_low by lia. rewrite Z.lnot_spec, ext_bits by lia.
  destruct (Z.lt_ge_cases i 56) as [H56|H56].
  - rewrite (proj2 (Z.leb_gt _ _)) by lia. cbn [andb negb].
    destruct (Z.testbit f (i - 12 + 10)) eqn:E; [|by rewrite orb_false_r, andb_true_r].
    apply is_flags_bit in E; [lia|done|lia].
  - rewrite (page_pa_bits a i) by (auto || lia). cbn [orb].
    destruct (Z.testbit f (i - 12 + 10)) eqn:E; [|done]. apply is_flags_bit in E; [|done|lia].
    rewrite (proj2 (Z.leb_le 59 _)), (proj2 (Z.ltb_lt _ _)) by lia. done.
Qed.

Lemma pte_flags a f : page_pa a -> is_flags f -> PTE_FLAGS (Z.lor (PA2PTE a) f) = f.
Proof.
  intros Ha Hf. unfold PTE_FLAGS. fold FLAG_MASK. rewrite Z.land_lor_distr_l, Hf.
  replace (Z.land (PA2PTE a) FLAG_MASK) with 0; [by rewrite Z.lor_0_l|]. symmetry. apply Z.bits_inj'. intros i Hi.
  rewrite Z.bits_0, Z.land_spec, pa2pte_bits, mask_bits by done.
  destruct (10 <=? i) eqn:E1; [|done]. destruct (i <? 10) eqn:E2; [bool_hyps; lia|]. cbn [andb orb].
  destruct (59 <=? i) eqn:E3; [|by rewrite andb_false_r]. bool_hyps. rewrite (page_pa_bits a) by (auto || lia). done.
Qed.

Lemma pte_testbit_low a f j : page_pa a -> 0 <= j < 10 -> Z.testbit (Z.lor (PA2PTE a) f) j = Z.testbit f j.
Proof. intros Ha Hj. rewrite Z.lor_spec, pa2pte_bits by (auto || lia). by rewrite (proj2 (Z.leb_gt _ _)) by lia. Qed.

Lemma pte_range a f : page_pa a -> is_flags f -> 0 <= Z.lor (PA2PTE a) f < 2 ^ 64.
Proof.
  intros Ha Hf.
  assert (E : wrap 64 (Z.lor (PA2PTE a) f) = Z.lor (PA2PTE a) f); [|rewrite <- E; apply (wrap_range 64); lia].
  apply Z.bits_inj'. intros i Hi. unfold wrap. destruct (Z.lt_ge_cases i 64).
  - by rewrite Z.mod_pow2_bits_low by lia.
  - rewrite Z.mod_pow2_bits_high by lia. rewrite Z.lor_spec, pa2pte_bits by done.
    rewrite (page_pa_bits a) by (auto || lia). rewrite andb_false_r. cbn [orb].
    destruct (Z.testbit f i) eqn:E; [|done]. apply is_flags_bit in E; [lia|done|done].
Qed.

(** ** Virtual addresses *)
(** The part of [va] above the index of level [l]. *)
Definition pfx (l va : Z) : Z := Z.shiftr va (12 + 9 * (l + 1)).

Lemma px_val l va : 0 <= l -> PX l va = (va / 2 ^ (12 + 9 * l)) mod 512.
Proof.
  intros Hl. unfold PX, PXSHIFT, PGSHIFT, PXMASK. rewrite Z.shiftr_div_pow2 by lia.
  change 0x1FF with (Z.ones 9). rewrite Z.land_ones by lia. done.
Qed.

Lemma px_range l va : 0 <= l -> 0 <= PX l va < 512.
Proof. intros Hl. rewrite px_val by done. apply Z.mod_pos_bound. lia. Qed.

Lemma pfx_step l va : 0 <= l -> pfx (l - 1) va = pfx l va * 512 + PX l va.
Proof.
  intros Hl. rewrite px_val by done. unfold pfx. replace (l - 1 + 1) with l by lia. rewrite !Z.shiftr_div_pow2 by lia.
  set (e := 12 + 9 * l). replace (12 + 9 * (l + 1)) with (e + 9) by lia.
  assert (E : va / 2 ^ (e + 9) = va / 2 ^ e / 512).
  { rewrite Z.pow_add_r by lia. change (2 ^ 9) with 512. rewrite Z.div_div; [done|apply Z.pow_nonzero; lia|lia]. }
  rewrite E, Z.mul_comm. apply Z.div_mod. lia.
Qed.

Lemma pfx_up l va : 0 <= l -> pfx l va / 512 = pfx (l + 1) va.
Proof.
  intros Hl. pose proof (pfx_step (l + 1) va ltac:(lia)) as E. replace (l + 1 - 1) with l in E by lia.
  pose proof (px_range (l + 1) va ltac:(lia)). rewrite E, Z.div_add_l, Z.div_small by lia. lia.
Qed.

Lemma pfx_root va : 0 <= va < MAXVA -> pfx 2 va = 0.
Proof.
  intros Hva. unfold pfx. rewrite Z.shiftr_div_pow2 by lia. apply Z.div_small.
  change MAXVA with (2 ^ 38) in Hva. change (12 + 9 * (2 + 1)) with 39. change (2 ^ 39) with (2 * 2 ^ 38). lia.
Qed.

Lemma pfx_nonneg l va : 0 <= va -> 0 <= pfx l va.
Proof. intros. unfold pfx. by apply Z.shiftr_nonneg. Qed.

(** The page number of [va] from its prefix and lowest index. *)
Lemma page_number va : 0 <= va -> va / PGSIZE = pfx 0 va * 512 + PX 0 va.
Proof. intros Hva. rewrite <- pfx_step by lia. unfold pfx. rewrite Z.shiftr_div_pow2 by lia. reflexivity. Qed.

Lemma same_slot va va' : 0 <= va -> 0 <= va' -> pfx 0 va = pfx 0 va' -> PX 0 va = PX 0 va' -> va / PGSIZE = va' / PGSIZE.
Proof. intros H H' E1 E2. rewrite !page_number by done. by rewrite E1, E2. Qed.

Lemma same_page va va' : 0 <= va -> 0 <= va' -> va / PGSIZE = va' / PGSIZE -> pfx 0 va = pfx 0 va' /\ PX 0 va = PX 0 va'.
Proof.
  intros H H' E. rewrite !page_number in E by done. pose proof (px_range 0 va ltac:(lia)). pose proof (px_range 0 va' ltac:(lia)). lia.
Qed.

(** ** Rounding *)
Lemma page_mask x : 0 <= x < 2 ^ 64 -> Z.land x (u64 (Z.lnot (PGSIZE - 1))) = x / PGSIZE * PGSIZE.
Proof.
  intros Hx. change PGSIZE with (2 ^ 12). rewrite <- Z.shiftl_mul_pow2, <- Z.shiftr_div_pow2 by lia. rewrite <- Z.ldiff_ones_r by lia.
  apply Z.bits_inj'. intros i Hi. rewrite Z.ldiff_spec, Z.land_spec. unfold wrap.
  destruct (Z.lt_ge_cases i 64).
  - rewrite Z.mod_pow2_bits_low by lia. rewrite Z.lnot_spec by lia. done.
  - rewrite Z.mod_pow2_bits_high by lia. rewrite andb_false_r.
    destruct (decide (x = 0)) as [->|]; [by rewrite Z.bits_0|].
    rewrite Z.bits_above_log2; [done|lia|]. apply Z.log2_lt_pow2; [lia|]. pose proof (Z.pow_le_mono_r 2 64 i). lia.
Qed.

Lemma pgrounddown_val a : 0 <= a < 2 ^ 64 -> PGROUNDDOWN a = a / PGSIZE * PGSIZE.
Proof. apply page_mask. Qed.

Lemma pgroundup_val a : 0 <= a -> a + PGSIZE <= 2 ^ 64 -> PGROUNDUP a = (a + PGSIZE - 1) / PGSIZE * PGSIZE.
Proof. intros H H2. unfold PGROUNDUP. unfold PGSIZE in *. rewrite (wrap_small 64) by lia. apply page_mask. unfold PGSIZE. lia. Qed.
