(* ===== verification/VmInv.v ===== *)
(** * Page table trees and what walk and its callers do to them

    [ptree m T root]: in memory [m] the three-level table at [root] consists
    of exactly the table pages of [T], which gives for a level and the address
    bits above that level's index the page that serves them.  [lf] is the
    entry a virtual address has in the tree, 0 where no page serves it.

    Every operation is shown to act on [lf] alone, whatever table pages it
    allocates. *)
From S2P Require Import Prelude Bytes Vm VmBits.

Abbreviation tree := (gmap (Z * Z) Z).
Definition is_node (T : tree) (a : Z) : Prop := exists k, T !! k = Some a.

Record ptree (m : bytes) (T : tree) (root : Z) : Prop := {
  pt_root : T !! (2, 0) = Some root;
  pt_inj : forall k k' a, T !! k = Some a -> T !! k' = Some a -> k = k';
  pt_page : forall k a, T !! k = Some a -> (PGSIZE | a) /\ 0 < a /\ a + PGSIZE <= 2 ^ 32;
  pt_level : forall l p a, T !! (l, p) = Some a -> 0 <= l <= 2 /\ 0 <= p /\ (l = 2 -> p = 0);
  pt_entry : forall l p a i, T !! (l, p) = Some a -> 1 <= l -> 0 <= i < 512 ->
    match T !! (l - 1, p * 512 + i) with
    | Some c => rd64 m (a + 8 * i) = Z.lor (PA2PTE c) PTE_V
    | None => flag (rd64 m (a + 8 * i)) PTE_V = false
    end;
  pt_parent : forall l p a, T !! (l, p) = Some a -> l < 2 -> exists b, T !! (l + 1, p / 512) = Some b
}.

(** The entry of [va]. *)
Definition lf (T : tree) (m : bytes) (va : Z) : Z :=
  match T !! (0, pfx 0 va) with Some a => rd64 m (a + 8 * PX 0 va) | None => 0 end.

Definition in_page (a i : Z) : Prop := a <= i < a + PGSIZE.

Lemma pages_apart a b : (PGSIZE | a) -> (PGSIZE | b) -> a <> b -> a + PGSIZE <= b \/ b + PGSIZE <= a.
Proof. intros [x ->] [y ->] Hne. unfold PGSIZE in *. assert (x <> y) by congruence. nia. Qed.

Lemma page_page_pa a : (PGSIZE | a) /\ 0 < a /\ a + PGSIZE <= 2 ^ 32 -> page_pa a.
Proof.
  intros (? & ? & ?). split; [done|]. assert (2 ^ 32 < 2 ^ 56) by (apply Z.pow_lt_mono_r; lia). unfold PGSIZE in *. lia.
Qed.

Lemma pte_v_flags : is_flags PTE_V.
Proof. reflexivity. Qed.

(** Two entries of table pages never overlap unless they are the same. *)
Lemma slots_apart m T root k k' a b i j : ptree m T root -> T !! k = Some a -> T !! k' = Some b ->
  0 <= i < 512 -> 0 <= j < 512 -> (k, i) <> (k', j) -> b + 8 * j + 8 <= a + 8 * i \/ a + 8 * i + 8 <= b + 8 * j.
Proof.
  intros HT Ha Hb Hi Hj Hne. destruct (decide (a = b)) as [->|Hab].
  - pose proof (pt_inj _ _ _ HT _ _ _ Ha Hb) as ->. assert (i <> j) by congruence. lia.
  - destruct (pages_apart a b) as [?|?]; [by eapply (pt_page _ _ _ HT)|by eapply (pt_page _ _ _ HT)|done|unfold PGSIZE in *; lia|unfold PGSIZE in *; lia].
Qed.

(** A tree only depends on its own pages. *)
Lemma ptree_frame m m' T root : ptree m T root -> (forall k a, T !! k = Some a -> agree a PGSIZE m m') -> ptree m' T root.
Proof.
  intros [H1 H2 H3 H4 H5 H6] Hag. split; try done. intros l p a i Ha Hl Hi. specialize (H5 l p a i Ha Hl Hi).
  replace (rd64 m' (a + 8 * i)) with (rd64 m (a + 8 * i)); [done|]. apply rdle_agree.
  eapply agree_sub; [by eapply Hag|lia|unfold PGSIZE; lia].
Qed.

Lemma lf_frame m m' T root va : ptree m T root -> (forall k a, T !! k = Some a -> agree a PGSIZE m m') -> lf T m' va = lf T m va.
Proof.
  intros HT Hag. unfold lf. destruct (T !! _) as [a|] eqn:E; [|done]. symmetry. apply rdle_agree.
  pose proof (px_range 0 va ltac:(lia)). eapply agree_sub; [by eapply Hag|lia|unfold PGSIZE; lia].
Qed.

Lemma lf_same_page T m va va' : 0 <= va -> 0 <= va' -> va / PGSIZE = va' / PGSIZE -> lf T m va = lf T m va'.
Proof. intros H H' E. unfold lf. destruct (same_page va va' H H' E) as [-> ->]. done. Qed.

(** The pages serving [va] go up to the root. *)
Lemma ancestors m T root va a : ptree m T root -> 0 <= va < MAXVA -> T !! (0, pfx 0 va) = Some a ->
  forall l, 0 <= l <= 2 -> is_Some (T !! (l, pfx l va)).
Proof.
  intros HT Hva Ha.
  assert (H1 : is_Some (T !! (1, pfx 1 va))).
  { destruct (pt_parent _ _ _ HT _ _ _ Ha ltac:(lia)) as [b Hb]. exists b. change (0 + 1) with 1 in Hb.
    pose proof (pfx_up 0 va ltac:(lia)) as E. change (0 + 1) with 1 in E. by rewrite <- E. }
  intros l Hl. assert (l = 0 \/ l = 1 \/ l = 2) as [->|[->| ->]] by lia; [eauto|done|].
  rewrite pfx_root by done. rewrite (pt_root _ _ _ HT). eauto.
Qed.

Section Inv.
Context {P : Type} `{kpages_laws P}.
Local Notation vst := (vst P).
Implicit Types s : vst.

(** The allocator's references and a tree made of pages it handed out. *)
Record vinv (s : vst) (R : gmap Z Z) (T : tree) (root : Z) : Prop := {
  vi_refs : kp_refs (vpg s) R;
  vi_tree : ptree (pmem s) T root;
  vi_nodes : forall k a, T !! k = Some a -> R !! a = Some 1
}.

(** The address of the entry of [va], 0 when no page serves it. *)
Definition slot (T : tree) (va : Z) : Z :=
  match T !! (0, pfx 0 va) with Some a => a + 8 * PX 0 va | None => 0 end.

Lemma walk_loop_find s m T root va : ptree m T root -> pmem s = m -> 0 <= va < MAXVA -> forall (l : nat) a, (l <= 2)%nat ->
  T !! (Z.of_nat l, pfx (Z.of_nat l) va) = Some a -> walk_loop l a va false s = Done (slot T va) s.
Proof.
  intros HT Hm Hva. induction l as [|l IH]; intros a Hl Ha.
  - cbn in *. unfold slot, mret, M_ret, pte_addr. change (Z.of_nat 0) with 0 in Ha. by rewrite Ha.
  - pose proof (pt_entry _ _ _ HT _ _ _ (PX (Z.of_nat (S l)) va) Ha ltac:(lia) (px_range (Z.of_nat (S l)) va ltac:(lia))) as He.
    rewrite <- pfx_step in He by lia. replace (Z.of_nat (S l) - 1) with (Z.of_nat l) in He by lia.
    cbn [walk_loop]. unfold rd_pte, gets, pte_addr. mstep. rewrite Hm.
    destruct (T !! (Z.of_nat l, pfx (Z.of_nat l) va)) as [c|] eqn:Ec.
    + rewrite He. unfold PTE_V. rewrite flag_bit, pte_testbit_low by (try lia; eapply page_page_pa, (pt_page _ _ _ HT); eauto).
      cbn [Z.testbit]. change (Z.testbit (Z.shiftl 1 0) 0) with true. cbn iota.
      rewrite pte_pa; [by apply IH; [lia|]|eapply page_page_pa, (pt_page _ _ _ HT); eauto|reflexivity].
    + rewrite He. cbn [negb]. unfold slot. destruct (T !! (0, pfx 0 va)) as [b|] eqn:Eb; [|done]. exfalso.
      destruct (ancestors _ _ _ _ _ HT Hva Eb (Z.of_nat l)) as [x Hx]; [lia|]. congruence.
Qed.

Lemma walk_find s m T root va : ptree m T root -> pmem s = m -> 0 <= va < MAXVA -> walk root va false s = Done (slot T va) s.
Proof.
  intros HT Hm Hva. unfold walk. rewrite (proj2 (Z.leb_gt _ _)) by lia. eapply walk_loop_find; [done|done|done|lia|].
  change (Z.of_nat 2) with 2. rewrite pfx_root by done. apply HT.
Qed.

(** An allocating walk finds the entry of a page that has one, and allocates
    nothing. *)
Lemma walk_loop_present s T root va alloc : ptree (pmem s) T root -> 0 <= va < MAXVA -> T !! (0, pfx 0 va) <> None -> forall (l : nat) a, (l <= 2)%nat ->
  T !! (Z.of_nat l, pfx (Z.of_nat l) va) = Some a -> walk_loop l a va alloc s = Done (slot T va) s.
Proof.
  intros HT Hva Hsl. induction l as [|l IH]; intros a Hl Ha.
  - cbn in *. unfold slot, mret, M_ret, pte_addr. change (Z.of_nat 0) with 0 in Ha. by rewrite Ha.
  - destruct (T !! (0, pfx 0 va)) as [b|] eqn:Eb; [|done]. destruct (ancestors _ _ _ _ _ HT Hva Eb (Z.of_nat l)) as [c Ec]; [lia|].
    pose proof (pt_entry _ _ _ HT _ _ _ (PX (Z.of_nat (S l)) va) Ha ltac:(lia) (px_range (Z.of_nat (S l)) va ltac:(lia))) as He.
    rewrite <- pfx_step in He by lia. replace (Z.of_nat (S l) - 1) with (Z.of_nat l) in He by lia. rewrite Ec in He.
    cbn [walk_loop]. unfold rd_pte, pte_addr. rewrite bind_gets, He. unfold PTE_V. rewrite flag_bit, pte_testbit_low by (try lia; eapply page_page_pa, (pt_page _ _ _ HT); eauto).
    change (Z.testbit (Z.shiftl 1 0) 0) with true. cbn iota.
    rewrite pte_pa; [by apply IH; [lia|]|eapply page_page_pa, (pt_page _ _ _ HT); eauto|reflexivity].
Qed.

Lemma walk_present s T root va alloc : ptree (pmem s) T root -> 0 <= va < MAXVA -> T !! (0, pfx 0 va) <> None -> walk root va alloc s = Done (slot T va) s.
Proof.
  intros HT Hva Hsl. unfold walk. rewrite (proj2 (Z.leb_gt _ _)) by lia. apply walk_loop_present with root; [done|done|done|lia|].
  change (Z.of_nat 2) with 2. rewrite pfx_root by done. apply HT.
Qed.

Lemma slot_pos m T root va : ptree m T root -> 0 <= va < MAXVA -> (slot T va =? 0) = bool_decide (T !! (0, pfx 0 va) = None).
Proof.
  intros HT Hva. unfold slot. destruct (T !! (0, pfx 0 va)) as [a|] eqn:E; [|done].
  destruct (pt_page _ _ _ HT _ _ E) as (_ & ? & _). pose proof (px_range 0 va ltac:(lia)). apply Z.eqb_neq. lia.
Qed.

Lemma slot_entry s T va : T !! (0, pfx 0 va) <> None -> rd_pte (slot T va) s = Done (lf T (pmem s) va) s.
Proof. intros Hn. unfold rd_pte, gets, slot, lf. by destruct (T !! (0, pfx 0 va)). Qed.

(** [walkaddr] translates a user address. *)
Lemma walkaddr_ok s R T root va : vinv s R T root -> 0 <= va ->
  walkaddr root va s = Done (if (va <? MAXVA) && flag (lf T (pmem s) va) PTE_V && flag (lf T (pmem s) va) PTE_U
                             then PTE2PA (lf T (pmem s) va) else 0) s.
Proof.
  intros [_ HT _] Hva. unfold walkaddr. destruct (MAXVA <=? va) eqn:E; bool_hyps.
  { by rewrite (proj2 (Z.ltb_ge _ _)). }
  rewrite (proj2 (Z.ltb_lt _ _)) by done. rewrite (bind_Done _ _ _ _ _ (walk_find s _ T root va HT eq_refl (conj Hva E))).
  rewrite (slot_pos _ _ _ _ HT) by done. cbn [andb]. case_bool_decide as Hn.
  - unfold lf. rewrite Hn. reflexivity.
  - rewrite (bind_Done _ _ _ _ _ (slot_entry s T va Hn)). destruct (flag _ PTE_V), (flag _ PTE_U); reflexivity.
Qed.

(** ** Growing the tree

    What an allocating walk leaves: more table pages, all fresh, and no byte
    changed outside table pages. *)
Record grown (s : vst) (R : gmap Z Z) (T : tree) (s' : vst) (R' : gmap Z Z) (T' : tree) : Prop := {
  gr_tree : T ⊆ T';
  gr_refs : R ⊆ R';
  gr_new : forall b r, R' !! b = Some r -> R !! b = None -> r = 1 /\ is_node T' b;
  gr_nodes : forall k b, T' !! k = Some b -> T !! k = None -> R !! b = None;
  gr_mem : forall i, (forall k a, T' !! k = Some a -> ~ in_page a i) -> pmem s' i = pmem s i
}.

Lemma grown_refl s R T : grown s R T s R T.
Proof. split; try done; intros; congruence. Qed.

Lemma grown_trans s1 R1 T1 s2 R2 T2 s3 R3 T3 : grown s1 R1 T1 s2 R2 T2 -> grown s2 R2 T2 s3 R3 T3 -> grown s1 R1 T1 s3 R3 T3.
Proof.
  intros [A1 A2 A3 A4 A5] [B1 B2 B3 B4 B5]. split.
  - by etrans.
  - by etrans.
  - intros b r Hb Hn. destruct (R2 !! b) as [r'|] eqn:E; [|by apply B3].
    destruct (A3 b r' E Hn) as [-> [k Hk]]. pose proof (lookup_weaken _ _ _ _ E B2). split; [congruence|].
    exists k. by eapply lookup_weaken.
  - intros k b Hb Hn. destruct (T2 !! k) as [b'|] eqn:E.
    + pose proof (lookup_weaken _ _ _ _ E B1). assert (b' = b) as -> by congruence. by eapply A4.
    + pose proof (B4 k b Hb E) as Hn2. by eapply lookup_weaken_None.
  - intros i Hi. rewrite B5 by done. apply A5. intros k a Hk. apply (Hi k). by eapply lookup_weaken.
Qed.

Lemma data_not_node s R T root b r : vinv s R T root -> R !! b = Some r -> r <> 1 -> ~ is_node T b.
Proof. intros HI Hb Hr [k Hk]. pose proof (vi_nodes _ _ _ _ HI _ _ Hk). congruence. Qed.

(** One allocation of [walk]: the new page becomes the child of the entry. *)
Lemma add_node s R T root l p i a pg vp : vinv s R T root -> T !! (l, p) = Some a -> 1 <= l -> 0 <= i < 512 ->
  T !! (l - 1, p * 512 + i) = None -> R !! pg = None -> kp_refs vp (<[pg := 1]> R) ->
  let s' := Vst vp (wr64 (a + 8 * i) (Z.lor (PA2PTE pg) PTE_V) (mset pg 0 PGSIZE (pmem s))) in
  let T' := <[(l - 1, p * 512 + i) := pg]> T in
  vinv s' (<[pg := 1]> R) T' root /\ grown s R T s' (<[pg := 1]> R) T' /\
  (forall va, 0 <= va < MAXVA -> lf T' (pmem s') va = lf T (pmem s) va).
Proof.
  intros HI Ha Hl Hi Hnone HRpg Hrefs s' T'. pose proof HI as [_ HT Hn]. pose proof HT as [Hroot Hinj Hpage Hlev Hent Hpar].
  assert (Hpgp : (PGSIZE | pg) /\ 0 < pg /\ pg + PGSIZE <= 2 ^ 32).
  { destruct (kp_page _ _ pg 1 Hrefs) as (? & ? & ? & _); [apply lookup_insert_eq|done]. }
  assert (Hfresh : forall k b, T !! k = Some b -> b <> pg) by (intros k b Hk ->; rewrite (Hn _ _ Hk) in HRpg; discriminate).
  destruct (Hlev _ _ _ Ha) as (Hl2 & Hp & _).
  assert (Hpte : 0 <= Z.lor (PA2PTE pg) PTE_V < 256 ^ Z.of_nat 8) by (apply (pte_range pg); [by apply page_page_pa|apply pte_v_flags]).
  (* reading any word of an old node *)
  assert (Hrd : forall k b j, T !! k = Some b -> 0 <= j < 512 ->
    rd64 (pmem s') (b + 8 * j) = if decide ((k, j) = ((l, p), i)) then Z.lor (PA2PTE pg) PTE_V else rd64 (pmem s) (b + 8 * j)).
  { intros k b j Hb Hj. cbn [pmem s']. destruct (decide _) as [E|E].
    - injection E as -> ->. rewrite Ha in Hb. injection Hb as <-. by apply rdle_wrle_same.
    - rewrite rdle_wrle_other.
      2:{ destruct (slots_apart _ _ _ _ _ _ _ _ _ HT Ha Hb Hi Hj); [congruence|lia|lia]. }
      apply rdle_agree. intros x Hx. apply mset_out. destruct (pages_apart b pg) as [?|?];
        [by eapply Hpage|apply Hpgp|by eapply Hfresh|unfold PGSIZE in *; lia|unfold PGSIZE in *; lia]. }
  (* and of the new one *)
  assert (Hrdn : forall j, 0 <= j < 512 -> rd64 (pmem s') (pg + 8 * j) = 0).
  { intros j Hj. cbn [pmem s']. rewrite rdle_wrle_other.
    - apply rdle_zero. intros x Hx. rewrite mset_in by (unfold PGSIZE; lia). reflexivity.
    - destruct (pages_apart a pg) as [?|?]; [by eapply Hpage|apply Hpgp|by eapply Hfresh|unfold PGSIZE in *; lia|unfold PGSIZE in *; lia]. }
  assert (HT' : ptree (pmem s') T' root).
  { split.
    - unfold T'. rewrite lookup_insert_ne; [done|]. intros [= E _]. lia.
    - intros k k' b. unfold T'. rewrite !lookup_insert_Some. intros [[<- <-]|[_ H1]] [[<- E]|[_ H2]]; [done|by apply Hfresh in H2|subst; by apply Hfresh in H1|by eapply Hinj].
    - intros k b. unfold T'. rewrite lookup_insert_Some. intros [[<- <-]|[_ H1]]; [done|by eapply Hpage].
    - intros l' p' b. unfold T'. rewrite lookup_insert_Some. intros [[E <-]|[_ H1]]; [|by eapply Hlev].
      injection E as <- <-. split; [lia|]. split; [nia|lia].
    - intros l' p' b j. unfold T'. rewrite (lookup_insert_Some T). intros [[E <-]|[_ H1]] Hl' Hj.
      + injection E as <- <-. rewrite lookup_insert_ne by (intros [= E _]; lia). rewrite Hrdn by done.
        destruct (T !! (l - 1 - 1, (p * 512 + i) * 512 + j)) as [c|] eqn:Ec; [|reflexivity]. exfalso.
        destruct (Hpar _ _ _ Ec ltac:(lia)) as [x Hx]. replace (l - 1 - 1 + 1) with (l - 1) in Hx by lia.
        rewrite Z.div_add_l, (Z.div_small j), Z.add_0_r in Hx by lia. congruence.
      + rewrite (Hrd _ _ _ H1 Hj). destruct (decide _) as [E|E].
        * injection E as -> -> ->. by rewrite lookup_insert_eq.
        * rewrite lookup_insert_ne.
          { by apply Hent. }
          intros [= E1 E2]. apply E. assert (l' = l) as -> by lia. assert (p' = p /\ j = i) as [-> ->] by lia. done.
    - intros l' p' b. unfold T'. rewrite lookup_insert_Some. intros [[E <-]|[Hne H1]] Hl'.
      + injection E as <- <-. exists a. rewrite lookup_insert_ne by (intros [= E _]; lia).
        replace (l - 1 + 1) with l by lia. by rewrite Z.div_add_l, (Z.div_small i), Z.add_0_r by lia.
      + destruct (Hpar _ _ _ H1 Hl') as [x Hx]. destruct (decide ((l' + 1, p' / 512) = (l - 1, p * 512 + i))) as [E|E].
        * exists pg. rewrite <- E. apply lookup_insert_eq.
        * exists x. by rewrite lookup_insert_ne. }
  split; [|split].
  - split; [exact Hrefs|exact HT'|]. intros k b. unfold T'. rewrite lookup_insert_Some. intros [[_ <-]|[_ H1]].
    + apply lookup_insert_eq.
    + rewrite lookup_insert_ne by (intros ->; by apply Hfresh in H1). by eapply Hn.
  - split.
    + by apply insert_subseteq.
    + by apply insert_subseteq.
    + intros b r. rewrite lookup_insert_Some. intros [[<- <-]|[_ H1]]; [|congruence]. intros _. split; [done|].
      exists (l - 1, p * 512 + i). apply lookup_insert_eq.
    + intros k b. unfold T'. rewrite lookup_insert_Some. intros [[_ <-]|[_ H1]]; [done|congruence].
    + intros x Hx. cbn [pmem s']. 
      assert (Hxa : ~ in_page a x). { apply (Hx (l, p)). unfold T'. rewrite lookup_insert_ne; [done|]. intros [= E _]. lia. }
      assert (Hxp : ~ in_page pg x). { apply (Hx (l - 1, p * 512 + i)). apply lookup_insert_eq. }
      unfold in_page, PGSIZE in *. rewrite wrle_out by lia. by rewrite mset_out by lia.
  - intros va Hva. unfold lf, T'. rewrite lookup_insert. case_decide as E.
    + rewrite Hrdn by (apply px_range; lia). destruct (T !! (0, pfx 0 va)) as [b|] eqn:Eb; [|done]. rewrite E in Hnone. congruence.
    + destruct (T !! (0, pfx 0 va)) as [b|] eqn:Eb; [|done]. rewrite (Hrd _ _ _ Eb) by (apply px_range; lia).
      rewrite decide_False; [done|]. intros [= E1 _ _]. lia.
Qed.

Lemma walk_loop_alloc root va : 0 <= va < MAXVA -> forall (l : nat) s R T a, (l <= 2)%nat -> vinv s R T root ->
  T !! (Z.of_nat l, pfx (Z.of_nat l) va) = Some a ->
  (exists msg, walk_loop l a va true s = Panic msg) \/
  exists s' R' T', walk_loop l a va true s = Done (slot T' va) s' /\ vinv s' R' T' root /\ grown s R T s' R' T' /\
    is_Some (T' !! (0, pfx 0 va)) /\ (forall va', 0 <= va' < MAXVA -> lf T' (pmem s') va' = lf T (pmem s) va').
Proof.
  intros Hva. induction l as [|l IH]; intros s R T a Hl HI Ha.
  - right. exists s, R, T. cbn in *. change (Z.of_nat 0) with 0 in Ha. unfold slot, mret, M_ret, pte_addr. rewrite Ha.
    split; [done|]. split; [done|]. split; [apply grown_refl|]. split; [eauto|done].
  - pose proof (vi_tree _ _ _ _ HI) as HT. pose proof (px_range (Z.of_nat (S l)) va ltac:(lia)) as Hpx.
    pose proof (pt_entry _ _ _ HT _ _ _ (PX (Z.of_nat (S l)) va) Ha ltac:(lia) Hpx) as He.
    pose proof (pfx_step (Z.of_nat (S l)) va ltac:(lia)) as Hst.
    cbn [walk_loop]. unfold rd_pte, gets, pte_addr, memset, wr_pte, modify, vpages, zoom. mstep.
    destruct (T !! (Z.of_nat (S l) - 1, pfx (Z.of_nat (S l)) va * 512 + PX (Z.of_nat (S l)) va)) as [c|] eqn:Ec.
    + rewrite He. unfold PTE_V. rewrite flag_bit, pte_testbit_low by (try lia; eapply page_page_pa, (pt_page _ _ _ HT); eauto).
      change (Z.testbit (Z.shiftl 1 0) 0) with true. cbn iota.
      rewrite pte_pa; [|eapply page_page_pa, (pt_page _ _ _ HT); eauto|reflexivity].
      apply IH; [lia|done|]. rewrite <- Hst in Ec. by replace (Z.of_nat (S l) - 1) with (Z.of_nat l) in Ec by lia.
    + rewrite He. cbn [negb].
      destruct (kalloc_ok _ _ (vi_refs _ _ _ _ HI)) as [[msg E]|(pg & vp & E & HRpg & Hrefs)]; rewrite E; [left; eauto|].
      destruct (kp_page _ _ pg 1 Hrefs) as (_ & Hpg0 & _); [apply lookup_insert_eq|].
      rewrite (proj2 (Z.eqb_neq _ _)) by lia.
      destruct (add_node s R T root _ _ (PX (Z.of_nat (S l)) va) a pg vp HI Ha ltac:(lia) Hpx Ec HRpg Hrefs) as (HI1 & Hg1 & Hlf1).
      cbv zeta in *. cbn [vpg pmem].
      destruct (IH _ _ _ pg ltac:(lia) HI1) as [?|(s' & R' & T' & E' & HI' & Hg' & Hs' & Hlf')].
      * rewrite <- Hst. replace (Z.of_nat (S l) - 1) with (Z.of_nat l) by lia. apply lookup_insert_eq.
      * by left.
      * right. exists s', R', T'. split; [exact E'|]. split; [done|]. split; [by eapply grown_trans|]. split; [done|].
        intros va' Hva'. by rewrite Hlf', Hlf1.
Qed.

Lemma walk_alloc s R T root va : vinv s R T root -> 0 <= va < MAXVA ->
  (exists msg, walk root va true s = Panic msg) \/
  exists s' R' T', walk root va true s = Done (slot T' va) s' /\ vinv s' R' T' root /\ grown s R T s' R' T' /\
    is_Some (T' !! (0, pfx 0 va)) /\ (forall va', 0 <= va' < MAXVA -> lf T' (pmem s') va' = lf T (pmem s) va').
Proof.
  intros HI Hva. unfold walk. rewrite (proj2 (Z.leb_gt _ _)) by lia. apply walk_loop_alloc; [done|lia|done|].
  change (Z.of_nat 2) with 2. rewrite pfx_root by done. apply (vi_tree _ _ _ _ HI).
Qed.

(** ** Writing an entry *)

Lemma set_leaf s R T root va v : vinv s R T root -> 0 <= va < MAXVA -> is_Some (T !! (0, pfx 0 va)) -> 0 <= v < 2 ^ 64 ->
  let s' := Vst (vpg s) (wr64 (slot T va) v (pmem s)) in
  vinv s' R T root /\ grown s R T s' R T /\
  (forall va', 0 <= va' < MAXVA -> lf T (pmem s') va' = if decide (va' / PGSIZE = va / PGSIZE) then v else lf T (pmem s) va').
Proof.
  intros HI Hva [a Ha] Hv s'. pose proof HI as [Hr HT Hn]. pose proof (px_range 0 va ltac:(lia)) as Hpx.
  assert (Es : slot T va = a + 8 * PX 0 va) by (unfold slot; by rewrite Ha).
  assert (Hrd : forall k b j, T !! k = Some b -> 0 <= j < 512 -> (k, j) <> ((0, pfx 0 va), PX 0 va) ->
    rd64 (pmem s') (b + 8 * j) = rd64 (pmem s) (b + 8 * j)).
  { intros k b j Hb Hj Hne. cbn [pmem s']. rewrite Es. apply rdle_wrle_other.
    destruct (slots_apart _ _ _ _ _ _ _ _ _ HT Ha Hb Hpx Hj); [congruence|lia|lia]. }
  split; [|split].
  - split; [done| |done]. pose proof HT as [H1 H2 H3 H4 H5 H6]. split; try done.
    intros l p b i Hb Hl Hi. specialize (H5 l p b i Hb Hl Hi). rewrite (Hrd _ _ _ Hb Hi); [done|]. intros [= E _ _]. lia.
  - split; try done.
    + intros; congruence.
    + intros; congruence.
    + intros x Hx. cbn [pmem s']. rewrite Es. apply wrle_out. specialize (Hx _ _ Ha). unfold in_page, PGSIZE in Hx. lia.
  - intros va' Hva'. unfold lf. destruct (decide (va' / PGSIZE = va / PGSIZE)) as [E|E].
    + destruct (same_page va' va ltac:(lia) ltac:(lia) E) as [-> ->]. rewrite Ha. cbn [pmem s']. rewrite Es. by apply rdle_wrle_same.
    + destruct (T !! (0, pfx 0 va')) as [b|] eqn:Eb; [|done]. apply (Hrd _ _ _ Eb); [apply px_range; lia|].
      intros [= E1 E2]. apply E. apply same_slot; [lia|lia|done|done].
Qed.

(** ** mappages *)
Definition leaf_flags (perm : Z) : Z := Z.lor (Z.lor (Z.lor perm PTE_V) PTE_A) PTE_D.

Lemma leaf_flags_ok perm : is_flags perm -> is_flags (leaf_flags perm).
Proof. intros H1. unfold leaf_flags. repeat apply is_flags_lor; done. Qed.

(** The entries after mapping [n] pages from [a] to [pa]. *)
Definition map_lf (n : nat) (a pa perm : Z) (f : Z -> Z) (va : Z) : Z :=
  if decide (a <= va < a + Z.of_nat n * PGSIZE)
  then Z.lor (PA2PTE (pa + (va / PGSIZE * PGSIZE - a))) (leaf_flags perm) else f va.

Lemma mappages_loop_S n root a last pa perm s : mappages_loop (S n) root a last pa perm s =
  (pte ← walk root a true;
   if pte =? 0 then mret (-1)
   else
     e ← rd_pte pte;
     if flag e PTE_V then panic "mappages: remap"%string
     else
       wr_pte pte (Z.lor (Z.lor (Z.lor (Z.lor (PA2PTE pa) perm) PTE_V) PTE_A) PTE_D);;
       if a =? last then mret 0
       else mappages_loop n root (u64 (a + PGSIZE)) last (u64 (pa + PGSIZE)) perm) s.
Proof. reflexivity. Qed.

Lemma mappages_loop_ok root last perm : is_flags perm -> forall (n : nat) s R T a pa, vinv s R T root ->
  (PGSIZE | a) -> 0 <= a -> last = a + Z.of_nat n * PGSIZE -> last < MAXVA ->
  page_pa pa -> pa + Z.of_nat (S n) * PGSIZE <= 2 ^ 56 ->
  (forall va, a <= va < a + Z.of_nat (S n) * PGSIZE -> flag (lf T (pmem s) va) PTE_V = false) ->
  (exists msg, mappages_loop (S n) root a last pa perm s = Panic msg) \/
  exists s' R' T', mappages_loop (S n) root a last pa perm s = Done 0 s' /\ vinv s' R' T' root /\ grown s R T s' R' T' /\
    forall va, 0 <= va < MAXVA -> lf T' (pmem s') va = map_lf (S n) a pa perm (lf T (pmem s)) va.
Proof.
  intros Hperm. induction n as [|n IH]; intros s R T a pa HI Hal Ha0 Hlast Hmax Hpa Hpab Hfree.
  all: rewrite mappages_loop_S; assert (Hva : 0 <= a < MAXVA) by (unfold PGSIZE in *; lia).
  all: destruct (walk_alloc s R T root a HI Hva) as [[msg E]|(s1 & R1 & T1 & E & HI1 & Hg1 & Hsl & Hlf1)];
    [left; exists msg; unfold mbind, M_bind; by rewrite E|].
  all: rewrite (bind_Done _ _ _ _ _ E), (slot_pos _ _ _ _ (vi_tree _ _ _ _ HI1)) by done.
  all: rewrite bool_decide_eq_false_2 by (destruct Hsl; congruence).
  all: rewrite (bind_Done _ _ _ _ _ (slot_entry s1 T1 a ltac:(destruct Hsl; congruence))).
  all: rewrite Hlf1, Hfree by (unfold PGSIZE; lia).
  all: set (v := Z.lor (Z.lor (Z.lor (Z.lor (PA2PTE pa) perm) PTE_V) PTE_A) PTE_D).
  all: assert (Ev : v = Z.lor (PA2PTE pa) (leaf_flags perm)) by (unfold v, leaf_flags; by rewrite !Z.lor_assoc).
  all: destruct (set_leaf s1 R1 T1 root a v HI1 Hva Hsl ltac:(rewrite Ev; apply pte_range; [done|by apply leaf_flags_ok])) as (HI2 & Hg2 & Hlf2); cbv zeta in *.
  all: unfold wr_pte, modify; rewrite (bind_Done _ _ s1 tt (Vst (vpg s1) (wr64 (slot T1 a) v (pmem s1))) eq_refl).
  all: destruct Hal as [q Hq].
  - rewrite (proj2 (Z.eqb_eq _ _)) by lia. right. do 3 eexists. split; [reflexivity|]. split; [exact HI2|]. split; [by eapply grown_trans|].
    intros va Hv. rewrite Hlf2 by done. unfold map_lf. subst a. rewrite Z.div_mul by (unfold PGSIZE; lia).
    pose proof (Z.div_mod va PGSIZE ltac:(unfold PGSIZE; lia)). pose proof (Z.mod_pos_bound va PGSIZE ltac:(unfold PGSIZE; lia)).
    destruct (decide (va / PGSIZE = q)) as [E2|E2].
    + rewrite decide_True by (unfold PGSIZE in *; lia). rewrite E2, Z.sub_diag, Z.add_0_r. exact Ev.
    + rewrite decide_False by (unfold PGSIZE in *; lia). by apply Hlf1.
  - rewrite (proj2 (Z.eqb_neq a last)) by (unfold PGSIZE in *; lia).
    assert (H64 : 2 ^ 56 < 2 ^ 64) by (apply Z.pow_lt_mono_r; lia). assert (HM : MAXVA = 2 ^ 38) by reflexivity.
    assert (H38 : 2 ^ 38 + 4096 < 2 ^ 64) by (vm_compute; reflexivity).
    rewrite !(wrap_small 64) by (destruct Hpa as [_ ?]; unfold PGSIZE in *; lia).
    set (s2 := Vst (vpg s1) (wr64 (slot T1 a) v (pmem s1))) in *.
    assert (Hmid : forall va, a + PGSIZE <= va < MAXVA -> lf T1 (pmem s2) va = lf T (pmem s) va).
    { intros va Hv. rewrite Hlf2 by (unfold PGSIZE in *; lia). rewrite decide_False.
      - apply Hlf1. unfold PGSIZE in *. lia.
      - intros E2. pose proof (Z.div_mod va PGSIZE ltac:(unfold PGSIZE; lia)). pose proof (Z.mod_pos_bound va PGSIZE ltac:(unfold PGSIZE; lia)).
        rewrite E2, Hq, Z.div_mul in * by (unfold PGSIZE; lia). unfold PGSIZE in *. lia. }
    destruct (IH s2 R1 T1 (a + PGSIZE) (pa + PGSIZE)) as [[msg E2]|(s3 & R3 & T3 & E2 & HI3 & Hg3 & Hlf3)].
    + exact HI2.
    + exists (q + 1). lia.
    + unfold PGSIZE. lia.
    + lia.
    + lia.
    + destruct Hpa as [[x ->] ?]. split; [exists (x + 1); lia|]. unfold PGSIZE in *. lia.
    + lia.
    + intros va Hv. destruct (Z.lt_ge_cases va MAXVA) as [Hvm|Hvm].
      * rewrite Hmid by lia. apply Hfree. unfold PGSIZE in *. lia.
      * exfalso. unfold PGSIZE in *. assert (HMy : MAXVA = 67108864 * 4096) by reflexivity. lia.
    + left. exists msg. exact E2.
    + right. exists s3, R3, T3. split; [exact E2|]. split; [done|]. split; [eapply grown_trans; [exact Hg1|eapply grown_trans; [exact Hg2|exact Hg3]]|].
      intros va Hv. rewrite Hlf3 by done. unfold map_lf.
      pose proof (Z.div_mod va PGSIZE ltac:(unfold PGSIZE; lia)). pose proof (Z.mod_pos_bound va PGSIZE ltac:(unfold PGSIZE; lia)).
      destruct (decide (a + PGSIZE <= va < a + PGSIZE + Z.of_nat (S n) * PGSIZE)) as [Hin|Hin].
      * rewrite decide_True by (unfold PGSIZE in *; lia). do 2 f_equal. lia.
      * rewrite Hlf2 by done. destruct (decide (va / PGSIZE = a / PGSIZE)) as [E3|E3].
        -- rewrite Hq, Z.div_mul in E3 by (unfold PGSIZE; lia). rewrite decide_True by (unfold PGSIZE in *; lia).
           rewrite Ev. do 2 f_equal. rewrite E3, Hq. lia.
        -- rewrite Hq, Z.div_mul in E3 by (unfold PGSIZE; lia). rewrite decide_False by (unfold PGSIZE in *; lia). by apply Hlf1.
Qed.

(** [mappages] of a range that has no valid entry. *)
Lemma mappages_ok s R T root va sz pa perm : vinv s R T root -> is_flags perm -> 0 < sz -> 0 <= va -> va + sz <= MAXVA ->
  let a := va / PGSIZE * PGSIZE in
  let n := Z.to_nat ((va + sz - 1) / PGSIZE - va / PGSIZE) in
  page_pa pa -> pa + Z.of_nat (S n) * PGSIZE <= 2 ^ 56 ->
  (forall v, a <= v < a + Z.of_nat (S n) * PGSIZE -> flag (lf T (pmem s) v) PTE_V = false) ->
  (exists msg, mappages root va sz pa perm s = Panic msg) \/
  exists s' R' T', mappages root va sz pa perm s = Done 0 s' /\ vinv s' R' T' root /\ grown s R T s' R' T' /\
    forall v, 0 <= v < MAXVA -> lf T' (pmem s') v = map_lf (S n) a pa perm (lf T (pmem s)) v.
Proof.
  intros HI Hperm Hsz Hva Hend a n Hpa Hpab Hfree. unfold mappages. rewrite (proj2 (Z.eqb_neq _ _)) by lia.
  assert (HM : MAXVA = 2 ^ 38) by reflexivity. assert (H38 : 2 ^ 38 < 2 ^ 64) by (vm_compute; reflexivity).
  rewrite (wrap_small 64 (va + sz - 1)) by lia. rewrite !pgrounddown_val by lia. fold a.
  pose proof (Z.mul_div_le va PGSIZE ltac:(unfold PGSIZE; lia)) as Hale.
  assert (Hle : va / PGSIZE <= (va + sz - 1) / PGSIZE) by (apply Z.div_le_mono; unfold PGSIZE; lia).
  pose proof (Z.mul_div_le (va + sz - 1) PGSIZE ltac:(unfold PGSIZE; lia)).
  assert (Ha0 : 0 <= a) by (unfold a; apply Z.mul_nonneg_nonneg; [apply Z.div_pos; unfold PGSIZE; lia|unfold PGSIZE; lia]).
  assert (El : (va + sz - 1) / PGSIZE * PGSIZE = a + Z.of_nat n * PGSIZE) by (unfold a, n; rewrite Z2Nat.id by lia; ring).
  rewrite El. replace (a + Z.of_nat n * PGSIZE - a) with (Z.of_nat n * PGSIZE) by lia.
  rewrite wrap_small by (unfold PGSIZE in *; lia). rewrite Z.div_mul by (unfold PGSIZE; lia).
  replace (Z.to_nat (Z.of_nat n + 1)) with (S n) by lia.
  apply mappages_loop_ok; [done|done|unfold a; apply Z.divide_factor_r|done|lia|unfold PGSIZE in *; lia|done|done|done].
Qed.

(** ** uvmunmap *)

(** One reference to [a] dropped. *)
Definition dec1 (R : gmap Z Z) (a : Z) : gmap Z Z :=
  match R !! a with Some r => if r =? 1 then delete a R else <[a := r - 1]> R | None => R end.
Definition dec_refs : gmap Z Z -> list Z -> gmap Z Z := foldl dec1.

(** The pages of [l] can be given up one after the other: each has a
    reference left and none is a table page. *)
Fixpoint can_free (T : tree) (R : gmap Z Z) (l : list Z) : Prop :=
  match l with
  | [] => True
  | a :: l => is_Some (R !! a) /\ ~ is_node T a /\ can_free T (dec1 R a) l
  end.

(** The physical pages of the valid entries among [n] pages from [a]. *)
Definition valid_pa (e : Z) : option Z := if flag e PTE_V then Some (PTE2PA e) else None.
Fixpoint range_pas (f : Z -> Z) (n : nat) (a : Z) : list Z :=
  match n with
  | O => []
  | S n => option_list (valid_pa (f a)) ++ range_pas f n (a + PGSIZE)
  end.

Lemma range_pas_ext f g n : forall a, (forall va, a <= va < a + Z.of_nat n * PGSIZE -> f va = g va) -> range_pas f n a = range_pas g n a.
Proof.
  induction n as [|n IH]; intros a Hfg; cbn; [done|]. rewrite Hfg by (unfold PGSIZE; lia). f_equal. apply IH.
  intros va Hv. apply Hfg. unfold PGSIZE in *. lia.
Qed.

Lemma dec1_nodes (R : gmap Z Z) T a : (forall k b, T !! k = Some b -> R !! b = Some 1) -> ~ is_node T a ->
  forall k b, T !! k = Some b -> dec1 R a !! b = Some 1.
Proof.
  intros Hn Ha k b Hk. assert (b <> a) by (intros ->; apply Ha; by exists k). unfold dec1.
  destruct (R !! a) as [r|]; [|by eapply Hn]. destruct (r =? 1); [rewrite lookup_delete_ne by done|rewrite lookup_insert_ne by done]; by eapply Hn.
Qed.

(** What an unmapping leaves of the entries. *)
Definition unmap_lf (n : nat) (a : Z) (f : Z -> Z) (va : Z) : Z :=
  if decide (a <= va < a + Z.of_nat n * PGSIZE) then (if flag (f va) PTE_V then 0 else f va) else f va.

(** An entry that [uvmunmap] accepts. *)
Definition is_leaf (e : Z) : Prop := flag e PTE_V = true -> Z.land (PTE_FLAGS e) 0x3ff <> PTE_V.

Lemma uvmunmap_loop_S n root a df s : uvmunmap_loop (S n) root a df s =
  (pte ← walk root a false;
   (if pte =? 0 then mret tt
    else
      e ← rd_pte pte;
      if negb (flag e PTE_V) then mret tt
      else if Z.land (PTE_FLAGS e) 0x3ff =? PTE_V then panic "uvmunmap: not a leaf"%string
      else
        (if df then vpages (kfree (PTE2PA e)) else mret tt);;
        wr_pte pte 0);;
   uvmunmap_loop n root (u64 (a + PGSIZE)) df) s.
Proof. reflexivity. Qed.

(** The page at [a] is unmapped. *)
Lemma unmap_one s R T root a df : vinv s R T root -> 0 <= a < MAXVA -> is_leaf (lf T (pmem s) a) ->
  (df = true -> can_free T R (option_list (valid_pa (lf T (pmem s) a)))) ->
  exists s', (pte ← walk root a false;
     if pte =? 0 then mret tt
      else
        e ← rd_pte pte;
        if negb (flag e PTE_V) then mret tt
        else if Z.land (PTE_FLAGS e) 0x3ff =? PTE_V then panic "uvmunmap: not a leaf"%string
        else
          (if df then vpages (kfree (PTE2PA e)) else mret tt);;
          wr_pte pte 0) s = Done tt s' /\
    vinv s' (if df then dec_refs R (option_list (valid_pa (lf T (pmem s) a))) else R) T root /\
    (forall i, (forall k b, T !! k = Some b -> ~ in_page b i) -> pmem s' i = pmem s i) /\
    (forall va, 0 <= va < MAXVA -> lf T (pmem s') va =
       if decide (va / PGSIZE = a / PGSIZE) then (if flag (lf T (pmem s) va) PTE_V then 0 else lf T (pmem s) va) else lf T (pmem s) va).
Proof.
  intros HI Ha Hleaf Hfree. pose proof (vi_tree _ _ _ _ HI) as HT.
  assert (Hsame : forall va, 0 <= va < MAXVA -> va / PGSIZE = a / PGSIZE -> lf T (pmem s) va = lf T (pmem s) a) by (intros; apply lf_same_page; lia).
  rewrite (bind_Done _ _ _ _ _ (walk_find s _ T root a HT eq_refl Ha)), (slot_pos _ _ _ _ HT) by done.
  unfold valid_pa in *. destruct (flag (lf T (pmem s) a) PTE_V) eqn:Ev.
  - assert (Hn : T !! (0, pfx 0 a) <> None) by (intros E; unfold lf in Ev; rewrite E in Ev; discriminate).
    rewrite bool_decide_eq_false_2 by done. rewrite (bind_Done _ _ _ _ _ (slot_entry s T a Hn)), Ev. cbn [negb].
    rewrite (proj2 (Z.eqb_neq _ _)) by (by apply Hleaf). cbn [option_list] in *.
    assert (Hk : exists vp, (if df then vpages (kfree (PTE2PA (lf T (pmem s) a))) else mret tt) s = Done tt (Vst vp (pmem s)) /\
              vinv (Vst vp (pmem s)) (if df then dec_refs R [PTE2PA (lf T (pmem s) a)] else R) T root).
    { destruct df; [|exists (vpg s); split; [by destruct s|]; destruct HI; split; done].
      destruct (Hfree eq_refl) as ([r Hr] & Hnn & _). destruct (kfree_ok _ _ _ _ (vi_refs _ _ _ _ HI) Hr) as (vp & E & Hr').
      exists vp. split; [unfold vpages, zoom; by rewrite E|]. cbn. split; [|done|].
      - unfold dec1. by rewrite Hr.
      - apply dec1_nodes; [apply (vi_nodes _ _ _ _ HI)|done]. }
    destruct Hk as (vp & Ek & HI1). rewrite (bind_Done _ _ _ _ _ Ek).
    destruct (set_leaf _ _ _ _ a 0 HI1 Ha ltac:(destruct (T !! _); [eauto|done]) ltac:(lia)) as (HI2 & Hg2 & Hlf2). cbv zeta in *. cbn [vpg pmem] in *.
    eexists. split; [reflexivity|]. split; [exact HI2|]. split; [exact (gr_mem _ _ _ _ _ _ Hg2)|].
    intros va Hva. rewrite Hlf2 by done. case_decide as E; [|done]. by rewrite (Hsame va Hva E), Ev.
  - exists s. split; [|split; [|split; [done|]]].
    + case_bool_decide as Hn; [done|]. rewrite (bind_Done _ _ _ _ _ (slot_entry s T a Hn)), Ev. done.
    + cbn. by destruct df.
    + intros va Hva. case_decide as E; [|done]. by rewrite (Hsame va Hva E), Ev.
Qed.

Lemma can_free_app T R l1 l2 : can_free T R (l1 ++ l2) <-> can_free T R l1 /\ can_free T (dec_refs R l1) l2.
Proof. revert R. induction l1 as [|a l1 IH]; intros R; cbn; [tauto|]. rewrite IH. unfold dec_refs. cbn. tauto. Qed.

Lemma uvmunmap_loop_ok root T df : forall n s R a, vinv s R T root -> (PGSIZE | a) -> 0 <= a -> a + Z.of_nat n * PGSIZE <= MAXVA ->
  (forall va, a <= va < a + Z.of_nat n * PGSIZE -> is_leaf (lf T (pmem s) va)) ->
  (df = true -> can_free T R (range_pas (lf T (pmem s)) n a)) ->
  exists s', uvmunmap_loop n root a df s = Done tt s' /\
    vinv s' (if df then dec_refs R (range_pas (lf T (pmem s)) n a) else R) T root /\
    (forall i, (forall k b, T !! k = Some b -> ~ in_page b i) -> pmem s' i = pmem s i) /\
    (forall va, 0 <= va < MAXVA -> lf T (pmem s') va = unmap_lf n a (lf T (pmem s)) va).
Proof.
  induction n as [|n IH]; intros s R a HI Hal Ha Hend Hleaf Hfree.
  - exists s. split; [done|]. split; [by destruct df|]. split; [done|]. intros va Hva. unfold unmap_lf. rewrite decide_False; [done|lia].
  - assert (Hva0 : 0 <= a < MAXVA) by (unfold PGSIZE in *; lia). destruct Hal as [q Hq].
    rewrite uvmunmap_loop_S. cbn [range_pas] in *.
    destruct (unmap_one s R T root a df HI Hva0) as (s1 & E1 & HI1 & Hm1 & Hlf1).
    { apply Hleaf. unfold PGSIZE. lia. }
    { intros Hd. by apply can_free_app in Hfree as [? _]. }
    unfold mbind at 1, M_bind at 1 in E1. unfold mbind at 1, M_bind at 1. destruct (walk root a false s) as [pte s0| | | |]; try discriminate.
    rewrite (bind_Done _ _ _ _ _ E1).
    assert (H38 : MAXVA + 4096 < 2 ^ 64) by (vm_compute; reflexivity). rewrite wrap_small by (unfold PGSIZE in *; lia).
    assert (Hrest : forall va, a + PGSIZE <= va < MAXVA -> lf T (pmem s1) va = lf T (pmem s) va).
    { intros va Hv. rewrite Hlf1 by (unfold PGSIZE in *; lia). rewrite decide_False; [done|]. intros E2.
      pose proof (Z.div_mod va PGSIZE ltac:(unfold PGSIZE; lia)). pose proof (Z.mod_pos_bound va PGSIZE ltac:(unfold PGSIZE; lia)).
      rewrite E2, Hq, Z.div_mul in * by (unfold PGSIZE; lia). unfold PGSIZE in *. lia. }
    assert (Hpas : range_pas (lf T (pmem s1)) n (a + PGSIZE) = range_pas (lf T (pmem s)) n (a + PGSIZE)).
    { apply range_pas_ext. intros va Hv. apply Hrest. unfold PGSIZE in *. lia. }
    destruct (IH s1 (if df then dec_refs R (option_list (valid_pa (lf T (pmem s) a))) else R) (a + PGSIZE)) as (s2 & E2 & HI2 & Hm2 & Hlf2).
    + exact HI1.
    + exists (q + 1). lia.
    + unfold PGSIZE. lia.
    + unfold PGSIZE in *. lia.
    + intros va Hv. rewrite Hrest by (unfold PGSIZE in *; lia). apply Hleaf. unfold PGSIZE in *. lia.
    + intros Hd. rewrite Hpas, Hd. by apply can_free_app in Hfree as [_ ?].
    + exists s2. split; [exact E2|]. split; [|split].
      * rewrite Hpas in HI2. destruct df; [|exact HI2]. unfold dec_refs in *. by rewrite foldl_app.
      * intros i Hi. rewrite Hm2 by done. by apply Hm1.
      * intros va Hv. rewrite Hlf2 by done. unfold unmap_lf.
        pose proof (Z.div_mod va PGSIZE ltac:(unfold PGSIZE; lia)). pose proof (Z.mod_pos_bound va PGSIZE ltac:(unfold PGSIZE; lia)).
        destruct (decide (a + PGSIZE <= va < a + PGSIZE + Z.of_nat n * PGSIZE)) as [Hin|Hin].
        -- rewrite Hrest by (unfold PGSIZE in *; lia). by rewrite decide_True by (unfold PGSIZE in *; lia).
        -- rewrite Hlf1 by done. destruct (decide (va / PGSIZE = a / PGSIZE)) as [E3|E3];
             rewrite Hq, Z.div_mul in E3 by (unfold PGSIZE; lia).
           ++ by rewrite decide_True by (unfold PGSIZE in *; lia).
           ++ by rewrite decide_False by (unfold PGSIZE in *; lia).
Qed.

Lemma uvmunmap_ok s R T root va n df : vinv s R T root -> (PGSIZE | va) -> 0 <= va -> va + Z.of_nat n * PGSIZE <= MAXVA ->
  (forall v, va <= v < va + Z.of_nat n * PGSIZE -> is_leaf (lf T (pmem s) v)) ->
  (df = true -> can_free T R (range_pas (lf T (pmem s)) n va)) ->
  exists s', uvmunmap root va (Z.of_nat n) df s = Done tt s' /\
    vinv s' (if df then dec_refs R (range_pas (lf T (pmem s)) n va) else R) T root /\
    (forall i, (forall k b, T !! k = Some b -> ~ in_page b i) -> pmem s' i = pmem s i) /\
    (forall v, 0 <= v < MAXVA -> lf T (pmem s') v = unmap_lf n va (lf T (pmem s)) v).
Proof.
  intros HI Hal Hva Hend Hleaf Hfree. unfold uvmunmap.
  rewrite (proj2 (Z.eqb_eq (va mod PGSIZE) 0)) by (by apply Z.mod_divide). cbn [negb].
  assert (H38 : MAXVA < 2 ^ 64) by (vm_compute; reflexivity).
  rewrite (wrap_small 64 (Z.of_nat n * PGSIZE)) by (unfold PGSIZE in *; lia). rewrite wrap_small by (unfold PGSIZE in *; lia). rewrite Z.div_mul, Nat2Z.id by (unfold PGSIZE; lia).
  destruct n as [|n].
  - rewrite (proj2 (Z.ltb_ge _ _)) by lia. by apply (uvmunmap_loop_ok root T df 0).
  - rewrite (proj2 (Z.ltb_lt _ _)) by (unfold PGSIZE; lia). by apply uvmunmap_loop_ok.
Qed.

End Inv.
