(* ===== verification/VmPages.v ===== *)
(** * The buddy allocator as the page source of vm.c

    [kalloc], [kfree] and the reference count functions of Buddy.v meet the
    interface of Vm.v, with the page count of page.h. *)
From S2P Require Import Prelude Buddy BuddyRefs BuddyInv Bytes Vm.

#[export] Instance buddy_kpages : kpages mem := {|
  Vm.kalloc := Buddy.kalloc;
  Vm.kfree := Buddy.kfree PAGE_NUM;
  Vm.page_refcnt_get := Buddy.page_refcnt_get PAGE_NUM;
  Vm.page_refcnt_inc := Buddy.page_refcnt_inc PAGE_NUM
|}.

(** The pages of [R] are blocks of order 0 in use, with those counts. *)
Definition pool_refs (s : mem) (R : gmap Z Z) : Prop :=
  exists B, wf PAGE_NUM B s /\
    forall a r, R !! a = Some r -> exists x, a = PAGE_START + PGSIZE * x /\ B !! x = Some (0, Used) /\ refcnt s x = Some r /\ 1 <= r.

Lemma pool_num : PAGE_NUM = 62 * 1024.
Proof. reflexivity. Qed.

Lemma page_fits_0 k : fits k PAGE_SIZE -> k = 0.
Proof.
  intros ([H0 _] & _ & Hmin). destruct (decide (k = 0)) as [|Hk]; [done|]. specialize (Hmin 0 ltac:(lia)). cbn in Hmin. lia.
Qed.

Lemma used_bounds B s x k : wf PAGE_NUM B s -> B !! x = Some (k, Used) -> 0 <= x < 62 * 1024.
Proof.
  intros HW Hx. destruct (bk_bounds _ _ (inv_blocks _ _ _ (wf_inv _ _ _ HW)) _ _ _ Hx) as (Hk & ? & Hb & _).
  rewrite pool_num in Hb. pose proof (pow2_pos k ltac:(lia)). lia.
Qed.

Lemma find_page B s x k : wf PAGE_NUM B s -> B !! x = Some (k, Used) -> page_find_by_address PAGE_NUM (PAGE_START + PGSIZE * x) = Some x.
Proof. intros HW Hx. pose proof (used_bounds _ _ _ _ HW Hx). apply find_by_address_ok; rewrite pool_num; lia. Qed.

Lemma refcnt_page s x r : refcnt s x = Some r -> exists p, pages s !! x = Some p /\ p_refcnt p = r.
Proof. unfold refcnt. destruct (pages s !! x) as [p|]; [|discriminate]. intros [= <-]. eauto. Qed.

Lemma pool_kalloc s R : pool_refs s R ->
  (exists msg, Buddy.kalloc s = Panic msg) \/
  exists a s', Buddy.kalloc s = Done a s' /\ R !! a = None /\ pool_refs s' (<[a := 1]> R).
Proof.
  intros (B & HW & HR). unfold Buddy.kalloc.
  destruct (buddy_alloc_ok _ _ s PAGE_SIZE HW) as [(k & x & s' & B' & Hf & Ha & HW' & Hx & Hu & Hnu & p & Hp & Hrc)|[(k & _ & Ha & _)|[_ Ha]]].
  - unfold PAGE_SIZE. change (2 ^ 64) with 18446744073709551616. lia.
  - right. apply page_fits_0 in Hf as ->. rewrite (bind_Done _ _ _ _ _ Ha), (bind_Done _ _ _ _ _ (rd_at _ _ _ Hp)).
    destruct (inv_head _ _ _ _ _ _ (wf_inv _ _ _ HW') Hx) as (p' & Hp' & Hi & _). rewrite Hp in Hp'. injection Hp' as <-.
    exists (page_address p), s'. split; [done|].
    assert (Ea : page_address p = PAGE_START + PGSIZE * x) by (unfold page_address; by rewrite Hi).
    assert (Hne : forall a r, R !! a = Some r -> a <> page_address p).
    { intros a r Har ->. destruct (HR _ _ Har) as (y & Ey & Hy & _). rewrite Ea in Ey.
      assert (y = x) as -> by (unfold PGSIZE in *; lia). by eapply Hnu. }
    split. { destruct (R !! page_address p) as [r|] eqn:E; [|done]. by apply Hne in E. }
    exists B'. split; [done|]. intros a r. rewrite lookup_insert_Some. intros [[<- <-]|[_ Har]].
    + exists x. split; [done|]. split; [done|]. split; [|lia]. unfold refcnt. rewrite Hp. cbn. by rewrite Hrc.
    + destruct (HR _ _ Har) as (y & -> & Hy & Hr & H1). exists y. split; [done|]. split; [apply Hu; by right|]. split; [|done].
      rewrite (buddy_alloc_refcnt _ _ _ _ Ha); [done|]. intros ->. apply (Hne _ _ Har). by rewrite Ea.
  - left. eexists. unfold mbind, M_bind. by rewrite Ha.
  - left. eexists. unfold mbind, M_bind. by rewrite Ha.
Qed.

Lemma pool_get s R a r : pool_refs s R -> R !! a = Some r -> Buddy.page_refcnt_get PAGE_NUM a s = Done r s.
Proof.
  intros (B & HW & HR) Ha. destruct (HR _ _ Ha) as (x & -> & Hx & Hr & _). destruct (refcnt_page _ _ _ Hr) as (p & Hp & <-).
  unfold Buddy.page_refcnt_get. rewrite (find_page _ _ _ _ HW Hx). unfold deref. mstep. by rewrite (rd_at _ _ _ Hp).
Qed.

(** A new count for a block in use. *)
Lemma pool_set s R x r r' p : pool_refs s R -> R !! (PAGE_START + PGSIZE * x) = Some r -> pages s !! x = Some p -> 1 <= r' < 2 ^ 32 ->
  pool_refs (Mem (<[x := set_refcnt r' p]> (pages s)) (free_lists s)) (<[PAGE_START + PGSIZE * x := r']> R).
Proof.
  intros (B & HW & HR) Ha Hp Hr'. destruct (HR _ _ Ha) as (y & Ey & Hy & _). assert (y = x) as -> by (unfold PGSIZE in *; lia).
  exists B. split.
  - destruct HW as [HI Hst]. split; [|done].
    destruct (inv_head _ _ _ _ _ _ HI Hy) as (p' & Hp' & H1 & H2 & H3 & H4 & H5). rewrite Hp in Hp'. injection Hp' as <-.
    rewrite <- (insert_id B x (0, Used) Hy) at 1. eapply inv_status; [exact HI|exact Hy|done|done|].
    unfold page_ok, set_refcnt; cbn. split; [done|]. split; [lia|]. done.
  - intros a q. rewrite lookup_insert_Some. intros [[<- <-]|[Hne Haq]].
    + exists x. split; [done|]. split; [done|]. split; [|lia]. unfold refcnt. cbn. by rewrite lookup_insert_eq.
    + destruct (HR _ _ Haq) as (z & -> & Hz & Hr & ?). exists z. split; [done|]. split; [done|]. split; [|done].
      unfold refcnt in *. cbn. rewrite lookup_insert_ne; [done|]. intros ->. done.
Qed.

Lemma pool_inc s R a r : pool_refs s R -> R !! a = Some r -> r + 1 < 2 ^ 32 ->
  exists s', Buddy.page_refcnt_inc PAGE_NUM a s = Done tt s' /\ pool_refs s' (<[a := r + 1]> R).
Proof.
  intros HP Ha Hr1. pose proof HP as (B & HW & HR). destruct (HR _ _ Ha) as (x & -> & Hx & Hr & H1). destruct (refcnt_page _ _ _ Hr) as (p & Hp & Ep).
  unfold Buddy.page_refcnt_inc. rewrite (find_page _ _ _ _ HW Hx). unfold deref. mstep. rewrite (upd_at _ _ _ _ Hp). cbv beta.
  rewrite Ep, wrap_small by lia. eexists. split; [reflexivity|]. eapply pool_set; [done|done|done|lia].
Qed.

Lemma pool_kfree s R a r : pool_refs s R -> R !! a = Some r ->
  exists s', Buddy.kfree PAGE_NUM a s = Done tt s' /\ pool_refs s' (if r =? 1 then delete a R else <[a := r - 1]> R).
Proof.
  intros HP Ha. pose proof HP as (B & HW & HR). destruct (HR _ _ Ha) as (x & -> & Hx & Hr & H1). destruct (refcnt_page _ _ _ Hr) as (p & Hp & Ep).
  unfold Buddy.kfree. rewrite (find_page _ _ _ _ HW Hx). unfold mbind at 1, M_bind at 1, deref at 1.
  destruct (r =? 1) eqn:E1; bool_hyps.
  - assert (Hle : p_refcnt p <= 1) by lia.
    destruct (buddy_free_spec PAGE_NUM (Z.to_nat PAGE_NUM + 1) ltac:(exists 62; reflexivity) ltac:(by rewrite pool_num) ltac:(lia)
      (Z.to_nat PAGE_MAX_DEPTH) x B s 0 Used p (wf_inv _ _ _ HW) Hx (or_introl eq_refl)) as (s' & B' & Er & HW' & Hk & Hu).
    + intros h k' st Hh _. by eapply (wf_stable _ _ _ HW).
    + done.
    + done.
    + unfold PAGE_MAX_DEPTH, PAGE_MAX_ORDER. lia.
    + exists s'. split; [exact Er|]. exists B'. split; [done|]. intros a q. rewrite lookup_delete_Some. intros [Hne Haq].
      destruct (HR _ _ Haq) as (z & -> & Hz & Hrz & ?). exists z. split; [done|]. split; [apply Hu; split; [done|]; by intros ->|].
      split; [by rewrite Hk|done].
  - destruct (inv_head _ _ _ _ _ _ (wf_inv _ _ _ HW) Hx) as (p' & Hp' & _ & Hrng & _). rewrite Hp in Hp'. injection Hp' as <-.
    eexists. split.
    + unfold PAGE_MAX_DEPTH. change (Z.to_nat (PAGE_MAX_ORDER + 1)) with 11%nat. cbn [buddy_free]. mstep.
      rewrite (rd_at _ _ _ Hp), (proj2 (Z.ltb_lt _ _)) by lia. rewrite (upd_at _ _ _ _ Hp). reflexivity.
    + rewrite Ep, wrap_small by lia. eapply pool_set; [done|done|done|lia].
Qed.

#[export] Instance buddy_kpages_laws : kpages_laws mem.
Proof.
  refine {| kp_refs := pool_refs |}.
  - exact pool_kalloc.
  - exact pool_kfree.
  - exact pool_get.
  - exact pool_inc.
  - intros s R a r (B & HW & HR) Ha. destruct (HR _ _ Ha) as (x & -> & Hx & Hr & H1). pose proof (used_bounds _ _ _ _ HW Hx).
    destruct (refcnt_page _ _ _ Hr) as (p & Hp & Ep).
    destruct (inv_head _ _ _ _ _ _ (wf_inv _ _ _ HW) Hx) as (p' & Hp' & _ & Hrng & _). rewrite Hp in Hp'. injection Hp' as <-.
    unfold PAGE_START, PGSIZE. change (2 ^ 32) with 4294967296 in *. split; [exists (0x80600 + x); lia|]. lia.
Defined.
