(* ===== verification/VmUser.v ===== *)
(** * What user memory holds, and the copies to and from it

    [uspace] is the state of one address space: its page table tree, and
    every user entry naming a page that the allocator counts.  The user's
    view of memory is [uread]; [alloc_cow_page] does not change it, [copyin]
    returns it and [copyout] updates it. *)
From S2P Require Import Prelude Bytes Vm VmBits VmInv.

Section User.
Context {P : Type} `{kpages_laws P}.
Local Notation vst := (vst P).
Implicit Types s : vst.

Definition umapped (e : Z) : bool := flag e PTE_V && flag e PTE_U.
Definition uwritable (e : Z) : bool := umapped e && (flag e PTE_W || flag e PTE_COW).

(** A user entry: a counted page that is no table page, and flags. *)
Definition uleaf (R : gmap Z Z) (T : tree) (e : Z) : Prop :=
  exists pa f, e = Z.lor (PA2PTE pa) f /\ is_flags f /\ is_Some (R !! pa) /\ ~ is_node T pa.

Record uspace s (R : gmap Z Z) (T : tree) (root : Z) : Prop := {
  us_inv : vinv s R T root;
  us_leaf : forall va, 0 <= va < MAXVA -> umapped (lf T (pmem s) va) = true -> uleaf R T (lf T (pmem s) va);
  us_inj : forall va va', 0 <= va < MAXVA -> 0 <= va' < MAXVA ->
    umapped (lf T (pmem s) va) = true -> umapped (lf T (pmem s) va') = true ->
    PTE2PA (lf T (pmem s) va) = PTE2PA (lf T (pmem s) va') -> va / PGSIZE = va' / PGSIZE
}.

(** The byte the user sees at [va]. *)
Definition uread s (T : tree) (va : Z) : option Z :=
  if (va <? MAXVA) && umapped (lf T (pmem s) va)
  then Some (pmem s (PTE2PA (lf T (pmem s) va) + va mod PGSIZE)) else None.

Lemma uspace_page s R T root va : uspace s R T root -> 0 <= va < MAXVA -> umapped (lf T (pmem s) va) = true ->
  let pa := PTE2PA (lf T (pmem s) va) in
  (PGSIZE | pa) /\ 0 < pa /\ pa + PGSIZE <= 2 ^ 32 /\ is_Some (R !! pa) /\ ~ is_node T pa /\
  lf T (pmem s) va = Z.lor (PA2PTE pa) (PTE_FLAGS (lf T (pmem s) va)).
Proof.
  intros HU Hva Hm. destruct (us_leaf _ _ _ _ HU va Hva Hm) as (pa & f & E & Hf & [r Hr] & Hn).
  destruct (kp_page _ _ _ _ (vi_refs _ _ _ _ (us_inv _ _ _ _ HU)) Hr) as (H1 & H2 & H3 & _).
  assert (Hp : page_pa pa) by (by apply page_page_pa). cbv zeta. rewrite E, pte_pa, pte_flags by done. split_and!; eauto.
Qed.

(** A byte of a page of the allocator that is no table page lies in no table page. *)
Lemma off_nodes s R T root pa i : vinv s R T root -> (PGSIZE | pa) -> ~ is_node T pa -> in_page pa i ->
  forall k a, T !! k = Some a -> ~ in_page a i.
Proof.
  intros HI Hd Hn Hi k a Hk Ha. destruct (decide (a = pa)) as [->|Hne]; [by apply Hn; exists k|].
  destruct (pt_page _ _ _ (vi_tree _ _ _ _ HI) _ _ Hk) as [Hda _]. unfold in_page in *.
  destruct (pages_apart a pa Hda Hd Hne); unfold PGSIZE in *; lia.
Qed.

(** Writing bytes of data pages leaves the tree alone. *)
Lemma vinv_data s R T root m' : vinv s R T root -> (forall i, (exists k a, T !! k = Some a /\ in_page a i) -> m' i = pmem s i) ->
  vinv (Vst (vpg s) m') R T root /\ (forall va, lf T m' va = lf T (pmem s) va).
Proof.
  intros [H1 H2 H3] Hm.
  assert (Hag : forall k a, T !! k = Some a -> agree a PGSIZE (pmem s) m').
  { intros k a Hk i Hi. symmetry. apply Hm. exists k, a. split; [done|]. unfold in_page. lia. }
  split; [split; [done|by eapply ptree_frame|done]|]. intros va. by eapply lf_frame.
Qed.

(** ** Reading: walkaddr and copyin *)

Lemma page_split va : va = va / PGSIZE * PGSIZE + va mod PGSIZE /\ 0 <= va mod PGSIZE < PGSIZE.
Proof.
  pose proof (Z.div_mod va PGSIZE ltac:(unfold PGSIZE; lia)). pose proof (Z.mod_pos_bound va PGSIZE ltac:(unfold PGSIZE; lia)). lia.
Qed.

Lemma page_of va va0 : va0 = va / PGSIZE * PGSIZE -> va0 / PGSIZE = va / PGSIZE.
Proof. intros ->. by rewrite Z.div_mul by (unfold PGSIZE; lia). Qed.

Lemma page_lt_max va : va < MAXVA <-> va / PGSIZE * PGSIZE < MAXVA.
Proof.
  destruct (page_split va) as [E Hr]. assert (HM : MAXVA = 67108864 * PGSIZE) by reflexivity. unfold PGSIZE in *. lia.
Qed.

(** The translation [walkaddr] makes of the page of [va]. *)
Lemma walkaddr_page s R T root va : uspace s R T root -> 0 <= va ->
  walkaddr root (va / PGSIZE * PGSIZE) s =
    Done (if (va <? MAXVA) && umapped (lf T (pmem s) va) then PTE2PA (lf T (pmem s) va) else 0) s.
Proof.
  intros HU Hva. destruct (page_split va) as [E Hr]. assert (Hp0 : 0 <= va / PGSIZE * PGSIZE) by (unfold PGSIZE in *; lia).
  rewrite (walkaddr_ok s R T root _ (us_inv _ _ _ _ HU) Hp0).
  rewrite (lf_same_page T (pmem s) (va / PGSIZE * PGSIZE) va Hp0 Hva (page_of va _ eq_refl)).
  replace (va / PGSIZE * PGSIZE <? MAXVA) with (va <? MAXVA); [unfold umapped; by rewrite andb_assoc|].
  pose proof (page_lt_max va). destruct (va <? MAXVA) eqn:E1, (va / PGSIZE * PGSIZE <? MAXVA) eqn:E2; bool_hyps; try done; lia.
Qed.

Lemma uread_page s T va va' : 0 <= va -> 0 <= va' -> va / PGSIZE = va' / PGSIZE ->
  uread s T va' = if (va <? MAXVA) && umapped (lf T (pmem s) va) then Some (pmem s (PTE2PA (lf T (pmem s) va) + va' mod PGSIZE)) else None.
Proof.
  intros Hva Hva' E. unfold uread. rewrite (lf_same_page T (pmem s) va' va Hva' Hva (eq_sym E)).
  replace (va' <? MAXVA) with (va <? MAXVA); [done|].
  pose proof (page_lt_max va). pose proof (page_lt_max va'). rewrite E in *.
  destruct (va <? MAXVA) eqn:E1, (va' <? MAXVA) eqn:E2; bool_hyps; try done; lia.
Qed.

(** The bytes of a run of user memory up to the first one that is not mapped. *)
Fixpoint uprefix (f : Z -> option Z) (n : nat) (va : Z) : list Z :=
  match n with
  | O => []
  | S n => match f va with Some b => b :: uprefix f n (va + 1) | None => [] end
  end.

Lemma uprefix_app f k n va : (forall i, 0 <= i < Z.of_nat k -> is_Some (f (va + i))) ->
  uprefix f (k + n) va = uprefix f k va ++ uprefix f n (va + Z.of_nat k).
Proof.
  revert va. induction k as [|k IH]; intros va Hk; cbn [Nat.add uprefix app]; [by rewrite Z.add_0_r|].
  destruct (Hk 0 ltac:(lia)) as [b Hb]. rewrite Z.add_0_r in Hb. rewrite Hb. cbn [app]. f_equal.
  rewrite IH; [do 2 f_equal; lia|]. intros i Hi. specialize (Hk (i + 1) ltac:(lia)). by replace (va + 1 + i) with (va + (i + 1)) by lia.
Qed.

Lemma uprefix_all f k : forall va g, (forall i, 0 <= i < Z.of_nat k -> f (va + i) = Some (g i)) -> uprefix f k va = g <$> seqZ 0 (Z.of_nat k).
Proof.
  induction k as [|k IH]; intros va g Hk; [done|]. cbn [uprefix]. pose proof (Hk 0 ltac:(lia)) as Hk0. rewrite Z.add_0_r in Hk0. rewrite Hk0.
  rewrite seqZ_cons by lia. cbn [fmap list_fmap]. f_equal. replace (Z.pred (Z.of_nat (S k))) with (Z.of_nat k) by lia.
  rewrite (IH (va + 1) (fun i => g (i + 1))).
  - apply list_eq. intros j. rewrite !list_lookup_fmap. destruct (decide (j < k)%nat) as [Hj|Hj].
    + rewrite !lookup_seqZ_lt by lia. cbn. do 2 f_equal. lia.
    + by rewrite !lookup_seqZ_ge by lia.
  - intros i Hi. specialize (Hk (i + 1) ltac:(lia)). by replace (va + 1 + i) with (va + (i + 1)) by lia.
Qed.

Lemma copyin_loop_ok s R T root : uspace s R T root -> forall n srcva len dst, 0 <= srcva < 2 ^ 64 -> 0 <= len ->
  srcva mod PGSIZE + len <= (Z.of_nat n - 1) * PGSIZE -> (1 <= n)%nat ->
  let got := uprefix (uread s T) (Z.to_nat len) srcva in
  copyin_loop n root srcva len dst s = Done (if Z.of_nat (length got) =? len then 0 else -1, dst ++ got) s.
Proof.
  intros HU. induction n as [|n IH]; intros srcva len dst Hsrc Hlen Hfuel Hn got; [lia|]. cbn [copyin_loop].
  destruct (0 <? len) eqn:E0; bool_hyps.
  2:{ assert (len = 0) as -> by lia. unfold got. cbn. by rewrite app_nil_r. }
  rewrite pgrounddown_val by lia. destruct (page_split srcva) as [Es Hr].
  rewrite (bind_Done _ _ _ _ _ (walkaddr_page s R T root srcva HU ltac:(lia))).
  destruct ((srcva <? MAXVA) && umapped (lf T (pmem s) srcva)) eqn:Em.
  - apply andb_prop in Em as [Em1 Em2]. bool_hyps. set (pa := PTE2PA (lf T (pmem s) srcva)).
    destruct (uspace_page s R T root srcva HU ltac:(lia) Em2) as (Hd & Hpos & Hmax & _).
    rewrite (proj2 (Z.eqb_neq pa 0)) by (fold pa in Hpos; lia).
    replace (srcva - srcva / PGSIZE * PGSIZE) with (srcva mod PGSIZE) by lia.
    set (m := Z.min (PGSIZE - srcva mod PGSIZE) len). assert (Hm : 0 < m <= len) by lia. assert (Hm2 : m <= PGSIZE - srcva mod PGSIZE) by lia. assert (Hm3 : m < len -> m = PGSIZE - srcva mod PGSIZE) by lia.
    rewrite (bind_Done (gets (fun s => to_list (pmem s) (pa + srcva mod PGSIZE) m)) _ s _ s eq_refl).
    assert (Hrd : forall i, 0 <= i < m -> uread s T (srcva + i) = Some (pmem s (pa + srcva mod PGSIZE + i))).
    { intros i Hi. assert (Ep : srcva / PGSIZE = (srcva + i) / PGSIZE /\ (srcva + i) mod PGSIZE = srcva mod PGSIZE + i).
      { replace (srcva + i) with (srcva mod PGSIZE + i + srcva / PGSIZE * PGSIZE) by lia.
        rewrite Z.div_add, (Z_mod_plus_full (srcva mod PGSIZE + i)) by (unfold PGSIZE; lia). rewrite (Z.div_small (srcva mod PGSIZE + i)), (Z.mod_small (srcva mod PGSIZE + i)) by lia. lia. }
      rewrite (uread_page s T srcva) by (try lia; apply Ep). rewrite (proj2 (Z.ltb_lt _ _)), Em2 by done. cbn [andb]. fold pa.
      do 2 f_equal. destruct Ep as [_ ->]. lia. }
    assert (Hgot : got = to_list (pmem s) (pa + srcva mod PGSIZE) m ++ uprefix (uread s T) (Z.to_nat (len - m)) (srcva + m)).
    { unfold got. replace (Z.to_nat len) with (Z.to_nat m + Z.to_nat (len - m))%nat by lia.
      rewrite uprefix_app by (intros i Hi; rewrite Hrd by lia; eauto). rewrite Z2Nat.id by lia. f_equal.
      rewrite (uprefix_all _ _ _ (fun i => pmem s (pa + srcva mod PGSIZE + i))) by (intros i Hi; apply Hrd; lia).
      unfold to_list. by rewrite Z2Nat.id by lia. }
    assert (HM : MAXVA + 4096 < 2 ^ 64) by (vm_compute; reflexivity).
    rewrite wrap_small by (unfold PGSIZE in *; lia).
    assert (Hl : Z.of_nat (length (to_list (pmem s) (pa + srcva mod PGSIZE) m)) = m) by (rewrite to_list_length; lia).
    destruct (Z.eq_dec (len - m) 0) as [Hz|Hz].
    + destruct n as [|n']; [unfold PGSIZE in *; lia|]. cbn [copyin_loop]. rewrite (proj2 (Z.ltb_ge 0 (len - m))) by lia.
      rewrite Hgot, Hz. cbn [Z.to_nat uprefix]. rewrite app_nil_r, Hl, (proj2 (Z.eqb_eq m len)) by lia. done.
    + assert (Hmv : m = PGSIZE - srcva mod PGSIZE) by (apply Hm3; lia).
      assert (Hal : (srcva / PGSIZE * PGSIZE + PGSIZE) mod PGSIZE = 0).
      { replace (srcva / PGSIZE * PGSIZE + PGSIZE) with ((srcva / PGSIZE + 1) * PGSIZE) by lia. apply Z.mod_mul. unfold PGSIZE; lia. }
      rewrite (IH (srcva / PGSIZE * PGSIZE + PGSIZE) (len - m)); [|unfold PGSIZE in *; lia|lia|rewrite Hal; unfold PGSIZE in *; lia|unfold PGSIZE in *; lia].
      replace (srcva / PGSIZE * PGSIZE + PGSIZE) with (srcva + m) by lia. f_equal. rewrite Hgot, length_app, Nat2Z.inj_add, Hl, <- app_assoc. f_equal.
      set (L := Z.of_nat (length _)). destruct (L =? len - m) eqn:E1, (m + L =? len) eqn:E2; bool_hyps; try done; lia.
  - rewrite Z.eqb_refl. assert (Hg : got = []).
    { unfold got. destruct (Z.to_nat len) as [|k] eqn:Ek; [lia|]. cbn [uprefix]. unfold uread. by rewrite Em. }
    rewrite Hg. cbn [length]. rewrite (proj2 (Z.eqb_neq (Z.of_nat 0) len)) by lia. by rewrite app_nil_r.
Qed.

Lemma copy_fuel_enough va len : 0 <= len ->
  va mod PGSIZE + len <= (Z.of_nat (copy_fuel len) - 1) * PGSIZE /\ (1 <= copy_fuel len)%nat.
Proof.
  intros Hlen. unfold copy_fuel. destruct (page_split va), (page_split len). pose proof (Z.div_pos len PGSIZE Hlen ltac:(unfold PGSIZE; lia)).
  rewrite Z2Nat.id by lia. unfold PGSIZE in *. lia.
Qed.

(** [copyin] returns the mapped prefix of the run, and 0 exactly when that is
    the whole run. *)
Lemma copyin_ok s R T root srcva len : uspace s R T root -> 0 <= srcva < 2 ^ 64 -> 0 <= len ->
  let got := uprefix (uread s T) (Z.to_nat len) srcva in
  copyin root srcva len s = Done (if Z.of_nat (length got) =? len then 0 else -1, got) s.
Proof.
  intros HU Hsrc Hlen. destruct (copy_fuel_enough srcva len Hlen).
  unfold copyin. by rewrite (copyin_loop_ok s R T root HU).
Qed.

(** ** One page at a time *)

Lemma flag_pte a f k : page_pa a -> 0 <= k < 10 -> flag (Z.lor (PA2PTE a) f) (Z.shiftl 1 k) = Z.testbit f k.
Proof. intros Ha Hk. rewrite flag_bit, pte_testbit_low by (auto || lia). done. Qed.

Lemma map_lf_1 va pa perm f v : (PGSIZE | va) -> map_lf 1 va pa perm f v =
  if decide (v / PGSIZE = va / PGSIZE) then Z.lor (PA2PTE pa) (leaf_flags perm) else f v.
Proof.
  intros [q ->]. unfold map_lf. destruct (page_split v) as [Ev Hv]. rewrite Z.div_mul by (unfold PGSIZE; lia). change (Z.of_nat 1) with 1.
  destruct (decide (v / PGSIZE = q)) as [E|E].
  - rewrite decide_True by (unfold PGSIZE in *; lia). rewrite E, Z.sub_diag, Z.add_0_r. done.
  - rewrite decide_False by (unfold PGSIZE in *; nia). done.
Qed.

(** [mappages] of one page without a valid entry. *)
Lemma map_page s R T root va pa perm : vinv s R T root -> is_flags perm -> (PGSIZE | va) -> 0 <= va < MAXVA ->
  page_pa pa -> flag (lf T (pmem s) va) PTE_V = false ->
  (exists msg, mappages root va PGSIZE pa perm s = Panic msg) \/
  exists s' R' T', mappages root va PGSIZE pa perm s = Done 0 s' /\ vinv s' R' T' root /\ grown s R T s' R' T' /\
    forall v, 0 <= v < MAXVA -> lf T' (pmem s') v =
      if decide (v / PGSIZE = va / PGSIZE) then Z.lor (PA2PTE pa) (leaf_flags perm) else lf T (pmem s) v.
Proof.
  intros HI Hperm Hal Hva Hpa Hfree. pose proof Hal as [q Hq]. assert (HM : MAXVA = 67108864 * PGSIZE) by reflexivity.
  assert (Ea : va / PGSIZE * PGSIZE = va) by (rewrite Hq, Z.div_mul by (unfold PGSIZE; lia); lia).
  assert (En : Z.to_nat ((va + PGSIZE - 1) / PGSIZE - va / PGSIZE) = O).
  { replace (va + PGSIZE - 1) with (PGSIZE - 1 + q * PGSIZE) by lia. rewrite Hq, Z.div_add, Z.div_mul, Z.div_small by (unfold PGSIZE; lia). lia. }
  destruct (mappages_ok s R T root va PGSIZE pa perm HI Hperm) as [?|(s' & R' & T' & E & HI' & Hg & Hlf)];
    rewrite ?En, ?Ea; try (unfold PGSIZE in *; lia); try done.
  - destruct Hpa as [[x ->] ?]. assert (2 ^ 56 = 17592186044416 * PGSIZE) by reflexivity. change (Z.of_nat 1) with 1. unfold PGSIZE in *. lia.
  - intros v Hv. rewrite (lf_same_page T (pmem s) v va); [done|lia|lia|]. destruct (page_split v). change (Z.of_nat 1) with 1 in Hv.
    rewrite Hq, Z.div_mul by (unfold PGSIZE; lia). unfold PGSIZE in *. nia.
  - by left.
  - right. exists s', R', T'. split; [done|]. split; [done|]. split; [done|]. intros v Hv. rewrite Hlf, En, Ea by done. by apply map_lf_1.
Qed.

(** The same where the table page exists: nothing is allocated. *)
Lemma map_page_present s R T root va pa perm : vinv s R T root -> is_flags perm -> (PGSIZE | va) -> 0 <= va < MAXVA ->
  page_pa pa -> T !! (0, pfx 0 va) <> None -> flag (lf T (pmem s) va) PTE_V = false ->
  exists s' R' T', mappages root va PGSIZE pa perm s = Done 0 s' /\ vinv s' R' T' root /\ grown s R T s' R' T' /\
    forall v, 0 <= v < MAXVA -> lf T' (pmem s') v =
      if decide (v / PGSIZE = va / PGSIZE) then Z.lor (PA2PTE pa) (leaf_flags perm) else lf T (pmem s) v.
Proof.
  intros HI Hperm [q Hq] Hva Hpa Hsl Hfree. assert (HM : MAXVA < 2 ^ 64 - PGSIZE) by (vm_compute; reflexivity).
  assert (Hsome : is_Some (T !! (0, pfx 0 va))) by (destruct (T !! (0, pfx 0 va)); eauto; done).
  destruct (set_leaf s R T root va (Z.lor (PA2PTE pa) (leaf_flags perm)) HI Hva Hsome) as (HI' & Hg & Hlf);
    [apply pte_range; [done|by apply leaf_flags_ok]|].
  eexists _, R, T. split; [|split; [exact HI'|split; [exact Hg|exact Hlf]]]. unfold mappages. rewrite (proj2 (Z.eqb_neq PGSIZE 0)) by done.
  assert (E1 : PGROUNDDOWN va = va) by (rewrite pgrounddown_val, Hq, Z.div_mul by (unfold PGSIZE in *; lia); done).
  assert (E2 : PGROUNDDOWN (u64 (va + PGSIZE - 1)) = va).
  { rewrite wrap_small by (unfold PGSIZE in *; lia). rewrite pgrounddown_val by (unfold PGSIZE in *; lia).
    replace (va + PGSIZE - 1) with (PGSIZE - 1 + q * PGSIZE) by lia. rewrite Z.div_add, Z.div_small by (unfold PGSIZE; lia). lia. }
  rewrite E1, E2, Z.sub_diag. change (Z.to_nat (u64 0 / PGSIZE + 1)) with 1%nat. rewrite mappages_loop_S.
  rewrite (bind_Done _ _ _ _ _ (walk_present s T root va true (vi_tree _ _ _ _ HI) Hva Hsl)), (slot_pos _ _ _ _ (vi_tree _ _ _ _ HI)), bool_decide_eq_false_2 by done.
  rewrite (bind_Done _ _ _ _ _ (slot_entry s T va Hsl)), Hfree. unfold wr_pte. rewrite bind_modify, Z.eqb_refl.
  unfold leaf_flags. by rewrite !Z.lor_assoc.
Qed.

(** [uvmunmap] of one valid leaf, its page given back. *)
Lemma unmap_page s R T root va r : vinv s R T root -> (PGSIZE | va) -> 0 <= va < MAXVA -> flag (lf T (pmem s) va) PTE_V = true ->
  Z.land (PTE_FLAGS (lf T (pmem s) va)) 0x3ff <> PTE_V -> R !! PTE2PA (lf T (pmem s) va) = Some r -> ~ is_node T (PTE2PA (lf T (pmem s) va)) ->
  exists s', uvmunmap root va 1 true s = Done tt s' /\ vinv s' (dec1 R (PTE2PA (lf T (pmem s) va))) T root /\
    (forall i, (forall k b, T !! k = Some b -> ~ in_page b i) -> pmem s' i = pmem s i) /\
    (forall v, 0 <= v < MAXVA -> lf T (pmem s') v = if decide (v / PGSIZE = va / PGSIZE) then 0 else lf T (pmem s) v).
Proof.
  intros HI Hal Hva Hv Hleaf Hr Hn. pose proof Hal as [q Hq]. assert (HM : MAXVA = 67108864 * PGSIZE) by reflexivity.
  assert (Hin : forall v, (va <= v < va + Z.of_nat 1 * PGSIZE) <-> v / PGSIZE = va / PGSIZE).
  { intros v. change (Z.of_nat 1) with 1. destruct (page_split v). rewrite Hq, Z.div_mul by (unfold PGSIZE; lia). unfold PGSIZE in *. nia. }
  assert (Epas : range_pas (lf T (pmem s)) 1 va = [PTE2PA (lf T (pmem s) va)]) by (cbn [range_pas]; unfold valid_pa; by rewrite Hv).
  destruct (uvmunmap_ok s R T root va 1 true HI Hal) as (s' & E & HI' & Hm & Hlf); try (unfold PGSIZE in *; lia).
  - intros v Hv1. apply Hin in Hv1. destruct (page_split v). destruct (page_split va).
    rewrite (lf_same_page T (pmem s) v va); [|rewrite Hv1 in *; unfold PGSIZE in *; lia|lia|done]. by intros _.
  - intros _. rewrite Epas. split; [by exists r|]. by split.
  - rewrite Epas in HI'. exists s'. split; [exact E|]. split; [exact HI'|]. split; [done|]. intros v Hv1. rewrite Hlf by done. unfold unmap_lf.
    destruct (decide (v / PGSIZE = va / PGSIZE)) as [E1|E1].
    + rewrite decide_True by (by apply Hin). by rewrite (lf_same_page T (pmem s) v va), Hv by (lia || done).
    + rewrite decide_False by (by rewrite Hin). done.
Qed.

(** ** Replacing the entry of one user page *)
Section Update.
Context (s : vst) (R : gmap Z Z) (T : tree) (root va : Z) (s' : vst) (R' : gmap Z Z) (T' : tree) (e' : Z).
Hypothesis HU : uspace s R T root.
Hypothesis Hva : 0 <= va < MAXVA.
Hypothesis Hmap : umapped (lf T (pmem s) va) = true.
Hypothesis HI' : vinv s' R' T' root.
Hypothesis Hlf : forall v, 0 <= v < MAXVA -> lf T' (pmem s') v = if decide (v / PGSIZE = va / PGSIZE) then e' else lf T (pmem s) v.
Hypothesis Hleaf : uleaf R' T' e'.
Hypothesis Hpage : PTE2PA e' = PTE2PA (lf T (pmem s) va) \/ R !! PTE2PA e' = None.
Hypothesis HR : forall b r, R !! b = Some r -> b <> PTE2PA (lf T (pmem s) va) -> R' !! b = Some r.
Hypothesis HT : forall b, is_node T' b -> is_node T b \/ R !! b = None.

Lemma uspace_update : uspace s' R' T' root.
Proof using All.
  assert (Hother : forall v, 0 <= v < MAXVA -> v / PGSIZE <> va / PGSIZE -> umapped (lf T (pmem s) v) = true ->
    PTE2PA (lf T (pmem s) v) <> PTE2PA (lf T (pmem s) va)).
  { intros v Hv Hne Hm E. apply Hne. by apply (us_inj _ _ _ _ HU). }
  assert (Hnew : forall v, 0 <= v < MAXVA -> v / PGSIZE <> va / PGSIZE -> umapped (lf T (pmem s) v) = true ->
    PTE2PA (lf T (pmem s) v) <> PTE2PA e').
  { intros v Hv Hne Hm E. destruct Hpage as [E1|E1]; [apply (Hother v Hv Hne Hm); congruence|].
    destruct (uspace_page s R T root v HU Hv Hm) as (_ & _ & _ & [r Hr] & _). rewrite E in Hr. congruence. }
  split; [exact HI'| |].
  - intros v Hv. rewrite Hlf by done. destruct (decide _) as [E|E]; [done|]. intros Hm.
    destruct (us_leaf _ _ _ _ HU v Hv Hm) as (pa & f & Ee & Hf & [r Hr] & Hn). exists pa, f. split; [done|]. split; [done|].
    assert (Epa : PTE2PA (lf T (pmem s) v) = pa).
    { rewrite Ee. apply pte_pa; [|done]. destruct (kp_page _ _ _ _ (vi_refs _ _ _ _ (us_inv _ _ _ _ HU)) Hr) as (? & ? & ? & _). by apply page_page_pa. }
    split; [exists r; apply HR; [done|]; rewrite <- Epa; by apply Hother|].
    intros Hn'. destruct (HT _ Hn'); [done|congruence].
  - intros v v' Hv Hv'. rewrite !Hlf by done. destruct (decide (v / PGSIZE = va / PGSIZE)) as [E|E], (decide (v' / PGSIZE = va / PGSIZE)) as [E'|E'].
    + congruence.
    + intros _ Hm E1. symmetry in E1. by apply Hnew in E1.
    + intros Hm _ E1. by apply Hnew in E1.
    + by apply (us_inj _ _ _ _ HU).
Qed.

(** The user sees no difference when the new page holds what the old one did. *)
Hypothesis Hmap' : umapped e' = true.
Hypothesis Hdata : forall b r i, R !! b = Some r -> ~ is_node T b -> in_page b i -> pmem s' i = pmem s i.
Hypothesis Hsame : forall i, 0 <= i < PGSIZE -> pmem s' (PTE2PA e' + i) = pmem s (PTE2PA (lf T (pmem s) va) + i).

Lemma uread_update v : 0 <= v -> uread s' T' v = uread s T v.
Proof using All.
  intros Hv. unfold uread. destruct (v <? MAXVA) eqn:Em; [|done]. bool_hyps. cbn [andb]. rewrite Hlf by done.
  destruct (page_split v) as [_ Hr]. destruct (decide _) as [E|E].
  - rewrite Hmap', (lf_same_page T (pmem s) v va), Hmap by (lia || done). by rewrite Hsame.
  - destruct (umapped (lf T (pmem s) v)) eqn:Hm; [|done]. f_equal.
    destruct (uspace_page s R T root v HU ltac:(lia) Hm) as (_ & _ & _ & [r Hr'] & Hn & _). eapply Hdata; [exact Hr'|done|unfold in_page; lia].
Qed.
End Update.

(** ** alloc_cow_page *)

(** The new entry of a page that was copied, and of one that was not. *)
Definition cow_copied (pg e : Z) : Z :=
  Z.lor (PA2PTE pg) (leaf_flags (Z.lor (Z.land (PTE_FLAGS e) (u64 (Z.lnot PTE_COW))) PTE_W)).
Definition cow_sole (e : Z) : Z := Z.land (Z.lor e PTE_W) (u64 (Z.lnot PTE_C)).

(** One step of a copy to user memory at the page of [va]. *)
Record cow_step s (R : gmap Z Z) (T : tree) s' (R' : gmap Z Z) (T' : tree) (root va : Z) : Prop := {
  cs_space : uspace s' R' T' root;
  cs_other : forall v, 0 <= v < MAXVA -> v / PGSIZE <> va / PGSIZE -> lf T' (pmem s') v = lf T (pmem s) v;
  cs_read : forall v, 0 <= v -> uread s' T' v = uread s T v;
  cs_data : forall b r i, R !! b = Some r -> ~ is_node T b -> in_page b i -> pmem s' i = pmem s i;
  cs_refs : forall b r, R !! b = Some r -> b <> PTE2PA (lf T (pmem s) va) -> R' !! b = Some r;
  cs_nodes : forall b, is_node T' b -> is_node T b \/ R !! b = None
}.

Lemma cow_step_refl s R T root va : uspace s R T root -> cow_step s R T s R T root va.
Proof. intros HU. by split; auto. Qed.

Lemma pa2pte_nocache a : page_pa a -> Z.land (PA2PTE a) (u64 (Z.lnot PTE_C)) = PA2PTE a.
Proof.
  intros Ha. apply Z.bits_inj'. intros i Hi. rewrite Z.land_spec, (pa2pte_bits a i Ha Hi).
  destruct ((10 <=? i) && Z.testbit a (i + 2)) eqn:E; [|done]. apply andb_prop in E as [_ E]. cbn [andb].
  destruct (Z.lt_ge_cases (i + 2) 56) as [Hlt|Hge]; [|rewrite (page_pa_bits a (i + 2) Ha) in E by lia; discriminate].
  unfold wrap. rewrite Z.mod_pow2_bits_low by lia. rewrite Z.lnot_spec by done. unfold PTE_C. rewrite shiftl_1_bit by lia.
  by rewrite (proj2 (Z.eqb_neq 62 i)) by lia.
Qed.

Lemma is_flags_land f g : is_flags f -> is_flags (Z.land f g).
Proof. unfold is_flags. intros Hf. rewrite (Z.land_comm f g), <- Z.land_assoc, Hf. done. Qed.

Lemma cow_sole_entry pa f : page_pa pa -> cow_sole (Z.lor (PA2PTE pa) f) = Z.lor (PA2PTE pa) (Z.land (Z.lor f PTE_W) (u64 (Z.lnot PTE_C))).
Proof.
  intros Hpa. unfold cow_sole. rewrite <- Z.lor_assoc, Z.land_lor_distr_l. by rewrite pa2pte_nocache.
Qed.

Lemma cow_copied_flags f : Z.testbit f 4 = true ->
  let g := leaf_flags (Z.lor (Z.land f (u64 (Z.lnot PTE_COW))) PTE_W) in
  Z.testbit g 0 = true /\ Z.testbit g 4 = true /\ Z.testbit g 2 = true /\ Z.testbit g 8 = false.
Proof.
  intros Hf. cbv zeta. unfold leaf_flags. rewrite !Z.lor_spec, !Z.land_spec, Hf.
  split_and!; try (repeat rewrite ?orb_true_r; reflexivity). by rewrite andb_false_r.
Qed.

Lemma cow_sole_flags f : Z.testbit f 0 = true -> Z.testbit f 4 = true ->
  let g := Z.land (Z.lor f PTE_W) (u64 (Z.lnot PTE_C)) in Z.testbit g 0 = true /\ Z.testbit g 4 = true /\ Z.testbit g 2 = true.
Proof.
  intros H1 H2. cbv zeta. rewrite !Z.land_spec, !Z.lor_spec, H1, H2. split_and!; try reflexivity. by rewrite orb_true_r.
Qed.

Lemma flags_bit a f j : page_pa a -> is_flags f -> 0 <= j < 10 -> flag (Z.lor (PA2PTE a) f) (Z.shiftl 1 j) = Z.testbit (PTE_FLAGS (Z.lor (PA2PTE a) f)) j.
Proof. intros Ha Hf Hj. rewrite pte_flags, flag_pte by done. done. Qed.

(** What [alloc_cow_page] reports for an entry. *)
Definition cow_result (va e : Z) : Z :=
  if MAXVA <=? va then -1
  else if negb (umapped e) then 1
  else if flag e PTE_W then 1
  else if flag e PTE_COW then 0 else -1.

Lemma alloc_cow_entry s R T root va : uspace s R T root -> 0 <= va < MAXVA -> umapped (lf T (pmem s) va) = true ->
  exists pa f r, lf T (pmem s) va = Z.lor (PA2PTE pa) f /\ is_flags f /\ page_pa pa /\ R !! pa = Some r /\ 1 <= r /\ ~ is_node T pa /\
    Z.testbit f 0 = true /\ Z.testbit f 4 = true /\ PTE2PA (lf T (pmem s) va) = pa /\ PTE_FLAGS (lf T (pmem s) va) = f.
Proof.
  intros HU Hva Hm. destruct (us_leaf _ _ _ _ HU va Hva Hm) as (pa & f & E & Hf & [r Hr] & Hn).
  destruct (kp_page _ _ _ _ (vi_refs _ _ _ _ (us_inv _ _ _ _ HU)) Hr) as (H1 & H2 & H3 & H4).
  assert (Hp : page_pa pa) by (by apply page_page_pa). apply andb_prop in Hm as [Hv Hu]. rewrite E in Hv, Hu.
  unfold PTE_V, PTE_U in Hv, Hu. rewrite flag_pte in Hv, Hu by (done || lia).
  exists pa, f, r. rewrite E, pte_pa, pte_flags by done. split_and!; try done. lia.
Qed.

(** The page has other users: it is copied. *)
Lemma cow_copy_ok s R T root va pa f r : uspace s R T root -> (PGSIZE | va) -> 0 <= va < MAXVA ->
  lf T (pmem s) va = Z.lor (PA2PTE pa) f -> is_flags f -> page_pa pa -> R !! pa = Some r -> 1 < r -> ~ is_node T pa ->
  Z.testbit f 0 = true -> Z.testbit f 4 = true ->
  let run := (pg ← vpages kalloc;
     if pg =? 0 then mret (-1)
     else
       memmove pg pa PGSIZE;;
       uvmunmap root va 1 true;;
       r ← mappages root va PGSIZE pg (Z.lor (Z.land f (u64 (Z.lnot PTE_COW))) PTE_W);
       if negb (r =? 0) then vpages (kfree pg);; mret (-1) else mret 0) in
  (exists msg, kalloc (vpg s) = Panic msg /\ run s = Panic msg) \/
  exists s' R' T' pg, run s = Done 0 s' /\ cow_step s R T s' R' T' root va /\
    lf T' (pmem s') va = cow_copied pg (lf T (pmem s) va) /\ R !! pg = None /\ R' !! pg = Some 1 /\ R' !! pa = Some (r - 1) /\ page_pa pg.
Proof.
  intros HU Hal Hva El Hf Hpa Hr Hr1 Hn Hb0 Hb4 run. pose proof (us_inv _ _ _ _ HU) as HI.
  assert (Hmap : umapped (lf T (pmem s) va) = true).
  { unfold umapped, PTE_V, PTE_U. rewrite El, !flag_pte, Hb0, Hb4 by (done || lia). done. }
  assert (Epa : PTE2PA (lf T (pmem s) va) = pa) by (by rewrite El, pte_pa). assert (Efl : PTE_FLAGS (lf T (pmem s) va) = f) by (by rewrite El, pte_flags).
  unfold run. destruct (kalloc_ok _ _ (vi_refs _ _ _ _ HI)) as [[msg E]|(pg & vp & E & Hpg & Hrefs)].
  { left. exists msg. split; [done|]. unfold mbind, M_bind, vpages, zoom. by rewrite E. }
  assert (Hslot : T !! (0, pfx 0 va) <> None) by (intros Hs; unfold lf in Hmap; rewrite Hs in Hmap; discriminate).
  destruct (kp_page _ _ pg 1 Hrefs) as (Hpd & Hp0 & Hpm & _); [apply lookup_insert_eq|].
  assert (Hne : pg <> pa) by (intros ->; congruence).
  assert (Ek : vpages kalloc s = Done pg (Vst vp (pmem s))) by (unfold vpages, zoom; by rewrite E).
  rewrite (bind_Done _ _ _ _ _ Ek), (proj2 (Z.eqb_neq pg 0)) by lia. unfold memmove, modify.
  set (s1 := Vst vp (mmove pg pa PGSIZE (pmem s) (pmem s))). rewrite (bind_Done _ _ (Vst vp (pmem s)) tt s1 eq_refl).
  assert (Hpgn : ~ is_node T pg) by (intros [k Hk]; rewrite (vi_nodes _ _ _ _ HI _ _ Hk) in Hpg; discriminate).
  destruct (vinv_data s R T root (pmem s1) HI) as [HI0 Hlf1].
  { intros i (k & a & Hk & Hi). apply mmove_out. destruct (pt_page _ _ _ (vi_tree _ _ _ _ HI) _ _ Hk) as [Hda _].
    unfold in_page in Hi. destruct (pages_apart a pg Hda Hpd); [intros ->; apply Hpgn; by exists k|unfold PGSIZE in *; lia|unfold PGSIZE in *; lia]. }
  assert (HI1 : vinv s1 (<[pg := 1]> R) T root).
  { destruct HI0 as [_ Ht Hnd]. split; [done|done|]. intros k a Hk. rewrite lookup_insert_ne; [by eapply Hnd|]. intros ->. apply Hpgn. by exists k. }
  assert (Hlfs1 : forall v, lf T (pmem s1) v = lf T (pmem s) v) by done.
  destruct (unmap_page s1 (<[pg := 1]> R) T root va r HI1 Hal Hva) as (s2 & E2 & HI2 & Hm2 & Hlf2); rewrite ?Hlfs1, ?Epa, ?Efl in *.
  { rewrite El. unfold PTE_V. rewrite flag_pte by (done || lia). done. }
  { intros E4. apply (f_equal (fun z => Z.testbit z 4)) in E4. rewrite Z.land_spec, Hb4 in E4. discriminate. }
  { by rewrite lookup_insert_ne. }
  { done. }
  rewrite (bind_Done _ _ _ _ _ E2). set (R2 := dec1 (<[pg := 1]> R) pa) in *.
  assert (ER2 : R2 = <[pa := r - 1]> (<[pg := 1]> R)).
  { unfold R2, dec1. by rewrite lookup_insert_ne, Hr, (proj2 (Z.eqb_neq r 1)) by (done || lia). }
  destruct (map_page_present s2 R2 T root va pg (Z.lor (Z.land f (u64 (Z.lnot PTE_COW))) PTE_W) HI2) as (s3 & R3 & T3 & E3 & HI3 & Hg3 & Hlf3).
  { apply is_flags_lor; [by apply is_flags_land|reflexivity]. } { done. } { done. } { by apply page_page_pa. } { done. }
  { rewrite Hlf2, decide_True by done. reflexivity. }
  right. exists s3, R3, T3, pg. rewrite (bind_Done _ _ _ _ _ E3). split; [reflexivity|].
  assert (He3 : lf T3 (pmem s3) va = cow_copied pg (lf T (pmem s) va)).
  { rewrite Hlf3, decide_True by done. unfold cow_copied. by rewrite Efl. }
  assert (Hlf : forall v, 0 <= v < MAXVA -> lf T3 (pmem s3) v = if decide (v / PGSIZE = va / PGSIZE) then cow_copied pg (lf T (pmem s) va) else lf T (pmem s) v).
  { intros v Hv. rewrite Hlf3 by done. destruct (decide _) as [Ed|Ed]; [unfold cow_copied; by rewrite Efl|].
    rewrite Hlf2 by done. by rewrite decide_False by done. }
  assert (HR3 : forall b x, R2 !! b = Some x -> R3 !! b = Some x) by (intros; eapply lookup_weaken; [eassumption|apply (gr_refs _ _ _ _ _ _ Hg3)]).
  assert (Hnode3 : forall b, is_node T3 b -> is_node T b \/ R2 !! b = None).
  { intros b [k Hk]. destruct (T !! k) as [c|] eqn:Ec; [|right; by eapply (gr_nodes _ _ _ _ _ _ Hg3)].
    pose proof (lookup_weaken _ _ _ _ Ec (gr_tree _ _ _ _ _ _ Hg3)). assert (c = b) as -> by congruence. left. by exists k. }
  assert (HRpg : R3 !! pg = Some 1) by (apply HR3; rewrite ER2, lookup_insert_ne, lookup_insert_eq; done).
  assert (HRpa : R3 !! pa = Some (r - 1)) by (apply HR3; by rewrite ER2, lookup_insert_eq).
  assert (HRo : forall b x, R !! b = Some x -> b <> pa -> R3 !! b = Some x).
  { intros b x Hb Hbp. apply HR3. rewrite ER2, !lookup_insert_ne; [done| |done]. intros ->. congruence. }
  assert (Hnode : forall b, is_node T3 b -> is_node T b \/ R !! b = None).
  { intros b Hb. destruct (Hnode3 b Hb) as [?|E4]; [by left|]. right. rewrite ER2 in E4. apply lookup_insert_None in E4 as [E4 _].
    by apply lookup_insert_None in E4 as [E4 _]. }
  assert (Hpgn3 : ~ is_node T3 pg) by (intros Hb; destruct (Hnode3 _ Hb) as [?|E4]; [done|]; rewrite ER2, lookup_insert_ne, lookup_insert_eq in E4; done).
  assert (Hold : forall b x i, R2 !! b = Some x -> ~ is_node T b -> in_page b i -> (PGSIZE | b) -> pmem s3 i = pmem s1 i).
  { intros b x i Hb Hnb Hi Hdb. rewrite (gr_mem _ _ _ _ _ _ Hg3).
    - apply Hm2. by eapply (off_nodes s1); [exact HI1|exact Hdb| |].
    - eapply (off_nodes s3); [exact HI3|exact Hdb| |exact Hi]. intros Hb3. destruct (Hnode3 _ Hb3); [done|congruence]. }
  destruct (cow_copied_flags f Hb4) as (Hc0 & Hc4 & _).
  assert (Hcf : is_flags (leaf_flags (Z.lor (Z.land f (u64 (Z.lnot PTE_COW))) PTE_W))).
  { apply leaf_flags_ok, is_flags_lor; [by apply is_flags_land|reflexivity]. }
  assert (Hppg : page_pa pg) by (by apply page_page_pa).
  assert (Ecp : PTE2PA (cow_copied pg (lf T (pmem s) va)) = pg) by (unfold cow_copied; rewrite Efl; by apply pte_pa).
  assert (Hdata : forall b x i, R !! b = Some x -> ~ is_node T b -> in_page b i -> pmem s3 i = pmem s i).
  { intros b x i Hb Hnb Hi. destruct (kp_page _ _ _ _ (vi_refs _ _ _ _ HI) Hb) as (Hdb & _).
    assert (Hbp : b <> pg) by (intros ->; congruence). rewrite (Hold b (if decide (b = pa) then r - 1 else x) i); [| |done|done|done].
    - apply mmove_out. unfold in_page in Hi. destruct (pages_apart b pg Hdb Hpd Hbp); unfold PGSIZE in *; lia.
    - rewrite ER2. destruct (decide (b = pa)) as [->|]; [by rewrite lookup_insert_eq|by rewrite !lookup_insert_ne by congruence]. }
  assert (Hleaf : uleaf R3 T3 (cow_copied pg (lf T (pmem s) va))).
  { exists pg. eexists. split; [unfold cow_copied; rewrite Efl; reflexivity|]. split; [done|]. split; [eauto|done]. }
  assert (Hpage : PTE2PA (cow_copied pg (lf T (pmem s) va)) = PTE2PA (lf T (pmem s) va) \/ R !! PTE2PA (cow_copied pg (lf T (pmem s) va)) = None) by (right; by rewrite Ecp).
  assert (HRo' : forall b x, R !! b = Some x -> b <> PTE2PA (lf T (pmem s) va) -> R3 !! b = Some x) by (by rewrite Epa).
  split; [|split_and!; done].
  split.
  - by eapply (uspace_update s R T root va s3 R3 T3).
  - intros v Hv Hvp. rewrite Hlf by done. by rewrite decide_False by done.
  - intros v Hv. eapply (uread_update s R T root va s3 R3 T3 _ HU Hva Hmap HI3 Hlf Hleaf Hpage HRo' Hnode); [|exact Hdata| |exact Hv].
    + unfold umapped, cow_copied, PTE_V, PTE_U. rewrite Efl, !flag_pte, Hc0, Hc4 by (done || lia). done.
    + intros i Hi. rewrite Ecp, Epa, (Hold pg 1 (pg + i)); [|rewrite ER2, lookup_insert_ne, lookup_insert_eq; done|done|unfold in_page; lia|done].
      unfold s1. cbn [pmem]. rewrite mmove_in by lia. f_equal. lia.
  - exact Hdata.
  - exact HRo'.
  - exact Hnode.
Qed.

(** The only user: the entry becomes writable in place. *)
Lemma cow_sole_ok s R T root va pa f : uspace s R T root -> 0 <= va < MAXVA ->
  lf T (pmem s) va = Z.lor (PA2PTE pa) f -> is_flags f -> page_pa pa -> is_Some (R !! pa) -> ~ is_node T pa ->
  Z.testbit f 0 = true -> Z.testbit f 4 = true ->
  let s' := Vst (vpg s) (wr64 (slot T va) (cow_sole (lf T (pmem s) va)) (wr64 (slot T va) (Z.lor (lf T (pmem s) va) PTE_W) (pmem s))) in
  cow_step s R T s' R T root va /\ lf T (pmem s') va = cow_sole (lf T (pmem s) va).
Proof.
  intros HU Hva El Hf Hpa Hr Hn Hb0 Hb4 s'. pose proof (us_inv _ _ _ _ HU) as HI.
  assert (Hmap : umapped (lf T (pmem s) va) = true).
  { unfold umapped, PTE_V, PTE_U. rewrite El, !flag_pte, Hb0, Hb4 by (done || lia). done. }
  assert (Epa : PTE2PA (lf T (pmem s) va) = pa) by (by rewrite El, pte_pa).
  destruct (cow_sole_flags f Hb0 Hb4) as (Hs0 & Hs4 & _).
  assert (Hsf : is_flags (Z.land (Z.lor f PTE_W) (u64 (Z.lnot PTE_C)))) by (apply is_flags_land, is_flags_lor; [done|reflexivity]).
  assert (Ees : cow_sole (lf T (pmem s) va) = Z.lor (PA2PTE pa) (Z.land (Z.lor f PTE_W) (u64 (Z.lnot PTE_C)))) by (rewrite El; by apply cow_sole_entry).
  assert (Hsl : is_Some (T !! (0, pfx 0 va))).
  { unfold lf in Hmap. destruct (T !! (0, pfx 0 va)); [eauto|discriminate]. }
  destruct (set_leaf s R T root va (Z.lor (lf T (pmem s) va) PTE_W) HI Hva Hsl) as (HI1 & Hg1 & Hlf1).
  { rewrite El, <- Z.lor_assoc. apply pte_range; [done|]. apply is_flags_lor; [done|reflexivity]. }
  destruct (set_leaf _ R T root va (cow_sole (lf T (pmem s) va)) HI1 Hva Hsl) as (HI' & Hg2 & Hlf2).
  { rewrite Ees. by apply pte_range. }
  fold s' in HI', Hg2, Hlf2. pose proof (grown_trans _ _ _ _ _ _ _ _ _ Hg1 Hg2) as Hg.
  assert (Hlf : forall v, 0 <= v < MAXVA -> lf T (pmem s') v = if decide (v / PGSIZE = va / PGSIZE) then cow_sole (lf T (pmem s) va) else lf T (pmem s) v).
  { intros v Hv. rewrite Hlf2 by done. destruct (decide _) as [E|E]; [done|]. rewrite Hlf1 by done. by rewrite decide_False by done. }
  clear Hg1 Hg2 Hlf1 Hlf2.
  assert (Ecs : PTE2PA (cow_sole (lf T (pmem s) va)) = pa) by (rewrite Ees; by apply pte_pa).
  assert (Hdata : forall b x i, R !! b = Some x -> ~ is_node T b -> in_page b i -> pmem s' i = pmem s i).
  { intros b x i Hb Hnb Hi. rewrite (gr_mem _ _ _ _ _ _ Hg); [done|]. eapply (off_nodes s); [exact HI| |exact Hnb|exact Hi].
    by destruct (kp_page _ _ _ _ (vi_refs _ _ _ _ HI) Hb). }
  assert (Hleaf : uleaf R T (cow_sole (lf T (pmem s) va))) by (exists pa; eexists; by rewrite Ees).
  assert (Hpage : PTE2PA (cow_sole (lf T (pmem s) va)) = PTE2PA (lf T (pmem s) va) \/ R !! PTE2PA (cow_sole (lf T (pmem s) va)) = None) by (left; congruence).
  split; [split|].
  - eapply (uspace_update s R T root va s' R T); eauto.
  - intros v Hv Hne. rewrite Hlf by done. by rewrite decide_False by done.
  - intros v Hv. eapply (uread_update s R T root va s' R T _ HU Hva Hmap HI' Hlf Hleaf Hpage); [by eauto|by eauto| |exact Hdata| |exact Hv].
    + unfold umapped, PTE_V, PTE_U. rewrite Ees, !flag_pte, Hs0, Hs4 by (done || lia). done.
    + intros i Hi. rewrite Ecs, Epa. destruct Hr as [r Hr]. eapply Hdata; [exact Hr|done|unfold in_page; lia].
  - exact Hdata.
  - by eauto.
  - by eauto.
  - rewrite Hlf by done. by rewrite decide_True by done.
Qed.

(** [alloc_cow_page] on any page of an address space. *)
Lemma alloc_cow_ok s R T root va : uspace s R T root -> (PGSIZE | va) -> 0 <= va ->
  (exists r msg, R !! PTE2PA (lf T (pmem s) va) = Some r /\ 1 < r /\ kalloc (vpg s) = Panic msg /\ alloc_cow_page root va s = Panic msg) \/
  exists s' R' T', alloc_cow_page root va s = Done (cow_result va (lf T (pmem s) va)) s' /\
    cow_step s R T s' R' T' root va /\
    (cow_result va (lf T (pmem s) va) <> 0 -> s' = s /\ R' = R /\ T' = T) /\
    (cow_result va (lf T (pmem s) va) = 0 ->
       flag (lf T' (pmem s') va) PTE_W = true /\ umapped (lf T' (pmem s') va) = true /\
       R' !! PTE2PA (lf T' (pmem s') va) = Some 1 /\
       (PTE2PA (lf T' (pmem s') va) = PTE2PA (lf T (pmem s) va) /\ R !! PTE2PA (lf T (pmem s) va) = Some 1 /\
        lf T' (pmem s') va = cow_sole (lf T (pmem s) va) \/
        R !! PTE2PA (lf T' (pmem s') va) = None /\ lf T' (pmem s') va = cow_copied (PTE2PA (lf T' (pmem s') va)) (lf T (pmem s) va) /\ exists r, 1 < r /\ R !! PTE2PA (lf T (pmem s) va) = Some r /\ R' !! PTE2PA (lf T (pmem s) va) = Some (r - 1))).
Proof.
  intros HU Hal Hva. unfold alloc_cow_page, cow_result. destruct (MAXVA <=? va) eqn:Em; bool_hyps.
  { right. exists s, R, T. split; [done|]. split; [by apply cow_step_refl|]. split; [done|]. discriminate. }
  pose proof (us_inv _ _ _ _ HU) as HI. pose proof (vi_tree _ _ _ _ HI) as Htree. set (e := lf T (pmem s) va).
  rewrite (bind_Done _ _ _ _ _ (walk_find s _ T root va Htree eq_refl (conj Hva Em))).
  assert (Ee : (if slot T va =? 0 then mret 0 else rd_pte (slot T va)) s = Done e s).
  { rewrite (slot_pos _ _ _ _ Htree) by done. case_bool_decide as Hn; [|by apply slot_entry]. unfold e, lf. by rewrite Hn. }
  rewrite (bind_Done _ _ _ _ _ Ee).
  assert (Econd : (slot T va =? 0) || negb (flag e PTE_V) || negb (flag e PTE_U) = negb (umapped e)).
  { rewrite (slot_pos _ _ _ _ Htree) by done. unfold umapped. rewrite negb_andb. case_bool_decide as Hn; [|done]. unfold e, lf. by rewrite Hn. }
  rewrite Econd. destruct (umapped e) eqn:Hmap; cbn [negb].
  2:{ right. exists s, R, T. split; [done|]. split; [by apply cow_step_refl|]. split; [done|]. discriminate. }
  destruct (alloc_cow_entry s R T root va HU (conj Hva Em) Hmap) as (pa & f & r & El & Hf & Hpa & Hr & Hr1 & Hn & Hb0 & Hb4 & Epa & Efl).
  fold e in El, Epa, Efl. destruct (flag e PTE_W) eqn:Ew; cbn [negb andb orb].
  { rewrite andb_false_r. right. exists s, R, T. split; [done|]. split; [by apply cow_step_refl|]. split; [done|]. discriminate. }
  rewrite andb_true_r. destruct (flag e PTE_COW) eqn:Ec; cbn [negb].
  2:{ right. exists s, R, T. split; [done|]. split; [by apply cow_step_refl|]. split; [done|]. discriminate. }
  assert (Eva0 : PGROUNDDOWN va = va).
  { rewrite pgrounddown_val. { destruct Hal as [q ->]. by rewrite Z.div_mul by (unfold PGSIZE; lia). } split; [done|].
    assert (MAXVA < 2 ^ 64) by (vm_compute; reflexivity). lia. }
  assert (Eg : vpages (page_refcnt_get (PTE2PA e)) s = Done r s).
  { unfold vpages, zoom. rewrite Epa, (refcnt_get_ok _ _ _ _ (vi_refs _ _ _ _ HI) Hr). by destruct s. }
  cbv zeta. rewrite (bind_Done _ _ _ _ _ Eg), Eva0, Efl, Epa. destruct (1 <? r) eqn:E1; bool_hyps.
  - destruct (cow_copy_ok s R T root va pa f r HU Hal (conj Hva Em) El Hf Hpa Hr E1 Hn Hb0 Hb4) as [(msg & Ek & Er)|(s' & R' & T' & pg & Er & Hst & Hl & Hp0 & Hp1 & Hp2 & Hpp)].
    { left. by exists r, msg. }
    right. exists s', R', T'. split; [exact Er|]. split; [exact Hst|]. split; [done|]. intros _.
    assert (Hcf : is_flags (leaf_flags (Z.lor (Z.land f (u64 (Z.lnot PTE_COW))) PTE_W))).
    { apply leaf_flags_ok, is_flags_lor; [by apply is_flags_land|reflexivity]. }
    destruct (cow_copied_flags f Hb4) as (Hc0 & Hc4 & Hc2 & _). rewrite Hl. fold e. unfold cow_copied, umapped, PTE_V, PTE_U, PTE_W.
    rewrite Efl. rewrite !pte_pa, !flag_pte by (done || lia). unfold PTE_W in *. rewrite Hc0, Hc4, Hc2. split; [done|]. split; [done|].
    split; [done|]. right. split; [done|]. split; [done|]. exists r. done.
  - assert (r = 1) as -> by lia. rewrite Z.eqb_refl.
    destruct (cow_sole_ok s R T root va pa f HU (conj Hva Em) El Hf Hpa ltac:(eauto) Hn Hb0 Hb4) as (Hst & Hl). fold e in Hst, Hl.
    right. exists (Vst (vpg s) (wr64 (slot T va) (cow_sole e) (wr64 (slot T va) (Z.lor e PTE_W) (pmem s)))), R, T.
    assert (Hsl : T !! (0, pfx 0 va) <> None). { intros Hnone. unfold e, lf in Hmap. rewrite Hnone in Hmap. discriminate. }
    split; [|split; [done|split; [done|]]].
    + rewrite (bind_Done _ _ _ _ _ (slot_entry s T va Hsl)). fold e.
      set (s1 := Vst (vpg s) (wr64 (slot T va) (Z.lor e PTE_W) (pmem s))). rewrite (bind_Done (wr_pte (slot T va) (Z.lor e PTE_W)) _ s tt s1 eq_refl).
      assert (Hrng : 0 <= Z.lor e PTE_W < 256 ^ Z.of_nat 8).
      { rewrite El, <- Z.lor_assoc. apply pte_range; [done|]. apply is_flags_lor; [done|reflexivity]. }
      assert (Er : rd_pte (slot T va) s1 = Done (Z.lor e PTE_W) s1).
      { unfold rd_pte, gets, s1. cbn [pmem]. by rewrite rdle_wrle_same. }
      rewrite (bind_Done _ _ _ _ _ Er). unfold wr_pte, modify, s1. mstep. reflexivity.
    + intros _. destruct (cow_sole_flags f Hb0 Hb4) as (Hs0 & Hs4 & Hs2).
      assert (Hsf : is_flags (Z.land (Z.lor f PTE_W) (u64 (Z.lnot PTE_C)))) by (apply is_flags_land, is_flags_lor; [done|reflexivity]).
      rewrite Hl, El, cow_sole_entry by done. unfold umapped, PTE_V, PTE_U.
      assert (Hfw : forall x, flag x PTE_W = flag x (Z.shiftl 1 2)) by done. rewrite Hfw, !pte_pa, !flag_pte by (done || lia).
      rewrite Hs0, Hs4, Hs2. split; [done|]. split; [done|]. split; [done|]. left. done.
Qed.

(** ** copyout *)

(** Bytes written to one user page. *)
Lemma user_write s R T root va off m src : uspace s R T root -> 0 <= va < MAXVA -> umapped (lf T (pmem s) va) = true ->
  va mod PGSIZE = off -> 0 < m <= PGSIZE - off ->
  let s' := Vst (vpg s) (mmove (PTE2PA (lf T (pmem s) va) + off) 0 m (of_list src) (pmem s)) in
  uspace s' R T root /\ (forall v, lf T (pmem s') v = lf T (pmem s) v) /\
  (forall v, 0 <= v -> uread s' T v = if decide (va <= v < va + m) then Some (of_list src (v - va)) else uread s T v) /\
  (forall b i, in_page b i -> (PGSIZE | b) -> b <> PTE2PA (lf T (pmem s) va) -> pmem s' i = pmem s i).
Proof.
  intros HU Hva Hm Hoff Hlen s'. set (pa := PTE2PA (lf T (pmem s) va)) in *.
  destruct (uspace_page s R T root va HU Hva Hm) as (Hd & Hp0 & Hpm & Hr & Hn & _). fold pa in Hd, Hp0, Hpm, Hr, Hn.
  destruct (page_split va) as [Eva Hvr].
  assert (Hout : forall b i, in_page b i -> (PGSIZE | b) -> b <> pa -> pmem s' i = pmem s i).
  { intros b i Hi Hb Hne. apply mmove_out. unfold in_page in Hi. destruct (pages_apart b pa Hb Hd Hne); lia. }
  destruct (vinv_data s R T root (pmem s') (us_inv _ _ _ _ HU)) as [HI Hlf].
  { intros i (k & a & Hk & Hi). destruct (pt_page _ _ _ (vi_tree _ _ _ _ (us_inv _ _ _ _ HU)) _ _ Hk) as [Hda _].
    apply (Hout a); [done|done|]. intros ->. apply Hn. by exists k. }
  split; [|split; [exact Hlf|split; [|exact Hout]]].
  - split; [exact HI| |].
    + intros v Hv. rewrite Hlf. by apply (us_leaf _ _ _ _ HU).
    + intros v v' Hv Hv'. rewrite !Hlf. by apply (us_inj _ _ _ _ HU).
  - intros v Hv. unfold uread. rewrite Hlf. destruct (v <? MAXVA) eqn:Ev; bool_hyps; cbn [andb].
    2:{ rewrite decide_False; [done|]. intros Hin. pose proof (page_lt_max va). pose proof (page_lt_max v). assert (HM : MAXVA = 67108864 * PGSIZE) by reflexivity. unfold PGSIZE in *. lia. }
    destruct (page_split v) as [Ev' Hvr']. destruct (decide (va <= v < va + m)) as [Hin|Hin].
    + assert (Ep : v / PGSIZE = va / PGSIZE) by (unfold PGSIZE in *; lia).
      rewrite (lf_same_page T (pmem s) v va) by (lia || done). rewrite Hm. fold pa. unfold s'. cbn [pmem]. rewrite mmove_in by (rewrite Ep in Ev'; lia).
      do 2 f_equal. rewrite Ep in Ev'. lia.
    + destruct (umapped (lf T (pmem s) v)) eqn:Hmv; [|done]. f_equal. destruct (decide (v / PGSIZE = va / PGSIZE)) as [Ep|Ep].
      * rewrite (lf_same_page T (pmem s) v va) by (lia || done). fold pa. unfold s'. cbn [pmem]. apply mmove_out. rewrite Ep in Ev'. lia.
      * destruct (uspace_page s R T root v HU ltac:(lia) Hmv) as (Hdv & _). apply (Hout (PTE2PA (lf T (pmem s) v))); [unfold in_page; lia|done|].
        intros E. apply Ep. by apply (us_inj _ _ _ _ HU).
Qed.

(** A page the user of this space may not modify: mapped nowhere in it with
    write permission, and nowhere copy-on-write unless others use it too. *)
Definition protected s (R : gmap Z Z) (T : tree) (b : Z) : Prop :=
  is_Some (R !! b) /\ ~ is_node T b /\
  forall v, 0 <= v < MAXVA -> umapped (lf T (pmem s) v) = true -> PTE2PA (lf T (pmem s) v) = b ->
    flag (lf T (pmem s) v) PTE_W = false /\ (flag (lf T (pmem s) v) PTE_COW = true -> exists r, R !! b = Some r /\ 1 < r).

Definition uw s (T : tree) (v : Z) : bool := (v <? MAXVA) && uwritable (lf T (pmem s) v).

(** [alloc_cow_page] then the write, on the page of [va]. *)
Lemma copyout_page s R T root va m src : uspace s R T root -> 0 <= va -> 0 < m <= PGSIZE - va mod PGSIZE ->
  let run := (ret ← alloc_cow_page root (va / PGSIZE * PGSIZE);
     if ret <? 0 then mret false
     else
       pa0 ← walkaddr root (va / PGSIZE * PGSIZE);
       if pa0 =? 0 then mret false
       else modify (fun s => Vst (vpg s) (mmove (pa0 + va mod PGSIZE) 0 m (of_list src) (pmem s)));; mret true) in
  (exists msg, run s = Panic msg) \/
  exists s' R' T', run s = Done (uw s T va) s' /\ uspace s' R' T' root /\
    (forall v, 0 <= v -> uread s' T' v = if decide (va <= v < va + m) then (if uw s T va then Some (of_list src (v - va)) else uread s T v) else uread s T v) /\
    (forall v, 0 <= v -> v / PGSIZE <> va / PGSIZE -> uw s' T' v = uw s T v) /\
    (forall b, protected s R T b -> protected s' R' T' b /\ forall i, in_page b i -> pmem s' i = pmem s i).
Proof.
  intros HU Hva Hm run. destruct (page_split va) as [Eva Hvr]. set (va0 := va / PGSIZE * PGSIZE) in *.
  assert (Hva0 : 0 <= va0) by (unfold va0, PGSIZE in *; lia). assert (Hal : (PGSIZE | va0)) by apply Z.divide_factor_r.
  assert (Ep : va0 / PGSIZE = va / PGSIZE) by (by apply page_of). pose proof (page_lt_max va) as Hlt. fold va0 in Hlt.
  assert (El : lf T (pmem s) va0 = lf T (pmem s) va) by (by apply lf_same_page).
  unfold run. destruct (alloc_cow_ok s R T root va0 HU Hal Hva0) as [(x & msg & _ & _ & _ & E)|(s1 & R1 & T1 & E & Hst & Hno & Hyes)].
  { left. exists msg. unfold mbind, M_bind. by rewrite E. }
  right. rewrite (bind_Done _ _ _ _ _ E). rewrite El in *. set (e := lf T (pmem s) va) in *.
  assert (Hst' : uspace s1 R1 T1 root) by apply Hst.
  assert (Hwa : walkaddr root va0 s1 = Done (if (va <? MAXVA) && umapped (lf T1 (pmem s1) va) then PTE2PA (lf T1 (pmem s1) va) else 0) s1)
    by (by apply (walkaddr_page s1 R1 T1 root va Hst')).
  assert (El1 : lf T1 (pmem s1) va0 = lf T1 (pmem s1) va) by (by apply lf_same_page).
  assert (Hsame : s1 = s -> R1 = R -> T1 = T -> uw s T va = false ->
    exists s' R' T', Done false s1 = Done (uw s T va) s' /\ uspace s' R' T' root /\
    (forall v, 0 <= v -> uread s' T' v = if decide (va <= v < va + m) then (if uw s T va then Some (of_list src (v - va)) else uread s T v) else uread s T v) /\
    (forall v, 0 <= v -> v / PGSIZE <> va / PGSIZE -> uw s' T' v = uw s T v) /\
    (forall b, protected s R T b -> protected s' R' T' b /\ forall i, in_page b i -> pmem s' i = pmem s i)).
  { intros -> -> -> Huw. exists s, R, T. rewrite Huw. split_and!; try done. intros v Hv. by destruct (decide _). }
  destruct (MAXVA <=? va0) eqn:Emax; bool_hyps.
  { unfold cow_result in *. rewrite (proj2 (Z.leb_le _ _)) in * by done. destruct Hno as (-> & -> & ->); [done|]. apply Hsame; try done.
    unfold uw. rewrite (proj2 (Z.ltb_ge va MAXVA)) by lia. done. }
  assert (Eltb : (va <? MAXVA) = true) by (apply Z.ltb_lt; lia).
  assert (Ecr : cow_result va0 e = if negb (umapped e) then 1 else if flag e PTE_W then 1 else if flag e PTE_COW then 0 else -1).
  { unfold cow_result. by rewrite (proj2 (Z.leb_gt _ _)). }
  destruct (uw s T va) eqn:Huw.
  2:{ assert (Hn0 : cow_result va0 e <> 0 /\ (cow_result va0 e < 0 \/ umapped e = false)).
      { rewrite Ecr. unfold uw, uwritable in Huw. rewrite Eltb in Huw. fold e in Huw. cbn [andb] in Huw. destruct (umapped e); [|by auto].
        cbn [andb negb] in *. apply orb_false_iff in Huw as [-> ->]. auto with lia. }
      destruct Hn0 as [Hn0 Hneg]. destruct (Hno Hn0) as (-> & -> & ->).
      destruct (cow_result va0 e <? 0) eqn:E0; bool_hyps; [by apply Hsame|]. destruct Hneg as [?|Hum]; [lia|].
      rewrite (bind_Done _ _ _ _ _ Hwa). fold e. rewrite Hum, andb_false_r. by apply Hsame. }
  unfold uw, uwritable in Huw. rewrite Eltb in Huw. fold e in Huw. cbn [andb] in Huw. apply andb_prop in Huw as [Hmap Hwc].
  assert (Hmap1 : umapped (lf T1 (pmem s1) va) = true /\ 0 <= cow_result va0 e).
  { rewrite Ecr, Hmap in *. cbn [negb] in *. destruct (flag e PTE_W) eqn:Ew.
    - destruct Hno as (-> & -> & ->); [done|]. done.
    - cbn [orb] in Hwc. rewrite Hwc in *. rewrite <- El1. split; [by apply Hyes|done]. }
  destruct Hmap1 as [Hmap1 Hge]. rewrite (proj2 (Z.ltb_ge _ 0)) by done. rewrite (bind_Done _ _ _ _ _ Hwa), Eltb, Hmap1. cbn [andb].
  assert (Hvm : 0 <= va < MAXVA) by lia.
  destruct (uspace_page s1 R1 T1 root va Hst' Hvm Hmap1) as (Hd & Hp0 & _). set (pa := PTE2PA (lf T1 (pmem s1) va)) in *.
  rewrite (proj2 (Z.eqb_neq pa 0)) by lia.
  destruct (user_write s1 R1 T1 root va (va mod PGSIZE) m src Hst' Hvm Hmap1 eq_refl Hm) as (HU2 & Hlf2 & Hrd2 & Hdt2). fold pa in HU2, Hlf2, Hrd2, Hdt2.
  set (s2 := Vst (vpg s1) (mmove (pa + va mod PGSIZE) 0 m (of_list src) (pmem s1))) in *.
  exists s2, R1, T1. split; [reflexivity|]. split; [exact HU2|]. split; [|split].
  - intros v Hv. rewrite Hrd2 by done. destruct (decide _); [done|]. by apply (cs_read _ _ _ _ _ _ _ _ Hst).
  - intros v Hv Hne. unfold uw. destruct (v <? MAXVA) eqn:Evm; bool_hyps; [|done]. cbn [andb]. rewrite Hlf2.
    rewrite (cs_other _ _ _ _ _ _ _ _ Hst v ltac:(lia)) by (by rewrite Ep). done.
  - intros b ([r Hr] & Hbn & Hprot).
    assert (Hbpa : b <> pa /\ (b = PTE2PA e -> exists r, 1 < r /\ R !! b = Some r /\ R1 !! b = Some (r - 1))).
    { rewrite Ecr, Hmap in Hno, Hyes. cbn [negb] in Hno, Hyes. destruct (flag e PTE_W) eqn:Ew.
      - destruct Hno as (-> & -> & ->); [done|]. assert (Hne : b <> PTE2PA e) by (intros ->; destruct (Hprot va Hvm Hmap eq_refl) as [Hf _]; fold e in Hf; congruence).
        split; [exact Hne|]. done.
      - cbn [orb] in Hwc. rewrite Hwc in Hyes. destruct (Hyes eq_refl) as (_ & _ & _ & Hcase). rewrite El1 in Hcase. fold pa in Hcase.
        destruct Hcase as [(Epa & H1 & _)|(Hnone & _ & r' & Hr1 & Hold & Hnew)].
        + assert (Hne : b <> PTE2PA e). { intros ->. destruct (Hprot va Hvm Hmap eq_refl) as [_ Hf]. destruct (Hf Hwc) as (r2 & Hr2 & ?). rewrite H1 in Hr2. injection Hr2 as <-. lia. }
          split; [congruence|done].
        + split; [congruence|]. intros ->. eauto. }
    destruct Hbpa as [Hbpa Hold].
    assert (Hr1 : forall x, R !! b = Some x -> b <> PTE2PA e -> R1 !! b = Some x).
    { intros x Hx Hne. apply (cs_refs _ _ _ _ _ _ _ _ Hst b x Hx). by rewrite El. }
    split; [split; [|split]|].
    + destruct (decide (b = PTE2PA e)) as [Eb|Eb]; [destruct (Hold Eb) as (? & _ & _ & ->); eauto|rewrite (Hr1 r Hr Eb); eauto].
    + intros Hb1. destruct (cs_nodes _ _ _ _ _ _ _ _ Hst b Hb1); [done|congruence].
    + intros v Hv. rewrite Hlf2. destruct (decide (v / PGSIZE = va / PGSIZE)) as [Ev|Ev].
      * rewrite (lf_same_page T1 (pmem s1) v va) by (lia || done). fold pa. congruence.
      * rewrite (cs_other _ _ _ _ _ _ _ _ Hst v Hv) by (by rewrite Ep). intros Hmv Epv. destruct (Hprot v Hv Hmv Epv) as [Hf Hc].
        split; [done|]. intros Hcow. destruct (Hc Hcow) as (x & Hx & Hx1). exists x. split; [|done]. apply (Hr1 x Hx). intros Eb.
        apply Ev. apply (us_inj _ _ _ _ HU); try done. fold e. congruence.
    + intros i Hi. destruct (kp_page _ _ _ _ (vi_refs _ _ _ _ (us_inv _ _ _ _ HU)) Hr) as (Hdb & _).
      rewrite (Hdt2 b i Hi Hdb Hbpa). by eapply (cs_data _ _ _ _ _ _ _ _ Hst).
Qed.

Lemma copyout_loop_S n root va src s : src <> [] -> 0 <= va < 2 ^ 64 ->
  let m := Z.min (PGSIZE - va mod PGSIZE) (Z.of_nat (length src)) in
  copyout_loop (S n) root va src s =
  (ok ← (ret ← alloc_cow_page root (va / PGSIZE * PGSIZE);
     if ret <? 0 then mret false
     else
       pa0 ← walkaddr root (va / PGSIZE * PGSIZE);
       if pa0 =? 0 then mret false
       else modify (fun s => Vst (vpg s) (mmove (pa0 + va mod PGSIZE) 0 m (of_list src) (pmem s)));; mret true);
   if ok : bool then copyout_loop n root (u64 (va / PGSIZE * PGSIZE + PGSIZE)) (drop (Z.to_nat m) src) else mret (-1)) s.
Proof.
  intros Hsrc Hva m. cbn [copyout_loop]. destruct src as [|b src]; [done|]. rewrite (pgrounddown_val va Hva).
  destruct (page_split va) as [Eva _]. replace (va - va / PGSIZE * PGSIZE) with (va mod PGSIZE) by lia. fold m.
  unfold mbind, M_bind. destruct (alloc_cow_page root (va / PGSIZE * PGSIZE) s) as [ret s1| | | |]; try done.
  destruct (ret <? 0); [done|]. destruct (walkaddr root (va / PGSIZE * PGSIZE) s1) as [pa0 s2| | | |]; try done.
  by destruct (pa0 =? 0).
Qed.

Lemma of_list_drop k src i : 0 <= k -> 0 <= i -> of_list (drop (Z.to_nat k) src) i = of_list src (k + i).
Proof. intros Hk Hi. rewrite !of_list_lookup by lia. rewrite lookup_drop. do 2 f_equal. lia. Qed.

Lemma uw_page s R T root va v : uspace s R T root -> 0 <= va -> 0 <= v -> v / PGSIZE = va / PGSIZE -> uw s T v = uw s T va.
Proof.
  intros HU Hva Hv E. unfold uw. rewrite (lf_same_page T (pmem s) v va) by done.
  pose proof (page_lt_max va). pose proof (page_lt_max v). rewrite E in *.
  destruct (va <? MAXVA) eqn:E1, (v <? MAXVA) eqn:E2; bool_hyps; try done; lia.
Qed.

Lemma copyout_loop_ok root : forall n src va s R T, uspace s R T root -> 0 <= va < 2 ^ 64 ->
  va mod PGSIZE + Z.of_nat (length src) <= (Z.of_nat n - 1) * PGSIZE -> (1 <= n)%nat ->
  let len := Z.of_nat (length src) in
  (exists msg, copyout_loop n root va src s = Panic msg) \/
  exists r s' R' T', copyout_loop n root va src s = Done r s' /\ uspace s' R' T' root /\ (r = 0 \/ r = -1) /\
    (r = 0 <-> forall v, va <= v < va + len -> uw s T v = true) /\
    (forall v, 0 <= v -> ~ (va <= v < va + len) -> uread s' T' v = uread s T v) /\
    (r = 0 -> forall v, va <= v < va + len -> uread s' T' v = Some (of_list src (v - va))) /\
    (forall b, protected s R T b -> protected s' R' T' b /\ forall i, in_page b i -> pmem s' i = pmem s i).
Proof.
  induction n as [|n IH]; intros src va s R T HU Hva Hfuel Hn len; [lia|].
  destruct (decide (src = [])) as [->|Hne].
  { right. exists 0, s, R, T. split; [done|]. split; [done|]. split; [by left|]. unfold len. cbn [length Z.of_nat].
    split_and!; try done. - split; [|done]. intros _ v Hv. lia. - intros _ v Hv. lia. }
  rewrite copyout_loop_S by done. destruct (page_split va) as [Eva Hvr]. fold len.
  assert (Hlen0 : 0 < len) by (unfold len; destruct src; [done|cbn [length]; lia]).
  set (m := Z.min (PGSIZE - va mod PGSIZE) len). assert (Hm : 0 < m <= PGSIZE - va mod PGSIZE) by lia. assert (Hml : m <= len) by lia.
  assert (Hmf : m < len -> m = PGSIZE - va mod PGSIZE) by lia.
  destruct (copyout_page s R T root va m src HU ltac:(lia) Hm) as [[msg E]|(s1 & R1 & T1 & E & HU1 & Hrd1 & Huw1 & Hpr1)]; cbv zeta in *.
  { left. exists msg. unfold mbind at 1, M_bind at 1. by rewrite E. }
  rewrite (bind_Done _ _ _ _ _ E). destruct (uw s T va) eqn:Huw.
  2:{ right. exists (-1), s1, R1, T1. split; [done|]. split; [done|]. split; [by right|]. split_and!.
      - split; [done|]. intros Hall. rewrite Hall in Huw by lia. done.
      - intros v Hv Hout. rewrite Hrd1 by done. by destruct (decide _).
      - done.
      - exact Hpr1. }
  assert (HmM : va < MAXVA). { unfold uw in Huw. apply andb_prop in Huw as [Huw _]. by bool_hyps. }
  assert (HM : MAXVA + 4096 < 2 ^ 64) by (vm_compute; reflexivity).
  rewrite wrap_small by (unfold PGSIZE in *; lia). set (va1 := va / PGSIZE * PGSIZE + PGSIZE). set (src1 := drop (Z.to_nat m) src).
  assert (Hl1 : Z.of_nat (length src1) = len - m) by (unfold src1; rewrite length_drop; lia).
  assert (Hal : va1 mod PGSIZE = 0). { unfold va1. replace (va / PGSIZE * PGSIZE + PGSIZE) with ((va / PGSIZE + 1) * PGSIZE) by lia. apply Z.mod_mul. unfold PGSIZE; lia. }
  assert (Hva1 : m < len -> va1 = va + m) by (intros Hlt; specialize (Hmf Hlt); lia).
  destruct (IH src1 va1 s1 R1 T1 HU1) as [[msg E2]|(r & s2 & R2 & T2 & E2 & HU2 & Hr & Hiff & Hout & Hin & Hpr2)].
  { unfold PGSIZE in *; lia. } { rewrite Hal, Hl1. unfold PGSIZE in *. lia. } { unfold PGSIZE in *. lia. }
  { left. exists msg. exact E2. }
  cbv zeta in *. rewrite Hl1 in Hiff, Hout, Hin.
  right. exists r, s2, R2, T2. split; [exact E2|]. split; [done|]. split; [done|]. split; [|split; [|split]].
  - rewrite Hiff. split.
    + intros Hall v Hv. destruct (Z.lt_ge_cases v (va + m)) as [Hlt|Hge].
      * destruct (page_split v). rewrite (uw_page s R T root va v HU); [done|lia|lia|unfold PGSIZE in *; lia].
      * specialize (Hva1 ltac:(lia)). destruct (page_split v). rewrite <- Huw1; [apply Hall; lia|lia|unfold PGSIZE in *; lia].
    + intros Hall v Hv. specialize (Hva1 ltac:(lia)). destruct (page_split v). rewrite Huw1; [apply Hall; lia|lia|unfold PGSIZE in *; lia].
  - intros v Hv Hnin. rewrite Hout by (try done; intros ?; apply Hnin; specialize (Hva1 ltac:(lia)); lia).
    rewrite Hrd1 by done. destruct (decide _); [lia|done].
  - intros Hr0 v Hv. destruct (Z.lt_ge_cases v (va + m)) as [Hlt|Hge].
    + rewrite Hout by (try lia; intros ?; specialize (Hva1 ltac:(lia)); lia). rewrite Hrd1 by lia. by rewrite decide_True by lia.
    + specialize (Hva1 ltac:(lia)). rewrite Hin by (lia || done). unfold src1. rewrite of_list_drop by lia. do 2 f_equal. lia.
  - intros b Hb. destruct (Hpr1 b Hb) as [Hb1 Hd1]. destruct (Hpr2 b Hb1) as [Hb2 Hd2]. split; [done|]. intros i Hi. by rewrite Hd2, Hd1.
Qed.

Lemma copyout_ok root src va s R T : uspace s R T root -> 0 <= va < 2 ^ 64 ->
  let len := Z.of_nat (length src) in
  (exists msg, copyout root va src s = Panic msg) \/
  exists r s' R' T', copyout root va src s = Done r s' /\ uspace s' R' T' root /\ (r = 0 \/ r = -1) /\
    (r = 0 <-> forall v, va <= v < va + len -> uw s T v = true) /\
    (forall v, 0 <= v -> ~ (va <= v < va + len) -> uread s' T' v = uread s T v) /\
    (r = 0 -> forall v, va <= v < va + len -> uread s' T' v = Some (of_list src (v - va))) /\
    (forall b, protected s R T b -> protected s' R' T' b /\ forall i, in_page b i -> pmem s' i = pmem s i).
Proof.
  intros HU Hva. destruct (copy_fuel_enough va (Z.of_nat (length src)) ltac:(lia)). by apply copyout_loop_ok.
Qed.

End User.
