(* ===== verification/VmProps.v ===== *)
(** * Properties of the virtual memory code

    The theorems are about any page source that meets [kpages_laws] (VmPages.v
    shows that the buddy allocator does); their witnesses run over a small
    table of pages and an address space with one copy-on-write page. *)
From S2P Require Import Prelude Bytes Vm VmBits VmInv VmUser.

(** ** A page source for the witnesses: sixteen pages and their counts *)
Abbreviation table := (gmap Z Z).
Definition table_pages : list Z := (fun i => 0x10000 + 4096 * i) <$> seqZ 0 16.

#[export] Instance table_kpages : kpages table := {|
  kalloc t := match filter (fun a => t !! a = None) table_pages with
              | a :: _ => Done a (<[a := 1]> t)
              | [] => Panic "no memory"
              end;
  kfree a t := Done tt (match t !! a with
                        | Some r => if r =? 1 then delete a t else <[a := r - 1]> t
                        | None => t
                        end);
  page_refcnt_get a t := Done (default 0 (t !! a)) t;
  page_refcnt_inc a t := Done tt (match t !! a with Some r => <[a := r + 1]> t | None => t end);
|}.

Definition table_refs (t R : table) : Prop :=
  R = t /\ forall a r, t !! a = Some r -> (PGSIZE | a) /\ 0 < a /\ a + PGSIZE <= 2 ^ 32 /\ 1 <= r < 2 ^ 32.

Lemma table_page_range a : a ∈ table_pages -> (PGSIZE | a) /\ 0 < a /\ a + PGSIZE <= 2 ^ 32.
Proof.
  intros Ha. apply list_elem_of_fmap in Ha as (i & -> & Hi). apply elem_of_seqZ in Hi.
  change (2 ^ 32) with 4294967296. unfold PGSIZE. split; [exists (16 + i); lia|lia].
Qed.

#[export] Instance table_kpages_laws : kpages_laws table.
Proof.
  refine {| kp_refs := table_refs |}.
  - intros s R [-> Hs]. cbn. destruct (filter _ table_pages) as [|a l] eqn:E; [left; eauto|]. right. exists a, (<[a := 1]> s).
    assert (Hin : a ∈ filter (fun a => s !! a = None) table_pages) by (rewrite E; left).
    apply list_elem_of_filter in Hin as [Hn Hin]. split; [done|]. split; [done|]. split; [done|]. intros b r.
    rewrite lookup_insert_Some. intros [[<- <-]|[_ Hb]]; [|by apply Hs]. destruct (table_page_range a Hin) as (? & ? & ?). change (2 ^ 32) with 4294967296 in *. split_and!; try done; lia.
  - intros s R a r [-> Hs] Ha. cbn. rewrite Ha. eexists. split; [done|]. split; [done|]. intros b x. destruct (r =? 1) eqn:E; bool_hyps.
    + rewrite lookup_delete_Some. intros [_ Hb]. by apply Hs.
    + rewrite lookup_insert_Some. intros [[<- <-]|[_ Hb]]; [|by apply Hs]. destruct (Hs _ _ Ha) as (? & ? & ? & ?). split_and!; try done; lia.
  - intros s R a r [-> Hs] Ha. cbn. by rewrite Ha.
  - intros s R a r [-> Hs] Ha Hr. cbn. rewrite Ha. eexists. split; [done|]. split; [done|]. intros b x.
    rewrite lookup_insert_Some. intros [[<- <-]|[_ Hb]]; [|by apply Hs]. destruct (Hs _ _ Ha) as (? & ? & ? & ?). split_and!; try done; lia.
  - intros s R a r [-> Hs] Ha. by apply Hs.
Defined.

(** ** An address space for the witnesses

    Page 0 of the user space is at [0x13000], copy-on-write and shared. *)
Definition wit_root : Z := 0x10000.
Definition wit_refs (r : Z) : table := <[0x10000 := 1]> (<[0x11000 := 1]> (<[0x12000 := 1]> {[0x13000 := r]})).
Definition wit_flags : Z := Z.lor (Z.lor (Z.lor PTE_V PTE_U) (Z.lor PTE_R PTE_C)) PTE_COW.
Definition wit_leaf : Z := Z.lor (PA2PTE 0x13000) wit_flags.
Definition wit_mem : bytes :=
  wr64 0x10000 (Z.lor (PA2PTE 0x11000) PTE_V) (wr64 0x11000 (Z.lor (PA2PTE 0x12000) PTE_V) (wr64 0x12000 wit_leaf
    (fun i => if i =? 0x13005 then 7 else 0))).
Definition wit_tree : tree := <[(2, 0) := 0x10000]> (<[(1, 0) := 0x11000]> {[(0, 0) := 0x12000]}).
Definition wit_space (r : Z) : vst table := Vst (wit_refs r) wit_mem.

Lemma wit_tree_inv l p a : wit_tree !! (l, p) = Some a -> p = 0 /\ (l = 2 /\ a = 0x10000 \/ l = 1 /\ a = 0x11000 \/ l = 0 /\ a = 0x12000).
Proof.
  unfold wit_tree. intros H. apply lookup_insert_Some in H as [[[= <- <-] <-]|[_ H]]; [auto|].
  apply lookup_insert_Some in H as [[[= <- <-] <-]|[_ H]]; [auto|]. apply lookup_singleton_Some in H as [[= <- <-] <-]. auto.
Qed.

Lemma wit_word a i : a = 0x10000 \/ a = 0x11000 \/ a = 0x12000 -> 0 < i < 512 -> rd64 wit_mem (a + 8 * i) = 0.
Proof.
  intros Ha Hi. unfold wit_mem. rewrite !rdle_wrle_other by lia. apply rdle_zero. intros x Hx.
  rewrite (proj2 (Z.eqb_neq x _)) by lia. done.
Qed.

Lemma wit_ptree : ptree wit_mem wit_tree wit_root.
Proof.
  split.
  - reflexivity.
  - intros [l p] [l' p'] a H1 H2. apply wit_tree_inv in H1, H2. destruct H1 as [-> H1], H2 as [-> H2]. f_equal. lia.
  - intros [l p] a Ha. apply wit_tree_inv in Ha as [_ Ha]. change (2 ^ 32) with 4294967296. unfold PGSIZE.
    split; [|lia]. destruct Ha as [[_ ->]|[[_ ->]|[_ ->]]]; [exists 16; done|exists 17; done|exists 18; done].
  - intros l p a Ha. apply wit_tree_inv in Ha. lia.
  - intros l p a i Ha Hl Hi. apply wit_tree_inv in Ha as [-> Ha]. destruct (decide (i = 0)) as [->|Hne].
    + destruct Ha as [[-> ->]|[[-> ->]|[-> _]]]; [vm_compute; reflexivity|vm_compute; reflexivity|lia].
    + rewrite wit_word by lia. destruct (wit_tree !! (l - 1, 0 * 512 + i)) as [c|] eqn:E; [|reflexivity]. apply wit_tree_inv in E. lia.
  - intros l p a Ha Hl. apply wit_tree_inv in Ha as [-> Ha]. change (0 / 512) with 0.
    destruct Ha as [[-> _]|[[-> _]|[-> _]]]; [lia|exists 0x10000; reflexivity|exists 0x11000; reflexivity].
Qed.

Lemma wit_lf va : 0 <= va < MAXVA -> lf wit_tree wit_mem va = if va <? PGSIZE then wit_leaf else 0.
Proof.
  intros Hva. unfold lf. destruct (wit_tree !! (0, pfx 0 va)) as [a|] eqn:E.
  - apply wit_tree_inv in E as [Ep E]. assert (a = 0x12000) as -> by lia. pose proof (page_number va ltac:(lia)) as Epn. rewrite Ep in Epn.
    pose proof (px_range 0 va ltac:(lia)). destruct (page_split va). destruct (va <? PGSIZE) eqn:El; bool_hyps.
    + assert (PX 0 va = 0) as -> by (unfold PGSIZE in *; lia). vm_compute. reflexivity.
    + apply wit_word; [auto|]. unfold PGSIZE in *. lia.
  - destruct (va <? PGSIZE) eqn:El; bool_hyps; [|done]. exfalso. pose proof (page_number va ltac:(lia)) as Epn.
    rewrite Z.div_small in Epn by lia. pose proof (px_range 0 va ltac:(lia)). pose proof (pfx_nonneg 0 va ltac:(lia)).
    assert (Ez : pfx 0 va = 0) by lia. rewrite Ez in E. discriminate.
Qed.

Lemma wit_vinv r : 1 <= r < 2 ^ 32 -> vinv (wit_space r) (wit_refs r) wit_tree wit_root.
Proof.
  intros Hr. split; [|exact wit_ptree|].
  - split; [done|]. intros a x. change (vpg (wit_space r)) with (wit_refs r). unfold wit_refs. change (2 ^ 32) with 4294967296 in *. unfold PGSIZE.
    rewrite !lookup_insert_Some, lookup_singleton_Some.
    intros [[<- <-]|[_ [[<- <-]|[_ [[<- <-]|[_ [<- <-]]]]]]]; (split; [|lia]); [exists 16|exists 17|exists 18|exists 19]; done.
  - intros [l p] a Ha. apply wit_tree_inv in Ha as [_ [[_ ->]|[[_ ->]|[_ ->]]]]; reflexivity.
Qed.

Lemma wit_uspace r : 1 <= r < 2 ^ 32 -> uspace (wit_space r) (wit_refs r) wit_tree wit_root.
Proof.
  intros Hr. split; [by apply wit_vinv| |].
  - intros va Hva. cbn [pmem wit_space]. rewrite wit_lf by done. destruct (va <? PGSIZE); [|discriminate]. intros _.
    exists 0x13000, wit_flags. split; [done|]. split; [reflexivity|]. split; [by exists r|]. intros [[l p] Hn]. apply wit_tree_inv in Hn. lia.
  - intros va va' Hva Hva'. cbn [pmem wit_space]. rewrite !wit_lf by done.
    destruct (va <? PGSIZE) eqn:E, (va' <? PGSIZE) eqn:E'; try discriminate. intros _ _ _. bool_hyps. rewrite !Z.div_small by lia. done.
Qed.

Section Props.
Context {P : Type} `{kpages_laws P}.
Local Notation vst := (vst P).
Implicit Types s : vst.

(** C19: [mappages] of a range without valid entries either panics in the page
    allocator or returns 0 having given exactly the pages of the range their
    entries: consecutive physical pages with the permissions asked for.  Every
    other translation is unchanged, only fresh pages and table pages are
    written, and the table is still a well-formed tree. *)
Theorem mappages_correct s R T root va sz pa perm : vinv s R T root -> is_flags perm -> 0 < sz -> 0 <= va -> va + sz <= MAXVA ->
  let a := va / PGSIZE * PGSIZE in
  let n := Z.to_nat ((va + sz - 1) / PGSIZE - va / PGSIZE) in
  page_pa pa -> pa + Z.of_nat (S n) * PGSIZE <= 2 ^ 56 ->
  (forall v, a <= v < a + Z.of_nat (S n) * PGSIZE -> flag (lf T (pmem s) v) PTE_V = false) ->
  (exists msg, mappages root va sz pa perm s = Panic msg) \/
  exists s' R' T', mappages root va sz pa perm s = Done 0 s' /\ vinv s' R' T' root /\ grown s R T s' R' T' /\
    (forall v, a <= v < a + Z.of_nat (S n) * PGSIZE ->
       walkaddr root v s' = Done (if flag perm PTE_U then pa + (v / PGSIZE * PGSIZE - a) else 0) s') /\
    (forall v, 0 <= v -> ~ (a <= v < a + Z.of_nat (S n) * PGSIZE) ->
       exists x, walkaddr root v s = Done x s /\ walkaddr root v s' = Done x s').
Proof.
  intros HI Hperm Hsz Hva Hend a n Hpa Hpab Hfree.
  destruct (mappages_ok s R T root va sz pa perm HI Hperm Hsz Hva Hend Hpa Hpab Hfree) as [?|(s' & R' & T' & E & HI' & Hg & Hlf)]; [by left|].
  right. exists s', R', T'. split; [done|]. split; [done|]. split; [done|]. cbv zeta in Hlf. fold n a in Hlf. fold n in Hpab.
  assert (Ha0 : 0 <= a) by (unfold a; pose proof (Z.div_pos va PGSIZE ltac:(lia) ltac:(unfold PGSIZE; lia)); unfold PGSIZE in *; lia).
  assert (HM : MAXVA = 67108864 * PGSIZE) by reflexivity.
  assert (Hamax : a + Z.of_nat (S n) * PGSIZE <= MAXVA).
  { unfold a, n. destruct (page_split va), (page_split (va + sz - 1)). unfold PGSIZE in *. lia. }
  split.
  - intros v Hv. assert (Hv0 : 0 <= v < MAXVA) by lia. rewrite (walkaddr_ok s' R' T' root v HI') by lia.
    rewrite (proj2 (Z.ltb_lt v MAXVA)), Hlf by lia. unfold map_lf. rewrite decide_True by done. cbn [andb].
    destruct (page_split v) as [Ev Hvr]. destruct Hpa as [[x Hx] Hpar].
    assert (Hpp : page_pa (pa + (v / PGSIZE * PGSIZE - a))).
    { split; [exists (x + (v / PGSIZE - va / PGSIZE)); unfold a; lia|]. unfold a in *. unfold PGSIZE in *. lia. }
    assert (HfV : flag (Z.lor (PA2PTE (pa + (v / PGSIZE * PGSIZE - a))) (leaf_flags perm)) PTE_V = true).
    { unfold PTE_V at 1. rewrite flag_pte by (done || lia). unfold leaf_flags. rewrite !Z.lor_spec. by rewrite orb_true_r. }
    assert (HfU : flag (Z.lor (PA2PTE (pa + (v / PGSIZE * PGSIZE - a))) (leaf_flags perm)) PTE_U = flag perm PTE_U).
    { unfold PTE_U. rewrite flag_pte, flag_bit by (done || lia). unfold leaf_flags. rewrite !Z.lor_spec. by rewrite !orb_false_r. }
    rewrite HfV, HfU. cbn [andb]. destruct (flag perm PTE_U); [|done]. rewrite pte_pa by (done || by apply leaf_flags_ok). done.
  - intros v Hv Hout. rewrite (walkaddr_ok s R T root v HI), (walkaddr_ok s' R' T' root v HI') by done. eexists. split; [reflexivity|].
    f_equal. destruct (v <? MAXVA) eqn:Ev; bool_hyps; [|done]. rewrite Hlf by done. unfold map_lf. by rewrite decide_False.
Qed.

(** C23: [uvmunmap] of leaf entries returns with every entry of the range
    cleared, the others as they were, and (when asked to free) exactly one
    reference to each page of the range given back; it writes no data page. *)
Theorem uvmunmap_correct s R T root va n df : vinv s R T root -> (PGSIZE | va) -> 0 <= va -> va + Z.of_nat n * PGSIZE <= MAXVA ->
  (forall v, va <= v < va + Z.of_nat n * PGSIZE -> is_leaf (lf T (pmem s) v)) ->
  (df = true -> can_free T R (range_pas (lf T (pmem s)) n va)) ->
  exists s', uvmunmap root va (Z.of_nat n) df s = Done tt s' /\
    vinv s' (if df then dec_refs R (range_pas (lf T (pmem s)) n va) else R) T root /\
    (forall i, (forall k b, T !! k = Some b -> ~ in_page b i) -> pmem s' i = pmem s i) /\
    (forall v, va <= v < va + Z.of_nat n * PGSIZE -> walkaddr root v s' = Done 0 s') /\
    (forall v, 0 <= v < MAXVA -> ~ (va <= v < va + Z.of_nat n * PGSIZE) -> lf T (pmem s') v = lf T (pmem s) v).
Proof.
  intros HI Hal Hva Hend Hleaf Hfree. destruct (uvmunmap_ok s R T root va n df HI Hal Hva Hend Hleaf Hfree) as (s' & E & HI' & Hm & Hlf).
  exists s'. split; [done|]. split; [done|]. split; [done|]. split.
  - intros v Hv. rewrite (walkaddr_ok s' _ T root v HI'), Hlf by lia. unfold unmap_lf. rewrite decide_True by done.
    destruct (flag (lf T (pmem s) v) PTE_V) eqn:Ef; [by rewrite !andb_false_r|]. by rewrite Ef, andb_false_r.
  - intros v Hv Hout. rewrite Hlf by done. unfold unmap_lf. by rewrite decide_False.
Qed.

(** C27: [alloc_cow_page] on a copy-on-write page: when others use the page
    this space gets a private copy with count 1, writable and no longer
    copy-on-write, and the others lose one user; when it is the only user the
    entry becomes writable in place, but the bit cleared is the cacheable one:
    the entry stays marked copy-on-write.  The user reads the same bytes.  The
    only panic is [kalloc]'s, when the page to copy to cannot be had. *)
Theorem alloc_cow_correct s R T root va : uspace s R T root -> (PGSIZE | va) -> 0 <= va < MAXVA ->
  let e := lf T (pmem s) va in
  umapped e = true -> flag e PTE_W = false -> flag e PTE_COW = true ->
  (exists r msg, R !! PTE2PA e = Some r /\ 1 < r /\ kalloc (vpg s) = Panic msg /\ alloc_cow_page root va s = Panic msg) \/
  exists s' R' T', alloc_cow_page root va s = Done 0 s' /\ uspace s' R' T' root /\
    (forall v, 0 <= v -> uread s' T' v = uread s T v) /\ uw s' T' va = true /\
    (R !! PTE2PA e = Some 1 /\ lf T' (pmem s') va = Z.land (Z.lor e PTE_W) (u64 (Z.lnot PTE_C)) \/
     exists r pg, 1 < r /\ R !! PTE2PA e = Some r /\ R' !! PTE2PA e = Some (r - 1) /\ R !! pg = None /\ R' !! pg = Some 1 /\
       lf T' (pmem s') va = cow_copied pg e).
Proof.
  intros HU Hal Hva e Hm Hw Hc. assert (Ecr : cow_result va e = 0) by (unfold cow_result; by rewrite (proj2 (Z.leb_gt _ _)), Hm, Hw, Hc by lia).
  destruct (alloc_cow_ok s R T root va HU Hal ltac:(lia)) as [?|(s' & R' & T' & E & Hst & _ & Hyes)]; [by left|]. fold e in E, Hyes. rewrite Ecr in E.
  right. exists s', R', T'. split; [exact E|]. split; [apply Hst|]. split; [apply Hst|]. destruct (Hyes Ecr) as (Hw' & Hm' & H1 & Hcase).
  split; [unfold uw, uwritable; by rewrite (proj2 (Z.ltb_lt _ _)), Hm', Hw' by lia|].
  destruct Hcase as [(_ & Hr & El)|(Hn & El & r & Hr1 & Hr & Hr')]; [by left|]. right. by exists r, (PTE2PA (lf T' (pmem s') va)).
Qed.

(** C11: [copyout] returns 0 exactly when the user may write every byte of the
    destination, and then the user reads there the bytes it was given; it
    never changes what the user reads elsewhere, and never a byte of a
    protected page: read-only, or copy-on-write with other users. *)
Theorem copyout_correct s R T root va src : uspace s R T root -> 0 <= va < 2 ^ 64 ->
  let len := Z.of_nat (length src) in
  (exists msg, copyout root va src s = Panic msg) \/
  exists r s' R' T', copyout root va src s = Done r s' /\ uspace s' R' T' root /\ (r = 0 \/ r = -1) /\
    (r = 0 <-> forall v, va <= v < va + len -> uw s T v = true) /\
    (forall v, 0 <= v -> ~ (va <= v < va + len) -> uread s' T' v = uread s T v) /\
    (r = 0 -> forall v, va <= v < va + len -> uread s' T' v = src !! Z.to_nat (v - va)) /\
    (forall b, protected s R T b -> protected s' R' T' b /\ forall i, in_page b i -> pmem s' i = pmem s i).
Proof.
  intros HU Hva len. destruct (copyout_ok root src va s R T HU Hva) as [?|(r & s' & R' & T' & E & HU' & Hr & Hiff & Hout & Hin & Hpr)]; [by left|].
  right. exists r, s', R', T'. split_and!; try done. intros Hr0 v Hv. rewrite Hin by done. rewrite of_list_lookup by lia.
  destruct (lookup_lt_is_Some_2 src (Z.to_nat (v - va))) as [x Hx]; [lia|]. by rewrite Hx.
Qed.

(** C14: what [copyout] stored is what [copyin] fetches. *)
Theorem copyin_copyout s R T root va src s' : uspace s R T root -> 0 <= va < 2 ^ 64 ->
  copyout root va src s = Done 0 s' -> copyin root va (Z.of_nat (length src)) s' = Done (0, src) s'.
Proof.
  intros HU Hva E. destruct (copyout_ok root src va s R T HU Hva) as [[msg E2]|(r & s1 & R1 & T1 & E1 & HU1 & _ & _ & _ & Hin & _)]; [congruence|].
  rewrite E in E1. injection E1 as <- <-. pose proof (copyin_ok s' R1 T1 root va (Z.of_nat (length src)) HU1 Hva ltac:(lia)) as Ec.
  cbv zeta in Ec. rewrite Nat2Z.id in Ec. assert (Eg : uprefix (uread s' T1) (length src) va = src).
  { rewrite (uprefix_all _ _ _ (of_list src)).
    - rewrite <- (to_of_list src) at 3. unfold to_list. apply list_fmap_ext. intros i x _. by rewrite Z.add_0_l.
    - intros i Hi. rewrite Hin by lia. do 2 f_equal. lia. }
  by rewrite Ec, Eg, Z.eqb_refl.
Qed.

(** C19: [copyin] never changes memory; it returns exactly the bytes the user
    reads from the source up to the first unmapped one, and 0 if and only if
    that is all it was asked for. *)
Theorem copyin_correct s R T root srcva len : uspace s R T root -> 0 <= srcva < 2 ^ 64 -> 0 <= len ->
  exists r bs, copyin root srcva len s = Done (r, bs) s /\ (r = 0 \/ r = -1) /\
    (r = 0 <-> forall v, srcva <= v < srcva + len -> is_Some (uread s T v)) /\
    (forall i b, bs !! i = Some b -> uread s T (srcva + Z.of_nat i) = Some b) /\
    Z.of_nat (length bs) <= len /\ (r = 0 -> Z.of_nat (length bs) = len) /\
    (r = -1 -> uread s T (srcva + Z.of_nat (length bs)) = None).
Proof.
  intros HU Hsrc Hlen. rewrite (copyin_ok s R T root srcva len HU Hsrc Hlen). set (f := uread s T).
  assert (Hp : forall n va, let g := uprefix f n va in (length g <= n)%nat /\
    (forall i b, g !! i = Some b -> f (va + Z.of_nat i) = Some b) /\ ((length g < n)%nat -> f (va + Z.of_nat (length g)) = None)).
  { induction n as [|n IH]; intros va; cbn [uprefix]; cbv zeta; [cbn [length]; split; [lia|split; [done|lia]]|].
    destruct (f va) as [b|] eqn:Eb; [|cbn [length]; split; [lia|split; [done|]]; intros _; by rewrite Z.add_0_r].
    destruct (IH (va + 1)) as (H1 & H2 & H3). cbn [length]. split; [lia|]. split.
    - intros [|i] x Hx; [rewrite Z.add_0_r; cbn in Hx; congruence|]. apply H2 in Hx. by replace (va + Z.of_nat (S i)) with (va + 1 + Z.of_nat i) by lia.
    - intros Hl. replace (va + Z.of_nat (S (length (uprefix f n (va + 1))))) with (va + 1 + Z.of_nat (length (uprefix f n (va + 1)))) by lia. apply H3. lia. }
  destruct (Hp (Z.to_nat len) srcva) as (H1 & H2 & H3). cbv zeta in *. set (g := uprefix f (Z.to_nat len) srcva) in *.
  do 2 eexists. split; [reflexivity|]. destruct (Z.of_nat (length g) =? len) eqn:El; bool_hyps.
  - split; [by left|]. split; [|split; [done|split; [lia|split; [done|lia]]]]. split; [|done]. intros _ v Hv.
    destruct (lookup_lt_is_Some_2 g (Z.to_nat (v - srcva))) as [x Hx]; [lia|]. exists x. apply H2 in Hx. rewrite <- Hx. f_equal. lia.
  - split; [by right|]. assert (Hn : f (srcva + Z.of_nat (length g)) = None) by (apply H3; lia).
    split; [|split; [done|split; [lia|split; [lia|done]]]]. split; [lia|]. intros Hall.
    destruct (Hall (srcva + Z.of_nat (length g)) ltac:(lia)) as [x Hx]. fold f in Hx. rewrite Hn in Hx. discriminate.
Qed.

End Props.

(** ** Witnesses *)

Definition is_panic {S A} (o : outcome S A) : bool := match o with Panic _ => true | _ => false end.
Lemma not_panic {S A} (o : outcome S A) msg : is_panic o = false -> o <> Panic msg.
Proof. by intros E ->. Qed.

Lemma mappages_correct_witness :
  vinv (wit_space 2) (wit_refs 2) wit_tree wit_root /\ is_flags (Z.lor PTE_RO PTE_U) /\
  (forall v, 8192 <= v < 16384 -> flag (lf wit_tree (pmem (wit_space 2)) v) PTE_V = false) /\
  ((exists msg, mappages wit_root 0x2010 0x1000 0x80000000 (Z.lor PTE_RO PTE_U) (wit_space 2) = Panic msg) \/
   exists s' R' T', mappages wit_root 0x2010 0x1000 0x80000000 (Z.lor PTE_RO PTE_U) (wit_space 2) = Done 0 s' /\ vinv s' R' T' wit_root /\
     walkaddr wit_root 0x3004 s' = Done 0x80001000 s').
Proof.
  assert (Hfree : forall v, 8192 <= v < 16384 -> flag (lf wit_tree (pmem (wit_space 2)) v) PTE_V = false).
  { intros v Hv. cbn [pmem wit_space]. rewrite wit_lf by (change MAXVA with 274877906944; lia). unfold PGSIZE. by rewrite (proj2 (Z.ltb_ge _ _)) by lia. }
  assert (HI : vinv (wit_space 2) (wit_refs 2) wit_tree wit_root) by (apply wit_vinv; change (2 ^ 32) with 4294967296; lia).
  split; [exact HI|]. split; [reflexivity|]. split; [exact Hfree|].
  destruct (mappages_correct (wit_space 2) (wit_refs 2) wit_tree wit_root 0x2010 0x1000 0x80000000 (Z.lor PTE_RO PTE_U) HI
    eq_refl eq_refl ltac:(discriminate) ltac:(discriminate)) as [?|(s' & R' & T' & E & HI' & _ & Hw & _)].
  - split; [exists 0x80000; reflexivity|]. split; [discriminate|reflexivity].
  - discriminate.
  - exact Hfree.
  - by left.
  - right. exists s', R', T'. split; [exact E|]. split; [exact HI'|]. rewrite (Hw 0x3004); [reflexivity|]. vm_compute. split; [discriminate|reflexivity].
Defined.

Lemma uvmunmap_correct_witness :
  vinv (wit_space 2) (wit_refs 2) wit_tree wit_root /\ can_free wit_tree (wit_refs 2) (range_pas (lf wit_tree (pmem (wit_space 2))) 2 0) /\
  exists s', uvmunmap wit_root 0 2 true (wit_space 2) = Done tt s' /\ walkaddr wit_root 5 s' = Done 0 s' /\ vpg s' !! 0x13000 = Some 1.
Proof.
  assert (HI : vinv (wit_space 2) (wit_refs 2) wit_tree wit_root) by (apply wit_vinv; change (2 ^ 32) with 4294967296; lia).
  assert (Hcf : can_free wit_tree (wit_refs 2) (range_pas (lf wit_tree (pmem (wit_space 2))) 2 0)).
  { change (range_pas (lf wit_tree (pmem (wit_space 2))) 2 0) with [0x13000]. split; [exists 2; reflexivity|]. split; [|done].
    intros [[l p] Hn]. apply wit_tree_inv in Hn. lia. }
  split; [exact HI|]. split; [exact Hcf|].
  destruct (uvmunmap_correct (wit_space 2) (wit_refs 2) wit_tree wit_root 0 2 true HI) as (s' & E & HI' & _ & Hw & _).
  - by exists 0.
  - lia.
  - discriminate.
  - intros v Hv. change (Z.of_nat 2) with 2 in Hv. cbn [pmem wit_space]. unfold PGSIZE in Hv. rewrite wit_lf by (change MAXVA with 274877906944; lia).
    destruct (v <? PGSIZE); [|discriminate]. intros _. discriminate.
  - intros _. exact Hcf.
  - exists s'. split; [exact E|]. split; [apply Hw; unfold PGSIZE; lia|]. destruct HI' as [[Hr _] _ _]. rewrite <- Hr. vm_compute. reflexivity.
Defined.

(** The page alone and the page shared by two. *)
Lemma alloc_cow_correct_witness :
  flag wit_leaf PTE_COW = true /\
  (exists s' T', alloc_cow_page wit_root 0 (wit_space 1) = Done 0 s' /\
    lf T' (pmem s') 0 = Z.land (Z.lor wit_leaf PTE_W) (u64 (Z.lnot PTE_C)) /\ flag (lf T' (pmem s') 0) PTE_COW = true) /\
  exists s' R' T' pg, alloc_cow_page wit_root 0 (wit_space 2) = Done 0 s' /\ uspace s' R' T' wit_root /\ R' !! 0x13000 = Some 1 /\
    pg <> 0x13000 /\ R' !! pg = Some 1 /\ lf T' (pmem s') 0 = cow_copied pg wit_leaf.
Proof.
  split; [reflexivity|]. split.
  2:{ assert (HU : uspace (wit_space 2) (wit_refs 2) wit_tree wit_root) by (apply wit_uspace; change (2 ^ 32) with 4294967296; lia).
      destruct (alloc_cow_correct (wit_space 2) (wit_refs 2) wit_tree wit_root 0 HU ltac:(by exists 0) ltac:(split; [lia|reflexivity])
        eq_refl eq_refl eq_refl) as [(x & msg & _ & _ & _ & E)|(s' & R' & T' & E & HU' & _ & _ & Hcase)]; [exfalso; revert E; apply not_panic; vm_compute; reflexivity|].
      destruct Hcase as [[E1 _]|(r & pg & _ & E1 & E2 & Hpg & E3 & El)]; [discriminate E1|].
      change (Some 2 = Some r) in E1. injection E1 as <-. exists s', R', T', pg. split; [exact E|]. split; [exact HU'|]. split; [exact E2|].
      split; [intros ->; discriminate Hpg|]. split; [exact E3|exact El]. }
  assert (HU : uspace (wit_space 1) (wit_refs 1) wit_tree wit_root) by (apply wit_uspace; change (2 ^ 32) with 4294967296; lia).
  destruct (alloc_cow_correct (wit_space 1) (wit_refs 1) wit_tree wit_root 0 HU ltac:(by exists 0) ltac:(split; [lia|reflexivity])
    eq_refl eq_refl eq_refl) as [(x & msg & _ & _ & _ & E)|(s' & R' & T' & E & _ & _ & _ & Hcase)]; [exfalso; revert E; apply not_panic; vm_compute; reflexivity|].
  exists s', T'. split; [exact E|]. destruct Hcase as [[_ El]|(r & pg & Hr & E1 & _)].
  - rewrite El. split; reflexivity.
  - change (Some 1 = Some r) in E1. injection E1 as <-. lia.
Defined.

Lemma copyout_correct_witness :
  uspace (wit_space 2) (wit_refs 2) wit_tree wit_root /\ protected (wit_space 2) (wit_refs 2) wit_tree 0x13000 /\
  exists s' T', copyout wit_root 4 [10; 20] (wit_space 2) = Done 0 s' /\ uread s' T' 5 = Some 20 /\ pmem s' 0x13005 = 7.
Proof.
  assert (HU : uspace (wit_space 2) (wit_refs 2) wit_tree wit_root) by (apply wit_uspace; change (2 ^ 32) with 4294967296; lia).
  assert (Hpr : protected (wit_space 2) (wit_refs 2) wit_tree 0x13000).
  { split; [exists 2; reflexivity|]. split; [intros [[l p] Hn]; apply wit_tree_inv in Hn; lia|]. intros v Hv. cbn [pmem wit_space].
    rewrite wit_lf by done. destruct (v <? PGSIZE); [|discriminate]. intros _ _. split; [reflexivity|]. intros _. exists 2. by split. }
  split; [exact HU|]. split; [exact Hpr|].
  destruct (copyout_correct (wit_space 2) (wit_refs 2) wit_tree wit_root 4 [10; 20] HU ltac:(split; [lia|reflexivity]))
    as [[msg E]|(r & s' & R' & T' & E & _ & _ & Hiff & _ & Hin & Hp)].
  - exfalso. revert E. apply not_panic. vm_compute. reflexivity.
  - assert (r = 0) as ->.
    { apply Hiff. intros v Hv. cbn in Hv. unfold uw. cbn [pmem wit_space]. assert (Hvm : v < MAXVA) by (change MAXVA with 274877906944; lia).
      rewrite (proj2 (Z.ltb_lt v MAXVA)), wit_lf by lia. unfold PGSIZE. by rewrite (proj2 (Z.ltb_lt v 4096)) by lia. }
    exists s', T'. split; [exact E|]. split; [by rewrite (Hin eq_refl 5) by (cbn; lia)|].
    destruct (Hp 0x13000 Hpr) as [_ Hd]. rewrite Hd by (unfold in_page, PGSIZE; lia). reflexivity.
Defined.

Definition wit_out : vst table := match copyout wit_root 4 [10; 20] (wit_space 2) with Done _ s => s | _ => wit_space 2 end.

Lemma copyin_copyout_witness :
  copyout wit_root 4 [10; 20] (wit_space 2) = Done 0 wit_out /\ copyin wit_root 4 2 wit_out = Done (0, [10; 20]) wit_out.
Proof.
  assert (HU : uspace (wit_space 2) (wit_refs 2) wit_tree wit_root) by (apply wit_uspace; change (2 ^ 32) with 4294967296; lia).
  assert (E : copyout wit_root 4 [10; 20] (wit_space 2) = Done 0 wit_out).
  { unfold wit_out.
    assert (H : match copyout wit_root 4 [10; 20] (wit_space 2) with Done r _ => r = 0 | _ => False end) by (vm_compute; reflexivity).
    revert H. destruct (copyout wit_root 4 [10; 20] (wit_space 2)); [intros ->; reflexivity|done..]. }
  split; [exact E|]. exact (copyin_copyout (wit_space 2) (wit_refs 2) wit_tree wit_root 4 [10; 20] wit_out HU ltac:(split; [lia|reflexivity]) E).
Defined.

Lemma copyin_correct_witness :
  uspace (wit_space 2) (wit_refs 2) wit_tree wit_root /\
  exists bs, copyin wit_root 0xff8 16 (wit_space 2) = Done (-1, bs) (wit_space 2) /\ length bs = 8%nat.
Proof.
  assert (HU : uspace (wit_space 2) (wit_refs 2) wit_tree wit_root) by (apply wit_uspace; change (2 ^ 32) with 4294967296; lia).
  split; [exact HU|].
  destruct (copyin_correct (wit_space 2) (wit_refs 2) wit_tree wit_root 0xff8 16 HU ltac:(split; [lia|reflexivity]) ltac:(lia)) as (r & bs & E & Hrest).
  assert (H : match copyin wit_root 0xff8 16 (wit_space 2) with Done (r, bs) _ => r = -1 /\ length bs = 8%nat | _ => False end) by (vm_compute; split; reflexivity).
  rewrite E in H. destruct H as [-> Hl]. exists bs. split; [exact E|exact Hl].
Defined.
