(* ===== verification/VmMap.v ===== *)
(** * New pages in an address space

    Mapping fresh zeroed pages at user addresses that have none, and taking
    pages away: what the user reads before and after. *)
From S2P Require Import Prelude Bytes Vm VmBits VmInv VmUser.

Section Map.
Context {P : Type} `{kpages_laws P}.
Local Notation vst := (vst P).
Implicit Types s : vst.

(** A new entry at a page that had none. *)
Lemma uspace_new s R T root va s' R' T' e' : uspace s R T root -> umapped (lf T (pmem s) va) = false ->
  vinv s' R' T' root -> (forall v, 0 <= v < MAXVA -> lf T' (pmem s') v = if decide (v / PGSIZE = va / PGSIZE) then e' else lf T (pmem s) v) ->
  uleaf R' T' e' -> R !! PTE2PA e' = None -> (forall b r, R !! b = Some r -> is_Some (R' !! b)) ->
  (forall b, is_node T' b -> is_node T b \/ R !! b = None) -> uspace s' R' T' root.
Proof.
  intros HU Hun HI' Hlf Hleaf Hpage HR HT.
  assert (Hnew : forall v, 0 <= v < MAXVA -> umapped (lf T (pmem s) v) = true -> PTE2PA (lf T (pmem s) v) <> PTE2PA e').
  { intros v Hv Hm E. destruct (uspace_page s R T root v HU Hv Hm) as (_ & _ & _ & [r Hr] & _). rewrite E in Hr. congruence. }
  split; [exact HI'| |].
  - intros v Hv. rewrite Hlf by done. destruct (decide _) as [E|E]; [done|]. intros Hm.
    destruct (us_leaf _ _ _ _ HU v Hv Hm) as (pa & f & Ee & Hf & [r Hr] & Hn). exists pa, f. split; [done|]. split; [done|]. split; [by eapply HR|].
    intros Hn'. destruct (HT _ Hn'); [done|congruence].
  - intros v v' Hv Hv'. rewrite !Hlf by done. destruct (decide (v / PGSIZE = va / PGSIZE)) as [E|E], (decide (v' / PGSIZE = va / PGSIZE)) as [E'|E'].
    + congruence.
    + intros _ Hm E1. symmetry in E1. by apply Hnew in E1.
    + intros Hm _ E1. by apply Hnew in E1.
    + by apply (us_inj _ _ _ _ HU).
Qed.

(** A zeroed page of the allocator at [va]. *)
Lemma map_zero_page s R T root va perm : uspace s R T root -> is_flags perm -> Z.testbit perm 4 = true -> (PGSIZE | va) -> 0 <= va < MAXVA ->
  flag (lf T (pmem s) va) PTE_V = false ->
  (exists msg, vpages kalloc s = Panic msg) \/
  exists pg s1, vpages kalloc s = Done pg s1 /\ pg <> 0 /\
    let s2 := Vst (vpg s1) (mset pg 0 PGSIZE (pmem s1)) in
    (exists msg, mappages root va PGSIZE pg perm s2 = Panic msg) \/
    exists s' R' T', mappages root va PGSIZE pg perm s2 = Done 0 s' /\ uspace s' R' T' root /\
      (forall v, 0 <= v < MAXVA -> v / PGSIZE <> va / PGSIZE -> lf T' (pmem s') v = lf T (pmem s) v) /\
      (forall v, 0 <= v -> uread s' T' v = if decide (v / PGSIZE = va / PGSIZE) then Some 0 else uread s T v) /\
      (Z.testbit perm 2 = true -> forall v, 0 <= v -> v / PGSIZE = va / PGSIZE -> uw s' T' v = true).
Proof.
  intros HU Hperm Hb4 Hal Hva Hfree. pose proof (us_inv _ _ _ _ HU) as HI.
  destruct (kalloc_ok _ _ (vi_refs _ _ _ _ HI)) as [[msg E]|(pg & vp & E & Hpg & Hrefs)].
  { left. exists msg. unfold vpages, zoom. by rewrite E. }
  destruct (kp_page _ _ pg 1 Hrefs) as (Hpd & Hp0 & Hpm & _); [apply lookup_insert_eq|]. assert (Hppa : page_pa pg) by (by apply page_page_pa).
  right. exists pg, (Vst vp (pmem s)). split; [unfold vpages, zoom; by rewrite E|]. split; [lia|]. cbv zeta. cbn [vpg pmem].
  set (s2 := Vst vp (mset pg 0 PGSIZE (pmem s))).
  assert (Hpgn : ~ is_node T pg) by (intros [k Hk]; rewrite (vi_nodes _ _ _ _ HI _ _ Hk) in Hpg; discriminate).
  destruct (vinv_data s R T root (pmem s2) HI) as [HI0 Hlf2].
  { intros i (k & a & Hk & Hi). apply mset_out. destruct (pt_page _ _ _ (vi_tree _ _ _ _ HI) _ _ Hk) as [Hda _].
    unfold in_page in Hi. destruct (pages_apart a pg Hda Hpd); [intros ->; apply Hpgn; by exists k|unfold PGSIZE in *; lia|unfold PGSIZE in *; lia]. }
  assert (HI2 : vinv s2 (<[pg := 1]> R) T root).
  { destruct HI0 as [_ Ht Hnd]. split; [done|done|]. intros k a Hk. rewrite lookup_insert_ne; [by eapply Hnd|]. intros ->. apply Hpgn. by exists k. }
  destruct (map_page s2 (<[pg := 1]> R) T root va pg perm HI2 Hperm Hal Hva Hppa) as [[msg E3]|(s3 & R3 & T3 & E3 & HI3 & Hg3 & Hlf3)].
  { unfold s2. cbn [pmem]. by rewrite Hlf2. } { left. by exists msg. }
  right. exists s3, R3, T3. split; [done|].
  assert (Hlf : forall v, 0 <= v < MAXVA -> lf T3 (pmem s3) v = if decide (v / PGSIZE = va / PGSIZE) then Z.lor (PA2PTE pg) (leaf_flags perm) else lf T (pmem s) v).
  { intros v Hv. rewrite Hlf3 by done. destruct (decide _); [done|]. apply Hlf2. }
  assert (Hfl : is_flags (leaf_flags perm)) by (by apply leaf_flags_ok).
  assert (Epa : PTE2PA (Z.lor (PA2PTE pg) (leaf_flags perm)) = pg) by (by apply pte_pa).
  assert (HR3 : forall b x, <[pg := 1]> R !! b = Some x -> R3 !! b = Some x) by (intros; eapply lookup_weaken; [eassumption|apply (gr_refs _ _ _ _ _ _ Hg3)]).
  assert (Hnode3 : forall b, is_node T3 b -> is_node T b \/ <[pg := 1]> R !! b = None).
  { intros b [k Hk]. destruct (T !! k) as [c|] eqn:Ec; [|right; by eapply (gr_nodes _ _ _ _ _ _ Hg3)].
    pose proof (lookup_weaken _ _ _ _ Ec (gr_tree _ _ _ _ _ _ Hg3)). assert (c = b) as -> by congruence. left. by exists k. }
  assert (Hold : forall b r, R !! b = Some r -> <[pg := 1]> R !! b = Some r) by (intros b r Hr; rewrite lookup_insert_ne; [done|congruence]).
  assert (Hn3 : ~ is_node T3 pg) by (intros Hn; destruct (Hnode3 _ Hn) as [?|Hx]; [done|by rewrite lookup_insert_eq in Hx]).
  assert (Hun : umapped (lf T (pmem s) va) = false) by (unfold umapped; by rewrite Hfree).
  split; [|split; [|split]].
  - eapply (uspace_new s R T root va s3 R3 T3); [done|done|done|exact Hlf| |by rewrite Epa| |].
    + exists pg, (leaf_flags perm). split; [done|]. split; [done|]. split; [|done]. exists 1. apply HR3, lookup_insert_eq.
    + intros b r Hr. exists r. by apply HR3, Hold.
    + intros b Hb. destruct (Hnode3 b Hb) as [?|Hx]; [by left|right]. destruct (R !! b) as [r|] eqn:Eb; [|done]. by rewrite (Hold _ _ Eb) in Hx.
  - intros v Hv Hne. rewrite Hlf by done. by rewrite decide_False.
  - intros v Hv. assert (Hdata : forall b i, is_Some (<[pg := 1]> R !! b) -> ~ is_node T b -> (PGSIZE | b) -> in_page b i -> pmem s3 i = pmem s2 i).
    { intros b i [r Hr] Hn Hd Hi. apply (gr_mem _ _ _ _ _ _ Hg3). eapply off_nodes; [exact HI3|exact Hd| |exact Hi]. intros Hn'. destruct (Hnode3 _ Hn'); congruence. }
    destruct (page_split v) as [Ev Hr]. unfold uread. destruct (decide (v / PGSIZE = va / PGSIZE)) as [Ed|Ed].
    + assert (Hvm : v < MAXVA). { apply page_lt_max. rewrite Ed. apply (page_lt_max va). lia. }
      rewrite (proj2 (Z.ltb_lt _ _)) by done. cbn [andb]. rewrite Hlf, decide_True, Epa by (done || lia).
      assert (Hu : umapped (Z.lor (PA2PTE pg) (leaf_flags perm)) = true).
      { unfold umapped, PTE_V, PTE_U. rewrite !flag_pte by (done || lia). unfold leaf_flags. rewrite !Z.lor_spec, Hb4. change (Z.testbit PTE_V 0) with true. by rewrite !orb_true_r. }
      rewrite Hu. rewrite (Hdata pg) by first [done|rewrite lookup_insert_eq; eauto|unfold in_page; lia]. unfold s2. cbn [pmem]. rewrite mset_in by lia. done.
    + destruct (v <? MAXVA) eqn:Em; [|done]. bool_hyps. cbn [andb]. rewrite Hlf, decide_False by (done || lia).
      destruct (umapped (lf T (pmem s) v)) eqn:Hm; [|done]. f_equal.
      destruct (uspace_page s R T root v HU ltac:(lia) Hm) as (Hd & _ & _ & [r Hrr] & Hn & _).
      rewrite (Hdata (PTE2PA (lf T (pmem s) v))) by first [done|rewrite (Hold _ _ Hrr); eauto|unfold in_page; lia]. unfold s2. cbn [pmem].
      apply mset_out. assert (Hne : PTE2PA (lf T (pmem s) v) <> pg) by congruence. destruct (pages_apart _ pg Hd Hpd Hne); lia.
  - intros Hw v Hv Ed. assert (Hvm : v < MAXVA). { apply page_lt_max. rewrite Ed. apply (page_lt_max va). lia. }
    unfold uw, uwritable, umapped. rewrite (proj2 (Z.ltb_lt _ _)), Hlf, decide_True by (done || lia). unfold PTE_V, PTE_U, PTE_W.
    rewrite !flag_pte by (done || lia). unfold leaf_flags. rewrite !Z.lor_spec, Hb4, Hw. change (Z.testbit PTE_V 0) with true.
    by rewrite !orb_true_r.
Qed.

(** Every valid entry of the range is a user page. *)
Definition user_range s (T : tree) (a len : Z) : Prop := forall v, a <= v < a + len -> flag (lf T (pmem s) v) PTE_V = true -> flag (lf T (pmem s) v) PTE_U = true.

(** One page given up. *)
Lemma uspace_less s R T root a s' : uspace s R T root -> 0 <= a < MAXVA -> (flag (lf T (pmem s) a) PTE_V = true -> flag (lf T (pmem s) a) PTE_U = true) ->
  let R' := dec_refs R (option_list (valid_pa (lf T (pmem s) a))) in
  vinv s' R' T root -> (forall i, (forall k b, T !! k = Some b -> ~ in_page b i) -> pmem s' i = pmem s i) ->
  (forall v, 0 <= v < MAXVA -> lf T (pmem s') v = if decide (v / PGSIZE = a / PGSIZE) then (if flag (lf T (pmem s) v) PTE_V then 0 else lf T (pmem s) v) else lf T (pmem s) v) ->
  uspace s' R' T root /\ forall v, 0 <= v -> uread s' T v = if decide (v / PGSIZE = a / PGSIZE) then None else uread s T v.
Proof.
  intros HU Ha HaU R' HI' Hm Hlf.
  assert (Hun : forall v, 0 <= v < MAXVA -> umapped (lf T (pmem s') v) = if decide (v / PGSIZE = a / PGSIZE) then false else umapped (lf T (pmem s) v)).
  { intros v Hv. rewrite Hlf by done. destruct (decide _); [|done]. unfold umapped. destruct (flag (lf T (pmem s) v) PTE_V) eqn:E; [done|by rewrite E]. }
  assert (HR : forall v pa r, 0 <= v < MAXVA -> v / PGSIZE <> a / PGSIZE -> umapped (lf T (pmem s) v) = true -> PTE2PA (lf T (pmem s) v) = pa -> R !! pa = Some r -> R' !! pa = Some r).
  { intros v pa r Hv Hne Hmv Ep Hr. unfold R', valid_pa. destruct (flag (lf T (pmem s) a) PTE_V) eqn:Ev; [|done]. cbn. unfold dec1.
    assert (Hap : PTE2PA (lf T (pmem s) a) <> pa).
    { intros E. apply Hne. apply (us_inj _ _ _ _ HU); [done|done|done| |congruence]. unfold umapped. by rewrite Ev, HaU. }
    destruct (R !! PTE2PA _) as [x|]; [|done]. destruct (x =? 1); [by rewrite lookup_delete_ne|by rewrite lookup_insert_ne]. }
  split; [split; [done| |]|].
  - intros v Hv. rewrite Hun by done. destruct (decide _) as [E|E]; [done|]. intros Hmv. rewrite Hlf, decide_False by done.
    destruct (us_leaf _ _ _ _ HU v Hv Hmv) as (pa & f & Ee & Hf & [r Hr] & Hn). exists pa, f. split; [done|]. split; [done|]. split; [|done]. exists r. eapply HR; [exact Hv|done|done| |done].
    rewrite Ee. apply pte_pa; [|done]. destruct (kp_page _ _ _ _ (vi_refs _ _ _ _ (us_inv _ _ _ _ HU)) Hr) as (? & ? & ? & _). by apply page_page_pa.
  - intros v v' Hv Hv'. rewrite !Hun by done. destruct (decide (v / PGSIZE = a / PGSIZE)) as [E|E], (decide (v' / PGSIZE = a / PGSIZE)) as [E'|E']; try done.
    rewrite !Hlf, !decide_False by done. by apply (us_inj _ _ _ _ HU).
  - intros v Hv. unfold uread. destruct (v <? MAXVA) eqn:Em; bool_hyps; cbn [andb]; [|by destruct (decide _)]. rewrite Hun by lia. destruct (decide _) as [E|E]; [done|].
    destruct (umapped _) eqn:Hmv; [|done]. rewrite Hlf, decide_False by (done || lia). f_equal. apply Hm. destruct (uspace_page s R T root v HU ltac:(lia) Hmv) as (Hd & _ & _ & _ & Hn & _).
    destruct (page_split v) as [_ Hr]. eapply off_nodes; [apply (us_inv _ _ _ _ HU)|exact Hd|exact Hn|unfold in_page; lia].
Qed.

Lemma page_div a v : (PGSIZE | a) -> v / PGSIZE = a / PGSIZE <-> a <= v < a + PGSIZE.
Proof. intros [q ->]. destruct (page_split v). rewrite Z.div_mul by (unfold PGSIZE; lia). unfold PGSIZE in *. nia. Qed.

Lemma unmap_user_loop root T : forall n s R a, uspace s R T root -> (PGSIZE | a) -> 0 <= a -> a + Z.of_nat n * PGSIZE <= MAXVA ->
  user_range s T a (Z.of_nat n * PGSIZE) ->
  exists s' R', uvmunmap_loop n root a true s = Done tt s' /\ uspace s' R' T root /\
    forall v, 0 <= v -> uread s' T v = if decide (a <= v < a + Z.of_nat n * PGSIZE) then None else uread s T v.
Proof.
  induction n as [|n IH]; intros s R a HU Hal Ha Hend Hur.
  - exists s, R. split; [done|]. split; [done|]. intros v Hv. rewrite decide_False; [done|lia].
  - assert (Hva0 : 0 <= a < MAXVA) by (unfold PGSIZE in *; lia).
    assert (HaU : flag (lf T (pmem s) a) PTE_V = true -> flag (lf T (pmem s) a) PTE_U = true) by (apply Hur; unfold PGSIZE; lia).
    rewrite uvmunmap_loop_S. destruct (unmap_one s R T root a true (us_inv _ _ _ _ HU) Hva0) as (s1 & E1 & HI1 & Hm1 & Hlf1).
    { intros Hv E. specialize (HaU Hv). unfold PTE_U in HaU. rewrite flag_bit in HaU by lia.
      apply (f_equal (fun z => Z.testbit z 4)) in E. unfold PTE_FLAGS in E. rewrite !Z.land_spec, HaU in E. discriminate. }
    { intros _. unfold valid_pa. destruct (flag (lf T (pmem s) a) PTE_V) eqn:Ev; [|done]. cbn.
      assert (Hma : umapped (lf T (pmem s) a) = true) by (unfold umapped; by rewrite Ev, HaU). by destruct (uspace_page s R T root a HU Hva0 Hma) as (_ & _ & _ & ? & ? & _). }
    unfold mbind at 1, M_bind at 1 in E1. unfold mbind at 1, M_bind at 1. destruct (walk root a false s) as [pte s0| | | |]; try discriminate.
    rewrite (bind_Done _ _ _ _ _ E1). assert (H38 : MAXVA + 4096 < 2 ^ 64) by (vm_compute; reflexivity). rewrite wrap_small by (unfold PGSIZE in *; lia).
    destruct (uspace_less s R T root a s1 HU Hva0 HaU HI1 Hm1 Hlf1) as [HU1 Hr1].
    destruct (IH s1 _ (a + PGSIZE) HU1) as (s2 & R2 & E2 & HU2 & Hr2).
    + by apply Z.divide_add_r.
    + unfold PGSIZE. lia.
    + unfold PGSIZE in *. lia.
    + intros v Hv. rewrite Hlf1, decide_False; [apply Hur; unfold PGSIZE in *; lia|rewrite page_div by done; lia|unfold PGSIZE in *; lia].
    + exists s2, R2. split; [exact E2|]. split; [exact HU2|]. intros v Hv. rewrite Hr2, Hr1 by done.
      destruct (decide (v / PGSIZE = a / PGSIZE)) as [E|E]; rewrite page_div in E by done; repeat case_decide; try done; unfold PGSIZE in *; lia.
Qed.

Lemma unmap_user s R T root a n : uspace s R T root -> (PGSIZE | a) -> 0 <= a -> a + Z.of_nat n * PGSIZE <= MAXVA ->
  user_range s T a (Z.of_nat n * PGSIZE) ->
  exists s' R', uvmunmap root a (Z.of_nat n) true s = Done tt s' /\ uspace s' R' T root /\
    forall v, 0 <= v -> uread s' T v = if decide (a <= v < a + Z.of_nat n * PGSIZE) then None else uread s T v.
Proof.
  intros HU Hal Ha Hend Hur. unfold uvmunmap. rewrite (proj2 (Z.eqb_eq (a mod PGSIZE) 0)) by (by apply Z.mod_divide). cbn [negb].
  assert (H38 : MAXVA < 2 ^ 64) by (vm_compute; reflexivity).
  rewrite (wrap_small 64 (Z.of_nat n * PGSIZE)) by (unfold PGSIZE in *; lia). rewrite wrap_small by (unfold PGSIZE in *; lia). rewrite Z.div_mul, Nat2Z.id by (unfold PGSIZE; lia).
  destruct n as [|n].
  - rewrite (proj2 (Z.ltb_ge _ _)) by lia. by apply (unmap_user_loop root T 0 s R a).
  - rewrite (proj2 (Z.ltb_lt _ _)) by (unfold PGSIZE; lia). by apply (unmap_user_loop root T (S n) s R a).
Qed.
End Map.
