(* ===== verification/Kmalloc.v ===== *)
(** * The small object allocator (kernel/kmalloc.c)

    The storage allocator of Kernighan and Ritchie: free blocks are threaded in
    a circular list through their own headers, in order of address, from the
    static header [base].  The headers are words of the kernel's memory;
    [freep] is 0 before the first call.  [rounds] bounds the steps of the two
    searches; KmallocProps.v shows that more rounds than free blocks is enough. *)
From S2P Require Import Prelude Bytes Vm.

(** [sizeof(Header)]: [ptr] at 0, [size] at 8, in units of a header. *)
Definition HEADER : Z := 16.

Section Kmalloc.
Context {P : Type} `{!kpages P}.
(** The address of [base]. *)
Context (base : Z) (rounds : nat).

Record kmst := Kmst { kvm : vst P; freep : Z }.
Definition on_vm {A} (m : M (vst P) A) : M kmst A := zoom kvm (fun v s => Kmst v (freep s)) m.
Definition kmem (s : kmst) : bytes := pmem (kvm s).
Definition hptr (a : Z) : M kmst Z := gets (fun s => rd64 (kmem s) a).
Definition hsize (a : Z) : M kmst Z := gets (fun s => rd64 (kmem s) (a + 8)).
Definition set_kmem (m : bytes) (s : kmst) : kmst := Kmst (Vst (vpg (kvm s)) m) (freep s).
Definition set_hptr (a v : Z) : M kmst unit := modify (fun s => set_kmem (wr64 a v (kmem s)) s).
Definition set_hsize (a v : Z) : M kmst unit := modify (fun s => set_kmem (wr64 (a + 8) v (kmem s)) s).
Definition set_freep (p : Z) : M kmst unit := modify (fun s => Kmst (kvm s) p).

(** The first loop of [kmfree]: the free block to put [bp] behind. *)
Fixpoint kmfree_find (fuel : nat) (bp p : Z) : M kmst Z :=
  match fuel with
  | O => nofuel
  | S fuel =>
      n ← hptr p;
      if (p <? bp) && (bp <? n) then mret p
      else if (n <=? p) && ((p <? bp) || (bp <? n)) then mret p
      else kmfree_find fuel bp n
  end.

Definition kmfree (ap : Z) : M kmst unit :=
  let bp := u64 (ap - HEADER) in
  p ← gets freep;
  p ← kmfree_find rounds bp p;
  n ← hptr p;
  bs ← hsize bp;
  (if u64 (bp + HEADER * bs) =? n then
     ns ← hsize n;
     set_hsize bp (u64 (bs + ns));;
     nn ← hptr n;
     set_hptr bp nn
   else set_hptr bp n);;
  ps ← hsize p;
  (if u64 (p + HEADER * ps) =? bp then
     bs ← hsize bp;
     set_hsize p (u64 (ps + bs));;
     bn ← hptr bp;
     set_hptr p bn
   else set_hptr p bp);;
  set_freep p.

(** [morecore] returns the new [freep], or NULL. *)
Definition morecore : M kmst Z :=
  p ← on_vm (vpages kalloc);
  if p =? 0 then mret 0
  else
    on_vm (memset p 0 PGSIZE);;
    set_hsize p (PGSIZE / HEADER);;
    kmfree (p + HEADER);;
    gets freep.

(** The search of [kmalloc], from block [p] whose predecessor is [prevp]. *)
Fixpoint kmalloc_find (fuel : nat) (nunits prevp p : Z) : M kmst Z :=
  match fuel with
  | O => nofuel
  | S fuel =>
      sz ← hsize p;
      if nunits <=? sz then
        p ← (if sz =? nunits then n ← hptr p; set_hptr prevp n;; mret p
             else
               set_hsize p (u64 (sz - nunits));;
               let q := u64 (p + HEADER * (sz - nunits)) in
               set_hsize q nunits;;
               mret q);
        set_freep prevp;;
        mret (u64 (p + HEADER))
      else
        fp ← gets freep;
        if p =? fp then
          p ← morecore;
          if p =? 0 then mret 0 else n ← hptr p; kmalloc_find fuel nunits p n
        else n ← hptr p; kmalloc_find fuel nunits p n
  end.

Definition kmalloc (nbytes : Z) : M kmst Z :=
  if PGSIZE - HEADER <? nbytes then panic "too big request"
  else
    let nunits := u64 (nbytes + HEADER - 1) / HEADER + 1 in
    prevp ← gets freep;
    prevp ← (if prevp =? 0 then set_hptr base base;; set_freep base;; set_hsize base 0;; mret base else mret prevp);
    p ← hptr prevp;
    kmalloc_find (2 * rounds) nunits prevp p.
End Kmalloc.
Arguments kmst : clear implicits.
