(* ===== verification/KmallocInv.v ===== *)
(** * The free list of kmalloc

    [free_list m fl fp]: [fl] lists the blocks of the circular list that
    starts at [base], in order of address; no two of them touch, so freeing
    has merged all there is to merge; [fp] is one of them.  [kmfree] adds its
    block to the free units and [kmalloc] takes its block out of them. *)
From stdpp Require Import sorting.
From S2P Require Import Prelude Bytes Vm Kmalloc.

(** ** Lists of blocks: address and size in units *)
Abbreviation blocks := (list (Z * Z)).
Definition ptr (m : bytes) (a : Z) : Z := rd64 m a.
Definition siz (m : bytes) (a : Z) : Z := rd64 m (a + 8).
#[global] Arguments ptr : simpl never.
#[global] Arguments siz : simpl never.

(** The headers of [l] link [a] to [z]. *)
Fixpoint lseg (m : bytes) (a : Z) (l : blocks) (z : Z) : Prop :=
  match l with [] => a = z | (b, n) :: l => a = b /\ siz m b = n /\ lseg m (ptr m b) l z end.

(** [y] comes after [x] with a gap between them. *)
Definition sep (x y : Z * Z) : Prop := x.1 + HEADER * x.2 < y.1 /\ x.1 + HEADER <= y.1.
(** Byte [x] is free. *)
Definition cover (l : blocks) (x : Z) : Prop := exists b, b ∈ l /\ b.1 <= x < b.1 + HEADER * b.2.

Lemma lseg_app m l1 l2 : forall a z, lseg m a (l1 ++ l2) z <-> exists y, lseg m a l1 y /\ lseg m y l2 z.
Proof.
  induction l1 as [|[b n] l1 IH]; intros a z; cbn [lseg app].
  - split; [eauto|]. intros (y & -> & H). done.
  - rewrite IH. split; [intros (-> & Hs & y & H1 & H2); eauto|intros (y & (-> & Hs & H1) & H2); eauto].
Qed.

Lemma lseg_frame m m' l : forall a z, (forall b, b ∈ l -> agree b.1 HEADER m m') -> lseg m a l z -> lseg m' a l z.
Proof.
  induction l as [|[b n] l IH]; intros a z Hm; cbn [lseg]; [done|]. intros (-> & Hs & Hl). pose proof (Hm (b, n) ltac:(left)) as Hb. cbn [fst] in Hb.
  assert (Ep : ptr m' b = ptr m b) by (symmetry; apply rdle_agree; eapply agree_sub; [exact Hb|lia|unfold HEADER; lia]).
  assert (Es : siz m' b = siz m b) by (symmetry; apply rdle_agree; eapply agree_sub; [exact Hb|lia|unfold HEADER; lia]).
  split; [done|]. split; [by rewrite Es|]. rewrite Ep. apply IH; [|done]. intros c Hc. apply Hm. by right.
Qed.

Section Inv.
Context {P : Type} `{kpages_laws P}.
Context (base : Z) (rounds : nat).
Local Abbreviation kmst := (kmst P).
Implicit Types s : kmst.

(** A block of the pool: above [base], below 4 GB, aligned, not empty. *)
Definition blk_in (b : Z * Z) : Prop := 1 <= b.2 /\ base + HEADER <= b.1 /\ b.1 + HEADER * b.2 <= 2 ^ 32 /\ (HEADER | b.1).

Record free_list (m : bytes) (fl : blocks) (fp : Z) : Prop := {
  fl_head : exists l, fl = (base, 0) :: l /\ Forall blk_in l;
  fl_sorted : StronglySorted sep fl;
  fl_seg : lseg m base fl base;
  fl_fp : fp ∈ fl.*1;
  fl_base : 0 < base
}.

Definition stop (bp x y : Z) : bool := ((x <? bp) && (bp <? y)) || ((y <=? x) && ((x <? bp) || (bp <? y))).

Lemma find_mem bp s l : forall p z fuel, lseg (kmem s) p l z -> (exists e, e ∈ l /\ stop bp e.1 (ptr (kmem s) e.1) = true) -> (length l <= fuel)%nat ->
  exists q, q ∈ l /\ stop bp q.1 (ptr (kmem s) q.1) = true /\ kmfree_find fuel bp p s = Done q.1 s.
Proof.
  induction l as [|[b n] l IH]; intros p z fuel Hl (e & He & Hs) Hf; [by apply elem_of_nil in He|].
  destruct Hl as (-> & Hn & Hl). destruct fuel as [|fuel]; cbn in Hf; [lia|]. cbn [kmfree_find]. unfold hptr. rewrite bind_gets. fold (ptr (kmem s) b).
  destruct (stop bp b (ptr (kmem s) b)) eqn:E.
  - exists (b, n). split; [left|]. split; [done|]. unfold stop in E. cbn [fst].
    destruct ((b <? bp) && (bp <? ptr (kmem s) b)); [done|]. cbn [orb] in E. by rewrite E.
  - assert (E1 : (b <? bp) && (bp <? ptr (kmem s) b) = false /\ (ptr (kmem s) b <=? b) && ((b <? bp) || (bp <? ptr (kmem s) b)) = false) by (by apply orb_false_iff).
    destruct E1 as [-> ->]. apply elem_of_cons in He as [->|He]; [cbn in Hs; congruence|].
    destruct (IH (ptr (kmem s) b) z fuel Hl ltac:(eauto) ltac:(lia)) as (q & Hq & Hqs & Eq). exists q. split; [by right|done].
Qed.

(** The circle, from any of its blocks. *)
Lemma rotate m fl fp : free_list m fl fp -> exists l, lseg m fp l fp /\ length l = length fl /\ forall e, e ∈ l <-> e ∈ fl.
Proof.
  intros [_ _ Hs Hfp _]. apply list_elem_of_fmap in Hfp as ([a n] & -> & Hin). apply list_elem_of_split in Hin as (l1 & l2 & ->).
  apply lseg_app in Hs as (y & H1 & H2). pose proof H2 as (-> & _). exists (((a, n) :: l2) ++ l1). split; [apply lseg_app; eauto|].
  rewrite !length_app. split; [lia|]. intros e. set_solver.
Qed.

(** Where a block that overlaps no free one belongs. *)
Definition fits (fl : blocks) (b : Z * Z) : Prop := forall e, e ∈ fl -> e.1 + HEADER * e.2 <= b.1 \/ b.1 + HEADER * b.2 <= e.1.

Lemma split_at (bp : Z) fl : (forall e, e ∈ fl -> e.1 <> bp) -> StronglySorted sep fl -> (exists e, e ∈ fl /\ e.1 < bp) ->
  exists A p B, fl = A ++ p :: B /\ p.1 < bp /\ forall e, e ∈ B -> bp < e.1.
Proof.
  intros Hne Hs. induction Hs as [|x l Hs IH Hf]; intros (e & He & Hlt); [by apply elem_of_nil in He|].
  destruct (decide (Exists (fun y => y.1 < bp) l)) as [Hex|Hno].
  - apply Exists_exists in Hex as (y & Hy & Hyl). destruct IH as (A & p & B & -> & Hp & HB); [intros z Hz; apply Hne; by right|eauto|].
    exists (x :: A), p, B. done.
  - exists [], x, l. split; [done|]. assert (HB : forall z, z ∈ l -> bp < z.1).
    { intros z Hz. destruct (Z.lt_trichotomy bp z.1) as [Hl|[E|Hl]]; [done|exfalso; by apply (Hne z); [right|]|]. exfalso. apply Hno, Exists_exists. eauto. }
    split; [|done]. apply elem_of_cons in He as [->|He]; [done|]. specialize (HB _ He). lia.
Qed.

Lemma find_ok s fl b : free_list (kmem s) fl (freep s) -> blk_in b -> fits fl b -> (length fl <= rounds)%nat ->
  exists A p B, fl = A ++ p :: B /\ p.1 + HEADER * p.2 <= b.1 /\ p.1 + HEADER <= b.1 /\ (forall e, e ∈ B -> b.1 + HEADER * b.2 <= e.1) /\
    ptr (kmem s) p.1 = (if B is e :: _ then e.1 else base) /\ kmfree_find rounds b.1 (freep s) s = Done p.1 s.
Proof.
  intros Hfl (Hb1 & Hb2 & Hb3 & Hb4) Hfit Hlen. pose proof Hfl as [(l0 & E0 & Hl0) Hs Hseg Hfp Hbase]. assert (HH : HEADER = 16) by done.
  assert (Hpos : forall e, e ∈ fl -> 0 <= e.2).
  { intros e He. rewrite E0 in He. apply elem_of_cons in He as [->|He]; [done|]. rewrite Forall_forall in Hl0. destruct (Hl0 _ He). lia. }
  assert (Hne : forall e, e ∈ fl -> e.1 <> b.1).
  { intros e He. destruct (Hfit e He) as [Hc|Hc]; [|lia]. pose proof He as He'. rewrite E0 in He'. apply elem_of_cons in He' as [->|He']; [cbn; lia|].
    rewrite Forall_forall in Hl0. destruct (Hl0 _ He'). lia. }
  assert (Hnext : forall A p B, fl = A ++ p :: B -> ptr (kmem s) p.1 = (if B is e :: _ then e.1 else base)).
  { intros A [p n] B E. rewrite E in Hseg. apply lseg_app in Hseg as (y & _ & -> & _ & Hr). cbn. destruct B as [|[e k] B]; [exact Hr|]. by destruct Hr as [-> _]. }
  assert (Hgood : forall A p B, fl = A ++ p :: B -> stop b.1 p.1 (ptr (kmem s) p.1) = true <-> p.1 < b.1 /\ forall e, e ∈ B -> b.1 < e.1).
  { intros A p B E. rewrite (Hnext A p B E). rewrite E in Hs. apply StronglySorted_app in Hs as (_ & _ & Hs). apply StronglySorted_inv in Hs as [Hs Hf]. unfold stop.
    destruct B as [|e B].
    - assert (Hpb : base <= p.1). { assert (Hp : p ∈ fl) by (rewrite E; set_solver). rewrite E0 in Hp. apply elem_of_cons in Hp as [->|Hp]; [done|]. rewrite Forall_forall in Hl0. destruct (Hl0 _ Hp). lia. }
      rewrite (proj2 (Z.ltb_ge b.1 base)), (proj2 (Z.leb_le base p.1)), andb_false_r, orb_false_r by lia. cbn [orb andb]. rewrite Z.ltb_lt.
      split; [intros Hl; split; [done|]; intros e He; by apply elem_of_nil in He|by intros [? _]].
    - assert (Hpe : p.1 < e.1) by (rewrite Forall_forall in Hf; destruct (Hf e ltac:(left)); lia).
      rewrite (proj2 (Z.leb_gt e.1 p.1)) by lia. cbn [andb]. rewrite orb_false_r, andb_true_iff, !Z.ltb_lt. split.
      + intros [? ?]. split; [done|]. intros e' He'. apply elem_of_cons in He' as [->|He']; [done|]. apply StronglySorted_inv in Hs as [_ Hs]. rewrite Forall_forall in Hs.
        destruct (Hs e' He'). lia.
      + intros [? He']. split; [done|]. apply He'. left. }
  destruct (split_at b.1 fl Hne Hs) as (A & p & B & E & Hp & HB). { exists (base, 0). split; [rewrite E0; left|cbn; lia]. }
  destruct (rotate _ _ _ Hfl) as (cyc & Hcyc & Hcl & Hcin).
  destruct (find_mem b.1 s cyc (freep s) (freep s) rounds Hcyc) as (q & Hq & Hqs & Eq).
  { exists p. split; [apply Hcin; rewrite E; set_solver|]. by apply (Hgood A p B E). } { lia. }
  apply Hcin in Hq. apply list_elem_of_split in Hq as (A' & B' & E'). apply (Hgood A' q B' E') in Hqs as [Hq1 Hq2]. exists A', q, B'.
  assert (Hqin : q ∈ fl) by (rewrite E'; set_solver). pose proof (Hpos q Hqin).
  split; [done|]. split; [|split; [|split; [|split; [by apply (Hnext A' q B')|done]]]].
  - destruct (Hfit q Hqin); lia.
  - pose proof Hqin as Hqi. rewrite E0 in Hqi. apply elem_of_cons in Hqi as [->|Hqi]; [cbn; lia|]. rewrite Forall_forall in Hl0. destruct (Hl0 _ Hqi). destruct (Hfit q Hqin); lia.
  - intros e He. specialize (Hq2 e He). assert (Hein : e ∈ fl) by (rewrite E'; set_solver). pose proof (Hpos e Hein). destruct (Hfit e Hein) as [?|?]; [|lia].
    pose proof Hein as Hei. rewrite E0 in Hei. apply elem_of_cons in Hei as [->|Hei]; [cbn in *; lia|]. rewrite Forall_forall in Hl0. destruct (Hl0 _ Hei). lia.
Qed.

(** ** What [kmfree] writes *)

Lemma bind_hptr {A} a (f : Z -> M kmst A) s : (hptr a ≫= f) s = f (ptr (kmem s) a) s.
Proof. done. Qed.
Lemma bind_hsize {A} a (f : Z -> M kmst A) s : (hsize a ≫= f) s = f (siz (kmem s) a) s.
Proof. done. Qed.

(** [bp] takes over its upper neighbour [n], or links to it. *)
Definition merge_up (m : bytes) (bp n : Z) : bytes :=
  if u64 (bp + HEADER * siz m bp) =? n then
    let m0 := wr64 (bp + 8) (u64 (siz m bp + siz m n)) m in wr64 bp (ptr m0 n) m0
  else wr64 bp n m.
(** [p] takes over [bp], or links to it. *)
Definition merge_low (m : bytes) (p bp : Z) : bytes :=
  if u64 (p + HEADER * siz m p) =? bp then
    let m0 := wr64 (p + 8) (u64 (siz m p + siz m bp)) m in wr64 p (ptr m0 bp) m0
  else wr64 p bp m.

Lemma kmfree_low s p bp :
  (ps ← hsize p; (if u64 (p + HEADER * ps) =? bp then bs ← hsize bp; set_hsize p (u64 (ps + bs));; bn ← hptr bp; set_hptr p bn else set_hptr p bp);; set_freep p) s =
  Done tt (Kmst (Vst (vpg (kvm s)) (merge_low (kmem s) p bp)) p).
Proof. rewrite bind_hsize. unfold merge_low. destruct (u64 (p + HEADER * siz (kmem s) p) =? bp); reflexivity. Qed.

Lemma kmfree_run s bp p : 0 <= bp < 2 ^ 63 -> kmfree_find rounds bp (freep s) s = Done p s ->
  kmfree rounds (bp + HEADER) s = Done tt (Kmst (Vst (vpg (kvm s)) (merge_low (merge_up (kmem s) bp (ptr (kmem s) p)) p bp)) p).
Proof.
  intros Hbp E. unfold kmfree. rewrite Z.add_simpl_r. rewrite wrap_small by (change (2 ^ 63) with 9223372036854775808 in Hbp; change (2 ^ 64) with 18446744073709551616; lia).
  rewrite bind_gets, (bind_Done _ _ _ _ _ E), bind_hptr, bind_hsize.
  set (m1 := merge_up (kmem s) bp (ptr (kmem s) p)). change (vpg (kvm s)) with (vpg (kvm (set_kmem m1 s))). change m1 with (kmem (set_kmem m1 s)) at 2.
  rewrite <- kmfree_low. unfold m1, merge_up. by destruct (u64 (bp + HEADER * siz (kmem s) bp) =? ptr (kmem s) p).
Qed.

Lemma word_other k m a v b : b + 8 <= a \/ a + Z.of_nat k <= b -> rd64 (wrle k a v m) b = rd64 m b.
Proof. intros Hd. apply rdle_wrle_other. lia. Qed.

(** A header written as a whole. *)
Lemma header_written m a v n : 0 <= v < 2 ^ 64 -> 0 <= n < 2 ^ 64 -> let m' := wr64 a v (wr64 (a + 8) n m) in
  ptr m' a = v /\ siz m' a = n /\ forall x, ~ (a <= x < a + HEADER) -> m' x = m x.
Proof.
  intros Hv Hn m'. change (2 ^ 64) with (256 ^ Z.of_nat 8) in Hv, Hn. unfold m', HEADER. split; [by apply rdle_wrle_same|]. split.
  - unfold siz. rewrite word_other by lia. by apply rdle_wrle_same.
  - intros x Hx. rewrite !wrle_out by lia. done.
Qed.

Lemma link_written m a v : 0 <= v < 2 ^ 64 -> let m' := wr64 a v m in
  ptr m' a = v /\ siz m' a = siz m a /\ forall x, ~ (a <= x < a + HEADER) -> m' x = m x.
Proof.
  intros Hv m'. change (2 ^ 64) with (256 ^ Z.of_nat 8) in Hv. unfold m', HEADER. split; [by apply rdle_wrle_same|]. split.
  - unfold siz. rewrite word_other by lia. done.
  - intros x Hx. rewrite wrle_out by lia. done.
Qed.

Lemma lseg_next m a B : 0 < base < 2 ^ 32 -> Forall blk_in B -> lseg m a B base -> a = (if B is e :: _ then e.1 else base) /\ 0 < a < 2 ^ 32.
Proof.
  intros Hb HB. destruct B as [|[b n] B]; cbn [lseg]; [by intros ->|]. intros (-> & _). apply Forall_inv in HB as (H1 & H2 & H3 & _). unfold HEADER in *. cbn in *. split; [done|lia].
Qed.

Lemma merge_up_ok m b n B : 0 < base < 2 ^ 32 -> blk_in b -> siz m b.1 = b.2 -> lseg m n B base -> Forall blk_in B -> (forall e, e ∈ B -> b.1 + HEADER * b.2 <= e.1) -> StronglySorted sep B ->
  exists n1 B1, let m' := merge_up m b.1 n in lseg m' b.1 ((b.1, n1) :: B1) base /\ (forall x, ~ (b.1 <= x < b.1 + HEADER) -> m' x = m x) /\
    ((B1 = B /\ n1 = b.2 /\ forall e, e ∈ B -> b.1 + HEADER * b.2 < e.1) \/ exists nb, B = (b.1 + HEADER * b.2, nb) :: B1 /\ n1 = b.2 + nb).
Proof.
  intros Hb (B1 & B2 & B3 & B4) Hsz Hseg HB Hgap Hss. assert (HH : HEADER = 16) by done. change (2 ^ 32) with 4294967296 in *.
  destruct (lseg_next m n B ltac:(done) HB Hseg) as [En Hn]. unfold merge_up. rewrite Hsz, wrap_small by (change (2 ^ 64) with 18446744073709551616; lia).
  destruct (b.1 + HEADER * b.2 =? n) eqn:E; bool_hyps.
  - destruct B as [|[c nb] B]; [lia|]. cbn [fst] in En. subst c. destruct Hseg as (_ & Hnb & Hl). apply Forall_inv in HB as Hc. destruct Hc as (C1 & C2 & C3 & C4). cbn [fst snd] in *. change (2 ^ 32) with 4294967296 in *.
    assert (Hl2 : ptr m n = (if B is e :: _ then e.1 else base) /\ 0 < ptr m n < 2 ^ 32) by (apply (lseg_next m); [done|by eapply Forall_inv_tail|done]). destruct Hl2 as [_ Hp]. change (2 ^ 32) with 4294967296 in Hp.
    rewrite Hnb, (wrap_small 64) by (change (2 ^ 64) with 18446744073709551616; lia).
    assert (Ep : ptr (wr64 (b.1 + 8) (b.2 + nb) m) n = ptr m n) by (apply word_other; lia). rewrite Ep.
    destruct (header_written m b.1 (ptr m n) (b.2 + nb)) as (K1 & K2 & K3); [change (2 ^ 64) with 18446744073709551616; lia..|]. exists (b.2 + nb), B. cbv zeta. split; [|split; [done|]].
    + cbn [lseg]. split; [done|]. split; [done|]. rewrite K1. apply (lseg_frame m); [|done]. intros e He x Hx. symmetry. apply K3.
      apply StronglySorted_cons in Hss as [Hss _]. rewrite Forall_forall in Hss. destruct (Hss e He) as [_ Hs2]. cbn [fst] in Hs2. lia.
    + right. exists nb. split; [by rewrite E|done].
  - destruct (link_written m b.1 n) as (K1 & K2 & K3); [change (2 ^ 64) with 18446744073709551616; lia|]. exists b.2, B. cbv zeta. split; [|split; [done|left; split; [done|split; [done|]]]].
    + cbn [lseg]. split; [done|]. split; [by rewrite K2|]. rewrite K1. apply (lseg_frame m); [|done]. intros e He x Hx. symmetry. apply K3. specialize (Hgap e He). lia.
    + intros e He. destruct B as [|e0 B]; [by apply elem_of_nil in He|]. subst n. specialize (Hgap e0 ltac:(left)) as Hg0. apply elem_of_cons in He as [->|He]; [lia|].
      apply StronglySorted_cons in Hss as [Hss _]. rewrite Forall_forall in Hss. destruct (Hss e He). apply Forall_inv in HB as (C1 & _). lia.
Qed.

Lemma merge_low_ok m A p bp n1 B1 : 0 < base < 2 ^ 32 -> lseg m base A p.1 -> siz m p.1 = p.2 -> lseg m bp ((bp, n1) :: B1) base ->
  0 < p.1 -> 0 <= p.2 -> p.1 + HEADER * p.2 <= bp -> p.1 + HEADER <= bp -> 1 <= n1 -> bp + HEADER * n1 <= 2 ^ 32 -> Forall blk_in B1 ->
  (forall e, e ∈ A -> e.1 + HEADER <= p.1) -> (forall e, e ∈ B1 -> bp + HEADER <= e.1) ->
  let m' := merge_low m p.1 bp in
  lseg m' base (A ++ (if decide (p.1 + HEADER * p.2 = bp) then (p.1, p.2 + n1) :: B1 else p :: (bp, n1) :: B1)) base /\
  forall x, ~ (p.1 <= x < p.1 + HEADER) -> m' x = m x.
Proof.
  intros Hb HA Hsz (_ & Hn1 & Hl) Hp0 Hp2 Hp3 Hp4 H1 H2 HB HA2 HB2. assert (HH : HEADER = 16) by done. destruct p as [a k]. cbn [fst snd] in *. change (2 ^ 32) with 4294967296 in *.
  destruct (lseg_next m (ptr m bp) B1 ltac:(done) HB Hl) as [_ Hn]. change (2 ^ 32) with 4294967296 in *. unfold merge_low.
  rewrite Hsz, wrap_small by (change (2 ^ 64) with 18446744073709551616; lia). destruct (a + HEADER * k =? bp) eqn:E; bool_hyps.
  - rewrite decide_True by done. rewrite Hn1, (wrap_small 64) by (change (2 ^ 64) with 18446744073709551616; lia).
    assert (Ep : ptr (wr64 (a + 8) (k + n1) m) bp = ptr m bp) by (apply word_other; lia). rewrite Ep.
    destruct (header_written m a (ptr m bp) (k + n1)) as (K1 & K2 & K3); [change (2 ^ 64) with 18446744073709551616; lia..|]. cbv zeta. split; [|done].
    apply lseg_app. exists a. split; [apply (lseg_frame m); [|done]; intros e He x Hx; symmetry; apply K3; specialize (HA2 e He); lia|].
    cbn [lseg]. split; [done|]. split; [done|]. rewrite K1. apply (lseg_frame m); [|done]. intros e He x Hx. symmetry. apply K3. specialize (HB2 e He). lia.
  - rewrite decide_False by done. destruct (link_written m a bp) as (K1 & K2 & K3); [change (2 ^ 64) with 18446744073709551616; lia|]. cbv zeta. split; [|done].
    apply lseg_app. exists a. split; [apply (lseg_frame m); [|done]; intros e He x Hx; symmetry; apply K3; specialize (HA2 e He); lia|].
    assert (Es : forall x, bp <= x -> wr64 a bp m x = m x) by (intros x Hx; apply K3; lia).
    cbn [lseg]. split; [done|]. split; [by rewrite K2|]. rewrite K1. split; [done|].
    assert (Ez : siz (wr64 a bp m) bp = siz m bp) by (apply rdle_agree; intros x Hx; apply Es; lia). assert (Ep : ptr (wr64 a bp m) bp = ptr m bp) by (apply rdle_agree; intros x Hx; apply Es; lia).
    rewrite Ez, Ep. split; [done|]. apply (lseg_frame m); [|done]. intros e He x Hx. symmetry. apply Es. specialize (HB2 e He). lia.
Qed.

Lemma cover_cons b l x : cover (b :: l) x <-> b.1 <= x < b.1 + HEADER * b.2 \/ cover l x.
Proof.
  unfold cover. split.
  - intros (e & He & Hx). apply elem_of_cons in He as [->|He]; [by left|right; eauto].
  - intros [Hx|(e & He & Hx)]; [exists b; split; [left|done]|exists e; split; [by right|done]].
Qed.
Lemma cover_app l1 l2 x : cover (l1 ++ l2) x <-> cover l1 x \/ cover l2 x.
Proof. unfold cover. setoid_rewrite elem_of_app. naive_solver. Qed.

(** Freeing a block that overlaps no free one adds it to the free units. *)
Lemma kmfree_ok s fl b : free_list (kmem s) fl (freep s) -> base < 2 ^ 32 -> blk_in b -> fits fl b -> siz (kmem s) b.1 = b.2 -> (length fl <= rounds)%nat ->
  exists m fl' fp, kmfree rounds (b.1 + HEADER) s = Done tt (Kmst (Vst (vpg (kvm s)) m) fp) /\ free_list m fl' fp /\
    (forall x, cover fl' x <-> cover fl x \/ b.1 <= x < b.1 + HEADER * b.2) /\
    (forall x, ~ cover fl' x -> ~ (base <= x < base + HEADER) -> m x = kmem s x) /\ (length fl' <= S (length fl))%nat /\
    (exists e, e ∈ fl' /\ e.1 <= b.1 /\ b.1 + HEADER * b.2 <= e.1 + HEADER * e.2).
Proof.
  intros Hfl Hb32 Hb Hfit Hsz Hlen. pose proof Hfl as [(l0 & E0 & Hl0) Hs Hseg Hfp Hbase]. assert (HH : HEADER = 16) by done.
  destruct (find_ok s fl b Hfl Hb Hfit Hlen) as (A & p & B & E & Hp1 & Hp2 & HB & Ep & Efind). pose proof Hb as (Hb1 & Hb2 & Hb3 & Hb4).
  assert (Hrun : 0 <= b.1 < 2 ^ 63) by (change (2 ^ 63) with 9223372036854775808; change (2 ^ 32) with 4294967296 in Hb3; lia).
  pose proof (kmfree_run s b.1 p.1 Hrun Efind) as Erun. set (m1 := merge_up (kmem s) b.1 (ptr (kmem s) p.1)) in *. set (m2 := merge_low m1 p.1 b.1) in *.
  pose proof Hs as Hs'. rewrite E in Hs'. apply StronglySorted_app in Hs' as (HAp & HsA & HspB). apply StronglySorted_cons in HspB as [HpB HsB]. rewrite Forall_forall in HpB.
  assert (Hin : forall e, e ∈ fl -> base <= e.1 /\ 0 <= e.2 /\ (e.1 = base \/ blk_in e)).
  { intros e He. rewrite E0 in He. apply elem_of_cons in He as [->|He]; [cbn; split; [lia|split; [lia|by left]]|]. rewrite Forall_forall in Hl0. pose proof (Hl0 _ He) as He'. destruct He' as (K1 & K2 & K3 & K4).
    split; [lia|]. split; [lia|]. right. done. }
  assert (HBin : Forall blk_in B).
  { rewrite Forall_forall. intros e He. destruct (Hin e) as (K1 & K2 & [K3|K3]); [rewrite E; set_solver| |done]. exfalso.
    destruct (HpB e He) as [_ K4]. destruct (Hin p) as [K5 _]; [rewrite E; set_solver|]. lia. }
  pose proof Hseg as Hseg'. rewrite E in Hseg'. destruct p as [pa pk]. apply lseg_app in Hseg' as (y & HsegA & -> & Hpk & HsegB). cbn [fst snd] in *.
  destruct (merge_up_ok (kmem s) b (ptr (kmem s) pa) B ltac:(lia) Hb Hsz HsegB HBin HB HsB) as (n1 & B1 & Hup & Hout & Hcase). fold m1 in Hup, Hout.
  assert (Hn1 : 1 <= n1 /\ b.1 + HEADER * n1 <= 2 ^ 32 /\ Forall blk_in B1 /\ (forall e, e ∈ B1 -> sep (b.1, n1) e) /\ StronglySorted sep B1).
  { destruct Hcase as [(-> & -> & Hg)|(nb & EB & ->)].
    - split; [done|]. split; [done|]. split; [done|]. split; [|done]. intros e He. specialize (Hg e He). split; cbn [fst snd]; lia.
    - rewrite EB in HBin, HsB. apply Forall_cons in HBin as [(C1 & C2 & C3 & C4) HBin]. apply StronglySorted_cons in HsB as [Hh HsB]. rewrite Forall_forall in Hh. cbn [fst snd] in *.
      split; [lia|]. split; [lia|]. split; [done|]. split; [|done]. intros e He. destruct (Hh e He) as [K1 K2]. cbn [fst snd] in *. split; cbn [fst snd]; lia. }
  destruct Hn1 as (Hn1 & Hn2 & HB1 & Hsep1 & HsB1).
  assert (HA : forall e, e ∈ A -> e.1 + HEADER <= pa) by (intros e He; destruct (HAp e (pa, pk) He ltac:(left)); done).
  assert (HsegA1 : lseg m1 base A pa) by (apply (lseg_frame (kmem s)); [|done]; intros e He x Hx; symmetry; apply Hout; specialize (HA e He); lia).
  assert (Hpsz : siz m1 pa = pk) by (rewrite <- Hpk; apply rdle_agree; intros x Hx; apply Hout; lia).
  destruct (Hin (pa, pk)) as (Kp1 & Kp2 & _); [rewrite E; set_solver|]. cbn [fst snd] in *.
  destruct (merge_low_ok m1 A (pa, pk) b.1 n1 B1 ltac:(lia) HsegA1 Hpsz Hup) as [Hseg2 Hout2]; cbn [fst snd]; try done; try lia.
  { intros e He. destruct (Hsep1 e He) as [_ K]. exact K. }
  cbn [fst snd] in Hseg2, Hout2. fold m2 in Hseg2, Hout2. set (C := if decide (pa + HEADER * pk = b.1) then (pa, pk + n1) :: B1 else (pa, pk) :: (b.1, n1) :: B1) in *.
  exists m2, (A ++ C), pa. split; [exact Erun|].
  assert (Hpin : pa = base /\ pk = 0 /\ A = [] \/ exists A', A = (base, 0) :: A' /\ Forall blk_in (A' ++ [(pa, pk)])).
  { rewrite E in E0. destruct A as [|a0 A]; [left; by injection E0 as -> -> _|right]. injection E0 as -> <-. exists A. split; [done|].
    rewrite Forall_app. apply Forall_app in Hl0 as [? Hl0]. split; [done|]. apply Forall_cons in Hl0 as [? _]. by apply Forall_singleton. }
  assert (Hbn : blk_in (b.1, n1)) by done.
  assert (HBC : forall x, cover ((b.1, n1) :: B1) x <-> b.1 <= x < b.1 + HEADER * b.2 \/ cover B x).
  { intros x. rewrite cover_cons. cbn [fst snd]. destruct Hcase as [(-> & -> & _)|(nb & -> & ->)]; [done|]. rewrite cover_cons. cbn [fst snd].
    destruct (proj1 (Forall_cons _ _ _) HBin) as [(C1 & _) _]. cbn [fst snd] in C1. split; [intros [?|?]; [|by right; right]|intros [?|[?|?]]; [left|left|by right]]; [|lia|lia].
    destruct (Z.lt_ge_cases x (b.1 + HEADER * b.2)); [left; lia|right; left; lia]. }
  assert (HC : forall x, cover C x <-> (pa <= x < pa + HEADER * pk \/ cover B x) \/ b.1 <= x < b.1 + HEADER * b.2).
  { intros x. unfold C. case_decide as Ed.
    - specialize (HBC x). rewrite cover_cons in HBC |- *. cbn [fst snd] in *. split.
      + intros [Hx|Hx]; [|tauto]. destruct (Z.lt_ge_cases x b.1); [left; left; lia|]. assert (b.1 <= x < b.1 + HEADER * n1) as Hx2 by lia. tauto.
      + intros [[Hx|Hx]|Hx]; [left; lia| |].
        * destruct (proj2 HBC (or_intror Hx)); [left; lia|by right].
        * destruct (proj2 HBC (or_introl Hx)); [left; lia|by right].
    - rewrite cover_cons. cbn [fst snd]. rewrite HBC. tauto. }
  split; [|split; [|split; [|split]]].
  - split; [|apply StronglySorted_app; split; [|split; [done|]]|exact Hseg2| |done].
    + destruct Hpin as [(-> & -> & ->)|(A' & -> & HA')].
      * unfold C. rewrite decide_False by lia. exists ((b.1, n1) :: B1). split; [done|]. by constructor.
      * exists (A' ++ C). split; [done|]. apply Forall_app in HA' as [HA1 HA2]. apply Forall_inv in HA2 as (K1 & K2 & K3 & K4). cbn [fst snd] in *. rewrite Forall_app. split; [done|].
        unfold C. case_decide; constructor; [|done| |by constructor]; (split; cbn [fst snd]; [lia|split; [lia|split; [lia|done]]]).
    + intros e c He Hc. destruct (HAp e (pa, pk) He ltac:(left)) as [K1 K2]. cbn [fst snd] in *.
      assert (Hc1 : pa <= c.1); [|split; lia]. unfold C in Hc. case_decide; repeat (apply elem_of_cons in Hc as [->|Hc]; [cbn [fst]; lia|]); destruct (Hsep1 c Hc); cbn [fst snd] in *; lia.
    + unfold C. case_decide as Ed.
      * apply StronglySorted_cons. split; [|done]. rewrite Forall_forall. intros e He. destruct (Hsep1 e He) as [K1 K2]. cbn [fst snd] in *. split; cbn [fst snd]; lia.
      * apply StronglySorted_cons. split; [|apply StronglySorted_cons; split; [by rewrite Forall_forall|done]]. rewrite Forall_forall. intros e He.
        apply elem_of_cons in He as [->|He]; [split; cbn [fst snd]; lia|]. destruct (Hsep1 e He) as [K1 K2]. cbn [fst snd] in *. split; cbn [fst snd]; lia.
    + rewrite fmap_app, elem_of_app. right. unfold C. case_decide; left.
  - intros x. rewrite cover_app, HC, E, cover_app, cover_cons. cbn [fst snd]. tauto.
  - intros x Hx Hxb. rewrite cover_app, HC in Hx. rewrite Hout2, Hout; [done|intros K; apply Hx; right; right; lia|]. intros K. apply Hx. right. left. left.
    destruct Hpin as [(-> & _ & _)|(A' & -> & HA')]; [done|]. apply Forall_app in HA' as [_ HA2]. apply Forall_inv in HA2 as (K1 & _). cbn [fst snd] in *. lia.
  - rewrite E, !length_app. cbn [length]. assert (length B1 <= length B)%nat by (destruct Hcase as [(-> & _)|(nb & -> & _)]; cbn [length]; lia). unfold C. case_decide; cbn [length]; lia.
  - assert (Hn2' : b.2 <= n1) by (destruct Hcase as [(_ & -> & _)|(nb & -> & ->)]; [lia|]; destruct (proj1 (Forall_cons _ _ _) HBin) as [(C1 & _) _]; cbn [fst snd] in C1; lia).
    unfold C. case_decide; [exists (pa, pk + n1)|exists (b.1, n1)]; cbn [fst snd]; (split; [set_solver|lia]).
Qed.

(** ** Taking a block *)

(** The memory once [n] units of the block [e] behind [pv] are taken, and the header taken. *)
Definition take_mem (m : bytes) (n pv : Z) (e : Z * Z) : bytes :=
  if e.2 =? n then wr64 pv (ptr m e.1) m
  else wr64 (e.1 + HEADER * (e.2 - n) + 8) n (wr64 (e.1 + 8) (e.2 - n) m).
Definition take_at (n : Z) (e : Z * Z) : Z := e.1 + HEADER * (e.2 - n).

Lemma kmalloc_hit fuel n pv e s : siz (kmem s) e.1 = e.2 -> 1 <= n <= e.2 -> 0 < e.1 -> e.1 + HEADER * e.2 <= 2 ^ 32 ->
  kmalloc_find rounds (S fuel) n pv e.1 s = Done (take_at n e + HEADER) (Kmst (Vst (vpg (kvm s)) (take_mem (kmem s) n pv e)) pv).
Proof.
  intros Hsz Hn He1 He2. assert (HH : HEADER = 16) by done. change (2 ^ 32) with 4294967296 in He2. cbn [kmalloc_find]. rewrite bind_hsize, Hsz, (proj2 (Z.leb_le _ _)) by lia.
  unfold take_mem, take_at. destruct (e.2 =? n) eqn:E; bool_hyps.
  - replace (e.2 - n) with 0 by lia. rewrite Z.mul_0_r, Z.add_0_r.
    transitivity (Done (u64 (e.1 + HEADER)) (Kmst (Vst (vpg (kvm s)) (wr64 pv (ptr (kmem s) e.1) (kmem s))) pv)); [reflexivity|].
    by rewrite wrap_small by (change (2 ^ 64) with 18446744073709551616; lia).
  - rewrite (wrap_small 64 (e.2 - n)), (wrap_small 64 (e.1 + HEADER * (e.2 - n))) by (change (2 ^ 64) with 18446744073709551616; lia).
    transitivity (Done (u64 (e.1 + HEADER * (e.2 - n) + HEADER)) (Kmst (Vst (vpg (kvm s)) (wr64 (e.1 + HEADER * (e.2 - n) + 8) n (wr64 (e.1 + 8) (e.2 - n) (kmem s)))) pv)); [reflexivity|].
    by rewrite wrap_small by (change (2 ^ 64) with 18446744073709551616; lia).
Qed.

(** The search from [p] finds the first block that is large enough. *)
Lemma find_fit n l : forall pv p z fuel s, lseg (kmem s) p l z -> ptr (kmem s) pv = p -> 1 <= n -> (exists e, e ∈ l /\ n <= e.2) ->
  (forall e, e ∈ l -> e.2 <> 0 -> 0 < e.1 /\ e.1 + HEADER * e.2 <= 2 ^ 32) -> (length l <= fuel)%nat ->
  (forall l1 e l2, l = l1 ++ e :: l2 -> l2 <> [] -> e.1 <> freep s) ->
  exists q e, e ∈ l /\ n <= e.2 /\ ptr (kmem s) q = e.1 /\ (q = pv \/ q ∈ l.*1) /\
    kmalloc_find rounds fuel n pv p s = Done (take_at n e + HEADER) (Kmst (Vst (vpg (kvm s)) (take_mem (kmem s) n q e)) q).
Proof.
  induction l as [|[b k] l IH]; intros pv p z fuel s Hl Hpv Hn (e & He & Hen) Hok Hf Hfp; [by apply elem_of_nil in He|].
  destruct Hl as (-> & Hk & Hl). destruct fuel as [|fuel]; cbn [length] in Hf; [lia|]. destruct (Z.le_gt_cases n k) as [Hnk|Hnk].
  - exists pv, (b, k). split; [left|]. split; [done|]. split; [done|]. split; [by left|]. destruct (Hok (b, k) ltac:(left) ltac:(cbn; lia)). by apply (kmalloc_hit fuel n pv (b, k)).
  - apply elem_of_cons in He as [->|He]; [cbn in Hen; lia|]. cbn [kmalloc_find]. rewrite bind_hsize, Hk, (proj2 (Z.leb_gt _ _)) by lia. rewrite bind_gets.
    assert (Hne : b <> freep s). { apply (Hfp [] (b, k) l eq_refl). intros ->. by apply elem_of_nil in He. } rewrite (proj2 (Z.eqb_neq _ _)) by done. rewrite bind_hptr.
    destruct (IH b (ptr (kmem s) b) z fuel s Hl eq_refl Hn ltac:(eauto)) as (q & e' & K1 & K2 & K3 & K4 & K5); [intros x Hx; apply Hok; by right|lia| |].
    + intros l1 x l2 -> Hl2. by apply (Hfp ((b, k) :: l1) x l2).
    + exists q, e'. split; [by right|]. split; [done|]. split; [done|]. split; [|done]. destruct K4 as [->|K4]; right; [left|by right].
Qed.

(** When none is, the search asks for more memory at [freep]. *)
Lemma find_none n l : forall pv p z fuel s, lseg (kmem s) p l z -> (forall e, e ∈ l -> e.2 < n) -> (length l <= fuel)%nat ->
  (forall l1 e l2, l = l1 ++ e :: l2 -> e.1 = freep s <-> l2 = []) -> l <> [] ->
  kmalloc_find rounds fuel n pv p s = (p ← morecore rounds; if p =? 0 then mret 0 else k ← hptr p; kmalloc_find rounds (fuel - length l) n p k) s.
Proof.
  induction l as [|[b k] l IH]; intros pv p z fuel s Hl Hno Hf Hfp Hnil; [done|].
  destruct Hl as (-> & Hk & Hl). destruct fuel as [|fuel]; cbn [length] in Hf; [lia|]. cbn [kmalloc_find length Nat.sub]. specialize (Hno (b, k) ltac:(left)) as Hbk. cbn [snd] in Hbk.
  rewrite bind_hsize, Hk, (proj2 (Z.leb_gt _ _)) by lia. rewrite bind_gets. pose proof (Hfp [] (b, k) l eq_refl) as Hb. cbn [fst] in Hb. destruct (b =? freep s) eqn:E; bool_hyps.
  - apply Hb in E. subst l. cbn [length]. rewrite Nat.sub_0_r. done.
  - rewrite bind_hptr. rewrite (IH b (ptr (kmem s) b) z fuel s); [done|done|intros e He; apply Hno; by right|lia| |intros ->; by apply E, Hb].
    intros l1 e l2 ->. by apply (Hfp ((b, k) :: l1) e l2).
Qed.

Lemma sorted_nodup fl : StronglySorted sep fl -> (forall e, e ∈ fl -> 0 <= e.2) -> NoDup fl.*1.
Proof.
  induction 1 as [|x l Hs IH Hf]; intros Hpos; cbn; constructor; [|apply IH; intros e He; apply Hpos; by right].
  intros Hx. apply list_elem_of_fmap in Hx as (y & E & Hy). rewrite Forall_forall in Hf. destruct (Hf y Hy) as [_ K]. unfold HEADER in K. lia.
Qed.

Lemma fl_pos m fl fp : free_list m fl fp -> forall e, e ∈ fl -> base <= e.1 /\ 0 <= e.2 /\ (e = (base, 0) \/ blk_in e).
Proof.
  intros [(l & -> & Hl) _ _ _ Hb] e He. apply elem_of_cons in He as [->|He]; [cbn; split; [lia|split; [lia|by left]]|].
  rewrite Forall_forall in Hl. pose proof (Hl e He) as He'. pose proof He' as (K1 & K2 & _). unfold HEADER in *. split; [lia|]. split; [lia|by right].
Qed.

Lemma scan_list m fl fp : free_list m fl fp -> exists l, lseg m (ptr m fp) l (ptr m fp) /\ length l = length fl /\ (forall e, e ∈ l <-> e ∈ fl) /\
  l <> [] /\ fp ∈ l.*1 /\ forall l1 e l2, l = l1 ++ e :: l2 -> e.1 = fp <-> l2 = [].
Proof.
  intros Hfl. pose proof Hfl as [_ Hss Hs Hfp _]. pose proof (sorted_nodup fl Hss (fun e He => proj1 (proj2 (fl_pos _ _ _ Hfl e He)))) as Hnd.
  apply list_elem_of_fmap in Hfp as ([a n] & -> & Hin). apply list_elem_of_split in Hin as (l1 & l2 & ->). cbn [fst].
  apply lseg_app in Hs as (y & H1 & H2). destruct H2 as (-> & Hn & H2). exists ((l2 ++ l1) ++ [(a, n)]).
  assert (Hp : ((l2 ++ l1) ++ [(a, n)]) ≡ₚ l1 ++ (a, n) :: l2) by solve_Permutation. rewrite <- Hp in Hnd.
  split; [apply lseg_app; exists a; split; [apply lseg_app; eauto|done]|]. split; [by rewrite Hp|]. split; [intros e; by rewrite Hp|]. split; [by destruct (l2 ++ l1)|].
  split; [rewrite fmap_app, elem_of_app; right; left|]. intros l3 e l4 E. destruct l4 as [|z l4 _] using rev_ind.
  - apply app_inj_tail in E as [_ <-]. done.
  - rewrite app_comm_cons, app_assoc in E. apply app_inj_tail in E as [E <-]. rewrite E in Hnd. rewrite fmap_app in Hnd. apply NoDup_app in Hnd as (_ & Hnd & _).
    split; [|by destruct l4]. intros Ee. exfalso. apply (Hnd a); [|left]. rewrite <- Ee. apply list_elem_of_fmap_2. set_solver.
Qed.

(** The block before [e] in the list. *)
Lemma pred_split m fl fp pv e : free_list m fl fp -> e ∈ fl -> e.2 <> 0 -> ptr m pv = e.1 -> pv ∈ fl.*1 -> exists A k B, fl = A ++ (pv, k) :: e :: B.
Proof.
  intros Hfl He Hne Hp Hpv. apply list_elem_of_fmap in Hpv as ([a k] & -> & Hin). cbn [fst] in *. pose proof Hin as Hin'. apply list_elem_of_split in Hin' as (A & C & E). exists A, k.
  pose proof Hfl as [_ Hss Hs _ _]. pose proof (sorted_nodup fl Hss (fun x Hx => proj1 (proj2 (fl_pos _ _ _ Hfl x Hx)))) as Hnd.
  destruct (fl_pos _ _ _ Hfl e He) as (_ & _ & [->|(K1 & K2 & _)]); [done|]. rewrite E in Hs. apply lseg_app in Hs as (y & _ & (_ & _ & Hl)). rewrite Hp in Hl.
  destruct C as [|[c j] C]; cbn [lseg] in Hl; [unfold HEADER in *; lia|]. destruct Hl as (Ec & _). exists C. rewrite E. do 3 f_equal.
  assert (Hc : (c, j) ∈ fl) by (rewrite E; set_solver). destruct e as [e1 e2]. cbn [fst] in Ec. subst c.
  apply list_elem_of_lookup in Hc as [i Hi], He as [i' Hi']. assert (i = i') as <-.
  { eapply (NoDup_lookup fl.*1); [done| |]; rewrite list_lookup_fmap; [rewrite Hi|rewrite Hi']; done. }
  congruence.
Qed.

Lemma take_ok m fl fp n pv e : free_list m fl fp -> e ∈ fl -> 1 <= n <= e.2 -> ptr m pv = e.1 -> pv ∈ fl.*1 -> base < 2 ^ 32 ->
  let q := take_at n e in let m' := take_mem m n pv e in
  exists fl', free_list m' fl' pv /\ (length fl' <= length fl)%nat /\ (forall x, cover fl' x <-> cover fl x /\ ~ (q <= x < q + HEADER * n)) /\
    siz m' q = n /\ blk_in (q, n) /\ (forall x, q <= x < q + HEADER * n -> cover fl x) /\ (forall x, ~ cover fl x -> ~ (base <= x < base + HEADER) -> m' x = m x).
Proof.
  intros Hfl He Hn Hpv Hin Hb32. assert (HH : HEADER = 16) by done. destruct (pred_split m fl fp pv e Hfl He ltac:(lia) Hpv Hin) as (A & k & B & E).
  pose proof Hfl as [(l0 & E0 & Hl0) Hss Hs _ Hb]. pose proof (fl_pos _ _ _ Hfl) as Hpos. destruct (Hpos e He) as (_ & _ & [->|Hbe]); [cbn in Hn; lia|].
  pose proof Hbe as (K1 & K2 & K3 & K4). change (2 ^ 32) with 4294967296 in *. destruct e as [a j]. unfold take_at, take_mem. cbn [fst snd] in *.
  pose proof Hss as Hss'. rewrite E in Hss'. apply StronglySorted_app in Hss' as (HA & HsA & Hs2). apply StronglySorted_cons in Hs2 as [Hpf Hs2]. apply StronglySorted_cons in Hs2 as [Hef HsB].
  rewrite Forall_forall in Hpf, Hef. destruct (Hpf (a, j) ltac:(left)) as [P1 P2]. cbn [fst snd] in P1, P2.
  pose proof Hs as Hs'. rewrite E in Hs'. apply lseg_app in Hs' as (y & HsegA & (-> & Hk & HsegE)). cbn [lseg] in HsegE. destruct HsegE as (_ & Hj & HsegB).
  assert (HinA : forall x, x ∈ A -> x.1 + HEADER <= pv) by (intros x Hx; by destruct (HA x (pv, k) Hx ltac:(left))).
  assert (HinB : forall x, x ∈ B -> a + HEADER <= x.1) by (intros x Hx; by destruct (Hef x Hx)).
  assert (HinP : base <= pv /\ 0 <= k) by (destruct (Hpos (pv, k)) as (? & ? & _); [rewrite E; set_solver|done]).
  assert (HBin : forall x, x ∈ B -> blk_in x). { intros x Hx. destruct (Hpos x) as (_ & _ & [->|?]); [rewrite E; set_solver| |done]. specialize (HinB _ Hx). cbn in HinB. lia. }
  assert (Hcov : forall x, cover fl x <-> (cover A x \/ pv <= x < pv + HEADER * k) \/ a <= x < a + HEADER * j \/ cover B x).
  { intros x. rewrite E, cover_app, !cover_cons. cbn [fst snd]. tauto. }
  assert (HA0 : A = [] /\ pv = base /\ k = 0 \/ exists A', A = (base, 0) :: A' /\ Forall blk_in A' /\ blk_in (pv, k)).
  { rewrite E in E0. destruct A as [|a0 A]; [left; by injection E0 as -> -> _|right]. injection E0 as -> <-. apply Forall_app in Hl0 as [? Hl0]. apply Forall_cons in Hl0 as [? _]. eauto. }
  assert (Hpx : forall x, pv <= x < pv + HEADER -> cover fl x \/ base <= x < base + HEADER).
  { intros x Hx. destruct HA0 as [(_ & -> & _)|(A' & _ & _ & (Hk1 & _))]; [by right|left]. cbn [snd] in Hk1. apply Hcov. left. right. lia. }
  assert (HBC : forall x, cover B x -> a + HEADER * j < x). { intros x (c & Hc & Hx). destruct (Hef c Hc) as [K _]. cbn [fst snd] in K. lia. }
  assert (HAC : forall x, cover A x -> x < pv). { intros x (c & Hc & Hx). destruct (HA c (pv, k) Hc ltac:(left)) as [K _]. cbn [fst snd] in K. lia. }
  assert (Hhead : forall C, (forall x, x ∈ C -> blk_in x) -> exists l, A ++ (pv, k) :: C = (base, 0) :: l /\ Forall blk_in l).
  { intros C HC. rewrite <- Forall_forall in HC. destruct HA0 as [(-> & -> & ->)|(A' & -> & HA' & HB')]; [by exists C|]. exists (A' ++ (pv, k) :: C). split; [done|].
    rewrite Forall_app. split; [done|by constructor]. }
  cbv zeta. destruct (j =? n) eqn:Ejn; bool_hyps.
  - symmetry in Ejn. subst n. rewrite Z.sub_diag, Z.mul_0_r, Z.add_0_r. exists (A ++ (pv, k) :: B).
    destruct (lseg_next m (ptr m a) B ltac:(lia) ltac:(by rewrite Forall_forall) HsegB) as [_ Hn2]. change (2 ^ 32) with 4294967296 in Hn2.
    destruct (link_written m pv (ptr m a)) as (W1 & W2 & W3); [change (2 ^ 64) with 18446744073709551616; lia|].
    assert (Ea : siz (wr64 pv (ptr m a) m) a = j) by (rewrite <- Hj; apply rdle_agree; intros x Hx; apply W3; lia).
    split; [split|].
    + by apply Hhead.
    + apply StronglySorted_app. split; [|split; [done|apply StronglySorted_cons; split; [rewrite Forall_forall; intros x Hx; apply Hpf; by right|done]]].
      intros x y Hx Hy. apply HA; [done|]. apply elem_of_cons in Hy as [->|Hy]; [left|right; by right].
    + apply lseg_app. exists pv. split; [apply (lseg_frame m); [|done]; intros x Hx z Hz; symmetry; apply W3; specialize (HinA x Hx); lia|].
      cbn [lseg]. split; [done|]. split; [by rewrite W2|]. rewrite W1. apply (lseg_frame m); [|done]. intros x Hx z Hz. symmetry. apply W3. specialize (HinB x Hx). lia.
    + rewrite fmap_app, elem_of_app. right. left.
    + done.
    + split; [rewrite E, !length_app; cbn [length]; lia|]. split; [|split; [done|split; [done|split]]].
      * intros x. rewrite Hcov, cover_app, cover_cons. cbn [fst snd]. specialize (HBC x). specialize (HAC x). split; [|tauto].
        intros [Hx|[Hx|Hx]]; (split; [tauto|]); [specialize (HAC Hx); lia|lia|specialize (HBC Hx); lia].
      * intros x Hx. apply Hcov. right. left. lia.
      * intros x Hx1 Hx2. apply W3. intros Hx. destruct (Hpx x Hx); tauto.
  - set (q := a + HEADER * (j - n)). assert (Hq : a + HEADER <= q /\ q + HEADER * n = a + HEADER * j) by (unfold q; lia). exists (A ++ (pv, k) :: (a, j - n) :: B).
    set (m1 := wr64 (a + 8) (j - n) m). assert (M1 : forall x, ~ (a + 8 <= x < a + 16) -> m1 x = m x) by (intros x Hx; apply wrle_out; lia).
    assert (M2 : forall x, ~ (a + 8 <= x < a + 16) -> ~ (q + 8 <= x < q + 16) -> wr64 (q + 8) n m1 x = m x) by (intros x Hx Hy; rewrite wrle_out by lia; by apply M1).
    assert (S1 : siz (wr64 (q + 8) n m1) a = j - n) by (unfold siz; rewrite word_other by lia; apply rdle_wrle_same; change (256 ^ Z.of_nat 8) with 18446744073709551616; lia).
    assert (S2 : siz (wr64 (q + 8) n m1) q = n) by (apply rdle_wrle_same; change (256 ^ Z.of_nat 8) with 18446744073709551616; lia).
    assert (S3 : ptr (wr64 (q + 8) n m1) a = ptr m a) by (apply rdle_agree; intros x Hx; apply M2; lia).
    assert (S4 : ptr (wr64 (q + 8) n m1) pv = ptr m pv) by (apply rdle_agree; intros x Hx; apply M2; lia).
    assert (S5 : siz (wr64 (q + 8) n m1) pv = siz m pv) by (apply rdle_agree; intros x Hx; apply M2; lia).
    split; [split|].
    + apply Hhead. intros x Hx. apply elem_of_cons in Hx as [->|Hx]; [|by apply HBin]. split; cbn [fst snd]; [lia|]. split; [lia|]. split; [change (2 ^ 32) with 4294967296; lia|done].
    + apply StronglySorted_app. split; [|split; [done|apply StronglySorted_cons; split; [|apply StronglySorted_cons; split; [|done]]]].
      * intros x y Hx Hy. apply elem_of_cons in Hy as [->|Hy]; [apply HA; [done|left]|]. apply elem_of_cons in Hy as [->|Hy]; [destruct (HA x (a, j) Hx ltac:(right; left)); by split|apply HA; [done|right; by right]].
      * rewrite Forall_forall. intros x Hx. apply elem_of_cons in Hx as [->|Hx]; [by split|apply Hpf; by right].
      * rewrite Forall_forall. intros x Hx. destruct (Hef x Hx) as [Q1 Q2]. cbn [fst snd] in *. split; cbn [fst snd]; lia.
    + apply lseg_app. exists pv. split; [apply (lseg_frame m); [|done]; intros x Hx z Hz; symmetry; apply M2; specialize (HinA x Hx); lia|].
      cbn [lseg]. split; [done|]. split; [by rewrite S5|]. rewrite S4, Hpv. split; [done|]. split; [done|]. rewrite S3. apply (lseg_frame m); [|done].
      intros x Hx z Hz. symmetry. destruct (Hef x Hx) as [Q1 _]. cbn [fst snd] in Q1. apply M2; lia.
    + rewrite fmap_app, elem_of_app. right. left.
    + done.
    + split; [rewrite E, !length_app; cbn [length]; lia|]. split; [|split; [done|split; [|split]]].
      * intros x. rewrite Hcov, cover_app, !cover_cons. cbn [fst snd]. specialize (HBC x). specialize (HAC x). split.
        -- intros [Hx|[Hx|[Hx|Hx]]]; [split; [tauto|]; specialize (HAC Hx); lia|split; [tauto|lia]|split; [right; left; lia|lia]|split; [tauto|]; specialize (HBC Hx); lia].
        -- intros [[[Hx|Hx]|[Hx|Hx]] Hnx]; [tauto|tauto|right; right; left; lia|tauto].
      * split; cbn [fst snd]; [lia|]. split; [lia|]. split; [change (2 ^ 32) with 4294967296; lia|]. unfold q. apply Z.divide_add_r; [done|]. by exists (j - n); lia.
      * intros x Hx. apply Hcov. right. left. lia.
      * intros x Hx1 Hx2. apply M2; intros Hx; apply Hx1, Hcov; right; left; lia.
Qed.
End Inv.
