(* ===== verification/KmallocProps.v ===== *)
(** * Properties of kmalloc

    [pool c s R U]: the blocks in use are [U] (header address and units), the
    free list has at most [c] blocks, and the bytes of the pages kalloc gave
    are divided among the free blocks and the blocks in use, [R] being the
    pages in use. *)
From stdpp Require Import sorting.
From S2P Require Import Prelude Bytes Vm VmProps Kmalloc KmallocInv.

Section Props.
Context {P : Type} `{kpages_laws P}.
Context (base : Z) (rounds : nat).
(** [base] is a static variable of the kernel image, below every page. *)
Hypothesis Hbase : forall s R a r, kp_refs s R -> R !! a = Some r -> base + HEADER <= a.
Hypothesis Hbase32 : 0 < base < 2 ^ 32.
Local Abbreviation kmst := (kmst P).
Implicit Types s : kmst.

(** Byte [x] is in one of the pages [G]. *)
Definition in_pages (G : gset Z) (x : Z) : Prop := exists a, a ∈ G /\ a <= x < a + PGSIZE.

Record pool_inv (s : kmst) (R : gmap Z Z) (G : gset Z) (fl : blocks) (U : gmap Z Z) : Prop := {
  pi_refs : kp_refs (vpg (kvm s)) R;
  pi_list : free_list base (kmem s) fl (freep s);
  pi_pages : forall a, a ∈ G -> is_Some (R !! a);
  pi_free : forall x, cover fl x -> in_pages G x;
  pi_full : forall x, in_pages G x -> cover fl x \/ exists a n, U !! a = Some n /\ a <= x < a + HEADER * n;
  pi_used : forall a n, U !! a = Some n -> blk_in base (a, n) /\ siz (kmem s) a = n /\ forall x, a <= x < a + HEADER * n -> ~ cover fl x /\ in_pages G x;
  pi_disj : forall a n b k, U !! a = Some n -> U !! b = Some k -> a <> b -> a + HEADER * n <= b \/ b + HEADER * k <= a
}.

(** Before the first call there is no list. *)
Definition pool (c : nat) s R U : Prop :=
  (freep s = 0 /\ U = ∅ /\ kp_refs (vpg (kvm s)) R /\ (1 <= c)%nat) \/ exists G fl, pool_inv s R G fl U /\ (length fl <= c)%nat.

(** The bytes of the blocks in use are as they were. *)
Definition kept s s' (U : gmap Z Z) : Prop := forall a n x, U !! a = Some n -> a <= x < a + HEADER * n -> kmem s' x = kmem s x.

Lemma free_list_frame m m' fl fp : free_list base m fl fp -> (forall x, cover fl x \/ base <= x < base + HEADER -> m' x = m x) -> free_list base m' fl fp.
Proof.
  intros [(l & -> & Hl) H2 H3 H4 H5] Hm. split; [eauto|done| |done|done]. apply (lseg_frame m); [|done].
  intros b Hb x Hx. symmetry. apply Hm. apply elem_of_cons in Hb as Hb'. destruct Hb' as [->|Hb']; [by right|left].
  rewrite Forall_forall in Hl. destruct (Hl _ Hb') as (K1 & _). exists b. split; [done|]. unfold HEADER in *. lia.
Qed.

Lemma fits_cover fl b : (forall e, e ∈ fl -> 0 <= e.2) -> base + HEADER <= b.1 -> (forall e, e ∈ fl -> e.2 = 0 -> e.1 = base) -> 1 <= b.2 -> 
  (forall x, b.1 <= x < b.1 + HEADER * b.2 -> ~ cover fl x) -> fits fl b.
Proof.
  intros Hpos Hb Hz Hn Hc e He. specialize (Hpos e He). destruct (Z.eq_dec e.2 0) as [E|Hne]; [left; rewrite E, (Hz e He E); unfold HEADER in *; lia|].
  destruct (Z.le_gt_cases (e.1 + HEADER * e.2) b.1); [by left|]. destruct (Z.le_gt_cases (b.1 + HEADER * b.2) e.1); [by right|]. exfalso.
  apply (Hc (Z.max e.1 b.1)); [unfold HEADER in *; lia|]. exists e. split; [done|]. unfold HEADER in *. lia.
Qed.

Lemma free_blocks m fl fp : free_list base m fl fp -> (forall e, e ∈ fl -> 0 <= e.2) /\ (forall e, e ∈ fl -> e.2 = 0 -> e.1 = base).
Proof.
  intros [(l & -> & Hl) _ _ _ _]. rewrite Forall_forall in Hl. split; intros e He; apply elem_of_cons in He as [->|He]; try done; destruct (Hl e He); lia.
Qed.

Lemma fits_free m fl fp b : free_list base m fl fp -> blk_in base b -> (forall x, b.1 <= x < b.1 + HEADER * b.2 -> ~ cover fl x) -> fits fl b.
Proof. intros Hfl (H1 & H2 & _) Hc. destruct (free_blocks _ _ _ Hfl) as [F1 F2]. by apply fits_cover. Qed.

Lemma base_out G x : (forall a, a ∈ G -> base + HEADER <= a) -> in_pages G x -> ~ (base <= x < base + HEADER).
Proof. intros Hg (a & Ha & Hx). specialize (Hg a Ha). lia. Qed.

Lemma pool_pages s R G fl U : pool_inv s R G fl U -> forall a, a ∈ G -> base + HEADER <= a.
Proof. intros HI a Ha. destruct (pi_pages _ _ _ _ _ HI a Ha) as [r Hr]. eapply Hbase; [apply (pi_refs _ _ _ _ _ HI)|exact Hr]. Qed.

(** C26: [kmfree] of a block in use returns and gives its bytes back: the
    free list, of sorted blocks no two of which touch, covered none of them
    before and covers them and what it covered before afterwards, one of its
    blocks holding the freed one whole, so it has been merged with the free
    neighbours it had.  The pages stay divided among the free list and the
    other blocks in use, of which no byte changes. *)
Theorem kmfree_correct c s R U a n : pool c s R U -> U !! a = Some n -> (c <= rounds)%nat ->
  exists s' fl fl', kmfree rounds (a + HEADER) s = Done tt s' /\
    free_list base (kmem s) fl (freep s) /\ (forall x, a <= x < a + HEADER * n -> ~ cover fl x) /\
    free_list base (kmem s') fl' (freep s') /\ (forall x, cover fl' x <-> cover fl x \/ a <= x < a + HEADER * n) /\
    (exists e, e ∈ fl' /\ e.1 <= a /\ a + HEADER * n <= e.1 + HEADER * e.2) /\
    pool (S c) s' R (delete a U) /\ kept s s' (delete a U).
Proof.
  intros [(_ & -> & _)|(G & fl & HI & Hc)] Ha Hr; [by rewrite lookup_empty in Ha|]. pose proof HI as [I1 I2 I3 I4 I4' I5 I6].
  destruct (I5 a n Ha) as (Hb & Hsz & Hd). assert (Hfit : fits fl (a, n)) by (eapply fits_free; [exact I2|done|intros x Hx; by apply Hd]).
  destruct (kmfree_ok base rounds s fl (a, n) I2 ltac:(lia) Hb Hfit Hsz ltac:(lia)) as (m & fl' & fp & E & Hfl' & Hcov & Hm & Hlen & Hwhole). cbn [fst snd] in *.
  eexists _, fl, fl'. split; [exact E|]. split; [exact I2|]. split; [intros x Hx; by apply Hd|]. split; [exact Hfl'|]. split; [exact Hcov|]. split; [exact Hwhole|].
  assert (Hoth : forall b k x, delete a U !! b = Some k -> b <= x < b + HEADER * k -> ~ cover fl' x /\ m x = kmem s x).
  { intros b k x Hbk Hx. apply lookup_delete_Some in Hbk as [Hne Hbk]. destruct (I5 b k Hbk) as (_ & _ & Hd'). destruct (Hd' x Hx) as [Hnc Hp].
    assert (Hnc' : ~ cover fl' x) by (rewrite Hcov; intros [?|Hx2]; [done|]; destruct (I6 a n b k Ha Hbk Hne); lia). split; [done|]. apply Hm; [done|].
    eapply base_out; [by eapply pool_pages|done]. }
  split; [right; exists G, fl'; split; [split|]|]; try done; cbn [kvm vpg freep]; try lia.
  - intros x. rewrite Hcov. intros [Hx|Hx]; [by apply I4|]. by apply Hd.
  - intros x Hx. rewrite Hcov. destruct (I4' x Hx) as [?|(b & k & Hbk & Hbx)]; [by left; left|].
    destruct (decide (b = a)) as [->|Hne]; [left; right; congruence|]. right. exists b, k. by rewrite lookup_delete_ne.
  - intros b k Hbk. pose proof Hbk as Hbk'. apply lookup_delete_Some in Hbk' as [Hne Hbk']. destruct (I5 b k Hbk') as (K1 & K2 & K3). split; [done|]. split.
    + rewrite <- K2. apply rdle_agree. intros x Hx. apply (Hoth b k x Hbk). destruct K1 as (K1 & _). cbn [snd] in K1. unfold HEADER. lia.
    + intros x Hx. split; [by apply (Hoth b k x)|by apply K3].
  - intros b k b' k' Hbk Hbk'. apply lookup_delete_Some in Hbk as [_ Hbk], Hbk' as [_ Hbk']. by apply I6.
  - intros b k x Hbk Hx. by apply (Hoth b k x).
Qed.

(** [morecore] adds a fresh page, all of it free. *)
Lemma morecore_ok s R G fl U : pool_inv s R G fl U -> (length fl <= rounds)%nat ->
  (exists msg, kalloc (vpg (kvm s)) = Panic msg /\ morecore rounds s = Panic msg) \/
  exists pg s' fl', R !! pg = None /\ morecore rounds s = Done (freep s') s' /\ freep s' <> 0 /\ pool_inv s' (<[pg := 1]> R) ({[pg]} ∪ G) fl' U /\
    (length fl' <= S (length fl))%nat /\ (exists e, e ∈ fl' /\ PGSIZE / HEADER <= e.2) /\ kept s s' U.
Proof.
  intros HI Hlen. pose proof HI as [I1 I2 I3 I4 I4' I5 I6]. assert (HH : HEADER = 16) by done. assert (HP : PGSIZE = 4096) by done.
  destruct (kalloc_ok (vpg (kvm s)) R I1) as [[msg E]|(pg & v & E & Hfresh & Hrefs)].
  { left. exists msg. split; [done|]. unfold morecore, on_vm, vpages, zoom, mbind, M_bind. by rewrite E. }
  right. destruct (kp_page _ _ _ _ Hrefs (lookup_insert_eq R pg 1)) as (Hdiv & Hpg0 & Hpg & _). pose proof (Hbase _ _ _ _ Hrefs (lookup_insert_eq R pg 1)) as Hpgb.
  set (m1 := wr64 (pg + 8) (PGSIZE / HEADER) (mset pg 0 PGSIZE (kmem s))). set (s1 := Kmst (Vst v m1) (freep s)).
  assert (Eun : morecore rounds s = (kmfree rounds (pg + HEADER);; gets freep) s1).
  { unfold morecore. assert (Ek : on_vm (vpages kalloc) s = Done pg (Kmst (Vst v (kmem s)) (freep s))) by (unfold on_vm, vpages, zoom; by rewrite E).
    rewrite (bind_Done _ _ _ _ _ Ek), (proj2 (Z.eqb_neq _ 0)) by lia. reflexivity. }
  assert (Hpage : forall x, in_pages G x -> ~ (pg <= x < pg + PGSIZE)).
  { intros x (a & Ha & Hx) Hx2. assert (a <> pg) by (intros ->; destruct (I3 _ Ha); congruence). destruct (I3 _ Ha) as [r Hr]. destruct (kp_page _ _ _ _ I1 Hr) as ((i & ->) & _), Hdiv as (j & ->). rewrite HP in *. lia. }
  assert (Hm1 : forall x, ~ (pg <= x < pg + PGSIZE) -> m1 x = kmem s x) by (intros x Hx; unfold m1; rewrite wrle_out, mset_out by lia; done).
  assert (Hgb : forall x, in_pages G x -> m1 x = kmem s x) by (intros x Hx; by apply Hm1, Hpage).
  assert (Hfl1 : free_list base (kmem s1) fl (freep s1)).
  { apply (free_list_frame (kmem s)); [done|]. intros x [Hx|Hx]; [by apply Hgb, I4|apply Hm1; lia]. }
  assert (Hb : blk_in base (pg, PGSIZE / HEADER)).
  { change (PGSIZE / HEADER) with 256. split; cbn [fst snd]; [lia|]. split; [lia|]. rewrite HH, HP in *. split; [lia|]. destruct Hdiv as (j & ->). exists (256 * j). lia. }
  assert (Hfit : fits fl (pg, PGSIZE / HEADER)).
  { eapply fits_free; [exact I2|exact Hb|]. cbn [fst snd]. change (HEADER * (PGSIZE / HEADER)) with PGSIZE. intros x Hx Hc. by apply (Hpage x (I4 x Hc)). }
  assert (Hsz : siz (kmem s1) pg = PGSIZE / HEADER) by (apply rdle_wrle_same; change (PGSIZE / HEADER) with 256; change (256 ^ Z.of_nat 8) with 18446744073709551616; lia).
  destruct (kmfree_ok base rounds s1 fl (pg, PGSIZE / HEADER) Hfl1 ltac:(lia) Hb Hfit Hsz Hlen) as (m & fl' & fp & Ef & Hfl' & Hcov & Hm & Hl' & (e & He & He1 & He2)). cbn [fst snd] in *.
  change (HEADER * (PGSIZE / HEADER)) with PGSIZE in *. exists pg, (Kmst (Vst v m) fp), fl'. split; [done|]. rewrite Eun, (bind_Done _ _ _ _ _ Ef). split; [done|].
  assert (Hsame : forall a n x, U !! a = Some n -> a <= x < a + HEADER * n -> ~ cover fl' x /\ m x = kmem s x).
  { intros a n x Ha Hx. destruct (I5 a n Ha) as (_ & _ & Hd). destruct (Hd x Hx) as [Hnc Hp]. assert (Hnc' : ~ cover fl' x) by (rewrite Hcov; intros [?|?]; [done|by apply (Hpage x)]).
    split; [done|]. rewrite Hm; [by apply Hgb|done|]. eapply base_out; [by eapply pool_pages|done]. }
  split; [|split; [split; try done|split; [done|split]]].
  - pose proof Hfl' as [_ _ _ Hfp _]. apply list_elem_of_fmap in Hfp as (c & Ec & Hc). cbn [freep]. rewrite Ec. destruct (fl_pos base _ _ _ Hfl' c Hc) as (Hcb & _). lia.
  - intros a Ha. apply elem_of_union in Ha as [Ha|Ha]; [apply elem_of_singleton in Ha as ->; rewrite lookup_insert_eq; eauto|].
    destruct (decide (a = pg)) as [->|]; [rewrite lookup_insert_eq; eauto|rewrite lookup_insert_ne by done; by apply I3].
  - intros x. rewrite Hcov. intros [Hx|Hx]; [destruct (I4 x Hx) as (a & Ha & Hax); exists a; set_solver|exists pg; set_solver].
  - intros x (a & Ha & Hx). rewrite Hcov. apply elem_of_union in Ha as [->%elem_of_singleton|Ha]; [by left; right|].
    destruct (I4' x) as [?|?]; [by exists a|by left; left|by right].
  - intros a n Ha. destruct (I5 a n Ha) as (K1 & K2 & K3). split; [done|]. split.
    + rewrite <- K2. apply rdle_agree. intros x Hx. apply (Hsame a n x Ha). destruct K1 as (K1 & _). cbn [snd] in K1. lia.
    + intros x Hx. split; [by apply (Hsame a n x)|]. destruct (K3 x Hx) as [_ (p & Hp & Hpx)]. exists p. set_solver.
  - exists e. split; [done|]. change (PGSIZE / HEADER) with 256. lia.
  - intros a n x Ha Hx. by apply (Hsame a n x).
Qed.

(** What [kmalloc] promises: [n] units, headed at [r - 16]. *)
Definition allocated (c : nat) s R U (n : Z) (o : outcome kmst Z) : Prop :=
  exists r s' R', o = Done r s' /\ U !! (r - HEADER) = None /\ pool c s' R' (<[r - HEADER := n]> U) /\ (HEADER | r) /\ kept s s' U /\ R ⊆ R'.

Lemma take_pool s R G fl U n pv e s' c : pool_inv s R G fl U -> e ∈ fl -> 1 <= n <= e.2 -> ptr (kmem s) pv = e.1 -> pv ∈ fl.*1 ->
  s' = Kmst (Vst (vpg (kvm s)) (take_mem (kmem s) n pv e)) pv -> (length fl <= c)%nat ->
  U !! take_at n e = None /\ pool c s' R (<[take_at n e := n]> U) /\ (HEADER | take_at n e + HEADER) /\ kept s s' U.
Proof.
  intros HI He Hn Hp Hpv -> Hc. pose proof HI as [I1 I2 I3 I4 I4' I5 I6]. destruct (take_ok base (kmem s) fl (freep s) n pv e I2 He Hn Hp Hpv ltac:(lia)) as (fl' & F1 & F2 & F3 & F4 & F5 & F6 & F7).
  set (q := take_at n e) in *. set (m' := take_mem (kmem s) n pv e) in *.
  assert (Hsame : forall a k x, U !! a = Some k -> a <= x < a + HEADER * k -> m' x = kmem s x).
  { intros a k x Ha Hx. destruct (I5 a k Ha) as (_ & _ & Hd). destruct (Hd x Hx) as [K1 K2]. apply F7; [done|]. eapply base_out; [by eapply pool_pages|done]. }
  assert (Hq : U !! q = None).
  { destruct (U !! q) as [k|] eqn:E; [|done]. exfalso. destruct (I5 q k E) as ((K1 & _) & _ & Hd). cbn [snd] in K1. apply (Hd q); [unfold HEADER; lia|]. apply F6. unfold HEADER. lia. }
  assert (Hdis : forall a k, U !! a = Some k -> a + HEADER * k <= q \/ q + HEADER * n <= a).
  { intros a k Ha. destruct (I5 a k Ha) as ((K1 & _) & _ & Hd). cbn [snd] in K1. destruct (Z.le_gt_cases (a + HEADER * k) q); [by left|]. destruct (Z.le_gt_cases (q + HEADER * n) a); [by right|].
    exfalso. apply (proj1 (Hd (Z.max a q) ltac:(unfold HEADER in *; lia))). apply F6. unfold HEADER in *. lia. }
  split; [done|]. split; [right; exists G, fl'; split; [split|]; try done; cbn [kvm vpg freep pmem]|split].
  - intros x Hx. apply I4. by apply F3.
  - intros x Hx. rewrite F3. destruct (decide (q <= x < q + HEADER * n)); [right; exists q, n; by rewrite lookup_insert_eq|].
    destruct (I4' x Hx) as [?|(a & k & Ha & Hax)]; [by left|right]. exists a, k. rewrite lookup_insert_ne; [done|]. congruence.
  - intros a k. rewrite lookup_insert_Some. intros [[<- <-]|[Hne Ha]].
    + split; [done|]. split; [done|]. intros x Hx. split; [rewrite F3; tauto|]. by apply I4, F6.
    + destruct (I5 a k Ha) as (K1 & K2 & K3). split; [done|]. split.
      * rewrite <- K2. apply rdle_agree. intros x Hx. apply (Hsame a k x Ha). destruct K1 as (K1 & _). cbn [snd] in K1. unfold HEADER. lia.
      * intros x Hx. destruct (K3 x Hx) as [Q1 Q2]. split; [rewrite F3; tauto|done].
  - intros a k b j. rewrite !lookup_insert_Some. intros [[<- <-]|[Hna Ha]] [[<- <-]|[Hnb Hb]] Hne; [done|destruct (Hdis b j Hb); lia|destruct (Hdis a k Ha); lia|by apply I6].
  - lia.
  - destruct F5 as (_ & _ & _ & Hd). apply Z.divide_add_r; [exact Hd|]. by exists 1.
  - intros a k x Ha Hx. by apply (Hsame a k x).
Qed.

(** A block large enough is found. *)
Lemma search_hit s R G fl U n fuel c : pool_inv s R G fl U -> 1 <= n -> (exists e, e ∈ fl /\ n <= e.2) -> (length fl <= fuel)%nat -> (length fl <= c)%nat ->
  allocated c s R U n (kmalloc_find rounds fuel n (freep s) (ptr (kmem s) (freep s)) s).
Proof.
  intros HI Hn (e & He & Hen) Hf Hc. pose proof (pi_list _ _ _ _ _ HI) as I2. destruct (scan_list base _ _ _ I2) as (l & Hl & Hll & Hlin & Hnil & Hfpl & Hlast).
  assert (Hok : forall x, x ∈ l -> x.2 <> 0 -> 0 < x.1 /\ x.1 + HEADER * x.2 <= 2 ^ 32).
  { intros x Hx Hx0. apply Hlin in Hx. destruct (fl_pos base _ _ _ I2 x Hx) as (_ & _ & [->|(K1 & K2 & K3 & _)]); [done|]. unfold HEADER in *. lia. }
  destruct (find_fit rounds n l (freep s) (ptr (kmem s) (freep s)) (ptr (kmem s) (freep s)) fuel s Hl eq_refl Hn) as (q & e' & K1 & K2 & K3 & K4 & K5); [exists e; by rewrite Hlin|exact Hok|lia| |].
  { intros l1 x l2 E Hl2 Ex. by apply Hl2, (Hlast l1 x l2 E). }
  assert (Hq : q ∈ fl.*1).
  { assert (Hq : q ∈ l.*1) by (destruct K4 as [->|?]; done). apply list_elem_of_fmap in Hq as (z & -> & Hz). apply list_elem_of_fmap_2. by apply Hlin. }
  destruct (take_pool s R G fl U n q e' _ c HI ltac:(by apply Hlin) ltac:(lia) K3 Hq eq_refl Hc) as (T1 & T2 & T3 & T4).
  eexists _, _, R. rewrite K5, Z.add_simpl_r. done.
Qed.

(** The search in a pool with a free list. *)
Lemma search_ok s R G fl U n c : pool_inv s R G fl U -> 1 <= n <= PGSIZE / HEADER -> (S (length fl) <= rounds)%nat -> (S (length fl) <= c)%nat ->
  (exists msg, kalloc (vpg (kvm s)) = Panic msg /\ kmalloc_find rounds (2 * rounds) n (freep s) (ptr (kmem s) (freep s)) s = Panic msg) \/
  allocated c s R U n (kmalloc_find rounds (2 * rounds) n (freep s) (ptr (kmem s) (freep s)) s).
Proof.
  intros HI Hn Hr Hc. destruct (decide (Exists (fun e => n <= e.2) fl)) as [Hex|Hno].
  { apply Exists_exists in Hex as (e & He & Hen). right. apply (search_hit s R G fl U n); [done|lia|eauto|lia|lia]. }
  assert (Hsmall : forall e, e ∈ fl -> e.2 < n).
  { intros e He. destruct (Z.le_gt_cases n e.2); [|done]. exfalso. apply Hno, Exists_exists. eauto. }
  destruct (scan_list base _ _ _ (pi_list _ _ _ _ _ HI)) as (l & Hl & Hll & Hlin & Hnil & _ & Hlast).
  rewrite (find_none rounds n l (freep s) (ptr (kmem s) (freep s)) (ptr (kmem s) (freep s)) (2 * rounds) s Hl); [|by intros e He; apply Hsmall, Hlin|lia|done|done].
  destruct (morecore_ok s R G fl U HI ltac:(lia)) as [(msg & E0 & E)|(pg & s1 & fl1 & Hpg & E & Hnz & HI1 & Hl1 & (e & He & Hen) & Hk1)].
  { left. exists msg. split; [done|]. unfold mbind, M_bind. by rewrite E. }
  right. rewrite (bind_Done _ _ _ _ _ E), (proj2 (Z.eqb_neq _ 0)), bind_hptr by done.
  destruct (search_hit s1 (<[pg := 1]> R) ({[pg]} ∪ G) fl1 U n (2 * rounds - length l) c HI1 ltac:(lia)) as (r & s' & R' & E' & A1 & A2 & A3 & A4 & A5); [exists e; split; [done|lia]|lia|lia|].
  exists r, s', R'. split; [done|]. split; [done|]. split; [done|]. split; [done|]. split.
  - intros a k x Ha Hx. rewrite (A4 a k x Ha Hx). by apply (Hk1 a k x).
  - etransitivity; [|exact A5]. by apply insert_subseteq.
Qed.

(** The first call makes the list of the base header alone. *)
Definition base_mem (m : bytes) : bytes := wr64 (base + 8) 0 (wr64 base base m).

Lemma init_ok s R : kp_refs (vpg (kvm s)) R -> (HEADER | base) -> pool_inv (Kmst (Vst (vpg (kvm s)) (base_mem (kmem s))) base) R ∅ [(base, 0)] ∅.
Proof.
  intros HR Hd. assert (HH : HEADER = 16) by done.
  assert (E1 : ptr (base_mem (kmem s)) base = base).
  { unfold ptr, base_mem. rewrite word_other by lia. apply rdle_wrle_same. change (256 ^ Z.of_nat 8) with 18446744073709551616. lia. }
  assert (E2 : siz (base_mem (kmem s)) base = 0) by by apply rdle_wrle_same.
  split; cbn [kvm vpg freep]; try done.
  - split; cbn [kmem kvm pmem].
    + by exists [].
    + repeat constructor.
    + cbn [lseg]. by rewrite E1, E2.
    + left.
    + lia.
  - intros x (b & Hb & Hx). apply list_elem_of_singleton in Hb as ->. cbn in Hx. lia.
  - intros x (b & Hb & _). by apply not_elem_of_empty in Hb.
Qed.

Lemma kmalloc_ok c s R U n : pool c s R U -> 0 <= n <= PGSIZE - HEADER -> (S c <= rounds)%nat -> (HEADER | base) ->
  (exists msg, kalloc (vpg (kvm s)) = Panic msg /\ kmalloc base rounds n s = Panic msg) \/ allocated (S c) s R U ((n + 15) / 16 + 1) (kmalloc base rounds n s).
Proof.
  intros Hp Hn Hr Hd. assert (HH : HEADER = 16) by done. assert (HP : PGSIZE = 4096) by done. unfold kmalloc.
  set (k := (n + 15) / 16 + 1). rewrite (proj2 (Z.ltb_ge _ _)) by lia. cbv zeta. rewrite wrap_small by (change (2 ^ 64) with 18446744073709551616; lia).
  replace ((n + HEADER - 1) / HEADER + 1) with k by (unfold k; rewrite HH; do 2 f_equal; lia).
  assert (Hk : 1 <= k <= PGSIZE / HEADER) by (change (PGSIZE / HEADER) with 256; unfold k; dlia). rewrite bind_gets.
  destruct Hp as [(Ef & -> & HR & Hc)|(G & fl & HI & Hl)].
  - rewrite Ef. cbn [Z.eqb]. pose proof (init_ok s R HR Hd) as HI.
    destruct (search_ok _ R ∅ _ ∅ k (S c) HI Hk) as [(msg & E0 & E)|(r & s' & R' & E & A1 & A2 & A3 & A4 & A5)]; [cbn; lia|cbn; lia|left; exists msg; split; [exact E0|exact E]|right].
    exists r, s', R'. split; [exact E|]. split; [done|]. split; [done|]. split; [done|]. split; [|done]. intros a j x Ha. by rewrite lookup_empty in Ha.
  - rewrite (proj2 (Z.eqb_neq _ 0)).
    + rewrite bind_ret, bind_hptr. apply (search_ok s R G fl U k (S c) HI Hk); lia.
    + pose proof (pi_list _ _ _ _ _ HI) as I2. pose proof I2 as [_ _ _ Hfp _]. apply list_elem_of_fmap in Hfp as (e & Ee & He).
      rewrite Ee. destruct (fl_pos base _ _ _ I2 e He) as (Hcb & _). lia.
Qed.

(** C17: [kmalloc] of at most a page less a header returns a fresh block of
    the units that hold the request, aligned to a header, inside pages kalloc
    gave, apart from every other block in use, whose bytes it does not change;
    or kalloc had no page to give and panicked.  A larger request panics. *)
Theorem kmalloc_correct c s R U n : pool c s R U -> 0 <= n -> (S c <= rounds)%nat -> (HEADER | base) ->
  (PGSIZE - HEADER < n -> kmalloc base rounds n s = Panic "too big request") /\
  (n <= PGSIZE - HEADER -> let k := (n + 15) / 16 + 1 in n <= HEADER * (k - 1) /\
    ((exists msg, kalloc (vpg (kvm s)) = Panic msg /\ kmalloc base rounds n s = Panic msg) \/ allocated (S c) s R U k (kmalloc base rounds n s))).
Proof.
  intros Hp Hn Hr Hd. split; intros Hle; [unfold kmalloc; by rewrite (proj2 (Z.ltb_lt _ _)) by lia|].
  cbv zeta. split; [unfold HEADER; dlia|]. apply kmalloc_ok; [done|lia|done|done].
Qed.
End Props.


(** ** Witnesses *)

(** No page is in use and [kmalloc] has never been called. *)
Definition wit_first : kmst table := Kmst (Vst ∅ (fun _ => 0)) 0.

Lemma wit_base (s : table) R a r : kp_refs s R -> R !! a = Some r -> 0x100 + HEADER <= a.
Proof. intros [-> Hs] Ha. destruct (Hs _ _ Ha) as ((i & ->) & K & _). unfold PGSIZE, HEADER in *. lia. Qed.

Lemma wit_pool : pool 0x100 1 wit_first ∅ ∅.
Proof. left. split; [done|]. split; [done|]. split; [|lia]. split; [done|]. intros a r Ha. cbn in Ha. by apply lookup_empty_Some in Ha. Qed.

Lemma kmalloc_correct_witness : exists r s' R', kmalloc 0x100 8 20 wit_first = Done r s' /\ pool 0x100 2 s' R' {[r - HEADER := 3]}.
Proof.
  destruct (proj2 (kmalloc_correct 0x100 8 wit_base ltac:(done) 1 wit_first ∅ ∅ 20 wit_pool ltac:(lia) ltac:(lia) ltac:(by exists 16)) ltac:(done)) as (_ & [(msg & E & _)|(r & s' & R' & E & _ & Hp & _)]).
  - exfalso. revert E. vm_compute. discriminate.
  - exists r, s', R'. split; [exact E|exact Hp].
Defined.

Lemma kmfree_correct_witness : exists s R a s', kmfree 8 (a + HEADER) s = Done tt s' /\ pool 0x100 3 s' R ∅ /\
  exists fl, free_list 0x100 (kmem s') fl (freep s') /\ forall x, a <= x < a + 48 -> cover fl x.
Proof.
  destruct (kmalloc_ok 0x100 8 wit_base ltac:(done) 1 wit_first ∅ ∅ 20 wit_pool ltac:(done) ltac:(lia) ltac:(by exists 16)) as [(msg & E & _)|(r & s' & R' & E & _ & Hp & _)].
  - exfalso. revert E. vm_compute. discriminate.
  - set (k := (20 + 15) / 16 + 1) in Hp. pose proof (lookup_insert_eq (∅ : gmap Z Z) (r - HEADER) k) as HU.
    pose proof (kmfree_correct 0x100 8 wit_base ltac:(lia) 2 s' R' (<[r - HEADER := k]> ∅) (r - HEADER) k Hp HU ltac:(lia)) as (s2 & fl & fl2 & E2 & _ & _ & Hf2 & Hc2 & _ & Hp2 & _).
    exists s', R', (r - HEADER), s2. rewrite delete_insert_eq, delete_empty in Hp2. split; [exact E2|]. split; [exact Hp2|].
    exists fl2. split; [exact Hf2|]. intros x Hx. apply Hc2. right. change (HEADER * k) with 48. exact Hx.
Defined.
