(* ===== verification/Bio.v ===== *)
(** * The buffer cache and the disk queue (kernel/bio.c, kernel/sd.c)

    A [struct buf *] is the number of a slot of [bcache.buf]; the list of
    buffers and the disk queue are the lists of slot numbers in their order.
    The data of a slot is a memory of its own, [None] before the first use.

    The card is the interface [sdcard]: the byte transfers of the MMC driver.
    A call that would sleep gives up the lock it sleeps with and ends in
    [Blocked]; it is run again from the start when it is woken, as the [loop]
    label of [bget] does.  [wakeup] changes no state of this part. *)
From S2P Require Import Prelude Spinlock Bytes.

Definition NBUF : nat := 126.
#[global] Arguments NBUF : simpl never.
Definition BSIZE : Z := 4096.
Definition SECTOR_SIZE : Z := 512.
Definition BLKSECT : Z := BSIZE / SECTOR_SIZE.
Definition FATMINOR : Z := 0.
Definition B_BUSY : Z := 0x1.
Definition B_VALID : Z := 0x2.
Definition B_DIRTY : Z := 0x4.
Definition bflag (f b : Z) : bool := negb (Z.land f b =? 0).

Definition bcache_lock : Z := 16.
Definition sdlock : Z := 17.

(** [mmc_bread] and [mmc_bwrite]: start sector, number of sectors; the number
    of sectors transferred. *)
Class sdcard (D : Type) := SdCard {
  mmc_bread : Z -> Z -> M D (Z * bytes);
  mmc_bwrite : Z -> Z -> bytes -> M D Z;
}.

(** A card that works: it keeps the bytes written to it. *)
Class sdcard_laws (D : Type) `{sdcard D} := {
  sd_byte : D -> Z -> Z;
  mmc_bread_ok : forall d a n, exists b d', mmc_bread a n d = Done (n, b) d' /\
    (forall i, 0 <= i < SECTOR_SIZE * n -> b i = sd_byte d (SECTOR_SIZE * a + i)) /\ (forall i, sd_byte d' i = sd_byte d i);
  mmc_bwrite_ok : forall d a n b, exists d', mmc_bwrite a n b d = Done n d' /\
    forall i, sd_byte d' i = if decide (SECTOR_SIZE * a <= i < SECTOR_SIZE * (a + n)) then b (i - SECTOR_SIZE * a) else sd_byte d i;
}.

Record buf := Buf { b_flags : Z; b_dev : Z; b_blockno : Z; b_refcnt : Z; b_data : option bytes }.
Definition set_b_flags v (b : buf) := Buf v (b_dev b) (b_blockno b) (b_refcnt b) (b_data b).
Definition set_b_refcnt v (b : buf) := Buf (b_flags b) (b_dev b) (b_blockno b) v (b_data b).
Definition set_b_data v (b : buf) := Buf (b_flags b) (b_dev b) (b_blockno b) (b_refcnt b) v.
Definition buf0 : buf := Buf 0 0 0 0 None.

Section Bio.
Context {D : Type} `{!sdcard D}.
(** What a fresh object of the slab cache [BUFDATA] holds. *)
Context (junk : bytes).

Record bst := Bst {
  bufs : list buf;
  clink : list nat;
  sdque : list nat;
  ptinfo_lba : list Z;
  card : D;
  bcpu : cpu
}.
Definition set_bufs v (s : bst) := Bst v (clink s) (sdque s) (ptinfo_lba s) (card s) (bcpu s).
Definition set_clink v (s : bst) := Bst (bufs s) v (sdque s) (ptinfo_lba s) (card s) (bcpu s).
Definition set_sdque v (s : bst) := Bst (bufs s) (clink s) v (ptinfo_lba s) (card s) (bcpu s).
Definition set_card v (s : bst) := Bst (bufs s) (clink s) (sdque s) (ptinfo_lba s) v (bcpu s).
Definition set_bcpu v (s : bst) := Bst (bufs s) (clink s) (sdque s) (ptinfo_lba s) (card s) v.

Definition bacquire (a : Z) : M bst unit := zoom bcpu set_bcpu (acquire a).
Definition bunlock (a : Z) : M bst unit := zoom bcpu set_bcpu (release a).
Definition get_buf (i : nat) : M bst buf := fun s => deref (bufs s !! i) s.
Definition upd_buf (i : nat) (f : buf -> buf) : M bst unit :=
  b ← get_buf i; modify (fun s => set_bufs (<[i := f b]> (bufs s)) s).
(** The bytes behind [b->data]. *)
Definition buf_data (i : nat) : M bst bytes := b ← get_buf i; deref (b_data b).
Definition put_data (i : nat) (d : bytes) : M bst unit := buf_data i;; upd_buf i (set_b_data (Some d)).

Definition fs_lba (dev : Z) : M bst Z := fun s => deref (if dev <? 0 then None else ptinfo_lba s !! Z.to_nat dev) s.

(** ** sd.c *)

(** The loop of [sd_start]; each round takes one request off the queue. *)
Fixpoint sd_start_loop (n : nat) : M bst unit :=
  q ← gets sdque;
  match q with
  | [] => mret tt
  | i :: _ =>
      match n with
      | O => nofuel
      | S n =>
          b ← get_buf i;
          let blks := if b_dev b =? FATMINOR then 1 else BLKSECT in
          d ← deref (b_data b);
          (if bflag (b_flags b) B_DIRTY then
             r ← zoom card set_card (mmc_bwrite (b_blockno b) blks d);
             if negb (r =? blks) then panic ""%string else mret tt
           else
             r ← zoom card set_card (mmc_bread (b_blockno b) blks);
             upd_buf i (set_b_data (Some (mmove 0 0 (SECTOR_SIZE * blks) r.2 d)));;
             if negb (r.1 =? blks) then panic ""%string else mret tt);;
          upd_buf i (fun b => set_b_flags (Z.lor (b_flags b) B_VALID) b);;
          upd_buf i (fun b => set_b_flags (Z.land (b_flags b) (u32 (Z.lnot B_DIRTY))) b);;
          modify (fun s => set_sdque (tail (sdque s)) s);;
          sd_start_loop n
      end
  end.
Definition sd_start : M bst unit := q ← gets sdque; sd_start_loop (length q).

Definition sd_rw (i : nat) : M bst unit :=
  bacquire sdlock;;
  modify (fun s => set_sdque (sdque s ++ [i]) s);;
  q ← gets sdque;
  (if bool_decide (head q = Some i) then sd_start else mret tt);;
  b ← get_buf i;
  if negb (Z.land (b_flags b) (Z.lor B_VALID B_DIRTY) =? B_VALID) then bunlock sdlock;; blocked
  else bunlock sdlock.

(** ** bio.c *)

Fixpoint push_slots (n i : nat) : M bst unit :=
  match n with
  | O => mret tt
  | S n => modify (fun s => set_clink (clink s ++ [i]) s);; push_slots n (S i)
  end.
Definition binit : M bst unit :=
  zoom bcpu set_bcpu (initlock bcache_lock);;
  modify (set_clink []);;
  push_slots NBUF 0.

(** The first buffer of [l] that [f] accepts. *)
Definition first_buf (f : buf -> bool) (l : list nat) (t : list buf) : option nat :=
  head (filter (fun i => from_option f false (t !! i) = true) l).

Definition is_block (dev blockno : Z) (b : buf) : bool := (b_dev b =? dev) && (b_blockno b =? blockno).
Definition is_free (b : buf) : bool := (Z.land (b_flags b) B_BUSY =? 0) && (Z.land (b_flags b) B_DIRTY =? 0).

Definition bget (dev bno : Z) : M bst nat :=
  lba ← fs_lba dev;
  let blockno := u32 (lba + u32 (bno * BLKSECT)) in
  bacquire bcache_lock;;
  o ← gets (fun s => first_buf (is_block dev blockno) (clink s) (bufs s));
  match o with
  | Some i =>
      b ← get_buf i;
      if negb (bflag (b_flags b) B_BUSY) then
        upd_buf i (fun b => set_b_flags (Z.lor (b_flags b) B_BUSY) b);;
        upd_buf i (fun b => set_b_refcnt (u32 (b_refcnt b + 1)) b);;
        bunlock bcache_lock;;
        mret i
      else bunlock bcache_lock;; blocked
  | None =>
      o ← gets (fun s => first_buf is_free (rev (clink s)) (bufs s));
      match o with
      | Some i =>
          upd_buf i (fun b => Buf B_BUSY dev blockno 1 (match b_data b with None => Some junk | Some d => Some d end));;
          bunlock bcache_lock;;
          mret i
      | None => panic "bget: no buffers"%string
      end
  end.

Definition bread (dev bno : Z) : M bst nat :=
  i ← bget dev bno;
  b ← get_buf i;
  (if Z.land (b_flags b) B_VALID =? 0 then sd_rw i else mret tt);;
  mret i.

Definition bwrite (i : nat) : M bst unit :=
  b ← get_buf i;
  if Z.land (b_flags b) B_BUSY =? 0 then panic "bwrite"%string
  else
    upd_buf i (fun b => set_b_flags (Z.lor (b_flags b) B_DIRTY) b);;
    sd_rw i.

Definition brelse (i : nat) : M bst unit :=
  b ← get_buf i;
  if Z.land (b_flags b) B_BUSY =? 0 then panic "brelse"%string
  else
    bacquire bcache_lock;;
    modify (fun s => set_clink (filter (fun j => j <> i) (clink s)) s);;
    modify (fun s => set_clink (clink s ++ [i]) s);;
    upd_buf i (fun b => set_b_refcnt (u32 (b_refcnt b - 1)) b);;
    upd_buf i (fun b => set_b_flags (Z.land (b_flags b) (u32 (Z.lnot B_BUSY))) b);;
    bunlock bcache_lock.

End Bio.
Arguments bst D : clear implicits.
Arguments Bst {D}.
