(* ===== verification/BioInv.v ===== *)
(** * The buffer cache keeps one copy of a block

    [binv s h]: between calls the request queue is empty, every buffer that
    has data holds a different block of the device, and the buffers nobody
    holds agree with the card.  [h] gives the block of each buffer that is
    held: a client owes [brelse] a buffer that agrees with the card again. *)
From S2P Require Import Prelude Spinlock Bytes Bio.

Section BioInv.
Context {D : Type} `{sdcard_laws D}.
Local Notation bst := (bst D).
Implicit Types s : bst.
(** The device, the first sector of its partition, the file system's locks. *)
Context (junk : bytes) (dev lba : Z) (L : gset Z).
Hypothesis Hdev : 0 < dev < 4.
Hypothesis HLb : bcache_lock ∈ L.
Hypothesis HLs : sdlock ∈ L.

(** ** Locks *)
Local Abbreviation lk_free := (lk_free L).
Local Abbreviation lk_one := (lk_one L).

Lemma bacquire_ok a s : lk_free (bcpu s) -> a ∈ L -> exists c, bacquire a s = Done tt (set_bcpu c s) /\ lk_one a c.
Proof. intros Hc Ha. destruct (lk_acquire L a _ Hc Ha) as (c & E & Hc'). exists c. unfold bacquire, zoom. by rewrite E. Qed.

Lemma bunlock_ok a s : lk_one a (bcpu s) -> exists c, bunlock a s = Done tt (set_bcpu c s) /\ lk_free c.
Proof. intros Hc. destruct (lk_release L a _ Hc) as (c & E & Hc'). exists c. unfold bunlock, zoom. by rewrite E. Qed.

(** ** Buffers *)

Lemma get_buf_ok s i b : bufs s !! i = Some b -> get_buf i s = Done b s.
Proof. intros E. unfold get_buf, deref. by rewrite E. Qed.

Lemma upd_buf_ok s i b f : bufs s !! i = Some b -> upd_buf i f s = Done tt (set_bufs (<[i := f b]> (bufs s)) s).
Proof. intros E. unfold upd_buf. by rewrite (bind_Done _ _ _ _ _ (get_buf_ok _ _ _ E)). Qed.

Lemma buf_data_ok s i b d : bufs s !! i = Some b -> b_data b = Some d -> buf_data i s = Done d s.
Proof. intros E Ed. unfold buf_data. rewrite (bind_Done _ _ _ _ _ (get_buf_ok _ _ _ E)), Ed. done. Qed.

Lemma put_data_ok s i b d d' : bufs s !! i = Some b -> b_data b = Some d -> put_data i d' s = Done tt (set_bufs (<[i := set_b_data (Some d') b]> (bufs s)) s).
Proof. intros E Ed. unfold put_data. rewrite (bind_Done _ _ _ _ _ (buf_data_ok _ _ _ _ E Ed)). by apply upd_buf_ok. Qed.

Lemma first_buf_Some f l t i : first_buf f l t = Some i -> i ∈ l /\ exists b, t !! i = Some b /\ f b = true.
Proof.
  intros E. apply head_Some_elem_of, list_elem_of_filter in E as [E Hi]. split; [done|]. destruct (t !! i) as [b|]; [eauto|discriminate].
Qed.

Lemma first_buf_None f l t i b : first_buf f l t = None -> i ∈ l -> t !! i = Some b -> f b = false.
Proof.
  intros E Hi Hb. apply head_None in E. destruct (f b) eqn:Ef; [|done]. exfalso.
  assert (Hin : i ∈ filter (fun i => from_option f false (t !! i) = true) l) by (apply list_elem_of_filter; by rewrite Hb).
  rewrite E in Hin. by apply not_elem_of_nil in Hin.
Qed.

Definition sector (bno : Z) : Z := lba + BLKSECT * bno.
Definition in_range (bno : Z) : Prop := 0 <= bno /\ sector bno + BLKSECT <= 2 ^ 32.
(** Byte [k] of block [bno] on the card. *)
Definition dblk s (bno k : Z) : Z := sd_byte (card s) (SECTOR_SIZE * sector bno + k).
Definition on_disk s (bno : Z) (d : bytes) : Prop := forall k, 0 <= k < BSIZE -> d k = dblk s bno k.

Definition buf_ok s (h : gmap nat Z) (i : nat) (b : buf) : Prop :=
  match b_data b with
  | None => b = buf0 /\ h !! i = None
  | Some d => b_dev b = dev /\ exists bno, in_range bno /\ b_blockno b = sector bno /\
      (b_flags b = 3 /\ b_refcnt b = 1 /\ h !! i = Some bno \/
       b_flags b = 2 /\ b_refcnt b = 0 /\ h !! i = None /\ on_disk s bno d)
  end.

Record binv s (h : gmap nat Z) : Prop := {
  bi_len : length (bufs s) = NBUF;
  bi_link : clink s ≡ₚ seq 0 NBUF;
  bi_que : sdque s = [];
  bi_lba : ptinfo_lba s !! Z.to_nat dev = Some lba /\ 0 <= lba < 2 ^ 32;
  bi_cpu : lk_free (bcpu s);
  bi_buf : forall i b, bufs s !! i = Some b -> buf_ok s h i b;
  bi_uniq : forall i j b b', bufs s !! i = Some b -> bufs s !! j = Some b' -> b_data b <> None -> b_data b' <> None ->
    b_blockno b = b_blockno b' -> i = j;
  bi_held : forall i, is_Some (h !! i) -> is_Some (bufs s !! i)
}.

Lemma sector_inj a b : sector a = sector b -> a = b.
Proof. unfold sector, BLKSECT, BSIZE, SECTOR_SIZE. intros. change (4096 / 512) with 8 in *. lia. Qed.

Lemma held_buf s h i bno : binv s h -> h !! i = Some bno -> exists d, bufs s !! i = Some (Buf 3 dev (sector bno) 1 (Some d)) /\ in_range bno.
Proof.
  intros HI Hh. destruct (bi_held _ _ HI i ltac:(eauto)) as [b Hb]. pose proof (bi_buf _ _ HI _ _ Hb) as Hok. unfold buf_ok in Hok.
  destruct b as [f dv bn rc [d|]]; cbn in Hok.
  - destruct Hok as (-> & x & Hr & -> & [(-> & -> & E)|(_ & _ & E & _)]); [|congruence]. assert (x = bno) as -> by congruence. eauto.
  - destruct Hok as [_ E]. congruence.
Qed.

Lemma in_link s h i b : binv s h -> bufs s !! i = Some b -> i ∈ clink s.
Proof.
  intros HI Hb. rewrite (bi_link _ _ HI). apply elem_of_seq. apply lookup_lt_Some in Hb. rewrite (bi_len _ _ HI) in Hb. lia.
Qed.

Lemma link_in s h i : binv s h -> i ∈ clink s -> is_Some (bufs s !! i).
Proof. intros HI Hi. rewrite (bi_link _ _ HI) in Hi. apply elem_of_seq in Hi. apply lookup_lt_is_Some_2. rewrite (bi_len _ _ HI). lia. Qed.

(** ** Changing one buffer *)
Lemma binv_update s h h' i b' c card' : binv s h -> is_Some (bufs s !! i) -> lk_free c ->
  let s' := Bst (<[i := b']> (bufs s)) (clink s) [] (ptinfo_lba s) card' c in
  buf_ok s' h' i b' ->
  (forall j b, j <> i -> bufs s !! j = Some b -> buf_ok s h j b -> buf_ok s' h' j b) ->
  (forall j b, j <> i -> bufs s !! j = Some b -> b_data b <> None -> b_blockno b <> b_blockno b') ->
  (forall j, j <> i -> is_Some (h' !! j) -> is_Some (h !! j)) ->
  binv s' h'.
Proof.
  intros HI Hi Hc s' Hok Hoth Hun Hh. destruct HI as [H1 H2 H3 H4 H5 H6 H7 H8]. unfold s' in *. split; cbn [bufs clink sdque ptinfo_lba bcpu]; try done.
  - by rewrite length_insert.
  - intros j b. rewrite list_lookup_insert_Some. intros [(<- & <- & _)|[Hne Hb]]; [done|]. apply Hoth; auto.
  - intros j k b1 b2. rewrite !list_lookup_insert_Some. intros [(<- & <- & _)|[Hne Hb]] [(<- & <- & _)|[Hne' Hb']] Hd Hd' E; [done|..].
    + exfalso. by eapply Hun.
    + exfalso. by eapply Hun.
    + by eapply H7.
  - intros j Hj. destruct (decide (j = i)) as [->|Hne].
    + destruct Hi as [b Hb]. rewrite list_lookup_insert_eq by (by eapply lookup_lt_Some). eauto.
    + rewrite list_lookup_insert_ne by done. apply H8. by apply Hh.
Qed.

(** [buf_ok] only depends on the holders and on the blocks of the card. *)
Lemma buf_ok_frame s s' h h' j b : buf_ok s h j b -> h' !! j = h !! j ->
  (forall bno, b_data b <> None -> b_flags b = 2 -> b_blockno b = sector bno -> forall k, 0 <= k < BSIZE -> dblk s' bno k = dblk s bno k) -> buf_ok s' h' j b.
Proof.
  unfold buf_ok. destruct (b_data b) as [d|] eqn:Ed; intros Hok Eh Hd; [|by rewrite Eh].
  destruct Hok as (Hdv & bno & Hr & Eb & Hcase). split; [done|]. exists bno. split; [done|]. split; [done|]. rewrite Eh.
  destruct Hcase as [?|(? & ? & ? & Hon)]; [by left|right]. split_and!; try done. intros k Hk. rewrite (Hon k Hk). symmetry. by apply (Hd bno).
Qed.

(** ** The disk queue *)

Definition disk_write s card' bno (d : bytes) : Prop := forall a,
  sd_byte card' a = if decide (SECTOR_SIZE * sector bno <= a < SECTOR_SIZE * (sector bno + BLKSECT)) then d (a - SECTOR_SIZE * sector bno) else sd_byte (card s) a.

Lemma dblk_write s bno d card' c t x k : disk_write s card' bno d -> 0 <= k < BSIZE ->
  dblk (Bst t (clink s) [] (ptinfo_lba s) card' c) x k = if decide (x = bno) then d k else dblk s x k.
Proof.
  intros Hw Hk. unfold dblk. cbn [card]. rewrite Hw. unfold sector, BLKSECT, BSIZE, SECTOR_SIZE in *. change (4096 / 512) with 8 in *.
  destruct (decide (x = bno)) as [->|Hne].
  - rewrite decide_True by lia. f_equal. lia.
  - rewrite decide_False by lia. done.
Qed.

(** A request on an empty queue, given what [sd_start] makes of it. *)
Lemma sd_rw_start s i b' card' : lk_free (bcpu s) -> sdque s = [] -> is_Some (bufs s !! i) ->
  (forall c, sd_start (Bst (bufs s) (clink s) [i] (ptinfo_lba s) (card s) c) =
             Done tt (Bst (<[i := b']> (bufs s)) (clink s) [] (ptinfo_lba s) card' c)) ->
  b_flags b' = 3 ->
  exists c, sd_rw i s = Done tt (Bst (<[i := b']> (bufs s)) (clink s) [] (ptinfo_lba s) card' c) /\ lk_free c.
Proof.
  intros Hc Hq [b Hb] Hst Hf. unfold sd_rw. destruct (bacquire_ok sdlock s Hc HLs) as (c1 & E1 & Hc1). rewrite (bind_Done _ _ _ _ _ E1).
  set (s1 := Bst (bufs s) (clink s) [i] (ptinfo_lba s) (card s) c1).
  assert (Em : modify (fun s => set_sdque (sdque s ++ [i]) s) (set_bcpu c1 s) = Done tt s1).
  { unfold modify, set_sdque, set_bcpu. cbn [bufs clink sdque ptinfo_lba card bcpu]. by rewrite Hq. }
  rewrite (bind_Done _ _ _ _ _ Em), (bind_Done (gets sdque) _ s1 [i] s1 eq_refl). cbn [head]. rewrite bool_decide_eq_true_2 by done.
  rewrite (bind_Done _ _ _ _ _ (Hst c1)). set (s2 := Bst _ _ [] _ _ c1).
  assert (Hb2 : bufs s2 !! i = Some b') by (apply list_lookup_insert_eq; by eapply lookup_lt_Some).
  rewrite (bind_Done _ _ _ _ _ (get_buf_ok s2 i _ Hb2)), Hf. change (negb (Z.land 3 (Z.lor B_VALID B_DIRTY) =? B_VALID)) with false. cbv iota.
  destruct (bunlock_ok sdlock s2 Hc1) as (c2 & E2 & Hc2). exists c2. split; [exact E2|done].
Qed.

Lemma sd_start_loop_S n s i q b d : sdque s = i :: q -> bufs s !! i = Some b -> b_data b = Some d -> b_dev b = dev ->
  sd_start_loop (S n) s =
  ((if bflag (b_flags b) B_DIRTY then
      r ← zoom card set_card (mmc_bwrite (b_blockno b) BLKSECT d);
      if negb (r =? BLKSECT) then panic ""%string else mret tt
    else
      r ← zoom card set_card (mmc_bread (b_blockno b) BLKSECT);
      upd_buf i (set_b_data (Some (mmove 0 0 (SECTOR_SIZE * BLKSECT) r.2 d)));;
      if negb (r.1 =? BLKSECT) then panic ""%string else mret tt);;
   upd_buf i (fun b => set_b_flags (Z.lor (b_flags b) B_VALID) b);;
   upd_buf i (fun b => set_b_flags (Z.land (b_flags b) (u32 (Z.lnot B_DIRTY))) b);;
   modify (fun s => set_sdque (tail (sdque s)) s);;
   sd_start_loop n) s.
Proof.
  intros Hq Hb Hd Hv. cbn [sd_start_loop]. rewrite (bind_Done (gets sdque) _ s (sdque s) s eq_refl), Hq.
  rewrite (bind_Done _ _ _ _ _ (get_buf_ok s i b Hb)), Hd, Hv. rewrite (proj2 (Z.eqb_neq dev FATMINOR)) by (unfold FATMINOR; lia).
  rewrite (bind_Done (deref (Some d)) _ s d s eq_refl). done.
Qed.

(** The end of a round: flags, the queue, and the empty queue after it. *)
Lemma sd_finish n s i b q : bufs s !! i = Some b -> sdque s = [q] ->
  (upd_buf i (fun b => set_b_flags (Z.lor (b_flags b) B_VALID) b);;
   upd_buf i (fun b => set_b_flags (Z.land (b_flags b) (u32 (Z.lnot B_DIRTY))) b);;
   modify (fun s => set_sdque (tail (sdque s)) s);;
   sd_start_loop n) s =
  Done tt (Bst (<[i := set_b_flags (Z.land (Z.lor (b_flags b) B_VALID) (u32 (Z.lnot B_DIRTY))) b]> (bufs s)) (clink s) [] (ptinfo_lba s) (card s) (bcpu s)).
Proof.
  intros Hb Hq. assert (Hlt : (i < length (bufs s))%nat) by (by eapply lookup_lt_Some).
  rewrite (bind_Done _ _ _ _ _ (upd_buf_ok _ _ _ _ Hb)).
  erewrite (bind_Done (upd_buf i _)); [|apply upd_buf_ok; cbn [bufs set_bufs]; by apply list_lookup_insert_eq].
  cbn [bufs set_bufs]. rewrite list_insert_insert_eq. rewrite (bind_Done (modify _) _ _ tt _ eq_refl).
  unfold set_sdque, set_bufs. cbn [bufs clink sdque ptinfo_lba card bcpu]. rewrite Hq. cbn [tail]. destruct n; reflexivity.
Qed.

Lemma sd_rw_read s i bno rc d : lk_free (bcpu s) -> sdque s = [] -> bufs s !! i = Some (Buf 1 dev (sector bno) rc (Some d)) ->
  exists d' card' c, sd_rw i s = Done tt (Bst (<[i := Buf 3 dev (sector bno) rc (Some d')]> (bufs s)) (clink s) [] (ptinfo_lba s) card' c) /\
    lk_free c /\ (forall a, sd_byte card' a = sd_byte (card s) a) /\ on_disk s bno d'.
Proof.
  intros Hc Hq Hb. destruct (mmc_bread_ok (card s) (sector bno) BLKSECT) as (r & card' & Er & Hr & Hsame).
  set (d' := mmove 0 0 (SECTOR_SIZE * BLKSECT) r d).
  destruct (sd_rw_start s i (Buf 3 dev (sector bno) rc (Some d')) card' Hc Hq ltac:(eauto)) as (c & E & Hc2); [|done|].
  - intros c. set (s1 := Bst (bufs s) (clink s) [i] (ptinfo_lba s) (card s) c). unfold sd_start.
    rewrite (bind_Done (gets sdque) _ s1 [i] s1 eq_refl). cbn [length]. erewrite sd_start_loop_S; [|reflexivity|exact Hb|reflexivity|reflexivity].
    cbn [b_flags b_blockno]. change (bflag 1 B_DIRTY) with false. cbv iota.
    assert (Ez : zoom card set_card (mmc_bread (sector bno) BLKSECT) s1 = Done (BLKSECT, r) (set_card card' s1)) by (unfold zoom; cbn [card s1]; by rewrite Er).
    rewrite bind_assoc, (bind_Done _ _ _ _ _ Ez). cbn [fst snd]. rewrite bind_assoc, (bind_Done _ _ _ _ _ (upd_buf_ok (set_card card' s1) i _ _ Hb)), Z.eqb_refl. cbn [negb].
    rewrite (bind_Done (mret tt) _ _ tt _ eq_refl). erewrite sd_finish; [|cbn [bufs set_bufs]; apply list_lookup_insert_eq; by eapply lookup_lt_Some|reflexivity].
    cbn [bufs set_bufs clink ptinfo_lba card set_card bcpu s1]. rewrite list_insert_insert_eq. reflexivity.
  - exists d', card', c. split; [exact E|]. split; [done|]. split; [done|]. intros k Hk. unfold d'.
    rewrite mmove_in by (unfold BLKSECT, BSIZE, SECTOR_SIZE in *; change (4096 / 512) with 8; lia).
    rewrite Hr by (unfold BLKSECT, BSIZE, SECTOR_SIZE in *; change (4096 / 512) with 8; lia). unfold dblk. f_equal. lia.
Qed.

Lemma sd_rw_write s i bno rc d : lk_free (bcpu s) -> sdque s = [] -> bufs s !! i = Some (Buf 7 dev (sector bno) rc (Some d)) ->
  exists card' c, sd_rw i s = Done tt (Bst (<[i := Buf 3 dev (sector bno) rc (Some d)]> (bufs s)) (clink s) [] (ptinfo_lba s) card' c) /\
    lk_free c /\ disk_write s card' bno d.
Proof.
  intros Hc Hq Hb. destruct (mmc_bwrite_ok (card s) (sector bno) BLKSECT d) as (card' & Er & Hw).
  destruct (sd_rw_start s i (Buf 3 dev (sector bno) rc (Some d)) card' Hc Hq ltac:(eauto)) as (c & E & Hc2); [|done|].
  - intros c. set (s1 := Bst (bufs s) (clink s) [i] (ptinfo_lba s) (card s) c). unfold sd_start.
    rewrite (bind_Done (gets sdque) _ s1 [i] s1 eq_refl). cbn [length]. erewrite sd_start_loop_S; [|reflexivity|exact Hb|reflexivity|reflexivity].
    cbn [b_flags b_blockno]. change (bflag 7 B_DIRTY) with true. cbv iota.
    assert (Ez : zoom card set_card (mmc_bwrite (sector bno) BLKSECT d) s1 = Done BLKSECT (set_card card' s1)) by (unfold zoom; cbn [card s1]; by rewrite Er).
    rewrite bind_assoc, (bind_Done _ _ _ _ _ Ez), Z.eqb_refl. cbn [negb].
    rewrite (bind_Done (mret tt) _ _ tt _ eq_refl). by erewrite sd_finish; [|exact Hb|reflexivity].
  - exists card', c. split; [exact E|]. split; [done|exact Hw].
Qed.

(** ** bread *)

Lemma fs_lba_ok s h : binv s h -> fs_lba dev s = Done lba s.
Proof.
  intros HI. unfold fs_lba. rewrite (proj2 (Z.ltb_ge _ _)) by lia. destruct (bi_lba _ _ HI) as [E _]. rewrite E. done.
Qed.

Lemma sector_u32 bno : in_range bno -> 0 <= lba -> u32 (lba + u32 (bno * BLKSECT)) = sector bno.
Proof.
  intros [H1 H2] Hl. unfold sector, BLKSECT, BSIZE, SECTOR_SIZE in *. change (4096 / 512) with 8 in *.
  rewrite (wrap_small 32 (bno * 8)) by lia. rewrite wrap_small by lia. lia.
Qed.

Definition held_by (h : gmap nat Z) (bno : Z) : Prop := exists i, h !! i = Some bno.

(** A buffer is free for another block. *)
Definition has_idle s : Prop := exists i b, bufs s !! i = Some b /\ is_free b = true.

(** What [bread] leaves when it returns buffer [i] for block [bno]. *)
Record bread_post s (h : gmap nat Z) (bno : Z) (i : nat) s' : Prop := {
  bp_inv : binv s' (<[i := bno]> h);
  bp_fresh : h !! i = None;
  bp_buf : exists d, bufs s' !! i = Some (Buf 3 dev (sector bno) 1 (Some d)) /\ on_disk s bno d;
  bp_card : forall a, sd_byte (card s') a = sd_byte (card s) a;
  bp_other : forall j b, j <> i -> bufs s !! j = Some b -> bufs s' !! j = Some b;
  bp_link : clink s' = clink s;
  bp_pick : first_buf (is_block dev (sector bno)) (clink s) (bufs s) = None -> first_buf is_free (rev (clink s)) (bufs s) = Some i
}.

Lemma find_block s h bno i : binv s h -> in_range bno -> first_buf (is_block dev (sector bno)) (clink s) (bufs s) = Some i ->
  (exists d, bufs s !! i = Some (Buf 3 dev (sector bno) 1 (Some d)) /\ h !! i = Some bno) \/
  (exists d, bufs s !! i = Some (Buf 2 dev (sector bno) 0 (Some d)) /\ h !! i = None /\ on_disk s bno d).
Proof.
  intros HI Hr E. apply first_buf_Some in E as [_ (b & Hb & Ef)]. unfold is_block in Ef. bool_hyps.
  pose proof (bi_buf _ _ HI _ _ Hb) as Hok. unfold buf_ok in Hok. destruct b as [f dv bn rc [d|]]; cbn in *.
  - destruct Hok as (-> & x & _ & E2 & Hcase). assert (x = bno) as -> by (apply sector_inj; congruence). subst bn.
    destruct Hcase as [(-> & -> & Eh)|(-> & -> & Eh & Hon)]; [left; eauto|right; eauto].
  - destruct Hok as [[= -> -> -> ->] _]. lia.
Qed.

Lemma no_block s h bno j b : binv s h -> in_range bno -> first_buf (is_block dev (sector bno)) (clink s) (bufs s) = None ->
  bufs s !! j = Some b -> b_data b <> None -> b_blockno b <> sector bno.
Proof.
  intros HI Hr E Hb Hd Hs. pose proof (first_buf_None _ _ _ _ _ E (in_link _ _ _ _ HI Hb) Hb) as Ef.
  pose proof (bi_buf _ _ HI _ _ Hb) as Hok. unfold buf_ok in Hok. destruct (b_data b); [|done]. destruct Hok as (Ev & _).
  unfold is_block in Ef. rewrite Ev, Hs, !Z.eqb_refl in Ef. discriminate.
Qed.

(** A held block is never handed out twice: the caller sleeps. *)
Lemma bread_held s h bno : binv s h -> in_range bno -> held_by h bno -> exists s', bread junk dev bno s = Blocked s'.
Proof.
  intros HI Hr [i Hi]. destruct (held_buf _ _ _ _ HI Hi) as (d & Hb & _). destruct (bi_lba _ _ HI) as [_ Hl].
  unfold bread, bget. rewrite !bind_assoc. rewrite (bind_Done _ _ _ _ _ (fs_lba_ok _ _ HI)). cbv zeta. rewrite sector_u32 by (done || lia).
  destruct (bacquire_ok bcache_lock s (bi_cpu _ _ HI) HLb) as (c1 & E1 & Hc1). rewrite !bind_assoc, (bind_Done _ _ _ _ _ E1).
  rewrite bind_assoc, (bind_Done (gets _) _ (set_bcpu c1 s) _ _ eq_refl). cbn [clink bufs set_bcpu].
  destruct (first_buf (is_block dev (sector bno)) (clink s) (bufs s)) as [k|] eqn:E.
  - destruct (find_block _ _ _ _ HI Hr E) as [(d' & Hb' & Hh)|(d' & Hb' & Hh & _)].
    + rewrite bind_assoc, (bind_Done _ _ _ _ _ (get_buf_ok (set_bcpu c1 s) k _ Hb')). cbn [b_flags]. change (negb (bflag 3 B_BUSY)) with false. cbv iota.
      destruct (bunlock_ok bcache_lock (set_bcpu c1 s) Hc1) as (c2 & E2 & _). rewrite bind_assoc, (bind_Done _ _ _ _ _ E2). unfold blocked. eexists. reflexivity.
    + assert (k = i) as -> by (by eapply (bi_uniq _ _ HI)). congruence.
  - exfalso. by eapply no_block.
Qed.

Lemma bufs_insert_same s i b b' : bufs s !! i = Some b -> <[i := b']> (bufs s) !! i = Some b'.
Proof. intros Hb. apply list_lookup_insert_eq. by eapply lookup_lt_Some. Qed.

Lemma bread_ok s h bno : binv s h -> in_range bno -> ~ held_by h bno -> has_idle s ->
  exists i s', bread junk dev bno s = Done i s' /\ bread_post s h bno i s'.
Proof.
  intros HI Hr Hnh Hidle. destruct (bi_lba _ _ HI) as [_ Hl].
  unfold bread, bget. rewrite !bind_assoc. rewrite (bind_Done _ _ _ _ _ (fs_lba_ok _ _ HI)). cbv zeta. rewrite sector_u32 by (done || lia).
  destruct (bacquire_ok bcache_lock s (bi_cpu _ _ HI) HLb) as (c1 & E1 & Hc1). rewrite !bind_assoc, (bind_Done _ _ _ _ _ E1).
  rewrite bind_assoc, (bind_Done (gets _) _ (set_bcpu c1 s) _ _ eq_refl). cbn [clink bufs set_bcpu].
  destruct (first_buf (is_block dev (sector bno)) (clink s) (bufs s)) as [k|] eqn:E.
  - destruct (find_block _ _ _ _ HI Hr E) as [(d & Hb & Hh)|(d & Hb & Hh & Hon)]; [exfalso; apply Hnh; by exists k|].
    set (s1 := set_bcpu c1 s). rewrite bind_assoc, (bind_Done _ _ _ _ _ (get_buf_ok s1 k _ Hb)). cbn [b_flags]. change (negb (bflag 2 B_BUSY)) with true. cbv iota.
    rewrite bind_assoc, (bind_Done _ _ _ _ _ (upd_buf_ok s1 k _ _ Hb)), bind_assoc.
    erewrite (bind_Done (upd_buf k _)); [|apply upd_buf_ok; by eapply bufs_insert_same]. cbn [bufs set_bufs]. rewrite list_insert_insert_eq.
    unfold set_b_refcnt, set_b_flags. cbn [b_flags b_dev b_blockno b_refcnt b_data].
    change (Z.lor 2 B_BUSY) with 3. change (u32 (0 + 1)) with 1. set (s2 := set_bufs _ (set_bufs _ s1)).
    destruct (bunlock_ok bcache_lock s2 Hc1) as (c2 & E2 & Hc2). rewrite bind_assoc, (bind_Done _ _ _ _ _ E2), (bind_Done (mret k) _ _ k _ eq_refl).
    assert (Hb2 : bufs (set_bcpu c2 s2) !! k = Some (Buf 3 dev (sector bno) 1 (Some d))) by (by eapply bufs_insert_same).
    rewrite (bind_Done _ _ _ _ _ (get_buf_ok _ _ _ Hb2)). cbn [b_flags]. change (Z.land 3 B_VALID =? 0) with false. cbv iota.
    rewrite (bind_Done (mret tt) _ _ tt _ eq_refl). exists k, (set_bcpu c2 s2). split; [done|]. split; try done.
    + assert (Es : set_bcpu c2 s2 = Bst (<[k := Buf 3 dev (sector bno) 1 (Some d)]> (bufs s)) (clink s) [] (ptinfo_lba s) (card s) c2).
      { unfold s2, s1, set_bufs, set_bcpu. cbn. by rewrite (bi_que _ _ HI). }
      rewrite Es. apply (binv_update s h); [done|eauto|done| | | |].
      * unfold buf_ok. cbn. split; [done|]. exists bno. split; [done|]. split; [done|]. left. by rewrite lookup_insert_eq.
      * intros j b Hne Hj Hok. eapply buf_ok_frame; [exact Hok|by rewrite lookup_insert_ne|done].
      * intros j b Hne Hj Hd Eb. apply Hne. eapply (bi_uniq _ _ HI); [exact Hj|exact Hb|done|done|done].
      * intros j Hne. by rewrite lookup_insert_ne.
    + eauto.
    + intros j b Hne Hj. cbn. by rewrite list_lookup_insert_ne.
    + congruence.
  - rewrite bind_assoc, (bind_Done (gets _) _ (set_bcpu c1 s) _ _ eq_refl). cbn [clink bufs set_bcpu].
    destruct (first_buf is_free (rev (clink s)) (bufs s)) as [k|] eqn:Ek.
    2:{ exfalso. destruct Hidle as (j & b & Hj & Hf). rewrite (first_buf_None _ _ _ j b Ek) in Hf; [done| |done].
        rewrite list_elem_of_In, <- in_rev, <- list_elem_of_In. by eapply in_link. }
    pose proof Ek as Ek0. apply first_buf_Some in Ek as [_ (b & Hb & Hf)]. set (s1 := set_bcpu c1 s).
    assert (Hokb := bi_buf _ _ HI _ _ Hb). 
    assert (Hh : h !! k = None).
    { unfold buf_ok in Hokb. destruct (b_data b); [|apply Hokb]. destruct Hokb as (_ & x & _ & _ & [(Ef & _)|(_ & _ & ? & _)]); [|done].
      unfold is_free in Hf. rewrite Ef in Hf. discriminate. }
    set (dk := match b_data b with None => junk | Some d => d end).
    rewrite bind_assoc, (bind_Done _ _ _ _ _ (upd_buf_ok s1 k _ _ Hb)).
    replace (match b_data b with None => Some junk | Some d => Some d end) with (Some dk) by (unfold dk; by destruct (b_data b)).
    set (s2 := set_bufs _ s1). destruct (bunlock_ok bcache_lock s2 Hc1) as (c2 & E2 & Hc2). rewrite bind_assoc, (bind_Done _ _ _ _ _ E2), (bind_Done (mret k) _ _ k _ eq_refl).
    set (s3 := set_bcpu c2 s2). assert (Hb3 : bufs s3 !! k = Some (Buf 1 dev (sector bno) 1 (Some dk))) by (by eapply bufs_insert_same).
    rewrite (bind_Done _ _ _ _ _ (get_buf_ok _ _ _ Hb3)). cbn [b_flags]. change (Z.land B_BUSY B_VALID =? 0) with true. cbv iota.
    destruct (sd_rw_read s3 k bno 1 dk Hc2 (bi_que _ _ HI) Hb3) as (d' & card' & c3 & E3 & Hc3 & Hsame & Hon).
    rewrite (bind_Done _ _ _ _ _ E3). do 2 eexists. split; [reflexivity|].
    assert (Hne : forall j b', j <> k -> bufs s !! j = Some b' -> b_data b' <> None -> b_blockno b' <> sector bno).
    { intros j b' _ Hj Hd. by eapply no_block. }
    cbn [bufs clink ptinfo_lba s3 s2 set_bcpu set_bufs s1]. rewrite list_insert_insert_eq. split; try done.
    + apply (binv_update s h); [done|eauto|done| | |done|].
      * unfold buf_ok. cbn. split; [done|]. exists bno. split; [done|]. split; [done|]. left. by rewrite lookup_insert_eq.
      * intros j b' Hj Hb' Hok. eapply buf_ok_frame; [exact Hok|by rewrite lookup_insert_ne|]. intros x _ _ _ q _. unfold dblk. cbn [card]. apply Hsame.
      * intros j Hj. by rewrite lookup_insert_ne.
    + exists d'. split; [by eapply bufs_insert_same|]. exact Hon.
    + intros j b' Hj Hb'. cbn. by rewrite list_lookup_insert_ne.
Qed.

(** Fewer holders than buffers leave one to recycle. *)
Lemma idle_exists s h : binv s h -> (size h < NBUF)%nat -> has_idle s.
Proof.
  intros HI Hsz. assert (Hex : exists i, i ∈ seq 0 NBUF /\ h !! i = None).
  { destruct (decide (Exists (fun i => h !! i = None) (seq 0 NBUF))) as [E|E]; [by apply Exists_exists|]. exfalso.
    assert (Hsub : list_to_set (seq 0 NBUF) ⊆ dom h).
    { intros i Hi. apply elem_of_list_to_set in Hi. apply elem_of_dom. destruct (h !! i) eqn:Ei; [eauto|]. exfalso. apply E, Exists_exists. eauto. }
    apply subseteq_size in Hsub. rewrite size_dom, size_list_to_set in Hsub by apply NoDup_seq. rewrite length_seq in Hsub. lia. }
  destruct Hex as (i & Hi & Hn). apply elem_of_seq in Hi.
  destruct (lookup_lt_is_Some_2 (bufs s) i) as [b Hb]; [rewrite (bi_len _ _ HI); lia|]. exists i, b. split; [done|].
  pose proof (bi_buf _ _ HI _ _ Hb) as Hok. unfold buf_ok in Hok. unfold is_free. destruct (b_data b).
  - destruct Hok as (_ & x & _ & _ & [(_ & _ & E)|(Ef & _)]); [congruence|]. rewrite Ef. done.
  - destruct Hok as [-> _]. done.
Qed.

(** ** Writing and releasing *)

Lemma put_held s h i bno d : binv s h -> h !! i = Some bno ->
  exists s', put_data i d s = Done tt s' /\ binv s' h /\ bufs s' !! i = Some (Buf 3 dev (sector bno) 1 (Some d)) /\
    card s' = card s /\ (forall j b, j <> i -> bufs s !! j = Some b -> bufs s' !! j = Some b).
Proof.
  intros HI Hh. destruct (held_buf _ _ _ _ HI Hh) as (d0 & Hb & Hr). rewrite (put_data_ok s i _ d0 d Hb eq_refl).
  eexists. split; [reflexivity|]. unfold set_b_data. cbn [b_flags b_dev b_blockno b_refcnt].
  assert (Es : set_bufs (<[i := Buf 3 dev (sector bno) 1 (Some d)]> (bufs s)) s =
    Bst (<[i := Buf 3 dev (sector bno) 1 (Some d)]> (bufs s)) (clink s) [] (ptinfo_lba s) (card s) (bcpu s)) by (unfold set_bufs; by rewrite (bi_que _ _ HI)).
  rewrite Es. split; [|split; [by eapply bufs_insert_same|split; [done|]]].
  - apply (binv_update s h); [done|eauto|apply HI| | | |done].
    + unfold buf_ok. cbn. split; [done|]. exists bno. split; [done|]. split; [done|]. by left.
    + intros j b Hne Hj Hok. eapply buf_ok_frame; [exact Hok|done|done].
    + intros j b Hne Hj Hd E. apply Hne. by eapply (bi_uniq _ _ HI).
  - intros j b Hne Hj. cbn. by rewrite list_lookup_insert_ne.
Qed.

Lemma bwrite_ok s h i bno d : binv s h -> h !! i = Some bno -> bufs s !! i = Some (Buf 3 dev (sector bno) 1 (Some d)) ->
  (forall j, h !! j = Some bno -> j = i) ->
  exists s', bwrite i s = Done tt s' /\ binv s' h /\ bufs s' = bufs s /\
    (forall x k, 0 <= k < BSIZE -> dblk s' x k = if decide (x = bno) then d k else dblk s x k).
Proof.
  intros HI Hh Hb Huq. unfold bwrite. rewrite (bind_Done _ _ _ _ _ (get_buf_ok _ _ _ Hb)). cbn [b_flags]. change (Z.land 3 B_BUSY =? 0) with false. cbv iota.
  rewrite (bind_Done _ _ _ _ _ (upd_buf_ok _ _ _ _ Hb)). unfold set_b_flags. cbn [b_flags b_dev b_blockno b_refcnt b_data]. change (Z.lor 3 B_DIRTY) with 7.
  set (s1 := set_bufs _ s). assert (Hb1 : bufs s1 !! i = Some (Buf 7 dev (sector bno) 1 (Some d))) by (by eapply bufs_insert_same).
  destruct (sd_rw_write s1 i bno 1 d (bi_cpu _ _ HI) (bi_que _ _ HI) Hb1) as (card' & c & E & Hc & Hw).
  rewrite E. eexists. split; [reflexivity|]. cbn [bufs clink ptinfo_lba s1 set_bufs]. rewrite list_insert_insert_eq.
  assert (Hd : forall x k, 0 <= k < BSIZE -> dblk (Bst (<[i := Buf 3 dev (sector bno) 1 (Some d)]> (bufs s)) (clink s) [] (ptinfo_lba s) card' c) x k =
    if decide (x = bno) then d k else dblk s x k) by (intros x k Hk; by apply (dblk_write s)).
  split; [|split; [by apply list_insert_id|exact Hd]]. apply (binv_update s h); [done|eauto|done| | | |done].
  - unfold buf_ok. cbn. split; [done|]. exists bno. destruct (held_buf _ _ _ _ HI Hh) as (? & _ & ?). split; [done|]. split; [done|]. by left.
  - intros j b Hne Hj Hok. eapply buf_ok_frame; [exact Hok|done|]. intros x Hdn _ Ex k Hk. rewrite Hd by done. rewrite decide_False; [done|].
    intros ->. apply Hne. eapply (bi_uniq _ _ HI); [exact Hj|exact Hb|done|done|done].
  - intros j b Hne Hj Hdn E2. apply Hne. by eapply (bi_uniq _ _ HI).
Qed.

Lemma brelse_ok s h i bno d : binv s h -> h !! i = Some bno -> bufs s !! i = Some (Buf 3 dev (sector bno) 1 (Some d)) -> on_disk s bno d ->
  exists s', brelse i s = Done tt s' /\ binv s' (delete i h) /\ card s' = card s /\
    (forall j b, j <> i -> bufs s !! j = Some b -> bufs s' !! j = Some b) /\
    bufs s' !! i = Some (Buf 2 dev (sector bno) 0 (Some d)) /\ last (clink s') = Some i.
Proof.
  intros HI Hh Hb Hon. unfold brelse. rewrite (bind_Done _ _ _ _ _ (get_buf_ok _ _ _ Hb)). cbn [b_flags]. change (Z.land 3 B_BUSY =? 0) with false. cbv iota.
  destruct (bacquire_ok bcache_lock s (bi_cpu _ _ HI) HLb) as (c1 & E1 & Hc1). rewrite (bind_Done _ _ _ _ _ E1).
  set (l1 := filter (fun j => j <> i) (clink s)).
  rewrite bind_modify. cbn [clink set_bcpu]. fold l1. rewrite bind_modify. cbn [clink set_clink].
  set (s1 := set_clink (l1 ++ [i]) (set_bcpu c1 s)).
  rewrite (bind_Done _ _ _ _ _ (upd_buf_ok s1 i _ _ Hb)).
  erewrite (bind_Done (upd_buf i _)); [|apply upd_buf_ok; by eapply bufs_insert_same]. cbn [bufs set_bufs]. rewrite list_insert_insert_eq.
  unfold set_b_refcnt, set_b_flags. cbn [b_flags b_dev b_blockno b_refcnt b_data].
  change (Z.land 3 (u32 (Z.lnot B_BUSY))) with 2. change (u32 (1 - 1)) with 0. set (s2 := set_bufs _ (set_bufs _ s1)).
  destruct (bunlock_ok bcache_lock s2 Hc1) as (c2 & E2 & Hc2). rewrite E2. eexists. split; [reflexivity|].
  assert (Hlink : l1 ++ [i] ≡ₚ seq 0 NBUF).
  { rewrite <- (bi_link _ _ HI). unfold l1. pose proof (in_link _ _ _ _ HI Hb) as Hin.
    assert (Hnd : NoDup (clink s)) by (rewrite (bi_link _ _ HI); apply NoDup_seq). apply NoDup_Permutation; [|done|].
    - apply NoDup_app. split; [by apply NoDup_filter|]. split; [|apply NoDup_singleton].
      intros x Hx Hxi. apply list_elem_of_filter in Hx as [Hx _]. by apply list_elem_of_singleton in Hxi.
    - intros x. rewrite elem_of_app, list_elem_of_filter, list_elem_of_singleton. destruct (decide (x = i)) as [->|]; tauto. }
  set (s0 := set_clink (l1 ++ [i]) s). assert (HI0 : binv s0 h).
  { destruct HI as [H1 H2 H3 H4 H5 H6 H7 H8]. split; try done. }
  assert (Es : set_bcpu c2 s2 = Bst (<[i := Buf 2 dev (sector bno) 0 (Some d)]> (bufs s0)) (clink s0) [] (ptinfo_lba s0) (card s0) c2).
  { unfold s2, s1, set_bufs, set_bcpu, set_clink, s0. cbn. by rewrite (bi_que _ _ HI). }
  rewrite Es. split; [|split; [done|split; [|split; [by eapply bufs_insert_same|cbn; apply last_snoc]]]].
  - destruct (held_buf _ _ _ _ HI Hh) as (? & _ & Hr). apply (binv_update s0 h); [done|by exists (Buf 3 dev (sector bno) 1 (Some d))|done| | | |].
    + unfold buf_ok. cbn. split; [done|]. exists bno. split; [done|]. split; [done|]. right. by rewrite lookup_delete_eq.
    + intros j b Hne Hj Hok. eapply buf_ok_frame; [exact Hok|by rewrite lookup_delete_ne|done].
    + intros j b Hne Hj Hdn E3. apply Hne. by eapply (bi_uniq _ _ HI).
    + intros j Hne. by rewrite lookup_delete_ne.
  - intros j b Hne Hj. cbn. by rewrite list_lookup_insert_ne.
Qed.

End BioInv.
