(* ===== verification/BioProps.v ===== *)
(** * Properties of the buffer cache

    A client that reads and writes whole blocks through the cache cannot tell
    it from an array of blocks; a held block is never handed out twice. *)
From S2P Require Import Prelude Spinlock Bytes Bio BioInv.

(** ** Clients of the cache *)
Section Clients.
Context {D : Type} `{!sdcard D} (junk : bytes).

(** What the file system code does with a block: read it, or replace it. *)
Inductive block_op := ReadBlock (bno : Z) | WriteBlock (bno : Z) (d : bytes).

Definition op_block (o : block_op) : Z := match o with ReadBlock b => b | WriteBlock b _ => b end.

Definition run_op (dev : Z) (o : block_op) : M (bst D) bytes :=
  match o with
  | ReadBlock bno => i ← bread junk dev bno; d ← buf_data i; brelse i;; mret d
  | WriteBlock bno d => i ← bread junk dev bno; put_data i d;; bwrite i;; brelse i;; mret d
  end.
Fixpoint run_ops (dev : Z) (l : list block_op) : M (bst D) (list bytes) :=
  match l with
  | [] => mret []
  | o :: l => d ← run_op dev o; r ← run_ops dev l; mret (d :: r)
  end.
End Clients.

(** The same operations on an array of blocks. *)
Definition spec_op (o : block_op) (f : Z -> bytes) : bytes * (Z -> bytes) :=
  match o with
  | ReadBlock bno => (f bno, f)
  | WriteBlock bno d => (d, fun x => if decide (x = bno) then d else f x)
  end.
Fixpoint spec_ops (l : list block_op) (f : Z -> bytes) : list bytes * (Z -> bytes) :=
  match l with
  | [] => ([], f)
  | o :: l => let r := spec_op o f in let r' := spec_ops l r.2 in (r.1 :: r'.1, r'.2)
  end.
(** Two memories hold the same block. *)
Definition same_block (d d' : bytes) : Prop := forall k, 0 <= k < BSIZE -> d k = d' k.

Section Props.
Context {D : Type} `{sdcard_laws D}.
Local Notation bst := (bst D).
Implicit Types s : bst.
Context (junk : bytes) (dev lba : Z) (L : gset Z).

(** One operation of a client on an unheld cache. *)
Lemma run_op_ok s f o : 0 < dev < 4 -> bcache_lock ∈ L -> sdlock ∈ L -> binv dev lba L s ∅ -> in_range lba (op_block o) ->
  (forall bno, on_disk lba s bno (f bno)) ->
  exists d s', run_op junk dev o s = Done d s' /\ binv dev lba L s' ∅ /\ same_block d (spec_op o f).1 /\
    forall bno, on_disk lba s' bno ((spec_op o f).2 bno).
Proof.
  intros Hdev HLb HLs HI Hr Hf. assert (Hnh : ~ held_by ∅ (op_block o)) by (intros [i Hi]; by rewrite lookup_empty in Hi).
  assert (Hsz : (size (∅ : gmap nat Z) < NBUF)%nat) by (rewrite map_size_empty; unfold NBUF; lia).
  destruct (bread_ok junk dev lba L Hdev HLb HLs s ∅ _ HI Hr Hnh (idle_exists dev lba L s ∅ HI Hsz)) as (i & s1 & E1 & [HI1 _ (d0 & Hb1 & Hon1) Hcd _ _ _]).
  assert (Edel : delete i (<[i := op_block o]> ∅) = (∅ : gmap nat Z)) by (by rewrite delete_insert_eq, delete_empty).
  assert (Hh1 : <[i := op_block o]> ∅ !! i = Some (op_block o)) by apply lookup_insert_eq.
  destruct o as [bno|bno d]; cbn [op_block run_op] in *; rewrite (bind_Done _ _ _ _ _ E1).
  - rewrite (bind_Done _ _ _ _ _ (buf_data_ok s1 i _ d0 Hb1 eq_refl)).
    assert (Hon : on_disk lba s1 bno d0) by (intros k Hk; rewrite (Hon1 k Hk); unfold dblk; by rewrite Hcd).
    destruct (brelse_ok dev lba L Hdev HLb s1 _ i bno d0 HI1 Hh1 Hb1 Hon) as (s2 & E2 & HI2 & Hcd2 & _). rewrite Edel in HI2.
    rewrite (bind_Done _ _ _ _ _ E2). exists d0, s2. split; [done|]. split; [done|]. split.
    + intros k Hk. cbn. rewrite (Hon1 k Hk). symmetry. by apply Hf.
    + intros x k Hk. cbn. rewrite (Hf x k Hk). unfold dblk. by rewrite Hcd2, Hcd.
  - destruct (put_held dev lba L s1 _ i bno d HI1 Hh1) as (s2 & E2 & HI2 & Hb2 & Hcd2 & _). rewrite (bind_Done _ _ _ _ _ E2).
    destruct (bwrite_ok dev lba L Hdev HLs s2 _ i bno d HI2 Hh1 Hb2) as (s3 & E3 & HI3 & Hbf3 & Hd3).
    { intros j. rewrite lookup_insert_Some, lookup_empty. naive_solver. }
    rewrite (bind_Done _ _ _ _ _ E3).
    assert (Hon : on_disk lba s3 bno d) by (intros k Hk; rewrite Hd3 by done; by rewrite decide_True by done).
    destruct (brelse_ok dev lba L Hdev HLb s3 _ i bno d HI3 Hh1 ltac:(by rewrite Hbf3) Hon) as (s4 & E4 & HI4 & Hcd4 & _). rewrite Edel in HI4.
    rewrite (bind_Done _ _ _ _ _ E4). exists d, s4. split; [done|]. split; [done|]. split; [done|].
    intros x k Hk. unfold dblk. rewrite Hcd4. fold (dblk lba s3 x k). rewrite Hd3 by done. cbn. destruct (decide (x = bno)); [done|].
    rewrite (Hf x k Hk). unfold dblk. by rewrite Hcd2, Hcd.
Qed.

(** C22: [bread] on any block of the partition: a block somebody holds makes
    the caller sleep; otherwise it returns a buffer nobody held, now held for
    the caller and filled with the block's bytes on the card, without losing
    anything written before.  No two buffers ever hold the same block. *)
Theorem bread_correct s h bno : 0 < dev < 4 -> bcache_lock ∈ L -> sdlock ∈ L -> binv dev lba L s h -> in_range lba bno -> (size h < NBUF)%nat ->
  if bool_decide (exists i, i ∈ dom h /\ h !! i = Some bno) then exists s', bread junk dev bno s = Blocked s'
  else exists i d s', bread junk dev bno s = Done i s' /\ h !! i = None /\ binv dev lba L s' (<[i := bno]> h) /\
    buf_data i s' = Done d s' /\ on_disk lba s bno d /\ on_disk lba s' bno d /\
    (forall j x, h !! j = Some x -> bufs s' !! j = bufs s !! j).
Proof.
  intros Hdev HLb HLs HI Hr Hsz. case_bool_decide as Hh.
  - destruct Hh as (i & _ & Hi). eapply bread_held; eauto. by exists i.
  - assert (Hnh : ~ held_by h bno) by (intros [i Hi]; apply Hh; exists i; split; [apply elem_of_dom; eauto|done]).
    destruct (bread_ok junk dev lba L Hdev HLb HLs s h bno HI Hr Hnh (idle_exists dev lba L s h HI Hsz)) as (i & s' & E & [HI' Hf (d & Hb & Hon) Hcd Ho _ _ ]).
    exists i, d, s'. split; [done|]. split; [done|]. split; [done|]. split; [by eapply buf_data_ok|]. split; [done|]. split.
    + intros k Hk. rewrite (Hon k Hk). unfold dblk. by rewrite Hcd.
    + intros j x Hj. assert (Hne : j <> i) by congruence. destruct (held_buf _ _ _ _ _ _ _ HI Hj) as (dj & Hbj & _). rewrite Hbj. by apply Ho.
Qed.

(** C16: any sequence of block reads and writes through the cache, whatever it
    evicts and recycles, returns what an array of blocks would return and
    leaves the card holding that array. *)
Theorem cache_refines_disk l s f : 0 < dev < 4 -> bcache_lock ∈ L -> sdlock ∈ L -> binv dev lba L s ∅ ->
  Forall (fun o => in_range lba (op_block o)) l -> (forall bno, on_disk lba s bno (f bno)) ->
  exists r s', run_ops junk dev l s = Done r s' /\ binv dev lba L s' ∅ /\
    Forall2 same_block r (spec_ops l f).1 /\ (forall bno, on_disk lba s' bno ((spec_ops l f).2 bno)).
Proof.
  intros Hdev HLb HLs. revert s f. induction l as [|o l IH]; intros s f HI Hall Hf; cbn [run_ops].
  - exists [], s. split; [done|]. split; [done|]. split; [constructor|done].
  - apply Forall_cons in Hall as [Ho Hall]. destruct (run_op_ok s f o Hdev HLb HLs HI Ho Hf) as (d & s1 & E1 & HI1 & Hd & Hf1).
    destruct (IH s1 (spec_op o f).2 HI1 Hall Hf1) as (r & s2 & E2 & HI2 & Hr & Hf2). exists (d :: r), s2.
    rewrite (bind_Done _ _ _ _ _ E1), (bind_Done _ _ _ _ _ E2). split; [done|]. split; [done|]. split; [by constructor|done].
Qed.

(** The buffer released last is the one a block that is not cached gets. *)
Lemma recycle_ok s h i bno d bno' : 0 < dev < 4 -> bcache_lock ∈ L -> sdlock ∈ L -> binv dev lba L s h ->
  h !! i = Some bno -> bufs s !! i = Some (Buf 3 dev (sector lba bno) 1 (Some d)) -> on_disk lba s bno d ->
  in_range lba bno' -> first_buf (is_block dev (sector lba bno')) (clink s) (bufs s) = None ->
  exists s1 s', brelse i s = Done tt s1 /\ bread junk dev bno' s1 = Done i s' /\ binv dev lba L s1 (delete i h) /\ card s1 = card s /\
    bufs s1 !! i = Some (Buf 2 dev (sector lba bno) 0 (Some d)) /\ (forall j b, j <> i -> bufs s !! j = Some b -> bufs s1 !! j = Some b) /\
    bread_post dev lba L s1 (delete i h) bno' i s' /\ first_buf (is_block dev (sector lba bno)) (clink s') (bufs s') = None.
Proof.
  intros Hdev HLb HLs HI Hh Hb Hon Hr Hnone.
  destruct (brelse_ok dev lba L Hdev HLb s h i bno d HI Hh Hb Hon) as (s1 & E1 & HI1 & Hcd & Ho1 & Hi1 & Hlast).
  assert (Hbn : sector lba bno <> sector lba bno') by (intros E; eapply (no_block dev lba L s h bno'); [exact HI|done|exact Hnone|exact Hb|done|done]).
  assert (Hback : forall j b, j <> i -> bufs s1 !! j = Some b -> bufs s !! j = Some b).
  { intros j b Hne Hj. destruct (lookup_lt_is_Some_2 (bufs s) j) as [b' Hb']; [|rewrite (Ho1 j b' Hne Hb') in Hj; congruence].
    apply lookup_lt_Some in Hj. rewrite (bi_len _ _ _ _ _ HI1) in Hj. by rewrite (bi_len _ _ _ _ _ HI). }
  assert (Hnone1 : first_buf (is_block dev (sector lba bno')) (clink s1) (bufs s1) = None).
  { destruct (first_buf _ (clink s1) (bufs s1)) as [j|] eqn:E; [|done]. exfalso.
    destruct (find_block dev lba L Hdev s1 _ bno' j HI1 Hr E) as [(x & Hx & _)|(x & Hx & _)]; (destruct (decide (j = i)) as [->|Hne]; [congruence|]);
      (eapply (no_block dev lba L s h bno'); [exact HI|done|exact Hnone|by apply (Hback j _ Hne Hx)|done|done]). }
  assert (Hnh : ~ held_by (delete i h) bno').
  { intros [j Hj]. apply lookup_delete_Some in Hj as [Hne Hj]. destruct (held_buf _ _ _ _ _ _ _ HI Hj) as (x & Hx & _).
    eapply (no_block dev lba L s h bno'); [exact HI|done|exact Hnone|exact Hx|done|done]. }
  assert (Hidle : has_idle s1) by (exists i, (Buf 2 dev (sector lba bno) 0 (Some d)); done).
  destruct (bread_ok junk dev lba L Hdev HLb HLs s1 _ bno' HI1 Hr Hnh Hidle) as (k & s' & E & Hp).
  pose proof (bp_pick _ _ _ _ _ _ _ _ Hp Hnone1) as Hpick.
  assert (k = i) as ->.
  { apply last_Some in Hlast as [l0 El]. rewrite El, rev_app_distr in Hpick. cbn [rev app] in Hpick. unfold first_buf in Hpick.
    rewrite filter_cons_True in Hpick by (by rewrite Hi1). cbn in Hpick. congruence. }
  exists s1, s'. split; [done|]. split; [done|]. split; [done|]. split; [exact Hcd|]. split; [exact Hi1|]. split; [done|]. split; [exact Hp|].
  destruct (first_buf _ (clink s') (bufs s')) as [j|] eqn:Ej; [|done]. exfalso.
  destruct (bp_buf _ _ _ _ _ _ _ _ Hp) as (d' & Hb' & Hon').
  assert (Hj : exists b, bufs s' !! j = Some b /\ b_data b <> None /\ b_blockno b = sector lba bno).
  { apply first_buf_Some in Ej as [_ (b & Hbj & Ef)]. unfold is_block in Ef. bool_hyps. exists b. split; [done|]. split; [|done].
    pose proof (bi_buf _ _ _ _ _ (bp_inv _ _ _ _ _ _ _ _ Hp) _ _ Hbj) as Hok. unfold buf_ok in Hok. destruct (b_data b); [done|]. destruct Hok as [-> _]. cbn in *. lia. }
  destruct Hj as (b & Hbj & Hdj & Ebj). destruct (decide (j = i)) as [->|Hne].
  - rewrite Hb' in Hbj. injection Hbj as <-. cbn in Ebj. congruence.
  - destruct (lookup_lt_is_Some_2 (bufs s1) j) as [b1 Hb1].
    { apply lookup_lt_Some in Hbj. rewrite (bi_len _ _ _ _ _ (bp_inv _ _ _ _ _ _ _ _ Hp)) in Hbj. by rewrite (bi_len _ _ _ _ _ HI1). }
    rewrite (bp_other _ _ _ _ _ _ _ _ Hp j b1 Hne Hb1) in Hbj. injection Hbj as ->.
    apply Hne. eapply (bi_uniq _ _ _ _ _ HI1); [exact Hb1|exact Hi1|done|done|done].
Qed.

(** The buffer released last is the first to be recycled: reading a block
    that is not cached right after [brelse i] reuses buffer [i], so its block
    is the one that leaves the cache. *)
Theorem recycles_last_released s h i bno d bno' : 0 < dev < 4 -> bcache_lock ∈ L -> sdlock ∈ L -> binv dev lba L s h ->
  h !! i = Some bno -> bufs s !! i = Some (Buf 3 dev (sector lba bno) 1 (Some d)) -> on_disk lba s bno d ->
  in_range lba bno' -> first_buf (is_block dev (sector lba bno')) (clink s) (bufs s) = None ->
  exists s1 s', brelse i s = Done tt s1 /\ bread junk dev bno' s1 = Done i s' /\
    first_buf (is_block dev (sector lba bno)) (clink s') (bufs s') = None.
Proof.
  intros Hdev HLb HLs HI Hh Hb Hon Hr Hnone. destruct (recycle_ok s h i bno d bno') as (s1 & s' & E1 & E2 & Hp); try done. exists s1, s'. naive_solver.
Qed.
End Props.

(** ** A card in memory, and the cache after [binit] *)
Definition ram : Type := Z -> Z.
#[export] Instance ram_card : sdcard ram := {|
  mmc_bread a n d := Done (n, fun i => d (SECTOR_SIZE * a + i)) d;
  mmc_bwrite a n b d := Done n (fun i => if (SECTOR_SIZE * a <=? i) && (i <? SECTOR_SIZE * (a + n)) then b (i - SECTOR_SIZE * a) else d i)
|}.
#[export] Instance ram_card_laws : sdcard_laws ram.
Proof.
  refine {| sd_byte d i := d i |}.
  - intros d a n. eexists _, d. split; [reflexivity|]. done.
  - intros d a n b. eexists. split; [reflexivity|]. intros i.
    destruct (decide (SECTOR_SIZE * a <= i < SECTOR_SIZE * (a + n))) as [Hi|Hi].
    + by rewrite (proj2 (Z.leb_le _ _)), (proj2 (Z.ltb_lt _ _)) by lia.
    + destruct (SECTOR_SIZE * a <=? i) eqn:E1, (i <? SECTOR_SIZE * (a + n)) eqn:E2; bool_hyps; done || lia.
Defined.

Definition boot_locks : gset Z := {[bcache_lock; sdlock]}.
(** After [sd_init]: one partition of interest at sector 2048, and [sdlock]. *)
Definition boot_zero (d : ram) : bst ram :=
  Bst (replicate NBUF buf0) [] [] [32; 2048; 0; 0] d (Cpu 0 false false {[sdlock := free_lock]}).
Definition boot_cache (d : ram) : bst ram := match binit (boot_zero d) with Done _ s => s | _ => boot_zero d end.

Lemma boot_cache_eq d : binit (boot_zero d) = Done tt (boot_cache d) /\
  boot_cache d = Bst (replicate NBUF buf0) (seq 0 NBUF) [] [32; 2048; 0; 0] d (Cpu 0 false false {[bcache_lock := free_lock; sdlock := free_lock]}).
Proof. split; vm_compute; reflexivity. Qed.

(** [binit] establishes the invariant, with nothing held. *)
Lemma boot_cache_inv d : binv 1 2048 boot_locks (boot_cache d) ∅.
Proof.
  destruct (boot_cache_eq d) as [_ ->]. split; cbn [bufs clink sdque ptinfo_lba card bcpu].
  - apply length_replicate.
  - done.
  - done.
  - split; [done|]. change (2 ^ 32) with 4294967296. lia.
  - assert (Hl : forall a l, ({[bcache_lock := free_lock; sdlock := free_lock]} : gmap Z spinlock) !! a = Some l -> l = free_lock).
    { intros a l. rewrite lookup_insert_Some, lookup_singleton_Some. intros [[_ <-]|[_ [_ <-]]]; done. }
    split; [split; [done| |done|done]|].
    + intros a l Ha. cbn in Ha. rewrite decide_False by (apply not_elem_of_empty). by eapply Hl.
    + intros a Ha. apply elem_of_union in Ha as [Ha|Ha]; apply elem_of_singleton in Ha as ->; exists free_lock; reflexivity.
  - intros i b Hb. apply lookup_replicate in Hb as [-> _]. by split.
  - intros i j b b' Hb Hb'. apply lookup_replicate in Hb as [-> _]. done.
  - intros i [x Hx]. by rewrite lookup_empty in Hx.
Qed.

Definition wit_disk : ram := fun i => i mod 251.
Definition wit_cache : bst ram := boot_cache wit_disk.
Definition fresh_data : bytes := fun _ => 0xa5.

Lemma wit_in_range bno : 0 <= bno < 100000 -> in_range 2048 bno.
Proof.
  intros H. split; [lia|]. change (2 ^ 32) with 4294967296. unfold sector, BLKSECT, BSIZE, SECTOR_SIZE. change (4096 / 512) with 8. lia.
Qed.

Lemma bread_correct_witness :
  binv 1 2048 boot_locks wit_cache ∅ /\ in_range 2048 5 /\
  exists i d s', bread fresh_data 1 5 wit_cache = Done i s' /\ binv 1 2048 boot_locks s' (<[i := 5]> ∅) /\ d 7 = (2088 * 512 + 7) mod 251.
Proof.
  pose proof (boot_cache_inv wit_disk) as HI. assert (Hr : in_range 2048 5) by (apply wit_in_range; lia). split; [exact HI|]. split; [exact Hr|].
  pose proof (bread_correct fresh_data 1 2048 boot_locks wit_cache ∅ 5 ltac:(lia) ltac:(by apply elem_of_union; left; apply elem_of_singleton) ltac:(by apply elem_of_union; right; apply elem_of_singleton) HI Hr ltac:(by rewrite map_size_empty; unfold NBUF; lia)) as Hb.
  rewrite bool_decide_eq_false_2 in Hb by (intros (i & _ & Hi); rewrite lookup_empty in Hi; discriminate).
  destruct Hb as (i & d & s' & E & _ & HI' & _ & Hon & _). exists i, d, s'. split; [exact E|]. split; [exact HI'|].
  rewrite (Hon 7) by (unfold BSIZE; lia). destruct (boot_cache_eq wit_disk) as [_ Eb]. unfold dblk, wit_cache. rewrite Eb. reflexivity.
Defined.

Lemma cache_refines_disk_witness :
  exists r s', run_ops fresh_data 1 [WriteBlock 5 (fun _ => 7); ReadBlock 6; ReadBlock 5] wit_cache = Done r s' /\
    (exists d0 d1 d2, r = [d0; d1; d2] /\ d2 100 = 7 /\ d1 0 = (2096 * 512) mod 251).
Proof.
  pose proof (boot_cache_inv wit_disk) as HI.
  destruct (cache_refines_disk fresh_data 1 2048 boot_locks [WriteBlock 5 (fun _ => 7); ReadBlock 6; ReadBlock 5] wit_cache (fun bno k => wit_disk (512 * (2048 + 8 * bno) + k))
    ltac:(lia) ltac:(by apply elem_of_union; left; apply elem_of_singleton) ltac:(by apply elem_of_union; right; apply elem_of_singleton) HI) as (r & s' & E & _ & Hr & _).
  - repeat constructor; cbn; try lia; apply wit_in_range; lia.
  - intros bno k Hk. destruct (boot_cache_eq wit_disk) as [_ Eb]. unfold dblk, wit_cache. rewrite Eb. cbn. unfold sector, BLKSECT, BSIZE, SECTOR_SIZE. by change (4096 / 512) with 8.
  - exists r, s'. split; [exact E|]. cbn in Hr. apply Forall2_cons_inv_r in Hr as (d0 & r1 & H0 & Hr & ->).
    apply Forall2_cons_inv_r in Hr as (d1 & r2 & H1 & Hr & ->). apply Forall2_cons_inv_r in Hr as (d2 & r3 & H2 & Hr & ->). apply Forall2_nil_inv_r in Hr as ->.
    exists d0, d1, d2. split; [done|]. split; [rewrite (H2 100) by (unfold BSIZE; lia); reflexivity|]. rewrite (H1 0) by (unfold BSIZE; lia). reflexivity.
Defined.

(** The cache with block 5 just read, held in the buffer at the tail. *)
Definition wit_held : bst ram := match bread fresh_data 1 5 wit_cache with Done _ s => s | _ => wit_cache end.

Lemma recycles_last_released_witness :
  exists s1 s', brelse 125 wit_held = Done tt s1 /\ bread fresh_data 1 6 s1 = Done 125%nat s' /\
    first_buf (is_block 1 (sector 2048 5)) (clink s') (bufs s') = None.
Proof.
  pose proof (boot_cache_inv wit_disk) as HI. assert (Hr : in_range 2048 5) by (apply wit_in_range; lia).
  destruct (bread_ok fresh_data 1 2048 boot_locks ltac:(lia) ltac:(by apply elem_of_union; left; apply elem_of_singleton) ltac:(by apply elem_of_union; right; apply elem_of_singleton) wit_cache ∅ 5 HI Hr)
    as (i & s' & E & Hp); [intros [i Hi]; by rewrite lookup_empty in Hi|apply (idle_exists 1 2048 boot_locks wit_cache ∅ HI); rewrite map_size_empty; unfold NBUF; lia|].
  assert (Hc : match bread fresh_data 1 5 wit_cache with Done i s => i = 125%nat /\ first_buf (is_block 1 (sector 2048 6)) (clink s) (bufs s) = None | _ => False end) by (vm_compute; split; reflexivity).
  assert (Es : wit_held = s') by (unfold wit_held; by rewrite E). rewrite E in Hc. destruct Hc as [-> Hnone]. rewrite Es.
  destruct Hp as [HI' _ (d & Hb & Hon) Hcd _ _ _].
  apply (recycles_last_released fresh_data 1 2048 boot_locks s' (<[125%nat := 5]> ∅) 125 5 d 6); try done; try lia.
  - intros k Hk. rewrite (Hon k Hk). unfold dblk. by rewrite Hcd.
Defined.
