(* ===== verification/Fs.v ===== *)
(** * The file system (kernel/fs.c)

    Blocks, inodes, directories and paths over the buffer cache of Bio.v.  A
    [struct inode *] is a slot of [itable.inode]; [struct dinode] is both the
    disk inode and the copy of it that an in-memory inode holds.  A pointer
    into the data of a buffer is the buffer and an offset, so what it points
    to changes when the buffer is recycled.

    [kmem] is the kernel memory that [readi] and [writei] transfer to and from;
    the local [struct dirent] of a function is at [de_addr].  Strings are lists
    of bytes; a name buffer is its [DIRSIZ] bytes. *)
From S2P Require Import Prelude Spinlock Bytes UserMem Bio.

Definition FSMAGIC : Z := 0x10203040.
Definition ROOTINO : Z := 1.
Definition ROOTDEV : Z := 1.
Definition NINODE : nat := 1024.
#[global] Arguments NINODE : simpl never.
Definition NDIRECT : Z := 11.
Definition NINDIRECT : Z := BSIZE / 4.
Definition NINDIRECT2 : Z := NINDIRECT * NINDIRECT.
Definition MAXFILE : Z := NDIRECT + NINDIRECT + NINDIRECT2.
Definition sizeof_dinode : Z := 128.
Definition IPB : Z := BSIZE / sizeof_dinode.
Definition BPB : Z := BSIZE * 8.
Definition DIRSIZ : Z := 58.
Definition sizeof_dirent : Z := 64.
Definition AT_FDCWD : Z := -100.
Definition T_DIR : Z := 1.
Definition T_FILE : Z := 2.
Definition T_DEVICE : Z := 3.
Definition T_MOUNT : Z := 4.
Definition T_SYMLINK : Z := 5.

Definition itable_lock : Z := 18.
(** The spinlock inside the sleep lock of inode [i]. *)
Definition inode_lock (i : nat) : Z := 32 + Z.of_nat i.
Definition de_addr : Z := 0.

Record superblock := Superblock {
  sb_magic : Z; sb_size : Z; sb_nblocks : Z; sb_ninodes : Z; sb_nlog : Z;
  sb_logstart : Z; sb_inodestart : Z; sb_bmapstart : Z
}.
Definition IBLOCK (i : Z) (sb : superblock) : Z := u32 (i / IPB + sb_inodestart sb).
Definition BBLOCK (b : Z) (sb : superblock) : Z := u32 (b / BPB + sb_bmapstart sb).

Record dinode := Dinode {
  d_type : Z; d_major : Z; d_minor : Z; d_nlink : Z; d_size : Z; d_mode : Z; d_uid : Z; d_gid : Z;
  d_atime : Z * Z; d_mtime : Z * Z; d_ctime : Z * Z; d_addrs : list Z
}.
Definition set_d_type v (d : dinode) := Dinode v (d_major d) (d_minor d) (d_nlink d) (d_size d) (d_mode d) (d_uid d) (d_gid d) (d_atime d) (d_mtime d) (d_ctime d) (d_addrs d).
Definition set_d_size v (d : dinode) := Dinode (d_type d) (d_major d) (d_minor d) (d_nlink d) v (d_mode d) (d_uid d) (d_gid d) (d_atime d) (d_mtime d) (d_ctime d) (d_addrs d).
Definition set_d_times v (d : dinode) := Dinode (d_type d) (d_major d) (d_minor d) (d_nlink d) (d_size d) (d_mode d) (d_uid d) (d_gid d) v v v (d_addrs d).
Definition set_d_addrs v (d : dinode) := Dinode (d_type d) (d_major d) (d_minor d) (d_nlink d) (d_size d) (d_mode d) (d_uid d) (d_gid d) (d_atime d) (d_mtime d) (d_ctime d) v.

(** The layout of [struct dinode]: the fields at [a], and writing them. *)
Definition get_time (m : bytes) (a : Z) : Z * Z := (s64 (rd64 m a), s64 (rd64 m (a + 8))).
Definition put_time (a : Z) (t : Z * Z) (m : bytes) : bytes := wr64 (a + 8) t.2 (wr64 a t.1 m).
Definition get_dinode (m : bytes) (a : Z) : dinode :=
  Dinode (s16 (rd16 m a)) (s16 (rd16 m (a + 2))) (s16 (rd16 m (a + 4))) (s16 (rd16 m (a + 6)))
    (rd32 m (a + 8)) (rd32 m (a + 12)) (rd32 m (a + 16)) (rd32 m (a + 20))
    (get_time m (a + 24)) (get_time m (a + 40)) (get_time m (a + 56))
    ((fun i => rd32 m (a + 72 + 4 * i)) <$> seqZ 0 (NDIRECT + 2)).
Fixpoint put_words (a : Z) (l : list Z) (m : bytes) : bytes :=
  match l with [] => m | v :: l => put_words (a + 4) l (wr32 a v m) end.
Definition put_dinode (a : Z) (d : dinode) (m : bytes) : bytes :=
  put_words (a + 72) (d_addrs d) (put_time (a + 56) (d_ctime d) (put_time (a + 40) (d_mtime d) (put_time (a + 24) (d_atime d)
    (wr32 (a + 12) (d_mode d) (wr32 (a + 20) (d_gid d) (wr32 (a + 16) (d_uid d) (wr32 (a + 8) (d_size d)
      (wr16 (a + 6) (d_nlink d) (wr16 (a + 4) (d_minor d) (wr16 (a + 2) (d_major d) (wr16 a (d_type d) m))))))))))).

Record inode := Inode {
  i_dev : Z; i_inum : Z; i_ref : Z; i_locked : bool; i_pid : Z; i_valid : Z; i_copy : dinode
}.
Definition set_i_ref v (i : inode) := Inode (i_dev i) (i_inum i) v (i_locked i) (i_pid i) (i_valid i) (i_copy i).
Definition set_i_lock b p (i : inode) := Inode (i_dev i) (i_inum i) (i_ref i) b p (i_valid i) (i_copy i).
Definition set_i_valid v (i : inode) := Inode (i_dev i) (i_inum i) (i_ref i) (i_locked i) (i_pid i) v (i_copy i).
Definition set_i_copy v (i : inode) := Inode (i_dev i) (i_inum i) (i_ref i) (i_locked i) (i_pid i) (i_valid i) v.

(** ** Names *)

(** [strncmp] and [strncpy] on strings as lists; 0 past their end. *)
Fixpoint strncmp_l (n : nat) (p q : list Z) : Z :=
  match n with
  | O => 0
  | S n' =>
      let a := default 0 (head p) in let b := default 0 (head q) in
      if negb (a =? 0) && (a =? b) then strncmp_l n' (tail p) (tail q) else a - b
  end.
Definition namecmp (s t : list Z) : Z := strncmp_l (Z.to_nat DIRSIZ) s t.
Fixpoint strncpy_l (n : nat) (t : list Z) : list Z :=
  match n with
  | O => []
  | S n => match t with
           | [] => replicate (S n) 0
           | c :: t => if c =? 0 then replicate (S n) 0 else c :: strncpy_l n t
           end
  end.

Definition SLASH : Z := 47.
Fixpoint skip_slashes (path : list Z) : list Z :=
  match path with c :: p => if c =? SLASH then skip_slashes p else path | [] => [] end.
(** The element [path] begins with, and what follows it. *)
Fixpoint span_elem (path : list Z) : list Z * list Z :=
  match path with
  | c :: p => if c =? SLASH then ([], path) else let r := span_elem p in (c :: r.1, r.2)
  | [] => ([], [])
  end.
(** [skipelem]: the rest of the path, and [name]. *)
Definition skipelem (path name : list Z) : option (list Z * list Z) :=
  match skip_slashes path with
  | [] => None
  | p =>
      let r := span_elem p in
      let len := Z.of_nat (length r.1) in
      let name' := if DIRSIZ <=? len then take (Z.to_nat DIRSIZ) r.1 else r.1 ++ [0] ++ drop (length r.1 + 1) name in
      Some (skip_slashes r.2, name')
  end.

Section Fs.
Context {D : Type} `{!sdcard D} {U : Type} `{!usermem U}.
Context (junk : bytes).

Record fst := Fst {
  fbio : bst D;
  sb : superblock;
  itable : list inode;
  kmem : bytes;
  fuser : U;
  fpid : Z;
  fcwd : nat;
  fofile : list (option nat);
  fnow : Z * Z
}.
Definition set_fbio v (s : fst) := Fst v (sb s) (itable s) (kmem s) (fuser s) (fpid s) (fcwd s) (fofile s) (fnow s).
Definition set_sb v (s : fst) := Fst (fbio s) v (itable s) (kmem s) (fuser s) (fpid s) (fcwd s) (fofile s) (fnow s).
Definition set_itable v (s : fst) := Fst (fbio s) (sb s) v (kmem s) (fuser s) (fpid s) (fcwd s) (fofile s) (fnow s).
Definition set_kmem v (s : fst) := Fst (fbio s) (sb s) (itable s) v (fuser s) (fpid s) (fcwd s) (fofile s) (fnow s).
Definition set_fuser v (s : fst) := Fst (fbio s) (sb s) (itable s) (kmem s) v (fpid s) (fcwd s) (fofile s) (fnow s).

Definition on_bio {A} (m : M (bst D) A) : M fst A := zoom fbio set_fbio m.
Definition fread (dev bno : Z) : M fst nat := on_bio (bread junk dev bno).
Definition fwrite (b : nat) : M fst unit := on_bio (bwrite b).
Definition frelse (b : nat) : M fst unit := on_bio (brelse b).
Definition fdata (b : nat) : M fst bytes := on_bio (buf_data b).
Definition fput (b : nat) (d : bytes) : M fst unit := on_bio (put_data b d).
Definition flock (a : Z) : M fst unit := on_bio (bacquire a).
Definition funlock (a : Z) : M fst unit := on_bio (bunlock a).
Definition get_inode (i : nat) : M fst inode := fun s => deref (itable s !! i) s.
Definition upd_inode (i : nat) (f : inode -> inode) : M fst unit :=
  ip ← get_inode i; modify (fun s => set_itable (<[i := f ip]> (itable s)) s).
Definition upd_copy (i : nat) (f : dinode -> dinode) : M fst unit := upd_inode i (fun ip => set_i_copy (f (i_copy ip)) ip).

(** ** Super block *)
Definition readsb (dev : Z) : M fst unit :=
  bp ← fread dev 1;
  d ← fdata bp;
  modify (set_sb (Superblock (rd32 d 0) (rd32 d 4) (rd32 d 8) (rd32 d 12) (rd32 d 16) (rd32 d 20) (rd32 d 24) (rd32 d 28)));;
  frelse bp.
(** [initlog] only prints that there is no log. *)
Definition fsinit (dev : Z) : M fst unit :=
  readsb dev;;
  m ← gets (fun s => sb_magic (sb s));
  if negb (m =? FSMAGIC) then panic "invalid file system"%string else mret tt.

(** ** Blocks *)
Definition bzero (dev bno : Z) : M fst unit :=
  bp ← fread dev bno;
  d ← fdata bp;
  fput bp (mset 0 0 BSIZE d);;
  fwrite bp;;
  frelse bp.

(** [balloc]'s inner loop from bit [bi] of the bitmap block in [bp]. *)
Fixpoint balloc_bits (n : nat) (dev : Z) (bp : nat) (b bi : Z) : M fst (option Z) :=
  match n with
  | O => mret None
  | S n =>
      sz ← gets (fun s => sb_size (sb s));
      if (bi <? BPB) && (b + bi <? sz) then
        d ← fdata bp;
        let m := Z.shiftl 1 (bi mod 8) in
        if Z.land (d (bi / 8)) m =? 0 then
          fput bp (wrle 1 (bi / 8) (Z.lor (d (bi / 8)) m) d);;
          fwrite bp;;
          frelse bp;;
          bzero dev (b + bi);;
          mret (Some (b + bi))
        else balloc_bits n dev bp b (bi + 1)
      else mret None
  end.
Fixpoint balloc_blocks (n : nat) (dev b : Z) : M fst Z :=
  match n with
  | O => mret 0
  | S n =>
      sz ← gets (fun s => sb_size (sb s));
      if b <? sz then
        s ← gets sb;
        bp ← fread dev (BBLOCK b s);
        r ← balloc_bits (Z.to_nat BPB) dev bp b 0;
        match r with
        | Some x => mret x
        | None => frelse bp;; balloc_blocks n dev (b + BPB)
        end
      else mret 0
  end.
Definition balloc (dev : Z) : M fst Z :=
  sz ← gets (fun s => sb_size (sb s)); balloc_blocks (S (Z.to_nat (sz / BPB))) dev 0.

Definition bfree (dev b : Z) : M fst unit :=
  s ← gets sb;
  bp ← fread dev (BBLOCK b s);
  let bi := b mod BPB in
  let m := Z.shiftl 1 (bi mod 8) in
  d ← fdata bp;
  if Z.land (d (bi / 8)) m =? 0 then panic "freeing free block"%string
  else
    fput bp (wrle 1 (bi / 8) (Z.land (d (bi / 8)) (Z.lnot m)) d);;
    fwrite bp;;
    frelse bp.

(** ** Inodes *)
Fixpoint init_inodes (n i : nat) : M fst unit :=
  match n with
  | O => mret tt
  | S n => on_bio (zoom bcpu set_bcpu (initlock (inode_lock i)));; upd_inode i (set_i_lock false 0);; init_inodes n (S i)
  end.
Definition iinit : M fst unit :=
  on_bio (zoom bcpu set_bcpu (initlock itable_lock));;
  init_inodes NINODE 0.

(** The scan of [iget]: the inode if it is there, else the first free slot. *)
Fixpoint iget_scan (t : list inode) (i : nat) (dev inum : Z) (empty : option nat) : nat + option nat :=
  match t with
  | [] => inr empty
  | ip :: t =>
      if (0 <? i_ref ip) && (i_dev ip =? dev) && (i_inum ip =? inum) then inl i
      else iget_scan t (S i) dev inum
        (match empty with None => if i_ref ip =? 0 then Some i else None | Some _ => empty end)
  end.
Definition iget (dev inum : Z) : M fst nat :=
  flock itable_lock;;
  r ← gets (fun s => iget_scan (itable s) 0 dev inum None);
  match r with
  | inl i => upd_inode i (fun ip => set_i_ref (s32 (i_ref ip + 1)) ip);; funlock itable_lock;; mret i
  | inr None => panic "iget: no inodes"%string
  | inr (Some i) =>
      upd_inode i (fun ip => Inode dev inum 1 (i_locked ip) (i_pid ip) 0 (i_copy ip));;
      funlock itable_lock;;
      mret i
  end.

Definition idup (i : nat) : M fst nat :=
  flock itable_lock;;
  upd_inode i (fun ip => set_i_ref (s32 (i_ref ip + 1)) ip);;
  funlock itable_lock;;
  mret i.

(** [dip] of inode [inum] in its block. *)
Definition dinode_off (inum : Z) : Z := sizeof_dinode * (inum mod IPB).

Fixpoint ialloc_scan (n : nat) (dev inum type : Z) : M fst (option nat) :=
  match n with
  | O => mret None
  | S n =>
      s ← gets sb;
      if inum <? sb_ninodes s then
        bp ← fread dev (IBLOCK inum s);
        d ← fdata bp;
        let dip := dinode_off inum in
        if s16 (rd16 d dip) =? 0 then
          fput bp (wr16 dip type (mset dip 0 sizeof_dinode d));;
          fwrite bp;;
          frelse bp;;
          ip ← iget dev inum;
          tp ← gets fnow;
          upd_copy ip (set_d_times tp);;
          mret (Some ip)
        else frelse bp;; ialloc_scan n dev (inum + 1) type
      else mret None
  end.
Definition ialloc (dev type : Z) : M fst (option nat) :=
  n ← gets (fun s => sb_ninodes (sb s)); ialloc_scan (Z.to_nat n) dev 1 type.

Definition iupdate (i : nat) : M fst unit :=
  ip ← get_inode i;
  s ← gets sb;
  bp ← fread (i_dev ip) (IBLOCK (i_inum ip) s);
  d ← fdata bp;
  fput bp (put_dinode (dinode_off (i_inum ip)) (i_copy ip) d);;
  fwrite bp;;
  frelse bp.

(** ** Sleep locks of inodes *)
Definition acquiresleep (i : nat) : M fst unit :=
  flock (inode_lock i);;
  ip ← get_inode i;
  if i_locked ip then funlock (inode_lock i);; blocked
  else
    p ← gets fpid;
    upd_inode i (set_i_lock true p);;
    funlock (inode_lock i).
Definition releasesleep (i : nat) : M fst unit :=
  flock (inode_lock i);;
  upd_inode i (set_i_lock false 0);;
  funlock (inode_lock i).
Definition holdingsleep (i : nat) : M fst bool :=
  flock (inode_lock i);;
  ip ← get_inode i;
  p ← gets fpid;
  funlock (inode_lock i);;
  mret (i_locked ip && (i_pid ip =? p)).

Definition ilock (i : nat) : M fst unit :=
  ip ← get_inode i;
  if i_ref ip <? 1 then panic "ilock"%string
  else
    acquiresleep i;;
    ip ← get_inode i;
    if i_valid ip =? 0 then
      s ← gets sb;
      bp ← fread (i_dev ip) (IBLOCK (i_inum ip) s);
      d ← fdata bp;
      upd_inode i (set_i_copy (get_dinode d (dinode_off (i_inum ip))));;
      frelse bp;;
      upd_inode i (set_i_valid 1);;
      ip ← get_inode i;
      if d_type (i_copy ip) =? 0 then panic "ilock: no type"%string else mret tt
    else mret tt.

Definition iunlock (i : nat) : M fst unit :=
  h ← holdingsleep i;
  ip ← get_inode i;
  if negb (h : bool) || (i_ref ip <? 1) then panic "iunlock"%string
  else releasesleep i.

(** ** Content *)

(** Word [j] of the block in buffer [b], as the [uint32_t] array [a] sees it. *)
Definition get_word (b : nat) (j : Z) : M fst Z := d ← fdata b; mret (rd32 d (4 * j)).
Definition put_word (b : nat) (j v : Z) : M fst unit := d ← fdata b; fput b (wr32 (4 * j) v d).

Definition get_addr (i : nat) (k : Z) : M fst Z := ip ← get_inode i; deref (d_addrs (i_copy ip) !! Z.to_nat k).
Definition put_addr (i : nat) (k v : Z) : M fst unit := upd_copy i (fun d => set_d_addrs (<[Z.to_nat k := v]> (d_addrs d)) d).

(** The block [ip->addrs[k]], allocated if there is none; 0 when the disk is
    full. *)
Definition bmap_root (i : nat) (dev k : Z) : M fst Z :=
  addr ← get_addr i k;
  if addr =? 0 then
    addr ← balloc dev;
    if addr =? 0 then mret 0 else put_addr i k addr;; mret addr
  else mret addr.
(** Entry [j] of the indirect block [addr], allocated if there is none. *)
Definition bmap_entry (dev addr j : Z) : M fst Z :=
  bp ← fread dev addr;
  e ← get_word bp j;
  if e =? 0 then
    e ← balloc dev;
    if e =? 0 then mret 0
    else
      put_word bp j e;;
      fwrite bp;;
      frelse bp;;
      mret e
  else frelse bp;; mret e.
Definition bmap (i : nat) (bn : Z) : M fst Z :=
  ip ← get_inode i;
  let dev := i_dev ip in
  if bn <? NDIRECT then
    addr ← get_addr i bn;
    if addr =? 0 then addr ← balloc dev; put_addr i bn addr;; mret addr else mret addr
  else
    let bn := bn - NDIRECT in
    if bn <? NINDIRECT then
      addr ← bmap_root i dev NDIRECT;
      if addr =? 0 then mret 0 else bmap_entry dev addr bn
    else
      let bn := bn - NINDIRECT in
      if bn <? NINDIRECT2 then
        addr ← bmap_root i dev (NDIRECT + 1);
        if addr =? 0 then mret 0
        else
          addr ← bmap_entry dev addr (bn / NINDIRECT);
          if addr =? 0 then mret 0 else bmap_entry dev addr (bn mod NINDIRECT)
      else panic "bmap: out of range"%string.

(** ** Truncation *)
Fixpoint trunc_direct (n : nat) (i : nat) (k : Z) : M fst unit :=
  match n with
  | O => mret tt
  | S n =>
      ip ← get_inode i;
      a ← get_addr i k;
      (if negb (a =? 0) then bfree (i_dev ip) a;; put_addr i k 0 else mret tt);;
      trunc_direct n i (k + 1)
  end.
(** The loops over the words of the buffer [a], from word [j]. *)
Fixpoint trunc_words (n : nat) (dev : Z) (a : nat) (j : Z) : M fst unit :=
  match n with
  | O => mret tt
  | S n =>
      e ← get_word a j;
      (if negb (e =? 0) then bfree dev e;; put_word a j 0 else mret tt);;
      trunc_words n dev a (j + 1)
  end.
(** The double indirect loop: [a] points into the first buffer for ever, [bp]
    is the buffer held; the result is the one held at the end. *)
Fixpoint trunc_double (n : nat) (dev : Z) (a bp : nat) (i : Z) : M fst nat :=
  match n with
  | O => mret bp
  | S n =>
      e ← get_word a i;
      if negb (e =? 0) then
        frelse bp;;
        e ← get_word a i;
        bp ← fread dev e;
        trunc_words (Z.to_nat NINDIRECT) dev bp 0;;
        e ← get_word a i;
        bfree dev e;;
        put_word a i 0;;
        trunc_double n dev a bp (i + 1)
      else trunc_double n dev a bp (i + 1)
  end.
Definition itrunc (i : nat) : M fst unit :=
  trunc_direct (Z.to_nat NDIRECT) i 0;;
  ip ← get_inode i;
  let dev := i_dev ip in
  a ← get_addr i NDIRECT;
  (if negb (a =? 0) then
     bp ← fread dev a;
     trunc_words (Z.to_nat NINDIRECT) dev bp 0;;
     frelse bp;;
     a ← get_addr i NDIRECT;
     bfree dev a;;
     put_addr i NDIRECT 0
   else mret tt);;
  a ← get_addr i (NDIRECT + 1);
  (if negb (a =? 0) then
     bp ← fread dev a;
     bp ← trunc_double (Z.to_nat NINDIRECT) dev bp bp 0;
     frelse bp;;
     a ← get_addr i (NDIRECT + 1);
     bfree dev a;;
     put_addr i (NDIRECT + 1) 0
   else mret tt);;
  upd_copy i (set_d_size 0);;
  iupdate i.

Definition iput (i : nat) : M fst unit :=
  flock itable_lock;;
  ip ← get_inode i;
  (if (i_ref ip =? 1) && negb (i_valid ip =? 0) && (d_nlink (i_copy ip) =? 0) then
     acquiresleep i;;
     funlock itable_lock;;
     itrunc i;;
     upd_copy i (set_d_type 0);;
     iupdate i;;
     upd_inode i (set_i_valid 0);;
     releasesleep i;;
     flock itable_lock
   else mret tt);;
  upd_inode i (fun ip => set_i_ref (s32 (i_ref ip - 1)) ip);;
  funlock itable_lock.
Definition iunlockput (i : nat) : M fst unit := iunlock i;; iput i.

(** ** Metadata *)
Record stat := Stat {
  st_dev : Z; st_ino : Z; st_mode : Z; st_nlink : Z; st_uid : Z; st_gid : Z; st_rdev : Z;
  st_size : Z; st_blksize : Z; st_blocks : Z; st_atime : Z * Z; st_mtime : Z * Z; st_ctime : Z * Z
}.
Definition mkdev (m n : Z) : Z := u32 (Z.lor (Z.shiftl m 16) n).
(** [st] holds what the stack held: [st_rdev] is only set for a device. *)
Definition stati (i : nat) (st : stat) : M fst stat :=
  ip ← get_inode i;
  let d := i_copy ip in
  let st' := Stat (i_dev ip) (i_inum ip) (d_mode d) (u32 (d_nlink d)) (d_uid d) (d_gid d)
    (if d_type d =? T_DEVICE then mkdev (d_major d) (d_minor d) else st_rdev st)
    (d_size d) 1024 (d_size d / 1024 + 1) (d_atime d) (d_mtime d) (d_ctime d) in
  if (T_DIR <=? d_type d) && (d_type d <=? T_SYMLINK) then mret st' else panic "unexpected stat type"%string.

(** ** Reading and writing *)
Definition either_copyout (user_dst : bool) (dst : Z) (src : list Z) : M fst Z :=
  if user_dst then
    u ← gets fuser;
    let r := copyout dst src u in
    modify (set_fuser r.2);; mret r.1
  else modify (fun s => set_kmem (mmove dst 0 (Z.of_nat (length src)) (of_list src) (kmem s)) s);; mret 0.
(** The result, and the bytes moved. *)
Definition either_copyin (user_src : bool) (src len : Z) : M fst (Z * list Z) :=
  if user_src then u ← gets fuser; mret (copyin src len u)
  else k ← gets kmem; mret (0, to_list k src len).

Fixpoint readi_loop (fuel : nat) (i : nat) (user_dst : bool) (dst off n tot : Z) : M fst Z :=
  match fuel with
  | O => nofuel
  | S fuel =>
      if tot <? n then
        addr ← bmap i (off / BSIZE);
        if addr =? 0 then mret tot
        else
          ip ← get_inode i;
          bp ← fread (i_dev ip) addr;
          let m := Z.min (n - tot) (BSIZE - off mod BSIZE) in
          d ← fdata bp;
          r ← either_copyout user_dst dst (to_list d (off mod BSIZE) m);
          if r =? -1 then frelse bp;; mret (-1)
          else frelse bp;; readi_loop fuel i user_dst (u64 (dst + m)) (u32 (off + m)) n (tot + m)
      else mret tot
  end.
Definition rw_fuel (n : Z) : nat := Z.to_nat (n / BSIZE + 3).
Definition readi (i : nat) (user_dst : bool) (dst off n : Z) : M fst Z :=
  ip ← get_inode i;
  let size := d_size (i_copy ip) in
  if (size <? off) || (u32 (off + n) <? off) then mret 0
  else
    let n := if size <? u32 (off + n) then size - off else n in
    r ← readi_loop (rw_fuel n) i user_dst dst off n 0;
    mret (s32 r).

(** The loop of [writei]: [tot] and [off] where it stopped. *)
Fixpoint writei_loop (fuel : nat) (i : nat) (user_src : bool) (src off n tot : Z) : M fst (Z * Z) :=
  match fuel with
  | O => nofuel
  | S fuel =>
      if tot <? n then
        addr ← bmap i (off / BSIZE);
        if addr =? 0 then mret (tot, off)
        else
          ip ← get_inode i;
          bp ← fread (i_dev ip) addr;
          let m := Z.min (n - tot) (BSIZE - off mod BSIZE) in
          r ← either_copyin user_src src m;
          d ← fdata bp;
          fput bp (mmove (off mod BSIZE) 0 (Z.of_nat (length r.2)) (of_list r.2) d);;
          if r.1 =? -1 then frelse bp;; mret (tot, off)
          else
            fwrite bp;;
            frelse bp;;
            writei_loop fuel i user_src (u64 (src + m)) (u32 (off + m)) n (tot + m)
      else mret (tot, off)
  end.
Definition writei (i : nat) (user_src : bool) (src off n : Z) : M fst Z :=
  ip ← get_inode i;
  if (d_size (i_copy ip) <? off) || (u32 (off + n) <? off) then mret (-1)
  else if MAXFILE * BSIZE <? u32 (off + n) then mret (-1)
  else
    r ← writei_loop (rw_fuel n) i user_src src off n 0;
    ip ← get_inode i;
    (if d_size (i_copy ip) <? r.2 then upd_copy i (set_d_size r.2) else mret tt);;
    iupdate i;;
    mret (s32 r.1).

(** ** Directories *)
Record dirent := Dirent { de_inum : Z; de_type : Z; de_name : list Z }.
Definition get_dirent (m : bytes) (a : Z) : dirent := Dirent (rd32 m a) (rd16 m (a + 4)) (to_list m (a + 6) DIRSIZ).
Definition put_dirent (a : Z) (de : dirent) (m : bytes) : bytes :=
  mmove (a + 6) 0 DIRSIZ (of_list (de_name de)) (wr16 (a + 4) (de_type de) (wr32 a (de_inum de) m)).

(** [readi] of one entry into the local [de]. *)
Definition read_dirent (dp : nat) (off : Z) (msg : string) : M fst dirent :=
  r ← readi dp false de_addr off sizeof_dirent;
  if negb (r =? sizeof_dirent) then panic msg else gets (fun s => get_dirent (kmem s) de_addr).

(** The entry found and its offset. *)
Fixpoint dirlookup_loop (fuel : nat) (dp : nat) (name : list Z) (off : Z) : M fst (option (nat * Z)) :=
  match fuel with
  | O => nofuel
  | S fuel =>
      ip ← get_inode dp;
      if off <? d_size (i_copy ip) then
        de ← read_dirent dp off "dirlookup read";
        if de_inum de =? 0 then dirlookup_loop fuel dp name (u32 (off + sizeof_dirent))
        else if namecmp name (de_name de) =? 0 then
          i ← iget (i_dev ip) (de_inum de); mret (Some (i, off))
        else dirlookup_loop fuel dp name (u32 (off + sizeof_dirent))
      else mret None
  end.
Definition dir_fuel (size : Z) : nat := Z.to_nat (size / sizeof_dirent + 2).
Definition dirlookup (dp : nat) (name : list Z) : M fst (option (nat * Z)) :=
  ip ← get_inode dp;
  if negb (d_type (i_copy ip) =? T_DIR) then panic "dirlookup not DIR"%string
  else dirlookup_loop (dir_fuel (d_size (i_copy ip))) dp name 0.

Fixpoint dirlink_slot (fuel : nat) (dp : nat) (off : Z) : M fst Z :=
  match fuel with
  | O => nofuel
  | S fuel =>
      ip ← get_inode dp;
      if u32 off <? d_size (i_copy ip) then
        de ← read_dirent dp (u32 off) "dirlink read";
        if de_inum de =? 0 then mret off else dirlink_slot fuel dp (s32 (off + sizeof_dirent))
      else mret off
  end.
Definition dirlink (dp : nat) (name : list Z) (inum type : Z) : M fst Z :=
  o ← dirlookup dp name;
  match o with
  | Some (i, _) => iput i;; mret (-1)
  | None =>
      ip ← get_inode dp;
      off ← dirlink_slot (dir_fuel (d_size (i_copy ip))) dp 0;
      modify (fun s => set_kmem (put_dirent de_addr (Dirent inum type (strncpy_l (Z.to_nat DIRSIZ) name)) (kmem s)) s);;
      r ← writei dp false de_addr (u32 off) sizeof_dirent;
      if negb (r =? sizeof_dirent) then mret (-1) else mret 0
  end.

Definition unlink (dp : nat) (off : Z) : M fst Z :=
  modify (fun s => set_kmem (mset de_addr 0 sizeof_dirent (kmem s)) s);;
  r ← writei dp false de_addr off sizeof_dirent;
  if negb (r =? sizeof_dirent) then mret (-1) else mret 0.

(** The entry with number [inum] and its offset. *)
Fixpoint direntlookup_loop (fuel : nat) (dp : nat) (inum off : Z) : M fst (option (dirent * Z)) :=
  match fuel with
  | O => nofuel
  | S fuel =>
      ip ← get_inode dp;
      if off <? d_size (i_copy ip) then
        de ← read_dirent dp off "readi";
        if de_inum de =? u32 inum then mret (Some (de, off))
        else direntlookup_loop fuel dp inum (u32 (off + sizeof_dirent))
      else mret None
  end.
Definition direntlookup (dp : nat) (inum : Z) : M fst (option (dirent * Z)) :=
  ip ← get_inode dp;
  if negb (d_type (i_copy ip) =? T_DIR) then panic "dp is not DIR"%string
  else direntlookup_loop (dir_fuel (d_size (i_copy ip))) dp inum 0.

(** ** Paths *)
Fixpoint namex_loop (fuel : nat) (path name : list Z) (nameiparent : bool) (ip : nat) : M fst (option nat * list Z) :=
  match fuel with
  | O => nofuel
  | S fuel =>
      match skipelem path name with
      | None => if nameiparent then iput ip;; mret (None, name) else mret (Some ip, name)
      | Some (path, name) =>
          ilock ip;;
          p ← get_inode ip;
          if negb (d_type (i_copy p) =? T_DIR) then iunlockput ip;; mret (None, name)
          else if nameiparent && bool_decide (path = []) then iunlock ip;; mret (Some ip, name)
          else
            o ← dirlookup ip name;
            match o with
            | None => iunlockput ip;; mret (None, name)
            | Some (next, _) => iunlockput ip;; namex_loop fuel path name nameiparent next
            end
      end
  end.
(** [name] is what the caller's buffer holds. *)
Definition namex (path : list Z) (nameiparent : bool) (name : list Z) (dirfd : Z) : M fst (option nat * list Z) :=
  ip ← (if bool_decide (head path = Some SLASH) then iget ROOTDEV ROOTINO
        else if dirfd =? AT_FDCWD then c ← gets fcwd; idup c
        else
          f ← (fun s => deref (if dirfd <? 0 then None else fofile s !! Z.to_nat dirfd) s);
          i ← deref (f : option nat);
          idup i);
  namex_loop (S (length path)) path name nameiparent ip.
Definition namei (path name : list Z) (dirfd : Z) : M fst (option nat) :=
  r ← namex path false name dirfd; mret r.1.
Definition nameiparent (path name : list Z) (dirfd : Z) : M fst (option nat * list Z) := namex path true name dirfd.

End Fs.
Arguments fst D U : clear implicits.
Arguments Fst {D U}.
