(* ===== verification/FsBlocks.v ===== *)
(** * Blocks under the file system code

    The pattern of fs.c around a block (bread, use of the data, bwrite, brelse)
    as lemmas about the card, for any set of buffers already held; then the
    block allocator. *)
From S2P Require Import Prelude Spinlock Bytes UserMem Bio BioInv Fs.

Section Blocks.
Context {D : Type} `{sdcard_laws D} {U : Type} `{!usermem U}.
Local Notation bst := (bst D).
Local Notation fst := (fst D U).
Implicit Types b : bst.
Implicit Types s : fst.
Context (junk : bytes) (dev lba : Z) (L : gset Z).
Hypothesis Hdev : 0 < dev < 4.
Hypothesis HLb : bcache_lock ∈ L.
Hypothesis HLs : sdlock ∈ L.
Local Notation binv := (binv dev lba L).
Local Notation dblk := (dblk lba).
Local Notation on_disk := (on_disk lba).
Local Notation in_range := (in_range lba).
Local Notation sector := (sector lba).

(** The buffers of [h] are as they were. *)
Definition keeps (h : gmap nat Z) b b' : Prop := forall j x, h !! j = Some x -> bufs b' !! j = bufs b !! j.

Lemma keeps_refl h b : keeps h b b.
Proof. by intros j x _. Qed.

Lemma keeps_trans h b1 b2 b3 : keeps h b1 b2 -> keeps h b2 b3 -> keeps h b1 b3.
Proof. intros H1 H2 j x Hj. by rewrite (H2 j x Hj), (H1 j x Hj). Qed.

Lemma keeps_sub (h h' : gmap nat Z) b b' : h ⊆ h' -> keeps h' b b' -> keeps h b b'.
Proof. intros Hsub Hk j x Hj. apply (Hk j x). by eapply lookup_weaken. Qed.

(** Buffer [bp] is held for [bno] and holds [d]. *)
Record holds b (h : gmap nat Z) (bp : nat) (bno : Z) (d : bytes) : Prop := {
  ho_inv : binv b h;
  ho_held : h !! bp = Some bno;
  ho_buf : bufs b !! bp = Some (Buf 3 dev (sector bno) 1 (Some d))
}.

Lemma holds_step b h bp bno d b' : holds b h bp bno d -> binv b' h -> keeps h b b' -> holds b' h bp bno d.
Proof. intros [H1 H2 H3] HI Hk. split; [done|done|]. by rewrite (Hk _ _ H2). Qed.

Lemma fdata_ok s h bp bno d : holds (fbio s) h bp bno d -> fdata bp s = Done d s.
Proof.
  intros [_ _ Hb]. unfold fdata, on_bio, zoom. rewrite (buf_data_ok _ _ _ d Hb eq_refl). by destruct s.
Qed.

Lemma fread_ok s h bno : binv (fbio s) h -> in_range bno -> ~ held_by h bno -> (size h < NBUF)%nat ->
  exists bp b d, fread junk dev bno s = Done bp (set_fbio b s) /\ h !! bp = None /\ holds b (<[bp := bno]> h) bp bno d /\
    on_disk (fbio s) bno d /\ on_disk b bno d /\ (forall x k, dblk b x k = dblk (fbio s) x k) /\ keeps h (fbio s) b.
Proof.
  intros HI Hr Hnh Hsz.
  destruct (bread_ok junk dev lba L Hdev HLb HLs (fbio s) h bno HI Hr Hnh (idle_exists dev lba L _ h HI Hsz)) as (bp & b & E & [HI' Hf (d & Hb & Hon) Hcd Ho _ _]).
  exists bp, b, d. split; [unfold fread, on_bio, zoom; by rewrite E|]. split; [done|].
  assert (Hd : forall x k, dblk b x k = dblk (fbio s) x k) by (intros x k; apply Hcd).
  split; [split; [done|apply lookup_insert_eq|done]|]. split; [done|]. split; [intros k Hk; rewrite Hd; by apply Hon|]. split; [done|].
  intros j x Hj. assert (Hne : j <> bp) by congruence. destruct (held_buf _ _ _ _ _ _ _ HI Hj) as (dj & Hbj & _). rewrite Hbj. by apply Ho.
Qed.

Lemma frelse_ok s h bp bno d : holds (fbio s) h bp bno d -> on_disk (fbio s) bno d ->
  exists b, frelse bp s = Done tt (set_fbio b s) /\ binv b (delete bp h) /\
    (forall x k, dblk b x k = dblk (fbio s) x k) /\ keeps (delete bp h) (fbio s) b.
Proof.
  intros [HI Hh Hb] Hon. destruct (brelse_ok dev lba L Hdev HLb (fbio s) h bp bno d HI Hh Hb Hon) as (b & E & HI' & Hcd & Ho & _).
  exists b. split; [unfold frelse, on_bio, zoom; by rewrite E|]. split; [done|]. split; [intros x k; unfold BioInv.dblk; by rewrite Hcd|].
  intros j x Hj. apply lookup_delete_Some in Hj as [Hne Hj]. destruct (held_buf _ _ _ _ _ _ _ HI Hj) as (dj & Hbj & _). rewrite Hbj. by apply Ho.
Qed.

Lemma fput_ok s h bp bno d d' : holds (fbio s) h bp bno d ->
  exists b, fput bp d' s = Done tt (set_fbio b s) /\ holds b h bp bno d' /\
    (forall x k, dblk b x k = dblk (fbio s) x k) /\ keeps (delete bp h) (fbio s) b.
Proof.
  intros [HI Hh Hb]. destruct (put_held dev lba L (fbio s) h bp bno d' HI Hh) as (b & E & HI' & Hb' & Hcd & Ho).
  exists b. split; [unfold fput, on_bio, zoom; by rewrite E|]. split; [by split|]. split; [intros x k; unfold BioInv.dblk; by rewrite Hcd|].
  intros j x Hj. apply lookup_delete_Some in Hj as [Hne Hj]. destruct (held_buf _ _ _ _ _ _ _ HI Hj) as (dj & Hbj & _). rewrite Hbj. by apply Ho.
Qed.

(** The block is held once. *)
Lemma held_once b h bp bno d : holds b h bp bno d -> forall j, h !! j = Some bno -> j = bp.
Proof.
  intros [HI Hh Hb] j Hj. destruct (held_buf _ _ _ _ _ _ _ HI Hj) as (dj & Hbj & _). by eapply (bi_uniq _ _ _ _ _ HI).
Qed.

Lemma fwrite_ok s h bp bno d : holds (fbio s) h bp bno d ->
  exists b, fwrite bp s = Done tt (set_fbio b s) /\ holds b h bp bno d /\ on_disk b bno d /\
    (forall x k, 0 <= k < BSIZE -> dblk b x k = if decide (x = bno) then d k else dblk (fbio s) x k) /\ keeps h (fbio s) b.
Proof.
  intros Hh. pose proof (held_once _ _ _ _ _ Hh) as Hq. destruct Hh as [HI Hh Hb].
  destruct (bwrite_ok dev lba L Hdev HLs (fbio s) h bp bno d HI Hh Hb Hq) as (b & E & HI' & Hbf & Hd).
  exists b. split; [unfold fwrite, on_bio, zoom; by rewrite E|]. split; [split; [done|done|by rewrite Hbf]|]. split.
  - intros k Hk. rewrite Hd by done. by rewrite decide_True by done.
  - split; [done|]. intros j x _. by rewrite Hbf.
Qed.

(** New content for a held block: stored, written and released. *)
Lemma write_close s h bp bno d d' {A} (k : M fst A) : holds (fbio s) (<[bp := bno]> h) bp bno d -> h !! bp = None ->
  exists b, (fput bp d';; fwrite bp;; frelse bp;; k) s = k (set_fbio b s) /\ binv b h /\ keeps h (fbio s) b /\
    (forall x j, 0 <= j < BSIZE -> dblk b x j = if decide (x = bno) then d' j else dblk (fbio s) x j).
Proof.
  intros Hh Hn. assert (Edel : delete bp (<[bp := bno]> h) = h) by (by apply delete_insert_id).
  destruct (fput_ok s _ bp bno d d' Hh) as (b1 & E1 & Hh1 & Hd1 & Hk1). rewrite (bind_Done _ _ _ _ _ E1).
  destruct (fwrite_ok (set_fbio b1 s) _ bp bno d' Hh1) as (b2 & E2 & Hh2 & Hon2 & Hd2 & Hk2). rewrite (bind_Done _ _ _ _ _ E2).
  destruct (frelse_ok (set_fbio b2 s) _ bp bno d' Hh2 Hon2) as (b3 & E3 & HI3 & Hd3 & Hk3). rewrite Edel in HI3, Hk3, Hk1.
  exists b3. rewrite (bind_Done _ _ _ _ _ E3). split; [done|]. split; [done|]. split.
  - eapply keeps_trans; [exact Hk1|]. eapply keeps_trans; [|exact Hk3]. eapply keeps_sub; [|exact Hk2]. by apply insert_subseteq.
  - intros x j Hj. rewrite Hd3. cbn [fbio set_fbio] in *. rewrite Hd2 by done. destruct (decide _); [done|]. by rewrite Hd1.
Qed.

(** A held block released as it was read. *)
Lemma close_clean s h bp bno d {A} (k : M fst A) : holds (fbio s) (<[bp := bno]> h) bp bno d -> on_disk (fbio s) bno d -> h !! bp = None ->
  exists b, (frelse bp;; k) s = k (set_fbio b s) /\ binv b h /\ keeps h (fbio s) b /\ (forall x j, dblk b x j = dblk (fbio s) x j).
Proof.
  intros Hh Hon Hn. assert (Edel : delete bp (<[bp := bno]> h) = h) by (by apply delete_insert_id).
  destruct (frelse_ok s _ bp bno d Hh Hon) as (b & E & HI & Hd & Hk). rewrite Edel in HI, Hk. exists b. rewrite (bind_Done _ _ _ _ _ E). done.
Qed.

Lemma fst_eta s : set_fbio (fbio s) s = s.
Proof. by destruct s. Qed.

(** ** bzero *)
Lemma bzero_ok s h bno : binv (fbio s) h -> in_range bno -> ~ held_by h bno -> (size h < NBUF)%nat ->
  exists b, bzero junk dev bno s = Done tt (set_fbio b s) /\ binv b h /\ keeps h (fbio s) b /\
    (forall x k, 0 <= k < BSIZE -> dblk b x k = if decide (x = bno) then 0 else dblk (fbio s) x k).
Proof.
  intros HI Hr Hnh Hsz. unfold bzero. destruct (fread_ok s h bno HI Hr Hnh Hsz) as (bp & b1 & d & E1 & Hn & Hh & Hon & Hon1 & Hd1 & Hk1).
  rewrite (bind_Done _ _ _ _ _ E1), (bind_Done _ _ _ _ _ (fdata_ok (set_fbio b1 s) _ _ _ _ Hh)).
  destruct (write_close (set_fbio b1 s) h bp bno d (mset 0 0 BSIZE d) (mret tt) Hh Hn) as (b2 & E2 & HI2 & Hk2 & Hd2).
  exists b2. split.
  - revert E2. unfold mbind, M_bind. destruct (fput _ _ _) as [? s1| | | |]; try done. destruct (fwrite bp s1) as [? s2| | | |]; try done.
    by destruct (frelse bp s2) as [[] s3| | | |].
  - split; [done|]. split; [by eapply keeps_trans|]. intros x k Hk. rewrite Hd2 by done. cbn [fbio set_fbio]. destruct (decide _); [|apply Hd1].
    by rewrite mset_in by lia.
Qed.

(** ** The bitmap *)

(** Bit [bi] of a bitmap block. *)
Definition bitset (d : bytes) (bi : Z) : bool := negb (Z.land (d (bi / 8)) (Z.shiftl 1 (bi mod 8)) =? 0).
Definition byte_block (d : bytes) : Prop := forall k, 0 <= k < BSIZE -> 0 <= d k < 256.

Lemma bitset_bit d bi : bitset d bi = Z.testbit (d (bi / 8)) (bi mod 8).
Proof.
  unfold bitset. pose proof (Z.mod_pos_bound bi 8 ltac:(lia)). rewrite shiftl_1, land_pow2_bit by lia. pose proof (pow2_pos (bi mod 8) ltac:(lia)).
  destruct (Z.testbit _ _); [|done]. rewrite (proj2 (Z.eqb_neq (2 ^ (bi mod 8)) 0)) by lia. done.
Qed.

Lemma byte_index bi bj : bi / 8 = bj / 8 -> bi mod 8 = bj mod 8 -> bi = bj.
Proof. intros E1 E2. rewrite (Z.div_mod bi 8), (Z.div_mod bj 8) by lia. by rewrite E1, E2. Qed.

Lemma wrle1_in k v d : 0 <= v < 256 -> wrle 1 k v d k = v.
Proof. intros Hv. rewrite wrle_in by lia. rewrite Z.sub_diag, Z.pow_0_r, Z.div_1_r. by apply Z.mod_small. Qed.

Lemma lor_byte a k : 0 <= a < 256 -> 0 <= k < 8 -> 0 <= Z.lor a (Z.shiftl 1 k) < 256.
Proof.
  intros Ha Hk. rewrite shiftl_1 by lia. split; [apply Z.lor_nonneg; split; [lia|pose proof (pow2_pos k ltac:(lia)); lia]|].
  change 256 with (2 ^ 8). destruct (decide (Z.lor a (2 ^ k) = 0)) as [->|Hne]; [lia|]. pose proof (pow2_pos k ltac:(lia)).
  assert (Hp : 0 < Z.lor a (2 ^ k)) by (assert (0 <= Z.lor a (2 ^ k)) by (apply Z.lor_nonneg; lia); lia). apply Z.log2_lt_pow2; [done|].
  rewrite Z.log2_lor by lia. apply Z.max_lub_lt; [|rewrite Z.log2_pow2 by lia; lia].
  destruct (decide (a = 0)) as [->|]; [cbn; lia|]. apply Z.log2_lt_pow2; [lia|]. change (2 ^ 8) with 256. lia.
Qed.

Lemma land_byte a x : 0 <= a < 256 -> 0 <= Z.land a x < 256.
Proof.
  intros Ha. assert (H1 : 0 <= Z.land a x) by (apply Z.land_nonneg; left; lia). split; [done|].
  rewrite <- (Z.land_ones_low a 8 ltac:(lia)). 2:{ destruct (decide (a = 0)) as [->|]; [cbn; lia|]. apply Z.log2_lt_pow2; [lia|]. change (2 ^ 8) with 256. lia. }
  rewrite (Z.land_comm a), <- Z.land_assoc. rewrite Z.land_comm, Z.land_ones by lia. change 256 with (2 ^ 8). apply Z.mod_pos_bound. lia.
Qed.

Definition bit_on (bi : Z) (d : bytes) : bytes := wrle 1 (bi / 8) (Z.lor (d (bi / 8)) (Z.shiftl 1 (bi mod 8))) d.
Definition bit_off (bi : Z) (d : bytes) : bytes := wrle 1 (bi / 8) (Z.land (d (bi / 8)) (Z.lnot (Z.shiftl 1 (bi mod 8)))) d.

Lemma bit_byte bi : 0 <= bi < BPB -> 0 <= bi / 8 < BSIZE.
Proof. unfold BPB, BSIZE. intros. split; [apply Z.div_pos; lia|apply Z.div_lt_upper_bound; lia]. Qed.

Lemma bit_on_bits d bi bj : byte_block d -> 0 <= bi < BPB -> bitset (bit_on bi d) bj = bitset d bj || (bj =? bi).
Proof.
  intros Hd Hbi. pose proof (Z.mod_pos_bound bi 8 ltac:(lia)). pose proof (Z.mod_pos_bound bj 8 ltac:(lia)). pose proof (Hd _ (bit_byte bi Hbi)).
  rewrite !bitset_bit. unfold bit_on. destruct (decide (bj / 8 = bi / 8)) as [E|E].
  - rewrite E, wrle1_in by (by apply lor_byte). rewrite Z.lor_spec, shiftl_1, Z.pow2_bits_eqb by lia. f_equal.
    destruct (bi mod 8 =? bj mod 8) eqn:E1, (bj =? bi) eqn:E2; bool_hyps; try done; [|subst; lia]. exfalso. apply E2. by apply byte_index.
  - rewrite wrle_out by (change (Z.of_nat 1) with 1; lia). rewrite (proj2 (Z.eqb_neq bj bi)); [by rewrite orb_false_r|]. by intros ->.
Qed.

Lemma bit_off_bits d bi bj : byte_block d -> 0 <= bi < BPB -> bitset (bit_off bi d) bj = bitset d bj && negb (bj =? bi).
Proof.
  intros Hd Hbi. pose proof (Z.mod_pos_bound bi 8 ltac:(lia)). pose proof (Z.mod_pos_bound bj 8 ltac:(lia)). pose proof (Hd _ (bit_byte bi Hbi)).
  rewrite !bitset_bit. unfold bit_off. destruct (decide (bj / 8 = bi / 8)) as [E|E].
  - rewrite E, wrle1_in by (by apply land_byte). rewrite Z.land_spec, Z.lnot_spec, shiftl_1, Z.pow2_bits_eqb by lia. do 2 f_equal.
    destruct (bi mod 8 =? bj mod 8) eqn:E1, (bj =? bi) eqn:E2; bool_hyps; try done; [|subst; lia]. exfalso. apply E2. by apply byte_index.
  - rewrite wrle_out by (change (Z.of_nat 1) with 1; lia). rewrite (proj2 (Z.eqb_neq bj bi)); [by rewrite andb_true_r|]. by intros ->.
Qed.

Lemma bit_on_bytes d bi : byte_block d -> 0 <= bi < BPB -> byte_block (bit_on bi d).
Proof.
  intros Hd Hbi k Hk. unfold bit_on. destruct (decide (k = bi / 8)) as [->|Hne].
  - pose proof (Hd _ (bit_byte bi Hbi)). pose proof (Z.mod_pos_bound bi 8 ltac:(lia)). rewrite wrle1_in by (by apply lor_byte). by apply lor_byte.
  - rewrite wrle_out by (change (Z.of_nat 1) with 1; lia). by apply Hd.
Qed.

Lemma bit_off_bytes d bi : byte_block d -> 0 <= bi < BPB -> byte_block (bit_off bi d).
Proof.
  intros Hd Hbi k Hk. unfold bit_off. destruct (decide (k = bi / 8)) as [->|Hne].
  - pose proof (Hd _ (bit_byte bi Hbi)). rewrite wrle1_in by (by apply land_byte). by apply land_byte.
  - rewrite wrle_out by (change (Z.of_nat 1) with 1; lia). by apply Hd.
Qed.

Lemma bitset_agree d d' bi : 0 <= bi < BPB -> (forall k, 0 <= k < BSIZE -> d k = d' k) -> bitset d bi = bitset d' bi.
Proof. intros Hbi He. unfold bitset. by rewrite (He _ (bit_byte bi Hbi)). Qed.

(** ** The block allocator *)

(** Where the blocks of the file system are: all on the partition, the bitmap
    inside it. *)
Record geo (k : superblock) : Prop := {
  geo_size : 0 < sb_size k < 2 ^ 31;
  geo_range : forall x, 0 <= x < sb_size k -> in_range x;
  geo_bitmap : forall x, 0 <= x < sb_size k -> 0 <= x / BPB + sb_bmapstart k < sb_size k
}.

(** Block [x] is marked in use on the card. *)
Definition used b (k : superblock) (x : Z) : bool := bitset (dblk b (BBLOCK x k)) (x mod BPB).

(** The bitmap is made of bytes and accounts for itself. *)
Definition bitmap_ok b (k : superblock) : Prop := forall x, 0 <= x < sb_size k ->
  byte_block (dblk b (BBLOCK x k)) /\ used b k (BBLOCK x k) = true.

(** No bitmap block is held. *)
Definition bitmap_unheld (h : gmap nat Z) (k : superblock) : Prop := forall x, 0 <= x < sb_size k -> ~ held_by h (BBLOCK x k).

Lemma bblock_val k x : geo k -> 0 <= x < sb_size k -> BBLOCK x k = x / BPB + sb_bmapstart k.
Proof.
  intros Hg Hx. unfold BBLOCK. pose proof (geo_size _ Hg). pose proof (geo_bitmap _ Hg x Hx). apply wrap_small.
  change (2 ^ 31) with 2147483648 in *. change (2 ^ 32) with 4294967296. lia.
Qed.

Lemma bblock_range k x : geo k -> 0 <= x < sb_size k -> 0 <= BBLOCK x k < sb_size k.
Proof. intros Hg Hx. rewrite bblock_val by done. by apply geo_bitmap. Qed.

Lemma bblock_eq k x y : geo k -> 0 <= x < sb_size k -> 0 <= y < sb_size k -> BBLOCK x k = BBLOCK y k -> x / BPB = y / BPB.
Proof. intros Hg Hx Hy. rewrite !bblock_val by done. lia. Qed.

Lemma bpb_split x : x = x / BPB * BPB + x mod BPB /\ 0 <= x mod BPB < BPB.
Proof. pose proof (Z.div_mod x BPB ltac:(unfold BPB, BSIZE; lia)). pose proof (Z.mod_pos_bound x BPB ltac:(unfold BPB, BSIZE; lia)). lia. Qed.

(** [b'] has block [x] newly in use and zeroed, nothing else changed. *)
Record allocated b (k : superblock) (x : Z) b' : Prop := {
  al_free : used b k x = false;
  al_used : forall y, 0 <= y < sb_size k -> used b' k y = used b k y || (y =? x);
  al_zero : forall j, 0 <= j < BSIZE -> dblk b' x j = 0;
  al_other : forall z j, z <> x -> z <> BBLOCK x k -> 0 <= j < BSIZE -> dblk b' z j = dblk b z j;
  al_bitmap : bitmap_ok b' k
}.

(** The bitmap after one bit of it changed. *)
Lemma bitmap_step b b' k x d' : geo k -> bitmap_ok b k -> 0 <= x < sb_size k ->
  (forall z j, 0 <= j < BSIZE -> dblk b' z j = if decide (z = BBLOCK x k) then d' j else dblk b z j) ->
  forall y, 0 <= y < sb_size k -> used b' k y = if decide (y / BPB = x / BPB) then bitset d' (y mod BPB) else used b k y.
Proof.
  intros Hg Hbm Hx Hd y Hy. unfold used. destruct (decide (y / BPB = x / BPB)) as [E|E].
  - apply bitset_agree; [apply bpb_split|]. intros j Hj. rewrite Hd by done. rewrite decide_True; [done|]. rewrite !bblock_val by done. lia.
  - apply bitset_agree; [apply bpb_split|]. intros j Hj. rewrite Hd by done. rewrite decide_False; [done|]. intros E2. apply E. by apply (bblock_eq k).
Qed.

Lemma used_mod y x : y / BPB = x / BPB -> (y mod BPB =? x mod BPB) = (y =? x).
Proof.
  intros E. destruct (bpb_split y), (bpb_split x). destruct (y mod BPB =? x mod BPB) eqn:E1, (y =? x) eqn:E2; bool_hyps; try done; rewrite E in *; lia.
Qed.

(** Marking, then zeroing, a free block. *)
Lemma mark_block s h k x bp : geo k -> bitmap_ok (fbio s) k -> 0 <= x < sb_size k -> used (fbio s) k x = false ->
  bitmap_unheld h k -> ~ held_by h x -> (size h < NBUF)%nat -> h !! bp = None ->
  forall d, holds (fbio s) (<[bp := BBLOCK x k]> h) bp (BBLOCK x k) d -> on_disk (fbio s) (BBLOCK x k) d ->
  forall A (r : A), exists b, (fput bp (bit_on (x mod BPB) d);; fwrite bp;; frelse bp;; bzero junk dev x;; mret r) s = Done r (set_fbio b s) /\
    binv b h /\ keeps h (fbio s) b /\ allocated (fbio s) k x b.
Proof.
  intros Hg Hbm Hx Hfree Hbu Hnh Hsz Hn d Hh Hon A r. destruct (Hbm x Hx) as [Hbytes Hself].
  destruct (write_close s h bp _ d (bit_on (x mod BPB) d) (bzero junk dev x;; mret r) Hh Hn) as (b1 & E1 & HI1 & Hk1 & Hd1). rewrite E1.
  destruct (bzero_ok (set_fbio b1 s) h x HI1 (geo_range _ Hg x Hx) Hnh Hsz) as (b2 & E2 & HI2 & Hk2 & Hd2).
  rewrite (bind_Done _ _ _ _ _ E2). exists b2. split; [done|]. split; [done|]. split; [by eapply keeps_trans|].
  assert (Hbd : byte_block d) by (intros j Hj; rewrite (Hon j Hj); by apply Hbytes).
  assert (Hne : BBLOCK x k <> x) by (intros E; rewrite E in Hself; congruence).
  assert (Hm : 0 <= x mod BPB < BPB) by apply bpb_split.
  assert (Hdd : forall z j, 0 <= j < BSIZE -> dblk b2 z j = if decide (z = x) then 0 else if decide (z = BBLOCK x k) then bit_on (x mod BPB) d j else dblk (fbio s) z j).
  { intros z j Hj. rewrite Hd2 by done. cbn [fbio set_fbio]. destruct (decide (z = x)); [done|]. by rewrite Hd1. }
  assert (Hnb : forall y, 0 <= y < sb_size k -> BBLOCK y k <> x).
  { intros y Hy E. destruct (Hbm y Hy) as [_ Hs]. rewrite E in Hs. congruence. }
  assert (Hu : forall y, 0 <= y < sb_size k -> used b2 k y = used (fbio s) k y || (y =? x)).
  { intros y Hy. unfold used at 1. erewrite (bitset_agree _ (dblk b1 (BBLOCK y k))); [|apply bpb_split|].
    2:{ intros j Hj. rewrite Hd2 by done. by rewrite decide_False by (by apply Hnb). }
    fold (used b1 k y). rewrite (bitmap_step (fbio s) b1 k x (bit_on (x mod BPB) d) Hg Hbm Hx Hd1 y Hy). destruct (decide _) as [E|E].
    - rewrite bit_on_bits by done. rewrite used_mod by done. f_equal. unfold used. apply bitset_agree; [apply bpb_split|].
      intros j Hj. rewrite (Hon j Hj). rewrite !bblock_val by done. by rewrite E.
    - rewrite (proj2 (Z.eqb_neq y x)); [by rewrite orb_false_r|]. by intros ->. }
  split; [done|done| | |].
  - intros j Hj. rewrite Hdd by done. by rewrite decide_True by done.
  - intros z j Hz Hz2 Hj. rewrite Hdd by done. by rewrite !decide_False by done.
  - intros y Hy. split.
    + intros j Hj. rewrite Hdd by done. rewrite decide_False by (by apply Hnb). destruct (decide _); [by apply bit_on_bytes|by apply Hbm].
    + rewrite Hu by (by apply bblock_range). destruct (Hbm y Hy) as [_ ->]. done.
Qed.

Lemma balloc_bits_ok k h bp c0 : geo k -> bitmap_unheld h k -> (size h < NBUF)%nat -> h !! bp = None ->
  (BPB | c0) -> 0 <= c0 < sb_size k -> forall n bi s d, Z.of_nat n = BPB - bi -> 0 <= bi -> sb s = k -> bitmap_ok (fbio s) k ->
  (forall x, 0 <= x < sb_size k -> used (fbio s) k x = false -> ~ held_by h x) ->
  holds (fbio s) (<[bp := BBLOCK c0 k]> h) bp (BBLOCK c0 k) d -> on_disk (fbio s) (BBLOCK c0 k) d ->
  (balloc_bits junk n dev bp c0 bi s = Done None s /\ forall y, c0 + bi <= y < c0 + BPB -> y < sb_size k -> used (fbio s) k y = true) \/
  exists x b, balloc_bits junk n dev bp c0 bi s = Done (Some x) (set_fbio b s) /\ c0 + bi <= x < c0 + BPB /\ x < sb_size k /\
    binv b h /\ keeps h (fbio s) b /\ allocated (fbio s) k x b /\ forall y, c0 + bi <= y < x -> used (fbio s) k y = true.
Proof.
  intros Hg Hbu Hsz Hn [q Hq] Hc0. assert (HB : 0 < BPB) by (unfold BPB, BSIZE; lia).
  induction n as [|n IH]; intros bi s d Hnb Hbi Hsb Hbm Hfh Hh Hon; cbn [balloc_bits].
  - left. split; [done|]. intros y Hy. lia.
  - rewrite bind_gets. rewrite Hsb. destruct ((bi <? BPB) && (c0 + bi <? sb_size k)) eqn:Ec.
    2:{ left. split; [done|]. intros y Hy Hys. apply andb_false_iff in Ec as [Ec|Ec]; bool_hyps; lia. }
    bool_hyps. rewrite (bind_Done _ _ _ _ _ (fdata_ok s _ _ _ d Hh)). cbv zeta. set (x := c0 + bi).
    assert (Hx : 0 <= x < sb_size k) by (unfold x; lia).
    assert (Emod : x mod BPB = bi /\ x / BPB = c0 / BPB).
    { unfold x. rewrite Hq. replace (q * BPB + bi) with (bi + q * BPB) by lia. rewrite Z_mod_plus_full, Z.mod_small by lia. rewrite Z.div_add, Z.div_mul, (Z.div_small bi) by lia. lia. }
    assert (Ebb : BBLOCK x k = BBLOCK c0 k) by (rewrite !bblock_val by done; lia).
    assert (Eu : used (fbio s) k x = bitset d bi).
    { unfold used. rewrite Ebb. destruct Emod as [-> _]. apply bitset_agree; [lia|]. intros j Hj. symmetry. by apply Hon. }
    unfold bitset in Eu. destruct (Z.land (d (bi / 8)) (Z.shiftl 1 (bi mod 8)) =? 0) eqn:Ebit; cbn [negb] in Eu.
    + right. fold x. destruct (mark_block s h k x bp Hg Hbm Hx Eu Hbu (Hfh x Hx Eu) Hsz Hn d) with (A := option Z) (r := Some x) as (b & E & HI & Hk & Hal).
      { by rewrite Ebb. } { by rewrite Ebb. }
      exists x, b. destruct Emod as [Em _]. rewrite Em in E. unfold bit_on in E. split; [exact E|]. split; [unfold x; lia|]. split; [lia|]. split; [done|]. split; [done|]. split; [done|]. intros y Hy. unfold x in Hy. lia.
    + destruct (IH (bi + 1) s d ltac:(lia) ltac:(lia) Hsb Hbm Hfh Hh Hon) as [[E Hu]|(y & b & E & Hy & Hys & HI & Hk & Hal & Hu)].
      * left. split; [exact E|]. intros y Hy Hys. destruct (decide (y = x)) as [->|Hne]; [done|]. apply Hu; [unfold x in Hne; lia|done].
      * right. exists y, b. split; [exact E|]. split; [lia|]. split; [done|]. split; [done|]. split; [done|]. split; [done|].
        intros z Hz. destruct (decide (z = x)) as [->|Hne]; [done|]. apply Hu. unfold x in Hne. lia.
Qed.

Lemma balloc_blocks_ok k h : geo k -> bitmap_unheld h k -> (size h < NBUF)%nat -> forall n s c0, sb s = k -> bitmap_ok (fbio s) k -> binv (fbio s) h ->
  (forall x, 0 <= x < sb_size k -> used (fbio s) k x = false -> ~ held_by h x) -> (BPB | c0) -> 0 <= c0 -> sb_size k <= c0 + Z.of_nat n * BPB ->
  (exists b, balloc_blocks junk n dev c0 s = Done 0 (set_fbio b s) /\ binv b h /\ keeps h (fbio s) b /\ (forall z j, dblk b z j = dblk (fbio s) z j) /\
     forall y, c0 <= y < sb_size k -> used (fbio s) k y = true) \/
  exists x b, balloc_blocks junk n dev c0 s = Done x (set_fbio b s) /\ c0 <= x < sb_size k /\ binv b h /\ keeps h (fbio s) b /\
    allocated (fbio s) k x b /\ forall y, c0 <= y < x -> used (fbio s) k y = true.
Proof.
  intros Hg Hbu Hsz. induction n as [|n IH]; intros s c0 Hsb Hbm HI Hfh Hdiv Hc0 Hfuel; cbn [balloc_blocks].
  { left. exists (fbio s). rewrite fst_eta. split; [done|]. split; [done|]. split; [apply keeps_refl|]. split; [done|]. intros y Hy. lia. }
  rewrite bind_gets, Hsb. destruct (c0 <? sb_size k) eqn:E0; bool_hyps.
  2:{ left. exists (fbio s). rewrite fst_eta. split; [done|]. split; [done|]. split; [apply keeps_refl|]. split; [done|]. intros y Hy. lia. }
  rewrite bind_gets, Hsb. assert (Hx0 : 0 <= c0 < sb_size k) by lia.
  destruct (fread_ok s h (BBLOCK c0 k) HI (geo_range _ Hg _ (bblock_range k c0 Hg Hx0)) (Hbu c0 Hx0) Hsz) as (bp & b1 & d & E1 & Hn & Hh & Hon & Hon1 & Hd1 & Hk1).
  rewrite (bind_Done _ _ _ _ _ E1). set (s1 := set_fbio b1 s).
  assert (Hu1 : forall y, used (fbio s1) k y = used (fbio s) k y) by (intros y; unfold used; apply bitset_agree; [apply bpb_split|intros j _; apply Hd1]).
  assert (Hbm1 : bitmap_ok (fbio s1) k).
  { intros y Hy. destruct (Hbm y Hy) as [Hb1 Hb2]. split; [intros j Hj; cbn; rewrite Hd1; by apply Hb1|by rewrite Hu1]. }
  assert (Hfh1 : forall x, 0 <= x < sb_size k -> used (fbio s1) k x = false -> ~ held_by h x) by (intros x Hx; rewrite Hu1; by apply Hfh).
  destruct (balloc_bits_ok k h bp c0 Hg Hbu Hsz Hn Hdiv Hx0 (Z.to_nat BPB) 0 s1 d ltac:(rewrite Z2Nat.id by (unfold BPB, BSIZE; lia); lia) ltac:(lia) Hsb Hbm1 Hfh1 Hh Hon1)
    as [[E2 Hu2]|(x & b2 & E2 & Hx & Hxs & HI2 & Hk2 & Hal & Hu2)]; rewrite (bind_Done _ _ _ _ _ E2).
  - destruct (close_clean s1 h bp _ d (balloc_blocks junk n dev (c0 + BPB)) Hh Hon1 Hn) as (b3 & E3 & HI3 & Hk3 & Hd3). rewrite E3.
    set (s3 := set_fbio b3 s1). assert (Hd3' : forall z j, dblk (fbio s3) z j = dblk (fbio s) z j) by (intros z j; cbn; rewrite Hd3; apply Hd1).
    assert (Hu3 : forall y, used (fbio s3) k y = used (fbio s) k y) by (intros y; unfold used; apply bitset_agree; [apply bpb_split|intros j _; apply Hd3']).
    assert (Hbm3 : bitmap_ok (fbio s3) k).
    { intros y Hy. destruct (Hbm y Hy) as [Hb1 Hb2]. split; [intros j Hj; rewrite Hd3'; by apply Hb1|by rewrite Hu3]. }
    assert (Hfirst : forall y, c0 <= y < c0 + BPB -> y < sb_size k -> used (fbio s) k y = true) by (intros y Hy Hys; rewrite <- Hu1; apply Hu2; lia).
    destruct (IH s3 (c0 + BPB) Hsb Hbm3 HI3) as [(b4 & E4 & HI4 & Hk4 & Hd4 & Hu4)|(x & b4 & E4 & Hx & HI4 & Hk4 & Hal & Hu4)].
    + intros x Hx. rewrite Hu3. by apply Hfh.
    + by apply Z.divide_add_r; [|exists 1; lia].
    + unfold BPB, BSIZE in *. lia.
    + lia.
    + left. exists b4. split; [exact E4|]. split; [done|]. split; [do 2 (eapply keeps_trans; [eassumption|]); exact Hk4|]. split; [intros z j; rewrite Hd4; apply Hd3'|].
      intros y Hy. destruct (Z.lt_ge_cases y (c0 + BPB)); [apply Hfirst; lia|]. rewrite <- Hu3. apply Hu4. lia.
    + right. exists x, b4. split; [exact E4|]. split; [unfold BPB, BSIZE in *; lia|]. split; [done|]. split; [do 2 (eapply keeps_trans; [eassumption|]); exact Hk4|]. split.
      * destruct Hal as [A1 A2 A3 A4 A5]. split; [by rewrite <- Hu3|intros y Hy; by rewrite A2, Hu3|done| |done]. intros z j Hz1 Hz2 Hj. rewrite A4 by done. apply Hd3'.
      * intros y Hy. destruct (Z.lt_ge_cases y (c0 + BPB)); [apply Hfirst; lia|]. rewrite <- Hu3. apply Hu4. lia.
  - right. exists x, b2. split; [done|]. split; [lia|]. split; [done|]. split; [by eapply keeps_trans|]. split.
    + destruct Hal as [A1 A2 A3 A4 A5]. split; [by rewrite <- Hu1|intros y Hy; by rewrite A2, Hu1|done| |done]. intros z j Hz1 Hz2 Hj. rewrite A4 by done. apply Hd1.
    + intros y Hy. rewrite <- Hu1. apply Hu2. lia.
Qed.

Lemma balloc_ok s h : geo (sb s) -> bitmap_ok (fbio s) (sb s) -> binv (fbio s) h -> bitmap_unheld h (sb s) -> (size h < NBUF)%nat ->
  (forall x, 0 <= x < sb_size (sb s) -> used (fbio s) (sb s) x = false -> ~ held_by h x) ->
  (exists b, balloc junk dev s = Done 0 (set_fbio b s) /\ binv b h /\ keeps h (fbio s) b /\ (forall z j, dblk b z j = dblk (fbio s) z j) /\
     forall y, 0 <= y < sb_size (sb s) -> used (fbio s) (sb s) y = true) \/
  exists x b, balloc junk dev s = Done x (set_fbio b s) /\ 0 <= x < sb_size (sb s) /\ binv b h /\ keeps h (fbio s) b /\
    allocated (fbio s) (sb s) x b /\ forall y, 0 <= y < x -> used (fbio s) (sb s) y = true.
Proof.
  intros Hg Hbm HI Hbu Hsz Hfh. unfold balloc. rewrite bind_gets. apply balloc_blocks_ok; try done.
  - by exists 0.
  - pose proof (geo_size _ Hg). destruct (bpb_split (sb_size (sb s))). pose proof (Z.div_pos (sb_size (sb s)) BPB ltac:(lia) ltac:(unfold BPB, BSIZE; lia)).
    rewrite Nat2Z.inj_succ, Z2Nat.id by lia. lia.
Qed.

(** [bfree] of a used block clears its bit and changes nothing else. *)
Lemma bfree_ok s h x : geo (sb s) -> bitmap_ok (fbio s) (sb s) -> binv (fbio s) h -> bitmap_unheld h (sb s) -> (size h < NBUF)%nat ->
  0 <= x < sb_size (sb s) ->
  if used (fbio s) (sb s) x then
    exists b, bfree junk dev x s = Done tt (set_fbio b s) /\ binv b h /\ keeps h (fbio s) b /\
      (forall y, 0 <= y < sb_size (sb s) -> used b (sb s) y = used (fbio s) (sb s) y && negb (y =? x)) /\
      (forall z j, z <> BBLOCK x (sb s) -> 0 <= j < BSIZE -> dblk b z j = dblk (fbio s) z j) /\
      (forall y, 0 <= y < sb_size (sb s) -> byte_block (dblk b (BBLOCK y (sb s))))
  else bfree junk dev x s = Panic "freeing free block".
Proof.
  intros Hg Hbm HI Hbu Hsz Hx. set (k := sb s) in *. destruct (Hbm x Hx) as [Hbytes _].
  assert (Hm : 0 <= x mod BPB < BPB) by apply bpb_split.
  assert (Hrun : forall o, (exists bp b1 d, fread junk dev (BBLOCK x k) s = Done bp (set_fbio b1 s) /\ h !! bp = None /\ holds b1 (<[bp := BBLOCK x k]> h) bp (BBLOCK x k) d /\
    on_disk (fbio s) (BBLOCK x k) d /\ (forall z j, dblk b1 z j = dblk (fbio s) z j) /\ keeps h (fbio s) b1 /\
    (if bitset d (x mod BPB) then (fput bp (bit_off (x mod BPB) d);; fwrite bp;; frelse bp) (set_fbio b1 s) else Panic "freeing free block") = o) -> bfree junk dev x s = o).
  { intros o (bp & b1 & d & E1 & _ & Hh & _ & _ & _ & Eo). unfold bfree. rewrite bind_gets. fold k. rewrite (bind_Done _ _ _ _ _ E1). cbv zeta.
    rewrite (bind_Done _ _ _ _ _ (fdata_ok (set_fbio b1 s) _ _ _ d Hh)). unfold bitset in Eo. destruct (Z.land _ _ =? 0); exact Eo. }
  destruct (fread_ok s h (BBLOCK x k) HI (geo_range _ Hg _ (bblock_range k x Hg Hx)) (Hbu x Hx) Hsz) as (bp & b1 & d & E1 & Hn & Hh & Hon & Hon1 & Hd1 & Hk1).
  assert (Eu : used (fbio s) k x = bitset d (x mod BPB)) by (unfold used; apply bitset_agree; [done|intros j Hj; symmetry; by apply Hon]).
  rewrite Eu. destruct (bitset d (x mod BPB)) eqn:Eb.
  - destruct (write_close (set_fbio b1 s) h bp _ d (bit_off (x mod BPB) d) (mret tt) Hh Hn) as (b2 & E2 & HI2 & Hk2 & Hd2).
    assert (E2' : (fput bp (bit_off (x mod BPB) d);; fwrite bp;; frelse bp) (set_fbio b1 s) = Done tt (set_fbio b2 s)).
    { revert E2. unfold mbind, M_bind. destruct (fput _ _ _) as [? s1| | | |]; try done. destruct (fwrite bp s1) as [? s2| | | |]; try done.
      by destruct (frelse bp s2) as [[] s3| | | |]. }
    exists b2. split; [apply Hrun; exists bp, b1, d; rewrite Eb; done|]. split; [done|]. split; [by eapply keeps_trans|].
    assert (Hbd : byte_block d) by (intros j Hj; rewrite (Hon j Hj); by apply Hbytes).
    assert (Hd : forall z j, 0 <= j < BSIZE -> dblk b2 z j = if decide (z = BBLOCK x k) then bit_off (x mod BPB) d j else dblk (fbio s) z j).
    { intros z j Hj. rewrite Hd2 by done. cbn [fbio set_fbio]. destruct (decide _); [done|apply Hd1]. }
    split; [|split].
    + intros y Hy. rewrite (bitmap_step (fbio s) b2 k x (bit_off (x mod BPB) d) Hg Hbm Hx Hd y Hy). destruct (decide _) as [E|E].
      * rewrite bit_off_bits by done. rewrite used_mod by done. f_equal. unfold used. apply bitset_agree; [apply bpb_split|].
        intros j Hj. rewrite (Hon j Hj). rewrite !bblock_val by done. by rewrite E.
      * rewrite (proj2 (Z.eqb_neq y x)); [by rewrite andb_true_r|]. by intros ->.
    + intros z j Hz Hj. rewrite Hd by done. by rewrite decide_False by done.
    + intros y Hy j Hj. rewrite Hd by done. destruct (decide _); [by apply bit_off_bytes|by apply Hbm].
  - apply Hrun. exists bp, b1, d. rewrite Eb. done.
Qed.

(** The cache is consistent, nobody holds a buffer, and the locks exist. *)
Record idle (s : fst) : Prop := {
  id_dev : 0 < dev < 4;
  id_locks : bcache_lock ∈ L /\ sdlock ∈ L /\ itable_lock ∈ L;
  id_inv : binv (fbio s) ∅
}.

End Blocks.
