(* ===== verification/FsInode.v ===== *)
(** * Inodes on disk and in memory

    The layout of the disk inode, iupdate and ilock, and the inode table. *)
From S2P Require Import Prelude Spinlock Bytes UserMem Bio BioInv Fs FsBlocks.

(** ** The layout *)

Lemma rdle_wrle_mod n m a v : rdle n (wrle n a v m) a = v mod 256 ^ Z.of_nat n.
Proof. apply rdle_digits. intros j Hj. rewrite wrle_in by lia. by replace (a + j - a) with j by lia. Qed.

Lemma swrap_mod w v : 0 < w -> swrap w (v mod 2 ^ w) = swrap w v.
Proof.
  intros Hw. unfold swrap. f_equal. rewrite Zplus_mod_idemp_l. done.
Qed.

Lemma put_words_out l : forall a m i, i < a \/ a + 4 * Z.of_nat (length l) <= i -> put_words a l m i = m i.
Proof.
  induction l as [|v l IH]; intros a m i Hi; cbn [put_words length] in *; [done|]. rewrite IH by lia. apply wrle_out. lia.
Qed.

Lemma put_words_in l : forall a m k v, l !! k = Some v -> 0 <= v < 2 ^ 32 -> rd32 (put_words a l m) (a + 4 * Z.of_nat k) = v.
Proof.
  induction l as [|v0 l IH]; intros a m k v Hk Hv; [done|]. cbn [put_words]. destruct k as [|k].
  - injection Hk as ->. rewrite Z.add_0_r. rewrite (rdle_agree 4 _ (wr32 a v m)); [by apply rdle_wrle_same|].
    intros i Hi. apply put_words_out. lia.
  - replace (a + 4 * Z.of_nat (S k)) with (a + 4 + 4 * Z.of_nat k) by lia. by apply IH.
Qed.

Definition s16_range (v : Z) : Prop := - 2 ^ 15 <= v < 2 ^ 15.
Definition u32_range (v : Z) : Prop := 0 <= v < 2 ^ 32.
Definition time_range (t : Z * Z) : Prop := - 2 ^ 63 <= t.1 < 2 ^ 63 /\ - 2 ^ 63 <= t.2 < 2 ^ 63.

(** The values the fields of [struct dinode] can have. *)
Record dinode_ok (d : dinode) : Prop := {
  ok_type : s16_range (d_type d); ok_major : s16_range (d_major d); ok_minor : s16_range (d_minor d); ok_nlink : s16_range (d_nlink d);
  ok_size : u32_range (d_size d); ok_mode : u32_range (d_mode d); ok_uid : u32_range (d_uid d); ok_gid : u32_range (d_gid d);
  ok_atime : time_range (d_atime d); ok_mtime : time_range (d_mtime d); ok_ctime : time_range (d_ctime d);
  ok_addrs : Z.of_nat (length (d_addrs d)) = NDIRECT + 2 /\ Forall u32_range (d_addrs d)
}.

(** Reading past a write that does not overlap. *)
Lemma rd_put_words n a l m x : x + Z.of_nat n <= a \/ a + 4 * Z.of_nat (length l) <= x -> rdle n (put_words a l m) x = rdle n m x.
Proof. intros Hx. apply rdle_agree. intros i Hi. apply put_words_out. lia. Qed.

Lemma rd_put_time n a t m x : x + Z.of_nat n <= a \/ a + 16 <= x -> rdle n (put_time a t m) x = rdle n m x.
Proof. intros Hx. unfold put_time. rewrite !rdle_wrle_other by lia. done. Qed.

Lemma get_put_time a t m : time_range t -> get_time (put_time a t m) a = t.
Proof.
  intros [H1 H2]. unfold get_time, put_time. rewrite rdle_wrle_other by lia. rewrite !rdle_wrle_mod.
  change (256 ^ Z.of_nat 8) with (2 ^ 64). rewrite !swrap_mod, !swrap_small by lia. by destruct t.
Qed.

Lemma get_time_other a t m x : x + 16 <= a \/ a + 16 <= x -> get_time (put_time a t m) x = get_time m x.
Proof. intros Hx. unfold get_time. rewrite !rd_put_time by lia. done. Qed.

Lemma get_time_wr n a v m x : x + 16 <= a \/ a + Z.of_nat n <= x -> get_time (wrle n a v m) x = get_time m x.
Proof. intros Hx. unfold get_time. rewrite !rdle_wrle_other by lia. done. Qed.

Lemma get_time_words a l m x : x + 16 <= a \/ a + 4 * Z.of_nat (length l) <= x -> get_time (put_words a l m) x = get_time m x.
Proof. intros Hx. unfold get_time. rewrite !rd_put_words by lia. done. Qed.

Ltac peel :=
  repeat first
    [ rewrite rd_put_words by lia | rewrite rd_put_time by lia | rewrite rdle_wrle_other by lia
    | rewrite get_time_words by lia | rewrite get_time_other by lia | rewrite get_time_wr by lia ].

Lemma dinode_eta d : Dinode (d_type d) (d_major d) (d_minor d) (d_nlink d) (d_size d) (d_mode d) (d_uid d) (d_gid d) (d_atime d) (d_mtime d) (d_ctime d) (d_addrs d) = d.
Proof. by destruct d. Qed.

(** What was stored is what is loaded. *)
Lemma get_put_dinode a d m : dinode_ok d -> get_dinode (put_dinode a d m) a = d.
Proof.
  intros [H1 H2 H3 H4 H5 H6 H7 H8 H9 H10 H11 [Hl Ha]]. unfold s16_range, u32_range in *.
  assert (Haddr : ((fun i => rd32 (put_dinode a d m) (a + 72 + 4 * i)) <$> seqZ 0 (NDIRECT + 2)) = d_addrs d).
  { apply list_eq. intros k. destruct (decide (k < length (d_addrs d))%nat) as [Hk|Hk].
    - destruct (lookup_lt_is_Some_2 _ _ Hk) as [v Hv]. rewrite Hv, list_lookup_fmap, lookup_seqZ_lt by lia. cbn [fmap option_fmap option_map].
      f_equal. rewrite Z.add_0_l. unfold put_dinode. apply put_words_in; [done|]. rewrite Forall_forall in Ha. apply Ha. by eapply list_elem_of_lookup_2.
    - rewrite list_lookup_fmap, lookup_seqZ_ge by lia. symmetry. apply lookup_ge_None. lia. }
  unfold get_dinode. rewrite Haddr. etrans; [|apply (dinode_eta d)]. unfold put_dinode. f_equal; try done.
  all: peel; try (by apply get_put_time).
  all: rewrite rdle_wrle_mod; change (256 ^ Z.of_nat 2) with (2 ^ 16); change (256 ^ Z.of_nat 4) with (2 ^ 32).
  all: try (rewrite swrap_mod, swrap_small by lia; done).
  all: by rewrite Z.mod_small by lia.
Qed.

(** Only the bytes of the inode are written. *)
Lemma put_dinode_out a d m i : Z.of_nat (length (d_addrs d)) = NDIRECT + 2 -> i < a \/ a + sizeof_dinode <= i -> put_dinode a d m i = m i.
Proof.
  unfold NDIRECT, sizeof_dinode. intros Hl Hi. unfold put_dinode, put_time. rewrite put_words_out by lia. rewrite !wrle_out by lia. done.
Qed.

Lemma get_time_agree m m' a : agree a 16 m m' -> get_time m a = get_time m' a.
Proof. intros Hm. unfold get_time. f_equal; f_equal; apply rdle_agree; (eapply agree_sub; [exact Hm|lia|lia]). Qed.

Lemma get_dinode_agree m m' a : agree a sizeof_dinode m m' -> get_dinode m a = get_dinode m' a.
Proof.
  unfold sizeof_dinode. intros Hm.
  assert (Hr : forall n x, a <= x -> x + Z.of_nat n <= a + 128 -> rdle n m x = rdle n m' x) by (intros n x Hx1 Hx2; apply rdle_agree; eapply agree_sub; [exact Hm|lia|lia]).
  assert (Ht : forall x, a <= x -> x + 16 <= a + 128 -> get_time m x = get_time m' x) by (intros x Hx1 Hx2; apply get_time_agree; eapply agree_sub; [exact Hm|lia|lia]).
  unfold get_dinode. rewrite !Hr, !Ht by lia. f_equal. apply list_fmap_ext. intros i x Hx. apply lookup_seqZ in Hx as [-> Hx]. unfold NDIRECT in Hx. apply Hr; lia.
Qed.

Lemma dinode_off_range inum : 0 <= inum -> 0 <= dinode_off inum /\ dinode_off inum + sizeof_dinode <= BSIZE.
Proof.
  intros Hi. unfold dinode_off, sizeof_dinode, IPB, BSIZE. change (4096 / sizeof_dinode) with 32. pose proof (Z.mod_pos_bound inum 32 ltac:(lia)). lia.
Qed.

Lemma dinode_off_apart x y : 0 <= x -> 0 <= y -> x / IPB = y / IPB -> x <> y ->
  dinode_off x + sizeof_dinode <= dinode_off y \/ dinode_off y + sizeof_dinode <= dinode_off x.
Proof.
  intros Hx Hy E Hne. unfold dinode_off, sizeof_dinode in *.
  assert (HI : IPB = 32) by reflexivity. rewrite HI in *. pose proof (Z.div_mod x 32 ltac:(lia)). pose proof (Z.div_mod y 32 ltac:(lia)).
  pose proof (Z.mod_pos_bound x 32 ltac:(lia)). pose proof (Z.mod_pos_bound y 32 ltac:(lia)). lia.
Qed.

Lemma wrle_pointwise n a v m m' i : m i = m' i -> wrle n a v m i = wrle n a v m' i.
Proof. intros E. unfold wrle. by destruct (_ && _). Qed.

Lemma put_words_pointwise l : forall a m m' i, m i = m' i -> put_words a l m i = put_words a l m' i.
Proof. induction l as [|v l IH]; intros a m m' i E; cbn [put_words]; [done|]. apply IH. by apply wrle_pointwise. Qed.

Lemma put_dinode_pointwise a d m m' i : m i = m' i -> put_dinode a d m i = put_dinode a d m' i.
Proof. intros E. unfold put_dinode, put_time. apply put_words_pointwise. repeat apply wrle_pointwise. done. Qed.

Section Inodes.
Context {D : Type} `{sdcard_laws D} {U : Type} `{!usermem U}.
Local Notation bst := (bst D).
Local Notation fst := (fst D U).
Implicit Types s : fst.
Context (junk : bytes) (dev lba : Z) (L : gset Z).
Hypothesis Hdev : 0 < dev < 4.
Hypothesis HLb : bcache_lock ∈ L.
Hypothesis HLs : sdlock ∈ L.
Hypothesis HLt : itable_lock ∈ L.
Local Notation binv := (binv dev lba L).
Local Notation dblk := (dblk lba).
Local Notation in_range := (in_range lba).

Lemma get_inode_ok s i ip : itable s !! i = Some ip -> get_inode i s = Done ip s.
Proof. intros E. unfold get_inode, deref. by rewrite E. Qed.

Lemma upd_inode_ok s i ip f : itable s !! i = Some ip -> upd_inode i f s = Done tt (set_itable (<[i := f ip]> (itable s)) s).
Proof. intros E. unfold upd_inode. by rewrite (bind_Done _ _ _ _ _ (get_inode_ok _ _ _ E)). Qed.

Lemma itable_insert s i ip ip' : itable s !! i = Some ip -> <[i := ip']> (itable s) !! i = Some ip'.
Proof. intros E. apply list_lookup_insert_eq. by eapply lookup_lt_Some. Qed.

Lemma binv_cpu (b : bst) h c : binv b h -> lk_free L c -> binv (set_bcpu c b) h.
Proof. intros [? ? ? ? ? ? ? ?] Hc. by split. Qed.

(** A spinlock taken and given back around work on the tables. *)
Lemma flock_ok a s h : binv (fbio s) h -> a ∈ L ->
  exists c, flock a s = Done tt (set_fbio (set_bcpu c (fbio s)) s) /\ lk_one L a c.
Proof.
  intros HI Ha. destruct (bacquire_ok L a (fbio s) (bi_cpu _ _ _ _ _ HI) Ha) as (c & E & Hc). exists c. split; [|done].
  unfold flock, on_bio, zoom. by rewrite E.
Qed.

Lemma funlock_ok a s : lk_one L a (bcpu (fbio s)) ->
  exists c, funlock a s = Done tt (set_fbio (set_bcpu c (fbio s)) s) /\ lk_free L c.
Proof.
  intros Hc. destruct (bunlock_ok L a (fbio s) Hc) as (c & E & Hc'). exists c. split; [|done]. unfold funlock, on_bio, zoom. by rewrite E.
Qed.

(** ** The inode table *)

(** References are counted, and an inode is in the table at most once. *)
Record itable_ok (t : list inode) : Prop := {
  it_ref : forall i ip, t !! i = Some ip -> 0 <= i_ref ip;
  it_uniq : forall i j a b, t !! i = Some a -> t !! j = Some b -> 0 < i_ref a -> 0 < i_ref b ->
    i_dev a = i_dev b -> i_inum a = i_inum b -> i = j
}.

Definition is_inode (d inum : Z) (ip : inode) : Prop := 0 < i_ref ip /\ i_dev ip = d /\ i_inum ip = inum.

Lemma iget_scan_ok d inum : forall t i e,
  match iget_scan t i d inum e with
  | inl j => exists k ip, j = (i + k)%nat /\ t !! k = Some ip /\ is_inode d inum ip
  | inr o => (forall k ip, t !! k = Some ip -> ~ is_inode d inum ip) /\
      match e with
      | Some _ => o = e
      | None => match o with
                | Some j => exists k ip, j = (i + k)%nat /\ t !! k = Some ip /\ i_ref ip = 0
                | None => forall k ip, t !! k = Some ip -> i_ref ip <> 0
                end
      end
  end.
Proof.
  induction t as [|ip t IH]; intros i e; cbn [iget_scan].
  - split; [intros k ip Hk; done|]. destruct e; [done|]. intros k ip Hk. done.
  - destruct ((0 <? i_ref ip) && (i_dev ip =? d) && (i_inum ip =? inum)) eqn:E.
    + bool_hyps. exists 0%nat, ip. split; [lia|]. split; [done|]. by split_and!.
    + assert (Hno : ~ is_inode d inum ip).
      { intros (H1 & H2 & H3). rewrite (proj2 (Z.ltb_lt _ _)), (proj2 (Z.eqb_eq (i_dev ip) d)), (proj2 (Z.eqb_eq (i_inum ip) inum)) in E by done. discriminate. }
      set (e' := match e with Some _ => e | None => _ end). specialize (IH (S i) e'). destruct (iget_scan t (S i) d inum e') as [j|o].
      * destruct IH as (k & jp & -> & Hk & Hj). exists (S k), jp. split; [lia|]. by split.
      * destruct IH as [Hn Ho]. split; [intros [|k] jp Hk; [by injection Hk as <-|by eapply Hn]|].
        unfold e' in *. destruct e as [n|]; [done|]. destruct (i_ref ip =? 0) eqn:Er; bool_hyps.
        -- subst o. exists 0%nat, ip. split; [lia|]. by split.
        -- destruct o as [j|].
           ++ destruct Ho as (k & jp & -> & Hk & Hj). exists (S k), jp. split; [lia|]. by split.
           ++ intros [|k] jp Hk; [by injection Hk as <-|by eapply Ho].
Qed.

Lemma iget_ok s h d inum : binv (fbio s) h -> itable_ok (itable s) ->
  (forall i ip, itable s !! i = Some ip -> i_ref ip + 1 < 2 ^ 31) ->
  let out i ip' := exists c, iget d inum s = Done i (set_itable (<[i := ip']> (itable s)) (set_fbio (set_bcpu c (fbio s)) s)) /\ lk_free L c in
  (exists i ip, itable s !! i = Some ip /\ is_inode d inum ip /\ out i (set_i_ref (i_ref ip + 1) ip)) \/
  (forall k ip, itable s !! k = Some ip -> ~ is_inode d inum ip) /\
  ((exists i ip, itable s !! i = Some ip /\ i_ref ip = 0 /\ out i (Inode d inum 1 (i_locked ip) (i_pid ip) 0 (i_copy ip))) \/
   (forall k ip, itable s !! k = Some ip -> i_ref ip <> 0) /\ iget d inum s = Panic "iget: no inodes").
Proof.
  intros HI Ht Hmax out. unfold out, iget. destruct (flock_ok itable_lock s h HI HLt) as (c1 & E1 & Hc1).
  pose proof (iget_scan_ok d inum (itable s) 0 None) as Hscan.
  destruct (iget_scan (itable s) 0 d inum None) as [j|o] eqn:Es.
  - destruct Hscan as (k & ip & -> & Hk & Hip). cbn [Nat.add] in *. left. exists k, ip. split; [done|]. split; [done|].
    rewrite (bind_Done _ _ _ _ _ E1), bind_gets. cbn [itable set_fbio]. rewrite Es.
    rewrite (bind_Done _ _ _ _ _ (upd_inode_ok (set_fbio (set_bcpu c1 (fbio s)) s) k ip _ Hk)).
    pose proof (it_ref _ Ht k ip Hk). pose proof (Hmax k ip Hk). rewrite swrap_small by lia.
    destruct (funlock_ok itable_lock (set_itable (<[k := set_i_ref (i_ref ip + 1) ip]> (itable s)) (set_fbio (set_bcpu c1 (fbio s)) s)) Hc1) as (c2 & E2 & Hc2).
    cbn [itable set_fbio]. rewrite (bind_Done _ _ _ _ _ E2). exists c2. split; [reflexivity|done].
  - destruct Hscan as [Hn Ho]. right. split; [done|]. destruct o as [j|].
    + destruct Ho as (k & ip & -> & Hk & Hz). cbn [Nat.add] in *. left. exists k, ip. split; [done|]. split; [done|].
      rewrite (bind_Done _ _ _ _ _ E1), bind_gets. cbn [itable set_fbio]. rewrite Es.
      rewrite (bind_Done _ _ _ _ _ (upd_inode_ok (set_fbio (set_bcpu c1 (fbio s)) s) k ip _ Hk)).
      destruct (funlock_ok itable_lock (set_itable (<[k := Inode d inum 1 (i_locked ip) (i_pid ip) 0 (i_copy ip)]> (itable s)) (set_fbio (set_bcpu c1 (fbio s)) s)) Hc1) as (c2 & E2 & Hc2).
      cbn [itable set_fbio]. rewrite (bind_Done _ _ _ _ _ E2). exists c2. split; [reflexivity|done].
    + right. split; [done|]. rewrite (bind_Done _ _ _ _ _ E1), bind_gets. cbn [itable set_fbio]. rewrite Es. done.
Qed.

(** Giving a slot a number nobody has, or one more reference, keeps the table. *)
Lemma itable_insert_ok t i ip ip' : itable_ok t -> t !! i = Some ip -> 0 <= i_ref ip' ->
  (forall k a, t !! k = Some a -> k <> i -> 0 < i_ref ip' -> ~ is_inode (i_dev ip') (i_inum ip') a) -> itable_ok (<[i := ip']> t).
Proof.
  intros [H1 H2] Hi Hr Hno. split.
  - intros k a. rewrite list_lookup_insert_Some. intros [(<- & <- & _)|[_ Hk]]; [done|by eapply H1].
  - intros k j a b. rewrite !list_lookup_insert_Some. intros [(<- & <- & _)|[Hne Hk]] [(<- & <- & _)|[Hne' Hj]] Ha Hb Ed En; [done| | |by eapply H2].
    + exfalso. apply (Hno j b Hj ltac:(done) Ha). by split_and!.
    + exfalso. apply (Hno k a Hk ltac:(done) Hb). by split_and!.
Qed.

(** ** iupdate and ilock *)
Definition inode_block (s : fst) (inum : Z) : Z := IBLOCK inum (sb s).

(** The disk inode [inum]. *)
Definition disk_inode (s : fst) (inum : Z) : dinode := get_dinode (dblk (fbio s) (inode_block s inum)) (dinode_off inum).

Lemma iupdate_ok s h i ip : binv (fbio s) h -> (size h < NBUF)%nat -> itable s !! i = Some ip -> i_dev ip = dev ->
  in_range (inode_block s (i_inum ip)) -> ~ held_by h (inode_block s (i_inum ip)) ->
  exists b, iupdate junk i s = Done tt (set_fbio b s) /\ binv b h /\ keeps h (fbio s) b /\
    forall x k, 0 <= k < BSIZE -> dblk b x k = if decide (x = inode_block s (i_inum ip))
      then put_dinode (dinode_off (i_inum ip)) (i_copy ip) (dblk (fbio s) x) k else dblk (fbio s) x k.
Proof.
  intros HI Hsz Hi Ed Hr Hnh. unfold iupdate. rewrite (bind_Done _ _ _ _ _ (get_inode_ok _ _ _ Hi)), bind_gets, Ed.
  change (IBLOCK (i_inum ip) (sb s)) with (inode_block s (i_inum ip)).
  destruct (fread_ok junk dev lba L Hdev HLb HLs s h _ HI Hr Hnh Hsz) as (bp & b1 & d & E1 & Hn & Hh & Hon & Hon1 & Hd1 & Hk1).
  rewrite (bind_Done _ _ _ _ _ E1), (bind_Done _ _ _ _ _ (fdata_ok dev lba L (set_fbio b1 s) _ _ _ d Hh)).
  set (d' := put_dinode (dinode_off (i_inum ip)) (i_copy ip) d).
  destruct (write_close dev lba L Hdev HLb HLs (set_fbio b1 s) h bp _ d d' (mret tt) Hh Hn) as (b2 & E2 & HI2 & Hk2 & Hd2).
  exists b2. split.
  - revert E2. unfold mbind, M_bind. destruct (fput _ _ _) as [? s1| | | |]; try done. destruct (fwrite bp s1) as [? s2| | | |]; try done.
    by destruct (frelse bp s2) as [[] s3| | | |].
  - split; [done|]. split; [by eapply keeps_trans|]. intros x k Hk. rewrite Hd2 by done. cbn [fbio set_fbio]. destruct (decide _) as [->|]; [|apply Hd1].
    unfold d'. apply put_dinode_pointwise. by apply Hon.
Qed.

(** [ilock] of a slot nobody has locked. *)
Lemma ilock_ok s h i ip : binv (fbio s) h -> (size h < NBUF)%nat -> itable s !! i = Some ip -> i_dev ip = dev -> 1 <= i_ref ip ->
  i_locked ip = false -> inode_lock i ∈ L -> in_range (inode_block s (i_inum ip)) -> ~ held_by h (inode_block s (i_inum ip)) ->
  let d := if i_valid ip =? 0 then disk_inode s (i_inum ip) else i_copy ip in
  let v := if i_valid ip =? 0 then 1 else i_valid ip in
  if (i_valid ip =? 0) && (d_type d =? 0) then ilock junk i s = Panic "ilock: no type"
  else exists b, ilock junk i s = Done tt (set_itable (<[i := Inode dev (i_inum ip) (i_ref ip) true (fpid s) v d]> (itable s)) (set_fbio b s)) /\
    binv b h /\ keeps h (fbio s) b /\ (forall x k, dblk b x k = dblk (fbio s) x k).
Proof.
  intros HI Hsz Hi Ed Href Hun HL Hr Hnh d v. unfold ilock. rewrite (bind_Done _ _ _ _ _ (get_inode_ok _ _ _ Hi)), (proj2 (Z.ltb_ge _ _)) by done.
  set (ip1 := set_i_lock true (fpid s) ip).
  assert (Ha : exists c, acquiresleep i s = Done tt (set_itable (<[i := ip1]> (itable s)) (set_fbio (set_bcpu c (fbio s)) s)) /\ lk_free L c).
  { unfold acquiresleep. destruct (flock_ok (inode_lock i) s h HI HL) as (c1 & E1 & Hc1). rewrite (bind_Done _ _ _ _ _ E1).
    rewrite (bind_Done _ _ _ _ _ (get_inode_ok (set_fbio (set_bcpu c1 (fbio s)) s) i ip Hi)), Hun, bind_gets.
    rewrite (bind_Done _ _ _ _ _ (upd_inode_ok (set_fbio (set_bcpu c1 (fbio s)) s) i ip _ Hi)).
    destruct (funlock_ok (inode_lock i) (set_itable (<[i := ip1]> (itable s)) (set_fbio (set_bcpu c1 (fbio s)) s)) Hc1) as (c2 & E2 & Hc2).
    exists c2. split; [exact E2|done]. }
  destruct Ha as (c & Ea & Hc). rewrite (bind_Done _ _ _ _ _ Ea). set (s1 := set_itable _ (set_fbio _ s)).
  assert (Hi1 : itable s1 !! i = Some ip1) by (by eapply itable_insert). rewrite (bind_Done _ _ _ _ _ (get_inode_ok s1 i ip1 Hi1)).
  change (i_valid ip1) with (i_valid ip). assert (HI1 : binv (fbio s1) h) by (by apply binv_cpu).
  destruct (i_valid ip =? 0) eqn:Ev; cbn [andb].
  2:{ exists (set_bcpu c (fbio s)). split; [|done]. unfold s1, ip1, set_i_lock, v, d. rewrite <- Ed. done. }
  rewrite bind_gets. change (i_dev ip1) with (i_dev ip). rewrite Ed. change (IBLOCK (i_inum ip1) (sb s1)) with (inode_block s (i_inum ip)).
  destruct (fread_ok junk dev lba L Hdev HLb HLs s1 h _ HI1 Hr Hnh Hsz) as (bp & b1 & dd & E1 & Hn & Hh & Hon & Hon1 & Hd1 & Hk1).
  rewrite (bind_Done _ _ _ _ _ E1). set (s2 := set_fbio b1 s1). rewrite (bind_Done _ _ _ _ _ (fdata_ok dev lba L s2 _ _ _ dd Hh)).
  assert (Eg : get_dinode dd (dinode_off (i_inum ip1)) = d).
  { unfold d, disk_inode. apply get_dinode_agree. intros k Hk. apply Hon.
    destruct (decide (0 <= i_inum ip)) as [Hp|Hp].
    - pose proof (dinode_off_range _ Hp). change (i_inum ip1) with (i_inum ip) in Hk. lia.
    - change (i_inum ip1) with (i_inum ip) in Hk. unfold dinode_off, sizeof_dinode in Hk. assert (HP : IPB = 32) by reflexivity. rewrite HP in Hk.
      pose proof (Z.mod_pos_bound (i_inum ip) 32 ltac:(lia)). unfold BSIZE. lia. }
  set (ip2 := set_i_copy d ip1).
  rewrite (bind_Done _ _ _ _ _ (upd_inode_ok s2 i ip1 _ Hi1)), Eg. fold ip2. set (s3 := set_itable _ s2).
  destruct (close_clean dev lba L Hdev HLb s3 h bp _ dd (upd_inode i (set_i_valid 1);; ip ← get_inode i; if d_type (i_copy ip) =? 0 then panic "ilock: no type"%string else mret tt) Hh Hon1 Hn) as (b3 & E3 & HI3 & Hk3 & Hd3).
  rewrite E3. assert (Hi3 : itable (set_fbio b3 s3) !! i = Some ip2) by (by eapply (itable_insert s2)).
  rewrite (bind_Done _ _ _ _ _ (upd_inode_ok (set_fbio b3 s3) i ip2 _ Hi3)).
  set (s4 := set_itable _ (set_fbio b3 s3)).
  assert (Hi4 : itable s4 !! i = Some (set_i_valid 1 ip2)) by (by eapply (itable_insert (set_fbio b3 s3))).
  rewrite (bind_Done _ _ _ _ _ (get_inode_ok s4 i _ Hi4)). change (i_copy (set_i_valid 1 ip2)) with d.
  destruct (d_type d =? 0); [done|]. exists b3. split.
  - unfold s4, s3, s2, s1. unfold set_itable, set_fbio. cbn [itable fbio]. f_equal. f_equal. rewrite !list_insert_insert_eq. unfold ip2, ip1, set_i_valid, set_i_copy, set_i_lock. cbn [i_dev i_inum i_ref i_locked i_pid i_valid i_copy]. unfold v. by rewrite Ed.
  - split; [done|]. split.
    + eapply keeps_trans; [|exact Hk3]. eapply keeps_trans; [|exact Hk1]. done.
    + intros x k. rewrite Hd3. cbn. rewrite Hd1. done.
Qed.

End Inodes.
