(* ===== verification/FsFile.v ===== *)
(** * File content and directories

    [imap] is the block of a file without allocation; on blocks that are all
    there [bmap] returns it, [readi] the bytes of the file, and [dirlookup] the
    first directory entry of a name. *)
From S2P Require Import Prelude Spinlock Bytes UserMem Bio BioInv Fs FsBlocks FsInode.

Section File.
Context {D : Type} `{sdcard_laws D} {U : Type} `{!usermem U}.
Local Notation bst := (bst D).
Local Notation fst := (fst D U).
Implicit Types b : bst.
Implicit Types s : fst.
Context (junk : bytes) (dev lba : Z) (L : gset Z).
Hypothesis Hdev : 0 < dev < 4.
Hypothesis HLb : bcache_lock ∈ L.
Hypothesis HLs : sdlock ∈ L.
Local Notation binv := (binv dev lba L).
Local Notation dblk := (dblk lba).
Local Notation on_disk := (on_disk lba).
Local Notation in_range := (in_range lba).

(** Only the cache moved: the card and the held buffers are the same. *)
Record quiet (h : gmap nat Z) b b' : Prop := {
  qu_inv : binv b' h;
  qu_keeps : keeps h b b';
  qu_disk : forall x k, dblk b' x k = dblk b x k
}.

Lemma quiet_refl h b : binv b h -> quiet h b b.
Proof. intros HI. split; [done|apply keeps_refl|done]. Qed.

Lemma quiet_trans h b1 b2 b3 : quiet h b1 b2 -> quiet h b2 b3 -> quiet h b1 b3.
Proof. intros [A1 A2 A3] [B1 B2 B3]. split; [done|by eapply keeps_trans|]. intros x k. by rewrite B3. Qed.

(** A block that can be read while [h] is held. *)
Definition blk_ok (h : gmap nat Z) (a : Z) : Prop := a <> 0 /\ in_range a /\ ~ held_by h a.

Definition word b (a j : Z) : Z := rd32 (dblk b a) (4 * j).
Definition addr_of (d : dinode) (k : Z) : Z := default 0 (d_addrs d !! Z.to_nat k).

(** Block [bn] of a file, 0 where there is none. *)
Definition imap b (d : dinode) (bn : Z) : Z :=
  if bn <? NDIRECT then addr_of d bn
  else if bn - NDIRECT <? NINDIRECT then
    (if addr_of d NDIRECT =? 0 then 0 else word b (addr_of d NDIRECT) (bn - NDIRECT))
  else
    let k := bn - NDIRECT - NINDIRECT in
    let a := addr_of d (NDIRECT + 1) in
    if a =? 0 then 0
    else let a := word b a (k / NINDIRECT) in if a =? 0 then 0 else word b a (k mod NINDIRECT).

(** Block [bn] and the indirect blocks that lead to it are there. *)
Definition mapped b (h : gmap nat Z) (d : dinode) (bn : Z) : Prop :=
  0 <= bn < MAXFILE /\ Z.of_nat (length (d_addrs d)) = NDIRECT + 2 /\ blk_ok h (imap b d bn) /\
  (if bn <? NDIRECT then True
   else if bn - NDIRECT <? NINDIRECT then blk_ok h (addr_of d NDIRECT)
   else blk_ok h (addr_of d (NDIRECT + 1)) /\ blk_ok h (word b (addr_of d (NDIRECT + 1)) ((bn - NDIRECT - NINDIRECT) / NINDIRECT))).

Lemma word_quiet h b b' a j : quiet h b b' -> word b' a j = word b a j.
Proof. intros Hq. unfold word. apply rdle_agree. intros k _. apply (qu_disk _ _ _ Hq). Qed.

Lemma imap_quiet h b b' d bn : quiet h b b' -> imap b' d bn = imap b d bn.
Proof. intros Hq. unfold imap. by rewrite !(word_quiet h b b') by done. Qed.

Lemma mapped_quiet h b b' d bn : quiet h b b' -> mapped b h d bn -> mapped b' h d bn.
Proof. intros Hq. unfold mapped. by rewrite (imap_quiet h b b'), (word_quiet h b b') by done. Qed.

Lemma get_addr_ok s i ip k : itable s !! i = Some ip -> 0 <= k < Z.of_nat (length (d_addrs (i_copy ip))) ->
  get_addr i k s = Done (addr_of (i_copy ip) k) s.
Proof.
  intros Hi Hk. unfold get_addr. rewrite (bind_Done _ _ _ _ _ (get_inode_ok _ _ _ Hi)). unfold addr_of.
  destruct (lookup_lt_is_Some_2 (d_addrs (i_copy ip)) (Z.to_nat k)) as [v ->]; [lia|]. done.
Qed.

(** An entry that is there is returned, the indirect block let go. *)
Lemma bmap_entry_ok s h a j : binv (fbio s) h -> (size h < NBUF)%nat -> blk_ok h a -> word (fbio s) a j <> 0 -> 0 <= j < NINDIRECT ->
  exists b, bmap_entry junk dev a j s = Done (word (fbio s) a j) (set_fbio b s) /\ quiet h (fbio s) b.
Proof.
  intros HI Hsz (Ha & Hr & Hnh) Hw Hj. unfold bmap_entry.
  destruct (fread_ok junk dev lba L Hdev HLb HLs s h a HI Hr Hnh Hsz) as (bp & b1 & d & E1 & Hn & Hh & Hon & Hon1 & Hd1 & Hk1).
  rewrite (bind_Done _ _ _ _ _ E1). set (s1 := set_fbio b1 s).
  assert (Eg : get_word bp j s1 = Done (word (fbio s) a j) s1).
  { unfold get_word. rewrite (bind_Done _ _ _ _ _ (fdata_ok dev lba L s1 _ _ _ d Hh)). unfold mret, M_ret, word. f_equal.
    apply rdle_agree. intros k Hk. apply Hon. unfold NINDIRECT, BSIZE in *. change (4096 / 4) with 1024 in Hj. lia. }
  rewrite (bind_Done _ _ _ _ _ Eg), (proj2 (Z.eqb_neq _ 0)) by done.
  destruct (close_clean dev lba L Hdev HLb s1 h bp a d (mret (word (fbio s) a j)) Hh Hon1 Hn) as (b2 & E2 & HI2 & Hk2 & Hd2).
  exists b2. split; [exact E2|]. split; [done|by eapply keeps_trans|]. intros x k. rewrite Hd2. apply Hd1.
Qed.

Lemma bmap_root_ok s i ip k : itable s !! i = Some ip -> 0 <= k < Z.of_nat (length (d_addrs (i_copy ip))) -> addr_of (i_copy ip) k <> 0 ->
  bmap_root junk i dev k s = Done (addr_of (i_copy ip) k) s.
Proof.
  intros Hi Hk Hne. unfold bmap_root. rewrite (bind_Done _ _ _ _ _ (get_addr_ok s i ip k Hi Hk)). by rewrite (proj2 (Z.eqb_neq _ _)) by done.
Qed.

Lemma bmap_ok s h i ip bn : binv (fbio s) h -> (size h < NBUF)%nat -> itable s !! i = Some ip -> i_dev ip = dev ->
  mapped (fbio s) h (i_copy ip) bn ->
  exists b, bmap junk i bn s = Done (imap (fbio s) (i_copy ip) bn) (set_fbio b s) /\ quiet h (fbio s) b.
Proof.
  intros HI Hsz Hi Ed (Hbn & Hl & Hok & Hind). assert (EN : NINDIRECT = 1024) by reflexivity. assert (ED : NDIRECT = 11) by reflexivity.
  unfold bmap, imap in *. rewrite (bind_Done _ _ _ _ _ (get_inode_ok _ _ _ Hi)), Ed. cbv zeta in *. destruct (bn <? NDIRECT) eqn:E1; bool_hyps.
  - rewrite (bind_Done _ _ _ _ _ (get_addr_ok s i ip bn Hi ltac:(lia))). destruct Hok as (Hne & _). rewrite (proj2 (Z.eqb_neq _ 0)) by done.
    exists (fbio s). rewrite fst_eta. split; [done|by apply quiet_refl].
  - destruct (bn - NDIRECT <? NINDIRECT) eqn:E2; bool_hyps.
    + pose proof (proj1 Hind) as Hne. rewrite (proj2 (Z.eqb_neq (addr_of (i_copy ip) NDIRECT) 0)) in * by done.
      rewrite (bind_Done _ _ _ _ _ (bmap_root_ok s i ip NDIRECT Hi ltac:(lia) Hne)). rewrite (proj2 (Z.eqb_neq (addr_of (i_copy ip) NDIRECT) 0)) by done.
      apply bmap_entry_ok; try done; [apply Hok|lia].
    + destruct Hind as [H1 H2]. pose proof (proj1 H1) as Hne1. pose proof (proj1 H2) as Hne2.
      rewrite (proj2 (Z.eqb_neq (addr_of (i_copy ip) (NDIRECT + 1)) 0)) in * by done.
      rewrite (proj2 (Z.eqb_neq (word _ _ _) 0)) in * by done.
      assert (EM : MAXFILE = NDIRECT + NINDIRECT + NINDIRECT * NINDIRECT) by reflexivity.
      rewrite (proj2 (Z.ltb_lt (bn - NDIRECT - NINDIRECT) NINDIRECT2)) by (change NINDIRECT2 with (NINDIRECT * NINDIRECT); lia).
      rewrite (bind_Done _ _ _ _ _ (bmap_root_ok s i ip (NDIRECT + 1) Hi ltac:(lia) Hne1)). rewrite (proj2 (Z.eqb_neq (addr_of (i_copy ip) (NDIRECT + 1)) 0)) by done.
      set (k := bn - NDIRECT - NINDIRECT) in *. assert (Hk : 0 <= k < 1024 * 1024) by (unfold k; lia). pose proof (Z.div_pos k 1024 ltac:(lia) ltac:(lia)). pose proof (Z.div_lt_upper_bound k 1024 1024 ltac:(lia) ltac:(lia)).
      destruct (bmap_entry_ok s h (addr_of (i_copy ip) (NDIRECT + 1)) (k / NINDIRECT) HI Hsz H1 Hne2 ltac:(rewrite EN; lia)) as (b1 & E3 & Hq1).
      rewrite (bind_Done _ _ _ _ _ E3), (proj2 (Z.eqb_neq (word _ _ _) 0)) by done.
      pose proof (Z.mod_pos_bound k 1024 ltac:(lia)).
      destruct (bmap_entry_ok (set_fbio b1 s) h (word (fbio s) (addr_of (i_copy ip) (NDIRECT + 1)) (k / NINDIRECT)) (k mod NINDIRECT) (qu_inv _ _ _ Hq1) Hsz H2) as (b2 & E4 & Hq2).
      * cbn [fbio set_fbio]. rewrite (word_quiet h (fbio s) b1) by done. apply Hok.
      * rewrite EN. lia.
      * cbn [fbio set_fbio] in *. rewrite (word_quiet h (fbio s) b1) in E4 by done. exists b2. split; [exact E4|by eapply quiet_trans].
Qed.

(** ** readi into kernel memory *)

(** Byte [p] of a file. *)
Definition fbyte b (d : dinode) (p : Z) : Z := dblk b (imap b d (p / BSIZE)) (p mod BSIZE).

Lemma fbyte_quiet h b b' d p : quiet h b b' -> fbyte b' d p = fbyte b d p.
Proof. intros Hq. unfold fbyte. by rewrite (imap_quiet h b b'), (qu_disk _ _ _ Hq) by done. Qed.

Lemma bsize_split p : p = p / BSIZE * BSIZE + p mod BSIZE /\ 0 <= p mod BSIZE < BSIZE.
Proof.
  pose proof (Z.div_mod p BSIZE ltac:(unfold BSIZE; lia)). pose proof (Z.mod_pos_bound p BSIZE ltac:(unfold BSIZE; lia)). lia.
Qed.

Lemma same_block_div p q : p / BSIZE * BSIZE <= q < p / BSIZE * BSIZE + BSIZE -> q / BSIZE = p / BSIZE /\ q mod BSIZE = q - p / BSIZE * BSIZE.
Proof.
  intros Hq. replace q with (q - p / BSIZE * BSIZE + p / BSIZE * BSIZE) by lia. rewrite Z.div_add, Z_mod_plus_full by (unfold BSIZE; lia).
  rewrite Z.div_small, Z.mod_small by lia. lia.
Qed.

(** All blocks of the bytes from [off] to [off + n) are there. *)
Definition mapped_range b (h : gmap nat Z) (d : dinode) (off n : Z) : Prop := forall p, off <= p < off + n -> mapped b h d (p / BSIZE).

Lemma to_list_len m a n : 0 <= n -> Z.of_nat (length (to_list m a n)) = n.
Proof. intros Hn. rewrite to_list_length. lia. Qed.

Lemma of_to_list m a n i : 0 <= i < n -> of_list (to_list m a n) i = m (a + i).
Proof. intros Hi. rewrite of_list_lookup by lia. by rewrite to_list_lookup. Qed.

Lemma readi_loop_ok h i ip : i_dev ip = dev -> (size h < NBUF)%nat -> forall fuel s dst off n tot,
  binv (fbio s) h -> itable s !! i = Some ip -> 0 <= off -> 0 <= tot <= n -> off + (n - tot) < 2 ^ 32 -> 0 <= dst -> dst + (n - tot) < 2 ^ 64 ->
  mapped_range (fbio s) h (i_copy ip) off (n - tot) -> (tot < n -> off mod BSIZE + (n - tot) <= (Z.of_nat fuel - 1) * BSIZE) -> (1 <= fuel)%nat ->
  exists b k, readi_loop junk fuel i false dst off n tot s = Done n (set_kmem k (set_fbio b s)) /\ quiet h (fbio s) b /\
    forall x, k x = if decide (dst <= x < dst + (n - tot)) then fbyte (fbio s) (i_copy ip) (off + (x - dst)) else kmem s x.
Proof.
  intros Ed Hsz. induction fuel as [|fuel IH]; intros s dst off n tot HI Hi Hoff Htot Hend Hdst Hdend Hmap Hfuel Hf1; [lia|]. cbn [readi_loop].
  destruct (tot <? n) eqn:E0; bool_hyps.
  2:{ assert (tot = n) as -> by lia. exists (fbio s), (kmem s). split; [by destruct s|]. split; [by apply quiet_refl|]. intros x. rewrite decide_False; [done|lia]. }
  destruct (bmap_ok s h i ip (off / BSIZE) HI Hsz Hi Ed (Hmap off ltac:(lia))) as (b1 & E1 & Hq1). rewrite (bind_Done _ _ _ _ _ E1).
  destruct (Hmap off ltac:(lia)) as (_ & _ & (Hne & Hr & Hnh) & _). rewrite (proj2 (Z.eqb_neq _ 0)) by done.
  set (a := imap (fbio s) (i_copy ip) (off / BSIZE)) in *. set (s1 := set_fbio b1 s).
  rewrite (bind_Done _ _ _ _ _ (get_inode_ok s1 i ip Hi)), Ed.
  destruct (fread_ok junk dev lba L Hdev HLb HLs s1 h a (qu_inv _ _ _ Hq1) Hr Hnh Hsz) as (bp & b2 & d & E2 & Hn & Hh & Hon & Hon2 & Hd2 & Hk2).
  rewrite (bind_Done _ _ _ _ _ E2). cbv zeta. set (s2 := set_fbio b2 s1). rewrite (bind_Done _ _ _ _ _ (fdata_ok dev lba L s2 _ _ _ d Hh)).
  destruct (bsize_split off) as [Eo Hor]. set (m := Z.min (n - tot) (BSIZE - off mod BSIZE)). assert (Hm : 0 < m <= n - tot) by lia.
  assert (Hm2 : m <= BSIZE - off mod BSIZE) by lia. assert (Hm3 : m < n - tot -> m = BSIZE - off mod BSIZE) by lia.
  set (l := to_list d (off mod BSIZE) m). assert (Hl : Z.of_nat (length l) = m) by (apply to_list_len; lia).
  unfold either_copyout. rewrite !bind_assoc, bind_modify, bind_ret. change (0 =? -1) with false. cbv iota.
  set (s3 := set_kmem (mmove dst 0 (Z.of_nat (length l)) (of_list l) (kmem s2)) s2).
  destruct (close_clean dev lba L Hdev HLb s3 h bp a d (readi_loop junk fuel i false (u64 (dst + m)) (u32 (off + m)) n (tot + m)) Hh Hon2 Hn) as (b3 & E3 & HI3 & Hk3 & Hd3).
  rewrite E3. set (s4 := set_fbio b3 s3). assert (Hq : quiet h (fbio s) b3).
  { eapply quiet_trans; [exact Hq1|]. split; [done|by eapply keeps_trans|]. intros x k. rewrite Hd3. apply Hd2. }
  rewrite !wrap_small by lia.
  assert (Hkm : forall x, kmem s4 x = if decide (dst <= x < dst + m) then fbyte (fbio s) (i_copy ip) (off + (x - dst)) else kmem s x).
  { intros x. cbn [kmem s4 set_fbio s3 set_kmem s2 s1]. rewrite Hl. destruct (decide _) as [Hx|Hx].
    - rewrite mmove_in by lia. unfold l. rewrite of_to_list by lia. rewrite Z.add_0_l. rewrite (Hon (off mod BSIZE + (x - dst))) by lia.
      cbn [fbio s1 set_fbio]. rewrite (qu_disk _ _ _ Hq1). unfold fbyte.
      destruct (same_block_div off (off + (x - dst)) ltac:(lia)) as [-> ->]. fold a. f_equal. lia.
    - apply mmove_out. lia. }
  assert (Hmap4 : mapped_range (fbio s4) h (i_copy ip) (off + m) (n - (tot + m))).
  { intros p Hp. apply (mapped_quiet h (fbio s)); [exact Hq|]. apply Hmap. lia. }
  destruct (IH s4 (dst + m) (off + m) n (tot + m)) as (b5 & k5 & E5 & Hq5 & Hk5); try done; try lia.
  { intros Hlt. specialize (Hm3 ltac:(lia)). assert (Hz0 : (off + m) mod BSIZE = 0).
    { replace (off + m) with (0 + (off / BSIZE + 1) * BSIZE) by lia. by rewrite Z_mod_plus_full. }
    rewrite Hz0. specialize (Hfuel E0). unfold BSIZE in *. lia. }
  { specialize (Hfuel E0). unfold BSIZE in *. lia. }
  exists b5, k5. split; [exact E5|]. split; [by eapply quiet_trans|]. intros x. rewrite Hk5.
  destruct (decide (dst + m <= x < dst + m + (n - (tot + m)))) as [Hx|Hx].
  - rewrite decide_True by lia. rewrite (fbyte_quiet h (fbio s)) by exact Hq. f_equal. lia.
  - rewrite Hkm. destruct (decide (dst <= x < dst + m)); [by rewrite decide_True by lia|by rewrite decide_False by lia].
Qed.

(** [readi] into kernel memory on a file whose blocks are all there. *)
Lemma readi_ok s h i ip dst off n : binv (fbio s) h -> (size h < NBUF)%nat -> itable s !! i = Some ip -> i_dev ip = dev ->
  0 <= off -> 0 <= n -> off + n < 2 ^ 32 -> 0 <= dst -> dst + n < 2 ^ 64 -> n < 2 ^ 31 ->
  let size := d_size (i_copy ip) in
  let r := if size <? off then 0 else Z.min n (size - off) in
  mapped_range (fbio s) h (i_copy ip) off r ->
  exists b k, readi junk i false dst off n s = Done r (set_kmem k (set_fbio b s)) /\ quiet h (fbio s) b /\
    forall x, k x = if decide (dst <= x < dst + r) then fbyte (fbio s) (i_copy ip) (off + (x - dst)) else kmem s x.
Proof.
  intros HI Hsz Hi Ed Hoff Hn Hend Hdst Hdend Hn31 size r Hmap. unfold readi. rewrite (bind_Done _ _ _ _ _ (get_inode_ok _ _ _ Hi)). cbv zeta. fold size.
  rewrite (wrap_small 32 (off + n)) by lia. rewrite (proj2 (Z.ltb_ge (off + n) off)) by lia. rewrite orb_false_r. unfold r in *. destruct (size <? off) eqn:E1; bool_hyps.
  { exists (fbio s), (kmem s). split; [by destruct s|]. split; [by apply quiet_refl|]. intros x. rewrite decide_False; [done|lia]. }
  set (n' := if size <? off + n then size - off else n).
  assert (En : n' = Z.min n (size - off)) by (unfold n'; destruct (size <? off + n) eqn:E2; bool_hyps; lia).
  rewrite <- En in *. assert (Hn' : 0 <= n' <= n) by lia.
  destruct (readi_loop_ok h i ip Ed Hsz (rw_fuel n') s dst off n' 0 HI Hi Hoff ltac:(lia)) as (b & k & E & Hq & Hk).
  - lia.
  - done.
  - lia.
  - by rewrite Z.sub_0_r.
  - intros _. rewrite Z.sub_0_r. unfold rw_fuel. destruct (bsize_split off), (bsize_split n'). pose proof (Z.div_pos n' BSIZE ltac:(lia) ltac:(unfold BSIZE; lia)).
    rewrite Z2Nat.id by lia. unfold BSIZE in *. lia.
  - unfold rw_fuel. pose proof (Z.div_pos n' BSIZE ltac:(lia) ltac:(unfold BSIZE; lia)). lia.
  - rewrite (bind_Done _ _ _ _ _ E). exists b, k. rewrite swrap_small by lia. split; [reflexivity|]. split; [done|]. by rewrite Z.sub_0_r in Hk.
Qed.

End File.
