(* ===== verification/FsDir.v ===== *)
(** * Names, paths and directory search *)
From S2P Require Import Prelude Spinlock Bytes UserMem Bio BioInv Fs FsBlocks FsInode FsFile.

(** ** Names *)

(** The C string in the first [n] bytes of a buffer. *)
Fixpoint cstr (n : nat) (l : list Z) : list Z :=
  match n with
  | O => []
  | S n => match l with [] => [] | c :: l => if c =? 0 then [] else c :: cstr n l end
  end.

Lemma strncmp_l_eq n : forall p q, strncmp_l n p q = 0 <-> cstr n p = cstr n q.
Proof.
  induction n as [|n IH]; intros p q; cbn [strncmp_l cstr]; [done|].
  set (a := default 0 (head p)). set (b := default 0 (head q)).
  assert (Hp : cstr (S n) p = if a =? 0 then [] else a :: cstr n (tail p)) by (unfold a; by destruct p).
  assert (Hq : cstr (S n) q = if b =? 0 then [] else b :: cstr n (tail q)) by (unfold b; by destruct q).
  cbn [cstr] in Hp, Hq. rewrite Hp, Hq. destruct (a =? 0) eqn:Ea, (b =? 0) eqn:Eb; bool_hyps; cbn [negb andb].
  - split; [done|lia].
  - split; [intros E; exfalso; lia|done].
  - rewrite (proj2 (Z.eqb_neq a b)) by lia. split; [intros E; exfalso; lia|done].
  - destruct (a =? b) eqn:Eab; bool_hyps.
    + rewrite Eab, IH. split; [by intros ->|by intros [= ->]].
    + split; [intros E; exfalso; lia|]. intros [= ? _]. done.
Qed.

(** [namecmp] is equality of the names as strings of at most [DIRSIZ] bytes. *)
Lemma namecmp_eq s t : namecmp s t = 0 <-> cstr (Z.to_nat DIRSIZ) s = cstr (Z.to_nat DIRSIZ) t.
Proof. apply strncmp_l_eq. Qed.

(** ** Paths *)

(** The elements of a path, by splitting it at the slashes. *)
Fixpoint elements_from (acc : list Z) (path : list Z) : list (list Z) :=
  match path with
  | [] => if bool_decide (acc = []) then [] else [acc]
  | c :: p =>
      if c =? SLASH then (if bool_decide (acc = []) then elements_from [] p else acc :: elements_from [] p)
      else elements_from (acc ++ [c]) p
  end.
Definition elements (path : list Z) : list (list Z) := elements_from [] path.

Lemma elements_skip path : elements (skip_slashes path) = elements path.
Proof.
  induction path as [|c p IH]; [done|]. cbn [skip_slashes]. destruct (c =? SLASH) eqn:E; [|done].
  rewrite IH. unfold elements. cbn [elements_from]. by rewrite E.
Qed.

Lemma elements_span path : forall acc, acc <> [] ->
  elements_from acc path = (acc ++ (span_elem path).1) :: elements (span_elem path).2.
Proof.
  induction path as [|c p IH]; intros acc Hacc; cbn [elements_from span_elem].
  - rewrite bool_decide_eq_false_2 by done. by rewrite app_nil_r.
  - destruct (c =? SLASH) eqn:E; cbn [Datatypes.fst Datatypes.snd].
    + rewrite bool_decide_eq_false_2 by done. rewrite app_nil_r. f_equal. unfold elements. cbn [elements_from]. by rewrite E.
    + rewrite IH by (intros E2; by apply app_nil in E2 as [_ ?]). by rewrite <- app_assoc.
Qed.

Lemma skip_head path : match skip_slashes path with c :: _ => c <> SLASH | [] => True end.
Proof. induction path as [|c p IH]; cbn [skip_slashes]; [done|]. destruct (c =? SLASH) eqn:E; [done|]. by bool_hyps. Qed.

(** [skipelem] on a path with elements, and on one without. *)
Lemma skipelem_elements path name : match skipelem path name with
  | None => elements path = []
  | Some (rest, name') => exists e, elements path = e :: elements rest /\ e <> [] /\
      name' = (if DIRSIZ <=? Z.of_nat (length e) then take (Z.to_nat DIRSIZ) e else e ++ [0] ++ drop (length e + 1) name) /\
      (length rest < length path)%nat /\ (rest = [] <-> elements rest = [])
  end.
Proof.
  unfold skipelem. pose proof (elements_skip path) as Ep. pose proof (skip_head path) as Hh.
  assert (Hlen : (length (skip_slashes path) <= length path)%nat).
  { clear. induction path as [|c p IH]; cbn [skip_slashes]; [done|]. destruct (c =? SLASH); cbn [length]; lia. }
  destruct (skip_slashes path) as [|c p] eqn:E; [by rewrite <- Ep|].
  assert (Hc : (c =? SLASH) = false) by (by apply Z.eqb_neq). exists (span_elem (c :: p)).1.
  assert (Hs : span_elem (c :: p) = (c :: (span_elem p).1, (span_elem p).2)) by (cbn [span_elem]; by rewrite Hc).
  rewrite Hs. cbn [Datatypes.fst Datatypes.snd]. split; [|split; [done|split; [done|]]].
  - rewrite <- Ep, elements_skip. unfold elements at 1. cbn [elements_from]. rewrite Hc. cbn [app]. by rewrite elements_span.
  - split.
    + assert (H2 : (length (skip_slashes (span_elem p).2) <= length p)%nat); [|cbn [length] in Hlen; lia].
      assert (H3 : forall q, (length (skip_slashes q) <= length q)%nat).
      { induction q as [|x q IH]; cbn [skip_slashes]; [done|]. destruct (x =? SLASH); cbn [length]; lia. }
      assert (H4 : (length (span_elem p).2 <= length p)%nat).
      { clear. induction p as [|x q IH]; cbn [span_elem]; [done|]. destruct (x =? SLASH); cbn [Datatypes.snd length]; lia. }
      pose proof (H3 (span_elem p).2). lia.
    + pose proof (skip_head (span_elem p).2) as Hr. destruct (skip_slashes (span_elem p).2) as [|x q]; [done|]. split; [done|].
      unfold elements. cbn [elements_from]. rewrite (proj2 (Z.eqb_neq x SLASH)) by done. cbn [app]. by rewrite elements_span.
Qed.

(** ** Directories *)

Lemma get_dirent_agree m m' : agree 0 sizeof_dirent m m' -> get_dirent m 0 = get_dirent m' 0.
Proof.
  unfold sizeof_dirent. intros Hm. unfold get_dirent, DIRSIZ. rewrite (rdle_agree 4 m m'), (rdle_agree 2 m m'), (to_list_agree m m'); [done|..];
    (eapply agree_sub; [exact Hm|lia|lia]).
Qed.

Section Dir.
Context {D : Type} `{sdcard_laws D} {U : Type} `{!usermem U}.
Local Notation fst := (fst D U).
Implicit Types b : bst D.
Implicit Types s : fst.
Context (junk : bytes) (dev lba : Z) (L : gset Z).
Hypothesis Hdev : 0 < dev < 4.
Hypothesis HLb : bcache_lock ∈ L.
Hypothesis HLs : sdlock ∈ L.
Local Notation binv := (binv dev lba L).
Local Notation quiet := (quiet dev lba L).
Local Notation mapped_range := (mapped_range lba).
Local Notation fbyte := (fbyte lba).

(** Entry [k] of a directory. *)
Definition entry b (d : dinode) (k : Z) : dirent := get_dirent (fun x => fbyte b d (sizeof_dirent * k + x)) 0.
Definition named (name : list Z) (de : dirent) : Prop :=
  de_inum de <> 0 /\ cstr (Z.to_nat DIRSIZ) name = cstr (Z.to_nat DIRSIZ) (de_name de).

(** A directory of [n] entries whose blocks are all there. *)
Record dir_ok b (h : gmap nat Z) (d : dinode) (n : Z) : Prop := {
  do_type : d_type d = T_DIR;
  do_size : d_size d = sizeof_dirent * n;
  do_range : 0 <= n < 2 ^ 24;
  do_mapped : mapped_range b h d 0 (sizeof_dirent * n)
}.

Lemma read_dirent_ok s h i ip n k msg : binv (fbio s) h -> (size h < NBUF)%nat -> itable s !! i = Some ip -> i_dev ip = dev ->
  dir_ok (fbio s) h (i_copy ip) n -> 0 <= k < n ->
  exists b km, read_dirent junk i (sizeof_dirent * k) msg s = Done (entry (fbio s) (i_copy ip) k) (set_kmem km (set_fbio b s)) /\ quiet h (fbio s) b.
Proof.
  intros HI Hsz Hi Ed [Ht Hs Hr Hm] Hk. assert (E64 : sizeof_dirent = 64) by done.
  change (2 ^ 24) with 16777216 in Hr.
  destruct (readi_ok junk dev lba L Hdev HLb HLs s h i ip de_addr (sizeof_dirent * k) sizeof_dirent HI Hsz Hi Ed) as (b & km & E & Hq & Hkm).
  all: try (rewrite ?E64; unfold de_addr; lia).
  { cbv zeta. rewrite (proj2 (Z.ltb_ge _ _)) by (rewrite Hs, E64; lia). intros p Hp. apply Hm. rewrite Hs, E64 in *. lia. }
  assert (Er : (if d_size (i_copy ip) <? sizeof_dirent * k then 0 else Z.min sizeof_dirent (d_size (i_copy ip) - sizeof_dirent * k)) = sizeof_dirent).
  { rewrite (proj2 (Z.ltb_ge _ _)) by (rewrite Hs, E64; lia). rewrite Hs, E64. lia. }
  cbv zeta in *. rewrite Er in *. exists b, km. split; [|done]. unfold read_dirent. rewrite (bind_Done _ _ _ _ _ E), Z.eqb_refl. cbn [negb].
  unfold gets. cbn [kmem set_kmem]. f_equal. unfold entry. apply get_dirent_agree. intros x Hx. rewrite Hkm. unfold de_addr. rewrite decide_True by lia.
  f_equal. lia.
Qed.

Lemma dir_ok_quiet b b' h d n : quiet h b b' -> dir_ok b h d n -> dir_ok b' h d n.
Proof. intros Hq [H1 H2 H3 H4]. split; try done. intros p Hp. eapply mapped_quiet; [exact Hq|]. by apply H4. Qed.

Lemma entry_quiet b b' h d k : quiet h b b' -> entry b' d k = entry b d k.
Proof. intros Hq. unfold entry. apply get_dirent_agree. intros x _. by eapply fbyte_quiet. Qed.

Lemma dirlookup_loop_ok h i ip name n : i_dev ip = dev -> (size h < NBUF)%nat -> forall fuel s k,
  binv (fbio s) h -> itable s !! i = Some ip -> dir_ok (fbio s) h (i_copy ip) n -> 0 <= k <= n -> n - k < Z.of_nat fuel ->
  exists b km, quiet h (fbio s) b /\ let s' := set_kmem km (set_fbio b s) in
  ((forall j, k <= j < n -> ~ named name (entry (fbio s) (i_copy ip) j)) /\
   dirlookup_loop junk fuel i name (sizeof_dirent * k) s = Done None s' \/
   exists j, k <= j < n /\ named name (entry (fbio s) (i_copy ip) j) /\ (forall j', k <= j' < j -> ~ named name (entry (fbio s) (i_copy ip) j')) /\
     dirlookup_loop junk fuel i name (sizeof_dirent * k) s =
       (x ← iget dev (de_inum (entry (fbio s) (i_copy ip) j)); mret (Some (x, sizeof_dirent * j))) s').
Proof.
  intros Ed Hsz. assert (E64 : sizeof_dirent = 64) by done. induction fuel as [|fuel IH]; intros s k HI Hi Hd Hk Hf; [lia|].
  pose proof Hd as [Ht Hs Hr Hm]. change (2 ^ 24) with 16777216 in Hr. cbn [dirlookup_loop]. rewrite (bind_Done _ _ _ _ _ (get_inode_ok _ _ _ Hi)), Hs.
  destruct (sizeof_dirent * k <? sizeof_dirent * n) eqn:E0; bool_hyps; rewrite E64 in E0.
  2:{ exists (fbio s), (kmem s). split; [by apply quiet_refl|]. left. split; [intros j Hj; lia|]. by destruct s. }
  destruct (read_dirent_ok s h i ip n k "dirlookup read" HI Hsz Hi Ed Hd ltac:(lia)) as (b1 & km1 & E1 & Hq1).
  rewrite (bind_Done _ _ _ _ _ E1). set (s1 := set_kmem km1 (set_fbio b1 s)). set (de := entry (fbio s) (i_copy ip) k).
  assert (Hrec : ~ named name de -> exists b km, quiet h (fbio s) b /\ let s' := set_kmem km (set_fbio b s) in
    ((forall j, k <= j < n -> ~ named name (entry (fbio s) (i_copy ip) j)) /\
     dirlookup_loop junk fuel i name (u32 (sizeof_dirent * k + sizeof_dirent)) s1 = Done None s' \/
     exists j, k <= j < n /\ named name (entry (fbio s) (i_copy ip) j) /\ (forall j', k <= j' < j -> ~ named name (entry (fbio s) (i_copy ip) j')) /\
       dirlookup_loop junk fuel i name (u32 (sizeof_dirent * k + sizeof_dirent)) s1 =
         (x ← iget dev (de_inum (entry (fbio s) (i_copy ip) j)); mret (Some (x, sizeof_dirent * j))) s')).
  { intros Hno. rewrite wrap_small by (change (2 ^ 32) with 4294967296; rewrite E64; lia). replace (sizeof_dirent * k + sizeof_dirent) with (sizeof_dirent * (k + 1)) by lia.
    destruct (IH s1 (k + 1) (qu_inv _ _ _ _ _ _ Hq1) Hi) as (b2 & km2 & Hq2 & Hcase).
    { by eapply dir_ok_quiet. } { lia. } { lia. }
    assert (Een : forall j, entry (fbio s1) (i_copy ip) j = entry (fbio s) (i_copy ip) j) by (intros j; by eapply entry_quiet).
    exists b2, km2. split; [by eapply quiet_trans|]. cbv zeta in *. destruct Hcase as [[Hn E]|(j & Hj & Hnj & Hbef & E)].
    - left. split; [|exact E]. intros j Hj. destruct (decide (j = k)) as [->|]; [done|]. rewrite <- Een. apply Hn. lia.
    - right. exists j. rewrite Een in *. split; [lia|]. split; [done|]. split; [|exact E].
      intros j' Hj'. destruct (decide (j' = k)) as [->|]; [done|]. rewrite <- Een. apply Hbef. lia. }
  destruct (de_inum de =? 0) eqn:Ez; bool_hyps.
  - apply Hrec. intros [Hne _]. done.
  - destruct (namecmp name (de_name de) =? 0) eqn:Enm; bool_hyps.
    + exists b1, km1. split; [done|]. right. exists k. split; [lia|]. split; [split; [done|by apply namecmp_eq]|]. split; [intros j' Hj'; lia|].
      rewrite Ed. done.
    + apply Hrec. intros [_ E]. apply Enm. by apply namecmp_eq.
Qed.

(** [dirlookup] on a directory: the first entry in use with the name. *)
Lemma dirlookup_ok s h i ip name n : binv (fbio s) h -> (size h < NBUF)%nat -> itable s !! i = Some ip -> i_dev ip = dev ->
  dir_ok (fbio s) h (i_copy ip) n ->
  exists b km, quiet h (fbio s) b /\ let s' := set_kmem km (set_fbio b s) in
  ((forall j, 0 <= j < n -> ~ named name (entry (fbio s) (i_copy ip) j)) /\ dirlookup junk i name s = Done None s' \/
   exists j, 0 <= j < n /\ named name (entry (fbio s) (i_copy ip) j) /\ (forall j', 0 <= j' < j -> ~ named name (entry (fbio s) (i_copy ip) j')) /\
     dirlookup junk i name s = (x ← iget dev (de_inum (entry (fbio s) (i_copy ip) j)); mret (Some (x, sizeof_dirent * j))) s').
Proof.
  intros HI Hsz Hi Ed Hd. unfold dirlookup. rewrite (bind_Done _ _ _ _ _ (get_inode_ok _ _ _ Hi)), (do_type _ _ _ _ Hd), Z.eqb_refl. cbn [negb].
  pose proof (do_range _ _ _ _ Hd). pose proof (dirlookup_loop_ok h i ip name n Ed Hsz (dir_fuel (d_size (i_copy ip))) s 0 HI Hi Hd ltac:(lia)) as Hl.
  rewrite Z.mul_0_r in Hl. apply Hl. unfold dir_fuel. rewrite (do_size _ _ _ _ Hd), Z.mul_comm, Z.div_mul by done. lia.
Qed.

End Dir.
