(* ===== verification/FsGrow.v ===== *)
(** * Growing a file

    The blocks of a file form a tree: each has a place ([role]) and is named
    by a word of the inode or of another block of the tree ([rloc]).
    [file_ok] says that the blocks of the tree are in use, are not bitmap
    blocks, and that no block has two places.  Allocating a block for a place
    changes that place alone ([link_blk]), so that [bmap] returns a block for
    any place without changing what the file contains. *)
From S2P Require Import Prelude Spinlock Bytes UserMem Bio BioInv Fs FsBlocks FsInode FsFile.

Inductive role := RData (bn : Z) | RInd | RDbl | RDblInd (j : Z).
#[export] Instance role_eq_dec : EqDecision role.
Proof. solve_decision. Defined.

(** Where the number of a block is kept: a word of the inode's [addrs], or a
    word of the block with another role. *)
Inductive loc := LInode (k : Z) | LWord (q : role) (j : Z).
Definition rloc (r : role) : loc :=
  match r with
  | RData bn =>
      if bn <? NDIRECT then LInode bn
      else if bn - NDIRECT <? NINDIRECT then LWord RInd (bn - NDIRECT)
      else let k := bn - NDIRECT - NINDIRECT in LWord (RDblInd (k / NINDIRECT)) (k mod NINDIRECT)
  | RInd => LInode NDIRECT
  | RDbl => LInode (NDIRECT + 1)
  | RDblInd j => LWord RDbl j
  end.
Definition rvalid (r : role) : Prop :=
  match r with RData bn => 0 <= bn < MAXFILE | RDblInd j => 0 <= j < NINDIRECT | _ => True end.
Definition depth (r : role) : nat :=
  match r with
  | RInd | RDbl => 0
  | RDblInd _ => 1
  | RData bn => if bn <? NDIRECT then 0 else if bn - NDIRECT <? NINDIRECT then 1 else 2
  end.

Lemma nind : NINDIRECT = 1024. Proof. reflexivity. Qed.
Lemma ndir : NDIRECT = 11. Proof. reflexivity. Qed.
Lemma maxfile : MAXFILE = NDIRECT + NINDIRECT + NINDIRECT * NINDIRECT. Proof. reflexivity. Qed.

Lemma dbl_index bn : NDIRECT + NINDIRECT <= bn < MAXFILE ->
  0 <= (bn - NDIRECT - NINDIRECT) / NINDIRECT < NINDIRECT /\ 0 <= (bn - NDIRECT - NINDIRECT) mod NINDIRECT < NINDIRECT.
Proof.
  rewrite maxfile, ndir, nind. intros H. split; [|apply Z.mod_pos_bound; lia].
  split; [apply Z.div_pos; lia|apply Z.div_lt_upper_bound; lia].
Qed.

(** The place of a block is inside its parent, which is less deep. *)
Lemma rloc_ok r : rvalid r -> match rloc r with
  | LInode k => 0 <= k < NDIRECT + 2 /\ depth r = 0%nat
  | LWord q j => rvalid q /\ 0 <= j < NINDIRECT /\ depth r = S (depth q)
  end.
Proof.
  destruct r as [bn| | |j]; cbn [rloc rvalid depth]; try (intros; rewrite ?ndir; lia).
  - intros Hb. destruct (bn <? NDIRECT) eqn:E1; bool_hyps; [rewrite ndir in *; lia|].
    destruct (bn - NDIRECT <? NINDIRECT) eqn:E2; bool_hyps; [split; [done|]; split; [lia|done]|].
    destruct (dbl_index bn) as [H1 H2]; [lia|]. cbn. split; [done|]. done.
Qed.

Lemma rloc_inj r r' : rvalid r -> rvalid r' -> rloc r = rloc r' -> r = r'.
Proof.
  assert (Hd : forall bn, rvalid (RData bn) -> match rloc (RData bn) with LInode k => k = bn /\ bn < NDIRECT | LWord RInd j => j + NDIRECT = bn
      | LWord (RDblInd i) j => i * NINDIRECT + j + NDIRECT + NINDIRECT = bn | _ => False end).
  { intros bn Hb. cbn. destruct (bn <? NDIRECT) eqn:E1; bool_hyps; [done|]. destruct (bn - NDIRECT <? NINDIRECT) eqn:E2; bool_hyps; [lia|].
    pose proof (Z.div_mod (bn - NDIRECT - NINDIRECT) NINDIRECT ltac:(done)). lia. }
  destruct r as [bn| | |j], r' as [bn'| | |j']; intros H H' E; try done.
  - pose proof (Hd _ H) as H1. pose proof (Hd _ H') as H2. rewrite E in H1. f_equal. destruct (rloc (RData bn')) as [|[]]; lia.
  - pose proof (Hd _ H) as H1. rewrite E in H1. cbn in H1. lia.
  - pose proof (Hd _ H) as H1. rewrite E in H1. cbn in H1. lia.
  - pose proof (Hd _ H) as H1. rewrite E in H1. done.
  - pose proof (Hd _ H') as H1. rewrite <- E in H1. cbn in H1. lia.
  - pose proof (Hd _ H') as H1. rewrite <- E in H1. cbn in H1. lia.
  - pose proof (Hd _ H') as H1. rewrite <- E in H1. done.
  - cbn in E. congruence.
Qed.

Section Grow.
Context {D : Type} `{sdcard_laws D} {U : Type} `{!usermem U}.
Local Notation bst := (bst D).
Local Notation fst := (fst D U).
Implicit Types b : bst.
Implicit Types s : fst.
Context (junk : bytes) (dev lba : Z) (L : gset Z).
Hypothesis Hdev : 0 < dev < 4.
Hypothesis HLb : bcache_lock ∈ L.
Hypothesis HLs : sdlock ∈ L.
Local Notation binv := (binv dev lba L).
Local Notation dblk := (dblk lba).
Local Notation in_range := (in_range lba).
Local Notation word := (word lba).
Local Notation imap := (imap lba).
Local Notation used := (used lba).
Local Notation geo := (geo lba).
Local Notation bitmap_ok := (bitmap_ok lba).

(** Word [j] of block [a], 0 where there is no block. *)
Definition wd b (a j : Z) : Z := if a =? 0 then 0 else word b a j.

(** The block with a role, 0 if there is none. *)
Definition rblk b (d : dinode) (r : role) : Z :=
  match r with
  | RData bn => imap b d bn
  | RInd => addr_of d NDIRECT
  | RDbl => addr_of d (NDIRECT + 1)
  | RDblInd j => wd b (addr_of d (NDIRECT + 1)) j
  end.

Lemma rblk_eq b d r : rblk b d r = match rloc r with LInode k => addr_of d k | LWord q j => wd b (rblk b d q) j end.
Proof.
  destruct r as [bn| | |j]; cbn [rblk rloc]; try done. unfold FsFile.imap, wd. cbv zeta.
  destruct (bn <? NDIRECT); [done|]. destruct (bn - NDIRECT <? NINDIRECT); [done|]. cbn [rblk]. unfold wd.
  destruct (addr_of d (NDIRECT + 1) =? 0); done.
Qed.

Context (k : superblock).
Definition is_bitmap (z : Z) : Prop := exists x, 0 <= x < sb_size k /\ z = BBLOCK x k.

(** The blocks of a file. *)
Record file_ok b (d : dinode) : Prop := {
  fo_len : Z.of_nat (length (d_addrs d)) = NDIRECT + 2;
  fo_blk : forall r, rvalid r -> rblk b d r <> 0 -> 0 < rblk b d r < sb_size k /\ used b k (rblk b d r) = true /\ ~ is_bitmap (rblk b d r);
  fo_inj : forall r r', rvalid r -> rvalid r' -> rblk b d r = rblk b d r' -> rblk b d r <> 0 -> r = r'
}.

(** A word of a block whose bytes are those of another. *)
Lemma word_agree b b' a j : (forall x, 0 <= x < BSIZE -> dblk b' a x = dblk b a x) -> 0 <= j < NINDIRECT -> word b' a j = word b a j.
Proof. intros Ha Hj. apply rdle_agree. intros x Hx. apply Ha. rewrite nind in Hj. unfold BSIZE. lia. Qed.

Lemma wd_agree b b' a j : (a <> 0 -> forall x, 0 <= x < BSIZE -> dblk b' a x = dblk b a x) -> 0 <= j < NINDIRECT -> wd b' a j = wd b a j.
Proof. intros Ha Hj. unfold wd. destruct (a =? 0) eqn:E; bool_hyps; [done|]. apply word_agree; auto. Qed.

Lemma wd_zero b a j : (forall x, 0 <= x < BSIZE -> dblk b a x = 0) -> 0 <= j < NINDIRECT -> wd b a j = 0.
Proof.
  intros Ha Hj. unfold wd. destruct (a =? 0); [done|]. apply rdle_zero. intros x Hx. apply Ha. rewrite nind in Hj. unfold BSIZE. lia.
Qed.

(** A tree whose blocks did not change is the same tree. *)
Lemma rblk_same b b' d d' : d_addrs d' = d_addrs d ->
  (forall r, rvalid r -> rblk b d r <> 0 -> forall x, 0 <= x < BSIZE -> dblk b' (rblk b d r) x = dblk b (rblk b d r) x) ->
  forall r, rvalid r -> rblk b' d' r = rblk b d r.
Proof.
  intros Ed Hb. assert (Hn : forall n r, (depth r <= n)%nat -> rvalid r -> rblk b' d' r = rblk b d r).
  { induction n as [|n IH]; intros r Hr Hv; rewrite (rblk_eq b'), (rblk_eq b); pose proof (rloc_ok r Hv) as Hl; destruct (rloc r) as [a|q j].
    - unfold addr_of. by rewrite Ed.
    - lia.
    - unfold addr_of. by rewrite Ed.
    - destruct Hl as (Hq & Hj & Hd). rewrite (IH q) by (done || lia). apply wd_agree; [|done]. intros Hne. by apply Hb. }
  intros r. by apply (Hn (depth r)).
Qed.

(** The word at [rloc r0] set to a block [x] that is all zero: the place [r0]
    gets [x], every other place keeps its block. *)
Definition linked b d b' d' (r0 : role) (x : Z) : Prop :=
  match rloc r0 with
  | LInode a => d_addrs d' = <[Z.to_nat a := x]> (d_addrs d) /\
      (forall r, rvalid r -> rblk b d r <> 0 -> forall y, 0 <= y < BSIZE -> dblk b' (rblk b d r) y = dblk b (rblk b d r) y)
  | LWord q j => d_addrs d' = d_addrs d /\ rblk b d q <> 0 /\
      (forall r, rvalid r -> rblk b d r <> 0 -> forall y, 0 <= y < BSIZE ->
        dblk b' (rblk b d r) y = if decide (r = q) then wr32 (4 * j) x (dblk b (rblk b d q)) y else dblk b (rblk b d r) y)
  end.

Lemma link_blk b d b' d' r0 x : file_ok b d -> rvalid r0 -> rblk b d r0 = 0 -> 0 < x < 2 ^ 32 ->
  (forall y, 0 <= y < BSIZE -> dblk b' x y = 0) -> linked b d b' d' r0 x ->
  forall r, rvalid r -> rblk b' d' r = if decide (r = r0) then x else rblk b d r.
Proof.
  intros Hf Hv0 Hz Hx Hzero Hl. assert (Hchild : forall q j, rblk b d q = 0 -> wd b (rblk b d q) j = 0) by (intros q j ->; done).
  assert (Hn : forall n r, (depth r <= n)%nat -> rvalid r -> rblk b' d' r = if decide (r = r0) then x else rblk b d r).
  { induction n as [|n IH]; intros r Hr Hv; rewrite (rblk_eq b'), (rblk_eq b); pose proof (rloc_ok r Hv) as Hrl; unfold linked in Hl; pose proof (rloc_ok r0 Hv0) as Hrl0.
    - destruct (rloc r) as [a|q j] eqn:Er; [|lia]. destruct (rloc r0) as [a0|q0 j0] eqn:E0.
      + destruct Hl as [Ea _]. unfold addr_of. rewrite Ea. destruct (decide (r = r0)) as [->|Hne].
        * assert (a = a0) as -> by congruence. rewrite list_lookup_insert_eq; [done|]. pose proof (fo_len _ _ Hf). lia.
        * rewrite list_lookup_insert_ne; [done|]. intros E. apply Hne, (rloc_inj r r0); [done|done|]. rewrite Er, E0. f_equal. lia.
      + destruct Hl as (Ea & _). rewrite decide_False by congruence. unfold addr_of. by rewrite Ea.
    - destruct (rloc r) as [a|q j] eqn:Er.
      + assert (Hr0 : (depth r <= n)%nat) by lia. pose proof (IH r Hr0 Hv) as E. rewrite (rblk_eq b'), (rblk_eq b), Er in E. exact E.
      + destruct Hrl as (Hq & Hj & Hd). rewrite (IH q) by (done || lia). destruct (decide (r = r0)) as [->|Hne].
        * rewrite Er in Hl. destruct Hl as (_ & Hqn & Hw). rewrite decide_False; [|intros ->; congruence].
          unfold wd. rewrite (proj2 (Z.eqb_neq _ 0)) by done. unfold FsFile.word.
          rewrite (rdle_agree 4 _ (wr32 (4 * j) x (dblk b (rblk b d q)))); [by rewrite rdle_wrle_same by lia|].
          intros y Hy. rewrite Hw by (try done; rewrite nind in Hj; unfold BSIZE; lia). by rewrite decide_True by done.
        * destruct (decide (q = r0)) as [->|Hqne].
          { rewrite (wd_zero b') by done. symmetry. by apply Hchild. }
          destruct (rloc r0) as [a0|q0 j0] eqn:E0.
          { apply wd_agree; [|done]. intros Hne0. by apply Hl. }
          destruct Hl as (_ & Hqn & Hw). unfold wd. destruct (rblk b d q =? 0) eqn:Eq; bool_hyps; [done|]. unfold FsFile.word.
          destruct (decide (q = q0)) as [->|Hq0].
          { rewrite (rdle_agree 4 _ (wr32 (4 * j0) x (dblk b (rblk b d q0)))).
            - rewrite rdle_wrle_other; [done|]. assert (j <> j0) by (intros ->; apply Hne, (rloc_inj r r0); [done|done|by rewrite Er, E0]). lia.
            - intros y Hy. rewrite Hw by (try done; rewrite nind in Hj; unfold BSIZE; lia). by rewrite decide_True by done. }
          apply rdle_agree. intros y Hy. rewrite Hw by (try done; rewrite nind in Hj; unfold BSIZE; lia). by rewrite decide_False by done. }
  intros r. by apply (Hn (depth r)).
Qed.

(** The number of free blocks. *)
Fixpoint cnt (f : Z -> bool) (l : list Z) : Z := match l with [] => 0 | y :: l => (if f y then 0 else 1) + cnt f l end.
Definition nfree b : Z := cnt (used b k) (seqZ 0 (sb_size k)).

Lemma cnt_same f g l : (forall y, y ∈ l -> g y = f y) -> cnt g l = cnt f l.
Proof.
  induction l as [|a l IH]; intros Hs; [done|]. cbn. rewrite (Hs a) by (by left). rewrite IH; [done|]. intros y Hy. apply Hs. by right.
Qed.

Lemma cnt_zero f l : (forall y, y ∈ l -> f y = true) -> cnt f l = 0.
Proof.
  induction l as [|a l IH]; intros Hs; [done|]. cbn. rewrite (Hs a) by (by left). rewrite IH; [done|]. intros y Hy. apply Hs. by right.
Qed.

Lemma cnt_one f g l x : NoDup l -> x ∈ l -> f x = false -> (forall y, y ∈ l -> g y = f y || (y =? x)) -> cnt f l = cnt g l + 1.
Proof.
  intros Hnd. induction Hnd as [|a l Ha Hnd IH]; intros Hx Hf Hg; [by apply elem_of_nil in Hx|]. cbn.
  pose proof (Hg a ltac:(by left)) as Ea. apply elem_of_cons in Hx as [->|Hx].
  - rewrite Ea, Hf, Z.eqb_refl. cbn. rewrite (cnt_same f g); [lia|]. intros y Hy. rewrite Hg by (by right).
    rewrite (proj2 (Z.eqb_neq y a)) by (intros ->; done). apply orb_false_r.
  - rewrite IH by (try done; intros y Hy; apply Hg; by right). rewrite Ea, (proj2 (Z.eqb_neq a x)) by (intros ->; done). rewrite orb_false_r. lia.
Qed.

Lemma nfree_full b : (forall y, 0 <= y < sb_size k -> used b k y = true) -> nfree b = 0.
Proof. intros Hu. apply cnt_zero. intros y Hy. apply elem_of_seqZ in Hy. apply Hu. lia. Qed.

Lemma nfree_same b b' : (forall y, 0 <= y < sb_size k -> used b' k y = used b k y) -> nfree b' = nfree b.
Proof. intros Hu. apply cnt_same. intros y Hy. apply elem_of_seqZ in Hy. apply Hu. lia. Qed.

Lemma nfree_alloc b b' x : 0 <= x < sb_size k -> used b k x = false ->
  (forall y, 0 <= y < sb_size k -> used b' k y = used b k y || (y =? x)) -> nfree b = nfree b' + 1.
Proof.
  intros Hx Hu Hu'. apply cnt_one with x; [apply NoDup_seqZ|apply elem_of_seqZ; lia|done|]. intros y Hy. apply elem_of_seqZ in Hy. apply Hu'. lia.
Qed.

(** Byte [p] of a file; a hole is zero. *)
Definition fcontent b (d : dinode) (p : Z) : Z := let a := imap b d (p / BSIZE) in if a =? 0 then 0 else dblk b a (p mod BSIZE).

(** The disk as a whole: where the blocks are, the bitmap, the boot block. *)
Record disk_ok b : Prop := { dk_geo : geo k; dk_bitmap : bitmap_ok b k; dk_boot : used b k 0 = true }.

(** From [b] and inode [d] to [b'] and [d']: the file keeps its blocks and may
    get new ones, at most [n], that were free; its content becomes [f]; blocks
    in use that are not the file's and not of the bitmap do not change. *)
Record fstep (n : Z) (f : Z -> Z) b d b' d' : Prop := {
  st_file : file_ok b' d';
  st_disk : disk_ok b';
  st_attr : d' = set_d_addrs (d_addrs d') d;
  st_map : forall r, rvalid r -> rblk b d r <> 0 -> rblk b' d' r = rblk b d r;
  st_new : forall r, rvalid r -> rblk b d r = 0 -> rblk b' d' r <> 0 -> used b k (rblk b' d' r) = false;
  st_used : forall y, 0 <= y < sb_size k -> used b k y = true -> used b' k y = true;
  st_free : nfree b <= nfree b' + n;
  st_content : forall p, 0 <= p < MAXFILE * BSIZE -> fcontent b' d' p = f p;
  st_frame : forall z j, 0 <= z < sb_size k -> used b k z = true -> ~ is_bitmap z -> (forall r, rvalid r -> rblk b d r <> z) -> 0 <= j < BSIZE ->
    dblk b' z j = dblk b z j
}.

Lemma fstep_trans n1 n2 f1 f2 b1 d1 b2 d2 b3 d3 : fstep n1 f1 b1 d1 b2 d2 -> fstep n2 f2 b2 d2 b3 d3 -> fstep (n1 + n2) f2 b1 d1 b3 d3.
Proof.
  intros S1 S2. assert (Hmap : forall r, rvalid r -> rblk b1 d1 r <> 0 -> rblk b3 d3 r = rblk b1 d1 r).
  { intros r Hv Hne. pose proof (st_map _ _ _ _ _ _ S1 r Hv Hne) as E. rewrite (st_map _ _ _ _ _ _ S2 r Hv); congruence. }
  split; try apply S2; try done.
  - rewrite (st_attr _ _ _ _ _ _ S2) at 1. rewrite (st_attr _ _ _ _ _ _ S1). done.
  - intros r Hv Hz Hne. destruct (decide (rblk b2 d2 r = 0)) as [E|E].
    + pose proof (st_new _ _ _ _ _ _ S2 r Hv E Hne) as Hu. destruct (used b1 k _) eqn:Eu; [|done].
      rewrite (st_used _ _ _ _ _ _ S1) in Hu; [done| |done]. pose proof (proj1 (fo_blk _ _ (st_file _ _ _ _ _ _ S2) r Hv Hne)). lia.
    + rewrite (st_map _ _ _ _ _ _ S2 r Hv E). by apply (st_new _ _ _ _ _ _ S1).
  - intros y Hy Hu. apply (st_used _ _ _ _ _ _ S2 y Hy). by apply (st_used _ _ _ _ _ _ S1).
  - pose proof (st_free _ _ _ _ _ _ S1). pose proof (st_free _ _ _ _ _ _ S2). lia.
  - intros z j Hz Hu Hb Hr Hj. rewrite (st_frame _ _ _ _ _ _ S2 z j Hz); [by apply (st_frame _ _ _ _ _ _ S1)|by apply (st_used _ _ _ _ _ _ S1)|done| |done].
    intros r Hv E. destruct (decide (rblk b1 d1 r = 0)) as [E0|E0].
    + destruct (decide (z = 0)) as [->|Hz0].
      * destruct (decide (rblk b1 d1 r = 0)); [|done]. by apply (Hr r Hv).
      * pose proof (st_new _ _ _ _ _ _ S1 r Hv E0 ltac:(congruence)) as Hn. rewrite E in Hn. congruence.
    + rewrite (st_map _ _ _ _ _ _ S1 r Hv E0) in E. by apply (Hr r Hv).
Qed.

Lemma bn_range p : 0 <= p < MAXFILE * BSIZE -> 0 <= p / BSIZE < MAXFILE /\ 0 <= p mod BSIZE < BSIZE.
Proof.
  intros Hp. split; [|apply Z.mod_pos_bound; done]. split; [apply Z.div_pos; [lia|done]|apply Z.div_lt_upper_bound; [done|lia]].
Qed.

Lemma bitmap_used b z : disk_ok b -> is_bitmap z -> used b k z = true.
Proof. intros [_ Hb _] (x & Hx & ->). by apply Hb. Qed.

(** A new cache over the same card. *)
Lemma same_step b d b' : file_ok b d -> disk_ok b -> (forall z j, 0 <= j < BSIZE -> dblk b' z j = dblk b z j) -> fstep 0 (fcontent b d) b d b' d.
Proof.
  intros Hf Hdk Hs. assert (Hr : forall r, rvalid r -> rblk b' d r = rblk b d r) by (intros r; apply rblk_same; auto).
  assert (Hu : forall y, 0 <= y < sb_size k -> used b' k y = used b k y).
  { intros y _. unfold FsBlocks.used. apply bitset_agree; [apply bpb_split|]. intros j Hj. by apply Hs. }
  split.
  - split; [apply Hf| |].
    + intros r Hv. rewrite Hr by done. intros Hne. destruct (fo_blk _ _ Hf r Hv Hne) as (H1 & H2 & H3). split; [done|]. rewrite Hu by lia. done.
    + intros r r' Hv Hv'. rewrite !Hr by done. by apply (fo_inj _ _ Hf).
  - destruct Hdk as [Hg Hb Hz]. split; [done| |].
    + intros x Hx. pose proof (bblock_range lba k x Hg Hx) as Hbx. destruct (Hb x Hx) as [H1 H2]. split; [|by rewrite Hu].
      intros j Hj. rewrite Hs by done. by apply H1.
    + rewrite Hu; [done|]. pose proof (geo_size _ _ Hg). lia.
  - by destruct d.
  - intros r Hv _. by apply Hr.
  - intros r Hv Hz. rewrite Hr by done. done.
  - intros y Hy Hy'. by rewrite Hu.
  - rewrite (nfree_same b b') by done. lia.
  - intros p Hp. destruct (bn_range p Hp). unfold fcontent. change (imap b' d (p / BSIZE)) with (rblk b' d (RData (p / BSIZE))). rewrite Hr by done. cbn [rblk].
    destruct (_ =? 0); [done|]. by apply Hs.
  - intros z j _ _ _ _ Hj. by apply Hs.
Qed.

Lemma link_step b d b' d' r0 x : file_ok b d -> disk_ok b -> rvalid r0 -> rblk b d r0 = 0 -> 0 <= x < sb_size k -> used b k x = false ->
  d' = set_d_addrs (d_addrs d') d -> linked b d b' d' r0 x -> (forall y, 0 <= y < BSIZE -> dblk b' x y = 0) ->
  (forall y, 0 <= y < sb_size k -> used b' k y = used b k y || (y =? x)) -> bitmap_ok b' k ->
  (forall z j, 0 <= z < sb_size k -> used b k z = true -> ~ is_bitmap z -> (forall r, rvalid r -> rblk b d r <> z) -> 0 <= j < BSIZE -> dblk b' z j = dblk b z j) ->
  fstep 1 (fcontent b d) b d b' d' /\ forall r, rvalid r -> rblk b' d' r = if decide (r = r0) then x else rblk b d r.
Proof.
  intros Hf Hdk Hv0 Hz0 Hx Hux Ed Hl Hzero Hu Hb Hframe. pose proof Hdk as [Hg Hbm Hboot]. pose proof (geo_size _ _ Hg) as Hsz. change (2 ^ 31) with 2147483648 in Hsz.
  assert (Hx0 : x <> 0) by (intros ->; congruence).
  assert (Hr : forall r, rvalid r -> rblk b' d' r = if decide (r = r0) then x else rblk b d r).
  { apply link_blk; try done. change (2 ^ 32) with 4294967296. lia. }
  assert (Hnb : ~ is_bitmap x) by (intros Hi; pose proof (bitmap_used b x Hdk Hi); congruence).
  assert (Hold : forall r, rvalid r -> rblk b d r <> x).
  { intros r Hv E. destruct (decide (x = 0)); [done|]. destruct (fo_blk _ _ Hf r Hv ltac:(congruence)) as (_ & Hur & _). congruence. }
  split; [|exact Hr]. split.
  - split.
    + unfold linked in Hl. destruct (rloc r0); destruct Hl as [E _]; rewrite E, ?length_insert; apply Hf.
    + intros r Hv. rewrite Hr by done. destruct (decide (r = r0)); intros Hne.
      * split; [lia|]. split; [rewrite Hu, Z.eqb_refl by lia; apply orb_true_r|done].
      * destruct (fo_blk _ _ Hf r Hv Hne) as (H1 & H2 & H3). split; [done|]. rewrite Hu, H2 by lia. done.
    + intros r r' Hv Hv'. rewrite !Hr by done. destruct (decide (r = r0)) as [->|], (decide (r' = r0)) as [->|]; intros E Hne; try done.
      * by destruct (Hold r' Hv').
      * by destruct (Hold r Hv).
      * by apply (fo_inj _ _ Hf).
  - split; [done|done|]. rewrite Hu, Hboot by lia. done.
  - done.
  - intros r Hv Hne. rewrite Hr by done. rewrite decide_False; [done|]. intros ->. done.
  - intros r Hv Hz. rewrite Hr by done. destruct (decide _); [done|]. by rewrite Hz.
  - intros y Hy Hy'. by rewrite Hu, Hy'.
  - rewrite (nfree_alloc b b' x) by done. lia.
  - intros p Hp. destruct (bn_range p Hp) as [Hbn Hpm]. unfold fcontent. change (imap b' d' (p / BSIZE)) with (rblk b' d' (RData (p / BSIZE))).
    change (imap b d (p / BSIZE)) with (rblk b d (RData (p / BSIZE))). rewrite Hr by done. destruct (decide _) as [E|E].
    + rewrite E, Hz0. rewrite (proj2 (Z.eqb_neq x 0)) by done. cbn. by apply Hzero.
    + destruct (rblk b d (RData (p / BSIZE)) =? 0) eqn:Ez; bool_hyps; [done|]. unfold linked in Hl. destruct (rloc r0) as [a|q j] eqn:E0.
      * by apply Hl.
      * destruct Hl as (_ & _ & Hl). rewrite Hl by done. rewrite decide_False; [done|]. intros <-.
        destruct r0 as [bn| | |]; try done. cbn in E0. destruct (bn <? NDIRECT); [done|]. by destruct (bn - NDIRECT <? NINDIRECT).
  - done.
Qed.

(** ** bmap with allocation *)

(** The state with the file's inode copy [d] and the cache [b]. *)
Definition grown (i : nat) (ip : inode) b (d : dinode) s : fst := set_itable (<[i := set_i_copy d ip]> (itable s)) (set_fbio b s).

Lemma grown_same i ip b s : itable s !! i = Some ip -> grown i ip b (i_copy ip) s = set_fbio b s.
Proof.
  intros Hi. unfold grown. assert (E : set_i_copy (i_copy ip) ip = ip) by (by destruct ip). rewrite E, list_insert_id by done. by destruct s.
Qed.

Lemma grown_lookup i ip b d s : itable s !! i = Some ip -> itable (grown i ip b d s) !! i = Some (set_i_copy d ip).
Proof. intros Hi. cbn. apply list_lookup_insert_eq. by eapply lookup_lt_Some. Qed.

Lemma grown_grown i ip b d b' d' s : grown i (set_i_copy d ip) b' d' (grown i ip b d s) = grown i ip b' d' s.
Proof. unfold grown. cbn. by rewrite list_insert_insert_eq. Qed.

Lemma put_addr_ok i ip a x b d s : itable s !! i = Some ip -> i_copy ip = d ->
  put_addr i a x (set_fbio b s) = Done tt (grown i ip b (set_d_addrs (<[Z.to_nat a := x]> (d_addrs d)) d) s).
Proof.
  intros Hi <-. unfold put_addr, upd_copy. rewrite (upd_inode_ok (set_fbio b s) i ip _ Hi). done.
Qed.

Lemma no_held x : ~ held_by ∅ x.
Proof. intros [i Hi]. by rewrite lookup_empty in Hi. Qed.

Lemma nbuf_none : (size (∅ : gmap nat Z) < NBUF)%nat.
Proof. rewrite map_size_empty. unfold NBUF. lia. Qed.

Lemma nbuf_one bp x : (size (<[bp := x]> ∅ : gmap nat Z) < NBUF)%nat.
Proof. rewrite insert_empty, map_size_singleton. unfold NBUF. lia. Qed.

(** The number of the block with the role, allocated for a word of the
    inode. *)
Lemma slot_alloc i ip s r0 a : sb s = k -> binv (fbio s) ∅ -> itable s !! i = Some ip -> file_ok (fbio s) (i_copy ip) -> disk_ok (fbio s) ->
  rvalid r0 -> rloc r0 = LInode a -> rblk (fbio s) (i_copy ip) r0 = 0 -> 1 <= nfree (fbio s) ->
  exists x b, balloc junk dev s = Done x (set_fbio b s) /\ x <> 0 /\ binv b ∅ /\
    let d := set_d_addrs (<[Z.to_nat a := x]> (d_addrs (i_copy ip))) (i_copy ip) in
    fstep 1 (fcontent (fbio s) (i_copy ip)) (fbio s) (i_copy ip) b d /\ rblk b d r0 = x.
Proof.
  intros Ek HI Hi Hf Hdk Hv Hl Hz Hfree. pose proof Hdk as [Hg Hbm Hboot]. rewrite <- Ek in Hg, Hbm.
  destruct (balloc_ok junk dev lba L Hdev HLb HLs s ∅ Hg Hbm HI (fun x _ => no_held _) nbuf_none (fun x _ _ => no_held _)) as [(b & E & HI' & _ & _ & Hu)|(x & b & E & Hx & HI' & _ & [A1 A2 A3 A4 A5] & _)]; rewrite ?Ek in *.
  { rewrite (nfree_full (fbio s) Hu) in Hfree. lia. }
  exists x, b. split; [done|]. split; [intros ->; congruence|]. split; [done|]. intros d.
  assert (Hbx : is_bitmap (BBLOCK x k)) by (exists x; done).
  assert (Hother : forall z j, 0 <= z < sb_size k -> used (fbio s) k z = true -> ~ is_bitmap z -> 0 <= j < BSIZE -> dblk b z j = dblk (fbio s) z j).
  { intros z j Hz0 Hu Hnb Hj. apply A4; [intros ->; congruence|intros ->; done|done]. }
  destruct (link_step (fbio s) (i_copy ip) b d r0 x) as [Hs Hr]; try done.
  - unfold linked. rewrite Hl. split; [done|]. intros r Hvr Hne y Hy. destruct (fo_blk _ _ Hf r Hvr Hne) as (H1 & H2 & H3). apply Hother; [lia|done|done|done].
  - intros z j Hz0 Hu Hnb _. by apply Hother.
  - split; [done|]. rewrite Hr by done. by rewrite decide_True by done.
Qed.

(** A block of the file already there. *)
Lemma same_result b0 d b r : file_ok b0 d -> disk_ok b0 -> (forall x j, dblk b x j = dblk b0 x j) -> rvalid r ->
  fstep 0 (fcontent b0 d) b0 d b d /\ rblk b d r = rblk b0 d r.
Proof. intros Hf Hdk Hd Hv. split; [by apply same_step|]. apply rblk_same; auto. Qed.

Lemma fstep_weaken n n' f b d b' d' : fstep n f b d b' d' -> n <= n' -> fstep n' f b d b' d'.
Proof. intros [] Hn. split; try done. lia. Qed.

Lemma bmap_root_alloc i ip s r0 a : sb s = k -> binv (fbio s) ∅ -> itable s !! i = Some ip -> file_ok (fbio s) (i_copy ip) -> disk_ok (fbio s) ->
  rvalid r0 -> rloc r0 = LInode a -> 1 <= nfree (fbio s) ->
  exists x b d, bmap_root junk i dev a s = Done x (grown i ip b d s) /\ x <> 0 /\ binv b ∅ /\
    fstep 1 (fcontent (fbio s) (i_copy ip)) (fbio s) (i_copy ip) b d /\ rblk b d r0 = x.
Proof.
  intros Ek HI Hi Hf Hdk Hv Hl Hfree. pose proof (rloc_ok r0 Hv) as Hrl. rewrite Hl in Hrl. destruct Hrl as [Ha _].
  assert (Er : rblk (fbio s) (i_copy ip) r0 = addr_of (i_copy ip) a) by (by rewrite rblk_eq, Hl).
  unfold bmap_root. rewrite (bind_Done _ _ _ _ _ (get_addr_ok s i ip a Hi ltac:(pose proof (fo_len _ _ Hf); lia))), <- Er.
  destruct (rblk (fbio s) (i_copy ip) r0 =? 0) eqn:E0; bool_hyps.
  - destruct (slot_alloc i ip s r0 a) as (x & b & E & Hx & HI' & Hs & Hr); try done. rewrite (bind_Done _ _ _ _ _ E), (proj2 (Z.eqb_neq x 0)) by done.
    rewrite (bind_Done _ _ _ _ _ (put_addr_ok i ip a x b (i_copy ip) s Hi eq_refl)). do 3 eexists. split; [reflexivity|]. by split_and!.
  - destruct (same_result (fbio s) (i_copy ip) (fbio s) r0) as [Hs Hr]; try done. exists (rblk (fbio s) (i_copy ip) r0), (fbio s), (i_copy ip).
    rewrite grown_same, fst_eta by done. split; [done|]. split; [done|]. split; [done|]. split; [by eapply fstep_weaken; [exact Hs|lia]|done].
Qed.

Lemma bmap_direct_alloc i ip s a : sb s = k -> binv (fbio s) ∅ -> itable s !! i = Some ip -> i_dev ip = dev -> file_ok (fbio s) (i_copy ip) -> disk_ok (fbio s) ->
  0 <= a < NDIRECT -> 1 <= nfree (fbio s) ->
  exists x b d, bmap junk i a s = Done x (grown i ip b d s) /\ x <> 0 /\ binv b ∅ /\
    fstep 1 (fcontent (fbio s) (i_copy ip)) (fbio s) (i_copy ip) b d /\ rblk b d (RData a) = x.
Proof.
  intros Ek HI Hi Ed Hf Hdk Ha Hfree. assert (Hl : rloc (RData a) = LInode a) by (cbn; by rewrite (proj2 (Z.ltb_lt _ _)) by lia).
  assert (Hv : rvalid (RData a)) by (cbn; rewrite maxfile, ndir, nind in *; lia).
  assert (Er : rblk (fbio s) (i_copy ip) (RData a) = addr_of (i_copy ip) a) by (by rewrite rblk_eq, Hl).
  unfold bmap. rewrite (bind_Done _ _ _ _ _ (get_inode_ok _ _ _ Hi)), Ed. cbv zeta. rewrite (proj2 (Z.ltb_lt a NDIRECT)) by lia.
  rewrite (bind_Done _ _ _ _ _ (get_addr_ok s i ip a Hi ltac:(pose proof (fo_len _ _ Hf); lia))), <- Er.
  destruct (rblk (fbio s) (i_copy ip) (RData a) =? 0) eqn:E0; bool_hyps.
  - destruct (slot_alloc i ip s (RData a) a) as (x & b & E & Hx & HI' & Hs & Hr); try done. rewrite (bind_Done _ _ _ _ _ E).
    rewrite (bind_Done _ _ _ _ _ (put_addr_ok i ip a x b (i_copy ip) s Hi eq_refl)). do 3 eexists. split; [reflexivity|]. by split_and!.
  - destruct (same_result (fbio s) (i_copy ip) (fbio s) (RData a)) as [Hs Hr]; try done. exists (rblk (fbio s) (i_copy ip) (RData a)), (fbio s), (i_copy ip).
    rewrite grown_same, fst_eta by done. split; [done|]. split; [done|]. split; [done|]. split; [by eapply fstep_weaken; [exact Hs|lia]|done].
Qed.

Lemma bitset_same b b' y : (forall j, 0 <= j < BSIZE -> dblk b' (BBLOCK y k) j = dblk b (BBLOCK y k) j) -> used b' k y = used b k y.
Proof. intros Hs. unfold FsBlocks.used. apply bitset_agree; [apply bpb_split|done]. Qed.

(** The block named by word [j] of the block of role [q]. *)
Lemma bmap_entry_alloc s d r0 q j : sb s = k -> binv (fbio s) ∅ -> file_ok (fbio s) d -> disk_ok (fbio s) ->
  rvalid r0 -> rloc r0 = LWord q j -> rblk (fbio s) d q <> 0 -> 1 <= nfree (fbio s) ->
  exists x b, bmap_entry junk dev (rblk (fbio s) d q) j s = Done x (set_fbio b s) /\ x <> 0 /\ binv b ∅ /\
    fstep 1 (fcontent (fbio s) d) (fbio s) d b d /\ rblk b d r0 = x.
Proof.
  intros Ek HI Hf Hdk Hv Hl Hq Hfree. pose proof (rloc_ok r0 Hv) as Hrl. rewrite Hl in Hrl. destruct Hrl as (Hvq & Hj & _).
  destruct (fo_blk _ _ Hf q Hvq Hq) as (Ha & Hua & Hnba). set (a := rblk (fbio s) d q) in *. pose proof Hdk as [Hg Hbm Hboot].
  assert (Er : rblk (fbio s) d r0 = word (fbio s) a j) by (rewrite rblk_eq, Hl; unfold wd; by rewrite (proj2 (Z.eqb_neq _ 0)) by done).
  destruct (fread_ok junk dev lba L Hdev HLb HLs s ∅ a HI (geo_range _ _ Hg a ltac:(lia)) (no_held a) nbuf_none) as (bp & b1 & dd & E1 & Hn & Hh & Hon & Hon1 & Hd1 & Hk1).
  unfold bmap_entry. rewrite (bind_Done _ _ _ _ _ E1). set (s1 := set_fbio b1 s).
  assert (Eg : get_word bp j s1 = Done (rblk (fbio s) d r0) s1).
  { unfold get_word. rewrite (bind_Done _ _ _ _ _ (fdata_ok dev lba L s1 _ _ _ dd Hh)), Er. unfold mret, M_ret, FsFile.word. f_equal.
    apply rdle_agree. intros y Hy. apply Hon. rewrite nind in Hj. unfold BSIZE. lia. }
  rewrite (bind_Done _ _ _ _ _ Eg). destruct (rblk (fbio s) d r0 =? 0) eqn:E0; bool_hyps.
  2:{ destruct (close_clean dev lba L Hdev HLb s1 ∅ bp a dd (mret (rblk (fbio s) d r0)) Hh Hon1 Hn) as (b2 & E2 & HI2 & _ & Hd2).
      destruct (same_result (fbio s) d b2 r0) as [Hs Hr]; try done; [intros x y; by rewrite Hd2, <- Hd1|].
      exists (rblk (fbio s) d r0), b2. split; [exact E2|]. split; [done|]. split; [done|]. split; [by eapply fstep_weaken; [exact Hs|lia]|done]. }
  assert (Hu1 : forall y, used b1 k y = used (fbio s) k y) by (intros y; apply bitset_same; auto).
  destruct (balloc_ok junk dev lba L Hdev HLb HLs s1 (<[bp := a]> ∅)) as [(b & E & HI' & _ & _ & Hu)|(x & b & E & Hx & HI' & Hk2 & [A1 A2 A3 A4 A5] & _)].
  { change (sb s1) with (sb s). by rewrite Ek. }
  { change (sb s1) with (sb s). rewrite Ek. intros y Hy. rewrite Hu1. destruct (Hbm y Hy) as [Hb1 Hb2]. split; [|done].
    intros z Hz. cbn [fbio set_fbio s1]. rewrite Hd1. by apply Hb1. }
  { apply Hh. }
  { change (sb s1) with (sb s). rewrite Ek. intros y Hy [p Hp]. apply lookup_insert_Some in Hp as [[_ E]|[_ Hp]]; [|by rewrite lookup_empty in Hp].
    apply Hnba. by exists y. }
  { apply nbuf_one. }
  { change (sb s1) with (sb s). rewrite Ek. intros y Hy Huy [p Hp]. apply lookup_insert_Some in Hp as [[_ E]|[_ Hp]]; [|by rewrite lookup_empty in Hp].
    cbn [fbio set_fbio s1] in Huy. rewrite Hu1 in Huy. congruence. }
  { change (sb s1) with (sb s) in Hu. rewrite Ek in Hu. rewrite (nfree_full (fbio s)) in Hfree; [lia|]. intros y Hy. rewrite <- Hu1. by apply Hu. }
  change (sb s1) with (sb s) in *. rewrite Ek in *. cbn [fbio set_fbio s1] in *. rewrite Hu1 in A1.
  assert (Hx0 : x <> 0) by (intros ->; congruence). assert (Hxa : x <> a) by (intros ->; congruence).
  rewrite (bind_Done _ _ _ _ _ E), (proj2 (Z.eqb_neq x 0)) by done. set (s2 := set_fbio b s1).
  assert (Hh2 : holds dev lba L b (<[bp := a]> ∅) bp a dd) by (by eapply holds_step).
  unfold put_word. rewrite bind_assoc, (bind_Done _ _ _ _ _ (fdata_ok dev lba L s2 _ _ _ dd Hh2)).
  destruct (write_close dev lba L Hdev HLb HLs s2 ∅ bp a dd (wr32 (4 * j) x dd) (mret x) Hh2 Hn) as (b3 & E3 & HI3 & _ & Hd3). rewrite E3. cbn [fbio set_fbio s2] in Hd3.
  assert (Hbx : is_bitmap (BBLOCK x k)) by (exists x; done).
  assert (Hother : forall z y, 0 <= z < sb_size k -> used (fbio s) k z = true -> ~ is_bitmap z -> z <> a -> 0 <= y < BSIZE -> dblk b3 z y = dblk (fbio s) z y).
  { intros z y Hz Hu Hnb Hza Hy. rewrite Hd3, decide_False by done. rewrite A4; [apply Hd1|intros ->; congruence|intros ->; done|done]. }
  assert (Hu3 : forall y, 0 <= y < sb_size k -> used b3 k y = used b k y).
  { intros y Hy. apply bitset_same. intros z Hz. rewrite Hd3 by done. rewrite decide_False; [done|]. intros E'. apply Hnba. by exists y. }
  destruct (link_step (fbio s) d b3 d r0 x) as [Hs Hr]; try done.
  - by destruct d.
  - unfold linked. rewrite Hl. split; [done|]. split; [done|]. intros r Hvr Hne y Hy. destruct (fo_blk _ _ Hf r Hvr Hne) as (H1 & H2 & H3).
    destruct (decide (r = q)) as [->|Hrq].
    + fold a. rewrite Hd3, decide_True by done. unfold wrle. destruct (_ && _); [done|]. by apply Hon.
    + apply Hother; [lia|done|done| |done]. intros E'. apply Hrq. by apply (fo_inj _ _ Hf).
  - intros y Hy. rewrite Hd3, decide_False by done. by apply A3.
  - intros y Hy. rewrite Hu3, A2, Hu1 by done. done.
  - intros y Hy. destruct (A5 y Hy) as [B1 B2]. split; [|by rewrite (Hu3 _ (bblock_range lba k y Hg Hy))]. intros z Hz. rewrite Hd3 by done.
    rewrite decide_False; [by apply B1|]. intros E'. apply Hnba. by exists y.
  - intros z y Hz Hu Hnb Ht Hy. apply Hother; try done. intros ->. by apply (Ht q).
  - exists x, b3. split; [done|]. split; [done|]. split; [done|]. split; [done|]. rewrite Hr by done. by rewrite decide_True by done.
Qed.

Lemma fstep_ext n f g b d b' d' : fstep n f b d b' d' -> (forall p, 0 <= p < MAXFILE * BSIZE -> f p = g p) -> fstep n g b d b' d'.
Proof. intros [] He. split; try done. intros p Hp. rewrite <- He by done. auto. Qed.

Lemma fstep_seq n1 n2 b1 d1 b2 d2 b3 d3 : fstep n1 (fcontent b1 d1) b1 d1 b2 d2 -> fstep n2 (fcontent b2 d2) b2 d2 b3 d3 ->
  fstep (n1 + n2) (fcontent b1 d1) b1 d1 b3 d3.
Proof.
  intros S1 S2. eapply fstep_ext; [by eapply fstep_trans|]. apply S1.
Qed.

(** [bmap] gives every block of the file a number and leaves its content as
    it was. *)
Lemma bmap_alloc i ip s bn : sb s = k -> binv (fbio s) ∅ -> itable s !! i = Some ip -> i_dev ip = dev -> file_ok (fbio s) (i_copy ip) -> disk_ok (fbio s) ->
  0 <= bn < MAXFILE -> 3 <= nfree (fbio s) ->
  exists x b d, bmap junk i bn s = Done x (grown i ip b d s) /\ x <> 0 /\ binv b ∅ /\
    fstep 3 (fcontent (fbio s) (i_copy ip)) (fbio s) (i_copy ip) b d /\ imap b d bn = x.
Proof.
  intros Ek HI Hi Ed Hf Hdk Hbn Hfree. assert (Hv : rvalid (RData bn)) by done. destruct (Z.lt_ge_cases bn NDIRECT) as [H1|H1].
  - destruct (bmap_direct_alloc i ip s bn) as (x & b & d & E & Hx & HI' & Hs & Hr); try done; [lia..|].
    exists x, b, d. split; [done|]. split; [done|]. split; [done|]. split; [by eapply fstep_weaken; [exact Hs|lia]|done].
  - unfold bmap. rewrite (bind_Done _ _ _ _ _ (get_inode_ok _ _ _ Hi)), Ed. cbv zeta. rewrite (proj2 (Z.ltb_ge bn NDIRECT)) by lia.
    assert (Hl : rloc (RData bn) = if bn - NDIRECT <? NINDIRECT then LWord RInd (bn - NDIRECT) else
      LWord (RDblInd ((bn - NDIRECT - NINDIRECT) / NINDIRECT)) ((bn - NDIRECT - NINDIRECT) mod NINDIRECT)) by (cbn; by rewrite (proj2 (Z.ltb_ge bn NDIRECT)) by lia).
    destruct (bn - NDIRECT <? NINDIRECT) eqn:E2; bool_hyps.
    + destruct (bmap_root_alloc i ip s RInd NDIRECT) as (x1 & b1 & d1 & R1 & Hx1 & HI1 & S1 & Hr1); try done; [lia|].
      rewrite (bind_Done _ _ _ _ _ R1), (proj2 (Z.eqb_neq x1 0)), <- Hr1 by done.
      pose proof (st_free _ _ _ _ _ _ S1). change b1 with (fbio (grown i ip b1 d1 s)).
      destruct (bmap_entry_alloc (grown i ip b1 d1 s) d1 (RData bn) RInd (bn - NDIRECT)) as (x2 & b2 & R2 & Hx2 & HI2 & S2 & Hr2);
        try done; [apply S1|apply S1|change (rblk b1 d1 RInd <> 0); congruence|cbn [fbio grown set_itable set_fbio]; lia|].
      exists x2, b2, d1. split; [exact R2|]. split; [done|]. split; [done|]. split; [|done]. by eapply fstep_weaken; [eapply fstep_seq; [exact S1|exact S2]|lia].
    + destruct (dbl_index bn) as [Hi1 Hi2]; [lia|]. set (j1 := (bn - NDIRECT - NINDIRECT) / NINDIRECT) in *. set (j2 := (bn - NDIRECT - NINDIRECT) mod NINDIRECT) in *.
      rewrite (proj2 (Z.ltb_lt (bn - NDIRECT - NINDIRECT) NINDIRECT2)) by (change NINDIRECT2 with (NINDIRECT * NINDIRECT); rewrite maxfile in Hbn; lia).
      destruct (bmap_root_alloc i ip s RDbl (NDIRECT + 1)) as (x1 & b1 & d1 & R1 & Hx1 & HI1 & S1 & Hr1); try done; [lia|].
      rewrite (bind_Done _ _ _ _ _ R1), (proj2 (Z.eqb_neq x1 0)), <- Hr1 by done.
      pose proof (st_free _ _ _ _ _ _ S1). change b1 with (fbio (grown i ip b1 d1 s)).
      destruct (bmap_entry_alloc (grown i ip b1 d1 s) d1 (RDblInd j1) RDbl j1) as (x2 & b2 & R2 & Hx2 & HI2 & S2 & Hr2);
        try done; [apply S1|apply S1|change (rblk b1 d1 RDbl <> 0); congruence|cbn [fbio grown set_itable set_fbio]; lia|].
      cbn [fbio grown set_itable set_fbio] in S2.
      rewrite (bind_Done _ _ _ _ _ R2), (proj2 (Z.eqb_neq x2 0)), <- Hr2 by done. pose proof (st_free _ _ _ _ _ _ S2).
      change (set_fbio b2 (grown i ip b1 d1 s)) with (grown i ip b2 d1 s). change b2 with (fbio (grown i ip b2 d1 s)).
      destruct (bmap_entry_alloc (grown i ip b2 d1 s) d1 (RData bn) (RDblInd j1) j2) as (x3 & b3 & R3 & Hx3 & HI3 & S3 & Hr3);
        try done; [apply S2|apply S2|change (rblk b2 d1 (RDblInd j1) <> 0); congruence|cbn [fbio grown set_itable set_fbio]; lia|].
      exists x3, b3, d1. split; [exact R3|]. split; [done|]. split; [done|]. split; [|done].
      change 3 with (1 + 1 + 1). eapply fstep_seq; [eapply fstep_seq; [exact S1|exact S2]|exact S3].
Qed.
End Grow.
