(* ===== verification/FsWrite.v ===== *)
(** * Writing a file

    [writei] puts the bytes at [off .. off + n) of the file, allocating what
    blocks it needs, and changes nothing else of the file nor any other block
    in use. *)
From S2P Require Import Prelude Spinlock Bytes UserMem Bio BioInv Fs FsBlocks FsInode FsFile FsGrow.

Section Write.
Context {D : Type} `{sdcard_laws D} {U : Type} `{!usermem U}.
Local Notation bst := (bst D).
Local Notation fst := (fst D U).
Implicit Types b : bst.
Implicit Types s : fst.
Context (junk : bytes) (dev lba : Z) (L : gset Z).
Hypothesis Hdev : 0 < dev < 4.
Hypothesis HLb : bcache_lock ∈ L.
Hypothesis HLs : sdlock ∈ L.
Context (k : superblock).
Local Notation binv := (binv dev lba L).
Local Notation dblk := (dblk lba).
Local Notation rblk := (rblk lba).
Local Notation file_ok := (file_ok lba k).
Local Notation disk_ok := (disk_ok lba k).
Local Notation fcontent := (fcontent lba).
Local Notation fstep := (fstep lba k).
Local Notation nfree := (nfree lba k).
Local Notation is_bitmap := (is_bitmap k).

(** New bytes in a data block of the file. *)
Lemma data_step b d b' bn e : file_ok b d -> disk_ok b -> 0 <= bn < MAXFILE -> rblk b d (RData bn) <> 0 ->
  (forall z j, 0 <= j < BSIZE -> dblk b' z j = if decide (z = rblk b d (RData bn)) then e j else dblk b z j) ->
  fstep 0 (fun p => if decide (p / BSIZE = bn) then e (p mod BSIZE) else fcontent b d p) b d b' d.
Proof.
  intros Hf Hdk Hbn Ha Hd. set (a := rblk b d (RData bn)) in *. assert (Hv : rvalid (RData bn)) by done.
  destruct (fo_blk _ _ _ _ Hf _ Hv Ha) as (Hra & Hua & Hnb). fold a in Hra, Hua, Hnb. pose proof Hdk as [Hg Hbm Hboot].
  assert (Hu : forall y, 0 <= y < sb_size k -> used lba b' k y = used lba b k y).
  { intros y Hy. apply bitset_same. intros j Hj. rewrite Hd by done. rewrite decide_False; [done|]. intros E. apply Hnb. by exists y. }
  assert (Hr : forall r, rvalid r -> rblk b' d r = rblk b d r).
  { assert (Hn : forall n r, (depth r <= n)%nat -> rvalid r -> rblk b' d r = rblk b d r).
    { induction n as [|n IH]; intros r Hr Hvr; rewrite (rblk_eq lba b'), (rblk_eq lba b); pose proof (rloc_ok r Hvr) as Hl; destruct (rloc r) as [x|q j] eqn:El; try done; [lia|].
      destruct Hl as (Hq & Hj & Hdp). rewrite (IH q) by (done || lia). apply wd_agree; [|done]. intros Hne x Hx. rewrite Hd by done. rewrite decide_False; [done|].
      intros E. assert (q = RData bn) as -> by (by apply (fo_inj _ _ _ _ Hf)).
      destruct r as [y| | |]; try done. cbn in El. destruct (y <? NDIRECT); [done|]. by destruct (y - NDIRECT <? NINDIRECT). }
    intros r. by apply (Hn (depth r)). }
  split.
  - split; [apply Hf| |].
    + intros r Hvr. rewrite Hr by done. intros Hne. destruct (fo_blk _ _ _ _ Hf r Hvr Hne) as (H1 & H2 & H3). split; [done|]. by rewrite Hu by lia.
    + intros r r' Hvr Hvr'. rewrite !Hr by done. by apply (fo_inj _ _ _ _ Hf).
  - pose proof (geo_size _ _ Hg) as Hgs. split; [done| |by rewrite Hu by lia]. intros x Hx. destruct (Hbm x Hx) as [H1 H2].
    split; [|by rewrite (Hu _ (bblock_range lba k x Hg Hx))]. intros j Hj. rewrite Hd by done. rewrite decide_False; [by apply H1|]. intros E. apply Hnb. by exists x.
  - by destruct d.
  - intros r Hvr _. by apply Hr.
  - intros r Hvr Hz. by rewrite Hr.
  - intros y Hy Hy'. by rewrite Hu.
  - rewrite (nfree_same lba k b b') by done. lia.
  - intros p Hp. destruct (bn_range p Hp) as [Hb Hm]. unfold FsGrow.fcontent. change (imap lba b' d (p / BSIZE)) with (rblk b' d (RData (p / BSIZE))). rewrite Hr by done.
    destruct (decide (p / BSIZE = bn)) as [->|Hne].
    + fold a. rewrite (proj2 (Z.eqb_neq a 0)) by done. rewrite Hd by done. by rewrite decide_True by done.
    + change (imap lba b d (p / BSIZE)) with (rblk b d (RData (p / BSIZE))). destruct (rblk b d (RData (p / BSIZE)) =? 0) eqn:E; bool_hyps; [done|].
      rewrite Hd by done. rewrite decide_False; [done|]. intros E'. assert (Er : RData (p / BSIZE) = RData bn) by (by apply (fo_inj _ _ _ _ Hf)). congruence.
  - intros z j Hz Hu' Hnb' Ht Hj. rewrite Hd by done. rewrite decide_False; [done|]. intros ->. by apply (Ht (RData bn)).
Qed.

(** The bytes a writer gives: [W t] is byte [t] of the source. *)
Definition source (us : bool) (src n : Z) (W : Z -> Z) s : Prop := forall t m s', 0 <= t -> 0 < m -> t + m <= n -> kmem s' = kmem s -> fuser s' = fuser s ->
  either_copyin us (u64 (src + t)) m s' = Done (0, W <$> seqZ t m) s'.

(** The content with [W] from [off] on. *)
Definition patched (off lo hi : Z) (W : Z -> Z) (f : Z -> Z) (p : Z) : Z := if decide (off + lo <= p < off + hi) then W (p - off) else f p.

(** One block of [writei]. *)
Lemma write_block i us ip s src n W off tot (K : M fst (Z * Z)) : sb s = k -> binv (fbio s) ∅ -> itable s !! i = Some ip -> i_dev ip = dev ->
  file_ok (fbio s) (i_copy ip) -> disk_ok (fbio s) -> source us src n W s -> 0 <= tot < n -> 0 <= off -> off + n < 2 ^ 32 -> 3 <= nfree (fbio s) ->
  let m := Z.min (n - tot) (BSIZE - (off + tot) mod BSIZE) in
  exists b d, (addr ← bmap junk i ((off + tot) / BSIZE);
      if addr =? 0 then mret (tot, off + tot)
      else
        ip ← get_inode i;
        bp ← fread junk (i_dev ip) addr;
        r ← either_copyin us (u64 (src + tot)) m;
        d ← fdata bp;
        fput bp (mmove ((off + tot) mod BSIZE) 0 (Z.of_nat (length r.2)) (of_list r.2) d);;
        if r.1 =? -1 then frelse bp;; mret (tot, off + tot) else fwrite bp;; frelse bp;; K) s = K (grown i ip b d s) /\
    binv b ∅ /\ fstep 3 (patched off tot (tot + m) W (fcontent (fbio s) (i_copy ip))) (fbio s) (i_copy ip) b d /\
    rblk b d (RData ((off + tot) / BSIZE)) <> 0.
Proof.
  intros Ek HI Hi Ed Hf Hdk Hsrc Htot Hoff Hend Hfree m. change (2 ^ 32) with 4294967296 in Hend.
  set (p := off + tot) in *. assert (Hp : 0 <= p < MAXFILE * BSIZE) by (rewrite maxfile, ndir, nind; unfold BSIZE; lia).
  destruct (bn_range p Hp) as [Hbn Hpm]. destruct (bsize_split p) as [Ep _].
  destruct (bmap_alloc junk dev lba L Hdev HLb HLs k i ip s (p / BSIZE) Ek HI Hi Ed Hf Hdk Hbn Hfree) as (a & b1 & d1 & E1 & Ha & HI1 & S1 & Hra).
  rewrite (bind_Done _ _ _ _ _ E1), (proj2 (Z.eqb_neq a 0)) by done. set (s1 := grown i ip b1 d1 s).
  rewrite (bind_Done _ _ _ _ _ (get_inode_ok s1 i _ (grown_lookup i ip b1 d1 s Hi))). change (i_dev (set_i_copy d1 ip)) with (i_dev ip). rewrite Ed.
  assert (Har : rblk b1 d1 (RData (p / BSIZE)) = a) by exact Hra.
  destruct (fo_blk _ _ _ _ (st_file _ _ _ _ _ _ _ _ S1) (RData (p / BSIZE)) Hbn ltac:(congruence)) as (Hin & _). rewrite Har in Hin.
  pose proof (geo_range _ _ (dk_geo _ _ _ Hdk) a ltac:(lia)) as Hr.
  destruct (fread_ok junk dev lba L Hdev HLb HLs s1 ∅ a HI1 Hr (no_held a) nbuf_none) as (bp & b2 & dd & E2 & Hn & Hh & Hon & Hon2 & Hd2 & _).
  rewrite (bind_Done _ _ _ _ _ E2). set (s2 := set_fbio b2 s1). assert (Hm : 0 < m) by lia.
  rewrite (bind_Done _ _ _ _ _ (Hsrc tot m s2 ltac:(lia) Hm ltac:(lia) eq_refl eq_refl)).
  rewrite (bind_Done _ _ _ _ _ (fdata_ok dev lba L s2 _ _ _ dd Hh)). change ((0, W <$> seqZ tot m).1 =? -1) with false. cbv iota.
  change ((0, W <$> seqZ tot m).2) with (W <$> seqZ tot m). rewrite length_fmap, length_seqZ, Z2Nat.id by lia.
  destruct (write_close dev lba L Hdev HLb HLs s2 ∅ bp a dd (mmove (p mod BSIZE) 0 m (of_list (W <$> seqZ tot m)) dd) K Hh Hn) as (b3 & E3 & HI3 & _ & Hd3).
  rewrite E3. exists b3, d1. split; [done|]. split; [done|]. cbn [fbio set_fbio s2] in Hd3.
  assert (S2 : fstep 0 (fun q => if decide (q / BSIZE = p / BSIZE) then mmove (p mod BSIZE) 0 m (of_list (W <$> seqZ tot m)) dd (q mod BSIZE) else fcontent b1 d1 q) b1 d1 b3 d1).
  { apply data_step; try done; try apply S1; [congruence|]. intros z j Hj. rewrite Hd3, Har by done. destruct (decide _); [done|]. apply Hd2. }
  split; [|rewrite (st_map _ _ _ _ _ _ _ _ S2); [congruence|done|congruence]].
  eapply (fstep_weaken _ _ (3 + 0)); [|lia]. eapply fstep_trans; [exact S1|].
  eapply fstep_ext.
  - exact S2.
  - intros q Hq. destruct (bn_range q Hq) as [Hqb Hqm]. destruct (bsize_split q) as [Eq _]. cbv beta. unfold patched.
    destruct (decide (q / BSIZE = p / BSIZE)) as [Eb|Eb].
    + destruct (decide (off + tot <= q < off + (tot + m))) as [Hin'|Hout].
      * rewrite mmove_in by lia. rewrite of_list_lookup by lia. rewrite list_lookup_fmap, lookup_seqZ_lt by lia. cbn. f_equal. lia.
      * rewrite mmove_out by lia. rewrite Hon by done. rewrite <- (st_content _ _ _ _ _ _ _ _ S1 q Hq). unfold FsGrow.fcontent. rewrite Eb.
        change (imap lba b1 d1 (p / BSIZE)) with (rblk b1 d1 (RData (p / BSIZE))). rewrite Har, (proj2 (Z.eqb_neq a 0)) by done. done.
    + rewrite decide_False; [by apply (st_content _ _ _ _ _ _ _ _ S1)|]. intros Hin'. apply Eb.
      assert (m <= BSIZE - p mod BSIZE) by lia. assert (Hq2 : 0 <= q - p / BSIZE * BSIZE < BSIZE) by lia.
      symmetry. apply Z.div_unique with (q - p / BSIZE * BSIZE); lia.
Qed.

Lemma source_same us src n W s s' : source us src n W s -> kmem s' = kmem s -> fuser s' = fuser s -> source us src n W s'.
Proof. intros Hs E1 E2 t m s2 Ht Hm Hn K1 K2. apply Hs; congruence. Qed.

Lemma writei_loop_ok i us src n W off fuel : forall s ip tot, sb s = k -> binv (fbio s) ∅ -> itable s !! i = Some ip -> i_dev ip = dev ->
  file_ok (fbio s) (i_copy ip) -> disk_ok (fbio s) -> source us src n W s -> 0 <= tot <= n -> 0 <= off -> off + n < 2 ^ 32 ->
  (tot < n -> (off + tot) mod BSIZE + (n - tot) <= (Z.of_nat fuel - 1) * BSIZE) -> (1 <= fuel)%nat -> 3 * (Z.of_nat fuel - 1) <= nfree (fbio s) ->
  exists b d, writei_loop junk fuel i us (u64 (src + tot)) (off + tot) n tot s = Done (n, off + n) (grown i ip b d s) /\ binv b ∅ /\
    fstep (3 * (Z.of_nat fuel - 1)) (patched off tot n W (fcontent (fbio s) (i_copy ip))) (fbio s) (i_copy ip) b d /\
    (forall p, off + tot <= p < off + n -> rblk b d (RData (p / BSIZE)) <> 0).
Proof.
  induction fuel as [|fuel IH]; intros s ip tot Ek HI Hi Ed Hf Hdk Hsrc Htot Hoff Hend Hfuel Hf1 Hfree; [lia|]. cbn [writei_loop].
  destruct (tot <? n) eqn:E0; bool_hyps.
  2:{ assert (tot = n) as -> by lia. exists (fbio s), (i_copy ip). rewrite grown_same, fst_eta by done. split; [done|]. split; [done|].
      split; [|lia]. eapply fstep_weaken; [eapply fstep_ext; [by apply same_step|]|lia]. intros p Hp. unfold patched. rewrite decide_False; [done|lia]. }
  set (m := Z.min (n - tot) (BSIZE - (off + tot) mod BSIZE)). destruct (bsize_split (off + tot)) as [Eo Hor].
  specialize (Hfuel E0). assert (Hfl : (1 <= fuel)%nat) by (unfold BSIZE in *; lia).
  destruct (write_block i us ip s src n W off tot (writei_loop junk fuel i us (u64 (src + (tot + m))) (off + (tot + m)) n (tot + m))) as (b1 & d1 & E1 & HI1 & S1 & Hm1);
    try done; [lia|lia|]. fold m in E1, S1.
  assert (Ecode : forall x, x = writei_loop junk fuel i us (u64 (src + (tot + m))) (off + (tot + m)) n (tot + m) (grown i ip b1 d1 s) ->
    (exists b d, x = Done (n, off + n) (grown i ip b d s) /\ binv b ∅ /\
      fstep (3 * (Z.of_nat (S fuel) - 1)) (patched off tot n W (fcontent (fbio s) (i_copy ip))) (fbio s) (i_copy ip) b d /\
      (forall p, off + tot <= p < off + n -> rblk b d (RData (p / BSIZE)) <> 0))).
  { intros x ->. pose proof (st_free _ _ _ _ _ _ _ _ S1) as Hfr. change (2 ^ 32) with 4294967296 in *.
    assert (Hm : 0 < m <= n - tot) by lia. assert (Hm3 : m < n - tot -> m = BSIZE - (off + tot) mod BSIZE) by lia.
    destruct (IH (grown i ip b1 d1 s) (set_i_copy d1 ip) (tot + m)) as (b2 & d2 & E2 & HI2 & S2 & Hm2); try done; try lia.
    - by apply grown_lookup.
    - apply S1.
    - apply S1.
    - intros Hlt. specialize (Hm3 ltac:(lia)). assert (Hz0 : (off + (tot + m)) mod BSIZE = 0).
      { replace (off + (tot + m)) with (0 + ((off + tot) / BSIZE + 1) * BSIZE) by lia. by rewrite Z_mod_plus_full. }
      rewrite Hz0. unfold BSIZE in *. lia.
    - cbn [fbio grown set_itable set_fbio]. lia.
    - exists b2, d2. rewrite E2, grown_grown. split; [done|]. split; [done|]. cbn [fbio grown set_itable set_fbio set_i_copy i_copy] in S2.
      split.
      2:{ intros p Hp. destruct (Z.lt_ge_cases p (off + (tot + m))) as [Hlt|Hge]; [|apply Hm2; lia].
          assert (Eb : p / BSIZE = (off + tot) / BSIZE) by (symmetry; apply Z.div_unique with (p - (off + tot) / BSIZE * BSIZE); lia).
          rewrite Eb. rewrite (st_map _ _ _ _ _ _ _ _ S2); [done| |done]. destruct (bn_range (off + tot)); [rewrite maxfile, ndir, nind; unfold BSIZE; lia|done]. }
      eapply (fstep_weaken _ _ (3 + 3 * (Z.of_nat fuel - 1))); [|lia]. eapply fstep_ext; [eapply fstep_trans; [exact S1|exact S2]|].
      intros p Hp. cbv beta. unfold patched at 1. destruct (decide (off + (tot + m) <= p < off + n)).
      + unfold patched. rewrite decide_True by lia. done.
      + rewrite (st_content _ _ _ _ _ _ _ _ S1) by done. unfold patched. destruct (decide (off + tot <= p < off + (tot + m))); [by rewrite decide_True by lia|by rewrite decide_False by lia]. }
  apply Ecode. rewrite <- E1. change (2 ^ 32) with 4294967296 in *. assert (Hm : 0 < m <= n - tot) by lia.
  replace (u64 (src + (tot + m))) with (u64 (u64 (src + tot) + m)) by (rewrite wrap_add_l; f_equal; lia).
  replace (off + (tot + m)) with (u32 (off + tot + m)) by (rewrite wrap_small by lia; lia). done.
Qed.

(** A change of one block that is neither the file's nor of the bitmap. *)
Lemma off_tree b d b' d' z0 : file_ok b d -> disk_ok b -> d_addrs d' = d_addrs d -> ~ is_bitmap z0 -> (forall r, rvalid r -> rblk b d r <> z0) ->
  (forall z j, z <> z0 -> 0 <= j < BSIZE -> dblk b' z j = dblk b z j) ->
  (forall r, rvalid r -> rblk b' d' r = rblk b d r) /\ (forall y, 0 <= y < sb_size k -> used lba b' k y = used lba b k y) /\
  file_ok b' d' /\ disk_ok b' /\ forall p, 0 <= p < MAXFILE * BSIZE -> fcontent b' d' p = fcontent b d p.
Proof.
  intros Hf Hdk Ea Hnb Ht Hd. pose proof Hdk as [Hg Hbm Hboot]. pose proof (geo_size _ _ Hg) as Hgs.
  assert (Hr : forall r, rvalid r -> rblk b' d' r = rblk b d r).
  { apply rblk_same; [done|]. intros r Hv _ j Hj. apply Hd; [by apply Ht|done]. }
  assert (Hu : forall y, 0 <= y < sb_size k -> used lba b' k y = used lba b k y).
  { intros y Hy. apply bitset_same. intros j Hj. apply Hd; [|done]. intros E. apply Hnb. by exists y. }
  split; [done|]. split; [done|]. split; [|split].
  - split; [rewrite Ea; apply Hf| |].
    + intros r Hv. rewrite Hr by done. intros Hne. destruct (fo_blk _ _ _ _ Hf r Hv Hne) as (K1 & K2 & K3). split; [done|]. by rewrite Hu by lia.
    + intros r r' Hv Hv'. rewrite !Hr by done. by apply (fo_inj _ _ _ _ Hf).
  - split; [done| |by rewrite Hu by lia]. intros x Hx. destruct (Hbm x Hx) as [K1 K2].
    split; [|by rewrite (Hu _ (bblock_range lba k x Hg Hx))]. intros j Hj. rewrite Hd; [by apply K1| |done]. intros E. apply Hnb. by exists x.
  - intros p Hp. destruct (bn_range p Hp) as [Hb Hm]. unfold FsGrow.fcontent. change (imap lba b' d' (p / BSIZE)) with (rblk b' d' (RData (p / BSIZE))).
    rewrite Hr by done. cbn [FsGrow.rblk]. destruct (_ =? 0); [done|]. apply Hd; [by apply (Ht (RData (p / BSIZE)))|done].
Qed.

Lemma addrs_u32 b d : file_ok b d -> disk_ok b -> Forall u32_range (d_addrs d).
Proof.
  intros Hf Hdk. pose proof (geo_size _ _ (dk_geo _ _ _ Hdk)) as Hgs. change (2 ^ 31) with 2147483648 in Hgs. apply Forall_lookup_2. intros x v Hx.
  pose proof (lookup_lt_Some _ _ _ Hx) as Hlt. pose proof (fo_len _ _ _ _ Hf) as Hl. rewrite ndir in Hl.
  assert (Hr : exists r, rvalid r /\ rblk b d r = v).
  { assert (Ev : addr_of d (Z.of_nat x) = v) by (unfold addr_of; by rewrite Nat2Z.id, Hx).
    destruct (decide (Z.of_nat x < 11)); [|destruct (decide (Z.of_nat x = 11)) as [E|]].
    - exists (RData (Z.of_nat x)). split; [cbn; rewrite maxfile, ndir, nind; lia|]. rewrite rblk_eq. cbn. by rewrite ndir, (proj2 (Z.ltb_lt _ _)) by lia.
    - exists RInd. split; [done|]. rewrite <- Ev, E. done.
    - exists RDbl. split; [done|]. rewrite <- Ev. replace (Z.of_nat x) with 12 by lia. done. }
  destruct Hr as (r & Hv & Er). unfold u32_range. change (2 ^ 32) with 4294967296. destruct (decide (v = 0)) as [->|Hv0]; [lia|].
  destruct (fo_blk _ _ _ _ Hf r Hv ltac:(congruence)) as [K _]. lia.
Qed.

(** What [writei] leaves: [z0] is the block of the inode. *)
Record written (f : Z -> Z) (off n sz z0 : Z) b d b' d' : Prop := {
  wr_file : file_ok b' d';
  wr_disk : disk_ok b';
  wr_attr : d' = set_d_size sz (set_d_addrs (d_addrs d') d);
  wr_used : forall y, 0 <= y < sb_size k -> used lba b k y = true -> used lba b' k y = true;
  wr_free : nfree b <= nfree b' + 3 * (n / BSIZE + 2);
  wr_map : forall r, rvalid r -> rblk b d r <> 0 -> rblk b' d' r = rblk b d r;
  wr_block : forall r, rvalid r -> rblk b' d' r <> z0;
  wr_mapped : forall p, off <= p < off + n -> rblk b' d' (RData (p / BSIZE)) <> 0;
  wr_content : forall p, 0 <= p < MAXFILE * BSIZE -> fcontent b' d' p = f p;
  wr_frame : forall z j, 0 <= z < sb_size k -> used lba b k z = true -> ~ is_bitmap z -> (forall r, rvalid r -> rblk b d r <> z) -> z <> z0 ->
    0 <= j < BSIZE -> dblk b' z j = dblk b z j
}.

Lemma writei_ok s i ip us src off n W : sb s = k -> binv (fbio s) ∅ -> itable s !! i = Some ip -> i_dev ip = dev ->
  file_ok (fbio s) (i_copy ip) -> disk_ok (fbio s) -> dinode_ok (i_copy ip) -> source us src n W s -> 0 <= src < 2 ^ 64 ->
  0 <= off <= d_size (i_copy ip) -> 0 <= n < 2 ^ 31 -> off + n < 2 ^ 32 -> 3 * (n / BSIZE + 2) <= nfree (fbio s) ->
  let z0 := inode_block s (i_inum ip) in
  0 <= z0 < sb_size k -> used lba (fbio s) k z0 = true -> ~ is_bitmap z0 -> (forall r, rvalid r -> rblk (fbio s) (i_copy ip) r <> z0) -> 0 <= i_inum ip ->
  exists b d, writei junk i us src off n s = Done n (grown i ip b d s) /\ binv b ∅ /\ dinode_ok d /\
    written (patched off 0 n W (fcontent (fbio s) (i_copy ip))) off n (Z.max (d_size (i_copy ip)) (off + n)) z0 (fbio s) (i_copy ip) b d /\
    get_dinode (dblk b z0) (dinode_off (i_inum ip)) = d /\
    (forall o, 0 <= o -> o + sizeof_dinode <= BSIZE -> o + sizeof_dinode <= dinode_off (i_inum ip) \/ dinode_off (i_inum ip) + sizeof_dinode <= o ->
      get_dinode (dblk b z0) o = get_dinode (dblk (fbio s) z0) o).
Proof.
  intros Ek HI Hi Ed Hf Hdk Hok Hsrc Hs64 Hoff Hn Hend Hfree z0 Hz0 Hu0 Hnb0 Ht0 Hinum. change (2 ^ 31) with 2147483648 in Hn. change (2 ^ 32) with 4294967296 in Hend.
  pose proof (ok_size _ Hok) as Hsz. unfold u32_range in Hsz. change (2 ^ 32) with 4294967296 in Hsz.
  unfold writei. rewrite (bind_Done _ _ _ _ _ (get_inode_ok _ _ _ Hi)). set (d := i_copy ip) in *.
  rewrite (wrap_small 32 (off + n)) by (change (2 ^ 32) with 4294967296; lia). rewrite (proj2 (Z.ltb_ge (d_size d) off)), (proj2 (Z.ltb_ge (off + n) off)) by lia. cbn [orb].
  rewrite (proj2 (Z.ltb_ge (MAXFILE * BSIZE) (off + n))) by (rewrite maxfile, ndir, nind; unfold BSIZE; lia).
  pose proof (Z.div_mod n BSIZE ltac:(done)) as Edm. pose proof (Z.mod_pos_bound n BSIZE ltac:(done)) as Hdm. pose proof (Z.div_pos n BSIZE ltac:(lia) ltac:(done)) as Hdp.
  assert (Efu : Z.of_nat (rw_fuel n) - 1 = n / BSIZE + 2) by (unfold rw_fuel; lia).
  destruct (writei_loop_ok i us src n W off (rw_fuel n) s ip 0) as (b1 & d1 & E1 & HI1 & S1 & Hm1); try done; try lia.
  { intros _. rewrite Efu. pose proof (Z.mod_pos_bound (off + 0) BSIZE ltac:(done)). lia. }
  rewrite !Z.add_0_r in E1. rewrite (wrap_small 64 src) in E1 by done. rewrite (bind_Done _ _ _ _ _ E1).
  set (s1 := grown i ip b1 d1 s) in *. assert (Hi1 : itable s1 !! i = Some (set_i_copy d1 ip)) by (by apply grown_lookup).
  rewrite (bind_Done _ _ _ _ _ (get_inode_ok s1 i _ Hi1)). change (i_copy (set_i_copy d1 ip)) with d1. change ((n, off + n).2) with (off + n). change ((n, off + n).1) with n.
  pose proof (st_attr _ _ _ _ _ _ _ _ S1) as Eattr. assert (Esz : d_size d1 = d_size d) by (by rewrite Eattr). set (sz := Z.max (d_size d) (off + n)).
  set (d2 := set_d_size sz d1). assert (Eup : (if d_size d1 <? off + n then upd_copy i (set_d_size (off + n)) else mret tt) s1 = Done tt (grown i ip b1 d2 s)).
  { rewrite Esz. destruct (d_size d <? off + n) eqn:E; bool_hyps.
    - unfold upd_copy. rewrite (upd_inode_ok s1 i _ _ Hi1). unfold d2, sz, s1, grown. rewrite Z.max_r by lia. cbn. by rewrite list_insert_insert_eq.
    - unfold d2, sz, s1. rewrite Z.max_l, <- Esz by lia. by destruct d1. }
  rewrite (bind_Done _ _ _ _ _ Eup). set (s2 := grown i ip b1 d2 s). assert (Hi2 : itable s2 !! i = Some (set_i_copy d2 ip)) by (by apply grown_lookup).
  pose proof (geo_range _ _ (dk_geo _ _ _ Hdk) z0 ltac:(lia)) as Hr0.
  destruct (iupdate_ok junk dev lba L Hdev HLb HLs s2 ∅ i (set_i_copy d2 ip) HI1 nbuf_none Hi2 Ed Hr0 (no_held _)) as (b3 & E3 & HI3 & _ & Hd3).
  rewrite (bind_Done _ _ _ _ _ E3). change (inode_block s2 (i_inum (set_i_copy d2 ip))) with z0 in Hd3. change (i_inum (set_i_copy d2 ip)) with (i_inum ip) in Hd3.
  change (i_copy (set_i_copy d2 ip)) with d2 in Hd3. change (fbio s2) with b1 in Hd3.
  assert (Ht1 : forall r, rvalid r -> rblk b1 d1 r <> z0).
  { intros r Hv E. destruct (decide (rblk (fbio s) d r = 0)) as [E0|E0].
    - destruct (decide (z0 = 0)) as [Ez|Ez]; [by apply (Ht0 r Hv); rewrite Ez|]. pose proof (st_new _ _ _ _ _ _ _ _ S1 r Hv E0 ltac:(congruence)) as Hc. rewrite E in Hc. congruence.
    - rewrite (st_map _ _ _ _ _ _ _ _ S1 r Hv E0) in E. by apply (Ht0 r). }
  assert (Hd3' : forall z j, z <> z0 -> 0 <= j < BSIZE -> dblk b3 z j = dblk b1 z j) by (intros z j Hz Hj; rewrite Hd3 by done; by rewrite decide_False by done).
  destruct (off_tree b1 d1 b3 d2 z0 (st_file _ _ _ _ _ _ _ _ S1) (st_disk _ _ _ _ _ _ _ _ S1) eq_refl Hnb0 Ht1 Hd3') as (Hr3 & Hu3 & Hf3 & Hdk3 & Hc3).
  assert (Hok2 : dinode_ok d2).
  { pose proof (addrs_u32 _ _ (st_file _ _ _ _ _ _ _ _ S1) (st_disk _ _ _ _ _ _ _ _ S1)) as Hu32. pose proof (fo_len _ _ _ _ (st_file _ _ _ _ _ _ _ _ S1)) as Hln.
    unfold d2. rewrite Eattr. destruct Hok. split; try done. unfold u32_range. cbn. change (2 ^ 32) with 4294967296. unfold sz. lia. }
  pose proof (dinode_off_range _ Hinum) as Hor. exists b3, d2. split.
  { rewrite (swrap_small 32 n) by (change (2 ^ (32 - 1)) with 2147483648; lia). unfold mret, M_ret, s2, grown. f_equal. }
  split; [done|]. split; [done|]. split; [|split].
  - split; try done.
    + unfold d2. rewrite Eattr at 1. done.
    + intros y Hy Hy'. rewrite Hu3 by done. by apply (st_used _ _ _ _ _ _ _ _ S1).
    + rewrite (nfree_same lba k b1 b3) by done. pose proof (st_free _ _ _ _ _ _ _ _ S1). lia.
    + intros r Hv Hne. rewrite Hr3 by done. by apply (st_map _ _ _ _ _ _ _ _ S1).
    + intros r Hv. rewrite Hr3 by done. by apply Ht1.
    + intros p Hp. rewrite Hr3; [apply Hm1; lia|]. destruct (bn_range p); [rewrite maxfile, ndir, nind; unfold BSIZE; lia|done].
    + intros p Hp. rewrite Hc3 by done. rewrite (st_content _ _ _ _ _ _ _ _ S1) by done. done.
    + intros z j Hz Hu Hnb Ht Hne Hj. rewrite Hd3' by done. by apply (st_frame _ _ _ _ _ _ _ _ S1).
  - rewrite (get_dinode_agree _ (put_dinode (dinode_off (i_inum ip)) d2 (dblk b1 z0))); [by apply get_put_dinode|].
    intros j Hj. rewrite Hd3 by lia. by rewrite decide_True by done.
  - intros o Ho1 Ho2 Hap. apply get_dinode_agree. intros j Hj. rewrite Hd3 by lia. rewrite decide_True by done. rewrite put_dinode_out; [|apply Hok2|lia].
    apply (st_frame _ _ _ _ _ _ _ _ S1); [done|done|done|done|lia].
Qed.

(** A block of the file that is there can be read. *)
Lemma file_mapped b d bn : file_ok b d -> disk_ok b -> 0 <= bn < MAXFILE -> rblk b d (RData bn) <> 0 -> mapped lba b ∅ d bn.
Proof.
  intros Hf Hdk Hbn Hne. assert (Hblk : forall r, rvalid r -> rblk b d r <> 0 -> blk_ok lba ∅ (rblk b d r)).
  { intros r Hv Hr. destruct (fo_blk _ _ _ _ Hf r Hv Hr) as [Hin _]. split; [done|]. split; [|apply no_held]. apply (geo_range _ _ (dk_geo _ _ _ Hdk)). lia. }
  assert (Hpar : forall r q j, rvalid r -> rblk b d r <> 0 -> rloc r = LWord q j -> rvalid q /\ rblk b d q <> 0).
  { intros r q j Hv Hr El. pose proof (rloc_ok r Hv) as Hl. rewrite El in Hl. split; [apply Hl|]. intros E. apply Hr. rewrite rblk_eq, El, E. done. }
  assert (Hv : rvalid (RData bn)) by done. split; [done|]. split; [apply Hf|]. split; [by apply (Hblk (RData bn))|].
  destruct (bn <? NDIRECT) eqn:E1; [done|]. destruct (bn - NDIRECT <? NINDIRECT) eqn:E2.
  - destruct (Hpar (RData bn) RInd (bn - NDIRECT) Hv Hne) as [V1 N1]; [cbn; by rewrite E1, E2|]. apply (Hblk RInd V1 N1).
  - destruct (Hpar (RData bn) _ _ Hv Hne ltac:(cbn; rewrite E1, E2; reflexivity)) as [V1 N1].
    destruct (Hpar _ RDbl _ V1 N1 eq_refl) as [V2 N2]. split; [apply (Hblk RDbl V2 N2)|].
    pose proof (Hblk _ V1 N1) as Hb. cbn [FsGrow.rblk] in Hb, N2. unfold wd in Hb. by rewrite (proj2 (Z.eqb_neq _ 0)) in Hb by done.
Qed.

(** The kernel's own memory as a source. *)
Lemma kernel_source s src n : 0 <= src -> src + n <= 2 ^ 64 -> source false src n (fun t => kmem s (src + t)) s.
Proof.
  intros Hsrc Hn t m s' Ht Hm Htm Ek _. unfold either_copyin. rewrite bind_gets, Ek. unfold mret, M_ret. do 2 f_equal.
  rewrite wrap_small by lia. unfold to_list. replace (seqZ t m) with (Z.add t <$> seqZ 0 m) by (rewrite fmap_add_seqZ; f_equal; lia).
  rewrite <- list_fmap_compose. apply list_fmap_ext. intros x y _. cbn. f_equal. lia.
Qed.
End Write.

(** ** Files in order *)
Section Files.
Context {D : Type} `{sdcard_laws D} {U : Type} `{!usermem U}.
Local Notation fst := (fst D U).
Implicit Types s : fst.
Context (junk : bytes) (dev lba : Z) (L : gset Z).

(** Slot [i] of the inode table holds a file whose tree of blocks, and whose
    inode's block, are in order. *)
Record file_at s (i : nat) (ip : inode) : Prop := {
  fa_slot : itable s !! i = Some ip;
  fa_dev : i_dev ip = dev;
  fa_inum : 0 <= i_inum ip;
  fa_dinode : dinode_ok (i_copy ip);
  fa_disk : disk_ok lba (sb s) (fbio s);
  fa_file : file_ok lba (sb s) (fbio s) (i_copy ip);
  fa_home : 0 <= inode_block s (i_inum ip) < sb_size (sb s) /\ used lba (fbio s) (sb s) (inode_block s (i_inum ip)) = true /\
    ~ is_bitmap (sb s) (inode_block s (i_inum ip)) /\
    forall r, rvalid r -> rblk lba (fbio s) (i_copy ip) r <> inode_block s (i_inum ip)
}.

(** What [writei] of the [n] bytes [W] at [off] does to a file: its content is
    [W] there and as before elsewhere, the inode on disk is the one in memory,
    and no block in use but its own, its inode's and the bitmap changes. *)
Record wrote s (i : nat) (ip : inode) (off n : Z) (W : Z -> Z) s' (ip' : inode) : Prop := {
  wo_idle : idle dev lba L s';
  wo_file : file_at s' i ip';
  wo_ip : exists d, ip' = set_i_copy d ip /\ d = set_d_size (Z.max (d_size (i_copy ip)) (off + n)) (set_d_addrs (d_addrs d) (i_copy ip));
  wo_content : forall p, 0 <= p < MAXFILE * BSIZE ->
    fcontent lba (fbio s') (i_copy ip') p = if decide (off <= p < off + n) then W (p - off) else fcontent lba (fbio s) (i_copy ip) p;
  wo_map : forall r, rvalid r -> rblk lba (fbio s) (i_copy ip) r <> 0 -> rblk lba (fbio s') (i_copy ip') r = rblk lba (fbio s) (i_copy ip) r;
  wo_mapped : forall p, off <= p < off + n -> mapped lba (fbio s') ∅ (i_copy ip') (p / BSIZE);
  wo_disk : disk_inode lba s' (i_inum ip) = i_copy ip';
  wo_other : forall z j, 0 <= z < sb_size (sb s) -> used lba (fbio s) (sb s) z = true -> ~ is_bitmap (sb s) z ->
    (forall r, rvalid r -> rblk lba (fbio s) (i_copy ip) r <> z) -> z <> inode_block s (i_inum ip) -> 0 <= j < BSIZE ->
    dblk lba (fbio s') z j = dblk lba (fbio s) z j;
  wo_used : forall y, 0 <= y < sb_size (sb s) -> used lba (fbio s) (sb s) y = true -> used lba (fbio s') (sb s) y = true;
  wo_free : nfree lba (sb s) (fbio s) <= nfree lba (sb s) (fbio s') + 3 * (n / BSIZE + 2);
  wo_rest : sb s' = sb s /\ kmem s' = kmem s /\ fuser s' = fuser s /\ itable s' = <[i := ip']> (itable s) /\ fpid s' = fpid s /\ fofile s' = fofile s /\ fnow s' = fnow s
}.

Lemma writei_wrote s i ip us src off n W : idle dev lba L s -> file_at s i ip -> source us src n W s -> 0 <= src < 2 ^ 64 ->
  0 <= off <= d_size (i_copy ip) -> 0 <= n < 2 ^ 31 -> off + n < 2 ^ 32 -> 3 * (n / BSIZE + 2) <= nfree lba (sb s) (fbio s) ->
  exists s' ip', writei junk i us src off n s = Done n s' /\ wrote s i ip off n W s' ip'.
Proof.
  intros [Hdev (HLb & HLs & HLt) HI] [F1 F2 F3 F4 F5 F6 (F7 & F8 & F9 & F10)] Hsrc Hs64 Hoff Hn Hend Hfree.
  destruct (writei_ok junk dev lba L Hdev HLb HLs (sb s) s i ip us src off n W eq_refl HI F1 F2 F6 F5 F4 Hsrc Hs64 Hoff Hn Hend Hfree F7 F8 F9 F10 F3)
    as (b & d & E & HI' & Hok & [W1 W2 W3 W4 W10 W9 W5 W6 W7 W8] & Hdi & _).
  exists (grown i ip b d s), (set_i_copy d ip). split; [exact E|].
  assert (Hfa : file_at (grown i ip b d s) i (set_i_copy d ip)).
  { split; try done; [by apply grown_lookup|]. change (inode_block (grown i ip b d s) (i_inum (set_i_copy d ip))) with (inode_block s (i_inum ip)).
    split; [done|]. split; [by apply W4|]. split; [done|exact W5]. }
  split.
  - split; [done|by split_and!|exact HI'].
  - exact Hfa.
  - by exists d.
  - intros p Hp. cbn [fbio grown set_itable set_fbio set_i_copy i_copy]. rewrite W7 by done. unfold patched. by rewrite Z.add_0_r.
  - exact W9.
  - intros p Hp. change (2 ^ 32) with 4294967296 in Hend. apply (file_mapped lba (sb s)); [exact W1|exact W2| |by apply W6].
    destruct (bn_range p); [rewrite maxfile, ndir, nind; unfold BSIZE; lia|done].
  - exact Hdi.
  - exact W8.
  - exact W4.
  - exact W10.
  - done.
Qed.
End Files.
