(* ===== verification/FsLink.v ===== *)
(** * Directories as maps

    A directory represents a partial function from names to inode numbers:
    [dfind] on its entries.  [dirlookup] is its application, [dirlink] of a new
    name extends it and [unlink] of an entry removes it. *)
From S2P Require Import Prelude Spinlock Bytes UserMem Bio BioInv Fs FsBlocks FsInode FsFile FsDir FsGrow FsWrite.

(** ** Names *)

Abbreviation namestr := (cstr (Z.to_nat DIRSIZ)).

Lemma strncpy_length n : forall t, length (strncpy_l n t) = n.
Proof.
  induction n as [|n IH]; intros t; [done|]. cbn [strncpy_l]. destruct t as [|c t]; [by rewrite length_replicate|].
  destruct (c =? 0); [by rewrite length_replicate|]. cbn. by rewrite IH.
Qed.

Lemma cstr_strncpy n : forall t, cstr n (strncpy_l n t) = cstr n t.
Proof. induction n as [|n IH]; intros [|c t]; cbn; [done|done|done|]. destruct (c =? 0) eqn:E; cbn; rewrite ?E; [done|]. by rewrite IH. Qed.

(** ** Entries *)

Definition dirent_wf (e : dirent) : Prop := 0 <= de_inum e < 2 ^ 32 /\ 0 <= de_type e < 2 ^ 16 /\ length (de_name e) = Z.to_nat DIRSIZ.

Lemma get_put_dirent a e m : dirent_wf e -> get_dirent (put_dirent a e m) a = e.
Proof.
  intros (H1 & H2 & H3). unfold get_dirent, put_dirent. destruct e as [inum type name]; cbn [de_inum de_type de_name] in *.
  assert (ED : DIRSIZ = 58) by reflexivity. f_equal.
  - rewrite (rdle_agree 4 _ (wr32 a inum m)); [by apply rdle_wrle_same|]. intros i Hi. rewrite mmove_out by lia. by rewrite wrle_out by lia.
  - rewrite (rdle_agree 2 _ (wr16 (a + 4) type (wr32 a inum m))); [by apply rdle_wrle_same|]. intros i Hi. by rewrite mmove_out by lia.
  - apply list_eq. intros i. destruct (decide (i < 58)%nat) as [Hi|Hi].
    + rewrite <- (Nat2Z.id i) at 1. rewrite to_list_lookup by lia. rewrite mmove_in by lia. rewrite of_list_lookup by lia.
      replace (Z.to_nat (0 + (a + 6 + Z.of_nat i - (a + 6)))) with i by lia.
      destruct (lookup_lt_is_Some_2 name i) as [c ->]; [rewrite H3, ED; lia|done].
    + pose proof (to_list_length (mmove (a + 6) 0 DIRSIZ (of_list name) (wr16 (a + 4) type (wr32 a inum m))) (a + 6) DIRSIZ) as Hl.
      rewrite !lookup_ge_None_2; [done|rewrite H3, ED; lia|lia].
Qed.

#[export] Instance named_dec name e : Decision (named name e).
Proof. unfold named. apply _. Defined.

(** The inode number a list of entries gives a name. *)
Fixpoint dfind (l : list dirent) (name : list Z) : option Z :=
  match l with [] => None | e :: l => if bool_decide (named name e) then Some (de_inum e) else dfind l name end.

(** No name twice. *)
Definition duniq (l : list dirent) : Prop := forall j j' e e', l !! j = Some e -> l !! j' = Some e' -> de_inum e <> 0 -> de_inum e' <> 0 ->
  namestr (de_name e) = namestr (de_name e') -> j = j'.

Lemma dfind_Some l name x : duniq l -> dfind l name = Some x <-> exists j e, l !! j = Some e /\ named name e /\ de_inum e = x.
Proof.
  intros Hu. split.
  - clear Hu. induction l as [|e l IH]; intros Hf; [done|]. cbn in Hf. case_bool_decide as Hn.
    + injection Hf as <-. by exists 0%nat, e.
    + destruct (IH Hf) as (j & e' & Hj & Hr). by exists (S j), e'.
  - intros (j & e & Hj & Hn & <-). revert j Hj Hu. induction l as [|e' l IH]; intros j Hj Hu; [done|]. cbn. case_bool_decide as Hn'.
    + destruct Hn as [N1 N2], Hn' as [M1 M2]. assert (0%nat = j) as <- by (eapply (Hu 0%nat j e' e); [done|done|done|done|congruence]). by injection Hj as ->.
    + destruct j as [|j]; [injection Hj as ->; done|]. apply (IH j Hj). intros j1 j2 e1 e2 H1 H2 N1 N2 E.
      pose proof (Hu (S j1) (S j2) e1 e2 H1 H2 N1 N2 E). lia.
Qed.

Lemma dfind_None l name : dfind l name = None <-> forall j e, l !! j = Some e -> ~ named name e.
Proof.
  induction l as [|e l IH]; cbn; [naive_solver|]. case_bool_decide as Hn.
  - split; [done|]. intros Ha. exfalso. by apply (Ha 0%nat e).
  - rewrite IH. split; [intros Ha [|j] e' Hj; [by injection Hj as <-|by eapply Ha]|]. intros Ha j e' Hj. by apply (Ha (S j) e').
Qed.

Lemma dfind_ext l l' name : duniq l -> duniq l' -> (forall e, named name e -> (exists j, l !! j = Some e) <-> exists j, l' !! j = Some e) -> dfind l' name = dfind l name.
Proof.
  intros Hu Hu' He. apply option_eq. intros x. rewrite !dfind_Some by done. split; intros (j & e & Hj & Hn & Hx).
  - destruct (proj2 (He e Hn)) as [j' Hj']; [eauto|]. by exists j', e.
  - destruct (proj1 (He e Hn)) as [j' Hj']; [eauto|]. by exists j', e.
Qed.

(** A new entry in a free place, or at the end. *)
Definition dput (k : nat) (e : dirent) (l : list dirent) : list dirent := if decide (k < length l)%nat then <[k := e]> l else l ++ [e].

Lemma dput_lookup k e l j : (k <= length l)%nat -> dput k e l !! j = if decide (j = k) then Some e else l !! j.
Proof.
  intros Hk. unfold dput. destruct (decide (k < length l)%nat).
  - destruct (decide (j = k)) as [->|]; [by apply list_lookup_insert_eq|by apply list_lookup_insert_ne].
  - assert (k = length l) as -> by lia. destruct (decide (j = length l)) as [->|Hj]; [by apply list_lookup_middle|].
    destruct (decide (j < length l)%nat); [by apply lookup_app_l|]. rewrite lookup_app_r by lia. rewrite (lookup_ge_None_2 l) by lia.
    apply lookup_ge_None_2. cbn. lia.
Qed.

Lemma dput_find k e l name : (k <= length l)%nat -> (forall e0, l !! k = Some e0 -> de_inum e0 = 0) -> de_inum e <> 0 -> duniq l -> dfind l (de_name e) = None ->
  duniq (dput k e l) /\ dfind (dput k e l) name = if bool_decide (namestr name = namestr (de_name e)) then Some (de_inum e) else dfind l name.
Proof.
  intros Hk Hfree Hne Hu Hno. rewrite dfind_None in Hno.
  assert (Hu' : duniq (dput k e l)).
  { intros j j' e1 e2. rewrite !dput_lookup by done. destruct (decide (j = k)) as [->|Hj], (decide (j' = k)) as [->|Hj']; intros E1 E2 N1 N2 En; try done.
    - injection E1 as <-. exfalso. apply (Hno j' e2 E2). split; [done|congruence].
    - injection E2 as <-. exfalso. apply (Hno j e1 E1). split; [done|congruence].
    - by apply (Hu j j' e1 e2). }
  split; [done|]. case_bool_decide as En.
  - apply dfind_Some; [done|]. exists k, e. rewrite dput_lookup, decide_True by done. split; [done|]. split; [|done]. by split.
  - apply dfind_ext; [done|done|]. intros e' [N1 N2]. split; intros [j Hj].
    + exists j. rewrite dput_lookup by done. rewrite decide_False; [done|]. intros ->. by rewrite (Hfree e' Hj) in N1.
    + rewrite dput_lookup in Hj by done. destruct (decide (j = k)); [|eauto]. injection Hj as <-. congruence.
Qed.

(** An entry cleared. *)
Lemma dclear_find k e0 e l name : l !! k = Some e0 -> de_inum e0 <> 0 -> de_inum e = 0 -> duniq l ->
  duniq (<[k := e]> l) /\ dfind (<[k := e]> l) name = if bool_decide (namestr name = namestr (de_name e0)) then None else dfind l name.
Proof.
  intros Hk Hne0 Hz Hu. pose proof (lookup_lt_Some _ _ _ Hk) as Hlt.
  assert (Hl : forall j, <[k := e]> l !! j = if decide (j = k) then Some e else l !! j).
  { intros j. destruct (decide (j = k)) as [->|]; [by apply list_lookup_insert_eq|by apply list_lookup_insert_ne]. }
  assert (Hu' : duniq (<[k := e]> l)).
  { intros j j' e1 e2. rewrite !Hl. destruct (decide (j = k)) as [->|Hj], (decide (j' = k)) as [->|Hj']; intros E1 E2 N1 N2 En; try done; try congruence.
    by apply (Hu j j' e1 e2). }
  split; [done|]. case_bool_decide as En.
  - apply dfind_None. intros j e' Hj [N1 N2]. rewrite Hl in Hj. destruct (decide (j = k)) as [->|Hjk]; [congruence|].
    apply Hjk. apply (Hu j k e' e0 Hj Hk N1 Hne0). congruence.
  - apply dfind_ext; [done|done|]. intros e' [N1 N2]. split; intros [j Hj].
    + exists j. rewrite Hl. rewrite decide_False; [done|]. intros ->. congruence.
    + rewrite Hl in Hj. destruct (decide (j = k)); [congruence|eauto].
Qed.

(** ** Directories in the inode table *)
Section Link.
Context {D : Type} `{sdcard_laws D} {U : Type} `{!usermem U}.
Local Notation fst := (fst D U).
Implicit Types s : fst.
Context (junk : bytes) (dev lba : Z) (L : gset Z).
Local Notation idle := (idle dev lba L).
Local Notation file_at := (file_at dev lba).
Local Notation wrote := (wrote dev lba L).
Local Notation entry := (entry lba).
Local Notation dir_ok := (dir_ok lba).

Definition dents s (d : dinode) (n : Z) : list dirent := entry (fbio s) d <$> seqZ 0 n.

Lemma dents_lookup s d n j e : dents s d n !! j = Some e <-> (Z.of_nat j < n /\ e = entry (fbio s) d (Z.of_nat j)).
Proof.
  unfold dents. rewrite list_lookup_fmap. destruct (decide (Z.of_nat j < n)).
  - rewrite lookup_seqZ_lt by lia. cbn. split; [intros [= <-]; split; [lia|done]|intros [_ ->]; done].
  - rewrite lookup_seqZ_ge by lia. cbn. split; [done|lia].
Qed.

(** The directory in slot [i] represents the map [m]. *)
Record dir_rep s (i : nat) (ip : inode) (n : Z) (m : list Z -> option Z) : Prop := {
  dr_file : file_at s i ip;
  dr_dir : dir_ok (fbio s) ∅ (i_copy ip) n;
  dr_uniq : duniq (dents s (i_copy ip) n);
  dr_map : forall name, m name = dfind (dents s (i_copy ip) n) name
}.

(** The state after calls that only read: another cache over the same card,
    other local buffers. *)
Definition reread s b km : fst := set_kmem km (set_fbio b s).

Lemma file_at_reread s i ip b km : quiet dev lba L ∅ (fbio s) b -> file_at s i ip -> file_at (reread s b km) i ip.
Proof.
  intros [Q1 Q2 Q3] [F1 F2 F3 F4 F5 F6 (F7 & F8 & F9 & F10)].
  assert (S : fstep lba (sb s) 0 (fcontent lba (fbio s) (i_copy ip)) (fbio s) (i_copy ip) b (i_copy ip)) by (apply same_step; auto).
  assert (Hr : forall r, rvalid r -> rblk lba b (i_copy ip) r = rblk lba (fbio s) (i_copy ip) r) by (intros r; apply rblk_same; auto).
  split; try done; [apply S|apply S|]. split; [done|]. split; [by apply (st_used _ _ _ _ _ _ _ _ S)|]. split; [done|]. intros r Hv. cbn [fbio reread set_kmem set_fbio]. rewrite Hr by done. by apply F10.
Qed.

Lemma idle_reread s b km : idle s -> quiet dev lba L ∅ (fbio s) b -> idle (reread s b km).
Proof. intros [H1 H2 H3] [Q1 Q2 Q3]. by split. Qed.

Lemma dents_reread s b km d n : quiet dev lba L ∅ (fbio s) b -> dents (reread s b km) d n = dents s d n.
Proof. intros Hq. unfold dents. apply list_fmap_ext. intros j x _. by eapply entry_quiet. Qed.

Lemma dir_rep_reread s i ip n m b km : quiet dev lba L ∅ (fbio s) b -> dir_rep s i ip n m -> dir_rep (reread s b km) i ip n m.
Proof.
  intros Hq [H1 H2 H3 H4]. split; [by apply file_at_reread|by eapply dir_ok_quiet|by rewrite dents_reread|]. intros name. by rewrite dents_reread.
Qed.

(** [dirlookup] applies the map. *)
Lemma dirlookup_rep s i ip n m name : idle s -> dir_rep s i ip n m ->
  exists b km, quiet dev lba L ∅ (fbio s) b /\
  match m name with
  | None => dirlookup junk i name s = Done None (reread s b km)
  | Some inum => exists j, 0 <= j < n /\ named name (entry (fbio s) (i_copy ip) j) /\ inum = de_inum (entry (fbio s) (i_copy ip) j) /\
      dirlookup junk i name s = (x ← iget dev inum; mret (Some (x, sizeof_dirent * j))) (reread s b km)
  end.
Proof.
  intros [Hdev (HLb & HLs & HLt) HI] [Hf Hd Hu Hm].
  destruct (dirlookup_ok junk dev lba L Hdev HLb HLs s ∅ i ip name n HI nbuf_none (fa_slot _ _ _ _ _ Hf) (fa_dev _ _ _ _ _ Hf) Hd) as (b & km & Hq & Hc).
  exists b, km. split; [done|]. rewrite Hm. destruct Hc as [[Hno E]|(j & Hj & Hn & _ & E)].
  - assert (En : dfind (dents s (i_copy ip) n) name = None).
    { apply dfind_None. intros j e Hl. apply dents_lookup in Hl as [Hl ->]. apply Hno. lia. }
    by rewrite En.
  - assert (En : dfind (dents s (i_copy ip) n) name = Some (de_inum (entry (fbio s) (i_copy ip) j))).
    { apply dfind_Some; [done|]. exists (Z.to_nat j), (entry (fbio s) (i_copy ip) j). split; [|done]. apply dents_lookup. rewrite Z2Nat.id by lia. split; [lia|done]. }
    rewrite En. exists j. done.
Qed.

(** Where [dirlink] puts a new entry: a free place, or the end. *)
Lemma dirlink_slot_ok i ip n : i_dev ip = dev -> forall fuel s j, idle s -> itable s !! i = Some ip -> dir_ok (fbio s) ∅ (i_copy ip) n -> 0 <= j <= n -> n - j < Z.of_nat fuel ->
  exists x b km, quiet dev lba L ∅ (fbio s) b /\ 0 <= x <= n /\ (x < n -> de_inum (entry (fbio s) (i_copy ip) x) = 0) /\
    dirlink_slot junk fuel i (sizeof_dirent * j) s = Done (sizeof_dirent * x) (reread s b km).
Proof.
  intros Ed. assert (E64 : sizeof_dirent = 64) by done. induction fuel as [|fuel IH]; intros s j Hid Hi Hd Hj Hf; [lia|].
  pose proof Hid as [Hdev (HLb & HLs & HLt) HI]. pose proof Hd as [Ht Hs Hr Hm]. change (2 ^ 24) with 16777216 in Hr. cbn [dirlink_slot].
  rewrite (bind_Done _ _ _ _ _ (get_inode_ok _ _ _ Hi)), Hs. rewrite (wrap_small 32) by (change (2 ^ 32) with 4294967296; lia).
  destruct (sizeof_dirent * j <? sizeof_dirent * n) eqn:E0; bool_hyps; rewrite E64 in E0.
  2:{ exists j, (fbio s), (kmem s). split; [by apply quiet_refl|]. split; [lia|]. split; [lia|]. unfold reread. by destruct s. }
  destruct (read_dirent_ok junk dev lba L Hdev HLb HLs s ∅ i ip n j "dirlink read" HI nbuf_none Hi Ed Hd ltac:(lia)) as (b1 & km1 & E1 & Hq1).
  rewrite (bind_Done _ _ _ _ _ E1). fold (reread s b1 km1). destruct (de_inum _ =? 0) eqn:Ez; bool_hyps.
  - exists j, b1, km1. split; [done|]. split; [lia|]. done.
  - rewrite swrap_small by (change (2 ^ (32 - 1)) with 2147483648; lia). replace (sizeof_dirent * j + sizeof_dirent) with (sizeof_dirent * (j + 1)) by lia.
    destruct (IH (reread s b1 km1) (j + 1)) as (x & b2 & km2 & Hq2 & Hx & Hz & E2); [by apply idle_reread|done|by eapply dir_ok_quiet|lia|lia|].
    exists x, b2, km2. split; [by eapply quiet_trans|]. split; [done|]. split; [|exact E2]. intros Hlt. rewrite <- (Hz Hlt). symmetry. f_equal. by eapply entry_quiet.
Qed.

Lemma fbyte_content b d p : imap lba b d (p / BSIZE) <> 0 -> fbyte lba b d p = fcontent lba b d p.
Proof. intros Hne. unfold fbyte, fcontent. by rewrite (proj2 (Z.eqb_neq _ 0)) by done. Qed.

(** Writing one entry of a directory. *)
Lemma write_entry s i ip n m x km : idle s -> dir_rep s i ip n m -> 0 <= x <= n -> n + 1 < 2 ^ 24 -> 6 <= nfree lba (sb s) (fbio s) ->
  exists s' ip', writei junk i false de_addr (sizeof_dirent * x) sizeof_dirent (set_kmem km s) = Done sizeof_dirent s' /\
    idle s' /\ file_at s' i ip' /\ dir_ok (fbio s') ∅ (i_copy ip') (Z.max n (x + 1)) /\
    dents s' (i_copy ip') (Z.max n (x + 1)) = dput (Z.to_nat x) (get_dirent km de_addr) (dents s (i_copy ip) n).
Proof.
  intros Hid [Hf Hd Hu Hm] Hx Hn Hfree. set (e := get_dirent km de_addr). assert (E64 : sizeof_dirent = 64) by done. set (s0 := set_kmem _ s).
  assert (Hid0 : idle s0) by (destruct Hid; by split). assert (Hf0 : file_at s0 i ip) by (destruct Hf; by split).
  destruct Hd as [Ht Hs Hr Hmp]. change (2 ^ 24) with 16777216 in *. assert (EM : MAXFILE * BSIZE = 4299206656) by reflexivity.
  destruct (writei_wrote junk dev lba L s0 i ip false de_addr (sizeof_dirent * x) sizeof_dirent (fun t => kmem s0 (de_addr + t)) Hid0 Hf0) as (s' & ip' & E & Hw).
  { apply kernel_source; [unfold de_addr; lia|unfold de_addr; lia]. } { unfold de_addr. lia. } { rewrite Hs. lia. } { lia. } { lia. } { exact Hfree. }
  destruct Hw as [W1 W2 (d & Eip & Eat) W4 W5 W6 _ _ _ _ _]. exists s', ip'. split; [exact E|]. split; [done|]. split; [done|].
  assert (Ed : i_copy ip' = d) by (by rewrite Eip). rewrite Ed in *.
  assert (Hold : forall p, 0 <= p < sizeof_dirent * n -> imap lba (fbio s) (i_copy ip) (p / BSIZE) <> 0) by (intros p Hp; destruct (Hmp p ltac:(lia)) as (_ & _ & (Hne & _) & _); done).
  assert (Hmapped : forall p, 0 <= p < sizeof_dirent * Z.max n (x + 1) -> mapped lba (fbio s') ∅ d (p / BSIZE)).
  { intros p Hp. assert (Hin : sizeof_dirent * x <= p < sizeof_dirent * x + sizeof_dirent \/ p < sizeof_dirent * n) by lia. destruct Hin as [Hin|Hin].
    - by apply W6.
    - assert (Hv : rvalid (RData (p / BSIZE))) by (apply bn_range; lia).
      apply (file_mapped lba (sb s')); [rewrite <- Ed; apply W2|apply W2|exact Hv|]. rewrite (W5 (RData (p / BSIZE)) Hv) by (apply Hold; lia). apply Hold. lia. }
  assert (Hb : forall p, 0 <= p < sizeof_dirent * Z.max n (x + 1) -> fbyte lba (fbio s') d p =
    if decide (sizeof_dirent * x <= p < sizeof_dirent * x + sizeof_dirent) then km (de_addr + (p - sizeof_dirent * x)) else fbyte lba (fbio s) (i_copy ip) p).
  { intros p Hp. destruct (Hmapped p Hp) as (_ & _ & (Hne & _) & _). rewrite fbyte_content by done. rewrite W4 by lia. destruct (decide _); [done|].
    symmetry. apply fbyte_content. apply Hold. lia. }
  assert (Hdo : dir_ok (fbio s') ∅ d (Z.max n (x + 1))).
  { split; [rewrite Eat; done|rewrite Eat; cbn; rewrite Hs; lia|change (2 ^ 24) with 16777216; lia|]. intros p Hp. apply Hmapped. lia. }
  split; [done|]. apply list_eq. intros j. apply option_eq. intros e'. rewrite dents_lookup.
  rewrite dput_lookup by (unfold dents; rewrite length_fmap, length_seqZ; lia).
  assert (Hent : forall y, 0 <= y < Z.max n (x + 1) -> entry (fbio s') d y = if decide (y = x) then e else entry (fbio s) (i_copy ip) y).
  { intros y Hy. unfold FsDir.entry. destruct (decide (y = x)) as [->|Hne].
    - unfold e. change de_addr with 0. apply get_dirent_agree. intros t Ht'. rewrite Hb by lia. rewrite decide_True by lia. unfold de_addr. f_equal. lia.
    - apply get_dirent_agree. intros t Ht'. rewrite Hb by lia. by rewrite decide_False by lia. }
  destruct (decide (j = Z.to_nat x)) as [->|Hj].
  - rewrite Z2Nat.id by lia. rewrite Hent by lia. rewrite decide_True by done. split; [intros [_ ->]; done|intros [= ->]; split; [lia|done]].
  - rewrite dents_lookup. split.
    + intros [Hlt ->]. rewrite Hent by lia. rewrite decide_False by lia. split; [lia|done].
    + intros [Hlt ->]. rewrite Hent by lia. rewrite decide_False by lia. split; [lia|done].
Qed.
End Link.
