(* ===== verification/FsProps.v ===== *)
(** * Properties of the file system

    The block allocator, the inode layer, names and directories, each over the
    buffer cache in any state that satisfies its invariant with nothing held;
    the witnesses run on a small file system image. *)
From S2P Require Import Prelude Spinlock Bytes UserMem Bio BioInv BioProps Fs FsBlocks FsInode FsFile FsDir.

Section Props.
Context {D : Type} `{sdcard_laws D} {U : Type} `{!usermem U}.
Local Notation fst := (fst D U).
Implicit Types s : fst.
Context (junk : bytes) (dev lba : Z) (L : gset Z).
Local Notation idle := (idle dev lba L).

Lemma unheld bno : ~ held_by ∅ bno.
Proof. intros [i Hi]. by rewrite lookup_empty in Hi. Qed.
Lemma nbuf_room : (size (∅ : gmap nat Z) < NBUF)%nat.
Proof. rewrite map_size_empty. unfold NBUF. lia. Qed.

(** Same state but for the cache, whose blocks on the card are [f]. *)
Definition after (s : fst) (f : Z -> Z -> Z) (s' : fst) : Prop :=
  exists b, s' = set_fbio b s /\ binv dev lba L b ∅ /\ forall x k, 0 <= k < BSIZE -> dblk lba b x k = f x k.

(** C30: [balloc] returns the lowest block not in use, marks exactly it in the
    bitmap and zeroes it, leaving every other block of the disk as it was; it
    returns 0 only when every block is in use, and then nothing changes. *)
Theorem balloc_correct s : idle s -> geo lba (sb s) -> bitmap_ok lba (fbio s) (sb s) ->
  (balloc junk dev s <> NoFuel) /\
  ((forall y, 0 <= y < sb_size (sb s) -> used lba (fbio s) (sb s) y = true) /\
   (exists s', balloc junk dev s = Done 0 s' /\ after s (dblk lba (fbio s)) s') \/
   exists x s', balloc junk dev s = Done x s' /\ 0 <= x < sb_size (sb s) /\ used lba (fbio s) (sb s) x = false /\
     (forall y, 0 <= y < x -> used lba (fbio s) (sb s) y = true) /\
     (forall y, 0 <= y < sb_size (sb s) -> used lba (fbio s') (sb s) y = used lba (fbio s) (sb s) y || (y =? x)) /\
     (forall k, 0 <= k < BSIZE -> dblk lba (fbio s') x k = 0) /\
     (forall z k, z <> x -> z <> BBLOCK x (sb s) -> 0 <= k < BSIZE -> dblk lba (fbio s') z k = dblk lba (fbio s) z k) /\
     idle s' /\ bitmap_ok lba (fbio s') (sb s)).
Proof.
  intros [Hdev (HLb & HLs & HLt) HI] Hg Hbm.
  destruct (balloc_ok junk dev lba L Hdev HLb HLs s ∅ Hg Hbm HI (fun x _ => unheld _) nbuf_room (fun x _ _ => unheld _))
    as [(b & E & HI' & _ & Hd & Hu)|(x & b & E & Hx & HI' & _ & [A1 A2 A3 A4 A5] & Hu)].
  - split; [by rewrite E|]. left. split; [done|]. exists (set_fbio b s). split; [done|]. exists b. split; [done|]. split; [done|]. intros z k _. apply Hd.
  - split; [by rewrite E|]. right. exists x, (set_fbio b s). do 2 (split; [done|]). by split_and!.
Qed.

(** C35: [bfree] clears the bit of a block in use, and only that bit of the
    whole disk's bitmap; freeing a free block panics. *)
Theorem bfree_correct s x : idle s -> geo lba (sb s) -> bitmap_ok lba (fbio s) (sb s) -> 0 <= x < sb_size (sb s) ->
  if used lba (fbio s) (sb s) x then
    exists s', bfree junk dev x s = Done tt s' /\ idle s' /\
      (forall y, 0 <= y < sb_size (sb s) -> used lba (fbio s') (sb s) y = used lba (fbio s) (sb s) y && negb (y =? x)) /\
      (forall z k, z <> BBLOCK x (sb s) -> 0 <= k < BSIZE -> dblk lba (fbio s') z k = dblk lba (fbio s) z k)
  else bfree junk dev x s = Panic "freeing free block".
Proof.
  intros [Hdev (HLb & HLs & HLt) HI] Hg Hbm Hx.
  pose proof (bfree_ok junk dev lba L Hdev HLb HLs s ∅ x Hg Hbm HI (fun x _ => unheld _) nbuf_room Hx) as Hf.
  destruct (used lba (fbio s) (sb s) x); [|done]. destruct Hf as (b & E & HI' & _ & Hu & Hd & _). exists (set_fbio b s). by split_and!.
Qed.

(** C30: [iupdate] writes the in-memory inode where a later [ilock] of the same
    number, in whatever slot, reads it back field by field; every other inode
    of the disk is as before. *)
Theorem iupdate_ilock s i ip : idle s -> itable s !! i = Some ip -> i_dev ip = dev -> 0 <= i_inum ip -> dinode_ok (i_copy ip) -> d_type (i_copy ip) <> 0 ->
  in_range lba (inode_block s (i_inum ip)) -> sb_inodestart (sb s) + i_inum ip < 2 ^ 32 -> 0 <= sb_inodestart (sb s) ->
  exists s1, iupdate junk i s = Done tt s1 /\ idle s1 /\ itable s1 = itable s /\
    (forall n, 0 <= n -> n <> i_inum ip -> sb_inodestart (sb s) + n < 2 ^ 32 -> disk_inode lba s1 n = disk_inode lba s n) /\
    forall t j jp, t !! j = Some jp -> i_dev jp = dev -> i_inum jp = i_inum ip -> 1 <= i_ref jp -> i_locked jp = false -> i_valid jp = 0 -> inode_lock j ∈ L ->
      exists s2, ilock junk j (set_itable t s1) = Done tt s2 /\
        itable s2 !! j = Some (Inode dev (i_inum ip) (i_ref jp) true (fpid s) 1 (i_copy ip)).
Proof.
  intros [Hdev (HLb & HLs & HLt) HI] Hi Ed Hn Hok Hty Hr Hsb Hsb0.
  destruct (iupdate_ok junk dev lba L Hdev HLb HLs s ∅ i ip HI nbuf_room Hi Ed Hr (unheld _)) as (b & E & HI' & _ & Hd).
  exists (set_fbio b s). split; [done|]. split; [by split|]. split; [done|]. pose proof (dinode_off_range _ Hn) as Ho.
  assert (Hself : disk_inode lba (set_fbio b s) (i_inum ip) = i_copy ip).
  { unfold disk_inode. cbn [fbio set_fbio]. change (inode_block (set_fbio b s) (i_inum ip)) with (inode_block s (i_inum ip)).
    rewrite (get_dinode_agree _ (put_dinode (dinode_off (i_inum ip)) (i_copy ip) (dblk lba (fbio s) (inode_block s (i_inum ip))))).
    - by apply get_put_dinode.
    - intros k Hk. rewrite Hd by lia. by rewrite decide_True by done. }
  split.
  - intros n Hn0 Hne Hnb. pose proof (dinode_off_range _ Hn0). unfold disk_inode. cbn [fbio set_fbio]. change (inode_block (set_fbio b s) n) with (inode_block s n).
    apply get_dinode_agree. intros k Hk. rewrite Hd by lia. destruct (decide _) as [Eb|]; [|done].
    apply put_dinode_out; [by apply Hok|]. assert (Ediv : n / IPB = i_inum ip / IPB).
    { unfold inode_block, IBLOCK in Eb. assert (EP : IPB = 32) by reflexivity. rewrite EP in *.
      pose proof (Z.div_pos n 32 Hn0 ltac:(lia)). pose proof (Z.div_pos (i_inum ip) 32 Hn ltac:(lia)).
      pose proof (Z.div_le_upper_bound n 32 n ltac:(lia) ltac:(lia)). pose proof (Z.div_le_upper_bound (i_inum ip) 32 (i_inum ip) ltac:(lia) ltac:(lia)).
      rewrite !wrap_small in Eb by lia. lia. }
    destruct (dinode_off_apart n (i_inum ip) Hn0 Hn Ediv Hne); lia.
  - intros t j jp Hj Edj Enj Hrf Hun Hv HL.
    pose proof (ilock_ok junk dev lba L Hdev HLb HLs (set_itable t (set_fbio b s)) ∅ j jp HI' nbuf_room Hj Edj Hrf Hun HL) as Hl.
    rewrite Enj, Hv in Hl. specialize (Hl Hr (unheld _)). cbv zeta in Hl. change (0 =? 0) with true in Hl. cbv iota in Hl.
    change (disk_inode lba (set_itable t (set_fbio b s)) (i_inum ip)) with (disk_inode lba (set_fbio b s) (i_inum ip)) in Hl. rewrite Hself in Hl.
    rewrite (proj2 (Z.eqb_neq (d_type (i_copy ip)) 0)) in Hl by done. cbn [andb] in Hl. destruct Hl as (b2 & E2 & _).
    eexists. split; [exact E2|]. cbn [itable set_itable]. apply list_lookup_insert_eq. by eapply lookup_lt_Some.
Qed.

(** C33: [iget] gives the one slot of the inode another reference, or claims a
    free slot for it with nothing valid in it; the table never holds an inode
    twice, and the call panics exactly when neither is possible. *)
Theorem iget_correct s d inum : idle s -> itable_ok (itable s) -> (forall i ip, itable s !! i = Some ip -> i_ref ip + 1 < 2 ^ 31) ->
  (iget d inum s = Panic "iget: no inodes" /\
   forall k ip, itable s !! k = Some ip -> i_ref ip <> 0 /\ ~ is_inode d inum ip) \/
  exists i ip ip' s', iget d inum s = Done i s' /\ itable s !! i = Some ip /\ itable s' = <[i := ip']> (itable s) /\ itable_ok (itable s') /\
    is_inode d inum ip' /\ i_ref ip' = i_ref ip + 1 /\
    (is_inode d inum ip /\ i_valid ip' = i_valid ip /\ i_copy ip' = i_copy ip \/ i_ref ip = 0 /\ i_valid ip' = 0 /\ forall k kp, itable s !! k = Some kp -> ~ is_inode d inum kp).
Proof.
  intros [Hdev (HLb & HLs & HLt) HI] Ht Hmax.
  destruct (iget_ok dev lba L HLt s ∅ d inum HI Ht Hmax) as [(i & ip & Hi & Hip & c & E & _)|[Hno [(i & ip & Hi & Hz & c & E & _)|[Hfull E]]]].
  - right. exists i, ip, (set_i_ref (i_ref ip + 1) ip). eexists. split; [exact E|]. split; [done|]. split; [done|].
    destruct Hip as (H1 & H2 & H3). pose proof (it_ref _ Ht _ _ Hi). split.
    + cbn [itable set_itable set_fbio]. apply (itable_insert_ok _ _ ip); [done|done|cbn; lia|].
      intros k a Hk Hne _ (K1 & K2 & K3). apply Hne. cbn in *. eapply (it_uniq _ Ht); [exact Hk|exact Hi|done|done|done|done].
    + split; [by split_and!; cbn; try lia|]. split; [done|]. left. done.
  - right. exists i, ip. do 2 eexists. split; [exact E|]. split; [done|]. split; [done|]. split.
    + cbn [itable set_itable set_fbio]. apply (itable_insert_ok _ _ ip); [done|done|cbn; lia|]. intros k a Hk _ _. cbn. by eapply Hno.
    + split; [by split_and!|]. split; [cbn; lia|]. right. done.
  - left. split; [done|]. intros k ip Hk. split; [by eapply Hfull|by eapply Hno].
Qed.

(** C34: [readi] into kernel memory returns the number of bytes of the file that
    lie in the range asked for and stores exactly those, whichever of the
    direct, indirect and double indirect blocks they are in; it changes
    nothing else in kernel memory and nothing on the disk. *)
Theorem readi_correct s i ip dst off n : idle s -> itable s !! i = Some ip -> i_dev ip = dev ->
  0 <= off -> 0 <= n < 2 ^ 31 -> off + n < 2 ^ 32 -> 0 <= dst -> dst + n < 2 ^ 64 ->
  let size := d_size (i_copy ip) in
  let r := if size <? off then 0 else Z.min n (size - off) in
  mapped_range lba (fbio s) ∅ (i_copy ip) off r ->
  exists s', readi junk i false dst off n s = Done r s' /\ idle s' /\ itable s' = itable s /\
    (forall x, kmem s' x = if decide (dst <= x < dst + r) then fbyte lba (fbio s) (i_copy ip) (off + (x - dst)) else kmem s x) /\
    (forall x k, dblk lba (fbio s') x k = dblk lba (fbio s) x k).
Proof.
  intros [Hdev (HLb & HLs & HLt) HI] Hi Ed Hoff Hn Hend Hdst Hdend size r Hm.
  destruct (readi_ok junk dev lba L Hdev HLb HLs s ∅ i ip dst off n HI nbuf_room Hi Ed) as (b & k & E & [Q1 Q2 Q3] & Hk); try lia; [done|].
  exists (set_kmem k (set_fbio b s)). split_and!; try done.
Qed.

(** C24: [dirlookup] returns the first entry in use whose name is the one asked
    for, compared as strings of at most [DIRSIZ] bytes, with its offset and a
    reference to its inode; 0 when there is none. *)
Theorem dirlookup_correct s i ip name n : idle s -> itable s !! i = Some ip -> i_dev ip = dev -> dir_ok lba (fbio s) ∅ (i_copy ip) n ->
  exists s1, idle s1 /\ itable s1 = itable s /\
  ((forall j, 0 <= j < n -> ~ named name (entry lba (fbio s) (i_copy ip) j)) /\ dirlookup junk i name s = Done None s1 \/
   exists j, 0 <= j < n /\ named name (entry lba (fbio s) (i_copy ip) j) /\ (forall j', 0 <= j' < j -> ~ named name (entry lba (fbio s) (i_copy ip) j')) /\
     dirlookup junk i name s = (x ← iget dev (de_inum (entry lba (fbio s) (i_copy ip) j)); mret (Some (x, sizeof_dirent * j))) s1).
Proof.
  intros [Hdev (HLb & HLs & HLt) HI] Hi Ed Hd.
  destruct (dirlookup_ok junk dev lba L Hdev HLb HLs s ∅ i ip name n HI nbuf_room Hi Ed Hd) as (b & km & [Q1 Q2 Q3] & Hcase).
  exists (set_kmem km (set_fbio b s)). split; [by split|]. split; [done|]. exact Hcase.
Qed.
(** Freeing a file with a double indirect block [A]: when entry [i] of [A]
    is a block [e] that is not cached, the loop reads [e] into the very buffer
    [A] was in, so that from then on it takes the words of [e] for the entries
    of [A]: the block it frees in place of [e] is word [i] of [e]. *)
Theorem itrunc_reads_recycled s h a A d i n : 0 < dev < 4 -> bcache_lock ∈ L -> sdlock ∈ L ->
  holds dev lba L (fbio s) h a A d -> on_disk lba (fbio s) A d -> 0 <= i < NINDIRECT ->
  let e := rd32 d (4 * i) in
  e <> 0 -> in_range lba e -> first_buf (is_block dev (sector lba e)) (clink (fbio s)) (bufs (fbio s)) = None ->
  exists s', trunc_double junk (S n) dev a a i s =
      (trunc_words junk (Z.to_nat NINDIRECT) dev a 0;; e' ← get_word a i; bfree junk dev e';; put_word a i 0;; trunc_double junk n dev a a (i + 1)) s' /\
    (forall j, 0 <= j < NINDIRECT -> get_word a j s' = Done (rd32 (dblk lba (fbio s) e) (4 * j)) s') /\
    (forall x k, dblk lba (fbio s') x k = dblk lba (fbio s) x k).
Proof.
  intros Hdev HLb HLs [HI Hh Hb] Hon Hi e He Hr Hnone.
  destruct (recycle_ok junk dev lba L (fbio s) h a A d e) as (b1 & b2 & E1 & E2 & HI1 & Hcd & Hb1 & _ & Hp & _); try done.
  destruct Hp as [_ _ (d2 & Hb2 & Hon2) Hcd2 _ _ _].
  assert (Hgw : forall b x, bufs b !! a = Some x -> forall dx, b_data x = Some dx -> forall j, get_word a j (set_fbio b s) = Done (rd32 dx (4 * j)) (set_fbio b s)).
  { intros b x Hx dx Hdx j. unfold get_word, fdata, on_bio, zoom, mbind, M_bind. cbn [fbio set_fbio]. by rewrite (buf_data_ok b a x dx Hx Hdx). }
  exists (set_fbio b2 s). split; [|split].
  - cbn [trunc_double]. rewrite <- (fst_eta s) at 1. rewrite (bind_Done _ _ _ _ _ (Hgw (fbio s) _ Hb d eq_refl i)). fold e. rewrite (proj2 (Z.eqb_neq e 0)) by done. cbn [negb].
    assert (Er : frelse a s = Done tt (set_fbio b1 s)) by (unfold frelse, on_bio, zoom; by rewrite E1). rewrite fst_eta, (bind_Done _ _ _ _ _ Er).
    rewrite (bind_Done _ _ _ _ _ (Hgw b1 _ Hb1 d eq_refl i)). fold e.
    assert (Ed : fread junk dev e (set_fbio b1 s) = Done a (set_fbio b2 s)) by (unfold fread, on_bio, zoom; cbn [fbio set_fbio]; by rewrite E2).
    by rewrite (bind_Done _ _ _ _ _ Ed).
  - intros j Hj. rewrite (Hgw b2 _ Hb2 d2 eq_refl j). f_equal. apply rdle_agree. intros k Hk. rewrite Hon2; [unfold dblk; by rewrite Hcd|].
    unfold NINDIRECT, BSIZE in *. change (4096 / 4) with 1024 in Hj. lia.
  - intros x k. unfold dblk. cbn [fbio set_fbio]. by rewrite Hcd2, Hcd.
Qed.
End Props.

(** C37: [skipelem] walks a path element by element: what it removes is the
    first of the strings between slashes, the rest has the others, the name is
    cut after [DIRSIZ] bytes, and the path shrinks, so the walk ends. *)
Theorem skipelem_correct path name : match skipelem path name with
  | None => elements path = []
  | Some (rest, name') => exists e, elements path = e :: elements rest /\ e <> [] /\
      name' = (if DIRSIZ <=? Z.of_nat (length e) then take (Z.to_nat DIRSIZ) e else e ++ [0] ++ drop (length e + 1) name) /\
      (length rest < length path)%nat /\ (rest = [] <-> elements rest = [])
  end.
Proof. apply skipelem_elements. Qed.

(** ** A small file system

    Block [n] is at sector [2048 + 8 n].  Block 2 has the inodes, 3 the bitmap,
    4 the root directory; 5, 6 and 7 hold file data, 8 is the double indirect
    block of inode 3 and 9 the indirect block under it. *)
Definition img_root : dinode := Dinode 1 0 0 1 192 0x41ed 0 0 (7, 0) (7, 0) (7, 0) (4 :: replicate 12 0).
Definition img_file : dinode := Dinode 2 0 0 1 5000 0x81a4 0 0 (8, 0) (8, 0) (8, 0) (5 :: 6 :: replicate 11 0).
Definition img_big : dinode := Dinode 2 0 0 1 4096 0x81a4 0 0 (9, 0) (9, 0) (9, 0) (replicate 12 0 ++ [8]).
Definition no_bytes : bytes := fun _ => 0.
Definition img_inodes : bytes := put_dinode 384 img_big (put_dinode 256 img_file (put_dinode 128 img_root no_bytes)).
Definition img_dir : bytes :=
  put_dirent 128 (Dirent 2 2 (97 :: replicate 57 0)) (put_dirent 64 (Dirent 1 1 (46 :: 46 :: replicate 56 0)) (put_dirent 0 (Dirent 1 1 (46 :: replicate 57 0)) no_bytes)).
Definition img_block (b k : Z) : Z :=
  if b =? 2 then img_inodes k
  else if b =? 3 then wr32 0 0x3ff no_bytes k
  else if b =? 4 then img_dir k
  else if (b =? 5) || (b =? 6) then (b + k) mod 251
  else if b =? 8 then wr32 0 9 no_bytes k
  else if b =? 9 then wr32 0 7 no_bytes k
  else 0.
Definition img : ram := fun i => img_block (i / BSIZE - 256) (i mod BSIZE).
Definition img_sb : superblock := Superblock FSMAGIC 64 54 32 0 0 2 3.

Definition img_locks : gset Z := {[bcache_lock; sdlock; itable_lock; 19; 32; 33; 34]}.
Definition img_table : list inode :=
  [Inode 1 1 1 false 0 1 img_root; Inode 1 2 1 false 0 1 img_file; Inode 0 0 0 false 0 0 img_file].
Definition img_cache : bst ram :=
  Bst (replicate NBUF buf0) (seq 0 NBUF) [] [32; 2048; 0; 0] img (Cpu 0 false false (gset_to_gmap free_lock img_locks)).
Definition img_fs : fst ram flat := Fst img_cache img_sb img_table (fun i => i mod 251) ∅ 1 0 [] (0, 0).

Lemma img_blk b k : 0 <= b -> 0 <= k < BSIZE -> dblk 2048 img_cache b k = img_block b k.
Proof.
  intros Hb Hk. unfold dblk, img_cache, sector. cbn [card sd_byte ram_card_laws]. unfold img, SECTOR_SIZE, BLKSECT, BSIZE in *.
  change (4096 / SECTOR_SIZE) with 8. replace (512 * (2048 + 8 * b) + k) with (k + (256 + b) * 4096) by lia.
  rewrite Z.div_add, Z.div_small, Z_mod_plus_full, Z.mod_small by lia. f_equal. lia.
Qed.

Lemma img_inv : binv 1 2048 img_locks img_cache ∅.
Proof.
  split; cbn [bufs clink sdque ptinfo_lba card bcpu img_cache].
  - apply length_replicate.
  - done.
  - done.
  - split; [done|]. change (2 ^ 32) with 4294967296. lia.
  - split; [split; [done| |done|done]|].
    + intros a l Ha. cbn in Ha. rewrite decide_False by (apply not_elem_of_empty). by apply lookup_gset_to_gmap_Some in Ha as [_ <-].
    + intros a Ha. exists free_lock. apply lookup_gset_to_gmap_Some. by split.
  - intros i b Hb. apply lookup_replicate in Hb as [-> _]. by split.
  - intros i j b b' Hb Hb'. apply lookup_replicate in Hb as [-> _]. done.
  - intros i [x Hx]. by rewrite lookup_empty in Hx.
Qed.

Lemma img_idle : idle 1 2048 img_locks img_fs.
Proof. split; [lia| |exact img_inv]. unfold img_locks. split_and!; set_solver. Qed.

Lemma img_geo : geo 2048 img_sb.
Proof.
  split; cbn [sb_size sb_bmapstart img_sb]; [lia| |].
  - intros x Hx. apply wit_in_range. lia.
  - intros x Hx. rewrite Z.div_small by (unfold BPB, BSIZE; lia). lia.
Qed.

Lemma img_bbk x : 0 <= x < 64 -> BBLOCK x img_sb = 3.
Proof. intros Hx. unfold BBLOCK. cbn [sb_bmapstart img_sb]. rewrite Z.div_small by (unfold BPB, BSIZE; lia). done. Qed.

(** A fact about every number below [n], by evaluation. *)
Lemma below_all n (f : Z -> bool) : forallb f (seqZ 0 n) = true -> forall x, 0 <= x < n -> f x = true.
Proof. intros Hf x Hx. rewrite forallb_forall in Hf. apply Hf. apply list_elem_of_In, elem_of_seqZ. lia. Qed.

Lemma img_used x : 0 <= x < 64 -> used 2048 img_cache img_sb x = (x <? 10).
Proof.
  intros Hx. apply eqb_prop. apply (below_all 64 (fun x => eqb (used 2048 img_cache img_sb x) (x <? 10))); [vm_compute; reflexivity|done].
Qed.

Lemma img_bitmap : bitmap_ok 2048 img_cache img_sb.
Proof.
  intros x Hx. cbn [sb_size img_sb] in Hx. rewrite img_bbk by done. split; [|by rewrite img_used].
  intros k Hk. rewrite img_blk by lia. change (img_block 3 k) with (wr32 0 0x3ff no_bytes k).
  destruct (Z.lt_ge_cases k 4) as [Hk4|Hk4].
  - pose proof (below_all 4 (fun k => (0 <=? wr32 0 0x3ff no_bytes k) && (wr32 0 0x3ff no_bytes k <? 256)) ltac:(vm_compute; reflexivity) k ltac:(lia)) as Hb.
    cbv beta in Hb. bool_hyps. split; assumption.
  - rewrite wrle_out by lia. unfold no_bytes. lia.
Qed.

Lemma balloc_correct_witness :
  geo 2048 img_sb /\ bitmap_ok 2048 img_cache img_sb /\
  exists x s', balloc fresh_data 1 img_fs = Done x s' /\ used 2048 (fbio s') img_sb x = true /\ dblk 2048 (fbio s') x 5 = 0.
Proof.
  split; [exact img_geo|]. split; [exact img_bitmap|].
  destruct (balloc_correct fresh_data 1 2048 img_locks img_fs img_idle img_geo img_bitmap) as [_ [[Hall _]|(x & s' & E & Hx & _ & _ & Hu & Hz & _)]].
  - specialize (Hall 20 ltac:(cbn; lia)). cbn [fbio sb img_fs] in Hall. rewrite img_used in Hall by lia. discriminate.
  - exists x, s'. split; [exact E|]. split; [|apply Hz; unfold BSIZE; lia].
    cbn [sb img_fs] in Hu. rewrite (Hu x Hx), Z.eqb_refl. apply orb_true_r.
Defined.

Lemma bfree_correct_witness :
  (exists s', bfree fresh_data 1 9 img_fs = Done tt s' /\ used 2048 (fbio s') img_sb 9 = false) /\
  bfree fresh_data 1 20 img_fs = Panic "freeing free block".
Proof.
  split.
  - pose proof (bfree_correct fresh_data 1 2048 img_locks img_fs 9 img_idle img_geo img_bitmap ltac:(cbn; lia)) as Hf.
    cbn [fbio sb img_fs] in Hf. rewrite img_used in Hf by lia. change (9 <? 10) with true in Hf. cbv iota in Hf. destruct Hf as (s' & E & _ & Hu & _).
    exists s'. split; [exact E|]. rewrite Hu by (cbn; lia). apply andb_false_r.
  - pose proof (bfree_correct fresh_data 1 2048 img_locks img_fs 20 img_idle img_geo img_bitmap ltac:(cbn; lia)) as Hf.
    cbn [fbio sb img_fs] in Hf. rewrite img_used in Hf by lia. exact Hf.
Defined.

Lemma img_file_ok : dinode_ok img_file.
Proof. repeat split; try (cbn; lia); try reflexivity. repeat constructor; cbn; lia. Qed.

Lemma iupdate_ilock_witness :
  exists s1, iupdate fresh_data 1 img_fs = Done tt s1 /\ disk_inode 2048 s1 1 = disk_inode 2048 img_fs 1 /\
    exists s2, ilock fresh_data 0 (set_itable [Inode 1 2 1 false 0 0 img_root] s1) = Done tt s2 /\
      itable s2 !! 0%nat = Some (Inode 1 2 1 true 1 1 img_file).
Proof.
  destruct (iupdate_ilock fresh_data 1 2048 img_locks img_fs 1 (Inode 1 2 1 false 0 1 img_file)) as (s1 & E & _ & _ & Hd & Hl); try done; try (cbn; lia).
  - exact img_idle.
  - exact img_file_ok.
  - exists s1. split; [exact E|]. split; [apply (Hd 1); cbn; lia|].
    destruct (Hl [Inode 1 2 1 false 0 0 img_root] 0%nat (Inode 1 2 1 false 0 0 img_root)) as (s2 & E2 & Hs2); try done; try (cbn; lia).
    exists s2. split; [exact E2|exact Hs2].
Defined.

Lemma img_itable : itable_ok img_table.
Proof.
  split.
  - intros i ip Hi. do 3 (destruct i as [|i]; [injection Hi as <-; cbn; lia|]). discriminate.
  - intros i j a b Hi Hj Ha Hb _ En.
    destruct i as [|[|[|i]]]; try discriminate; destruct j as [|[|[|j]]]; try discriminate; injection Hi as <-; injection Hj as <-; cbn in *; lia || done.
Qed.

Lemma iget_correct_witness :
  itable_ok img_table /\ exists i s', iget 1 3 img_fs = Done i s' /\ itable_ok (itable s').
Proof.
  split; [exact img_itable|].
  destruct (iget_correct 1 2048 img_locks img_fs 1 3 img_idle img_itable) as [[_ Hfull]|(i & ip & ip' & s' & E & _ & _ & Hok & _)].
  - intros i ip Hi. cbn [itable img_fs] in Hi. do 3 (destruct i as [|i]; [injection Hi as <-; cbn; lia|]). discriminate.
  - destruct (Hfull 2%nat (Inode 0 0 0 false 0 0 img_file) eq_refl) as [Hz _]. by destruct Hz.
  - exists i, s'. split; [exact E|exact Hok].
Defined.

(** Both blocks of the file with inode 2 are there. *)
Lemma img_mapped bn : 0 <= bn < 2 -> mapped 2048 img_cache ∅ img_file bn.
Proof.
  intros Hb. assert (E : bn = 0 \/ bn = 1) by lia.
  split; [unfold MAXFILE, NDIRECT, NINDIRECT2; assert (0 < NINDIRECT) by reflexivity; lia|]. split; [done|].
  split; [|by rewrite (proj2 (Z.ltb_lt bn NDIRECT)) by (unfold NDIRECT; lia)].
  destruct E as [-> | ->]; (split; [discriminate|]; split; [apply wit_in_range; vm_compute; split; [discriminate|reflexivity]|apply unheld]).
Qed.

Lemma readi_correct_witness :
  exists s', readi fresh_data 1 false 100 4000 500 img_fs = Done 500 s' /\ kmem s' 195 = (5 + 4095) mod 251 /\ kmem s' 196 = 6.
Proof.
  assert (Hm : mapped_range 2048 img_cache ∅ img_file 4000 500).
  { intros p Hp. apply img_mapped. unfold BSIZE. split; [apply Z.div_pos; lia|apply Z.div_lt_upper_bound; lia]. }
  destruct (readi_correct fresh_data 1 2048 img_locks img_fs 1 (Inode 1 2 1 false 0 1 img_file) 100 4000 500 img_idle eq_refl eq_refl
    ltac:(lia) ltac:(lia) ltac:(lia) ltac:(lia) ltac:(lia) Hm) as (s' & E & _ & _ & Hk & _).
  exists s'. split; [exact E|]. split; [rewrite (Hk 195)|rewrite (Hk 196)]; vm_compute; reflexivity.
Defined.

Lemma img_dir_ok : dir_ok 2048 img_cache ∅ img_root 3.
Proof.
  split; [done|done|lia|]. intros p Hp. assert (Ez : p / BSIZE = 0) by (apply Z.div_small; unfold sizeof_dirent, BSIZE in *; lia). rewrite Ez.
  split; [unfold MAXFILE, NDIRECT, NINDIRECT2; assert (0 < NINDIRECT) by reflexivity; lia|]. split; [done|].
  split; [|done]. split; [discriminate|]. split; [apply wit_in_range; vm_compute; split; [discriminate|reflexivity]|apply unheld].
Qed.

Lemma dirlookup_correct_witness :
  exists s1, dirlookup fresh_data 0 [97; 0] img_fs = (x ← iget 1 2; mret (Some (x, 128))) s1 /\ itable s1 = img_table.
Proof.
  destruct (dirlookup_correct fresh_data 1 2048 img_locks img_fs 0 (Inode 1 1 1 false 0 1 img_root) [97; 0] 3 img_idle eq_refl eq_refl img_dir_ok)
    as (s1 & _ & Hit & [[Hno _]|(j & Hj & Hn & _ & E)]).
  - exfalso. apply (Hno 2); [lia|]. split; [vm_compute; discriminate|vm_compute; reflexivity].
  - assert (Ej : j = 2).
    { assert (Hc : j = 0 \/ j = 1 \/ j = 2) by lia. destruct Hc as [-> |[-> | ->]]; [| |done]; destruct Hn as [_ Hn]; vm_compute in Hn; discriminate. }
    subst j. exists s1. split; [|exact Hit]. exact E.
Defined.

(** The file of inode 3, and the state in which its double indirect block 8
    has just been read. *)
Definition img_big_fs : fst ram flat := set_itable [Inode 1 3 1 true 1 1 img_big] img_fs.
Definition img_trunc : fst ram flat := match fread fresh_data 1 8 img_big_fs with Done _ s => s | _ => img_big_fs end.

Lemma img_trunc_used : match itrunc fresh_data 0 img_big_fs with
  | Done _ s => used 2048 (fbio s) img_sb 0 = false /\ used 2048 (fbio s) img_sb 8 = false /\ used 2048 (fbio s) img_sb 9 = true
  | _ => False
  end.
Proof. vm_compute. by split_and!. Qed.

Lemma itrunc_reads_recycled_witness :
  (exists s', trunc_double fresh_data 1024 1 125 125 0 img_trunc =
      (trunc_words fresh_data 1024 1 125 0;; e' ← get_word 125 0; bfree fresh_data 1 e';; put_word 125 0 0;; trunc_double fresh_data 1023 1 125 125 1) s' /\
    get_word 125 0 s' = Done 7 s') /\
  match itrunc fresh_data 0 img_big_fs with
  | Done _ s => used 2048 (fbio s) img_sb 0 = false /\ used 2048 (fbio s) img_sb 8 = false /\ used 2048 (fbio s) img_sb 9 = true
  | _ => False
  end.
Proof.
  split; [|exact img_trunc_used].
  assert (HL : bcache_lock ∈ img_locks /\ sdlock ∈ img_locks) by (unfold img_locks; split; set_solver).
  assert (Hr8 : in_range 2048 8) by (apply wit_in_range; lia).
  destruct (fread_ok fresh_data 1 2048 img_locks ltac:(lia) (proj1 HL) (proj2 HL) img_big_fs ∅ 8 img_inv Hr8 (unheld 8) nbuf_room)
    as (bp & b & d & E & _ & Hh & _ & Hon & Hd & _).
  assert (Hc : match fread fresh_data 1 8 img_big_fs with Done i s => i = 125%nat /\ first_buf (is_block 1 (sector 2048 9)) (clink (fbio s)) (bufs (fbio s)) = None | _ => False end)
    by (vm_compute; split; reflexivity).
  assert (Es : img_trunc = set_fbio b img_big_fs) by (unfold img_trunc; by rewrite E). rewrite E in Hc. destruct Hc as [-> Hnone]. rewrite Es.
  assert (Ed : rd32 d (4 * 0) = 9).
  { rewrite (rdle_agree 4 d (img_block 8)); [vm_compute; reflexivity|]. intros k Hk. rewrite Hon by (unfold BSIZE; lia). rewrite Hd. apply img_blk; unfold BSIZE; lia. }
  pose proof (itrunc_reads_recycled fresh_data 1 2048 img_locks (set_fbio b img_big_fs) _ 125 8 d 0 1023 ltac:(lia) (proj1 HL) (proj2 HL) Hh Hon ltac:(vm_compute; split; [discriminate|reflexivity])) as Ht.
  cbv zeta in Ht. rewrite Ed in Ht.
  destruct (Ht ltac:(lia) ltac:(apply wit_in_range; lia) Hnone) as (s' & E2 & Hw & _). exists s'. split; [exact E2|].
  rewrite (Hw 0) by (vm_compute; split; [discriminate|reflexivity]). f_equal.
  rewrite (rdle_agree 4 _ (img_block 9)); [vm_compute; reflexivity|]. intros k Hk. cbn [fbio set_fbio]. rewrite Hd. apply img_blk; unfold BSIZE; lia.
Defined.
