(* ===== verification/FsWriteProps.v ===== *)
(** * Properties of writing

    What a write leaves is what a read finds, for any file whose blocks are
    in order; the witnesses write across a block boundary of the image of
    FsProps.v. *)
From S2P Require Import Prelude Spinlock Bytes UserMem Bio BioInv BioProps Fs FsBlocks FsInode FsFile FsDir FsGrow FsWrite FsLink FsProps.

Section Props.
Context {D : Type} `{sdcard_laws D} {U : Type} `{!usermem U}.
Local Notation fst := (fst D U).
Implicit Types s : fst.
Context (junk : bytes) (dev lba : Z) (L : gset Z).

(** C13: [writei] of [n] bytes at an offset within the file, with room on the
    disk, returns [n], stores exactly those bytes at their place, allocating
    blocks at any level of indirection, extends the size when it writes past
    the end, saves the inode, and keeps the file and the disk in order. *)
Theorem writei_correct s i ip us src off n W : idle dev lba L s -> file_at dev lba s i ip -> source us src n W s -> 0 <= src < 2 ^ 64 ->
  0 <= off <= d_size (i_copy ip) -> 0 <= n < 2 ^ 31 -> off + n < 2 ^ 32 -> 3 * (n / BSIZE + 2) <= nfree lba (sb s) (fbio s) ->
  exists s' ip', writei junk i us src off n s = Done n s' /\ wrote dev lba L s i ip off n W s' ip'.
Proof.
  intros Hid Hfa Hsrc Hs64 Hoff Hn Hend Hfree.
  by apply (writei_wrote junk dev lba L).
Qed.

(** Bytes written from kernel memory at [off] are what a later [readi] of
    the same range finds, wherever it puts them. *)
Theorem write_then_read s i ip src dst off n : idle dev lba L s -> file_at dev lba s i ip -> 0 <= src -> src + n < 2 ^ 64 -> 0 <= dst -> dst + n < 2 ^ 64 ->
  0 <= off <= d_size (i_copy ip) -> 0 <= n < 2 ^ 31 -> off + n < 2 ^ 32 -> 3 * (n / BSIZE + 2) <= nfree lba (sb s) (fbio s) ->
  exists s1 s2, writei junk i false src off n s = Done n s1 /\ readi junk i false dst off n s1 = Done n s2 /\
    forall t, 0 <= t < n -> kmem s2 (dst + t) = kmem s (src + t).
Proof.
  intros Hid Hfa Hs0 Hs1 Hd0 Hd1 Hoff Hn Hend Hfree.
  destruct (writei_wrote junk dev lba L s i ip false src off n (fun t => kmem s (src + t)) Hid Hfa) as (s1 & ip1 & E1 & Hw); try done; [apply kernel_source; lia|lia|].
  destruct Hw as [[Hdev (HLb & HLs & HLt) HI] [G1 G2 _ _ _ _ _] (d & -> & Ed) Hc _ Hm _ _ _ _ (_ & Ek & _)]. cbn [i_copy set_i_copy] in *.
  assert (Esz : d_size d = Z.max (d_size (i_copy ip)) (off + n)) by (rewrite Ed; done).
  destruct (readi_ok junk dev lba L Hdev HLb HLs s1 ∅ i _ dst off n HI nbuf_none G1 G2) as (b & km & E2 & _ & Hkm); try done; try lia.
  { cbn [i_copy set_i_copy]. rewrite Esz. rewrite (proj2 (Z.ltb_ge _ _)) by lia. intros p Hp. apply Hm. lia. }
  cbn [i_copy set_i_copy] in E2, Hkm. rewrite Esz in E2, Hkm. rewrite (proj2 (Z.ltb_ge _ _)) in E2, Hkm by lia.
  assert (En : Z.min n (Z.max (d_size (i_copy ip)) (off + n) - off) = n) by lia. rewrite En in E2, Hkm.
  exists s1, (set_kmem km (set_fbio b s1)). split; [exact E1|]. split; [exact E2|]. intros t Ht. cbn [kmem set_kmem]. rewrite Hkm, decide_True by lia.
  replace (off + (dst + t - dst)) with (off + t) by lia. change (2 ^ 32) with 4294967296 in Hend.
  assert (Hp : 0 <= off + t < MAXFILE * BSIZE) by (rewrite maxfile, ndir, nind; unfold BSIZE; lia).
  specialize (Hc (off + t) Hp). rewrite decide_True in Hc by lia. replace (off + t - off) with t in Hc by lia. rewrite <- Hc.
  unfold fbyte, fcontent. destruct (Hm (off + t) ltac:(lia)) as (_ & _ & (Hne & _) & _). by rewrite (proj2 (Z.eqb_neq _ 0)) by done.
Qed.

(** C30: a directory is a map from names to inode numbers, and [dirlookup]
    applies it: it returns NULL for a name outside the map, and a reference
    to the inode the map gives otherwise, with the offset of its entry. *)
Theorem dirlookup_refines s i ip n m name : idle dev lba L s -> dir_rep dev lba s i ip n m ->
  exists s1, idle dev lba L s1 /\ dir_rep dev lba s1 i ip n m /\
  match m name with
  | None => dirlookup junk i name s = Done None s1
  | Some inum => exists j, 0 <= j < n /\ named name (entry lba (fbio s1) (i_copy ip) j) /\
      dirlookup junk i name s = (x ← iget dev inum; mret (Some (x, sizeof_dirent * j))) s1
  end.
Proof.
  intros Hid Hr. destruct (dirlookup_rep junk dev lba L s i ip n m name Hid Hr) as (b & km & Hq & Hc).
  exists (reread s b km). split; [by apply idle_reread|]. split; [by eapply dir_rep_reread|].
  destruct (m name) as [inum|]; [|done]. destruct Hc as (j & Hj & Hn & -> & E). exists j. split; [done|]. split; [|done].
  change (fbio (reread s b km)) with b. by rewrite (entry_quiet dev lba L (fbio s) b ∅) by done.
Qed.

(** C29: [dirlink] of a name outside the map returns 0 and adds exactly that
    pair to it, reusing a free entry or growing the directory, and keeps the
    directory and the disk in order; the name is kept up to [DIRSIZ] bytes. *)
Theorem dirlink_correct s i ip n m name inum type : idle dev lba L s -> dir_rep dev lba s i ip n m -> m name = None ->
  0 < inum < 2 ^ 32 -> 0 <= type < 2 ^ 16 -> n + 1 < 2 ^ 24 -> 6 <= nfree lba (sb s) (fbio s) ->
  exists s' ip' n', dirlink junk i name inum type s = Done 0 s' /\ idle dev lba L s' /\
    dir_rep dev lba s' i ip' n' (fun x => if bool_decide (namestr x = namestr name) then Some inum else m x).
Proof.
  intros Hid Hr Hno Hinum Htype Hn Hfree. assert (E64 : sizeof_dirent = 64) by done.
  destruct (dirlookup_rep junk dev lba L s i ip n m name Hid Hr) as (b1 & km1 & Hq1 & E1). rewrite Hno in E1.
  unfold dirlink. rewrite (bind_Done _ _ _ _ _ E1). set (s1 := reread s b1 km1). assert (Hid1 : idle dev lba L s1) by (by apply idle_reread).
  assert (Hr1 : dir_rep dev lba s1 i ip n m) by (by eapply dir_rep_reread). pose proof Hr1 as [Hf1 Hd1 Hu1 Hm1].
  rewrite (bind_Done _ _ _ _ _ (get_inode_ok s1 i ip (fa_slot _ _ _ _ _ Hf1))). pose proof (do_range _ _ _ _ _ Hd1).
  destruct (dirlink_slot_ok junk dev lba L i ip n (fa_dev _ _ _ _ _ Hf1) (dir_fuel (d_size (i_copy ip))) s1 0 Hid1 (fa_slot _ _ _ _ _ Hf1) Hd1) as (x & b2 & km2 & Hq2 & Hx & Hz & E2); [lia| |].
  { unfold dir_fuel. rewrite (do_size _ _ _ _ _ Hd1), Z.mul_comm, Z.div_mul by done. lia. }
  rewrite Z.mul_0_r in E2. rewrite (bind_Done _ _ _ _ _ E2). set (s2 := reread s1 b2 km2). assert (Hid2 : idle dev lba L s2) by (by apply idle_reread).
  assert (Hr2 : dir_rep dev lba s2 i ip n m) by (by eapply dir_rep_reread). pose proof Hr2 as [Hf2 Hd2 Hu2 Hm2].
  rewrite bind_modify. set (e := Dirent inum type (strncpy_l (Z.to_nat DIRSIZ) name)).
  rewrite (wrap_small 32) by (change (2 ^ 32) with 4294967296; change (2 ^ 24) with 16777216 in *; lia).
  assert (Hwf : dirent_wf e) by (split; [cbn; lia|]; split; [done|apply strncpy_length]).
  assert (Hfree2 : 6 <= nfree lba (sb s2) (fbio s2)).
  { rewrite (nfree_same lba (sb s) (fbio s) (fbio s2)); [done|]. intros y Hy. apply bitset_same. intros j Hj. cbn [fbio s2 s1 reread set_kmem set_fbio].
    rewrite (qu_disk _ _ _ _ _ _ Hq2). apply (qu_disk _ _ _ _ _ _ Hq1). }
  destruct (write_entry junk dev lba L s2 i ip n m x (put_dirent de_addr e (kmem s2)) Hid2 Hr2 Hx Hn Hfree2) as (s' & ip' & E3 & Hid' & Hf' & Hd' & Edents).
  rewrite (get_put_dirent de_addr e (kmem s2) Hwf) in Edents.
  rewrite (bind_Done _ _ _ _ _ E3), Z.eqb_refl. exists s', ip', (Z.max n (x + 1)). split; [done|]. split; [done|].
  assert (Hlen : Z.of_nat (length (dents lba s2 (i_copy ip) n)) = n) by (unfold dents; rewrite length_fmap, length_seqZ; lia).
  assert (Ename : namestr (de_name e) = namestr name) by apply cstr_strncpy.
  assert (Hput : forall y, duniq (dput (Z.to_nat x) e (dents lba s2 (i_copy ip) n)) /\ dfind (dput (Z.to_nat x) e (dents lba s2 (i_copy ip) n)) y =
    if bool_decide (namestr y = namestr (de_name e)) then Some (de_inum e) else dfind (dents lba s2 (i_copy ip) n) y).
  { intros y. apply dput_find; [lia| |cbn; lia|done|].
    - intros e0 He0. apply dents_lookup in He0 as [Hlt ->]. rewrite Z2Nat.id in * by lia. rewrite <- (Hz Hlt). f_equal. by eapply entry_quiet.
    - rewrite Hm2 in Hno. rewrite dfind_None in *. intros j e0 He0 [N1 N2]. apply (Hno j e0 He0). split; [done|congruence]. }
  split; [done|done|rewrite Edents; apply (Hput [])|]. intros y. rewrite Edents, (proj2 (Hput y)), Ename, <- Hm2. done.
Qed.

(** C31: [unlink] of the entry [dirlookup] found removes exactly its name from
    the map and keeps the directory and the disk in order. *)
Theorem unlink_correct s i ip n m name j : idle dev lba L s -> dir_rep dev lba s i ip n m ->
  0 <= j < n -> named name (entry lba (fbio s) (i_copy ip) j) -> n + 1 < 2 ^ 24 -> 6 <= nfree lba (sb s) (fbio s) ->
  exists s' ip', unlink junk i (sizeof_dirent * j) s = Done 0 s' /\ idle dev lba L s' /\
    dir_rep dev lba s' i ip' n (fun x => if bool_decide (namestr x = namestr name) then None else m x).
Proof.
  intros Hid Hr Hj [N1 N2] Hn Hfree. assert (E64 : sizeof_dirent = 64) by done. pose proof Hr as [Hf Hd Hu Hmap]. change (2 ^ 24) with 16777216 in *.
  unfold unlink. rewrite bind_modify. set (km := mset de_addr 0 sizeof_dirent (kmem s)).
  assert (Ez : de_inum (get_dirent km de_addr) = 0) by (apply rdle_zero; intros y Hy; unfold km; rewrite mset_in by lia; done).
  destruct (write_entry junk dev lba L s i ip n m j km Hid Hr ltac:(lia) Hn Hfree) as (s' & ip' & E3 & Hid' & Hf' & Hd' & Edents).
  rewrite (bind_Done _ _ _ _ _ E3), Z.eqb_refl. rewrite Z.max_l in * by lia. exists s', ip'. split; [done|]. split; [done|].
  assert (Hl : dents lba s (i_copy ip) n !! Z.to_nat j = Some (entry lba (fbio s) (i_copy ip) j)) by (apply dents_lookup; rewrite Z2Nat.id by lia; split; [lia|done]).
  unfold dput in Edents. rewrite decide_True in Edents by (by eapply lookup_lt_Some).
  assert (Hcl : forall y, duniq (<[Z.to_nat j := get_dirent km de_addr]> (dents lba s (i_copy ip) n)) /\ dfind (<[Z.to_nat j := get_dirent km de_addr]> (dents lba s (i_copy ip) n)) y =
    if bool_decide (namestr y = namestr (de_name (entry lba (fbio s) (i_copy ip) j))) then None else dfind (dents lba s (i_copy ip) n) y).
  { intros y. by apply (dclear_find (Z.to_nat j) (entry lba (fbio s) (i_copy ip) j)). }
  split; [done|done|rewrite Edents; apply (Hcl [])|]. intros y. rewrite Edents, (proj2 (Hcl y)), <- N2, <- Hmap. done.
Qed.
End Props.

(** ** The files of the image *)

Lemma img_not_bitmap z : z <> 3 -> ~ is_bitmap img_sb z.
Proof. intros Hz (x & Hx & ->). apply Hz. by apply img_bbk. Qed.

Lemma img_disk : disk_ok 2048 img_sb img_cache.
Proof. split; [exact img_geo|exact img_bitmap|]. by rewrite img_used by lia. Qed.

(** An inode of the image with direct blocks only, all of them different. *)
Definition small_ok (d : dinode) : bool :=
  (addr_of d NDIRECT =? 0) && (addr_of d (NDIRECT + 1) =? 0) && (Z.of_nat (length (d_addrs d)) =? NDIRECT + 2) &&
  forallb (fun x => let a := addr_of d x in (a =? 0) || ((3 <? a) && (a <? 10) && forallb (fun y => (y =? x) || negb (addr_of d y =? a)) (seqZ 0 NDIRECT))) (seqZ 0 NDIRECT).

Lemma small_rblk b d r : small_ok d = true -> rvalid r -> rblk 2048 b d r = match r with RData bn => if bn <? NDIRECT then addr_of d bn else 0 | _ => 0 end.
Proof.
  unfold small_ok. intros Hs Hv. bool_hyps. destruct r as [bn| | |j]; cbn [rblk]; try done.
  - unfold imap. replace (addr_of d NDIRECT) with 0. replace (addr_of d (NDIRECT + 1)) with 0. destruct (bn <? NDIRECT); [done|]. by destruct (bn - NDIRECT <? NINDIRECT).
  - by replace (addr_of d (NDIRECT + 1)) with 0.
Qed.

Lemma img_small_at i ip : img_table !! i = Some ip -> i_dev ip = 1 -> 0 <= i_inum ip < 32 -> dinode_ok (i_copy ip) -> small_ok (i_copy ip) = true ->
  file_at 1 2048 img_fs i ip.
Proof.
  intros Hi Ed En Hok Hs. pose proof Hs as Hs'. unfold small_ok in Hs'. bool_hyps. match goal with Hf : forallb _ _ = true |- _ => rename Hf into Hall end.
  assert (Hx : forall x, 0 <= x < NDIRECT -> addr_of (i_copy ip) x <> 0 -> 3 < addr_of (i_copy ip) x < 10 /\ forall y, 0 <= y < NDIRECT -> addr_of (i_copy ip) y = addr_of (i_copy ip) x -> y = x).
  { intros x Hx Hne. pose proof (below_all NDIRECT _ Hall x Hx) as Hb. cbv beta zeta in Hb. rewrite (proj2 (Z.eqb_neq _ 0)) in Hb by done. cbn [orb] in Hb. bool_hyps.
    split; [lia|]. intros y Hy E. match goal with Hf : forallb (fun y => (y =? x) || _) _ = true |- _ => pose proof (below_all NDIRECT _ Hf y Hy) as Hc end. cbv beta in Hc. rewrite E, Z.eqb_refl in Hc.
    cbn [negb] in Hc. rewrite orb_false_r in Hc. by apply Z.eqb_eq. }
  assert (Hr : forall r, rvalid r -> rblk 2048 img_cache (i_copy ip) r <> 0 -> exists x, r = RData x /\ 0 <= x < NDIRECT /\ rblk 2048 img_cache (i_copy ip) r = addr_of (i_copy ip) x).
  { intros r Hv. rewrite small_rblk by done. destruct r as [bn| | |]; try done. cbn in Hv. destruct (bn <? NDIRECT) eqn:E; bool_hyps; [|done]. intros _. exists bn. split; [done|]. split; [lia|done]. }
  assert (Eh : inode_block img_fs (i_inum ip) = 2) by (unfold inode_block, IBLOCK; cbn [sb img_fs sb_inodestart img_sb]; assert (EP : IPB = 32) by reflexivity; rewrite EP, Z.div_small by lia; reflexivity).
  split; [done|done|lia|done|exact img_disk| |].
  - split; [cbn [fbio img_fs]; lia| |]; cbn [fbio img_fs sb] in *.
    + intros r Hv Hne. destruct (Hr r Hv Hne) as (x & -> & Hxr & E). rewrite E in *. destruct (Hx x Hxr Hne) as [Hin _]. split; [cbn; lia|].
      split; [rewrite img_used by lia; apply Z.ltb_lt; lia|apply img_not_bitmap; lia].
    + intros r r' Hv Hv' E Hne. destruct (Hr r Hv Hne) as (x & -> & Hxr & Ex). destruct (Hr r' Hv' ltac:(congruence)) as (y & -> & Hyr & Ey).
      f_equal. symmetry. rewrite Ex in Hne. apply (Hx x Hxr Hne); [done|congruence].
  - rewrite Eh. cbn [fbio img_fs sb]. split; [cbn; lia|]. split; [by rewrite img_used by lia|]. split; [by apply img_not_bitmap|].
    intros r Hv E. destruct (Hr r Hv ltac:(lia)) as (x & -> & Hxr & Ex). destruct (Hx x Hxr ltac:(lia)). lia.
Qed.

Lemma img_file_at : file_at 1 2048 img_fs 1 (Inode 1 2 1 false 0 1 img_file).
Proof. apply img_small_at; [done|done|cbn; lia|exact img_file_ok|vm_compute; reflexivity]. Qed.

Lemma img_root_ok : dinode_ok img_root.
Proof. repeat split; try (cbn; lia); try reflexivity. repeat constructor; cbn; lia. Qed.

Definition img_names : list Z -> option Z := dfind (dents 2048 img_fs img_root 3).

Lemma img_root_rep : dir_rep 1 2048 img_fs 0 (Inode 1 1 1 false 0 1 img_root) 3 img_names.
Proof.
  split; [apply img_small_at; [done|done|cbn; lia|exact img_root_ok|vm_compute; reflexivity]|exact img_dir_ok| |done].
  assert (Hn : (fun e => namestr (de_name e)) <$> dents 2048 img_fs img_root 3 = [[46]; [46; 46]; [97]]) by (vm_compute; reflexivity).
  intros j j' e e' Hj Hj' _ _ E. cbn [i_copy] in Hj, Hj'. assert (Hd : NoDup [[46]; [46; 46]; [97]]) by (repeat constructor; set_solver).
  rewrite <- Hn in Hd. eapply NoDup_lookup; [exact Hd| |]; rewrite list_lookup_fmap; [rewrite Hj|rewrite Hj']; cbn [fmap option_fmap option_map]; [reflexivity|by rewrite E].
Qed.

Lemma img_free : nfree 2048 img_sb img_cache = 54.
Proof. vm_compute. reflexivity. Qed.

Lemma writei_correct_witness :
  exists s' ip', writei fresh_data 1 false 100 5000 8000 img_fs = Done 8000 s' /\ d_size (i_copy ip') = 13000 /\ itable s' !! 1%nat = Some ip' /\
    fcontent 2048 (fbio s') (i_copy ip') 12999 = 8099 mod 251 /\ fcontent 2048 (fbio s') (i_copy ip') 10 = 15.
Proof.
  destruct (writei_correct fresh_data 1 2048 img_locks img_fs 1 (Inode 1 2 1 false 0 1 img_file) false 100 5000 8000 (fun t => kmem img_fs (100 + t))
    img_idle img_file_at (kernel_source img_fs 100 8000 ltac:(lia) ltac:(lia)) ltac:(lia) ltac:(cbn; lia) ltac:(lia) ltac:(lia)
    ltac:(cbn [sb fbio img_fs]; rewrite img_free; vm_compute; discriminate)) as (s' & ip' & E & [_ [Hs _ _ _ _ _ _] (d & -> & Ed) Hc _ _ _ _ _ _ _]).
  exists s', (set_i_copy d (Inode 1 2 1 false 0 1 img_file)). split; [exact E|]. cbn [i_copy set_i_copy] in *.
  split; [rewrite Ed; reflexivity|]. split; [exact Hs|].
  assert (Hmax : MAXFILE * BSIZE = 4299206656) by reflexivity. split; rewrite Hc by lia; vm_compute; reflexivity.
Defined.

Lemma write_then_read_witness :
  exists s1 s2, writei fresh_data 1 false 100 5000 8000 img_fs = Done 8000 s1 /\ readi fresh_data 1 false 50000 5000 8000 s1 = Done 8000 s2 /\
    kmem s2 50007 = 107.
Proof.
  destruct (write_then_read fresh_data 1 2048 img_locks img_fs 1 (Inode 1 2 1 false 0 1 img_file) 100 50000 5000 8000
    img_idle img_file_at ltac:(lia) ltac:(lia) ltac:(lia) ltac:(lia) ltac:(cbn; lia) ltac:(lia) ltac:(lia)
    ltac:(cbn [sb fbio img_fs]; rewrite img_free; vm_compute; discriminate)) as (s1 & s2 & E1 & E2 & Hk).
  exists s1, s2. split; [exact E1|]. split; [exact E2|]. exact (Hk 7 ltac:(lia)).
Defined.

Lemma dirlookup_refines_witness :
  exists s1, dirlookup fresh_data 0 [98] img_fs = Done None s1.
Proof.
  destruct (dirlookup_refines fresh_data 1 2048 img_locks img_fs 0 (Inode 1 1 1 false 0 1 img_root) 3 img_names [98] img_idle img_root_rep) as (s1 & _ & _ & Hc).
  assert (E : img_names [98] = None) by (vm_compute; reflexivity). rewrite E in Hc. by exists s1.
Defined.

Lemma dirlink_correct_witness :
  exists s' ip' n' m, dirlink fresh_data 0 [98] 3 2 img_fs = Done 0 s' /\ dir_rep 1 2048 s' 0 ip' n' m /\ m [98] = Some 3 /\ m [97] = Some 2.
Proof.
  destruct (dirlink_correct fresh_data 1 2048 img_locks img_fs 0 (Inode 1 1 1 false 0 1 img_root) 3 img_names [98] 3 2 img_idle img_root_rep
    ltac:(vm_compute; reflexivity) ltac:(lia) ltac:(lia) ltac:(lia) ltac:(cbn [sb fbio img_fs]; rewrite img_free; lia)) as (s' & ip' & n' & E & _ & Hr).
  eexists s', ip', n', _. split; [exact E|]. split; [exact Hr|]. split; vm_compute; reflexivity.
Defined.

Lemma unlink_correct_witness :
  exists s' ip' m, unlink fresh_data 0 (sizeof_dirent * 2) img_fs = Done 0 s' /\ dir_rep 1 2048 s' 0 ip' 3 m /\ m [97] = None /\ m [46] = Some 1.
Proof.
  destruct (unlink_correct fresh_data 1 2048 img_locks img_fs 0 (Inode 1 1 1 false 0 1 img_root) 3 img_names [97] 2 img_idle img_root_rep
    ltac:(lia) ltac:(split; [vm_compute; discriminate|vm_compute; reflexivity]) ltac:(lia) ltac:(cbn [sb fbio img_fs]; rewrite img_free; lia)) as (s' & ip' & E & _ & Hr).
  eexists s', ip', _. split; [exact E|]. split; [exact Hr|]. split; vm_compute; reflexivity.
Defined.
