(* ===== verification/File.v ===== *)
(** * Open files (kernel/file.c, getdents64 of kernel/fs.c, fdalloc of
    kernel/sysfile.c, pipealloc of kernel/pipe.c)

    The table of open files over the file system of Fs.v.  A [struct file *]
    is a slot of [ftable.file]; a [struct pipe *] is an address.  Pipes and
    devices are the interfaces [pipeops] and [devsw]: what they promise is
    what file.c uses of them.  The bodies of [begin_op] and [end_op] are
    compiled out.

    A path is the list of its bytes before the NUL.  [stk] is what the stack
    holds in a local [char name[DIRSIZ]], [past] what follows a local
    [struct dirent]; the local buffers that [readi] fills are at [buf_addr] of
    kernel memory.  [loops] bounds the [goto loop] over symbolic links, which
    the source does not bound. *)
From S2P Require Import Prelude Spinlock Bytes UserMem Cred Bio Fs.

Definition ENOENT : Z := 2.
Definition EIO : Z := 5.
Definition EBADF : Z := 9.
Definition ENOMEM : Z := 12.
Definition EFAULT : Z := 14.
Definition EEXIST : Z := 17.
Definition EXDEV : Z := 18.
Definition ENOTDIR : Z := 20.
Definition EISDIR : Z := 21.
Definition ENOSPC : Z := 28.
Definition EDQUOT : Z := 122.

Definition NFILE : nat := 100.
Definition NOFILE : nat := 16.
Definition NDEV : Z := 10.
Definition PGSIZE : Z := 4096.
Definition MAXOPBLOCKS : Z := 42.

Definition O_RDONLY : Z := 0.
Definition O_WRONLY : Z := 1.
Definition O_RDWR : Z := 2.
Definition O_CREAT : Z := 0x40.
Definition O_EXCL : Z := 0x80.
Definition O_APPEND : Z := 0x400.
Definition O_NONBLOCK : Z := 0x800.
Definition O_DIRECT : Z := 0x10000.
Definition O_CLOEXEC : Z := 0x80000.
Definition O_PATH : Z := 0x200000.
Definition O_ACCMODE : Z := Z.lor 3 O_PATH.
Definition PIPE2_FLAGS : Z := Z.lor (Z.lor O_CLOEXEC O_DIRECT) O_NONBLOCK.
Definition AT_SYMLINK_NOFOLLOW : Z := 0x100.
Definition AT_REMOVEDIR : Z := 0x200.
Definition AT_EACCESS : Z := 0x200.
Definition RENAME_NOREPLACE : Z := 1.
Definition SEEK_SET : Z := 0.
Definition SEEK_CUR : Z := 1.
Definition SEEK_END : Z := 2.
Definition TCSBRK : Z := 0x5409.
Definition TCFLSH : Z := 0x540b.
Definition S_IFMT : Z := 0xf000.
Definition S_IFLNK : Z := 0xa000.
Definition S_IFREG : Z := 0x8000.
Definition S_IFBLK : Z := 0x6000.
Definition S_IFDIR : Z := 0x4000.
Definition S_IFCHR : Z := 0x2000.
Definition S_ISUID : Z := 0x800.
Definition S_ISGID : Z := 0x400.
Definition S_IRWXO : Z := 7.
Definition CAP_CHOWN : Z := 0.
Definition IFTODT (x : Z) : Z := Z.land (Z.shiftr x 12) 0xf.

Definition DOT : list Z := [46].
Definition DOTDOT : list Z := [46; 46].
Definition buf_addr : Z := 0x1000.
Definition page_addr : Z := 0x2000.
(** [MIN(max, ...)] of filewrite: the bytes of one round. *)
Definition write_max : Z := (MAXOPBLOCKS - 1 - 2 - 2) / 2 * BSIZE.
(** [sizeof(MAXPATH) - 1]: the size of an [int], less one. *)
Definition maxpath_bytes : Z := 3.

Inductive ftype := FD_NONE | FD_PIPE | FD_INODE | FD_DEVICE.
Record file := File {
  f_type : ftype; f_ref : Z; f_pipe : Z; f_ip : option nat; f_off : Z; f_flags : Z; f_major : Z;
  f_readable : Z; f_writable : Z
}.
Definition file0 : file := File FD_NONE 0 0 None 0 0 0 0 0.
Definition set_f_type v (f : file) := File v (f_ref f) (f_pipe f) (f_ip f) (f_off f) (f_flags f) (f_major f) (f_readable f) (f_writable f).
Definition set_f_ref v (f : file) := File (f_type f) v (f_pipe f) (f_ip f) (f_off f) (f_flags f) (f_major f) (f_readable f) (f_writable f).
Definition set_f_off v (f : file) := File (f_type f) (f_ref f) (f_pipe f) (f_ip f) v (f_flags f) (f_major f) (f_readable f) (f_writable f).
Definition set_f_flags v (f : file) := File (f_type f) (f_ref f) (f_pipe f) (f_ip f) (f_off f) v (f_major f) (f_readable f) (f_writable f).
Definition FILE_READABLE (flags : Z) : bool := (Z.land flags O_ACCMODE =? O_RDWR) || (Z.land flags O_ACCMODE =? O_RDONLY).
Definition FILE_WRITABLE (flags : Z) : bool := (Z.land flags O_ACCMODE =? O_RDWR) || (Z.land flags O_ACCMODE =? O_WRONLY).

(** What file.c asks of pipe.c: a pipe is an address; [po_read] and [po_write]
    move bytes of the current process. *)
Class pipeops (U P : Type) := PipeOps {
  po_alloc : M (P * U) Z;
  po_close : Z -> Z -> M (P * U) unit;
  po_read : Z -> Z -> Z -> M (P * U) Z;
  po_write : Z -> Z -> Z -> M (P * U) Z;
}.
(** The table [devsw]: the functions of a major number, or NULL. *)
Class devsw (U V : Type) := DevSw {
  dev_read : Z -> option (Z -> Z -> M (V * U) Z);
  dev_write : Z -> option (Z -> Z -> M (V * U) Z);
  dev_ioctl : Z -> option (Z -> Z -> M (V * U) Z);
}.

(** The bytes of [struct stat], over what the stack held. *)
Definition put_stat (st : stat) (m : bytes) : bytes :=
  put_time 104 (st_ctime st) (put_time 88 (st_mtime st) (put_time 72 (st_atime st) (wr64 64 (st_blocks st) (wr32 56 (st_blksize st)
    (wr64 48 (st_size st) (wr64 32 (st_rdev st) (wr32 28 (st_gid st) (wr32 24 (st_uid st) (wr32 20 (st_nlink st) (wr32 16 (st_mode st)
      (wr64 8 (st_ino st) (wr64 0 (st_dev st) m)))))))))))).
Definition sizeof_stat : Z := 128.
(** [struct dirent64]: [d_name] is at 19. *)
Definition off_d_name : Z := 19.
Definition put_dirent64 (ino off reclen type : Z) (name : list Z) (m : bytes) : bytes :=
  mmove off_d_name 0 (Z.of_nat (length name)) (of_list name) (wrle 1 18 type (wr16 16 reclen (wr64 8 off (wr64 0 ino m)))).

(** The string at the start of a buffer. *)
Fixpoint upto_nul (l : list Z) : list Z :=
  match l with [] => [] | c :: l => if c =? 0 then [] else c :: upto_nul l end.

Definition set_d_nlink v (d : dinode) := Dinode (d_type d) (d_major d) (d_minor d) v (d_size d) (d_mode d) (d_uid d) (d_gid d) (d_atime d) (d_mtime d) (d_ctime d) (d_addrs d).
Definition set_d_mode v (d : dinode) := Dinode (d_type d) (d_major d) (d_minor d) (d_nlink d) (d_size d) v (d_uid d) (d_gid d) (d_atime d) (d_mtime d) (d_ctime d) (d_addrs d).
Definition set_d_owner u g (d : dinode) := Dinode (d_type d) (d_major d) (d_minor d) (d_nlink d) (d_size d) (d_mode d) u g (d_atime d) (d_mtime d) (d_ctime d) (d_addrs d).
Definition set_d_dev ma mi (d : dinode) := Dinode (d_type d) ma mi (d_nlink d) (d_size d) (d_mode d) (d_uid d) (d_gid d) (d_atime d) (d_mtime d) (d_ctime d) (d_addrs d).
Definition set_d_atime v (d : dinode) := Dinode (d_type d) (d_major d) (d_minor d) (d_nlink d) (d_size d) (d_mode d) (d_uid d) (d_gid d) v (d_mtime d) (d_ctime d) (d_addrs d).
Definition set_d_mtime v (d : dinode) := Dinode (d_type d) (d_major d) (d_minor d) (d_nlink d) (d_size d) (d_mode d) (d_uid d) (d_gid d) (d_atime d) v (d_ctime d) (d_addrs d).
Definition set_d_ctime v (d : dinode) := Dinode (d_type d) (d_major d) (d_minor d) (d_nlink d) (d_size d) (d_mode d) (d_uid d) (d_gid d) (d_atime d) (d_mtime d) v (d_addrs d).

Definition ftable_lock : Z := 19.

Section File.
Context {D : Type} `{!sdcard D} {U : Type} `{!usermem U} {P : Type} `{!pipeops U P} {V : Type} `{!devsw U V}.
Context (junk : bytes) (stk past : list Z) (st0 : bytes) (loops : nat).

Record fls := Fls {
  ffs : fst D U;
  files : list file;
  ofile : list (option nat);
  fdflag : Z;
  fcred : cred;
  fpipes : P;
  fdevs : V
}.
Definition set_ffs v (s : fls) := Fls v (files s) (ofile s) (fdflag s) (fcred s) (fpipes s) (fdevs s).
Definition set_files v (s : fls) := Fls (ffs s) v (ofile s) (fdflag s) (fcred s) (fpipes s) (fdevs s).
Definition set_ofile v (s : fls) := Fls (ffs s) (files s) v (fdflag s) (fcred s) (fpipes s) (fdevs s).
Definition set_fdflag v (s : fls) := Fls (ffs s) (files s) (ofile s) v (fcred s) (fpipes s) (fdevs s).

(** [myproc()->ofile[fd]->ip], as namex sees it. *)
Definition ofile_ip (s : fls) : list (option nat) := (fun o => f ← o; fl ← files s !! f; f_ip fl) <$> ofile s.
Definition fs_of (s : fls) : fst D U :=
  Fst (fbio (ffs s)) (sb (ffs s)) (itable (ffs s)) (kmem (ffs s)) (fuser (ffs s)) (fpid (ffs s)) (fcwd (ffs s)) (ofile_ip s) (fnow (ffs s)).
Definition on_fs {A} (m : M (fst D U) A) : M fls A := zoom fs_of set_ffs m.
Definition on_pipe {A} (m : M (P * U) A) : M fls A :=
  zoom (fun s => (fpipes s, fuser (ffs s)))
       (fun v s => Fls (set_fuser v.2 (ffs s)) (files s) (ofile s) (fdflag s) (fcred s) v.1 (fdevs s)) m.
Definition on_dev {A} (m : M (V * U) A) : M fls A :=
  zoom (fun s => (fdevs s, fuser (ffs s)))
       (fun v s => Fls (set_fuser v.2 (ffs s)) (files s) (ofile s) (fdflag s) (fcred s) (fpipes s) v.1) m.
Definition get_file (f : nat) : M fls file := fun s => deref (files s !! f) s.
Definition upd_file (f : nat) (g : file -> file) : M fls unit :=
  fl ← get_file f; modify (fun s => set_files (<[f := g fl]> (files s)) s).
Definition inode_at (i : nat) : M fls inode := on_fs (get_inode i).
Definition copy_at (i : nat) (g : dinode -> dinode) : M fls unit := on_fs (upd_copy i g).
Definition now : M fls (Z * Z) := gets (fun s => fnow (ffs s)).
(** [ilock] of a pointer that may be NULL. *)
Definition ilock_ptr (o : option nat) : M fls nat :=
  match o with None => panic "ilock"%string | Some i => on_fs (ilock junk i);; mret i end.
Definition permits (i : nat) (mask : Z) : M fls Z :=
  ip ← inode_at i; c ← gets fcred;
  mret (permission c (d_mode (i_copy ip)) (d_uid (i_copy ip)) (d_gid (i_copy ip)) mask).
(** Return [e], having let the locked inode [i] go. *)
Definition put_err {A} (i : nat) (e : A) : M fls A := on_fs (iunlockput junk i);; mret e.

(** ** The file table *)

Definition fileinit : M fls unit := on_fs (on_bio (zoom bcpu set_bcpu (initlock ftable_lock))).
Definition flk : M fls unit := on_fs (flock ftable_lock).
Definition funlk : M fls unit := on_fs (funlock ftable_lock).

(** The first slot of the table with no reference. *)
Fixpoint free_file (t : list file) (i : nat) : option nat :=
  match t with [] => None | f :: t => if f_ref f =? 0 then Some i else free_file t (S i) end.
Definition filealloc : M fls (option nat) :=
  flk;;
  o ← gets (fun s => free_file (files s) 0);
  match o with
  | Some f => upd_file f (set_f_ref 1);; funlk;; mret (Some f)
  | None => funlk;; mret None
  end.

Definition filedup (f : nat) : M fls nat :=
  flk;;
  fl ← get_file f;
  if f_ref fl <? 1 then panic "filedup"%string
  else upd_file f (set_f_ref (s32 (f_ref fl + 1)));; funlk;; mret f.

Definition fileclose (f : nat) : M fls unit :=
  flk;;
  fl ← get_file f;
  if f_ref fl <? 1 then panic "fileclose"%string
  else
    upd_file f (set_f_ref (f_ref fl - 1));;
    if 0 <? f_ref fl - 1 then funlk
    else
      ff ← get_file f;
      upd_file f (fun fl => set_f_type FD_NONE (set_f_ref 0 fl));;
      funlk;;
      match f_type ff with
      | FD_PIPE => on_pipe (po_close (f_pipe ff) (f_writable ff))
      | FD_INODE | FD_DEVICE => i ← deref (f_ip ff); on_fs (iput junk i)
      | FD_NONE => mret tt
      end.

(** [fdalloc] of sysfile.c: the lowest free descriptor from [from] on. *)
Fixpoint free_fd (n : nat) (t : list (option nat)) (fd : nat) : option nat :=
  match n with
  | O => None
  | S n => match t !! fd with Some None => Some fd | _ => free_fd n t (S fd) end
  end.
Definition fdalloc (f : nat) (from : nat) : M fls Z :=
  o ← gets (fun s => free_fd (NOFILE - from) (ofile s) from);
  match o with
  | Some fd => modify (fun s => set_ofile (<[fd := Some f]> (ofile s)) s);; mret (Z.of_nat fd)
  | None => mret (- EBADF)
  end.

(** [pipealloc] of pipe.c; [kalloc] does not return when there is no page. *)
Definition pipealloc (flags : Z) : M fls (Z * option (nat * nat)) :=
  o0 ← filealloc;
  match o0 with
  | None => mret (-1, None)
  | Some f0 =>
      o1 ← filealloc;
      match o1 with
      | None => fileclose f0;; mret (-1, None)
      | Some f1 =>
          pi ← on_pipe po_alloc;
          upd_file f0 (fun fl => File FD_PIPE (f_ref fl) pi (f_ip fl) 0 (Z.lor O_RDONLY (Z.land flags PIPE2_FLAGS)) (f_major fl) 1 0);;
          upd_file f1 (fun fl => File FD_PIPE (f_ref fl) pi (f_ip fl) 0 (Z.lor (Z.lor O_WRONLY O_APPEND) (Z.land flags PIPE2_FLAGS)) (f_major fl) 0 1);;
          mret (0, Some (f0, f1))
      end
  end.

(** ** Reading, writing and positions *)

Definition filestat (f : nat) (addr : Z) : M fls Z :=
  fl ← get_file f;
  o ← match f_type fl with
      | FD_INODE | FD_DEVICE =>
          i ← ilock_ptr (f_ip fl);
          st ← on_fs (stati i (Stat 0 0 0 0 0 0 (rd64 st0 32) 0 0 0 (0, 0) (0, 0) (0, 0)));
          on_fs (iunlock i);;
          mret (Some (put_stat st st0))
      | FD_PIPE => mret (Some (wr32 16 0x2180 (wr64 48 0 (wr32 20 1 (wr64 64 0 (wr32 56 4096 st0))))))
      | FD_NONE => mret None
      end;
  match o with
  | None => mret (- EFAULT)
  | Some st =>
      r ← on_fs (either_copyout true addr (to_list st 0 sizeof_stat));
      if r <? 0 then mret (- EFAULT) else mret 0
  end.

Definition dev_call (fn : option (Z -> Z -> M (V * U) Z)) (err a b : Z) : M fls Z :=
  match fn with None => mret err | Some fn => on_dev (fn a b) end.
Definition no_dev (major : Z) : bool := (major <? 0) || (NDEV <=? major).

Definition fileread (f : nat) (addr n : Z) (user : bool) : M fls Z :=
  fl ← get_file f;
  if f_readable fl =? 0 then mret (-1)
  else
    match f_type fl with
    | FD_PIPE => on_pipe (po_read (f_pipe fl) addr n)
    | FD_DEVICE => if no_dev (f_major fl) then mret (- EINVAL) else dev_call (dev_read (f_major fl)) (- EINVAL) addr n
    | FD_INODE =>
        i ← ilock_ptr (f_ip fl);
        fl ← get_file f;
        r ← on_fs (readi junk i user addr (f_off fl) (u32 n));
        (if 0 <? r then upd_file f (fun fl => set_f_off (u32 (f_off fl + r)) fl) else mret tt);;
        t ← now;
        copy_at i (set_d_atime t);;
        on_fs (iunlock i);;
        mret r
    | FD_NONE => panic "fileread"%string
    end.

(** The loop of [filewrite]: the bytes written. *)
Fixpoint filewrite_loop (fuel : nat) (f : nat) (addr n : Z) (user : bool) (i : Z) : M fls Z :=
  match fuel with
  | O => nofuel
  | S fuel =>
      if i <? n then
        let n1 := Z.min write_max (n - i) in
        fl ← get_file f;
        ip ← ilock_ptr (f_ip fl);
        fl ← get_file f;
        r ← on_fs (writei junk ip user (u64 (addr + i)) (f_off fl) n1);
        (if 0 <? r then upd_file f (fun fl => set_f_off (u32 (f_off fl + r)) fl) else mret tt);;
        t ← now;
        copy_at ip (fun d => set_d_mtime t (set_d_atime t d));;
        on_fs (iunlock ip);;
        if negb (r =? n1) then mret i else filewrite_loop fuel f addr n user (i + r)
      else mret i
  end.
Definition filewrite (f : nat) (addr n : Z) (user : bool) : M fls Z :=
  fl ← get_file f;
  if f_writable fl =? 0 then mret (-1)
  else
    match f_type fl with
    | FD_PIPE => on_pipe (po_write (f_pipe fl) addr n)
    | FD_DEVICE => if no_dev (f_major fl) then mret (-1) else dev_call (dev_write (f_major fl)) (-1) addr n
    | FD_INODE =>
        i ← filewrite_loop (S (Z.to_nat (n / write_max + 1))) f addr n user 0;
        mret (if i =? n then n else -1)
    | FD_NONE => panic "filewrite"%string
    end.

(** [in_f->off] and the [flags] behind it, as the eight bytes at [&in_f->off]. *)
Definition off_bytes (f : file) : bytes := wr32 4 (u32 (f_flags f)) (wr32 0 (f_off f) (fun _ => 0)).
Fixpoint sendfile_loop (fuel : nat) (out_f in_f : nat) (count bytes : Z) : M fls (Z * Z) :=
  match fuel with
  | O => nofuel
  | S fuel =>
      let n := if PGSIZE <? count then PGSIZE else count in
      r ← fileread in_f page_addr n false;
      if negb (r =? n) then mret (- EIO, bytes)
      else
        r ← filewrite out_f page_addr n false;
        if negb (r =? n) then mret (- EIO, bytes)
        else if count - n <=? 0 then mret (0, bytes + n)
        else sendfile_loop fuel out_f in_f (count - n) (bytes + n)
  end.
Definition sendfile (out_f in_f : nat) (offsetp count : Z) : M fls Z :=
  fl ← get_file in_f;
  let offset := f_off fl in
  (if negb (offsetp =? 0) then
     r ← on_fs (either_copyin true offsetp 8);
     let m := mmove 0 0 (Z.of_nat (length r.2)) (of_list r.2) (off_bytes fl) in
     upd_file in_f (fun fl => set_f_off (rd32 m 0) (set_f_flags (s32 (rd32 m 4)) fl))
   else mret tt);;
  r ← sendfile_loop (Z.to_nat (count / PGSIZE + 2)) out_f in_f count 0;
  if r.1 <? 0 then mret r.1
  else
    (if negb (offsetp =? 0) then
       fl ← get_file in_f;
       on_fs (either_copyout true offsetp (to_list (off_bytes fl) 0 8));;
       upd_file in_f (set_f_off offset)
     else mret tt);;
    mret r.2.

Definition writeback (f : option nat) (off addr : Z) : M fls Z :=
  match f with
  | None => mret 0
  | Some f =>
      fl ← get_file f;
      match f_type fl with
      | FD_INODE =>
          if f_writable fl =? 0 then mret 0
          else
            i ← deref (f_ip fl);
            ip ← inode_at i;
            let size := d_size (i_copy ip) in
            let n := if size <? u64 (off + PGSIZE) then u32 (size - off) else PGSIZE in
            i ← ilock_ptr (f_ip fl);
            r ← on_fs (writei junk i true addr (u32 off) n);
            t ← now;
            copy_at i (fun d => set_d_mtime t (set_d_atime t d));;
            on_fs (iunlock i);;
            mret (if u32 r =? n then r else -1)
      | _ => mret 0
      end
  end.

Definition fileioctl (f : nat) (request argp : Z) : M fls Z :=
  fl ← get_file f;
  match f_type fl with
  | FD_INODE => if (request =? TCSBRK) || (request =? TCFLSH) then mret 0 else mret (- EINVAL)
  | FD_DEVICE => if no_dev (f_major fl) then mret (- EINVAL) else dev_call (dev_ioctl (f_major fl)) (- EINVAL) request argp
  | _ => mret (- EINVAL)
  end.

(** [offset] is an [off_t], unsigned here: no sum is below zero. *)
Definition filelseek (f : option nat) (offset whence : Z) : M fls Z :=
  match f with
  | None => mret (- EBADF)
  | Some f =>
      fl ← get_file f;
      if whence =? SEEK_SET then
        if offset <? 0 then mret (- EINVAL)
        else upd_file f (set_f_off (u32 offset));; mret (u32 offset)
      else if whence =? SEEK_CUR then
        if u64 (f_off fl + offset) <? 0 then mret (- EINVAL)
        else upd_file f (set_f_off (u32 (f_off fl + offset)));; mret (u32 (f_off fl + offset))
      else if whence =? SEEK_END then
        i ← deref (f_ip fl);
        ip ← inode_at i;
        let size := d_size (i_copy ip) in
        if u64 (size + offset) <? 0 then mret (- EINVAL)
        else upd_file f (set_f_off (u32 (size + offset)));; mret (u32 (size + offset))
      else mret (- EINVAL)
  end.

(** ** Directories *)

Fixpoint isdirempty_loop (fuel : nat) (dp : nat) (off : Z) : M fls bool :=
  match fuel with
  | O => nofuel
  | S fuel =>
      ip ← inode_at dp;
      if u32 off <? d_size (i_copy ip) then
        de ← on_fs (read_dirent junk dp (u32 off) "isdirempty: readi");
        if negb (de_inum de =? 0) then mret false else isdirempty_loop fuel dp (s32 (off + sizeof_dirent))
      else mret true
  end.
Definition isdirempty (dp : nat) : M fls bool :=
  ip ← inode_at dp; isdirempty_loop (dir_fuel (d_size (i_copy ip))) dp (2 * sizeof_dirent).

(** The [d_type] of getdents64. *)
Definition dirent64_type (type major : Z) : Z :=
  if type =? T_DEVICE then (if major =? 0 then IFTODT S_IFBLK else IFTODT S_IFCHR)
  else if type =? T_DIR then IFTODT S_IFDIR
  else if type =? T_SYMLINK then IFTODT S_IFLNK
  else if type =? T_MOUNT then IFTODT S_IFDIR
  else IFTODT S_IFREG.
Definition reclen_of (name : list Z) : Z :=
  let namelen := Z.min (Z.of_nat (length (upto_nul name))) DIRSIZ + 1 in
  Z.land (off_d_name + namelen + 7) (Z.lnot 7).

(** [de64] is what the local [struct dirent64] holds. *)
Fixpoint getdents64_loop (fuel : nat) (f : nat) (data size tlen off : Z) (de64 : bytes) : M fls Z :=
  match fuel with
  | O => nofuel
  | S fuel =>
      n ← fileread f de_addr sizeof_dirent false;
      if n =? 0 then mret tlen
      else if negb (n =? sizeof_dirent) then mret (if tlen =? 0 then -1 else tlen)
      else
        de ← gets (fun s => get_dirent (kmem (ffs s)) de_addr);
        if de_inum de =? 0 then getdents64_loop fuel f data size tlen off de64
        else
          let namelen := Z.min (Z.of_nat (length (upto_nul (de_name de)))) DIRSIZ + 1 in
          let reclen := reclen_of (de_name de) in
          if size <? tlen + reclen then mret tlen
          else
            fl ← get_file f;
            i ← deref (f_ip fl);
            ip ← inode_at i;
            dirip ← on_fs (iget (i_dev ip) (de_inum de));
            on_fs (ilock junk dirip);;
            dp ← inode_at dirip;
            on_fs (iunlockput junk dirip);;
            let de64 := put_dirent64 (de_inum de) (u64 off) (u16 reclen) (dirent64_type (d_type (i_copy dp)) (f_major fl))
                          (strncpy_l (Z.to_nat namelen) (de_name de ++ past)) de64 in
            r ← on_fs (either_copyout true (u64 (data + tlen)) (to_list de64 0 reclen));
            if r <? 0 then mret (- EFAULT)
            else
              fl ← get_file f;
              getdents64_loop fuel f data size (tlen + reclen) (s32 (f_off fl)) de64
  end.
Definition getdents64 (f : nat) (data size : Z) : M fls Z :=
  fl ← get_file f;
  i ← deref (f_ip fl);
  ip ← inode_at i;
  getdents64_loop (dir_fuel (d_size (i_copy ip))) f data size 0 0 st0.

(** ** Links *)

Definition filelink (oldpath : list Z) (olddirfd : Z) (newpath : list Z) (newdirfd : Z) : M fls Z :=
  o ← on_fs (namei junk oldpath stk olddirfd);
  match o with
  | None => mret (- ENOENT)
  | Some i =>
      on_fs (ilock junk i);;
      ip ← inode_at i;
      if d_type (i_copy ip) =? T_DIR then put_err i (- EPERM)
      else
        copy_at i (fun d => set_d_nlink (s16 (d_nlink d + 1)) d);;
        on_fs (iupdate junk i);;
        on_fs (iunlock i);;
        r ← on_fs (nameiparent junk newpath stk newdirfd);
        error ← match r.1 with
          | None => mret (- ENOENT)
          | Some dp =>
              on_fs (ilock junk dp);;
              d ← inode_at dp;
              ip ← inode_at i;
              if negb (i_dev d =? i_dev ip) then put_err dp (- EXDEV)
              else
                e ← on_fs (dirlink junk dp r.2 (i_inum ip) (u16 (d_type (i_copy ip))));
                put_err dp e
          end;
        if negb (error =? 0) then
          on_fs (ilock junk i);;
          copy_at i (fun d => set_d_nlink (s16 (d_nlink d - 1)) d);;
          on_fs (iupdate junk i);;
          put_err i error
        else on_fs (iput junk i);; mret 0
  end.

Definition filesymlink (target linkpath : list Z) (dirfd : Z) : M fls Z :=
  r ← on_fs (nameiparent junk linkpath stk dirfd);
  match r.1 with
  | None => mret (- ENOENT)
  | Some dp =>
      on_fs (ilock junk dp);;
      d ← inode_at dp;
      o ← on_fs (ialloc junk (i_dev d) T_SYMLINK);
      match o with
      | None => put_err dp (- ENOMEM)
      | Some i =>
          on_fs (ilock junk i);;
          t ← now;
          copy_at i (fun d => set_d_times t (set_d_type T_SYMLINK (set_d_mode (Z.lor S_IFLNK 0x1ff) (set_d_nlink 1 (set_d_dev 0 0 d)))));;
          on_fs (iupdate junk i);;
          ip ← inode_at i;
          error ← on_fs (dirlink junk dp r.2 (i_inum ip) (u16 (d_type (i_copy ip))));
          if negb (error =? 0) then on_fs (iunlockput junk dp);; put_err i error
          else
            on_fs (iupdate junk dp);;
            on_fs (iunlockput junk dp);;
            on_fs (modify (fun s => set_kmem (mmove buf_addr 0 (Z.of_nat (length target)) (of_list target) (kmem s)) s));;
            on_fs (writei junk i false buf_addr 0 (Z.of_nat (length target)));;
            on_fs (iupdate junk i);;
            put_err i 0
      end
  end.

Definition filereadlink (path : list Z) (dirfd buf bufsize : Z) : M fls Z :=
  r ← on_fs (nameiparent junk path stk dirfd);
  match r.1 with
  | None => mret (- ENOTDIR)
  | Some dp =>
      on_fs (iput junk dp);;
      o ← on_fs (namei junk path stk dirfd);
      match o with
      | None => mret (- ENOENT)
      | Some i =>
          on_fs (ilock junk i);;
          ip ← inode_at i;
          if negb (d_type (i_copy ip) =? T_SYMLINK) then put_err i (- EINVAL)
          else
            n ← on_fs (readi junk i true buf 0 (u32 bufsize));
            if n <=? 0 then put_err i (- EIO) else put_err i n
      end
  end.

(** [error] is a [uint32_t], returned as a [long]. *)
Definition fileunlink (path : list Z) (dirfd flags : Z) : M fls Z :=
  r ← on_fs (nameiparent junk path stk dirfd);
  match r.1 with
  | None => mret (- ENOENT)
  | Some dp =>
      on_fs (ilock junk dp);;
      if (namecmp r.2 DOT =? 0) || (namecmp r.2 DOTDOT =? 0) then put_err dp (u32 (- EPERM))
      else
        o ← on_fs (dirlookup junk dp r.2);
        match o with
        | None => put_err dp (u32 (- ENOENT))
        | Some (i, off) =>
            on_fs (ilock junk i);;
            let badip e := on_fs (iunlockput junk i);; put_err dp (u32 (- e)) in
            ip ← inode_at i;
            if d_nlink (i_copy ip) <? 1 then badip EPERM
            else
              e ← (if negb (Z.land flags AT_REMOVEDIR =? 0) then
                     if negb (d_type (i_copy ip) =? T_DIR) then mret ENOTDIR
                     else b ← isdirempty i; mret (if b : bool then 0 else EPERM)
                   else mret (if d_type (i_copy ip) =? T_DIR then EISDIR else 0));
              if negb (e =? 0) then badip e
              else
                r ← on_fs (unlink junk dp off);
                if r <? 0 then badip EIO
                else
                  (if d_type (i_copy ip) =? T_DIR then
                     copy_at dp (fun d => set_d_nlink (s16 (d_nlink d - 1)) d);; on_fs (iupdate junk dp)
                   else mret tt);;
                  on_fs (iunlockput junk dp);;
                  copy_at i (fun d => set_d_nlink (s16 (d_nlink d - 1)) d);;
                  on_fs (iupdate junk i);;
                  put_err i 0
        end
  end.

(** ** Creating and opening *)

(** [create] returns a locked inode, NULL, or an error cast to a pointer. *)
Inductive iptr := Inode_ptr (i : nat) | Null_ptr | Err_ptr (e : Z).

Definition create (path : list Z) (dirfd type major minor mode : Z) : M fls iptr :=
  r ← on_fs (nameiparent junk path stk dirfd);
  match r.1 with
  | None => mret (Err_ptr (- ENOENT))
  | Some dp =>
      on_fs (ilock junk dp);;
      p ← permits dp MAY_EXEC;
      if p <? 0 then put_err dp (Err_ptr (- EACCES))
      else
        o ← on_fs (dirlookup junk dp r.2);
        match o with
        | Some (i, _) =>
            on_fs (iunlockput junk dp);;
            on_fs (ilock junk i);;
            ip ← inode_at i;
            let t := d_type (i_copy ip) in
            if (type =? T_FILE) && ((t =? T_FILE) || (t =? T_DEVICE)) then mret (Inode_ptr i)
            else put_err i (Err_ptr (- EEXIST))
        | None =>
            d ← inode_at dp;
            o ← on_fs (ialloc junk (i_dev d) type);
            match o with
            | None => put_err dp (Err_ptr (- ENOMEM))
            | Some i =>
                on_fs (ilock junk i);;
                t ← now;
                c ← gets fcred;
                copy_at i (fun d => set_d_owner (uid c) (gid c) (set_d_times t (set_d_type type (set_d_mode (Z.land mode (Z.lnot (umask c))) (set_d_nlink 1 (set_d_dev major minor d))))));;
                on_fs (iupdate junk i);;
                ip ← inode_at i;
                let inum := i_inum ip in
                let ty := u16 (d_type (i_copy ip)) in
                let fail := copy_at i (set_d_nlink 0);; on_fs (iupdate junk i);; on_fs (iunlockput junk i);; put_err dp Null_ptr in
                ok ← (if type =? T_DIR then
                        e ← on_fs (dirlink junk i DOT inum ty);
                        if e <? 0 then mret false
                        else
                          d ← inode_at dp;
                          e ← on_fs (dirlink junk i DOTDOT (i_inum d) (u16 (d_type (i_copy d))));
                          mret (negb (e <? 0))
                      else mret true);
                if negb (ok : bool) then fail
                else
                  e ← on_fs (dirlink junk dp r.2 inum ty);
                  if e <? 0 then fail
                  else
                    (if type =? T_DIR then
                       copy_at dp (fun d => set_d_nlink (s16 (d_nlink d + 1)) d);; on_fs (iupdate junk dp)
                     else mret tt);;
                    put_err dp (Inode_ptr i)
            end
        end
  end.

(** Read the target of the locked link [i] into a local buffer: the result of
    [readi], and the string there. *)
Definition read_link (i : nat) (n : Z) : M fls (Z * list Z) :=
  r ← on_fs (readi junk i false buf_addr 0 n);
  k ← gets (fun s => kmem (ffs s));
  mret (r, upto_nul (to_list k buf_addr r)).

(** The inode fileopen opens without O_CREAT, locked; or the error. *)
Fixpoint open_loop (fuel : nat) (path : list Z) (dirfd flags : Z) : M fls (nat + Z) :=
  match fuel with
  | O => nofuel
  | S fuel =>
      o ← on_fs (namei junk path stk dirfd);
      match o with
      | None => mret (inr (- ENOENT))
      | Some i =>
          on_fs (ilock junk i);;
          ip ← inode_at i;
          if (d_type (i_copy ip) =? T_DIR) && negb (Z.land flags O_ACCMODE =? 0) then put_err i (inr (- EINVAL))
          else if d_type (i_copy ip) =? T_SYMLINK then
            r ← read_link i 511;
            if r.1 <=? 0 then put_err i (inr (- ENOENT))
            else on_fs (iunlockput junk i);; open_loop fuel r.2 dirfd flags
          else mret (inl i)
      end
  end.

Definition fileopen (path : list Z) (dirfd flags mode : Z) : M fls Z :=
  r ← (if negb (Z.land flags O_CREAT =? 0) then
         o ← on_fs (namei junk path stk dirfd);
         match o with
         | Some i =>
             if negb (Z.land flags O_EXCL =? 0) then on_fs (iput junk i);; mret (inr (- EEXIST))
             else on_fs (ilock junk i);; mret (inl i)
         | None =>
             p ← create path dirfd T_FILE 0 0 (Z.lor mode S_IFREG);
             match p with
             | Inode_ptr i => mret (inl i)
             | Null_ptr => mret (inr (- EDQUOT))
             | Err_ptr _ => fun _ => Undef
             end
         end
       else open_loop loops path dirfd flags);
  match r with
  | inr e => mret e
  | inl i =>
      let readable := FILE_READABLE flags in
      let writable := FILE_WRITABLE flags in
      a ← (if readable then permits i MAY_READ else mret 0);
      if a <? 0 then put_err i (- EACCES)
      else
        a ← (if writable then permits i MAY_WRITE else mret 0);
        if a <? 0 then put_err i (- EACCES)
        else
          o ← filealloc;
          match o with
          | None => on_fs (iunlock i);; mret (- ENOSPC)
          | Some f =>
              fd ← fdalloc f 0;
              if fd <? 0 then on_fs (iunlock i);; fileclose f;; mret (- ENOSPC)
              else
                ip ← inode_at i;
                (if d_type (i_copy ip) =? T_DEVICE then
                   upd_file f (fun fl => File FD_DEVICE (f_ref fl) (f_pipe fl) (f_ip fl) (f_off fl) (f_flags fl) (d_major (i_copy ip)) (f_readable fl) (f_writable fl))
                 else
                   upd_file f (fun fl => File FD_INODE (f_ref fl) (f_pipe fl) (f_ip fl)
                     (if negb (Z.land flags O_APPEND =? 0) then d_size (i_copy ip) else 0) (f_flags fl) 0 (f_readable fl) (f_writable fl)));;
                upd_file f (fun fl => File (f_type fl) (f_ref fl) (f_pipe fl) (Some i) (f_off fl) flags (f_major fl) (Z.b2z readable) (Z.b2z writable));;
                (if negb (Z.land flags O_CLOEXEC =? 0) then modify (fun s => set_fdflag (Z.lor (fdflag s) (Z.shiftl 1 fd)) s) else mret tt);;
                on_fs (iunlock i);;
                mret fd
          end
  end.

(** ** Owners, modes and access *)

Definition filechmod (path : list Z) (dirfd mode : Z) : M fls Z :=
  o ← on_fs (namei junk path stk dirfd);
  match o with
  | None => mret (- ENOENT)
  | Some i =>
      on_fs (ilock junk i);;
      copy_at i (fun d => set_d_mode (Z.lor (Z.land (d_mode d) S_IFMT) mode) d);;
      on_fs (iupdate junk i);;
      put_err i 0
  end.

(** The inode filechown and faccess find, locked: links are followed through
    the caller's own path buffer, [maxpath_bytes] of it. *)
Fixpoint follow_loop (fuel : nat) (path : list Z) (dirfd flags : Z) : M fls (nat + Z) :=
  match fuel with
  | O => nofuel
  | S fuel =>
      o ← on_fs (namei junk path stk dirfd);
      match o with
      | None => mret (inr (- ENOENT))
      | Some i =>
          on_fs (ilock junk i);;
          ip ← inode_at i;
          if (Z.land flags AT_SYMLINK_NOFOLLOW =? 0) && (d_type (i_copy ip) =? T_SYMLINK) then
            r ← read_link i maxpath_bytes;
            if r.1 <=? 0 then put_err i (inr (- ENOENT))
            else on_fs (iunlockput junk i);; follow_loop fuel r.2 dirfd flags
          else mret (inl i)
      end
  end.

(** [p->euid] decides for the group; [owner] and [group] are a [uid_t] and a
    [gid_t]. *)
Definition filechown (f : option nat) (path : list Z) (dirfd owner group flags : Z) : M fls Z :=
  r ← match f with
      | Some f => fl ← get_file f; i ← deref (f_ip fl); mret (inl i)
      | None => follow_loop loops path dirfd flags
      end;
  match r with
  | inr e => mret e
  | inl i =>
      c ← gets fcred;
      let own := negb (owner =? no_id) in
      if own && negb (capable CAP_CHOWN c) then put_err i (- EPERM)
      else
        (if own then copy_at i (fun d => set_d_owner owner (d_gid d) d) else mret tt);;
        ip ← inode_at i;
        let grp := negb (group =? no_id) in
        if grp && negb (capable CAP_CHOWN c) && negb (d_uid (i_copy ip) =? euid c) then put_err i (- EPERM)
        else
          (if grp then copy_at i (fun d => set_d_owner (d_uid d) group d) else mret tt);;
          (if negb (Z.land (d_mode (i_copy ip)) S_IXUGO =? 0) && negb (capable CAP_CHOWN c) then
             copy_at i (fun d => set_d_mode (Z.land (d_mode d) (Z.lnot (Z.lor S_ISUID S_ISGID))) d)
           else mret tt);;
          on_fs (iupdate junk i);;
          put_err i 0
  end.

(** [fileget]: the file opened for reading by exec, or the error. *)
Fixpoint fileget_loop (fuel : nat) (path : list Z) : M fls (nat + Z) :=
  match fuel with
  | O => nofuel
  | S fuel =>
      o ← on_fs (namei junk path stk AT_FDCWD);
      match o with
      | None => mret (inr (- ENOENT))
      | Some i =>
          on_fs (ilock junk i);;
          ip ← inode_at i;
          if d_type (i_copy ip) =? T_SYMLINK then
            r ← read_link i 511;
            if r.1 <=? 0 then put_err i (inr (- ENOENT))
            else on_fs (iunlockput junk i);; fileget_loop fuel r.2
          else if negb (d_type (i_copy ip) =? T_FILE) then put_err i (inr (- EINVAL))
          else
            o ← filealloc;
            match o with
            | None => put_err i (inr (- ENOSPC))
            | Some f =>
                e ← permits i MAY_READ;
                if e <? 0 then put_err i (inr e)
                else
                  upd_file f (fun fl => File FD_INODE 1 (f_pipe fl) (Some i) 0 O_RDONLY (f_major fl) 1 0);;
                  on_fs (iunlock i);;
                  mret (inl f)
            end
      end
  end.
Definition fileget (path : list Z) : M fls (nat + Z) := fileget_loop loops path.

(** The bits faccess tests for one kind of access: it refuses only when every
    one of the three tests fails. *)
Definition access_denied (isu isg : bool) (fmode u g o : Z) : bool :=
  (isu && (Z.land fmode u =? 0)) && (isg && (Z.land fmode g =? 0)) && (Z.land fmode o =? 0).
Definition faccess (path : list Z) (dirfd mode flags : Z) : M fls Z :=
  if negb (Z.land mode (Z.lnot S_IRWXO) =? 0) then mret (- EINVAL)
  else
    r ← follow_loop loops path dirfd flags;
    match r with
    | inr e => mret e
    | inl i =>
        ip ← inode_at i;
        let fmode := d_mode (i_copy ip) in
        let fuid := d_uid (i_copy ip) in
        let fgid := d_gid (i_copy ip) in
        on_fs (iunlockput junk i);;
        c ← gets fcred;
        if mode =? 0 then mret 0
        else if uid c =? 0 then
          mret (if negb (Z.land mode 1 =? 0) && (Z.land fmode S_IXUGO =? 0) then - EACCES else 0)
        else
          let u := if negb (Z.land flags AT_EACCESS =? 0) then euid c else uid c in
          let g := if negb (Z.land flags AT_EACCESS =? 0) then egid c else gid c in
          mret
            (if negb (Z.land mode 4 =? 0) && access_denied (fuid =? u) (fgid =? g) fmode 0x100 0x20 4 then - EACCES
             else if negb (Z.land mode 2 =? 0) && access_denied (fuid =? u) (fgid =? g) fmode 0x80 0x10 2 then - EACCES
             else if negb (Z.land mode 1 =? 0) && access_denied (fuid =? u) (fgid =? g) fmode 0x40 1 1 then - EACCES
             else 0)
    end.

(** ** Renaming *)

Definition rename (dp : nat) (name1 name2 : list Z) : M fls Z :=
  on_fs (ilock junk dp);;
  o ← on_fs (dirlookup junk dp name1);
  match o with
  | None => mret (- ENOENT)
  | Some (i, off) =>
      on_fs (ilock junk i);;
      ip ← inode_at i;
      on_fs (modify (fun s => set_kmem (put_dirent de_addr (Dirent (i_inum ip) (u16 (d_type (i_copy ip))) name2) (kmem s)) s));;
      r ← on_fs (writei junk dp false de_addr off sizeof_dirent);
      if negb (r =? sizeof_dirent) then mret (- ENOSPC)
      else
        on_fs (iupdate junk dp);;
        t ← now;
        copy_at i (set_d_ctime t);;
        on_fs (iupdate junk i);;
        on_fs (iunlockput junk i);;
        put_err dp 0
  end.

Definition reinode (dp old_ip new_ip : nat) : M fls Z :=
  on_fs (ilock junk dp);;
  on_fs (ilock junk old_ip);;
  on_fs (ilock junk new_ip);;
  oip ← inode_at old_ip;
  o ← on_fs (direntlookup junk dp (i_inum oip));
  match o with
  | None => mret (- ENOENT)
  | Some (de, off) =>
      nip ← inode_at new_ip;
      on_fs (modify (fun s => set_kmem (put_dirent de_addr (Dirent (i_inum nip) (de_type de) (de_name de)) (kmem s)) s));;
      r ← on_fs (writei junk dp false de_addr (u32 off) sizeof_dirent);
      if negb (r =? sizeof_dirent) then mret (- ENOSPC)
      else
        on_fs (iupdate junk dp);;
        t ← now;
        copy_at new_ip (set_d_ctime t);;
        copy_at old_ip (set_d_ctime t);;
        on_fs (iupdate junk old_ip);;
        on_fs (iupdate junk new_ip);;
        on_fs (iunlockput junk old_ip);;
        on_fs (iunlockput junk new_ip);;
        put_err dp 0
  end.

(** [AT_REMOVEDIR] for an inode that is in the table as a directory. *)
Definition dir_flag (i : nat) : M fls Z := ip ← inode_at i; mret (if d_type (i_copy ip) =? T_DIR then AT_REMOVEDIR else 0).
Definition iput_ptr (o : option nat) : M fls unit := i ← deref o; on_fs (iput junk i).

Definition filerename (oldpath : list Z) (olddirfd : Z) (newpath : list Z) (newdirfd flags : Z) : M fls Z :=
  o ← (if negb (Z.land flags RENAME_NOREPLACE =? 0) then on_fs (namei junk newpath stk newdirfd) else mret None);
  match o with
  | Some ip2 => on_fs (iunlock ip2);; mret (- EEXIST)
  | None =>
      o1 ← on_fs (namei junk oldpath stk olddirfd);
      match o1 with
      | None => mret (- ENOENT)
      | Some ip1 =>
          r1 ← on_fs (nameiparent junk oldpath stk olddirfd);
          ip2 ← on_fs (namei junk newpath stk newdirfd);
          r2 ← on_fs (nameiparent junk newpath stk newdirfd);
          let dp1 := r1.1 in
          let dp2 := r2.1 in
          if bool_decide (ip2 = Some ip1) then
            on_fs (iput junk ip1);; on_fs (iput junk ip1);; iput_ptr dp1;; iput_ptr dp2;; mret 0
          else if bool_decide (dp1 = dp2) then
            match ip2 with
            | None =>
                dp ← deref dp1;
                error ← rename dp r1.2 r2.2;
                if error <? 0 then mret error else on_fs (iput junk ip1);; iput_ptr dp2;; mret 0
            | Some ip2 =>
                dp ← deref dp2;
                error ← reinode dp ip2 ip1;
                if error <? 0 then mret error
                else iput_ptr dp1;; fl ← dir_flag ip2; fileunlink newpath newdirfd fl
            end
          else
            match ip2 with
            | None =>
                dp ← deref dp2;
                i1 ← inode_at ip1;
                error ← on_fs (dirlink junk dp r2.2 (i_inum i1) (u16 (d_type (i_copy i1))));
                if error <? 0 then mret error
                else fl ← dir_flag ip1; iput_ptr dp1;; on_fs (iput junk ip1);; fileunlink oldpath olddirfd fl
            | Some ip2 =>
                dp ← deref dp2;
                error ← reinode dp ip2 ip1;
                if error <? 0 then mret error
                else fl ← dir_flag ip2; iput_ptr dp1;; on_fs (iput junk ip2);; fileunlink newpath newdirfd fl
            end
      end
  end.
End File.
Arguments fls D U P V : clear implicits.
Arguments Fls {D U P V}.
