(* ===== verification/FileInv.v ===== *)
(** * What the calls on an open file do

    [open_file s f fl i ip] is a file open on an inode nobody has locked, in a
    file system in order.  A read or a write locks the inode, works at the
    file's offset, moves the offset and unlocks. *)
From S2P Require Import Prelude Spinlock Bytes UserMem Cred Bio BioInv Fs FsBlocks FsInode FsFile FsGrow FsWrite FsLink File.

Section FileInv.
Context {D : Type} `{sdcard_laws D} {U : Type} `{!usermem U} {P : Type} `{!pipeops U P} {V : Type} `{!devsw U V}.
Context (junk : bytes) (dev lba : Z) (L : gset Z).
Local Notation fst := (fst D U).
Local Notation fls := (fls D U P V).
Implicit Types s : fls.
Implicit Types t : fst.
Local Notation idle := (idle dev lba L).
Local Notation file_at := (file_at dev lba).
Local Notation wrote := (wrote dev lba L).
Local Notation quiet := (quiet dev lba L ∅).

(** ** The inode's lock *)

Lemma iunlock_ok t i ip : idle t -> itable t !! i = Some ip -> i_locked ip = true -> i_pid ip = fpid t -> 1 <= i_ref ip -> inode_lock i ∈ L ->
  exists b, iunlock i t = Done tt (set_itable (<[i := set_i_lock false 0 ip]> (itable t)) (set_fbio b t)) /\ quiet (fbio t) b.
Proof.
  intros [Hdev (HLb & HLs & HLt) HI] Hi Hl Hp Hr HL. unfold iunlock, holdingsleep.
  destruct (flock_ok dev lba L (inode_lock i) t ∅ HI HL) as (c1 & E1 & Hc1). rewrite bind_assoc, (bind_Done _ _ _ _ _ E1).
  set (t1 := set_fbio (set_bcpu c1 (fbio t)) t). rewrite bind_assoc, (bind_Done _ _ _ _ _ (get_inode_ok t1 i ip Hi)), bind_assoc, bind_gets.
  destruct (funlock_ok L (inode_lock i) t1 Hc1) as (c2 & E2 & Hc2). rewrite bind_assoc, (bind_Done _ _ _ _ _ E2), bind_ret.
  set (t2 := set_fbio (set_bcpu c2 (fbio t1)) t1). rewrite (bind_Done _ _ _ _ _ (get_inode_ok t2 i ip Hi)).
  rewrite Hl, Hp. change (fpid t1) with (fpid t). rewrite Z.eqb_refl. cbn [andb negb orb]. rewrite (proj2 (Z.ltb_ge _ _)) by lia.
  unfold releasesleep. assert (HI2 : binv dev lba L (fbio t2) ∅) by exact (binv_cpu dev lba L (fbio t) ∅ c2 HI Hc2).
  destruct (flock_ok dev lba L (inode_lock i) t2 ∅ HI2 HL) as (c3 & E3 & Hc3). rewrite (bind_Done _ _ _ _ _ E3). set (t3 := set_fbio (set_bcpu c3 (fbio t2)) t2).
  rewrite (bind_Done _ _ _ _ _ (upd_inode_ok t3 i ip _ Hi)).
  destruct (funlock_ok L (inode_lock i) (set_itable (<[i := set_i_lock false 0 ip]> (itable t3)) t3) Hc3) as (c4 & E4 & Hc4). rewrite E4.
  exists (set_bcpu c4 (fbio t)). split; [done|]. split; [by apply binv_cpu|by intros j x|done].
Qed.

(** ** Files in the file table *)

(** File [fl] in slot [f] is open on the inode [ip] of slot [i]. *)
Record open_file s (f : nat) (fl : file) (i : nat) (ip : inode) : Prop := {
  of_slot : files s !! f = Some fl;
  of_type : f_type fl = FD_INODE;
  of_ip : f_ip fl = Some i;
  of_off : 0 <= f_off fl;
  of_idle : idle (fs_of s);
  of_file : file_at (fs_of s) i ip;
  of_free : i_locked ip = false;
  of_ref : 1 <= i_ref ip;
  of_valid : i_valid ip <> 0;
  of_lock : inode_lock i ∈ L;
  of_now : time_range (fnow (ffs s))
}.

Lemma fs_of_set v s : fofile v = ofile_ip s -> fs_of (set_ffs v s) = v.
Proof. intros E. destruct v. cbn in E. subst. done. Qed.

(** The file table [fs] and the file system [v] in place of those of [s]. *)
Definition with_fs (fs : list file) (v : fst) s : fls := set_files fs (set_ffs v s).

Lemma ofile_ip_off s v f fl off : files s !! f = Some fl -> ofile_ip (with_fs (<[f := set_f_off off fl]> (files s)) v s) = ofile_ip s.
Proof.
  intros Hf. unfold ofile_ip. cbn [with_fs files ofile set_files set_ffs]. apply list_fmap_ext. intros j [g|] _; [|done]. cbn.
  destruct (decide (g = f)) as [->|Hne]; [|by rewrite list_lookup_insert_ne by done].
  rewrite list_lookup_insert_eq by (by eapply lookup_lt_Some). by rewrite Hf.
Qed.

Lemma fs_of_with s v f fl off : files s !! f = Some fl -> fofile v = ofile_ip s -> fs_of (with_fs (<[f := set_f_off off fl]> (files s)) v s) = v.
Proof. intros Hf E. pose proof (ofile_ip_off s v f fl off Hf) as E'. unfold fs_of. rewrite E', <- E. by destruct v. Qed.

(** An inode whose lock, times or size changed, over a re-read cache. *)
Lemma file_at_upd t i ip ip' b : file_at t i ip -> quiet (fbio t) b -> i_dev ip' = i_dev ip -> i_inum ip' = i_inum ip -> d_addrs (i_copy ip') = d_addrs (i_copy ip) ->
  dinode_ok (i_copy ip') -> file_at (set_itable (<[i := ip']> (itable t)) (set_fbio b t)) i ip'.
Proof.
  intros [F1 F2 F3 F4 F5 F6 (F7 & F8 & F9 & F10)] [Q1 Q2 Q3] Ed En Ea Hok.
  assert (S : fstep lba (sb t) 0 (fcontent lba (fbio t) (i_copy ip)) (fbio t) (i_copy ip) b (i_copy ip)) by (apply same_step; auto).
  assert (Hr : forall r, rvalid r -> rblk lba b (i_copy ip') r = rblk lba (fbio t) (i_copy ip) r) by (intros r; apply rblk_same; auto).
  split; try done; [cbn; apply list_lookup_insert_eq; by eapply lookup_lt_Some|congruence|congruence|apply S| |].
  - split; [rewrite Ea; apply F6| |]; cbn [fbio set_itable set_fbio sb].
    + intros r Hv. rewrite Hr by done. intros Hne. destruct (fo_blk _ _ _ _ F6 r Hv Hne) as (K1 & K2 & K3). split; [done|]. split; [by apply (st_used _ _ _ _ _ _ _ _ S); [lia|]|done].
    + intros r r' Hv Hv'. rewrite !Hr by done. by apply (fo_inj _ _ _ _ F6).
  - rewrite En. change (inode_block (set_itable (<[i := ip']> (itable t)) (set_fbio b t)) (i_inum ip)) with (inode_block t (i_inum ip)). cbn [fbio set_itable set_fbio sb].
    split; [done|]. split; [by apply (st_used _ _ _ _ _ _ _ _ S)|]. split; [done|]. intros r Hv. rewrite Hr by done. by apply F10.
Qed.

Lemma content_upd t b d d' p : quiet (fbio t) b -> d_addrs d' = d_addrs d -> fcontent lba b d' p = fcontent lba (fbio t) d p.
Proof.
  intros Hq Ea. unfold fcontent, imap, addr_of. rewrite Ea. fold (addr_of d (p / BSIZE)) (addr_of d NDIRECT) (addr_of d (NDIRECT + 1)).
  rewrite !(word_quiet dev lba L ∅ (fbio t) b) by done. cbv zeta. by rewrite !(qu_disk _ _ _ _ _ _ Hq).
Qed.

Lemma nfree_quiet t b k : quiet (fbio t) b -> nfree lba k b = nfree lba k (fbio t).
Proof. intros Hq. apply nfree_same. intros y Hy. apply bitset_same. intros j Hj. apply (qu_disk _ _ _ _ _ _ Hq). Qed.

(** The inode locked for the call. *)
Lemma lock_file s f fl i ip : open_file s f fl i ip -> exists b, let ip1 := set_i_lock true (fpid (ffs s)) ip in
  let t1 := set_itable (<[i := ip1]> (itable (ffs s))) (set_fbio b (fs_of s)) in
  ilock_ptr junk (f_ip fl) s = Done i (set_ffs t1 s) /\ quiet (fbio (ffs s)) b /\ idle t1 /\ file_at t1 i ip1.
Proof.
  intros [H1 H2 H3 H4 H5 H6 H7 H8 H9 H10 H11]. pose proof H5 as [Hdev (HLb & HLs & HLt) HI]. pose proof H6 as [F1 F2 F3 F4 F5 F6 (F7 & F8 & F9 & F10)].
  pose proof (geo_range _ _ (dk_geo _ _ _ F5) _ F7) as Hrg.
  pose proof (ilock_ok junk dev lba L Hdev HLb HLs (fs_of s) ∅ i ip HI nbuf_none F1 F2 H8 H7 H10 Hrg (no_held _)) as Hl. cbv zeta in Hl.
  rewrite (proj2 (Z.eqb_neq (i_valid ip) 0)) in Hl by done. cbn [andb] in Hl. destruct Hl as (b & E & HI' & Hk & Hd). exists b. cbv zeta.
  assert (Eip : Inode dev (i_inum ip) (i_ref ip) true (fpid (fs_of s)) (i_valid ip) (i_copy ip) = set_i_lock true (fpid (ffs s)) ip) by (unfold set_i_lock; by rewrite F2).
  rewrite Eip in E. assert (Hq : quiet (fbio (ffs s)) b) by (split; [done|done|exact Hd]). split; [|split; [done|split]].
  - rewrite H3. cbn [ilock_ptr]. rewrite (bind_Done _ _ _ _ _ (zoom_Done fs_of set_ffs _ s tt _ E)). done.
  - split; [done|done|]. exact HI'.
  - exact (file_at_upd (fs_of s) i ip (set_i_lock true (fpid (ffs s)) ip) b H6 Hq eq_refl eq_refl eq_refl F4).
Qed.

(** The end of a call: times, and the lock given back. *)
Lemma finish_file s i ip1 t' (g : dinode -> dinode) {A} (K : M fls A) : fofile t' = ofile_ip s -> idle t' -> file_at t' i ip1 ->
  i_locked ip1 = true -> i_pid ip1 = fpid t' -> 1 <= i_ref ip1 -> inode_lock i ∈ L -> dinode_ok (g (i_copy ip1)) -> d_addrs (g (i_copy ip1)) = d_addrs (i_copy ip1) ->
  exists t2 b, let ip2 := set_i_lock false 0 (set_i_copy (g (i_copy ip1)) ip1) in
    (copy_at i g;; on_fs (iunlock i);; K) (set_ffs t' s) = K (set_ffs t2 s) /\
    t2 = set_itable (<[i := ip2]> (itable t')) (set_fbio b t') /\ quiet (fbio t') b /\ idle t2 /\ file_at t2 i ip2.
Proof.
  intros Eo Hid Hfa Hl Hp Hr HL Hok Ea. pose proof (fa_slot _ _ _ _ _ Hfa) as Hi. set (ipg := set_i_copy (g (i_copy ip1)) ip1).
  set (tg := set_itable (<[i := ipg]> (itable t')) t').
  assert (Hq0 : quiet (fbio t') (fbio t')) by (apply quiet_refl, Hid).
  assert (Hg : file_at tg i ipg).
  { pose proof (file_at_upd t' i ip1 ipg (fbio t') Hfa Hq0 eq_refl eq_refl Ea Hok) as Hg. rewrite fst_eta in Hg. exact Hg. }
  assert (Ec : copy_at i g (set_ffs t' s) = Done tt (set_ffs tg s)).
  { unfold copy_at, on_fs, zoom, upd_copy. rewrite fs_of_set by done. rewrite (upd_inode_ok t' i ip1 _ Hi). done. }
  destruct (iunlock_ok tg i ipg) as (b & E & Hq); [by destruct Hid|apply Hg|done|done|done|done|].
  cbn [itable tg set_itable] in E. rewrite list_insert_insert_eq in E.
  exists (set_itable (<[i := set_i_lock false 0 ipg]> (itable t')) (set_fbio b t')), b. cbv zeta. split; [|split; [done|split; [exact Hq|split]]].
  - rewrite (bind_Done _ _ _ _ _ Ec). assert (Eu : on_fs (iunlock i) (set_ffs tg s) = Done tt (set_ffs (set_itable (<[i := set_i_lock false 0 ipg]> (itable t')) (set_fbio b t')) s)).
    { unfold on_fs, zoom. rewrite (fs_of_set tg s Eo), E. done. }
    by rewrite (bind_Done _ _ _ _ _ Eu).
  - destruct Hid as [? ? _]. split; [done|done|apply Hq].
  - pose proof (file_at_upd t' i ip1 (set_i_lock false 0 ipg) b Hfa Hq eq_refl eq_refl Ea Hok) as Hu. exact Hu.
Qed.

(** ** Writing *)

(** The file after [n] bytes [W] were written at its offset, for at most [c]
    blocks of the disk. *)
Record file_wrote s (f : nat) (fl : file) (i : nat) (ip : inode) (n : Z) (W : Z -> Z) (c : Z) s' (ip' : inode) : Prop := {
  fw_open : open_file s' f (set_f_off (f_off fl + n) fl) i ip';
  fw_state : s' = with_fs (<[f := set_f_off (f_off fl + n) fl]> (files s)) (ffs s') s;
  fw_size : d_size (i_copy ip') = Z.max (d_size (i_copy ip)) (f_off fl + n);
  fw_content : forall p, 0 <= p < MAXFILE * BSIZE ->
    fcontent lba (fbio (ffs s')) (i_copy ip') p = if decide (f_off fl <= p < f_off fl + n) then W (p - f_off fl) else fcontent lba (fbio (ffs s)) (i_copy ip) p;
  fw_mapped : forall p, f_off fl <= p < f_off fl + n -> rblk lba (fbio (ffs s')) (i_copy ip') (RData (p / BSIZE)) <> 0;
  fw_keep : forall bn, 0 <= bn < MAXFILE -> rblk lba (fbio (ffs s)) (i_copy ip) (RData bn) <> 0 -> rblk lba (fbio (ffs s')) (i_copy ip') (RData bn) <> 0;
  fw_free : nfree lba (sb (ffs s)) (fbio (ffs s)) <= nfree lba (sb (ffs s)) (fbio (ffs s')) + c;
  fw_rest : sb (ffs s') = sb (ffs s) /\ kmem (ffs s') = kmem (ffs s) /\ fuser (ffs s') = fuser (ffs s)
}.

(** One round of [filewrite]. *)
Lemma write_round s f fl i ip us a n W {A} (K : Z -> M fls A) : open_file s f fl i ip -> source us a n W (fs_of s) -> 0 <= a < 2 ^ 64 ->
  f_off fl <= d_size (i_copy ip) -> 0 < n < 2 ^ 31 -> f_off fl + n < 2 ^ 32 -> 3 * (n / BSIZE + 2) <= nfree lba (sb (ffs s)) (fbio (ffs s)) ->
  exists s' ip', (ip ← ilock_ptr junk (f_ip fl);
      fl ← get_file f;
      r ← on_fs (writei junk ip us a (f_off fl) n);
      (if 0 <? r then upd_file f (fun fl => set_f_off (u32 (f_off fl + r)) fl) else mret tt);;
      t ← now;
      copy_at ip (fun d => set_d_mtime t (set_d_atime t d));;
      on_fs (iunlock ip);;
      K r) s = K n s' /\ file_wrote s f fl i ip n W (3 * (n / BSIZE + 2)) s' ip'.
Proof.
  intros Ho Hsrc Ha Hsz Hn Hend Hfree. pose proof Ho as [H1 H2 H3 H4 H5 H6 H7 H8 H9 H10 H11].
  destruct (lock_file s f fl i ip Ho) as (b1 & E1 & Hq1 & Hid1 & Hfa1). cbv zeta in *. rewrite (bind_Done _ _ _ _ _ E1).
  set (ip1 := set_i_lock true (fpid (ffs s)) ip) in *. set (t1 := set_itable _ (set_fbio b1 (fs_of s))) in *.
  assert (Eg : get_file f (set_ffs t1 s) = Done fl (set_ffs t1 s)) by (unfold get_file, deref; cbn [files set_ffs]; by rewrite H1). rewrite (bind_Done _ _ _ _ _ Eg).
  destruct (writei_wrote junk dev lba L t1 i ip1 us a (f_off fl) n W Hid1 Hfa1) as (t2 & ip2 & E2 & [W1 W2 (d & -> & Ed) W4 W5 W6 W7 W8 W9 W10 (R1 & R2 & R3 & R4 & R5 & R6 & R7)]).
  { by eapply (source_same us a n W (fs_of s)). } { done. } { done. } { lia. } { done. } { change (sb t1) with (sb (ffs s)). change (fbio t1) with b1. by rewrite (nfree_quiet (ffs s) b1). }
  assert (Eo1 : fofile t1 = ofile_ip s) by done. assert (Eo2 : fofile t2 = ofile_ip s) by exact (eq_trans R6 Eo1).
  assert (Ew : on_fs (writei junk i us a (f_off fl) n) (set_ffs t1 s) = Done n (set_ffs t2 s)) by (unfold on_fs, zoom; rewrite (fs_of_set t1 s Eo1), E2; done).
  rewrite (bind_Done _ _ _ _ _ Ew), (proj2 (Z.ltb_lt 0 n)) by lia. change (2 ^ 32) with 4294967296 in Hend.
  set (fl' := set_f_off (f_off fl + n) fl). set (s3 := set_files (<[f := fl']> (files s)) s).
  assert (Eu : upd_file f (fun fl => set_f_off (u32 (f_off fl + n)) fl) (set_ffs t2 s) = Done tt (set_ffs t2 s3)).
  { unfold upd_file. assert (Eg2 : get_file f (set_ffs t2 s) = Done fl (set_ffs t2 s)) by (unfold get_file, deref; cbn [files set_ffs]; by rewrite H1).
    rewrite (bind_Done _ _ _ _ _ Eg2). rewrite wrap_small by (change (2 ^ 32) with 4294967296; lia). done. }
  rewrite (bind_Done _ _ _ _ _ Eu). assert (En : now (set_ffs t2 s3) = Done (fnow t2) (set_ffs t2 s3)) by done. rewrite (bind_Done _ _ _ _ _ En).
  assert (Et : fnow t2 = fnow (ffs s)) by (rewrite R7; done). pose proof (ofile_ip_off s t2 f fl (f_off fl + n) H1) as Eo3.
  pose proof (fa_dinode _ _ _ _ _ W2) as Hok2. cbn [i_copy set_i_copy] in Hok2.
  destruct (finish_file s3 i (set_i_copy d ip1) t2 (fun d => set_d_mtime (fnow t2) (set_d_atime (fnow t2) d)) (K n)) as (t3 & b3 & E3 & E3' & Hq3 & Hid3 & Hfa3); try done.
  { transitivity (ofile_ip s); [exact Eo2|symmetry; exact Eo3]. }
  { cbn [i_copy set_i_copy]. destruct Hok2. rewrite Et. split; done. }
  cbv zeta in *. rewrite E3. cbn [i_copy set_i_copy] in *. set (dt := set_d_mtime (fnow t2) (set_d_atime (fnow t2) d)) in *.
  set (ip3 := set_i_lock false 0 (set_i_copy dt (set_i_copy d ip1))) in *.
  assert (Es3 : set_ffs t3 s3 = with_fs (<[f := fl']> (files s)) t3 s) by done. exists (set_ffs t3 s3), ip3. split; [done|].
  assert (Eo4 : fofile t3 = ofile_ip s) by (rewrite E3'; exact Eo2).
  assert (Efs : fs_of (set_ffs t3 s3) = t3) by (rewrite Es3; by apply fs_of_with).
  assert (Eb3 : fbio t3 = b3) by (by rewrite E3'). assert (Esz : d_size dt = Z.max (d_size (i_copy ip)) (f_off fl + n)) by (change (d_size dt) with (d_size d); by rewrite Ed).
  assert (Hc : forall p, fcontent lba b3 dt p = fcontent lba (fbio t2) d p) by (intros p; by apply content_upd).
  assert (Hrb : forall r, rvalid r -> rblk lba b3 dt r = rblk lba (fbio t2) d r) by (intros r; apply rblk_same; [done|]; intros r' _ _ x _; apply (qu_disk _ _ _ _ _ _ Hq3)).
  split.
  - split; try done; rewrite ?Efs; try done; [cbn; by apply list_lookup_insert_eq, lookup_lt_Some with fl|cbn; lia|rewrite E3'; cbn; by rewrite R7].
  - done.
  - exact Esz.
  - intros p Hp. change (ffs (set_ffs t3 s3)) with t3. rewrite Eb3. change (i_copy ip3) with dt. rewrite Hc, W4 by done. destruct (decide _); [done|].
    change (fbio t1) with b1. by apply content_upd.
  - intros p Hp. change (ffs (set_ffs t3 s3)) with t3. rewrite Eb3. change (i_copy ip3) with dt.
    assert (HM : MAXFILE * BSIZE = 4299206656) by reflexivity. assert (Hv : 0 <= p / BSIZE < MAXFILE) by (apply bn_range; lia).
    rewrite Hrb by done. destruct (W6 p Hp) as (_ & _ & (Hne & _) & _). exact Hne.
  - intros bn Hbn Hne. change (ffs (set_ffs t3 s3)) with t3. rewrite Eb3. change (i_copy ip3) with dt. rewrite Hrb by done.
    assert (Hb1 : rblk lba b1 (i_copy ip) (RData bn) = rblk lba (fbio (ffs s)) (i_copy ip) (RData bn)) by (apply rblk_same; [done|intros r' _ _ x _; apply (qu_disk _ _ _ _ _ _ Hq1)|done]).
    rewrite (W5 (RData bn) Hbn); change (fbio t1) with b1; change (i_copy ip1) with (i_copy ip); congruence.
  - change (ffs (set_ffs t3 s3)) with t3. rewrite Eb3. change (sb (ffs s)) with (sb t1) at 2. rewrite (nfree_quiet t2 b3) by done.
    change (sb t1) with (sb (ffs s)) in *. rewrite <- (nfree_quiet (ffs s) b1) by done. exact W10.
  - change (ffs (set_ffs t3 s3)) with t3. rewrite E3'. cbn. done.
Qed.

Lemma set_f_off_off v w fl : set_f_off v (set_f_off w fl) = set_f_off v fl.
Proof. by destruct fl. Qed.

(** A write of nothing, and one write after another. *)
Lemma file_wrote_nil s f fl i ip (W : Z -> Z) : open_file s f fl i ip -> f_off fl <= d_size (i_copy ip) -> file_wrote s f fl i ip 0 W 0 s ip.
Proof.
  intros Ho Hsz. pose proof (of_slot _ _ _ _ _ Ho) as Hf.
  assert (E : set_f_off (f_off fl + 0) fl = fl) by (rewrite Z.add_0_r; by destruct fl).
  split; rewrite ?E; try done; try lia.
  - unfold with_fs. rewrite list_insert_id by done. by destruct s.
  - intros p _. rewrite decide_False by lia. done.
Qed.

Lemma file_wrote_app s f fl i ip n1 n2 W c1 c2 c s1 ip1 s2 ip2 : 0 <= n1 -> 0 <= n2 -> f_off fl + n1 + n2 < 2 ^ 32 -> c1 + c2 <= c -> open_file s f fl i ip ->
  file_wrote s f fl i ip n1 W c1 s1 ip1 -> file_wrote s1 f (set_f_off (f_off fl + n1) fl) i ip1 n2 (fun x => W (n1 + x)) c2 s2 ip2 ->
  file_wrote s f fl i ip (n1 + n2) W c s2 ip2.
Proof.
  intros Hn1 Hn2 Hend Hc Hop [A1 A2 A3 A4 A5 A6 A7 (A8 & A9 & A10)] [B1 B2 B3 B4 B5 B6 B7 (B8 & B9 & B10)]. rewrite set_f_off_off in *. cbn [f_off set_f_off] in *.
  change (2 ^ 32) with 4294967296 in *. assert (HM : MAXFILE * BSIZE = 4299206656) by reflexivity. pose proof (of_off _ _ _ _ _ Hop).
  rewrite <- Z.add_assoc in *. split; try done.
  - rewrite B2, A2. unfold with_fs. cbn [files set_files set_ffs]. by rewrite list_insert_insert_eq.
  - rewrite B3, A3. lia.
  - intros p Hp. rewrite B4 by done. destruct (decide (f_off fl + n1 <= p < _)).
    + rewrite decide_True by lia. f_equal. lia.
    + rewrite A4 by done. destruct (decide (f_off fl <= p < f_off fl + n1)).
      * by rewrite decide_True by lia.
      * by rewrite decide_False by lia.
  - intros p Hp. destruct (decide (p < f_off fl + n1)); [|apply B5; lia].
    apply B6; [|apply A5; lia]. apply bn_range. lia.
  - intros bn Hbn Hne. apply B6; [done|]. by apply A6.
  - rewrite A8 in B7. lia.
  - split; [congruence|]. split; congruence.
Qed.

(** Blocks enough for any write of [n] bytes. *)
Definition write_cost (n : Z) : Z := if 0 <? n then 3 * (n / BSIZE + 2 * (n / write_max + 1)) else 0.

Lemma write_cost_pos n : 0 <= write_cost n.
Proof.
  unfold write_cost. destruct (0 <? n) eqn:E; bool_hyps; [|done].
  pose proof (Z.div_pos n write_max ltac:(lia) ltac:(done)). pose proof (Z.div_pos n BSIZE ltac:(lia) ltac:(done)). lia.
Qed.

Lemma write_cost_step n : 0 < n -> 3 * (Z.min write_max n / BSIZE + 2) + write_cost (n - Z.min write_max n) <= write_cost n.
Proof.
  intros Hn. unfold write_cost at 2. rewrite (proj2 (Z.ltb_lt 0 n) Hn). assert (Hwm : write_max = 73728) by (vm_compute; reflexivity).
  pose proof (Z.div_pos n write_max ltac:(lia) ltac:(done)). unfold write_cost. destruct (Z.le_gt_cases n write_max) as [Hs|Hb].
  { rewrite Z.min_r, Z.sub_diag by lia. cbn [Z.ltb Z.compare]. lia. }
  rewrite Z.min_l, (proj2 (Z.ltb_lt 0 (n - write_max))) by lia. set (m := n - write_max).
  assert (E1 : n / write_max = m / write_max + 1) by (replace n with (m + 1 * write_max) by lia; by rewrite Z.div_add by done).
  assert (E2 : n / BSIZE = m / BSIZE + write_max / BSIZE).
  { assert (Em : write_max = write_max / BSIZE * BSIZE) by (vm_compute; reflexivity). replace n with (m + write_max / BSIZE * BSIZE) by lia. by rewrite Z.div_add by done. }
  lia.
Qed.

Lemma source_drop us a n W (k : Z) t : 0 <= k -> source us a n W t -> source us (u64 (a + k)) (n - k) (fun x => W (k + x)) t.
Proof.
  intros Hk Hs x m t' Hx Hm Hxm E1 E2. rewrite wrap_add_l. rewrite <- Z.add_assoc. rewrite Hs by (done || lia). do 2 f_equal.
  replace (seqZ (k + x) m) with (Z.add k <$> seqZ x m) by (rewrite fmap_add_seqZ; f_equal; lia). by rewrite <- list_fmap_compose.
Qed.

Lemma filewrite_loop_ok f a n us W i : forall fuel s fl ip k, open_file s f fl i ip -> source us a n W (fs_of s) -> 0 <= a < 2 ^ 64 ->
  f_off fl <= d_size (i_copy ip) -> 0 <= k <= n -> n < 2 ^ 31 -> f_off fl + (n - k) < 2 ^ 32 ->
  write_cost (n - k) <= nfree lba (sb (ffs s)) (fbio (ffs s)) -> (k < n -> (n - k) / write_max + 1 < Z.of_nat fuel) -> (1 <= fuel)%nat ->
  exists s' ip', filewrite_loop junk fuel f a n us k s = Done n s' /\ file_wrote s f fl i ip (n - k) (fun x => W (k + x)) (write_cost (n - k)) s' ip'.
Proof.
  induction fuel as [|fuel IH]; intros s fl ip k Ho Hsrc Ha Hsz Hk Hn Hend Hfree Hfuel H1f; [lia|].
  cbn [filewrite_loop]. destruct (k <? n) eqn:Ek; bool_hyps; [specialize (Hfuel ltac:(lia))|].
  2:{ exists s, ip. assert (n - k = 0) as -> by lia. assert (k = n) as -> by lia. split; [done|].
      exact (file_wrote_nil s f fl i ip (fun x => W (n + x)) Ho Hsz). }
  set (n1 := Z.min write_max (n - k)). assert (Hwm : write_max = 73728) by (vm_compute; reflexivity). assert (Hn1 : 0 < n1 <= n - k) by lia.
  assert (Eg : get_file f s = Done fl s) by (unfold get_file, deref; by rewrite (of_slot _ _ _ _ _ Ho)). rewrite (bind_Done _ _ _ _ _ Eg).
  pose proof (write_cost_step (n - k) ltac:(lia)) as Hcost. fold n1 in Hcost. rewrite <- Z.sub_add_distr in Hcost. pose proof (write_cost_pos (n - (k + n1))).
  assert (Hsrc1 : source us (u64 (a + k)) n1 (fun x => W (k + x)) (fs_of s)).
  { pose proof (source_drop us a n W k (fs_of s) ltac:(lia) Hsrc) as Hd. intros x m t' Hx Hm Hxm. apply Hd; lia. }
  destruct (write_round s f fl i ip us (u64 (a + k)) n1 (fun x => W (k + x))
    (fun r => if negb (r =? n1) then mret k else filewrite_loop junk fuel f a n us (k + r)) Ho Hsrc1) as (s1 & ip1 & E1 & Hw1); [by apply wrap_range|done|lia|lia|lia|].
  rewrite E1, Z.eqb_refl. cbn [negb]. pose proof Hw1 as [Ho1 Es1 Z1 _ _ _ F1 (R1 & R2 & R3)].
  set (fl1 := set_f_off (f_off fl + n1) fl) in *. assert (Hfk : sb (ffs s1) = sb (ffs s)) by done.
  assert (Hdiv : k + n1 < n -> (n - k) / write_max = (n - (k + n1)) / write_max + 1).
  { intros Hb. replace (n - k) with (n - (k + n1) + 1 * write_max) by lia. by rewrite Z.div_add by done. }
  destruct (IH s1 fl1 ip1 (k + n1) Ho1) as (s2 & ip2 & E2 & Hw2); try done; try lia.
  { by apply (source_same us a n W (fs_of s)). } { rewrite Z1. cbn [f_off fl1 set_f_off]. lia. } { cbn [f_off fl1 set_f_off]. lia. }
  { rewrite R1. lia. }
  { pose proof (Z.div_pos (n - k) write_max ltac:(lia) ltac:(done)). lia. }
  exists s2, ip2. split; [exact E2|].
  assert (Hw : file_wrote s f fl i ip (n1 + (n - (k + n1))) (fun x => W (k + x)) (write_cost (n - k)) s2 ip2).
  { apply (file_wrote_app _ _ _ _ _ _ _ _ (3 * (n1 / BSIZE + 2)) (write_cost (n - (k + n1))) _ s1 ip1); try done; try lia.
    destruct Hw2 as [B1 B2 B3 B4 B5 B6 B7 B8]. split; try done. intros p Hp. rewrite B4 by done. destruct (decide _); [f_equal; fold fl1; lia|done]. }
  by replace (n1 + (n - (k + n1))) with (n - k) in Hw by lia.
Qed.

Lemma get_file_ok s f fl i ip : open_file s f fl i ip -> get_file f s = Done fl s.
Proof. intros Ho. unfold get_file, deref. by rewrite (of_slot _ _ _ _ _ Ho). Qed.

Lemma filewrite_ok s f fl i ip us a n W : open_file s f fl i ip -> f_writable fl <> 0 -> source us a n W (fs_of s) -> 0 <= a < 2 ^ 64 ->
  f_off fl <= d_size (i_copy ip) -> 0 <= n < 2 ^ 31 -> f_off fl + n < 2 ^ 32 -> write_cost n <= nfree lba (sb (ffs s)) (fbio (ffs s)) ->
  exists s' ip', filewrite junk f a n us s = Done n s' /\ file_wrote s f fl i ip n W (write_cost n) s' ip'.
Proof.
  intros Ho Hwr Hsrc Ha Hsz Hn Hend Hfree. unfold filewrite. rewrite (bind_Done _ _ _ _ _ (get_file_ok _ _ _ _ _ Ho)).
  rewrite (proj2 (Z.eqb_neq _ 0)) by done. rewrite (of_type _ _ _ _ _ Ho). pose proof (Z.div_pos n write_max ltac:(lia) ltac:(done)).
  destruct (filewrite_loop_ok f a n us W i (S (Z.to_nat (n / write_max + 1))) s fl ip 0 Ho Hsrc Ha Hsz) as (s' & ip' & E & Hw); rewrite ?Z.sub_0_r; try lia.
  exists s', ip'. rewrite (bind_Done _ _ _ _ _ E), Z.eqb_refl. split; [done|]. rewrite Z.sub_0_r in Hw. exact Hw.
Qed.

(** ** Reading *)

(** The file after [r] bytes were read at its offset into kernel memory. *)
Record file_read s (f : nat) (fl : file) (i : nat) (ip : inode) (dst r : Z) s' (ip' : inode) : Prop := {
  fr_open : open_file s' f (set_f_off (f_off fl + r) fl) i ip';
  fr_state : s' = with_fs (<[f := set_f_off (f_off fl + r) fl]> (files s)) (ffs s') s;
  fr_size : d_size (i_copy ip') = d_size (i_copy ip);
  fr_mem : forall x, kmem (ffs s') x = if decide (dst <= x < dst + r) then fcontent lba (fbio (ffs s)) (i_copy ip) (f_off fl + (x - dst)) else kmem (ffs s) x;
  fr_content : forall p, fcontent lba (fbio (ffs s')) (i_copy ip') p = fcontent lba (fbio (ffs s)) (i_copy ip) p;
  fr_keep : forall bn, 0 <= bn < MAXFILE -> rblk lba (fbio (ffs s')) (i_copy ip') (RData bn) = rblk lba (fbio (ffs s)) (i_copy ip) (RData bn)
}.

Definition read_len (size off n : Z) : Z := if size <? off then 0 else Z.min n (size - off).

Lemma fileread_ok s f fl i ip dst n : open_file s f fl i ip -> f_readable fl <> 0 -> 0 <= dst -> dst + n < 2 ^ 64 -> 0 <= n < 2 ^ 31 -> f_off fl + n < 2 ^ 32 ->
  let r := read_len (d_size (i_copy ip)) (f_off fl) n in
  (forall p, f_off fl <= p < f_off fl + r -> rblk lba (fbio (ffs s)) (i_copy ip) (RData (p / BSIZE)) <> 0) ->
  exists s' ip', fileread junk f dst n false s = Done r s' /\ file_read s f fl i ip dst r s' ip'.
Proof.
  intros Ho Hrd Hdst Hdend Hn Hend r Hmap. pose proof Ho as [H1 H2 H3 H4 H5 H6 H7 H8 H9 H10 H11]. unfold fileread. rewrite (bind_Done _ _ _ _ _ (get_file_ok _ _ _ _ _ Ho)).
  rewrite (proj2 (Z.eqb_neq _ 0)) by done. rewrite H2.
  destruct (lock_file s f fl i ip Ho) as (b1 & E1 & Hq1 & Hid1 & Hfa1). cbv zeta in *. rewrite (bind_Done _ _ _ _ _ E1).
  set (ip1 := set_i_lock true (fpid (ffs s)) ip) in *. set (t1 := set_itable _ (set_fbio b1 (fs_of s))) in *.
  assert (Eg : get_file f (set_ffs t1 s) = Done fl (set_ffs t1 s)) by (unfold get_file, deref; cbn [files set_ffs]; by rewrite H1). rewrite (bind_Done _ _ _ _ _ Eg).
  change (2 ^ 31) with 2147483648 in Hn. change (2 ^ 32) with 4294967296 in Hend. rewrite (wrap_small 32 n) by (change (2 ^ 32) with 4294967296; lia).
  pose proof Hid1 as [Hdev (HLb & HLs & HLt) HI1].
  assert (Hr0 : 0 <= r <= n) by (unfold r, read_len; destruct (_ <? _) eqn:E; bool_hyps; lia).
  assert (Hb1 : forall bn, 0 <= bn < MAXFILE -> rblk lba b1 (i_copy ip) (RData bn) = rblk lba (fbio (ffs s)) (i_copy ip) (RData bn)).
  { intros bn Hbn. apply rblk_same; [done|intros r' _ _ x _; apply (qu_disk _ _ _ _ _ _ Hq1)|done]. }
  assert (HM : MAXFILE * BSIZE = 4299206656) by reflexivity.
  destruct (readi_ok junk dev lba L Hdev HLb HLs t1 ∅ i ip1 dst (f_off fl) n HI1 nbuf_none (fa_slot _ _ _ _ _ Hfa1) (fa_dev _ _ _ _ _ Hfa1)) as (b2 & km & E2 & Hq2 & Hkm); try done; try lia.
  { change (d_size (i_copy ip1)) with (d_size (i_copy ip)). fold (read_len (d_size (i_copy ip)) (f_off fl) n). fold r. intros p Hp. change (i_copy ip1) with (i_copy ip).
    assert (Hv : 0 <= p / BSIZE < MAXFILE) by (apply bn_range; lia).
    apply (file_mapped lba (sb t1)); [apply (fa_file _ _ _ _ _ Hfa1)|apply (fa_disk _ _ _ _ _ Hfa1)|exact Hv|]. change (fbio t1) with b1. rewrite Hb1 by done. by apply Hmap. }
  cbv zeta in E2, Hkm. change (d_size (i_copy ip1)) with (d_size (i_copy ip)) in E2, Hkm. fold (read_len (d_size (i_copy ip)) (f_off fl) n) in E2, Hkm. fold r in E2, Hkm.
  set (t2 := set_kmem km (set_fbio b2 t1)) in *. assert (Hq2' : quiet (fbio t1) b2) by exact Hq2.
  assert (Hid2 : idle t2) by (by apply (idle_reread dev lba L t1)). assert (Hfa2 : file_at t2 i ip1) by (by apply (file_at_reread dev lba L t1)).
  assert (Er : on_fs (readi junk i false dst (f_off fl) n) (set_ffs t1 s) = Done r (set_ffs t2 s)) by (unfold on_fs, zoom; rewrite (fs_of_set t1 s eq_refl), E2; done).
  rewrite (bind_Done _ _ _ _ _ Er). set (fl' := set_f_off (f_off fl + r) fl). set (s3 := set_files (<[f := fl']> (files s)) s).
  assert (Eu : (if 0 <? r then upd_file f (fun fl => set_f_off (u32 (f_off fl + r)) fl) else mret tt) (set_ffs t2 s) = Done tt (set_ffs t2 s3)).
  { destruct (0 <? r) eqn:Er0; bool_hyps.
    - unfold upd_file. assert (Eg2 : get_file f (set_ffs t2 s) = Done fl (set_ffs t2 s)) by (unfold get_file, deref; cbn [files set_ffs]; by rewrite H1).
      rewrite (bind_Done _ _ _ _ _ Eg2). rewrite wrap_small by (change (2 ^ 32) with 4294967296; lia). done.
    - assert (fl' = fl) as E0 by (unfold fl'; replace (f_off fl + r) with (f_off fl) by lia; by destruct fl).
      unfold s3. rewrite E0, list_insert_id by done. by destruct s. }
  rewrite (bind_Done _ _ _ _ _ Eu). assert (En : now (set_ffs t2 s3) = Done (fnow (ffs s)) (set_ffs t2 s3)) by done. rewrite (bind_Done _ _ _ _ _ En).
  pose proof (ofile_ip_off s t2 f fl (f_off fl + r) H1) as Eo3. pose proof (fa_dinode _ _ _ _ _ H6) as Hok.
  destruct (finish_file s3 i ip1 t2 (set_d_atime (fnow (ffs s))) (mret r)) as (t3 & b3 & E3 & E3' & Hq3 & Hid3 & Hfa3); try done.
  { destruct Hok. split; done. }
  cbv zeta in *. rewrite E3. set (dt := set_d_atime (fnow (ffs s)) (i_copy ip1)) in *. set (ip3 := set_i_lock false 0 (set_i_copy dt ip1)) in *.
  assert (Eo4 : fofile t3 = ofile_ip s) by (rewrite E3'; done). assert (Es3 : set_ffs t3 s3 = with_fs (<[f := fl']> (files s)) t3 s) by done.
  assert (Efs : fs_of (set_ffs t3 s3) = t3) by (rewrite Es3; by apply fs_of_with). assert (Eb3 : fbio t3 = b3) by (by rewrite E3').
  exists (set_ffs t3 s3), ip3. split; [done|]. split.
  - split; try done; rewrite ?Efs; try done; [cbn; by apply list_lookup_insert_eq, lookup_lt_Some with fl|cbn; lia|rewrite E3'; done].
  - done.
  - done.
  - intros x. change (ffs (set_ffs t3 s3)) with t3. rewrite E3'. cbn [kmem set_itable set_fbio t2 set_kmem]. rewrite Hkm. case_decide as Hx; [|done].
    rewrite <- (content_upd (ffs s) b1 (i_copy ip) (i_copy ip)) by done. unfold fbyte, fcontent. change (i_copy ip1) with (i_copy ip). change (fbio t1) with b1.
    set (p := f_off fl + (x - dst)). assert (Hp : 0 <= p < MAXFILE * BSIZE) by (unfold p; lia). pose proof (Hmap p ltac:(unfold p; lia)) as Hne.
    rewrite <- Hb1 in Hne by (by apply bn_range). cbn [rblk] in Hne. by rewrite (proj2 (Z.eqb_neq _ 0)) by exact Hne.
  - intros p. change (ffs (set_ffs t3 s3)) with t3. rewrite Eb3. change (i_copy ip3) with dt. rewrite (content_upd t2 b3 (i_copy ip) dt p Hq3 eq_refl).
    change (fbio t2) with b2. rewrite (content_upd t1 b2 (i_copy ip) _ p Hq2' eq_refl). by apply content_upd.
  - intros bn Hbn. change (ffs (set_ffs t3 s3)) with t3. rewrite Eb3. change (i_copy ip3) with dt.
    transitivity (rblk lba b2 (i_copy ip) (RData bn)); [apply rblk_same; [done|intros r' _ _ x _; apply (qu_disk _ _ _ _ _ _ Hq3)|done]|].
    rewrite <- Hb1 by done. apply rblk_same; [done|intros r' _ _ x _; apply (qu_disk _ _ _ _ _ _ Hq2')|done].
Qed.
End FileInv.
