(* ===== verification/FileProps.v ===== *)
(** * Properties of open files

    The file table counts references; a file open on an inode is a position
    in the bytes of that inode.  The witnesses open the files of the image of
    FsProps.v, for a machine with no pipes and no devices. *)
From S2P Require Import Prelude Spinlock Bytes UserMem Cred Bio BioInv BioProps Fs FsBlocks FsInode FsFile FsGrow FsWrite FsLink FsProps FsWriteProps File FileInv.

Section Props.
Context {D : Type} `{sdcard_laws D} {U : Type} `{!usermem U} {P : Type} `{!pipeops U P} {V : Type} `{!devsw U V}.
Context (junk : bytes) (dev lba : Z) (L : gset Z).
Local Notation fls := (fls D U P V).
Implicit Types s : fls.
Local Notation idle := (idle dev lba L).

(** ** The file table *)

(** The state with table [fs] and the locks' words [c] in place of those of [s]. *)
Definition retab (fs : list file) (c : cpu) s : fls := set_files fs (set_ffs (set_fbio (set_bcpu c (fbio (ffs s))) (fs_of s)) s).

Lemma flk_ok s : idle (fs_of s) -> ftable_lock ∈ L -> exists c, flk s = Done tt (retab (files s) c s) /\ lk_one L ftable_lock c.
Proof.
  intros [_ _ HI] HL. destruct (flock_ok dev lba L ftable_lock (fs_of s) ∅ HI HL) as (c & E & Hc). exists c. split; [|done].
  unfold flk, on_fs, zoom. rewrite E. by destruct s.
Qed.

(** What an operation on the file table leaves: a new table, every lock free
    again, nothing else changed. *)
Record tabled s (fs : list file) s' : Prop := {
  tb_files : files s' = fs;
  tb_idle : idle (fs_of s');
  tb_rest : ofile s' = ofile s /\ fdflag s' = fdflag s /\ fcred s' = fcred s /\ fpipes s' = fpipes s /\ fdevs s' = fdevs s;
  tb_fs : sb (ffs s') = sb (ffs s) /\ itable (ffs s') = itable (ffs s) /\ kmem (ffs s') = kmem (ffs s) /\ fuser (ffs s') = fuser (ffs s) /\
    fpid (ffs s') = fpid (ffs s) /\ fcwd (ffs s') = fcwd (ffs s) /\ fnow (ffs s') = fnow (ffs s);
  tb_bio : exists c, fbio (ffs s') = set_bcpu c (fbio (ffs s))
}.

Lemma funlk_ok fs c s : idle (fs_of s) -> lk_one L ftable_lock c -> exists s', funlk (retab fs c s) = Done tt s' /\ tabled s fs s'.
Proof.
  intros [Hdev HL HI] Hc. destruct (funlock_ok L ftable_lock (fs_of (retab fs c s)) Hc) as (c' & E & Hc').
  eexists. split; [unfold funlk, on_fs, zoom; by rewrite E|]. split; try done; [|by exists c'].
  split; [done|done|]. exact (binv_cpu dev lba L (fbio (ffs s)) ∅ c' HI Hc').
Qed.

Lemma retab_get f fl fs c s : fs !! f = Some fl -> get_file f (retab fs c s) = Done fl (retab fs c s).
Proof. intros Hf. unfold get_file, deref. cbn [files retab set_files]. by rewrite Hf. Qed.

Lemma retab_upd f fl fs c s g : fs !! f = Some fl -> upd_file f g (retab fs c s) = Done tt (retab (<[f := g fl]> fs) c s).
Proof. intros Hf. unfold upd_file. by rewrite (bind_Done _ _ _ _ _ (retab_get f fl fs c s Hf)). Qed.

Lemma free_file_spec t : forall i, match free_file t i with
  | Some j => (i <= j)%nat /\ exists fl, t !! (j - i)%nat = Some fl /\ f_ref fl = 0 /\ forall k g, (k < j - i)%nat -> t !! k = Some g -> f_ref g <> 0
  | None => forall k g, t !! k = Some g -> f_ref g <> 0
  end.
Proof.
  induction t as [|f t IH]; intros i; cbn [free_file]; [done|]. destruct (f_ref f =? 0) eqn:E; bool_hyps.
  - split; [lia|]. exists f. rewrite Nat.sub_diag. split; [done|]. split; [done|]. intros k g Hk. lia.
  - specialize (IH (S i)). destruct (free_file t (S i)) as [j|].
    + destruct IH as (Hj & fl & Hl & Hz & Hb). split; [lia|]. exists fl. replace (j - i)%nat with (S (j - S i)) by lia. split; [done|]. split; [done|].
      intros [|k] g Hk Hg; [by injection Hg as <-|]. apply (Hb k); [lia|done].
    + intros [|k] g Hg; [by injection Hg as <-|]. by apply (IH k).
Qed.

(** C39: [filealloc] takes the first unreferenced slot of the file table and
    gives it one reference, leaving the rest of the table and of the machine
    as it was; it returns NULL exactly when every slot is referenced. *)
Theorem filealloc_correct s : idle (fs_of s) -> ftable_lock ∈ L ->
  exists o s', filealloc s = Done o s' /\
  match o with
  | Some f => exists fl, files s !! f = Some fl /\ f_ref fl = 0 /\ tabled s (<[f := set_f_ref 1 fl]> (files s)) s' /\
      forall k g, (k < f)%nat -> files s !! k = Some g -> f_ref g <> 0
  | None => tabled s (files s) s' /\ forall k g, files s !! k = Some g -> f_ref g <> 0
  end.
Proof.
  intros Hid HL. destruct (flk_ok s Hid HL) as (c & E & Hc). unfold filealloc. rewrite (bind_Done _ _ _ _ _ E), bind_gets.
  pose proof (free_file_spec (files s) 0) as Hf. cbn [files retab set_files]. destruct (free_file (files s) 0) as [f|].
  - destruct Hf as (_ & fl & Hl & Hz & Hb). rewrite Nat.sub_0_r in *. rewrite (bind_Done _ _ _ _ _ (retab_upd f fl _ c s (set_f_ref 1) Hl)).
    destruct (funlk_ok (<[f := set_f_ref 1 fl]> (files s)) c s Hid Hc) as (s' & E' & Ht). exists (Some f), s'. rewrite (bind_Done _ _ _ _ _ E'). split; [done|]. by exists fl.
  - destruct (funlk_ok (files s) c s Hid Hc) as (s' & E' & Ht). exists None, s'. rewrite (bind_Done _ _ _ _ _ E'). done.
Qed.

Lemma filedup_ok s f fl : idle (fs_of s) -> ftable_lock ∈ L -> files s !! f = Some fl -> 1 <= f_ref fl < 2 ^ 31 - 1 ->
  exists s', filedup f s = Done f s' /\ tabled s (<[f := set_f_ref (f_ref fl + 1) fl]> (files s)) s'.
Proof.
  intros Hid HL Hf Hr. change (2 ^ 31) with 2147483648 in Hr. destruct (flk_ok s Hid HL) as (c & E & Hc). unfold filedup.
  rewrite (bind_Done _ _ _ _ _ E), (bind_Done _ _ _ _ _ (retab_get f fl (files s) c s Hf)), (proj2 (Z.ltb_ge _ _)) by lia.
  rewrite (bind_Done _ _ _ _ _ (retab_upd f fl _ c s _ Hf)). rewrite (swrap_small 32) by (change (2 ^ (32 - 1)) with 2147483648; lia).
  destruct (funlk_ok (<[f := set_f_ref (f_ref fl + 1) fl]> (files s)) c s Hid Hc) as (s' & E' & Ht). exists s'. by rewrite (bind_Done _ _ _ _ _ E').
Qed.

(** C35: [filedup] and [fileclose] count the references of an open file:
    [filedup] adds one, a [fileclose] that is not the last takes one away and
    touches nothing else, the last one frees the slot before it lets the
    pipe or the inode behind it go, and closing a free slot panics. *)
Theorem fileclose_correct s f fl : idle (fs_of s) -> ftable_lock ∈ L -> files s !! f = Some fl -> f_ref fl + 1 < 2 ^ 31 ->
  (1 <= f_ref fl -> exists s', filedup f s = Done f s' /\ tabled s (<[f := set_f_ref (f_ref fl + 1) fl]> (files s)) s') /\
  (1 < f_ref fl -> exists s', fileclose junk f s = Done tt s' /\ tabled s (<[f := set_f_ref (f_ref fl - 1) fl]> (files s)) s') /\
  (f_ref fl = 1 -> exists s', tabled s (<[f := set_f_type FD_NONE (set_f_ref 0 fl)]> (files s)) s' /\
    fileclose junk f s = match f_type fl with
      | FD_PIPE => on_pipe (po_close (f_pipe fl) (f_writable fl)) s'
      | FD_INODE | FD_DEVICE => (i ← deref (f_ip fl); on_fs (iput junk i)) s'
      | FD_NONE => Done tt s'
      end) /\
  (f_ref fl < 1 -> fileclose junk f s = Panic "fileclose" /\ filedup f s = Panic "filedup").
Proof.
  intros Hid HL Hf Hmax. destruct (flk_ok s Hid HL) as (c & E & Hc).
  assert (Hlt : (f < length (files s))%nat) by (by eapply lookup_lt_Some). split; [intros Hr; apply filedup_ok; try done; lia|].
  change (2 ^ 31) with 2147483648 in Hmax. unfold filedup, fileclose.
  rewrite !(bind_Done _ _ _ _ _ E), !(bind_Done _ _ _ _ _ (retab_get f fl (files s) c s Hf)). split_and!; intros Hr.
  - rewrite (proj2 (Z.ltb_ge _ _)) by lia. rewrite (bind_Done _ _ _ _ _ (retab_upd f fl _ c s _ Hf)). rewrite (proj2 (Z.ltb_lt _ _)) by lia.
    apply (funlk_ok _ c s Hid Hc).
  - rewrite (proj2 (Z.ltb_ge _ _)) by lia. rewrite (bind_Done _ _ _ _ _ (retab_upd f fl _ c s _ Hf)), Hr. change (0 <? 1 - 1) with false. cbv iota.
    set (fl1 := set_f_ref (1 - 1) fl). set (fs1 := <[f := fl1]> (files s)).
    assert (Hf1 : fs1 !! f = Some fl1) by (by apply list_lookup_insert_eq).
    rewrite (bind_Done _ _ _ _ _ (retab_get f fl1 fs1 c s Hf1)), (bind_Done _ _ _ _ _ (retab_upd f fl1 fs1 c s _ Hf1)).
    unfold fs1. rewrite list_insert_insert_eq.
    destruct (funlk_ok (<[f := set_f_type FD_NONE (set_f_ref 0 fl1)]> (files s)) c s Hid Hc) as (s' & E' & Ht). exists s'. split; [exact Ht|].
    rewrite (bind_Done _ _ _ _ _ E'). unfold fl1. cbn [f_type f_pipe f_writable f_ip set_f_ref]. by destruct (f_type fl).
  - by rewrite (proj2 (Z.ltb_lt _ _)) by lia.
Qed.

Lemma free_fd_spec (t : list (option nat)) n : forall fd, match free_fd n t fd with
  | Some j => (fd <= j < fd + n)%nat /\ t !! j = Some None /\ forall k, (fd <= k < j)%nat -> t !! k <> Some None
  | None => forall k, (fd <= k < fd + n)%nat -> t !! k <> Some None
  end.
Proof.
  induction n as [|n IH]; intros fd; cbn [free_fd]; [intros k Hk; lia|]. specialize (IH (S fd)).
  assert (Hno : t !! fd <> Some None -> match free_fd n t (S fd) with
    | Some j => (fd <= j < fd + S n)%nat /\ t !! j = Some None /\ forall k, (fd <= k < j)%nat -> t !! k <> Some None
    | None => forall k, (fd <= k < fd + S n)%nat -> t !! k <> Some None end).
  { intros Hne. destruct (free_fd n t (S fd)) as [j|].
    - destruct IH as (Hj & Hl & Hb). split; [lia|]. split; [done|]. intros k Hk. destruct (decide (k = fd)) as [->|]; [done|apply Hb; lia].
    - intros k Hk. destruct (decide (k = fd)) as [->|]; [done|apply IH; lia]. }
  destruct (t !! fd) as [[x|]|] eqn:E; [by apply Hno| |by apply Hno]. split; [lia|]. split; [done|]. intros k Hk. lia.
Qed.

(** C35: [fdalloc] gives the lowest free descriptor from [from] on to the file,
    touching no other descriptor, and -EBADF exactly when none is free. *)
Theorem fdalloc_correct s f from : (from <= NOFILE)%nat -> length (ofile s) = NOFILE ->
  (exists fd, (from <= fd < NOFILE)%nat /\ ofile s !! fd = Some None /\ (forall k, (from <= k < fd)%nat -> exists g, ofile s !! k = Some (Some g)) /\
    fdalloc f from s = Done (Z.of_nat fd) (set_ofile (<[fd := Some f]> (ofile s)) s)) \/
  ((forall k, (from <= k < NOFILE)%nat -> exists g, ofile s !! k = Some (Some g)) /\ fdalloc f from s = Done (- EBADF) s).
Proof.
  intros Hfrom Hlen. pose proof (free_fd_spec (ofile s) (NOFILE - from) from) as Hf.
  assert (Hex : forall k, (k < NOFILE)%nat -> ofile s !! k <> Some None -> exists g, ofile s !! k = Some (Some g)).
  { intros k Hk Hne. destruct (lookup_lt_is_Some_2 (ofile s) k ltac:(lia)) as [[g|] Hg]; [by exists g|congruence]. }
  unfold fdalloc. rewrite bind_gets. destruct (free_fd (NOFILE - from) (ofile s) from) as [fd|].
  - left. destruct Hf as (Hr & Hl & Hb). exists fd. split; [lia|]. split; [done|]. split; [|done]. intros k Hk. apply Hex; [lia|by apply Hb].
  - right. split; [|done]. intros k Hk. apply Hex; [lia|apply Hf; lia].
Qed.

(** ** Reading back *)

(** C12: a [filewrite] of [n] bytes at the position of a file, an [lseek] back
    and a [fileread] of [n] bytes: each returns what it should and the bytes
    read are the bytes written, in however many rounds and on however many
    new blocks, and the file is left open at the end of them. *)
Theorem write_seek_read s f fl i ip src dst n : open_file dev lba L s f fl i ip -> f_writable fl <> 0 -> f_readable fl <> 0 ->
  0 <= src -> src + n < 2 ^ 64 -> 0 <= dst -> dst + n < 2 ^ 64 -> f_off fl <= d_size (i_copy ip) -> 0 <= n < 2 ^ 31 -> f_off fl + n < 2 ^ 32 ->
  write_cost n <= nfree lba (sb (ffs s)) (fbio (ffs s)) ->
  exists s1 s2 s3 ip', filewrite junk f src n false s = Done n s1 /\ filelseek (Some f) (f_off fl) SEEK_SET s1 = Done (f_off fl) s2 /\
    fileread junk f dst n false s2 = Done n s3 /\ open_file dev lba L s3 f (set_f_off (f_off fl + n) fl) i ip' /\
    d_size (i_copy ip') = Z.max (d_size (i_copy ip)) (f_off fl + n) /\
    forall t, 0 <= t < n -> kmem (ffs s3) (dst + t) = kmem (ffs s) (src + t).
Proof.
  intros Ho Hw Hr Hs0 Hs1 Hd0 Hd1 Hsz Hn Hend Hfree. pose proof (of_off _ _ _ _ _ _ _ _ Ho) as Hoff.
  change (2 ^ 32) with 4294967296 in Hend. change (2 ^ 31) with 2147483648 in Hn.
  destruct (filewrite_ok junk dev lba L s f fl i ip false src n (fun x => kmem (ffs s) (src + x)) Ho Hw) as (s1 & ip1 & E1 & Hw1); try done; try lia.
  { apply (kernel_source (fs_of s)); lia. }
  destruct Hw1 as [Ho1 _ Z1 C1 M1 _ _ (_ & K1 & _)]. set (fl1 := set_f_off (f_off fl + n) fl) in *.
  set (s2 := set_files (<[f := set_f_off (f_off fl) fl1]> (files s1)) s1).
  assert (E2 : filelseek (Some f) (f_off fl) SEEK_SET s1 = Done (f_off fl) s2).
  { unfold filelseek. rewrite (bind_Done _ _ _ _ _ (get_file_ok dev lba L _ _ _ _ _ Ho1)), Z.eqb_refl, (proj2 (Z.ltb_ge _ _)) by lia.
    rewrite (wrap_small 32) by (change (2 ^ 32) with 4294967296; lia). unfold upd_file.
    rewrite bind_assoc, (bind_Done _ _ _ _ _ (get_file_ok dev lba L _ _ _ _ _ Ho1)), bind_modify. done. }
  assert (Ho2 : open_file dev lba L s2 f (set_f_off (f_off fl) fl1) i ip1).
  { destruct Ho1 as [P1 P2 P3 P4 P5 P6 P7 P8 P9 P10 P11]. assert (Efs : fs_of s2 = fs_of s1).
    { pose proof (ofile_ip_off s1 (ffs s1) f fl1 (f_off fl) P1) as E. unfold fs_of at 1. change (ofile_ip s2) with (ofile_ip (with_fs (<[f := set_f_off (f_off fl) fl1]> (files s1)) (ffs s1) s1)).
      rewrite E. done. }
    split; rewrite ?Efs; try done. cbn [files s2 set_files]. by apply list_lookup_insert_eq, lookup_lt_Some with fl1. }
  assert (Hlen : read_len (d_size (i_copy ip1)) (f_off fl) n = n) by (unfold read_len; rewrite Z1, (proj2 (Z.ltb_ge _ _)) by lia; lia).
  destruct (fileread_ok junk dev lba L s2 f (set_f_off (f_off fl) fl1) i ip1 dst n Ho2) as (s3 & ip3 & E3 & [R1 _ R3 R4 _ _]); cbn [f_off set_f_off]; try done; try lia.
  { rewrite Hlen. intros p Hp. by apply M1. }
  cbn [f_off set_f_off] in *. rewrite Hlen in *. exists s1, s2, s3, ip3. split; [done|]. split; [done|]. split; [done|]. split; [exact R1|]. split; [congruence|].
  intros t Ht. rewrite R4, decide_True by lia. assert (HM : MAXFILE * BSIZE = 4299206656) by reflexivity.
  change (ffs s2) with (ffs s1). rewrite C1, decide_True by lia. f_equal. lia.
Qed.
End Props.

(** ** The files of the image *)

(** No pipes: [pipealloc] never ran. *)
#[local] Instance no_pipes : pipeops flat unit := {|
  po_alloc := mret (-1); po_close _ _ := mret tt; po_read _ _ _ := mret (-1); po_write _ _ _ := mret (-1) |}.
#[local] Instance no_devs : devsw flat unit := {| dev_read _ := None; dev_write _ := None; dev_ioctl _ := None |}.

(** The file [a] open for reading and writing at 5000, twice, beside a free slot. *)
Definition img_open : file := File FD_INODE 2 0 (Some 1%nat) 5000 O_RDWR 0 1 1.
Definition img_fls : fls ram flat unit unit := Fls img_fs [img_open; file0; img_open] [] 0 (Cred 0 0 0 0 0 0 0 0 0 0 0 18) tt tt.

Lemma img_open_file : open_file 1 2048 img_locks img_fls 0 img_open 1 (Inode 1 2 1 false 0 1 img_file).
Proof.
  split; try done; try (cbn; lia); [exact img_idle|exact img_file_at].
Qed.

Lemma filealloc_correct_witness : exists s', filealloc img_fls = Done (Some 1%nat) s' /\ files s' = [img_open; set_f_ref 1 file0; img_open].
Proof.
  destruct (filealloc_correct 1 2048 img_locks img_fls img_idle ltac:(unfold img_locks, ftable_lock; set_solver)) as ([f|] & s' & E & Hc).
  - destruct Hc as (fl & Hf & Hz & Ht & Hb). exists s'. destruct f as [|[|f]].
    + injection Hf as <-. done.
    + injection Hf as <-. split; [exact E|]. by rewrite (tb_files _ _ _ _ _ _ Ht).
    + by destruct (Hb 1%nat file0 ltac:(lia) eq_refl).
  - destruct Hc as [_ Hc]. by destruct (Hc 1%nat file0 eq_refl).
Defined.

Lemma fileclose_correct_witness : exists s1 s2, filedup 0 img_fls = Done 0%nat s1 /\ fileclose fresh_data 0 img_fls = Done tt s2 /\
  f_ref <$> files s1 !! 0%nat = Some 3 /\ f_ref <$> files s2 !! 0%nat = Some 1.
Proof.
  destruct (fileclose_correct fresh_data 1 2048 img_locks img_fls 0 img_open img_idle ltac:(unfold img_locks, ftable_lock; set_solver) eq_refl ltac:(cbn; lia)) as (H1 & H2 & _).
  destruct (H1 ltac:(cbn; lia)) as (s1 & E1 & T1). destruct (H2 ltac:(cbn; lia)) as (s2 & E2 & T2).
  exists s1, s2. split; [exact E1|]. split; [exact E2|]. by rewrite (tb_files _ _ _ _ _ _ T1), (tb_files _ _ _ _ _ _ T2).
Defined.

(** The same machine with the process's table full but for descriptor 3. *)
Definition full_fls : fls ram flat unit unit := set_ofile (<[3%nat := None]> (replicate NOFILE (Some 0%nat))) img_fls.

Lemma fdalloc_correct_witness : fdalloc 2 1 full_fls = Done 3 (set_ofile (<[3%nat := Some 2%nat]> (ofile full_fls)) full_fls).
Proof.
  destruct (fdalloc_correct full_fls 2 1 ltac:(unfold NOFILE; lia) eq_refl) as [(fd & Hr & Hl & _ & E)|[Hn _]].
  - assert (fd = 3%nat) as ->; [|exact E]. destruct (decide (fd = 3%nat)) as [|Hne]; [done|]. cbn [ofile full_fls set_ofile] in Hl.
    rewrite list_lookup_insert_ne in Hl by done. apply lookup_replicate in Hl as [? _]. done.
  - destruct (Hn 3%nat ltac:(unfold NOFILE; lia)) as [g Hg]. done.
Defined.

Lemma write_seek_read_witness : exists s1 s2 s3, filewrite fresh_data 0 100 8000 false img_fls = Done 8000 s1 /\ filelseek (Some 0%nat) 5000 SEEK_SET s1 = Done 5000 s2 /\
  fileread fresh_data 0 50000 8000 false s2 = Done 8000 s3 /\ kmem (ffs s3) 50007 = 107.
Proof.
  destruct (write_seek_read fresh_data 1 2048 img_locks img_fls 0 img_open 1 (Inode 1 2 1 false 0 1 img_file) 100 50000 8000 img_open_file
    ltac:(done) ltac:(done) ltac:(lia) ltac:(lia) ltac:(lia) ltac:(lia) ltac:(cbn; lia) ltac:(lia) ltac:(cbn; lia)
    ltac:(cbn [sb fbio img_fs ffs img_fls]; rewrite img_free; vm_compute; discriminate)) as (s1 & s2 & s3 & ip & E1 & E2 & E3 & _ & _ & Hk).
  exists s1, s2, s3. split; [exact E1|]. split; [exact E2|]. split; [exact E3|]. exact (Hk 7 ltac:(lia)).
Defined.
