(* ===== verification/Syscall.v ===== *)
(** * System call arguments (kernel/syscall.c)

    The six argument registers of the trap frame are the function [tf]; the
    process's size [sz] and its mapped regions [is_mmap_region] decide which
    addresses count as user space.  A string is the list of its bytes before
    the NUL, read through the class [userstr]. *)
From S2P Require Import Prelude Bytes UserMem Cred.

Definition STACKTOP : Z := 0x3fffffd000.
Definition STACKBASE : Z := STACKTOP - 16 * 4096.

(** [copyinstr a max]: 0 and the bytes before the NUL, or -1. *)
Class userstr (U : Type) := UserStr { copyinstr : Z -> Z -> U -> Z * list Z }.
Class userstr_laws (U : Type) `{userstr U} := {
  copyinstr_result : forall a n u, (copyinstr a n u).1 = 0 \/ (copyinstr a n u).1 = -1;
  copyinstr_string : forall a n u, (copyinstr a n u).1 = 0 -> Forall (fun b => 0 < b < 256) (copyinstr a n u).2;
  copyinstr_short : forall a n u, 0 < n -> (copyinstr a n u).1 = 0 -> Z.of_nat (length (copyinstr a n u).2) < n;
}.

(** The flat address space of UserMem.v; address 0 stands for an empty string. *)
Fixpoint flat_str (n : nat) (a : Z) (u : flat) : Z * list Z :=
  match n with
  | O => (-1, [])
  | S n => match u !! a with
           | None => (-1, [])
           | Some b => if u8 b =? 0 then (0, []) else let r := flat_str n (a + 1) u in (r.1, u8 b :: r.2)
           end
  end.
#[export] Instance flat_userstr : userstr flat :=
  {| copyinstr a n u := if a =? 0 then (0, []) else flat_str (Z.to_nat n) a u |}.

Lemma flat_str_spec n : forall a u, let r := flat_str n a u in
  (r.1 = 0 \/ r.1 = -1) /\ (r.1 = 0 -> Forall (fun b => 0 < b < 256) r.2 /\ (length r.2 < n)%nat).
Proof.
  induction n as [|n IH]; intros a u; cbn [flat_str]; [by split; [right|]|].
  destruct (u !! a) as [b|]; [|by split; [right|]]. destruct (u8 b =? 0) eqn:E; bool_hyps; cbn [fst snd].
  - split; [by left|]. intros _. split; [constructor|cbn; lia].
  - destruct (IH (a + 1) u) as [H1 H2]. split; [done|]. intros H3. destruct (H2 H3) as [H4 H5]. split; [|cbn; lia].
    constructor; [|done]. pose proof (wrap_range 8 b ltac:(lia)). change (2 ^ 8) with 256 in *. lia.
Qed.
#[export] Instance flat_userstr_laws : userstr_laws flat.
Proof.
  split; cbn; intros a n u; destruct (a =? 0); cbn; auto; try lia.
  - apply (flat_str_spec (Z.to_nat n) a u).
  - intros E. by apply (flat_str_spec (Z.to_nat n) a u).
  - intros Hn E. destruct (flat_str_spec (Z.to_nat n) a u) as [_ H]. destruct (H E). lia.
Qed.

(** ** Fetching arguments

    [None] is the result -1.  The [argint] of Cred.v reads an [int]. *)
Definition argraw (n : Z) (tf : Z -> Z) : Z := u64 (tf n).
Definition argu64 (n : Z) (tf : Z -> Z) : option Z := if 5 <? n then None else Some (argraw n tf).

Section Fetch.
Context {U : Type} `{!usermem U} `{!userstr U}.
Context (sz : Z) (is_mmap_region : Z -> Z -> bool).

Definition in_user (addr n : Z) : bool :=
  (u64 (addr + n) <=? sz) || is_mmap_region addr n || ((STACKBASE <=? addr) && (addr <? STACKTOP)).

Definition fetchaddr (addr : Z) (u : U) : option Z :=
  if ((sz <=? addr) || (sz <? u64 (addr + 8))) && (negb (is_mmap_region addr 8) && ((addr <? STACKBASE) || (STACKTOP <=? addr)))
  then None
  else let r := copyin addr 8 u in if negb (r.1 =? 0) then None else Some (rd64 (of_list r.2) 0).

Definition fetchstr (addr max : Z) (u : U) : option (list Z) :=
  let r := copyinstr addr max u in if r.1 <? 0 then None else Some r.2.

(** The block behind argument [n]; an address of 0 leaves the caller's object
    as it was: [Some None]. *)
Definition argptr (n size : Z) (tf : Z -> Z) (u : U) : option (option (list Z)) :=
  match argu64 n tf with
  | None => None
  | Some addr =>
      if addr =? 0 then Some None
      else if in_user addr size then
        let r := copyin addr size u in if r.1 <? 0 then None else Some (Some r.2)
      else None
  end.

Definition argstr (n max : Z) (tf : Z -> Z) (u : U) : option (list Z) :=
  match argu64 n tf with None => None | Some addr => fetchstr addr max u end.
End Fetch.

(** ** The dispatch

    The handler of a number, and its result, which [syscall] stores in
    register a0; -1 for a number without a handler. *)
Fixpoint find_call {S} (syscalls : list (Z * M S Z)) (num : Z) : option (M S Z) :=
  match syscalls with [] => None | (n, f) :: l => if n =? num then Some f else find_call l num end.
Definition syscall {S} (syscalls : list (Z * M S Z)) (a7 : Z) : M S Z :=
  match (if 0 <? s32 a7 then find_call syscalls (s32 a7) else None) with
  | Some f => f
  | None => mret (-1)
  end.

(** [if (o < 0) return e;] *)
Notation "'let?' x := o 'else' e 'in' k" := (match o with Some x => k | None => mret e end)
  (at level 200, x strict pattern, o at level 100, e at level 100, k at level 200).
