(* ===== verification/Triple.v ===== *)
(** * Partial correctness triples

    [ptriple P m Q]: whatever [m] returns from a state that meets [P] meets
    [Q].  A run that panics, blocks or is undefined returns nothing. *)
From S2P Require Import Prelude.

Section Triple.
Context {S : Type}.

Definition ptriple {A} (P : S -> Prop) (m : M S A) (Q : A -> S -> Prop) : Prop :=
  forall s a s', P s -> m s = Done a s' -> Q a s'.

Lemma ptriple_bind {A B} P (m : M S A) R (f : A -> M S B) Q :
  ptriple P m R -> (forall a, ptriple (R a) (f a) Q) -> ptriple P (m ≫= f) Q.
Proof. intros Hm Hf s b s' HP H. apply bind_Done_inv in H as (a & s1 & E1 & E2). eapply Hf; [|exact E2]. by eapply Hm. Qed.

Lemma ptriple_weaken {A} P P' (m : M S A) Q Q' : ptriple P m Q -> (forall s, P' s -> P s) -> (forall a s, Q a s -> Q' a s) -> ptriple P' m Q'.
Proof. intros Hm HP HQ s a s' Hs E. eapply HQ, Hm; [by apply HP|done]. Qed.

Lemma ptriple_pre {A} P P' (m : M S A) Q : ptriple P m Q -> (forall s, P' s -> P s) -> ptriple P' m Q.
Proof. intros. by eapply ptriple_weaken. Qed.
Lemma ptriple_post {A} P (m : M S A) Q Q' : ptriple P m Q -> (forall a s, Q a s -> Q' a s) -> ptriple P m Q'.
Proof. intros. by eapply ptriple_weaken. Qed.

(** What a routine finds out about the state on its way. *)
Lemma ptriple_pure {A} (phi : Prop) P (m : M S A) Q : (phi -> ptriple P m Q) -> ptriple (fun s => P s /\ phi) m Q.
Proof. intros H s a s' [Hs Hp] E. by eapply H. Qed.
Lemma ptriple_ex {A X} (P : X -> S -> Prop) (m : M S A) Q : (forall x, ptriple (P x) m Q) -> ptriple (fun s => exists x, P x s) m Q.
Proof. intros H s a s' [x Hs] E. by eapply H. Qed.

Lemma ptriple_or {A} P1 P2 (m : M S A) Q : ptriple P1 m Q -> ptriple P2 m Q -> ptriple (fun s => P1 s \/ P2 s) m Q.
Proof. intros H1 H2 s a s' [Hs|Hs] E; [by eapply H1|by eapply H2]. Qed.

Lemma ptriple_ret {A} P (a : A) (Q : A -> S -> Prop) : (forall s, P s -> Q a s) -> ptriple P (mret a) Q.
Proof. intros HQ s b s' HP [= <- <-]. by apply HQ. Qed.
Lemma ptriple_gets {A} P (g : S -> A) (Q : A -> S -> Prop) : (forall s, P s -> Q (g s) s) -> ptriple P (gets g) Q.
Proof. intros HQ s b s' HP [= <- <-]. by apply HQ. Qed.
Lemma ptriple_modify P (g : S -> S) (Q : unit -> S -> Prop) : (forall s, P s -> Q tt (g s)) -> ptriple P (modify g) Q.
Proof. intros HQ s b s' HP [= <- <-]. by apply HQ. Qed.
Lemma ptriple_deref {A} P (o : option A) (Q : A -> S -> Prop) : (forall s a, P s -> o = Some a -> Q a s) -> ptriple P (deref o) Q.
Proof. intros HQ s b s' HP E. unfold deref in E. destruct o; [injection E as <- <-|done]. by apply HQ. Qed.
Lemma ptriple_panic {A} P msg (Q : A -> S -> Prop) : ptriple P (panic msg) Q.
Proof. by intros s a s' _ [=]. Qed.
Lemma ptriple_undef {A} P (Q : A -> S -> Prop) : ptriple P undef Q.
Proof. by intros s a s' _ [=]. Qed.
Lemma ptriple_nofuel {A} P (Q : A -> S -> Prop) : ptriple P nofuel Q.
Proof. by intros s a s' _ [=]. Qed.
Lemma ptriple_zoom {T A} (g : S -> T) (h : T -> S -> S) (m : M T A) (P : S -> Prop) (Q : A -> S -> Prop) :
  (forall s a t, P s -> Q a (h t s)) -> ptriple P (zoom g h m) Q.
Proof. intros HQ s a s' HP E. unfold zoom in E. destruct (m (g s)); [injection E as <- <-; by apply HQ|done..]. Qed.

(** [m] stays [P], whatever it returns. *)
Definition stays {A} (P : S -> Prop) (m : M S A) : Prop := ptriple P m (fun _ => P).

Lemma stays_bind {A B} P (m : M S A) (f : A -> M S B) : stays P m -> (forall a, stays P (f a)) -> stays P (m ≫= f).
Proof. apply ptriple_bind. Qed.
Lemma stays_ret {A} P (a : A) : stays P (mret a).
Proof. by apply ptriple_ret. Qed.
Lemma stays_gets {A} P (g : S -> A) : stays P (gets g).
Proof. by apply ptriple_gets. Qed.
Lemma stays_deref {A} P (o : option A) : stays P (deref o).
Proof. by apply ptriple_deref. Qed.
Lemma stays_panic {A} P msg : stays P (panic msg : M S A).
Proof. apply ptriple_panic. Qed.
Lemma stays_undef {A} P : stays P (undef : M S A).
Proof. apply ptriple_undef. Qed.
Lemma stays_nofuel {A} P : stays P (nofuel : M S A).
Proof. apply ptriple_nofuel. Qed.
End Triple.

Create HintDb stays_db.
#[export] Hint Resolve stays_ret stays_gets stays_deref stays_panic stays_undef stays_nofuel : stays_db.

(** Split a routine along its binds and branches; close the leaves with the
    hints of [stays_db]. *)
Ltac stays_step :=
  match goal with
  | |- forall _, _ => intros ?
  | |- stays _ (let _ := _ in _) => cbv zeta
  | |- stays _ (_ ≫= _) => apply stays_bind
  | |- stays _ (match ?x with _ => _ end) => destruct x
  | |- stays _ ?m => solve [eauto 2 with stays_db]
  end.
Ltac stays_auto := repeat stays_step.
