(* ===== verification/Sysfile.v ===== *)
(** * File system calls (kernel/sysfile.c)

    Each handler reads its arguments from the trap frame [tf] and works on the
    open files of File.v.  [sz] and [is_mmap_region] are the process's size
    and mapped regions; [f_null] says whether the uninitialised pointer of
    sys_getdents64 happens to be NULL.  The bodies of [begin_op] and [end_op]
    are compiled out.  sys_execve is in Exec.v. *)
From S2P Require Import Prelude Spinlock Bytes UserMem Cred Bio Fs File Syscall.

Definition ENOTTY : Z := 25.
Definition ENFILE : Z := 23.
Definition EMFILE : Z := 24.
Definition MAXPATH : Z := 128.
Definition F_DUPFD : Z := 0.
Definition F_GETFD : Z := 1.
Definition F_SETFD : Z := 2.
Definition F_GETFL : Z := 3.
Definition F_SETFL : Z := 4.
Definition FD_CLOEXEC : Z := 1.
Definition O_DSYNC : Z := 0x1000.
Definition O_ASYNC : Z := 0x2000.
Definition O_NOATIME : Z := 0x40000.
Definition O_SYNC : Z := 0x101000.
Definition FILE_STATUS_FLAGS : Z :=
  Z.lor O_APPEND (Z.lor O_ASYNC (Z.lor O_DIRECT (Z.lor O_DSYNC (Z.lor O_NOATIME (Z.lor O_NONBLOCK O_SYNC))))).
Definition AT_SYMLINK_FOLLOW : Z := 0x400.
Definition AT_EMPTY_PATH : Z := 0x1000.
Definition UTIME_NOW : Z := 0x3fffffff.
Definition UTIME_OMIT : Z := 0x3ffffffe.
Definition RENAME_EXCHANGE : Z := 2.
Definition POSIX_FADV_NORMAL : Z := 0.
Definition POSIX_FADV_NOREUSE : Z := 5.
Definition sizeof_iovec : Z := 16.
(** "/proc/self/fd/" and "/dev/tty". *)
Definition PROC_SELF_FD : list Z := [47; 112; 114; 111; 99; 47; 115; 101; 108; 102; 47; 102; 100; 47].
Definition DEV_TTY : list Z := [47; 100; 101; 118; 47; 116; 116; 121].

(** The numbers of the file system calls. *)
Definition SYS_llistxattr : Z := 12.
Definition SYS_getcwd : Z := 17.
Definition SYS_dup : Z := 23.
Definition SYS_dup3 : Z := 24.
Definition SYS_fcntl : Z := 25.
Definition SYS_ioctl : Z := 29.
Definition SYS_mknodat : Z := 33.
Definition SYS_mkdirat : Z := 34.
Definition SYS_unlinkat : Z := 35.
Definition SYS_symlinkat : Z := 36.
Definition SYS_linkat : Z := 37.
Definition SYS_chdir : Z := 49.
Definition SYS_fchmodat : Z := 53.
Definition SYS_fchownat : Z := 54.
Definition SYS_fchown : Z := 55.
Definition SYS_openat : Z := 56.
Definition SYS_close : Z := 57.
Definition SYS_pipe2 : Z := 59.
Definition SYS_getdents64 : Z := 61.
Definition SYS_lseek : Z := 62.
Definition SYS_read : Z := 63.
Definition SYS_write : Z := 64.
Definition SYS_readv : Z := 65.
Definition SYS_writev : Z := 66.
Definition SYS_sendfile : Z := 71.
Definition SYS_readlinkat : Z := 78.
Definition SYS_newfstatat : Z := 79.
Definition SYS_fstat : Z := 80.
Definition SYS_utimensat : Z := 88.
Definition SYS_fadvise64 : Z := 223.
Definition SYS_renameat2 : Z := 276.
Definition SYS_faccessat2 : Z := 439.

Definition bit_add (p n : Z) : Z := Z.lor p (Z.shiftl 1 n).
Definition bit_remove (p n : Z) : Z := Z.land p (Z.lnot (Z.shiftl 1 n)).
Definition bit_test (p n : Z) : bool := negb (Z.land p (Z.shiftl 1 n) =? 0).
Definition S_ISDIR (mode : Z) : bool := Z.land mode S_IFMT =? S_IFDIR.
Definition S_ISREG (mode : Z) : bool := Z.land mode S_IFMT =? S_IFREG.
Definition S_ISCHR (mode : Z) : bool := Z.land mode S_IFMT =? S_IFCHR.
Definition S_ISBLK (mode : Z) : bool := Z.land mode S_IFMT =? S_IFBLK.
Definition S_ISLNK (mode : Z) : bool := Z.land mode S_IFMT =? S_IFLNK.
(** The values of the enum [file.type]. *)
Definition ftype_code (t : ftype) : Z := match t with FD_NONE => 0 | FD_PIPE => 1 | FD_INODE => 2 | FD_DEVICE => 3 end.
(** [strncmp(s, t, strlen(s)) == 0]. *)
Definition is_prefix (s t : list Z) : bool := strncmp_l (length s) s t =? 0.
Definition iovec_of (l : list Z) : Z * Z := (rd64 (of_list l) 0, rd64 (of_list l) 8).
Definition timespec_of (l : list Z) (a : Z) : Z * Z := (s64 (rd64 (of_list l) a), s64 (rd64 (of_list l) (a + 8))).
(** The four bytes of an [int]. *)
Definition int_bytes (v : Z) : list Z := to_list (wr32 0 (u32 v) (fun _ => 0)) 0 4.

Section Sysfile.
Context {D : Type} `{!sdcard D} {U : Type} `{!usermem U} `{!userstr U} {P : Type} `{!pipeops U P} {V : Type} `{!devsw U V}.
Context (junk : bytes) (stk past : list Z) (st0 : bytes) (loops : nat).
Context (sz : Z) (is_mmap_region : Z -> Z -> bool) (f_null : bool) (tf : Z -> Z).
Local Abbreviation fls := (fls D U P V).

Definition user : M fls U := gets (fun s => fuser (ffs s)).
Definition argpath (n : Z) : M fls (option (list Z)) := u ← user; mret (argstr n MAXPATH tf u).

(** ** Descriptors *)

(** [p->ofile[fd]]. *)
Definition fd_slot (fd : Z) : M fls (option nat) := fun s => deref (if fd <? 0 then None else ofile s !! Z.to_nat fd) s.
Definition set_fd (fd : Z) (f : option nat) : M fls unit := modify (fun s => set_ofile (<[Z.to_nat fd := f]> (ofile s)) s).
Definition flag_add (fd : Z) : M fls unit := modify (fun s => set_fdflag (bit_add (fdflag s) fd) s).
Definition flag_remove (fd : Z) : M fls unit := modify (fun s => set_fdflag (bit_remove (fdflag s) fd) s).

Definition argfd (n : Z) : M fls (option (Z * nat)) :=
  let? fd := argint n tf else None in
  if (fd <? 0) || (Z.of_nat NOFILE <=? fd) then mret None
  else
    o ← fd_slot fd;
    match o with None => mret None | Some f => mret (Some (fd, f)) end.

Definition check_fdcwd (path : list Z) (dirfd : Z) : M fls Z :=
  if negb (bool_decide (head path = Some SLASH)) && negb (dirfd =? AT_FDCWD) then
    o ← fd_slot dirfd;
    match o with
    | None => mret (- EBADF)
    | Some f => fl ← get_file f; mret (if negb (ftype_code (f_type fl) =? T_DIR) then - ENOTDIR else 0)
    end
  else mret 0.

Definition fdalloc_from (f : nat) (from : Z) : M fls Z := if from <? 0 then undef else fdalloc f (Z.to_nat from).
Definition dupfd (fd from : Z) : M fls Z :=
  o ← fd_slot fd;
  match o with
  | None => mret (- EBADF)
  | Some f => filedup f;; fdalloc_from f from
  end.
Definition sys_dup : M fls Z := let? fd := argint 0 tf else - EINVAL in dupfd fd 0.

Definition sys_dup3 : M fls Z :=
  let? fd1 := argint 0 tf else - EINVAL in
  let? fd2 := argint 1 tf else - EINVAL in
  let? flags := argint 2 tf else - EINVAL in
  if negb (Z.land flags (Z.lnot O_CLOEXEC) =? 0) then mret (- EINVAL)
  else if fd1 =? fd2 then mret (- EINVAL)
  else if (fd1 <? 0) || (Z.of_nat NOFILE <=? fd1) then mret (- EBADF)
  else if (fd2 <? 0) || (Z.of_nat NOFILE <=? fd2) then mret (- EBADF)
  else
    f ← fd_slot fd1;
    o ← fd_slot fd2;
    match o with Some g => fileclose junk g | None => mret tt end;;
    f ← deref f;
    filedup f;;
    (if negb (Z.land flags O_CLOEXEC =? 0) then flag_add fd2 else mret tt);;
    set_fd fd2 (Some f);;
    mret fd2.

Definition sys_close : M fls Z :=
  o ← argfd 0;
  match o with
  | None => mret (- EBADF)
  | Some (fd, f) => set_fd fd None;; flag_remove fd;; fileclose junk f;; mret 0
  end.

Definition sys_fcntl : M fls Z :=
  o ← argfd 0;
  let? (fd, f) := o else - EINVAL in
  let? cmd := argint 1 tf else - EINVAL in
  let? args := argint 2 tf else - EINVAL in
  if cmd =? F_DUPFD then dupfd fd args
  else if cmd =? F_GETFD then fl ← gets fdflag; mret (if bit_test fl fd then FD_CLOEXEC else 0)
  else if cmd =? F_SETFD then (if negb (Z.land args FD_CLOEXEC =? 0) then flag_add fd else flag_remove fd);; mret 0
  else if cmd =? F_GETFL then fl ← get_file f; mret (Z.land (f_flags fl) (Z.lor FILE_STATUS_FLAGS O_ACCMODE))
  else if cmd =? F_SETFL then
    upd_file f (fun fl => set_f_flags (Z.lor (Z.land args FILE_STATUS_FLAGS) (Z.land (f_flags fl) O_ACCMODE)) fl);; mret 0
  else mret (- EINVAL).

(** ** Reading and writing *)

Definition sys_read : M fls Z :=
  let? p := argu64 1 tf else - EINVAL in
  let? n := argint 2 tf else - EINVAL in
  o ← argfd 0;
  let? (fd, f) := o else - EBADF in
  fileread junk f p n true.

Definition sys_write : M fls Z :=
  let? p := argu64 1 tf else - EINVAL in
  let? n := argint 2 tf else - EINVAL in
  o ← argfd 0;
  let? (fd, f) := o else - EBADF in
  filewrite junk f p n true.

(** The loop of sys_readv over the one [iov] that was copied in: what lies
    behind it on the stack is not an [iovec]. *)
Definition readv_loop (f : nat) (iov : option (list Z)) (iovcnt : Z) : M fls Z :=
  if iovcnt <=? 0 then mret 0
  else
    l ← deref iov;
    let v := iovec_of l in
    bytes ← fileread junk f v.1 (s32 v.2) true;
    if bytes <? 0 then mret bytes
    else if bytes =? 0 then mret 0
    else if iovcnt =? 1 then mret bytes
    else undef.
Definition sys_readv : M fls Z :=
  u ← user;
  let? iov := argptr sz is_mmap_region 1 sizeof_iovec tf u else - EINVAL in
  let? iovcnt := argint 2 tf else - EINVAL in
  o ← argfd 0;
  let? (fd, f) := o else - EBADF in
  readv_loop f iov iovcnt.

Fixpoint writev_loop (fuel : nat) (f : nat) (pp lim tot : Z) : M fls Z :=
  match fuel with
  | O => nofuel
  | S fuel =>
      if pp <? lim then
        u ← user;
        let r := copyin pp sizeof_iovec u in
        if negb (r.1 =? 0) then mret (- EIO)
        else
          let v := iovec_of r.2 in
          n ← filewrite junk f v.1 (s32 v.2) true;
          writev_loop fuel f (u64 (pp + sizeof_iovec)) lim (s64 (tot + n))
      else mret tot
  end.
Definition sys_writev : M fls Z :=
  let? iov := argu64 1 tf else - EINVAL in
  let? iovcnt := argint 2 tf else - EINVAL in
  if iovcnt =? 0 then mret 0
  else
    o ← argfd 0;
    let? (fd, f) := o else - EBADF in
    let lim := u64 (iov + sizeof_iovec * iovcnt) in
    writev_loop (Z.to_nat ((lim - iov) / sizeof_iovec + 2)) f iov lim 0.

Definition sys_lseek : M fls Z :=
  o ← argfd 0;
  let? (fd, f) := o else - EINVAL in
  let? offset := argu64 1 tf else - EINVAL in
  let? whence := argint 2 tf else - EINVAL in
  if negb (Z.land whence (Z.lnot (Z.lor SEEK_SET (Z.lor SEEK_CUR SEEK_END))) =? 0) then mret (- EINVAL)
  else
    fl ← get_file f;
    match f_type fl with
    | FD_PIPE => mret 0
    | _ => filelseek (Some f) offset whence
    end.

Definition sys_sendfile : M fls Z :=
  o ← argfd 0;
  let? (_, out_f) := o else - EBADF in
  o ← argfd 1;
  let? (_, in_f) := o else - EBADF in
  let? offset := argu64 2 tf else - EFAULT in
  let? count := argu64 3 tf else - EINVAL in
  sendfile junk out_f in_f offset count.

Definition sys_fadvise64 : M fls Z :=
  o ← argfd 0;
  let? (fd, _) := o else - EINVAL in
  let? offset := argu64 1 tf else - EINVAL in
  let? len := argu64 2 tf else - EINVAL in
  let? advice := argint 3 tf else - EINVAL in
  if (advice <? POSIX_FADV_NORMAL) && (POSIX_FADV_NOREUSE <? advice) then mret (- EINVAL) else mret 0.

(** [f->ip->type]. *)
Definition file_ip_type (f : nat) : M fls Z :=
  fl ← get_file f; i ← deref (f_ip fl); ip ← inode_at i; mret (d_type (i_copy ip)).

Definition sys_ioctl : M fls Z :=
  let? req := argu64 1 tf else - EINVAL in
  let? argp := argu64 2 tf else - EINVAL in
  o ← argfd 0;
  let? (fd, f) := o else - EINVAL in
  fl ← get_file f;
  bad ← match f_type fl with FD_INODE => mret false | _ => t ← file_ip_type f; mret (negb (t =? T_DEVICE)) end;
  if bad : bool then mret (- ENOTTY) else fileioctl f req argp.

Definition sys_getdents64 : M fls Z :=
  o ← argfd 0;
  let? (fd, f) := o else (if f_null then - ENOENT else - EINVAL) in
  let? dirp := argu64 1 tf else - EINVAL in
  let? count := argu64 2 tf else - EINVAL in
  t ← file_ip_type f;
  if t =? T_DEVICE then mret (- EBADF)
  else if negb (t =? T_DIR) then mret (- ENOTDIR)
  else getdents64 junk past st0 f dirp count.

(** ** Status *)

Definition sys_fstat : M fls Z :=
  let? st := argu64 1 tf else - EINVAL in
  o ← argfd 0;
  let? (fd, f) := o else - EBADF in
  filestat junk st0 f st.

(** The links are followed as in filechown: [maxpath_bytes] of each. *)
Definition sys_fstatat : M fls Z :=
  let? dirfd := argint 0 tf else - EINVAL in
  let? staddr := argu64 2 tf else - EINVAL in
  let? flags := argint 3 tf else - EINVAL in
  o ← argpath 1;
  let? path := o else - EFAULT in
  if negb (flags =? 0) && negb (Z.land flags (Z.lnot AT_SYMLINK_NOFOLLOW) =? 0) then mret (- EINVAL)
  else
    ret ← check_fdcwd path dirfd;
    if ret <? 0 then mret ret
    else
      r ← follow_loop junk stk loops path dirfd flags;
      match r with
      | inr e => mret e
      | inl i =>
          st ← on_fs (stati i (Stat 0 0 0 0 0 0 (rd64 st0 32) 0 0 0 (0, 0) (0, 0) (0, 0)));
          on_fs (iunlockput junk i);;
          r ← on_fs (either_copyout true staddr (to_list (put_stat st st0) 0 sizeof_stat));
          mret (if r <? 0 then - EFAULT else 0)
      end.

(** The time [utimensat] gives a field. *)
Definition utime (cur now t : Z * Z) : Z * Z :=
  if t.2 =? UTIME_NOW then now else if t.2 =? UTIME_OMIT then cur else t.
Definition sys_utimensat : M fls Z :=
  let? dirfd := argint 0 tf else - EINVAL in
  o ← argpath 1;
  let? path := o else - EINVAL in
  let? timesp := argu64 2 tf else - EINVAL in
  let? flags := argint 3 tf else - EINVAL in
  u ← user;
  let r := copyin timesp 32 u in
  if negb (timesp =? 0) && (r.1 <? 0) then mret (- EFAULT)
  else
    let times := if negb (timesp =? 0) then (timespec_of r.2 0, timespec_of r.2 16) else ((0, UTIME_NOW), (0, UTIME_NOW)) in
    if negb (Z.land flags (Z.lnot (Z.lor AT_SYMLINK_NOFOLLOW AT_EMPTY_PATH)) =? 0) then mret (- EINVAL)
    else
      r ← match path with
          | [] =>
              o ← argfd 0;
              let? (fd, f) := o else inr (- EINVAL) in
              fl ← get_file f; i ← deref (f_ip fl); mret (inl i)
          | _ =>
              ret ← check_fdcwd path dirfd;
              if ret <? 0 then mret (inr ret)
              else
                r ← on_fs (nameiparent junk path stk dirfd);
                match r.1 with
                | None => mret (inr (- ENOENT))
                | Some dp =>
                    on_fs (ilock junk dp);;
                    o ← on_fs (dirlookup junk dp r.2);
                    match o with
                    | None => put_err junk dp (inr (- ENOENT))
                    | Some (i, off) => put_err junk dp (inl i)
                    end
                end
          end;
      match r with
      | inr e => mret e
      | inl i =>
          on_fs (ilock junk i);;
          t ← now;
          copy_at i (fun d => set_d_mtime (utime (d_mtime d) t times.2) (set_d_atime (utime (d_atime d) t times.1) d));;
          on_fs (iupdate junk i);;
          put_err junk i 0
      end.

(** ** Links *)

Definition sys_linkat : M fls Z :=
  let? olddirfd := argint 0 tf else - EINVAL in
  let? newdirfd := argint 2 tf else - EINVAL in
  let? flags := argint 4 tf else - EINVAL in
  o ← argpath 1;
  let? oldpath := o else - EINVAL in
  o ← argpath 3;
  let? newpath := o else - EINVAL in
  ret ← check_fdcwd oldpath olddirfd;
  if ret <? 0 then mret ret
  else
    ret ← check_fdcwd newpath newdirfd;
    if ret <? 0 then mret ret
    else if negb (Z.land flags AT_SYMLINK_FOLLOW =? 0) then
      o ← on_fs (namei junk oldpath stk olddirfd);
      let? i := o else - ENOENT in
      on_fs (ilock junk i);;
      ip ← inode_at i;
      if d_type (i_copy ip) =? T_SYMLINK then
        r ← read_link junk i maxpath_bytes;
        if r.1 <=? 0 then put_err junk i (- ENOENT)
        else on_fs (iunlockput junk i);; filelink junk stk r.2 olddirfd newpath newdirfd
      else on_fs (iunlockput junk i);; filelink junk stk oldpath olddirfd newpath newdirfd
    else if negb (flags =? 0) then mret (- EINVAL)
    else filelink junk stk oldpath olddirfd newpath newdirfd.

Definition sys_symlinkat : M fls Z :=
  o ← argpath 0;
  let? target := o else - EINVAL in
  let? dirfd := argint 1 tf else - EINVAL in
  o ← argpath 2;
  let? linkpath := o else - EINVAL in
  if bool_decide (target = []) || bool_decide (linkpath = []) then mret (- ENOENT)
  else
    ret ← check_fdcwd linkpath dirfd;
    if ret <? 0 then mret ret else filesymlink junk stk target linkpath dirfd.

Definition sys_unlinkat : M fls Z :=
  let? dirfd := argint 0 tf else - EINVAL in
  let? flags := argint 2 tf else - EINVAL in
  o ← argpath 1;
  let? path := o else - EINVAL in
  ret ← check_fdcwd path dirfd;
  if ret <? 0 then mret ret
  else if negb (Z.land flags (Z.lnot AT_REMOVEDIR) =? 0) then mret (- EINVAL)
  else fileunlink junk stk path dirfd flags.

(** [argptr] is called with the NULL pointer [buf]: the bytes of the user's
    buffer go to address 0, and [buf] stays 0. *)
Definition sys_readlinkat : M fls Z :=
  let? dirfd := argint 0 tf else - EINVAL in
  o ← argpath 1;
  let? path := o else - EINVAL in
  let? bufsiz := argu64 3 tf else - EINVAL in
  let? addr := argu64 2 tf else - EFAULT in
  u ← user;
  let r := copyin addr bufsiz u in
  if negb (addr =? 0) && in_user sz is_mmap_region addr bufsiz && negb (bool_decide (r.2 = [])) then undef
  else
    let? _ := argptr sz is_mmap_region 2 bufsiz tf u else - EFAULT in
    if s64 bufsiz <=? 0 then mret (- EINVAL)
    else
      ret ← check_fdcwd path dirfd;
      if ret <? 0 then mret ret
      else if is_prefix PROC_SELF_FD path && (default 0 (path !! 14%nat) - 48 <? 3) then
        on_fs (either_copyout true 0 DEV_TTY);; mret 9
      else filereadlink junk stk path dirfd 0 bufsiz.

Definition sys_renameat2 : M fls Z :=
  let? olddirfd := argint 0 tf else - EINVAL in
  o ← argpath 1;
  let? oldpath := o else - EINVAL in
  let? newdirfd := argint 2 tf else - EINVAL in
  o ← argpath 3;
  let? newpath := o else - EINVAL in
  let? flags := argint 4 tf else - EINVAL in
  ret ← check_fdcwd oldpath olddirfd;
  if ret <? 0 then mret ret
  else
    ret ← check_fdcwd newpath newdirfd;
    if ret <? 0 then mret ret
    else if negb (Z.land flags RENAME_EXCHANGE =? 0) then mret (- EINVAL)
    else if is_prefix oldpath newpath then mret 0
    else filerename junk stk oldpath olddirfd newpath newdirfd flags.

(** ** Opening and creating *)

Definition sys_openat : M fls Z :=
  let? dirfd := argint 0 tf else - EINVAL in
  let? flags := argint 2 tf else - EINVAL in
  let? mode := argint 3 tf else - EINVAL in
  o ← argpath 1;
  let? path := o else - EINVAL in
  if negb (dirfd =? AT_FDCWD) then mret (- EINVAL)
  else
    ret ← check_fdcwd path dirfd;
    if ret <? 0 then mret ret else fileopen junk stk loops path dirfd flags (u32 mode).

(** [create] may return an error as a pointer, which sys_mkdirat follows. *)
Definition sys_mkdirat : M fls Z :=
  let? dirfd := argint 0 tf else - EINVAL in
  let? mode := argint 2 tf else - EINVAL in
  o ← argpath 1;
  let? path := o else - EINVAL in
  ret ← check_fdcwd path dirfd;
  if ret <? 0 then mret ret
  else
    p ← create junk stk path dirfd T_DIR 0 0 (Z.lor (u32 mode) S_IFDIR);
    match p with
    | Null_ptr => mret 0
    | Err_ptr _ => undef
    | Inode_ptr i => put_err junk i 0
    end.

Definition mknod_type (mode : Z) : option Z :=
  if S_ISDIR mode then Some T_DIR else if S_ISREG mode then Some T_FILE
  else if S_ISCHR mode || S_ISBLK mode then Some T_DEVICE else if S_ISLNK mode then Some T_SYMLINK else None.
Definition sys_mknodat : M fls Z :=
  let? dirfd := argint 0 tf else - EINVAL in
  let? mode := argint 2 tf else - EINVAL in
  let? dev := argu64 3 tf else - EINVAL in
  o ← argpath 1;
  let? path := o else - EINVAL in
  ret ← check_fdcwd path dirfd;
  if ret <? 0 then mret ret
  else
    let mode := u32 mode in
    let? type := mknod_type mode else - EINVAL in
    let major := if type =? T_DEVICE then Z.land (Z.shiftr dev 8) 0xff else 0 in
    let minor := if type =? T_DEVICE then Z.land dev 0xff else 0 in
    p ← create junk stk path dirfd type major minor mode;
    match p with
    | Err_ptr e => mret e
    | Null_ptr => panic "iunlock"
    | Inode_ptr i => put_err junk i 0
    end.

(** The end of sys_pipe2: descriptors for the two ends. *)
Definition pipe_fds (flags fdarray : Z) (rf wf : nat) : M fls Z :=
  fd0 ← fdalloc rf 0;
  fd1 ← (if fd0 <? 0 then mret (-1) else fdalloc wf 0);
  if (fd0 <? 0) || (fd1 <? 0) then
    (if 0 <=? fd0 then set_fd fd0 None else mret tt);;
    fileclose junk rf;; fileclose junk wf;; mret (- EMFILE)
  else
    r ← on_fs (either_copyout true fdarray (int_bytes fd0));
    r ← (if r <? 0 then mret r else on_fs (either_copyout true (u64 (fdarray + 4)) (int_bytes fd1)));
    if r <? 0 then
      set_fd fd0 None;; set_fd fd1 None;;
      flag_remove fd0;; flag_remove fd1;;
      fileclose junk rf;; fileclose junk wf;; mret (- EFAULT)
    else
      (if negb (Z.land flags O_CLOEXEC =? 0) then flag_add fd0;; flag_add fd1 else mret tt);;
      mret 0.
Definition sys_pipe2 : M fls Z :=
  let? flags := argint 1 tf else - ENFILE in
  let? fdarray := argu64 0 tf else - ENFILE in
  r ← pipealloc junk flags;
  let? (rf, wf) := (if r.1 <? 0 then None else r.2) else - ENFILE in
  if negb (Z.land flags (Z.lnot PIPE2_FLAGS) =? 0) then mret (- EINVAL)
  else pipe_fds flags fdarray rf wf.

(** ** The current directory *)

Definition set_fcwd (v : nat) (t : fst D U) : fst D U :=
  Fst (fbio t) (sb t) (itable t) (kmem t) (fuser t) (fpid t) v (fofile t) (fnow t).
Definition sys_chdir : M fls Z :=
  o ← argpath 0;
  let? path := o else - EINVAL in
  o ← on_fs (namei junk path stk AT_FDCWD);
  let? i := o else - ENOENT in
  on_fs (ilock junk i);;
  ip ← inode_at i;
  if negb (d_type (i_copy ip) =? T_DIR) then put_err junk i (- ENOTDIR)
  else
    on_fs (iunlock i);;
    cwd ← gets (fun s => fcwd (ffs s));
    on_fs (iput junk cwd);;
    on_fs (modify (set_fcwd i));;
    mret 0.

(** The names from [cwd] up to the root, each reversed: what the loop of
    sys_getcwd leaves in [buf], or None at [bad].  Every round adds a byte to
    the [MAXPATH] bytes of [buf]. *)
Fixpoint getcwd_loop (fuel : nat) (cwd : nat) (buf : list Z) (size : Z) : M fls (option (list Z)) :=
  match fuel with
  | O => nofuel
  | S fuel =>
      o ← on_fs (dirlookup junk cwd DOTDOT);
      match o with
      | None => panic "ilock"
      | Some (dp, _) =>
          on_fs (ilock junk dp);;
          c ← inode_at cwd;
          o ← on_fs (direntlookup junk dp (i_inum c));
          let bad := on_fs (iput junk cwd);; put_err junk dp None in
          match o with
          | None => bad
          | Some (de, _) =>
              let name := upto_nul (de_name de ++ past) in
              if size <? Z.of_nat (length name) + Z.of_nat (length buf) + 2 then bad
              else
                on_fs (iput junk cwd);;
                on_fs (iunlock dp);;
                if MAXPATH <? Z.of_nat (length buf + length name) then undef
                else
                  let buf := buf ++ rev name in
                  d ← inode_at dp;
                  if i_inum d =? ROOTINO then on_fs (iput junk dp);; mret (Some buf)
                  else if MAXPATH <=? Z.of_nat (length buf) then undef
                  else
                    cwd ← on_fs (idup dp);
                    on_fs (iput junk dp);;
                    getcwd_loop fuel cwd (buf ++ [SLASH]) size
          end
      end
  end.
Definition sys_getcwd : M fls Z :=
  let? bufp := argu64 0 tf else - EINVAL in
  let? size := argu64 1 tf else - EINVAL in
  c ← gets (fun s => fcwd (ffs s));
  cwd ← on_fs (idup c);
  ip ← inode_at cwd;
  o ← (if i_inum ip =? ROOTINO then mret (Some []) else getcwd_loop (Z.to_nat MAXPATH + 2) cwd [] size);
  let? buf := o else 0 in
  if MAXPATH <? Z.of_nat (length buf) + 2 then undef
  else
    (if negb (bufp =? 0) then
       on_fs (either_copyout true bufp (rev (buf ++ [SLASH]) ++ [0]));; mret tt
     else mret tt);;
    mret bufp.

(** ** Owners, modes and access *)

Definition sys_fchmodat : M fls Z :=
  let? dirfd := argint 0 tf else - EINVAL in
  o ← argpath 1;
  let? path := o else - EINVAL in
  let? mode := argint 2 tf else - EINVAL in
  let? flags := argint 3 tf else - EINVAL in
  ret ← check_fdcwd path dirfd;
  if ret <? 0 then mret ret else filechmod junk stk path dirfd (u32 mode).

Definition sys_fchown : M fls Z :=
  o ← argfd 0;
  let? (fd, f) := o else - EINVAL in
  let? owner := arg_id 1 tf else - EINVAL in
  let? group := arg_id 2 tf else - EINVAL in
  filechown junk stk loops (Some f) [] AT_FDCWD owner group 0.

Definition sys_fchownat : M fls Z :=
  let? dirfd := argint 0 tf else - EINVAL in
  o ← argpath 1;
  let? path := o else - EINVAL in
  let? owner := arg_id 2 tf else - EINVAL in
  let? group := arg_id 3 tf else - EINVAL in
  let? flags := argint 4 tf else - EINVAL in
  ret ← check_fdcwd path dirfd;
  if ret <? 0 then mret ret else filechown junk stk loops None path dirfd owner group flags.

Definition sys_faccessat2 : M fls Z :=
  let? dirfd := argint 0 tf else - EINVAL in
  o ← argpath 1;
  let? path := o else - EINVAL in
  let? mode := argint 2 tf else - EINVAL in
  let? flags := argint 3 tf else - EINVAL in
  ret ← check_fdcwd path dirfd;
  if ret <? 0 then mret ret else faccess junk stk loops path dirfd mode flags.

Definition sys_llistxattr : M fls Z :=
  o ← argpath 0;
  let? path := o else - EINVAL in
  let? listp := argu64 1 tf else - EINVAL in
  let? size := argu64 2 tf else - EINVAL in
  mret 0.

(** ** The entries of the table [syscalls] that are file system calls *)
Definition syscalls_files : list (Z * M fls Z) :=
  [(SYS_llistxattr, sys_llistxattr);
   (SYS_getcwd, sys_getcwd);
   (SYS_dup, sys_dup);
   (SYS_dup3, sys_dup3);
   (SYS_fcntl, sys_fcntl);
   (SYS_ioctl, sys_ioctl);
   (SYS_mknodat, sys_mknodat);
   (SYS_mkdirat, sys_mkdirat);
   (SYS_unlinkat, sys_unlinkat);
   (SYS_symlinkat, sys_symlinkat);
   (SYS_linkat, sys_linkat);
   (SYS_chdir, sys_chdir);
   (SYS_fchmodat, sys_fchmodat);
   (SYS_fchownat, sys_fchownat);
   (SYS_fchown, sys_fchown);
   (SYS_openat, sys_openat);
   (SYS_close, sys_close);
   (SYS_pipe2, sys_pipe2);
   (SYS_getdents64, sys_getdents64);
   (SYS_lseek, sys_lseek);
   (SYS_read, sys_read);
   (SYS_write, sys_write);
   (SYS_readv, sys_readv);
   (SYS_writev, sys_writev);
   (SYS_sendfile, sys_sendfile)].
Definition syscalls_status : list (Z * M fls Z) :=
  [(SYS_readlinkat, sys_readlinkat);
   (SYS_newfstatat, sys_fstatat);
   (SYS_fstat, sys_fstat);
   (SYS_utimensat, sys_utimensat)].
Definition syscalls_advice : list (Z * M fls Z) :=
  [(SYS_fadvise64, sys_fadvise64)].
Definition syscalls_paths : list (Z * M fls Z) :=
  [(SYS_renameat2, sys_renameat2);
   (SYS_faccessat2, sys_faccessat2)].
Definition file_syscalls : list (Z * M fls Z) := syscalls_files ++ syscalls_status ++ syscalls_advice ++ syscalls_paths.
End Sysfile.
