(* ===== verification/SysfileProps.v ===== *)
(** * Properties of the file system calls

    [counted ext B s]: the count of every open file is at most [B] and at
    least the number of descriptors of the process that refer to it, plus the
    [ext] references that others hold. *)
From S2P Require Import Prelude Spinlock Bytes UserMem Cred Bio BioInv BioProps Fs FsBlocks FsInode FsFile FsLink FsProps FsWriteProps File FileInv FileProps Syscall Sysfile Triple.

Section Props.
Context {D : Type} `{!sdcard D} {U : Type} `{!usermem U} `{!userstr U} {P : Type} `{!pipeops U P} {V : Type} `{!devsw U V}.
Context (junk : bytes) (stk past : list Z) (st0 : bytes) (loops : nat).
Context (sz : Z) (is_mmap_region : Z -> Z -> bool) (f_null : bool).
Local Abbreviation fls := (fls D U P V).
Implicit Types s : fls.


Definition fd_refs (l : list (option nat)) (f : nat) : nat := length (filter (fun o => o = Some f) l).
Definition ref_of (t : list file) (f : nat) : Z := match t !! f with Some fl => f_ref fl | None => 0 end.
(** The table of descriptors is [l], and every count is at least [need]. *)
Definition tab (l : list (option nat)) (need : nat -> nat) (B : Z) s : Prop :=
  ofile s = l /\ forall f, Z.of_nat (need f) <= ref_of (files s) f <= B.
(** One more reference to [f]. *)
Definition bump (f : nat) (need : nat -> nat) : nat -> nat := fun g => if decide (g = f) then S (need g) else need g.
Definition counted (ext : nat -> nat) (B : Z) s : Prop := tab (ofile s) (fun f => fd_refs (ofile s) f + ext f)%nat B s.

Lemma fd_refs_insert l fd o o' f : l !! fd = Some o -> (fd_refs (<[fd := o']> l) f + (if decide (o = Some f) then 1 else 0) = fd_refs l f + (if decide (o' = Some f) then 1 else 0))%nat.
Proof.
  revert fd. unfold fd_refs. induction l as [|x l IH]; intros [|fd] Hl; try done.
  - injection Hl as ->. change (<[0%nat := o']> (o :: l)) with (o' :: l). rewrite !filter_cons. do 2 destruct decide; cbn [length]; lia.
  - specialize (IH fd Hl). change (<[S fd := o']> (x :: l)) with (x :: <[fd := o']> l). rewrite !filter_cons. destruct (decide (x = Some f)); cbn [length]; lia.
Qed.

Lemma ref_of_insert t f g fl : (f < length t)%nat -> ref_of (<[f := fl]> t) g = if decide (g = f) then f_ref fl else ref_of t g.
Proof.
  intros Hf. unfold ref_of. destruct (decide (g = f)) as [->|Hne]; [by rewrite list_lookup_insert_eq|by rewrite list_lookup_insert_ne by done].
Qed.

Lemma tab_same l need B s s' : ofile s' = ofile s -> files s' = files s -> tab l need B s -> tab l need B s'.
Proof. intros E1 E2 [<- Hs]. split; [done|]. intros f. rewrite E2. apply Hs. Qed.
Lemma tab_le l need need' B B' s : (forall f, need' f <= need f)%nat -> B <= B' -> tab l need B s -> tab l need' B' s.
Proof. intros Hn HB [E Hs]. split; [done|]. intros f. specialize (Hs f). specialize (Hn f). lia. Qed.

(** ** Routines that touch no reference *)

Section Keep.
Context (l : list (option nat)) (need : nat -> nat) (B : Z).
Local Abbreviation kept := (stays (tab l need B)).

Lemma stays_on_fs {A} (c : M (fst D U) A) : kept (on_fs c : M fls A).
Proof. apply ptriple_zoom. intros s a t Hs. by apply (tab_same _ _ _ s). Qed.
Lemma stays_on_pipe {A} (c : M (P * U) A) : kept (on_pipe c : M fls A).
Proof. apply ptriple_zoom. intros s a t Hs. by apply (tab_same _ _ _ s). Qed.
Lemma stays_on_dev {A} (c : M (V * U) A) : kept (on_dev c : M fls A).
Proof. apply ptriple_zoom. intros s a t Hs. by apply (tab_same _ _ _ s). Qed.
Lemma stays_get_file f : kept (get_file f : M fls file).
Proof. intros s a s' Hs E. unfold get_file, deref in E. destruct (files s !! f); [by injection E as _ <-|done]. Qed.
Lemma stays_fd_slot fd : kept (fd_slot fd : M fls (option nat)).
Proof. intros s a s' Hs E. unfold fd_slot, deref in E. destruct (if fd <? 0 then None else _); [by injection E as _ <-|done]. Qed.
Lemma stays_modify (g : fls -> fls) : (forall s, ofile (g s) = ofile s /\ files (g s) = files s) -> kept (modify g).
Proof. intros Hg. apply ptriple_modify. intros s Hs. destruct (Hg s). by apply (tab_same _ _ _ s). Qed.
Lemma stays_upd_file f g : (forall fl, f_ref (g fl) = f_ref fl) -> kept (upd_file f g : M fls unit).
Proof.
  intros Hg s a s' [El Hs] E. unfold upd_file in E. apply bind_Done_inv in E as (fl & s1 & E1 & E2). unfold get_file, deref in E1.
  destruct (files s !! f) as [fl'|] eqn:Hf; [|done]. injection E1 as -> <-. injection E2 as _ <-. split; [done|]. intros h. cbn [files set_files].
  rewrite ref_of_insert by (by eapply lookup_lt_Some). specialize (Hs h). destruct (decide (h = f)) as [->|]; [|exact Hs]. unfold ref_of in Hs. rewrite Hf in Hs. by rewrite Hg.
Qed.
Lemma stays_flag_add fd : kept (flag_add fd : M fls unit).
Proof. by apply stays_modify. Qed.
Lemma stays_flag_remove fd : kept (flag_remove fd : M fls unit).
Proof. by apply stays_modify. Qed.

Local Hint Resolve stays_on_fs stays_on_pipe stays_on_dev stays_get_file stays_fd_slot stays_flag_add stays_flag_remove stays_upd_file : stays_db.

Lemma stays_inode_at i : kept (inode_at i : M fls inode).
Proof. unfold inode_at. stays_auto. Qed.
Local Hint Resolve stays_inode_at : stays_db.
Lemma stays_copy_at i g : kept (copy_at i g : M fls unit).
Proof. unfold copy_at. stays_auto. Qed.
Local Hint Resolve stays_copy_at : stays_db.
Lemma stays_now : kept (now : M fls (Z * Z)).
Proof. unfold now. stays_auto. Qed.
Local Hint Resolve stays_now : stays_db.
Lemma stays_user : kept (user : M fls U).
Proof. unfold user. stays_auto. Qed.
Local Hint Resolve stays_user : stays_db.
Lemma stays_ilock_ptr o : kept (ilock_ptr junk o : M fls nat).
Proof. unfold ilock_ptr. stays_auto. Qed.
Local Hint Resolve stays_ilock_ptr : stays_db.
Lemma stays_permits i mask : kept (permits i mask : M fls Z).
Proof. unfold permits. stays_auto. Qed.
Local Hint Resolve stays_permits : stays_db.
Lemma stays_put_err {A} i (e : A) : kept (put_err junk i e : M fls A).
Proof. unfold put_err. stays_auto. Qed.
Local Hint Resolve stays_put_err : stays_db.
Lemma stays_dev_call fn err a b : kept (dev_call fn err a b : M fls Z).
Proof. unfold dev_call. stays_auto. Qed.
Local Hint Resolve stays_dev_call : stays_db.
Lemma stays_filestat f a : kept (filestat junk st0 f a : M fls Z).
Proof. unfold filestat. stays_auto. Qed.
Local Hint Resolve stays_filestat : stays_db.
Lemma stays_fileread f a n us : kept (fileread junk f a n us : M fls Z).
Proof. unfold fileread. stays_auto. Qed.
Local Hint Resolve stays_fileread : stays_db.
Lemma stays_filewrite_loop fuel : forall f a n us i, kept (filewrite_loop junk fuel f a n us i : M fls Z).
Proof. induction fuel as [|fuel IH]; intros f a n us i; cbn [filewrite_loop]; stays_auto. Qed.
Local Hint Resolve stays_filewrite_loop : stays_db.
Lemma stays_filewrite f a n us : kept (filewrite junk f a n us : M fls Z).
Proof. unfold filewrite. stays_auto. Qed.
Local Hint Resolve stays_filewrite : stays_db.
Lemma stays_sendfile_loop fuel : forall o f c b, kept (sendfile_loop junk fuel o f c b : M fls (Z * Z)).
Proof. induction fuel as [|fuel IH]; intros o f c b; cbn [sendfile_loop]; stays_auto. Qed.
Local Hint Resolve stays_sendfile_loop : stays_db.
Lemma stays_sendfile o f a c : kept (sendfile junk o f a c : M fls Z).
Proof. unfold sendfile. stays_auto. Qed.
Local Hint Resolve stays_sendfile : stays_db.
Lemma stays_fileioctl f r a : kept (fileioctl f r a : M fls Z).
Proof. unfold fileioctl. stays_auto. Qed.
Local Hint Resolve stays_fileioctl : stays_db.
Lemma stays_filelseek f o w : kept (filelseek f o w : M fls Z).
Proof. unfold filelseek. stays_auto. Qed.
Local Hint Resolve stays_filelseek : stays_db.
Lemma stays_isdirempty_loop fuel : forall dp off, kept (isdirempty_loop junk fuel dp off : M fls bool).
Proof. induction fuel as [|fuel IH]; intros dp off; cbn [isdirempty_loop]; stays_auto. Qed.
Local Hint Resolve stays_isdirempty_loop : stays_db.
Lemma stays_isdirempty dp : kept (isdirempty junk dp : M fls bool).
Proof. unfold isdirempty. stays_auto. Qed.
Local Hint Resolve stays_isdirempty : stays_db.
Lemma stays_getdents64_loop fuel : forall f a n t o d, kept (getdents64_loop junk past fuel f a n t o d : M fls Z).
Proof. induction fuel as [|fuel IH]; intros f a n t o d; cbn [getdents64_loop]; stays_auto. Qed.
Local Hint Resolve stays_getdents64_loop : stays_db.
Lemma stays_getdents64 f a n : kept (getdents64 junk past st0 f a n : M fls Z).
Proof. unfold getdents64. stays_auto. Qed.
Local Hint Resolve stays_getdents64 : stays_db.
Lemma stays_filelink p d q e : kept (filelink junk stk p d q e : M fls Z).
Proof. unfold filelink. stays_auto. Qed.
Local Hint Resolve stays_filelink : stays_db.
Lemma stays_filesymlink p q d : kept (filesymlink junk stk p q d : M fls Z).
Proof. unfold filesymlink. stays_auto. Qed.
Local Hint Resolve stays_filesymlink : stays_db.
Lemma stays_filereadlink p d b n : kept (filereadlink junk stk p d b n : M fls Z).
Proof. unfold filereadlink. stays_auto. Qed.
Local Hint Resolve stays_filereadlink : stays_db.
Lemma stays_fileunlink p d f : kept (fileunlink junk stk p d f : M fls Z).
Proof. unfold fileunlink. stays_auto. Qed.
Local Hint Resolve stays_fileunlink : stays_db.
Lemma stays_create p d t a b m : kept (create junk stk p d t a b m : M fls iptr).
Proof. unfold create. stays_auto. Qed.
Local Hint Resolve stays_create : stays_db.
Lemma stays_read_link i n : kept (read_link junk i n : M fls (Z * list Z)).
Proof. unfold read_link. stays_auto. Qed.
Local Hint Resolve stays_read_link : stays_db.
Lemma stays_open_loop fuel : forall p d f, kept (open_loop junk stk fuel p d f : M fls (nat + Z)).
Proof. induction fuel as [|fuel IH]; intros p d f; cbn [open_loop]; stays_auto. Qed.
Local Hint Resolve stays_open_loop : stays_db.
Lemma stays_follow_loop fuel : forall p d f, kept (follow_loop junk stk fuel p d f : M fls (nat + Z)).
Proof. induction fuel as [|fuel IH]; intros p d f; cbn [follow_loop]; stays_auto. Qed.
Local Hint Resolve stays_follow_loop : stays_db.
Lemma stays_filechmod p d m : kept (filechmod junk stk p d m : M fls Z).
Proof. unfold filechmod. stays_auto. Qed.
Local Hint Resolve stays_filechmod : stays_db.
Lemma stays_filechown f p d o g w : kept (filechown junk stk loops f p d o g w : M fls Z).
Proof. unfold filechown. stays_auto. Qed.
Local Hint Resolve stays_filechown : stays_db.
Lemma stays_faccess p d m f : kept (faccess junk stk loops p d m f : M fls Z).
Proof. unfold faccess. stays_auto. Qed.
Local Hint Resolve stays_faccess : stays_db.
Lemma stays_rename d a b : kept (rename junk d a b : M fls Z).
Proof. unfold rename. stays_auto. Qed.
Local Hint Resolve stays_rename : stays_db.
Lemma stays_reinode d a b : kept (reinode junk d a b : M fls Z).
Proof. unfold reinode. stays_auto. Qed.
Local Hint Resolve stays_reinode : stays_db.
Lemma stays_dir_flag i : kept (dir_flag i : M fls Z).
Proof. unfold dir_flag. stays_auto. Qed.
Local Hint Resolve stays_dir_flag : stays_db.
Lemma stays_iput_ptr o : kept (iput_ptr junk o : M fls unit).
Proof. unfold iput_ptr. stays_auto. Qed.
Local Hint Resolve stays_iput_ptr : stays_db.
Lemma stays_filerename p d q e f : kept (filerename junk stk p d q e f : M fls Z).
Proof. unfold filerename. stays_auto. Qed.
Local Hint Resolve stays_filerename : stays_db.

(** *** The handlers *)

Context (tf : Z -> Z).
Lemma stays_argpath n : kept (argpath tf n : M fls (option (list Z))).
Proof. unfold argpath. stays_auto. Qed.
Local Hint Resolve stays_argpath : stays_db.
Lemma stays_argfd n : kept (argfd tf n : M fls (option (Z * nat))).
Proof. unfold argfd. stays_auto. Qed.
Local Hint Resolve stays_argfd : stays_db.
Lemma stays_check_fdcwd p d : kept (check_fdcwd p d : M fls Z).
Proof. unfold check_fdcwd. stays_auto. Qed.
Local Hint Resolve stays_check_fdcwd : stays_db.
Lemma stays_readv_loop f v n : kept (readv_loop junk f v n : M fls Z).
Proof. unfold readv_loop. stays_auto. Qed.
Local Hint Resolve stays_readv_loop : stays_db.
Lemma stays_writev_loop fuel : forall f a b t, kept (writev_loop junk fuel f a b t : M fls Z).
Proof. induction fuel as [|fuel IH]; intros f a b t; cbn [writev_loop]; stays_auto. Qed.
Local Hint Resolve stays_writev_loop : stays_db.
Lemma stays_file_ip_type f : kept (file_ip_type f : M fls Z).
Proof. unfold file_ip_type. stays_auto. Qed.
Local Hint Resolve stays_file_ip_type : stays_db.
Lemma stays_getcwd_loop fuel : forall c b n, kept (getcwd_loop junk past fuel c b n : M fls (option (list Z))).
Proof. induction fuel as [|fuel IH]; intros c b n; cbn [getcwd_loop]; stays_auto. Qed.
Local Hint Resolve stays_getcwd_loop : stays_db.
Lemma stays_sys_read : kept (sys_read junk tf : M fls Z).
Proof. unfold sys_read. stays_auto. Qed.
Local Hint Resolve stays_sys_read : stays_db.
Lemma stays_sys_write : kept (sys_write junk tf : M fls Z).
Proof. unfold sys_write. stays_auto. Qed.
Local Hint Resolve stays_sys_write : stays_db.
Lemma stays_sys_readv : kept (sys_readv junk sz is_mmap_region tf : M fls Z).
Proof. unfold sys_readv. stays_auto. Qed.
Local Hint Resolve stays_sys_readv : stays_db.
Lemma stays_sys_writev : kept (sys_writev junk tf : M fls Z).
Proof. unfold sys_writev. stays_auto. Qed.
Local Hint Resolve stays_sys_writev : stays_db.
Lemma stays_sys_lseek : kept (sys_lseek tf : M fls Z).
Proof. unfold sys_lseek. stays_auto. Qed.
Local Hint Resolve stays_sys_lseek : stays_db.
Lemma stays_sys_sendfile : kept (sys_sendfile junk tf : M fls Z).
Proof. unfold sys_sendfile. stays_auto. Qed.
Local Hint Resolve stays_sys_sendfile : stays_db.
Lemma stays_sys_fadvise64 : kept (sys_fadvise64 tf : M fls Z).
Proof. unfold sys_fadvise64. stays_auto. Qed.
Local Hint Resolve stays_sys_fadvise64 : stays_db.
Lemma stays_sys_ioctl : kept (sys_ioctl tf : M fls Z).
Proof. unfold sys_ioctl. stays_auto. Qed.
Local Hint Resolve stays_sys_ioctl : stays_db.
Lemma stays_sys_getdents64 : kept (sys_getdents64 junk past st0 f_null tf : M fls Z).
Proof. unfold sys_getdents64. stays_auto. Qed.
Local Hint Resolve stays_sys_getdents64 : stays_db.
Lemma stays_sys_fstat : kept (sys_fstat junk st0 tf : M fls Z).
Proof. unfold sys_fstat. stays_auto. Qed.
Local Hint Resolve stays_sys_fstat : stays_db.
Lemma stays_sys_fstatat : kept (sys_fstatat junk stk st0 loops tf : M fls Z).
Proof. unfold sys_fstatat. stays_auto. Qed.
Local Hint Resolve stays_sys_fstatat : stays_db.
Lemma stays_sys_utimensat : kept (sys_utimensat junk stk tf : M fls Z).
Proof. unfold sys_utimensat. stays_auto. Qed.
Local Hint Resolve stays_sys_utimensat : stays_db.
Lemma stays_sys_linkat : kept (sys_linkat junk stk tf : M fls Z).
Proof. unfold sys_linkat. stays_auto. Qed.
Local Hint Resolve stays_sys_linkat : stays_db.
Lemma stays_sys_symlinkat : kept (sys_symlinkat junk stk tf : M fls Z).
Proof. unfold sys_symlinkat. stays_auto. Qed.
Local Hint Resolve stays_sys_symlinkat : stays_db.
Lemma stays_sys_unlinkat : kept (sys_unlinkat junk stk tf : M fls Z).
Proof. unfold sys_unlinkat. stays_auto. Qed.
Local Hint Resolve stays_sys_unlinkat : stays_db.
Lemma stays_sys_readlinkat : kept (sys_readlinkat junk stk sz is_mmap_region tf : M fls Z).
Proof. unfold sys_readlinkat. stays_auto. Qed.
Local Hint Resolve stays_sys_readlinkat : stays_db.
Lemma stays_sys_renameat2 : kept (sys_renameat2 junk stk tf : M fls Z).
Proof. unfold sys_renameat2. stays_auto. Qed.
Local Hint Resolve stays_sys_renameat2 : stays_db.
Lemma stays_sys_mkdirat : kept (sys_mkdirat junk stk tf : M fls Z).
Proof. unfold sys_mkdirat. stays_auto. Qed.
Local Hint Resolve stays_sys_mkdirat : stays_db.
Lemma stays_sys_mknodat : kept (sys_mknodat junk stk tf : M fls Z).
Proof. unfold sys_mknodat. stays_auto. Qed.
Local Hint Resolve stays_sys_mknodat : stays_db.
Lemma stays_sys_chdir : kept (sys_chdir junk stk tf : M fls Z).
Proof. unfold sys_chdir. stays_auto. Qed.
Local Hint Resolve stays_sys_chdir : stays_db.
Lemma stays_sys_getcwd : kept (sys_getcwd junk past tf : M fls Z).
Proof. unfold sys_getcwd. stays_auto. Qed.
Local Hint Resolve stays_sys_getcwd : stays_db.
Lemma stays_sys_fchmodat : kept (sys_fchmodat junk stk tf : M fls Z).
Proof. unfold sys_fchmodat. stays_auto. Qed.
Local Hint Resolve stays_sys_fchmodat : stays_db.
Lemma stays_sys_fchown : kept (sys_fchown junk stk loops tf : M fls Z).
Proof. unfold sys_fchown. stays_auto. Qed.
Local Hint Resolve stays_sys_fchown : stays_db.
Lemma stays_sys_fchownat : kept (sys_fchownat junk stk loops tf : M fls Z).
Proof. unfold sys_fchownat. stays_auto. Qed.
Local Hint Resolve stays_sys_fchownat : stays_db.
Lemma stays_sys_faccessat2 : kept (sys_faccessat2 junk stk loops tf : M fls Z).
Proof. unfold sys_faccessat2. stays_auto. Qed.
Local Hint Resolve stays_sys_faccessat2 : stays_db.
Lemma stays_sys_llistxattr : kept (sys_llistxattr tf : M fls Z).
Proof. unfold sys_llistxattr. stays_auto. Qed.
Local Hint Resolve stays_sys_llistxattr : stays_db.
End Keep.
Local Hint Resolve stays_on_fs stays_on_pipe stays_on_dev stays_get_file stays_fd_slot stays_flag_add stays_flag_remove stays_upd_file
  stays_inode_at stays_copy_at stays_now stays_user stays_ilock_ptr stays_permits stays_put_err stays_dev_call stays_filestat stays_fileread 
  stays_filewrite_loop stays_filewrite stays_sendfile_loop stays_sendfile stays_fileioctl stays_filelseek stays_isdirempty_loop stays_isdirempty 
  stays_getdents64_loop stays_getdents64 stays_filelink stays_filesymlink stays_filereadlink stays_fileunlink stays_create stays_read_link 
  stays_open_loop stays_follow_loop stays_filechmod stays_filechown stays_faccess stays_rename stays_reinode stays_dir_flag stays_iput_ptr 
  stays_filerename stays_argpath stays_argfd stays_check_fdcwd stays_readv_loop stays_writev_loop stays_file_ip_type stays_getcwd_loop stays_sys_read 
  stays_sys_write stays_sys_readv stays_sys_writev stays_sys_lseek stays_sys_sendfile stays_sys_fadvise64 stays_sys_ioctl stays_sys_getdents64 
  stays_sys_fstat stays_sys_fstatat stays_sys_utimensat stays_sys_linkat stays_sys_symlinkat stays_sys_unlinkat stays_sys_readlinkat stays_sys_renameat2 
  stays_sys_mkdirat stays_sys_mknodat stays_sys_chdir stays_sys_getcwd stays_sys_fchmodat stays_sys_fchown stays_sys_fchownat stays_sys_faccessat2 
  stays_sys_llistxattr : stays_db.

(** ** Routines that move references

    A reference in the hands of a routine is one more in [need]. *)

Lemma get_file_triple Q f : ptriple Q (get_file f : M fls file) (fun fl s => Q s /\ files s !! f = Some fl).
Proof. intros s a s' Hs E. unfold get_file, deref in E. destruct (files s !! f) eqn:Hf; [by injection E as -> <-|done]. Qed.

(** A new count for [f]. *)
Lemma upd_ref_triple l need need' B B' f g r fl0 : (forall fl, f_ref (g fl) = r) -> (forall h, h <> f -> need' h <= need h)%nat -> B <= B' -> Z.of_nat (need' f) <= r <= B' ->
  ptriple (fun s => tab l need B s /\ files s !! f = Some fl0) (upd_file f g : M fls unit) (fun _ s => tab l need' B' s /\ files s !! f = Some (g fl0)).
Proof.
  intros Hg Hn HB Hr s a s' [[El Hs] Hf] E. unfold upd_file in E. apply bind_Done_inv in E as (fl & s1 & E1 & E2). unfold get_file, deref in E1. rewrite Hf in E1.
  injection E1 as <- <-. injection E2 as _ <-. assert (Hlt : (f < length (files s))%nat) by (by eapply lookup_lt_Some).
  split; [|by apply list_lookup_insert_eq]. split; [done|]. intros h. cbn [files set_files]. rewrite ref_of_insert by done.
  destruct (decide (h = f)) as [->|Hne]; [by rewrite Hg|]. specialize (Hs h). specialize (Hn h Hne). lia.
Qed.

Lemma free_file_lookup t : forall i f, free_file t i = Some f -> exists fl, t !! (f - i)%nat = Some fl /\ f_ref fl = 0 /\ (i <= f)%nat.
Proof.
  induction t as [|fl t IH]; intros i f E; cbn [free_file] in E; [done|]. destruct (f_ref fl =? 0) eqn:E0; bool_hyps.
  - injection E as <-. rewrite Nat.sub_diag. eauto.
  - destruct (IH (S i) f E) as (fl' & H1 & H2 & H3). exists fl'. replace (f - i)%nat with (S (f - S i)) by lia. split; [done|]. split; [done|lia].
Qed.

Lemma bump_ne f need h : h <> f -> (bump f need h <= need h)%nat.
Proof. intros Hh. unfold bump. by rewrite decide_False. Qed.
Lemma bump_eq f need : bump f need f = S (need f).
Proof. unfold bump. by rewrite decide_True. Qed.

Lemma filealloc_triple l need B : 1 <= B ->
  ptriple (tab l need B) (filealloc : M fls (option nat)) (fun o s => match o with Some f => tab l (bump f need) B s | None => tab l need B s end).
Proof.
  intros HB. unfold filealloc. eapply ptriple_bind; [apply stays_on_fs|]. intros [].
  eapply (ptriple_bind _ _ (fun o s => tab l need B s /\ o = free_file (files s) 0)); [by apply ptriple_gets|]. intros [f|].
  - eapply (ptriple_bind _ _ (fun _ s => tab l (bump f need) B s)).
    + intros s a s' [Hs Hf] E. destruct (free_file_lookup _ _ _ (eq_sym Hf)) as (fl & Hl & Hz & _). rewrite Nat.sub_0_r in Hl.
      eapply (upd_ref_triple l need (bump f need) B B f (set_f_ref 1) 1 fl); [done|apply bump_ne|done| |exact (conj Hs Hl)|exact E].
      rewrite bump_eq. destruct Hs as [_ Hs]. specialize (Hs f). unfold ref_of in Hs. rewrite Hl in Hs. lia.
    + intros []. eapply ptriple_bind; [apply stays_on_fs|]. intros []. by apply ptriple_ret.
  - eapply (ptriple_bind _ _ (fun _ => tab l need B)); [eapply ptriple_pre; [apply stays_on_fs|by intros s [? _]]|]. intros []. by apply ptriple_ret.
Qed.

Lemma filedup_triple l need B f : B + 1 < 2 ^ 31 -> ptriple (tab l need B) (filedup f : M fls nat) (fun g s => g = f /\ tab l (bump f need) (B + 1) s).
Proof.
  intros HB. change (2 ^ 31) with 2147483648 in HB. unfold filedup. eapply ptriple_bind; [apply stays_on_fs|]. intros [].
  eapply ptriple_bind; [apply get_file_triple|]. intros fl. cbv beta. destruct (f_ref fl <? 1) eqn:E; bool_hyps; [apply ptriple_panic|].
  eapply (ptriple_bind _ _ (fun _ s => tab l (bump f need) (B + 1) s)).
  - intros s a s' [Hs Hf] Ha. pose proof Hs as [_ Hs']. specialize (Hs' f). unfold ref_of in Hs'. rewrite Hf in Hs'.
    eapply (upd_ref_triple l need (bump f need) B (B + 1) f (set_f_ref (s32 (f_ref fl + 1))) (s32 (f_ref fl + 1)) fl); [done|apply bump_ne|lia| |exact (conj Hs Hf)|exact Ha].
    rewrite bump_eq, swrap_small by (change (2 ^ (32 - 1)) with 2147483648; lia). lia.
  - intros []. eapply ptriple_bind; [apply stays_on_fs|]. intros []. by apply ptriple_ret.
Qed.

Lemma fileclose_triple l need B f : ptriple (tab l (bump f need) B) (fileclose junk f : M fls unit) (fun _ => tab l need B).
Proof.
  unfold fileclose. eapply ptriple_bind; [apply stays_on_fs|]. intros [].
  eapply ptriple_bind; [apply get_file_triple|]. intros fl. cbv beta. destruct (f_ref fl <? 1) eqn:E; bool_hyps; [apply ptriple_panic|].
  eapply (ptriple_bind _ _ (fun _ s => tab l need B s /\ files s !! f = Some (set_f_ref (f_ref fl - 1) fl))).
  - intros s a s' [Hs Hf] Ha. pose proof Hs as [_ Hs']. specialize (Hs' f). unfold ref_of in Hs'. rewrite Hf, bump_eq in Hs'.
    eapply (upd_ref_triple l (bump f need) need B B f (set_f_ref (f_ref fl - 1)) (f_ref fl - 1) fl); [done| |done|lia|exact (conj Hs Hf)|exact Ha].
    intros h Hh. unfold bump. by rewrite decide_False.
  - intros []. destruct (0 <? f_ref fl - 1) eqn:E1; bool_hyps; [eapply ptriple_pre; [apply stays_on_fs|by intros s [? _]]|].
    eapply (ptriple_bind _ _ (fun ff s => tab l need B s /\ files s !! f = Some (set_f_ref (f_ref fl - 1) fl))).
    { eapply ptriple_post; [apply get_file_triple|]. by intros ff s [? _]. }
    intros ff. eapply (ptriple_bind _ _ (fun _ => tab l need B)).
    + intros s a s' [Hs Hf] Ha. pose proof Hs as [_ Hs']. specialize (Hs' f). unfold ref_of in Hs'. rewrite Hf in Hs'. cbn [f_ref set_f_ref] in Hs'.
      eapply (upd_ref_triple l need need B B f (fun fl => set_f_type FD_NONE (set_f_ref 0 fl)) 0); [done|done|done| |exact (conj Hs Hf)|exact Ha]. lia.
    + intros []. change (stays (tab l need B) (funlk;; match f_type ff with FD_NONE => mret tt | FD_PIPE => on_pipe (po_close (f_pipe ff) (f_writable ff)) | _ => i ← deref (f_ip ff); on_fs (iput junk i) end)).
      unfold funlk. stays_auto.
Qed.

Lemma free_fd_lookup n (t : list (option nat)) : forall i fd, free_fd n t i = Some fd -> t !! fd = Some None.
Proof. induction n as [|n IH]; intros i fd; cbn [free_fd]; [done|]. destruct (t !! i) as [[x|]|] eqn:E; [apply IH|by intros [= <-]|apply IH]. Qed.

Lemma fdalloc_triple l need B f from : ptriple (tab l need B) (fdalloc f from : M fls Z) (fun r s =>
  (tab l need B s /\ r < 0) \/ exists fd, tab (<[fd := Some f]> l) need B s /\ (r = Z.of_nat fd /\ l !! fd = Some None)).
Proof.
  intros s r s' [El Hs] E. unfold fdalloc in E. rewrite bind_gets in E. destruct (free_fd (NOFILE - from) (ofile s) from) as [fd|] eqn:Ef.
  - injection E as <- <-. right. exists fd. split; [split; [cbn; by rewrite El|exact Hs]|]. split; [done|]. rewrite <- El. by eapply free_fd_lookup.
  - injection E as <- <-. left. split; [by split|done].
Qed.

(** ** The handlers that move references *)

Section Count.
Context (ext : nat -> nat) (tf : Z -> Z).
(** What the descriptors [l] and the others need. *)
Definition held (l : list (option nat)) : nat -> nat := fun f => (fd_refs l f + ext f)%nat.

Lemma counted_tab B s : counted ext B s <-> exists l, tab l (held l) B s.
Proof. split; [intros H; by exists (ofile s)|]. intros (l & E & H). unfold counted, tab. rewrite E. done. Qed.
Lemma counted_le B l need s B' : tab l need B s -> (forall f, held l f <= need f)%nat -> B <= B' -> counted ext B' s.
Proof. intros H Hn HB. apply counted_tab. exists l. by eapply tab_le. Qed.

Lemma held_take l fd f g : l !! fd = Some None -> (held (<[fd := Some f]> l) g <= bump f (held l) g)%nat.
Proof.
  intros Hl. pose proof (fd_refs_insert l fd None (Some f) g Hl) as E. unfold held, bump. destruct (decide (g = f)) as [->|Hne].
  - rewrite decide_False, decide_True in E by done. lia.
  - rewrite decide_False, decide_False in E by congruence. lia.
Qed.
Lemma held_give l fd f g : l !! fd = Some (Some f) -> (bump f (held (<[fd := None]> l)) g <= held l g)%nat.
Proof.
  intros Hl. pose proof (fd_refs_insert l fd (Some f) None g Hl) as E. unfold held, bump. destruct (decide (g = f)) as [->|Hne].
  - rewrite decide_True, decide_False in E by done. lia.
  - rewrite decide_False, decide_False in E by congruence. lia.
Qed.
Lemma bump_le f need need' g : (forall h, need' h <= need h)%nat -> (bump f need' g <= bump f need g)%nat.
Proof. intros Hn. specialize (Hn g). unfold bump. destruct decide; lia. Qed.
Lemma bump_drop f need g : (need g <= bump f need g)%nat.
Proof. unfold bump. destruct decide; lia. Qed.

Lemma stays_counted {A} B (m : M fls A) : (forall l need, stays (tab l need B) m) -> ptriple (counted ext B) m (fun _ => counted ext (B + 1)).
Proof. intros Hm s a s' Hs E. pose proof (Hm _ _ s a s' Hs E) as Hs'. eapply counted_le; [exact Hs'|done|lia]. Qed.

Lemma fd_slot_triple l need B fd : ptriple (tab l need B) (fd_slot fd : M fls (option nat)) (fun o s => tab l need B s /\ (0 <= fd /\ l !! Z.to_nat fd = Some o)).
Proof.
  intros s o s' Hs E. pose proof Hs as [El _]. unfold fd_slot, deref in E. destruct (fd <? 0) eqn:E0; [done|]. bool_hyps.
  destruct (ofile s !! Z.to_nat fd) eqn:Hf; [|done]. injection E as <- <-. by rewrite El in Hf.
Qed.
Lemma argfd_triple l need B n : ptriple (tab l need B) (argfd tf n : M fls (option (Z * nat)))
  (fun o s => tab l need B s /\ match o with Some (fd, f) => l !! Z.to_nat fd = Some (Some f) | None => True end).
Proof.
  unfold argfd. destruct (argint n tf) as [fd|]; [|apply ptriple_ret; auto]. destruct (_ || _); [apply ptriple_ret; auto|].
  eapply ptriple_bind; [apply fd_slot_triple|]. intros [f|]; apply ptriple_ret; intros s (? & ? & ?); auto.
Qed.
Lemma set_fd_triple l need B fd o : ptriple (tab l need B) (set_fd fd o : M fls unit) (fun _ => tab (<[Z.to_nat fd := o]> l) need B).
Proof. apply ptriple_modify. intros s [<- Hs]. done. Qed.
Lemma done_triple {A} l need B B' (a : A) : (forall f, held l f <= need f)%nat -> B <= B' -> ptriple (tab l need B) (mret a : M fls A) (fun _ => counted ext B').
Proof. intros Hn HB. apply ptriple_ret. intros s Hs. by eapply counted_le. Qed.
(** It is enough to look at the descriptors there are. *)
Lemma counted_pre {A} B (m : M fls A) Q : (forall l, ptriple (tab l (held l) B) m Q) -> ptriple (counted ext B) m Q.
Proof. intros H s a s' Hs E. by eapply (H (ofile s)). Qed.
Lemma fileclose_drop l need need' B f : (forall g, bump f need' g <= need g)%nat -> ptriple (tab l need B) (fileclose junk f : M fls unit) (fun _ => tab l need' B).
Proof. intros Hn. eapply ptriple_pre; [apply fileclose_triple|]. intros s Hs. by eapply tab_le. Qed.

Lemma dupfd_triple B l fd from : B + 1 < 2 ^ 31 -> ptriple (tab l (held l) B) (dupfd fd from : M fls Z) (fun _ => counted ext (B + 1)).
Proof.
  intros HB. unfold dupfd. eapply ptriple_bind; [apply stays_fd_slot|]. intros [f|]; cbv beta; [|apply done_triple; [done|lia]].
  eapply ptriple_bind; [by apply filedup_triple|]. intros g. unfold fdalloc_from. destruct (from <? 0); [apply ptriple_undef|].
  intros s r s' [_ Hs] E. destruct (fdalloc_triple _ _ _ _ _ s r s' Hs E) as [[Hs' _]|(fd' & Hs' & _ & Hl)].
  - eapply counted_le; [exact Hs'| |done]. intros h. apply bump_drop.
  - eapply counted_le; [exact Hs'| |done]. intros h. by apply held_take.
Qed.

Lemma sys_dup_triple B : B + 1 < 2 ^ 31 -> ptriple (counted ext B) (sys_dup tf : M fls Z) (fun _ => counted ext (B + 1)).
Proof. intros HB. apply counted_pre. intros l. unfold sys_dup. destruct (argint 0 tf); [by apply dupfd_triple|apply done_triple; [done|lia]]. Qed.

Lemma sys_close_triple B : ptriple (counted ext B) (sys_close junk tf : M fls Z) (fun _ => counted ext (B + 1)).
Proof.
  apply counted_pre. intros l. unfold sys_close. eapply ptriple_bind; [apply argfd_triple|]. intros [[fd f]|]; apply ptriple_pure; [|intros _; apply done_triple; [done|lia]].
  intros Hf. eapply ptriple_bind; [apply set_fd_triple|]. intros []. eapply ptriple_bind; [apply stays_flag_remove|]. intros []. cbv beta.
  eapply ptriple_bind; [apply (fileclose_drop _ _ (held (<[Z.to_nat fd := None]> l))); intros h; by apply held_give|]. intros []. apply done_triple; [done|lia].
Qed.

Lemma sys_fcntl_triple B : B + 1 < 2 ^ 31 -> ptriple (counted ext B) (sys_fcntl tf : M fls Z) (fun _ => counted ext (B + 1)).
Proof.
  intros HB. apply counted_pre. intros l. unfold sys_fcntl. eapply ptriple_bind; [apply argfd_triple|]. intros [[fd f]|]; apply ptriple_pure; [|intros _; apply done_triple; [done|lia]].
  intros _. destruct (argint 1 tf) as [cmd|]; [|apply done_triple; [done|lia]]. destruct (argint 2 tf) as [args|]; [|apply done_triple; [done|lia]].
  destruct (cmd =? F_DUPFD); [by apply dupfd_triple|]. eapply (ptriple_post _ _ (fun _ => tab l (held l) B)); [|intros a s Hs; eapply counted_le; [exact Hs|done|lia]].
  match goal with |- ptriple ?P ?m _ => change (stays P m) end. stays_auto.
Qed.

Lemma sys_dup3_triple B : B + 1 < 2 ^ 31 -> ptriple (counted ext B) (sys_dup3 junk tf : M fls Z) (fun _ => counted ext (B + 1)).
Proof.
  intros HB. apply counted_pre. intros l. unfold sys_dup3. destruct (argint 0 tf) as [fd1|]; [|apply done_triple; [done|lia]].
  destruct (argint 1 tf) as [fd2|]; [|apply done_triple; [done|lia]]. destruct (argint 2 tf) as [flags|]; [|apply done_triple; [done|lia]].
  do 4 (match goal with |- context [if ?b then _ else _] => destruct b end; [apply done_triple; [done|lia]|]).
  eapply ptriple_bind; [apply fd_slot_triple|]. intros f. apply ptriple_pure. intros _. eapply ptriple_bind; [apply fd_slot_triple|]. intros o. apply ptriple_pure. intros [_ Ho].
  set (l0 := <[Z.to_nat fd2 := None]> l). eapply (ptriple_bind _ _ (fun _ => tab l (held l0) B)).
  { destruct o as [g|]; [apply fileclose_drop; intros h; by apply held_give|]. apply ptriple_ret. unfold l0. rewrite list_insert_id by done. done. }
  intros []. eapply ptriple_bind; [apply stays_deref|]. intros g. cbv beta. eapply ptriple_bind; [by apply filedup_triple|]. intros g'. cbv beta.
  eapply ptriple_pre; [|intros s [_ Hs]; exact Hs]. eapply (ptriple_bind _ _ (fun _ => tab l (bump g (held l0)) (B + 1))).
  { match goal with |- ptriple ?P ?m _ => change (stays P m) end. stays_auto. }
  intros []. eapply ptriple_bind; [apply set_fd_triple|]. intros []. apply done_triple; [|done]. intros h.
  replace (<[Z.to_nat fd2 := Some g]> l) with (<[Z.to_nat fd2 := Some g]> l0) by apply list_insert_insert_eq. apply held_take. apply list_lookup_insert_eq. by eapply lookup_lt_Some.
Qed.

Lemma pipealloc_triple l need B flags : 1 <= B -> ptriple (tab l need B) (pipealloc junk flags : M fls (Z * option (nat * nat)))
  (fun r s => match r.2 with Some (f0, f1) => tab l (bump f1 (bump f0 need)) B s | None => tab l need B s end).
Proof.
  intros HB. unfold pipealloc. eapply ptriple_bind; [by apply filealloc_triple|]. intros [f0|]; [|by apply ptriple_ret].
  eapply ptriple_bind; [by apply filealloc_triple|]. intros [f1|]; cbv beta.
  2:{ eapply ptriple_bind; [apply fileclose_triple|]. intros []. by apply ptriple_ret. }
  match goal with |- ptriple ?P ?m ?Q => eapply (ptriple_post P m (fun r s => r.2 = Some (f0, f1) /\ tab l (bump f1 (bump f0 need)) B s)) end.
  2:{ intros a s [-> Hs]. exact Hs. }
  eapply ptriple_bind; [apply stays_on_pipe|]. intros pi. cbv beta. eapply ptriple_bind; [by apply stays_upd_file|]. intros []. eapply ptriple_bind; [by apply stays_upd_file|].
  intros []. by apply ptriple_ret.
Qed.

(** Both ends of a pipe that did not get a descriptor, or lost it. *)
Lemma close_both_triple {A} l need B B' f0 f1 (e : A) : (forall g, bump f1 (bump f0 (held l)) g <= need g)%nat -> B <= B' ->
  ptriple (tab l need B) (fileclose junk f0;; fileclose junk f1;; mret e : M fls A) (fun _ => counted ext B').
Proof.
  intros Hn HB. eapply ptriple_bind; [apply (fileclose_drop _ _ (bump f1 (held l)))|].
  - intros g. specialize (Hn g). unfold bump in *. repeat destruct decide; lia.
  - intros []. eapply ptriple_bind; [apply fileclose_triple|]. intros []. by apply done_triple.
Qed.

(** The ends that got the descriptors [d0] and [d1] of [l]. *)
Lemma held_both l d0 d1 f0 f1 g : l !! d0 = Some None -> <[d0 := Some f0]> l !! d1 = Some None ->
  (held (<[d1 := Some f1]> (<[d0 := Some f0]> l)) g <= bump f1 (bump f0 (held l)) g)%nat.
Proof. intros H0 H1. etransitivity; [by apply held_take|]. apply bump_le. intros h. by apply held_take. Qed.
Lemma undo_both (l : list (option nat)) d0 d1 f0 f1 : l !! d0 = Some None -> <[d0 := Some f0]> l !! d1 = Some None ->
  <[d1 := None]> (<[d0 := None]> (<[d1 := Some f1]> (<[d0 := Some f0]> l))) = l.
Proof.
  intros H0 H1. assert (Hne : d1 <> d0) by (intros ->; rewrite list_lookup_insert_eq in H1 by (by eapply lookup_lt_Some); done).
  rewrite list_lookup_insert_ne in H1 by done. rewrite (list_insert_insert_ne _ d0 d1) by done. rewrite list_insert_insert_eq, list_insert_insert_eq.
  rewrite (list_insert_id l d0) by done. by apply list_insert_id.
Qed.

Lemma pipe_fds_triple l B flags a f0 f1 : ptriple (tab l (bump f1 (bump f0 (held l))) B) (pipe_fds junk flags a f0 f1 : M fls Z) (fun _ => counted ext (B + 1)).
Proof.
  unfold pipe_fds. eapply ptriple_bind; [apply fdalloc_triple|]. intros fd0. apply ptriple_or; [apply ptriple_pure; intros Hneg|apply ptriple_ex; intros d0; apply ptriple_pure; intros [-> H0]].
  { rewrite (proj2 (Z.ltb_lt fd0 0)) by done. cbn [orb]. rewrite (proj2 (Z.leb_gt 0 fd0)) by done. eapply ptriple_bind; [apply stays_ret|]. intros fd1. cbv beta.
    eapply ptriple_bind; [apply stays_ret|]. intros []. apply close_both_triple; [done|lia]. }
  rewrite (proj2 (Z.ltb_ge _ 0)) by lia. rewrite (proj2 (Z.leb_le 0 _)) by lia. cbn [orb]. eapply ptriple_bind; [apply fdalloc_triple|].
  intros fd1. apply ptriple_or; [apply ptriple_pure; intros Hneg|apply ptriple_ex; intros d1; apply ptriple_pure; intros [-> H1]].
  { rewrite (proj2 (Z.ltb_lt fd1 0)) by done. eapply ptriple_bind; [apply set_fd_triple|]. intros []. rewrite Nat2Z.id, list_insert_insert_eq, list_insert_id by done.
    apply close_both_triple; [done|lia]. }
  rewrite (proj2 (Z.ltb_ge _ 0)) by lia. eapply ptriple_bind; [apply stays_on_fs|]. intros r. cbv beta.
  eapply (ptriple_bind _ _ (fun _ => tab (<[d1 := Some f1]> (<[d0 := Some f0]> l)) (bump f1 (bump f0 (held l))) B)); [match goal with |- ptriple ?P ?m _ => change (stays P m) end; stays_auto|].
  intros r'. destruct (r' <? 0).
  - eapply ptriple_bind; [apply set_fd_triple|]. intros []. eapply ptriple_bind; [apply set_fd_triple|]. intros []. rewrite !Nat2Z.id, undo_both by done.
    eapply ptriple_bind; [apply stays_flag_remove|]. intros []. eapply ptriple_bind; [apply stays_flag_remove|]. intros []. apply close_both_triple; [done|lia].
  - eapply (ptriple_bind _ _ (fun _ => tab (<[d1 := Some f1]> (<[d0 := Some f0]> l)) (bump f1 (bump f0 (held l))) B)); [match goal with |- ptriple ?P ?m _ => change (stays P m) end; stays_auto|].
    intros []. apply done_triple; [|lia]. intros g. by apply held_both.
Qed.

Lemma sys_pipe2_triple B : 1 <= B -> ptriple (counted ext B) (sys_pipe2 junk tf : M fls Z) (fun _ => counted ext (B + 1)).
Proof.
  intros HB. apply counted_pre. intros l. unfold sys_pipe2. destruct (argint 1 tf) as [flags|]; [|apply done_triple; [done|lia]].
  destruct (argu64 0 tf) as [a|]; [|apply done_triple; [done|lia]]. eapply ptriple_bind; [by apply pipealloc_triple|]. intros [v [[f0 f1]|]]; cbn [Datatypes.fst Datatypes.snd].
  2:{ destruct (v <? 0); apply done_triple; done || lia. }
  assert (Hd : forall g, (held l g <= bump f1 (bump f0 (held l)) g)%nat) by (intros g; etransitivity; [apply (bump_drop f0)|apply bump_drop]).
  destruct (v <? 0); [apply done_triple; [done|lia]|]. destruct (negb _); [apply done_triple; [done|lia]|]. apply pipe_fds_triple.
Qed.

Lemma fileopen_triple B l path dirfd flags mode : 1 <= B -> ptriple (tab l (held l) B) (fileopen junk stk loops path dirfd flags mode : M fls Z) (fun _ => counted ext (B + 1)).
Proof.
  intros HB. unfold fileopen. eapply (ptriple_bind _ _ (fun _ => tab l (held l) B)).
  { match goal with |- ptriple ?P ?m _ => change (stays P m) end. stays_auto. }
  intros [i|e]; [|apply done_triple; [done|lia]].
  eapply ptriple_bind; [match goal with |- ptriple ?P ?m _ => instantiate (1 := fun _ => P); change (stays P m) end; stays_auto|]. intros a. cbv beta.
  assert (Herr : forall e, ptriple (tab l (held l) B) (put_err junk i e : M fls Z) (fun _ => counted ext (B + 1))).
  { intros e. eapply ptriple_bind; [apply stays_on_fs|]. intros []. apply done_triple; [done|lia]. }
  destruct (a <? 0); [apply Herr|].
  eapply ptriple_bind; [match goal with |- ptriple ?P ?m _ => instantiate (1 := fun _ => P); change (stays P m) end; stays_auto|]. intros a'. cbv beta.
  destruct (a' <? 0); [apply Herr|]. eapply ptriple_bind; [by apply filealloc_triple|]. intros [f|]; cbv beta.
  2:{ eapply ptriple_bind; [apply stays_on_fs|]. intros []. apply done_triple; [done|lia]. }
  eapply ptriple_bind; [apply fdalloc_triple|]. intros fd. apply ptriple_or; [apply ptriple_pure; intros Hneg|apply ptriple_ex; intros d; apply ptriple_pure; intros [-> Hd]].
  - rewrite (proj2 (Z.ltb_lt fd 0)) by done. eapply ptriple_bind; [apply stays_on_fs|]. intros []. eapply ptriple_bind; [apply fileclose_triple|]. intros [].
    apply done_triple; [done|lia].
  - rewrite (proj2 (Z.ltb_ge _ 0)) by lia. eapply (ptriple_post _ _ (fun _ => tab (<[d := Some f]> l) (bump f (held l)) B)).
    + match goal with |- ptriple ?P ?m _ => change (stays P m) end. stays_auto.
    + intros r s Hs. eapply counted_le; [exact Hs| |lia]. intros g. by apply held_take.
Qed.

Lemma sys_openat_triple B : 1 <= B -> ptriple (counted ext B) (sys_openat junk stk loops tf : M fls Z) (fun _ => counted ext (B + 1)).
Proof.
  intros HB. apply counted_pre. intros l. unfold sys_openat. destruct (argint 0 tf) as [dirfd|]; [|apply done_triple; [done|lia]].
  destruct (argint 2 tf) as [flags|]; [|apply done_triple; [done|lia]]. destruct (argint 3 tf) as [mode|]; [|apply done_triple; [done|lia]].
  eapply ptriple_bind; [apply stays_argpath|]. intros [path|]; [|apply done_triple; [done|lia]]. destruct (negb _); [apply done_triple; [done|lia]|].
  eapply ptriple_bind; [apply stays_check_fdcwd|]. intros ret. cbv beta. destruct (ret <? 0); [apply done_triple; [done|lia]|]. by apply fileopen_triple.
Qed.

(** Every entry of the table. *)
Lemma file_syscall_triple B num : 1 <= B -> B + 1 < 2 ^ 31 ->
  ptriple (counted ext B) (syscall (file_syscalls junk stk past st0 loops sz is_mmap_region f_null tf) num : M fls Z) (fun _ => counted ext (B + 1)).
Proof.
  intros H1 HB. unfold syscall. destruct (0 <? s32 num); [|by apply stays_counted; intros; apply stays_ret].
  unfold file_syscalls, syscalls_files, syscalls_status, syscalls_advice, syscalls_paths. cbn [app find_call].
  repeat (match goal with |- context [if ?n =? ?k then Some _ else _] => destruct (n =? k) end;
    [first [by apply sys_dup_triple|by apply sys_dup3_triple|by apply sys_fcntl_triple|by apply sys_openat_triple|by apply sys_close_triple|by apply sys_pipe2_triple
           |apply stays_counted; intros l need; eauto with stays_db]|]).
  by apply stays_counted; intros; apply stays_ret.
Qed.
End Count.

(** ** Runs of calls *)

(** A run of file system calls: the number and the argument registers of each. *)
Fixpoint file_calls (calls : list (Z * (Z -> Z))) : M fls unit :=
  match calls with
  | [] => mret tt
  | (num, tf) :: calls => syscall (file_syscalls junk stk past st0 loops sz is_mmap_region f_null tf) num;; file_calls calls
  end.

(** C7: in any run of file system calls, whatever their numbers and arguments
    and whatever they return, no descriptor is left referring to an open file
    that was freed: the count of every open file stays at least the number of
    the process's descriptors that refer to it, plus the references that
    others hold, as long as the counts cannot reach 2^31. *)
Theorem descriptors_counted ext calls : forall B s s', counted ext B s -> 1 <= B -> B + Z.of_nat (length calls) < 2 ^ 31 ->
  file_calls calls s = Done tt s' -> counted ext (B + Z.of_nat (length calls)) s'.
Proof.
  induction calls as [|[num tf] calls IH]; intros B s s' Hs HB Hl E; cbn [length file_calls] in *; [injection E as <-; by rewrite Z.add_0_r|].
  apply bind_Done_inv in E as (r & s1 & E1 & E2). pose proof (file_syscall_triple ext tf B num HB ltac:(lia) s r s1 Hs E1) as Hs1.
  replace (B + Z.of_nat (S (length calls))) with (B + 1 + Z.of_nat (length calls)) in * by lia. apply (IH (B + 1) s1 s' Hs1); [lia|lia|done].
Qed.

(** ** A directory descriptor with a relative path *)

(** The calls whose argument 0 is a directory descriptor for the path of
    argument 1. *)
Definition at_calls : list Z := [SYS_mknodat; SYS_mkdirat; SYS_fchmodat; SYS_fchownat; SYS_unlinkat; SYS_faccessat2].

Lemma argint_ok n tf : n <= 5 -> argint n tf = Some (s32 (tf n)).
Proof. intros Hn. unfold argint. by rewrite (proj2 (Z.ltb_ge _ _)). Qed.
Lemma argu64_ok n tf : n <= 5 -> argu64 n tf = Some (u64 (tf n)).
Proof. intros Hn. unfold argu64. by rewrite (proj2 (Z.ltb_ge _ _)). Qed.
Lemma arg_id_ok n tf : n <= 5 -> arg_id n tf = Some (u32 (s32 (tf n))).
Proof. intros Hn. unfold arg_id. by rewrite argint_ok. Qed.

Lemma check_fdcwd_inode path dirfd f fl s : head path <> Some SLASH -> dirfd <> AT_FDCWD -> 0 <= dirfd -> ofile s !! Z.to_nat dirfd = Some (Some f) ->
  files s !! f = Some fl -> f_type fl = FD_INODE -> check_fdcwd path dirfd s = Done (- ENOTDIR) s.
Proof.
  intros Hp Hd Hd0 Ho Hf Ht. unfold check_fdcwd. rewrite bool_decide_false, (proj2 (Z.eqb_neq _ _)) by done. cbn [negb andb].
  assert (E : fd_slot dirfd s = Done (Some f) s) by (unfold fd_slot, deref; rewrite (proj2 (Z.ltb_ge _ 0)) by done; by rewrite Ho).
  rewrite (bind_Done _ _ _ _ _ E). assert (E2 : get_file f s = Done fl s) by (unfold get_file, deref; by rewrite Hf). rewrite (bind_Done _ _ _ _ _ E2), Ht. done.
Qed.

(** C32: a relative path with a directory descriptor never works: check_fdcwd
    compares the type of the open file with the inode type T_DIR, so for a
    descriptor open on any inode, a directory too, each of these calls returns
    -ENOTDIR and changes nothing. *)
Theorem dirfd_refused tf num dirfd path f fl s : num ∈ at_calls -> argint 0 tf = Some dirfd -> argstr 1 MAXPATH tf (fuser (ffs s)) = Some path ->
  head path <> Some SLASH -> dirfd <> AT_FDCWD -> 0 <= dirfd -> ofile s !! Z.to_nat dirfd = Some (Some f) -> files s !! f = Some fl -> f_type fl = FD_INODE ->
  syscall (file_syscalls junk stk past st0 loops sz is_mmap_region f_null tf) num s = Done (- ENOTDIR) s.
Proof.
  intros Hn Hfd Hpath Hp Hd Hd0 Ho Hf Ht. pose proof (check_fdcwd_inode path dirfd f fl s Hp Hd Hd0 Ho Hf Ht) as Hc.
  assert (Ha : argpath tf 1 s = Done (Some path) s) by (unfold argpath, user; rewrite bind_gets; unfold mret, M_ret; by rewrite Hpath).
  repeat (apply elem_of_cons in Hn as [->|Hn]); [..|by apply elem_of_nil in Hn]; cbv [syscall]; cbn [find_call file_syscalls syscalls_files app]; 
    [change (sys_mknodat junk stk tf s = Done (- ENOTDIR) s)|change (sys_mkdirat junk stk tf s = Done (- ENOTDIR) s)|change (sys_fchmodat junk stk tf s = Done (- ENOTDIR) s)
    |change (sys_fchownat junk stk loops tf s = Done (- ENOTDIR) s)|change (sys_unlinkat junk stk tf s = Done (- ENOTDIR) s)|change (sys_faccessat2 junk stk loops tf s = Done (- ENOTDIR) s)];
    unfold sys_mknodat, sys_mkdirat, sys_fchmodat, sys_fchownat, sys_unlinkat, sys_faccessat2; rewrite Hfd, ?argint_ok, ?argu64_ok, ?arg_id_ok by lia;
    by rewrite (bind_Done _ _ _ _ _ Ha), (bind_Done _ _ _ _ _ Hc).
Qed.
End Props.

(** ** dup *)
Section Dup.
Context {D : Type} `{sdcard_laws D} {U : Type} `{!usermem U} `{!userstr U} {P : Type} `{!pipeops U P} {V : Type} `{!devsw U V}.
Context (junk : bytes) (stk past : list Z) (st0 : bytes) (loops : nat) (dev lba : Z) (L : gset Z).
Context (sz : Z) (is_mmap_region : Z -> Z -> bool) (f_null : bool).
Local Abbreviation fls := (fls D U P V).
Local Abbreviation call := (syscall (file_syscalls junk stk past st0 loops sz is_mmap_region f_null : (Z -> Z) -> list (Z * M fls Z))).

(** Dup of an open descriptor adds a reference to its file and gives the
    file to the lowest free descriptor as well; when no descriptor is free it
    returns -EBADF, and the reference it added is never given back. *)
Theorem sys_dup_correct tf (s : fls) fd f fl : idle dev lba L (fs_of s) -> ftable_lock ∈ L -> length (ofile s) = NOFILE ->
  argint 0 tf = Some fd -> 0 <= fd -> ofile s !! Z.to_nat fd = Some (Some f) -> files s !! f = Some fl -> 1 <= f_ref fl < 2 ^ 31 - 1 ->
  exists s', tabled dev lba L s (<[f := set_f_ref (f_ref fl + 1) fl]> (files s)) s' /\
    ((exists fd', (fd' < NOFILE)%nat /\ ofile s !! fd' = Some None /\ (forall k, (k < fd')%nat -> exists g, ofile s !! k = Some (Some g)) /\
        syscall (file_syscalls junk stk past st0 loops sz is_mmap_region f_null tf) SYS_dup s = Done (Z.of_nat fd') (set_ofile (<[fd' := Some f]> (ofile s')) s')) \/
     ((forall k, (k < NOFILE)%nat -> exists g, ofile s !! k = Some (Some g)) /\
        syscall (file_syscalls junk stk past st0 loops sz is_mmap_region f_null tf) SYS_dup s = Done (- EBADF) s')).
Proof.
  intros Hid HL Hlen Hfd Hfd0 Ho Hf Hr. destruct (filedup_ok dev lba L s f fl Hid HL Hf Hr) as (s' & E & Ht). exists s'. split; [exact Ht|].
  pose proof (tb_rest _ _ _ _ _ _ Ht) as (Eo & _).
  assert (Ecall : syscall (file_syscalls junk stk past st0 loops sz is_mmap_region f_null tf) SYS_dup s = fdalloc f 0 s').
  { change (sys_dup tf s = fdalloc f 0 s'). unfold sys_dup. rewrite Hfd. unfold dupfd.
    assert (Es : fd_slot fd s = Done (Some f) s) by (unfold fd_slot, deref; rewrite (proj2 (Z.ltb_ge _ 0)) by done; by rewrite Ho).
    by rewrite (bind_Done _ _ _ _ _ Es), (bind_Done _ _ _ _ _ E). }
  rewrite Ecall. destruct (fdalloc_correct s' f 0 ltac:(lia) ltac:(by rewrite Eo)) as [(fd' & Hb & Hn & Hbelow & Ef)|[Hfull Ef]]; rewrite Eo in *.
  - left. exists fd'. split; [lia|]. split; [done|]. split; [intros k Hk; apply Hbelow; lia|]. by rewrite Ef.
  - right. split; [intros k Hk; apply Hfull; lia|]. by rewrite Ef.
Qed.
End Dup.

(** ** Witnesses *)

(** The machine of FileProps.v; descriptor 0 is open on its first file, whose
    other reference is somewhere else. *)
#[local] Instance no_pipes : pipeops flat unit := {|
  po_alloc := mret (-1); po_close _ _ := mret tt; po_read _ _ _ := mret (-1); po_write _ _ _ := mret (-1) |}.
#[local] Instance no_devs : devsw flat unit := {| dev_read _ := None; dev_write _ := None; dev_ioctl _ := None |}.
Definition wit_fls : fls ram flat unit unit := set_ofile (<[0%nat := Some 0%nat]> (replicate NOFILE None)) img_fls.
Definition wit_calls : list (Z * (Z -> Z)) := [(SYS_dup, fun _ => 0); (SYS_close, fun _ => 0); (SYS_fcntl, fun _ => 0); (7, fun _ => 0)].
Definition wit_ext (f : nat) : nat := match f with O => 1 | 2%nat => 2 | _ => 0 end.
Definition wit_run : outcome (fls ram flat unit unit) unit := file_calls fresh_data [] [] (fun _ => 0) 0 0 (fun _ _ => false) false wit_calls wit_fls.
Definition wit_end : fls ram flat unit unit := match wit_run with Done _ s => s | _ => wit_fls end.

Lemma fd_refs_none l f : Forall (fun o => o <> Some f) l -> fd_refs l f = 0%nat.
Proof. unfold fd_refs. induction 1 as [|o l Ho Hl IH]; [done|]. rewrite filter_cons, decide_False by done. exact IH. Qed.

Lemma wit_counted : counted wit_ext 2 wit_fls.
Proof.
  change (tab (Some 0%nat :: replicate 15 None) (fun f => fd_refs (Some 0%nat :: replicate 15 None) f + wit_ext f)%nat 2 wit_fls). split; [done|].
  change (files wit_fls) with [img_open; file0; img_open]. intros [|f].
  - change (Z.of_nat (1 + 1) <= 2 <= 2). lia.
  - rewrite fd_refs_none by by repeat constructor. destruct f as [|[|f]]; unfold ref_of; [change (0 <= 0 <= 2)|change (2 <= 2 <= 2)|rewrite lookup_ge_None_2 by (cbn; lia)]; cbn; lia.
Qed.

Lemma wit_run_done : wit_run = Done tt wit_end.
Proof. unfold wit_end. destruct wit_run as [[] s| | | |] eqn:E; [done|exfalso..]; assert (Hd : match wit_run with Done _ _ => true | _ => false end = true) by (vm_compute; reflexivity); by rewrite E in Hd. Qed.

Lemma descriptors_counted_witness : wit_run = Done tt wit_end /\ counted wit_ext 6 wit_end.
Proof.
  split; [exact wit_run_done|].
  exact (descriptors_counted fresh_data [] [] (fun _ => 0) 0 0 (fun _ _ => false) false wit_ext wit_calls 2 wit_fls wit_end wit_counted ltac:(lia) ltac:(cbn; lia) wit_run_done).
Defined.

Lemma wit_idle : idle 1 2048 img_locks (fs_of wit_fls).
Proof. destruct img_idle as [H1 H2 H3]. by split. Qed.

Lemma sys_dup_correct_witness : exists s', syscall (file_syscalls fresh_data [] [] (fun _ => 0) 0 0 (fun _ _ => false) false (fun _ => 0)) SYS_dup wit_fls = Done 1 (set_ofile (<[1%nat := Some 0%nat]> (ofile s')) s') /\
  f_ref <$> files s' !! 0%nat = Some 3.
Proof.
  destruct (sys_dup_correct fresh_data [] [] (fun _ => 0) 0 1 2048 img_locks 0 (fun _ _ => false) false (fun _ => 0) wit_fls 0 0 img_open wit_idle
    ltac:(unfold img_locks, ftable_lock; set_solver) eq_refl eq_refl ltac:(lia) eq_refl eq_refl ltac:(cbn; lia)) as (s' & Ht & [(fd & _ & Hn & Hb & E)|[Hfull _]]).
  - exists s'. assert (fd = 1%nat) as ->; [|split; [exact E|by rewrite (tb_files _ _ _ _ _ _ Ht)]].
    destruct fd as [|[|fd]]; [done|done|]. by destruct (Hb 1%nat ltac:(lia)) as [g Hg].
  - by destruct (Hfull 1%nat ltac:(unfold NOFILE; lia)) as [g Hg].
Defined.

(** "a" is at address 100 of the process. *)
Definition wit_path : fls ram flat unit unit := set_ffs (set_fuser (<[100 := 97]> {[101 := 0]}) (ffs wit_fls)) wit_fls.
Lemma dirfd_refused_witness : syscall (file_syscalls fresh_data [] [] (fun _ => 0) 0 0 (fun _ _ => false) false (fun n => if n =? 1 then 100 else 0)) SYS_unlinkat wit_path = Done (- ENOTDIR) wit_path.
Proof.
  apply (dirfd_refused fresh_data [] [] (fun _ => 0) 0 0 (fun _ _ => false) false _ SYS_unlinkat 0 [97] 0 img_open); try done.
  unfold at_calls. set_solver.
Defined.
