(* ===== verification/Mmap.v ===== *)
(** * Memory mappings (kernel/mmap.c, the mapping calls of kernel/sysproc.c)

    The regions of a process are structs of the slab cache MMAPREGIONS, linked
    from [p->regions] in order of address: a heap [rheap] from addresses to
    structs, which keeps the contents of a struct after it is freed, and the
    head of the list.  [fresh_region] is what a new struct holds.  The cache
    is the class [regcache].  The pages are those of Vm.v, and the open files
    of File.v read and write the same kernel memory.  [rounds] bounds the
    walks along the list.

    mremap and scale_mmap_region are in Mremap.v. *)
From S2P Require Import Prelude Spinlock Bytes UserMem Cred Bio Fs File Syscall Vm.

Definition PROT_READ : Z := 1.
Definition PROT_WRITE : Z := 2.
Definition PROT_EXEC : Z := 4.
Definition PROT_NONE : Z := 0.
Definition MAP_PRIVATE : Z := 2.
Definition MAP_FIXED : Z := 0x10.
Definition MAP_ANONYMOUS : Z := 0x20.
Definition MS_ASYNC : Z := 1.
Definition MS_SYNC : Z := 4.
Definition SCAUSE_PAGE_STORE : Z := 15.
Definition ELF_ET_DYN_BASE : Z := 0x100000000.
Definition PTE_THEAD_NORMAL_NC : Z := Z.lor PTE_B PTE_S.
Definition NOT_PAGEALIGN (a : Z) : bool := flag a (PGSIZE - 1).

Definition get_perm (prot flags : Z) : Z :=
  let perm := if flag flags MAP_ANONYMOUS then Z.lor PTE_THEAD_NORMAL_NC PTE_U else Z.lor PTE_THEAD_NORMAL PTE_U in
  let perm := if flag prot PROT_READ then Z.lor perm PTE_R else perm in
  let perm := if flag prot PROT_WRITE then Z.lor perm PTE_W else perm in
  let perm := if flag prot PROT_EXEC then Z.lor perm PTE_X else perm in
  if flag prot PROT_NONE then Z.land perm (u64 (Z.lnot PTE_U)) else perm.

Record region := Region {
  r_addr : Z; r_length : Z; r_offset : Z; r_f : option nat; r_prot : Z; r_flags : Z; r_next : Z
}.
Definition set_r_addr v (r : region) := Region v (r_length r) (r_offset r) (r_f r) (r_prot r) (r_flags r) (r_next r).
Definition set_r_length v (r : region) := Region (r_addr r) v (r_offset r) (r_f r) (r_prot r) (r_flags r) (r_next r).
Definition set_r_offset v (r : region) := Region (r_addr r) (r_length r) v (r_f r) (r_prot r) (r_flags r) (r_next r).
Definition set_r_f v (r : region) := Region (r_addr r) (r_length r) (r_offset r) v (r_prot r) (r_flags r) (r_next r).
Definition set_r_prot v (r : region) := Region (r_addr r) (r_length r) (r_offset r) (r_f r) v (r_flags r) (r_next r).
Definition set_r_next v (r : region) := Region (r_addr r) (r_length r) (r_offset r) (r_f r) (r_prot r) (r_flags r) v.

(** The slab cache of the regions: an address that is not in use, or 0. *)
Class regcache (R : Type) := RegCache { rc_alloc : M R Z; rc_free : Z -> M R unit }.

Section Mmap.
Context {D : Type} `{!sdcard D} {U : Type} `{!usermem U} {P : Type} `{!pipeops U P} {V : Type} `{!devsw U V}.
Context {G : Type} `{!kpages G} {R : Type} `{!regcache R}.
Context (junk : bytes) (fresh_region : region) (rounds : nat) (pagetable : Z).
Local Abbreviation fls := (fls D U P V).

Record mmst := Mmst { mfl : fls; mvm : vst G; rheap : gmap Z region; mrc : R; regions : Z }.
Definition set_heap v (s : mmst) := Mmst (mfl s) (mvm s) v (mrc s) (regions s).
Definition set_regions v (s : mmst) := Mmst (mfl s) (mvm s) (rheap s) (mrc s) v.

(** Kernel memory is the memory the pages are in. *)
Definition files_of (s : mmst) : fls := set_ffs (set_kmem (pmem (mvm s)) (ffs (mfl s))) (mfl s).
Definition on_files {A} (m : M fls A) : M mmst A :=
  zoom files_of (fun v s => Mmst v (Vst (vpg (mvm s)) (kmem (ffs v))) (rheap s) (mrc s) (regions s)) m.
Definition on_mem {A} (m : M (vst G) A) : M mmst A := zoom mvm (fun v s => Mmst (mfl s) v (rheap s) (mrc s) (regions s)) m.
Definition on_cache {A} (m : M R A) : M mmst A := zoom mrc (fun v s => Mmst (mfl s) (mvm s) (rheap s) v (regions s)) m.
Definition reg (r : Z) : M mmst region := fun s => deref (rheap s !! r) s.
Definition upd_reg (r : Z) (g : region -> region) : M mmst unit := x ← reg r; modify (fun s => set_heap (<[r := g x]> (rheap s)) s).
Definition get_regions : M mmst Z := gets regions.
Definition close_ptr (f : option nat) : M mmst unit := match f with Some f => on_files (fileclose junk f) | None => mret tt end.

(** ** The list of regions *)

Fixpoint find_region (fuel : nat) (region start : Z) : M mmst Z :=
  match fuel with
  | O => nofuel
  | S fuel =>
      if region =? 0 then mret 0
      else
        r ← reg region;
        if (r_addr r <=? start) && (start <? u64 (r_addr r + r_length r)) then mret region
        else find_region fuel (r_next r) start
  end.
Definition find_mmap_region (start : Z) : M mmst Z := region ← get_regions; find_region rounds region start.
Definition is_mmap_region (addr length : Z) : M mmst bool :=
  region ← find_mmap_region addr;
  if region =? 0 then mret false
  else r ← reg region; mret (u64 (addr + length) <=? u64 (r_addr r + r_length r)).

(** The loop of [delete_mmap_node]: unlink the struct with the address of [node]. *)
Fixpoint unlink_region (fuel : nat) (node : Z) (prev region : Z) : M mmst unit :=
  match fuel with
  | O => nofuel
  | S fuel =>
      if region =? 0 then mret tt
      else
        n ← reg node;
        r ← reg region;
        if r_addr n =? r_addr r then upd_reg prev (set_r_next (r_next r))
        else unlink_region fuel node region (r_next r)
  end.
Definition delete_mmap_node (node : Z) : M mmst unit :=
  head ← get_regions;
  if head =? 0 then mret tt
  else
    n ← reg node;
    h ← reg head;
    (if r_addr n =? r_addr h then modify (set_regions (r_next h)) else unlink_region rounds node head head);;
    n ← reg node;
    on_mem (uvmunmap pagetable (r_addr n) (u64 (r_length n + PGSIZE - 1) / PGSIZE) true);;
    on_cache (rc_free node).

Fixpoint free_regions (fuel : nat) (region : Z) : M mmst unit :=
  match fuel with
  | O => nofuel
  | S fuel =>
      if region =? 0 then mret tt
      else
        r ← reg region;
        close_ptr (r_f r);;
        delete_mmap_node region;;
        temp ← reg region;
        free_regions fuel (r_next temp)
  end.
Definition free_mmap_list : M mmst unit := region ← get_regions; free_regions rounds region.

Definition copy_mmap_region (dest src : Z) : M mmst unit :=
  r ← reg src;
  upd_reg dest (fun d => Region (r_addr r) (r_length r) (r_offset r) (r_f d) (r_prot r) (r_flags r) 0);;
  match (if flag (r_flags r) MAP_ANONYMOUS then None else r_f r) with
  | Some f => g ← on_files (filedup f); upd_reg dest (set_r_f (Some g))
  | None => upd_reg dest (set_r_f None)
  end.

(** A new struct, or 0. *)
Definition new_region : M mmst Z :=
  region ← on_cache rc_alloc;
  (if region =? 0 then mret tt else modify (fun s => set_heap (<[region := default fresh_region (rheap s !! region)]> (rheap s)) s));;
  mret region.

(** The copies of the regions from [node] on: the first, or the error. *)
Fixpoint copy_regions (fuel : nat) (node cnode tail : Z) : M mmst (Z + Z) :=
  match fuel with
  | O => nofuel
  | S fuel =>
      if node =? 0 then mret (inl cnode)
      else
        region ← new_region;
        if region =? 0 then mret (inr (- ENOMEM))
        else
          copy_mmap_region region node;;
          (if cnode =? 0 then mret tt else upd_reg tail (set_r_next region));;
          n ← reg node;
          copy_regions fuel (r_next n) (if cnode =? 0 then region else cnode) region
  end.
(** [copy_mmap_regions]: the result, and the new [child->regions]. *)
Definition copy_mmap_regions (child_regions : Z) : M mmst (Z * Z) :=
  node ← get_regions;
  r ← copy_regions rounds node 0 0;
  mret (match r with inl cnode => (0, cnode) | inr e => (e, child_regions) end).

(** The loop of [is_usable]. *)
Fixpoint usable_from (fuel : nat) (cursor addr length : Z) : M mmst bool :=
  match fuel with
  | O => nofuel
  | S fuel =>
      if cursor =? 0 then mret false
      else
        c ← reg cursor;
        if addr =? r_addr c then mret false
        else if u64 (addr + length) <=? r_addr c then mret true
        else
          fits ← (if u64 (r_addr c + r_length c) <=? addr then
                    if r_next c =? 0 then mret true
                    else n ← reg (r_next c); mret (u64 (addr + length) <=? r_addr n)
                  else mret false);
          if fits : bool then mret true else usable_from fuel (r_next c) addr length
  end.
Definition is_usable (addr length : Z) : M mmst bool :=
  if (addr <? ELF_ET_DYN_BASE) || (USERTOP <? addr) then mret false
  else
    cursor ← get_regions;
    if cursor =? 0 then mret true else usable_from rounds cursor addr length.

(** ** Loading pages *)

(** [inl (ret, cur)]: at [err] with [cur] bytes mapped; [inr ret]: returned. *)
Fixpoint map_file_loop (n : nat) (addr cur length perm : Z) (f : nat) (offset : Z) : M mmst (Z * Z + Z) :=
  match n with
  | O => nofuel
  | S n =>
      if cur <? length then
        on_files (upd_file f (set_f_off (u32 offset)));;
        fl ← on_files (get_file f);
        i ← deref (f_ip fl);
        ip ← on_files (inode_at i);
        let left := u32 (d_size (i_copy ip) - f_off fl) in
        let len := if PGSIZE <? left then PGSIZE else left in
        if len =? 0 then mret (inr 0)
        else
          mem ← on_mem (vpages kalloc);
          if mem =? 0 then mret (inl (- ENOMEM, cur))
          else
            on_mem (memset mem 0 PGSIZE);;
            ret ← on_files (fileread junk f mem len false);
            if ret <? 0 then on_mem (vpages (kfree mem));; mret (inl (ret, cur))
            else
              ret ← on_mem (mappages pagetable (u64 (addr + cur)) len mem perm);
              if ret <? 0 then on_mem (vpages (kfree mem));; mret (inr ret)
              else map_file_loop n addr (u64 (cur + PGSIZE)) length perm f (u64 (offset + len))
      else mret (inr 0)
  end.
Fixpoint map_anon_loop (n : nat) (addr cur length perm : Z) : M mmst (Z * Z + Z) :=
  match n with
  | O => nofuel
  | S n =>
      if cur <? length then
        page ← on_mem (vpages kalloc);
        if page =? 0 then mret (inl (- ENOMEM, cur))
        else
          on_mem (memset page 0 PGSIZE);;
          ret ← on_mem (mappages pagetable (u64 (addr + cur)) PGSIZE page perm);
          if ret <? 0 then on_mem (vpages (kfree page));; mret (inl (- EINVAL, cur))
          else map_anon_loop n addr (u64 (cur + PGSIZE)) length perm
      else mret (inr 0)
  end.
(** The label [err]. *)
Definition map_end (addr : Z) (r : Z * Z + Z) : M mmst Z :=
  match r with
  | inr ret => mret ret
  | inl (ret, cur) =>
      (if negb (cur =? 0) then on_mem (uvmunmap pagetable addr (cur / PGSIZE) true) else mret tt);;
      mret ret
  end.
Definition map_fuel (length : Z) : nat := Z.to_nat (length / PGSIZE + 2).
Definition map_file_pages (addr length perm : Z) (f : nat) (offset : Z) : M mmst Z :=
  map_file_loop (map_fuel length) addr 0 length perm f offset ≫= map_end addr.
Definition map_anon_pages (addr length perm : Z) : M mmst Z :=
  map_anon_loop (map_fuel length) addr 0 length perm ≫= map_end addr.

Definition mmap_load_pages (addr length prot flags : Z) (f : option nat) (offset : Z) : M mmst Z :=
  let perm := get_perm prot flags in
  if flag flags MAP_ANONYMOUS then map_anon_pages addr length perm
  else f ← deref f; map_file_pages addr length perm f offset.

(** The page of the region that a fault at [addr] needs. *)
Definition alloc_mmap_page (addr scause : Z) : M mmst Z :=
  let rounddown := PGROUNDDOWN addr in
  region ← find_mmap_region rounddown;
  if region =? 0 then mret (-1)
  else
    r ← reg region;
    if (scause =? SCAUSE_PAGE_STORE) && negb (flag (r_prot r) PROT_WRITE) then mret (-1)
    else
      let offset := match r_f r with
                    | Some _ => u64 (r_offset r + u64 (rounddown - r_addr r) / PGSIZE * PGSIZE)
                    | None => 0
                    end in
      e ← mmap_load_pages rounddown PGSIZE (r_prot r) (r_flags r) (r_f r) offset;
      mret (if e <? 0 then -1 else 0).

(** ** mmap *)

(** MAP_FIXED with PROT_NONE: [n] pages from [addr] lose PTE_U. *)
Fixpoint hide_pages (n : nat) (addr : Z) : M mmst bool :=
  match n with
  | O => mret true
  | S n =>
      pte ← on_mem (walk pagetable addr true);
      if pte =? 0 then mret false
      else
        e ← on_mem (rd_pte pte);
        on_mem (wr_pte pte (Z.land e (u64 (Z.lnot PTE_U))));;
        hide_pages n (u64 (addr + PGSIZE))
  end.

(** The loop at [select_addr]. *)
Fixpoint select_addr (fuel : nat) (node addr length : Z) : M mmst Z :=
  match fuel with
  | O => nofuel
  | S fuel =>
      if node =? 0 then mret addr
      else
        n ← reg node;
        if u64 (addr + PGROUNDUP length) <=? r_addr n then mret addr
        else
          fits ← (if u64 (r_addr n + r_length n) <=? addr then
                    if r_next n =? 0 then mret true
                    else n' ← reg (r_next n); mret (u64 (addr + PGROUNDUP length) <=? r_addr n')
                  else mret false);
          if fits : bool then mret addr
          else
            let right := u64 (r_addr n + r_length n) in
            select_addr fuel (r_next n) (if addr <=? right then right else addr) length
  end.

(** The loop that links the new [region]; the result is [prev]. *)
Fixpoint link_region (fuel : nat) (region addr node prev : Z) : M mmst Z :=
  match fuel with
  | O => nofuel
  | S fuel =>
      if node =? 0 then mret prev
      else
        n ← reg node;
        if addr <? r_addr n then upd_reg region (set_r_next node);; mret region
        else
          between ← (if (r_addr n <? addr) && negb (r_next n =? 0) then n' ← reg (r_next n); mret (addr <? r_addr n') else mret false);
          if between : bool then upd_reg region (set_r_next (r_next n));; upd_reg node (set_r_next region);; mret prev
          else if r_next n =? 0 then upd_reg node (set_r_next region);; mret prev
          else link_region fuel region addr (r_next n) prev
  end.

(** Step 1 of [mmap]: the address, or the result. *)
Definition mmap_addr (addr length prot flags : Z) : M mmst (Z + Z) :=
  a ← (if negb (addr =? 0) then
         let upper_addr := PGROUNDUP (u64 (PGROUNDUP addr + length)) in
         if USERTOP <? upper_addr then mret (inr (- EINVAL))
         else if flag flags MAP_FIXED then
           if NOT_PAGEALIGN addr then mret (inr (- EINVAL))
           else if prot =? PROT_NONE then
             ok ← hide_pages (Z.to_nat (PGROUNDUP length / PGSIZE)) addr;
             mret (inr (if ok : bool then addr else - EINVAL))
           else
             ok ← is_usable addr length;
             mret (if ok : bool then inl addr else inr (- EINVAL))
         else
           node ← get_regions;
           a ← select_addr rounds node (PGROUNDDOWN addr) length;
           mret (inl a)
       else
         node ← get_regions;
         a ← (if negb (node =? 0) then r ← reg node; mret (r_addr r) else mret MMAPBASE);
         a ← select_addr rounds node a length;
         mret (inl a));
  mret (match a with
        | inl a => if USERTOP <? u64 (a + PGROUNDUP length) then inr (- ENOMEM) else inl a
        | inr e => inr e
        end).

Definition mmap (addr length prot flags : Z) (f : option nat) (offset : Z) : M mmst Z :=
  a ← mmap_addr addr length prot flags;
  match a with
  | inr e => mret e
  | inl addr =>
      region ← new_region;
      if region =? 0 then mret (- ENOMEM)
      else
        upd_reg region (fun r => Region addr length offset (r_f r) prot flags 0);;
        let out e := close_ptr f;; on_cache (rc_free region);; mret e in
        anon ← match f with
               | Some f =>
                   on_files (filedup f);;
                   if negb (flag flags MAP_ANONYMOUS) then g ← on_files (filedup f); upd_reg region (set_r_f (Some g));; mret false
                   else mret true
               | None => upd_reg region (set_r_f None);; mret false
               end;
        if anon : bool then out (- EINVAL)
        else
          head ← get_regions;
          (if head =? 0 then modify (set_regions region)
           else prev ← link_region rounds region addr head head; modify (set_regions prev));;
          error ← mmap_load_pages addr length prot flags f offset;
          if error <? 0 then out error
          else upd_reg region (fun r => set_r_length (PGROUNDUP length) (set_r_addr addr r));; mret addr
  end.

(** ** munmap, msync and mprotect *)

(** A shared file mapping that may have been written. *)
Definition must_write_back (r : region) : bool :=
  negb (flag (r_flags r) MAP_ANONYMOUS) && flag (r_flags r) MAP_SHARED && flag (r_prot r) PROT_WRITE.
(** The dirty pages of [r] from [ra] to [lim] go back to the file. *)
Fixpoint write_back (fuel : nat) (r : region) (ra lim : Z) : M mmst Z :=
  match fuel with
  | O => nofuel
  | S fuel =>
      if ra <? lim then
        pte ← on_mem (walk pagetable ra false);
        if pte =? 0 then panic "no pte"
        else
          e ← on_mem (rd_pte pte);
          let offset := u64 (r_offset r + ra - r_addr r) in
          w ← (if flag (PTE_FLAGS e) PTE_D then on_files (writeback junk (r_f r) offset ra) else mret 0);
          if w <? 0 then mret (- EACCES)
          else
            f ← deref (r_f r);
            fl ← on_files (get_file f);
            i ← deref (f_ip fl);
            ip ← on_files (inode_at i);
            if d_size (i_copy ip) <=? u64 (offset + PGSIZE) then mret 0
            else write_back fuel r (u64 (ra + PGSIZE)) lim
      else mret 0
  end.

Definition munmap (addr length : Z) : M mmst Z :=
  if NOT_PAGEALIGN addr then mret (- EINVAL)
  else
    let length := PGROUNDUP length in
    region ← find_mmap_region addr;
    if region =? 0 then mret 0
    else
      r ← reg region;
      let length := if r_length r <? length then r_length r else length in
      e ← (if must_write_back r then write_back (map_fuel length) r addr (u64 (addr + length)) else mret 0);
      if e <? 0 then mret e
      else if r_length r =? length then
        close_ptr (r_f r);;
        delete_mmap_node region;;
        mret 0
      else
        on_mem (uvmunmap pagetable addr (length / PGSIZE) true);;
        (if r_addr r =? addr then upd_reg region (fun r => set_r_offset (u64 (r_offset r + length)) (set_r_addr (u64 (r_addr r + length)) r)) else mret tt);;
        upd_reg region (fun r => set_r_length (u64 (r_length r - length)) r);;
        mret 0.

Definition msync (addr length flags : Z) : M mmst Z :=
  let flags := if negb (flag flags MS_ASYNC) && negb (flag flags MS_SYNC) then Z.lor flags MS_ASYNC else flags in
  if flag flags MS_ASYNC then mret 0
  else if NOT_PAGEALIGN addr then mret (- EINVAL)
  else
    region ← find_mmap_region addr;
    if region =? 0 then mret 0
    else
      r ← reg region;
      let length := if r_length r <? length then r_length r else length in
      if must_write_back r then write_back (map_fuel length) r addr (u64 (addr + length)) else mret 0.

(** [mprotect] below [p->sz]: the pages from [addrp] to [lim]. *)
Fixpoint protect_pages (fuel : nat) (addrp lim prot : Z) : M mmst Z :=
  match fuel with
  | O => nofuel
  | S fuel =>
      if addrp <? lim then
        pte ← on_mem (walk pagetable addrp false);
        if pte =? 0 then mret (- ENOMEM)
        else
          e ← on_mem (rd_pte pte);
          if flag e PTE_RO && (prot =? PROT_WRITE) then mret (- EACCES)
          else
            let e :=
              if prot =? PROT_NONE then Z.land e (u64 (Z.lnot PTE_U))
              else
                let e := if prot =? PROT_READ then Z.lor e PTE_R else e in
                let e := if prot =? PROT_WRITE then Z.lor e PTE_W else e in
                let e := if prot =? PROT_EXEC then Z.lor e PTE_X else e in
                Z.lor e PTE_U in
            on_mem (wr_pte pte e);;
            protect_pages fuel (u64 (addrp + PGSIZE)) lim prot
      else mret 0
  end.

(** One of the [mmap] calls of mprotect over the freed [region]. *)
Definition remap (region addr length prot offset : Z) : M mmst unit :=
  r ← reg region;
  mmap addr length prot (Z.lor (r_flags r) MAP_FIXED) (r_f r) offset;;
  mret tt.
Definition mprotect (sz addr length prot : Z) : M mmst Z :=
  if addr <=? sz then protect_pages (map_fuel length) addr (u64 (addr + length)) prot
  else
    ok ← is_mmap_region addr (PGROUNDUP length);
    if negb (ok : bool) then mret (- ENOMEM)
    else
      region ← find_mmap_region addr;
      r ← reg region;
      if (Z.land (r_prot r) (Z.lor PROT_READ PROT_WRITE) =? PROT_READ) && flag prot PROT_WRITE then mret (- EACCES)
      else
        let length := PGROUNDUP length in
        let old_prot := r_prot r in
        let off o := if r_f r then u64 o else 0 in
        if (r_addr r =? addr) && (r_length r =? length) && (r_prot r =? prot) then mret 0
        else if (r_addr r =? addr) && (r_length r =? length) then upd_reg region (set_r_prot prot);; mret 0
        else
          e ← munmap (r_addr r) (r_length r);
          if e <? 0 then mret e
          else if r_addr r =? addr then
            remap region addr length prot (r_offset r);;
            remap region (u64 (addr + length)) (u64 (r_length r - length)) old_prot (off (r_offset r + length));;
            mret 0
          else if u64 (addr + length) =? u64 (r_addr r + r_length r) then
            let length1 := u64 (r_length r - length) in
            remap region (r_addr r) length1 old_prot (r_offset r);;
            remap region addr length prot (off (r_offset r + length1));;
            mret 0
          else
            let length1 := u64 (addr - r_addr r) in
            let offset2 := off (r_offset r + length1) in
            remap region (r_addr r) length1 old_prot (r_offset r);;
            remap region addr length prot offset2;;
            remap region (u64 (addr + length)) (u64 (r_length r - length1 - length)) old_prot (off (offset2 + length));;
            mret 0.

(** ** The calls *)

Context (sz : Z) (tf : Z -> Z).

Definition sys_mmap : M mmst Z :=
  let? addr := argu64 0 tf else - EINVAL in
  let? len := argu64 1 tf else - EINVAL in
  let? prot := argint 2 tf else - EINVAL in
  let? flags := argint 3 tf else - EINVAL in
  let? fd := argint 4 tf else - EINVAL in
  let? off := argu64 5 tf else - EINVAL in
  f ← (if flag flags MAP_ANONYMOUS then mret (if negb (fd =? -1) then inr (- EINVAL) else inl None)
       else if (fd <? 0) || (Z.of_nat NOFILE <=? fd) then mret (inr (- EBADF))
       else
         o ← gets (fun s => ofile (mfl s) !! Z.to_nat fd);
         o ← deref o;
         mret (match o with None => inr (- EBADF) | Some f => inl (Some f) end));
  match f with
  | inr e => mret e
  | inl f =>
      if Z.land flags (Z.lor MAP_PRIVATE MAP_SHARED) =? 0 then mret (- EINVAL)
      else if (s64 len <=? 0) || (s64 off <? 0) then mret (- EINVAL)
      else if flag flags MAP_FIXED && (addr =? 0) then mret (- EINVAL)
      else
        fl ← match f with Some f => on_files (get_file f) | None => mret file0 end;
        if negb (flag flags MAP_ANONYMOUS) && (f_readable fl =? 0) then mret (- EACCES)
        else if negb (flag flags MAP_ANONYMOUS) && flag flags MAP_SHARED && flag prot PROT_WRITE && (f_writable fl =? 0) then mret (- EACCES)
        else mmap addr len prot flags f off
  end.

Definition sys_munmap : M mmst Z :=
  let? addr := argu64 0 tf else - EINVAL in
  let? len := argu64 1 tf else - EINVAL in
  munmap addr len.

Definition sys_mprotect : M mmst Z :=
  let? addr := argu64 0 tf else - EINVAL in
  let? len := argu64 1 tf else - EINVAL in
  let? prot := argint 2 tf else - EINVAL in
  if flag addr (PGSIZE - 1) then mret (- EINVAL)
  else if flag prot PROT_NONE && (Z.land prot (Z.lor PROT_READ (Z.lor PROT_WRITE PROT_EXEC)) =? 0) then mret (- EINVAL)
  else mprotect sz addr len prot.

Definition sys_msync : M mmst Z :=
  let? addr := argu64 0 tf else - EINVAL in
  let? length := argu64 1 tf else - EINVAL in
  let? flags := argint 2 tf else - EINVAL in
  msync addr length flags.
End Mmap.
Arguments mmst D U P V G R : clear implicits.
Arguments Mmst {D U P V G R}.
