(* ===== verification/MmapInv.v ===== *)
(** * The list of regions

    [rseg h p l q]: the structs of [l], in the heap [h], link [p] to [q]; the
    [r_next] of an element of [l] is 0, the links are in [h].  [rlist s l]:
    the regions of the process are [l], sorted, apart and inside user space. *)
From stdpp Require Import sorting.
From S2P Require Import Prelude Spinlock Bytes UserMem Cred Bio Fs File Vm VmBits VmInv VmUser VmMap Mmap.

(** What the slab cache promises: the structs in use. *)
Class regcache_laws (R : Type) `{regcache R} := {
  rc_inv : R -> gset Z -> Prop;
  rc_alloc_ok : forall c L, rc_inv c L ->
    (exists msg, rc_alloc c = Panic msg) \/
    exists a c', rc_alloc c = Done a c' /\ (a = 0 /\ rc_inv c' L \/ 0 < a /\ a ∉ L /\ rc_inv c' ({[a]} ∪ L));
  rc_free_ok : forall c L a, rc_inv c L -> a ∈ L ->
    (exists msg, rc_free a c = Panic msg) \/ exists c', rc_free a c = Done tt c' /\ rc_inv c' (L ∖ {[a]});
}.

Abbreviation rmap := (gmap Z region).
Abbreviation rs := (list (Z * region)).
Implicit Types l : list (Z * region).
Implicit Types h : gmap Z region.
Implicit Types r : region.

Fixpoint rseg h (p : Z) l (q : Z) : Prop :=
  match l with
  | [] => p = q
  | (a, r) :: l => p = a /\ a <> 0 /\ r_next r = 0 /\ exists n, h !! a = Some (set_r_next n r) /\ rseg h n l q
  end.

Definition r_end r : Z := r_addr r + r_length r.
Definition apart (x y : Z * region) : Prop := r_end x.2 <= r_addr y.2.
Definition region_ok r : Prop :=
  (PGSIZE | r_addr r) /\ (PGSIZE | r_length r) /\ 0 <= r_addr r /\ 0 < r_length r /\ r_end r <= USERTOP.

Lemma rseg_app h l1 l2 : forall p q, rseg h p (l1 ++ l2) q <-> exists m, rseg h p l1 m /\ rseg h m l2 q.
Proof.
  induction l1 as [|[a r] l1 IH]; intros p q; cbn [rseg app].
  - split; [eauto|]. by intros (m & -> & H).
  - setoid_rewrite IH. split; [intros (-> & Ha & Hr & n & Hh & m & H1 & H2); eauto 10|intros (m & (-> & Ha & Hr & n & Hh & H1) & H2); eauto 10].
Qed.

Lemma rseg_frame h h' l : forall p q, (forall a, a ∈ l.*1 -> h' !! a = h !! a) -> rseg h p l q -> rseg h' p l q.
Proof.
  induction l as [|[a r] l IH]; intros p q Hh; cbn [rseg]; [done|]. intros (-> & Ha & Hr & n & Hn & Hl). split; [done|]. split; [done|]. split; [done|].
  exists n. split; [rewrite Hh; [done|left]|]. apply IH; [|done]. intros b Hb. apply Hh. by right.
Qed.

(** An update of a struct that is not in the list. *)
Lemma rseg_insert h l p q a x : a ∉ l.*1 -> rseg h p l q -> rseg (<[a := x]> h) p l q.
Proof. intros Ha. apply rseg_frame. intros b Hb. rewrite lookup_insert_ne; [done|]. by intros ->. Qed.

Lemma rseg_head h p l q : rseg h p l q -> l <> [] -> p <> 0 /\ exists a r l', l = (a, r) :: l' /\ p = a.
Proof. destruct l as [|[a r] l]; [done|]. intros (-> & Ha & _) _. split; [done|]. by exists a, r, l. Qed.

(** The last link of a list led elsewhere. *)
Lemma rseg_relink h (A : list (Z * region)) a r p q q' n : rseg h p (A ++ [(a, r)]) q -> NoDup (A ++ [(a, r)]).*1 -> h !! a = Some (set_r_next n r) ->
  rseg (<[a := set_r_next q' r]> h) p (A ++ [(a, r)]) q'.
Proof.
  intros H Hnd Hn. rewrite fmap_app in Hnd. apply NoDup_app in Hnd as (_ & Hd & _). apply rseg_app in H as (m & H1 & (-> & Ha & Hr & n' & Hn' & <-)).
  apply rseg_app. exists a. split; [|split; [done|split; [done|split; [done|exists q'; split; [by rewrite lookup_insert_eq|done]]]]].
  apply rseg_insert; [|done]. intros Hin. apply (Hd a Hin). left.
Qed.

(** The region that holds an address. *)
Fixpoint region_at l (x : Z) : option (Z * region) :=
  match l with [] => None | e :: l => if (r_addr e.2 <=? x) && (x <? r_end e.2) then Some e else region_at l x end.

Lemma region_at_spec l x : match region_at l x with
  | Some e => e ∈ l /\ r_addr e.2 <= x < r_end e.2
  | None => forall e, e ∈ l -> ~ r_addr e.2 <= x < r_end e.2
  end.
Proof.
  induction l as [|e l IH]; cbn [region_at]; [intros e He; by apply elem_of_nil in He|]. destruct (_ && _) eqn:E; bool_hyps; [split; [left|lia]|].
  destruct (region_at l x) as [f|]; [destruct IH; split; [by right|done]|]. intros f Hf. apply elem_of_cons in Hf as [->|Hf]; [|by apply IH]. destruct E; bool_hyps; lia.
Qed.

(** The address [select_addr] finds. *)
Fixpoint pick l (a len : Z) : Z :=
  match l with
  | [] => a
  | (_, r) :: l =>
      if a + len <=? r_addr r then a
      else if (r_end r <=? a) && match l with [] => true | (_, r') :: _ => a + len <=? r_addr r' end then a
      else pick l (if a <=? r_end r then r_end r else a) len
  end.

Lemma pick_ge l len : forall a, a <= pick l a len.
Proof.
  induction l as [|[p r] l IH]; intros a; cbn [pick]; [lia|]. destruct (a + len <=? r_addr r); [lia|]. destruct (_ && _); [lia|].
  etransitivity; [|apply IH]. destruct (a <=? r_end r) eqn:E; bool_hyps; lia.
Qed.

Lemma pick_aligned l len : Forall (fun e => region_ok e.2) l -> forall a, (PGSIZE | a) -> (PGSIZE | pick l a len).
Proof.
  induction 1 as [|[p r] l Hr Hl IH]; intros a Ha; cbn [pick]; [done|]. destruct (a + len <=? r_addr r); [done|]. destruct (_ && _); [done|].
  apply IH. destruct (a <=? r_end r); [|done]. destruct Hr as (H1 & H2 & _). cbn in *. by apply Z.divide_add_r.
Qed.

(** The range it stands for meets no region. *)
Lemma pick_free l len : StronglySorted apart l -> Forall (fun e => region_ok e.2) l -> 0 < len -> forall a e, e ∈ l -> r_end e.2 <= pick l a len \/ pick l a len + len <= r_addr e.2.
Proof.
  intros Hs Hok Hlen. induction Hs as [|[p r] l Hs IH Hf]; intros a e He; [by apply elem_of_nil in He|]. apply Forall_cons in Hok as [Hr Hok]. cbn [pick snd] in *.
  rewrite Forall_forall in Hf. assert (Hafter : forall e, e ∈ l -> r_end r <= r_addr e.2) by (intros f Hf'; exact (Hf f Hf')). clear Hf.
  assert (Hpos : 0 < r_length r) by apply Hr. destruct (a + len <=? r_addr r) eqn:E1; bool_hyps.
  { right. apply elem_of_cons in He as [->|He]; cbn [snd]; [done|]. specialize (Hafter _ He). unfold r_end in *. lia. }
  destruct ((r_end r <=? a) && _) eqn:E2; bool_hyps.
  { apply elem_of_cons in He as [->|He]; [left; done|]. right. destruct l as [|[p' r'] l']; [by apply elem_of_nil in He|]. bool_hyps.
    apply elem_of_cons in He as [->|He]; [done|]. inversion Hs as [|? ? Hs' Hf']; subst. rewrite Forall_forall in Hf'. specialize (Hf' e He). unfold apart in Hf'. cbn [snd] in Hf'.
    apply Forall_cons in Hok as [(_ & _ & _ & Hp' & _) _]. cbn [snd] in Hp'. unfold r_end in *. lia. }
  apply elem_of_cons in He as [->|He]; [left|by apply IH]. cbn [snd]. etransitivity; [|apply pick_ge]. destruct (a <=? r_end r) eqn:E3; bool_hyps; lia.
Qed.

Lemma pick_le l len : Forall (fun e => region_ok e.2) l -> forall a, pick l a len <= Z.max a USERTOP.
Proof.
  induction 1 as [|[p r] l Hr Hl IH]; intros a; cbn [pick]; [lia|]. destruct (a + len <=? r_addr r); [lia|]. destruct (_ && _); [lia|].
  etransitivity; [apply IH|]. destruct Hr as (_ & _ & _ & _ & Hr). cbn [snd] in Hr. destruct (a <=? r_end r); lia.
Qed.

(** [e] where its address puts it. *)
Fixpoint place (e : Z * region) l : list (Z * region) :=
  match l with [] => [e] | f :: l => if r_addr e.2 <? r_addr f.2 then e :: f :: l else f :: place e l end.

Lemma place_mem e l x : x ∈ place e l <-> x = e \/ x ∈ l.
Proof.
  induction l as [|f l IH]; cbn [place]; [rewrite !elem_of_cons; tauto|].
  destruct (r_addr e.2 <? r_addr f.2); rewrite !elem_of_cons; [tauto|]. rewrite IH. tauto.
Qed.
Lemma place_sorted e l : (forall f, f ∈ l -> r_end f.2 <= r_addr e.2 \/ r_end e.2 <= r_addr f.2) -> 0 < r_length e.2 ->
  Forall (fun e => region_ok e.2) l -> StronglySorted apart l -> StronglySorted apart (place e l).
Proof.
  intros He Hlen Hok Hs. induction Hs as [|f l Hs IH Hf]; cbn [place]; [by repeat constructor|].
  apply Forall_cons in Hok as [(_ & _ & _ & Hfl & _) Hok]. rewrite Forall_forall in Hf.
  assert (Hl : forall g, g ∈ l -> r_end f.2 <= r_addr g.2) by (intros g Hg; exact (Hf g Hg)).
  pose proof (He f ltac:(left)) as Hef. unfold r_end in *. destruct (r_addr e.2 <? r_addr f.2) eqn:E; bool_hyps.
  - constructor; [constructor; [done|by apply Forall_forall]|]. apply Forall_forall. intros g Hg. unfold apart, r_end.
    apply elem_of_cons in Hg as [->|Hg]; [lia|]. specialize (Hl g Hg). lia.
  - constructor; [apply IH; [|done]; intros g Hg; apply He; by right|]. apply Forall_forall. intros g Hg. unfold apart, r_end.
    apply place_mem in Hg as [->|Hg]; [lia|]. by apply Hl.
Qed.
Lemma place_nodup e l : e.1 ∉ l.*1 -> NoDup l.*1 -> NoDup (place e l).*1.
Proof.
  induction l as [|f l IH]; intros He Hn; cbn [place].
  - apply NoDup_cons. split; [done|constructor].
  - destruct (r_addr e.2 <? r_addr f.2); [by apply NoDup_cons|]. rewrite fmap_cons in *. apply NoDup_cons in Hn as [Hf Hn]. apply not_elem_of_cons in He as [Hef He].
    apply NoDup_cons. split; [|by apply IH]. intros Hin. apply list_elem_of_fmap in Hin as (x & Ex & Hx). apply place_mem in Hx as [->|Hx]; [done|].
    apply Hf. rewrite Ex. by apply list_elem_of_fmap_2.
Qed.

Section List.
Context {D : Type} `{!sdcard D} {U : Type} `{!usermem U} {P : Type} `{!pipeops U P} {V : Type} `{!devsw U V}.
Context {G : Type} `{!kpages G} {R : Type} `{rc : !regcache R}.
Local Abbreviation mmst := (mmst D U P V G R).
Implicit Types s : mmst.

Lemma bind_reg {A} a r (f : region -> M mmst A) s : rheap s !! a = Some r -> (reg a ≫= f) s = f r s.
Proof. intros Ha. unfold reg, mbind, M_bind. by rewrite Ha. Qed.
Lemma upd_reg_at a r g s : rheap s !! a = Some r -> upd_reg a g s = Done tt (set_heap (<[a := g r]> (rheap s)) s).
Proof. intros Ha. unfold upd_reg. by rewrite (bind_reg a r). Qed.
Lemma bind_upd_reg {A} a r g (f : unit -> M mmst A) s : rheap s !! a = Some r -> (upd_reg a g ≫= f) s = f tt (set_heap (<[a := g r]> (rheap s)) s).
Proof. intros Ha. by rewrite (bind_Done _ _ _ _ _ (upd_reg_at a r g s Ha)). Qed.

Lemma top_small : USERTOP + PGSIZE < 2 ^ 63.
Proof. vm_compute. reflexivity. Qed.

Lemma region_end r n : region_ok r -> u64 (r_addr (set_r_next n r) + r_length (set_r_next n r)) = r_end r /\ 0 < r_end r < 2 ^ 63.
Proof. intros (_ & _ & H1 & H2 & H3). pose proof top_small. unfold r_end, PGSIZE in *. cbn [r_addr r_length set_r_next]. rewrite wrap_small by lia. lia. Qed.

Lemma find_region_ok s x l : forall p fuel, rseg (rheap s) p l 0 -> Forall (fun e => region_ok e.2) l -> (length l < fuel)%nat ->
  find_region fuel p x s = Done (match region_at l x with Some e => e.1 | None => 0 end) s.
Proof.
  induction l as [|[a r] l IH]; intros p [|fuel] Hs Hok Hf; cbn [length] in Hf; try lia; cbn [find_region region_at].
  - by rewrite Hs, Z.eqb_refl.
  - destruct Hs as (-> & Ha & Hr & n & Hn & Hs). apply Forall_cons in Hok as [Hok1 Hok]. rewrite (proj2 (Z.eqb_neq a 0)) by done. rewrite (bind_reg a _ _ _ Hn).
    rewrite (proj1 (region_end r n Hok1)). cbn [snd]. change (r_addr (set_r_next n r)) with (r_addr r). destruct (_ && _); [done|]. apply IH; [done|done|lia].
Qed.

(** [select_addr] *)
Lemma select_addr_ok s length l : forall p fuel a, rseg (rheap s) p l 0 -> Forall (fun e => region_ok e.2) l -> (List.length l < fuel)%nat ->
  0 <= a <= USERTOP -> 0 <= PGROUNDUP length <= 2 ^ 63 -> select_addr fuel p a length s = Done (pick l a (PGROUNDUP length)) s.
Proof.
  set (len := PGROUNDUP length). pose proof top_small as Htop. induction l as [|[b r] l IH]; intros p [|fuel] a Hs Hok Hf Ha Hlen; cbn [List.length] in Hf; try lia; cbn [select_addr pick]; fold len.
  - by rewrite Hs, Z.eqb_refl.
  - destruct Hs as (-> & Hb & Hr & n & Hn & Hs). apply Forall_cons in Hok as [Hok1 Hok]. rewrite (proj2 (Z.eqb_neq b 0)) by done. rewrite (bind_reg b _ _ _ Hn).
    destruct (region_end r n Hok1) as [-> He]. rewrite (wrap_small 64 (a + len)) by (unfold PGSIZE in *; lia).
    change (r_addr (set_r_next n r)) with (r_addr r). change (r_next (set_r_next n r)) with n. destruct (a + len <=? r_addr r); [done|].
    assert (Hrest : select_addr fuel n (if a <=? r_end r then r_end r else a) length s = Done (pick l (if a <=? r_end r then r_end r else a) len) s).
    { apply IH; [done|done|lia| |done]. destruct Hok1 as (_ & _ & _ & _ & Hu). cbn [snd] in Hu. destruct (a <=? r_end r); lia. }
    destruct (r_end r <=? a); cbn [andb]; [|rewrite bind_ret; exact Hrest].
    destruct l as [|[c r'] l']; cbn [rseg] in Hs.
    + subst n. rewrite Z.eqb_refl, bind_ret. done.
    + destruct Hs as (-> & Hc & _ & n' & Hn' & _). rewrite (proj2 (Z.eqb_neq c 0)) by done. rewrite bind_assoc, (bind_reg c _ _ _ Hn'), bind_ret.
      change (r_addr (set_r_next n' r')) with (r_addr r'). destruct (a + len <=? r_addr r'); [done|]. exact Hrest.
Qed.

(** Linking a new struct into the list. *)
Lemma link_region_tail s x r0 prev : rheap s !! x = Some r0 -> r_next r0 = 0 -> x <> 0 -> forall l a ra node fuel,
  rseg (rheap s) node ((a, ra) :: l) 0 -> NoDup ((a, ra) :: l).*1 -> x ∉ ((a, ra) :: l).*1 -> r_addr ra < r_addr r0 ->
  (forall f, f ∈ l -> r_addr f.2 <> r_addr r0) -> (length l < fuel)%nat ->
  exists h, link_region fuel x (r_addr r0) node prev s = Done prev (set_heap h s) /\ rseg h node (place (x, r0) ((a, ra) :: l)) 0 /\
    forall b, b <> x -> b ∉ ((a, ra) :: l).*1 -> h !! b = rheap s !! b.
Proof.
  intros Hx Hx0 Hxn. assert (E0 : set_r_next 0 r0 = r0) by (destruct r0; cbn in *; by rewrite Hx0). induction l as [|[c rc'] l IH]; intros a ra node [|fuel] Hs Hnd Hxl Hlt Hne Hf; cbn [length] in Hf; try lia; cbn [link_region].
  all: pose proof Hs as (-> & Ha & Hr & n & Hn & Hs'); cbn [fmap list_fmap Datatypes.fst] in Hxl, Hnd; apply not_elem_of_cons in Hxl as [Hxa Hxl];
    rewrite (proj2 (Z.eqb_neq a 0)), (bind_reg a _ _ _ Hn) by done; change (r_addr (set_r_next n ra)) with (r_addr ra); change (r_next (set_r_next n ra)) with n;
    rewrite (proj2 (Z.ltb_ge _ _)), (proj2 (Z.ltb_lt (r_addr ra) _)) by lia.
  - cbn [rseg] in Hs'. subst n. cbn [negb andb Z.eqb]. rewrite bind_ret, (bind_upd_reg a _ _ _ _ Hn). eexists. split; [reflexivity|].
    cbn [place snd]. rewrite (proj2 (Z.ltb_ge _ _)) by lia. split.
    + cbn [rseg]. split; [done|]. split; [done|]. split; [done|]. exists x. rewrite lookup_insert_eq. split; [done|]. split; [done|]. split; [done|]. split; [done|].
      exists 0. by rewrite lookup_insert_ne, E0.
    + intros b Hb1 Hb2. rewrite lookup_insert_ne; [done|]. set_solver.
  - pose proof Hs' as (-> & Hc & Hrc & n' & Hn' & Hs''). rewrite (proj2 (Z.eqb_neq c 0)) by done. cbn [negb andb]. rewrite bind_assoc, (bind_reg c _ _ _ Hn'), bind_ret.
    change (r_addr (set_r_next n' rc')) with (r_addr rc'). pose proof (Hne (c, rc') ltac:(left)) as Hcne. cbn [snd] in Hcne.
    apply NoDup_cons in Hnd as [Hac Hnd]. destruct (r_addr r0 <? r_addr rc') eqn:E1; bool_hyps.
    + rewrite (bind_upd_reg x _ _ _ _ Hx). rewrite (bind_upd_reg a (set_r_next c ra)) by (cbn; by rewrite lookup_insert_ne). eexists. split; [reflexivity|].
      cbn [place snd]. rewrite (proj2 (Z.ltb_ge _ _)), (proj2 (Z.ltb_lt _ _)) by lia. split.
      * cbn [rseg]. split; [done|]. split; [done|]. split; [done|]. exists x. rewrite lookup_insert_eq. split; [done|]. split; [done|]. split; [done|]. split; [done|].
        exists c. rewrite lookup_insert_ne by done. cbn [rheap set_heap]. rewrite lookup_insert_eq. split; [done|].
        eapply (rseg_frame (rheap s) _ ((c, rc') :: l)); [|exact Hs']. intros b Hb. rewrite !lookup_insert_ne; [done|by intros ->|by intros ->].
      * intros b Hb1 Hb2. rewrite lookup_insert_ne by set_solver. cbn. rewrite lookup_insert_ne; [done|congruence].
    + destruct (IH c rc' c fuel Hs' Hnd Hxl ltac:(lia)) as (h & E & Hseg & Hh); [intros f Hf'; apply Hne; by right|lia|].
      exists h. split; [exact E|]. assert (Epl : place (x, r0) ((a, ra) :: (c, rc') :: l) = (a, ra) :: place (x, r0) ((c, rc') :: l)).
      { cbn [place snd]. by rewrite (proj2 (Z.ltb_ge (r_addr r0) (r_addr ra))) by lia. }
      rewrite Epl. split.
      * cbn [rseg]. split; [done|]. split; [done|]. split; [done|]. exists c. split; [|exact Hseg]. rewrite Hh; [done|congruence|done].
      * intros b Hb1 Hb2. apply Hh; [done|]. set_solver.
Qed.

Lemma link_region_ok s x r0 l rounds : rseg (rheap s) (regions s) l 0 -> l <> [] -> NoDup l.*1 -> x ∉ l.*1 -> rheap s !! x = Some r0 -> r_next r0 = 0 -> x <> 0 ->
  (forall f, f ∈ l -> r_addr f.2 <> r_addr r0) -> (length l < rounds)%nat ->
  exists p h, link_region rounds x (r_addr r0) (regions s) (regions s) s = Done p (set_heap h s) /\ rseg h p (place (x, r0) l) 0 /\
    forall b, b <> x -> b ∉ l.*1 -> h !! b = rheap s !! b.
Proof.
  intros Hs Hl Hnd Hxl Hx Hx0 Hxn Hne Hf. destruct l as [|[a ra] l]; [done|]. cbn [length] in Hf. destruct rounds as [|fuel]; [lia|].
  pose proof (Hne (a, ra) ltac:(left)) as Ha. cbn [snd] in Ha. destruct (Z.lt_ge_cases (r_addr r0) (r_addr ra)) as [Hlt|Hge].
  - pose proof Hs as (E & Ha0 & Hr & n & Hn & Hs'). cbn [link_region]. rewrite E, (proj2 (Z.eqb_neq a 0)), (bind_reg a _ _ _ Hn) by done.
    change (r_addr (set_r_next n ra)) with (r_addr ra). rewrite (proj2 (Z.ltb_lt _ _)), (bind_upd_reg x _ _ _ _ Hx) by done. eexists x, _. split; [reflexivity|].
    cbn [place snd]. rewrite (proj2 (Z.ltb_lt _ _)) by done. split.
    + cbn [rseg]. split; [done|]. split; [done|]. split; [done|]. exists a. rewrite lookup_insert_eq. split; [done|].
      rewrite E in Hs. by apply (rseg_insert (rheap s) ((a, ra) :: l)).
    + intros b Hb1 _. by rewrite lookup_insert_ne.
  - destruct (link_region_tail s x r0 (regions s) Hx Hx0 Hxn l a ra (regions s) (S fuel) Hs Hnd Hxl ltac:(lia)) as (h & E & Hseg & Hh); [intros f Hf'; apply Hne; by right|lia|].
    by exists (regions s), h.
Qed.

(** The regions of the process. *)
Context {rl : regcache_laws R}.
Record rlist s l : Prop := {
  rl_seg : rseg (rheap s) (regions s) l 0;
  rl_sorted : StronglySorted apart l;
  rl_ok : Forall (fun e => region_ok e.2) l;
  rl_nodup : NoDup l.*1;
  rl_live : exists L, rc_inv (mrc s) L /\ forall a, a ∈ l.*1 -> a ∈ L
}.

Definition set_mvm v s : mmst := Mmst (mfl s) v (rheap s) (mrc s) (regions s).
Definition set_mrc v s : mmst := Mmst (mfl s) (mvm s) (rheap s) v (regions s).
Lemma on_mem_Done {A} (m : M (vst G) A) s a v : m (mvm s) = Done a v -> on_mem m s = Done a (set_mvm v s).
Proof. intros E. unfold on_mem, zoom. by rewrite E. Qed.
Lemma on_mem_Panic {A B} (m : M (vst G) A) s msg (f : A -> M mmst B) : m (mvm s) = Panic msg -> (on_mem m ≫= f) s = Panic msg.
Proof. intros E. unfold on_mem, zoom, mbind, M_bind. by rewrite E. Qed.
Lemma on_cache_Done {A} (m : M R A) s a c : m (mrc s) = Done a c -> on_cache m s = Done a (set_mrc c s).
Proof. intros E. unfold on_cache, zoom. by rewrite E. Qed.
Lemma on_cache_Panic {A B} (m : M R A) s msg (f : A -> M mmst B) : m (mrc s) = Panic msg -> (on_cache m ≫= f) s = Panic msg.
Proof. intros E. unfold on_cache, zoom, mbind, M_bind. by rewrite E. Qed.

Lemma place_split x l r : exists A B, l = A ++ B /\ forall r', r_addr r' = r_addr r -> place (x, r') l = A ++ (x, r') :: B.
Proof.
  induction l as [|f l (A & B & -> & IH)]; [by exists [], []|]. destruct (r_addr r <? r_addr f.2) eqn:E.
  - exists [], (f :: A ++ B). split; [done|]. intros r' Hr. cbn [place snd]. by rewrite Hr, E.
  - exists (f :: A), B. split; [done|]. intros r' Hr. cbn [place snd app]. by rewrite Hr, E, IH.
Qed.

(** A struct of the list changes, its link apart. *)
Lemma rseg_change h (A B : list (Z * region)) x r r' p q : NoDup (A ++ (x, r) :: B).*1 -> r_next r' = 0 -> rseg h p (A ++ (x, r) :: B) q ->
  exists n, h !! x = Some (set_r_next n r) /\ rseg (<[x := set_r_next n r']> h) p (A ++ (x, r') :: B) q.
Proof.
  intros Hnd Hr' Hs. apply rseg_app in Hs as (m & H1 & (-> & Hx & Hr & n & Hn & H2)). exists n. split; [done|]. rewrite fmap_app in Hnd. apply NoDup_app in Hnd as (_ & Hd & Hnd).
  apply NoDup_cons in Hnd as [HB _]. apply rseg_app. exists x. split.
  - apply rseg_insert; [|done]. intros Hin. apply (Hd x Hin). left.
  - split; [done|]. split; [done|]. split; [done|]. exists n. rewrite lookup_insert_eq. split; [done|]. by apply rseg_insert.
Qed.

(** Unlinking [p] from behind [b]. *)
Lemma unlink_ok s p r (B : list (Z * region)) q : forall C b rb fuel, rseg (rheap s) b ((b, rb) :: C ++ (p, r) :: B) q -> NoDup ((b, rb) :: C ++ (p, r) :: B).*1 ->
  (forall f, f ∈ C -> r_addr f.2 <> r_addr r) -> (length C < fuel)%nat ->
  exists h, (x ← reg b; unlink_region fuel p b (r_next x)) s = Done tt (set_heap h s) /\ rseg h b ((b, rb) :: C ++ B) q /\ forall x, x ∉ ((b, rb) :: C).*1 -> h !! x = rheap s !! x.
Proof.
  induction C as [|[c rc'] C IH]; intros b rb [|fuel] Hs Hnd Hne Hf; cbn [length] in Hf; try lia.
  all: pose proof Hs as (_ & Hb & Hrb & n & Hn & Hs'); rewrite (bind_reg b _ _ _ Hn); change (r_next (set_r_next n rb)) with n; cbn [unlink_region app] in *.
  - pose proof Hs' as (-> & Hp & Hr & m & Hm & Hs''). rewrite (proj2 (Z.eqb_neq p 0)), !(bind_reg p _ _ _ Hm), Z.eqb_refl by done. cbn iota.
    rewrite (upd_reg_at b _ _ _ Hn). eexists. split; [reflexivity|]. apply NoDup_cons in Hnd as [Hnb _]. split.
    + split; [done|]. split; [done|]. split; [done|]. exists m. rewrite lookup_insert_eq. split; [done|]. apply rseg_insert; [|done]. set_solver.
    + intros x Hx. rewrite lookup_insert_ne; [done|]. set_solver.
  - pose proof Hs' as (-> & Hc & Hrc & m & Hm & Hs''). pose proof Hs'' as Hs3. apply rseg_app in Hs3 as (y & _ & (-> & Hp & _ & k & Hk & _)).
    rewrite (proj2 (Z.eqb_neq c 0)), (bind_reg p _ _ _ Hk), (bind_reg c _ _ _ Hm) by done.
    change (r_addr (set_r_next k r)) with (r_addr r). change (r_addr (set_r_next m rc')) with (r_addr rc'). change (r_next (set_r_next m rc')) with m.
    pose proof (Hne (c, rc') ltac:(left)) as Hcr. cbn [snd] in Hcr. rewrite (proj2 (Z.eqb_neq _ _)) by done. apply NoDup_cons in Hnd as [Hnb Hnd].
    destruct (IH c rc' fuel) as (h & E & Hseg & Hh); [exact Hs'|exact Hnd|intros f Hf'; apply Hne; by right|lia|]. rewrite (bind_reg c _ _ _ Hm) in E. change (r_next (set_r_next m rc')) with m in E.
    exists h. split; [exact E|]. split.
    + split; [done|]. split; [done|]. split; [done|]. exists c. rewrite Hh; [done|]. set_solver.
    + intros x Hx. apply Hh. set_solver.
Qed.

Lemma sorted_addrs (A B : list (Z * region)) p r : StronglySorted apart (A ++ (p, r) :: B) -> Forall (fun e => region_ok e.2) (A ++ (p, r) :: B) ->
  (forall f, f ∈ A -> r_end f.2 <= r_addr r /\ r_addr f.2 < r_addr r) /\ (forall f, f ∈ B -> r_end r <= r_addr f.2).
Proof.
  intros Hs Hok. apply StronglySorted_app in Hs as (HAB & _ & HB). apply StronglySorted_inv in HB as [_ HB]. rewrite Forall_forall in *. split.
  - intros f Hf. specialize (HAB f (p, r) Hf ltac:(left)). destruct (Hok f) as (_ & _ & _ & ? & _); [apply elem_of_app; by left|]. unfold apart, r_end in *. cbn in *. lia.
  - intros f Hf. exact (HB f Hf).
Qed.

Lemma region_at_here (A B : list (Z * region)) p r x : StronglySorted apart (A ++ (p, r) :: B) -> Forall (fun e => region_ok e.2) (A ++ (p, r) :: B) ->
  r_addr r <= x < r_end r -> region_at (A ++ (p, r) :: B) x = Some (p, r).
Proof.
  intros Hs Hok Hx. destruct (sorted_addrs A B p r Hs Hok) as [HA _]. clear Hs Hok. induction A as [|f A IH]; cbn [app region_at].
  - cbn [snd]. by rewrite (proj2 (Z.leb_le _ _)), (proj2 (Z.ltb_lt _ _)) by lia.
  - destruct (HA f ltac:(left)) as [H1 _]. rewrite (proj2 (Z.ltb_ge x (r_end f.2))), andb_false_r by lia. apply IH. intros g Hg. apply HA. by right.
Qed.

(** The list part of [delete_mmap_node]. *)
Lemma delete_list_ok s (A B : list (Z * region)) p r rounds : rlist s (A ++ (p, r) :: B) -> (length (A ++ (p, r) :: B) < rounds)%nat ->
  exists q h n, h !! p = Some (set_r_next n r) /\ rseg h q (A ++ B) 0 /\ forall k : M mmst unit,
    (head ← get_regions;
     if head =? 0 then mret tt
     else
       n ← reg p;
       h ← reg head;
       (if r_addr n =? r_addr h then modify (set_regions (r_next h)) else unlink_region rounds p head head);; k) s = k (set_regions q (set_heap h s)).
Proof.
  intros HL Hf. pose proof (rl_seg _ _ HL) as Hs. destruct (sorted_addrs A B p r (rl_sorted _ _ HL) (rl_ok _ _ HL)) as [HA _].
  pose proof Hs as Hs0. apply rseg_app in Hs0 as (m & HsA & (-> & Hp & Hr & n & Hn & HsB)). unfold get_regions.
  destruct A as [|[a ra] C]; cbn [app] in *.
  - exists n, (rheap s), n. split; [done|]. split; [done|]. intros k. rewrite bind_gets. cbn [rseg] in HsA. rewrite HsA, (proj2 (Z.eqb_neq p 0)), !(bind_reg p _ _ _ Hn), Z.eqb_refl by done.
    rewrite bind_modify. by destruct s.
  - pose proof HsA as (Ea & Ha & Hra & na & Hna & _). destruct (HA (a, ra) ltac:(left)) as [_ Hlt]. cbn [snd] in Hlt. destruct rounds as [|fuel]; [cbn in Hf; lia|].
    rewrite Ea in Hs. destruct (unlink_ok s p r B 0 C a ra fuel Hs (rl_nodup _ _ HL)) as (h & E & Hseg & Hh).
    { intros f Hf'. destruct (HA f ltac:(by right)) as [_ ?]. lia. } { cbn [length] in Hf. rewrite length_app in Hf. cbn [length] in Hf. lia. }
    exists a, h, n. split. { rewrite Hh; [done|]. pose proof (rl_nodup _ _ HL) as Hnd. change ((a, ra) :: C ++ (p, r) :: B) with (((a, ra) :: C) ++ (p, r) :: B) in Hnd. rewrite fmap_app in Hnd.
      apply NoDup_app in Hnd as (_ & Hd & _). intros Hin. apply (Hd p Hin). left. }
    split; [done|]. intros k. rewrite bind_gets, Ea, (proj2 (Z.eqb_neq a 0)), (bind_reg p _ _ _ Hn), (bind_reg a _ _ _ Hna) by done.
    change (r_addr (set_r_next n r)) with (r_addr r). change (r_addr (set_r_next na ra)) with (r_addr ra). rewrite (proj2 (Z.eqb_neq (r_addr r) _)) by lia.
    cbn [unlink_region]. rewrite (proj2 (Z.eqb_neq a 0)), bind_assoc by done. rewrite (bind_reg p _ _ _ Hn), bind_assoc, (bind_reg a _ _ _ Hna).
    change (r_addr (set_r_next n r)) with (r_addr r). change (r_addr (set_r_next na ra)) with (r_addr ra). rewrite (proj2 (Z.eqb_neq (r_addr r) _)) by lia.
    rewrite (bind_reg a _ _ _ Hna) in E. rewrite (bind_Done _ _ _ _ _ E). f_equal. destruct s; cbn in *. by rewrite Ea.
Qed.
End List.
