(* ===== verification/MmapRun.v ===== *)
(** * Where mmap puts a mapping, and the pages it loads *)
From stdpp Require Import sorting.
From S2P Require Import Prelude Spinlock Bytes UserMem Cred Bio Fs File Vm VmBits VmInv VmUser VmMap Mmap MmapInv.

(** Rounding up. *)
Lemma roundup_spec a : 0 <= a -> a + PGSIZE <= 2 ^ 64 ->
  (PGSIZE | PGROUNDUP a) /\ a <= PGROUNDUP a < a + PGSIZE /\ forall b, (PGSIZE | b) -> PGROUNDUP (b + a) = b + PGROUNDUP a \/ 2 ^ 64 < b + a + PGSIZE \/ b < 0.
Proof.
  intros Ha Hm. rewrite pgroundup_val by done. split; [apply Z.divide_factor_r|]. split.
  - destruct (page_split (a + PGSIZE - 1)). lia.
  - intros b [q ->]. destruct (Z.lt_ge_cases (q * PGSIZE) 0); [by right; right|]. destruct (Z.lt_ge_cases (2 ^ 64) (q * PGSIZE + a + PGSIZE)); [by right; left|]. left.
    rewrite pgroundup_val by lia. replace (q * PGSIZE + a + PGSIZE - 1) with (a + PGSIZE - 1 + q * PGSIZE) by lia. rewrite Z.div_add by (unfold PGSIZE; lia). lia.
Qed.
Lemma rounddown_spec a : 0 <= a < 2 ^ 64 -> (PGSIZE | PGROUNDDOWN a) /\ PGROUNDDOWN a <= a < PGROUNDDOWN a + PGSIZE /\ 0 <= PGROUNDDOWN a.
Proof.
  intros Ha. rewrite pgrounddown_val by done. split; [apply Z.divide_factor_r|]. destruct (page_split a). split; [lia|].
  apply Z.mul_nonneg_nonneg; [apply Z.div_pos; unfold PGSIZE; lia|unfold PGSIZE; lia].
Qed.

Lemma get_perm_ok prot flags : is_flags (get_perm prot flags) /\ Z.testbit (get_perm prot flags) 4 = true.
Proof.
  unfold get_perm. change (flag prot PROT_NONE) with (negb (Z.land prot 0 =? 0)). rewrite Z.land_0_r. cbn [Z.eqb negb].
  destruct (flag flags MAP_ANONYMOUS), (flag prot PROT_READ), (flag prot PROT_WRITE), (flag prot PROT_EXEC); by split.
Qed.

Lemma top_maxva : USERTOP < MAXVA /\ MMAPBASE <= USERTOP /\ MAXVA + PGSIZE < 2 ^ 62 /\ (PGSIZE | MMAPBASE).
Proof. split; [done|]. split; [done|]. split; [done|]. by exists 0x2000000. Qed.

Section Run.
Context {D : Type} `{!sdcard D} {U : Type} `{!usermem U} {P : Type} `{!pipeops U P} {V : Type} `{!devsw U V}.
Context {G : Type} `{kl : kpages_laws G} {R : Type} `{rc : !regcache R} {rcl : regcache_laws R}.
Context (junk : bytes) (fresh_region : region) (rounds : nat) (pagetable : Z).
Local Abbreviation mmst := (mmst D U P V G R).
Implicit Types s : mmst.

(** Anonymous pages: [k] from [addr + cur] on. *)
Lemma map_anon_loop_ok addr length perm : is_flags perm -> Z.testbit perm 4 = true -> (PGSIZE | addr) -> 0 <= addr ->
  forall k n s Rf T cur, uspace (mvm s) Rf T pagetable -> (PGSIZE | cur) -> 0 <= cur -> cur + Z.of_nat k * PGSIZE - PGSIZE < length <= cur + Z.of_nat k * PGSIZE ->
  addr + cur + Z.of_nat k * PGSIZE <= MAXVA -> (k < n)%nat ->
  (forall v, addr + cur <= v < addr + cur + Z.of_nat k * PGSIZE -> flag (lf T (pmem (mvm s)) v) PTE_V = false) ->
  (exists msg, map_anon_loop pagetable n addr cur length perm s = Panic msg) \/
  exists v' R' T', map_anon_loop pagetable n addr cur length perm s = Done (inr 0) (set_mvm v' s) /\ uspace v' R' T' pagetable /\
    forall v, 0 <= v -> uread v' T' v = if decide (addr + cur <= v < addr + cur + Z.of_nat k * PGSIZE) then Some 0 else uread (mvm s) T v.
Proof.
  intros Hperm Hb4 Hal Ha. induction k as [|k IH]; intros [|n] s Rf T cur HU Hcal Hcur Hlen Hmax Hn Hfree; try lia; cbn [map_anon_loop].
  - rewrite (proj2 (Z.ltb_ge _ _)) by lia. right. exists (mvm s), Rf, T. split; [by destruct s|]. split; [done|]. intros v Hv. by rewrite decide_False by lia.
  - rewrite (proj2 (Z.ltb_lt _ _)) by (unfold PGSIZE in *; lia). assert (Hva : 0 <= addr + cur < MAXVA) by (unfold PGSIZE in *; lia).
    assert (Hv : (PGSIZE | addr + cur)) by (by apply Z.divide_add_r). pose proof top_maxva as (_ & _ & HM & _).
    destruct (map_zero_page (mvm s) Rf T pagetable (addr + cur) perm HU Hperm Hb4 Hv Hva) as [[msg E]|(pg & s1 & E & Hpg & [[msg E2]|(s2 & R2 & T2 & E2 & HU2 & Hlf2 & Hr2 & _)])].
    { apply Hfree. unfold PGSIZE. lia. }
    { left. exists msg. by apply on_mem_Panic. }
    all: rewrite (bind_Done _ _ _ _ _ (on_mem_Done _ _ _ _ E)), (proj2 (Z.eqb_neq pg 0)) by done.
    all: rewrite (bind_Done _ _ _ _ _ (on_mem_Done (memset pg 0 PGSIZE) (set_mvm s1 s) tt (Vst (vpg s1) (mset pg 0 PGSIZE (pmem s1))) eq_refl)).
    all: rewrite (wrap_small 64 (addr + cur)) by lia.
    { left. exists msg. by apply on_mem_Panic. }
    rewrite (bind_Done _ _ _ _ _ (on_mem_Done _ (set_mvm (Vst (vpg s1) (mset pg 0 PGSIZE (pmem s1))) (set_mvm s1 s)) _ _ E2)). cbn [Z.ltb Z.compare]. rewrite (wrap_small 64 (cur + PGSIZE)) by (unfold PGSIZE in *; lia).
    destruct (IH n (set_mvm s2 s) R2 T2 (cur + PGSIZE) HU2) as [[msg E3]|(v' & R' & T' & E3 & HU' & Hr')].
    + apply Z.divide_add_r; [done|exists 1; lia].
    + unfold PGSIZE. lia.
    + lia.
    + lia.
    + lia.
    + intros v Hv1. cbn [mvm set_mvm]. rewrite Hlf2; [apply Hfree; unfold PGSIZE in *; lia|unfold PGSIZE in *; lia|rewrite page_div by done; lia].
    + left. by exists msg.
    + right. exists v', R', T'. split; [exact E3|]. split; [done|]. intros v Hv1. rewrite Hr', Hr2 by done. cbn [mvm set_mvm].
      destruct (decide (v / PGSIZE = (addr + cur) / PGSIZE)) as [Ed|Ed]; rewrite page_div in Ed by done; repeat case_decide; try done; unfold PGSIZE in *; lia.
Qed.

Lemma map_anon_ok s Rf T addr length prot flags f offset : uspace (mvm s) Rf T pagetable -> (PGSIZE | addr) -> 0 <= addr -> 0 < length ->
  let len := PGROUNDUP length in addr + len <= MAXVA -> length < 2 ^ 63 -> flag flags MAP_ANONYMOUS = true ->
  (forall v, addr <= v < addr + len -> flag (lf T (pmem (mvm s)) v) PTE_V = false) ->
  (exists msg, mmap_load_pages junk pagetable addr length prot flags f offset s = Panic msg) \/
  exists v' R' T', mmap_load_pages junk pagetable addr length prot flags f offset s = Done 0 (set_mvm v' s) /\ uspace v' R' T' pagetable /\
    forall v, 0 <= v -> uread v' T' v = if decide (addr <= v < addr + len) then Some 0 else uread (mvm s) T v.
Proof.
  intros HU Hal Ha Hlen len Hmax H63 Han Hfree. destruct (roundup_spec length ltac:(lia) ltac:(unfold PGSIZE; lia)) as ([q Hq] & Hb & _). fold len in Hq, Hb.
  destruct (get_perm_ok prot flags) as [Hf Hb4]. unfold mmap_load_pages, map_anon_pages. rewrite Han.
  assert (Eq : len = Z.of_nat (Z.to_nat q) * PGSIZE) by (unfold PGSIZE in *; lia).
  destruct (map_anon_loop_ok addr length (get_perm prot flags) Hf Hb4 Hal Ha (Z.to_nat q) (map_fuel length) s Rf T 0 HU) as [[msg E]|(v' & R' & T' & E & HU' & Hr)].
  - exists 0. lia.
  - lia.
  - lia.
  - lia.
  - unfold map_fuel. destruct (page_split length). unfold PGSIZE in *. lia.
  - intros v Hv. apply Hfree. lia.
  - left. exists msg. unfold mbind, M_bind. by rewrite E.
  - right. exists v', R', T'. rewrite (bind_Done _ _ _ _ _ E). split; [done|]. split; [done|]. intros v Hv. rewrite Hr by done. rewrite Z.add_0_r, <- Eq. done.
Qed.

(** Where the search begins, and the address or the error it ends with. *)
Definition start_addr (l : list (Z * region)) (addr : Z) : Z :=
  if addr =? 0 then match l with [] => MMAPBASE | e :: _ => r_addr e.2 end else PGROUNDDOWN addr.
Definition chosen (l : list (Z * region)) (addr length : Z) : Z + Z :=
  let len := PGROUNDUP length in
  let a := pick l (start_addr l addr) len in
  if negb (addr =? 0) && (USERTOP <? PGROUNDUP addr + len) then inr (- EINVAL)
  else if USERTOP <? a + len then inr (- ENOMEM) else inl a.

Lemma start_ok l addr : Forall (fun e => region_ok e.2) l -> 0 <= addr <= USERTOP -> (PGSIZE | start_addr l addr) /\ 0 <= start_addr l addr <= USERTOP.
Proof.
  intros Hok Ha. pose proof top_maxva as (? & ? & ? & ?). pose proof top_small. unfold start_addr. destruct (addr =? 0).
  - destruct Hok as [|[p r] l (Q1 & _ & Q3 & Q4 & Q5) _]; [split; [done|unfold MMAPBASE in *; lia]|]. cbn [snd] in *. unfold r_end in Q5. split; [done|lia].
  - destruct (rounddown_spec addr) as (Q1 & Q2 & Q3); [unfold PGSIZE in *; lia|]. split; [done|lia].
Qed.

Lemma mmap_addr_ok s l addr length prot flags : rlist s l -> (List.length l < rounds)%nat -> 0 <= addr <= USERTOP -> 0 < length < 2 ^ 63 -> flag flags MAP_FIXED = false ->
  mmap_addr rounds pagetable addr length prot flags s = Done (chosen l addr length) s.
Proof.
  intros HL Hf Ha Hlen Hfix. pose proof top_maxva as (Htm & Hmt & HM & Hmb). pose proof top_small as Htop. set (len := PGROUNDUP length).
  destruct (roundup_spec length ltac:(lia) ltac:(unfold PGSIZE; lia)) as (Hd & Hb & _). fold len in Hd, Hb.
  assert (Hb63 : len <= 2 ^ 63). { destruct Hd as [q Hq]. assert (2 ^ 63 = 2251799813685248 * PGSIZE) by reflexivity. unfold PGSIZE in *. lia. }
  destruct (start_ok l addr (rl_ok _ _ HL) Ha) as [Hsd Hsr].
  assert (Hpick : 0 <= pick l (start_addr l addr) len <= USERTOP).
  { split; [etransitivity; [apply Hsr|apply pick_ge]|]. etransitivity; [apply pick_le, (rl_ok _ _ HL)|]. lia. }
  assert (Hsel : select_addr rounds (regions s) (start_addr l addr) length s = Done (pick l (start_addr l addr) len) s).
  { apply select_addr_ok; [apply HL|apply HL|done|done|]. fold len. lia. }
  unfold mmap_addr, chosen, start_addr in *. fold len. unfold start_addr in *. destruct (addr =? 0) eqn:E0; cbn [negb andb]; bool_hyps.
  - rewrite !bind_assoc. unfold get_regions. rewrite bind_gets.
    assert (Ehead : (if negb (regions s =? 0) then r ← reg (regions s); mret (r_addr r) else mret MMAPBASE) s = Done (match l with [] => MMAPBASE | e :: _ => r_addr e.2 end) s).
    { destruct l as [|[a r] l]; cbn [rseg] in *.
      - by rewrite (rl_seg _ _ HL).
      - destruct (rl_seg _ _ HL) as (E & Hna & _ & n & Hn & _). rewrite E, (proj2 (Z.eqb_neq a 0)) by done. cbn [negb]. by rewrite (bind_reg a _ _ _ Hn). }
    rewrite !bind_assoc, (bind_Done _ _ _ _ _ Ehead), !bind_assoc, (bind_Done _ _ _ _ _ Hsel), bind_ret. rewrite wrap_small by (unfold PGSIZE in *; lia). by destruct (USERTOP <? _).
  - destruct (roundup_spec addr ltac:(lia) ltac:(unfold PGSIZE in *; lia)) as (Hda & Hba & _).
    assert (Eup : PGROUNDUP (u64 (PGROUNDUP addr + length)) = PGROUNDUP addr + len).
    { rewrite wrap_small by (unfold PGSIZE in *; lia). destruct (roundup_spec length ltac:(lia) ltac:(unfold PGSIZE; lia)) as (_ & _ & Hadd).
      destruct (Hadd (PGROUNDUP addr) Hda) as [E|[?|?]]; [exact E|unfold PGSIZE in *; lia|lia]. }
    rewrite Eup. destruct (USERTOP <? PGROUNDUP addr + len); [by rewrite bind_ret|]. rewrite Hfix. unfold get_regions. rewrite !bind_assoc, bind_gets, !bind_assoc, (bind_Done _ _ _ _ _ Hsel), bind_ret.
    rewrite wrap_small by (unfold PGSIZE in *; lia). by destruct (USERTOP <? _).
Qed.
End Run.
