(* ===== verification/MmapSlab.v ===== *)
(** * The slab cache as the source of region structs

    Any consistent cache of Slab.v meets the interface of Mmap.v: the structs
    in use are the objects of the cache in use.  Freeing an object of a full
    slab panics, see [slab_free_full_panics]. *)
From S2P Require Import Prelude Spinlock Slab SlabInv SlabProps Mmap MmapInv.

Section Cache.
Context {P : Type} `{psl : page_source_laws P} (ca : Z).

(** No list of slabs is longer than there are headers. *)
Definition slab_rounds (s : sst P) : nat := size (hdrs s).
Definition slab_regcache : regcache (sst P) := {| rc_alloc := slab_cache_alloc ca; rc_free a s := slab_cache_free (slab_rounds s) ca a s |}.

Definition slab_object (c : slab_cache) (a i : Z) : Z := slab_object_base c a + object_size c * i.
Definition slab_live (s : sst P) (L : gset Z) : Prop :=
  exists u c n F Pt fr, cinv s u ca c n F Pt fr /\ no_lock ca (scpu s) /\ forall x, x ∈ L <-> exists a i, in_use n F Pt fr a i /\ x = slab_object c a i.

Lemma full_bound s u c n F Pt fr : cinv s u ca c n F Pt fr -> (length F <= slab_rounds s)%nat.
Proof.
  intros HI. pose proof (ci_nodup _ _ _ _ _ _ _ _ HI) as Hn. apply NoDup_app in Hn as (Hn & _ & _). unfold slab_rounds. rewrite <- size_dom, <- (size_list_to_set (C := gset Z) F) by done.
  apply subseteq_size. intros a Ha. apply elem_of_list_to_set in Ha. apply elem_of_dom. destruct (ci_slab _ _ _ _ _ _ _ _ HI a) as (hd & Hh & _); [apply elem_of_app; by left|]. by exists hd.
Qed.

(** Different objects have different addresses. *)
Lemma object_inj s u c n F Pt fr a i b j : cinv s u ca c n F Pt fr -> in_use n F Pt fr a i -> in_use n F Pt fr b j -> slab_object c a i = slab_object c b j -> (a, i) = (b, j).
Proof.
  intros HI (Ha & Hi & _) (Hb & Hj & _) E. destruct (decide ((a, i) = (b, j))) as [|Hne]; [done|].
  pose proof (objects_disjoint _ _ _ _ _ _ _ _ a i b j HI Ha Hb Hi Hj Hne) as Hd. pose proof (cg_os _ _ (ci_geom _ _ _ _ _ _ _ _ HI)). cbv zeta in Hd. unfold slab_object in E. lia.
Qed.

Lemma slab_live_alloc s L : slab_live s L ->
  (exists msg, slab_cache_alloc ca s = Panic msg) \/
  exists a s', slab_cache_alloc ca s = Done a s' /\ (a = 0 /\ slab_live s' L \/ 0 < a /\ a ∉ L /\ slab_live s' ({[a]} ∪ L)).
Proof.
  intros (u & c & n & F & Pt & fr & HI & Hl & HL). destruct (slab_alloc_object s u ca c n F Pt fr HI Hl)
    as [[_ ?]|(a & i & s' & u' & c' & F' & Pt' & fr' & sz & E & Hl' & Hsg & HI' & Hnu & Huse & Hua & Hlo & Hhi & _ & _)]; [by left|right].
  pose proof (cg_n1 _ _ (ci_geom _ _ _ _ _ _ _ _ HI)) as Hn1. destruct (ps_bounds _ _ _ _ (ci_blocks _ _ _ _ _ _ _ _ HI') Hua) as (Ha0 & _).
  assert (Eo : forall b j, slab_object c' b j = slab_object c b j).
  { intros b j. unfold slab_object. rewrite (same_geom_base c c') by done. destruct Hsg as (_ & -> & _). done. }
  assert (Hin : in_use n F' Pt' fr' a i) by (apply Huse; by left).
  exists (slab_object c a i), s'. split; [exact E|]. right. split; [|split].
  - unfold slab_object, sizeof_slab_header in *. lia.
  - rewrite HL. intros (b & j & Hb & Ex). rewrite <- !Eo in Ex. assert (Hb' : in_use n F' Pt' fr' b j) by (apply Huse; by right).
    pose proof (object_inj _ _ _ _ _ _ _ _ _ _ _ HI' Hin Hb' Ex) as [= <- <-]. done.
  - exists u', c', n, F', Pt', fr'. split; [done|]. split; [done|]. intros x. rewrite elem_of_union, elem_of_singleton, HL. split.
    + intros [->|(b & j & Hb & ->)]; [exists a, i|exists b, j]; rewrite Eo; (split; [|done]); [done|]. apply Huse. by right.
    + intros (b & j & Hb & ->). rewrite Eo. apply Huse in Hb as [[-> ->]|Hb]; [by left|right; by exists b, j].
Qed.

Lemma slab_live_free s L x : slab_live s L -> x ∈ L ->
  (exists msg, slab_cache_free (slab_rounds s) ca x s = Panic msg) \/ exists s', slab_cache_free (slab_rounds s) ca x s = Done tt s' /\ slab_live s' (L ∖ {[x]}).
Proof.
  intros (u & c & n & F & Pt & fr & HI & Hl & HL) Hx. apply HL in Hx as (a & i & Hu & ->).
  destruct (slab_cache_free_ok _ _ _ _ _ _ _ _ a i (slab_rounds s) HI Hl Hu (full_bound _ _ _ _ _ _ _ HI)) as [HF HP].
  pose proof Hu as (Ha & Hi & Hni). apply elem_of_app in Ha as [Ha|Ha]; [left; eexists; by apply HF|right].
  destruct (HP Ha) as (s' & E & Hl' & HI'). exists s'. split; [exact E|]. exists u, c, n, F, Pt, (with_fr fr a (i :: fr a)). split; [done|]. split; [done|].
  assert (Huse : forall b j, in_use n F Pt (with_fr fr a (i :: fr a)) b j <-> in_use n F Pt fr b j /\ (b, j) <> (a, i)).
  { intros b j. unfold with_fr, in_use. destruct (decide (b = a)) as [->|Hne].
    - rewrite not_elem_of_cons. split; [intros (? & ? & ? & ?); split; [done|congruence]|]. intros ((? & ? & ?) & Hne). split; [done|]. split; [done|]. split; [|done]. intros ->. done.
    - split; [intros H2; split; [done|congruence]|by intros [? _]]. }
  intros x. rewrite elem_of_difference, elem_of_singleton, HL. split.
  - intros ((b & j & Hb & ->) & Hne). exists b, j. split; [|done]. apply Huse. split; [done|]. intros [= -> ->]. done.
  - intros (b & j & Hb & ->). apply Huse in Hb as [Hb Hne]. split; [by exists b, j|]. intros E'. apply Hne. by eapply (object_inj _ _ _ _ _ _ _ b j a i HI Hb Hu).
Qed.

Definition slab_regcache_laws : regcache_laws (H := slab_regcache) (sst P) :=
  Build_regcache_laws (sst P) slab_regcache slab_live slab_live_alloc (fun c L a => slab_live_free c L a).
End Cache.
