(* ===== verification/MmapProps.v ===== *)
(** * What the memory mapping calls do

    An anonymous mapping takes the first free range at or after its hint, is
    linked in order, and shows zeroed pages to the user and nothing else;
    unmapping takes pages and region away; fork copies the list. *)
From stdpp Require Import sorting.
From S2P Require Import Prelude Spinlock Bytes UserMem Cred Slab SlabProps Bio BioProps Fs FsProps File FileProps Vm VmBits VmInv VmUser VmProps VmMap Mmap MmapInv MmapRun MmapSlab.

Section Props.
Context {D : Type} `{!sdcard D} {U : Type} `{!usermem U} {P : Type} `{!pipeops U P} {V : Type} `{!devsw U V}.
Context {G : Type} `{kl : kpages_laws G} {R : Type} `{rc : !regcache R} {rcl : regcache_laws R}.
Context (junk : bytes) (fresh_region : region) (rounds : nat) (pagetable : Z).
Local Abbreviation mmst := (mmst D U P V G R).
Implicit Types s : mmst.

Lemma new_region_ok s l : rlist s l ->
  (exists msg, new_region fresh_region s = Panic msg) \/
  (exists c, new_region fresh_region s = Done 0 (set_mrc c s) /\ rlist (set_mrc c s) l) \/
  exists p x c L, new_region fresh_region s = Done p (set_heap (<[p := x]> (rheap s)) (set_mrc c s)) /\ p <> 0 /\ p ∉ l.*1 /\ rc_inv c ({[p]} ∪ L) /\ forall a, a ∈ l.*1 -> a ∈ L.
Proof.
  intros [H1 H2 H3 H4 (L & HL & Hl)]. unfold new_region. destruct (rc_alloc_ok _ _ HL) as [[msg E]|(p & c & E & [[-> HL']|(Hp & Hn & HL')])].
  - left. exists msg. by apply on_cache_Panic.
  - right; left. exists c. rewrite (bind_Done _ _ _ _ _ (on_cache_Done _ _ _ _ E)). split; [done|]. split; [done..|]. by exists L.
  - right; right. exists p, (default fresh_region (rheap s !! p)), c, L. rewrite (bind_Done _ _ _ _ _ (on_cache_Done _ _ _ _ E)), (proj2 (Z.eqb_neq p 0)) by lia.
    split; [reflexivity|]. split; [lia|]. split; [|done]. intros Hin. by apply Hn, Hl.
Qed.

(** The new region in the list, and its length rounded up. *)
Lemma mmap_link s l p x c L addr length offset prot flags : rlist s l -> (List.length l < rounds)%nat -> p <> 0 -> p ∉ l.*1 -> rc_inv c ({[p]} ∪ L) -> (forall a, a ∈ l.*1 -> a ∈ L) ->
  let r0 := Region addr length offset None prot flags 0 in
  let s1 := set_heap (<[p := r0]> x) (set_mrc c s) in
  (forall b, b <> p -> x !! b = rheap s !! b) -> (forall f, f ∈ l -> r_addr f.2 <> addr) ->
  exists q h A B, (if regions s1 =? 0 then modify (set_regions p) else prev ← link_region rounds p addr (regions s1) (regions s1); modify (set_regions prev)) s1 =
      Done tt (set_regions q (set_heap h s1)) /\ l = A ++ B /\ rseg h q (A ++ (p, r0) :: B) 0 /\ NoDup (A ++ (p, r0) :: B).*1 /\ forall r, r_addr r = addr -> place (p, r) l = A ++ (p, r) :: B.
Proof.
  intros HL Hf Hp Hpl HC Hl r0 s1 Hx Hne. destruct (place_split p l r0) as (A & B & El & Hpl'). pose proof (Hpl' r0 eq_refl) as E0.
  assert (Hs1 : rseg (rheap s1) (regions s) l 0).
  { eapply rseg_frame; [|apply (rl_seg _ _ HL)]. intros b Hb. cbn. rewrite lookup_insert_ne by (by intros ->). apply Hx. by intros ->. }
  assert (Hnd : NoDup (A ++ (p, r0) :: B).*1) by (rewrite <- E0; apply place_nodup; [done|apply HL]).
  change (regions s1) with (regions s). destruct (decide (l = [])) as [->|Hln].
  - cbn [rseg] in Hs1. rewrite Hs1, Z.eqb_refl. exists p, (rheap s1), A, B. split; [done|]. split; [done|]. split; [|done]. rewrite <- E0. cbn.
    split; [done|]. split; [done|]. split; [done|]. exists 0. by rewrite lookup_insert_eq.
  - destruct (rseg_head _ _ _ _ Hs1 Hln) as [Hh _]. rewrite (proj2 (Z.eqb_neq (regions s) 0)) by done.
    destruct (link_region_ok s1 p r0 l rounds Hs1 Hln (rl_nodup _ _ HL) Hpl) as (q & h & E & Hseg & _); [cbn; by rewrite lookup_insert_eq|done|done|exact Hne|done|].
    exists q, h, A, B. change (regions s1) with (regions s) in E. rewrite (bind_Done _ _ _ _ _ E). split; [reflexivity|]. split; [done|]. rewrite <- E0. split; [done|]. by rewrite E0.
Qed.

(** C9: an anonymous [mmap] at a hint or at none.  The arguments are refused
    as [chosen] says, without a trace; else the call ends with no struct, or
    it returns the address [a] that [chosen] gives: the list has the new
    region in its place, of the rounded length, and meets no other; every
    byte of the range reads zero, and every other address of the user reads
    as before.  It is assumed that the page table has no valid entry in the
    range, see the finding on [mappages]. *)
Theorem mmap_anon_correct s l Rf T addr length prot flags offset :
  rlist s l -> (List.length l < rounds)%nat -> uspace (mvm s) Rf T pagetable ->
  0 <= addr <= USERTOP -> 0 < length < 2 ^ 63 -> flag flags MAP_ANONYMOUS = true -> flag flags MAP_FIXED = false ->
  (forall a v, chosen l addr length = inl a -> a <= v < a + PGROUNDUP length -> flag (lf T (pmem (mvm s)) v) PTE_V = false) ->
  let run := mmap junk fresh_region rounds pagetable addr length prot flags None offset s in
  (exists msg, run = Panic msg) \/
  match chosen l addr length with
  | inr e => run = Done e s
  | inl a =>
      let len := PGROUNDUP length in
      (exists s', run = Done (- ENOMEM) s' /\ rlist s' l /\ mvm s' = mvm s) \/
      exists s' p R' T', run = Done a s' /\ rlist s' (place (p, Region a len offset None prot flags 0) l) /\ uspace (mvm s') R' T' pagetable /\
        (PGSIZE | a) /\ start_addr l addr <= a /\ a + len <= USERTOP /\ (forall e, e ∈ l -> r_end e.2 <= a \/ a + len <= r_addr e.2) /\ mfl s' = mfl s /\
        forall v, 0 <= v -> uread (mvm s') T' v = if decide (a <= v < a + len) then Some 0 else uread (mvm s) T v
  end.
Proof.
  intros HL Hf HU Ha Hlen Han Hfix Hfree run. unfold run, mmap. rewrite (bind_Done _ _ _ _ _ (mmap_addr_ok rounds pagetable s l addr length prot flags HL Hf Ha Hlen Hfix)).
  destruct (chosen l addr length) as [a|e] eqn:Ec; [|by right]. specialize (Hfree a). set (len := PGROUNDUP length) in *.
  destruct (roundup_spec length ltac:(lia) ltac:(unfold PGSIZE; lia)) as (Hd & Hb & _). fold len in Hd, Hb. destruct (start_ok l addr (rl_ok _ _ HL) Ha) as [Hsd Hsr].
  assert (Hch : a = pick l (start_addr l addr) len /\ a + len <= USERTOP).
  { unfold chosen in Ec. fold len in Ec. destruct (negb _ && _); [done|]. destruct (USERTOP <? _) eqn:E; [done|]. injection Ec as <-. bool_hyps. done. }
  destruct Hch as [Epk Htop]. assert (Hal : (PGSIZE | a)) by (rewrite Epk; apply pick_aligned; [apply HL|done]).
  assert (Hge : start_addr l addr <= a) by (rewrite Epk; apply pick_ge).
  assert (Hap : forall e, e ∈ l -> r_end e.2 <= a \/ a + len <= r_addr e.2) by (intros e He; rewrite Epk; apply pick_free; [apply HL|apply HL|lia|done]).
  assert (Hne : forall f, f ∈ l -> r_addr f.2 <> a).
  { intros f Hf'. specialize (Hap f Hf'). pose proof (rl_ok _ _ HL) as Hok. rewrite Forall_forall in Hok. destruct (Hok f Hf') as (_ & _ & _ & ? & _). unfold r_end in *. lia. }
  destruct (new_region_ok s l HL) as [[msg E]|[(c & E & HL')|(p & x & c & L & E & Hp & Hpl & HC & Hl)]].
  { left. exists msg. unfold mbind, M_bind. by rewrite E. }
  { right; left. rewrite (bind_Done _ _ _ _ _ E), Z.eqb_refl. eexists. split; [reflexivity|]. done. }
  rewrite (bind_Done _ _ _ _ _ E), (proj2 (Z.eqb_neq p 0)) by done. rewrite (bind_upd_reg p x) by (cbn; by rewrite lookup_insert_eq). cbv zeta. rewrite bind_assoc.
  rewrite (bind_upd_reg p (Region a length offset (r_f x) prot flags 0)) by (cbn; by rewrite lookup_insert_eq). rewrite bind_ret. unfold get_regions. rewrite bind_gets.
  set (h0 := <[p := Region a length offset (r_f x) prot flags 0]> (<[p := x]> (rheap s))).
  set (s1 := set_heap (<[p := Region a length offset None prot flags 0]> h0) (set_mrc c s)).
  destruct (mmap_link s l p h0 c L a length offset prot flags HL Hf Hp Hpl HC Hl) as (q & h & A & B & E1 & El & Hseg & Hnd & Hpla).
  { intros b Hb'. unfold h0. by rewrite !lookup_insert_ne. } { exact Hne. }
  cbv zeta in E1. fold s1 in E1. change (set_heap _ (set_heap _ (set_heap _ (set_mrc c s)))) with s1. rewrite (bind_Done _ _ _ _ _ E1).
  set (s2 := set_regions q (set_heap h s1)).
  destruct (map_anon_ok junk pagetable s2 Rf T a length prot flags None offset HU Hal ltac:(lia) ltac:(lia)) as [[msg E2]|(v' & R' & T' & E2 & HU' & Hr)]; fold len.
  { pose proof top_maxva. lia. } { lia. } { done. } { intros v Hv. by apply Hfree. }
  { left. exists msg. unfold mbind, M_bind. by rewrite E2. }
  right; right. rewrite (bind_Done _ _ _ _ _ E2). cbn [Z.ltb Z.compare].
  destruct (rseg_change h A B p _ (Region a len offset None prot flags 0) q 0 Hnd eq_refl Hseg) as (n & Hn & Hseg').
  rewrite (bind_upd_reg p _ _ _ (set_mvm v' s2) Hn). eexists _, p, R', T'. split; [reflexivity|].
  assert (Hok : region_ok (Region a len offset None prot flags 0)) by (unfold region_ok, r_end; cbn; split; [done|]; split; [done|]; lia).
  split; [|by eauto 10].
  split; cbn [rheap regions mrc set_heap set_mvm s2 set_regions].
  - by rewrite Hpla.
  - apply place_sorted; [intros f Hf'; specialize (Hap f Hf'); unfold r_end in *; cbn; lia|cbn; lia|apply HL|apply HL].
  - apply Forall_forall. intros e He. apply place_mem in He as [->|He]; [done|]. pose proof (rl_ok _ _ HL) as H1. rewrite Forall_forall in H1. by apply H1.
  - apply place_nodup; [done|apply HL].
  - exists ({[p]} ∪ L). split; [exact HC|]. intros b Hb'. apply list_elem_of_fmap in Hb' as (e & -> & He). apply place_mem in He as [->|He]; [set_solver|].
    apply elem_of_union; right. apply Hl. by apply list_elem_of_fmap_2.
Qed.

(** What munmap leaves of a region it does not take whole. *)
Definition remain (r : region) (addr len : Z) : region :=
  if r_addr r =? addr then Region (r_addr r + len) (r_length r - len) (u64 (r_offset r + len)) (r_f r) (r_prot r) (r_flags r) 0
  else set_r_length (r_length r - len) r.

(** A region leaves the list, its pages and its struct are given back. *)
Lemma delete_mmap_node_ok s (A B : list (Z * region)) p r Rf T : rlist s (A ++ (p, r) :: B) -> (List.length (A ++ (p, r) :: B) < rounds)%nat ->
  uspace (mvm s) Rf T pagetable -> user_range (mvm s) T (r_addr r) (r_length r) ->
  (exists msg, delete_mmap_node rounds pagetable p s = Panic msg) \/
  exists s' R', delete_mmap_node rounds pagetable p s = Done tt s' /\ rlist s' (A ++ B) /\ uspace (mvm s') R' T pagetable /\ mfl s' = mfl s /\
    forall v, 0 <= v -> uread (mvm s') T v = if decide (r_addr r <= v < r_end r) then None else uread (mvm s) T v.
Proof.
  intros HL Hf HU Hur. pose proof top_maxva as (Htm & _ & HM & _). assert (Hok : region_ok r).
  { pose proof (rl_ok _ _ HL) as H1. rewrite Forall_forall in H1. apply (H1 (p, r)), elem_of_app. right; left. }
  pose proof Hok as (Hd & [k Hk] & Hr0 & Hrl & Hrt). destruct (delete_list_ok s A B p r rounds HL Hf) as (q & h & n & Hn & Hseg & Hdel).
  unfold delete_mmap_node. rewrite Hdel. rewrite (bind_reg p (set_r_next n r)) by exact Hn. set (s1 := set_regions q (set_heap h s)).
  change (r_addr (set_r_next n r)) with (r_addr r). change (r_length (set_r_next n r)) with (r_length r).
  assert (En : u64 (r_length r + PGSIZE - 1) / PGSIZE = Z.of_nat (Z.to_nat k)).
  { unfold r_end in *. rewrite wrap_small by (unfold PGSIZE in *; lia). rewrite Hk. replace (k * PGSIZE + PGSIZE - 1) with (PGSIZE - 1 + k * PGSIZE) by lia.
    rewrite Z.div_add, Z.div_small by (unfold PGSIZE; lia). unfold PGSIZE in *. lia. }
  assert (Ek : Z.of_nat (Z.to_nat k) * PGSIZE = r_length r) by (unfold PGSIZE in *; lia). rewrite En. unfold r_end in *.
  destruct (unmap_user (mvm s1) Rf T pagetable (r_addr r) (Z.to_nat k) HU Hd Hr0 ltac:(lia)) as (v' & R' & E & HU' & Hr'); [by rewrite Ek|].
  rewrite (bind_Done _ _ _ _ _ (on_mem_Done _ _ _ _ E)). rewrite Ek in Hr'.
  destruct (rl_live _ _ HL) as (L & HC & Hl). assert (HpL : p ∈ L) by (apply Hl; rewrite fmap_app; apply elem_of_app; right; left).
  destruct (rc_free_ok _ _ _ HC HpL) as [[msg Ef]|(c' & Ef & HC')].
  { left. exists msg. unfold on_cache, zoom. cbn [mrc set_mvm s1 set_regions set_heap]. by rewrite Ef. }
  right. eexists _, R'. split; [apply (on_cache_Done _ (set_mvm v' s1) tt c' Ef)|]. split; [|by eauto].
  pose proof (rl_nodup _ _ HL) as Hnd. pose proof (rl_sorted _ _ HL) as Hsd. pose proof (rl_ok _ _ HL) as Hall. rewrite fmap_app in Hnd. apply NoDup_app in Hnd as (HnA & HdA & HnB).
  apply NoDup_cons in HnB as [HpB HnB]. apply StronglySorted_app in Hsd as (HAB & HsA & HsB). apply StronglySorted_inv in HsB as [HsB _]. apply Forall_app in Hall as [HoA HoB]. apply Forall_cons in HoB as [_ HoB].
  split; cbn [rheap regions mrc set_heap set_mvm set_mrc s1 set_regions].
  - exact Hseg.
  - apply StronglySorted_app. split; [|done]. intros x y Hx Hy. apply HAB; [done|by right].
  - by apply Forall_app.
  - rewrite fmap_app. apply NoDup_app. split; [done|]. split; [|done]. intros x Hx Hx'. apply (HdA x Hx). by right.
  - exists (L ∖ {[p]}). split; [done|]. intros a Ha. apply elem_of_difference. split.
    + apply Hl. rewrite fmap_app in *. apply elem_of_app in Ha as [Ha|Ha]; apply elem_of_app; [by left|by right; right].
    + intros ->%elem_of_singleton. rewrite fmap_app in Ha. apply elem_of_app in Ha as [Ha|Ha]; [apply (HdA p Ha); left|done].
Qed.

Lemma aligned_ok a : (PGSIZE | a) -> NOT_PAGEALIGN a = false.
Proof.
  intros [q ->]. unfold NOT_PAGEALIGN, flag. change (PGSIZE - 1) with (Z.ones 12). rewrite Z.land_ones by lia. change (2 ^ 12) with PGSIZE. rewrite Z.mod_mul by (unfold PGSIZE; lia). done.
Qed.

(** The list with one region cut. *)
Lemma rlist_cut s (A B : list (Z * region)) p r r' h : rlist s (A ++ (p, r) :: B) -> rseg h (regions s) (A ++ (p, r') :: B) 0 -> region_ok r' -> r_addr r <= r_addr r' -> r_end r' <= r_end r ->
  forall s', rheap s' = h -> regions s' = regions s -> mrc s' = mrc s -> rlist s' (A ++ (p, r') :: B).
Proof.
  intros HL Hseg Hok Hlo Hhi s' Eh Er Ec. destruct (sorted_addrs A B p r (rl_sorted _ _ HL) (rl_ok _ _ HL)) as [HA HB]. destruct HL as [_ Hs Ho Hn (L & HC & Hl)].
  apply StronglySorted_app in Hs as (HAB & HsA & HsB). apply StronglySorted_inv in HsB as [HsB _]. apply Forall_app in Ho as [HoA HoB]. apply Forall_cons in HoB as [_ HoB]. rewrite fmap_app in *. split.
  - by rewrite Eh, Er.
  - apply StronglySorted_app. split; [|split; [done|constructor; [done|]]].
    + intros x y Hx Hy. apply elem_of_cons in Hy as [->|Hy]; [|apply HAB; [done|by right]]. destruct (HA x Hx). unfold apart. cbn. lia.
    + apply Forall_forall. intros y Hy. specialize (HB y Hy). unfold apart. cbn. lia.
  - apply Forall_app. split; [done|]. by constructor.
  - by rewrite fmap_app.
  - rewrite Ec, fmap_app. by exists L.
Qed.

(** C10: [munmap] of anonymous memory, for an aligned address inside the region
    [r] and the length rounded up and cut to that of [r].  If this is the
    length of [r] the whole region goes, wherever the address lies in it;
    else the pages from the address on go, and [r] becomes [remain]: right
    for a range at its front or at its end.  No other region changes, and
    every other address reads as before. *)
Theorem munmap_correct s (A B : list (Z * region)) p r Rf T addr length :
  rlist s (A ++ (p, r) :: B) -> (List.length (A ++ (p, r) :: B) < rounds)%nat -> uspace (mvm s) Rf T pagetable ->
  (PGSIZE | addr) -> r_addr r <= addr < r_end r -> 0 < length < 2 ^ 63 -> r_f r = None -> flag (r_flags r) MAP_ANONYMOUS = true ->
  let len := Z.min (PGROUNDUP length) (r_length r) in
  let from := if len =? r_length r then r_addr r else addr in
  from + len <= MAXVA -> user_range (mvm s) T from len ->
  let run := munmap junk rounds pagetable addr length s in
  (len = r_length r /\ exists msg, run = Panic msg) \/
  exists s' R', run = Done 0 s' /\ rlist s' (if len =? r_length r then A ++ B else A ++ (p, remain r addr len) :: B) /\
    uspace (mvm s') R' T pagetable /\ mfl s' = mfl s /\
    forall v, 0 <= v -> uread (mvm s') T v = if decide (from <= v < from + len) then None else uread (mvm s) T v.
Proof.
  intros HL Hf HU Hal Hin Hlen Hrf Han len from Hmax Hur run. pose proof top_maxva as (Htm & _ & HM & _). assert (Hok : region_ok r).
  { pose proof (rl_ok _ _ HL) as H1. rewrite Forall_forall in H1. apply (H1 (p, r)), elem_of_app. right; left. }
  pose proof Hok as (Hd & Hdl & Hr0 & Hrl & Hrt). pose proof (rl_seg _ _ HL) as Hs. apply rseg_app in Hs as (m & _ & (-> & Hp & Hr & n & Hn & _)).
  destruct (roundup_spec length ltac:(lia) ltac:(unfold PGSIZE; lia)) as (Hdr & Hbr & _).
  unfold run, munmap. rewrite (aligned_ok _ Hal). unfold find_mmap_region, get_regions. rewrite bind_assoc, bind_gets.
  rewrite (bind_Done _ _ _ _ _ (find_region_ok s addr _ (regions s) rounds (rl_seg _ _ HL) (rl_ok _ _ HL) Hf)), (region_at_here A B p r addr (rl_sorted _ _ HL) (rl_ok _ _ HL) Hin).
  cbn [Datatypes.fst]. rewrite (proj2 (Z.eqb_neq p 0)), (bind_reg p _ _ _ Hn) by done.
  change (r_length (set_r_next n r)) with (r_length r). change (r_addr (set_r_next n r)) with (r_addr r). change (r_f (set_r_next n r)) with (r_f r).
  replace (if r_length r <? PGROUNDUP length then r_length r else PGROUNDUP length) with len by (unfold len; destruct (_ <? _) eqn:E; bool_hyps; lia).
  unfold must_write_back. change (r_flags (set_r_next n r)) with (r_flags r). rewrite Han. cbn [negb andb]. rewrite bind_ret. cbn [Z.ltb Z.compare].
  rewrite (Z.eqb_sym (r_length r) len). unfold from in *. destruct (len =? r_length r) eqn:El; bool_hyps.
  - rewrite El in Hur. rewrite Hrf. cbn [close_ptr]. rewrite bind_ret. destruct (delete_mmap_node_ok s A B p r Rf T HL Hf HU Hur) as [[msg E]|(s' & R' & E & HL' & HU' & Hm & Hr')].
    + left. split; [done|]. exists msg. unfold mbind, M_bind. by rewrite E.
    + right. exists s', R'. rewrite (bind_Done _ _ _ _ _ E). split; [done|]. split; [done|]. split; [done|]. split; [done|]. rewrite El. exact Hr'.
  - right. assert (Hlp : len = PGROUNDUP length) by lia. assert (Hlb : 0 < len < r_length r) by lia. rewrite <- Hlp in Hdr. destruct Hdr as [k Hk]. unfold r_end in *.
    assert (Ek : Z.of_nat (Z.to_nat k) * PGSIZE = len) by (unfold PGSIZE in *; lia).
    assert (En : len / PGSIZE = Z.of_nat (Z.to_nat k)) by (rewrite Hk, Z.div_mul by (unfold PGSIZE; lia); unfold PGSIZE in *; lia). rewrite En.
    destruct (unmap_user (mvm s) Rf T pagetable addr (Z.to_nat k) HU Hal ltac:(lia) ltac:(lia)) as (v' & R' & E & HU' & Hr'); [by rewrite Ek|].
    rewrite Ek in Hr'. rewrite (bind_Done _ _ _ _ _ (on_mem_Done _ _ _ _ E)).
    destruct (rseg_change (rheap s) A B p r (remain r addr len) (regions s) 0 (rl_nodup _ _ HL)) as (n' & Hn' & Hseg); [unfold remain; destruct (_ =? _); [done|exact Hr]|apply HL|].
    assert (n' = n) as -> by (rewrite Hn in Hn'; injection Hn'; congruence).
    assert (Hrok : region_ok (remain r addr len) /\ r_addr r <= r_addr (remain r addr len) /\ r_end (remain r addr len) <= r_addr r + r_length r).
    { assert (Hdk : (PGSIZE | len)) by (by exists k). unfold remain, region_ok, r_end. destruct (r_addr r =? addr); cbn; (split; [|lia]);
        (split; [first [done|by apply Z.divide_add_r]|]; split; [by apply Z.divide_sub_r|]; lia). }
    destruct Hrok as (Hrok & Hlo & Hhi). unfold remain in *. destruct (r_addr r =? addr) eqn:Ea; bool_hyps.
    + rewrite (bind_upd_reg p (set_r_next n r)) by exact Hn. rewrite (bind_upd_reg p (set_r_offset (u64 (r_offset r + len)) (set_r_addr (u64 (r_addr r + len)) (set_r_next n r)))) by (cbn; by rewrite lookup_insert_eq).
      eexists _, R'. split; [reflexivity|]. split; [|by split_and!]. eapply (rlist_cut s A B p r); [exact HL|exact Hseg|done|done|done| |done|done]. cbn [rheap set_heap set_mvm]. rewrite insert_insert_eq.
      f_equal. unfold set_r_offset, set_r_addr, set_r_length, set_r_next. cbn. rewrite !(wrap_small 64) by lia. done.
    + rewrite bind_ret, (bind_upd_reg p (set_r_next n r)) by exact Hn. eexists _, R'. split; [reflexivity|]. split; [|by split_and!].
      eapply (rlist_cut s A B p r); [exact HL|exact Hseg|done|done|done| |done|done]. cbn [rheap set_heap set_mvm]. f_equal. unfold set_r_length, set_r_next. cbn. rewrite !(wrap_small 64) by lia. done.
Qed.
End Props.

(** ** Witnesses

    The address space of VmProps.v, with its one page at address 0, the slab
    of SlabProps.v as the source of structs and the open files of
    FileProps.v. *)
#[local] Instance no_pipes : pipeops flat unit := {|
  po_alloc := mret (-1); po_close _ _ := mret tt; po_read _ _ _ := mret (-1); po_write _ _ _ := mret (-1) |}.
#[local] Instance no_devs : devsw flat unit := {| dev_read _ := None; dev_write _ := None; dev_ioctl _ := None |}.
#[local] Instance wit_cache : regcache (sst fixed_pages) := slab_regcache 100.
#[local] Instance wit_cache_laws : regcache_laws (sst fixed_pages) := slab_regcache_laws 100.

Definition wit_region : region := Region 0 4096 0 None 3 0x22 0.
Definition wit_fresh : region := Region 0 0 0 None 0 0 0.
Definition wit_mmst (h : gmap Z region) (p : Z) : mmst ram flat unit unit table (sst fixed_pages) :=
  Mmst img_fls (wit_space 2) h demo_partial p.

(** The object in use of the slab. *)
Definition wit_ptr : Z := 4096 + 36 + 2000.
Lemma wit_slab : slab_live 100 demo_partial {[wit_ptr]}.
Proof.
  exists {[4096 := 4096]}, (demo_cache 0 4096), 2, [], [4096], (fun _ => [0]). split; [exact demo_partial_inv|]. split; [exact demo_no_lock|].
  intros x. rewrite elem_of_singleton. split.
  - intros ->. exists 4096, 1. split; [|reflexivity]. split; [left|]. split; [lia|]. intros H. apply list_elem_of_singleton in H. lia.
  - intros (a & i & (Ha & Hi & Hn) & ->). apply list_elem_of_singleton in Ha as ->. assert (i = 1) as -> by (apply not_elem_of_cons in Hn as [? _]; lia). reflexivity.
Qed.

Lemma wit_empty : rlist (wit_mmst ∅ 0) [].
Proof. split; [done|constructor|constructor|constructor|]. exists {[wit_ptr]}. split; [exact wit_slab|]. intros a Ha. by apply elem_of_nil in Ha. Qed.
Lemma wit_list : rlist (wit_mmst {[wit_ptr := wit_region]} wit_ptr) [(wit_ptr, wit_region)].
Proof.
  split.
  - split; [done|]. split; [done|]. split; [done|]. exists 0. split; [reflexivity|done].
  - by repeat constructor.
  - constructor; [|constructor]. split; [by exists 0|]. split; [by exists 1|]. by cbn.
  - apply NoDup_singleton.
  - exists {[wit_ptr]}. split; [exact wit_slab|]. intros a Ha. apply list_elem_of_singleton in Ha as ->. set_solver.
Qed.
Lemma wit_user : uspace (wit_space 2) (wit_refs 2) wit_tree wit_root.
Proof. apply wit_uspace. change (2 ^ 32) with 4294967296. lia. Qed.

(** Two pages at MMAPBASE. *)
Definition wit_mmap : outcome (mmst ram flat unit unit table (sst fixed_pages)) Z := mmap fresh_data wit_fresh 5 wit_root 0 5000 3 0x22 None 0 (wit_mmst ∅ 0).
Lemma wit_mmap_done : match wit_mmap with Done a _ => a =? MMAPBASE | _ => false end = true.
Proof. vm_compute. reflexivity. Qed.
Lemma wit_free a v : chosen [] 0 5000 = inl a -> a <= v < a + PGROUNDUP 5000 -> flag (lf wit_tree wit_mem v) PTE_V = false.
Proof.
  change (chosen [] 0 5000) with (@inl Z Z MMAPBASE). intros [= <-] Hv. change (PGROUNDUP 5000) with 8192 in Hv. unfold MMAPBASE in Hv.
  rewrite wit_lf by (change MAXVA with 274877906944; lia). unfold PGSIZE. by rewrite (proj2 (Z.ltb_ge _ _)) by lia.
Qed.
Lemma wit_zero : 0 <= 0 <= USERTOP.
Proof. split; vm_compute; discriminate. Qed.

Lemma mmap_anon_correct_witness : exists s' R' T', wit_mmap = Done MMAPBASE s' /\ uspace (mvm s') R' T' wit_root /\ uread (mvm s') T' (MMAPBASE + 4100) = Some 0.
Proof.
  pose proof wit_mmap_done as Hd.
  destruct (mmap_anon_correct fresh_data wit_fresh 5 wit_root (wit_mmst ∅ 0) [] (wit_refs 2) wit_tree 0 5000 3 0x22 0 wit_empty ltac:(cbn; lia) wit_user wit_zero ltac:(lia) eq_refl eq_refl wit_free) as [[msg E]|Hr].
  - fold wit_mmap in E. exfalso. rewrite E in Hd. discriminate Hd.
  - change (chosen [] 0 5000) with (@inl Z Z MMAPBASE) in Hr. cbv zeta in Hr. fold wit_mmap in Hr. destruct Hr as [(s' & E & _)|(s' & p & R' & T' & E & _ & HU & _ & _ & _ & _ & _ & Hr)].
    + exfalso. rewrite E in Hd. discriminate Hd.
    + exists s', R', T'. split; [exact E|]. split; [exact HU|]. rewrite Hr by done. rewrite decide_True; [done|]. change (PGROUNDUP 5000) with 8192. lia.
Defined.

(** The page at 0 goes, and the region with it. *)
Definition wit_munmap : outcome (mmst ram flat unit unit table (sst fixed_pages)) Z := munmap fresh_data 5 wit_root 0 100 (wit_mmst {[wit_ptr := wit_region]} wit_ptr).
Lemma wit_munmap_done : match wit_munmap with Done _ _ => true | _ => false end = true.
Proof. vm_compute. reflexivity. Qed.
Lemma wit_range : user_range (wit_space 2) wit_tree 0 4096.
Proof.
  intros v Hv _. cbn [pmem wit_space]. assert (0 <= v < 4096) by lia. rewrite wit_lf by (change MAXVA with 274877906944; lia). unfold PGSIZE. by rewrite (proj2 (Z.ltb_lt _ _)) by lia.
Qed.

Lemma munmap_correct_witness : exists s', wit_munmap = Done 0 s' /\ rlist s' [] /\ uread (mvm s') wit_tree 5 = None.
Proof.
  pose proof wit_munmap_done as Hd.
  destruct (munmap_correct fresh_data 5 wit_root (wit_mmst {[wit_ptr := wit_region]} wit_ptr) [] [] wit_ptr wit_region (wit_refs 2) wit_tree 0 100 wit_list ltac:(cbn; lia) wit_user
    ltac:(by exists 0) ltac:(unfold r_end; cbn; lia) ltac:(lia) eq_refl eq_refl ltac:(vm_compute; discriminate) wit_range) as [[_ [msg E]]|(s' & R' & E & HL & _ & _ & Hr)].
  - fold wit_munmap in E. exfalso. rewrite E in Hd. discriminate Hd.
  - fold wit_munmap in E. exists s'. split; [exact E|]. split; [exact HL|]. rewrite Hr by lia. rewrite decide_True; [reflexivity|]. vm_compute. split; [discriminate|reflexivity].
Defined.
