(* ===== verification/Uart.v ===== *)
(** * The serial line (kernel/uart.c)

    The 16550 is the interface [uart_dev] of its registers; [spins] bounds the
    polls of the line status register.  Whoever waits is woken through
    [ttyenv], which also gives the process table and the kill flag that
    console.c reads.  [panicked] and [pr_locking] are the globals of printf.c. *)
From S2P Require Import Prelude Spinlock.

Definition UART_CLK : Z := 25000000.
Definition BAUD_RATE : Z := 115200.
Definition DLL : Z := 0.
Definition DLH : Z := 1.
Definition RHR : Z := 0.
Definition THR : Z := 0.
Definition IER : Z := 1.
Definition IER_RX_ENABLE : Z := 1.
Definition IER_TX_ENABLE : Z := 2.
Definition FCR : Z := 2.
Definition FCR_FIFO_ENABLE : Z := 1.
Definition FCR_FIFO_CLEAR : Z := 6.
Definition ISR : Z := 2.
Definition LCR : Z := 3.
Definition LCR_EIGHT_BITS : Z := 3.
Definition LCR_BAUD_LATCH : Z := 0x80.
Definition LSR : Z := 5.
Definition LSR_RX_READY : Z := 1.
Definition LSR_TX_IDLE : Z := 0x20.
Definition USR : Z := 0x1f.
Definition UART_TX_BUF_SIZE : Z := 32.

Class uart_dev (W : Type) := UartDev { ReadReg : Z -> M W Z; WriteReg : Z -> Z -> M W unit }.
(** What a sleeper waits for: room in the output, or a line of input. *)
Inductive tchan := ChTx | ChCons.
(** What [procdump] reads of a slot of the process table: the state as its
    number, the pid, and the name up to its NUL. *)
Record proc_row := ProcRow { row_state : Z; row_pid : Z; row_name : list Z }.
Class ttyenv (E : Type) := TtyEnv { tty_wakeup : tchan -> M E unit; tty_procs : E -> list proc_row; tty_killed : E -> bool }.

Definition uart_tx_lock : Z := 25.
Definition cons_lock : Z := 26.
Definition pr_lock : Z := 27.

Section Uart.
Context {W : Type} `{!uart_dev W} {E : Type} `{!ttyenv E} (spins : nat).

Record ust := Ust {
  ucpu : cpu;
  udev : W;
  uenv : E;
  uart_tx_buf : list Z;
  uart_tx_w : Z;
  uart_tx_r : Z;
  panicked : bool;
  pr_locking : bool
}.
Definition set_ucpu v (s : ust) := Ust v (udev s) (uenv s) (uart_tx_buf s) (uart_tx_w s) (uart_tx_r s) (panicked s) (pr_locking s).
Definition set_udev v (s : ust) := Ust (ucpu s) v (uenv s) (uart_tx_buf s) (uart_tx_w s) (uart_tx_r s) (panicked s) (pr_locking s).
Definition set_uenv v (s : ust) := Ust (ucpu s) (udev s) v (uart_tx_buf s) (uart_tx_w s) (uart_tx_r s) (panicked s) (pr_locking s).
Definition set_tx b w r (s : ust) := Ust (ucpu s) (udev s) (uenv s) b w r (panicked s) (pr_locking s).
Definition set_panicked v (s : ust) := Ust (ucpu s) (udev s) (uenv s) (uart_tx_buf s) (uart_tx_w s) (uart_tx_r s) v (pr_locking s).
Definition set_pr_locking v (s : ust) := Ust (ucpu s) (udev s) (uenv s) (uart_tx_buf s) (uart_tx_w s) (uart_tx_r s) (panicked s) v.
Definition uart_cpu {A} (m : M cpu A) : M ust A := zoom ucpu set_ucpu m.
Definition uart_reg {A} (m : M W A) : M ust A := zoom udev set_udev m.
Definition uart_env {A} (m : M E A) : M ust A := zoom uenv set_uenv m.

Definition uartinit : M ust unit :=
  uart_reg (
    WriteReg IER 0;;
    val ← ReadReg LCR;
    let val := Z.lor val (Z.lor LCR_BAUD_LATCH LCR_EIGHT_BITS) in
    WriteReg LCR val;;
    let div := (UART_CLK / 16 + BAUD_RATE / 2) / BAUD_RATE in
    WriteReg DLL (Z.land div 0xff);;
    WriteReg DLH (Z.land (Z.shiftr div 8) 0xff);;
    WriteReg LCR (Z.land val (Z.lnot LCR_BAUD_LATCH));;
    WriteReg FCR (Z.lor FCR_FIFO_ENABLE FCR_FIFO_CLEAR);;
    WriteReg IER (Z.lor IER_TX_ENABLE IER_RX_ENABLE));;
  uart_cpu (initlock uart_tx_lock).

(** The loop of [uartstart]: at most [n] bytes wait. *)
Fixpoint uartstart_loop (n : nat) : M ust unit :=
  s ← get;
  if uart_tx_w s =? uart_tx_r s then uart_reg (ReadReg ISR);; mret tt
  else
    match n with
    | O => nofuel
    | S n =>
        lsr ← uart_reg (ReadReg LSR);
        if Z.land lsr LSR_TX_IDLE =? 0 then mret tt
        else
          s ← get;
          c ← deref (uart_tx_buf s !! Z.to_nat (uart_tx_r s mod UART_TX_BUF_SIZE));
          modify (fun s => set_tx (uart_tx_buf s) (uart_tx_w s) (u64 (uart_tx_r s + 1)) s);;
          uart_env (tty_wakeup ChTx);;
          uart_reg (WriteReg THR c);;
          uartstart_loop n
    end.
Definition uartstart : M ust unit := s ← get; uartstart_loop (Z.to_nat (u64 (uart_tx_w s - uart_tx_r s))).

(** After a panic the routines below spin for ever. *)
Definition freeze : M ust unit := p ← gets panicked; if p : bool then nofuel else mret tt.

(** A full buffer makes the caller sleep on the lock. *)
Definition uartputc (c : Z) : M ust unit :=
  uart_cpu (acquire uart_tx_lock);;
  freeze;;
  s ← get;
  if uart_tx_w s =? u64 (uart_tx_r s + UART_TX_BUF_SIZE) then uart_cpu (release uart_tx_lock);; blocked
  else
    modify (fun s => set_tx (<[Z.to_nat (uart_tx_w s mod UART_TX_BUF_SIZE) := u8 c]> (uart_tx_buf s)) (u64 (uart_tx_w s + 1)) (uart_tx_r s) s);;
    uartstart;;
    uart_cpu (release uart_tx_lock).

Fixpoint wait_idle (n : nat) : M ust unit :=
  match n with
  | O => nofuel
  | S n => lsr ← uart_reg (ReadReg LSR); if Z.land lsr LSR_TX_IDLE =? 0 then wait_idle n else mret tt
  end.
Definition uartputc_sync (c : Z) : M ust unit :=
  uart_cpu push_off;;
  freeze;;
  wait_idle spins;;
  uart_reg (WriteReg THR (u8 c));;
  uart_cpu pop_off.

Definition uartgetc : M ust Z :=
  lsr ← uart_reg (ReadReg LSR);
  if negb (Z.land lsr 1 =? 0) then uart_reg (ReadReg RHR) else mret (-1).

End Uart.
Arguments ust W E : clear implicits.
Arguments Ust {W E}.
