(* ===== verification/Printf.v ===== *)
(** * Formatted output (kernel/printf.c)

    The characters [vprintf] gives to [putchar], in order, with the count it
    returns; [printf] sends them to [putchar].  An argument is the word a
    [va_arg] of an integer or pointer type takes, or the string behind a
    [%s]; [None] is a missing argument or one of the other kind. *)
From S2P Require Import Prelude Spinlock Uart.

(** ** Numbers *)

Definition digit (rem : Z) : Z := if rem <? 10 then 48 + rem else 97 + (rem - 10).
(** [num_buf] in the order it is filled. *)
Fixpoint num_digits (fuel : nat) (unum radix bc : Z) : list Z :=
  match fuel with
  | O => []
  | S fuel =>
      let rem := unum mod radix in
      let sep := (radix =? 2) && (bc mod 4 =? 0) && negb (bc =? 0) in
      let here := digit rem :: (if sep then [95] else []) in
      let unum := unum / radix in
      here ++ (if 0 <? unum then num_digits fuel unum radix (if sep then bc + 1 else bc) else [])
  end.
(** A 64-bit number has at most 64 digits. *)
Definition num_buf (unum radix : Z) : list Z := num_digits 64 unum radix 0.

(** The padding of a binary number: the characters, without those counted. *)
Fixpoint pad2 (fuel : nat) (padc padn bc : Z) : list (list Z) :=
  match fuel with
  | O => []
  | S fuel => if bc <? padn then (padc :: (if (padn - 1) mod 4 =? 0 then [95] else [])) :: pad2 fuel padc (padn - 1) bc else []
  end.
(** The count and the characters. *)
Definition unsigned_num_print (unum radix padc padn : Z) : Z * list Z :=
  let buf := num_buf unum radix in
  let i := Z.of_nat (length buf) in
  let pad := if 0 <? padn then
               if radix =? 2 then let l := pad2 (Z.to_nat padn) padc padn 0 in (Z.of_nat (length l), concat l)
               else (Z.max 0 (padn - i), replicate (Z.to_nat (padn - i)) padc)
             else (0, []) in
  (pad.1 + i, pad.2 ++ reverse buf).

(** ** Formats *)

Inductive varg := Num (v : Z) | Str (s : list Z).
(** Where the scan is: in plain text, behind a [%], in the digits of a width. *)
Inductive vmode := Text | Spec (l_count padn : Z) | Width (l_count padn : Z).
(** What a conversion character does. *)
Inductive vconv := Put (n : Z) (out : list Z) (args : list varg) | Go (m : vmode) | Bad | NoArg.

Definition num_arg (l_count v : Z) : Z := if l_count =? 0 then s32 v else s64 v.
Definition unum_arg (l_count v : Z) : Z := if l_count =? 0 then u32 v else u64 v.

Definition convert (c l_count padc padn : Z) (args : list varg) : vconv :=
  let put r rest := Put r.1 r.2 rest in
  let unsigned radix :=
    match args with Num v :: rest => put (unsigned_num_print (unum_arg l_count v) radix padc padn) rest | _ => NoArg end in
  if c =? 37 then Put 0 [37] args                                    (* % *)
  else if (c =? 105) || (c =? 100) then                             (* i, d *)
    match args with
    | Num v :: rest =>
        let num := num_arg l_count v in
        if num <? 0 then let r := unsigned_num_print (u64 (- num)) 10 padc (padn - 1) in Put r.1 (45 :: r.2) rest
        else put (unsigned_num_print (u64 num) 10 padc padn) rest
    | _ => NoArg
    end
  else if c =? 115 then                                             (* s *)
    match args with Str s :: rest => Put (Z.of_nat (length s)) s rest | _ => NoArg end
  else if c =? 112 then                                             (* p *)
    match args with
    | Num v :: rest =>
        let unum := u64 v in
        if 0 <? unum then let r := unsigned_num_print unum 16 padc (padn - 2) in Put (2 + r.1) ([48; 120] ++ r.2) rest
        else put (unsigned_num_print unum 16 padc padn) rest
    | _ => NoArg
    end
  else if c =? 120 then unsigned 16                                  (* x *)
  else if c =? 98 then unsigned 2                                    (* b *)
  else if c =? 122 then Go (Spec 2 padn)                             (* z *)
  else if c =? 108 then Go (Spec (l_count + 1) padn)                 (* l *)
  else if c =? 117 then unsigned 10                                  (* u *)
  else if (c =? 48) || (c =? 32) then Go (Width l_count 0)           (* 0, space *)
  else Bad.

(** A format without its terminator; [-1] for one that ends, or goes on
    wrongly, in a conversion. *)
Fixpoint vprintf_loop (fmt : list Z) (m : vmode) (padc : Z) (args : list varg) (count : Z) (out : list Z) : option (Z * list Z) :=
  match fmt with
  | [] => Some (match m with Text => count | _ => -1 end, out)
  | c :: fmt =>
      let spec l padn :=
        match convert c l padc padn args with
        | Put n o args => vprintf_loop fmt Text padc args (count + n) (out ++ o)
        | Go m => vprintf_loop fmt m (if (c =? 48) || (c =? 32) then c else padc) args count out
        | Bad => Some (-1, out)
        | NoArg => None
        end in
      match m with
      | Text => if c =? 37 then vprintf_loop fmt (Spec 0 0) padc args count out else vprintf_loop fmt Text padc args (count + 1) (out ++ [c])
      | Spec l padn => spec l padn
      | Width l padn => if (c <? 48) || (57 <? c) then spec l padn else vprintf_loop fmt (Width l (padn * 10 + (c - 48))) padc args count out
      end
  end.
Definition vprintf (fmt : list Z) (args : list varg) : option (Z * list Z) := vprintf_loop fmt Text 0 args 0 [].

(** [putchar] is a macro for [consputc], which Console.v defines. *)
Section Printf.
Context {W : Type} `{!uart_dev W} {E : Type} `{!ttyenv E} (putchar : Z -> M (ust W E) unit).

Fixpoint putchars (cs : list Z) : M (ust W E) unit := match cs with [] => mret tt | c :: cs => putchar c;; putchars cs end.
(** [pr.locking] is read once: on from [printfinit] to a panic. *)
Definition printf (fmt : list Z) (args : list varg) : M (ust W E) Z :=
  locking ← gets pr_locking;
  (if (locking : bool) then uart_cpu (acquire pr_lock) else mret tt);;
  r ← deref (vprintf fmt args);
  putchars r.2;;
  (if (locking : bool) then uart_cpu (release pr_lock) else mret tt);;
  mret r.1.
(** What [panic] does before its loop: the string is a format. *)
Definition kpanic (str : list Z) : M (ust W E) unit :=
  modify (set_pr_locking false);;
  printf [112; 97; 110; 105; 99; 58; 32] [];;
  printf str [];;
  printf [10] [];;
  modify (set_panicked true).
Definition printfinit : M (ust W E) unit := uart_cpu (initlock pr_lock);; modify (set_pr_locking true).
End Printf.

(** ** What the digits say *)

Definition digit_val (c : Z) : Z := if c <? 58 then c - 48 else c - 87.
Definition read_number (radix : Z) (cs : list Z) : Z := foldl (fun a c => a * radix + digit_val c) 0 cs.

Lemma digit_val_digit r : 0 <= r < 16 -> digit_val (digit r) = r.
Proof. intros Hr. unfold digit, digit_val. destruct (r <? 10) eqn:Er; bool_hyps; [rewrite (proj2 (Z.ltb_lt _ _)) by lia|rewrite (proj2 (Z.ltb_ge _ _)) by lia]; lia. Qed.

(** No separator is ever written: [bc] stays 0. *)
Lemma num_digits_S fuel unum radix : num_digits (S fuel) unum radix 0 = digit (unum mod radix) :: (if 0 <? unum / radix then num_digits fuel (unum / radix) radix 0 else []).
Proof. cbn [num_digits]. replace ((radix =? 2) && (0 mod 4 =? 0) && negb (0 =? 0)) with false by (by rewrite andb_false_r). done. Qed.

Lemma num_digits_ok radix : 2 <= radix <= 16 -> forall fuel unum, 0 <= unum < radix ^ Z.of_nat (S fuel) ->
  let ds := num_digits (S fuel) unum radix 0 in
  read_number radix (reverse ds) = unum /\ (length ds <= S fuel)%nat /\ Forall (fun c => 0 <= digit_val c < radix) ds /\ (0 < unum -> exists c l, reverse ds = c :: l /\ 0 < digit_val c) /\ ds <> [].
Proof.
  intros Hr. induction fuel as [|fuel IH]; intros unum Hu; cbv zeta; rewrite num_digits_S; pose proof (Z.mod_pos_bound unum radix ltac:(lia)) as Hm; pose proof (Z.div_mod unum radix ltac:(lia)) as Hd.
  - change (Z.of_nat 1) with 1 in Hu. rewrite Z.pow_1_r in Hu. rewrite Z.div_small, Z.mod_small by lia. cbn [Z.ltb Z.compare length reverse rev_append read_number foldl].
    rewrite digit_val_digit by lia. split; [lia|]. split; [lia|]. split; [constructor; [by rewrite digit_val_digit by lia|constructor]|]. split; [|done].
    intros H0. exists (digit unum), []. split; [done|by rewrite digit_val_digit by lia].
  - assert (Hdiv : 0 <= unum / radix < radix ^ Z.of_nat (S fuel)).
    { split; [apply Z.div_pos; lia|]. apply Z.div_lt_upper_bound; [lia|]. rewrite <- Z.pow_succ_r by lia. replace (Z.succ (Z.of_nat (S fuel))) with (Z.of_nat (S (S fuel))) by lia. apply Hu. }
    destruct (0 <? unum / radix) eqn:E0; bool_hyps.
    + destruct (IH _ Hdiv) as (H1 & H2 & H3 & H4 & H5). rewrite reverse_cons. split; [|split; [|split; [|split; [|done]]]].
      * unfold read_number in *. rewrite foldl_app, H1. cbn [foldl]. rewrite digit_val_digit by lia. lia.
      * cbn [length]. lia.
      * constructor; [rewrite digit_val_digit by lia; lia|done].
      * intros _. destruct (H4 E0) as (c & l & -> & Hc). by exists c, (l ++ [digit (unum mod radix)]).
    + assert (Eu : unum / radix = 0) by lia. rewrite Eu in Hd. cbn [length reverse rev_append read_number foldl]. rewrite digit_val_digit by lia. split; [lia|]. split; [lia|].
      split; [constructor; [rewrite digit_val_digit by lia; lia|constructor]|]. split; [|done]. intros H0. exists (digit (unum mod radix)), []. split; [done|]. rewrite digit_val_digit by lia. lia.
Qed.

(** C36: [unsigned_num_print] of any 64-bit number in base 10 or 16, those of
    %d, %u, %x and %p, fills at most 64 of the 100 bytes of [num_buf], and
    prints the padding that
    widens it to [padn] and digits of that base, without a leading zero, that
    read back as the number; the count is that of the characters.  Base 2,
    of %b, pads differently: see [binary_padding]. *)
Theorem unsigned_num_print_correct unum radix padc padn : 0 <= unum < 2 ^ 64 -> radix = 10 \/ radix = 16 -> 
  let r := unsigned_num_print unum radix padc padn in
  let ds := reverse (num_buf unum radix) in
  (length (num_buf unum radix) <= 64)%nat /\ read_number radix ds = unum /\ Forall (fun c => 0 <= digit_val c < radix) ds /\
  (0 < unum -> exists c l, ds = c :: l /\ 0 < digit_val c) /\
  r.2 = replicate (Z.to_nat (padn - Z.of_nat (length ds))) padc ++ ds /\ r.1 = Z.of_nat (length r.2) /\ r.1 = Z.max padn (Z.of_nat (length ds)).
Proof.
  intros Hu Hr r ds. assert (Hb : 0 <= unum < radix ^ Z.of_nat 64) by (change (Z.of_nat 64) with 64; destruct Hr as [-> | ->]; change (2 ^ 64) with 18446744073709551616 in Hu; cbn; lia).
  destruct (num_digits_ok radix ltac:(lia) 63 unum Hb) as (H1 & H2 & H3 & H4 & H5). unfold ds, num_buf in *. split; [exact H2|]. split; [exact H1|]. split; [by apply Forall_reverse|]. split; [exact H4|].
  unfold r, unsigned_num_print, num_buf. rewrite length_reverse. set (n := length _) in *. set (dd := num_digits 64 unum radix 0) in *.
  assert (Hn : (0 < n)%nat) by (unfold n; destruct dd; [done|cbn; lia]).
  assert (Er : (radix =? 2) = false) by (apply Z.eqb_neq; lia). rewrite Er. destruct (0 <? padn) eqn:Ep; bool_hyps; cbn [Datatypes.fst Datatypes.snd].
  - split; [done|]. rewrite length_app, length_replicate, length_reverse. fold n. split; lia.
  - replace (Z.to_nat (padn - Z.of_nat n)) with O by lia. split; [done|]. cbn [app]. rewrite length_reverse. fold n. split; lia.
Qed.

Lemma unsigned_num_print_correct_witness : unsigned_num_print 2025 16 48 8 = (8, [48; 48; 48; 48; 48; 55; 101; 57]) /\ read_number 16 [55; 101; 57] = 2025.
Proof.
  destruct (unsigned_num_print_correct 2025 16 48 8 ltac:(lia) ltac:(by right)) as (_ & Hrd & _ & _ & H2 & _ & H1). split; [|exact Hrd].
  rewrite (surjective_pairing (unsigned_num_print _ _ _ _)), H1, H2. reflexivity.
Defined.

(** A binary number is padded with [padn] characters whatever its length, and
    no digit is ever grouped. *)
Example binary_padding : unsigned_num_print 5 2 48 4 = (7, [48; 48; 48; 48; 95; 49; 48; 49]).
Proof. reflexivity. Qed.
(** "%05d" of -42, and a [%%] that is not counted. *)
Example printf_pads : vprintf [37; 48; 53; 100; 37; 37] [Num (-42)] = Some (4, [45; 48; 48; 52; 50; 37]).
Proof. reflexivity. Qed.
