(* ===== verification/Console.v ===== *)
(** * The console (kernel/console.c, the interrupt handler of kernel/uart.c,
    procdump of kernel/proc.c)

    A ring of [INPUT_BUF_SIZE] characters with three 32-bit indices: [cr], up
    to which processes have read, [cw], up to which lines are complete, and
    [ce], up to which the line being edited goes.  [consoleread] that has to
    sleep reports where its loop is, as in Pipe.v.  [console_devsw] is the
    entry of the device table File.v calls through. *)
From S2P Require Import Prelude Spinlock Bytes UserMem Cred Uart Printf File.

Definition BACKSPACE : Z := 0x100.
Definition C (x : Z) : Z := x - 64.
Definition INPUT_BUF_SIZE : Z := 128.
Definition CONSOLE : Z := 1.
Definition TCGETS : Z := 0x5401.
Definition TCSETS : Z := 0x5402.
Definition TCSETSW : Z := 0x5403.
Definition TCSETSF : Z := 0x5404.
Definition TCSBRK : Z := 0x5409.
Definition TCFLSH : Z := 0x540B.
Definition TIOCGPGRP : Z := 0x540F.
Definition TIOCSPGRP : Z := 0x5410.
Definition TIOCGWINSZ : Z := 0x5413.
Definition TIOCSWINSZ : Z := 0x5414.

(** [struct termios] and [struct winsize] as they lie in memory. *)
Definition sizeof_termios : Z := 60.
Definition c_cc (i : Z) : Z := 17 + i.
Definition default_termios : bytes :=
  let m := wr32 0 (Z.lor 0x100 (Z.lor 0x400 (Z.lor 0x800 0x2000))) (wr32 4 (Z.lor 1 4) (mset 0 0 sizeof_termios (fun _ => 0))) in
  let m := wr32 8 (Z.lor 0x80 (Z.lor 0x30 0x1002)) m in
  let m := wr32 12 (Z.lor 1 (Z.lor 2 (Z.lor 0x8000 (Z.lor 8 (Z.lor 0x10 (Z.lor 0x200 0x800)))))) m in
  let cc i v m := wrle 1 (c_cc i) v m in
  cc 14 0x17 (cc 2 0x7f (cc 3 0x15 (cc 10 0x1a (cc 4 4 (cc 1 28 (cc 0 3 (cc 6 1 (cc 5 0 m)))))))).
Definition wins : list Z := [24; 0; 80; 0; 0; 0; 0; 0].

(** What [procdump] prints for a state, by its number: "unused", "used",
    "sleep ", "runble", "run   ", "zombie", and "???" for another. *)
Definition states : list (list Z) :=
  [ [117; 110; 117; 115; 101; 100]; [117; 115; 101; 100]; [115; 108; 101; 101; 112; 32];
    [114; 117; 110; 98; 108; 101]; [114; 117; 110; 32; 32; 32]; [122; 111; 109; 98; 105; 101] ].
Definition state_name (st : Z) : list Z :=
  if (0 <=? st) && (st <? Z.of_nat (length states)) then default [] (states !! Z.to_nat st) else [63; 63; 63].

(** What [consoleread] did: it returned, or it sleeps with [n] bytes to go. *)
Inductive cresult := CRet (r : Z) | CSlept (dst n : Z).

Section Console.
Context {W : Type} `{!uart_dev W} {E : Type} `{!ttyenv E} {U : Type} `{!usermem U} (spins : nat).

Record tty := Tty { t_ust : ust W E; cbuf : list Z; cr : Z; cw : Z; ce : Z; termios : bytes; t_pgid : Z; t_kmem : bytes }.
Definition set_ust v (t : tty) := Tty v (cbuf t) (cr t) (cw t) (ce t) (termios t) (t_pgid t) (t_kmem t).
Definition set_cons b r w e (t : tty) := Tty (t_ust t) b r w e (termios t) (t_pgid t) (t_kmem t).
Definition set_termios v (t : tty) := Tty (t_ust t) (cbuf t) (cr t) (cw t) (ce t) v (t_pgid t) (t_kmem t).
Definition set_pgid v (t : tty) := Tty (t_ust t) (cbuf t) (cr t) (cw t) (ce t) (termios t) v (t_kmem t).
Definition set_t_kmem v (t : tty) := Tty (t_ust t) (cbuf t) (cr t) (cw t) (ce t) (termios t) (t_pgid t) v.
Definition on_tty {A} (m : M tty A) : M (tty * U) A := zoom Datatypes.fst (fun t s => (t, s.2)) m.
Definition on_ust {A} (m : M (ust W E) A) : M tty A := zoom t_ust set_ust m.
Definition cons_acquire : M tty unit := on_ust (uart_cpu (acquire cons_lock)).
Definition cons_release : M tty unit := on_ust (uart_cpu (release cons_lock)).

Definition line_putc (c : Z) : M (ust W E) unit :=
  if c =? BACKSPACE then uartputc_sync spins 8;; uartputc_sync spins 32;; uartputc_sync spins 8
  else if c =? 10 then uartputc_sync spins 13;; uartputc_sync spins c
  else uartputc_sync spins c.
Definition consputc (c : Z) : M tty unit := on_ust (line_putc c).

(** [procdump] of proc.c: one line for each slot in use.  The formats are a
    newline and "%d %s %s". *)
Fixpoint procdump_loop (ps : list proc_row) : M (ust W E) unit :=
  match ps with
  | [] => mret tt
  | p :: ps =>
      (if row_state p =? 0 then mret tt
       else
         printf line_putc [37; 100; 32; 37; 115; 32; 37; 115] [Num (row_pid p); Str (state_name (row_state p)); Str (row_name p)];;
         printf line_putc [10] [];; mret tt);;
      procdump_loop ps
  end.
Definition procdump : M (ust W E) unit :=
  printf line_putc [10] [];;
  ps ← gets (fun u => tty_procs (uenv u));
  procdump_loop ps.

Definition set_default_termios : M tty unit := modify (set_termios default_termios).

Definition tty_copyin (user_src : bool) (src len : Z) : M (tty * U) (Z * list Z) :=
  if user_src then u ← gets Datatypes.snd; mret (copyin src len u)
  else t ← gets Datatypes.fst; mret (0, to_list (t_kmem t) src len).
Definition tty_copyout (user_dst : bool) (dst : Z) (src : list Z) : M (tty * U) Z :=
  if user_dst then
    u ← gets Datatypes.snd;
    let r := copyout dst src u in
    modify (fun s => (s.1, r.2));; mret r.1
  else on_tty (modify (fun t => set_t_kmem (mmove dst 0 (Z.of_nat (length src)) (of_list src) (t_kmem t)) t));; mret 0.

Fixpoint consolewrite_loop (fuel : nat) (user_src : bool) (src n i : Z) : M (tty * U) Z :=
  match fuel with
  | O => nofuel
  | S fuel =>
      if i <? n then
        r ← tty_copyin user_src (u64 (src + i)) 1;
        if r.1 =? -1 then mret i
        else
          c ← deref (head r.2);
          on_tty (on_ust (uartputc c));;
          consolewrite_loop fuel user_src src n (i + 1)
      else mret i
  end.
Definition consolewrite (user_src : bool) (src n : Z) : M (tty * U) Z := consolewrite_loop (S (Z.to_nat n)) user_src src n 0.

(** The loop of [consoleread], with the lock held. *)
Fixpoint consoleread_loop (fuel : nat) (user_dst : bool) (target dst n : Z) : M (tty * U) cresult :=
  match fuel with
  | O => nofuel
  | S fuel =>
      let done n := on_tty cons_release;; mret (CRet (s32 (target - n))) in
      if 0 <? n then
        t ← gets Datatypes.fst;
        if cr t =? cw t then
          if tty_killed (uenv (t_ust t)) then on_tty cons_release;; mret (CRet (-1))
          else on_tty cons_release;; mret (CSlept dst n)
        else
          c ← deref (cbuf t !! Z.to_nat (cr t mod INPUT_BUF_SIZE));
          on_tty (modify (fun t => set_cons (cbuf t) (u32 (cr t + 1)) (cw t) (ce t) t));;
          if c =? C 68 then
            (if u32 n <? target then on_tty (modify (fun t => set_cons (cbuf t) (u32 (cr t - 1)) (cw t) (ce t) t)) else mret tt);;
            done n
          else
            r ← tty_copyout user_dst dst [c];
            if r =? -1 then done n
            else if c =? 10 then done (n - 1)
            else consoleread_loop fuel user_dst target (u64 (dst + 1)) (n - 1)
      else done n
  end.
(** From its start, or from the [sleep] it left with [n] bytes to go. *)
Definition consoleread_from (user_dst : bool) (target dst n : Z) : M (tty * U) cresult :=
  on_tty cons_acquire;; consoleread_loop (S (Z.to_nat n)) user_dst target dst n.
Definition consoleread (user_dst : bool) (dst n : Z) : M (tty * U) cresult := consoleread_from user_dst (u32 n) dst n.

Definition consoleioctl (req argp : Z) : M (tty * U) Z :=
  let out bs := r ← tty_copyout true argp bs; mret (if r <? 0 then - EINVAL else 0) in
  t ← gets Datatypes.fst;
  if req =? TCGETS then out (to_list (termios t) 0 sizeof_termios)
  else if (req =? TCSETS) || (req =? TCSETSW) || (req =? TCSETSF) then
    r ← tty_copyin true argp sizeof_termios;
    on_tty (modify (fun t => set_termios (mmove 0 0 (Z.of_nat (length r.2)) (of_list r.2) (termios t)) t));;
    mret (if r.1 <? 0 then - EINVAL else 0)
  else if (req =? TCSBRK) || (req =? TCFLSH) then mret 0
  else if req =? TIOCGWINSZ then out wins
  else if req =? TIOCSWINSZ then mret 0
  else if req =? TIOCSPGRP then on_tty (modify (set_pgid (s32 argp)));; mret 0
  else if req =? TIOCGPGRP then out (to_list (wr32 0 (u32 (t_pgid t)) (fun _ => 0)) 0 4)
  else mret (- EINVAL).

(** [^U]: the line being edited goes, character by character. *)
Fixpoint kill_line (fuel : nat) : M tty unit :=
  match fuel with
  | O => nofuel
  | S fuel =>
      t ← get;
      if ce t =? cw t then mret tt
      else
        c ← deref (cbuf t !! Z.to_nat (u32 (ce t - 1) mod INPUT_BUF_SIZE));
        if c =? 10 then mret tt
        else
          modify (set_cons (cbuf t) (cr t) (cw t) (u32 (ce t - 1)));;
          consputc BACKSPACE;;
          kill_line fuel
  end.

Definition consoleintr (c : Z) : M tty unit :=
  cons_acquire;;
  (if c =? C 80 then on_ust procdump
   else if c =? C 85 then t ← get; kill_line (S (Z.to_nat (u32 (ce t - cw t))))
   else if (c =? C 72) || (c =? 0x7f) then
     t ← get;
     if ce t =? cw t then mret tt
     else modify (set_cons (cbuf t) (cr t) (cw t) (u32 (ce t - 1)));; consputc BACKSPACE
   else
     t ← get;
     if negb (c =? 0) && (u32 (ce t - cr t) <? INPUT_BUF_SIZE) then
       let c := if c =? 13 then 10 else c in
       consputc c;;
       t ← get;
       let e := u32 (ce t + 1) in
       modify (set_cons (<[Z.to_nat (ce t mod INPUT_BUF_SIZE) := u8 c]> (cbuf t)) (cr t) (cw t) e);;
       if (c =? 10) || (c =? C 68) || (u32 (e - cr t) =? INPUT_BUF_SIZE) then
         modify (fun t => set_cons (cbuf t) (cr t) e (ce t) t);;
         on_ust (uart_env (tty_wakeup ChCons))
       else mret tt
     else mret tt);;
  cons_release.

(** The characters of one interrupt: at most [n]. *)
Fixpoint uart_drain (n : nat) : M tty unit :=
  match n with
  | O => nofuel
  | S n => c ← on_ust uartgetc; if c =? -1 then mret tt else consoleintr c;; uart_drain n
  end.
Definition uartintr (n : nat) : M tty unit :=
  isr ← on_ust (uart_reg (ReadReg ISR));
  (if Z.land isr 7 =? 4 then uart_drain n else mret tt);;
  on_ust (
    (if Z.land isr 7 =? 7 then uart_reg (ReadReg USR);; mret tt else mret tt);;
    uart_cpu (acquire uart_tx_lock);;
    uartstart;;
    uart_cpu (release uart_tx_lock)).

Definition consoleinit : M tty unit :=
  on_ust (uart_cpu (initlock cons_lock));;
  on_ust uartinit;;
  set_default_termios.

Definition read_result (r : cresult) : M (tty * U) Z := match r with CRet r => mret r | CSlept _ _ => blocked end.
End Console.
Arguments tty W E : clear implicits.
Arguments Tty {W E}.

(** [devsw\[CONSOLE\]]. *)
#[export] Instance console_devsw {W} `{!uart_dev W} {E} `{!ttyenv E} {U} `{!usermem U} : devsw U (tty W E) := {|
  dev_read major := if major =? CONSOLE then Some (fun addr n => consoleread true addr n ≫= read_result) else None;
  dev_write major := if major =? CONSOLE then Some (fun addr n => consolewrite true addr n) else None;
  dev_ioctl major := if major =? CONSOLE then Some consoleioctl else None
|}.
