(* ===== verification/ConsoleInv.v ===== *)
(** * What the console's ring holds

    [uart_laws] is what the console asks of the serial line: it becomes idle
    after some polls, and sends what is written to it.  [console_is t dn ln]:
    the complete input is [dn] and the line being edited is [ln]. *)
From S2P Require Import Prelude Spinlock Bytes UserMem Uart Printf Console.

Class uart_laws (W : Type) `{uart_dev W} := {
  sent : W -> list Z;
  busy : W -> nat;
  busy_max : nat;
  data_mode : W -> Prop;
  busy_ok : forall w, (busy w <= busy_max)%nat;
  lsr_ok : forall w, data_mode w -> exists v w', ReadReg LSR w = Done v w' /\ data_mode w' /\ sent w' = sent w /\ (Z.land v LSR_TX_IDLE <> 0 \/ (busy w' < busy w)%nat);
  isr_ok : forall w, data_mode w -> exists v w', ReadReg ISR w = Done v w' /\ data_mode w' /\ sent w' = sent w;
  thr_ok : forall w c, data_mode w -> exists w', WriteReg THR c w = Done tt w' /\ data_mode w' /\ sent w' = sent w ++ [c];
}.
Class ttyenv_laws (E : Type) `{ttyenv E} := {
  woken : E -> list tchan;
  wakeup_ok : forall ch e, exists e', tty_wakeup ch e = Done tt e' /\ woken e' = woken e ++ [ch];
  procs_ok : forall e, Forall (fun p => - 2 ^ 31 <= row_pid p < 2 ^ 31) (tty_procs e);
}.

Definition tty_locks : gset Z := {[cons_lock; uart_tx_lock; pr_lock]}.

Section Inv.
Context {W : Type} `{ul : uart_laws W} {E : Type} `{el : ttyenv_laws E} {U : Type} `{!usermem U} (spins : nat).
Hypothesis Hspins : (busy_max < spins)%nat.
Local Abbreviation tty := (tty W E).
Implicit Types t : tty.
Implicit Types u : ust W E.

(** The serial line works; no lock, or the lock [a] is held. *)
Definition line_ok (u : ust W E) : Prop := data_mode (udev u) /\ panicked u = false.
Definition uart_free u : Prop := line_ok u /\ lk_free tty_locks (ucpu u).
Definition uart_one (a : Z) u : Prop := line_ok u /\ lk_one tty_locks a (ucpu u).

Lemma wait_idle_ok n : forall u, data_mode (udev u) -> (busy (udev u) < n)%nat ->
  exists w, wait_idle n u = Done tt (set_udev w u) /\ data_mode w /\ sent w = sent (udev u).
Proof.
  induction n as [|n IH]; intros u Hd Hb; [lia|]. destruct (lsr_ok _ Hd) as (v & w & E1 & Hd1 & Hs1 & Hv). cbn [wait_idle].
  rewrite (bind_Done _ _ _ v (set_udev w u)) by (unfold uart_reg, zoom; by rewrite E1). destruct (Z.land v LSR_TX_IDLE =? 0) eqn:Ev; bool_hyps.
  - destruct Hv as [?|Hv]; [done|]. destruct (IH (set_udev w u) Hd1) as (w2 & E2 & Hd2 & Hs2); [cbn; lia|]. exists w2. split; [exact E2|]. split; [done|]. by rewrite Hs2.
  - by exists w.
Qed.

(** Interrupts are off: some locks are held. *)
Definition line_held u : Prop := line_ok u /\ exists K n, cpu_is K n (ucpu u) /\ 1 <= n.
Lemma line_held_one a u : uart_one a u -> line_held u.
Proof. intros [Hl [Hc _]]. split; [exact Hl|]. exists {[a]}, 1. by split. Qed.
Lemma line_held_dev w u : line_held u -> data_mode w -> line_held (set_udev w u).
Proof. intros [[_ Hp] Hc] Hw. split; [by split|exact Hc]. Qed.

Lemma push_pop K n c : cpu_is K n c -> 1 <= n -> exists c1, push_off c = Done tt c1 /\ pop_off c1 = Done tt c.
Proof.
  intros [H1 H2 _ H3] Hn. destruct c as [nf ie i l]. cbn in *. subst nf. assert (i = false) as -> by (apply H3; lia).
  exists (Cpu (n + 1) ie false l). assert (E0 : (n =? 0) = false) by lia. assert (E1 : (n + 1 <? 1) = false) by lia. split.
  - unfold push_off, intr_get, intr_off. mstep. cbn. by rewrite E0.
  - unfold pop_off, intr_get. mstep. cbn. rewrite E1. cbn. replace (n + 1 - 1) with n by lia. by rewrite E0.
Qed.

Lemma putc_sync_ok u c : line_held u ->
  exists w, uartputc_sync spins c u = Done tt (set_udev w u) /\ data_mode w /\ sent w = sent (udev u) ++ [u8 c].
Proof.
  intros [[Hd Hp] (K & n & Hc & Hn)]. destruct (push_pop _ _ _ Hc Hn) as (c1 & E1 & E2). unfold uartputc_sync.
  rewrite (bind_Done _ _ _ tt (set_ucpu c1 u)) by (unfold uart_cpu, zoom; by rewrite E1). unfold freeze. rewrite bind_assoc, bind_gets. cbn [panicked set_ucpu]. rewrite Hp, bind_ret.
  destruct (wait_idle_ok spins (set_ucpu c1 u) Hd) as (w & E3 & Hdw & Hsw); [pose proof (busy_ok (udev (set_ucpu c1 u))); lia|]. rewrite (bind_Done _ _ _ _ _ E3).
  destruct (thr_ok w (u8 c) Hdw) as (w2 & E4 & Hd2 & Hs2). rewrite (bind_Done _ _ _ tt (set_udev w2 (set_ucpu c1 u))) by (unfold uart_reg, zoom; cbn [udev set_udev]; by rewrite E4).
  exists w2. split; [|split; [done|by rewrite Hs2, Hsw]]. unfold uart_cpu, zoom. cbn [ucpu set_udev set_ucpu]. rewrite E2. by destruct u.
Qed.

(** The echo of a character. *)
Definition put_chars (c : Z) : list Z := if c =? BACKSPACE then [8; 32; 8] else if c =? 10 then [13; 10] else [u8 c].
Lemma line_putc_ok u c : line_held u ->
  exists w, line_putc spins c u = Done tt (set_udev w u) /\ data_mode w /\ sent w = sent (udev u) ++ put_chars c.
Proof.
  intros Hu. unfold line_putc, put_chars. destruct (c =? BACKSPACE); [|destruct (c =? 10) eqn:E10].
  - destruct (putc_sync_ok _ 8 Hu) as (w1 & E1 & Hd1 & Hs1). destruct (putc_sync_ok _ 32 (line_held_dev _ _ Hu Hd1)) as (w2 & E2 & Hd2 & Hs2).
    destruct (putc_sync_ok _ 8 (line_held_dev _ _ (line_held_dev _ _ Hu Hd1) Hd2)) as (w3 & E3 & Hd3 & Hs3). exists w3.
    split; [|split; [done|rewrite Hs3; cbn; rewrite Hs2; cbn; by rewrite Hs1, <- !app_assoc]].
    rewrite (bind_Done _ _ _ _ _ E1), (bind_Done _ _ _ _ _ E2). exact E3.
  - bool_hyps. subst c. destruct (putc_sync_ok _ 13 Hu) as (w1 & E1 & Hd1 & Hs1). destruct (putc_sync_ok _ 10 (line_held_dev _ _ Hu Hd1)) as (w2 & E2 & Hd2 & Hs2).
    exists w2. split; [|split; [done|rewrite Hs2; cbn; by rewrite Hs1, <- !app_assoc]]. rewrite (bind_Done _ _ _ _ _ E1). exact E2.
  - exact (putc_sync_ok _ c Hu).
Qed.
Lemma consputc_ok t c : uart_one cons_lock (t_ust t) ->
  exists w, consputc spins c t = Done tt (set_ust (set_udev w (t_ust t)) t) /\ data_mode w /\ sent w = sent (udev (t_ust t)) ++ put_chars c.
Proof.
  intros Hu. destruct (line_putc_ok _ c (line_held_one _ _ Hu)) as (w & Ew & Hw). exists w. split; [|exact Hw].
  unfold consputc, on_ust, zoom. by rewrite Ew.
Qed.

(** ** Printing with the console's lock held *)

Lemma putchars_ok : forall cs u, line_held u ->
  exists w, putchars (line_putc spins) cs u = Done tt (set_udev w u) /\ data_mode w /\ sent w = sent (udev u) ++ concat (put_chars <$> cs).
Proof.
  induction cs as [|c cs IH]; intros u Hu; cbn [putchars].
  - exists (udev u). split; [by destruct u|]. split; [apply Hu|by rewrite app_nil_r].
  - destruct (line_putc_ok u c Hu) as (w & Ew & Hd & Hs). destruct (IH _ (line_held_dev _ _ Hu Hd)) as (w2 & E2 & Hd2 & Hs2).
    exists w2. split; [rewrite (bind_Done _ _ _ _ _ Ew); exact E2|]. split; [done|]. rewrite Hs2. cbn. by rewrite Hs, <- app_assoc.
Qed.

(** [printf] leaves the locks as they were, whether or not it takes its own. *)
Lemma printf_ok fmt args r cs u : uart_one cons_lock u -> vprintf fmt args = Some (r, cs) ->
  exists w, printf (line_putc spins) fmt args u = Done r (set_udev w u) /\ data_mode w /\ sent w = sent (udev u) ++ concat (put_chars <$> cs).
Proof.
  intros Hu Ev. pose proof Hu as [Hl [Hc Hm]]. unfold printf. rewrite bind_gets. destruct (pr_locking u).
  - destruct (nested_spec _ _ _ pr_lock Hc ltac:(lia)) as (c1 & E1 & H1 & E2);
      [rewrite elem_of_singleton; unfold pr_lock, cons_lock; lia|apply Hm; unfold tty_locks; set_solver|].
    rewrite (bind_Done _ _ _ tt (set_ucpu c1 u)) by (unfold uart_cpu, zoom; by rewrite E1). rewrite Ev, bind_deref.
    destruct (putchars_ok cs (set_ucpu c1 u)) as (w & Ew & Hd & Hs); [split; [exact Hl|]; by exists ({[pr_lock]} ∪ {[cons_lock]}), (1 + 1)|].
    rewrite (bind_Done _ _ _ _ _ Ew). exists w. split; [|by split].
    rewrite (bind_Done _ _ _ tt (set_udev w u)); [done|]. unfold uart_cpu, zoom. cbn [ucpu set_udev set_ucpu]. rewrite E2. by destruct u.
  - rewrite bind_ret, Ev, bind_deref. destruct (putchars_ok cs u (line_held_one _ _ Hu)) as (w & Ew & Hd & Hs).
    rewrite (bind_Done _ _ _ _ _ Ew), bind_ret. by exists w.
Qed.

End Inv.

(** ** The process list *)

(** A pid in decimal, and the lines of [procdump] as text. *)
Definition decimal (v : Z) : list Z := (if v <? 0 then [45] else []) ++ reverse (num_buf (Z.abs v) 10).
Definition row_text (p : proc_row) : list Z :=
  if row_state p =? 0 then [] else decimal (row_pid p) ++ [32] ++ state_name (row_state p) ++ [32] ++ row_name p ++ [10].
Definition dump_text (ps : list proc_row) : list Z := 10 :: concat (row_text <$> ps).

Lemma convert_d v rest : - 2 ^ 31 <= v < 2 ^ 31 -> exists n, convert 100 0 0 0 (Num v :: rest) = Put n (decimal v) rest.
Proof.
  intros Hv. unfold convert, decimal. cbn [Z.eqb Pos.eqb orb]. unfold num_arg. rewrite Z.eqb_refl, swrap_small by lia.
  destruct (v <? 0) eqn:Ev; bool_hyps.
  - rewrite wrap_small, Z.abs_neq by lia. eexists. reflexivity.
  - rewrite wrap_small, Z.abs_eq by lia. eexists. reflexivity.
Qed.

Lemma row_format v a b : - 2 ^ 31 <= v < 2 ^ 31 ->
  exists n, vprintf [37; 100; 32; 37; 115; 32; 37; 115] [Num v; Str a; Str b] = Some (n, decimal v ++ [32] ++ a ++ [32] ++ b).
Proof.
  intros Hv. destruct (convert_d v [Str a; Str b] Hv) as [n E]. unfold vprintf. cbn -[convert]. rewrite E. cbn.
  eexists. f_equal. f_equal. by rewrite <- !app_assoc.
Qed.

Section Dump.
Context {W : Type} `{ul : uart_laws W} {E : Type} `{el : ttyenv_laws E} (spins : nat).
Hypothesis Hspins : (busy_max < spins)%nat.
Implicit Types u : ust W E.

Lemma uart_one_dev a w u : uart_one a u -> data_mode w -> uart_one a (set_udev w u).
Proof. intros [[_ Hp] Hl] Hw. split; [by split|exact Hl]. Qed.

Lemma procdump_loop_ok : forall ps u, Forall (fun p => - 2 ^ 31 <= row_pid p < 2 ^ 31) ps -> uart_one cons_lock u ->
  exists w, procdump_loop spins ps u = Done tt (set_udev w u) /\ data_mode w /\
    sent w = sent (udev u) ++ concat (put_chars <$> concat (row_text <$> ps)).
Proof.
  induction ps as [|p ps IH]; intros u Hps Hu; cbn [procdump_loop].
  - exists (udev u). split; [by destruct u|]. split; [apply Hu|by rewrite app_nil_r].
  - apply Forall_cons in Hps as [Hp Hps]. cbn [fmap list_fmap concat]. unfold row_text at 1. destruct (row_state p =? 0).
    { rewrite bind_ret. apply IH; done. }
    destruct (row_format (row_pid p) (state_name (row_state p)) (row_name p) Hp) as [n Ef].
    destruct (printf_ok spins Hspins _ _ _ _ u Hu Ef) as (w1 & E1 & Hd1 & Hs1). pose proof (uart_one_dev _ _ _ Hu Hd1) as Hu1.
    destruct (printf_ok spins Hspins [10] [] 1 [10] _ Hu1 eq_refl) as (w2 & E2 & Hd2 & Hs2). pose proof (uart_one_dev _ _ _ Hu1 Hd2) as Hu2.
    destruct (IH _ Hps Hu2) as (w3 & E3 & Hd3 & Hs3). exists w3. split; [|split; [done|]].
    + rewrite bind_assoc, (bind_Done _ _ _ _ _ E1), bind_assoc, (bind_Done _ _ _ _ _ E2), bind_ret. exact E3.
    + rewrite Hs3. cbn [udev set_udev]. rewrite Hs2. cbn [udev set_udev]. rewrite Hs1, !fmap_app, !concat_app, <- !app_assoc. reflexivity.
Qed.

Lemma procdump_ok u : uart_one cons_lock u ->
  exists w, procdump spins u = Done tt (set_udev w u) /\ data_mode w /\
    sent w = sent (udev u) ++ concat (put_chars <$> dump_text (tty_procs (uenv u))).
Proof.
  intros Hu. unfold procdump. destruct (printf_ok spins Hspins [10] [] 1 [10] _ Hu eq_refl) as (w1 & E1 & Hd1 & Hs1).
  rewrite (bind_Done _ _ _ _ _ E1), bind_gets. cbn [uenv set_udev].
  destruct (procdump_loop_ok _ _ (procs_ok (uenv u)) (uart_one_dev _ _ _ Hu Hd1)) as (w2 & E2 & Hd2 & Hs2).
  exists w2. split; [exact E2|]. split; [done|]. rewrite Hs2. cbn [udev set_udev]. rewrite Hs1, <- app_assoc. reflexivity.
Qed.
End Dump.

(** ** The ring *)
Section Ring.
Context {W : Type} `{ul : uart_laws W} {E : Type} `{el : ttyenv_laws E}.
Local Abbreviation tty := (tty W E).
Implicit Types t : tty.

Record ring t (dn ln : list Z) : Prop := {
  rg_len : length (cbuf t) = 128%nat;
  rg_r : 0 <= cr t < 2 ^ 32;
  rg_w : cw t = u32 (cr t + Z.of_nat (length dn));
  rg_e : ce t = u32 (cr t + Z.of_nat (length dn) + Z.of_nat (length ln));
  rg_fit : Z.of_nat (length dn) + Z.of_nat (length ln) <= INPUT_BUF_SIZE;
  rg_byte : forall k x, (dn ++ ln) !! k = Some x -> cbuf t !! Z.to_nat ((cr t + Z.of_nat k) mod INPUT_BUF_SIZE) = Some x
}.
Record console_is t (dn ln : list Z) : Prop := { ci_ring : ring t dn ln; ci_line : Forall (fun x => x <> 10) ln; ci_uart : uart_free (t_ust t) }.

Lemma u32_mod x : u32 x mod INPUT_BUF_SIZE = x mod INPUT_BUF_SIZE.
Proof. unfold wrap. change (2 ^ 32) with (33554432 * INPUT_BUF_SIZE). unfold INPUT_BUF_SIZE. dlia. Qed.

Lemma u32_back r n : 0 <= r < 2 ^ 32 -> 0 <= n < 2 ^ 32 -> u32 (u32 (r + n) - r) = n.
Proof. intros Hr Hn. rewrite wrap_sub_l. replace (r + n - r) with n by lia. by apply wrap_small. Qed.

Lemma u32_same r n : 0 <= r < 2 ^ 32 -> 0 <= n < 2 ^ 32 -> (r =? u32 (r + n)) = (n =? 0).
Proof.
  intros Hr Hn. destruct (n =? 0) eqn:E1; bool_hyps.
  - subst n. rewrite Z.add_0_r, wrap_small by lia. apply Z.eqb_refl.
  - apply Z.eqb_neq. intros Eq. pose proof (u32_back r n Hr Hn) as Hb. rewrite <- Eq, Z.sub_diag in Hb. change (u32 0) with 0 in Hb. lia.
Qed.

Lemma ring_push t dn ln c : ring t dn ln -> Z.of_nat (length dn) + Z.of_nat (length ln) < INPUT_BUF_SIZE ->
  ring (set_cons (<[Z.to_nat (ce t mod INPUT_BUF_SIZE) := c]> (cbuf t)) (cr t) (cw t) (u32 (ce t + 1)) t) dn (ln ++ [c]).
Proof.
  intros [H1 H2 H3 H4 H5 H6] Hlt. unfold INPUT_BUF_SIZE in *. split; cbn [cbuf cr cw ce set_cons].
  - by rewrite length_insert.
  - done.
  - done.
  - rewrite H4, wrap_add_l, length_app. cbn [length]. f_equal. lia.
  - rewrite length_app. cbn [length]. unfold INPUT_BUF_SIZE in *. lia.
  - intros k x Hk. rewrite app_assoc in Hk. rewrite H4, u32_mod. unfold INPUT_BUF_SIZE. set (m := cr t + Z.of_nat (length dn) + Z.of_nat (length ln)).
    apply lookup_app_Some in Hk as [Hk|[Hge Hk]].
    + assert (Hkl : (k < length (dn ++ ln))%nat) by (by eapply lookup_lt_Some). rewrite length_app in Hkl. rewrite list_lookup_insert_ne; [by apply H6|].
      intros Heq. apply Z2Nat.inj in Heq; unfold m in *; dlia.
    + apply list_lookup_singleton_Some in Hk as [Hk <-]. rewrite length_app in *. replace (cr t + Z.of_nat k) with m by (unfold m; lia).
      apply list_lookup_insert_eq. rewrite H1. dlia.
Qed.

Lemma ring_commit t dn ln w : ring t dn ln -> w = ce t -> ring (set_cons (cbuf t) (cr t) w (ce t) t) (dn ++ ln) [].
Proof.
  intros [H1 H2 H3 H4 H5 H6] ->. split; cbn [cbuf cr cw ce set_cons]; try done.
  - rewrite H4, length_app. f_equal. lia.
  - rewrite H4, length_app. cbn [length]. f_equal. lia.
  - rewrite length_app. cbn [length]. unfold INPUT_BUF_SIZE in *. lia.
  - by rewrite app_nil_r.
Qed.

Lemma ring_drop t dn ln c : ring t dn (ln ++ [c]) ->
  cbuf t !! Z.to_nat (u32 (ce t - 1) mod INPUT_BUF_SIZE) = Some c /\ ring (set_cons (cbuf t) (cr t) (cw t) (u32 (ce t - 1)) t) dn ln.
Proof.
  intros [H1 H2 H3 H4 H5 H6]. rewrite length_app in *. cbn [length] in *.
  assert (Eu : u32 (ce t - 1) = u32 (cr t + Z.of_nat (length dn) + Z.of_nat (length ln))) by (rewrite H4, wrap_sub_l; f_equal; lia). split.
  - rewrite Eu, u32_mod. rewrite <- Z.add_assoc, <- Nat2Z.inj_add. apply H6. rewrite app_assoc, lookup_app_r, length_app, Nat.sub_diag by (rewrite length_app; lia). done.
  - split; cbn [cbuf cr cw ce set_cons]; try done.
    + lia.
    + intros k x Hk. apply H6. rewrite app_assoc. by apply lookup_app_l_Some.
Qed.

Lemma ring_pop t c dn ln : ring t (c :: dn) ln ->
  cbuf t !! Z.to_nat (cr t mod INPUT_BUF_SIZE) = Some c /\ ring (set_cons (cbuf t) (u32 (cr t + 1)) (cw t) (ce t) t) dn ln.
Proof.
  intros [H1 H2 H3 H4 H5 H6]. cbn [length] in *. split.
  - pose proof (H6 0%nat c eq_refl) as H7. by rewrite Z.add_0_r in H7.
  - split; cbn [cbuf cr cw ce set_cons]; try done.
    + apply (wrap_range 32). lia.
    + rewrite H3, wrap_add_l. f_equal. lia.
    + rewrite H4, <- (Z.add_assoc (u32 (cr t + 1))), wrap_add_l. f_equal. lia.
    + lia.
    + intros k x Hk. replace ((u32 (cr t + 1) + Z.of_nat k) mod INPUT_BUF_SIZE) with ((cr t + Z.of_nat (S k)) mod INPUT_BUF_SIZE); [by apply H6|].
      rewrite <- (Zplus_mod_idemp_l (u32 (cr t + 1))), u32_mod, Zplus_mod_idemp_l. f_equal. lia.
Qed.

Lemma ring_editing t dn ln : ring t dn ln -> (ce t =? cw t) = bool_decide (ln = []).
Proof.
  intros [H1 H2 H3 H4 H5 H6]. rewrite H3, H4, Z.eqb_sym. unfold INPUT_BUF_SIZE in *.
  assert (Eu : u32 (cr t + Z.of_nat (length dn) + Z.of_nat (length ln)) = u32 (u32 (cr t + Z.of_nat (length dn)) + Z.of_nat (length ln))) by (by rewrite wrap_add_l).
  rewrite Eu, u32_same by (first [apply (wrap_range 32); lia|lia]). destruct ln; [done|]. apply Z.eqb_neq. cbn [length]. lia.
Qed.

Lemma ring_readable t dn ln : ring t dn ln -> (cr t =? cw t) = bool_decide (dn = []).
Proof.
  intros [H1 H2 H3 H4 H5 H6]. unfold INPUT_BUF_SIZE in *. rewrite H3, u32_same by lia. destruct dn; [done|]. apply Z.eqb_neq. cbn [length]. lia.
Qed.

Lemma ring_used t dn ln : ring t dn ln -> u32 (ce t - cr t) = Z.of_nat (length dn) + Z.of_nat (length ln).
Proof. intros [H1 H2 H3 H4 H5 H6]. unfold INPUT_BUF_SIZE in *. rewrite H4, <- Z.add_assoc. apply u32_back; lia. Qed.
End Ring.
