(* ===== verification/ConsoleProps.v ===== *)
(** * What the console does with a typed character and with a read *)
From S2P Require Import Prelude Spinlock Bytes UserMem Uart Printf Console ConsoleInv.

(** The complete input and the line after character [c], and its echo. *)
Definition typed (c : Z) (dn ln : list Z) : list Z * list Z :=
  if c =? C 80 then (dn, ln)
  else if c =? C 85 then (dn, [])
  else if (c =? C 72) || (c =? 0x7f) then (dn, removelast ln)
  else if negb (c =? 0) && (Z.of_nat (length dn + length ln) <? INPUT_BUF_SIZE) then
    let c := if c =? 13 then 10 else c in
    let ln := ln ++ [c] in
    if (c =? 10) || (c =? C 68) || (Z.of_nat (length dn + length ln) =? INPUT_BUF_SIZE) then (dn ++ ln, []) else (dn, ln)
  else (dn, ln).
Definition erase : list Z := [8; 32; 8].
(** [ps] is the process table. *)
Definition echo (ps : list proc_row) (c : Z) (dn ln : list Z) : list Z :=
  if c =? C 80 then concat (put_chars <$> dump_text ps)
  else if c =? C 85 then concat (replicate (length ln) erase)
  else if (c =? C 72) || (c =? 0x7f) then (if decide (ln = []) then [] else erase)
  else if negb (c =? 0) && (Z.of_nat (length dn + length ln) <? INPUT_BUF_SIZE) then put_chars (if c =? 13 then 10 else c)
  else [].
(** Whether [c] completes input. *)
Definition completes (c : Z) (dn ln : list Z) : bool := bool_decide ((typed c dn ln).1 <> dn).

Section Props.
Context {W : Type} `{ul : uart_laws W} {E : Type} `{el : ttyenv_laws E} {U : Type} `{!usermem U} (spins : nat).
Hypothesis Hspins : (busy_max < spins)%nat.
Local Abbreviation tty := (tty W E).
Implicit Types t : tty.

(** Only the serial line and the ring differ. *)
Definition same_rest t t' : Prop := termios t' = termios t /\ t_pgid t' = t_pgid t /\ t_kmem t' = t_kmem t.

Lemma cons_lock_in : cons_lock ∈ tty_locks.
Proof. unfold tty_locks. set_solver. Qed.

Lemma cons_acquire_ok t : uart_free (t_ust t) -> exists c, cons_acquire t = Done tt (set_ust (set_ucpu c (t_ust t)) t) /\ uart_one cons_lock (set_ucpu c (t_ust t)).
Proof.
  intros [Hl Hc]. destruct (lk_acquire _ _ _ Hc cons_lock_in) as (c & Ec & H1). exists c. split; [|by split]. unfold cons_acquire, on_ust, uart_cpu, zoom. by rewrite Ec.
Qed.
Lemma cons_release_ok t : uart_one cons_lock (t_ust t) -> exists c, cons_release t = Done tt (set_ust (set_ucpu c (t_ust t)) t) /\ uart_free (set_ucpu c (t_ust t)).
Proof.
  intros [Hl Hc]. destruct (lk_release _ _ _ Hc) as (c & Ec & H1). exists c. split; [|by split]. unfold cons_release, on_ust, uart_cpu, zoom. by rewrite Ec.
Qed.

(** The body of [consoleintr]: from the state with the lock to the state
    before its release. *)
Record body_ok t t' (dn ln out : list Z) (wk : list tchan) : Prop := {
  bo_ring : ring t' dn ln;
  bo_uart : uart_one cons_lock (t_ust t');
  bo_sent : sent (udev (t_ust t')) = sent (udev (t_ust t)) ++ out;
  bo_woken : woken (uenv (t_ust t')) = woken (uenv (t_ust t)) ++ wk;
  bo_rest : same_rest t t'
}.

Lemma put_body t dn ln b r w e c : ring (set_cons b r w e t) dn ln -> uart_one cons_lock (t_ust t) ->
  exists t', consputc spins c (set_cons b r w e t) = Done tt t' /\ body_ok t t' dn ln (put_chars c) [] /\ cbuf t' = b /\ cr t' = r /\ cw t' = w /\ ce t' = e.
Proof.
  intros Hr Hu. destruct (consputc_ok spins Hspins (set_cons b r w e t) c Hu) as (x & Ex & Hd & Hs). eexists. split; [exact Ex|]. split; [|done].
  split; [by destruct Hr; split| | | |done].
  - destruct Hu as [[_ Hp] Hl]. split; [split; [exact Hd|exact Hp]|exact Hl].
  - exact Hs.
  - symmetry. apply app_nil_r.
Qed.

Lemma body_trans t1 t2 t3 dn ln dn' ln' o1 o2 w1 w2 : body_ok t1 t2 dn ln o1 w1 -> body_ok t2 t3 dn' ln' o2 w2 -> body_ok t1 t3 dn' ln' (o1 ++ o2) (w1 ++ w2).
Proof.
  intros [_ _ S1 K1 (R1 & R2 & R3)] [G2 U2 S2 K2 (Q1 & Q2 & Q3)]. split; [done|done|by rewrite S2, S1, app_assoc|by rewrite K2, K1, app_assoc|].
  split; [congruence|]. split; congruence.
Qed.

Lemma kill_line_ok dn : forall ln fuel t, ring t dn ln -> Forall (fun x => x <> 10) ln -> uart_one cons_lock (t_ust t) -> (length ln < fuel)%nat ->
  exists t', kill_line spins fuel t = Done tt t' /\ body_ok t t' dn [] (concat (replicate (length ln) erase)) [].
Proof.
  induction ln as [|c ln IH] using rev_ind; intros [|fuel] t Hr Hne Hu Hf; try (rewrite ?length_app in Hf; cbn in Hf; lia); cbn [kill_line].
  - exists t. rewrite bind_get, (ring_editing _ _ _ Hr). split; [done|]. split; [done|done|by rewrite app_nil_r|by rewrite app_nil_r|done].
  - rewrite bind_get, (ring_editing _ _ _ Hr), bool_decide_eq_false_2 by (by destruct ln). destruct (ring_drop _ _ _ _ Hr) as [Ec Hr1]. rewrite Ec, bind_deref.
    apply Forall_app in Hne as [Hne Hc]. apply Forall_cons in Hc as [Hc _]. rewrite (proj2 (Z.eqb_neq c 10)) by done. rewrite bind_modify.
    destruct (put_body t dn ln _ _ _ _ BACKSPACE Hr1 Hu) as (t1 & E1 & B1 & _). rewrite (bind_Done _ _ _ _ _ E1).
    destruct (IH fuel t1 (bo_ring _ _ _ _ _ _ B1) Hne (bo_uart _ _ _ _ _ _ B1)) as (t2 & E2 & B2); [rewrite length_app in Hf; cbn [length] in Hf; lia|].
    exists t2. split; [exact E2|]. rewrite length_app, Nat.add_comm. exact (body_trans _ _ _ _ _ _ _ _ _ _ _ B1 B2).
Qed.

(** A character that is stored. *)
Lemma store_ok t dn ln c : ring t dn ln -> uart_one cons_lock (t_ust t) -> Z.of_nat (length dn + length ln) < INPUT_BUF_SIZE -> 0 <= c < 256 ->
  let full := (c =? 10) || (c =? C 68) || (Z.of_nat (length dn + length (ln ++ [c])) =? INPUT_BUF_SIZE) in
  exists t', (consputc spins c;;
      t ← get;
      let e := u32 (ce t + 1) in
      modify (set_cons (<[Z.to_nat (ce t mod INPUT_BUF_SIZE) := u8 c]> (cbuf t)) (cr t) (cw t) e);;
      if (c =? 10) || (c =? C 68) || (u32 (e - cr t) =? INPUT_BUF_SIZE) then
        modify (fun t => set_cons (cbuf t) (cr t) e (ce t) t);;
        on_ust (uart_env (tty_wakeup ChCons))
      else mret tt) t = Done tt t' /\
    body_ok t t' (if full then dn ++ ln ++ [c] else dn) (if full then [] else ln ++ [c]) (put_chars c) (if full then [ChCons] else []).
Proof.
  intros Hr Hu Hlt Hc full. destruct (put_body t dn ln (cbuf t) (cr t) (cw t) (ce t) c) as (t1 & E1 & B1 & Hb & Hcr & Hcw & Hce); [by destruct Hr; split|done|].
  replace (set_cons (cbuf t) (cr t) (cw t) (ce t) t) with t in E1 by (by destruct t). rewrite (bind_Done _ _ _ _ _ E1), bind_get. cbv zeta. rewrite bind_modify.
  rewrite (wrap_small 8 c) by lia. pose proof (ring_push _ _ _ c (bo_ring _ _ _ _ _ _ B1) ltac:(lia)) as Hr1.
  pose proof (ring_used _ _ _ Hr1) as Hused. cbn [ce cr set_cons] in Hused. rewrite Hused, <- Nat2Z.inj_add. fold full.
  destruct B1 as [_ [Hl Hk] Hs Hw Hrest]. destruct full.
  - rewrite bind_modify. destruct (wakeup_ok ChCons (uenv (t_ust t1))) as (e' & Ew & Hwk). eexists. split; [unfold on_ust, uart_env, zoom; cbn [t_ust uenv set_cons]; rewrite Ew; reflexivity|].
    pose proof (ring_commit _ _ _ _ Hr1 eq_refl) as Hr2. split; [by destruct Hr2; split|split; [exact Hl|exact Hk]|exact Hs|cbn; by rewrite Hwk, Hw, app_nil_r|done].
  - eexists. split; [reflexivity|]. split; [done|by split|exact Hs|exact Hw|done].
Qed.

(** C20: [consoleintr] of any character returns, keeps the ring consistent,
    and does to the complete input and the line being edited what [typed]
    says: ^U clears the line, ^H and DEL take its last character, any other
    character is added while fewer than 128 are kept, and newline, ^D and the
    128th complete the line; the serial line gets exactly the echo, which for
    ^P is the list [procdump] prints, one line for each process, and the
    readers are woken exactly when input was completed. *)
Theorem consoleintr_refines t dn ln c : console_is t dn ln -> 0 <= c < 256 ->
  exists t', consoleintr spins c t = Done tt t' /\ console_is t' (typed c dn ln).1 (typed c dn ln).2 /\
    sent (udev (t_ust t')) = sent (udev (t_ust t)) ++ echo (tty_procs (uenv (t_ust t))) c dn ln /\
    woken (uenv (t_ust t')) = woken (uenv (t_ust t)) ++ (if completes c dn ln then [ChCons] else []) /\ same_rest t t'.
Proof.
  intros [Hr Hne Hu] Hc. destruct (cons_acquire_ok t Hu) as (c1 & E1 & Hu1). unfold consoleintr. rewrite (bind_Done _ _ _ _ _ E1). set (t1 := set_ust _ t).
  assert (Hr1 : ring t1 dn ln) by (by destruct Hr; split).
  assert (Hbody : forall (m : M tty unit) dn' ln' out wk, Forall (fun x => x <> 10) ln' ->
    (exists t2, m t1 = Done tt t2 /\ body_ok t1 t2 dn' ln' out wk) ->
    exists t', (m;; cons_release) t1 = Done tt t' /\ console_is t' dn' ln' /\ sent (udev (t_ust t')) = sent (udev (t_ust t)) ++ out /\
      woken (uenv (t_ust t')) = woken (uenv (t_ust t)) ++ wk /\ same_rest t t').
  { intros m dn' ln' out wk Hln (t2 & E2 & [Hr2 Hu2 Hs2 Hw2 Hrest]). rewrite (bind_Done _ _ _ _ _ E2). destruct (cons_release_ok t2 Hu2) as (c2 & E3 & Hu3).
    eexists. split; [exact E3|]. split; [split; [by destruct Hr2; split|done|exact Hu3]|]. split; [exact Hs2|]. split; [exact Hw2|exact Hrest]. }
  assert (Hnop : body_ok t1 t1 dn ln [] []) by (split; [done|done|by rewrite app_nil_r|by rewrite app_nil_r|done]).
  unfold completes, typed, echo. destruct (c =? C 80).
  { rewrite bool_decide_eq_false_2 by (by intros []). apply Hbody; [done|]. destruct (procdump_ok spins Hspins (t_ust t1) Hu1) as (w & Ep & Hd & Hs).
    eexists. split; [unfold on_ust, zoom; rewrite Ep; reflexivity|]. split; [by destruct Hr1; split|by apply uart_one_dev|exact Hs|by rewrite app_nil_r|done]. }
  destruct (c =? C 85).
  { rewrite bool_decide_eq_false_2 by (by intros []). apply Hbody; [done|]. rewrite bind_get. apply kill_line_ok; [done|done|done|].
    destruct Hr1 as [_ ? ? ? ? _]. unfold INPUT_BUF_SIZE in *. rewrite rg_w, rg_e, <- wrap_add_l, u32_back by (first [apply (wrap_range 32); lia|lia]). lia. }
  destruct ((c =? C 72) || (c =? 0x7f)).
  { rewrite bool_decide_eq_false_2 by (by intros []). apply Hbody.
    - destruct ln as [|x ln _] using rev_ind; [done|]. rewrite removelast_last. by apply Forall_app in Hne as [? _].
    - rewrite bind_get, (ring_editing _ _ _ Hr1). destruct ln as [|x ln _] using rev_ind; [by exists t1|]. rewrite bool_decide_eq_false_2, decide_False by (by destruct ln).
      destruct (ring_drop _ _ _ _ Hr1) as [_ Hr2]. rewrite removelast_last, bind_modify. destruct (put_body t1 dn ln _ _ _ _ BACKSPACE Hr2 Hu1) as (t2 & E2 & B2 & _). by exists t2. }
  rewrite bind_assoc, bind_get, (ring_used _ _ _ Hr1), <- Nat2Z.inj_add. destruct (negb (c =? 0) && _) eqn:Ek.
  2:{ rewrite bool_decide_eq_false_2 by (by intros []). apply Hbody; [done|]. by exists t1. }
  bool_hyps. cbv zeta. set (c' := if c =? 13 then 10 else c). assert (Hc' : 0 <= c' < 256) by (unfold c'; destruct (c =? 13); lia).
  destruct (store_ok t1 dn ln c' Hr1 Hu1 ltac:(lia) Hc') as (t2 & E2 & B2). cbv zeta in B2.
  destruct ((c' =? 10) || (c' =? C 68) || _) eqn:Efull; cbn [Datatypes.fst Datatypes.snd].
  - rewrite bool_decide_eq_true_2. 2:{ intros E3. apply (f_equal length) in E3. rewrite !length_app in E3. cbn in E3. lia. }
    apply Hbody; [constructor|]. by exists t2.
  - rewrite bool_decide_eq_false_2 by (by intros []). apply Hbody; [|by exists t2]. apply Forall_app. split; [done|]. constructor; [|constructor]. bool_hyps. done.
Qed.
End Props.

(** ** Reading *)

(** What a read with [n] of [target] bytes to go takes from the complete
    input: the bytes, what stays, and how it stops: with [m] bytes still to
    go it is finished, or asleep. *)
Inductive stop := Fin (m : Z) | Wait (m : Z).
Fixpoint deliver (target n : Z) (dn : list Z) : list Z * list Z * stop :=
  if n <=? 0 then ([], dn, Fin n)
  else match dn with
       | [] => ([], [], Wait n)
       | c :: dn' =>
           if c =? C 68 then ([], if n <? target then dn else dn', Fin n)
           else if c =? 10 then ([c], dn', Fin (n - 1))
           else let '(out, rest, e) := deliver target (n - 1) dn' in (c :: out, rest, e)
       end.
(** The bytes go one by one to user memory from [a] on. *)
Fixpoint writes {U} `{usermem U} (a : Z) (bs : list Z) (u : U) : option U :=
  match bs with
  | [] => Some u
  | b :: bs => let r := copyout a [b] u in if r.1 =? 0 then writes (u64 (a + 1)) bs r.2 else None
  end.

Section Read.
Context {W : Type} `{ul : uart_laws W} {E : Type} `{el : ttyenv_laws E} {U : Type} `{us : !usermem U}.
Local Abbreviation tty := (tty W E).
Implicit Types t : tty.

Lemma bind_on_tty {A B} (m : M tty A) (f : A -> M (tty * U) B) t u a t' : m t = Done a t' -> (on_tty m ≫= f) (t, u) = f a (t', u).
Proof. intros Em. unfold mbind, M_bind, on_tty, zoom. cbn [Datatypes.fst Datatypes.snd]. by rewrite Em. Qed.

Definition read_outcome (t : tty) (target dst n : Z) (e : stop) : cresult :=
  match e with Fin m => CRet (target - m) | Wait m => if tty_killed (uenv (t_ust t)) then CRet (-1) else CSlept (u64 (dst + (n - m))) m end.
Record read_end t t' (dn ln : list Z) : Prop := {
  re_ring : ring t' dn ln;
  re_uart : uart_free (t_ust t');
  re_sent : udev (t_ust t') = udev (t_ust t) /\ uenv (t_ust t') = uenv (t_ust t);
  re_rest : same_rest t t'
}.

Lemma unpop t : 0 <= cr t < 2 ^ 32 ->
  set_cons (cbuf t) (u32 (u32 (cr t + 1) - 1)) (cw t) (ce t) (set_cons (cbuf t) (u32 (cr t + 1)) (cw t) (ce t) t) = t.
Proof. intros Hr. rewrite wrap_sub_l. replace (cr t + 1 - 1) with (cr t) by lia. rewrite wrap_small by lia. by destruct t. Qed.

Lemma release_end t dn ln : ring t dn ln -> uart_one cons_lock (t_ust t) ->
  exists t', (forall A (k : unit -> M (tty * U) A) u, (on_tty cons_release ≫= k) (t, u) = k tt (t', u)) /\ read_end t t' dn ln.
Proof.
  intros Hr Hu. destruct (cons_release_ok t Hu) as (c & Ec & Hf). eexists. split; [intros A k u; by apply bind_on_tty|]. split; [by destruct Hr; split|done|done|done].
Qed.

Lemma consoleread_loop_ok ln target : 0 <= target < 2 ^ 31 -> forall dn fuel t u dst n out rest e u', ring t dn ln -> uart_one cons_lock (t_ust t) ->
  0 <= n <= target -> (Z.to_nat n < fuel)%nat -> 0 <= dst < 2 ^ 64 -> deliver target n dn = (out, rest, e) -> writes dst out u = Some u' ->
  exists t', consoleread_loop fuel true target dst n (t, u) = Done (read_outcome t target dst n e) (t', u') /\ read_end t t' rest ln.
Proof.
  intros Ht. induction dn as [|c dn IH]; intros [|fuel] t u dst n out rest e u' Hr Hu Hn Hf Hdst Hd Hw; try lia; cbn [consoleread_loop deliver] in *; destruct (n <=? 0) eqn:E0; bool_hyps.
  1,3: injection Hd as <- <- <-; injection Hw as <-; rewrite (proj2 (Z.ltb_ge _ _)) by lia;
    destruct (release_end t _ ln Hr Hu) as (t' & E1 & He); exists t'; rewrite E1; split; [|done];
    unfold read_outcome; rewrite swrap_small by lia; done.
  all: rewrite (proj2 (Z.ltb_lt _ _)), bind_gets by lia; cbn [Datatypes.fst]; rewrite (ring_readable _ _ _ Hr).
  - injection Hd as <- <- <-. injection Hw as <-. rewrite bool_decide_eq_true_2 by done. unfold read_outcome. rewrite Z.sub_diag, Z.add_0_r, (wrap_small 64 dst) by lia.
    destruct (tty_killed _); destruct (release_end t [] ln Hr Hu) as (t' & E1 & He); (exists t'; split; [rewrite E1; reflexivity|done]).
  - rewrite bool_decide_eq_false_2 by done. destruct (ring_pop _ _ _ _ Hr) as [Ec Hr1]. rewrite Ec, bind_deref. erewrite bind_on_tty by reflexivity. set (t1 := set_cons _ _ _ _ t) in *.
    assert (Hu1 : uart_one cons_lock (t_ust t1)) by done. destruct (c =? C 68) eqn:ED.
    + injection Hd as <- <- <-. injection Hw as <-. rewrite (wrap_small 32 n) by lia. unfold read_outcome. destruct (n <? target).
      * erewrite bind_on_tty by reflexivity. set (t2 := set_cons _ _ _ _ t1).
        assert (Ht2 : t2 = t) by (exact (unpop t (rg_r _ _ _ Hr))).
        rewrite Ht2. destruct (release_end t (c :: dn) ln Hr Hu) as (t' & E1 & He). exists t'. rewrite E1, swrap_small by lia. by split.
      * rewrite bind_ret. destruct (release_end t1 dn ln Hr1 Hu1) as (t' & E1 & He). exists t'. rewrite E1, swrap_small by lia. split; [done|]. by destruct He; split.
    + unfold tty_copyout. rewrite bind_assoc, bind_gets. cbv zeta. rewrite bind_assoc, bind_modify, bind_ret. cbn [Datatypes.fst Datatypes.snd].
      destruct (c =? 10) eqn:EN.
      * injection Hd as <- <- <-. cbn [writes] in Hw. destruct ((copyout dst [c] u).1 =? 0) eqn:Ew; [|done]. injection Hw as <-. bool_hyps. rewrite Ew.
        change (0 =? -1) with false. cbv iota. destruct (release_end t1 dn ln Hr1 Hu1) as (t' & E1 & He). exists t'. rewrite E1, swrap_small by lia. split; [done|]. by destruct He; split.
      * destruct (deliver target (n - 1) dn) as [[o r] e1] eqn:Ed. injection Hd as <- <- <-. cbn [writes] in Hw. destruct ((copyout dst [c] u).1 =? 0) eqn:Ew; [|done]. bool_hyps. rewrite Ew.
        change (0 =? -1) with false. cbv iota. destruct (IH fuel t1 (copyout dst [c] u).2 (u64 (dst + 1)) (n - 1) o r e1 u' Hr1 Hu1) as (t' & E1 & He); [lia|lia|apply (wrap_range 64); lia|done|done|].
        exists t'. rewrite E1. split; [|by destruct He; split]. f_equal. unfold read_outcome. change (uenv (t_ust t1)) with (uenv (t_ust t)). destruct e1; [done|]. destruct (tty_killed _); [done|].
        f_equal. rewrite wrap_add_l. f_equal. lia.
Qed.

(** C22: [consoleread], from its start or resumed after a sleep with [n] of
    [target] bytes to go, returns what [deliver] takes from the complete
    input: bytes up to and with the first newline, up to a ^D, which it keeps
    for the next call when it has read something, or [n]; with none of these
    it sleeps, or returns -1 when the process was killed, and the bytes it
    took are in user memory.  The line being edited is not touched. *)
Theorem consoleread_correct t dn ln target dst n u out rest e u' : console_is t dn ln -> 0 <= n <= target -> target < 2 ^ 31 -> 0 <= dst < 2 ^ 64 ->
  deliver target n dn = (out, rest, e) -> writes dst out u = Some u' ->
  exists t', consoleread_from true target dst n (t, u) = Done (read_outcome t target dst n e) (t', u') /\ console_is t' rest ln /\
    udev (t_ust t') = udev (t_ust t) /\ same_rest t t'.
Proof.
  intros [Hr Hne Hu] Hn Ht Hdst Hd Hw. destruct (cons_acquire_ok t Hu) as (c1 & E1 & Hu1). unfold consoleread_from. rewrite (bind_on_tty _ _ _ _ _ _ E1). set (t1 := set_ust _ t) in *.
  destruct (consoleread_loop_ok ln target ltac:(lia) dn (S (Z.to_nat n)) t1 u dst n out rest e u') as (t' & E2 & [Hr2 Hu2 [Hs _] Hrest]); [by destruct Hr; split|exact Hu1|lia|lia|done|done|done|].
  exists t'. split; [exact E2|]. split; [by split|]. split; [exact Hs|exact Hrest].
Qed.
End Read.

(** ** Witnesses: a line that is always idle, "ab" typed and a line complete *)
#[local] Instance wit_uart : uart_dev (list Z) := {|
  ReadReg r w := Done (if r =? LSR then LSR_TX_IDLE else 0) w;
  WriteReg r c w := Done tt (if r =? THR then w ++ [c] else w) |}.
#[local] Instance wit_uart_laws : uart_laws (list Z).
Proof.
  refine {| sent := fun w => w; busy := fun _ => O; busy_max := O; data_mode := fun _ => True |}.
  - intros _. lia.
  - intros w _. exists LSR_TX_IDLE, w. split; [done|]. split; [done|]. split; [done|]. by left.
  - intros w _. by exists 0, w.
  - intros w c _. by exists (w ++ [c]).
Defined.
#[local] Instance wit_env : ttyenv (list tchan) := {| tty_wakeup ch e := Done tt (e ++ [ch]); tty_killed e := false;
  tty_procs _ := [ProcRow 2 1 [105; 110; 105; 116]; ProcRow 0 0 []; ProcRow 4 12 [115; 104]] |}.
#[local] Instance wit_env_laws : ttyenv_laws (list tchan).
Proof. refine {| woken := fun e => e |}; [intros ch e; by exists (e ++ [ch])|intros e; repeat constructor; cbn; lia]. Defined.

Definition wit_cpu : cpu := Cpu 0 false true (<[cons_lock := free_lock]> (<[uart_tx_lock := free_lock]> {[pr_lock := free_lock]})).
Definition wit_tty : tty (list Z) (list tchan) :=
  Tty (Ust wit_cpu [] [] (replicate 32 0) 0 0 false true) ([104; 10; 97; 98] ++ replicate 124 0) 0 2 4 default_termios 1 (fun _ => 0).

Lemma wit_console : console_is wit_tty [104; 10] [97; 98].
Proof.
  split.
  - split; [reflexivity|cbn; lia|reflexivity|reflexivity|cbn; unfold INPUT_BUF_SIZE; lia|]. intros k x Hk. destruct k as [|[|[|[|k]]]]; [exact Hk|exact Hk|exact Hk|exact Hk|done].
  - repeat constructor; discriminate.
  - split; [by split|]. split.
    + split; [done| | |lia].
      * intros a l. unfold wit_tty, wit_cpu. cbn [t_ust ucpu locks]. rewrite decide_False by apply not_elem_of_empty. rewrite !lookup_insert_Some, lookup_singleton_Some. naive_solver.
      * intros a Ha. by apply not_elem_of_empty in Ha.
    + intros a Ha. unfold tty_locks in Ha. rewrite !elem_of_union, !elem_of_singleton in Ha. destruct Ha as [[->| ->]| ->]; by eexists.
Qed.

(** DEL takes the b back, and ^P lists "1 sleep  init" and "12 run    sh". *)
Lemma consoleintr_refines_witness :
  (exists t', consoleintr 1 0x7f wit_tty = Done tt t' /\ console_is t' [104; 10] [97] /\ udev (t_ust t') = [8; 32; 8]) /\
  (exists t', consoleintr 1 (C 80) wit_tty = Done tt t' /\ console_is t' [104; 10] [97; 98] /\
     udev (t_ust t') = [13; 10; 49; 32; 115; 108; 101; 101; 112; 32; 32; 105; 110; 105; 116; 13; 10;
                        49; 50; 32; 114; 117; 110; 32; 32; 32; 32; 115; 104; 13; 10]).
Proof.
  split; [|destruct (consoleintr_refines (ul := wit_uart_laws) 1 (le_n 1) wit_tty [104; 10] [97; 98] (C 80) wit_console ltac:(unfold C; lia)) as (t' & E & H1 & H2 & _);
    exists t'; split; [exact E|]; split; [exact H1|etransitivity; [exact H2|vm_compute; reflexivity]]].
  destruct (consoleintr_refines (ul := wit_uart_laws) 1 (le_n 1) wit_tty [104; 10] [97; 98] 0x7f wit_console ltac:(lia)) as (t' & E & H1 & H2 & _).
  exists t'. split; [exact E|]. split; [exact H1|exact H2].
Defined.

(** A read of ten bytes returns the line "h". *)
Definition wit_before : flat := <[100 := 0]> {[101 := 0]}.
Definition wit_after : flat := <[100 := 104]> {[101 := 10]}.
Lemma wit_writes : writes 100 [104; 10] wit_before = Some wit_after.
Proof. vm_compute. reflexivity. Qed.
Lemma consoleread_correct_witness : exists t', consoleread_from true 10 100 10 (wit_tty, wit_before) = Done (CRet 2) (t', wit_after) /\ console_is t' [] [97; 98].
Proof.
  destruct (consoleread_correct (us := flat_usermem) wit_tty [104; 10] [97; 98] 10 100 10 wit_before [104; 10] [] (Fin 8) wit_after wit_console
    ltac:(lia) ltac:(lia) ltac:(lia) eq_refl wit_writes) as (t' & E & H1 & _).
  exists t'. split; [exact E|exact H1].
Defined.
