(* ===== verification/Exec.v ===== *)
(** * Program loading (kernel/exec.c, sys_execve of kernel/sysfile.c)

    [est] is what exec works on: the mappings, pages and files of Mmap.v, the
    allocator's [freep] of Kmalloc.v over the same pages, and the fields of
    [struct proc] and its trap frame that exec sets.  The signal handlers are
    the class [procsig].  The locals [elf] and [ph], which [readi] fills, are
    at fixed addresses of kernel memory.  Each [goto bad] or [goto out] is a
    value [inr], which the caller cleans up.  [fence_i] has no effect on the
    model. *)
From S2P Require Import Prelude Spinlock Bytes UserMem Cred Bio Fs File Syscall Vm Kmalloc Sysfile Mmap.
From S2P Require Proc.

Definition E2BIG : Z := 7.
Definition ENOEXEC : Z := 8.
Definition ENAMETOOLONG : Z := 36.
Definition MAX_ERRNO : Z := 4095.
Definition IS_ERR (x : Z) : bool := u64 (- MAX_ERRNO) <=? x.
Definition MAXARG : Z := 8.
Definition ELF_MAGIC : Z := 0x464C457F.
Definition ET_EXEC : Z := 2.
Definition ET_DYN : Z := 3.
Definition EM_RISCV : Z := 243.
Definition PT_LOAD : Z := 1.
Definition PT_INTERP : Z := 3.
Definition PF_X : Z := 1.
Definition PF_W : Z := 2.
Definition PF_R : Z := 4.
Definition S_ISGID : Z := 0x400.
Definition S_IXGRP : Z := 8.
Definition ELF_MIN_ALIGN : Z := 4096.
Definition ELF_PAGESTART (v : Z) : Z := Z.land v (u64 (Z.lnot (ELF_MIN_ALIGN - 1))).
Definition ELF_PAGEOFFSET (v : Z) : Z := Z.land v (ELF_MIN_ALIGN - 1).
Definition ELF_PAGEALIGN (v : Z) : Z := ELF_PAGESTART (u64 (v + ELF_MIN_ALIGN - 1)).
Definition ELF_HWCAP : Z := 0x20112d.
(** "riscv" with its NUL. *)
Definition ELF_PLATFORM : list Z := [114; 105; 115; 99; 118; 0].
Definition AT_NULL : Z := 0.
Definition AT_PHDR : Z := 3.
Definition AT_PHENT : Z := 4.
Definition AT_PHNUM : Z := 5.
Definition AT_PAGESZ : Z := 6.
Definition AT_BASE : Z := 7.
Definition AT_FLAGS : Z := 8.
Definition AT_ENTRY : Z := 9.
Definition AT_UID : Z := 11.
Definition AT_EUID : Z := 12.
Definition AT_GID : Z := 13.
Definition AT_EGID : Z := 14.
Definition AT_PLATFORM : Z := 15.
Definition AT_HWCAP : Z := 16.
Definition AT_CLKTCK : Z := 17.

(** The fields of [struct elfhdr] and [struct proghdr] that exec reads. *)
Definition sizeof_elfhdr : Z := 64.
Record elfhdr := Elfhdr {
  eh_magic : Z; eh_type : Z; eh_machine : Z; eh_entry : Z; eh_phoff : Z; eh_phentsize : Z; eh_phnum : Z
}.
Definition elfhdr_at (m : bytes) (a : Z) : elfhdr :=
  Elfhdr (rd32 m a) (rd16 m (a + 16)) (rd16 m (a + 18)) (rd64 m (a + 24)) (rd64 m (a + 32)) (rd16 m (a + 54)) (rd16 m (a + 56)).
Definition sizeof_proghdr : Z := 56.
Record proghdr := Proghdr { ph_type : Z; ph_flags : Z; ph_off : Z; ph_vaddr : Z; ph_filesz : Z; ph_memsz : Z }.
Definition proghdr_at (m : bytes) (a : Z) : proghdr :=
  Proghdr (rd32 m a) (rd32 m (a + 4)) (rd64 m (a + 8)) (rd64 m (a + 16)) (rd64 m (a + 32)) (rd64 m (a + 40)).

Definition flags2perm (flags : Z) : Z :=
  let perm := if flag flags PF_X then PTE_X else 0 in
  let perm := if flag flags PF_W then Z.lor perm PTE_W else perm in
  if flag flags PF_R then Z.lor perm PTE_R else perm.
(** The protection and the flags [load_interpreter] maps a segment with. *)
Definition interp_prot (flags : Z) : Z :=
  Z.lor (if flag flags PF_R then PROT_READ else 0)
        (Z.lor (if flag flags PF_W then PROT_WRITE else 0) (if flag flags PF_X then PROT_EXEC else 0)).
Definition interp_flags (prot : Z) : Z := if flag prot PROT_WRITE then MAP_PRIVATE else MAP_SHARED.

(** The capabilities of the new program. *)
Definition exec_caps (c : cred) : cred :=
  let full := u32 (Z.lnot 0) in
  let ip := if (uid c =? 0) || (euid c =? 0) then full else 0 in
  let e := if (euid c =? 0) || (fsuid c =? 0) then full else 0 in
  Cred (uid c) (euid c) (suid c) (fsuid c) (gid c) (egid c) (sgid c) (fsgid c) e ip ip (umask c).
(** The file system ids of a set-user-id or set-group-id program. *)
Definition exec_ids (ip : dinode) (c : cred) : cred :=
  let fu := if flag (d_mode ip) S_ISUID && negb (uid c =? 0) then d_uid ip else uid c in
  let fg := if (Z.land (d_mode ip) (Z.lor S_ISGID S_IXGRP) =? Z.lor S_ISGID S_IXGRP) && negb (gid c =? 0) then d_gid ip else gid c in
  Cred (uid c) (euid c) (suid c) fu (gid c) (egid c) (sgid c) fg (cap_effective c) (cap_inheritable c) (cap_permitted c) (umask c).

(** What follows the last slash of [path]; [last] is the answer so far. *)
Fixpoint base_name (path last : list Z) : list Z :=
  match path with
  | [] => last
  | c :: path => base_name path (if c =? SLASH then path else last)
  end.

Fixpoint str_at (fuel : nat) (m : bytes) (a : Z) : option (list Z) :=
  match fuel with
  | O => None
  | S fuel => if m a =? 0 then Some [] else (fun l => m a :: l) <$> str_at fuel m (a + 1)
  end.
Definition str_fuel : nat := Z.to_nat PGSIZE.
Definition word_bytes (v : Z) : list Z := to_list (wr64 0 v (fun _ => 0)) 0 8.
Definition words_bytes (l : list Z) : list Z := l ≫= word_bytes.

(** ** The initial stack *)
Section Stack.
Context {G : Type} `{!kpages G}.
Context (pagetable : Z).
Local Abbreviation vst := (vst G).

(** The string at an address of the kernel; longer than [str_fuel] is out of
    fuel. *)
Definition kstr (a : Z) : M vst (list Z) :=
  o ← gets (fun s => str_at str_fuel (pmem s) a);
  match o with Some l => mret l | None => nofuel end.

(** The loops over argv and envp: the stack pointer and the addresses pushed
    so far, which live in an array of MAXARG words; [None] when [copyout]
    fails. *)
Fixpoint push_strings (strs : list Z) (sp : Z) (stack : list Z) : M vst (option (Z * list Z)) :=
  match strs with
  | [] => if MAXARG <=? Z.of_nat (length stack) then undef else mret (Some (sp, stack ++ [0]))
  | a :: strs =>
      str ← kstr a;
      let sp := u64 (sp - (Z.of_nat (length str) + 1)) in
      let sp := sp - sp mod 16 in
      r ← copyout pagetable sp (str ++ [0]);
      if r <? 0 then mret None
      else if MAXARG <=? Z.of_nat (length stack) then undef
      else push_strings strs sp (stack ++ [sp])
  end.

(** argc, argv, envp and the auxiliary vector below [sp]: the new stack
    pointer, or [None]. *)
Definition put_vectors (sp argc envc : Z) (ustack estack auxv : list Z) : M vst (option Z) :=
  let u64cnt := envc + 1 + argc + 1 + 1 in
  let sp := u64 (sp - (u64cnt * 8 + 8 * Z.of_nat (length auxv))) in
  let sp := sp - sp mod 16 in
  r ← copyout pagetable sp (words_bytes [argc]);
  if r <? 0 then mret None
  else
    r ← copyout pagetable (u64 (sp + 8)) (words_bytes ustack);
    if r <? 0 then mret None
    else
      r ← copyout pagetable (u64 (sp + (argc + 2) * 8)) (words_bytes estack);
      if r <? 0 then mret None
      else
        r ← copyout pagetable (u64 (sp + (envc + argc + 3) * 8)) (words_bytes auxv);
        if r <? 0 then mret None else mret (Some sp).

(** From the top of the stack [sp]: the stack pointer, or what the variable
    errno holds at [goto bad]. *)
Definition build_stack (sp : Z) (has_interp : bool) (argv envp : list Z) (auxv : Z -> list Z) (errno : Z) : M vst (Z + Z) :=
  p ← (if has_interp then
         let sp := u64 (sp - Z.of_nat (length ELF_PLATFORM)) in
         let sp := sp - sp mod 16 in
         r ← copyout pagetable sp ELF_PLATFORM;
         mret (if r <? 0 then None else Some (sp, sp))
       else mret (Some (sp, 0)));
  match p with
  | None => mret (inr errno)
  | Some (sp, platform) =>
      a ← push_strings argv sp [];
      match a with
      | None => mret (inr (- EIO))
      | Some (sp, ustack) =>
          e ← push_strings envp sp [];
          match e with
          | None => mret (inr (- EIO))
          | Some (sp, estack) =>
              r ← put_vectors sp (Z.of_nat (length argv)) (Z.of_nat (length envp)) ustack estack (auxv platform);
              mret (match r with Some sp => inl sp | None => inr (- EIO) end)
          end
      end
  end.
End Stack.

(** The auxiliary vectors of dynamic and of static programs. *)
Definition auxv_dyn (elf : elfhdr) (interp_base : Z) (c : cred) (platform : Z) : list Z :=
  [AT_PHDR; eh_phoff elf; AT_PHENT; sizeof_proghdr; AT_PHNUM; eh_phnum elf; AT_PAGESZ; PGSIZE; AT_BASE; interp_base;
   AT_FLAGS; 0; AT_ENTRY; eh_entry elf; AT_UID; uid c; AT_EUID; euid c; AT_GID; gid c; AT_EGID; egid c;
   AT_PLATFORM; platform; AT_HWCAP; ELF_HWCAP; AT_CLKTCK; 100; AT_NULL; 0].
Definition auxv_sta : list Z := [AT_PAGESZ; PGSIZE; AT_NULL; 0].

(** [flush_signal_handlers] of the current process. *)
Class procsig (E : Type) := ProcSig { flush_handlers : M E unit }.
#[export] Instance proc_procsig {W} `{!Proc.kenv W} (i : nat) : procsig (Proc.kst W) := {| flush_handlers := Proc.flush_signal_handlers i |}.

(** What the loop over the program headers has found so far: the variables
    interp, has_interp, nph, sz and errno of [execve]. *)
Record loading := Loading { l_interp : Z; l_has : bool; l_nph : Z; l_sz : Z; l_errno : Z }.
Definition set_l_errno v (l : loading) := Loading (l_interp l) (l_has l) (l_nph l) (l_sz l) v.

Section Exec.
Context {D : Type} `{!sdcard D} {U : Type} `{!usermem U} `{!userstr U} {P : Type} `{!pipeops U P} {V : Type} `{!devsw U V}.
Context {G : Type} `{!kpages G} {R : Type} `{!regcache R} {E : Type} `{!procsig E}.
Context (junk : bytes) (stk : list Z) (loops : nat) (fresh_region : region) (rounds : nat).
(** The allocator's [base]; the addresses of the trampoline, of the trap
    frame, and of the locals [elf] and [ph] of [execve] and of
    [load_interpreter]. *)
Context (base trampoline trapframe elf_addr ph_addr elf_addr' ph_addr' : Z).
(** The argument registers. *)
Context (tf : Z -> Z).
Local Abbreviation mmst := (mmst D U P V G R).

Record est := Est {
  emm : mmst; efreep : Z; e_pagetable : Z; e_sz : Z; e_epc : Z; e_sp : Z; e_name : list Z; esig : E
}.
Definition set_e_pagetable v (s : est) := Est (emm s) (efreep s) v (e_sz s) (e_epc s) (e_sp s) (e_name s) (esig s).
Definition set_program sz epc sp name (s : est) := Est (emm s) (efreep s) (e_pagetable s) sz epc sp name (esig s).
Definition on_mm {A} (m : M mmst A) : M est A :=
  zoom emm (fun v s => Est v (efreep s) (e_pagetable s) (e_sz s) (e_epc s) (e_sp s) (e_name s) (esig s)) m.
Definition on_sig {A} (m : M E A) : M est A :=
  zoom esig (fun v s => Est (emm s) (efreep s) (e_pagetable s) (e_sz s) (e_epc s) (e_sp s) (e_name s) v) m.
Definition on_fl {A} (m : M (fls D U P V) A) : M est A := on_mm (on_files m).
Definition on_ifs {A} (m : M (fst D U) A) : M est A := on_fl (on_fs m).
Definition on_pages {A} (m : M (vst G) A) : M est A := on_mm (on_mem m).
Definition set_vm v (s : mmst) : mmst := Mmst (mfl s) v (rheap s) (mrc s) (regions s).
(** The allocator's state: its pages and [freep]. *)
Definition on_km {A} (m : M (kmst G) A) : M est A :=
  zoom (fun s => Kmst (mvm (emm s)) (efreep s))
       (fun k s => Est (set_vm (kvm k) (emm s)) (freep k) (e_pagetable s) (e_sz s) (e_epc s) (e_sp s) (e_name s) (esig s)) m.
Definition kmem_of (s : est) : bytes := pmem (mvm (emm s)).
Definition get_cred : M est cred := gets (fun s => fcred (mfl (emm s))).
Definition upd_cred (g : cred -> cred) : M est unit :=
  on_fl (modify (fun s => Fls (ffs s) (files s) (ofile s) (fdflag s) (g (fcred s)) (fpipes s) (fdevs s))).
(** [readi] into kernel memory. *)
Definition readk (ip : nat) (dst off n : Z) : M est Z := on_ifs (readi junk ip false dst (u32 off) (u32 n)).
Definition kfree_ptr (p : Z) : M est unit := on_km (kmfree rounds p).

Fixpoint close_on_exec (n : nat) (i : nat) : M est unit :=
  match n with
  | O => mret tt
  | S n =>
      o ← on_fl (fd_slot (Z.of_nat i));
      fl ← on_fl (gets fdflag);
      match o with
      | Some f =>
          if bit_test fl (Z.of_nat i) then
            on_fl (fileclose junk f);;
            on_fl (set_fd (Z.of_nat i) None);;
            on_fl (flag_remove (Z.of_nat i))
          else mret tt
      | None => mret tt
      end;;
      close_on_exec n (S i)
  end.
Definition flush_parent_data : M est unit :=
  on_sig flush_handlers;;
  close_on_exec NOFILE 0;;
  upd_cred exec_caps;;
  pt ← gets e_pagetable;
  on_mm (free_mmap_list junk rounds pt).

Definition padzero (elf_bss : Z) : M est unit :=
  let nbyte := ELF_PAGEOFFSET elf_bss in
  if negb (nbyte =? 0) then
    let nbyte := ELF_MIN_ALIGN - nbyte in
    buf ← on_km (kmalloc base rounds nbyte);
    if buf =? 0 then undef
    else
      on_pages (memset buf 0 nbyte);;
      pt ← gets e_pagetable;
      src ← gets (fun s => to_list (kmem_of s) buf nbyte);
      on_pages (copyout pt elf_bss src);;
      kfree_ptr buf
  else mret tt.

Definition mapping_bss (start end_ : Z) : M est Z :=
  let old_start := start in
  let start := ELF_PAGEALIGN start in
  let end_ := ELF_PAGEALIGN end_ in
  if end_ <=? start then padzero old_start;; mret old_start
  else
    pt ← gets e_pagetable;
    r ← on_mm (mmap junk fresh_region rounds pt start (end_ - start) (Z.lor PROT_READ PROT_WRITE)
                 (Z.lor MAP_FIXED (Z.lor MAP_ANONYMOUS MAP_PRIVATE)) None 0);
    mret (u64 r).

(** The loop of [load_interpreter]: [n] headers are left.  The answer is
    load_addr, bss_start and bss_end, or errno. *)
Fixpoint load_interp_segments (n : nat) (f ip : nat) (elf : elfhdr) (off : Z) (addr_fix : bool) (load_addr bss_start bss_end : Z)
    : M est (Z * Z * Z + Z) :=
  match n with
  | O => mret (inl (load_addr, bss_start, bss_end))
  | S n =>
      r ← readk ip ph_addr' off sizeof_proghdr;
      let off' := s32 (off + sizeof_proghdr) in
      if negb (r =? sizeof_proghdr) then mret (inr (- EIO))
      else
        ph ← gets (fun s => proghdr_at (kmem_of s) ph_addr');
        if negb (ph_type ph =? PT_LOAD) then load_interp_segments n f ip elf off' addr_fix load_addr bss_start bss_end
        else if ph_memsz ph <? ph_filesz ph then mret (inr (- ENOEXEC))
        else if u64 (ph_vaddr ph + ph_memsz ph) <? ph_vaddr ph then mret (inr (- ENOEXEC))
        else
          let prot := interp_prot (ph_flags ph) in
          let flags := interp_flags prot in
          let vaddr := ph_vaddr ph in
          let fixed := (eh_type elf =? ET_EXEC) || addr_fix in
          let flags := if fixed then Z.lor flags MAP_FIXED else flags in
          let load_addr := if fixed then load_addr else ELF_PAGESTART (u64 (ELF_ET_DYN_BASE + vaddr)) in
          pt ← gets e_pagetable;
          mapped ← on_mm (mmap junk fresh_region rounds pt (ELF_PAGESTART (u64 (load_addr + vaddr)))
                            (u64 (ph_filesz ph + ELF_PAGEOFFSET vaddr)) prot flags (Some f)
                            (s64 (ph_off ph - ELF_PAGEOFFSET vaddr)));
          let mapped := u64 mapped in
          if IS_ERR mapped then mret (inr (s64 mapped))
          else
            let adjust := negb addr_fix && (eh_type elf =? ET_DYN) in
            let load_addr := if adjust then u64 (mapped - ELF_PAGESTART vaddr) else load_addr in
            load_interp_segments n f ip elf off' (addr_fix || adjust) load_addr
              (Z.max bss_start (u64 (load_addr + vaddr + ph_filesz ph))) (Z.max bss_end (u64 (load_addr + vaddr + ph_memsz ph)))
  end.

(** The answer before [fileclose]: the entry point and the base, or errno. *)
Definition load_interp_file (f : nat) : M est (Z * Z + Z) :=
  fl ← on_fl (get_file f);
  match f_ip fl with
  | None => undef
  | Some ip =>
      r ← readk ip elf_addr' 0 sizeof_elfhdr;
      if negb (r =? sizeof_elfhdr) then mret (inr (- EIO))
      else
        elf ← gets (fun s => elfhdr_at (kmem_of s) elf_addr');
        if negb (eh_type elf =? ET_DYN) && negb (eh_type elf =? ET_EXEC) then mret (inr (- ENOEXEC))
        else if negb (eh_machine elf =? EM_RISCV) then mret (inr (- ENOEXEC))
        else if negb (eh_phentsize elf =? sizeof_proghdr) then mret (inr (- ENOEXEC))
        else if ELF_MIN_ALIGN / sizeof_proghdr <? eh_phnum elf then mret (inr (- ENOEXEC))
        else
          l ← load_interp_segments (Z.to_nat (eh_phnum elf)) f ip elf (s32 (eh_phoff elf)) false 0 0 0;
          match l with
          | inr e => mret (inr e)
          | inl (load_addr, bss_start, bss_end) =>
              padzero bss_start;;
              let bss_start := ELF_PAGESTART (u64 (bss_start + ELF_MIN_ALIGN - 1)) in
              mapped ← (if bss_start <? bss_end then mapping_bss bss_start bss_end else mret 0);
              if IS_ERR mapped then mret (inr (s64 mapped))
              else mret (inl (u64 (eh_entry elf + load_addr), load_addr))
          end
  end.
(** The entry point or the error, as an unsigned word, and the base. *)
Definition load_interpreter (path : list Z) : M est (Z * Z) :=
  o ← on_fl (fileget junk stk loops path);
  match o with
  | inr e => mret (u64 e, 0)
  | inl f =>
      r ← load_interp_file f;
      on_fl (fileclose junk f);;
      mret (match r with inl p => p | inr e => (u64 e, 0) end)
  end.

(** The loop of [loadseg]: [n] bounds its rounds. *)
Fixpoint loadseg_loop (n : nat) (pagetable va : Z) (ip : nat) (offset sz addr i : Z) : M est Z :=
  match n with
  | O => nofuel
  | S k =>
      if i <? sz then
        pa ← on_pages (walkaddr pagetable va);
        if pa =? 0 then panic "loadseg: address should exist"
        else
          let n := if 0 <? addr then (if sz <? PGSIZE - addr then sz else PGSIZE - addr)
                   else if u32 (sz - i) <? PGSIZE then u32 (sz - i) else PGSIZE in
          let sz := if 0 <? addr then u32 (sz + PGSIZE - n) else sz in
          bytes ← readk ip (pa + addr) offset n;
          if negb (u32 bytes =? n) then mret (-1)
          else loadseg_loop k pagetable (u64 (va + n)) ip (u32 (offset + n)) sz 0 (u32 (i + PGSIZE))
      else mret 0
  end.
Definition loadseg (pagetable va : Z) (ip : nat) (offset sz : Z) : M est Z :=
  loadseg_loop (Z.to_nat (u32 sz / PGSIZE + 3)) pagetable va ip (u32 offset) (u32 sz) (Z.land va 0xfff) 0.

(** The loop over the program headers: [n] are left. *)
Fixpoint load_segments (n : nat) (pagetable : Z) (ip : nat) (off : Z) (l : loading) : M est (loading + loading) :=
  match n with
  | O => mret (inl l)
  | S n =>
      r ← readk ip ph_addr off sizeof_proghdr;
      let off' := s32 (off + sizeof_proghdr) in
      if negb (r =? sizeof_proghdr) then mret (inr (set_l_errno (- EIO) l))
      else
        ph ← gets (fun s => proghdr_at (kmem_of s) ph_addr);
        if ph_type ph =? PT_INTERP then
          if l_has l then mret (inr (set_l_errno (- EINVAL) l))
          else if PGSIZE <? ph_filesz ph then mret (inr (set_l_errno (- ENAMETOOLONG) l))
          else
            interp ← on_km (kmalloc base rounds (ph_filesz ph));
            if interp =? 0 then mret (inr (Loading 0 (l_has l) (l_nph l) (l_sz l) (- ENOMEM)))
            else
              bytes ← readk ip interp (ph_off ph) (ph_filesz ph);
              if negb (u64 bytes =? ph_filesz ph) then mret (inr (Loading interp (l_has l) (l_nph l) (l_sz l) (- EIO)))
              else load_segments n pagetable ip off' (Loading interp true (l_nph l) (l_sz l) (l_errno l))
        else if negb (ph_type ph =? PT_LOAD) then load_segments n pagetable ip off' l
        else if ph_memsz ph <? ph_filesz ph then mret (inr (set_l_errno (- ENOEXEC) l))
        else if u64 (ph_vaddr ph + ph_memsz ph) <? ph_vaddr ph then mret (inr (set_l_errno (- ENOEXEC) l))
        else
          let sz := if l_nph l =? 0 then ph_vaddr ph else l_sz l in
          let at_sz sz errno := Loading (l_interp l) (l_has l) (l_nph l + 1) sz errno in
          if (l_nph l =? 0) && negb (sz mod PGSIZE =? 0) then mret (inr (at_sz sz (- ENOEXEC)))
          else
            sz1 ← on_pages (uvmalloc pagetable sz (u64 (ph_vaddr ph + ph_memsz ph)) (flags2perm (ph_flags ph)));
            if sz1 =? 0 then mret (inr (at_sz sz (- ENOMEM)))
            else
              e ← loadseg pagetable (ph_vaddr ph) ip (ph_off ph) (ph_filesz ph);
              if e <? 0 then mret (inr (at_sz sz (- EIO)))
              else load_segments n pagetable ip off' (at_sz sz1 (- ENOEXEC))
  end.

(** [bad:]: a pointer of 0 and no inode are skipped. *)
Definition exec_bad (interp pagetable sz : Z) (ip : option nat) (errno : Z) : M est Z :=
  (if interp =? 0 then mret tt else kfree_ptr interp);;
  (if pagetable =? 0 then mret tt else on_pages (proc_freepagetable pagetable sz));;
  match ip with Some i => on_ifs (iunlockput junk i) | None => mret tt end;;
  mret errno.

(** From the loaded segments to the new program; [oldpagetable] is freed. *)
Definition exec_start (path : list Z) (argv envp : list Z) (elf : elfhdr) (pagetable oldpagetable : Z) (l : loading) : M est Z :=
  r ← (if l_has l then path ← on_pages (kstr (l_interp l)); load_interpreter path else mret (0, 0));
  let '(interp_entry, interp_base) := r in
  if l_has l && IS_ERR interp_entry then exec_bad (l_interp l) pagetable (l_sz l) None (l_errno l)
  else
    sp ← on_pages (uvmalloc pagetable STACKBASE STACKTOP PTE_W);
    if sp =? 0 then exec_bad (l_interp l) pagetable (l_sz l) None (- ENOMEM)
    else
      c ← get_cred;
      b ← on_pages (build_stack pagetable sp (l_has l) argv envp
            (fun platform => if l_has l then auxv_dyn elf interp_base c platform else auxv_sta) (l_errno l));
      match b with
      | inr errno => exec_bad (l_interp l) pagetable (l_sz l) None errno
      | inl sp =>
          oldsz ← gets e_sz;
          modify (set_program (l_sz l) (if l_has l then interp_entry else eh_entry elf) sp (take 15 (base_name path path)));;
          on_pages (proc_freepagetable oldpagetable oldsz);;
          mret (Z.of_nat (length argv))
      end.

Definition execve (path : list Z) (argv envp : list Z) : M est Z :=
  o ← on_ifs (namei junk path stk AT_FDCWD);
  match o with
  | None => mret (- ENOENT)
  | Some ip =>
      on_ifs (ilock junk ip);;
      r ← readk ip elf_addr 0 sizeof_elfhdr;
      if negb (r =? sizeof_elfhdr) then exec_bad 0 0 0 (Some ip) (- EIO)
      else
        elf ← gets (fun s => elfhdr_at (kmem_of s) elf_addr);
        if negb (eh_magic elf =? ELF_MAGIC) then exec_bad 0 0 0 (Some ip) (- ENOEXEC)
        else
          pagetable ← on_pages (proc_pagetable trampoline trapframe);
          if pagetable =? 0 then exec_bad 0 0 0 (Some ip) (- ENOMEM)
          else
            i ← on_ifs (get_inode ip);
            upd_cred (exec_ids (i_copy i));;
            flush_parent_data;;
            oldpagetable ← gets e_pagetable;
            modify (set_e_pagetable pagetable);;
            l ← load_segments (Z.to_nat (eh_phnum elf)) pagetable ip (s32 (eh_phoff elf)) (Loading 0 false 0 0 0);
            match l with
            | inr l => exec_bad (l_interp l) pagetable (l_sz l) (Some ip) (l_errno l)
            | inl l =>
                on_ifs (iunlockput junk ip);;
                exec_start path argv envp elf pagetable oldpagetable l
            end
  end.

(** ** The system call *)

(** Whether the process's regions hold the [n] bytes at [a]. *)
Definition mapped_at (s : est) (a n : Z) : bool :=
  match is_mmap_region rounds a n (emm s) with Done b _ => b | _ => false end.

(** The loops of [sys_execve] that copy the strings of a vector to the kernel:
    [n] more fit.  The addresses of the copies, and the error if any. *)
Fixpoint fetch_args (n : nat) (argp : Z) (argv : list Z) : M est (list Z * Z) :=
  match n with
  | O => mret (argv, - E2BIG)
  | S n =>
      s ← get;
      let u := fuser (ffs (mfl (emm s))) in
      let? p := fetchaddr (e_sz s) (mapped_at s) (u64 (argp + 8 * Z.of_nat (length argv))) u else (argv, - EFAULT) in
      if p =? 0 then mret (argv, 0)
      else
        let? str := fetchstr p MAXPATH u else (argv, - EIO) in
        a ← on_km (kmalloc base rounds (Z.of_nat (length str) + 1));
        if a =? 0 then mret (argv, - ENOMEM)
        else
          on_pages (modify (fun s => Vst (vpg s) (mmove a 0 (Z.of_nat (length str) + 1) (of_list (str ++ [0])) (pmem s))));;
          fetch_args n argp (argv ++ [a])
  end.
Definition fetch_vector (argp : Z) : M est (list Z * Z) :=
  if negb (argp =? 0) && negb (argp =? u64 (-1)) then fetch_args (Z.to_nat (MAXARG - 1)) argp [] else mret ([], 0).
Fixpoint free_args (argv : list Z) : M est unit :=
  match argv with [] => mret tt | a :: argv => kfree_ptr a;; free_args argv end.

Definition sys_execve : M est Z :=
  u ← gets (fun s => fuser (ffs (mfl (emm s))));
  let? path := argstr 0 MAXPATH tf u else - EINVAL in
  let? argvp := argu64 1 tf else - EINVAL in
  let? envpp := argu64 2 tf else - EINVAL in
  a ← fetch_vector argvp;
  let '(argv, error) := a in
  if negb (error =? 0) then free_args argv;; mret error
  else
    e ← fetch_vector envpp;
    let '(envp, error) := e in
    if negb (error =? 0) then free_args argv;; free_args envp;; mret error
    else
      ret ← execve path argv envp;
      free_args argv;;
      free_args envp;;
      mret ret.
End Exec.
Arguments est D U P V G R E : clear implicits.
