(* ===== verification/ExecProps.v ===== *)
(** * The initial stack of a program (kernel/exec.c)

    What [execve] leaves for the program's first instruction: argc, the
    pointers to the arguments and to the environment, and the auxiliary
    vector, contiguous from an aligned stack pointer; the strings above it;
    everything else of the address space as it was. *)
From S2P Require Import Prelude Bytes UserMem Vm VmBits VmInv VmPages VmUser VmProps Mmap Exec.

Section Stack.
Context {P : Type} `{kpages_laws P}.
Local Notation vst := (vst P).
Implicit Types s : vst.
Context (R : gmap Z Z) (T : tree) (root : Z).

(** Writable without a copy. *)
Definition plain s (v : Z) : Prop := 0 <= v < MAXVA /\ umapped (lf T (pmem s) v) = true /\ flag (lf T (pmem s) v) PTE_W = true.
(** Not a byte the process can write. *)
Definition hidden s (x : Z) : Prop := forall v, plain s v -> ~ in_page (PTE2PA (lf T (pmem s) v)) x.
(** The only user bytes that may differ are those from [lo] to [hi]. *)
Record written (lo hi : Z) s s' : Prop := {
  w_space : uspace s' R T root;
  w_lf : forall v, lf T (pmem s') v = lf T (pmem s) v;
  w_out : forall v, 0 <= v -> ~ (lo <= v < hi) -> uread s' T v = uread s T v;
  w_hidden : forall x, hidden s x -> pmem s' x = pmem s x
}.
(** The bytes [l] at the user's address [a]. *)
Definition user_at s (a : Z) (l : list Z) : Prop := forall i, 0 <= i < Z.of_nat (length l) -> uread s T (a + i) = Some (of_list l i).
(** A string of the kernel that user writes cannot change. *)
Definition kstring s (a : Z) (str : list Z) : Prop :=
  str_at str_fuel (pmem s) a = Some str /\ forall i, 0 <= i <= Z.of_nat (length str) -> hidden s (a + i).

Lemma plain_lf s s' v : (forall v, lf T (pmem s') v = lf T (pmem s) v) -> plain s v <-> plain s' v.
Proof. intros E. unfold plain. by rewrite E. Qed.

Lemma written_refl s lo hi : uspace s R T root -> written lo hi s s.
Proof. by split. Qed.

Lemma hidden_written s s' lo hi x : written lo hi s s' -> hidden s x -> hidden s' x.
Proof. intros HW Hx v Hv. rewrite (w_lf _ _ _ _ HW). apply Hx. by apply (plain_lf s s' v (w_lf _ _ _ _ HW)). Qed.

Lemma written_trans s1 s2 s3 lo1 hi1 lo2 hi2 lo hi : written lo1 hi1 s1 s2 -> written lo2 hi2 s2 s3 ->
  lo <= lo1 -> hi1 <= hi -> lo <= lo2 -> hi2 <= hi -> written lo hi s1 s3.
Proof.
  intros H1 H2 ? ? ? ?. split; [apply H2| | |].
  - intros v. rewrite (w_lf _ _ _ _ H2). apply (w_lf _ _ _ _ H1).
  - intros v Hv Ho. rewrite (w_out _ _ _ _ H2) by (done || lia). apply (w_out _ _ _ _ H1); [done|lia].
  - intros x Hx. rewrite (w_hidden _ _ _ _ H2) by (by eapply hidden_written). by apply (w_hidden _ _ _ _ H1).
Qed.

Lemma written_weaken a b lo hi s s' : written a b s s' -> lo <= a -> b <= hi -> written lo hi s s'.
Proof. intros HW ? ?. eapply written_trans; [exact HW|apply (written_refl s' lo hi), HW|lia..]. Qed.

Lemma user_at_written s s' lo hi a l : written lo hi s s' -> 0 <= a -> hi <= a -> user_at s a l -> user_at s' a l.
Proof. intros HW Hp Ha Hl i Hi. rewrite (w_out _ _ _ _ HW) by lia. by apply Hl. Qed.

Lemma user_at_app s a l1 l2 : user_at s a l1 -> user_at s (a + Z.of_nat (length l1)) l2 -> user_at s a (l1 ++ l2).
Proof.
  intros H1 H2 i Hi. rewrite length_app in Hi. rewrite of_list_lookup by lia.
  destruct (Z.lt_ge_cases i (Z.of_nat (length l1))) as [Hlt|Hge].
  - rewrite H1 by lia. rewrite of_list_lookup by lia. by rewrite lookup_app_l by lia.
  - specialize (H2 (i - Z.of_nat (length l1)) ltac:(lia)). replace (a + i) with (a + Z.of_nat (length l1) + (i - Z.of_nat (length l1))) by lia.
    rewrite H2, of_list_lookup by lia. rewrite lookup_app_r by lia. do 3 f_equal. lia.
Qed.

Lemma str_at_agree m m' n : forall a str, str_at n m a = Some str ->
  (forall i, 0 <= i <= Z.of_nat (length str) -> m' (a + i) = m (a + i)) -> str_at n m' a = Some str.
Proof.
  induction n as [|n IH]; intros a str E Heq; cbn [str_at] in *; [discriminate E|].
  pose proof (Heq 0 ltac:(lia)) as E0. rewrite Z.add_0_r in E0. rewrite E0.
  destruct (m a =? 0); [exact E|]. destruct (str_at n m (a + 1)) as [l|] eqn:El; [|discriminate E].
  injection E as <-. rewrite (IH (a + 1) l El); [done|]. intros i Hi. rewrite <- !Z.add_assoc. apply Heq. cbn [length]. lia.
Qed.

Lemma kstring_written s s' lo hi a str : written lo hi s s' -> kstring s a str -> kstring s' a str.
Proof.
  intros HW [E Hh]. split.
  - apply (str_at_agree (pmem s)); [exact E|]. intros i Hi. by apply (w_hidden _ _ _ _ HW), Hh.
  - intros i Hi. eapply hidden_written; [exact HW|]. by apply Hh.
Qed.

(** [alloc_cow_page] leaves a writable page alone. *)
Lemma alloc_cow_plain s v : uspace s R T root -> plain s v -> 
  alloc_cow_page root (v / PGSIZE * PGSIZE) s = Done 1 s /\ walkaddr root (v / PGSIZE * PGSIZE) s = Done (PTE2PA (lf T (pmem s) v)) s.
Proof.
  intros HU (Hv & Hm & Hw). destruct (page_split v) as [Ev Hvr]. set (va0 := v / PGSIZE * PGSIZE).
  assert (Hva0 : 0 <= va0) by (unfold va0, PGSIZE in *; lia).
  assert (Ep : va0 / PGSIZE = v / PGSIZE) by (by apply page_of).
  assert (El : lf T (pmem s) va0 = lf T (pmem s) v) by (by apply lf_same_page; lia).
  pose proof (proj1 (page_lt_max v) (proj2 Hv)) as Hmax. fold va0 in Hmax.
  split; [|pose proof (walkaddr_page s R T root v HU ltac:(lia)) as E; rewrite (proj2 (Z.ltb_lt v MAXVA)), Hm in E by lia; exact E].
  pose proof (vi_tree _ _ _ _ (us_inv _ _ _ _ HU)) as Htree.
  unfold alloc_cow_page. rewrite (proj2 (Z.leb_gt MAXVA va0)) by lia.
  rewrite (bind_Done _ _ _ _ _ (walk_find s _ T root va0 Htree eq_refl (conj Hva0 Hmax))).
  assert (Hs : T !! (0, pfx 0 va0) <> None). { intros Hn. rewrite <- El in Hm. unfold lf in Hm. rewrite Hn in Hm. discriminate. }
  rewrite (slot_pos _ _ _ _ Htree) by lia. rewrite bool_decide_eq_false_2 by done.
  rewrite (bind_Done _ _ _ _ _ (slot_entry s T va0 Hs)), El. cbn [orb].
  unfold umapped in Hm. apply andb_prop in Hm as [-> ->]. cbn [negb orb]. by rewrite Hw, andb_false_r.
Qed.

Lemma user_write_written s v off m src : uspace s R T root -> plain s v -> v mod PGSIZE = off -> 0 < m <= PGSIZE - off ->
  let s' := Vst (vpg s) (mmove (PTE2PA (lf T (pmem s) v) + off) 0 m (of_list src) (pmem s)) in
  written v (v + m) s s' /\ forall u, v <= u < v + m -> uread s' T u = Some (of_list src (u - v)).
Proof.
  intros HU Hp Ho Hm s'. destruct Hp as (Hv & Hmap & Hw). destruct (user_write s R T root v off m src HU Hv Hmap Ho Hm) as (HU' & Hlf & Hrd & _).
  split; [split; [exact HU'|exact Hlf| |]|].
  - intros u Hu Hout. rewrite Hrd by done. by rewrite decide_False.
  - intros x Hx. apply mmove_out. specialize (Hx v ltac:(by split)). unfold in_page in Hx. pose proof (Z.mod_pos_bound v PGSIZE ltac:(done)). lia.
  - intros u Hu. rewrite Hrd by lia. by rewrite decide_True.
Qed.

Lemma copyout_loop_plain : forall n src va s, uspace s R T root ->
  va mod PGSIZE + Z.of_nat (length src) <= (Z.of_nat n - 1) * PGSIZE -> (1 <= n)%nat -> 0 <= va < 2 ^ 64 ->
  (forall v, va <= v < va + Z.of_nat (length src) -> plain s v) ->
  exists s', copyout_loop n root va src s = Done 0 s' /\ written va (va + Z.of_nat (length src)) s s' /\ user_at s' va src.
Proof.
  induction n as [|n IH]; intros src va s HU Hfuel Hn Hva Hpl; [lia|]. set (len := Z.of_nat (length src)) in *.
  destruct (decide (src = [])) as [->|Hne].
  { exists s. split; [done|]. split; [by apply written_refl|]. intros i Hi. cbn in Hi. lia. }
  rewrite copyout_loop_S by done. destruct (page_split va) as [Eva Hvr]. fold len.
  assert (Hlen0 : 0 < len) by (unfold len; destruct src; [done|cbn [length]; lia]).
  set (m := Z.min (PGSIZE - va mod PGSIZE) len). assert (Hm : 0 < m <= PGSIZE - va mod PGSIZE /\ m <= len) by lia. destruct Hm as [Hm Hml].
  pose proof (Hpl va ltac:(lia)) as Hp. destruct (alloc_cow_plain s va HU Hp) as [E1 E2].
  rewrite !bind_assoc, (bind_Done _ _ _ _ _ E1). cbn [Z.ltb Z.compare].
  rewrite !bind_assoc, (bind_Done _ _ _ _ _ E2).
  destruct Hp as (HvM & Hmap & _). destruct (uspace_page s R T root va HU HvM Hmap) as (_ & Hp0 & _). rewrite (proj2 (Z.eqb_neq _ 0)) by lia.
  rewrite !bind_assoc, bind_modify, bind_ret. cbv beta iota.
  destruct (user_write_written s va (va mod PGSIZE) m src HU (Hpl va ltac:(lia)) eq_refl Hm) as [HW Hrd]; cbv zeta in *.
  set (s1 := Vst (vpg s) _) in *.
  assert (HM : MAXVA + 4096 < 2 ^ 64) by (vm_compute; reflexivity).
  rewrite wrap_small by (unfold PGSIZE in *; lia). set (va1 := va / PGSIZE * PGSIZE + PGSIZE).
  assert (Hl1 : Z.of_nat (length (drop (Z.to_nat m) src)) = len - m) by (rewrite length_drop; lia).
  assert (Hal : va1 mod PGSIZE = 0). { unfold va1. replace (va / PGSIZE * PGSIZE + PGSIZE) with ((va / PGSIZE + 1) * PGSIZE) by lia. by apply Z.mod_mul. }
  assert (Hva1 : m < len -> va1 = va + m) by lia.
  destruct (IH (drop (Z.to_nat m) src) va1 s1 (w_space _ _ _ _ HW)) as (s2 & E3 & HW2 & Hat).
  { rewrite Hal, Hl1. unfold PGSIZE in *. lia. } { unfold PGSIZE in *. lia. } { unfold PGSIZE in *. lia. }
  { intros v Hv. rewrite Hl1 in Hv. apply (plain_lf s s1 v (w_lf _ _ _ _ HW)), Hpl. specialize (Hva1 ltac:(lia)). lia. }
  rewrite Hl1 in HW2. exists s2. split; [exact E3|].
  destruct (Z.lt_ge_cases m len) as [Hlt|Hge].
  - specialize (Hva1 Hlt). rewrite Hva1 in *. split; [eapply written_trans; [exact HW|exact HW2|lia..]|].
    intros i Hi. fold len in Hi. destruct (Z.lt_ge_cases i m) as [Him|Him].
    + rewrite (w_out _ _ _ _ HW2) by lia. rewrite Hrd by lia. do 2 f_equal. lia.
    + specialize (Hat (i - m) ltac:(lia)). replace (va + i) with (va + m + (i - m)) by lia. rewrite Hat, of_list_drop by lia. do 2 f_equal. lia.
  - replace (len - m) with 0 in HW2 by lia. assert (m = len) as Eml by lia.
    assert (HW3 : written va va s1 s2). { split; [apply HW2|apply HW2| |apply HW2]. intros v Hv _. apply (w_out _ _ _ _ HW2); [done|lia]. }
    split; [eapply written_trans; [exact HW|exact HW3|lia..]|].
    intros i Hi. fold len in Hi. rewrite (w_out _ _ _ _ HW3) by lia. rewrite Hrd by lia. do 2 f_equal. lia.
Qed.

Lemma copyout_plain src va s : uspace s R T root -> 0 <= va < 2 ^ 64 ->
  (forall v, va <= v < va + Z.of_nat (length src) -> plain s v) ->
  exists s', copyout root va src s = Done 0 s' /\ written va (va + Z.of_nat (length src)) s s' /\ user_at s' va src.
Proof.
  intros HU Hva Hpl. destruct (copy_fuel_enough va (Z.of_nat (length src)) ltac:(lia)). by apply copyout_loop_plain.
Qed.

(** ** Pushing *)

(** The pages from [lo] to [hi] are the process's own. *)
Definition stack_ok s (lo hi : Z) : Prop :=
  uspace s R T root /\ 0 <= lo /\ hi <= MAXVA /\ forall v, lo <= v < hi -> plain s v.

Lemma stack_ok_written s s' lo hi a b : written a b s s' -> stack_ok s lo hi -> stack_ok s' lo hi.
Proof.
  intros HW (_ & H1 & H2 & H3). split; [apply HW|]. split; [done|]. split; [done|]. intros v Hv.
  by apply (plain_lf s s' v (w_lf _ _ _ _ HW)), H3.
Qed.

(** [sp -= n; sp -= sp % 16]. *)
Definition down (sp n : Z) : Z := u64 (sp - n) - u64 (sp - n) mod 16.
Lemma down_bounds sp n : 0 <= n <= sp -> sp < 2 ^ 64 -> sp - n - 15 <= down sp n <= sp - n /\ down sp n mod 16 = 0.
Proof.
  intros Hn Hsp. unfold down. rewrite wrap_small by lia. pose proof (Z.mod_pos_bound (sp - n) 16 ltac:(done)). split; [lia|].
  rewrite Zminus_mod_idemp_r, Z.sub_diag. done.
Qed.

Lemma maxva_word : MAXVA < 2 ^ 64.
Proof. vm_compute. reflexivity. Qed.

Lemma push_at s lo hi a l : stack_ok s lo hi -> lo <= a -> a + Z.of_nat (length l) <= hi ->
  exists s', copyout root a l s = Done 0 s' /\ written a (a + Z.of_nat (length l)) s s' /\ user_at s' a l /\ stack_ok s' lo hi.
Proof.
  intros Hok Ha Hl. pose proof Hok as (HU & H1 & H2 & H3). pose proof maxva_word.
  destruct (copyout_plain l a s HU ltac:(lia)) as (s' & E & HW & Hat); [intros v Hv; apply H3; lia|].
  exists s'. split_and!; [done..|]. by eapply stack_ok_written.
Qed.

Definition room (strs : list (list Z)) : Z := foldr (fun l n => Z.of_nat (length l) + 16 + n) 0 strs.
Lemma room_pos strs : 0 <= room strs.
Proof. induction strs; cbn [room foldr]; [done|]. fold (room strs). lia. Qed.

Lemma kstr_ok s a str : kstring s a str -> kstr a s = Done str s.
Proof. intros [E _]. unfold kstr, mbind, M_bind, gets. by rewrite E. Qed.


Lemma push_strings_ok lo hi : forall argv args s sp stack, stack_ok s lo hi -> Forall2 (kstring s) argv args ->
  lo + room args <= sp <= hi -> (length stack + length argv < 8)%nat ->
  exists sp' ps s', push_strings root argv sp stack s = Done (Some (sp', stack ++ ps ++ [0])) s' /\
    written sp' sp s s' /\ stack_ok s' lo hi /\ sp - room args <= sp' <= sp /\ length ps = length argv /\
    Forall2 (fun p str => sp' <= p < sp /\ user_at s' p (str ++ [0])) ps args.
Proof.
  induction argv as [|a argv IH]; intros args s sp stack Hok Hstr Hsp Hn.
  { apply Forall2_nil_inv_l in Hstr as ->. exists sp, [], s. cbn [push_strings room foldr length] in *.
    rewrite (proj2 (Z.leb_gt MAXARG (Z.of_nat (length stack)))) by (unfold MAXARG; lia).
    split_and!; try done; try lia; try apply Hok. by apply written_refl, Hok. }
  destruct args as [|str args]; [by inversion Hstr|]. apply Forall2_cons in Hstr as [Ha Hstr].
  cbn [push_strings room foldr length] in *. fold (room args) in *. pose proof (room_pos args). pose proof maxva_word.
  pose proof Hok as (HU & Hlo & Hhi & _).
  destruct (down_bounds sp (Z.of_nat (length str) + 1) ltac:(lia) ltac:(lia)) as [Hd _].
  rewrite (bind_Done _ _ _ _ _ (kstr_ok s a str Ha)). change (u64 (sp - (Z.of_nat (length str) + 1)) - _) with (down sp (Z.of_nat (length str) + 1)).
  set (a1 := down sp _) in *.
  destruct (push_at s lo hi a1 (str ++ [0]) Hok ltac:(lia)) as (s1 & E1 & HW1 & Hat1 & Hok1); [rewrite length_app; cbn [length]; lia|].
  rewrite (bind_Done _ _ _ _ _ E1). cbn [Z.ltb Z.compare]. rewrite (proj2 (Z.leb_gt MAXARG (Z.of_nat (length stack)))) by (unfold MAXARG; lia).
  rewrite length_app in HW1. cbn [length] in HW1.
  destruct (IH args s1 a1 (stack ++ [a1]) Hok1) as (sp' & ps & s' & E2 & HW2 & Hok2 & Hsp2 & Hlen & Hps).
  { eapply Forall2_impl; [exact Hstr|]. intros x y. by eapply kstring_written. }
  { lia. } { rewrite length_app. cbn [length]. lia. }
  exists sp', (a1 :: ps), s'. split. { rewrite E2. by rewrite <- app_assoc. }
  split; [eapply written_trans; [exact HW1|exact HW2|lia..]|]. split; [exact Hok2|]. split; [lia|]. split; [cbn [length]; lia|].
  constructor; [split; [lia|]; eapply user_at_written; [exact HW2|lia|lia|exact Hat1]|].
  eapply Forall2_impl; [exact Hps|]. cbn beta. intros p l [Hp Hl]. split; [lia|exact Hl].
Qed.

Lemma word_bytes_length v : length (word_bytes v) = 8%nat.
Proof. done. Qed.
Lemma words_bytes_length l : length (words_bytes l) = (8 * length l)%nat.
Proof.
  unfold words_bytes. induction l as [|v l IH]; [done|]. change ((v :: l) ≫= word_bytes) with (word_bytes v ++ (l ≫= word_bytes)).
  rewrite length_app, IH, word_bytes_length. cbn [length]. lia.
Qed.
Lemma words_bytes_app l1 l2 : words_bytes (l1 ++ l2) = words_bytes l1 ++ words_bytes l2.
Proof. unfold words_bytes. apply bind_app. Qed.

(** One more vector behind those already written: [a] is where they start. *)
Lemma put_more s lo hi a b done_ l : stack_ok s lo hi -> lo <= a -> b = a + 8 * Z.of_nat (length done_) ->
  b + 8 * Z.of_nat (length l) <= hi -> user_at s a (words_bytes done_) ->
  exists s', copyout root (u64 b) (words_bytes l) s = Done 0 s' /\ written b (b + 8 * Z.of_nat (length l)) s s' /\
    user_at s' a (words_bytes (done_ ++ l)) /\ stack_ok s' lo hi.
Proof.
  intros Hok Ha Eb Hhi Hdone. pose proof Hok as (HU & Hlo & HM & _). pose proof maxva_word. rewrite wrap_small by lia.
  assert (El : forall l, Z.of_nat (length (words_bytes l)) = 8 * Z.of_nat (length l)) by (intros x; rewrite words_bytes_length; lia).
  destruct (push_at s lo hi b (words_bytes l) Hok ltac:(lia)) as (s' & E & HW & Hat & Hok'); [rewrite El; lia|]. rewrite El in HW.
  exists s'. split_and!; try done. rewrite words_bytes_app. apply user_at_app; [|rewrite El, <- Eb; exact Hat].
  intros i Hi. rewrite El in Hi. rewrite (w_out _ _ _ _ HW) by lia. apply Hdone. rewrite El. lia.
Qed.

Lemma put_vectors_ok s lo hi sp argc envc ustack estack auxv : stack_ok s lo hi ->
  Z.of_nat (length ustack) = argc + 1 -> Z.of_nat (length estack) = envc + 1 ->
  lo + 8 * (argc + envc + 3 + Z.of_nat (length auxv)) + 15 <= sp <= hi ->
  exists sp' s', put_vectors root sp argc envc ustack estack auxv s = Done (Some sp') s' /\
    written sp' sp s s' /\ stack_ok s' lo hi /\ lo <= sp' <= sp /\ sp' mod 16 = 0 /\
    user_at s' sp' (words_bytes (argc :: ustack ++ estack ++ auxv)).
Proof.
  intros Hok Hu He Hsp. pose proof Hok as (HU & Hlo & HM & _). pose proof maxva_word.
  set (n := 8 * (argc + envc + 3 + Z.of_nat (length auxv))) in *.
  destruct (down_bounds sp n ltac:(lia) ltac:(lia)) as [Hd H16]. unfold put_vectors.
  replace ((envc + 1 + argc + 1 + 1) * 8 + 8 * Z.of_nat (length auxv)) with n by lia.
  change (u64 (sp - n) - _) with (down sp n). set (a := down sp n) in *. cbv zeta.
  destruct (put_more s lo hi a a [] [argc] Hok ltac:(lia) ltac:(cbn; lia)) as (s1 & E1 & HW1 & Hat1 & Hok1).
  { cbn [length]. lia. } { intros i Hi. cbn in Hi. lia. } rewrite wrap_small in E1 by lia. cbn [length app] in *.
  rewrite (bind_Done _ _ _ _ _ E1). cbn [Z.ltb Z.compare].
  destruct (put_more s1 lo hi a (a + 8) [argc] ustack Hok1 ltac:(lia) ltac:(cbn; lia) ltac:(lia) Hat1) as (s2 & E2 & HW2 & Hat2 & Hok2).
  rewrite (bind_Done _ _ _ _ _ E2). cbn [Z.ltb Z.compare].
  destruct (put_more s2 lo hi a (a + (argc + 2) * 8) ([argc] ++ ustack) estack Hok2 ltac:(lia)) as (s3 & E3 & HW3 & Hat3 & Hok3);
    [cbn [length app]; lia|lia|exact Hat2|].
  rewrite (bind_Done _ _ _ _ _ E3). cbn [Z.ltb Z.compare].
  destruct (put_more s3 lo hi a (a + (envc + argc + 3) * 8) (([argc] ++ ustack) ++ estack) auxv Hok3 ltac:(lia)) as (s4 & E4 & HW4 & Hat4 & Hok4);
    [rewrite length_app; cbn [length app]; lia|lia|exact Hat3|].
  rewrite (bind_Done _ _ _ _ _ E4). cbn [Z.ltb Z.compare].
  exists a, s4. split; [done|]. split; [|split; [exact Hok4|split; [lia|split; [exact H16|]]]].
  - apply (written_weaken _ _ a sp) in HW1; [|lia..]. apply (written_weaken _ _ a sp) in HW2; [|lia..].
    apply (written_weaken _ _ a sp) in HW3; [|lia..]. apply (written_weaken _ _ a sp) in HW4; [|lia..].
    refine (written_trans _ _ _ a sp a sp a sp HW1 (written_trans _ _ _ a sp a sp a sp HW2 (written_trans _ _ _ a sp a sp a sp HW3 HW4 _ _ _ _) _ _ _ _) _ _ _ _); lia.
  - by rewrite <- app_assoc in Hat4.
Qed.

(** ** The theorem *)

Lemma push_platform_ok s lo sp hi (has_interp : bool) : stack_ok s lo hi -> lo + 21 <= sp <= hi ->
  exists sp' platform s',
    (if has_interp then
       let sp := u64 (sp - Z.of_nat (length ELF_PLATFORM)) in
       let sp := sp - sp mod 16 in
       r ← copyout root sp ELF_PLATFORM;
       mret (if r <? 0 then None else Some (sp, sp))
     else mret (Some (sp, 0))) s = Done (Some (sp', platform)) s' /\
    written sp' sp s s' /\ stack_ok s' lo hi /\ sp - 21 <= sp' <= sp /\
    (has_interp = true -> sp' <= platform /\ user_at s' platform ELF_PLATFORM).
Proof.
  intros Hok Hsp. pose proof Hok as (HU & Hlo & HM & _). pose proof maxva_word. destruct has_interp.
  - destruct (down_bounds sp 6 ltac:(lia) ltac:(lia)) as [Hd _]. cbv zeta. change (u64 (sp - Z.of_nat (length ELF_PLATFORM)) - _) with (down sp 6).
    set (a := down sp 6) in *.
    destruct (push_at s lo hi a ELF_PLATFORM Hok ltac:(lia)) as (s1 & E1 & HW1 & Hat1 & Hok1); [cbn [length ELF_PLATFORM]; lia|].
    exists a, a, s1. rewrite (bind_Done _ _ _ _ _ E1). cbn [length ELF_PLATFORM] in HW1. split_and!; try done; try lia.
    eapply written_trans; [exact HW1|apply (written_refl s1 a a), Hok1|lia..].
  - exists sp, 0, s. split_and!; try done; try lia; by apply written_refl.
Qed.

(** C15: the stack of a new program.  Over the process's own pages from [lo] to
    [sp], with room for what is pushed, [build_stack] succeeds; at the new
    stack pointer, which is aligned to 16 bytes, the words are argc, the
    pointers to the argument strings, 0, the pointers to the environment's
    strings, 0, and the auxiliary vector; the pointers are to copies of the
    strings with their terminators, and the vector's platform entry to
    "riscv" when there is an interpreter; nothing outside the range from the
    new stack pointer to [sp] has changed. *)
Theorem build_stack_correct s lo sp has_interp argv envp args env auxv k errno :
  stack_ok s lo sp -> Forall2 (kstring s) argv args -> Forall2 (kstring s) envp env ->
  (length argv < 8)%nat -> (length envp < 8)%nat -> (forall p, length (auxv p) = k) ->
  lo + 36 + room args + room env + 8 * (Z.of_nat (length argv + length envp + k) + 3) <= sp ->
  exists sp' ustack estack platform s',
    build_stack root sp has_interp argv envp auxv errno s = Done (inl sp') s' /\
    sp' mod 16 = 0 /\ lo <= sp' /\ written sp' sp s s' /\
    user_at s' sp' (words_bytes (Z.of_nat (length argv) :: ustack ++ [0] ++ estack ++ [0] ++ auxv platform)) /\
    Forall2 (fun p str => user_at s' p (str ++ [0])) ustack args /\
    Forall2 (fun p str => user_at s' p (str ++ [0])) estack env /\
    (has_interp = true -> user_at s' platform ELF_PLATFORM).
Proof.
  intros Hok Ha He Hna Hne Hk Hroom. pose proof (room_pos args). pose proof (room_pos env). pose proof Hok as (_ & Hlo & HM & _).
  destruct (push_platform_ok s lo sp sp has_interp Hok ltac:(lia)) as (sp1 & platform & s1 & E1 & HW1 & Hok1 & Hb1 & Hp1).
  unfold build_stack. rewrite (bind_Done _ _ _ _ _ E1). cbv beta iota.
  assert (Hks : forall s1 a b, written a b s s1 -> forall x y, kstring s x y -> kstring s1 x y) by (intros s0 a b HW x y; by eapply kstring_written).
  destruct (push_strings_ok lo sp argv args s1 sp1 [] Hok1) as (sp2 & us & s2 & E2 & HW2 & Hok2 & Hb2 & Hl2 & Hp2);
    [eapply Forall2_impl; [exact Ha|]; by eapply Hks|lia|cbn [length]; lia|].
  rewrite (bind_Done _ _ _ _ _ E2). cbv beta iota.
  assert (HW12 : written sp2 sp s s2) by (eapply written_trans; [exact HW1|exact HW2|lia..]).
  destruct (push_strings_ok lo sp envp env s2 sp2 [] Hok2) as (sp3 & es & s3 & E3 & HW3 & Hok3 & Hb3 & Hl3 & Hp3);
    [eapply Forall2_impl; [exact He|]; by eapply Hks|lia|cbn [length]; lia|].
  rewrite (bind_Done _ _ _ _ _ E3). cbv beta iota. cbn [app] in *.
  destruct (put_vectors_ok s3 lo sp sp3 (Z.of_nat (length argv)) (Z.of_nat (length envp)) (us ++ [0]) (es ++ [0]) (auxv platform) Hok3)
    as (sp4 & s4 & E4 & HW4 & Hok4 & Hb4 & H16 & Hat); [rewrite length_app; cbn [length]; lia..|rewrite Hk; lia|].
  rewrite (bind_Done _ _ _ _ _ E4). exists sp4, us, es, platform, s4. split; [done|]. split; [exact H16|]. split; [lia|].
  assert (HW34 : written sp4 sp2 s2 s4) by (eapply written_trans; [exact HW3|exact HW4|lia..]).
  split; [eapply written_trans; [exact HW12|exact HW34|lia..]|]. split; [by rewrite <- !app_assoc in Hat|]. split; [|split].
  - eapply Forall2_impl; [exact Hp2|]. cbn beta. intros p l [Hp Hl]. eapply user_at_written; [exact HW34|lia|lia|exact Hl].
  - eapply Forall2_impl; [exact Hp3|]. cbn beta. intros p l [Hp Hl]. eapply user_at_written; [exact HW4|lia|lia|exact Hl].
  - intros Hi. destruct (Hp1 Hi) as [Hpl Hat1]. eapply (user_at_written s2); [exact HW34|lia|lia|].
    eapply user_at_written; [exact HW2|lia|lia|exact Hat1].
Qed.
End Stack.

(** ** A stack in the address space of VmProps.v

    Page 0 made writable; the words of the table pages serve as strings. *)
Definition stk_space : vst table :=
  Vst (wit_refs 1) (wr64 (slot wit_tree 0) (cow_sole wit_leaf) (wr64 (slot wit_tree 0) (Z.lor wit_leaf PTE_W) wit_mem)).

Lemma stk_step : cow_step (wit_space 1) (wit_refs 1) wit_tree stk_space (wit_refs 1) wit_tree wit_root 0 /\
  lf wit_tree (pmem stk_space) 0 = cow_sole wit_leaf.
Proof.
  apply (cow_sole_ok (wit_space 1) (wit_refs 1) wit_tree wit_root 0 0x13000 wit_flags).
  - apply wit_uspace. change (2 ^ 32) with 4294967296. lia.
  - split; [lia|reflexivity].
  - reflexivity.
  - reflexivity.
  - apply page_page_pa. change (2 ^ 32) with 4294967296. unfold PGSIZE. split; [exists 19; reflexivity|lia].
  - by exists 1.
  - intros [[l p] Hn]. apply wit_tree_inv in Hn. lia.
  - reflexivity.
  - reflexivity.
Qed.

Lemma stk_lf v : 0 <= v < MAXVA -> lf wit_tree (pmem stk_space) v = if v <? PGSIZE then cow_sole wit_leaf else 0.
Proof.
  intros Hv. destruct stk_step as [Hst E0]. destruct (page_split v) as [Ev Hr]. destruct (v <? PGSIZE) eqn:El; bool_hyps.
  - rewrite (lf_same_page _ _ v 0) by (try lia; unfold PGSIZE in *; rewrite (Z.div_small v) by lia; reflexivity). exact E0.
  - rewrite (cs_other _ _ _ _ _ _ _ _ Hst v Hv).
    + cbn [pmem wit_space]. rewrite wit_lf by done. by rewrite (proj2 (Z.ltb_ge _ _)) by lia.
    + change (0 / PGSIZE) with 0. unfold PGSIZE in *. lia.
Qed.

Lemma stk_hidden x : 0x10000 <= x < 0x13000 -> hidden wit_tree stk_space x.
Proof.
  intros Hx v (Hv & Hm & _). rewrite stk_lf in Hm |- * by done. destruct (v <? PGSIZE); [|discriminate Hm].
  assert (E : PTE2PA (cow_sole wit_leaf) = 0x13000) by reflexivity. rewrite E. unfold in_page. lia.
Qed.

Lemma stk_ok : stack_ok (wit_refs 1) wit_tree wit_root stk_space 0 4096.
Proof.
  split; [apply stk_step|]. split; [lia|]. assert (HM : 4096 < MAXVA) by reflexivity. split; [lia|]. intros v Hv.
  assert (Hv' : 0 <= v < MAXVA) by lia. split; [done|]. rewrite stk_lf by done.
  rewrite (proj2 (Z.ltb_lt v PGSIZE)) by (unfold PGSIZE; lia). split; reflexivity.
Qed.

Lemma stk_string a str : 0x10000 <= a -> a + Z.of_nat (length str) < 0x13000 -> str_at 4 (pmem stk_space) a = Some str -> kstring wit_tree stk_space a str.
Proof.
  intros Ha Hl E. split; [|intros i Hi; apply stk_hidden; lia].
  assert (Hmore : forall k n a l, str_at n (pmem stk_space) a = Some l -> str_at (n + k) (pmem stk_space) a = Some l).
  { intros k n. induction n as [|n IH]; intros b l Hb; cbn [str_at Nat.add] in *; [discriminate Hb|].
    destruct (pmem stk_space b =? 0); [exact Hb|]. destruct (str_at n (pmem stk_space) (b + 1)) eqn:En; [|discriminate Hb].
    by rewrite (IH _ _ En). }
  apply (Hmore (Z.to_nat PGSIZE - 4)%nat) in E. exact E.
Qed.

(** One argument, one variable, an interpreter: argc is at an aligned address. *)
Lemma build_stack_correct_witness :
  stack_ok (wit_refs 1) wit_tree wit_root stk_space 0 4096 /\ kstring wit_tree stk_space 0x10000 [1; 68] /\ kstring wit_tree stk_space 0x11000 [1; 72] /\
  exists sp s', build_stack wit_root 4096 true [0x10000] [0x11000] (fun p => [AT_PLATFORM; p; AT_NULL; 0]) 0 stk_space = Done (inl sp) s' /\
    sp mod 16 = 0 /\ uread s' wit_tree sp = Some 1.
Proof.
  assert (H1 : kstring wit_tree stk_space 0x10000 [1; 68]) by (apply stk_string; [lia|cbn; lia|vm_compute; reflexivity]).
  assert (H2 : kstring wit_tree stk_space 0x11000 [1; 72]) by (apply stk_string; [lia|cbn; lia|vm_compute; reflexivity]).
  split; [exact stk_ok|]. split; [exact H1|]. split; [exact H2|].
  destruct (build_stack_correct (wit_refs 1) wit_tree wit_root stk_space 0 4096 true [0x10000] [0x11000] [[1; 68]] [[1; 72]]
    (fun p => [AT_PLATFORM; p; AT_NULL; 0]) 4 0 stk_ok ltac:(constructor; [exact H1|constructor]) ltac:(constructor; [exact H2|constructor])
    ltac:(cbn; lia) ltac:(cbn; lia) (fun p => eq_refl) ltac:(cbn; lia))
    as (sp & ustack & estack & platform & s' & E & H16 & _ & _ & Hat & _).
  exists sp, s'. split; [exact E|]. split; [exact H16|].
  specialize (Hat 0). rewrite Z.add_0_r in Hat. apply Hat. rewrite words_bytes_length. cbn [length]. lia.
Defined.
