(* ===== verification/Mremap.v ===== *)
(** * Moving a mapping (mremap and scale_mmap_region of kernel/mmap.c)

    No system call reaches these two: the entry of mremap in the call table
    is commented out.  A region that munmap has freed is read again, as in
    the code; the heap of Mmap.v keeps its contents. *)
From S2P Require Import Prelude Spinlock Bytes UserMem Cred Bio Fs File Vm Mmap Exec.

Definition MREMAP_MAYMOVE : Z := 1.
Definition MREMAP_FIXED : Z := 2.

Section Mremap.
Context {D : Type} `{!sdcard D} {U : Type} `{!usermem U} {P : Type} `{!pipeops U P} {V : Type} `{!devsw U V}.
Context {G : Type} `{!kpages G} {R : Type} `{!regcache R}.
Context (junk : bytes) (fresh_region : region) (rounds : nat) (pagetable : Z).
Local Abbreviation mmst := (mmst D U P V G R).
Local Abbreviation mmap := (mmap junk fresh_region rounds pagetable).

(** [size] is a multiple of the page size; a region that grows has room. *)
Definition scale_mmap_region (region size : Z) : M mmst Z :=
  r ← reg region;
  if r_length r =? size then mret 0
  else
    error ← (if r_length r <? size then
               mmap_load_pages junk pagetable (u64 (r_addr r + r_length r)) (u64 (size - r_length r)) (r_prot r) (r_flags r) (r_f r) (r_offset r)
             else
               let dstart := PGROUNDDOWN (u64 (r_addr r + r_length r)) in
               let dpages := u64 (r_length r - dstart + PGSIZE - 1) / PGSIZE in
               (if (u64 (r_addr r + size) <=? dstart) && (0 <? dpages) then on_mem (uvmunmap pagetable dstart dpages true) else mret tt);;
               mret 0);
    if error <? 0 then mret error
    else upd_reg region (set_r_length size);; mret 0.

(** Both branches of [if (MREMAP_FIXED)] test a constant that is not 0; the
    [memmove] is given addresses of the process. *)
Definition mremap (old_addr old_length new_length flags new_addr : Z) : M mmst Z :=
  region ← find_mmap_region rounds old_addr;
  if region =? 0 then mret (- EINVAL)
  else
    r ← reg region;
    if negb (r_length r =? old_length) then mret (- EINVAL)
    else
      let new_length := PGROUNDUP new_length in
      room ← (if r_next r =? 0 then mret true
              else n ← reg (r_next r); mret (u64 (r_addr r + new_length) <=? r_addr n));
      if room : bool then
        if flag flags MREMAP_FIXED then
          error ← munmap junk rounds pagetable old_addr old_length;
          if error <? 0 then mret error
          else
            r ← reg region;
            mmap new_addr new_length (r_prot r) (Z.lor (r_flags r) MAP_FIXED) (r_f r) (r_offset r)
        else
          error ← scale_mmap_region region new_length;
          if error <? 0 then mret error else r ← reg region; mret (r_addr r)
      else if negb (flag flags MREMAP_MAYMOVE) then mret (- EINVAL)
      else
        mapped_addr ← mmap new_addr new_length (r_prot r) (Z.lor (r_flags r) MAP_FIXED) (r_f r) (r_offset r);
        if IS_ERR (u64 mapped_addr) then mret mapped_addr
        else
          r ← reg region;
          on_mem (memmove new_addr (r_addr r) (r_length r));;
          error ← msync junk rounds pagetable mapped_addr new_length MS_SYNC;
          if error <? 0 then mret error
          else
            error ← munmap junk rounds pagetable (r_addr r) (r_length r);
            if error <? 0 then mret error else mret mapped_addr.
End Mremap.
