(* ===== verification/Trap.v ===== *)
(** * Traps (kernel/trap.c)

    The supervisor's control registers, the words of the trap frame that the
    kernel sets, and the rest of the kernel behind the class [trapops]: the
    handlers that a trap reaches.  A handler may change everything, the
    registers too, as another process runs inside [t_yield].  [usertrap] and
    [usertrapret] end in [sret] to the process, [Resumed] with the page table
    register of its address space, or in [exit]; the configuration is the one
    of config.h, with timer interrupts in supervisor mode. *)
From S2P Require Import Prelude Vm.

Definition SSTATUS_SPP : Z := Z.shiftl 1 8.
Definition SSTATUS_SPIE : Z := Z.shiftl 1 5.
Definition SSTATUS_SIE : Z := Z.shiftl 1 1.
Definition SCAUSE_EVCALL_USER : Z := 8.
Definition SCAUSE_PAGE_LOAD : Z := 13.
Definition SCAUSE_PAGE_STORE : Z := 15.
Definition SATP_SV39 : Z := Z.shiftl 8 60.
Definition MAKE_SATP (pagetable : Z) : Z := Z.lor SATP_SV39 (Z.shiftr pagetable 12).
Definition UART0_IRQ : Z := 44.
Definition SD0_IRQ : Z := 36.
Definition INTERVAL : Z := 250000.

(** sstatus, sepc, stval, scause, stvec, satp, sie and time. *)
Record csrs := Csrs {
  sstatus : Z; sepc : Z; stval : Z; scause : Z; stvec : Z; satp : Z; sie : Z; time : Z
}.
(** The first five words of [struct trapframe]. *)
Record trapregs := Trapregs { kernel_satp : Z; kernel_sp : Z; kernel_trap : Z; epc : Z; kernel_hartid : Z }.
Record tst (O : Type) := Tst { tcsr : csrs; tfr : trapregs; tos : O }.
Arguments Tst {O} _ _ _.
Arguments tcsr {O} _.
Arguments tfr {O} _.
Arguments tos {O} _.

(** What traps need of the process [p = myproc()] and of the devices. *)
Class trapops (O : Type) := TrapOps {
  t_killed : M (tst O) Z;
  t_setkilled : M (tst O) unit;
  t_xstate : O -> Z;
  t_kstack : O -> Z;
  t_pagetable : O -> Z;
  (** [myproc() != 0 && myproc()->state == RUNNING]. *)
  t_running : O -> bool;
  t_exit : Z -> M (tst O) unit;
  t_yield : M (tst O) unit;
  t_syscall : M (tst O) unit;
  t_check_pending_signal : M (tst O) unit;
  t_alloc_cow_page : Z -> M (tst O) Z;
  t_alloc_mmap_page : Z -> Z -> M (tst O) Z;
  t_uartintr : M (tst O) unit;
  t_clockintr : M (tst O) unit;
  t_plic_claim : M (tst O) Z;
  t_plic_complete : Z -> M (tst O) unit;
  t_set_timer : Z -> M (tst O) unit
}.

Inductive trap_end := Resumed (satp : Z) | Exited (status : Z).

Section Trap.
Context {O : Type} `{!trapops O}.
(** Addresses of the linked kernel. *)
Context (kernelvec usertrap_addr uservec userret trampoline : Z).
Local Abbreviation tst := (tst O).

Definition csr {A} (f : csrs -> A) : M tst A := gets (fun s => f (tcsr s)).
Definition set_csr (f : csrs -> csrs) : M tst unit := modify (fun s => Tst (f (tcsr s)) (tfr s) (tos s)).
Definition w_sstatus (x : Z) : M tst unit :=
  set_csr (fun c => Csrs x (sepc c) (stval c) (scause c) (stvec c) (satp c) (sie c) (time c)).
Definition w_sepc (x : Z) : M tst unit :=
  set_csr (fun c => Csrs (sstatus c) x (stval c) (scause c) (stvec c) (satp c) (sie c) (time c)).
Definition w_stvec (x : Z) : M tst unit :=
  set_csr (fun c => Csrs (sstatus c) (sepc c) (stval c) (scause c) x (satp c) (sie c) (time c)).
Definition w_sie (x : Z) : M tst unit :=
  set_csr (fun c => Csrs (sstatus c) (sepc c) (stval c) (scause c) (stvec c) (satp c) x (time c)).
Definition intr_on : M tst unit := x ← csr sstatus; w_sstatus (Z.lor x SSTATUS_SIE).
Definition intr_off : M tst unit := x ← csr sstatus; w_sstatus (Z.land x (u64 (Z.lnot SSTATUS_SIE))).
Definition intr_get : M tst bool := x ← csr sstatus; mret (flag x SSTATUS_SIE).
Definition set_epc (f : Z -> Z) : M tst unit :=
  modify (fun s => Tst (tcsr s) (Trapregs (kernel_satp (tfr s)) (kernel_sp (tfr s)) (kernel_trap (tfr s)) (f (epc (tfr s))) (kernel_hartid (tfr s))) (tos s)).

Definition trapinithart : M tst unit := w_stvec kernelvec.

(** 2 for a timer interrupt, 1 for a device, 0 for what is no interrupt that
    the kernel knows.  [sie] is written with the atomic [csrc] and [csrs]. *)
Definition devintr : M tst Z :=
  c ← csr scause;
  if Z.testbit c 63 && (Z.land c 0xff =? 9) then
    irq ← t_plic_claim;
    (if irq =? UART0_IRQ then t_uartintr else mret tt);;
    (if negb (irq =? 0) then t_plic_complete irq else mret tt);;
    mret 1
  else if Z.testbit c 63 && (Z.land c 0xff =? 5) then
    ie ← csr sie; w_sie (Z.land ie (u64 (Z.lnot (Z.shiftl 1 5))));;
    t_clockintr;;
    now ← csr time;
    t_set_timer (u64 (now + INTERVAL));;
    ie ← csr sie; w_sie (Z.lor ie (Z.shiftl 1 5));;
    mret 2
  else mret 0.

(** [exit(p->xstate ? p->xstate : -1)]. *)
Definition exit_killed : M tst trap_end :=
  x ← gets (fun s => t_xstate (tos s));
  let xstate := if x =? 0 then -1 else x in
  t_exit xstate;;
  mret (Exited xstate).

Definition usertrapret : M tst trap_end :=
  intr_off;;
  w_stvec (u64 (TRAMPOLINE + (uservec - trampoline)));;
  c ← csr satp;
  ks ← gets (fun s => t_kstack (tos s));
  modify (fun s => Tst (tcsr s) (Trapregs c (u64 (ks + PGSIZE)) usertrap_addr (epc (tfr s)) 0) (tos s));;
  x ← csr sstatus;
  w_sstatus (Z.lor (Z.land x (u64 (Z.lnot SSTATUS_SPP))) SSTATUS_SPIE);;
  e ← gets (fun s => epc (tfr s));
  w_sepc e;;
  pt ← gets (fun s => t_pagetable (tos s));
  mret (Resumed (MAKE_SATP pt)).

(** From the handling of the cause to the return: [which_dev] is what
    [devintr] said. *)
Definition usertrap_finish (which_dev : Z) : M tst trap_end :=
  k ← t_killed;
  if negb (k =? 0) then exit_killed
  else
    (if which_dev =? 2 then t_yield else mret tt);;
    t_check_pending_signal;;
    usertrapret.

Definition usertrap : M tst trap_end :=
  x ← csr sstatus;
  if flag x SSTATUS_SPP then panic "usertrap: not from user mode"
  else
    w_stvec kernelvec;;
    sepc ← csr sepc;
    stval ← csr stval;
    scause ← csr scause;
    set_epc (fun _ => sepc);;
    if scause =? SCAUSE_EVCALL_USER then
      k ← t_killed;
      if negb (k =? 0) then exit_killed
      else
        set_epc (fun e => u64 (e + 4));;
        intr_on;;
        t_syscall;;
        usertrap_finish 0
    else if scause =? SCAUSE_PAGE_LOAD then
      r ← t_alloc_mmap_page stval scause;
      (if r <? 0 then t_setkilled else mret tt);;
      usertrap_finish 0
    else if scause =? SCAUSE_PAGE_STORE then
      ret ← t_alloc_cow_page stval;
      (if ret <? 0 then t_setkilled
       else if ret =? 1 then
         r ← t_alloc_mmap_page stval scause;
         if r <? 0 then t_setkilled else mret tt
       else mret tt);;
      usertrap_finish 0
    else
      which_dev ← devintr;
      (if negb (which_dev =? 0) then mret tt else t_setkilled);;
      usertrap_finish which_dev.

Definition kerneltrap : M tst unit :=
  sepc ← csr sepc;
  sstatus ← csr sstatus;
  if negb (flag sstatus SSTATUS_SPP) then panic "kerneltrap: not from supervisor mode"
  else
    i ← intr_get;
    if i : bool then panic "kerneltrap: interrupts enabled"
    else
      which_dev ← devintr;
      if which_dev =? 0 then panic "kerneltrap"
      else
        run ← gets (fun s => t_running (tos s));
        (if (which_dev =? 2) && run then t_yield else mret tt);;
        w_sepc sepc;;
        w_sstatus sstatus.
End Trap.
