(* ===== verification/TrapProps.v ===== *)
(** * Traps: what they promise (kernel/trap.c)

    A trap that the kernel refuses ends the process; whatever goes back to
    user mode goes back with the registers set for it; a trap inside the
    kernel gives the interrupted code its registers back. *)
From S2P Require Import Prelude Triple Vm VmBits Trap.

(** What the handlers promise of a kernel in the state [inv]: killed(p) reads,
    and is not 0 after setkilled(p); exit and the interrupt handlers come
    back, and so does yield, once the process is scheduled again; each keeps
    [inv], and so do the page handlers. *)
Class trapops_laws (O : Type) `{trapops O} (inv : O -> Prop) := {
  killed_reads : forall s : tst O, inv (tos s) -> exists k, t_killed s = Done k s;
  setkilled_kills : forall s : tst O, inv (tos s) -> exists s' k, t_setkilled s = Done tt s' /\ inv (tos s') /\ t_killed s' = Done k s' /\ k <> 0;
  exit_done : forall x (s : tst O), inv (tos s) -> exists s', t_exit x s = Done tt s';
  yield_done : forall s : tst O, inv (tos s) -> exists s', t_yield s = Done tt s' /\ inv (tos s');
  uartintr_done : forall s : tst O, inv (tos s) -> exists s', t_uartintr s = Done tt s' /\ inv (tos s');
  clockintr_done : forall s : tst O, inv (tos s) -> exists s', t_clockintr s = Done tt s' /\ inv (tos s');
  claim_done : forall s : tst O, inv (tos s) -> exists i s', t_plic_claim s = Done i s' /\ inv (tos s');
  complete_done : forall i (s : tst O), inv (tos s) -> exists s', t_plic_complete i s = Done tt s' /\ inv (tos s');
  timer_done : forall x (s : tst O), inv (tos s) -> exists s', t_set_timer x s = Done tt s' /\ inv (tos s');
  cow_keeps : forall v (s : tst O) r s', inv (tos s) -> t_alloc_cow_page v s = Done r s' -> inv (tos s');
  mmap_keeps : forall v c (s : tst O) r s', inv (tos s) -> t_alloc_mmap_page v c s = Done r s' -> inv (tos s')
}.

Section Trap.
Context {O : Type} {inv : O -> Prop} `{!trapops O} `{!trapops_laws O inv}.
Context (kernelvec usertrap_addr uservec trampoline : Z).
Local Abbreviation tst := (tst O).
Implicit Types s : tst.
Local Abbreviation usertrap := (usertrap kernelvec usertrap_addr uservec trampoline).
Local Abbreviation usertrap_finish := (usertrap_finish usertrap_addr uservec trampoline).
Local Abbreviation usertrapret := (usertrapret usertrap_addr uservec trampoline).

(** The state once the trap is taken. *)
Definition entered s : tst :=
  let c := tcsr s in let f := tfr s in
  Tst (Csrs (sstatus c) (sepc c) (stval c) (scause c) kernelvec (satp c) (sie c) (time c))
      (Trapregs (kernel_satp f) (kernel_sp f) (kernel_trap f) (sepc c) (kernel_hartid f)) (tos s).
(** An external or a timer interrupt. *)
Definition is_interrupt (c : Z) : bool := Z.testbit c 63 && ((Z.land c 0xff =? 9) || (Z.land c 0xff =? 5)).

(** The traps the kernel has no service for: a fault on a page that the
    process has no right to, and every unknown cause. *)
Definition refused s : Prop :=
  let c := scause (tcsr s) in let v := stval (tcsr s) in
  if c =? SCAUSE_EVCALL_USER then False
  else if c =? SCAUSE_PAGE_LOAD then exists r s1, t_alloc_mmap_page v c (entered s) = Done r s1 /\ r < 0
  else if c =? SCAUSE_PAGE_STORE then
    exists ret s1, t_alloc_cow_page v (entered s) = Done ret s1 /\
      (ret < 0 \/ ret = 1 /\ exists r s2, t_alloc_mmap_page v c s1 = Done r s2 /\ r < 0)
  else is_interrupt c = false.

(** What [sret] into the process [pt] needs. *)
Record ready (pt : Z) s : Prop := {
  rd_user : flag (sstatus (tcsr s)) SSTATUS_SPP = false;
  rd_enable : flag (sstatus (tcsr s)) SSTATUS_SPIE = true;
  rd_off : flag (sstatus (tcsr s)) SSTATUS_SIE = false;
  rd_vector : stvec (tcsr s) = u64 (TRAMPOLINE + (uservec - trampoline));
  rd_pc : sepc (tcsr s) = epc (tfr s);
  rd_satp : kernel_satp (tfr s) = satp (tcsr s);
  rd_sp : kernel_sp (tfr s) = u64 (t_kstack (tos s) + PGSIZE);
  rd_trap : kernel_trap (tfr s) = usertrap_addr;
  rd_table : pt = MAKE_SATP (t_pagetable (tos s))
}.

Lemma flag_clear x k j : 0 <= k < 64 -> 0 <= j < 64 ->
  flag (Z.land x (u64 (Z.lnot (Z.shiftl 1 k)))) (Z.shiftl 1 j) = flag x (Z.shiftl 1 j) && negb (k =? j).
Proof.
  intros Hk Hj. rewrite !flag_bit by lia. rewrite Z.land_spec. unfold wrap. rewrite Z.mod_pow2_bits_low by lia.
  rewrite Z.lnot_spec, shiftl_1_bit by lia. done.
Qed.
Lemma flag_set x k j : 0 <= k -> 0 <= j -> flag (Z.lor x (Z.shiftl 1 k)) (Z.shiftl 1 j) = flag x (Z.shiftl 1 j) || (k =? j).
Proof. intros Hk Hj. rewrite !flag_bit by lia. by rewrite Z.lor_spec, shiftl_1_bit by lia. Qed.

Lemma usertrapret_ok s : exists s', usertrapret s = Done (Resumed (MAKE_SATP (t_pagetable (tos s)))) s' /\
  ready (MAKE_SATP (t_pagetable (tos s))) s' /\ tos s' = tos s /\ epc (tfr s') = epc (tfr s).
Proof.
  eexists. split; [reflexivity|]. cbn [tos tfr epc]. split; [|done]. split; try reflexivity; cbn [tcsr sstatus].
  all: unfold SSTATUS_SPP, SSTATUS_SPIE, SSTATUS_SIE; rewrite flag_set, !flag_clear by lia.
  all: cbn; by rewrite ?andb_false_r, ?orb_true_r.
Qed.

Lemma exit_killed_ok s : inv (tos s) -> exists x s', exit_killed s = Done (Exited x) s' /\ x <> 0.
Proof.
  intros Hi. unfold exit_killed. rewrite bind_gets. cbv zeta. set (x := if t_xstate (tos s) =? 0 then -1 else t_xstate (tos s)).
  destruct (exit_done x s Hi) as [s' E]. exists x, s'. split; [by rewrite (bind_Done _ _ _ _ _ E)|].
  unfold x. destruct (t_xstate (tos s) =? 0) eqn:Ex; bool_hyps; lia.
Qed.

(** A process marked as killed leaves from [usertrap_finish]. *)
Lemma refuse_exits s d : inv (tos s) -> exists x s', (t_setkilled;; usertrap_finish d) s = Done (Exited x) s' /\ x <> 0.
Proof.
  intros Hi. destruct (setkilled_kills s Hi) as (s1 & k & E1 & Hi1 & E2 & Hk). destruct (exit_killed_ok s1 Hi1) as (x & s' & E3 & Hx).
  exists x, s'. split; [|done]. rewrite (bind_Done _ _ _ _ _ E1). unfold usertrap_finish. rewrite (bind_Done _ _ _ _ _ E2).
  by rewrite (proj2 (Z.eqb_neq k 0)) by done.
Qed.

Lemma usertrap_entry s : flag (sstatus (tcsr s)) SSTATUS_SPP = false ->
  usertrap s = (let c := scause (tcsr s) in let v := stval (tcsr s) in
    if c =? SCAUSE_EVCALL_USER then
      k ← t_killed;
      if negb (k =? 0) then exit_killed
      else set_epc (fun e => u64 (e + 4));; intr_on;; t_syscall;; usertrap_finish 0
    else if c =? SCAUSE_PAGE_LOAD then
      r ← t_alloc_mmap_page v c; (if r <? 0 then t_setkilled else mret tt);; usertrap_finish 0
    else if c =? SCAUSE_PAGE_STORE then
      ret ← t_alloc_cow_page v;
      (if ret <? 0 then t_setkilled
       else if ret =? 1 then r ← t_alloc_mmap_page v c; if r <? 0 then t_setkilled else mret tt
       else mret tt);; usertrap_finish 0
    else
      which_dev ← devintr;
      (if negb (which_dev =? 0) then mret tt else t_setkilled);; usertrap_finish which_dev) (entered s).
Proof.
  intros Hs. unfold Trap.usertrap, csr. rewrite bind_gets, Hs. reflexivity.
Qed.

Lemma devintr_none s : is_interrupt (scause (tcsr s)) = false -> devintr s = Done 0 s.
Proof.
  intros Hi. unfold devintr, csr. rewrite bind_gets. unfold is_interrupt in Hi.
  destruct (Z.testbit _ 63); [|done]. cbn [andb] in *. apply orb_false_iff in Hi as [-> ->]. done.
Qed.

Lemma refused_exits s : flag (sstatus (tcsr s)) SSTATUS_SPP = false -> inv (tos s) -> refused s ->
  exists x s', usertrap s = Done (Exited x) s' /\ x <> 0.
Proof.
  intros Hs Hi Hr. assert (Hi' : inv (tos (entered s))) by exact Hi. rewrite usertrap_entry by done. cbv zeta. unfold refused in Hr.
  destruct (scause (tcsr s) =? SCAUSE_EVCALL_USER); [done|]. destruct (scause (tcsr s) =? SCAUSE_PAGE_LOAD).
  { destruct Hr as (r & s1 & E & Hneg). rewrite (bind_Done _ _ _ _ _ E), (proj2 (Z.ltb_lt r 0)) by done. by eapply refuse_exits, mmap_keeps. }
  destruct (scause (tcsr s) =? SCAUSE_PAGE_STORE).
  { destruct Hr as (ret & s1 & E & Hcase). rewrite (bind_Done _ _ _ _ _ E).
    destruct Hcase as [Hneg|(-> & r & s2 & E2 & Hneg)].
    - rewrite (proj2 (Z.ltb_lt ret 0)) by done. by eapply refuse_exits, cow_keeps.
    - cbn [Z.ltb Z.compare Z.eqb Pos.eqb]. rewrite bind_assoc, (bind_Done _ _ _ _ _ E2), (proj2 (Z.ltb_lt r 0)) by done.
      eapply refuse_exits, mmap_keeps; [|exact E2]. by eapply cow_keeps. }
  rewrite (bind_Done _ _ _ _ _ (devintr_none (entered s) Hr)). by apply refuse_exits.
Qed.

Definition only_ready (e : trap_end) s : Prop := forall pt, e = Resumed pt -> ready pt s.
Lemma any_bind {A} (m : M tst A) (f : A -> M tst trap_end) :
  (forall a, ptriple (fun _ => True) (f a) only_ready) -> ptriple (fun _ => True) (m ≫= f) only_ready.
Proof. intros Hf. by apply (ptriple_bind _ _ (fun _ _ => True)); [|exact Hf]. Qed.
Lemma exit_killed_ready : ptriple (fun _ => True) exit_killed only_ready.
Proof. do 2 (apply any_bind; intros ?). apply ptriple_ret. by intros s _ pt [=]. Qed.
Lemma usertrapret_ready : ptriple (fun _ => True) usertrapret only_ready.
Proof.
  intros s e s' _ E. destruct (usertrapret_ok s) as (s1 & E1 & Hr & _). rewrite E1 in E. injection E as <- <-. by intros pt [= <-].
Qed.
Lemma finish_ready d : ptriple (fun _ => True) (usertrap_finish d) only_ready.
Proof.
  unfold Trap.usertrap_finish. apply any_bind. intros k. destruct (negb (k =? 0)); [exact exit_killed_ready|].
  do 2 (apply any_bind; intros ?). exact usertrapret_ready.
Qed.
Lemma usertrap_ready : ptriple (fun _ => True) usertrap only_ready.
Proof.
  unfold Trap.usertrap. apply any_bind. intros x. destruct (flag x SSTATUS_SPP); [apply ptriple_panic|].
  do 5 (apply any_bind; intros ?). destruct (_ =? SCAUSE_EVCALL_USER).
  { apply any_bind. intros k. destruct (negb (k =? 0)); [exact exit_killed_ready|]. do 3 (apply any_bind; intros ?). apply finish_ready. }
  destruct (_ =? SCAUSE_PAGE_LOAD); [|destruct (_ =? SCAUSE_PAGE_STORE)]; do 2 (apply any_bind; intros ?); apply finish_ready.
Qed.

(** C6: traps from user mode.  A trap the kernel refuses, a fault on a page
    the process has no right to or an unknown cause, ends in exit with a
    status other than 0; and whatever returns to user mode was not refused and
    returns with the mode set to user, interrupts off until [sret] and on
    after it, traps directed to uservec, the program counter of the trap frame,
    and the trap frame's kernel words set for the next trap. *)
Theorem usertrap_correct s : flag (sstatus (tcsr s)) SSTATUS_SPP = false -> inv (tos s) ->
  (refused s -> exists x s', usertrap s = Done (Exited x) s' /\ x <> 0) /\
  (forall pt s', usertrap s = Done (Resumed pt) s' -> ~ refused s /\ ready pt s').
Proof.
  intros Hs Hi. split; [by apply refused_exits|]. intros pt s' E. split; [|by eapply usertrap_ready].
  intros Hr. destruct (refused_exits s Hs Hi Hr) as (x & s1 & E1 & _). rewrite E1 in E. discriminate E.
Qed.

(** ** What serving an interrupt is *)

Definition with_sie (x : Z) s : tst :=
  let c := tcsr s in Tst (Csrs (sstatus c) (sepc c) (stval c) (scause c) (stvec c) (satp c) x (time c)) (tfr s) (tos s).
(** A device: its interrupt is claimed, the UART's goes to its handler, and
    what was claimed is completed. *)
Definition device_served s s' : Prop := exists irq s1 s2,
  t_plic_claim s = Done irq s1 /\
  (if irq =? UART0_IRQ then t_uartintr s1 = Done tt s2 else s2 = s1) /\
  (if irq =? 0 then s' = s2 else t_plic_complete irq s2 = Done tt s').
(** The timer: with its interrupt masked the clock handler runs and the next
    interrupt is set one interval from the time then. *)
Definition timer_served s s' : Prop := exists s1 s2,
  t_clockintr (with_sie (Z.land (sie (tcsr s)) (u64 (Z.lnot (Z.shiftl 1 5)))) s) = Done tt s1 /\
  t_set_timer (u64 (time (tcsr s1) + INTERVAL)) s1 = Done tt s2 /\
  s' = with_sie (Z.lor (sie (tcsr s2)) (Z.shiftl 1 5)) s2.
(** After the timer a process that was running gives up the CPU. *)
Definition served s s' : Prop :=
  if Z.land (scause (tcsr s)) 0xff =? 9 then device_served s s'
  else exists s1, timer_served s s1 /\ (if t_running (tos s1) then t_yield s1 = Done tt s' else s' = s1).

Lemma device_done s : inv (tos s) -> Z.testbit (scause (tcsr s)) 63 = true -> Z.land (scause (tcsr s)) 0xff = 9 ->
  exists s', devintr s = Done 1 s' /\ device_served s s' /\ inv (tos s').
Proof.
  intros Hi Ht H9. unfold devintr, csr. rewrite bind_gets, Ht, H9. cbn [andb Z.eqb Pos.eqb].
  destruct (claim_done s Hi) as (i & s1 & E1 & Hi1). rewrite (bind_Done _ _ _ _ _ E1).
  assert (Hu : exists s2, (if i =? UART0_IRQ then t_uartintr else mret tt) s1 = Done tt s2 /\ inv (tos s2) /\
      (if i =? UART0_IRQ then t_uartintr s1 = Done tt s2 else s2 = s1)).
  { destruct (i =? UART0_IRQ); [|by exists s1]. destruct (uartintr_done s1 Hi1) as (s2 & E & ?). by exists s2. }
  destruct Hu as (s2 & E2 & Hi2 & Hs2). rewrite (bind_Done _ _ _ _ _ E2).
  assert (Hc : exists s3, (if negb (i =? 0) then t_plic_complete i else mret tt) s2 = Done tt s3 /\ inv (tos s3) /\
      (if i =? 0 then s3 = s2 else t_plic_complete i s2 = Done tt s3)).
  { destruct (i =? 0); cbn [negb]; [by exists s2|]. destruct (complete_done i s2 Hi2) as (s3 & E & ?). by exists s3. }
  destruct Hc as (s3 & E3 & Hi3 & Hs3). rewrite (bind_Done _ _ _ _ _ E3). exists s3. split; [done|]. split; [by exists i, s1, s2|done].
Qed.

Lemma timer_served_done s : inv (tos s) -> Z.testbit (scause (tcsr s)) 63 = true -> Z.land (scause (tcsr s)) 0xff = 5 ->
  exists s', devintr s = Done 2 s' /\ timer_served s s' /\ inv (tos s').
Proof.
  intros Hi Ht H5. unfold devintr, csr. rewrite bind_gets, Ht, H5. cbn [andb Z.eqb Pos.eqb]. unfold w_sie, set_csr. rewrite !bind_gets, bind_modify.
  match goal with |- context [(t_clockintr ≫= _) ?x] => destruct (clockintr_done x Hi) as (s1 & E1 & Hi1) end.
  rewrite (bind_Done _ _ _ _ _ E1), bind_gets.
  destruct (timer_done (u64 (time (tcsr s1) + INTERVAL)) s1 Hi1) as (s2 & E2 & Hi2). rewrite (bind_Done _ _ _ _ _ E2), bind_gets, bind_modify.
  eexists. split; [reflexivity|]. split; [|exact Hi2]. exists s1, s2. done.
Qed.

Lemma is_interrupt_cases c : is_interrupt c = true -> Z.testbit c 63 = true /\ (Z.land c 0xff = 9 \/ Z.land c 0xff = 5).
Proof. unfold is_interrupt. intros [? Hor]%andb_prop. split; [done|]. apply orb_true_iff in Hor as [?|?]; bool_hyps; auto. Qed.

(** C24: traps inside the kernel.  An interrupt, taken with interrupts off,
    is served: a device's is claimed, handled when it is the UART's, and
    completed; the timer's runs the clock handler with timer interrupts
    masked, sets the next one and unmasks them, and then the running process
    yields.  The interrupted code gets its program counter and its status
    register back, whatever other processes did to them meanwhile, and nothing
    else is changed.  A trap from user mode, with interrupts on, or that is no
    interrupt stops the kernel. *)
Theorem kerneltrap_correct s : inv (tos s) ->
  if flag (sstatus (tcsr s)) SSTATUS_SPP && negb (flag (sstatus (tcsr s)) SSTATUS_SIE) && is_interrupt (scause (tcsr s))
  then exists s1 s', served s s1 /\ kerneltrap s = Done tt s' /\
    tcsr s' = Csrs (sstatus (tcsr s)) (sepc (tcsr s)) (stval (tcsr s1)) (scause (tcsr s1)) (stvec (tcsr s1)) (satp (tcsr s1)) (sie (tcsr s1)) (time (tcsr s1)) /\
    tfr s' = tfr s1 /\ tos s' = tos s1
  else exists msg, kerneltrap s = Panic msg.
Proof.
  intros Hi. unfold kerneltrap, csr, intr_get. rewrite !bind_gets. destruct (flag (sstatus (tcsr s)) SSTATUS_SPP); cbn [andb negb]; [|by eexists].
  rewrite bind_assoc. unfold csr. rewrite bind_gets, bind_ret. destruct (flag (sstatus (tcsr s)) SSTATUS_SIE); cbn [andb negb]; [by eexists|].
  destruct (is_interrupt (scause (tcsr s))) eqn:Eint; cbn [negb]; [|rewrite (bind_Done _ _ _ _ _ (devintr_none s Eint)); by eexists].
  apply is_interrupt_cases in Eint as [Ht [H9|H5]]; unfold served.
  - destruct (device_done s Hi Ht H9) as (s1 & E1 & Hs1 & _). rewrite (bind_Done _ _ _ _ _ E1). cbn [Z.eqb Pos.eqb]. rewrite bind_gets. cbn [andb]. rewrite bind_ret, H9.
    exists s1. eexists. split; [exact Hs1|]. split; [reflexivity|done].
  - destruct (timer_served_done s Hi Ht H5) as (s1 & E1 & Hs1 & Hi1). rewrite (bind_Done _ _ _ _ _ E1). cbn [Z.eqb Pos.eqb]. rewrite bind_gets, H5. cbn [Z.eqb Pos.eqb andb].
    assert (Hy : exists s2, (if t_running (tos s1) then t_yield else mret tt) s1 = Done tt s2 /\ (if t_running (tos s1) then t_yield s1 = Done tt s2 else s2 = s1)).
    { destruct (t_running (tos s1)); [|by exists s1]. destruct (yield_done s1 Hi1) as (s2 & E & _). by exists s2. }
    destruct Hy as (s2 & E2 & Hs2). rewrite (bind_Done _ _ _ _ _ E2). exists s2. eexists. split; [by exists s1|]. split; [reflexivity|done].
Qed.
End Trap.

(** ** Handlers for the witness

    The state is the killed flag; no page is ever granted, and a yield leaves
    other values in sepc and sstatus. *)
#[local] Instance flag_ops : trapops Z := {|
  t_killed := gets tos;
  t_setkilled := modify (fun s => Tst (tcsr s) (tfr s) 1);
  t_xstate := fun _ => 0; t_kstack := fun _ => 0x5000; t_pagetable := fun _ => 0x80300000; t_running := fun _ => true;
  t_exit := fun _ => mret tt;
  t_yield := modify (fun s => Tst (Csrs 0 0 0 0 0 0 0 0) (tfr s) (tos s));
  t_syscall := mret tt; t_check_pending_signal := mret tt;
  t_alloc_cow_page := fun _ => mret 1; t_alloc_mmap_page := fun _ _ => mret (-1);
  t_uartintr := mret tt; t_clockintr := mret tt; t_plic_claim := mret UART0_IRQ; t_plic_complete := fun _ => mret tt; t_set_timer := fun _ => mret tt
|}.
#[local] Instance flag_laws : trapops_laws Z (fun _ => True).
Proof. split; intros; try done; repeat eexists; try reflexivity; discriminate. Qed.
Definition wit_trap (c : Z) : tst Z := Tst (Csrs 0 0x1000 0x2000 c 0 7 0 0) (Trapregs 0 0 0 0 0) 0.

(** A store to a page that is not mapped kills the process; a system call
    returns behind its instruction. *)
Lemma usertrap_correct_witness :
  refused 0x100 (wit_trap 15) /\
  (exists x s', usertrap 0x100 0x200 0x300 0x300 (wit_trap 15) = Done (Exited x) s' /\ x <> 0) /\
  (exists pt s', usertrap 0x100 0x200 0x300 0x300 (wit_trap 8) = Done (Resumed pt) s' /\ ready 0x200 0x300 0x300 pt s' /\ sepc (tcsr s') = 0x1004).
Proof.
  assert (Hr : refused 0x100 (wit_trap 15)).
  { exists 1, (entered 0x100 (wit_trap 15)). split; [reflexivity|]. right. split; [reflexivity|].
    exists (-1), (entered 0x100 (wit_trap 15)). by split. }
  split; [exact Hr|]. split.
  - by apply (usertrap_correct 0x100 0x200 0x300 0x300 (wit_trap 15) eq_refl I).
  - eexists _, _. split; [vm_compute; reflexivity|]. split; [|reflexivity].
    by apply (usertrap_correct 0x100 0x200 0x300 0x300 (wit_trap 8) eq_refl I).
Defined.

(** A timer interrupt in the kernel: the yield runs, and leaves no trace in
    the two registers.  A UART interrupt. *)
Definition wit_ktrap (cause : Z) : tst Z := Tst (Csrs SSTATUS_SPP 0x80201000 0 (Z.shiftl 1 63 + cause) 0x100 7 0x20 1000) (Trapregs 0 0 0 0 0) 0.
Lemma kerneltrap_correct_witness :
  (exists s1 s', served (wit_ktrap 5) s1 /\ kerneltrap (wit_ktrap 5) = Done tt s' /\ tcsr s' = Csrs SSTATUS_SPP 0x80201000 0 0 0 0 0 0) /\
  (exists s', kerneltrap (wit_ktrap 9) = Done tt s' /\ tcsr s' = tcsr (wit_ktrap 9)).
Proof.
  split.
  - destruct (kerneltrap_correct (wit_ktrap 5) I) as (s1 & s' & Hs & E & Ec & _). exists s1, s'. split; [exact Hs|]. split; [exact E|].
    vm_compute in E. injection E as <-. reflexivity.
  - destruct (kerneltrap_correct (wit_ktrap 9) I) as (s1 & s' & _ & E & _). exists s'. split; [exact E|]. vm_compute in E. injection E as <-. reflexivity.
Defined.
