(* ===== verification/Sysproc.v ===== *)
(** * The process system calls (kernel/sysproc.c, growproc and ppoll of
    kernel/proc.c, sys_uname, sys_futex and the clock calls of
    kernel/syscall.c)

    The handlers read their arguments from the trap frame and call Proc.v and
    Cred.v on the state of Proc.v; what they ask of memory beyond [kenv] is the
    class [procmem].  [junk] is what the stack holds in a local that the code
    does not initialise.  [growproc] and [sys_brk] work on the page tables of
    Vm.v, the clock calls on the clock of Clock.v. *)
From S2P Require Import Prelude Spinlock Bytes UserMem Signal Cred Clock Syscall Vm.
From S2P Require Import Proc.

Definition ENOSYS : Z := 38.
Definition POLLIN : Z := 0x001.
Definition POLLOUT : Z := 0x004.
Definition RLIM_INFINITY : Z := u64 (Z.lnot 0).
(** "xv6", "milkv-duo-256", "0.3.1", "2025-03-24" and "riskv64". *)
Definition UNAME_SYSNAME : list Z := [120; 118; 54].
Definition UNAME_NODENAME : list Z := [109; 105; 108; 107; 118; 45; 100; 117; 111; 45; 50; 53; 54].
Definition UNAME_RELEASE : list Z := [48; 46; 51; 46; 49].
Definition UNAME_VERSION : list Z := [50; 48; 50; 53; 45; 48; 51; 45; 50; 52].
Definition UNAME_MACHINE : list Z := [114; 105; 115; 107; 118; 54; 52].
Definition UTS_FIELD : Z := 65.
Definition sizeof_utsname : Z := 6 * UTS_FIELD.
Definition sizeof_timespec : Z := 16.
Definition sizeof_pollfd : Z := 8.
Definition sizeof_k_sigaction : Z := 32.
Definition sizeof_cpu_set : Z := 128.

(** ** The heap *)
Section Brk.
Context {P : Type} `{!kpages P}.
Context (pagetable : Z) (tf : Z -> Z).

(** The pages and [p->sz]. *)
Record brkst := Brkst { b_vm : vst P; b_sz : Z }.
Definition on_heap {A} (m : M (vst P) A) : M brkst A := zoom b_vm (fun v s => Brkst v (b_sz s)) m.
Definition set_b_sz (v : Z) : M brkst unit := modify (fun s => Brkst (b_vm s) v).

Definition growproc (n : Z) : M brkst Z :=
  sz ← gets b_sz;
  if 0 <? n then
    sz ← on_heap (uvmalloc pagetable sz (u64 (sz + n)) PTE_W);
    if sz =? 0 then mret (-1) else set_b_sz sz;; mret 0
  else if n <? 0 then
    sz ← on_heap (uvmdealloc pagetable sz (u64 (sz + n)));
    set_b_sz sz;;
    mret 0
  else set_b_sz sz;; mret 0.

(** The difference of two [long]s goes to the [int] parameter of [growproc]. *)
Definition sys_brk : M brkst Z :=
  sz ← gets b_sz;
  let oldsz := s64 sz in
  let? a := argu64 0 tf else - EINVAL in
  let newsz := s64 a in
  if newsz <? 0 then mret oldsz
  else if newsz =? 0 then mret oldsz
  else
    r ← growproc (s32 (s64 (newsz - oldsz)));
    if r <? 0 then mret oldsz else gets (fun s => s64 (b_sz s)).
End Brk.
Arguments brkst : clear implicits.

(** ** The clock calls *)
Section Clock.
Context {R : Type} `{!rtc_dev R} {K : Type} `{!waker K} {U : Type} `{!usermem U} (polls : nat) (tf : Z -> Z).
Context (sz : Z) (is_mmap_region : Z -> Z -> bool) (junk : list Z).
Local Abbreviation ckst := (ckst R K U).

Definition sys_clock_gettime : M ckst Z :=
  let? clk_id := argint 0 tf else - EINVAL in
  let? tp := argu64 1 tf else - EINVAL in
  r ← clock_gettime true clk_id tp;
  mret r.1.
Definition timespec_at (l : list Z) : Z * Z := (s64 (rd64 (of_list l) 0), s64 (rd64 (of_list l) 8)).
Definition sys_clock_settime : M ckst Z :=
  let? clk_id := argint 0 tf else - EINVAL in
  u ← gets ckuser;
  let? tp := argptr sz is_mmap_region 1 sizeof_timespec tf u else - EINVAL in
  clock_settime polls clk_id (timespec_at (default junk tp)).
End Clock.

(** ** The process calls *)

(** [env_copyin pt a n]: [copyin]'s result and the bytes; [env_mapped]: the
    test of the process's regions; [env_delay]: the busy wait [delayus]. *)
Class procmem (W : Type) := ProcMem {
  env_copyin : option Z -> Z -> Z -> W -> (Z * list Z) * W;
  env_mapped : proc -> W -> Z -> Z -> bool;
  env_delay : Z -> W -> W
}.

Section Sysproc.
Context {W : Type} `{!kenv W} `{!procmem W} (junk : list Z).
Local Abbreviation kst := (kst W).

(** The argument registers of the current process. *)
Definition regs : M kst (Z -> Z) :=
  p ← self; pr ← rdp p; mret (fun n => default 0 (tf pr !! (tf_a0 + Z.to_nat n)%nat)).
Definition ret (v : Z) : M kst ctl := mret (Ret v).
(** [copyout(myproc()->pagetable, ...)]. *)
Definition user_out (a : Z) (l : list Z) : M kst Z := p ← self; pr ← rdp p; ask (env_copyout (pagetable pr) a l).
Definition user_in (a n : Z) : M kst (Z * list Z) := p ← self; pr ← rdp p; ask (env_copyin (pagetable pr) a n).
Definition user_ok (a n : Z) : M kst bool :=
  p ← self; pr ← rdp p; w ← gets world; mret (in_user (sz pr) (env_mapped pr w) a n).
(** [argptr] into an object of [size] bytes, which an address of 0 leaves as
    it was. *)
Definition arg_ptr (n size : Z) : M kst (option (list Z)) :=
  r ← regs;
  let? addr := argu64 n r else None in
  if addr =? 0 then mret (Some (take (Z.to_nat size) junk))
  else
    ok ← user_ok addr size;
    if (ok : bool) then c ← user_in addr size; mret (if c.1 <? 0 then None else Some c.2) else mret None.

Definition sys_exit (fs : list frame) : M kst ctl :=
  r ← regs; let? n := argint 0 r else Ret (- EINVAL) in exit n.
Definition sys_exit_group (fs : list frame) : M kst ctl :=
  r ← regs; let? n := argint 0 r else Ret (- EINVAL) in exit n.
Definition sys_getpid (fs : list frame) : M kst ctl := p ← self; pr ← rdp p; ret (pid pr).
Definition sys_getppid (fs : list frame) : M kst ctl :=
  p ← self; pr ← rdp p; q ← deref (parent pr); qr ← rdp q; ret (pid qr).
Definition sys_gettid (fs : list frame) : M kst ctl := p ← self; pr ← rdp p; ret (pid pr).
Definition sys_set_tid_address (fs : list frame) : M kst ctl := p ← self; pr ← rdp p; ret (pid pr).
Definition sys_sysinfo (fs : list frame) : M kst ctl := ret (- EINVAL).

Definition sys_clone (fs : list frame) : M kst ctl :=
  r ← regs;
  let? flag := argu64 0 r else Ret (- EINVAL) in
  let? childstk := argu64 1 r else Ret (- EINVAL) in
  let? ptid := argint 2 r else Ret (- EINVAL) in
  let? tls := argu64 3 r else Ret (- EINVAL) in
  let? ctid := argint 4 r else Ret (- EINVAL) in
  Proc.sys_clone flag.

Definition sys_wait4 (fs : list frame) : M kst ctl :=
  r ← regs;
  let? wpid := argint 0 r else Ret (- EINVAL) in
  let? status := argu64 1 r else Ret (- EINVAL) in
  let? options := argint 2 r else Ret (- EINVAL) in
  let? ru := argu64 3 r else Ret (- EINVAL) in
  Proc.sys_wait4 wpid status options ru fs.

Definition sys_nanosleep (fs : list frame) : M kst ctl :=
  r ← regs;
  let? rem := argu64 1 r else Ret (- EINVAL) in
  o ← arg_ptr 0 sizeof_timespec;
  let? b := o else Ret (- EINVAL) in
  let req := timespec_at b in
  if (1000000000 <=? req.2) || (req.2 <? 0) || (req.1 <? 0) then ret (- EINVAL)
  else
    on_world (env_delay (u64 (req.1 * 1000000 + (req.2 + 999) / 1000)));;
    e ← (if negb (rem =? 0) then user_out rem (timespec_bytes (0, 0)) else mret 0);
    ret (if e <? 0 then - EFAULT else 0).

Definition sys_kill (fs : list frame) : M kst ctl :=
  r ← regs;
  let? q := argint 0 r else Ret (- EINVAL) in
  let? sig := argint 1 r else Ret (- EINVAL) in
  Proc.sys_kill q sig fs.

Definition sys_rt_sigsuspend (fs : list frame) : M kst ctl :=
  o ← arg_ptr 0 8;
  let? b := o else Ret (- EINVAL) in
  sigsuspend (rd64 (of_list b) 0) fs.

(** [struct k_sigaction]: handler, flags, mask and an unused pointer. *)
Definition action_at (l : list Z) : sigaction_t :=
  Sigaction (rd64 (of_list l) 0) (rd64 (of_list l) 16) (rd64 (of_list l) 8).
Definition sys_rt_sigaction (fs : list frame) : M kst ctl :=
  r ← regs;
  let? sig := argint 0 r else Ret (- EINVAL) in
  let? actp := argu64 1 r else Ret (- EINVAL) in
  let? oldact := argu64 2 r else Ret (- EINVAL) in
  c ← (if actp =? 0 then mret (0, take (Z.to_nat sizeof_k_sigaction) junk) else user_in actp sizeof_k_sigaction);
  if c.1 <? 0 then ret (- EFAULT) else Proc.sys_rt_sigaction sig (action_at c.2) oldact.

Definition sys_rt_sigpending (fs : list frame) : M kst ctl :=
  r ← regs; let? pending := argu64 0 r else Ret (- EINVAL) in sigpending pending.

Definition sys_rt_sigprocmask (fs : list frame) : M kst ctl :=
  r ← regs;
  let? how := argint 0 r else Ret (- EINVAL) in
  let? oldset := argu64 2 r else Ret (- EINVAL) in
  let? size := argu64 3 r else Ret (- EINVAL) in
  o ← arg_ptr 1 8;
  let? b := o else Ret (- EFAULT) in
  Proc.sys_rt_sigprocmask how (rd64 (of_list b) 0) oldset size.

Definition sys_rt_sigreturn (fs : list frame) : M kst ctl := sigreturn.

(** [ppoll]: with no descriptors it sleeps until woken; the caller's mask is
    put back as it was.  [fds] is the page with the kernel's copy, whose
    revents it sets before it frees it; more descriptors than the page holds
    are written past it. *)
Definition ppoll (fds : option Z) (nfds : Z) (fs : list frame) : M kst ctl :=
  match fds with
  | None =>
      p ← self;
      upd p (set_paused 1);;
      kacquire q_lock;;
      sleep (proc_addr p) q_lock (FUnlock q_lock :: fs)
  | Some pg =>
      if PGSIZE / sizeof_pollfd <? nfds then undef
      else
        on_world (env_kfree pg);;
        ret (s64 nfds)
  end.
(** A copy that is larger than its page is undefined. *)
Definition sys_ppoll (fs : list frame) : M kst ctl :=
  r ← regs;
  let? nfds := argu64 1 r else Ret (- EINVAL) in
  t ← arg_ptr 2 sizeof_timespec;
  let? timeout := t else Ret (- EINVAL) in
  m ← arg_ptr 3 8;
  let? sigmask := m else Ret (- EINVAL) in
  if 0 <? nfds then
    o ← ask env_kalloc;
    let? pg := o else Ret (- ENOMEM) in
    let? addr := argu64 0 r else Ret (- EINVAL) in
    let size := u64 (nfds * sizeof_pollfd) in
    if addr =? 0 then ppoll (Some pg) nfds fs
    else
      ok ← user_ok addr size;
      if negb ok then ret (- EINVAL)
      else if PGSIZE <? size then undef
      else c ← user_in addr size; if c.1 <? 0 then ret (- EINVAL) else ppoll (Some pg) nfds fs
  else ppoll None nfds fs.

Definition sys_getpgid (fs : list frame) : M kst ctl :=
  r ← regs; let? q := argint 0 r else Ret (- EINVAL) in getpgid q.
Definition sys_setpgid (fs : list frame) : M kst ctl :=
  r ← regs;
  let? q := argint 0 r else Ret (- EINVAL) in
  let? g := argint 1 r else Ret (- EINVAL) in
  setpgid q g.

(** The results of the three [copyout]s are not looked at. *)
Definition out_ids (x y z : cred -> Z) : M kst ctl :=
  r ← regs;
  p ← self;
  pr ← rdp p;
  let? a := argu64 0 r else Ret (- EINVAL) in
  let? b := argu64 1 r else Ret (- EINVAL) in
  let? c := argu64 2 r else Ret (- EINVAL) in
  user_out a (bytes_of 4 (x (cr pr)));;
  user_out b (bytes_of 4 (y (cr pr)));;
  user_out c (bytes_of 4 (z (cr pr)));;
  ret 0.
Definition sys_getresuid (fs : list frame) : M kst ctl := out_ids uid euid suid.
Definition sys_getresgid (fs : list frame) : M kst ctl := out_ids gid egid sgid.

(** The first word of the mask is set; the others are what the stack held. *)
Definition sys_sched_getaffinity (fs : list frame) : M kst ctl :=
  r ← regs;
  let? q := argint 0 r else Ret (- EINVAL) in
  let? cpusetsize := argu64 1 r else Ret (- EINVAL) in
  let? maskp := argu64 2 r else Ret (- EINVAL) in
  e ← user_out maskp (bytes_of 8 1 ++ drop 8 (take (Z.to_nat sizeof_cpu_set) junk));
  ret (if e <? 0 then - EINVAL else 0).

Definition sys_prlimit64 (fs : list frame) : M kst ctl :=
  r ← regs;
  let? q := argint 0 r else Ret (- EINVAL) in
  let? resource := argint 1 r else Ret (- EINVAL) in
  let? new_limit_p := argu64 2 r else Ret (- EINVAL) in
  let? old_limit_p := argu64 3 r else Ret (- EINVAL) in
  e ← (if negb (old_limit_p =? 0) then user_out old_limit_p (bytes_of 8 RLIM_INFINITY ++ bytes_of 8 RLIM_INFINITY) else mret 0);
  ret (if e <? 0 then - EINVAL else 0).

Definition sys_futex (fs : list frame) : M kst ctl :=
  r ← regs;
  let? uaddr := argu64 0 r else Ret (- EINVAL) in
  let? op := argint 1 r else Ret (- EINVAL) in
  let? val := argint 2 r else Ret (- EINVAL) in
  t ← arg_ptr 3 sizeof_timespec;
  let? timeout := t else Ret (- EINVAL) in
  let? uaddr2 := argu64 4 r else Ret (- EINVAL) in
  let? val3 := argint 5 r else Ret (- EINVAL) in
  ret (if negb (Z.land op 128 =? 0) then - ENOSYS else 0).

(** [strncpy] of a string with its terminator into a field at [off]. *)
Definition put_field (off : nat) (str l : list Z) : list Z := take off l ++ str ++ [0] ++ drop (off + length str + 1) l.
Definition uts_bytes (l : list Z) : list Z :=
  put_field 260 UNAME_MACHINE (put_field 195 UNAME_VERSION (put_field 130 UNAME_RELEASE
    (put_field 65 UNAME_NODENAME (put_field 0 UNAME_SYSNAME l)))).
Definition sys_uname (fs : list frame) : M kst ctl :=
  r ← regs;
  let? utsp := argu64 0 r else Ret (- EINVAL) in
  user_out utsp (uts_bytes (take (Z.to_nat sizeof_utsname) junk));;
  ret 0.

(** ** The table

    The calls of Cred.v on the identity of the current process. *)
Definition cred_call (f : (Z -> Z) -> cred -> Z * cred) (fs : list frame) : M kst ctl :=
  r ← regs;
  p ← self;
  pr ← rdp p;
  upd p (set_cr (f r (cr pr)).2);;
  ret (f r (cr pr)).1.
Definition cred_get (f : cred -> Z) (fs : list frame) : M kst ctl := p ← self; pr ← rdp p; ret (f (cr pr)).

Definition proc_calls : list (Z * (list frame -> M kst ctl)) := [
  (73, sys_ppoll); (93, sys_exit); (94, sys_exit_group); (96, sys_set_tid_address); (98, sys_futex); (101, sys_nanosleep);
  (123, sys_sched_getaffinity); (129, sys_kill); (133, sys_rt_sigsuspend); (134, sys_rt_sigaction); (135, sys_rt_sigprocmask);
  (136, sys_rt_sigpending); (139, sys_rt_sigreturn); (144, cred_call sys_setgid); (145, cred_call sys_setreuid);
  (146, cred_call sys_setuid); (147, cred_call sys_setresuid); (148, sys_getresuid); (149, cred_call sys_setresgid);
  (150, sys_getresgid); (151, cred_call sys_setfsuid); (152, cred_call sys_setfsgid); (154, sys_setpgid); (155, sys_getpgid);
  (160, sys_uname); (166, cred_call sys_umask); (172, sys_getpid); (173, sys_getppid); (174, cred_get sys_getuid);
  (175, cred_get sys_geteuid); (176, cred_get sys_getgid); (177, cred_get sys_getegid); (178, sys_gettid); (179, sys_sysinfo);
  (220, sys_clone); (260, sys_wait4); (261, sys_prlimit64)
].

Fixpoint find_handler (l : list (Z * (list frame -> M kst ctl))) (num : Z) : option (list frame -> M kst ctl) :=
  match l with [] => None | (n, f) :: l => if n =? num then Some f else find_handler l num end.

(** [syscall] for these calls: a7 is word 21 of the trap frame. *)
Definition proc_syscall : M kst ctl :=
  p ← self;
  pr ← rdp p;
  let num := s32 (default 0 (tf pr !! 21%nat)) in
  match (if 0 <? num then find_handler proc_calls num else None) with
  | Some f => Proc.syscall f
  | None => upd p (fun q => set_tf (<[tf_a0 := u64 (-1)]> (tf q)) q);; ret (-1)
  end.
End Sysproc.
