(* ===== verification/SysprocProps.v ===== *)
(** * The heap (sys_brk of kernel/sysproc.c, growproc, uvmalloc and uvmdealloc)

    What a change of the break does to the process's memory, over the page
    tables of Vm.v. *)
From S2P Require Import Prelude Bytes UserMem Syscall Vm VmBits VmInv VmUser VmMap VmProps Sysproc.

(** The end of the page of the last byte below [a]. *)
Definition page_up (a : Z) : Z := (a + PGSIZE - 1) / PGSIZE * PGSIZE.

Lemma page_up_bounds a : 0 <= a -> a <= page_up a < a + PGSIZE /\ (PGSIZE | page_up a).
Proof. intros Ha. unfold page_up. destruct (page_split (a + PGSIZE - 1)). split; [unfold PGSIZE in *; lia|]. apply Z.divide_factor_r. Qed.
Lemma page_up_least a b : 0 <= a -> (PGSIZE | b) -> a <= b -> page_up a <= b.
Proof. intros Ha [q ->] Hle. unfold page_up. destruct (page_split (a + PGSIZE - 1)). unfold PGSIZE in *. nia. Qed.
Lemma maxva_page : (PGSIZE | MAXVA) /\ MAXVA + 2 ^ 33 < 2 ^ 63.
Proof. split; [exists 67108864; reflexivity|vm_compute; reflexivity]. Qed.
Lemma page_up_val a : 0 <= a <= MAXVA -> PGROUNDUP a = page_up a /\ page_up a <= MAXVA.
Proof.
  intros Ha. destruct maxva_page as [Hd Hm]. pose proof (page_up_least a MAXVA ltac:(lia) Hd ltac:(lia)). split; [|done].
  apply pgroundup_val; [lia|]. change (2 ^ 64) with (2 * 2 ^ 63). unfold PGSIZE. lia.
Qed.

Section Brk.
Context {P : Type} `{kpages_laws P}.
Local Notation vst := (vst P).
Implicit Types s : vst.
Context (root : Z).

(** No entry of the range is in use. *)
Definition unused s (T : tree) (a b : Z) : Prop := forall v, a <= v < b -> flag (lf T (pmem s) v) PTE_V = false.
(** The pages from [a] to [b] are new, zero and writable; all else is as it
    was. *)
Record grew s (T : tree) s' (R' : gmap Z Z) (T' : tree) (a b : Z) : Prop := {
  gw_space : uspace s' R' T' root;
  gw_out : forall v, 0 <= v < MAXVA -> ~ (a <= v < b) -> lf T' (pmem s') v = lf T (pmem s) v;
  gw_read : forall v, 0 <= v -> uread s' T' v = if decide (a <= v < b) then Some 0 else uread s T v;
  gw_write : forall v, a <= v < b -> uw s' T' v = true
}.

Lemma heap_perm : let perm := Z.lor (Z.lor PTE_RO PTE_U) PTE_W in is_flags perm /\ Z.testbit perm 4 = true /\ Z.testbit perm 2 = true.
Proof. vm_compute. split_and!; reflexivity. Qed.

Lemma grew_nothing s R T a b : uspace s R T root -> b <= a -> grew s T s R T a b.
Proof. intros HU Hb. split; [done|done| |lia]. intros v Hv. rewrite decide_False; [done|lia]. Qed.

Lemma uvmalloc_grows oldsz newsz : 0 <= newsz <= MAXVA -> forall n s R T a, uspace s R T root -> (PGSIZE | a) -> 0 <= a ->
  unused s T a (page_up newsz) -> newsz - a <= (Z.of_nat n - 1) * PGSIZE -> (1 <= n)%nat ->
  (exists msg, uvmalloc_loop n root a oldsz newsz PTE_W s = Panic msg) \/
  exists s' R' T', uvmalloc_loop n root a oldsz newsz PTE_W s = Done newsz s' /\ grew s T s' R' T' a (page_up newsz).
Proof.
  intros Hnew. destruct heap_perm as (Hp1 & Hp4 & Hp2). destruct maxva_page as [_ HM]. destruct (page_up_bounds newsz ltac:(lia)) as [Hup Hupd].
  destruct (page_up_val newsz Hnew) as [_ HupM].
  induction n as [|n IH]; intros s R T a HU Hal Ha Hun Hfuel Hn; [lia|]. cbn [uvmalloc_loop].
  destruct (a <? newsz) eqn:El; bool_hyps.
  2:{ right. exists s, R, T. split; [done|]. apply (grew_nothing s R); [done|]. apply page_up_least; [lia|done|lia]. }
  destruct (map_zero_page s R T root a (Z.lor (Z.lor PTE_RO PTE_U) PTE_W) HU Hp1 Hp4 Hal ltac:(lia) ltac:(apply Hun; lia))
    as [[msg E]|(pg & s1 & E & Hpg & [[msg E2]|(s2 & R2 & T2 & E2 & HU2 & Hlf2 & Hr2 & Hw2)])].
  { left. exists msg. unfold mbind, M_bind. by rewrite E. }
  { left. exists msg. rewrite (bind_Done _ _ _ _ _ E), (proj2 (Z.eqb_neq pg 0)) by done. unfold memset. rewrite bind_modify. unfold mbind, M_bind. by rewrite E2. }
  rewrite (bind_Done _ _ _ _ _ E), (proj2 (Z.eqb_neq pg 0)) by done. unfold memset. rewrite bind_modify, (bind_Done _ _ _ _ _ E2).
  cbn [Z.eqb negb]. assert (Ha4 : a + PGSIZE < 2 ^ 64) by (change (2 ^ 64) with (2 * 2 ^ 63); unfold PGSIZE; lia). rewrite wrap_small by (unfold PGSIZE in *; lia).
  assert (Hpage : forall v, v / PGSIZE = a / PGSIZE <-> a <= v < a + PGSIZE) by (intros v; by apply page_div).
  assert (Hnext : a + PGSIZE <= page_up newsz). { destruct Hal as [q ->], Hupd as [r Hr]. rewrite Hr in *. unfold PGSIZE in *. nia. }
  destruct (IH s2 R2 T2 (a + PGSIZE) HU2) as [[msg E3]|(s3 & R3 & T3 & E3 & [HU3 Ho3 Hr3 Hw3])].
  - by apply Z.divide_add_r.
  - unfold PGSIZE. lia.
  - intros v Hv. rewrite Hlf2 by (unfold PGSIZE in *; first [lia|rewrite Hpage; lia]). apply Hun. unfold PGSIZE in *. lia.
  - unfold PGSIZE in *. lia.
  - unfold PGSIZE in *. lia.
  - left. by exists msg.
  - right. exists s3, R3, T3. split; [exact E3|]. split; [exact HU3| | |].
    + intros v Hv Hout. rewrite Ho3 by (unfold PGSIZE in *; lia). apply Hlf2; [lia|]. rewrite Hpage. unfold PGSIZE in *. lia.
    + intros v Hv. rewrite Hr3, Hr2 by done. destruct (decide (v / PGSIZE = a / PGSIZE)) as [Ev|Ev]; rewrite Hpage in Ev; repeat case_decide; try done; unfold PGSIZE in *; lia.
    + intros v Hv. destruct (decide (a + PGSIZE <= v)) as [Hv2|Hv2]; [apply Hw3; lia|].
      assert (Evp : v / PGSIZE = a / PGSIZE) by (apply Hpage; lia).
      specialize (Hw2 Hp2 v ltac:(lia) Evp). unfold uw in *. rewrite Ho3 by (unfold PGSIZE in *; lia). exact Hw2.
Qed.

Lemma uvmalloc_ok s R T oldsz newsz : uspace s R T root -> 0 <= oldsz <= newsz -> newsz <= MAXVA ->
  unused s T (page_up oldsz) (page_up newsz) ->
  (exists msg, uvmalloc root oldsz newsz PTE_W s = Panic msg) \/
  exists s' R' T', uvmalloc root oldsz newsz PTE_W s = Done newsz s' /\ grew s T s' R' T' (page_up oldsz) (page_up newsz).
Proof.
  intros HU Ho Hm Hun. unfold uvmalloc. rewrite (proj2 (Z.ltb_ge _ _)) by lia. destruct (page_up_val oldsz ltac:(lia)) as [-> _]. cbv zeta.
  destruct (page_up_bounds oldsz ltac:(lia)) as [Hb Hd]. apply (uvmalloc_grows (page_up oldsz) newsz ltac:(lia)) with (R := R); try done; try lia.
  set (d := newsz - page_up oldsz). destruct (page_split d) as [Ed Hr]. destruct (Z.lt_ge_cases d 0); [unfold PGSIZE in *; lia|].
  assert (0 <= d / PGSIZE) by (apply Z.div_pos; done). unfold PGSIZE in *. lia.
Qed.

Lemma uvmdealloc_ok s R T oldsz newsz : uspace s R T root -> 0 <= newsz < oldsz -> oldsz <= MAXVA ->
  user_range s T (page_up newsz) (page_up oldsz - page_up newsz) ->
  exists s' R', uvmdealloc root oldsz newsz s = Done newsz s' /\ uspace s' R' T root /\
    forall v, 0 <= v -> uread s' T v = if decide (page_up newsz <= v < page_up oldsz) then None else uread s T v.
Proof.
  intros HU Hn Hm Hur. unfold uvmdealloc. rewrite (proj2 (Z.leb_gt _ _)) by lia.
  destruct (page_up_val newsz ltac:(lia)) as [-> Hn']. destruct (page_up_val oldsz ltac:(lia)) as [-> Ho'].
  destruct (page_up_bounds newsz ltac:(lia)) as [Hb Hd]. destruct (page_up_bounds oldsz ltac:(lia)) as [Hb' Hd'].
  destruct (page_up newsz <? page_up oldsz) eqn:El; bool_hyps.
  - set (k := (page_up oldsz - page_up newsz) / PGSIZE).
    assert (Ek : k * PGSIZE = page_up oldsz - page_up newsz).
    { unfold k. rewrite Z.mul_comm. symmetry. apply Z.div_exact; [done|]. apply Z.mod_divide; [done|]. by apply Z.divide_sub_r. }
    assert (HM : MAXVA = 67108864 * PGSIZE) by reflexivity. assert (Hk : 0 < k < 2 ^ 31) by (change (2 ^ 31) with 2147483648; unfold PGSIZE in *; nia).
    unfold swrap. rewrite Z.mod_small by (change (2 ^ (32 - 1)) with 2147483648; change (2 ^ 31) with 2147483648 in Hk; change (2 ^ 32) with 4294967296; lia).
    replace (k + 2 ^ (32 - 1) - 2 ^ (32 - 1)) with (Z.of_nat (Z.to_nat k)) by lia.
    destruct (unmap_user s R T root (page_up newsz) (Z.to_nat k) HU Hd ltac:(lia)) as (s' & R' & E & HU' & Hr').
    { rewrite Z2Nat.id by lia. lia. } { rewrite Z2Nat.id, Ek by lia. exact Hur. }
    rewrite Z2Nat.id, Ek in Hr' by lia. rewrite (bind_Done _ _ _ _ _ E). exists s', R'. split; [done|]. split; [done|].
    intros v Hv. rewrite Hr' by done. by replace (page_up newsz + (page_up oldsz - page_up newsz)) with (page_up oldsz) by lia.
  - exists s, R. split; [done|]. split; [done|]. intros v Hv. rewrite decide_False; [done|lia].
Qed.

(** ** sys_brk *)

(** What a change of the break from [sz] to [newsz] leaves. *)
Record broke (sz newsz : Z) s (T : tree) s' (R' : gmap Z Z) (T' : tree) : Prop := {
  bk_space : uspace s' R' T' root;
  bk_read : forall v, 0 <= v -> uread s' T' v =
    if decide (page_up sz <= v < page_up newsz) then Some 0
    else if decide (page_up newsz <= v < page_up sz) then None else uread s T v;
  bk_write : forall v, page_up sz <= v < page_up newsz -> uw s' T' v = true
}.
(** Growing takes unused pages, shrinking gives the process's own back. *)
Definition may_break (sz newsz : Z) s (T : tree) : Prop :=
  unused s T (page_up sz) (page_up newsz) /\ user_range s T (page_up newsz) (page_up sz - page_up newsz).

Lemma on_heap_Done {A} (m : M vst A) (b : brkst P) a s' : m (b_vm b) = Done a s' -> on_heap m b = Done a (Brkst s' (b_sz b)).
Proof. intros E. unfold on_heap, zoom. by rewrite E. Qed.
Lemma on_heap_Panic {A} (m : M vst A) (b : brkst P) msg : m (b_vm b) = Panic msg -> on_heap m b = Panic msg.
Proof. intros E. unfold on_heap, zoom. by rewrite E. Qed.

Lemma page_up_mono a b : 0 <= a <= b -> page_up a <= page_up b.
Proof. intros Hab. destruct (page_up_bounds b ltac:(lia)) as [Hb Hd]. apply page_up_least; [lia|done|lia]. Qed.

Lemma growproc_ok s R T sz n : uspace s R T root -> 0 < sz + n <= MAXVA -> 0 <= sz <= MAXVA -> may_break sz (sz + n) s T ->
  (exists msg, growproc root n (Brkst s sz) = Panic msg) \/
  exists s' R' T', growproc root n (Brkst s sz) = Done 0 (Brkst s' (sz + n)) /\ broke sz (sz + n) s T s' R' T'.
Proof.
  intros HU Hn Hsz [Hun Hur]. destruct maxva_page as [_ HM]. unfold growproc. rewrite bind_gets. cbn [b_sz].
  assert (E64 : u64 (sz + n) = sz + n) by (apply wrap_small; change (2 ^ 64) with (2 * 2 ^ 63); lia). rewrite E64.
  destruct (0 <? n) eqn:E0; bool_hyps; [|destruct (n <? 0) eqn:E1; bool_hyps].
  - destruct (uvmalloc_ok s R T sz (sz + n) HU ltac:(lia) ltac:(lia) Hun) as [[msg E]|(s' & R' & T' & E & [HU' _ Hr Hw])].
    { left. exists msg. unfold mbind, M_bind. by rewrite (on_heap_Panic _ (Brkst s sz) msg E). }
    right. exists s', R', T'. rewrite (bind_Done _ _ _ _ _ (on_heap_Done _ (Brkst s sz) _ _ E)), (proj2 (Z.eqb_neq _ 0)) by lia.
    split; [reflexivity|]. split; [done| |exact Hw]. intros v Hv. rewrite Hr by done. case_decide; [done|].
    rewrite decide_False; [done|]. pose proof (page_up_mono sz (sz + n) ltac:(lia)). lia.
  - destruct (uvmdealloc_ok s R T sz (sz + n) HU ltac:(lia) ltac:(lia) Hur) as (s' & R' & E & HU' & Hr).
    right. exists s', R', T. rewrite (bind_Done _ _ _ _ _ (on_heap_Done _ (Brkst s sz) _ _ E)). split; [reflexivity|].
    pose proof (page_up_mono (sz + n) sz ltac:(lia)). split; [done| |intros v Hv; lia].
    intros v Hv. rewrite Hr by done. destruct (decide (page_up sz <= v < page_up (sz + n))); [lia|done].
  - assert (n = 0) as -> by lia. rewrite Z.add_0_r in *. right. exists s, R, T. split; [reflexivity|]. split; [done| |intros v Hv; lia].
    intros v Hv. by rewrite !decide_False by lia.
Qed.

(** What [sys_brk] passes on to [growproc], and its result. *)
Lemma sys_brk_calls s sz tf n : 0 < s64 (tf 0) -> 0 <= sz <= MAXVA -> s32 (s64 (s64 (tf 0) - sz)) = n ->
  sys_brk root tf (Brkst s sz) = (r ← growproc root n; if r <? 0 then mret sz else gets (fun b : brkst P => s64 (b_sz b))) (Brkst s sz).
Proof.
  intros Htf Hsz En. destruct maxva_page as [_ HM]. unfold sys_brk. rewrite bind_gets. cbn [b_sz]. unfold argu64, argraw. cbn [Z.ltb Z.compare].
  assert (Esz : s64 sz = sz) by (apply swrap_small; [lia|change (2 ^ (64 - 1)) with (2 ^ 63); lia]). rewrite Esz.
  assert (Ea : s64 (u64 (tf 0)) = s64 (tf 0)).
  { unfold swrap, wrap. rewrite <- (Zplus_mod_idemp_l (tf 0 mod 2 ^ 64)), Zmod_mod, Zplus_mod_idemp_l. done. }
  rewrite Ea, (proj2 (Z.ltb_ge _ 0)), (proj2 (Z.eqb_neq _ 0)), En by lia. reflexivity.
Qed.

(** C18: [brk] to [newsz], within 2 GiB of the break [sz].  The call panics,
    when the page allocator does, or returns [newsz] and makes it the break;
    the pages it adds are zero and writable, those it gives back are no
    longer mapped, and every other byte of the process is unchanged. *)
Theorem sys_brk_correct s R T sz tf newsz : uspace s R T root -> s64 (tf 0) = newsz -> 0 < newsz <= MAXVA -> 0 <= sz <= MAXVA ->
  - 2 ^ 31 <= newsz - sz < 2 ^ 31 -> may_break sz newsz s T ->
  (exists msg, sys_brk root tf (Brkst s sz) = Panic msg) \/
  exists s' R' T', sys_brk root tf (Brkst s sz) = Done newsz (Brkst s' newsz) /\ broke sz newsz s T s' R' T'.
Proof.
  intros HU Ea Hn Hsz Hd Hb. destruct maxva_page as [_ HM].
  assert (E1 : s64 (newsz - sz) = newsz - sz) by (apply swrap_small; [lia|change (2 ^ (64 - 1)) with (2 ^ 63); lia]).
  assert (E2 : s32 (s64 (s64 (tf 0) - sz)) = newsz - sz) by (rewrite Ea, E1; apply swrap_small; [lia|exact Hd]).
  rewrite (sys_brk_calls s sz tf (newsz - sz)) by (done || lia).
  replace newsz with (sz + (newsz - sz)) in Hb by lia.
  destruct (growproc_ok s R T sz (newsz - sz) HU ltac:(lia) Hsz Hb) as [[msg E]|(s' & R' & T' & E & Hbk)].
  { left. exists msg. unfold mbind, M_bind. by rewrite E. }
  right. replace (sz + (newsz - sz)) with newsz in * by lia. exists s', R', T'. split; [|exact Hbk].
  rewrite (bind_Done _ _ _ _ _ E). cbn [Z.ltb Z.compare]. unfold gets. cbn [b_sz]. f_equal.
  apply swrap_small; [lia|change (2 ^ (64 - 1)) with (2 ^ 63); lia].
Qed.

(** A request for 4 GiB less one page more takes a page away. *)
Theorem sys_brk_truncates s R T sz tf : uspace s R T root -> PGSIZE < sz <= MAXVA -> s64 (tf 0) = sz + 2 ^ 32 - PGSIZE ->
  may_break sz (sz - PGSIZE) s T ->
  (exists msg, sys_brk root tf (Brkst s sz) = Panic msg) \/
  exists s', sys_brk root tf (Brkst s sz) = Done (sz - PGSIZE) (Brkst s' (sz - PGSIZE)).
Proof.
  intros HU Hsz Ea Hb. destruct maxva_page as [_ HM].
  assert (E2 : s32 (s64 (s64 (tf 0) - sz)) = - PGSIZE) by (rewrite Ea; replace (sz + 2 ^ 32 - PGSIZE - sz) with (2 ^ 32 - PGSIZE) by lia; reflexivity).
  rewrite (sys_brk_calls s sz tf (- PGSIZE)) by (unfold PGSIZE in *; lia).
  destruct (growproc_ok s R T sz (- PGSIZE) HU ltac:(unfold PGSIZE in *; lia) ltac:(unfold PGSIZE in *; lia) Hb) as [[msg E]|(s' & R' & T' & E & Hbk)].
  { left. exists msg. unfold mbind, M_bind. by rewrite E. }
  right. exists s'. rewrite (bind_Done _ _ _ _ _ E). cbn [Z.ltb Z.compare]. unfold gets. cbn [b_sz]. f_equal.
  apply swrap_small; [lia|change (2 ^ (64 - 1)) with (2 ^ 63); unfold PGSIZE in *; lia].
Qed.
End Brk.

(** From a break of one page to one of two: the second page is new. *)
Lemma sys_brk_correct_witness :
  uspace (wit_space 2) (wit_refs 2) wit_tree wit_root /\ may_break 4096 8000 (wit_space 2) wit_tree /\
  exists s' T', sys_brk wit_root (fun _ => 8000) (Brkst (wit_space 2) 4096) = Done 8000 (Brkst s' 8000) /\ uread s' T' 5000 = Some 0 /\ uread s' T' 5 = Some 7.
Proof.
  assert (HU : uspace (wit_space 2) (wit_refs 2) wit_tree wit_root) by (apply wit_uspace; change (2 ^ 32) with 4294967296; lia).
  assert (HM : MAXVA = 274877906944) by reflexivity.
  assert (Hb : may_break 4096 8000 (wit_space 2) wit_tree).
  { change (page_up 4096) with 4096. split.
    - intros v Hv. change (page_up 4096) with 4096 in Hv. change (page_up 8000) with 8192 in Hv. cbn [pmem wit_space]. rewrite wit_lf by lia.
      by rewrite (proj2 (Z.ltb_ge _ _)) by (unfold PGSIZE; lia).
    - intros v Hv. change (page_up 4096) with 4096 in Hv. change (page_up 8000) with 8192 in Hv. lia. }
  split; [exact HU|]. split; [exact Hb|].
  destruct (sys_brk_correct wit_root (wit_space 2) (wit_refs 2) wit_tree 4096 (fun _ => 8000) 8000 HU eq_refl
    ltac:(lia) ltac:(lia) ltac:(change (2 ^ 31) with 2147483648; lia) Hb) as [[msg E]|(s' & R' & T' & E & [_ Hr _])].
  - exfalso. revert E. apply not_panic. vm_compute. reflexivity.
  - exists s', T'. split; [exact E|]. split; [by rewrite Hr by lia|]. by rewrite Hr by lia.
Defined.
