(* ===== verification/Mkfs.v ===== *)
(** * The file system image (mkfs/mkfs.c)

    The host program that writes the first image of the disk.  The file
    [fsfd] is its bytes and its length; [exit], a failed assertion and [die]
    end the program.  The host is little endian.  Its files are the function
    [host], its clock is [clock] of the number of the inode being created, and
    the lists of files.h are arguments of [main].  The inodes and directory
    entries have the layout of Fs.v. *)
From S2P Require Import Prelude Bytes UserMem Bio Fs.

Definition SDMAJOR : Z := 0.
Definition CONMAJOR : Z := 1.
Definition FSSIZE : Z := 102400.
Definition NINODES : Z := 1024.
Definition LOGSIZE : Z := 4.
Definition S_IFDIR : Z := 0x4000.
Definition S_IFREG : Z := 0x8000.
Definition S_IFBLK : Z := 0x6000.
Definition S_IFCHR : Z := 0x2000.

Definition nbitmap : Z := FSSIZE / (BSIZE * 8) + 1.
Definition ninodeblocks : Z := NINODES / IPB + (if NINODES mod IPB =? 0 then 0 else 1).
Definition nlog : Z := LOGSIZE.
Definition nmeta : Z := 1 + 1 + nlog + ninodeblocks + nbitmap.
Definition nblocks : Z := FSSIZE - nmeta.

Definition byte_of (x k : Z) : Z := u8 (Z.shiftr x (8 * k)).
Definition xshort (x : Z) : Z := rd16 (of_list (byte_of x <$> [0; 1])) 0.
Definition xint (x : Z) : Z := rd32 (of_list (byte_of x <$> [0; 1; 2; 3])) 0.
Definition xlong (x : Z) : Z := rd64 (of_list (byte_of x <$> [0; 1; 2; 3; 4; 5; 6; 7])) 0.

(** The global [sb]. *)
Definition mksb : superblock :=
  let logstart := xint 2 in
  Superblock FSMAGIC (xint FSSIZE) (xint nblocks) (xint NINODES) (xint nlog) logstart
    (xint (logstart + nlog)) (xint (logstart + nlog + ninodeblocks)).
Definition put_sb (s : superblock) (m : bytes) : bytes :=
  put_words 0 [sb_magic s; sb_size s; sb_nblocks s; sb_ninodes s; sb_nlog s; sb_logstart s; sb_inodestart s; sb_bmapstart s] m.
Definition zeroes : bytes := fun _ => 0.

Record mkst := Mkst { img : bytes; m_len : Z; freeinode : Z; freeblock : Z }.
Definition put_img m len (s : mkst) := Mkst m len (freeinode s) (freeblock s).

(** ** Sectors and inodes *)

Definition wsect (sec : Z) (buf : bytes) : M mkst unit :=
  let off := u32 (sec * BSIZE) in
  modify (fun s => put_img (mmove off 0 BSIZE buf (img s)) (Z.max (m_len s) (off + BSIZE)) s).
Definition rsect (sec : Z) : M mkst bytes :=
  let off := u32 (sec * BSIZE) in
  s ← get;
  if m_len s <? off + BSIZE then panic "read" else mret (fun i => img s (off + i)).

Definition winode (inum : Z) (ip : dinode) : M mkst unit :=
  let bn := IBLOCK inum mksb in
  buf ← rsect bn;
  wsect bn (put_dinode (sizeof_dinode * (inum mod IPB)) ip buf).
Definition rinode (inum : Z) : M mkst dinode :=
  let bn := u32 (inum / IPB + sb_inodestart mksb) in
  buf ← rsect bn;
  mret (get_dinode buf (sizeof_dinode * (inum mod IPB))).

Definition take_block : M mkst Z :=
  b ← gets freeblock;
  modify (fun s => Mkst (img s) (m_len s) (freeinode s) (u32 (b + 1)));;
  mret (xint b).

(** [din.addrs[k]], taking a block for it if there is none. *)
Definition top_block (din : dinode) (k : Z) : M mkst (dinode * Z) :=
  a ← deref (d_addrs din !! Z.to_nat k);
  if xint a =? 0 then
    b ← take_block;
    mret (set_d_addrs (<[Z.to_nat k := b]> (d_addrs din)) din, xint b)
  else mret (din, xint a).
(** Word [idx] of the block [bn] of block numbers, likewise. *)
Definition word_block (bn idx : Z) : M mkst Z :=
  indirect ← rsect bn;
  if rd32 indirect (4 * idx) =? 0 then
    b ← take_block;
    wsect bn (wr32 (4 * idx) b indirect);;
    mret (xint b)
  else mret (xint (rd32 indirect (4 * idx))).

(** The three cases of the loop of [iappend]: the inode, and the block [x]
    of its [fbn]th BSIZE bytes. *)
Definition iappend_block (din : dinode) (fbn : Z) : M mkst (dinode * Z) :=
  if fbn <? NDIRECT then top_block din fbn
  else if fbn <? NDIRECT + NINDIRECT then
    r ← top_block din NDIRECT;
    x ← word_block r.2 (fbn - NDIRECT);
    mret (r.1, x)
  else if fbn <? NDIRECT + NINDIRECT + NINDIRECT * NINDIRECT then
    r ← top_block din (NDIRECT + 1);
    y ← word_block r.2 ((fbn - NDIRECT - NINDIRECT) / NINDIRECT);
    x ← word_block y ((fbn - NDIRECT - NINDIRECT) mod NINDIRECT);
    mret (r.1, x)
  else panic "file is too big".

(** The bytes [p] are still to be written at [off]; each round but the first
    begins a block. *)
Fixpoint iappend_loop (fuel : nat) (din : dinode) (off : Z) (p : list Z) : M mkst (dinode * Z) :=
  match fuel with
  | O => nofuel
  | S fuel =>
      match p with
      | [] => mret (din, off)
      | _ =>
          let n := Z.of_nat (length p) in
          let fbn := off / BSIZE in
          if negb (fbn <? MAXFILE) then panic "fbn < MAXFILE"
          else
            r ← iappend_block din fbn;
            let n1 := Z.min n (u32 ((fbn + 1) * BSIZE - off)) in
            buf ← rsect r.2;
            wsect r.2 (mmove (off - fbn * BSIZE) 0 n1 (of_list p) buf);;
            iappend_loop fuel r.1 (u32 (off + n1)) (drop (Z.to_nat n1) p)
      end
  end.
Definition append_fuel (n : Z) : nat := Z.to_nat (n / BSIZE + 3).
Definition iappend (inum : Z) (p : list Z) : M mkst unit :=
  din ← rinode inum;
  r ← iappend_loop (append_fuel (Z.of_nat (length p))) din (xint (d_size din)) p;
  winode inum (set_d_size (xint r.2) r.1).

(** ** Files and directories *)
Section Mkfs.
Context (clock : Z -> Z * Z) (host : list Z -> option (list Z)).

Definition ialloc (type uid gid mode : Z) : M mkst Z :=
  inum ← gets freeinode;
  modify (fun s => Mkst (img s) (m_len s) (u32 (inum + 1)) (freeblock s));;
  let ts := (s64 (xlong (clock inum).1), s64 (xlong (clock inum).2)) in
  winode inum (Dinode (xshort type) 0 0 (xshort 1) (xint 0) (xint mode) (xint uid) (xint gid) ts ts ts (replicate 13 0));;
  mret inum.

(** A [struct dirent]: inum, type and the name, zero to its end. *)
Definition dirent_bytes (inum type : Z) (name : list Z) : list Z :=
  (byte_of (xint inum) <$> [0; 1; 2; 3]) ++ (byte_of (xshort type) <$> [0; 1]) ++ strncpy_l (Z.to_nat DIRSIZ) name.
Definition make_dirent (inum type parent : Z) (name : list Z) : M mkst unit := iappend parent (dirent_bytes inum type name).

Definition dot : list Z := [46].
Definition dotdot : list Z := [46; 46].
Definition make_dir (parent : Z) (name : list Z) (uid gid mode : Z) : M mkst Z :=
  inum ← ialloc T_DIR uid gid mode;
  make_dirent inum T_DIR parent name;;
  make_dirent inum T_DIR inum dot;;
  make_dirent parent T_DIR inum dotdot;;
  mret inum.

Definition make_dev (parent : Z) (name : list Z) (major minor uid gid mode : Z) : M mkst Z :=
  inum ← ialloc T_DEVICE uid gid mode;
  make_dirent inum T_DEVICE parent name;;
  din ← rinode inum;
  winode inum (Dinode (d_type din) (xshort major) (xshort minor) (d_nlink din) (d_size din) (d_mode din) (d_uid din) (d_gid din)
    (d_atime din) (d_mtime din) (d_ctime din) (d_addrs din));;
  mret inum.

Definition make_file (parent : Z) (name : list Z) (uid gid mode : Z) : M mkst Z :=
  inum ← ialloc T_FILE uid gid mode;
  make_dirent inum T_FILE parent name;;
  mret inum.

(** What follows the last slash. *)
Fixpoint file_name (path last : list Z) : list Z :=
  match path with [] => last | c :: path => file_name path (if c =? SLASH then path else last) end.
(** The reads of a file, BSIZE bytes at a time. *)
Fixpoint copy_loop (fuel : nat) (inum : Z) (data : list Z) : M mkst unit :=
  match fuel with
  | O => nofuel
  | S fuel =>
      match data with
      | [] => mret tt
      | _ => iappend inum (take (Z.to_nat BSIZE) data);; copy_loop fuel inum (drop (Z.to_nat BSIZE) data)
      end
  end.
Fixpoint copy_file (files : list (list Z)) (parent uid gid mode : Z) : M mkst unit :=
  match files with
  | [] => mret tt
  | path :: files =>
      match host path with
      | None => panic "open"
      | Some data =>
          inum ← make_file parent (file_name path path) uid gid mode;
          copy_loop (S (Z.to_nat (Z.of_nat (length data) / BSIZE + 1))) inum data;;
          copy_file files parent uid gid mode
      end
  end.

(** ** The bitmap *)

(** The bytes of bitmap block [j]: the inner loop sets the first [k] bits. *)
Fixpoint set_bits (k : nat) (buf : bytes) : bytes :=
  match k with
  | O => buf
  | S k =>
      let i := Z.of_nat k in
      let buf := set_bits k buf in
      fun x => if x =? i / 8 then Z.lor (buf x) (Z.shiftl 1 (i mod 8)) else buf x
  end.
Fixpoint balloc_loop (n : nat) (used j : Z) : M mkst unit :=
  match n with
  | O => mret tt
  | S n =>
      let k := Z.min (BSIZE * 8) (used - j * BSIZE * 8) in
      wsect (u32 (sb_bmapstart mksb + j)) (set_bits (Z.to_nat k) zeroes);;
      balloc_loop n used (j + 1)
  end.
Definition balloc (used : Z) : M mkst unit :=
  if negb (used <? nbitmap * BSIZE * 8) then panic "used < nbitmap * BSIZE * 8"
  else balloc_loop (Z.to_nat (Z.quot (used - 1) (BSIZE * 8) + 1)) used 0.

(** ** The image *)

Fixpoint zero_loop (n : nat) (i : Z) : M mkst unit :=
  match n with O => mret tt | S n => wsect i zeroes;; zero_loop n (i + 1) end.

(** The names of the directories and devices. *)
Definition n_bin : list Z := [98; 105; 110].
Definition n_dev : list Z := [100; 101; 118].
Definition n_sdc (k : Z) : list Z := [115; 100; 99; 48 + k].
Definition n_tty : list Z := [116; 116; 121].
Definition n_etc : list Z := [101; 116; 99].
Definition n_lib : list Z := [108; 105; 98].
Definition n_mnt : list Z := [109; 110; 116].
Definition n_home : list Z := [104; 111; 109; 101].
Definition n_zuki : list Z := [122; 117; 107; 105].
Definition n_root : list Z := [114; 111; 111; 116].
Definition n_usr : list Z := [117; 115; 114].
Definition n_local : list Z := [108; 111; 99; 97; 108].
Definition n_include : list Z := [105; 110; 99; 108; 117; 100; 101].
Definition n_share : list Z := [115; 104; 97; 114; 101].
Definition n_misc : list Z := [109; 105; 115; 99].

Definition mode_dir : Z := Z.lor S_IFDIR 0x1fd.
Definition mode_file (x : Z) : Z := Z.lor S_IFREG x.

(** [rounded]: the last step of [main] on the root. *)
Definition round_root (rootino : Z) : M mkst unit :=
  din ← rinode rootino;
  let off := xint (d_size din) in
  let off := u32 ((off / BSIZE + 1) * BSIZE) in
  winode rootino (set_d_size (xint off) din).

Definition main (argv text_files usrbins etc_files lib_files local_bin_files local_share_misc_files home_zuki_files home_root_files : list (list Z))
    : M mkst unit :=
  modify (fun s => Mkst (img s) (m_len s) (freeinode s) (u32 nmeta));;
  zero_loop (Z.to_nat FSSIZE) 0;;
  wsect 1 (put_sb mksb zeroes);;
  rootino ← ialloc T_DIR 0 0 mode_dir;
  if negb (rootino =? ROOTINO) then panic "rootino == ROOTINO"
  else
    make_dirent rootino T_DIR rootino dot;;
    make_dirent rootino T_DIR rootino dotdot;;
    binino ← make_dir rootino n_bin 0 0 mode_dir;
    devino ← make_dir rootino n_dev 0 0 mode_dir;
    make_dev devino (n_sdc 1) SDMAJOR 0 0 0 (Z.lor S_IFBLK 0x1b6);;
    make_dev devino (n_sdc 2) SDMAJOR 1 0 0 (Z.lor S_IFBLK 0x1b6);;
    make_dev devino (n_sdc 3) SDMAJOR 2 0 0 (Z.lor S_IFBLK 0x1b6);;
    make_dev devino n_tty CONMAJOR 0 0 0 (Z.lor S_IFCHR 0x1b6);;
    etcino ← make_dir rootino n_etc 0 0 mode_dir;
    libino ← make_dir rootino n_lib 0 0 (Z.lor S_IFDIR 0x1ff);
    mntino ← make_dir rootino n_mnt 0 0 mode_dir;
    homeino ← make_dir rootino n_home 0 0 mode_dir;
    zukiino ← make_dir homeino n_zuki 1000 1000 mode_dir;
    suino ← make_dir homeino n_root 0 0 mode_dir;
    usrino ← make_dir rootino n_usr 0 0 mode_dir;
    usrbinino ← make_dir usrino n_bin 0 0 mode_dir;
    localino ← make_dir usrino n_local 0 0 mode_dir;
    localbinino ← make_dir localino n_bin 0 0 mode_dir;
    locallibino ← make_dir localino n_lib 0 0 mode_dir;
    localincludeino ← make_dir localino n_include 0 0 mode_dir;
    localshareino ← make_dir localino n_share 0 0 mode_dir;
    localsharemiscino ← make_dir localshareino n_misc 0 0 mode_dir;
    copy_file argv binino 0 0 (mode_file 0x1ed);;
    copy_file text_files rootino 0 0 (mode_file 0x1b4);;
    copy_file usrbins usrbinino 0 0 (mode_file 0x1ed);;
    copy_file etc_files etcino 0 0 (mode_file 0x1a4);;
    copy_file lib_files libino 0 0 (mode_file 0x1ed);;
    copy_file local_bin_files localbinino 0 0 (mode_file 0x1ed);;
    copy_file local_share_misc_files localsharemiscino 0 0 (mode_file 0x1b4);;
    copy_file home_zuki_files zukiino 1000 1000 (mode_file 0x1a0);;
    copy_file home_root_files suino 0 0 (mode_file 0x1a0);;
    round_root rootino;;
    used ← gets freeblock;
    balloc (s32 used).
End Mkfs.

(** An empty file and the initial globals. *)
Definition mkst0 : mkst := Mkst zeroes 0 1 0.
