(* ===== verification/MkfsInv.v ===== *)
(** * The image of mkfs: block numbers and the bytes of files

    A file is a tree of block numbers: 11 of data blocks, one of an index
    block and one of a block of index blocks.  [wf] says that the trees of all
    inodes name distinct blocks between the metadata and [freeblock], and that
    what is behind [freeblock] is still zero.  Taking a block changes no byte
    of any file; writing to a data block changes that part of one file. *)
From S2P Require Import Prelude Bytes UserMem Bio Fs FsInode Mkfs.

Lemma byte_of_val x k : 0 <= k -> byte_of x k = (x / 256 ^ k) mod 256.
Proof. intros Hk. unfold byte_of, wrap. rewrite Z.shiftr_div_pow2 by lia. change 256 with (2 ^ 8) at 1. by rewrite <- Z.pow_mul_r by lia. Qed.
Lemma xint_val x : xint x = u32 x.
Proof.
  apply (rdle_digits 4 _ 0 x). intros j Hj. rewrite <- byte_of_val by lia.
  assert (j = 0 \/ j = 1 \/ j = 2 \/ j = 3) as [-> | [-> | [-> | ->]]] by lia; reflexivity.
Qed.
Lemma xshort_val x : xshort x = u16 x.
Proof.
  apply (rdle_digits 2 _ 0 x). intros j Hj. rewrite <- byte_of_val by lia. assert (j = 0 \/ j = 1) as [-> | ->] by lia; reflexivity.
Qed.
Lemma xlong_val x : xlong x = u64 x.
Proof.
  apply (rdle_digits 8 _ 0 x). intros j Hj. rewrite <- byte_of_val by lia.
  assert (j = 0 \/ j = 1 \/ j = 2 \/ j = 3 \/ j = 4 \/ j = 5 \/ j = 6 \/ j = 7) as [-> | [-> | [-> | [-> | [-> | [-> | [-> | ->]]]]]]] by lia; reflexivity.
Qed.
Lemma xint_small x : 0 <= x < 2 ^ 32 -> xint x = x.
Proof. intros Hx. rewrite xint_val. by apply wrap_small. Qed.

Lemma layout : nmeta = 42 /\ FSSIZE * BSIZE = 419430400 /\ sb_inodestart mksb = 6 /\ sb_bmapstart mksb = 38 /\ IPB = 32.
Proof. vm_compute. auto. Qed.

(** ** Trees of block numbers *)

Inductive role := Top (k : Z) | Ind (k : Z) | Dbl (k : Z) | Leaf (j k : Z).
#[export] Instance role_eq_dec : EqDecision role.
Proof. solve_decision. Defined.
Definition role_ok (r : role) : Prop :=
  match r with
  | Top k => 0 <= k < 13
  | Ind k | Dbl k => 0 <= k < 1024
  | Leaf j k => 0 <= j < 1024 /\ 0 <= k < 1024
  end.
(** The roles of blocks of block numbers, and the roles of those numbers. *)
Definition is_index (r : role) : Prop := match r with Top k => k = 11 \/ k = 12 | Dbl _ => True | _ => False end.
Definition child (r : role) (k : Z) : role := match r with Top 11 => Ind k | Top _ => Dbl k | Dbl j => Leaf j k | r => r end.

Definition addr (d : dinode) (k : Z) : Z := default 0 (d_addrs d !! Z.to_nat k).
Definition word (m : bytes) (b k : Z) : Z := if b =? 0 then 0 else rd32 m (b * BSIZE + 4 * k).
Definition ptr (m : bytes) (d : dinode) (r : role) : Z :=
  match r with
  | Top k => addr d k
  | Ind k => word m (addr d 11) k
  | Dbl k => word m (addr d 12) k
  | Leaf j k => word m (word m (addr d 12) j) k
  end.
(** The data block of the [fbn]th block of a file. *)
Definition data_role (fbn : Z) : role :=
  if fbn <? NDIRECT then Top fbn
  else if fbn <? NDIRECT + NINDIRECT then Ind (fbn - NDIRECT)
  else Leaf ((fbn - NDIRECT - NINDIRECT) / NINDIRECT) ((fbn - NDIRECT - NINDIRECT) mod NINDIRECT).
Definition byte_at (m : bytes) (d : dinode) (o : Z) : Z :=
  let b := ptr m d (data_role (o / BSIZE)) in
  if b =? 0 then 0 else m (b * BSIZE + o mod BSIZE).

Lemma data_role_ok fbn : 0 <= fbn < MAXFILE -> role_ok (data_role fbn) /\ ~ is_index (data_role fbn).
Proof.
  intros Hf. unfold data_role. change NINDIRECT with 1024. change NDIRECT with 11. change MAXFILE with 1049611 in Hf.
  destruct (fbn <? 11) eqn:E1; bool_hyps; [cbn; lia|]. destruct (fbn <? 11 + 1024) eqn:E2; bool_hyps; cbn; [lia|].
  pose proof (Z.mod_pos_bound (fbn - 11 - 1024) 1024 ltac:(lia)). pose proof (Z.div_mod (fbn - 11 - 1024) 1024 ltac:(lia)). lia.
Qed.
Lemma data_role_inj f g : 0 <= f -> 0 <= g -> data_role f = data_role g -> f = g.
Proof.
  intros Hf Hg. unfold data_role. change NINDIRECT with 1024. change NDIRECT with 11.
  pose proof (Z.div_mod (f - 11 - 1024) 1024 ltac:(lia)). pose proof (Z.div_mod (g - 11 - 1024) 1024 ltac:(lia)).
  destruct (f <? 11) eqn:E1, (f <? 11 + 1024) eqn:E2, (g <? 11) eqn:E3, (g <? 11 + 1024) eqn:E4; bool_hyps; try discriminate; intros [=]; lia.
Qed.

Lemma child_ok p k : role_ok p -> is_index p -> 0 <= k < 1024 -> role_ok (child p k).
Proof.
  intros Hr Hp Hk. destruct p as [q| | |]; cbn in Hr, Hp |- *; try contradiction; [|done].
  destruct Hp as [-> | ->]; exact Hk.
Qed.
Lemma child_inj p k q j : is_index p -> is_index q -> child p k = child q j -> p = q /\ k = j.
Proof.
  intros Hp Hq. destruct p as [x| | |], q as [y| | |]; cbn in Hp, Hq; try contradiction.
  - destruct Hp as [-> | ->], Hq as [-> | ->]; cbn; intros [=]; subst; auto.
  - destruct Hp as [-> | ->]; cbn; intros [=].
  - destruct Hq as [-> | ->]; cbn; intros [=].
  - cbn. intros [=]. by subst.
Qed.
(** Every number but those of the inode itself is in an index block. *)
Lemma ptr_child m d p k : is_index p -> ptr m d (child p k) = word m (ptr m d p) k.
Proof. intros Hp. destruct p as [x| | |]; cbn in Hp; try contradiction; [|done]. by destruct Hp as [-> | ->]. Qed.
Lemma role_cases r : role_ok r -> (exists k, r = Top k /\ 0 <= k < 13) \/ exists p k, r = child p k /\ role_ok p /\ is_index p /\ 0 <= k < 1024.
Proof.
  destruct r as [k|k|k|j k]; cbn; intros Hr; [left; eauto|right..].
  - exists (Top 11), k. cbn. by repeat split; try lia; left.
  - exists (Top 12), k. cbn. by repeat split; try lia; right.
  - exists (Dbl j), k. cbn. by repeat split; try lia.
Qed.

(** ** All inodes *)

Definition upd_node (dn : Z -> dinode) (i : Z) (d : dinode) : Z -> dinode := fun j => if j =? i then d else dn j.

Record wf (m : bytes) (dn : Z -> dinode) (N F : Z) : Prop := {
  wf_bound : nmeta <= F <= FSSIZE;
  wf_len : forall i, 1 <= i < N -> Z.of_nat (length (d_addrs (dn i))) = NDIRECT + 2;
  wf_range : forall i r, 1 <= i < N -> role_ok r -> ptr m (dn i) r <> 0 -> nmeta <= ptr m (dn i) r < F;
  wf_inj : forall i r i' r', 1 <= i < N -> 1 <= i' < N -> role_ok r -> role_ok r' ->
    ptr m (dn i) r <> 0 -> ptr m (dn i) r = ptr m (dn i') r' -> i = i' /\ r = r';
  wf_zero : forall x, F * BSIZE <= x -> m x = 0;
  wf_bytes : forall x, 0 <= m x < 256
}.

Lemma word_same m m' b k : 0 <= k < 1024 -> (b <> 0 -> agree (b * BSIZE) BSIZE m m') -> word m' b k = word m b k.
Proof.
  intros Hk Hb. unfold word. destruct (b =? 0) eqn:E; bool_hyps; [done|]. symmetry. apply rdle_agree.
  apply (agree_sub (b * BSIZE) BSIZE); [by apply Hb|lia|unfold BSIZE; lia].
Qed.

(** The numbers stay if the index blocks do. *)
Lemma ptr_frame m m' d : (forall p, role_ok p -> is_index p -> ptr m d p <> 0 -> agree (ptr m d p * BSIZE) BSIZE m m') ->
  forall r, role_ok r -> ptr m' d r = ptr m d r.
Proof.
  intros Hp. assert (H11 : role_ok (Top 11) /\ is_index (Top 11)) by (cbn; lia). assert (H12 : role_ok (Top 12) /\ is_index (Top 12)) by (cbn; lia).
  assert (Hd : forall k, 0 <= k < 1024 -> ptr m' d (Dbl k) = ptr m d (Dbl k)).
  { intros k Hk. cbn [ptr]. apply word_same; [done|]. intros Hb. exact (Hp (Top 12) (proj1 H12) (proj2 H12) Hb). }
  intros [k|k|k|j k] Hr; cbn in Hr; [done| |by apply Hd|].
  - cbn [ptr]. apply word_same; [done|]. intros Hb. exact (Hp (Top 11) (proj1 H11) (proj2 H11) Hb).
  - destruct Hr as [Hj Hk]. specialize (Hd j Hj). cbn [ptr] in *. rewrite Hd. apply word_same; [done|]. intros Hb. exact (Hp (Dbl j) Hj I Hb).
Qed.

Lemma blocks_apart a b : a <> b -> a * BSIZE + BSIZE <= b * BSIZE \/ b * BSIZE + BSIZE <= a * BSIZE.
Proof. unfold BSIZE. lia. Qed.

(** A change of one data block, or of nothing that [wf] knows. *)
Lemma wf_data m dn N F m' x : wf m dn N F -> (forall y, ~ (x * BSIZE <= y < x * BSIZE + BSIZE) -> m' y = m y) -> (forall y, 0 <= m' y < 256) ->
  x < F -> (forall i p, 1 <= i < N -> role_ok p -> is_index p -> ptr m (dn i) p <> 0 -> ptr m (dn i) p <> x) ->
  wf m' dn N F /\ forall i r, 1 <= i < N -> role_ok r -> ptr m' (dn i) r = ptr m (dn i) r.
Proof.
  intros HW Hout Hb Hx Hidx.
  assert (Hptr : forall i r, 1 <= i < N -> role_ok r -> ptr m' (dn i) r = ptr m (dn i) r).
  { intros i r Hi. apply ptr_frame. intros p Hp Hip Hne y Hy. symmetry. apply Hout. pose proof (blocks_apart _ _ (Hidx i p Hi Hp Hip Hne)). lia. }
  split; [|exact Hptr]. destruct HW as [H1 H2 H3 H4 H5 H6]. split; try done.
  - intros i r Hi Hr. rewrite Hptr by done. by apply H3.
  - intros i r i' r' Hi Hi' Hr Hr'. rewrite !Hptr by done. by apply H4.
  - intros y Hy. rewrite Hout; [by apply H5|]. unfold BSIZE in *. lia.
Qed.

(** A new number [F] in place of a 0: what [wf] needs of its neighbours. *)
Lemma wf_alloc m dn N F m' dn' i0 r0 : wf m dn N F -> F < FSSIZE -> 1 <= i0 < N -> role_ok r0 ->
  (forall i, 1 <= i < N -> length (d_addrs (dn' i)) = length (d_addrs (dn i))) ->
  (forall i r, 1 <= i < N -> role_ok r -> ptr m' (dn' i) r = if decide (i = i0 /\ r = r0) then F else ptr m (dn i) r) ->
  (forall y, F * BSIZE <= y -> m' y = 0) -> (forall y, 0 <= m' y < 256) -> wf m' dn' N (F + 1).
Proof.
  intros [H1 H2 H3 H4 H5 H6] HF Hi0 Hr0 Hlen Hptr Hz Hb. split; try done.
  - lia.
  - intros i Hi. rewrite Hlen by done. by apply H2.
  - intros i r Hi Hr. rewrite Hptr by done. case_decide; [lia|]. intros Hne. specialize (H3 i r Hi Hr Hne). lia.
  - intros i r i' r' Hi Hi' Hr Hr'. rewrite !Hptr by done. destruct (decide (i = i0 /\ r = r0)) as [[-> ->]|Hn], (decide (i' = i0 /\ r' = r0)) as [[-> ->]|Hn'].
    + done.
    + intros _ E. assert (Hne : ptr m (dn i') r' <> 0) by (destruct layout; lia). specialize (H3 i' r' Hi' Hr' Hne). lia.
    + intros Hne E. specialize (H3 i r Hi Hr Hne). lia.
    + intros Hne E. by apply (H4 i r i' r').
  - intros y Hy. apply Hz. unfold BSIZE in *. lia.
Qed.

(** ** Taking blocks *)

(** What no step of writing a file may change, and [wf] for the new state. *)
Record grown (m : bytes) (dn : Z -> dinode) (F : Z) (m' : bytes) (dn' : Z -> dinode) (F' : Z) : Prop := {
  gr_wf : wf m' dn' NINODES F';
  gr_le : F <= F';
  gr_ptr : forall i r, 1 <= i < NINODES -> role_ok r -> ptr m (dn i) r <> 0 -> ptr m' (dn' i) r = ptr m (dn i) r;
  gr_byte : forall i o, 1 <= i < NINODES -> 0 <= o < MAXFILE * BSIZE -> byte_at m' (dn' i) o = byte_at m (dn i) o;
  gr_meta : forall y, y < nmeta * BSIZE -> m' y = m y
}.
Lemma grown_self m dn F : wf m dn NINODES F -> grown m dn F m dn F.
Proof. intros H. by split. Qed.
Lemma grown_twice m1 dn1 F1 m2 dn2 F2 m3 dn3 F3 : grown m1 dn1 F1 m2 dn2 F2 -> grown m2 dn2 F2 m3 dn3 F3 -> grown m1 dn1 F1 m3 dn3 F3.
Proof.
  intros [_ L1 P1 B1 M1] [W2 L2 P2 B2 M2]. split; [done|lia| | |].
  - intros i r Hi Hr Hne. rewrite P2; [by apply P1|done|done|]. by rewrite P1.
  - intros i o Hi Ho. rewrite B2 by done. by apply B1.
  - intros y Hy. rewrite M2 by done. by apply M1.
Qed.

Lemma fblock_role o : 0 <= o < MAXFILE * BSIZE -> role_ok (data_role (o / BSIZE)) /\ ~ is_index (data_role (o / BSIZE)).
Proof.
  intros Ho. apply data_role_ok. split; [apply Z.div_pos; unfold BSIZE; lia|].
  apply Z.div_lt_upper_bound; [done|]. lia.
Qed.
Lemma word_fresh m b k : 0 <= k < 1024 -> (forall y, b * BSIZE <= y -> m y = 0) -> word m b k = 0.
Proof. intros Hk Hz. unfold word. destruct (b =? 0); [done|]. apply rdle_zero. intros y Hy. apply Hz. lia. Qed.

(** One number [F] more, in the inode or in an index block. *)
Lemma grown_alloc m dn F m' dn' i0 r0 : wf m dn NINODES F -> F < FSSIZE -> 1 <= i0 < NINODES -> role_ok r0 -> ptr m (dn i0) r0 = 0 ->
  (forall i, 1 <= i < NINODES -> length (d_addrs (dn' i)) = length (d_addrs (dn i))) ->
  (forall i r, 1 <= i < NINODES -> role_ok r -> ptr m' (dn' i) r = if decide (i = i0 /\ r = r0) then F else ptr m (dn i) r) ->
  (forall i r, 1 <= i < NINODES -> role_ok r -> ~ is_index r -> ptr m (dn i) r <> 0 -> agree (ptr m (dn i) r * BSIZE) BSIZE m' m) ->
  (forall y, F * BSIZE <= y -> m' y = 0) -> (forall y, 0 <= m' y < 256) -> (forall y, y < nmeta * BSIZE -> m' y = m y) ->
  grown m dn F m' dn' (F + 1) /\ ptr m' (dn' i0) r0 = F.
Proof.
  intros HW HF Hi0 Hr0 E0 Hlen Hptr Hdata Hz Hb Hm. split; [|by rewrite Hptr, decide_True by done].
  split; [by apply (wf_alloc m dn NINODES F m' dn' i0 r0)|lia| | |done].
  - intros i r Hi Hr Hne. rewrite Hptr, decide_False; try done. intros [-> ->]. done.
  - intros i o Hi Ho. destruct (fblock_role o Ho) as [Hr Hnx]. destruct (Z.mod_pos_bound o BSIZE ltac:(done)) as [Hm1 Hm2].
    unfold byte_at. rewrite Hptr by done. case_decide as Hd.
    + destruct Hd as [-> ->]. rewrite E0. cbn [Z.eqb]. destruct (F =? 0); [done|]. apply Hz. unfold BSIZE in *. lia.
    + destruct (ptr m (dn i) (data_role (o / BSIZE)) =? 0) eqn:E; bool_hyps; [done|]. apply (Hdata i _ Hi Hr Hnx E). lia.
Qed.

Lemma addr_insert d k v j : 0 <= k < 13 -> 0 <= j < 13 -> length (d_addrs d) = 13%nat ->
  addr (set_d_addrs (<[Z.to_nat k := v]> (d_addrs d)) d) j = if decide (j = k) then v else addr d j.
Proof.
  intros Hk Hj Hl. unfold addr. cbn [d_addrs set_d_addrs]. case_decide as Hd.
  - subst j. by rewrite list_lookup_insert_eq by lia.
  - by rewrite list_lookup_insert_ne by lia.
Qed.
Lemma upd_node_same dn i d : upd_node dn i d i = d.
Proof. unfold upd_node. by rewrite Z.eqb_refl. Qed.
Lemma upd_node_other dn i d j : j <> i -> upd_node dn i d j = dn j.
Proof. intros Hj. unfold upd_node. by rewrite (proj2 (Z.eqb_neq j i)). Qed.
Lemma wf_len13 m dn N F i : wf m dn N F -> 1 <= i < N -> length (d_addrs (dn i)) = 13%nat.
Proof. intros HW Hi. pose proof (wf_len _ _ _ _ HW i Hi) as H. change (NDIRECT + 2) with 13 in H. lia. Qed.

(** A block for [addrs[k]]. *)
Lemma alloc_top m dn F i0 k : wf m dn NINODES F -> F < FSSIZE -> 1 <= i0 < NINODES -> 0 <= k < 13 -> addr (dn i0) k = 0 ->
  let d := set_d_addrs (<[Z.to_nat k := F]> (d_addrs (dn i0))) (dn i0) in
  grown m dn F m (upd_node dn i0 d) (F + 1) /\ addr d k = F.
Proof.
  intros HW HF Hi0 Hk E0 d. pose proof (wf_len13 _ _ _ _ i0 HW Hi0) as Hl. pose proof (wf_zero _ _ _ _ HW) as Hz.
  assert (Ed : forall j, 0 <= j < 13 -> addr d j = if decide (j = k) then F else addr (dn i0) j) by (intros j Hj; by apply addr_insert).
  destruct (grown_alloc m dn F m (upd_node dn i0 d) i0 (Top k) HW HF Hi0 Hk E0) as [HG Hp].
  - intros i Hi. unfold upd_node. destruct (i =? i0) eqn:E; bool_hyps; [|done]. subst i. cbn [d_addrs set_d_addrs d]. apply length_insert.
  - intros i r Hi Hr. destruct (decide (i = i0)) as [->|Hne]; [|rewrite upd_node_other, decide_False; naive_solver]. rewrite upd_node_same.
    assert (Hw : forall j x, 0 <= x < 1024 -> 0 <= j < 13 -> word m (addr d j) x = word m (addr (dn i0) j) x).
    { intros j x Hx Hj. rewrite Ed by done. case_decide; [|done]. subst j. rewrite E0, (word_fresh m F x Hx Hz). done. }
    destruct r as [j|j|j|j x]; cbn [ptr] in *; cbn in Hr.
    + rewrite Ed by done. repeat case_decide; naive_solver.
    + rewrite Hw, decide_False by (done || lia || naive_solver). done.
    + rewrite Hw, decide_False by (done || lia || naive_solver). done.
    + rewrite Hw, decide_False by (lia || naive_solver). done.
  - done.
  - exact Hz.
  - apply (wf_bytes _ _ _ _ HW).
  - done.
  - split; [exact HG|]. rewrite upd_node_same in Hp. exact Hp.
Qed.

Lemma child_neq p k : is_index p -> p <> child p k.
Proof. destruct p as [x| | |]; cbn; try done. intros [-> | ->]; done. Qed.

(** A block for word [k] of the index block of role [p]. *)
Lemma alloc_word m dn F i0 p k : wf m dn NINODES F -> F < FSSIZE -> 1 <= i0 < NINODES -> role_ok p -> is_index p -> 0 <= k < 1024 ->
  ptr m (dn i0) p <> 0 -> ptr m (dn i0) (child p k) = 0 ->
  let m' := wr32 (ptr m (dn i0) p * BSIZE + 4 * k) F m in
  grown m dn F m' dn (F + 1) /\ ptr m' (dn i0) (child p k) = F.
Proof.
  intros HW HF Hi0 Hp Hpx Hk Hne E0 m'. set (bn := ptr m (dn i0) p) in *.
  pose proof (wf_range _ _ _ _ HW i0 p Hi0 Hp Hne) as Hbn. change (ptr m (dn i0) p) with bn in Hbn.
  pose proof (wf_bound _ _ _ _ HW) as HFb. pose proof layout as (HL1 & HL2 & _). unfold FSSIZE, BSIZE in HL2.
  assert (Hm' : forall y, ~ (bn * BSIZE + 4 * k <= y < bn * BSIZE + 4 * k + 4) -> m' y = m y) by (intros y Hy; apply wrle_out; lia).
  assert (Hz : forall y, F * BSIZE <= y -> m' y = 0) by (intros y Hy; rewrite Hm' by (unfold BSIZE in *; lia); by apply (wf_zero _ _ _ _ HW)).
  assert (Hw : forall i q j, 1 <= i < NINODES -> role_ok q -> is_index q -> 0 <= j < 1024 -> ptr m (dn i) q <> 0 ->
    word m' (ptr m (dn i) q) j = if decide (i = i0 /\ child q j = child p k) then F else word m (ptr m (dn i) q) j).
  { intros i q j Hi Hq Hqx Hj Hq0. unfold word. rewrite (proj2 (Z.eqb_neq _ 0)) by done. case_decide as Hd.
    - destruct Hd as [-> Hc]. apply child_inj in Hc as [-> ->]; try done. unfold m'. apply rdle_wrle_same. unfold FSSIZE in *. change (256 ^ Z.of_nat 4) with 4294967296. lia.
    - unfold m'. apply rdle_wrle_other. destruct (decide (ptr m (dn i) q = bn)) as [E|E].
      + destruct (wf_inj _ _ _ _ HW i q i0 p Hi Hi0 Hq Hp Hq0 E) as [-> ->]. assert (j <> k) by (intros ->; by apply Hd). rewrite E. lia.
      + pose proof (blocks_apart _ _ E). unfold BSIZE in *. lia. }
  assert (Hs : forall i q j, 1 <= i < NINODES -> role_ok q -> is_index q -> 0 <= j < 1024 ->
    ptr m' (dn i) q = (if decide (i = i0 /\ q = child p k) then F else ptr m (dn i) q) ->
    ptr m' (dn i) (child q j) = if decide (i = i0 /\ child q j = child p k) then F else ptr m (dn i) (child q j)).
  { intros i q j Hi Hq Hqx Hj Eq. rewrite !ptr_child by done. rewrite Eq. case_decide as Hd.
    - destruct Hd as [-> ->]. rewrite E0. rewrite (word_fresh m' F j Hj Hz). rewrite decide_False; [done|]. intros [_ Hc].
      apply child_inj in Hc as [Hc _]; try done. by apply (child_neq p k Hpx).
    - destruct (decide (ptr m (dn i) q = 0)) as [E|E]; [|by apply Hw]. rewrite E, decide_False; [done|].
      intros [-> Hc]. apply child_inj in Hc as [-> _]; done. }
  assert (Ht : forall i x, 1 <= i < NINODES -> ptr m' (dn i) (Top x) = if decide (i = i0 /\ Top x = child p k) then F else ptr m (dn i) (Top x)).
  { intros i x Hi. rewrite decide_False; [done|]. intros [_ Hc]. destruct p as [y| | |]; cbn in Hpx; try contradiction; [|done]. by destruct Hpx as [-> | ->]. }
  apply (grown_alloc m dn F m' dn i0 (child p k) HW HF Hi0); try done.
  - by apply child_ok.
  - intros i r Hi Hr. destruct (role_cases r Hr) as [(x & -> & _)|(q & j & -> & Hq & Hqx & Hj)]; [by apply Ht|].
    apply Hs; try done. destruct q as [x| |x|]; cbn in Hqx; try contradiction; [by apply Ht|].
    apply (Hs i (Top 12) x Hi ltac:(cbn; lia) ltac:(by right) Hq). by apply Ht.
  - intros i r Hi Hr Hnx Hr0 y Hy. apply Hm'. assert (ptr m (dn i) r <> bn) as Hb.
    { intros E. destruct (wf_inj _ _ _ _ HW i r i0 p Hi Hi0 Hr Hp Hr0 E) as [_ ->]. done. }
    pose proof (blocks_apart _ _ Hb). unfold BSIZE in *. lia.
  - intros y. unfold m', wrle. pose proof (wf_bytes _ _ _ _ HW y). case_match; [|done]. apply Z.mod_pos_bound. lia.
  - intros y Hy. apply Hm'. unfold BSIZE in *. lia.
Qed.
