(* ===== verification/MkfsGrow.v ===== *)
(** * mkfs: taking blocks and writing bytes (the loop of iappend, mkfs/mkfs.c)

    [step] is a part of the program that only takes blocks; [appended] is the
    whole loop: the bytes of one file from an offset on, nothing else. *)
From Stdlib Require Import FunctionalExtensionality.
From S2P Require Import Prelude Bytes UserMem Bio Fs FsInode Mkfs MkfsInv.

(** ** Sectors *)

Definition sized (s : mkst) : Prop := m_len s = FSSIZE * BSIZE.
(** The sector [sec] as a block of its own. *)
Definition sector (m : bytes) (sec : Z) : bytes := fun i => m (sec * BSIZE + i).
Definition put_sector (sec : Z) (buf m : bytes) : bytes := mmove (sec * BSIZE) 0 BSIZE buf m.

Lemma sec_off sec : 0 <= sec < FSSIZE -> u32 (sec * BSIZE) = sec * BSIZE /\ sec * BSIZE + BSIZE <= FSSIZE * BSIZE.
Proof. intros Hs. destruct layout as (_ & HL & _). unfold FSSIZE in *. unfold BSIZE in *. split; [apply wrap_small|]; lia. Qed.
Lemma rsect_ok sec s : sized s -> 0 <= sec < FSSIZE -> rsect sec s = Done (sector (img s) sec) s.
Proof.
  intros Hl Hs. destruct (sec_off sec Hs) as [E1 E2]. unfold rsect. rewrite E1. unfold mbind, M_bind, get. rewrite Hl.
  rewrite (proj2 (Z.ltb_ge _ _)) by lia. done.
Qed.
Lemma wsect_ok sec buf s : sized s -> 0 <= sec < FSSIZE -> wsect sec buf s = Done tt (put_img (put_sector sec buf (img s)) (m_len s) s).
Proof.
  intros Hl Hs. destruct (sec_off sec Hs) as [E1 E2]. unfold wsect, modify. rewrite E1. cbv zeta. by rewrite Z.max_l by (rewrite Hl; lia).
Qed.
Lemma put_sector_out sec buf m y : ~ (sec * BSIZE <= y < sec * BSIZE + BSIZE) -> put_sector sec buf m y = m y.
Proof. intros Hy. apply mmove_out. lia. Qed.
Lemma put_sector_in sec buf m i : 0 <= i < BSIZE -> put_sector sec buf m (sec * BSIZE + i) = buf i.
Proof. intros Hi. unfold put_sector. rewrite mmove_in by lia. f_equal. lia. Qed.
Lemma put_sector_byte sec buf m : (forall y, 0 <= buf y < 256) -> (forall y, 0 <= m y < 256) -> forall y, 0 <= put_sector sec buf m y < 256.
Proof. intros Hb Hm y. unfold put_sector, mmove. case_match; auto. Qed.
Lemma put_sector_word sec k v m : 0 <= k < 1024 -> put_sector sec (wr32 (4 * k) v (sector m sec)) m = wr32 (sec * BSIZE + 4 * k) v m.
Proof.
  intros Hk. extensionality y. destruct (decide (sec * BSIZE <= y < sec * BSIZE + BSIZE)) as [Hy|Hy].
  - replace y with (sec * BSIZE + (y - sec * BSIZE)) at 1 by lia. rewrite put_sector_in by lia. set (i := y - sec * BSIZE).
    replace y with (sec * BSIZE + i) by (unfold i; lia).
    destruct (decide (4 * k <= i < 4 * k + 4)) as [Hi|Hi].
    + rewrite !wrle_in by lia. by replace (sec * BSIZE + i - (sec * BSIZE + 4 * k)) with (i - 4 * k) by lia.
    + rewrite !wrle_out by lia. done.
  - rewrite put_sector_out by done. rewrite wrle_out; [done|]. unfold BSIZE in *. lia.
Qed.
Lemma rdle_shift n : forall o m a, rdle n (fun i => m (o + i)) a = rdle n m (o + a).
Proof. induction n as [|n IH]; intros o m a; cbn [rdle]; [done|]. rewrite IH. by replace (o + (a + 1)) with (o + a + 1) by lia. Qed.
Lemma get_dinode_shift o m a : get_dinode (fun i => m (o + i)) a = get_dinode m (o + a).
Proof.
  unfold get_dinode, get_time. rewrite !rdle_shift, !Z.add_assoc. f_equal.
  apply list_fmap_ext. intros i x _. by rewrite rdle_shift, !Z.add_assoc.
Qed.

(** ** Blocks of a file *)

(** A step that only takes blocks. *)
Record step (s : mkst) (dn : Z -> dinode) (s' : mkst) (dn' : Z -> dinode) (c : Z) : Prop := {
  st_grown : grown (img s) dn (freeblock s) (img s') dn' (freeblock s');
  st_cost : freeblock s' <= freeblock s + c;
  st_len : m_len s' = m_len s;
  st_ino : freeinode s' = freeinode s
}.
Lemma step_trans s1 dn1 s2 dn2 s3 dn3 c c' : step s1 dn1 s2 dn2 c -> step s2 dn2 s3 dn3 c' -> step s1 dn1 s3 dn3 (c + c').
Proof. intros [G1 C1 L1 I1] [G2 C2 L2 I2]. split; [by eapply grown_twice|lia|congruence|congruence]. Qed.
Lemma step_none s dn c : wf (img s) dn NINODES (freeblock s) -> 0 <= c -> step s dn s dn c.
Proof. intros HW Hc. split; [by apply grown_self|lia|done|done]. Qed.
Lemma upd_node_id dn i : upd_node dn i (dn i) = dn.
Proof. extensionality j. unfold upd_node. destruct (j =? i) eqn:E; bool_hyps; [by subst|done]. Qed.
Lemma upd_node_twice dn i d d' : upd_node (upd_node dn i d) i d' = upd_node dn i d'.
Proof. extensionality j. unfold upd_node. by destruct (j =? i). Qed.

Lemma free_xint F : nmeta <= F < FSSIZE -> xint F = F /\ u32 (F + 1) = F + 1 /\ F <> 0.
Proof. intros HF. destruct layout as (HL & _). unfold FSSIZE in *. split; [apply xint_small|split; [apply wrap_small|]]; lia. Qed.
Lemma ptr_xint m dn F i r : wf m dn NINODES F -> 1 <= i < NINODES -> role_ok r -> xint (ptr m (dn i) r) = ptr m (dn i) r.
Proof.
  intros HW Hi Hr. destruct (decide (ptr m (dn i) r = 0)) as [->|Hne]; [reflexivity|].
  pose proof (wf_range _ _ _ _ HW i r Hi Hr Hne). pose proof (wf_bound _ _ _ _ HW). destruct layout as (HL & _). apply xint_small. unfold FSSIZE in *. lia.
Qed.
Lemma take_block_ok s : nmeta <= freeblock s < FSSIZE ->
  take_block s = Done (freeblock s) (Mkst (img s) (m_len s) (freeinode s) (freeblock s + 1)).
Proof.
  intros HF. destruct (free_xint _ HF) as (E1 & E2 & _). unfold take_block. rewrite bind_gets, bind_modify. by rewrite E1, E2.
Qed.

Section Append.
Context (i0 : Z) (Hi0 : 1 <= i0 < NINODES).

Lemma top_block_ok s dn k : wf (img s) dn NINODES (freeblock s) -> freeblock s < FSSIZE -> 0 <= k < 13 ->
  exists d x s', top_block (dn i0) k s = Done (d, x) s' /\ step s dn s' (upd_node dn i0 d) 1 /\
    img s' = img s /\ x = addr d k /\ x <> 0 /\ d = set_d_addrs (d_addrs d) (dn i0).
Proof.
  intros HW HF Hk. pose proof (wf_len13 _ _ _ _ i0 HW Hi0) as Hl. pose proof (wf_bound _ _ _ _ HW) as HB.
  destruct (free_xint (freeblock s) ltac:(lia)) as (E1 & _ & Hnz).
  assert (Ha : d_addrs (dn i0) !! Z.to_nat k = Some (addr (dn i0) k)).
  { unfold addr. destruct (lookup_lt_is_Some_2 (d_addrs (dn i0)) (Z.to_nat k) ltac:(lia)) as [a ->]. done. }
  assert (Hx : xint (addr (dn i0) k) = addr (dn i0) k) by apply (ptr_xint _ _ _ i0 (Top k) HW Hi0 Hk).
  unfold top_block. rewrite Ha, bind_deref, Hx. destruct (addr (dn i0) k =? 0) eqn:E; bool_hyps.
  - rewrite (bind_Done _ _ _ _ _ (take_block_ok s ltac:(lia))), E1.
    destruct (alloc_top (img s) dn (freeblock s) i0 k HW HF Hi0 Hk E) as [HG Ed].
    eexists _, _, _. split; [reflexivity|]. cbn [img m_len freeinode freeblock]. split; [split; [exact HG| | |]; cbn; lia || done|].
    split_and!; try done.
  - exists (dn i0), (addr (dn i0) k), s. split; [done|]. rewrite upd_node_id. split; [by apply step_none|]. split_and!; try done. by destruct (dn i0).
Qed.

Lemma word_block_ok s dn p k : wf (img s) dn NINODES (freeblock s) -> freeblock s < FSSIZE -> sized s -> role_ok p -> is_index p -> 0 <= k < 1024 ->
  ptr (img s) (dn i0) p <> 0 ->
  exists x s', word_block (ptr (img s) (dn i0) p) k s = Done x s' /\ step s dn s' dn 1 /\ x = ptr (img s') (dn i0) (child p k) /\ x <> 0.
Proof.
  intros HW HF Hlen Hp Hpx Hk Hne. pose proof (wf_bound _ _ _ _ HW) as HB. destruct layout as (HL & _).
  pose proof (wf_range _ _ _ _ HW i0 p Hi0 Hp Hne) as Hr. set (bn := ptr (img s) (dn i0) p) in *.
  destruct (free_xint (freeblock s) ltac:(lia)) as (E1 & _ & Hnz).
  assert (Ew : rd32 (sector (img s) bn) (4 * k) = ptr (img s) (dn i0) (child p k)).
  { rewrite ptr_child by done. unfold word. fold bn. rewrite (proj2 (Z.eqb_neq _ 0)) by done. unfold sector. apply rdle_shift. }
  unfold word_block. rewrite (bind_Done _ _ _ _ _ (rsect_ok bn s Hlen ltac:(lia))), Ew. destruct (ptr (img s) (dn i0) (child p k) =? 0) eqn:E; bool_hyps.
  - rewrite (bind_Done _ _ _ _ _ (take_block_ok s ltac:(lia))).
    rewrite (bind_Done _ _ _ _ _ (wsect_ok bn _ (Mkst (img s) (m_len s) (freeinode s) (freeblock s + 1)) Hlen ltac:(lia))).
    cbn [img m_len]. rewrite put_sector_word, E1 by done.
    destruct (alloc_word (img s) dn (freeblock s) i0 p k HW HF Hi0 Hp Hpx Hk Hne E) as [HG Ex].
    eexists _, _. split; [reflexivity|]. cbn [img put_img freeblock]. split; [split; [exact HG| | |]; cbn; lia || done|]. split; [symmetry; exact Ex|done].
  - rewrite (ptr_xint _ _ _ i0 (child p k) HW Hi0 (child_ok p k Hp Hpx Hk)).
    eexists _, _. split; [reflexivity|]. split; [by apply step_none|]. done.
Qed.

Lemma iappend_block_ok s dn fbn : wf (img s) dn NINODES (freeblock s) -> freeblock s + 3 <= FSSIZE -> sized s -> 0 <= fbn < MAXFILE ->
  exists d x s', iappend_block (dn i0) fbn s = Done (d, x) s' /\ step s dn s' (upd_node dn i0 d) 3 /\
    x = ptr (img s') d (data_role fbn) /\ x <> 0 /\ d = set_d_addrs (d_addrs d) (dn i0).
Proof.
  intros HW HF Hlen Hf. change MAXFILE with 1049611 in Hf. unfold iappend_block, data_role. change NINDIRECT with 1024. change NDIRECT with 11.
  destruct (fbn <? 11) eqn:E1; bool_hyps; [|destruct (fbn <? 11 + 1024) eqn:E2; bool_hyps].
  - destruct (top_block_ok s dn fbn HW ltac:(lia) ltac:(lia)) as (d & x & s1 & E & [G C L I] & Ei & Ex & Hx & Ed).
    exists d, x, s1. split; [done|]. split; [split; try done; lia|]. by split_and!.
  - destruct (top_block_ok s dn 11 HW ltac:(lia) ltac:(lia)) as (d & b & s1 & E & HS1 & Ei & Eb & Hb & Ed).
    rewrite (bind_Done _ _ _ _ _ E). cbn [Datatypes.fst Datatypes.snd].
    destruct (word_block_ok s1 (upd_node dn i0 d) (Top 11) (fbn - 11) (gr_wf _ _ _ _ _ _ (st_grown _ _ _ _ _ HS1))) as (x & s2 & Ew & HS2 & Ex & Hx).
    { pose proof (st_cost _ _ _ _ _ HS1). lia. } { unfold sized. by rewrite (st_len _ _ _ _ _ HS1). }
    { cbn; lia. } { by left. } { lia. } { rewrite upd_node_same. cbn [ptr]. by rewrite <- Eb. }
    rewrite upd_node_same in Ew, Ex. cbn [ptr] in Ew. rewrite <- Eb in Ew. rewrite (bind_Done _ _ _ _ _ Ew).
    exists d, x, s2. split; [done|]. pose proof (step_trans _ _ _ _ _ _ _ _ HS1 HS2) as [G C L I].
    split; [split; try done; lia|]. by split_and!.
  - rewrite (proj2 (Z.ltb_lt fbn _)) by lia.
    pose proof (Z.mod_pos_bound (fbn - 11 - 1024) 1024 ltac:(lia)) as Hk. pose proof (Z.div_mod (fbn - 11 - 1024) 1024 ltac:(lia)) as Hjk.
    set (j := (fbn - 11 - 1024) / 1024) in *. set (k := (fbn - 11 - 1024) mod 1024) in *.
    destruct (top_block_ok s dn 12 HW ltac:(lia) ltac:(lia)) as (d & b & s1 & E & HS1 & Ei & Eb & Hb & Ed).
    rewrite (bind_Done _ _ _ _ _ E). cbn [Datatypes.fst Datatypes.snd].
    destruct (word_block_ok s1 (upd_node dn i0 d) (Top 12) j (gr_wf _ _ _ _ _ _ (st_grown _ _ _ _ _ HS1))) as (y & s2 & Ew & HS2 & Ey & Hy).
    { pose proof (st_cost _ _ _ _ _ HS1). lia. } { unfold sized. by rewrite (st_len _ _ _ _ _ HS1). }
    { cbn; lia. } { by right. } { lia. } { rewrite upd_node_same. cbn [ptr]. by rewrite <- Eb. }
    rewrite upd_node_same in Ew, Ey. cbn [ptr] in Ew. rewrite <- Eb in Ew. rewrite (bind_Done _ _ _ _ _ Ew).
    pose proof (step_trans _ _ _ _ _ _ _ _ HS1 HS2) as HS12.
    destruct (word_block_ok s2 (upd_node dn i0 d) (Dbl j) k (gr_wf _ _ _ _ _ _ (st_grown _ _ _ _ _ HS2))) as (x & s3 & Ew2 & HS3 & Ex & Hx).
    { pose proof (st_cost _ _ _ _ _ HS12). lia. } { unfold sized. by rewrite (st_len _ _ _ _ _ HS12). }
    { cbn; lia. } { done. } { lia. } { rewrite upd_node_same. change (child (Top 12) j) with (Dbl j) in Ey. by rewrite <- Ey. }
    rewrite upd_node_same in Ew2, Ex. change (child (Top 12) j) with (Dbl j) in Ey. rewrite <- Ey in Ew2. rewrite (bind_Done _ _ _ _ _ Ew2).
    exists d, x, s3. split; [done|]. pose proof (step_trans _ _ _ _ _ _ _ _ HS12 HS3) as [G C L I].
    split; [split; try done; lia|]. by split_and!.
Qed.

(** Bytes [l] written at [pos] of the data block of [fbn]. *)
Lemma data_write m dn F fbn pos n l : wf m dn NINODES F -> 0 <= fbn < MAXFILE -> ptr m (dn i0) (data_role fbn) <> 0 ->
  0 <= pos -> pos + n <= BSIZE -> Forall (fun b => 0 <= b < 256) l ->
  let x := ptr m (dn i0) (data_role fbn) in
  let m' := put_sector x (mmove pos 0 n (of_list l) (sector m x)) m in
  wf m' dn NINODES F /\ (forall y, y < nmeta * BSIZE -> m' y = m y) /\
  (forall i r, 1 <= i < NINODES -> role_ok r -> ptr m' (dn i) r = ptr m (dn i) r) /\
  forall i o, 1 <= i < NINODES -> 0 <= o < MAXFILE * BSIZE ->
    byte_at m' (dn i) o = if decide (i = i0 /\ fbn * BSIZE + pos <= o < fbn * BSIZE + pos + n) then of_list l (o - (fbn * BSIZE + pos)) else byte_at m (dn i) o.
Proof.
  intros HW Hf Hx0 Hpos Hn Hl x m'. destruct (data_role_ok fbn Hf) as [Hro Hnx]. pose proof (wf_range _ _ _ _ HW i0 _ Hi0 Hro Hx0) as Hxr. fold x in Hxr.
  assert (Hout : forall y, ~ (x * BSIZE <= y < x * BSIZE + BSIZE) -> m' y = m y) by (intros y Hy; by apply put_sector_out).
  assert (Hin : forall i, 0 <= i < BSIZE -> m' (x * BSIZE + i) = if decide (pos <= i < pos + n) then of_list l (i - pos) else m (x * BSIZE + i)).
  { intros i Hi. unfold m'. rewrite put_sector_in by done. case_decide; [by rewrite mmove_in|by rewrite mmove_out by lia]. }
  assert (Hlb : forall y, 0 <= of_list l y < 256).
  { intros y. unfold of_list. case_match; [lia|]. destruct (l !! Z.to_nat y) as [b|] eqn:Eb; cbn; [|lia]. by apply (Forall_lookup_1 _ _ _ _ Hl Eb). }
  destruct (wf_data m dn NINODES F m' x HW Hout) as [HW' Hptr].
  { apply put_sector_byte; [|apply (wf_bytes _ _ _ _ HW)]. intros y. unfold mmove. case_match; [apply Hlb|apply (wf_bytes _ _ _ _ HW)]. }
  { lia. }
  { intros i p Hi Hp Hpx Hp0 E. destruct (wf_inj _ _ _ _ HW i p i0 _ Hi Hi0 Hp Hro Hp0 E) as [_ ->]. done. }
  split_and!; [done| |exact Hptr|].
  - intros y Hy. apply Hout. unfold BSIZE in *. lia.
  - intros i o Hi Ho. destruct (fblock_role o Ho) as [Hor _]. pose proof (Z.mod_pos_bound o BSIZE ltac:(done)) as Hm. pose proof (Z.div_mod o BSIZE ltac:(done)) as Hdm.
    unfold byte_at. rewrite (Hptr i _ Hi Hor). set (b := ptr m (dn i) (data_role (o / BSIZE))).
    destruct (b =? 0) eqn:Eb; bool_hyps.
    + rewrite decide_False; [done|]. intros [-> Hr]. assert (o / BSIZE = fbn) by (unfold BSIZE in *; lia). subst fbn. done.
    + destruct (decide (b = x)) as [Ex|Ex].
      * destruct (wf_inj _ _ _ _ HW i _ i0 _ Hi Hi0 Hor Hro Eb Ex) as [-> Er].
        assert (Ef : o / BSIZE = fbn) by (apply data_role_inj; [apply Z.div_pos; unfold BSIZE; lia|lia|done]).
        rewrite Ex, Hin by done. destruct (decide (pos <= o mod BSIZE < pos + n)) as [Hp|Hp].
        -- rewrite decide_True by (unfold BSIZE in *; lia). f_equal. unfold BSIZE in *. lia.
        -- rewrite decide_False; [done|]. unfold BSIZE in *. lia.
      * rewrite Hout by (pose proof (blocks_apart _ _ Ex); lia). rewrite decide_False; [done|]. intros [-> Hr].
        assert (o / BSIZE = fbn) by (unfold BSIZE in *; lia). subst fbn. done.
Qed.

(** ** The loop *)

(** The bytes [p] are at [off] of the file, and no other byte changed. *)
Record appended (s : mkst) (dn : Z -> dinode) (s' : mkst) (dn' : Z -> dinode) (off : Z) (p : list Z) : Prop := {
  ap_wf : wf (img s') dn' NINODES (freeblock s');
  ap_free : freeblock s <= freeblock s';
  ap_len : m_len s' = m_len s;
  ap_ino : freeinode s' = freeinode s;
  ap_meta : forall y, y < nmeta * BSIZE -> img s' y = img s y;
  ap_byte : forall i o, 1 <= i < NINODES -> 0 <= o < MAXFILE * BSIZE ->
    byte_at (img s') (dn' i) o = if decide (i = i0 /\ off <= o < off + Z.of_nat (length p)) then of_list p (o - off) else byte_at (img s) (dn i) o
}.
Definition rounds (off n : Z) : Z := if n =? 0 then 0 else (off + n - 1) / BSIZE - off / BSIZE + 1.

Lemma of_list_skip n p y : 0 <= n -> 0 <= y -> of_list (drop (Z.to_nat n) p) y = of_list p (n + y).
Proof. intros Hn Hy. rewrite !of_list_lookup by lia. rewrite lookup_drop. do 2 f_equal. lia. Qed.
Lemma rounds_next off n : 0 <= off -> 0 < n -> let n1 := Z.min n ((off / BSIZE + 1) * BSIZE - off) in
  0 < n1 <= n /\ off - off / BSIZE * BSIZE + n1 <= BSIZE /\ 0 < rounds off n /\ rounds (off + n1) (n - n1) <= rounds off n - 1.
Proof.
  intros Ho Hn n1. unfold rounds. rewrite (proj2 (Z.eqb_neq n 0)) by lia.
  pose proof (Z.mod_pos_bound off BSIZE ltac:(done)). pose proof (Z.div_mod off BSIZE ltac:(done)).
  pose proof (Z.div_le_mono off (off + n - 1) BSIZE ltac:(done) ltac:(lia)).
  assert (Hn1 : 0 < n1 <= n /\ off - off / BSIZE * BSIZE + n1 <= BSIZE) by (unfold n1; unfold BSIZE in *; lia). split_and!; try lia.
  destruct (n - n1 =? 0) eqn:E; bool_hyps; [lia|]. assert (E1 : off + n1 = (off / BSIZE + 1) * BSIZE) by (unfold n1 in *; lia).
  replace (off + n1 + (n - n1) - 1) with (off + n - 1) by lia. rewrite E1, Z.div_mul by done. lia.
Qed.

(** A step that takes blocks, [n1] bytes in one block, and the rest. *)
Lemma appended_cons s dn s1 d1 c s2 s3 dn3 off n1 p : step s dn s1 (upd_node dn i0 d1) c -> 0 <= off -> 0 <= n1 <= Z.of_nat (length p) ->
  freeblock s2 = freeblock s1 -> m_len s2 = m_len s1 -> freeinode s2 = freeinode s1 -> (forall y, y < nmeta * BSIZE -> img s2 y = img s1 y) ->
  (forall i o, 1 <= i < NINODES -> 0 <= o < MAXFILE * BSIZE -> byte_at (img s2) (upd_node dn i0 d1 i) o =
    if decide (i = i0 /\ off <= o < off + n1) then of_list p (o - off) else byte_at (img s1) (upd_node dn i0 d1 i) o) ->
  appended s2 (upd_node dn i0 d1) s3 dn3 (off + n1) (drop (Z.to_nat n1) p) -> appended s dn s3 dn3 off p.
Proof.
  intros [HG Hc Hl Hi] Hoff Hn1 E1 E2 E3 Hm2 Hb2 [HW3 Hf3 Hl3 Hi3 Hm3 Hb3]. split.
  - done.
  - pose proof (gr_le _ _ _ _ _ _ HG). lia.
  - congruence.
  - congruence.
  - intros y Hy. rewrite Hm3, Hm2 by done. by apply (gr_meta _ _ _ _ _ _ HG).
  - intros i o Hi1 Ho. rewrite Hb3, Hb2, (gr_byte _ _ _ _ _ _ HG i o Hi1 Ho) by done.
    rewrite length_drop. destruct (decide (i = i0)) as [->|Hne2]; [|rewrite !decide_False by tauto; done].
    destruct (decide (off + n1 <= o < off + Z.of_nat (length p))) as [Ho2|Ho2].
    + rewrite !decide_True by lia. rewrite of_list_skip by lia. f_equal. lia.
    + rewrite decide_False by lia. destruct (decide (off <= o < off + n1)) as [Ho3|Ho3].
      * by rewrite !decide_True by lia.
      * by rewrite !decide_False by lia.
Qed.

Lemma iappend_loop_ok fuel : forall s dn d off p, wf (img s) dn NINODES (freeblock s) -> sized s -> dn i0 = d -> 0 <= off ->
  Forall (fun b => 0 <= b < 256) p -> let n := Z.of_nat (length p) in off + n < 2 ^ 32 -> rounds off n < Z.of_nat fuel -> freeblock s + 3 * rounds off n <= FSSIZE ->
  exists d' s', iappend_loop fuel d off p s = Done (d', off + n) s' /\ appended s dn s' (upd_node dn i0 d') off p /\ d' = set_d_addrs (d_addrs d') d /\
    freeblock s' <= freeblock s + 3 * rounds off n.
Proof.
  change (2 ^ 32) with 4294967296. induction fuel as [|fuel IH]; intros s dn d off p HW Hlen Hd Hoff Hp n Hn Hfuel HF.
  { exfalso. unfold rounds in *. destruct (n =? 0) eqn:E; [lia|]. bool_hyps. pose proof (Z.div_le_mono off (off + n - 1) BSIZE ltac:(done) ltac:(lia)). lia. }
  destruct (decide (p = [])) as [->|Hne].
  { exists d, s. cbn [iappend_loop]. subst n. cbn [length] in *. change (Z.of_nat 0) with 0. rewrite Z.add_0_r. split; [done|].
    subst d. rewrite upd_node_id. split; [split; try done|split; [by destruct (dn i0)|change (rounds off 0) with 0; lia]]. intros i o Hi Ho. rewrite decide_False; [done|]. cbn. lia. }
  assert (Hn0 : 0 < n) by (subst n; destruct p; cbn; [done|lia]).
  set (fbn := off / BSIZE). destruct (rounds_next off n Hoff Hn0) as (Hn1 & Hblk & Hr0 & Hr). fold fbn in Hn1, Hblk, Hr.
  set (n1 := Z.min n ((fbn + 1) * BSIZE - off)) in *.
  pose proof (Z.mod_pos_bound off BSIZE ltac:(done)) as Hmod. pose proof (Z.div_mod off BSIZE ltac:(done)) as Hdm. fold fbn in Hdm.
  assert (Hf : 0 <= fbn < MAXFILE) by (change MAXFILE with 1049611; unfold BSIZE in *; lia).
  destruct (iappend_block_ok s dn fbn HW ltac:(lia) Hlen Hf) as (d1 & x & s1 & E1 & HS & Ex & Hx & Ed).
  pose proof (st_grown _ _ _ _ _ HS) as HG. pose proof (gr_wf _ _ _ _ _ _ HG) as HW1.
  assert (Hlen1 : sized s1) by (unfold sized; by rewrite (st_len _ _ _ _ _ HS)).
  destruct (data_role_ok fbn Hf) as [Hro _]. destruct layout as (HL & _).
  pose proof (wf_range _ _ _ _ HW1 i0 _ Hi0 Hro ltac:(by rewrite upd_node_same, <- Ex)) as Hxr. rewrite upd_node_same, <- Ex in Hxr.
  pose proof (wf_bound _ _ _ _ HW1) as HB1.
  destruct (data_write (img s1) (upd_node dn i0 d1) (freeblock s1) fbn (off - fbn * BSIZE) n1 p HW1 Hf) as (HW2 & Hm2 & _ & Hb2); try done.
  { by rewrite upd_node_same, <- Ex. } { lia. } rewrite upd_node_same, <- Ex in HW2, Hm2, Hb2.
  set (s2 := put_img (put_sector x (mmove (off - fbn * BSIZE) 0 n1 (of_list p) (sector (img s1) x)) (img s1)) (m_len s1) s1).
  assert (E2 : wsect x (mmove (off - fbn * BSIZE) 0 n1 (of_list p) (sector (img s1) x)) s1 = Done tt s2) by (apply wsect_ok; [done|lia]).
  destruct (IH s2 (upd_node dn i0 d1) d1 (off + n1) (drop (Z.to_nat n1) p) HW2 Hlen1 (upd_node_same _ _ _) ltac:(lia) (Forall_drop _ _ _ Hp))
    as (d2 & s3 & E3 & HA & Ed2 & Hc3).
  { rewrite length_drop. fold n. lia. }
  { rewrite length_drop. replace (Z.of_nat (length p - Z.to_nat n1)) with (n - n1) by lia. lia. }
  { rewrite length_drop. replace (Z.of_nat (length p - Z.to_nat n1)) with (n - n1) by lia. pose proof (st_cost _ _ _ _ _ HS).
    change (freeblock s2) with (freeblock s1). lia. }
  exists d2, s3. rewrite upd_node_twice in HA. split; [|split; [|split]].
  - cbn [iappend_loop]. fold n fbn. rewrite (proj2 (Z.ltb_lt fbn MAXFILE)) by lia. cbn [negb]. subst d. destruct p as [|b0 p0]; [done|].
    rewrite (bind_Done _ _ _ _ _ E1). cbn [Datatypes.fst Datatypes.snd].
    assert (Eu : u32 ((fbn + 1) * BSIZE - off) = (fbn + 1) * BSIZE - off) by (apply wrap_small; unfold BSIZE in *; lia). rewrite Eu. fold n1.
    rewrite (bind_Done _ _ _ _ _ (rsect_ok x s1 Hlen1 ltac:(lia))). rewrite (bind_Done _ _ _ _ _ E2).
    assert (Ev : u32 (off + n1) = off + n1) by (apply wrap_small; lia). rewrite Ev, E3. rewrite length_drop. do 2 f_equal. lia.
  - replace (fbn * BSIZE + (off - fbn * BSIZE)) with off in Hb2 by lia.
    by apply (appended_cons s dn s1 d1 3 s2 s3 _ off n1 p HS Hoff ltac:(fold n; lia) eq_refl eq_refl eq_refl Hm2 Hb2).
  - rewrite Ed2, Ed. subst d. done.
  - rewrite length_drop in Hc3. replace (Z.of_nat (length p - Z.to_nat n1)) with (n - n1) in Hc3 by lia. pose proof (st_cost _ _ _ _ _ HS).
    change (freeblock s2) with (freeblock s1) in Hc3. lia.
Qed.
End Append.
