(* ===== verification/MkfsProps.v ===== *)
(** * mkfs: files and directories (mkfs/mkfs.c)

    [content] is a file of the image as a list of bytes.  [iappend] extends
    one of them; [copy_file] makes files with the bytes of the host's and
    enters them in a directory. *)
From Stdlib Require Import FunctionalExtensionality.
From S2P Require Import Prelude Bytes UserMem Bio Fs FsInode FsLink Mkfs MkfsInv MkfsGrow.

(** ** The inodes of the image *)

Definition is_bytes (m : bytes) : Prop := forall y, 0 <= m y < 256.
Lemma wrle_byte n a v m : is_bytes m -> is_bytes (wrle n a v m).
Proof. intros Hm y. unfold wrle. case_match; [apply Z.mod_pos_bound; lia|apply Hm]. Qed.
Lemma put_words_byte l : forall a m, is_bytes m -> is_bytes (put_words a l m).
Proof. induction l as [|v l IH]; intros a m Hm; cbn [put_words]; [done|]. by apply IH, wrle_byte. Qed.
Lemma put_dinode_byte a d m : is_bytes m -> is_bytes (put_dinode a d m).
Proof. intros Hm. unfold put_dinode, put_time. apply put_words_byte. by repeat apply wrle_byte. Qed.
Lemma rd_range n m a : is_bytes m -> 0 <= rdle n m a < 256 ^ Z.of_nat n.
Proof. intros Hm. apply rdle_range. intros y _. apply Hm. Qed.
Lemma get_dinode_ok m a : is_bytes m -> dinode_ok (get_dinode m a).
Proof.
  intros Hm. assert (H16 : forall x, s16_range (s16 x)) by (intros x; unfold s16_range, swrap; pose proof (Z.mod_pos_bound (x + 2 ^ 15) (2 ^ 16) ltac:(lia)); change (2 ^ (16 - 1)) with (2 ^ 15); change (2 ^ 16) with (2 * 2 ^ 15) in *; lia).
  assert (H64 : forall x, - 2 ^ 63 <= s64 x < 2 ^ 63) by (intros x; unfold swrap; pose proof (Z.mod_pos_bound (x + 2 ^ 63) (2 ^ 64) ltac:(lia)); change (2 ^ (64 - 1)) with (2 ^ 63); change (2 ^ 64) with (2 * 2 ^ 63) in *; lia).
  assert (H32 : forall x, u32_range (rd32 m x)) by (intros x; apply (rd_range 4 m x Hm)).
  assert (Ht : forall x, time_range (get_time m x)) by (intros x; split; apply H64).
  split; try apply H16; try apply H32; try apply Ht. split; [reflexivity|]. apply Forall_fmap, Forall_forall. intros x _. apply H32.
Qed.

Definition node_sec (i : Z) : Z := i / IPB + sb_inodestart mksb.
Definition node (m : bytes) (i : Z) : dinode := get_dinode m (node_sec i * BSIZE + sizeof_dinode * (i mod IPB)).
Record image (s : mkst) : Prop := { im_wf : wf (img s) (node (img s)) NINODES (freeblock s); im_len : sized s }.

Lemma node_place i : 0 <= i < NINODES -> 0 <= node_sec i < nmeta /\ u32 (node_sec i) = node_sec i /\
  0 <= sizeof_dinode * (i mod IPB) /\ sizeof_dinode * (i mod IPB) + sizeof_dinode <= BSIZE.
Proof.
  intros Hi. destruct layout as (HL & _ & HI & _ & HP). unfold node_sec. rewrite HL, HI, HP. change NINODES with 1024 in Hi.
  pose proof (Z.mod_pos_bound i 32 ltac:(lia)). pose proof (Z.div_mod i 32 ltac:(lia)). split; [lia|]. split; [apply wrap_small; lia|].
  unfold sizeof_dinode, BSIZE. lia.
Qed.
Lemma nmeta_fits : nmeta < FSSIZE.
Proof. destruct layout as (HL & _). rewrite HL. reflexivity. Qed.

Lemma rinode_ok i s : sized s -> 0 <= i < NINODES -> rinode i s = Done (node (img s) i) s.
Proof.
  intros Hl Hi. destruct (node_place i Hi) as (Hs & Eu & _). pose proof nmeta_fits. unfold rinode. fold (node_sec i). rewrite Eu.
  rewrite (bind_Done _ _ _ _ _ (rsect_ok (node_sec i) s Hl ltac:(lia))). unfold sector. by rewrite get_dinode_shift.
Qed.
Lemma node_same m m' i : 0 <= i < NINODES -> (forall k, 0 <= k < sizeof_dinode ->
    m' (node_sec i * BSIZE + sizeof_dinode * (i mod IPB) + k) = m (node_sec i * BSIZE + sizeof_dinode * (i mod IPB) + k)) -> node m' i = node m i.
Proof.
  intros Hi Hk. apply get_dinode_agree. intros y Hy. specialize (Hk (y - (node_sec i * BSIZE + sizeof_dinode * (i mod IPB))) ltac:(lia)).
  by rewrite Z.add_sub_assoc, Z.add_simpl_l in Hk.
Qed.

Lemma winode_ok i d s : sized s -> 0 <= i < NINODES -> dinode_ok d -> (forall y, 0 <= img s y < 256) ->
  exists m', winode i d s = Done tt (put_img m' (m_len s) s) /\ node m' i = d /\ (forall j, 0 <= j < NINODES -> j <> i -> node m' j = node (img s) j) /\
    (forall y, nmeta * BSIZE <= y -> m' y = img s y) /\ (forall y, 0 <= m' y < 256).
Proof.
  intros Hl Hi Hok Hb. destruct (node_place i Hi) as (Hs & Eu & Ho1 & Ho2). pose proof nmeta_fits. destruct Hok as [? ? ? ? ? ? ? ? ? ? ? [Hlen Ha]].
  set (o := sizeof_dinode * (i mod IPB)) in *. set (b := put_dinode o d (sector (img s) (node_sec i))).
  exists (put_sector (node_sec i) b (img s)). split_and!.
  - unfold winode, IBLOCK. fold (node_sec i). rewrite Eu. cbv zeta. rewrite (bind_Done _ _ _ _ _ (rsect_ok (node_sec i) s Hl ltac:(lia))).
    apply wsect_ok; [done|lia].
  - unfold node. fold o. rewrite <- get_dinode_shift. transitivity (get_dinode b o); [|by apply get_put_dinode; split].
    apply get_dinode_agree. intros y Hy. apply put_sector_in. lia.
  - intros j Hj Hne. apply node_same; [done|]. intros k Hk. destruct (node_place j Hj) as (_ & _ & Hp1 & Hp2).
    destruct (decide (node_sec j = node_sec i)) as [E|E].
    + rewrite E, <- Z.add_assoc, put_sector_in by lia. unfold b. rewrite put_dinode_out; [done|done|]. unfold o.
      unfold node_sec in E. destruct layout as (_ & _ & _ & _ & HP). rewrite HP in *.
      pose proof (Z.div_mod i 32 ltac:(lia)). pose proof (Z.div_mod j 32 ltac:(lia)). unfold sizeof_dinode in *. lia.
    + apply put_sector_out. pose proof (blocks_apart _ _ E). lia.
  - intros y Hy. apply put_sector_out. unfold BSIZE in *. lia.
  - apply put_sector_byte; [|done]. intros y. unfold b.
    apply put_dinode_byte. intros y'. apply Hb.
Qed.

(** ** iappend *)

Lemma wf_nodes m dn dn' F : (forall i, 1 <= i < NINODES -> dn' i = dn i) -> wf m dn NINODES F -> wf m dn' NINODES F.
Proof.
  intros He [H1 H2 H3 H4 H5 H6]. split; try done.
  - intros i Hi. rewrite He by done. by apply H2.
  - intros i r Hi. rewrite He by done. by apply H3.
  - intros i r i' r' Hi Hi'. rewrite !He by done. by apply H4.
Qed.
(** The size is not part of the tree. *)
Lemma wf_set_size m dn F i z : wf m dn NINODES F -> wf m (upd_node dn i (set_d_size z (dn i))) NINODES F.
Proof.
  intros [H1 H2 H3 H4 H5 H6]. assert (Hp : forall j r, ptr m (upd_node dn i (set_d_size z (dn i)) j) r = ptr m (dn j) r).
  { intros j r. unfold upd_node. destruct (j =? i) eqn:E; bool_hyps; [by subst|done]. }
  split; try done.
  - intros j Hj. unfold upd_node. destruct (j =? i) eqn:E; bool_hyps; [subst; by apply (H2 i)|by apply H2].
  - intros j r. rewrite Hp. by apply H3.
  - intros j r j' r'. rewrite !Hp. by apply H4.
Qed.
Lemma addrs_ok m dn F i : wf m dn NINODES F -> 1 <= i < NINODES -> Forall u32_range (d_addrs (dn i)).
Proof.
  intros HW Hi. apply Forall_forall. intros a Ha. apply list_elem_of_lookup in Ha as [k Hk]. pose proof (wf_len13 _ _ _ _ i HW Hi) as Hl.
  pose proof (lookup_lt_Some _ _ _ Hk) as Hk13. pose proof (wf_range _ _ _ _ HW i (Top (Z.of_nat k)) Hi ltac:(cbn; lia)) as Hr.
  cbn [ptr] in Hr. unfold addr in Hr. rewrite Nat2Z.id, Hk in Hr. cbn in Hr. pose proof (wf_bound _ _ _ _ HW) as HB. destruct layout as (HL & _). rewrite HL in *.
  change FSSIZE with 102400 in HB. unfold u32_range. change (2 ^ 32) with 4294967296. destruct (decide (a = 0)); lia.
Qed.

(** A node written back: the files are those of [dn]. *)
Lemma node_written m dn F i m' : wf m dn NINODES F -> 1 <= i < NINODES -> (forall y, nmeta * BSIZE <= y -> m' y = m y) -> is_bytes m' ->
  wf m' dn NINODES F /\ forall j o, 1 <= j < NINODES -> 0 <= o < MAXFILE * BSIZE -> byte_at m' (dn j) o = byte_at m (dn j) o.
Proof.
  intros HW Hi Hm Hb. assert (Hag : forall j r, 1 <= j < NINODES -> role_ok r -> ptr m (dn j) r <> 0 -> agree (ptr m (dn j) r * BSIZE) BSIZE m m').
  { intros j r Hj Hr Hne y Hy. symmetry. apply Hm. pose proof (wf_range _ _ _ _ HW j r Hj Hr Hne). unfold BSIZE in *. lia. }
  assert (Hptr : forall j r, 1 <= j < NINODES -> role_ok r -> ptr m' (dn j) r = ptr m (dn j) r).
  { intros j r Hj. apply ptr_frame. intros p Hp _. by apply Hag. }
  split.
  - pose proof HW as [H1 H2 H3 H4 H5 H6]. split; try done.
    + intros j r Hj Hr. rewrite Hptr by done. by apply H3.
    + intros j r j' r' Hj Hj' Hr Hr'. rewrite !Hptr by done. by apply H4.
    + intros y Hy. rewrite Hm by (unfold BSIZE in *; lia). by apply H5.
  - intros j o Hj Ho. destruct (fblock_role o Ho) as [Hr _]. unfold byte_at. rewrite Hptr by done. case_match eqn:E; [done|]. bool_hyps.
    symmetry. apply (Hag j _ Hj Hr E). pose proof (Z.mod_pos_bound o BSIZE ltac:(done)). lia.
Qed.

Lemma rounds_bound off n : 0 <= off -> 0 <= n -> 0 <= rounds off n <= n / BSIZE + 2.
Proof.
  intros Ho Hn. unfold rounds. pose proof (Z.div_pos n BSIZE Hn ltac:(done)). destruct (n =? 0) eqn:E; bool_hyps; [lia|].
  pose proof (Z.mod_pos_bound off BSIZE ltac:(done)). pose proof (Z.div_mod off BSIZE ltac:(done)).
  pose proof (Z.mod_pos_bound n BSIZE ltac:(done)). pose proof (Z.div_mod n BSIZE ltac:(done)).
  pose proof (Z.mod_pos_bound (off + n - 1) BSIZE ltac:(done)). pose proof (Z.div_mod (off + n - 1) BSIZE ltac:(done)).
  unfold BSIZE in *. lia.
Qed.

(** A file as a list, and its inode without size and blocks. *)
Definition content (m : bytes) (d : dinode) : list Z := byte_at m d <$> seqZ 0 (d_size d).
Definition rest (d : dinode) : dinode := set_d_addrs [] (set_d_size 0 d).
(** The files of the inodes [P] and their inodes stay. *)
Definition kept (P : Z -> Prop) (s s' : mkst) : Prop := forall i, 1 <= i < NINODES -> P i ->
  node (img s') i = node (img s) i /\ content (img s') (node (img s') i) = content (img s) (node (img s) i).

(** The file of [i] grew by [p]; its inode keeps all but size and blocks. *)
Record extended (i : Z) (p : list Z) (s s' : mkst) : Prop := {
  ex_rest : rest (node (img s') i) = rest (node (img s) i);
  ex_size : d_size (node (img s') i) = d_size (node (img s) i) + Z.of_nat (length p);
  ex_content : content (img s') (node (img s') i) = content (img s) (node (img s) i) ++ p
}.
Lemma extended_trans i p q s1 s2 s3 : extended i p s1 s2 -> extended i q s2 s3 -> extended i (p ++ q) s1 s3.
Proof. intros [A1 B1 C1] [A2 B2 C2]. split; [congruence|rewrite length_app; lia|by rewrite C2, C1, app_assoc]. Qed.
Lemma extended_none P i s s' : kept P s s' -> 1 <= i < NINODES -> P i -> extended i [] s s'.
Proof. intros HK Hi HP. destruct (HK i Hi HP) as [E F]. split; [by rewrite E|rewrite E; symmetry; apply Z.add_0_r|by rewrite F, app_nil_r]. Qed.
Lemma kept_weaken (P Q : Z -> Prop) s s' : kept Q s s' -> (forall i, P i -> Q i) -> kept P s s'.
Proof. intros HK HPQ i Hi HP. by apply HK, HPQ. Qed.
Lemma kept_trans P Q s1 s2 s3 : kept P s1 s2 -> kept Q s2 s3 -> kept (fun i => P i /\ Q i) s1 s3.
Proof. intros H1 H2 i Hi [HP HQ]. destruct (H1 i Hi HP) as [E1 F1], (H2 i Hi HQ) as [E2 F2]. split; congruence. Qed.
Lemma content_ext m m' d : (forall o, 0 <= o < d_size d -> byte_at m' d o = byte_at m d o) -> content m' d = content m d.
Proof. intros H. apply list_fmap_ext. intros k o Ho. apply lookup_seqZ in Ho as [-> Ho]. apply H. lia. Qed.
Lemma content_app m m' d d' p : 0 <= d_size d -> d_size d' = d_size d + Z.of_nat (length p) ->
  (forall o, 0 <= o < d_size d' -> byte_at m' d' o = if o <? d_size d then byte_at m d o else of_list p (o - d_size d)) ->
  content m' d' = content m d ++ p.
Proof.
  intros Hz Es Hb. unfold content. rewrite Es in *. rewrite seqZ_app by lia. rewrite fmap_app. f_equal.
  - apply list_fmap_ext. intros k o Ho. apply lookup_seqZ in Ho as [-> Ho]. rewrite Hb by lia. by rewrite (proj2 (Z.ltb_lt _ _)) by lia.
  - apply list_eq. intros k. rewrite list_lookup_fmap. destruct (decide (k < length p)%nat) as [Hk|Hk].
    + rewrite lookup_seqZ_lt by lia. cbn [fmap option_fmap option_map]. rewrite Hb by lia. rewrite (proj2 (Z.ltb_ge _ _)) by lia.
      rewrite of_list_lookup by lia. replace (Z.to_nat (0 + d_size d + Z.of_nat k - d_size d)) with k by lia.
      by destruct (lookup_lt_is_Some_2 p k Hk) as [x ->].
    + rewrite lookup_seqZ_ge by lia. symmetry. apply lookup_ge_None. lia.
Qed.

(** [iappend] ends without a failed assertion; the file of [inum] is the old
    one followed by [p]; the image is again one whose files share no block. *)
Lemma iappend_ok s inum p : image s -> 1 <= inum < NINODES -> Forall (fun b => 0 <= b < 256) p ->
  let n := Z.of_nat (length p) in let d := node (img s) inum in
  d_size d + n < 2 ^ 32 -> freeblock s + 3 * (n / BSIZE + 2) <= FSSIZE ->
  exists s', iappend inum p s = Done tt s' /\ image s' /\ freeblock s <= freeblock s' <= freeblock s + 3 * (n / BSIZE + 2) /\ freeinode s' = freeinode s /\
    extended inum p s s' /\ kept (fun i => i <> inum) s s'.
Proof.
  change (2 ^ 32) with 4294967296. intros [HW Hl] Hi Hp n d Hn HF. pose proof (wf_bytes _ _ _ _ HW : is_bytes (img s)) as Hb.
  pose proof (get_dinode_ok _ (node_sec inum * BSIZE + sizeof_dinode * (inum mod IPB)) Hb : dinode_ok d) as Hok.
  pose proof (ok_size _ Hok) as Hsz. unfold u32_range in Hsz. pose proof (rounds_bound (d_size d) n ltac:(lia) ltac:(lia)) as Hrd.
  destruct (iappend_loop_ok inum Hi (append_fuel n) s (node (img s)) d (d_size d) p HW Hl eq_refl ltac:(lia) Hp ltac:(change (2 ^ 32) with 4294967296; fold n; lia))
    as (d1 & s1 & E1 & [HW1 Hf1 Hl1 Hi1 Hm1 Hb1] & Ed1 & Hc1).
  { unfold append_fuel. fold n. pose proof (Z.div_pos n BSIZE ltac:(lia) ltac:(done)). lia. } { fold n. lia. }
  set (d2 := set_d_size (d_size d + n) d1). set (dn := upd_node (node (img s)) inum d1) in *.
  assert (Edn : dn inum = d1) by apply upd_node_same.
  assert (Hok2 : dinode_ok d2).
  { destruct Hok as [? ? ? ? ? ? ? ? ? ? ? _]. unfold d2. rewrite Ed1. split; cbn [set_d_size set_d_addrs d_type d_major d_minor d_nlink d_size d_mode d_uid d_gid d_atime d_mtime d_ctime d_addrs]; try done.
    - unfold u32_range. change (2 ^ 32) with 4294967296. lia.
    - rewrite <- Edn. split; [exact (wf_len _ _ _ _ HW1 inum Hi)|exact (addrs_ok _ _ _ _ HW1 Hi)]. }
  assert (Hlen1 : sized s1) by (unfold sized; by rewrite Hl1).
  destruct (winode_ok inum d2 s1 Hlen1 ltac:(lia) Hok2 (wf_bytes _ _ _ _ HW1)) as (m' & E2 & Hn2 & Ho2 & Hd2 & Hb2).
  destruct (node_written (img s1) dn (freeblock s1) inum m' HW1 Hi Hd2 Hb2) as [HW2 Hby].
  assert (Hoth : forall i, 1 <= i < NINODES -> i <> inum -> node m' i = node (img s) i).
  { intros i Hi2 Hne. rewrite Ho2 by (done || lia). apply node_same; [lia|]. intros k Hk. apply Hm1. destruct (node_place i ltac:(lia)) as (Hs & _ & Hp1 & Hp2). unfold BSIZE in *. lia. }
  assert (Hsame : forall o, byte_at m' d2 o = byte_at m' d1 o) by done.
  exists (put_img m' (m_len s1) s1). split; [|split; [split|split; [split; [exact Hf1|cbn [freeblock put_img]; fold n in Hc1; lia]|split; [exact Hi1|]]]].
  - unfold iappend. rewrite (bind_Done _ _ _ _ _ (rinode_ok inum s Hl ltac:(lia))). fold d n. change (d_size d) with (d_size d) in E1.
    rewrite (xint_small (d_size d)) by lia. rewrite (bind_Done _ _ _ _ _ E1). cbn [Datatypes.fst Datatypes.snd]. rewrite xint_small by lia. exact E2.
  - cbn [img put_img freeblock]. apply (wf_nodes m' (upd_node dn inum d2)).
    + intros i Hi2. destruct (decide (i = inum)) as [->|Hne]; [by rewrite upd_node_same|]. rewrite Hoth by done. unfold dn. by rewrite !upd_node_other.
    + replace (upd_node dn inum d2) with (upd_node dn inum (set_d_size (d_size d + n) (dn inum))) by (by rewrite Edn).
      by apply wf_set_size.
  - exact Hlen1.
  - split; [split; cbn [img put_img]; rewrite Hn2; fold d; [unfold d2; rewrite Ed1; reflexivity|done|]|].
    + apply content_app; [lia|done|]. change (d_size d2) with (d_size d + n). intros o Ho. rewrite Hsame, <- Edn.
      assert (Ho' : 0 <= o < MAXFILE * BSIZE) by (change MAXFILE with 1049611; unfold BSIZE; lia).
      rewrite Hby, Hb1 by done. destruct (o <? d_size d) eqn:E; bool_hyps; [by rewrite decide_False by lia|by rewrite decide_True by (fold n; lia)].
    + intros i Hi2 Hne. cbn [img put_img]. rewrite Hoth by done. split; [done|]. apply content_ext. intros o Ho.
      assert (Ho' : 0 <= o < MAXFILE * BSIZE).
      { pose proof (ok_size _ (get_dinode_ok _ (node_sec i * BSIZE + sizeof_dinode * (i mod IPB)) Hb : dinode_ok (node (img s) i))) as Hr.
        unfold u32_range in Hr. change (2 ^ 32) with 4294967296 in Hr. change MAXFILE with 1049611. unfold BSIZE. lia. }
      specialize (Hby i o Hi2 Ho'). specialize (Hb1 i o Hi2 Ho').
      unfold dn in Hby, Hb1. rewrite !upd_node_other in Hby, Hb1 by done. rewrite Hby, Hb1. rewrite decide_False; [done|]. intros [? _]. done.
Qed.

(** ** ialloc *)

Section Files.
Context (clock : Z -> Z * Z) (host : list Z -> option (list Z)).

(** The inode that [ialloc] writes. *)
Definition fresh_node (inum type uid gid mode : Z) : dinode :=
  let ts := (s64 (u64 (clock inum).1), s64 (u64 (clock inum).2)) in
  Dinode type 0 0 1 0 (u32 mode) (u32 uid) (u32 gid) ts ts ts (replicate 13 0).

Lemma fresh_node_ok inum type uid gid mode : 0 <= type < 2 ^ 15 -> dinode_ok (fresh_node inum type uid gid mode).
Proof.
  intros Ht. assert (H64 : forall x, - 2 ^ 63 <= s64 x < 2 ^ 63) by (intros x; unfold swrap; pose proof (Z.mod_pos_bound (x + 2 ^ 63) (2 ^ 64) ltac:(lia)); change (2 ^ (64 - 1)) with (2 ^ 63); change (2 ^ 64) with (2 * 2 ^ 63) in *; lia).
  assert (H32 : forall x, u32_range (u32 x)) by (intros x; apply Z.mod_pos_bound; lia).
  split; cbn [fresh_node d_type d_major d_minor d_nlink d_size d_mode d_uid d_gid d_atime d_mtime d_ctime d_addrs]; unfold s16_range; try lia; try apply H32.
  - by unfold u32_range.
  - split; apply H64.
  - split; apply H64.
  - split; apply H64.
  - split; [done|]. apply Forall_replicate. by unfold u32_range.
Qed.
Lemma fresh_ptr m inum type uid gid mode r : role_ok r -> ptr m (fresh_node inum type uid gid mode) r = 0.
Proof.
  assert (Ha : forall k, addr (fresh_node inum type uid gid mode) k = 0).
  { intros k. unfold addr. cbn [fresh_node d_addrs]. destruct (replicate 13 0 !! Z.to_nat k) as [a|] eqn:E; [|done]. by apply lookup_replicate in E as [-> _]. }
  intros _. destruct r; cbn [ptr]; rewrite ?Ha; unfold word; done.
Qed.
(** An inode without blocks in the place of another. *)
Lemma wf_fresh m dn F i d : wf m dn NINODES F -> length (d_addrs d) = 13%nat -> (forall r, role_ok r -> ptr m d r = 0) -> wf m (upd_node dn i d) NINODES F.
Proof.
  intros [H1 H2 H3 H4 H5 H6] Hl Hz.
  assert (Hp : forall j r, role_ok r -> ptr m (upd_node dn i d j) r <> 0 -> upd_node dn i d j = dn j).
  { intros j r Hr. unfold upd_node. destruct (j =? i); [|done]. by rewrite Hz. }
  split; try done.
  - intros j Hj. unfold upd_node. destruct (j =? i); [by rewrite Hl|by apply H2].
  - intros j r Hj Hr Hne. pose proof (Hp j r Hr Hne) as E. rewrite E in Hne |- *. by apply H3.
  - intros j r j' r' Hj Hj' Hr Hr' Hne E. pose proof Hne as Hne'. rewrite E in Hne'.
    pose proof (Hp j r Hr Hne) as E1. rewrite (Hp j' r' Hr' Hne') in E. rewrite E1 in Hne, E. by apply H4.
Qed.

Lemma kept_written s m' s' dn' : image s -> (forall y, nmeta * BSIZE <= y -> m' y = img s y) -> is_bytes m' -> img s' = m' ->
  (forall i, 1 <= i < NINODES -> i <> dn' -> node m' i = node (img s) i) -> kept (fun i => i <> dn') s s'.
Proof.
  intros [HW _] Hm Hb Es Hn i Hi Hne. rewrite Es, Hn by done. split; [done|]. apply content_ext. intros o Ho.
  pose proof (ok_size _ (get_dinode_ok _ (node_sec i * BSIZE + sizeof_dinode * (i mod IPB)) (wf_bytes _ _ _ _ HW) : dinode_ok (node (img s) i))) as Hr.
  unfold u32_range in Hr. change (2 ^ 32) with 4294967296 in Hr.
  apply (proj2 (node_written (img s) (node (img s)) (freeblock s) i m' HW Hi Hm Hb) i o Hi). change MAXFILE with 1049611. unfold BSIZE. lia.
Qed.

Lemma ialloc_ok s type uid gid mode : image s -> 1 <= freeinode s < NINODES -> 0 <= type < 2 ^ 15 ->
  exists s', ialloc clock type uid gid mode s = Done (freeinode s) s' /\ image s' /\ freeblock s' = freeblock s /\ freeinode s' = freeinode s + 1 /\
    node (img s') (freeinode s) = fresh_node (freeinode s) type uid gid mode /\ kept (fun i => i <> freeinode s) s s'.
Proof.
  intros [HW Hl] Hi Ht. set (inum := freeinode s) in *. set (d := fresh_node inum type uid gid mode).
  set (s1 := Mkst (img s) (m_len s) (u32 (inum + 1)) (freeblock s)).
  destruct (winode_ok inum d s1 Hl ltac:(lia) (fresh_node_ok _ _ _ _ _ Ht) (wf_bytes _ _ _ _ HW)) as (m' & E & Hn & Ho & Hd & Hb).
  cbn [img s1] in Ho, Hd. exists (put_img m' (m_len s1) s1). split_and!.
  - unfold ialloc. rewrite bind_gets, bind_modify. fold inum s1. cbv zeta.
    replace (Dinode (xshort type) 0 0 (xshort 1) (xint 0) (xint mode) (xint uid) (xint gid) _ _ _ _) with d; [by rewrite (bind_Done _ _ _ _ _ E)|].
    unfold d, fresh_node. rewrite !xint_val, !xlong_val, !xshort_val. rewrite (wrap_small 16 type) by (change (2 ^ 16) with (2 * 2 ^ 15); lia). done.
  - split; [|exact Hl]. cbn [img put_img freeblock s1]. destruct (node_written (img s) (node (img s)) (freeblock s) inum m' HW Hi Hd Hb) as [HW2 _].
    apply (wf_nodes m' (upd_node (node (img s)) inum d)).
    + intros i Hi2. destruct (decide (i = inum)) as [->|Hne]; [by rewrite upd_node_same|]. rewrite upd_node_other by done. apply Ho; [lia|done].
    + apply wf_fresh; [done|done|]. intros r Hr. by apply fresh_ptr.
  - done.
  - cbn [freeinode put_img s1]. apply wrap_small. change NINODES with 1024 in Hi. lia.
  - exact Hn.
  - apply (kept_written s m'); try done. intros i Hi2 Hne. apply Ho; [lia|done].
Qed.

(** ** Files and their entries *)

Definition byte_list : list Z -> Prop := Forall (fun b => 0 <= b < 256).
Lemma strncpy_bytes n : forall l, byte_list l -> byte_list (strncpy_l n l).
Proof.
  induction n as [|n IH]; intros l Hl; [constructor|]. destruct Hl as [|c l Hc Hl]; [apply Forall_replicate; lia|]. cbn [strncpy_l].
  destruct (c =? 0); [apply Forall_replicate; lia|]. constructor; [done|by apply IH].
Qed.
Lemma dirent_bytes_ok inum type name : byte_list name -> byte_list (dirent_bytes inum type name) /\ length (dirent_bytes inum type name) = 64%nat.
Proof.
  intros Hn. unfold dirent_bytes. split; [|by rewrite !length_app, !length_fmap, strncpy_length].
  assert (Hb : forall x l, byte_list (byte_of x <$> l)) by (intros x l; apply Forall_fmap, Forall_forall; intros k _; apply Z.mod_pos_bound; lia).
  apply Forall_app_2; [apply Hb|]. apply Forall_app_2; [apply Hb|by apply strncpy_bytes].
Qed.
Lemma file_name_bytes path : forall last, byte_list path -> byte_list last -> byte_list (file_name path last).
Proof. induction path as [|c path IH]; intros last Hp Hl; [done|]. inversion Hp; subst. cbn [file_name]. destruct (c =? SLASH); by apply IH. Qed.

Lemma make_file_ok s parent name uid gid mode : image s -> 1 <= freeinode s < NINODES -> 1 <= parent < NINODES -> parent <> freeinode s -> byte_list name ->
  d_size (node (img s) parent) + 64 < 2 ^ 32 -> freeblock s + 6 <= FSSIZE ->
  exists s', make_file clock parent name uid gid mode s = Done (freeinode s) s' /\ image s' /\ freeblock s' <= freeblock s + 6 /\ freeinode s' = freeinode s + 1 /\
    node (img s') (freeinode s) = fresh_node (freeinode s) T_FILE uid gid mode /\
    extended parent (dirent_bytes (freeinode s) T_FILE name) s s' /\ kept (fun i => i <> freeinode s /\ i <> parent) s s'.
Proof.
  intros HI Hi Hp Hne Hname Hsz HF.
  destruct (ialloc_ok s T_FILE uid gid mode HI Hi ltac:(done)) as (s1 & E1 & HI1 & Hb1 & Hf1 & Hn1 & HK1).
  destruct (dirent_bytes_ok (freeinode s) T_FILE name Hname) as [Hdb Hdl]. pose proof (HK1 parent Hp Hne) as [Ep _].
  destruct (iappend_ok s1 parent (dirent_bytes (freeinode s) T_FILE name) HI1 Hp Hdb) as (s2 & E2 & HI2 & Hb2 & Hf2 & HX & HK2).
  { rewrite Hdl, Ep. lia. } { rewrite Hdl, Hb1. change (Z.of_nat 64 / BSIZE) with 0. lia. }
  rewrite Hdl in Hb2. change (Z.of_nat 64 / BSIZE) with 0 in Hb2.
  exists s2. split_and!; try done; try lia.
  - unfold make_file. rewrite (bind_Done _ _ _ _ _ E1). unfold make_dirent. by rewrite (bind_Done _ _ _ _ _ E2).
  - destruct (HK2 (freeinode s) Hi ltac:(congruence)) as [E _]. by rewrite E.
  - apply (extended_trans parent [] _ s s1 s2); [|done]. by apply (extended_none _ _ _ _ HK1).
  - exact (kept_trans _ _ _ _ _ HK1 HK2).
Qed.

Definition chunks (n : Z) : Z := (n + BSIZE - 1) / BSIZE.
Lemma chunks_step n : 0 < n -> let k := Z.min BSIZE n in chunks (n - k) = chunks n - 1 /\ k / BSIZE <= 1 /\ 0 <= chunks (n - k).
Proof.
  intros Hn k. unfold chunks. assert (Hk : k / BSIZE <= 1) by (unfold k; apply Z.div_le_upper_bound; unfold BSIZE in *; lia).
  assert (0 <= (n - k + BSIZE - 1) / BSIZE) by (apply Z.div_pos; unfold k, BSIZE in *; lia). split; [|done].
  unfold k in *. destruct (Z.le_gt_cases BSIZE n).
  - rewrite Z.min_l by lia. replace (n - BSIZE + BSIZE - 1) with (n + BSIZE - 1 + (-1) * BSIZE) by lia. rewrite Z.div_add by done. lia.
  - rewrite Z.min_r by lia. replace (n - n + BSIZE - 1) with (BSIZE - 1) by lia. replace (n + BSIZE - 1) with (n - 1 + 1 * BSIZE) by lia.
    rewrite Z.div_add by done. rewrite (Z.div_small (n - 1)) by lia. reflexivity.
Qed.

Lemma copy_loop_ok inum fuel : forall data s, image s -> 1 <= inum < NINODES -> byte_list data -> let n := Z.of_nat (length data) in
  d_size (node (img s) inum) + n < 2 ^ 32 -> freeblock s + 9 * chunks n <= FSSIZE -> chunks n < Z.of_nat fuel ->
  exists s', copy_loop fuel inum data s = Done tt s' /\ image s' /\ freeblock s' <= freeblock s + 9 * chunks n /\ freeinode s' = freeinode s /\
    extended inum data s s' /\ kept (fun i => i <> inum) s s'.
Proof.
  induction fuel as [|fuel IH]; intros data s HI Hi Hd n Hsz HF Hfuel.
  { assert (0 <= chunks n) by (apply Z.div_pos; unfold BSIZE; lia). lia. }
  cbn [copy_loop]. destruct (decide (data = [])) as [->|Hne].
  { exists s. assert (HK : kept (fun i => i <> inum) s s) by done. split_and!; try done; [change (chunks n) with 0; rewrite Z.mul_0_r, Z.add_0_r; reflexivity|]. split; [done|symmetry; apply Z.add_0_r|by rewrite app_nil_r]. }
  assert (HB : BSIZE = 4096) by done. assert (Hn : 0 < n) by (unfold n; destruct data; [done|cbn; lia]). destruct (chunks_step n Hn) as (Hc & Hk & Hc0).
  set (k := Z.min BSIZE n) in *. assert (Hlk : Z.of_nat (length (take (Z.to_nat BSIZE) data)) = k) by (rewrite length_take; unfold k, n; lia).
  destruct (iappend_ok s inum (take (Z.to_nat BSIZE) data) HI Hi (Forall_take _ _ _ Hd)) as (s1 & E1 & HI1 & Hb1 & Hf1 & HX1 & HK1).
  { rewrite Hlk. lia. } { rewrite Hlk. lia. } rewrite Hlk in Hb1.
  assert (Hld : Z.of_nat (length (drop (Z.to_nat BSIZE) data)) = n - k) by (rewrite length_drop; unfold k, n; lia).
  pose proof (ex_size _ _ _ _ HX1) as Hsz1. rewrite Hlk in Hsz1.
  destruct (IH (drop (Z.to_nat BSIZE) data) s1 HI1 Hi (Forall_drop _ _ _ Hd)) as (s2 & E2 & HI2 & Hb2 & Hf2 & HX2 & HK2); rewrite ?Hld, ?Hc; try lia.
  rewrite Hld, Hc in Hb2. exists s2. split_and!; [|done|lia|congruence| |].
  - destruct data; [done|]. rewrite (bind_Done _ _ _ _ _ E1). exact E2.
  - rewrite <- (take_drop (Z.to_nat BSIZE) data). by apply (extended_trans _ _ _ _ s1).
  - apply (kept_weaken _ _ _ _ (kept_trans _ _ _ _ _ HK1 HK2)). done.
Qed.

(** The entries of the files, from inode [i] on, and the blocks they may take. *)
Fixpoint entries (i : Z) (files : list (list Z)) : list Z :=
  match files with [] => [] | path :: files => dirent_bytes i T_FILE (file_name path path) ++ entries (i + 1) files end.
Fixpoint copy_cost (datas : list (list Z)) : Z :=
  match datas with [] => 0 | data :: datas => 6 + 9 * chunks (Z.of_nat (length data)) + copy_cost datas end.
Lemma chunks_pos n : 0 <= n -> 0 <= chunks n.
Proof. intros Hn. apply Z.div_pos; unfold BSIZE; lia. Qed.
Lemma copy_cost_pos datas : 0 <= copy_cost datas.
Proof. induction datas as [|data datas IH]; cbn [copy_cost]; [done|]. pose proof (chunks_pos (Z.of_nat (length data)) ltac:(lia)). lia. Qed.
Lemma entries_length i files : Forall byte_list files -> Z.of_nat (length (entries i files)) = 64 * Z.of_nat (length files).
Proof.
  intros Hf. revert i. induction Hf as [|path files Hp _ IH]; intros i; [done|]. cbn [entries length]. rewrite length_app, Nat2Z.inj_add, IH.
  rewrite (proj2 (dirent_bytes_ok i T_FILE _ (file_name_bytes _ _ Hp Hp))). lia.
Qed.

(** A new inode with the bytes [data]. *)
Definition is_copy (s' : mkst) (uid gid mode i : Z) (data : list Z) : Prop :=
  rest (node (img s') i) = rest (fresh_node i T_FILE uid gid mode) /\ content (img s') (node (img s') i) = data.

(** One file: its inode, its entry and its bytes. *)
Lemma copy_one s parent path data uid gid mode : image s -> 1 <= parent < freeinode s -> freeinode s < NINODES -> byte_list path -> byte_list data ->
  Z.of_nat (length data) < 2 ^ 32 -> d_size (node (img s) parent) + 64 < 2 ^ 32 -> freeblock s + 6 + 9 * chunks (Z.of_nat (length data)) <= FSSIZE ->
  exists s1 s2, make_file clock parent (file_name path path) uid gid mode s = Done (freeinode s) s1 /\
    copy_loop (S (Z.to_nat (Z.of_nat (length data) / BSIZE + 1))) (freeinode s) data s1 = Done tt s2 /\
    image s2 /\ freeinode s2 = freeinode s + 1 /\ freeblock s2 <= freeblock s + 6 + 9 * chunks (Z.of_nat (length data)) /\
    is_copy s2 uid gid mode (freeinode s) data /\ extended parent (dirent_bytes (freeinode s) T_FILE (file_name path path)) s s2 /\
    kept (fun i => i < freeinode s /\ i <> parent) s s2.
Proof.
  intros HI Hp Hi Hpath Hdata Hlen Hsz HF. set (n := Z.of_nat (length data)) in *. pose proof (chunks_pos n ltac:(lia)) as Hc.
  destruct (make_file_ok s parent (file_name path path) uid gid mode HI ltac:(lia) ltac:(lia) ltac:(lia) (file_name_bytes _ _ Hpath Hpath) Hsz ltac:(lia))
    as (s1 & E1 & HI1 & Hb1 & Hf1 & Hn1 & HX1 & HK1).
  destruct (copy_loop_ok (freeinode s) (S (Z.to_nat (n / BSIZE + 1))) data s1 HI1 ltac:(lia) Hdata) as (s2 & E2 & HI2 & Hb2 & Hf2 & HX2 & HK2).
  { rewrite Hn1. fold n. cbn [fresh_node d_size]. lia. } { fold n. lia. }
  { fold n. pose proof (Z.div_pos n BSIZE ltac:(lia) ltac:(done)). assert (chunks n <= n / BSIZE + 1); [|lia].
    unfold chunks. replace (n / BSIZE + 1) with ((n + 1 * BSIZE) / BSIZE) by (by rewrite Z.div_add). apply Z.div_le_mono; unfold BSIZE; lia. }
  fold n in Hb2. exists s1, s2. split_and!; try done; try lia.
  - destruct HX2 as [A _ C]. rewrite Hn1 in A, C. by split.
  - rewrite <- (app_nil_r (dirent_bytes _ _ _)). apply (extended_trans _ _ _ _ s1); [done|]. apply (extended_none _ _ _ _ HK2); lia.
  - apply (kept_weaken _ _ _ _ (kept_trans _ _ _ _ _ HK1 HK2)). lia.
Qed.

(** C21: [copy_file] on an image whose files share no block, into a directory
    of it, with inodes and blocks enough for host files that can be read.  It
    ends without a failed assertion; the new inodes, in order, are regular
    files with the given owner and mode and exactly the bytes of the host
    files; the directory is the old one followed by an entry for each, under
    the last part of its path; every other file is unchanged; and the image
    is again one whose files share no block. *)
Theorem copy_file_correct files datas : forall s parent uid gid mode, image s -> 1 <= parent < freeinode s ->
  freeinode s + Z.of_nat (length files) <= NINODES -> Forall2 (fun path data => host path = Some data) files datas ->
  Forall byte_list files -> Forall byte_list datas -> Forall (fun data => Z.of_nat (length data) < 2 ^ 32) datas ->
  d_size (node (img s) parent) + 64 * Z.of_nat (length files) < 2 ^ 32 -> freeblock s + copy_cost datas <= FSSIZE ->
  exists s', copy_file clock host files parent uid gid mode s = Done tt s' /\ image s' /\ freeinode s' = freeinode s + Z.of_nat (length files) /\
    (forall k data, datas !! k = Some data -> is_copy s' uid gid mode (freeinode s + Z.of_nat k) data) /\
    extended parent (entries (freeinode s) files) s s' /\ kept (fun i => i < freeinode s /\ i <> parent) s s'.
Proof.
  revert datas. induction files as [|path files IH]; intros datas s parent uid gid mode HI Hp Hi Hh Hfb Hdb Hdl Hsz HF.
  - inversion Hh; subst. exists s. assert (HK : kept (fun i => i < freeinode s /\ i <> parent) s s) by done.
    split_and!; try done; [symmetry; apply Z.add_0_r|]. split; [done|symmetry; apply Z.add_0_r|by rewrite app_nil_r].
  - apply Forall2_cons_inv_l in Hh as (data & datas' & Eh & Hh & ->). apply Forall_cons in Hfb as [Hpath Hfb]. apply Forall_cons in Hdb as [Hdata Hdb].
    apply Forall_cons in Hdl as [Hlen Hdl]. cbn [length] in *. cbn [copy_cost] in HF. pose proof (copy_cost_pos datas') as Hcp.
    destruct (copy_one s parent path data uid gid mode HI Hp ltac:(lia) Hpath Hdata Hlen ltac:(lia) ltac:(lia))
      as (s1 & s2 & E1 & E2 & HI2 & Hf2 & Hb2 & Hc2 & HX2 & HK2).
    pose proof (ex_size _ _ _ _ HX2) as Hsz2. rewrite (proj2 (dirent_bytes_ok (freeinode s) T_FILE _ (file_name_bytes _ _ Hpath Hpath))) in Hsz2.
    destruct (IH datas' s2 parent uid gid mode HI2 ltac:(lia) ltac:(lia) Hh Hfb Hdb Hdl ltac:(lia) ltac:(lia)) as (s3 & E3 & HI3 & Hf3 & Hc3 & HX3 & HK3).
    exists s3. split_and!; [|done|lia| | |].
    + cbn [copy_file]. rewrite Eh, (bind_Done _ _ _ _ _ E1), (bind_Done _ _ _ _ _ E2). exact E3.
    + intros [|k] d Hk.
      * injection Hk as <-. rewrite Z.add_0_r. destruct (HK3 (freeinode s) ltac:(lia) ltac:(cbv beta; lia)) as [A B]. destruct Hc2 as [C D]. unfold is_copy. by rewrite B, A.
      * specialize (Hc3 k d Hk). rewrite Hf2 in Hc3. by replace (freeinode s + Z.of_nat (S k)) with (freeinode s + 1 + Z.of_nat k) by lia.
    + cbn [entries]. rewrite <- Hf2. by apply (extended_trans _ _ _ _ s2).
    + apply (kept_weaken _ _ _ _ (kept_trans _ _ _ _ _ HK2 HK3)). lia.
Qed.
End Files.

(** ** The empty image *)

(** The blocks of zeros that [main] starts with, and a root. *)
Definition blank : mkst := Mkst zeroes (FSSIZE * BSIZE) 2 nmeta.
Lemma rd_zeroes n a : rdle n zeroes a = 0.
Proof. by apply rdle_zero. Qed.
Lemma node_zeroes i : d_addrs (node zeroes i) = replicate 13 0 /\ d_size (node zeroes i) = 0.
Proof.
  unfold node, get_dinode. cbn [d_addrs d_size]. split; [|apply rd_zeroes]. transitivity ((fun _ => 0) <$> seqZ 0 (NDIRECT + 2)); [|reflexivity].
  apply list_fmap_ext. intros k x _. apply rd_zeroes.
Qed.
Lemma blank_image : image blank.
Proof.
  assert (Hp : forall i r, ptr zeroes (node zeroes i) r = 0).
  { intros i r. assert (Ha : forall k, addr (node zeroes i) k = 0).
    { intros k. unfold addr. rewrite (proj1 (node_zeroes i)). destruct (replicate 13 0 !! Z.to_nat k) as [a|] eqn:E; [|done]. by apply lookup_replicate in E as [-> _]. }
    destruct r; cbn [ptr]; rewrite ?Ha; unfold word; done. }
  split; [|done]. unfold blank. cbn [img freeblock]. split; cbn [img].
  - pose proof nmeta_fits. lia.
  - intros i _. by rewrite (proj1 (node_zeroes i)).
  - intros i r _ _ Hne. by rewrite Hp in Hne.
  - intros i r i' r' _ _ _ _ Hne. by rewrite Hp in Hne.
  - done.
  - intros x. unfold zeroes. lia.
Qed.

(** "/a" with the bytes 7, 8 and 9, copied into the root. *)
Definition wit_host (path : list Z) : option (list Z) := if decide (path = [47; 97]) then Some [7; 8; 9] else None.
Lemma copy_file_correct_witness : exists s', copy_file (fun _ => (1, 2)) wit_host [[47; 97]] 1 5 6 420 blank = Done tt s' /\
  content (img s') (node (img s') 2) = [7; 8; 9] /\ content (img s') (node (img s') 1) = dirent_bytes 2 T_FILE [97].
Proof.
  destruct (copy_file_correct (fun _ => (1, 2)) wit_host [[47; 97]] [[7; 8; 9]] blank 1 5 6 420 blank_image ltac:(cbn; lia) ltac:(vm_compute; discriminate))
    as (s' & E & _ & _ & Hc & HX & _).
  - by repeat constructor.
  - repeat constructor; lia.
  - repeat constructor; lia.
  - repeat constructor.
  - change (img blank) with zeroes. rewrite (proj2 (node_zeroes 1)). reflexivity.
  - vm_compute. discriminate.
  - exists s'. split; [exact E|]. destruct (Hc 0%nat [7; 8; 9] eq_refl) as [_ Hd]. split; [exact Hd|]. rewrite (ex_content _ _ _ _ HX).
    change (img blank) with zeroes. unfold content. rewrite (proj2 (node_zeroes 1)). reflexivity.
Defined.
